(* ===== verification/_CoqProject ===== *)
-Q . S2P
Prelude.v
Text.v
Dict.v
Errors.v
Json.v
Store.v
AuditTrail.v
Url.v
Selection.v
Catalog.v
Connectors.v
Registry.v
Publish.v
Identity.v
Policy.v
Credentials.v
Approval.v
Execution.v
Lifecycle.v
Retry.v
CallTool.v
Egress.v
Format.v
HttpExecutor.v
Toolsets.v
ToolsetAdmin.v
ToolsetAccess.v
OpenApi.v
OpenApiImport.v
LocalDocuments.v
OpenApiReview.v
Floats.v
ToolSearch.v
SearchIndex.v
McpServer.v
Uuid.v
Rows.v
ControlPlane.v
HttpProblems.v
AdminQueries.v
Raises.v
UseCaseErrors.v
AdminRoutes.v
RowMapping.v
SqlRepositories.v
RepositoryAgreement.v
ToolsetSql.v
SqlReaders.v
Evaluation.v
Embedding.v
Telemetry.v
Bootstrap.v
Logging.v
