(* ===== verification/Prelude.v ===== *)
(** * NexusMCP: verification development (root file)

    NexusMCP is a gateway that publishes HTTP operations of upstream services
    as MCP tools.  A tool call passes identity, visibility, argument
    validation, policy, approval, egress and credential checks before it is
    planned, executed with bounded retries and audited.  This library models
    the Python program under [src/src/nexusmcp] and proves what makes those
    steps correct.

    ** How the model relates to the code

    - A Python call is a computation of the state and error monad of this
      file, [SE E S A := S → result E A * S]: it returns [Ok] a value or
      [Raise]s an exception.  [let*], [;;*], [lift], [raise], [try_except] and
      [capture] are sequencing, pure calls, raising and the two shapes of
      [try]; [let?] and [;;?] sequence pure fallible code.
    - Store.v instantiates it: the state [st D] is the committed stores of a
      unit of work, its working copy while an [async with] block is open, and
      the environment (how often clock and identifier generator were read,
      and the log of observable calls).  [with_uow], [commit] and [rollback]
      are those of the in-memory adapters ([*/adapters/in_memory_uow.py]),
      whose lock makes a block one atomic step; interleavings of several
      callers are therefore sequences of blocks, and the theorems about
      reachable stores quantify over all of them ([star step]).  [Table] is
      the interface between a repository and the stores that hold its table.
    - Errors.v has the exceptions: the [NexusMcpError] hierarchy of
      [shared/errors.py] with codes, safe messages and HTTP statuses,
      [ExecutorFailure], [ValueError], [TypeError], [CancelledError] and any
      other exception.
    - Data is as in the code: a dataclass is a Record, an enum an Inductive, a
      dict an insertion-ordered association list (Dict.v), an [int] a [Z], a
      [float] that is only compared or scaled a rational, a [str] a
      [String.string] of characters up to U+00FF (Text.v), a [datetime] its
      instant in microseconds with its awareness flag.  [__post_init__] of a
      dataclass [C] is [new_c], which validates the record it is given.
    - Clock and generator ([Ports]), the JSON Schema validator, the executor
      and the sleeper between its attempts ([RetrySleeper]), resolvers and the
      secret provider are parameters; where a theorem needs one to behave, a
      hypothesis says how, and a witness instantiates it.
    - The sums and quotients of search scores are rounded to doubles at each
      step ([float_add], [float_div] of Floats.v), so that ties are those of the
      code.

    ** Files

    - Prelude: results, the monad, tactics, hint database.
    - Text, Dict, Json, Url, Selection: Python strings and datetimes; dicts,
      stable sorting and views of tables; [json.dumps] and SHA-256 of
      [shared/digests.py]; [urllib.parse.urlsplit] and [ipaddress]; the
      best-candidate selections of the policy and credential resolvers.
    - Errors, Store: above.
    - AuditTrail: [modules/audit]: events, scope evidence, the append-only
      repository.
    - Catalog, Connectors, Registry, Publish: [modules/catalog],
      [modules/connectors], [modules/registry]: tools and their versions,
      bindings, upstream services; registration, review, the publish
      transaction, listing and keyword search.
    - Identity, Policy, Credentials: [modules/identity], [modules/policy],
      [modules/credentials]: bearer authentication, the policy evaluators,
      credential selection and secrets.
    - Approval: [modules/approval]: the approval state machine and use cases.
    - Execution, Lifecycle: [modules/execution/domain.py] and [lifecycle.py]:
      executions and attempts, their repositories, and every transaction that
      plans, advances, finishes or audits them.
    - Retry, CallTool: [retrying_executor.py] and [call_tool.py]: the retry
      loop and the orchestration of one call.
    - Egress, Format, HttpExecutor: [infrastructure/networking/egress.py] and
      [modules/execution/adapters/httpx_executor.py]: which endpoints may be
      called, [str] and [repr] of JSON values and percent-encoding, and the
      preparation, sending and reading of one HTTP request.
    - Toolsets, ToolsetAdmin, ToolsetAccess: [modules/toolsets]: the Toolset
      aggregate; its repository, unit of work and use cases; the resolution of
      what a principal may use through an MCP endpoint ([runtime.py]).
    - OpenApi, OpenApiImport, OpenApiReview: [modules/openapi_import]: parsing
      of a document with its references; the import job; review and direct
      publication, on the stores of the catalog as well.
    - LocalDocuments: [openapi_import/adapters/local_document_reader.py]: the
      reader of local documents over a file system with symbolic links.
    - Floats: the doubles that JSON numbers become, and their arithmetic.
    - ToolSearch, SearchIndex: [modules/tool_search]: search documents, rank
      fusion, the vector and hybrid search and the search tool; the index of
      embeddings, reindexing, inspection and the reindex jobs with the
      transactions of their SQL store.
    - McpServer: [interfaces/mcp]: request contexts and endpoint scopes,
      tools/list and tools/call, the meta tool, the interactive approval, and
      the mapping of results and errors.
    - Uuid, Rows, ControlPlane: [infrastructure/persistence/identifiers.py],
      the ORM models of [*/adapters/sqlalchemy_models.py] with their
      enumerations and constraints, and the read port of the administration
      pages ([modules/control_plane], [admin_queries.py]) as queries over rows.
    - HttpProblems, AdminQueries: [interfaces/http/errors.py]: problem
      documents, exception handlers, declared problems; the read routes of
      [interfaces/admin/query_routes.py] with their query parameters, response
      models and [ControlPlaneQueryPort], the record of queries they use.
    - Raises, UseCaseErrors: the logic [raises P m], "[m] raises no error of the
      program outside [P]", and the errors each use case can raise.
    - AdminRoutes: [interfaces/admin/app.py], [toolset_routes.py] and
      [demo_reset.py]: the other routes over a record of use cases, the
      middleware, and the composition of [bootstrap/app.py] with units of work
      in memory.
    - RowMapping: the [*/adapters/sqlalchemy_mapping.py]: entities to rows and
      back; [Mapping] is the interface of one table's mapping, [LawfulMapping]
      its laws.
    - SqlRepositories, RepositoryAgreement: the
      [*/adapters/sqlalchemy_repository.py] over tables of rows with their
      constraints ([RowTable], [Schema]); that the repositories in memory and
      these are the same to a unit of work.
    - ToolsetSql: [toolsets/adapters/sqlalchemy_repository.py] and
      [persistence/toolset_catalog_reader.py]: a toolset as its row with the rows
      of its members and grants, and the agreement with ToolsetAdmin's adapters.
    - SqlReaders: [execution/adapters/sqlalchemy_resolver.py],
      [catalog/adapters/sqlalchemy_reader.py] and [sqlalchemy_search.py]: what a
      tool call resolves to, the published listing and the full-text search.
    - Evaluation: [modules/tool_search/evaluation.py]: the benchmark of the
      search strategies, the collection of observations and its metrics.
    - Embedding: [modules/tool_search/adapters/siliconflow.py]: the embedding
      provider, its request and the reading of the answer.
    - Telemetry: [infrastructure/observability/telemetry.py]: the observation of
      one request and the telemetry of the process.
    - Logging: [infrastructure/observability/logging.py] and
      [shared/log_context.py]: the redaction of texts with its two regular
      expressions, the fields of a record and its two formatters, the context of
      a request.
    - Bootstrap: [bootstrap/config.py], [bootstrap/app.py],
      [infrastructure/persistence/runtime.py], [local_tenant.py] and
      [interfaces/health/router.py]: the settings that are accepted, what
      [create_app] builds from them and when it refuses, the lifespan over any
      outcome of its steps, the states of the database runtime.

    ** What the theorems show

    - Ledger (Lifecycle): [ledger_ok] is an invariant of all interleavings of
      execution, approval and audit transactions: records are valid, an
      idempotency key and an approval start at most one execution each, an
      approval named by an execution was consumed for exactly that call, the
      audit trail of an execution is ALLOWED followed by its terminal outcome,
      attempts are numbered without gaps.  Planning is atomic, replays are
      rejected, terminal executions are final, running ones can be finished.
    - Calls (Retry, CallTool): effects outside happen in order and only for
      permitted calls, whose execution is stored with the digest and the
      approval of the call; a call ends with its execution terminal and in
      agreement with what the caller gets, except that a cancelled resolution of
      its secret leaves it RUNNING; denials leave evidence; the retry
      loop refines a pure function of the executor's answers and bounds its
      calls.  [LawfulExecutor] is the interface of an executor to [CallTool];
      the direct and the retrying executor implement it.
    - Approvals: single use, exact conditions of consumption, the state
      machine under interleaving, atomic requests.
    - Catalog and registry: invariants of all interleavings of their
      transactions, atomic publication, safe registrations, sound and ordered
      listing and search.
    - Identity, policy, credentials: sound authentication; decisions and
      selections characterized, fail-closed and independent of the order of
      configuration; of the rules, one for the principal decides before one for
      the tool, then the priority, then DENY before REQUIRE_APPROVAL before
      ALLOW.
    - HTTP: every request goes to an admitted endpoint and keeps the trusted
      headers, arguments add no separator to the path, no admitted address is
      an internal one, and every answer has its classified result.
    - Toolsets: each command is one guarded step of the aggregate, commands
      that name the same revision do not overwrite each other, the stored
      toolsets stay well formed, and an endpoint serves exactly the granted,
      published tools or fails with the first rule it breaks.
    - OpenAPI: the bounded resolver computes the unbounded expansion of the
      references, its results are closed, pointers round trip, the parser keeps
      exactly the operations the allowlist admits, with the parameters and body
      of each; imports settle, reviews are all or nothing, and
      the stores of imports and catalog stay consistent.  The local reader
      answers a document exactly for a JSON file below its root, as long as the
      resolution of the source meets no loop of links.
    - Tool search: fusion gives the order and the doubles of an independent
      definition, the search tool discloses only permitted tools of the caller's
      tenant, reindexing embeds exactly what is missing, stale or forced,
      converges and agrees with the inspection, and a tenant has one active reindex job,
      which settles.
    - MCP server: a call outside the endpoint's scope runs nothing, a call is
      answered unless it is cancelled or fails before its handlers, every sequence of calls keeps the ledger, and a search
      through an endpoint only shows its tools.
    - Control plane: queries depend on the tenant's rows and those they refer to
      only, search
      texts are matched literally, pages partition a listing, the dashboard
      agrees with the listings, and each tool is listed once.
    - Persistence: what the domain accepts survives its row, an update writes
      every field a transition changes, and a unit of work has the same answers
      and effects over the repositories in memory and over the SQL repositories,
      so that what is proved over the former holds of the latter; the same for
      toolsets and the catalog they read, over a database that collates by code
      point.  The resolver of tool calls finds exactly the published, bound and
      served tool of a name, which is one of the listing.  The agreements are
      over canonical identifiers and values within the widths of the columns.
    - Administration API: whatever a client sends, the use cases only act for
      the configured identity; a read answers the JSON its request selects, the
      422 problem or a declared one, and fails only where the database cannot
      take its offset or texts; toolset requests and sixteen further routes
      answer with the statuses their contracts declare; a posted reindex
      job settles.
    - Evaluation: every metric is a rate between 0 and 1, and collected
      observations can be evaluated.
    - Embedding provider: it returns exactly one vector per text, in the order of
      the texts, whatever the order of the answer; its failures are classified.
    - Process: settings are accepted exactly when they satisfy [accepted], a
      production process is locked down (one allowlist policy for registration
      and both checks of a call, bounded retries, sealed request state), accepted
      settings build, and the lifespan releases what it started in order, until a
      release raises; a request is
      measured exactly once with listed attributes only.
    - Logs: the value assigned to a sensitive word (directly, or after quotes,
      spaces and the word Bearer) and what an exception says never change a log
      line; the texts of context and attributes are short, on one
      line and without the password of a URL, a record has listed fields only,
      and a JSON record is one line.

    ** Bounds and fuel

    The retry loop recurses on the attempts left, [max_attempts] of them, so
    its error "exhausted" is never reached with a positive maximum.  Digest
    padding and block loops run on the message's length.  The reference
    resolver recurses on the 33 levels its depth check leaves
    ([resolve_computes_expansion] relates it to the unbounded expansion), the
    field summaries of search documents on 3 levels.  The batches of a reindex
    run recurse on the number of documents, which is enough since a batch has
    one at least ([batches_concat]).  A substitution of
    Logging recurses on the length of its text ([sub_fuel_enough]), the
    resolution of a path on the number of links ([joinrealpath_fuel]).  Other
    recursions are structural.

    ** Not modelled

    The SQL repository of embeddings, the reset of the demo workspace,
    migrations, [run.py], the examples and the admin frontend are input/output around the
    same use cases; the objects of FastAPI, SQLAlchemy, httpx and OpenTelemetry
    are parameters where a decision reads them.  FastAPI's reading of JSON and of
    numbers comes before the typed requests of AdminRoutes.  Of the limits of the
    database's representation the read queries have the range of an offset and
    the null character in a text; characters a column refuses on a write and the
    order of keys in a JSONB column are left out; foreign keys and
    column widths are the parameter [within_schema], the columns the server
    stamps take [db_now].  Row locks and isolation levels are outside: units of
    work are atomic steps, as for the adapters in memory, which neither a
    cancellation nor a failing connection interrupts; cancelled are the waits for
    the secret, the executor, its backoffs and the ports of the server.
    *)

From Stdlib Require Import ZArith QArith Ascii Sorting.Sorted Lia.
From stdpp Require Import base sets strings option list.

#[export] Set Warnings "-notation-overridden,-clear-no-such-hyp".

Declare Scope py_scope.
Delimit Scope py_scope with py.

(** ** Results: a Python call returns a value or raises an exception *)

Inductive result (E A : Type) : Type :=
| Ok (a : A)
| Raise (e : E).
Arguments Ok {E A} _.
Arguments Raise {E A} _.

Definition rbind {E A B} (m : result E A) (k : A → result E B) : result E B :=
  match m with Ok a => k a | Raise e => Raise e end.

(** [if cond: raise err]. *)
Definition raise_if {E} (cond : bool) (err : E) : result E unit :=
  if cond then Raise err else Ok tt.

Definition is_ok {E A} (r : result E A) : bool :=
  match r with Ok _ => true | Raise _ => false end.

Notation "'let?' x := c1 'in' c2" := (rbind c1 (fun x => c2))
  (at level 10, x pattern, c1 at level 100, c2 at level 200) : py_scope.
Notation "c1 ;;? c2" := (rbind c1 (fun _ => c2))
  (at level 100, c2 at level 200, right associativity) : py_scope.

#[export] Instance result_eq_dec {E A} `{EqDecision E, EqDecision A} :
  EqDecision (result E A).
Proof. solve_decision. Defined.

Section ResultLemmas.
Context {E A B : Type}.
Implicit Types (m : result E A).

Lemma rbind_Ok_inv m (k : A → result E B) b :
  rbind m k = Ok b → ∃ a, m = Ok a ∧ k a = Ok b.
Proof. destruct m; naive_solver. Qed.

Lemma raise_if_Ok (c : bool) (e : E) u : raise_if c e = Ok u ↔ c = false.
Proof. destruct c, u; naive_solver. Qed.
End ResultLemmas.

(** [[f(x) for x in l]]: the first call that raises ends it. *)
Fixpoint traverse {E A B} (f : A → result E B) (l : list A) : result E (list B) :=
  match l with
  | [] => Ok []
  | x :: l' => (let? y := f x in let? ys := traverse f l' in Ok (y :: ys))%py
  end.

Lemma traverse_Ok {E A B} (f : A → result E B) l l' :
  traverse f l = Ok l' ↔ Forall2 (λ x y, f x = Ok y) l l'.
Proof.
  split.
  - revert l'. induction l as [|x l IH]; intros l' H; simpl in H; [injection H as <-; constructor|].
    apply rbind_Ok_inv in H as (y & Hy & (ys & Hys & [= <-])%rbind_Ok_inv).
    constructor; [done|by apply IH].
  - induction 1 as [|x y l l' Hxy _ IH]; simpl; [done|]. by rewrite Hxy; simpl; rewrite IH.
Qed.

Lemma traverse_elem {E A B} (f : A → result E B) l l' :
  traverse f l = Ok l' →
  (∀ x, x ∈ l → ∃ y, y ∈ l' ∧ f x = Ok y) ∧ (∀ y, y ∈ l' → ∃ x, x ∈ l ∧ f x = Ok y).
Proof.
  rewrite traverse_Ok. induction 1 as [|x y l l' Hxy _ [IHl IHr]].
  { split; intros ? ?%not_elem_of_nil; done. }
  split; intros z; rewrite elem_of_cons.
  - intros [->|?]; [exists y; by split; [left|]|]. edestruct IHl as (w & ? & ?); [done|].
    exists w. by split; [right|].
  - intros [->|?]; [exists x; by split; [left|]|]. edestruct IHr as (w & ? & ?); [done|].
    exists w. by split; [right|].
Qed.

Lemma traverse_ext {E A B} (f g : A → result E B) l :
  (∀ x, x ∈ l → f x = g x) → traverse f l = traverse g l.
Proof.
  induction l as [|x l IH]; simpl; [done|]. intros H.
  rewrite (H x) by apply list_elem_of_here. rewrite IH; [done|].
  intros y Hy. apply H. by constructor.
Qed.

(** ** State and exceptions: the body of an [async def] over a state [S] *)

Definition SE (E S A : Type) : Type := S → result E A * S.

Section SE.
Context {E S : Type}.

Definition ret {A} (a : A) : SE E S A := λ s, (Ok a, s).
Definition raise {A} (e : E) : SE E S A := λ s, (Raise e, s).
Definition bind {A B} (m : SE E S A) (k : A → SE E S B) : SE E S B :=
  λ s, match m s with
       | (Ok a, s') => k a s'
       | (Raise e, s') => (Raise e, s')
       end.
Definition lift {A} (r : result E A) : SE E S A := λ s, (r, s).
(** [try: m  except ...: handler], the handler choosing by the exception *)
Definition try_except {A} (m : SE E S A) (h : E → SE E S A) : SE E S A :=
  λ s, match m s with
       | (Ok a, s') => (Ok a, s')
       | (Raise e, s') => h e s'
       end.
(** The result or exception of [m] as a value: the [try] of a statement whose
    handlers and [else] are the continuation. *)
Definition capture {A} (m : SE E S A) : SE E S (result E A) :=
  λ s, let '(r, s') := m s in (Ok r, s').
End SE.

Notation "'let*' x := c1 'in' c2" := (bind c1 (fun x => c2))
  (at level 10, x pattern, c1 at level 100, c2 at level 200) : py_scope.
Notation "c1 ;;* c2" := (bind c1 (fun _ => c2))
  (at level 100, c2 at level 200, right associativity) : py_scope.

Section SELemmas.
Context {E S A B : Type}.

Lemma bind_ret_l (a : A) (k : A → SE E S B) s : bind (ret a) k s = k a s.
Proof. reflexivity. Qed.

Lemma bind_Ok (m : SE E S A) (k : A → SE E S B) s a s' :
  m s = (Ok a, s') → bind m k s = k a s'.
Proof. unfold bind. by intros ->. Qed.

Lemma bind_Raise (m : SE E S A) (k : A → SE E S B) s e s' :
  m s = (Raise e, s') → bind m k s = (Raise e, s').
Proof. unfold bind. by intros ->. Qed.

Lemma bind_Ok_inv (m : SE E S A) (k : A → SE E S B) s b s'' :
  bind m k s = (Ok b, s'') → ∃ a s', m s = (Ok a, s') ∧ k a s' = (Ok b, s'').
Proof. unfold bind. destruct (m s) as [[a|e] s']; naive_solver. Qed.

Lemma bind_inv (m : SE E S A) (k : A → SE E S B) s r s'' :
  bind m k s = (r, s'') →
  (∃ a s', m s = (Ok a, s') ∧ k a s' = (r, s'')) ∨
  (∃ e, m s = (Raise e, s'') ∧ r = Raise e).
Proof. unfold bind. destruct (m s) as [[a|e] s']; naive_solver. Qed.

Lemma capture_bind (m : SE E S A) (k : result E A → SE E S B) s :
  bind (capture m) k s = k (m s).1 (m s).2.
Proof. unfold bind, capture. by destruct (m s). Qed.

Lemma lift_inv (x : result E A) s r (s' : S) : lift x s = (r, s') → r = x ∧ s' = s.
Proof. unfold lift. naive_solver. Qed.
End SELemmas.

(** ** Tactics of the development *)

(** Unfold the monads' combinators and reduce. *)
Ltac py_unfold :=
  unfold bind, ret, raise, lift, try_except, rbind, raise_if in *; simpl in *.

(** One step of symbolic execution: split a match that blocks, or close a
    contradictory branch. *)
Ltac py_step :=
  match goal with
  | _ => progress simplify_eq/=
  | _ => case_match
  end.

(** Run a definition symbolically in hypotheses and goal. *)
Ltac py_run := intros; py_unfold; repeat (py_step; try done).

(** Split a boolean conjunction or disjunction in the hypotheses. *)
Ltac py_bools :=
  repeat match goal with
  | H : _ && _ = true |- _ => apply andb_true_iff in H as [??]
  | H : _ || _ = false |- _ => apply orb_false_iff in H as [??]
  | H : negb _ = true |- _ => apply negb_true_iff in H
  | H : negb _ = false |- _ => apply negb_false_iff in H
  | H : bool_decide _ = true |- _ => apply bool_decide_eq_true_1 in H
  | H : bool_decide _ = false |- _ => apply bool_decide_eq_false_1 in H
  end.

Lemma negb_decide_false (P : Prop) `{Decision P} : negb (bool_decide P) = false ↔ P.
Proof. rewrite negb_false_iff. apply bool_decide_eq_true. Qed.

(** Invert [guard ;;? rest = Ok _] guards one after the other. *)
Ltac guards H :=
  repeat match type of H with
  | rbind _ _ = Ok _ =>
      let G := fresh "G" in apply rbind_Ok_inv in H as (? & G & H);
      try apply raise_if_Ok in G; try apply negb_decide_false in G
  end.

Lemma rbind_Ok_intro {E A B} (m : result E A) (k : A → result E B) x b :
  m = Ok x → k x = Ok b → rbind m k = Ok b.
Proof. by intros ->. Qed.

(** [x is None]. *)
Definition is_none {A} (o : option A) : bool := match o with None => true | _ => false end.

Lemma not_none_false {A} (o : option A) : negb (is_none o) = false ↔ o = None.
Proof. by destruct o. Qed.

Create HintDb py discriminated.
