(* ===== verification/Text.v ===== *)
(** * Python [str] and [datetime]

    A [str] is a [string] whose characters are the code points U+0000 to
    U+00FF; on that range [str.strip], [str.isspace], [str.lower], [len], the
    comparison of [str]s and UTF-8 encoding are written out exactly.  A
    [datetime] is its instant in microseconds and whether it carries a time
    zone; comparing an aware with a naive one raises [TypeError] in Python. *)

From Stdlib Require Import ZArith Ascii Lia.
From stdpp Require Import base sets strings option list.
From S2P Require Import Prelude.

(** ** Characters *)

Definition code (c : ascii) : N := N_of_ascii c.

(** [str.isspace] on one character below U+0100. *)
Definition is_space (c : ascii) : bool :=
  let n := code c in
  ((9 <=? n) && (n <=? 13) || (28 <=? n) && (n <=? 32)
   || (n =? 133) || (n =? 160))%N.

(** [str.lower] on one character below U+0100 (U+00D7 is the multiplication
    sign). *)
Definition lower_char (c : ascii) : ascii :=
  let n := code c in
  if ((65 <=? n) && (n <=? 90) || (192 <=? n) && (n <=? 222) && negb (n =? 215))%N
  then ascii_of_N (n + 32) else c.

Lemma code_inj a b : code a = code b → a = b.
Proof. intros H. rewrite <-(ascii_N_embedding a), <-(ascii_N_embedding b). by f_equal. Qed.

(** ** Strings *)

Fixpoint lower (s : string) : string :=
  match s with
  | EmptyString => EmptyString
  | String c s' => String (lower_char c) (lower s')
  end.

Fixpoint lstrip (s : string) : string :=
  match s with
  | EmptyString => EmptyString
  | String c s' => if is_space c then lstrip s' else s
  end.

Fixpoint rstrip (s : string) : string :=
  match s with
  | EmptyString => EmptyString
  | String c s' =>
      match rstrip s' with
      | EmptyString => if is_space c then EmptyString else String c EmptyString
      | t => String c t
      end
  end.

Definition strip (s : string) : string := lstrip (rstrip s).

(** [not s]: the empty string is falsy. *)
Definition str_empty (s : string) : bool :=
  match s with EmptyString => true | _ => false end.

(** [not value.strip()]. *)
Definition blank (s : string) : bool := str_empty (strip s).

(** [prefix s]: [s.startswith(prefix)]. *)
Fixpoint startswith (p s : string) : bool :=
  match p, s with
  | EmptyString, _ => true
  | String a p', String b s' => bool_decide (a = b) && startswith p' s'
  | String _ _, EmptyString => false
  end.

Fixpoint all_chars (P : ascii → bool) (s : string) : bool :=
  match s with
  | EmptyString => true
  | String c s' => P c && all_chars P s'
  end.

(** [c in chars] for one character. *)
Definition char_in (chars : string) (c : ascii) : bool :=
  negb (all_chars (λ d, negb (bool_decide (c = d))) chars).

Fixpoint replace_char (a b : ascii) (s : string) : string :=
  match s with
  | EmptyString => EmptyString
  | String c s' => String (if bool_decide (c = a) then b else c) (replace_char a b s')
  end.

(** Comparison of strings: by code points, a proper prefix first. *)
Fixpoint str_leb (a b : string) : bool :=
  match a, b with
  | EmptyString, _ => true
  | String _ _, EmptyString => false
  | String x a', String y b' =>
      if (code x <? code y)%N then true
      else if (code y <? code x)%N then false
      else str_leb a' b'
  end.

Lemma str_empty_true s : str_empty s = true ↔ s = "".
Proof. by destruct s. Qed.
Lemma str_empty_false s : str_empty s = false ↔ s ≠ "".
Proof. by destruct s. Qed.

Lemma blank_spec s : blank s = all_chars is_space s.
Proof.
  unfold blank, strip.
  assert (Hr : str_empty (rstrip s) = all_chars is_space s).
  { induction s as [|c s IH]; simpl; [done|].
    destruct (rstrip s); simpl in IH; destruct (is_space c); simpl; congruence. }
  rewrite <-Hr.
  assert (Hl : ∀ t, rstrip t = t → str_empty (lstrip t) = str_empty t).
  { induction t as [|c t IH]; simpl; [done|]. intros Ht.
    destruct (is_space c) eqn:Hc; [|done].
    destruct (rstrip t) eqn:E; [done|]. simplify_eq. rewrite IH by done. done. }
  apply Hl. clear Hr Hl.
  induction s as [|c s IH]; simpl; [done|].
  destruct (rstrip s) eqn:E; [by destruct (is_space c) eqn:Hc; simpl; rewrite ?Hc|].
  simpl in *. rewrite IH. done.
Qed.

Lemma str_leb_refl a : str_leb a a = true.
Proof. induction a; simpl; [done|]. by rewrite N.ltb_irrefl. Qed.

Lemma str_leb_total a b : str_leb a b = true ∨ str_leb b a = true.
Proof.
  revert b. induction a as [|x a IH]; intros [|y b]; simpl; auto.
  destruct (N.ltb_spec (code x) (code y)); auto.
  destruct (N.ltb_spec (code y) (code x)); auto.
Qed.

Lemma str_leb_antisym a b : str_leb a b = true → str_leb b a = true → a = b.
Proof.
  revert b. induction a as [|x a IH]; intros [|y b]; simpl; try done.
  destruct (N.ltb_spec (code x) (code y)), (N.ltb_spec (code y) (code x));
    try done; try lia.
  intros. f_equal; [apply code_inj; lia | auto].
Qed.

Lemma str_leb_trans a b c :
  str_leb a b = true → str_leb b c = true → str_leb a c = true.
Proof.
  revert b c. induction a as [|x a IH]; intros [|y b] [|z c]; simpl; try done.
  destruct (N.ltb_spec (code x) (code y)), (N.ltb_spec (code y) (code x)),
    (N.ltb_spec (code y) (code z)), (N.ltb_spec (code z) (code y)),
    (N.ltb_spec (code x) (code z)), (N.ltb_spec (code z) (code x));
    try done; try lia. eauto.
Qed.

Lemma startswith_app p s : startswith p (p +:+ s) = true.
Proof. induction p; simpl; [done|]. by rewrite bool_decide_eq_true_2, IHp. Qed.

Lemma startswith_spec p s : startswith p s = true → ∃ t, s = p +:+ t.
Proof.
  revert s. induction p as [|a p IH]; intros s; simpl; [eauto|].
  destruct s as [|b s]; [done|]. intros H. py_bools. subst.
  destruct (IH s) as [t ->]; eauto.
Qed.

(** [value.split()]: maximal runs of characters that are not white space. *)
Fixpoint split_ws_from (acc : string) (s : string) : list string :=
  match s with
  | EmptyString => if str_empty acc then [] else [acc]
  | String c s' =>
      if is_space c
      then (if str_empty acc then [] else [acc]) ++ split_ws_from EmptyString s'
      else split_ws_from (acc +:+ String c EmptyString) s'
  end.

Definition split_ws (s : string) : list string := split_ws_from EmptyString s.

(** [part in s] for strings. *)
Fixpoint contains (part s : string) : bool :=
  startswith part s ||
  match s with EmptyString => false | String _ s' => contains part s' end.

(** [sep.join(parts)]. *)
Fixpoint str_join (sep : string) (parts : list string) : string :=
  match parts with
  | [] => EmptyString
  | [s] => s
  | s :: parts' => s +:+ sep +:+ str_join sep parts'
  end.

(** [value.partition(sep)] for a one-character separator: the parts before
    and after its first occurrence, and whether there is one. *)
Fixpoint partition_char (sep : ascii) (s : string) : string * bool * string :=
  match s with
  | EmptyString => (EmptyString, false, EmptyString)
  | String c s' =>
      if bool_decide (c = sep) then (EmptyString, true, s')
      else let '(a, f, b) := partition_char sep s' in (String c a, f, b)
  end.

#[export] Hint Resolve str_leb_refl str_leb_antisym : py.

(** ** [datetime] *)

Record datetime := Datetime { dt_micros : Z; dt_aware : bool }.

#[export] Instance datetime_eq_dec : EqDecision datetime.
Proof. solve_decision. Defined.

(** [a < b]: [None] is the [TypeError] of a mixed comparison. *)
Definition dt_ltb (a b : datetime) : option bool :=
  if Bool.eqb (dt_aware a) (dt_aware b)
  then Some (dt_micros a <? dt_micros b)%Z else None.

Definition dt_leb (a b : datetime) : option bool :=
  if Bool.eqb (dt_aware a) (dt_aware b)
  then Some (dt_micros a <=? dt_micros b)%Z else None.

(** [a + timedelta(microseconds=d)]. *)
Definition dt_add (a : datetime) (d : Z) : datetime :=
  Datetime (dt_micros a + d) (dt_aware a).
