(* ===== verification/Dict.v ===== *)
(** * Python [dict]s with [str] keys, and [sorted]

    A [dict] is the association list of its items in insertion order: writing
    an existing key keeps its position, a new key goes last, iteration and the
    [next(... for v in d.values() ...)] idiom follow the order.  [sorted] is a
    stable insertion sort; over a total order it has one possible result. *)

From Stdlib Require Import Sorting.Sorted.
From stdpp Require Import base sets strings option list.
From S2P Require Import Prelude Text.

(** ** Dictionaries *)

Abbreviation dict V := (list (string * V)).

Section Dict.
Context {V : Type}.
Implicit Types (d : dict V) (k : string) (v : V).

Fixpoint dget k d : option V :=
  match d with
  | [] => None
  | (k', v) :: d' => if decide (k = k') then Some v else dget k d'
  end.

Fixpoint dset k v d : dict V :=
  match d with
  | [] => [(k, v)]
  | (k', v') :: d' => if decide (k = k') then (k, v) :: d' else (k', v') :: dset k v d'
  end.

Definition dkeys d : list string := d.*1.
Definition dvalues d : list V := d.*2.
Definition dmem k d : bool := bool_decide (is_Some (dget k d)).

(** [{key(v): v for v in values}]. *)
Definition dict_of (key : V → string) (vs : list V) : dict V :=
  foldl (λ d v, dset (key v) v d) [] vs.

Lemma dget_dset_eq k v d : dget k (dset k v d) = Some v.
Proof. induction d as [|[k' v'] d IH]; simpl; repeat (case_decide; simpl); done. Qed.

Lemma dget_dset_ne k k' v d : k ≠ k' → dget k (dset k' v d) = dget k d.
Proof.
  intros. induction d as [|[k'' v''] d IH]; simpl; repeat (case_decide; simpl);
    simplify_eq; done.
Qed.

Lemma dget_dset k k' v d :
  dget k (dset k' v d) = if decide (k = k') then Some v else dget k d.
Proof. case_decide; subst; [apply dget_dset_eq | by apply dget_dset_ne]. Qed.

Lemma dget_None k d : dget k d = None ↔ k ∉ dkeys d.
Proof.
  unfold dkeys. induction d as [|[k' v'] d IH]; csimpl; [set_solver|].
  rewrite not_elem_of_cons. case_decide; [|tauto]. split; [done|tauto].
Qed.

Lemma dget_Some_mem k v d : dget k d = Some v → (k, v) ∈ d.
Proof.
  induction d as [|[k' v'] d IH]; simpl; [done|].
  case_decide; intros; simplify_eq; set_solver.
Qed.

Lemma dget_mem k v d : NoDup (dkeys d) → (k, v) ∈ d ↔ dget k d = Some v.
Proof.
  intros Hnd. split; [|apply dget_Some_mem].
  unfold dkeys in *. induction d as [|[k' v'] d IH]; csimpl in *; [set_solver|].
  apply NoDup_cons in Hnd as [Hk Hnd]. intros [?|Hin]%elem_of_cons; simplify_eq.
  - by rewrite decide_True.
  - rewrite decide_False; [auto|]. intros ->. apply Hk.
    apply list_elem_of_fmap. by exists (k', v).
Qed.

Lemma dset_fresh k v d : dget k d = None → dset k v d = d ++ [(k, v)].
Proof.
  induction d as [|[k' v'] d IH]; simpl; [done|].
  case_decide; [done|]. intros. by rewrite IH.
Qed.

Lemma dkeys_dset k v d :
  dkeys (dset k v d) =
    match dget k d with Some _ => dkeys d | None => dkeys d ++ [k] end.
Proof.
  unfold dkeys. induction d as [|[k' v'] d IH]; simpl.
  - done.
  - destruct (decide (k = k')) as [->|Hne]; csimpl.
    + done.
    + rewrite IH. by case_match.
Qed.

Lemma dset_NoDup k v d : NoDup (dkeys d) → NoDup (dkeys (dset k v d)).
Proof.
  intros Hnd. rewrite dkeys_dset. case_match eqn:E; [done|].
  apply NoDup_app. split; [done|]. split; [|apply NoDup_singleton].
  intros x Hx ->%list_elem_of_singleton. by apply dget_None in E.
Qed.

Lemma dset_mem k v d k' v' :
  (k', v') ∈ dset k v d → (k', v') = (k, v) ∨ (k', v') ∈ d.
Proof.
  induction d as [|[k'' v''] d IH]; simpl.
  - intros ->%list_elem_of_singleton. by left.
  - case_decide; intros [?|Hin]%elem_of_cons; rewrite ?elem_of_cons; auto.
    destruct (IH Hin); auto.
Qed.

Lemma dset_mem_inv k v d k' v' :
  NoDup (dkeys d) → (k', v') ∈ dset k v d →
  (k' = k ∧ v' = v) ∨ (k' ≠ k ∧ (k', v') ∈ d).
Proof.
  intros Hnd Hin. rewrite !dget_mem in * by auto using dset_NoDup.
  rewrite dget_dset in Hin. case_decide; simplify_eq; auto.
Qed.

Lemma dvalues_mem v d : v ∈ dvalues d ↔ ∃ k, (k, v) ∈ d.
Proof.
  unfold dvalues. rewrite list_elem_of_fmap. split.
  - intros ([k v'] & -> & ?). eauto.
  - intros [k ?]. by exists (k, v).
Qed.

(** The entries of a table whose keys are the identifiers of its values. *)
Definition keyed (key : V → string) d : Prop :=
  NoDup (dkeys d) ∧ ∀ k v, (k, v) ∈ d → key v = k.

Lemma keyed_nil key : keyed key [].
Proof. split; [apply NoDup_nil_2 | set_solver]. Qed.

Lemma keyed_dset key v d : keyed key d → keyed key (dset (key v) v d).
Proof.
  intros [Hnd Hk]. split; [by apply dset_NoDup|].
  intros k' v' Hin%dset_mem. destruct Hin; simplify_eq; auto.
Qed.

Lemma keyed_get key k v d : keyed key d → dget k d = Some v → key v = k.
Proof. intros [_ Hk] H. by apply Hk, dget_Some_mem. Qed.

Lemma keyed_value key v d : keyed key d → v ∈ dvalues d ↔ dget (key v) d = Some v.
Proof.
  intros [Hnd Hk]. rewrite dvalues_mem. split.
  - intros [k Hin]. rewrite (Hk _ _ Hin). by apply dget_mem.
  - intros H. exists (key v). by apply dget_mem.
Qed.

(** [next((v for v in d.values() if P v), None)]. *)
Definition dfind (P : V → bool) d : option V := find P (dvalues d).
End Dict.

Lemma dmem_false {V} k (t : dict V) : dmem k t = false ↔ dget k t = None.
Proof.
  unfold dmem. rewrite bool_decide_eq_false. destruct (dget k t).
  - split; [intros []; eauto|done].
  - split; [done|]. by intros _ [].
Qed.

Lemma dset_same {V} k (v : V) t : dget k t = Some v → dset k v t = t.
Proof.
  induction t as [|[k' v'] t IH]; simpl; [done|].
  destruct (decide _) as [E|E]; [intros [= ->]; by rewrite E|]. intros Hv. by rewrite IH.
Qed.

#[export] Hint Resolve keyed_nil keyed_dset dset_NoDup : py.

Lemma find_Some_iff {A} (P : A → bool) l x : find P l = Some x → x ∈ l ∧ P x = true.
Proof.
  induction l as [|y l IH]; simpl; [done|]. rewrite elem_of_cons.
  destruct (P y) eqn:E; intros H; [simplify_eq; auto|]. destruct (IH H); auto.
Qed.

Lemma find_None_iff {A} (P : A → bool) l : find P l = None ↔ ∀ x, x ∈ l → P x = false.
Proof.
  induction l as [|y l IH]; simpl; [split; [by intros _ x ?%not_elem_of_nil|done]|].
  destruct (P y) eqn:E.
  - split; [done|]. intros H. rewrite H in E; [done|]. by left.
  - rewrite IH. split; intros H x; rewrite ?elem_of_cons; [intros [->|?]; auto|].
    intros. apply H. by right.
Qed.

(** ** [sorted(..., key=...)] *)

Section Sorting.
Context {A : Type} (leb : A → A → bool).

Fixpoint insert_by (x : A) (l : list A) : list A :=
  match l with
  | [] => [x]
  | y :: l' => if leb x y then x :: y :: l' else y :: insert_by x l'
  end.

Fixpoint sorted_by (l : list A) : list A :=
  match l with
  | [] => []
  | x :: l' => insert_by x (sorted_by l')
  end.

Definition ordered : list A → Prop := StronglySorted (λ x y, leb x y = true).

Lemma insert_by_perm x l : insert_by x l ≡ₚ x :: l.
Proof.
  induction l as [|y l IH]; simpl; [done|]. case_match; [done|].
  rewrite IH. apply Permutation_swap.
Qed.

Lemma sorted_by_perm l : sorted_by l ≡ₚ l.
Proof. induction l; simpl; [done|]. by rewrite insert_by_perm, IHl. Qed.

Lemma elem_of_sorted_by x l : x ∈ sorted_by l ↔ x ∈ l.
Proof. by rewrite sorted_by_perm. Qed.

Lemma NoDup_sorted_by l : NoDup (sorted_by l) ↔ NoDup l.
Proof. by rewrite sorted_by_perm. Qed.

Lemma length_sorted_by l : length (sorted_by l) = length l.
Proof. by rewrite sorted_by_perm. Qed.

(** A list already in order is left as it is. *)
Lemma sorted_by_id l : ordered l → sorted_by l = l.
Proof.
  induction 1 as [|x l Hl IH Hx]; simpl; [done|]. rewrite IH.
  destruct l as [|y l]; simpl; [done|]. inversion Hx; subst.
  by rewrite H1.
Qed.

(** Over an order antisymmetric on the elements, the sorted list is unique. *)
Lemma ordered_unique l l' :
  (∀ x y, x ∈ l → y ∈ l → leb x y = true → leb y x = true → x = y) →
  ordered l → ordered l' → l ≡ₚ l' → l = l'.
Proof.
  intros leb_antisym Hl. revert leb_antisym l'.
  induction Hl as [|x l Hl IH Hx]; intros leb_antisym l' Hl' Hp.
  - by apply Permutation_nil_l in Hp.
  - destruct Hl' as [|y l' Hl' Hy]; [by apply Permutation_nil_r in Hp|].
    assert (x = y) as ->.
    { rewrite Forall_forall in Hx, Hy.
      assert (x ∈ y :: l') as Hxy by (rewrite <-Hp; set_solver).
      assert (y ∈ x :: l) as Hyx by (rewrite Hp; set_solver).
      apply elem_of_cons in Hxy as [Hxy|Hxy]; [done|].
      apply elem_of_cons in Hyx as [Hyx|Hyx]; [done|].
      apply leb_antisym; [by left | by right | by apply Hx | by apply Hy]. }
    f_equal. apply IH; [|done|by apply Permutation_cons_inv in Hp].
    intros ????. apply leb_antisym; by right.
Qed.

Context (leb_total : ∀ x y, leb x y = true ∨ leb y x = true).
Context (leb_trans : ∀ x y z, leb x y = true → leb y z = true → leb x z = true).

Lemma insert_by_ordered x l : ordered l → ordered (insert_by x l).
Proof.
  induction 1 as [|y l Hl IH Hy]; simpl; [repeat constructor|].
  destruct (leb x y) eqn:E.
  - repeat constructor; auto. eapply Forall_impl; [exact Hy|]. eauto.
  - constructor; [done|]. rewrite insert_by_perm. constructor; [|done].
    destruct (leb_total x y); congruence.
Qed.

Lemma sorted_by_ordered l : ordered (sorted_by l).
Proof. induction l; simpl; [constructor|]. by apply insert_by_ordered. Qed.

End Sorting.

(** Tuple keys: the comparison of the first component decides, unless it is
    a tie. *)
Section ThenBy.
Context {A : Type} (leb1 leb2 : A → A → bool).

Definition then_by (a b : A) : bool :=
  if negb (leb1 b a) then true else if negb (leb1 a b) then false else leb2 a b.

Context (total1 : ∀ x y, leb1 x y = true ∨ leb1 y x = true).
Context (trans1 : ∀ x y z, leb1 x y = true → leb1 y z = true → leb1 x z = true).

Lemma then_by_iff a b :
  then_by a b = true ↔ leb1 a b = true ∧ (leb1 b a = true → leb2 a b = true).
Proof.
  unfold then_by. pose proof (total1 a b).
  destruct (leb1 a b), (leb1 b a), (leb2 a b); simpl; naive_solver.
Qed.

Lemma then_by_total :
  (∀ x y, leb2 x y = true ∨ leb2 y x = true) → ∀ x y, then_by x y = true ∨ then_by y x = true.
Proof.
  intros total2 x y. rewrite !then_by_iff. pose proof (total1 x y). pose proof (total2 x y).
  destruct (leb1 x y), (leb1 y x); naive_solver.
Qed.

Lemma then_by_trans :
  (∀ x y z, leb2 x y = true → leb2 y z = true → leb2 x z = true) →
  ∀ x y z, then_by x y = true → then_by y z = true → then_by x z = true.
Proof.
  intros trans2 x y z. rewrite !then_by_iff. intros [Hxy Hx] [Hyz Hy].
  split; [by eapply trans1|]. intros Hzx. apply (trans2 x y z); [apply Hx | apply Hy];
    by eapply trans1.
Qed.

Lemma then_by_antisym :
  (∀ x y, leb2 x y = true → leb2 y x = true → x = y) →
  ∀ x y, then_by x y = true → then_by y x = true → x = y.
Proof. intros antisym2 x y. rewrite !then_by_iff. naive_solver. Qed.
End ThenBy.

(** [sorted(set(values))] for strings. *)
Definition sorted_set (l : list string) : list string := sorted_by str_leb (remove_dups l).

Lemma sorted_set_ordered l : ordered str_leb (sorted_set l).
Proof. apply sorted_by_ordered; [apply str_leb_total | apply str_leb_trans]. Qed.

Lemma elem_of_sorted_set x l : x ∈ sorted_set l ↔ x ∈ l.
Proof. unfold sorted_set. by rewrite elem_of_sorted_by, elem_of_remove_dups. Qed.

Lemma NoDup_sorted_set l : NoDup (sorted_set l).
Proof. apply NoDup_sorted_by, NoDup_remove_dups. Qed.

(** Equal as sets, equal after [sorted(set(...))]. *)
Lemma sorted_set_ext l l' : (∀ x, x ∈ l ↔ x ∈ l') → sorted_set l = sorted_set l'.
Proof.
  intros H. apply (ordered_unique str_leb); try apply sorted_set_ordered.
  { eauto using str_leb_antisym. }
  apply NoDup_Permutation; try apply NoDup_sorted_set.
  intros x. by rewrite !elem_of_sorted_set.
Qed.

Lemma sorted_set_idemp l : sorted_set (sorted_set l) = sorted_set l.
Proof. apply sorted_set_ext. intros. by rewrite elem_of_sorted_set. Qed.

#[export] Hint Resolve NoDup_sorted_set sorted_set_ordered : py.

(** Lookup of the first value with a property, in a keyed table. *)
Lemma dfind_Some {V} (key : V → string) P t v :
  keyed key t → dfind P t = Some v → dget (key v) t = Some v ∧ P v = true.
Proof.
  intros Hk [Hin HP]%find_Some_iff. split; [|done]. by apply keyed_value.
Qed.

Lemma dfind_None {V} (key : V → string) P t :
  keyed key t → dfind P t = None → ∀ k v, dget k t = Some v → P v = false.
Proof.
  intros Hk Hn k v Hv. pose proof (proj1 (find_None_iff P (dvalues t)) Hn) as Hf. apply Hf.
  apply (proj2 (keyed_value key v t Hk)). by rewrite (keyed_get key k v t Hk Hv).
Qed.

(** A property of every value of a table, when one value is written. *)
Lemma dset_all {V} (Q : string → V → Prop) k v t :
  (∀ k' v', dget k' t = Some v' → Q k' v') → Q k v →
  ∀ k' v', dget k' (dset k v t) = Some v' → Q k' v'.
Proof. intros Ht Hv k' v'. rewrite dget_dset. case_decide; [intros; by simplify_eq|apply Ht]. Qed.

(** Two values of a table that agree on [same] are the same entry. *)
Definition unique_by {V} (key : V → string) (same : V → V → Prop) (t : dict V) : Prop :=
  ∀ k k' v v', dget k t = Some v → dget k' t = Some v' → same v v' → key v = key v'.

(** Writing [v] keeps [unique_by] when no other entry agrees with it. *)
Lemma unique_by_dset {V} (key : V → string) same v t :
  keyed key t → Symmetric same → unique_by key same t →
  (∀ k w, dget k t = Some w → same v w → key w = key v) →
  unique_by key same (dset (key v) v t).
Proof.
  intros Hk Hs Hu Hv k k' w w'. rewrite !dget_dset.
  repeat case_decide; intros; simplify_eq; eauto; symmetry; eauto.
Qed.

(** ** The first elements of an ordered list *)

Section Take.
Context {A : Type} (leb : A → A → bool).

Lemma elem_of_take_in n (l : list A) x : x ∈ take n l → x ∈ l.
Proof. rewrite <-(take_drop n l) at 2. rewrite elem_of_app. by left. Qed.

Lemma ordered_take n l : ordered leb l → ordered leb (take n l).
Proof.
  intros H. revert n. induction H as [|x l Hl IH Hx]; intros [|n]; simpl; try constructor.
  - apply IH.
  - rewrite Forall_forall in *. intros y Hy. by eapply Hx, elem_of_take_in.
Qed.

(** What [take] leaves out comes after everything it keeps. *)
Lemma ordered_take_complete n l x :
  ordered leb l → x ∈ l →
  x ∈ take n l ∨ (length (take n l) = n ∧ ∀ y, y ∈ take n l → leb y x = true).
Proof.
  intros H. revert n. induction H as [|y l Hl IH Hy]; intros [|n] Hx; simpl.
  - by apply not_elem_of_nil in Hx.
  - by apply not_elem_of_nil in Hx.
  - right. split; [done|]. by intros z ?%not_elem_of_nil.
  - apply elem_of_cons in Hx as [->|Hx]; [left; by left|].
    destruct (IH n Hx) as [?|[Hlen Hb]]; [left; by right|right].
    split; [by rewrite Hlen|]. intros z [->|Hz]%elem_of_cons; [|auto].
    rewrite Forall_forall in Hy. auto.
Qed.
End Take.

(** ** The values of a table that satisfy a condition, seen through [f] *)

Section View.
Context {V B : Type} (f : V → B) (P : V → Prop) `{∀ v, Decision (P v)}.

Definition view (t : dict V) : list B := f <$> filter P (dvalues t).

Lemma view_dset_fresh k v t :
  dget k t = None → view (dset k v t) = view t ++ (if decide (P v) then [f v] else []).
Proof.
  intros Hn. unfold view. rewrite dset_fresh by done. unfold dvalues.
  rewrite fmap_app, filter_app, fmap_app. f_equal. simpl. rewrite filter_cons.
  by case_decide.
Qed.

Lemma view_dset_same k v v' t :
  dget k t = Some v → f v' = f v → (P v' ↔ P v) → view (dset k v' t) = view t.
Proof.
  intros Hv Hf HP. unfold view, dvalues. induction t as [|[k0 v0] t IH]; simpl in *; [done|].
  case_decide; simplify_eq/=.
  - rewrite !filter_cons. repeat case_decide; csimpl; try tauto; by rewrite ?Hf.
  - rewrite !filter_cons. case_decide; csimpl; by rewrite IH.
Qed.

Lemma elem_of_view b t : b ∈ view t ↔ ∃ k v, (k, v) ∈ t ∧ P v ∧ f v = b.
Proof.
  unfold view. rewrite list_elem_of_fmap. setoid_rewrite list_elem_of_filter.
  setoid_rewrite dvalues_mem. naive_solver.
Qed.
End View.

Lemma view_nil {V B} (f : V → B) P `{∀ v, Decision (P v)} (key : V → string) t :
  keyed key t → (∀ k v, dget k t = Some v → ¬ P v) → view f P t = [].
Proof.
  intros Hk Hno. destruct (view f P t) as [|b l] eqn:E; [done|].
  assert (Hb : b ∈ view f P t) by (rewrite E; by left).
  apply elem_of_view in Hb as (k & v & Hin & HP & _). exfalso. apply (Hno k v); [|done].
  apply dget_mem; [apply Hk|done].
Qed.
