(* ===== verification/Errors.v ===== *)
(** * Errors: the application error contract and its HTTP mapping

    Models [shared/errors.py] (every concrete error class, with its stable
    [code] and client-safe [safe_message]), the [ExecutorFailure] exception of
    [modules/execution/domain.py], the Python exceptions the modelled code
    raises or catches, and the status table of [interfaces/http/errors.py].
    The internal message of an error is diagnostic text that no response
    carries, and is left out; the payload the handlers read is kept. *)

From Stdlib Require Import ZArith.
From stdpp Require Import base sets strings option list.
From S2P Require Import Prelude Text Dict.

(** ** [NexusMcpError] and its subclasses *)

Inductive nexus_error :=
| NexusMcpError
| ToolNotFoundError
| ToolVersionNotFoundError
| ToolBindingNotFoundError
| ToolNotVisibleError
| ToolsetNotFoundError
| ToolsetConflictError
| ToolsetRevisionConflictError
| InvalidToolsetMembersError
| ToolsetMemberUnavailableError
| ToolsetNotActiveError
| ToolsetAccessDeniedError
| SystemToolsetImmutableError
| InvalidToolStateError
| TenantBoundaryViolationError
| PublishConflictError
| UpstreamNotActiveError
| UpstreamNotFoundError
| UpstreamConflictError
| SchemaDigestMismatchError
| BindingDigestMismatchError
| OpenApiSourceNotFoundError
| OpenApiImportJobNotFoundError
| OpenApiDocumentInvalidError
| OpenApiFeatureUnsupportedError
| ImportedOperationNotFoundError
| InvalidReviewStateError
| InvalidArgumentsError
| FeatureNotEnabledError
| AuthorizationError
| AuthenticationError
| ApprovalRequiredError (approval_id expires_at : option string)
| ApprovalNotFoundError
| ApprovalPendingError
| ApprovalRejectedError
| ApprovalExpiredError
| ApprovalAlreadyConsumedError
| ApprovalMismatchError
| ApprovalInvalidStateError
| CredentialBindingNotFoundError
| CredentialBindingConflictError
| CredentialResolutionError
| UpstreamTimeoutError
| UpstreamUnavailableError
| UpstreamResponseError
| UnsafeUpstreamEndpointError
| UnknownExecutionOutcomeError
| ToolExecutionNotFoundError
| InvalidExecutionStateError
| ExecutionAttemptNotFoundError
| IdempotencyKeyRequiredError
| IdempotencyConflictError (execution_id : string)
| IdempotencyInProgressError (execution_id : string)
| IdempotencyAlreadyCompletedError (execution_id : string)
| IdempotencyOutcomeUnknownError (execution_id : string)
| IdempotencyPreviousFailedError (execution_id : string)
| IdempotencyRaceError
| ToolSearchModeUnavailableError
| ToolSearchReindexJobNotFoundError
| ToolSearchReindexJobConflictError
| EmbeddingAuthenticationError
| EmbeddingRateLimitError
| EmbeddingUnavailableError
| EmbeddingResponseError.

#[export] Instance nexus_error_eq_dec : EqDecision nexus_error.
Proof. solve_decision. Defined.

(** [error.code] *)
Definition error_code (e : nexus_error) : string :=
  match e with
  | NexusMcpError => "nexusmcp_error"
  | ToolNotFoundError => "tool_not_found"
  | ToolVersionNotFoundError => "tool_version_not_found"
  | ToolBindingNotFoundError => "tool_binding_not_found"
  | ToolNotVisibleError => "tool_not_visible"
  | ToolsetNotFoundError => "toolset_not_found"
  | ToolsetConflictError => "toolset_conflict"
  | ToolsetRevisionConflictError => "toolset_revision_conflict"
  | InvalidToolsetMembersError => "invalid_toolset_members"
  | ToolsetMemberUnavailableError => "toolset_member_unavailable"
  | ToolsetNotActiveError => "toolset_not_active"
  | ToolsetAccessDeniedError => "toolset_access_denied"
  | SystemToolsetImmutableError => "system_toolset_immutable"
  | InvalidToolStateError => "invalid_tool_state"
  | TenantBoundaryViolationError => "tenant_boundary_violation"
  | PublishConflictError => "publish_conflict"
  | UpstreamNotActiveError => "upstream_not_active"
  | UpstreamNotFoundError => "upstream_not_found"
  | UpstreamConflictError => "upstream_conflict"
  | SchemaDigestMismatchError => "schema_digest_mismatch"
  | BindingDigestMismatchError => "binding_digest_mismatch"
  | OpenApiSourceNotFoundError => "openapi_source_not_found"
  | OpenApiImportJobNotFoundError => "openapi_import_job_not_found"
  | OpenApiDocumentInvalidError => "openapi_document_invalid"
  | OpenApiFeatureUnsupportedError => "openapi_feature_unsupported"
  | ImportedOperationNotFoundError => "imported_operation_not_found"
  | InvalidReviewStateError => "invalid_review_state"
  | InvalidArgumentsError => "invalid_arguments"
  | FeatureNotEnabledError => "feature_not_enabled"
  | AuthorizationError => "authorization_denied"
  | AuthenticationError => "authentication_failed"
  | ApprovalRequiredError _ _ => "approval_required"
  | ApprovalNotFoundError => "approval_not_found"
  | ApprovalPendingError => "approval_pending"
  | ApprovalRejectedError => "approval_rejected"
  | ApprovalExpiredError => "approval_expired"
  | ApprovalAlreadyConsumedError => "approval_already_consumed"
  | ApprovalMismatchError => "approval_mismatch"
  | ApprovalInvalidStateError => "approval_invalid_state"
  | CredentialBindingNotFoundError => "credential_binding_not_found"
  | CredentialBindingConflictError => "credential_binding_conflict"
  | CredentialResolutionError => "credential_resolution_failed"
  | UpstreamTimeoutError => "upstream_timeout"
  | UpstreamUnavailableError => "upstream_unavailable"
  | UpstreamResponseError => "upstream_response_error"
  | UnsafeUpstreamEndpointError => "unsafe_upstream_endpoint"
  | UnknownExecutionOutcomeError => "unknown_execution_outcome"
  | ToolExecutionNotFoundError => "tool_execution_not_found"
  | InvalidExecutionStateError => "invalid_execution_state"
  | ExecutionAttemptNotFoundError => "execution_attempt_not_found"
  | IdempotencyKeyRequiredError => "idempotency_key_required"
  | IdempotencyConflictError _ => "idempotency_conflict"
  | IdempotencyInProgressError _ => "idempotency_in_progress"
  | IdempotencyAlreadyCompletedError _ => "idempotency_already_completed"
  | IdempotencyOutcomeUnknownError _ => "idempotency_outcome_unknown"
  | IdempotencyPreviousFailedError _ => "idempotency_previous_failed"
  | IdempotencyRaceError => "idempotency_in_progress"
  | ToolSearchModeUnavailableError => "tool_search_mode_unavailable"
  | ToolSearchReindexJobNotFoundError => "tool_search_reindex_job_not_found"
  | ToolSearchReindexJobConflictError => "tool_search_reindex_job_conflict"
  | EmbeddingAuthenticationError => "embedding_authentication_failed"
  | EmbeddingRateLimitError => "embedding_rate_limited"
  | EmbeddingUnavailableError => "embedding_unavailable"
  | EmbeddingResponseError => "embedding_response_invalid"
  end.

(** [error.safe_message] *)
Definition safe_message (e : nexus_error) : string :=
  match e with
  | NexusMcpError =>
      "The request could not be completed."
  | ToolNotFoundError =>
      "The requested tool was not found."
  | ToolVersionNotFoundError =>
      "The requested tool version was not found."
  | ToolBindingNotFoundError =>
      "The requested tool binding was not found."
  | ToolNotVisibleError =>
      "The requested tool is not available to this principal."
  | ToolsetNotFoundError =>
      "The requested toolset was not found."
  | ToolsetConflictError =>
      "The toolset conflicts with existing state."
  | ToolsetRevisionConflictError =>
      "The toolset changed after it was loaded."
  | InvalidToolsetMembersError =>
      "The toolset contains invalid members."
  | ToolsetMemberUnavailableError =>
      "One or more toolset members are unavailable."
  | ToolsetNotActiveError =>
      "The requested toolset is not active."
  | ToolsetAccessDeniedError =>
      "The principal is not allowed to access this toolset scope."
  | SystemToolsetImmutableError =>
      "The system-managed toolset cannot be changed this way."
  | InvalidToolStateError =>
      "The tool cannot be changed from its current state."
  | TenantBoundaryViolationError =>
      "The requested resource is not available in this tenant."
  | PublishConflictError =>
      "The tool could not be published because its state changed."
  | UpstreamNotActiveError =>
      "The tool upstream is not active."
  | UpstreamNotFoundError =>
      "The requested upstream service was not found."
  | UpstreamConflictError =>
      "The upstream service conflicts with an existing registration."
  | SchemaDigestMismatchError =>
      "The tool schema no longer matches the reviewed version."
  | BindingDigestMismatchError =>
      "The tool binding no longer matches the reviewed version."
  | OpenApiSourceNotFoundError =>
      "The OpenAPI source was not found."
  | OpenApiImportJobNotFoundError =>
      "The OpenAPI import job was not found."
  | OpenApiDocumentInvalidError =>
      "The OpenAPI document is invalid."
  | OpenApiFeatureUnsupportedError =>
      "The OpenAPI document uses an unsupported feature."
  | ImportedOperationNotFoundError =>
      "The imported operation was not found."
  | InvalidReviewStateError =>
      "The imported operation cannot be reviewed from its current state."
  | InvalidArgumentsError =>
      "The request arguments are invalid."
  | FeatureNotEnabledError =>
      "The requested feature is not enabled."
  | AuthorizationError =>
      "The principal is not allowed to call this tool."
  | AuthenticationError =>
      "The request could not be authenticated."
  | ApprovalRequiredError _ _ =>
      "This tool call requires approval."
  | ApprovalNotFoundError =>
      "The requested approval was not found."
  | ApprovalPendingError =>
      "The tool call is still waiting for approval."
  | ApprovalRejectedError =>
      "The tool call approval was rejected."
  | ApprovalExpiredError =>
      "The tool call approval has expired."
  | ApprovalAlreadyConsumedError =>
      "The tool call approval has already been consumed."
  | ApprovalMismatchError =>
      "The approval does not match this tool call."
  | ApprovalInvalidStateError =>
      "The approval cannot be changed from its current state."
  | CredentialBindingNotFoundError =>
      "No credential binding is available for this tool call."
  | CredentialBindingConflictError =>
      "Multiple credential bindings match this tool call."
  | CredentialResolutionError =>
      "The upstream credential could not be resolved."
  | UpstreamTimeoutError =>
      "The upstream service did not respond before the timeout."
  | UpstreamUnavailableError =>
      "The upstream service is unavailable."
  | UpstreamResponseError =>
      "The upstream service returned an invalid response."
  | UnsafeUpstreamEndpointError =>
      "The upstream endpoint is not permitted by the egress policy."
  | UnknownExecutionOutcomeError =>
      "The upstream execution outcome could not be determined."
  | ToolExecutionNotFoundError =>
      "The requested tool execution was not found."
  | InvalidExecutionStateError =>
      "The tool execution cannot be changed from its current state."
  | ExecutionAttemptNotFoundError =>
      "The requested execution attempt was not found."
  | IdempotencyKeyRequiredError =>
      "This tool call requires an idempotency key."
  | IdempotencyConflictError _ =>
      "The idempotency key was already used with different arguments."
  | IdempotencyInProgressError _ =>
      "The idempotent operation is already in progress."
  | IdempotencyAlreadyCompletedError _ =>
      "The idempotent operation was already completed."
  | IdempotencyOutcomeUnknownError _ =>
      "The previous idempotent operation outcome is unknown."
  | IdempotencyPreviousFailedError _ =>
      "The previous idempotent operation did not complete successfully."
  | IdempotencyRaceError =>
      "The idempotent operation is already in progress."
  | ToolSearchModeUnavailableError =>
      "The requested tool search mode is not available."
  | ToolSearchReindexJobNotFoundError =>
      "The requested tool search reindex job was not found."
  | ToolSearchReindexJobConflictError =>
      "A tool search reindex job is already active for this tenant."
  | EmbeddingAuthenticationError =>
      "The embedding provider could not be authenticated."
  | EmbeddingRateLimitError =>
      "The embedding provider rate limit was exceeded."
  | EmbeddingUnavailableError =>
      "The embedding provider is unavailable."
  | EmbeddingResponseError =>
      "The embedding provider returned an invalid response."
  end.

(** [isinstance(error, ToolsetScopeError)] *)
Definition is_toolset_scope_error (e : nexus_error) : bool :=
  match e with
  | ToolsetAccessDeniedError | ToolsetMemberUnavailableError | ToolsetNotActiveError | ToolsetNotFoundError => true
  | _ => false
  end.

(** ** [ExecutorFailure] *)

Inductive ExecutionErrorCategory :=
| CatValidation | CatAuthentication | CatAuthorization | CatApproval | CatCredential
| CatTimeoutBeforeSend | CatTimeoutAfterSend | CatNetwork | CatUpstream4xx | CatUpstream5xx
| CatCancelled | CatUnknown.

#[export] Instance category_eq_dec : EqDecision ExecutionErrorCategory.
Proof. solve_decision. Defined.

Record executor_failure := ExecutorFailure {
  ef_code : string;
  ef_category : ExecutionErrorCategory;
  ef_outcome_unknown : bool;
  ef_upstream_status : option Z }.

#[export] Instance executor_failure_eq_dec : EqDecision executor_failure.
Proof. solve_decision. Defined.

(** ** Exceptions *)

Inductive exn :=
| ValueError (msg : string)
| ToolsetRevisionConflict (msg : string)
| SystemToolsetMutationError (msg : string)
| TypeError
| RuntimeError (msg : string)
| OtherException
| CancelledError
| Failure (f : executor_failure)
| Nexus (e : nexus_error).

#[export] Instance exn_eq_dec : EqDecision exn.
Proof. solve_decision. Defined.

(** [except ValueError]: the two Toolset domain errors derive from it. *)
Definition is_value_error (x : exn) : bool :=
  match x with
  | ValueError _ | ToolsetRevisionConflict _ | SystemToolsetMutationError _ => true
  | _ => false
  end.

(** [except Exception]: everything but [asyncio.CancelledError]. *)
Definition is_exception (x : exn) : bool :=
  match x with CancelledError => false | _ => true end.

(** Results of the modelled program. *)
Abbreviation res A := (result exn A).

(** The checks [if not value.strip(): raise ValueError(...)] of a list of
    named fields, in their order. *)
Fixpoint require_non_blank (fields : list (string * string)) : res unit :=
  match fields with
  | [] => Ok tt
  | (name, value) :: rest =>
      if blank value then Raise (ValueError (name +:+ " must not be blank"))
      else require_non_blank rest
  end.

Lemma require_non_blank_Ok fields :
  require_non_blank fields = Ok tt ↔ Forall (λ f, blank f.2 = false) fields.
Proof.
  induction fields as [|[n v] l IH]; simpl; [by split; [constructor|]|].
  rewrite Forall_cons; simpl. destruct (blank v) eqn:E; split; try done.
  - by intros [??].
  - intros ?. by split; [|apply IH].
  - intros [_ ?]. by apply IH.
Qed.

(** ** HTTP mapping *)

(** [_HTTP_STATUS_BY_ERROR_CODE] *)
Definition http_status_by_error_code : dict Z := [
  ("tool_not_found", 404%Z);
  ("tool_version_not_found", 404%Z);
  ("tool_binding_not_found", 404%Z);
  ("toolset_not_found", 404%Z);
  ("toolset_access_denied", 403%Z);
  ("openapi_source_not_found", 404%Z);
  ("openapi_import_job_not_found", 404%Z);
  ("imported_operation_not_found", 404%Z);
  ("upstream_not_found", 404%Z);
  ("tool_not_visible", 403%Z);
  ("tenant_boundary_violation", 403%Z);
  ("invalid_tool_state", 409%Z);
  ("publish_conflict", 409%Z);
  ("toolset_conflict", 409%Z);
  ("toolset_revision_conflict", 409%Z);
  ("toolset_member_unavailable", 409%Z);
  ("toolset_not_active", 409%Z);
  ("system_toolset_immutable", 409%Z);
  ("invalid_toolset_members", 422%Z);
  ("upstream_not_active", 409%Z);
  ("schema_digest_mismatch", 409%Z);
  ("binding_digest_mismatch", 409%Z);
  ("invalid_review_state", 409%Z);
  ("openapi_feature_unsupported", 422%Z);
  ("upstream_conflict", 409%Z);
  ("feature_not_enabled", 501%Z);
  ("authorization_denied", 403%Z);
  ("authentication_failed", 401%Z);
  ("approval_required", 202%Z);
  ("approval_not_found", 404%Z);
  ("approval_pending", 409%Z);
  ("approval_rejected", 409%Z);
  ("approval_expired", 409%Z);
  ("approval_already_consumed", 409%Z);
  ("approval_mismatch", 409%Z);
  ("approval_invalid_state", 409%Z);
  ("credential_binding_not_found", 404%Z);
  ("credential_binding_conflict", 409%Z);
  ("credential_resolution_failed", 502%Z);
  ("upstream_timeout", 504%Z);
  ("upstream_unavailable", 502%Z);
  ("upstream_response_error", 502%Z);
  ("unknown_execution_outcome", 502%Z);
  ("tool_execution_not_found", 404%Z);
  ("invalid_execution_state", 409%Z);
  ("execution_attempt_not_found", 404%Z);
  ("idempotency_key_required", 422%Z);
  ("idempotency_conflict", 409%Z);
  ("idempotency_in_progress", 409%Z);
  ("idempotency_already_completed", 409%Z);
  ("idempotency_outcome_unknown", 409%Z);
  ("idempotency_previous_failed", 409%Z);
  ("tool_search_mode_unavailable", 503%Z);
  ("tool_search_reindex_job_not_found", 404%Z);
  ("tool_search_reindex_job_conflict", 409%Z);
  ("embedding_authentication_failed", 502%Z);
  ("embedding_rate_limited", 429%Z);
  ("embedding_unavailable", 503%Z);
  ("embedding_response_invalid", 502%Z);
  ("unsafe_upstream_endpoint", 403%Z) ].

(** [http_status_for]: 400 for a code the table does not list. *)
Definition http_status_for (e : nexus_error) : Z :=
  default 400%Z (dget (error_code e) http_status_by_error_code).

Record problem_details := ProblemDetails {
  pd_type : string; pd_title : string; pd_status : Z; pd_detail : string;
  pd_code : string; pd_request_id : option string }.

(** [http_error_body], given the request id of the log context. *)
Definition http_error_body (request_id : option string) (e : nexus_error) : problem_details :=
  ProblemDetails ("urn:nexusmcp:error:" +:+ error_code e) "Request rejected"
    (http_status_for e) (safe_message e) (error_code e) request_id.

(** ** Comparisons of [datetime]s, raising [TypeError] on mixed ones *)

Definition opt_type_error (o : option bool) : res bool :=
  match o with Some b => Ok b | None => Raise TypeError end.
Definition dt_le (a b : datetime) : res bool := opt_type_error (dt_leb a b).
Definition dt_lt (a b : datetime) : res bool := opt_type_error (dt_ltb a b).

Lemma dt_le_Ok a b r : dt_le a b = Ok r ↔
  dt_aware a = dt_aware b ∧ r = (dt_micros a <=? dt_micros b)%Z.
Proof.
  unfold dt_le, dt_leb, opt_type_error.
  destruct (dt_aware a), (dt_aware b); simpl; naive_solver.
Qed.

Lemma dt_lt_Ok a b r : dt_lt a b = Ok r ↔
  dt_aware a = dt_aware b ∧ r = (dt_micros a <? dt_micros b)%Z.
Proof.
  unfold dt_lt, dt_ltb, opt_type_error.
  destruct (dt_aware a), (dt_aware b); simpl; naive_solver.
Qed.

Lemma dt_le_total a b : dt_aware a = dt_aware b →
  dt_le a b = Ok (dt_micros a <=? dt_micros b)%Z.
Proof. intros. by apply dt_le_Ok. Qed.
