(* ===== verification/Json.v ===== *)
(** * JSON values, [json.dumps] and SHA-256

    Models [shared/digests.py] with the parts of the Python standard library
    it calls: [json.dumps(value, ensure_ascii=False, allow_nan=False,
    sort_keys=True, separators=(",", ":"))], UTF-8 encoding and
    [hashlib.sha256(...).hexdigest()].  A Python [dict] is its list of items,
    a [float] is the text [float.__repr__] prints for it. *)

From Stdlib Require Import ZArith NArith Ascii.
From stdpp Require Import base sets strings option list pretty.
From S2P Require Import Prelude Text Dict Errors.
Open Scope py_scope.

(** ** JSON values *)

#[local] Set Warnings "-register-all".

Inductive json :=
| JNull
| JBool (b : bool)
| JInt (z : Z)
| JFloat (repr : string)
| JStr (s : string)
| JArr (l : list json)
| JObj (d : dict json).

Fixpoint json_induction (P : json → Prop)
    (Hnull : P JNull) (Hbool : ∀ b, P (JBool b)) (Hint : ∀ z, P (JInt z))
    (Hfloat : ∀ r, P (JFloat r)) (Hstr : ∀ s, P (JStr s))
    (Harr : ∀ l, Forall P l → P (JArr l))
    (Hobj : ∀ d, Forall (λ kv, P kv.2) d → P (JObj d)) (j : json) : P j :=
  let rec := json_induction P Hnull Hbool Hint Hfloat Hstr Harr Hobj in
  match j with
  | JNull => Hnull
  | JBool b => Hbool b
  | JInt z => Hint z
  | JFloat r => Hfloat r
  | JStr s => Hstr s
  | JArr l =>
      Harr l ((fix go l : Forall P l :=
                 match l with
                 | [] => Forall_nil_2 _
                 | x :: l' => Forall_cons_2 _ _ _ (rec x) (go l')
                 end) l)
  | JObj d =>
      Hobj d ((fix go d : Forall (λ kv, P kv.2) d :=
                 match d with
                 | [] => Forall_nil_2 _
                 | kv :: d' => Forall_cons_2 _ _ _ (rec kv.2) (go d')
                 end) d)
  end.

#[export] Instance json_eq_dec : EqDecision json.
Proof.
  refine (fix go (x y : json) : Decision (x = y) :=
    match x, y with
    | JNull, JNull => left _
    | JBool a, JBool b => cast_if (decide (a = b))
    | JInt a, JInt b => cast_if (decide (a = b))
    | JFloat a, JFloat b => cast_if (decide (a = b))
    | JStr a, JStr b => cast_if (decide (a = b))
    | JArr a, JArr b => cast_if (@list_eq_dec _ go a b)
    | JObj a, JObj b => cast_if (@list_eq_dec _ (@prod_eq_dec _ _ _ go) a b)
    | _, _ => right _
    end); clear go; abstract congruence.
Defined.

(** ** [json.dumps] *)

Definition hex_digit (n : N) : ascii :=
  ascii_of_N (if (n <? 10)%N then 48 + n else 87 + n).

(** [json.encoder]'s escapes with [ensure_ascii=False]. *)
Definition escape_char (c : ascii) : string :=
  let n := code c in
  if (n =? 34)%N then String "\"%char (String c "")
  else if (n =? 92)%N then "\\"
  else if (n =? 10)%N then "\n"
  else if (n =? 13)%N then "\r"
  else if (n =? 9)%N then "\t"
  else if (n =? 8)%N then "\b"
  else if (n =? 12)%N then "\f"
  else if (n <? 32)%N
  then "\u00" +:+ String (hex_digit (n / 16)) (String (hex_digit (n mod 16)) "")
  else String c "".

Fixpoint escape (s : string) : string :=
  match s with EmptyString => "" | String c s' => escape_char c +:+ escape s' end.

Definition quote_mark : string := String (ascii_of_N 34) "".
Definition quoted (s : string) : string := quote_mark +:+ escape s +:+ quote_mark.

Definition item_leb (a b : string * string) : bool := str_leb a.1 b.1.

Fixpoint dumps (j : json) : string :=
  match j with
  | JNull => "null"
  | JBool b => if b then "true" else "false"
  | JInt z => pretty z
  | JFloat r => r
  | JStr s => quoted s
  | JArr l => "[" +:+ str_join "," (map dumps l) +:+ "]"
  | JObj d =>
      "{" +:+ str_join "," (map (λ kv, quoted kv.1 +:+ ":" +:+ kv.2)
                         (sorted_by item_leb (map (λ kv, (kv.1, dumps kv.2)) d))) +:+ "}"
  end.

(** No [nan] or infinity anywhere: what [allow_nan=False] demands. *)
Fixpoint json_finite (j : json) : bool :=
  match j with
  | JFloat r => negb (bool_decide (r ∈ ["nan"; "inf"; "-inf"]))
  | JArr l => forallb json_finite l
  | JObj d => forallb (λ kv, json_finite kv.2) d
  | _ => true
  end.

(** ** SHA-256 *)

Module Sha256.
Open Scope N_scope.

Definition K : list N := [
 1116352408; 1899447441; 3049323471; 3921009573; 961987163; 1508970993;
 2453635748; 2870763221; 3624381080; 310598401; 607225278; 1426881987;
 1925078388; 2162078206; 2614888103; 3248222580; 3835390401; 4022224774;
 264347078; 604807628; 770255983; 1249150122; 1555081692; 1996064986;
 2554220882; 2821834349; 2952996808; 3210313671; 3336571891; 3584528711;
 113926993; 338241895; 666307205; 773529912; 1294757372; 1396182291;
 1695183700; 1986661051; 2177026350; 2456956037; 2730485921; 2820302411;
 3259730800; 3345764771; 3516065817; 3600352804; 4094571909; 275423344;
 430227734; 506948616; 659060556; 883997877; 958139571; 1322822218;
 1537002063; 1747873779; 1955562222; 2024104815; 2227730452; 2361852424;
 2428436474; 2756734187; 3204031479; 3329325298 ].
Definition H0 : list N := [
 1779033703; 3144134277; 1013904242; 2773480762; 1359893119; 2600822924;
 528734635; 1541459225 ].

Definition w32 (n : N) : N := N.land n 4294967295.
Definition add32 (a b : N) : N := w32 (a + b).
Definition rotr (n x : N) : N := N.lor (N.shiftr x n) (w32 (N.shiftl x (32 - n))).
Definition ch (x y z : N) : N := N.lxor (N.land x y) (N.land (N.lxor x 4294967295) z).
Definition maj (x y z : N) : N :=
  N.lxor (N.land x y) (N.lxor (N.land x z) (N.land y z)).
Definition big0 x := N.lxor (rotr 2 x) (N.lxor (rotr 13 x) (rotr 22 x)).
Definition big1 x := N.lxor (rotr 6 x) (N.lxor (rotr 11 x) (rotr 25 x)).
Definition small0 x := N.lxor (rotr 7 x) (N.lxor (rotr 18 x) (N.shiftr x 3)).
Definition small1 x := N.lxor (rotr 17 x) (N.lxor (rotr 19 x) (N.shiftr x 10)).

(** The message schedule, most recent word first. *)
Fixpoint schedule (n : nat) (ws : list N) : list N :=
  match n with
  | O => ws
  | S n' =>
      let w i := nth i ws 0 in
      let x := add32 (add32 (small1 (w 1%nat)) (w 6%nat))
                     (add32 (small0 (w 14%nat)) (w 15%nat)) in
      schedule n' (x :: ws)
  end.

Definition round (st : list N) (kw : N * N) : list N :=
  match st with
  | [a; b; c; d; e; f; g; h] =>
      let t1 := add32 (add32 h (big1 e)) (add32 (ch e f g) (add32 kw.1 kw.2)) in
      let t2 := add32 (big0 a) (maj a b c) in
      [add32 t1 t2; a; b; c; add32 d t1; e; f; g]
  | _ => st
  end.

Definition compress (h block : list N) : list N :=
  let ws := rev (schedule 48 (rev block)) in
  zip_with add32 h (foldl round h (zip K ws)).

Definition word (bs : list N) : N := foldl (λ acc b, acc * 256 + b) 0 bs.

Fixpoint words (fuel : nat) (bs : list N) : list N :=
  match fuel, bs with
  | S f, _ :: _ => word (take 4 bs) :: words f (drop 4 bs)
  | _, _ => []
  end.

Fixpoint blocks (fuel : nat) (h : list N) (ws : list N) : list N :=
  match fuel, ws with
  | S f, _ :: _ => blocks f (compress h (take 16 ws)) (drop 16 ws)
  | _, _ => h
  end.

Definition bytes_be (n : nat) (x : N) : list N :=
  map (λ i, N.land (N.shiftr x (8 * N.of_nat i)) 255) (rev (seq 0 n)).

Definition pad (bs : list N) : list N :=
  let len := length bs in
  let zeros := ((119 - len mod 64) mod 64)%nat in
  bs ++ 128 :: replicate zeros 0 ++ bytes_be 8 (8 * N.of_nat len).

Definition digest (bs : list N) : list N :=
  let p := pad bs in
  let ws := words (length p) p in
  blocks (length ws) H0 ws.

Fixpoint hex_bytes (bs : list N) : string :=
  match bs with
  | [] => ""
  | b :: bs' => String (hex_digit (b / 16)) (String (hex_digit (b mod 16)) (hex_bytes bs'))
  end.

Definition hexdigest (bs : list N) : string :=
  hex_bytes (mjoin (map (bytes_be 4) (digest bs))).
End Sha256.

(** [s.encode("utf-8")] *)
Fixpoint utf8 (s : string) : list N :=
  match s with
  | EmptyString => []
  | String c s' =>
      let n := code c in
      if (n <? 128)%N then n :: utf8 s'
      else (192 + n / 64)%N :: (128 + n mod 64)%N :: utf8 s'
  end.

Definition sha256_hex (s : string) : string := Sha256.hexdigest (utf8 s).

(** [canonical_json_digest] *)
Definition canonical_json_digest (value : json) : res string :=
  if json_finite value then Ok (sha256_hex (dumps value))
  else Raise (ValueError "Out of range float values are not JSON compliant").

(** *** The digest is canonical: the order of a dictionary's items is not seen *)

Lemma sorted_items_canonical (d d' : dict string) :
  NoDup (dkeys d) → d ≡ₚ d' → sorted_by item_leb d = sorted_by item_leb d'.
Proof.
  intros Hnd Hp. apply (ordered_unique item_leb).
  - intros [k v] [k' v']. rewrite !elem_of_sorted_by. unfold item_leb; simpl.
    intros Hx Hy ??. assert (k = k') as -> by by apply str_leb_antisym.
    f_equal. apply dget_mem in Hx, Hy; [congruence|done|done].
  - apply sorted_by_ordered; intros; [apply str_leb_total|eapply str_leb_trans; eauto].
  - apply sorted_by_ordered; intros; [apply str_leb_total|eapply str_leb_trans; eauto].
  - by rewrite !sorted_by_perm.
Qed.

Lemma dumps_permutation (d d' : dict json) :
  NoDup (dkeys d) → d ≡ₚ d' → dumps (JObj d) = dumps (JObj d').
Proof.
  intros Hnd Hp. simpl. do 4 f_equal. apply sorted_items_canonical; [|by rewrite Hp].
  unfold dkeys in *. by rewrite <-list_fmap_compose.
Qed.

(** *** A SHA-256 hex digest is 64 lowercase hexadecimal digits *)

Definition is_hex_digest (s : string) : bool :=
  (String.length s =? 64)%nat && all_chars (char_in "0123456789abcdef") s.

Module Sha256Facts.
Import Sha256.

Lemma round_length st kw : length (round st kw) = length st.
Proof. by do 9 (destruct st as [|? st]; [done|]). Qed.

Lemma rounds_length l st : length (foldl round st l) = length st.
Proof. revert st. induction l; intros st; simpl; [done|]. by rewrite IHl, round_length. Qed.

Lemma compress_length h b : length (compress h b) = length h.
Proof. unfold compress. rewrite length_zip_with, rounds_length. lia. Qed.

Lemma blocks_length n h ws : length (blocks n h ws) = length h.
Proof.
  revert h ws. induction n as [|n IH]; intros h [|w ws]; simpl; try done.
  by rewrite IH, compress_length.
Qed.

Lemma hex_digit_char n : (n < 16)%N → char_in "0123456789abcdef" (hex_digit n) = true.
Proof.
  intros H. assert (In n (map N.of_nat (seq 0 16))) as Hin.
  { apply in_map_iff. exists (N.to_nat n). rewrite in_seq. lia. }
  simpl in Hin. by repeat (destruct Hin as [<-|Hin]; [reflexivity|]).
Qed.

Lemma bytes_be_bound n x b : b ∈ bytes_be n x → (b < 256)%N.
Proof.
  unfold bytes_be. rewrite list_elem_of_In, in_map_iff. intros (i & <- & _).
  change 255%N with (N.ones 8). rewrite N.land_ones. by apply N.mod_lt.
Qed.

Lemma hex_length l :
  String.length (hex_bytes l) = (2 * length l)%nat.
Proof. induction l; simpl; [done|]. rewrite IHl. lia. Qed.

Lemma hex_chars l : Forall (λ b, (b < 256)%N) l →
  all_chars (char_in "0123456789abcdef") (hex_bytes l) = true.
Proof.
  induction 1 as [|b l Hb _ IH]; [done|].
  cbn [hex_bytes all_chars]. rewrite IH, !hex_digit_char; [done|by apply N.mod_lt|].
  apply N.Div0.div_lt_upper_bound; lia.
Qed.

Lemma digest_bytes_length ws : length (mjoin (map (bytes_be 4) ws)) = (4 * length ws)%nat.
Proof. induction ws; simpl; [done|]. rewrite IHws. lia. Qed.
End Sha256Facts.

Lemma sha256_hex_is_hex_digest s : is_hex_digest (sha256_hex s) = true.
Proof.
  unfold is_hex_digest, sha256_hex, Sha256.hexdigest. apply andb_true_iff. split.
  - rewrite Sha256Facts.hex_length, Sha256Facts.digest_bytes_length. unfold Sha256.digest.
    by rewrite Sha256Facts.blocks_length.
  - apply Sha256Facts.hex_chars, Forall_forall. intros b.
    rewrite list_elem_of_join. intros (l & Hb & Hl).
    apply list_elem_of_In, in_map_iff in Hl as (w & <- & _).
    by eapply Sha256Facts.bytes_be_bound.
Qed.
#[export] Hint Resolve sha256_hex_is_hex_digest : py.

Lemma hex_char_not_space c : char_in "0123456789abcdef" c = true → is_space c = false.
Proof.
  assert (forallb (λ n, implb (char_in "0123456789abcdef" (ascii_of_nat n))
                              (negb (is_space (ascii_of_nat n)))) (seq 0 256) = true) as Hall.
  { vm_compute. reflexivity. }
  rewrite forallb_forall in Hall. intros Hc.
  specialize (Hall (nat_of_ascii c)). rewrite ascii_nat_embedding, Hc in Hall.
  apply negb_true_iff, Hall, in_seq. pose proof (nat_ascii_bounded c). lia.
Qed.

Lemma is_hex_digest_not_blank s : is_hex_digest s = true → blank s = false.
Proof.
  unfold is_hex_digest. intros H. py_bools. rewrite blank_spec.
  destruct s as [|c s]; [done|]. simpl in *. py_bools.
  by rewrite hex_char_not_space.
Qed.
