(* ===== verification/Store.v ===== *)
(** * Ports, stores and the unit of work

    The use cases reach the outside through ports: a clock, an identifier
    generator, and collaborators whose calls are observable.  [Ports] gives
    the value each reading of the clock and of the generator returns; [env]
    counts the readings and logs the observable calls in order.

    A unit of work is the one of the in-memory adapters
    ([modules/*/adapters/in_memory_uow.py]): entering copies the committed
    stores to a working copy (the adapter's lock makes the whole [async with]
    block one atomic step), repositories read and write the working copy,
    [commit] replaces the committed stores by it, leaving drops it.  Access
    outside the block raises [RuntimeError].

    [Table] is the interface between a component's repository and the stores
    it lives in: a lens to the table holding one kind of entity. *)

From Stdlib Require Import ZArith QArith.
From stdpp Require Import base sets strings option list.
From S2P Require Import Prelude Text Dict Errors.
Open Scope py_scope.

(** ** Ports and the environment *)

(** [Clock.now] and [IdentifierGenerator.new_id], by the reading's number. *)
Class Ports := {
  clock_now : nat → datetime;
  identifier : nat → string }.

(** Calls to collaborators outside the program that theorems count. *)
Inductive io_event :=
| IoExecute (execution_id : string)
| IoSleep (seconds : Q)
| IoValidateEndpoint (endpoint : string)
| IoResolveSecret (reference : string).

Record env := Env { ticks : nat; issued : nat; io_log : list io_event }.

Record st (D : Type) := St { store : D; working : option D; environment : env }.
Arguments St {D}.
Arguments store {D}.
Arguments working {D}.
Arguments environment {D}.

Definition M (D A : Type) : Type := SE exn (st D) A.

(** The interface of one table inside a store. *)
Class Table (D V : Type) := {
  table : D → dict V;
  set_table : dict V → D → D;
  table_set t d : table (set_table t d) = t;
  set_table_same d : set_table (table d) d = d;
  set_table_set t t' d : set_table t (set_table t' d) = set_table t d }.

Section Operations.
Context {D : Type} `{Ports}.

Definition now : M D datetime := λ s,
  let e := environment s in
  (Ok (clock_now (ticks e)),
   St (store s) (working s) (Env (S (ticks e)) (issued e) (io_log e))).

Definition new_id : M D string := λ s,
  let e := environment s in
  (Ok (identifier (issued e)),
   St (store s) (working s) (Env (ticks e) (S (issued e)) (io_log e))).

Definition emit (ev : io_event) : M D unit := λ s,
  let e := environment s in
  (Ok tt, St (store s) (working s) (Env (ticks e) (issued e) (io_log e ++ [ev]))).

Definition get_log : M D (list io_event) := λ s, (Ok (io_log (environment s)), s).

(** [async with unit_of_work_factory() as unit_of_work: body] *)
Definition with_uow {A} (body : M D A) : M D A := λ s,
  let '(r, s') := body (St (store s) (Some (store s)) (environment s)) in
  (r, St (store s') None (environment s')).

Definition uow_error : exn :=
  RuntimeError "unit of work must be entered before transaction control".

Definition commit : M D unit := λ s,
  match working s with
  | Some d => (Ok tt, St d (Some d) (environment s))
  | None => (Raise uow_error, s)
  end.

Definition rollback : M D unit := λ s,
  match working s with
  | Some _ => (Ok tt, St (store s) (Some (store s)) (environment s))
  | None => (Raise uow_error, s)
  end.

Context {V : Type} `{Table D V}.

(** The repository's dictionary in the unit of work. *)
Definition read_table : M D (dict V) := λ s,
  match working s with
  | Some d => (Ok (table d), s)
  | None => (Raise uow_error, s)
  end.

Definition write_table (t : dict V) : M D unit := λ s,
  match working s with
  | Some d => (Ok tt, St (store s) (Some (set_table t d)) (environment s))
  | None => (Raise uow_error, s)
  end.
End Operations.

Arguments read_table {D V _}.

(** ** Computations that leave the committed stores alone *)

Section Frame.
Context {D : Type} `{Ports}.

Definition no_commit {A} (m : M D A) : Prop := ∀ s, store (m s).2 = store s.

Lemma no_commit_ret {A} (a : A) : no_commit (ret a).
Proof. done. Qed.
Lemma no_commit_raise {A} e : no_commit (A := A) (raise e).
Proof. done. Qed.
Lemma no_commit_lift {A} (r : res A) : no_commit (lift r).
Proof. done. Qed.
Lemma no_commit_now : no_commit now.
Proof. done. Qed.
Lemma no_commit_new_id : no_commit new_id.
Proof. done. Qed.
Lemma no_commit_emit ev : no_commit (emit ev).
Proof. done. Qed.
Lemma no_commit_bind {A B} (m : M D A) (k : A → M D B) :
  no_commit m → (∀ a, no_commit (k a)) → no_commit (bind m k).
Proof.
  intros Hm Hk s. unfold bind. specialize (Hm s).
  destruct (m s) as [[a|e] s'] eqn:E; simpl in *; [|done]. by rewrite Hk.
Qed.
Lemma no_commit_read {V} `{Table D V} : no_commit (read_table (V := V)).
Proof. intros s. unfold read_table. by case_match. Qed.
Lemma no_commit_write {V} `{Table D V} t : no_commit (write_table (V := V) t).
Proof. intros s. unfold write_table. by case_match. Qed.

(** A unit of work whose body never commits changes nothing. *)
Lemma with_uow_no_commit {A} (m : M D A) s r s' :
  no_commit m → with_uow m s = (r, s') → store s' = store s ∧ working s' = None.
Proof.
  intros Hm. unfold with_uow.
  specialize (Hm (St (store s) (Some (store s)) (environment s))).
  destruct (m _) as [r' s''] eqn:E. simpl in *. intros ?; by simplify_eq/=.
Qed.
End Frame.

#[export] Hint Resolve no_commit_ret no_commit_raise no_commit_lift no_commit_now
  no_commit_new_id no_commit_emit no_commit_bind no_commit_read no_commit_write : py.

(** Run a computation in hypothesis [H : m s = (r, s')] one primitive at a
    time, keeping the branches that can happen. *)
Ltac run_uow H :=
  unfold with_uow, bind, ret, raise, lift, now, new_id, emit, get_log, commit, rollback,
    read_table, write_table, rbind, raise_if, try_except in H; simpl in H;
  repeat (first [progress simplify_eq/= | case_match; simpl in *]).

(** ** Computations without observable calls *)

Section Quiet.
Context {D : Type} `{Ports}.

Definition quiet {A} (m : M D A) : Prop :=
  ∀ s, io_log (environment (m s).2) = io_log (environment s).

Lemma quiet_ret {A} (a : A) : quiet (ret a).
Proof. done. Qed.
Lemma quiet_raise {A} e : quiet (A := A) (raise e).
Proof. done. Qed.
Lemma quiet_lift {A} (r : res A) : quiet (lift r).
Proof. done. Qed.
Lemma quiet_now : quiet now.
Proof. done. Qed.
Lemma quiet_new_id : quiet new_id.
Proof. done. Qed.
Lemma quiet_commit : quiet commit.
Proof. intros s. unfold commit. by case_match. Qed.
Lemma quiet_bind {A B} (m : M D A) (k : A → M D B) :
  quiet m → (∀ a, quiet (k a)) → quiet (bind m k).
Proof.
  intros Hm Hk s. unfold bind. specialize (Hm s).
  destruct (m s) as [[a|e] s'] eqn:E; simpl in *; [|done]. by rewrite Hk.
Qed.
Lemma quiet_try {A} (m : M D A) h : quiet m → (∀ x, quiet (h x)) → quiet (try_except m h).
Proof.
  intros Hm Hh s. unfold try_except. specialize (Hm s).
  destruct (m s) as [[a|e] s'] eqn:E; simpl in *; [done|]. by rewrite Hh.
Qed.
Lemma quiet_read {V} `{Table D V} : quiet (read_table (V := V)).
Proof. intros s. unfold read_table. by case_match. Qed.
Lemma quiet_write {V} `{Table D V} t : quiet (write_table (V := V) t).
Proof. intros s. unfold write_table. by case_match. Qed.
Lemma quiet_with_uow {A} (m : M D A) : quiet m → quiet (with_uow m).
Proof.
  intros Hm s. unfold with_uow. specialize (Hm (St (store s) (Some (store s)) (environment s))).
  by destruct (m _) as [r s'].
Qed.

(** A quiet computation in front of another leaves the log to it. *)
Lemma quiet_log {A} (m : M D A) s r s' :
  quiet m → m s = (r, s') → io_log (environment s') = io_log (environment s).
Proof. intros Hm E. specialize (Hm s). by rewrite E in Hm. Qed.
End Quiet.

Create HintDb quiet discriminated.
#[export] Hint Resolve quiet_ret quiet_raise quiet_lift quiet_now quiet_new_id quiet_commit
  quiet_bind quiet_try quiet_read quiet_write quiet_with_uow : quiet.

Ltac quiet_solve :=
  repeat first [progress intros | done | progress auto with quiet | apply quiet_bind
    | apply quiet_try | apply quiet_with_uow | case_match | case_decide].

(** ** Transactions: computations inside a unit of work

    [tx m]: run inside a unit of work, [m] leaves it open and the committed
    stores alone.  Such a body followed by [commit] is all or nothing. *)

Section Transactions.
Context {D : Type} `{Ports}.

Definition tx {A} (m : M D A) : Prop :=
  ∀ c d e r s', m (St c (Some d) e) = (r, s') → ∃ d' e', s' = St c (Some d') e'.

Lemma tx_ret {A} (a : A) : tx (ret a).
Proof. intros ????? [= _ <-]. eauto. Qed.
Lemma tx_raise {A} x : tx (A := A) (raise x).
Proof. intros ????? [= _ <-]. eauto. Qed.
Lemma tx_lift {A} (r : res A) : tx (lift r).
Proof. intros ????? [= _ <-]. eauto. Qed.
Lemma tx_now : tx now.
Proof. intros ????? [= _ <-]. eauto. Qed.
Lemma tx_new_id : tx new_id.
Proof. intros ????? [= _ <-]. eauto. Qed.
Lemma tx_emit ev : tx (emit ev).
Proof. intros ????? [= _ <-]. eauto. Qed.
Lemma tx_get_log : tx get_log.
Proof. intros ????? [= _ <-]. eauto. Qed.
Lemma tx_read {V} `{Table D V} : tx (read_table (V := V)).
Proof. intros ????? [= _ <-]. eauto. Qed.
Lemma tx_write {V} `{Table D V} t : tx (write_table (V := V) t).
Proof. intros ????? [= _ <-]. eauto. Qed.
Lemma tx_bind {A B} (m : M D A) (k : A → M D B) : tx m → (∀ a, tx (k a)) → tx (bind m k).
Proof.
  intros Hm Hk c d e r s'. unfold bind. destruct (m _) as [[a|x] s1] eqn:E;
    destruct (Hm _ _ _ _ _ E) as (d1 & e1 & ->); [apply Hk|].
  intros [= _ <-]. eauto.
Qed.

(** Like [tx], for a body whose last call before returning is [commit]. *)
Definition atomic {A} (m : M D A) : Prop :=
  ∀ c d e r s', m (St c (Some d) e) = (r, s') →
    match r with
    | Ok _ => ∃ d' e', s' = St d' (Some d') e'
    | Raise _ => ∃ d' e', s' = St c (Some d') e'
    end.

Lemma atomic_commit_ret {A} (a : A) : atomic (commit ;;* ret a).
Proof. intros ????? [= <- <-]. eauto. Qed.
Lemma atomic_commit : atomic commit.
Proof. intros ????? [= <- <-]. eauto. Qed.
Lemma atomic_raise {A} x : atomic (A := A) (raise x).
Proof. intros ????? [= <- <-]. eauto. Qed.
Lemma atomic_bind {A B} (m : M D A) (k : A → M D B) :
  tx m → (∀ a, atomic (k a)) → atomic (bind m k).
Proof.
  intros Hm Hk c d e r s'. unfold bind. destruct (m _) as [[a|x] s1] eqn:E;
    destruct (Hm _ _ _ _ _ E) as (d1 & e1 & ->); [apply Hk|].
  intros [= <- <-]. eauto.
Qed.

Lemma with_uow_atomic {A} (m : M D A) d e r s' :
  atomic m → with_uow m (St d None e) = (r, s') →
  ∃ e', (∃ x, r = Raise x ∧ s' = St d None e' ∧ (m (St d (Some d) e)).1 = Raise x) ∨
    (∃ a d', r = Ok a ∧ s' = St d' None e' ∧ m (St d (Some d) e) = (Ok a, St d' (Some d') e')).
Proof.
  intros Hm. unfold with_uow. simpl. destruct (m _) as [[a|x] s1] eqn:E;
    destruct (Hm _ _ _ _ _ E) as (d1 & e1 & ->); simpl; intros [= <- <-]; eauto 10.
Qed.

(** A body that ends with [commit] is all or nothing. *)
Lemma transaction_inv {A} (m : M D A) d e r s' :
  tx m → with_uow (bind m (λ a, commit ;;* ret a)) (St d None e) = (r, s') →
  ∃ e', (∃ x, r = Raise x ∧ s' = St d None e' ∧ (m (St d (Some d) e)).1 = Raise x) ∨
    (∃ a d', r = Ok a ∧ s' = St d' None e' ∧ m (St d (Some d) e) = (Ok a, St d (Some d') e')).
Proof.
  intros Hm. unfold with_uow, bind, commit, ret. simpl.
  destruct (m _) as [[a|x] s1] eqn:E; destruct (Hm _ _ _ _ _ E) as (d1 & e1 & ->); simpl;
    intros [= <- <-]; eauto 10.
Qed.
End Transactions.

Create HintDb tx discriminated.
#[export] Hint Resolve tx_ret tx_raise tx_lift tx_now tx_new_id tx_emit tx_get_log
  tx_read tx_write : tx.

(** Prove [tx m] by the structure of [m]. *)
Ltac tx_solve :=
  repeat first
    [ progress intros
    | solve [eauto 2 with tx]
    | apply tx_bind
    | progress case_match
    | progress simpl ].

Section Inversions.
Context {D : Type} `{Ports}.
Implicit Types (s : st D) (d : D).

Lemma lift_Ok_inv {A} (r : res A) s a s' : lift r s = (Ok a, s') → r = Ok a ∧ s' = s.
Proof. by intros [= -> ->]. Qed.
Lemma ret_Ok_inv {A} (x : A) s a s' : ret x s = (Ok (E := exn) a, s') → a = x ∧ s' = s.
Proof. by intros [= -> ->]. Qed.
Lemma now_inv c (d : option D) e r s' :
  now (St c d e) = (r, s') →
  r = Ok (clock_now (ticks e)) ∧ s' = St c d (Env (S (ticks e)) (issued e) (io_log e)).
Proof. by intros [= <- <-]. Qed.
Lemma new_id_inv c (d : option D) e r s' :
  new_id (St c d e) = (r, s') →
  r = Ok (identifier (issued e)) ∧ s' = St c d (Env (ticks e) (S (issued e)) (io_log e)).
Proof. by intros [= <- <-]. Qed.
Lemma emit_inv ev c (d : option D) e r s' :
  emit ev (St c d e) = (r, s') →
  r = Ok tt ∧ s' = St c d (Env (ticks e) (issued e) (io_log e ++ [ev])).
Proof. by intros [= <- <-]. Qed.
Lemma get_log_inv c (d : option D) e r s' :
  get_log (St c d e) = (r, s') → r = Ok (io_log e) ∧ s' = St c d e.
Proof. by intros [= <- <-]. Qed.
Lemma read_table_inv {V} `{Table D V} c d e r s' :
  read_table (St c (Some d) e) = (r, s') → r = Ok (table d) ∧ s' = St c (Some d) e.
Proof. by intros [= <- <-]. Qed.
Lemma commit_inv c d e r s' :
  commit (St c (Some d) e) = (r, s') → r = Ok tt ∧ s' = St d (Some d) e.
Proof. by intros [= <- <-]. Qed.
Lemma write_table_inv {V} `{Table D V} t c d e r s' :
  write_table t (St c (Some d) e) = (r, s') → r = Ok tt ∧ s' = St c (Some (set_table t d)) e.
Proof. by intros [= <- <-]. Qed.
End Inversions.

(** Use an inversion of a call that cannot fail, substituting its results. *)
Ltac ok_subst H L :=
  let Hr := fresh in let Hs := fresh in
  apply L in H as [Hr Hs]; try (injection Hr as Hr); subst.

(** Prove [atomic m] by the structure of [m]. *)
Ltac atomic_solve :=
  repeat first
    [ progress intros
    | apply atomic_commit_ret
    | apply atomic_commit
    | apply atomic_raise
    | (apply atomic_bind; [solve [tx_solve]|])
    | progress case_match
    | progress simpl ].

(** What [ok_inv] does with a call that is not primitive: the components
    redefine it to use the lemmas on their repositories. *)
Ltac ok_call H := idtac.

(** Use a lemma [m s = (Ok a, s') → facts ∧ s' = ...]. *)
Ltac ok_use H L :=
  apply L in H;
  repeat match type of H with
  | _ ∧ _ => let K := fresh "K" in destruct H as [K H]
  end; subst.

(** Invert a run [H : m s = (Ok a, s')], one call at a time; calls that are
    not primitive stay as hypotheses [G], [G0], ... *)
Ltac ok_inv H :=
  cbv beta iota in H;
  lazymatch type of H with
  | bind _ _ _ = (Ok _, _) =>
      let G := fresh "G" in
      apply bind_Ok_inv in H as (? & ? & G & H); ok_inv G; ok_inv H
  | lift _ _ = (Ok _, _) =>
      let Hs := fresh in apply lift_Ok_inv in H as [H Hs]; subst
  | ret _ _ = (Ok _, _) => ok_subst H ret_Ok_inv
  | raise _ _ = (Ok _, _) => discriminate H
  | now _ = _ => ok_subst H @now_inv
  | new_id _ = _ => ok_subst H @new_id_inv
  | emit _ _ = _ => ok_subst H @emit_inv
  | get_log _ = _ => ok_subst H @get_log_inv
  | read_table _ = _ => ok_subst H @read_table_inv
  | write_table _ _ = _ => ok_subst H @write_table_inv
  | commit _ = _ => ok_subst H @commit_inv
  | match ?o with _ => _ end _ = (Ok _, _) =>
      let E := fresh "E" in destruct o eqn:E; ok_inv H
  | _ => ok_call H
  end.

(** ** Reachability: zero or more steps of a transition relation *)

Section Star.
Context {S : Type} (step : S → S → Prop).

Inductive star : S → S → Prop :=
| star_refl s : star s s
| star_step s s' s'' : step s s' → star s' s'' → star s s''.

Lemma star_invariant (I : S → Prop) :
  (∀ s s', I s → step s s' → I s') → ∀ s s', I s → star s s' → I s'.
Proof. intros Hstep s s' Hs Hstar. induction Hstar; eauto. Qed.

Lemma star_one s s' : step s s' → star s s'.
Proof. eauto using star. Qed.

Lemma star_trans s s' s'' : star s s' → star s' s'' → star s s''.
Proof. induction 1; eauto using star. Qed.
End Star.

(** Concrete ports, to evaluate the definitions on examples. *)
Definition sample_ports : Ports := {|
  clock_now n := Datetime (1000 + Z.of_nat n) true;
  identifier n := String (Ascii.ascii_of_nat (97 + n)) "-id" |}.
