(* ===== verification/AuditTrail.v ===== *)
(** * Audit: events, scope evidence and the append-only repository

    Models [modules/audit/domain.py], [modules/audit/scope.py] and
    [modules/audit/adapters/in_memory.py]. *)

From Stdlib Require Import ZArith Ascii.
From stdpp Require Import base sets strings option list.
From S2P Require Import Prelude Text Dict Errors Store.
Open Scope py_scope.

(** ** Request context ([shared/request_context.py]) *)

Record ActorContext := mkActorContext {
  ctx_request_id : string;
  ctx_trace_id : string;
  ctx_tenant_id : string;
  ctx_principal_id : string;
  ctx_authn_method : string;
  ctx_principal_type : string }.

Definition anonymous_principal_id : string := "anonymous".

(** ** Audit events *)

Inductive AuditAction := ActToolCall | ActApprovalDecision | ActCredentialResolution.

Inductive AuditOutcome :=
| OutAllowed | OutDenied | OutApprovalRequired | OutSucceeded | OutFailed
| OutUnknown | OutCancelled.

#[export] Instance audit_action_eq_dec : EqDecision AuditAction.
Proof. solve_decision. Defined.
#[export] Instance audit_outcome_eq_dec : EqDecision AuditOutcome.
Proof. solve_decision. Defined.

(** [AuditMetadataValue] without [float], which no event carries. *)
Inductive meta_value := MStr (s : string) | MInt (z : Z) | MBool (b : bool) | MNone.
#[export] Instance meta_value_eq_dec : EqDecision meta_value.
Proof. solve_decision. Defined.

Record AuditEvent := mkAuditEvent {
  ae_id : string;
  ae_tenant_id : string;
  ae_actor_id : string;
  ae_action : AuditAction;
  ae_resource_type : string;
  ae_resource_id : string;
  ae_outcome : AuditOutcome;
  ae_request_id : string;
  ae_trace_id : string;
  ae_occurred_at : datetime;
  ae_arguments_digest : option string;
  ae_policy_version : option string;
  ae_reason_code : option string;
  ae_execution_id : option string;
  ae_metadata : option (dict meta_value) }.

#[export] Instance audit_event_eq_dec : EqDecision AuditEvent.
Proof. solve_decision. Defined.

Definition audit_sensitive_keys : list string :=
  ["api_key"; "arguments"; "authorization"; "cookie"; "password"; "result";
   "secret"; "token"].

Definition normalized_key (k : string) : string :=
  replace_char "-"%char "_"%char (lower (strip k)).

(** [AuditEvent.__post_init__] *)
Definition new_audit_event (e : AuditEvent) : res AuditEvent :=
  require_non_blank
    [("audit id", ae_id e); ("tenant id", ae_tenant_id e); ("actor id", ae_actor_id e);
     ("resource type", ae_resource_type e); ("resource id", ae_resource_id e);
     ("request id", ae_request_id e); ("trace id", ae_trace_id e)] ;;?
  match ae_metadata e with
  | None => Ok e
  | Some m =>
      raise_if (existsb (λ k, bool_decide (normalized_key k ∈ audit_sensitive_keys)) (dkeys m))
        (ValueError "audit metadata must not contain sensitive fields") ;;?
      Ok e
  end.

(** ** MCP scope evidence *)

Record McpScopeAuditEvidence := mkScopeEvidence {
  sev_scope_type : string;
  sev_toolset_id : option string;
  sev_toolset_revision : option Z;
  sev_toolset_slug : option string }.

(** [McpScopeAuditEvidence.__post_init__] *)
Definition new_scope_evidence (v : McpScopeAuditEvidence) : res McpScopeAuditEvidence :=
  raise_if (negb (bool_decide (sev_scope_type v ∈ ["root"; "toolset"])))
    (ValueError "audit MCP scope type was invalid") ;;?
  raise_if (bool_decide (sev_scope_type v = "root")
            && (bool_decide (is_Some (sev_toolset_id v))
                || bool_decide (is_Some (sev_toolset_revision v))
                || bool_decide (is_Some (sev_toolset_slug v))))
    (ValueError "root audit scope must not contain toolset context") ;;?
  raise_if (negb (Bool.eqb (bool_decide (sev_toolset_id v = None))
                           (bool_decide (sev_toolset_revision v = None))))
    (ValueError "audit toolset id and revision must appear together") ;;?
  raise_if (match sev_toolset_revision v with Some r => (r <=? 0)%Z | None => false end)
    (ValueError "audit toolset revision must be positive") ;;?
  Ok v.

Definition opt_entry (k : string) (v : option meta_value) : dict meta_value :=
  match v with Some x => [(k, x)] | None => [] end.

(** [McpScopeAuditEvidence.metadata] *)
Definition scope_metadata (v : McpScopeAuditEvidence) (denial_reason_code : option string) :
    dict meta_value :=
  let default_reason :=
    if bool_decide (sev_scope_type v = "toolset") then "active_toolset_grant"
    else "granted_toolset_union" in
  let reason :=
    match denial_reason_code with
    | Some r => if str_empty r then default_reason else r
    | None => default_reason
    end in
  [("mcp_scope_type", MStr (sev_scope_type v)); ("scope_reason_code", MStr reason)]
  ++ opt_entry "toolset_id" (MStr <$> sev_toolset_id v)
  ++ opt_entry "toolset_revision" (MInt <$> sev_toolset_revision v)
  ++ opt_entry "toolset_slug" (MStr <$> sev_toolset_slug v).

Definition scope_audit_metadata (scope_type : string) (toolset_id : option string)
    (toolset_revision : option Z) (toolset_slug denial : option string) :
    res (dict meta_value) :=
  let? v := new_scope_evidence
              (mkScopeEvidence scope_type toolset_id toolset_revision toolset_slug) in
  Ok (scope_metadata v denial).

(** ** [InMemoryAuditRepository] *)

Section Repository.
Context {D : Type} `{Table D AuditEvent}.

Definition audits_append (e : AuditEvent) : M D unit :=
  let* t := read_table in
  lift (raise_if (dmem (ae_id e) t) (ValueError "audit event id already exists")) ;;*
  write_table (dset (ae_id e) e t).
End Repository.

Definition audits_list_by_tenant (tenant_id : string) (t : dict AuditEvent) : list AuditEvent :=
  filter (λ e, ae_tenant_id e = tenant_id) (dvalues t).

Definition audits_list_by_execution (tenant_id execution_id : string) (t : dict AuditEvent) :
    list AuditEvent :=
  filter (λ e, ae_tenant_id e = tenant_id ∧ ae_execution_id e = Some execution_id) (dvalues t).

#[global] Arguments new_audit_event : simpl never.
#[global] Arguments scope_audit_metadata : simpl never.

(** ** What the constructors guarantee *)

(** The metadata of scope evidence never has a sensitive key. *)
Lemma scope_metadata_keys v r k :
  k ∈ dkeys (scope_metadata v r) →
  k ∈ ["mcp_scope_type"; "scope_reason_code"; "toolset_id"; "toolset_revision"; "toolset_slug"].
Proof.
  unfold scope_metadata, dkeys. rewrite !fmap_app, !elem_of_app. simpl.
  destruct (sev_toolset_id v), (sev_toolset_revision v), (sev_toolset_slug v); simpl;
    set_solver.
Qed.

Lemma new_audit_event_Ok e e' : new_audit_event e = Ok e' → e' = e.
Proof. unfold new_audit_event. py_run. Qed.

Lemma scope_audit_metadata_Ok ty id rev slug r m :
  scope_audit_metadata ty id rev slug r = Ok m →
  m = scope_metadata (mkScopeEvidence ty id rev slug) r.
Proof. unfold scope_audit_metadata, new_scope_evidence. py_run. Qed.
