(* ===== verification/Url.v ===== *)
(** * The standard library's [urllib.parse.urlsplit] and [ipaddress]

    The registry and the egress policy read endpoints through [urlsplit] and
    [ipaddress.ip_address] of Python 3.12.  On strings of code points below
    U+0100 both are written out here, including the [ValueError]s; the NFKC
    check of [urlsplit] cannot fail on those strings (no character below
    U+0100 normalises to one of [/?#@:]). *)

From Stdlib Require Import ZArith Ascii Lia.
From stdpp Require Import base sets strings option list.
From S2P Require Import Prelude Text Dict Errors.
Open Scope py_scope.

(** ** Strings *)

Definition is_ascii_digit (c : ascii) : bool := (48 <=? code c)%N && (code c <=? 57)%N.
Definition is_ascii_alpha (c : ascii) : bool :=
  (65 <=? code c)%N && (code c <=? 90)%N || (97 <=? code c)%N && (code c <=? 122)%N.

(** [value.split(sep)] for a one-character separator. *)
Fixpoint split_char (sep : ascii) (s : string) : list string :=
  match s with
  | EmptyString => [EmptyString]
  | String c s' =>
      if bool_decide (c = sep) then EmptyString :: split_char sep s'
      else match split_char sep s' with
           | [] => [String c EmptyString]
           | p :: ps => String c p :: ps
           end
  end.

(** [value.rpartition(sep)]: around the last occurrence. *)
Definition rpartition_char (sep : ascii) (s : string) : string * bool * string :=
  match split_char sep s with
  | [] | [_] => (EmptyString, false, s)
  | parts => (str_join (String sep EmptyString) (removelast parts), true, List.last parts EmptyString)
  end.

Fixpoint remove_chars (P : ascii → bool) (s : string) : string :=
  match s with
  | EmptyString => EmptyString
  | String c s' => if P c then remove_chars P s' else String c (remove_chars P s')
  end.

Fixpoint lstrip_chars (P : ascii → bool) (s : string) : string :=
  match s with
  | String c s' => if P c then lstrip_chars P s' else s
  | EmptyString => EmptyString
  end.

(** [value.rstrip(".")] and the like. *)
Fixpoint rstrip_chars (P : ascii → bool) (s : string) : string :=
  match s with
  | EmptyString => EmptyString
  | String c s' =>
      match rstrip_chars P s' with
      | EmptyString => if P c then EmptyString else String c EmptyString
      | t => String c t
      end
  end.

(** [int(text)] of a string of ASCII digits. *)
Fixpoint decimal_from (acc : N) (s : string) : N :=
  match s with
  | EmptyString => acc
  | String c s' => decimal_from (acc * 10 + (code c - 48)) s'
  end%N.
Definition decimal (s : string) : N := decimal_from 0 s.

Definition hex_value (c : ascii) : option N :=
  (if is_ascii_digit c then Some (code c - 48)
   else if (97 <=? code c) && (code c <=? 102) then Some (code c - 87)
   else if (65 <=? code c) && (code c <=? 70) then Some (code c - 55)
   else None)%N.

Fixpoint hex_from (acc : N) (s : string) : option N :=
  match s with
  | EmptyString => Some acc
  | String c s' =>
      match hex_value c with Some d => hex_from (acc * 16 + d)%N s' | None => None end
  end.

(** ** [ipaddress] *)

Inductive IpAddress := IPv4 (n : N) | IPv6 (n : N) (scope : option string).
#[export] Instance ip_address_eq_dec : EqDecision IpAddress.
Proof. solve_decision. Defined.

Definition parse_octet (s : string) : option N :=
  if str_empty s then None
  else if negb (all_chars is_ascii_digit s) then None
  else if (3 <? String.length s)%nat then None
  else if negb (bool_decide (s = "0")) && startswith "0" s then None
  else if (255 <? decimal s)%N then None else Some (decimal s).

(** [IPv4Address._ip_int_from_string]: four octets, no leading zeros. *)
Definition parse_ipv4 (s : string) : option N :=
  match split_char "."%char s with
  | [a; b; c; d] =>
      match parse_octet a, parse_octet b, parse_octet c, parse_octet d with
      | Some a, Some b, Some c, Some d => Some (((a * 256 + b) * 256 + c) * 256 + d)%N
      | _, _, _, _ => None
      end
  | _ => None
  end.

Definition parse_hextet (s : string) : option N :=
  if str_empty s then None else if (4 <? String.length s)%nat then None else hex_from 0 s.

(** A part of the text, or a value for the two halves of an IPv4 suffix. *)
Inductive ipv6_part := PartText (s : string) | PartValue (n : N).
Definition part_empty (p : ipv6_part) : bool :=
  match p with PartText s => str_empty s | PartValue _ => false end.
Definition part_value (p : ipv6_part) : option N :=
  match p with PartText s => parse_hextet s | PartValue n => Some n end.

Fixpoint parts_value (acc : N) (parts : list ipv6_part) : option N :=
  match parts with
  | [] => Some acc
  | p :: ps => match part_value p with
               | Some h => parts_value (acc * 65536 + h)%N ps
               | None => None
               end
  end.

(** The indices, in [1 .. len(parts) - 2], of empty parts. *)
Definition inner_empty (parts : list ipv6_part) : list nat :=
  List.filter (λ i, match parts !! i with Some p => part_empty p | None => false end)
    (seq 1 (length parts - 2)).

(** [IPv6Address._ip_int_from_string] *)
Definition parse_ipv6_int (s : string) : option N :=
  let texts := split_char ":"%char s in
  if (length texts <? 3)%nat then None
  else
    let last_ := List.last texts EmptyString in
    let parts :=
      if contains "." last_
      then match parse_ipv4 last_ with
           | Some v => Some (map PartText (removelast texts)
                             ++ [PartValue (N.shiftr v 16); PartValue (N.land v 65535)])
           | None => None
           end
      else Some (map PartText texts) in
    match parts with
    | None => None
    | Some parts =>
        if (9 <? length parts)%nat then None
        else
          let first_empty := match parts with p :: _ => part_empty p | [] => false end in
          let last_empty := match List.last (map Some parts) None with
                            | Some p => part_empty p | None => false end in
          match inner_empty parts with
          | [] =>
              if negb (length parts =? 8)%nat || first_empty || last_empty then None
              else parts_value 0 parts
          | [k] =>
              let hi := if first_empty then (k - 1)%nat else k in
              let lo := let n := (length parts - k - 1)%nat in
                        if last_empty then (n - 1)%nat else n in
              if first_empty && (0 <? hi)%nat then None
              else if last_empty && (0 <? lo)%nat then None
              else if (8 <=? hi + lo)%nat then None
              else match parts_value 0 (take hi parts) with
                   | Some h =>
                       parts_value (N.shiftl h (16 * N.of_nat (8 - (hi + lo))))
                         (drop (length parts - lo) parts)
                   | None => None
                   end
          | _ => None
          end
    end.

(** [IPv6Address(s)], with its scope identifier. *)
Definition parse_ipv6 (s : string) : option IpAddress :=
  if contains "/" s then None
  else
    let '(addr, has_scope, scope) := partition_char "%"%char s in
    if has_scope && (str_empty scope || contains "%" scope) then None
    else match parse_ipv6_int addr with
         | Some n => Some (IPv6 n (if has_scope then Some scope else None))
         | None => None
         end.

(** [ipaddress.ip_address(s)]; [None] is its [ValueError]. *)
Definition ip_address (s : string) : option IpAddress :=
  if contains "/" s then None
  else match parse_ipv4 s with
       | Some n => Some (IPv4 n)
       | None => parse_ipv6 s
       end.

(** The networks behind the address properties, as (prefix length, base). *)
Definition in_v4 (n base : N) (len : N) : bool := (N.shiftr n (32 - len) =? N.shiftr base (32 - len))%N.
Definition in_v6 (n base : N) (len : N) : bool := (N.shiftr n (128 - len) =? N.shiftr base (128 - len))%N.

Definition v4 (a b c d : N) : N := (((a * 256 + b) * 256 + c) * 256 + d)%N.
(** The first sixteen bits of an IPv6 address, the rest zero. *)
Definition v6_top (h : N) : N := N.shiftl h 112.

Definition is_loopback (a : IpAddress) : bool :=
  match a with IPv4 n => in_v4 n (v4 127 0 0 0) 8 | IPv6 n _ => (n =? 1)%N end.
Definition is_link_local (a : IpAddress) : bool :=
  match a with
  | IPv4 n => in_v4 n (v4 169 254 0 0) 16
  | IPv6 n _ => in_v6 n (v6_top 65152) 10
  end.
Definition is_unspecified (a : IpAddress) : bool :=
  match a with IPv4 n => (n =? 0)%N | IPv6 n _ => (n =? 0)%N end.
Definition is_multicast (a : IpAddress) : bool :=
  match a with
  | IPv4 n => in_v4 n (v4 224 0 0 0) 4
  | IPv6 n _ => in_v6 n (v6_top 65280) 8
  end.
Definition reserved_v6 : list (N * N) :=
  [(0, 8); (v6_top 256, 8); (v6_top 512, 7); (v6_top 1024, 6); (v6_top 2048, 5);
   (v6_top 4096, 4); (v6_top 16384, 3); (v6_top 24576, 3); (v6_top 32768, 3);
   (v6_top 40960, 3); (v6_top 49152, 3); (v6_top 57344, 4); (v6_top 61440, 5);
   (v6_top 63488, 6); (v6_top 65024, 9)]%N.
Definition is_reserved (a : IpAddress) : bool :=
  match a with
  | IPv4 n => in_v4 n (v4 240 0 0 0) 4
  | IPv6 n _ => existsb (λ net, in_v6 n net.1 net.2) reserved_v6
  end.

(** [ip_network(text, strict=False)] and [address in network]. *)
Record IpNetwork := mkNetwork { net_v6 : bool; net_base : N; net_prefix : N }.

Definition in_network (a : IpAddress) (net : IpNetwork) : bool :=
  match a, net_v6 net with
  | IPv4 n, false => in_v4 n (net_base net) (net_prefix net)
  | IPv6 n _, true => in_v6 n (net_base net) (net_prefix net)
  | _, _ => false
  end.

(** ** [urlsplit] *)

Record split_url := mkSplitUrl {
  url_scheme : string;
  url_netloc : string;
  url_path : string;
  url_query : string;
  url_fragment : string }.

Definition c0_or_space (c : ascii) : bool := (code c <=? 32)%N.
Definition unsafe_url_char (c : ascii) : bool :=
  bool_decide (c ∈ [ascii_of_N 9; ascii_of_N 13; ascii_of_N 10]).
Definition scheme_char (c : ascii) : bool :=
  is_ascii_alpha c || is_ascii_digit c || char_in "+-." c.

(** Split before the first character in [seps] ([_splitnetloc], without its
    two leading slashes). *)
Fixpoint split_before (seps : string) (s : string) : string * string :=
  match s with
  | EmptyString => (EmptyString, EmptyString)
  | String c s' =>
      if char_in seps c then (EmptyString, s)
      else let '(a, b) := split_before seps s' in (String c a, b)
  end.

Definition url_value_error : exn := ValueError "Invalid IPv6 URL".

(** [_check_bracketed_host] *)
Definition check_bracketed_host (hostname : string) : res unit :=
  if startswith "v" hostname then
    (* r"\Av[a-fA-F0-9]+\..+\Z" *)
    let '(version, dot, rest) :=
      partition_char "."%char (match hostname with String _ t => t | EmptyString => EmptyString end) in
    raise_if (negb (dot && negb (str_empty version) && negb (str_empty rest)
                    && all_chars (λ c, negb (is_none (hex_value c))) version
                    && all_chars (λ c, negb (bool_decide (c = ascii_of_N 10))) rest))
      (ValueError "IPvFuture address is invalid")
  else match ip_address hostname with
       | None => Raise (ValueError "does not appear to be an IPv4 or IPv6 address")
       | Some (IPv4 _) => Raise (ValueError "An IPv4 address cannot be in brackets")
       | Some (IPv6 _ _) => Ok tt
       end.

(** [_check_bracketed_netloc] *)
Definition check_bracketed_netloc (netloc : string) : res unit :=
  let '(_, _, hostinfo) := rpartition_char "@"%char netloc in
  let '(before_bracket, have_open, bracketed) := partition_char "["%char hostinfo in
  if have_open then
    raise_if (negb (str_empty before_bracket)) url_value_error ;;?
    let '(hostname, _, port) := partition_char "]"%char bracketed in
    raise_if (negb (str_empty port) && negb (startswith ":" port)) url_value_error ;;?
    check_bracketed_host hostname
  else
    let '(hostname, _, _) := partition_char ":"%char hostinfo in
    check_bracketed_host hostname.

(** [urlsplit(url)] *)
Definition urlsplit (text : string) : res split_url :=
  let url := remove_chars unsafe_url_char (lstrip_chars c0_or_space text) in
  let '(before, colon, after) := partition_char ":"%char url in
  let '(scheme, url) :=
    if colon && match before with String c _ => is_ascii_alpha c | EmptyString => false end
       && all_chars scheme_char before
    then (lower before, after) else (EmptyString, url) in
  let '(netloc, url) :=
    if startswith "//" url
    then split_before "/?#" (match url with String _ (String _ t) => t | _ => EmptyString end)
    else (EmptyString, url) in
  let has_open := contains "[" netloc in
  let has_close := contains "]" netloc in
  raise_if (xorb has_open has_close) url_value_error ;;?
  (if has_open && has_close then check_bracketed_netloc netloc else Ok tt) ;;?
  let '(url, _, fragment) := partition_char "#"%char url in
  let '(path, _, query) := partition_char "?"%char url in
  Ok (mkSplitUrl scheme netloc path query fragment).

(** [SplitResult._hostinfo]: host and port texts. *)
Definition url_hostinfo (u : split_url) : string * string :=
  let '(_, _, hostinfo) := rpartition_char "@"%char (url_netloc u) in
  let '(_, have_open, bracketed) := partition_char "["%char hostinfo in
  if have_open then
    let '(hostname, _, port) := partition_char "]"%char bracketed in
    let '(_, _, port) := partition_char ":"%char port in (hostname, port)
  else
    let '(hostname, _, port) := partition_char ":"%char hostinfo in (hostname, port).

(** [.hostname]: lower case, except the scope identifier. *)
Definition url_hostname (u : split_url) : option string :=
  let '(hostname, _) := url_hostinfo u in
  if str_empty hostname then None
  else let '(host, percent, zone) := partition_char "%"%char hostname in
       Some (lower host +:+ (if percent then "%" else "") +:+ zone).

(** [.port] *)
Definition url_port (u : split_url) : res (option N) :=
  let '(_, port) := url_hostinfo u in
  if str_empty port then Ok None
  else if negb (all_chars is_ascii_digit port)
       then Raise (ValueError "Port could not be cast to integer value")
  else if (65535 <? decimal port)%N then Raise (ValueError "Port out of range 0-65535")
  else Ok (Some (decimal port)).

Definition url_userinfo (u : split_url) : option string * option string :=
  let '(userinfo, have_info, _) := rpartition_char "@"%char (url_netloc u) in
  if have_info then
    let '(username, have_password, password) := partition_char ":"%char userinfo in
    (Some username, if have_password then Some password else None)
  else (None, None).
Definition url_username (u : split_url) : option string := (url_userinfo u).1.
Definition url_password (u : split_url) : option string := (url_userinfo u).2.

(** ** Examples *)

Example urlsplit_example :
  let u := urlsplit "HTTPS://user:pw@Api.Example.com:8443/v1/x?q=1#top" in
  u = Ok (mkSplitUrl "https" "user:pw@Api.Example.com:8443" "/v1/x" "q=1" "top") ∧
  (let? u := u in Ok (url_hostname u)) = Ok (Some "api.example.com") ∧
  (let? u := u in url_port u) = Ok (Some 8443%N) ∧
  (let? u := u in Ok (url_userinfo u)) = Ok (Some "user", Some "pw").
Proof. vm_compute. repeat split. Qed.

Example urlsplit_brackets :
  (let? u := urlsplit "http://[::1]:80/" in Ok (url_hostname u, url_port u)) =
    Ok (Some "::1", Ok (Some 80%N)) ∧
  urlsplit "http://[10.0.0.1]/" = Raise (ValueError "An IPv4 address cannot be in brackets") ∧
  urlsplit "http://[::1/" = Raise url_value_error.
Proof. vm_compute. repeat split. Qed.

Example ip_address_examples :
  ip_address "169.254.169.254" = Some (IPv4 2852039166) ∧
  ip_address "::ffff:127.0.0.1" = Some (IPv6 281472812449793 None) ∧
  ip_address "2001:db8::1" = Some (IPv6 42540766411282592856903984951653826561 None) ∧
  ip_address "01.2.3.4" = None ∧ ip_address "1::2::3" = None ∧ ip_address ":::1" = None ∧
  ip_address "fe80::1%eth0" = Some (IPv6 338288524927261089654018896841347694593 (Some "eth0")) ∧
  ip_address "1:2:3:4:5:6:7:8" = Some (IPv6 5192455318486707404433266433261576 None) ∧
  ip_address "localhost" = None.
Proof. vm_compute. repeat split. Qed.
