(* ===== verification/Selection.v ===== *)
(** * Choosing among candidates

    The policy evaluator and the credential resolver share one idiom: score
    the candidates, keep those of maximal score, and break ties by [max] or by
    failing closed.  This file has the idiom and its order-independence. *)

From Stdlib Require Import ZArith Lia.
From stdpp Require Import base sets strings option list.
From S2P Require Import Prelude Text Dict.

(** [max(values)] of a list whose head is given. *)
Definition zmax (l : list Z) (d : Z) : Z := foldr Z.max d l.

Section Selection.
Context {A : Type}.
Implicit Types (l : list A).

(** The loop that pairs each candidate with its score. *)
Definition candidates (score : A → option Z) l : list (Z * A) :=
  omap (λ x, match score x with Some s => Some (s, x) | None => None end) l.

(** [max(f(x) for x in l)] and the elements that reach it. *)
Definition max_of (f : A → Z) l : option Z :=
  match l with [] => None | x :: l' => Some (zmax (map f l') (f x)) end.

Definition maximal (f : A → Z) l : list A :=
  match max_of f l with Some m => filter (λ x, f x = m) l | None => [] end.

(** [max(l, key=...)]: the first of the greatest, [ltb x y] being
    [key(x) < key(y)]. *)
Definition max_by (ltb : A → A → bool) l : option A :=
  match l with
  | [] => None
  | x :: l' => Some (foldl (λ best y, if ltb best y then y else best) x l')
  end.

Lemma elem_of_candidates score l s x :
  (s, x) ∈ candidates score l ↔ x ∈ l ∧ score x = Some s.
Proof.
  unfold candidates. rewrite list_elem_of_omap. split.
  - intros (y & Hy & E). destruct (score y) eqn:?; simplify_eq. done.
  - intros [Hx E]. exists x. by rewrite E.
Qed.

Lemma zmax_ge z (l : list Z) d : z ∈ l ∨ z = d → (z ≤ zmax l d)%Z.
Proof.
  induction l as [|y l IH]; simpl; intros H.
  - destruct H as [?%not_elem_of_nil| ->]; [done|lia].
  - rewrite elem_of_cons in H. destruct H as [[->|H]|H]; [lia| |]; specialize (IH ltac:(auto)); lia.
Qed.

Lemma zmax_in (l : list Z) d : zmax l d ∈ l ∨ zmax l d = d.
Proof.
  induction l as [|y l [IH|IH]]; simpl; [by right| |];
    destruct (Z.max_spec y (zmax l d)) as [[_ ->]|[_ ->]]; rewrite elem_of_cons; auto.
Qed.

Lemma max_of_Some f l m :
  max_of f l = Some m ↔ (∃ x, x ∈ l ∧ f x = m) ∧ ∀ x, x ∈ l → (f x ≤ m)%Z.
Proof.
  destruct l as [|x l]; simpl.
  { split; [done|]. by intros [(? & ?%not_elem_of_nil & _) _]. }
  assert (Hge : ∀ y, y ∈ x :: l → (f y ≤ zmax (map f l) (f x))%Z).
  { intros y [->|Hy]%elem_of_cons; apply zmax_ge; [by right|left]. by apply list_elem_of_fmap_2. }
  assert (Hin : ∃ y, y ∈ x :: l ∧ f y = zmax (map f l) (f x)).
  { destruct (zmax_in (map f l) (f x)) as [H|H].
    - apply list_elem_of_fmap in H as (y & Hy & ?). exists y. split; [by right|done].
    - exists x. split; [by left|done]. }
  split; [by intros [= <-]|].
  intros [(y & Hy & <-) Hm]. f_equal. destruct Hin as (z & Hz & Ez).
  specialize (Hge _ Hy). specialize (Hm _ Hz). lia.
Qed.

Lemma max_of_None f l : max_of f l = None ↔ l = [].
Proof. by destruct l. Qed.

Lemma elem_of_maximal f l x :
  x ∈ maximal f l ↔ x ∈ l ∧ ∀ y, y ∈ l → (f y ≤ f x)%Z.
Proof.
  unfold maximal. destruct (max_of f l) as [m|] eqn:E.
  - apply max_of_Some in E as [(z & Hz & <-) Hm]. rewrite list_elem_of_filter. split.
    + intros [E Hx]. split; [done|]. intros y Hy. rewrite E. auto.
    + intros [Hx Hy]. split; [|done]. specialize (Hy _ Hz). specialize (Hm _ Hx). lia.
  - apply max_of_None in E as ->. split; [by intros ?%not_elem_of_nil|by intros [?%not_elem_of_nil _]].
Qed.

Lemma maximal_nil f l : maximal f l = [] ↔ l = [].
Proof.
  unfold maximal. destruct (max_of f l) as [m|] eqn:E.
  - apply max_of_Some in E as [(z & Hz & Ez) _]. split; [|by intros ->; apply not_elem_of_nil in Hz].
    intros Hf. exfalso. apply (not_elem_of_nil z). rewrite <-Hf. by apply list_elem_of_filter.
  - by apply max_of_None in E as ->.
Qed.

(** The order of the candidates does not matter. *)
#[export] Instance candidates_proper score : Proper ((≡ₚ) ==> (≡ₚ)) (candidates score).
Proof. intros l l' H. by apply omap_Permutation. Qed.

Lemma max_of_perm f l l' : l ≡ₚ l' → max_of f l = max_of f l'.
Proof.
  intros H. destruct (max_of f l) as [m|] eqn:E.
  - symmetry. apply max_of_Some. apply max_of_Some in E as [(x & Hx & Ex) Hm].
    split; [exists x; by rewrite <-H|]. intros y Hy. apply Hm. by rewrite H.
  - apply max_of_None in E as ->. symmetry in H. by apply Permutation_nil_r in H as ->.
Qed.

#[export] Instance maximal_proper f : Proper ((≡ₚ) ==> (≡ₚ)) (maximal f).
Proof.
  intros l l' H. unfold maximal. rewrite (max_of_perm f l l' H).
  case_match; [by rewrite H|done].
Qed.

Section MaxBy.
Context (ltb : A → A → bool).
Context (ltb_irrefl : ∀ x, ltb x x = false).
Context (ltb_trans : ∀ x y z, ltb y x = false → ltb z y = false → ltb z x = false).

(** Nothing in the list is above the result. *)
Lemma max_by_Some l x :
  (∀ a b, ltb a b = true → ltb b a = false) →
  max_by ltb l = Some x → x ∈ l ∧ ∀ y, y ∈ l → ltb x y = false.
Proof.
  intros Hasym. destruct l as [|z l]; simpl; [done|]. intros [= <-]. revert z.
  induction l as [|y l IH]; intros z; simpl.
  { split; [by left|]. by intros y ->%list_elem_of_singleton. }
  destruct (ltb z y) eqn:E.
  - destruct (IH y) as [Hin Hmax]. split; [by right|].
    intros w [->|Hw]%elem_of_cons; [|by apply Hmax].
    apply (ltb_trans z y); [by apply Hasym|]. apply Hmax. by left.
  - destruct (IH z) as [Hin Hmax].
    split; [apply elem_of_cons in Hin as [->|?]; [by left|right; by right]|].
    intros w [->|[->|Hw]%elem_of_cons]%elem_of_cons.
    + apply Hmax. by left.
    + apply (ltb_trans y z); [done|]. apply Hmax. by left.
    + apply Hmax. by right.
Qed.

Lemma max_by_None l : max_by ltb l = None ↔ l = [].
Proof. by destruct l. Qed.
End MaxBy.
End Selection.
