(* ===== verification/Catalog.v ===== *)
(** * Catalog: tools, versions, published projections, review and discovery

    Models [modules/catalog/domain.py], [modules/catalog/digests.py],
    [modules/catalog/events.py], [modules/catalog/adapters/in_memory.py],
    [modules/catalog/review.py], [modules/catalog/search.py] and
    [modules/catalog/use_cases.py].  The publish transaction is in
    [Publish.v].

    The published projections are the values of a dictionary whose key is the
    pair of tenant and canonical name: a list in which that pair determines the
    element.  A search rank is a sum of small whole [float]s, exact as [Z]. *)

From Stdlib Require Import ZArith Ascii Sorting.Sorted Lia.
From stdpp Require Import base sets strings option list.
From S2P Require Import Prelude Text Dict Errors Json Store AuditTrail.
Open Scope py_scope.

(** ** Domain *)

Inductive ToolStatus := ToolActive | ToolDisabled.
Inductive ToolVersionStatus := VDraft | VReview | VPublished | VRetired.
Inductive ToolVisibility := VisPublic | VisAuthenticated | VisRestricted.
Inductive ToolSideEffect := ReadOnly | IdempotentWrite | NonIdempotentWrite | UnknownEffect.

#[export] Instance tool_status_eq_dec : EqDecision ToolStatus.
Proof. solve_decision. Defined.
#[export] Instance tool_version_status_eq_dec : EqDecision ToolVersionStatus.
Proof. solve_decision. Defined.
#[export] Instance tool_visibility_eq_dec : EqDecision ToolVisibility.
Proof. solve_decision. Defined.
#[export] Instance tool_side_effect_eq_dec : EqDecision ToolSideEffect.
Proof. solve_decision. Defined.

(** The [value]s of the string enumerations. *)
Definition visibility_value (v : ToolVisibility) : string :=
  match v with
  | VisPublic => "public" | VisAuthenticated => "authenticated" | VisRestricted => "restricted"
  end.
Definition side_effect_value (s : ToolSideEffect) : string :=
  match s with
  | ReadOnly => "read_only"
  | IdempotentWrite => "idempotent_write"
  | NonIdempotentWrite => "non_idempotent_write"
  | UnknownEffect => "unknown"
  end.

Record Tool := mkTool {
  tool_id : string;
  tool_tenant_id : string;
  tool_namespace : string;
  tool_canonical_name : string;
  tool_owner : string;
  tool_status : ToolStatus }.

Record ToolVersion := mkToolVersion {
  tv_id : string;
  tv_tenant_id : string;
  tv_tool_id : string;
  tv_version : Z;
  tv_display_name : string;
  tv_description : string;
  tv_input_schema : dict json;
  tv_output_schema : option (dict json);
  tv_schema_digest : string;
  tv_tags : list string;
  tv_side_effect : ToolSideEffect;
  tv_visibility : ToolVisibility;
  tv_status : ToolVersionStatus;
  tv_created_by : string;
  tv_created_at : datetime;
  tv_reviewed_at : option datetime;
  tv_published_at : option datetime;
  tv_retired_at : option datetime }.

Record PublishedTool := mkPublishedTool {
  pt_tool_id : string;
  pt_tool_version_id : string;
  pt_tenant_id : string;
  pt_canonical_name : string;
  pt_display_name : string;
  pt_description : string;
  pt_input_schema : dict json;
  pt_output_schema : option (dict json);
  pt_version : Z;
  pt_visibility : ToolVisibility;
  pt_side_effect : ToolSideEffect;
  pt_schema_digest : string;
  pt_owner : option string;
  pt_tags : list string }.

#[export] Instance tool_eq_dec : EqDecision Tool.
Proof. solve_decision. Defined.
#[export] Instance tool_version_eq_dec : EqDecision ToolVersion.
Proof. solve_decision. Defined.
#[export] Instance published_tool_eq_dec : EqDecision PublishedTool.
Proof. solve_decision. Defined.

(** [RESERVED_TOOL_NAMESPACES], [is_reserved_tool_namespace] *)
Definition is_reserved_tool_namespace (namespace : string) : bool :=
  bool_decide (namespace ∈ ["nexus"]).

(** [Tool.__post_init__] *)
Definition new_tool (t : Tool) : res Tool :=
  require_non_blank
    [("tool id", tool_id t); ("tenant id", tool_tenant_id t);
     ("tool namespace", tool_namespace t);
     ("tool canonical name", tool_canonical_name t); ("tool owner", tool_owner t)] ;;?
  raise_if (negb (startswith (tool_namespace t +:+ ".") (tool_canonical_name t)))
    (ValueError "tool canonical name must start with its namespace") ;;?
  raise_if (is_reserved_tool_namespace (tool_namespace t))
    (ValueError "tool namespace is reserved by NexusMCP") ;;?
  Ok t.

Definition tool_with_status (s : ToolStatus) (t : Tool) : Tool :=
  mkTool (tool_id t) (tool_tenant_id t) (tool_namespace t) (tool_canonical_name t)
    (tool_owner t) s.

Definition tool_activate (t : Tool) : res Tool :=
  if decide (tool_status t = ToolActive) then Ok t else new_tool (tool_with_status ToolActive t).

Definition tool_disable (t : Tool) : res Tool :=
  if decide (tool_status t = ToolDisabled) then Ok t
  else new_tool (tool_with_status ToolDisabled t).

(** [_validate_input_schema] *)
Definition validate_input_schema (schema : dict json) : res unit :=
  raise_if (negb (bool_decide (dget "type" schema = Some (JStr "object"))))
    (ValueError "tool input schema root type must be object").

(** [_validate_lifecycle_timestamps] *)
Definition validate_lifecycle_timestamps (v : ToolVersion) : res unit :=
  raise_if (bool_decide (tv_status v ∈ [VReview; VPublished; VRetired])
            && is_none (tv_reviewed_at v))
    (ValueError "review tool version must have reviewed_at") ;;?
  raise_if (bool_decide (tv_status v ∈ [VPublished; VRetired]) && is_none (tv_published_at v))
    (ValueError "published tool version must have published_at") ;;?
  raise_if (bool_decide (tv_status v = VRetired) && is_none (tv_retired_at v))
    (ValueError "retired tool version must have retired_at").

(** [ToolVersion.__post_init__] *)
Definition new_tool_version (v : ToolVersion) : res ToolVersion :=
  require_non_blank
    [("tool version id", tv_id v); ("tenant id", tv_tenant_id v); ("tool id", tv_tool_id v);
     ("tool display name", tv_display_name v); ("schema digest", tv_schema_digest v);
     ("tool version creator", tv_created_by v)] ;;?
  raise_if (tv_version v <? 1)%Z (ValueError "tool version must be positive") ;;?
  validate_input_schema (tv_input_schema v) ;;?
  validate_lifecycle_timestamps v ;;?
  Ok v.

(** The record with its lifecycle fields replaced, nothing else. *)
Definition version_at (v : ToolVersion) (s : ToolVersionStatus)
    (reviewed published retired : option datetime) : ToolVersion :=
  mkToolVersion (tv_id v) (tv_tenant_id v) (tv_tool_id v) (tv_version v) (tv_display_name v)
    (tv_description v) (tv_input_schema v) (tv_output_schema v) (tv_schema_digest v) (tv_tags v)
    (tv_side_effect v) (tv_visibility v) s (tv_created_by v) (tv_created_at v)
    reviewed published retired.

Definition submit_for_review (v : ToolVersion) (t : datetime) : res ToolVersion :=
  raise_if (negb (bool_decide (tv_status v = VDraft)))
    (ValueError "only draft tool version can be submitted for review") ;;?
  new_tool_version (version_at v VReview (Some t) (tv_published_at v) (tv_retired_at v)).

Definition version_publish (v : ToolVersion) (t : datetime) : res ToolVersion :=
  raise_if (negb (bool_decide (tv_status v = VReview)))
    (ValueError "only review tool version can be published") ;;?
  new_tool_version (version_at v VPublished (tv_reviewed_at v) (Some t) (tv_retired_at v)).

Definition version_retire (v : ToolVersion) (t : datetime) : res ToolVersion :=
  raise_if (negb (bool_decide (tv_status v = VPublished)))
    (ValueError "only published tool version can be retired") ;;?
  new_tool_version (version_at v VRetired (tv_reviewed_at v) (tv_published_at v) (Some t)).

(** [PublishedTool.__post_init__] *)
Definition new_published_tool (t : PublishedTool) : res PublishedTool :=
  require_non_blank
    [("tool id", pt_tool_id t); ("tool version id", pt_tool_version_id t);
     ("tenant id", pt_tenant_id t); ("tool canonical name", pt_canonical_name t);
     ("tool display name", pt_display_name t); ("schema digest", pt_schema_digest t)] ;;?
  raise_if (pt_version t <? 1)%Z (ValueError "tool version must be positive") ;;?
  validate_input_schema (pt_input_schema t) ;;?
  Ok t.

(** [PublishedTool.is_visible_to] *)
Definition is_visible_to (t : PublishedTool) (principal_id : string) : bool :=
  match pt_visibility t with
  | VisPublic => true
  | VisAuthenticated => negb (bool_decide (principal_id = anonymous_principal_id))
  | VisRestricted => false
  end.

(** [PublishedTool.namespace] *)
Definition pt_namespace (t : PublishedTool) : string :=
  (partition_char "."%char (pt_canonical_name t)).1.1.

(** ** Digests *)

(** [calculate_schema_digest] *)
Definition calculate_schema_digest (input_schema : dict json)
    (output_schema : option (dict json)) : res string :=
  canonical_json_digest
    (JObj [("input_schema", JObj input_schema);
           ("output_schema",
             match output_schema with Some o => JObj o | None => JNull end)]).

(** ** [InMemoryToolCatalogRepository] *)

(** [value if value is not None and value.tenant_id == tenant_id else None] *)
Definition in_tenant {V} (tenant_of : V → string) (tenant_id : string) (o : option V) : option V :=
  match o with
  | Some v => if decide (tenant_of v = tenant_id) then Some v else None
  | None => None
  end.

(** [_require_matching_tenant] of the catalog, binding and upstream adapters. *)
Definition require_matching_tenant (requested entity : string) : res unit :=
  raise_if (negb (bool_decide (requested = entity)))
    (ValueError "entity tenant does not match repository tenant scope").

Definition same_number (v w : ToolVersion) : bool :=
  bool_decide (tv_tool_id w = tv_tool_id v) && bool_decide (tv_version w = tv_version v).

Section Repository.
Context {D : Type} `{!Table D Tool} `{!Table D ToolVersion}.

Definition get_tool_by_id (tenant_id id : string) : M D (option Tool) :=
  let* t := read_table in ret (in_tenant tool_tenant_id tenant_id (dget id t)).

Definition find_tool_by_name (tenant_id name : string) (t : dict Tool) : option Tool :=
  dfind (λ x, bool_decide (tool_tenant_id x = tenant_id)
              && bool_decide (tool_canonical_name x = name)) t.

(** [get_tool_by_name], and [get_tool_by_name_for_update] *)
Definition get_tool_by_name (tenant_id name : string) : M D (option Tool) :=
  let* t := read_table in ret (find_tool_by_name tenant_id name t).

Definition add_tool (tenant_id : string) (x : Tool) : M D unit :=
  lift (require_matching_tenant tenant_id (tool_tenant_id x)) ;;*
  let* t := read_table in
  lift (raise_if (dmem (tool_id x) t) (ValueError "tool id already exists")) ;;*
  let* owner := get_tool_by_name tenant_id (tool_canonical_name x) in
  lift (raise_if (negb (is_none owner))
          (ValueError "tool canonical name already exists in tenant")) ;;*
  write_table (dset (tool_id x) x t).

Definition save_tool (tenant_id : string) (x : Tool) : M D unit :=
  lift (require_matching_tenant tenant_id (tool_tenant_id x)) ;;*
  let* t := read_table in
  lift (raise_if (is_none (in_tenant tool_tenant_id tenant_id (dget (tool_id x) t)))
          (ValueError "tool does not exist in tenant")) ;;*
  let* owner := get_tool_by_name tenant_id (tool_canonical_name x) in
  lift (raise_if (match owner with
                  | Some o => negb (bool_decide (tool_id o = tool_id x))
                  | None => false
                  end) (ValueError "tool canonical name already exists in tenant")) ;;*
  write_table (dset (tool_id x) x t).

(** [get_version_by_id], and [get_version_for_update] *)
Definition get_version_by_id (tenant_id id : string) : M D (option ToolVersion) :=
  let* t := read_table in ret (in_tenant tv_tenant_id tenant_id (dget id t)).

Definition add_version (tenant_id : string) (v : ToolVersion) : M D unit :=
  lift (require_matching_tenant tenant_id (tv_tenant_id v)) ;;*
  let* t := read_table in
  lift (raise_if (dmem (tv_id v) t) (ValueError "tool version id already exists")) ;;*
  lift (raise_if (existsb (same_number v) (dvalues t))
          (ValueError "tool version number already exists")) ;;*
  write_table (dset (tv_id v) v t).

Definition save_version (tenant_id : string) (v : ToolVersion) : M D unit :=
  lift (require_matching_tenant tenant_id (tv_tenant_id v)) ;;*
  let* t := read_table in
  lift (raise_if (is_none (in_tenant tv_tenant_id tenant_id (dget (tv_id v) t)))
          (ValueError "tool version does not exist in tenant")) ;;*
  lift (raise_if (existsb (λ w, negb (bool_decide (tv_id w = tv_id v)) && same_number v w)
                    (dvalues t))
          (ValueError "tool version number already exists")) ;;*
  write_table (dset (tv_id v) v t).

Definition is_published_version (tenant_id tid : string) (v : ToolVersion) : bool :=
  bool_decide (tv_tenant_id v = tenant_id) && bool_decide (tv_tool_id v = tid)
  && bool_decide (tv_status v = VPublished).

Definition get_published_version (tenant_id tid : string) : M D (option ToolVersion) :=
  let* t := read_table in ret (dfind (is_published_version tenant_id tid) t).

Definition next_version_number (tenant_id tid : string) : M D Z :=
  let* t := read_table in
  ret (foldr Z.max 0%Z
         (map tv_version (filter (λ v, tv_tenant_id v = tenant_id ∧ tv_tool_id v = tid)
                            (dvalues t))) + 1)%Z.
End Repository.

(** ** Published projections *)

Definition name_leb (a b : PublishedTool) : bool :=
  str_leb (pt_canonical_name a) (pt_canonical_name b).

Definition list_published_by_tenant (tenant_id : string) (tools : list PublishedTool) :
    list PublishedTool :=
  sorted_by name_leb (filter (λ t, pt_tenant_id t = tenant_id) tools).

Definition get_published_by_name (tenant_id name : string) (tools : list PublishedTool) :
    option PublishedTool :=
  find (λ t, bool_decide (pt_tenant_id t = tenant_id)
             && bool_decide (pt_canonical_name t = name)) tools.

Record PublishedToolSearchHit := mkHit { hit_tool : PublishedTool; hit_rank : Z }.

Definition name_text (t : PublishedTool) : string :=
  lower (pt_canonical_name t +:+ " " +:+ pt_display_name t).
Definition tag_text (t : PublishedTool) : string := lower (str_join " " (pt_tags t)).
Definition description_text (t : PublishedTool) : string := lower (pt_description t).
Definition owner_text (t : PublishedTool) : string := lower (default "" (pt_owner t)).
Definition searchable (t : PublishedTool) : string :=
  str_join " " [name_text t; tag_text t; description_text t; owner_text t].

Definition b2z (weight : Z) (b : bool) : Z := if b then weight else 0%Z.

Definition token_rank (t : PublishedTool) (token : string) : Z :=
  (b2z 4 (contains token (name_text t)) + b2z 3 (contains token (tag_text t))
   + b2z 1 (contains token (description_text t)) + b2z 1 (contains token (owner_text t)))%Z.

Definition tool_rank (query_text : string) (t : PublishedTool) : Z :=
  (foldr Z.add 0 (map (token_rank t) (split_ws (lower query_text)))
   + b2z 100 (bool_decide (lower query_text = lower (pt_canonical_name t))))%Z.

Record search_filter := mkSearchFilter {
  sf_visibilities : list ToolVisibility;
  sf_eligible_tool_ids : option (list string);
  sf_namespace : option string;
  sf_side_effect : option ToolSideEffect }.

(** The [continue]s of [search_published], in their order. *)
Definition search_matches (tenant_id query_text : string) (f : search_filter)
    (t : PublishedTool) : bool :=
  bool_decide (pt_tenant_id t = tenant_id)
  && bool_decide (pt_visibility t ∈ sf_visibilities f)
  && match sf_eligible_tool_ids f with
     | Some ids => bool_decide (pt_tool_id t ∈ ids) | None => true end
  && match sf_namespace f with
     | Some n => bool_decide (pt_namespace t = n) | None => true end
  && match sf_side_effect f with
     | Some s => bool_decide (pt_side_effect t = s) | None => true end
  && match split_ws (lower query_text) with
     | [] => false
     | tokens => forallb (λ token, contains token (searchable t)) tokens
     end.

(** [key=lambda hit: (-hit.rank, hit.tool.canonical_name)] *)
Definition hit_leb (a b : PublishedToolSearchHit) : bool :=
  if (hit_rank b <? hit_rank a)%Z then true
  else if (hit_rank a <? hit_rank b)%Z then false
  else name_leb (hit_tool a) (hit_tool b).

Definition search_hits (tenant_id query_text : string) (f : search_filter)
    (tools : list PublishedTool) : list PublishedToolSearchHit :=
  map (λ t, mkHit t (tool_rank query_text t))
      (filter (λ t, search_matches tenant_id query_text f t) tools).

(** [InMemoryToolCatalogRepository.search_published] *)
Definition search_published (tenant_id query_text : string) (f : search_filter) (limit : nat)
    (tools : list PublishedTool) : list PublishedToolSearchHit :=
  take limit (sorted_by hit_leb (search_hits tenant_id query_text f tools)).

(** ** Queries *)

(** [ListVisibleTools.execute], over the reader's list of published tools. *)
Definition list_visible_tools (ctx : ActorContext) (tools : list PublishedTool) :
    list PublishedTool :=
  sorted_by name_leb
    (filter (λ t, is_visible_to t (ctx_principal_id ctx))
       (list_published_by_tenant (ctx_tenant_id ctx) tools)).

Record SearchPublishedToolsQuery := mkSearchQuery {
  sq_context : ActorContext;
  sq_text : string;
  sq_limit : Z;
  sq_namespace : option string;
  sq_side_effect : option ToolSideEffect;
  sq_eligible_tool_ids : option (list string) }.

(** The visibilities a principal may discover. *)
Definition discoverable (ctx : ActorContext) : list ToolVisibility :=
  if decide (ctx_principal_id ctx = anonymous_principal_id) then [VisPublic]
  else [VisPublic; VisAuthenticated].

(** [SearchPublishedTools.execute] *)
Definition search_published_tools (q : SearchPublishedToolsQuery) (tools : list PublishedTool) :
    res (list PublishedToolSearchHit) :=
  let query_text := strip (sq_text q) in
  raise_if (str_empty query_text) (Nexus InvalidArgumentsError) ;;?
  raise_if (200 <? String.length query_text)%nat (Nexus InvalidArgumentsError) ;;?
  raise_if (negb ((1 <=? sq_limit q)%Z && (sq_limit q <=? 50)%Z)) (Nexus InvalidArgumentsError) ;;?
  let namespace := strip <$> sq_namespace q in
  raise_if (bool_decide (namespace = Some "")) (Nexus InvalidArgumentsError) ;;?
  Ok (search_published (ctx_tenant_id (sq_context q)) query_text
        (mkSearchFilter (discoverable (sq_context q)) (sq_eligible_tool_ids q) namespace
           (sq_side_effect q)) (Z.to_nat (sq_limit q)) tools).

(** ** Review *)

Section Review.
Context {D : Type} `{Ports} `{!Table D Tool} `{!Table D ToolVersion}.

(** [SubmitToolVersionForReview.execute] *)
Definition submit_tool_version_for_review (ctx : ActorContext) (tool_version_id : string) :
    M D unit :=
  let tenant_id := ctx_tenant_id ctx in
  with_uow (
    let* found := get_version_by_id tenant_id tool_version_id in
    match found with
    | None => raise (Nexus ToolVersionNotFoundError)
    | Some v =>
        lift (raise_if (negb (bool_decide (tv_status v = VDraft)))
                (Nexus InvalidToolStateError)) ;;*
        let* t := now in
        let* v' := lift (submit_for_review v t) in
        save_version tenant_id v' ;;*
        commit
    end).
End Review.

#[global] Arguments new_tool : simpl never.
#[global] Arguments new_tool_version : simpl never.
#[global] Arguments version_publish : simpl never.
#[global] Arguments version_retire : simpl never.
#[global] Arguments submit_for_review : simpl never.
#[global] Arguments tool_activate : simpl never.

(** ** Reading the operations *)

Lemma in_tenant_Some {V} (f : V → string) tenant o v :
  in_tenant f tenant o = Some v → o = Some v ∧ f v = tenant.
Proof. destruct o; simpl; [|done]. case_decide; [|done]. intros. by simplify_eq. Qed.

Lemma not_none_Some {A} (o : option A) : is_none o = false → ∃ v, o = Some v.
Proof. destruct o; [eauto|done]. Qed.

Lemma new_tool_version_Ok v v' : new_tool_version v = Ok v' → v' = v.
Proof. unfold new_tool_version. intros H. guards H. by simplify_eq. Qed.

Lemma new_tool_Ok t t' : new_tool t = Ok t' → t' = t.
Proof. unfold new_tool. intros H. guards H. by simplify_eq. Qed.

Lemma submit_for_review_Ok v t v' :
  submit_for_review v t = Ok v' →
  tv_status v = VDraft ∧ v' = version_at v VReview (Some t) (tv_published_at v) (tv_retired_at v).
Proof. unfold submit_for_review. intros H. guards H. by apply new_tool_version_Ok in H. Qed.

Lemma version_publish_Ok v t v' :
  version_publish v t = Ok v' →
  tv_status v = VReview ∧ v' = version_at v VPublished (tv_reviewed_at v) (Some t) (tv_retired_at v).
Proof. unfold version_publish. intros H. guards H. by apply new_tool_version_Ok in H. Qed.

Lemma version_retire_Ok v t v' :
  version_retire v t = Ok v' →
  tv_status v = VPublished ∧
  v' = version_at v VRetired (tv_reviewed_at v) (tv_published_at v) (Some t).
Proof. unfold version_retire. intros H. guards H. by apply new_tool_version_Ok in H. Qed.

Lemma tool_activate_Ok t t' : tool_activate t = Ok t' → t' = tool_with_status ToolActive t.
Proof.
  unfold tool_activate. case_decide as H; intros E.
  - simplify_eq. destruct t'; unfold tool_with_status; simpl in *; congruence.
  - by apply new_tool_Ok in E.
Qed.

Lemma require_matching_tenant_Ok a b u : require_matching_tenant a b = Ok u → a = b.
Proof. unfold require_matching_tenant. intros H%raise_if_Ok. by apply negb_decide_false in H. Qed.

(** A value of another identifier with the same tool and number. *)
Definition same_version (v w : ToolVersion) : Prop :=
  tv_tool_id v = tv_tool_id w ∧ tv_version v = tv_version w.
#[export] Instance same_version_sym : Symmetric same_version.
Proof. by intros v w [? ?]. Qed.

Lemma existsb_false {A} (P : A → bool) l x : existsb P l = false → x ∈ l → P x = false.
Proof.
  intros H. induction l as [|y l IH]; [by intros ?%not_elem_of_nil|].
  simpl in H. py_bools. intros [->|?]%elem_of_cons; auto.
Qed.

Lemma same_number_false v w : same_number v w = false → ¬ same_version v w.
Proof.
  unfold same_number. intros H [E1 E2]. by rewrite E1, E2, !bool_decide_eq_true_2 in H.
Qed.

(** Read the conditions left by [ok_inv]. *)
Ltac ok_facts :=
  repeat match goal with
  | H : raise_if _ _ = Ok _ |- _ => apply raise_if_Ok in H
  | H : dmem _ _ = false |- _ => apply dmem_false in H
  | H : negb (is_none _) = false |- _ => apply not_none_false in H
  | H : is_none _ = false |- _ => apply not_none_Some in H as [? H]
  | H : in_tenant _ _ _ = Some _ |- _ => apply in_tenant_Some in H as [? ?]
  | H : negb (bool_decide _) = false |- _ => apply negb_decide_false in H
  | H : require_matching_tenant _ _ = Ok _ |- _ => apply require_matching_tenant_Ok in H
  | H : existsb (same_number ?v) ?l = false |- _ =>
      let Hno := fresh "Hno" in
      assert (Hno : ∀ w, w ∈ l → ¬ same_version v w)
        by (intros ? ?; apply same_number_false; by eapply existsb_false);
      clear H
  end.

Section RepositoryFacts.
Context {D : Type} `{!Table D Tool} `{!Table D ToolVersion}.

Lemma save_tool_Ok tenant x c d e u s' :
  save_tool tenant x (St c (Some d) e) = (Ok u, s') →
  tool_tenant_id x = tenant ∧
  s' = St c (Some (set_table (dset (tool_id x) x (table d)) d)) e.
Proof. intros H. unfold save_tool, get_tool_by_name in H. ok_inv H; by ok_facts. Qed.

Lemma save_version_Ok tenant v c d e u s' :
  save_version tenant v (St c (Some d) e) = (Ok u, s') →
  tv_tenant_id v = tenant ∧
  s' = St c (Some (set_table (dset (tv_id v) v (table d)) d)) e.
Proof. intros H. unfold save_version in H. ok_inv H. by ok_facts. Qed.

Lemma add_version_Ok tenant v c d e u s' :
  add_version tenant v (St c (Some d) e) = (Ok u, s') →
  tv_tenant_id v = tenant ∧ dget (tv_id v) (table (V := ToolVersion) d) = None ∧
  (∀ w, w ∈ dvalues (table d) → ¬ same_version v w) ∧
  s' = St c (Some (set_table (dset (tv_id v) v (table d)) d)) e.
Proof. intros H. unfold add_version in H. ok_inv H. by ok_facts. Qed.

Lemma add_tool_Ok tenant x c d e u s' :
  add_tool tenant x (St c (Some d) e) = (Ok u, s') →
  tool_tenant_id x = tenant ∧ dget (tool_id x) (table (V := Tool) d) = None ∧
  find_tool_by_name tenant (tool_canonical_name x) (table d) = None ∧
  s' = St c (Some (set_table (dset (tool_id x) x (table d)) d)) e.
Proof. intros H. unfold add_tool, get_tool_by_name in H. ok_inv H. by ok_facts. Qed.

Lemma tx_catalog tenant :
  (∀ id, tx (D := D) (get_tool_by_id tenant id)) ∧
  (∀ n, tx (D := D) (get_tool_by_name tenant n)) ∧
  (∀ id, tx (D := D) (get_version_by_id tenant id)) ∧
  (∀ id, tx (D := D) (get_published_version tenant id)) ∧
  (∀ id, tx (D := D) (next_version_number tenant id)) ∧
  (∀ x, tx (D := D) (add_tool tenant x)) ∧ (∀ x, tx (D := D) (save_tool tenant x)) ∧
  (∀ v, tx (D := D) (add_version tenant v)) ∧ (∀ v, tx (D := D) (save_version tenant v)).
Proof.
  unfold get_tool_by_id, get_tool_by_name, get_version_by_id, get_published_version,
    next_version_number, add_tool, save_tool, add_version, save_version, get_tool_by_name.
  split_and!; tx_solve.
Qed.

(** One version read by identifier. *)
Lemma get_version_by_id_Ok tenant id c d e o s' :
  get_version_by_id tenant id (St c (Some d) e) = (Ok o, s') →
  o = in_tenant tv_tenant_id tenant (dget id (table d)) ∧ s' = St c (Some d) e.
Proof. intros H. unfold get_version_by_id in H. by ok_inv H. Qed.
End RepositoryFacts.

(** ** Discovery *)

Lemma name_leb_total x y : name_leb x y = true ∨ name_leb y x = true.
Proof. apply str_leb_total. Qed.
Lemma name_leb_trans x y z : name_leb x y = true → name_leb y z = true → name_leb x z = true.
Proof. apply str_leb_trans. Qed.

Lemma hit_leb_total x y : hit_leb x y = true ∨ hit_leb y x = true.
Proof.
  unfold hit_leb. destruct (Z.ltb_spec (hit_rank y) (hit_rank x)); [by left|].
  destruct (Z.ltb_spec (hit_rank x) (hit_rank y)); [by right|]. apply name_leb_total.
Qed.
Lemma hit_leb_trans x y z : hit_leb x y = true → hit_leb y z = true → hit_leb x z = true.
Proof.
  unfold hit_leb.
  destruct (Z.ltb_spec (hit_rank y) (hit_rank x)), (Z.ltb_spec (hit_rank x) (hit_rank y)),
    (Z.ltb_spec (hit_rank z) (hit_rank y)), (Z.ltb_spec (hit_rank y) (hit_rank z)),
    (Z.ltb_spec (hit_rank z) (hit_rank x)), (Z.ltb_spec (hit_rank x) (hit_rank z));
    try done; try lia. apply name_leb_trans.
Qed.

(** Who may discover what: the two ways the code decides it agree. *)
Lemma discoverable_visible ctx t :
  pt_visibility t ∈ discoverable ctx ↔ is_visible_to t (ctx_principal_id ctx) = true.
Proof.
  unfold discoverable, is_visible_to. case_decide as H.
  - destruct (pt_visibility t); rewrite ?list_elem_of_singleton, ?H; simpl; by vm_compute.
  - destruct (pt_visibility t); rewrite ?bool_decide_eq_false_2 by done; set_solver.
Qed.

(** [ListVisibleTools] returns exactly the tenant's tools the principal may
    see (public ones; authenticated ones unless the principal is anonymous;
    restricted ones never), each as often as it is stored, ordered by canonical
    name. *)
Theorem list_visible_tools_correct ctx tools :
  list_visible_tools ctx tools ≡ₚ
    filter (λ t, pt_tenant_id t = ctx_tenant_id ctx ∧ is_visible_to t (ctx_principal_id ctx) = true)
      tools ∧
  ordered name_leb (list_visible_tools ctx tools).
Proof.
  unfold list_visible_tools, list_published_by_tenant. split.
  - rewrite !sorted_by_perm, list_filter_filter. erewrite list_filter_iff; [done|].
    intros t. simpl. rewrite Is_true_true. tauto.
  - apply sorted_by_ordered; [apply name_leb_total|apply name_leb_trans].
Qed.

(** Keyword search is sound, bounded and returns the best hits.  Every hit
    is a stored tool of the tenant the principal may see that passes every
    filter, carries its rank, and at most [limit] (1 to 50) hits come back in
    order; a matching tool is left out only when [limit] hits that rank at
    least as high are returned. *)
Theorem search_published_tools_correct q tools hits :
  search_published_tools q tools = Ok hits →
  (1 <= sq_limit q <= 50)%Z ∧ (Z.of_nat (length hits) <= sq_limit q)%Z ∧
  ordered hit_leb hits ∧
  (∀ h, h ∈ hits →
    hit_tool h ∈ tools ∧ pt_tenant_id (hit_tool h) = ctx_tenant_id (sq_context q) ∧
    is_visible_to (hit_tool h) (ctx_principal_id (sq_context q)) = true ∧
    (∀ ids, sq_eligible_tool_ids q = Some ids → pt_tool_id (hit_tool h) ∈ ids) ∧
    hit_rank h = tool_rank (strip (sq_text q)) (hit_tool h)) ∧
  (∀ t, t ∈ tools →
    search_matches (ctx_tenant_id (sq_context q)) (strip (sq_text q))
      (mkSearchFilter (discoverable (sq_context q)) (sq_eligible_tool_ids q)
         (strip <$> sq_namespace q) (sq_side_effect q)) t = true →
    let h := mkHit t (tool_rank (strip (sq_text q)) t) in
    h ∈ hits ∨
    (Z.of_nat (length hits) = sq_limit q ∧ ∀ h', h' ∈ hits → hit_leb h' h = true)).
Proof.
  unfold search_published_tools. intros H. guards H. injection H as <-. py_bools.
  unfold search_published. set (f := mkSearchFilter _ _ _ _).
  set (all := search_hits _ _ f tools).
  repeat match goal with G : (_ <=? _)%Z = true |- _ => apply Z.leb_le in G end.
  split; [lia|]. split; [rewrite length_take; lia|].
  assert (Hord : ordered hit_leb (sorted_by hit_leb all))
    by (apply sorted_by_ordered; [apply hit_leb_total|apply hit_leb_trans]).
  split; [by apply ordered_take|]. split.
  - intros h Hh%elem_of_take_in. rewrite elem_of_sorted_by in Hh.
    apply list_elem_of_fmap in Hh as (t & -> & Ht). simpl.
    apply list_elem_of_filter in Ht as [Hm Ht]. apply Is_true_true in Hm.
    unfold search_matches in Hm. py_bools. split_and!; try done.
    + by apply discoverable_visible.
    + intros ids Hids. unfold f in *. simpl in *. rewrite Hids in *. by py_bools.
  - intros t Ht Hm. set (h := mkHit t _).
    assert (Hin : h ∈ sorted_by hit_leb all).
    { rewrite elem_of_sorted_by. apply list_elem_of_fmap. exists t. split; [done|].
      apply list_elem_of_filter. by rewrite Hm. }
    destruct (ordered_take_complete hit_leb (Z.to_nat (sq_limit q)) _ _ Hord Hin) as [?|[Hl Hb]];
      [by left|right]. split; [rewrite Hl; lia|done].
Qed.

(** ** Witness *)

Module CatalogExamples.
Definition orders : PublishedTool :=
  mkPublishedTool "t1" "v1" "tenant" "orders.get" "Get order" "Reads one order"
    [("type", JStr "object")] None 1 VisPublic ReadOnly "digest" (Some "team") ["orders"].
Definition query : SearchPublishedToolsQuery :=
  mkSearchQuery (mkActorContext "req" "trace" "tenant" "agent" "static" "agent_service")
    " order " 10 None None None.
End CatalogExamples.

Lemma search_published_tools_correct_witness :
  ∃ h, search_published_tools CatalogExamples.query [CatalogExamples.orders] = Ok [h] ∧
    hit_tool h = CatalogExamples.orders ∧ hit_rank h = 8%Z.
Proof.
  assert (E : ∃ h, search_published_tools CatalogExamples.query [CatalogExamples.orders] = Ok [h])
    by (eexists; vm_compute; reflexivity).
  destruct E as [h E].
  destruct (search_published_tools_correct _ _ _ E) as (_ & _ & _ & P & _).
  destruct (P h) as (Q & _ & _ & _ & R); [by constructor|].
  exists h. apply list_elem_of_singleton in Q. rewrite Q in R. split_and!; [done|done|].
  rewrite R. vm_compute. reflexivity.
Defined.
