(* ===== verification/Connectors.v ===== *)
(** * Connectors: tool bindings

    Models [modules/connectors/domain.py], [modules/connectors/digests.py] and
    [modules/connectors/adapters/in_memory.py]. *)

From Stdlib Require Import ZArith.
From stdpp Require Import base sets strings option list.
From S2P Require Import Prelude Text Dict Errors Json Store AuditTrail Catalog.
Open Scope py_scope.

(** ** Domain *)

Inductive ToolBindingType := BindHttp | BindRemoteMcp.
Inductive ToolBindingStatus := BDraft | BPublished | BDisabled.

#[export] Instance binding_type_eq_dec : EqDecision ToolBindingType.
Proof. solve_decision. Defined.
#[export] Instance binding_status_eq_dec : EqDecision ToolBindingStatus.
Proof. solve_decision. Defined.

Definition binding_type_value (t : ToolBindingType) : string :=
  match t with BindHttp => "http" | BindRemoteMcp => "remote_mcp" end.

Record ToolBinding := mkBinding {
  tb_id : string;
  tb_tenant_id : string;
  tb_tool_version_id : string;
  tb_upstream_service_id : string;
  tb_imported_operation_id : option string;
  tb_binding_type : ToolBindingType;
  tb_binding_config : dict json;
  tb_binding_digest : string;
  tb_status : ToolBindingStatus;
  tb_created_at : datetime;
  tb_published_at : option datetime }.

#[export] Instance binding_eq_dec : EqDecision ToolBinding.
Proof. solve_decision. Defined.

(** [ToolBinding.__post_init__] *)
Definition new_binding (b : ToolBinding) : res ToolBinding :=
  require_non_blank
    [("tool binding id", tb_id b); ("tenant id", tb_tenant_id b);
     ("tool version id", tb_tool_version_id b);
     ("upstream service id", tb_upstream_service_id b);
     ("binding digest", tb_binding_digest b)] ;;?
  raise_if (bool_decide (tb_status b = BPublished) && is_none (tb_published_at b))
    (ValueError "published tool binding must have published_at") ;;?
  Ok b.

(** The record with its status fields replaced, nothing else. *)
Definition binding_at (b : ToolBinding) (s : ToolBindingStatus) (published : option datetime) :
    ToolBinding :=
  mkBinding (tb_id b) (tb_tenant_id b) (tb_tool_version_id b) (tb_upstream_service_id b)
    (tb_imported_operation_id b) (tb_binding_type b) (tb_binding_config b)
    (tb_binding_digest b) s (tb_created_at b) published.

Definition binding_publish (b : ToolBinding) (t : datetime) : res ToolBinding :=
  raise_if (negb (bool_decide (tb_status b = BDraft)))
    (ValueError "only draft tool binding can be published") ;;?
  new_binding (binding_at b BPublished (Some t)).

Definition binding_disable (b : ToolBinding) : res ToolBinding :=
  raise_if (negb (bool_decide (tb_status b = BPublished)))
    (ValueError "only published tool binding can be disabled") ;;?
  new_binding (binding_at b BDisabled (tb_published_at b)).

(** [calculate_binding_digest] *)
Definition calculate_binding_digest (b : ToolBinding) : res string :=
  canonical_json_digest
    (JObj [("binding_type", JStr (binding_type_value (tb_binding_type b)));
           ("upstream_service_id", JStr (tb_upstream_service_id b));
           ("binding_config", JObj (tb_binding_config b))]).

(** ** [InMemoryToolBindingRepository] *)

Definition find_binding_by_version (tenant_id version_id : string) (t : dict ToolBinding) :
    option ToolBinding :=
  dfind (λ b, bool_decide (tb_tenant_id b = tenant_id)
              && bool_decide (tb_tool_version_id b = version_id)) t.

Section Repository.
Context {D : Type} `{!Table D ToolBinding}.

(** [get_by_id], and [get_for_update] *)
Definition get_binding_by_id (tenant_id id : string) : M D (option ToolBinding) :=
  let* t := read_table in ret (in_tenant tb_tenant_id tenant_id (dget id t)).

(** [get_by_tool_version], and [get_by_tool_version_for_update] *)
Definition get_binding_by_tool_version (tenant_id version_id : string) :
    M D (option ToolBinding) :=
  let* t := read_table in ret (find_binding_by_version tenant_id version_id t).

Definition add_binding (tenant_id : string) (b : ToolBinding) : M D unit :=
  lift (require_matching_tenant tenant_id (tb_tenant_id b)) ;;*
  let* t := read_table in
  lift (raise_if (dmem (tb_id b) t) (ValueError "tool binding id already exists")) ;;*
  let* owner := get_binding_by_tool_version tenant_id (tb_tool_version_id b) in
  lift (raise_if (negb (is_none owner)) (ValueError "tool version already has a binding")) ;;*
  write_table (dset (tb_id b) b t).

Definition save_binding (tenant_id : string) (b : ToolBinding) : M D unit :=
  lift (require_matching_tenant tenant_id (tb_tenant_id b)) ;;*
  let* t := read_table in
  lift (raise_if (is_none (in_tenant tb_tenant_id tenant_id (dget (tb_id b) t)))
          (ValueError "tool binding does not exist in tenant")) ;;*
  let* owner := get_binding_by_tool_version tenant_id (tb_tool_version_id b) in
  lift (raise_if (match owner with
                  | Some o => negb (bool_decide (tb_id o = tb_id b))
                  | None => false
                  end) (ValueError "tool version already has a binding")) ;;*
  write_table (dset (tb_id b) b t).
End Repository.

#[global] Arguments new_binding : simpl never.
#[global] Arguments binding_publish : simpl never.
#[global] Arguments binding_disable : simpl never.
#[global] Arguments calculate_binding_digest : simpl never.

(** ** Reading the operations *)

Lemma new_binding_Ok b b' : new_binding b = Ok b' → b' = b.
Proof. unfold new_binding. py_run. Qed.

Lemma binding_publish_Ok b t b' :
  binding_publish b t = Ok b' → tb_status b = BDraft ∧ b' = binding_at b BPublished (Some t).
Proof. unfold binding_publish. intros H. guards H. by apply new_binding_Ok in H. Qed.

Lemma binding_disable_Ok b b' :
  binding_disable b = Ok b' →
  tb_status b = BPublished ∧ b' = binding_at b BDisabled (tb_published_at b).
Proof. unfold binding_disable. intros H. guards H. by apply new_binding_Ok in H. Qed.

(** Publishing a well-formed draft always succeeds. *)
Lemma binding_publish_total b t :
  new_binding b = Ok b → tb_status b = BDraft →
  binding_publish b t = Ok (binding_at b BPublished (Some t)).
Proof.
  unfold binding_publish, new_binding. intros H Hs. rewrite Hs in *.
  guards H. simpl in *. destruct b as []; simpl in *. subst. by rewrite G.
Qed.

Section RepositoryFacts.
Context {D : Type} `{!Table D ToolBinding}.

Lemma save_binding_Ok tenant b c d e u s' :
  save_binding tenant b (St c (Some d) e) = (Ok u, s') →
  tb_tenant_id b = tenant ∧
  s' = St c (Some (set_table (dset (tb_id b) b (table d)) d)) e.
Proof. intros H. unfold save_binding, get_binding_by_tool_version in H. ok_inv H. by ok_facts. Qed.

Lemma add_binding_Ok tenant b c d e u s' :
  add_binding tenant b (St c (Some d) e) = (Ok u, s') →
  tb_tenant_id b = tenant ∧ dget (tb_id b) (table (V := ToolBinding) d) = None ∧
  find_binding_by_version tenant (tb_tool_version_id b) (table d) = None ∧
  s' = St c (Some (set_table (dset (tb_id b) b (table d)) d)) e.
Proof. intros H. unfold add_binding, get_binding_by_tool_version in H. ok_inv H. by ok_facts. Qed.

Lemma tx_bindings tenant :
  (∀ id, tx (D := D) (get_binding_by_id tenant id)) ∧
  (∀ id, tx (D := D) (get_binding_by_tool_version tenant id)) ∧
  (∀ b, tx (D := D) (add_binding tenant b)) ∧ (∀ b, tx (D := D) (save_binding tenant b)).
Proof.
  unfold get_binding_by_id, get_binding_by_tool_version, add_binding, save_binding,
    get_binding_by_tool_version.
  split_and!; tx_solve.
Qed.
End RepositoryFacts.
