(* ===== verification/Registry.v ===== *)
(** * Registry: upstream services

    Models [modules/registry/domain.py], [modules/registry/use_cases.py],
    [modules/registry/egress_ports.py] and
    [modules/registry/adapters/in_memory.py].  An endpoint policy is a port:
    its verdict may depend on everything observed before ([Egress.v] gives the
    program's static policy). *)

From Stdlib Require Import ZArith Ascii.
From stdpp Require Import base sets strings option list.
From S2P Require Import Prelude Text Dict Errors Json Store AuditTrail Url Catalog.
Open Scope py_scope.

(** ** Domain *)

Inductive UpstreamServiceType := UpHttp | UpRemoteMcp.
Inductive UpstreamStatus := UpDraft | UpActive | UpDisabled.

#[export] Instance service_type_eq_dec : EqDecision UpstreamServiceType.
Proof. solve_decision. Defined.
#[export] Instance upstream_status_eq_dec : EqDecision UpstreamStatus.
Proof. solve_decision. Defined.

Record UpstreamService := mkUpstream {
  us_id : string;
  us_tenant_id : string;
  us_namespace : string;
  us_name : string;
  us_description : option string;
  us_owner : string;
  us_service_type : UpstreamServiceType;
  us_transport_type : string;
  us_endpoint : string;
  us_protocol_min : option string;
  us_protocol_max : option string;
  us_auth_scheme : option string;
  us_config : dict json;
  us_status : UpstreamStatus }.

#[export] Instance upstream_eq_dec : EqDecision UpstreamService.
Proof. solve_decision. Defined.

(** [UpstreamService.__post_init__] *)
Definition new_upstream (u : UpstreamService) : res UpstreamService :=
  require_non_blank
    [("upstream service id", us_id u); ("tenant id", us_tenant_id u);
     ("upstream namespace", us_namespace u); ("upstream name", us_name u);
     ("upstream owner", us_owner u); ("upstream transport type", us_transport_type u);
     ("upstream endpoint", us_endpoint u)] ;;?
  Ok u.

(** [UpstreamService.update] *)
Definition upstream_update (u : UpstreamService) (description : option string)
    (owner endpoint : string) (auth_scheme : option string) (config : dict json) :
    res UpstreamService :=
  new_upstream
    (mkUpstream (us_id u) (us_tenant_id u) (us_namespace u) (us_name u) description owner
       (us_service_type u) (us_transport_type u) endpoint (us_protocol_min u)
       (us_protocol_max u) auth_scheme config (us_status u)).

(** [UpstreamService.disable] *)
Definition upstream_disable (u : UpstreamService) : res UpstreamService :=
  if decide (us_status u = UpDisabled) then Ok u
  else new_upstream
    (mkUpstream (us_id u) (us_tenant_id u) (us_namespace u) (us_name u) (us_description u)
       (us_owner u) (us_service_type u) (us_transport_type u) (us_endpoint u)
       (us_protocol_min u) (us_protocol_max u) (us_auth_scheme u) (us_config u) UpDisabled).

(** ** [InMemoryUpstreamRepository] *)

Definition find_upstream_by_name (tenant_id namespace name : string)
    (t : dict UpstreamService) : option UpstreamService :=
  dfind (λ u, bool_decide (us_tenant_id u = tenant_id)
              && bool_decide (us_namespace u = namespace)
              && bool_decide (us_name u = name)) t.

(** [key=lambda upstream: (upstream.namespace, upstream.name)] *)
Definition upstream_leb (a b : UpstreamService) : bool :=
  if decide (us_namespace a = us_namespace b) then str_leb (us_name a) (us_name b)
  else str_leb (us_namespace a) (us_namespace b).

Section Repository.
Context {D : Type} `{!Table D UpstreamService}.

(** [get_by_id], and [get_for_update] *)
Definition get_upstream (tenant_id id : string) : M D (option UpstreamService) :=
  let* t := read_table in ret (in_tenant us_tenant_id tenant_id (dget id t)).

Definition get_upstream_by_name (tenant_id namespace name : string) :
    M D (option UpstreamService) :=
  let* t := read_table in ret (find_upstream_by_name tenant_id namespace name t).

Definition add_upstream (tenant_id : string) (u : UpstreamService) : M D unit :=
  lift (require_matching_tenant tenant_id (us_tenant_id u)) ;;*
  let* t := read_table in
  lift (raise_if (dmem (us_id u) t) (ValueError "upstream service id already exists")) ;;*
  let* owner := get_upstream_by_name tenant_id (us_namespace u) (us_name u) in
  lift (raise_if (negb (is_none owner))
          (ValueError "upstream service name already exists in namespace")) ;;*
  write_table (dset (us_id u) u t).

Definition save_upstream (tenant_id : string) (u : UpstreamService) : M D unit :=
  lift (require_matching_tenant tenant_id (us_tenant_id u)) ;;*
  let* t := read_table in
  lift (raise_if (is_none (in_tenant us_tenant_id tenant_id (dget (us_id u) t)))
          (ValueError "upstream service does not exist in tenant")) ;;*
  write_table (dset (us_id u) u t).

Definition list_upstreams_by_tenant (tenant_id : string) : M D (list UpstreamService) :=
  let* t := read_table in
  ret (sorted_by upstream_leb (filter (λ u, us_tenant_id u = tenant_id) (dvalues t))).
End Repository.

(** ** Validation of a registration *)

(** [_NAMESPACE_PATTERN.fullmatch]: [^[a-z][a-z0-9_]{0,63}$]. *)
Definition is_lower_alpha (c : ascii) : bool := (97 <=? code c)%N && (code c <=? 122)%N.
Definition namespace_pattern (s : string) : bool :=
  match s with
  | EmptyString => false
  | String c rest =>
      is_lower_alpha c
      && all_chars (λ c, is_lower_alpha c || is_ascii_digit c || bool_decide (c = "_"%char)) rest
      && (String.length rest <=? 63)%nat
  end.

(** [_validate_namespace] *)
Definition validate_namespace (namespace : string) : res unit :=
  raise_if (negb (namespace_pattern namespace)) (Nexus InvalidArgumentsError) ;;?
  raise_if (is_reserved_tool_namespace namespace) (Nexus InvalidArgumentsError).

Definition sensitive_config_keys : list string :=
  ["access_token"; "api_key"; "authorization"; "authorization_header"; "client_secret";
   "cookie"; "credential"; "password"; "private_key"; "refresh_token"; "secret"; "token"].

(** [_contains_sensitive_key] *)
Fixpoint contains_sensitive_key (value : json) : bool :=
  match value with
  | JObj d =>
      existsb (λ kv, bool_decide (normalized_key kv.1 ∈ sensitive_config_keys)
                     || contains_sensitive_key kv.2) d
  | JArr l => existsb contains_sensitive_key l
  | _ => false
  end.

(** [_validate_registration] *)
Definition validate_registration (owner endpoint : string) (config : dict json)
    (service_type : UpstreamServiceType) : res unit :=
  raise_if (blank owner) (Nexus InvalidArgumentsError) ;;?
  raise_if (blank endpoint) (Nexus InvalidArgumentsError) ;;?
  (match service_type with
   | UpHttp =>
       let? parsed := urlsplit endpoint in
       raise_if (negb (bool_decide (url_scheme parsed ∈ ["http"; "https"]))
                 || str_empty (url_netloc parsed)) (Nexus InvalidArgumentsError) ;;?
       raise_if (negb (is_none (url_username parsed)) || negb (is_none (url_password parsed)))
         (Nexus InvalidArgumentsError)
   | UpRemoteMcp => Ok tt
   end) ;;?
  raise_if (contains_sensitive_key (JObj config)) (Nexus InvalidArgumentsError).

(** ** Commands and use cases *)

Record RegisterUpstreamCommand := mkRegisterUpstream {
  ru_context : ActorContext;
  ru_namespace : string;
  ru_name : string;
  ru_description : option string;
  ru_owner : string;
  ru_endpoint : string;
  ru_auth_scheme : option string;
  ru_config : dict json;
  ru_service_type : UpstreamServiceType;
  ru_transport_type : string }.

Record UpdateUpstreamCommand := mkUpdateUpstream {
  uu_context : ActorContext;
  uu_upstream_service_id : string;
  uu_description : option string;
  uu_owner : string;
  uu_endpoint : string;
  uu_auth_scheme : option string;
  uu_config : dict json }.

(** [UpstreamEndpointPolicy.validate], by the calls observed before. *)
Class EndpointPolicy := validate_endpoint : list io_event → string → res unit.

(** [AllowAllUpstreamEndpointPolicy] *)
Definition allow_all_policy : EndpointPolicy := λ _ _, Ok tt.

Definition policy_validate {D} `{EndpointPolicy} (endpoint : string) : M D unit :=
  let* log := get_log in
  emit (IoValidateEndpoint endpoint) ;;*
  lift (validate_endpoint log endpoint).

Section UseCases.
Context {D : Type} `{Ports} `{EndpointPolicy} `{!Table D UpstreamService}.

(** [RegisterUpstream.execute] *)
Definition register_upstream (c : RegisterUpstreamCommand) : M D UpstreamService :=
  lift (validate_namespace (ru_namespace c)) ;;*
  lift (raise_if (blank (ru_name c)) (Nexus InvalidArgumentsError)) ;;*
  lift (raise_if (blank (ru_transport_type c)) (Nexus InvalidArgumentsError)) ;;*
  lift (validate_registration (ru_owner c) (ru_endpoint c) (ru_config c) (ru_service_type c)) ;;*
  policy_validate (ru_endpoint c) ;;*
  let tenant_id := ctx_tenant_id (ru_context c) in
  with_uow (
    let* existing := get_upstream_by_name tenant_id (ru_namespace c) (ru_name c) in
    lift (raise_if (negb (is_none existing)) (Nexus UpstreamConflictError)) ;;*
    let* id := new_id in
    let* upstream := lift (new_upstream
      (mkUpstream id tenant_id (ru_namespace c) (ru_name c) (ru_description c) (ru_owner c)
         (ru_service_type c) (ru_transport_type c) (ru_endpoint c) None None
         (ru_auth_scheme c) (ru_config c) UpActive)) in
    add_upstream tenant_id upstream ;;*
    commit ;;*
    ret upstream).

(** [UpdateUpstream.execute]: observe, check outside any transaction, then
    lock and write. *)
Definition update_upstream (c : UpdateUpstreamCommand) : M D UpstreamService :=
  let tenant_id := ctx_tenant_id (uu_context c) in
  let* observed := with_uow (get_upstream tenant_id (uu_upstream_service_id c)) in
  match observed with
  | None => raise (Nexus UpstreamNotFoundError)
  | Some o =>
      lift (validate_registration (uu_owner c) (uu_endpoint c) (uu_config c)
              (us_service_type o)) ;;*
      policy_validate (uu_endpoint c) ;;*
      with_uow (
        let* found := get_upstream tenant_id (uu_upstream_service_id c) in
        match found with
        | None => raise (Nexus UpstreamNotFoundError)
        | Some u =>
            let* updated := lift (upstream_update u (uu_description c) (uu_owner c)
                                    (uu_endpoint c) (uu_auth_scheme c) (uu_config c)) in
            save_upstream tenant_id updated ;;*
            commit ;;*
            ret updated
        end)
  end.

(** [DisableUpstream.execute] *)
Definition disable_upstream (ctx : ActorContext) (id : string) : M D UpstreamService :=
  let tenant_id := ctx_tenant_id ctx in
  with_uow (
    let* found := get_upstream tenant_id id in
    match found with
    | None => raise (Nexus UpstreamNotFoundError)
    | Some u =>
        let* disabled := lift (upstream_disable u) in
        save_upstream tenant_id disabled ;;*
        commit ;;*
        ret disabled
    end).

(** [ListUpstreams.execute] *)
Definition list_upstreams (ctx : ActorContext) : M D (list UpstreamService) :=
  with_uow (list_upstreams_by_tenant (ctx_tenant_id ctx)).
End UseCases.

(** ** The store of [InMemoryRegistryUnitOfWork] *)

Definition upstream_store := dict UpstreamService.

#[export, refine] Instance upstream_store_table : Table upstream_store UpstreamService := {
  table d := d;
  set_table t _ := t }.
Proof. all: done. Defined.

#[global] Arguments new_upstream : simpl never.
#[global] Arguments upstream_update : simpl never.
#[global] Arguments upstream_disable : simpl never.
#[global] Arguments validate_registration : simpl never.
#[global] Arguments validate_namespace : simpl never.

(** ** The registry invariant *)

(** What [_validate_registration] lets through. *)
Definition endpoint_safe (endpoint : string) : Prop :=
  ∃ parsed, urlsplit endpoint = Ok parsed ∧ url_scheme parsed ∈ ["http"; "https"] ∧
    url_netloc parsed ≠ "" ∧ url_username parsed = None ∧ url_password parsed = None.

Definition registration_safe (u : UpstreamService) : Prop :=
  blank (us_owner u) = false ∧ (us_service_type u = UpHttp → endpoint_safe (us_endpoint u)) ∧
  contains_sensitive_key (JObj (us_config u)) = false.

Definition same_name (u v : UpstreamService) : Prop :=
  us_tenant_id u = us_tenant_id v ∧ us_namespace u = us_namespace v ∧ us_name u = us_name v.

#[export] Instance same_name_sym : Symmetric same_name.
Proof. by intros u v (? & ? & ?). Qed.

Record registry_ok (t : dict UpstreamService) : Prop := {
  registry_keyed : keyed us_id t;
  registry_unique : unique_by us_id same_name t;
  registry_safe : ∀ k u, dget k t = Some u →
    registration_safe u ∧ namespace_pattern (us_namespace u) = true ∧
    is_reserved_tool_namespace (us_namespace u) = false }.

Lemma validate_registration_Ok owner endpoint config ty :
  validate_registration owner endpoint config ty = Ok tt →
  blank owner = false ∧ (ty = UpHttp → endpoint_safe endpoint) ∧
  contains_sensitive_key (JObj config) = false.
Proof.
  unfold validate_registration. intros H. guards H. apply raise_if_Ok in H.
  split; [done|]. split; [|done]. intros ->. apply rbind_Ok_inv in G1 as (u & Hu & G1).
  guards G1. apply raise_if_Ok in G1. py_bools. exists u.
  repeat split; try done.
  - by intros E; rewrite E in *.
  - by destruct (url_username u).
  - by destruct (url_password u).
Qed.

Lemma validate_namespace_Ok n :
  validate_namespace n = Ok tt →
  namespace_pattern n = true ∧ is_reserved_tool_namespace n = false.
Proof.
  unfold validate_namespace. intros H. guards H. apply raise_if_Ok in H. by py_bools.
Qed.

Lemma new_upstream_Ok u u' : new_upstream u = Ok u' → u' = u.
Proof. unfold new_upstream. py_run. Qed.

(** An update or a disable keeps the identity of the upstream. *)
Definition same_identity (u u' : UpstreamService) : Prop :=
  us_id u' = us_id u ∧ us_tenant_id u' = us_tenant_id u ∧ us_namespace u' = us_namespace u ∧
  us_name u' = us_name u ∧ us_service_type u' = us_service_type u.

Lemma registry_ok_save u u' t :
  registry_ok t → dget (us_id u) t = Some u → same_identity u u' → registration_safe u' →
  registry_ok (dset (us_id u') u' t).
Proof.
  intros [Hk Hu Hs] Hg (Hid & Ht & Hn & Hna & Hty) Hsafe. split.
  - by apply keyed_dset.
  - apply unique_by_dset; [done|apply _|done|]. intros k w Hw (? & ? & ?).
    rewrite Hid. symmetry. apply (Hu _ _ _ _ Hg Hw). repeat split; congruence.
  - apply dset_all; [done|]. rewrite Hn. split; [done|]. apply (Hs _ _ Hg).
Qed.

Lemma registry_ok_add u t :
  registry_ok t → find_upstream_by_name (us_tenant_id u) (us_namespace u) (us_name u) t = None →
  registration_safe u → namespace_pattern (us_namespace u) = true →
  is_reserved_tool_namespace (us_namespace u) = false →
  registry_ok (dset (us_id u) u t).
Proof.
  intros [Hk Hu Hs] Hf Hsafe Hn Hr. split.
  - by apply keyed_dset.
  - apply unique_by_dset; [done|apply _|done|]. intros k w Hw (Ha & Hb & Hc).
    pose proof (dfind_None us_id _ _ Hk Hf _ _ Hw) as Hno. simpl in Hno.
    by rewrite Ha, Hb, Hc, !bool_decide_eq_true_2 in Hno.
  - by apply dset_all.
Qed.

#[global] Arguments get_log : simpl never.

Section RegistryFacts.
Context `{Ports} `{EndpointPolicy}.

(** Every outcome of [RegisterUpstream]. *)
Lemma register_upstream_run c d e r s' :
  register_upstream c (St d None e) = (r, s') →
  ∃ e', (∃ x, r = Raise x ∧ s' = St d None e') ∨
    (∃ u, r = Ok u ∧ s' = St (dset (us_id u) u d) None e' ∧
       us_tenant_id u = ctx_tenant_id (ru_context c) ∧ us_namespace u = ru_namespace c ∧
       us_name u = ru_name c ∧ us_status u = UpActive ∧ dget (us_id u) d = None ∧
       find_upstream_by_name (us_tenant_id u) (us_namespace u) (us_name u) d = None ∧
       registration_safe u ∧ namespace_pattern (us_namespace u) = true ∧
       is_reserved_tool_namespace (us_namespace u) = false ∧
       validate_endpoint (io_log e) (us_endpoint u) = Ok tt).
Proof.
  intros Hr. unfold register_upstream, policy_validate, get_upstream_by_name, add_upstream,
    get_upstream_by_name, require_matching_tenant in Hr.
  run_uow Hr; try (eexists; left; eexists; by split).
  eexists. right. eexists. split; [done|].
  repeat match goal with
  | G : new_upstream _ = Ok _ |- _ => apply new_upstream_Ok in G as ->
  | G : validate_registration _ _ _ _ = Ok ?a |- _ =>
      destruct a; apply validate_registration_Ok in G as (? & ? & ?)
  | G : validate_namespace _ = Ok ?a |- _ => destruct a; apply validate_namespace_Ok in G as [? ?]
  | G : validate_endpoint _ _ = Ok ?a |- _ => is_var a; destruct a
  | G : dmem _ _ = false |- _ => apply dmem_false in G
  | G : negb (is_none _) = false |- _ => apply not_none_false in G
  end.
 simpl in *. unfold registration_safe. simpl. done.
Qed.

(** Every outcome of [UpdateUpstream]. *)
Lemma update_upstream_run c d e r s' :
  registry_ok d → update_upstream c (St d None e) = (r, s') →
  ∃ e', (∃ x, r = Raise x ∧ s' = St d None e') ∨
    (∃ u u', r = Ok u' ∧ s' = St (dset (us_id u') u' d) None e' ∧
       dget (us_id u) d = Some u ∧ us_id u = uu_upstream_service_id c ∧
       us_tenant_id u = ctx_tenant_id (uu_context c) ∧
       same_identity u u' ∧ us_status u' = us_status u ∧ registration_safe u' ∧
       us_endpoint u' = uu_endpoint c ∧ validate_endpoint (io_log e) (us_endpoint u') = Ok tt).
Proof.
  intros Hk Hr. unfold update_upstream, policy_validate, save_upstream, get_upstream,
    require_matching_tenant, upstream_update in Hr.
  run_uow Hr; try (eexists; left; eexists; by split).
  eexists. right.
  repeat match goal with
  | G : new_upstream _ = Ok _ |- _ => apply new_upstream_Ok in G as ->
  | G : validate_registration _ _ _ _ = Ok ?a |- _ =>
      destruct a; apply validate_registration_Ok in G as (? & ? & ?)
  | G : validate_endpoint _ _ = Ok ?a |- _ => is_var a; destruct a
  | G : in_tenant _ _ _ = Some _ |- _ => apply in_tenant_Some in G as [? ?]
  end.
  match goal with G : dget _ _ = Some _ |- _ =>
    pose proof (keyed_get _ _ _ _ (registry_keyed _ Hk) G) as Hid end.
  eexists _, _. split; [done|]. split; [done|]. simpl in *.
  rewrite Hid. unfold same_identity, registration_safe. simpl. done.
Qed.

(** Every outcome of [DisableUpstream]. *)
Lemma disable_upstream_run ctx id d e r s' :
  registry_ok d → disable_upstream ctx id (St d None e) = (r, s') →
  ∃ e', (∃ x, r = Raise x ∧ s' = St d None e') ∨
    (∃ u u', r = Ok u' ∧ s' = St (dset (us_id u') u' d) None e' ∧
       dget (us_id u) d = Some u ∧ us_id u = id ∧ us_tenant_id u = ctx_tenant_id ctx ∧
       same_identity u u' ∧ us_status u' = UpDisabled ∧ registration_safe u').
Proof.
  intros Hk Hr. unfold disable_upstream, save_upstream, get_upstream,
    require_matching_tenant, upstream_disable in Hr.
  run_uow Hr; try (eexists; left; eexists; by split).
  all: repeat match goal with
  | G : new_upstream _ = Ok _ |- _ => apply new_upstream_Ok in G as ->
  | G : in_tenant _ _ _ = Some _ |- _ => apply in_tenant_Some in G as [? ?]
  end.
  all: match goal with G : dget _ _ = Some _ |- _ =>
    pose proof (keyed_get _ _ _ _ (registry_keyed _ Hk) G) as Hid;
    pose proof (registry_safe _ Hk _ _ G) as (Hsafe & _ & _) end.
  all: eexists; right; eexists _, _; split; [done|]; split; [done|]; simpl in *; rewrite ?Hid.
  all: unfold same_identity, registration_safe in *; simpl in *; done.
Qed.

(** The three write use cases, in any order. *)
Inductive registry_step (d : upstream_store) : upstream_store → Prop :=
| step_register c e r d' e' :
    register_upstream c (St d None e) = (r, St d' None e') → registry_step d d'
| step_update c e r d' e' :
    update_upstream c (St d None e) = (r, St d' None e') → registry_step d d'
| step_disable ctx id e r d' e' :
    disable_upstream ctx id (St d None e) = (r, St d' None e') → registry_step d d'.

Lemma registry_step_ok d d' : registry_ok d → registry_step d d' → registry_ok d'.
Proof.
  intros Hok [c e r d1 e1 Hr|c e r d1 e1 Hr|ctx id e r d1 e1 Hr].
  - apply register_upstream_run in Hr as
      (? & [(? & _ & ?)|(u & _ & ? & ? & ? & ? & ? & ? & ? & ? & ? & ? & ?)]);
      simplify_eq; [done|by apply registry_ok_add].
  - apply update_upstream_run in Hr as
      (? & [(? & _ & ?)|(u & u' & _ & ? & ? & ? & ? & ? & ? & ? & ?)]);
      simplify_eq; try done; by eapply registry_ok_save.
  - apply disable_upstream_run in Hr as
      (? & [(? & _ & ?)|(u & u' & _ & ? & ? & ? & ? & ? & ? & ?)]);
      simplify_eq; try done; by eapply registry_ok_save.
Qed.

(** A disabled upstream stays disabled, under the same identity. *)
Lemma registry_step_disabled d d' id u :
  registry_ok d → registry_step d d' → dget id d = Some u → us_status u = UpDisabled →
  ∃ u', dget id d' = Some u' ∧ us_status u' = UpDisabled ∧ same_identity u u'.
Proof.
  intros Hok Hstep Hu Hd.
  assert (Hsame : ∃ u', dget id d = Some u' ∧ us_status u' = UpDisabled ∧ same_identity u u')
    by (exists u; unfold same_identity; done).
  assert (Hsave : ∀ v v', dget (us_id v) d = Some v → same_identity v v' →
    us_status v' = us_status v ∨ us_status v' = UpDisabled →
    ∃ u', dget id (dset (us_id v') v' d) = Some u' ∧ us_status u' = UpDisabled ∧
          same_identity u u').
  { intros v v' Hv Hi Hs. destruct Hi as (Hid & Hrest). rewrite Hid, dget_dset.
    case_decide; subst; [|eauto]. rewrite Hv in Hu. simplify_eq. exists v'.
    split; [done|]. split; [destruct Hs; congruence|]. by split. }
  destruct Hstep as [c e r d1 e1 Hr|c e r d1 e1 Hr|ctx i e r d1 e1 Hr].
  - apply register_upstream_run in Hr as
      (? & [(? & _ & ?)|(v & _ & ? & ? & ? & ? & ? & Hn & ?)]); simplify_eq; [done|].
    rewrite dget_dset. case_decide; [congruence|done].
  - apply update_upstream_run in Hr as
      (? & [(? & _ & ?)|(v & v' & _ & ? & ? & ? & ? & ? & ? & ?)]); simplify_eq; eauto.
  - apply disable_upstream_run in Hr as
      (? & [(? & _ & ?)|(v & v' & _ & ? & ? & ? & ? & ? & ? & ?)]); simplify_eq; eauto.
Qed.
End RegistryFacts.

(** ** Properties *)

Section Properties.
Context `{Ports} `{EndpointPolicy}.

(** However registrations, updates and disables are interleaved, every
    stored upstream has a valid, unreserved namespace, a name unique in its
    tenant and namespace, a configuration without a secret-bearing key at any
    depth, and (for HTTP) an http(s) endpoint with a host and without embedded
    credentials. *)
Theorem registry_invariant d d' :
  registry_ok d → star registry_step d d' → registry_ok d'.
Proof. intros Hd. apply star_invariant; eauto using registry_step_ok. Qed.

(** Disabling is permanent.  Along any sequence of registry operations a
    disabled upstream stays disabled, with the same tenant, namespace, name
    and type. *)
Theorem disabled_upstream_stays_disabled d d' id u :
  registry_ok d → star registry_step d d' → dget id d = Some u → us_status u = UpDisabled →
  ∃ u', dget id d' = Some u' ∧ us_status u' = UpDisabled ∧ same_identity u u'.
Proof.
  intros Hd Hs. revert u. induction Hs as [d|d d1 d2 Hstep Hs IH]; intros u Hu Hst.
  { exists u. unfold same_identity. done. }
  destruct (registry_step_disabled _ _ _ _ Hd Hstep Hu Hst) as (u1 & Hu1 & Hs1 & Hi1).
  destruct (IH (registry_step_ok _ _ Hd Hstep) _ Hu1 Hs1) as (u2 & Hu2 & Hs2 & Hi2).
  exists u2. split; [done|]. split; [done|]. unfold same_identity in *.
  by repeat match goal with G : _ ∧ _ |- _ => destruct G end; repeat split; congruence.
Qed.
End Properties.

(** ** Witnesses *)

Lemma registry_ok_nil : registry_ok [].
Proof. by split; [apply keyed_nil|intros ????|intros ??]. Qed.

Module RegistryExamples.
Definition ctx : ActorContext :=
  mkActorContext "req" "trace" "tenant" "agent" "static" "admin".
Definition orders : RegisterUpstreamCommand :=
  mkRegisterUpstream ctx "orders" "Orders API" None "team" "https://orders.example.com/v1" None
    [("timeout", JInt 3); ("headers", JObj [("x-team", JStr "a")])] UpHttp "http".
Definition registered : upstream_store :=
  store (register_upstream (H := sample_ports) (H0 := allow_all_policy) orders
           (St [] None (Env 0 0 []))).2.

Example register_rejects_secrets :
  (register_upstream (D := upstream_store) (H := sample_ports) (H0 := allow_all_policy)
     (mkRegisterUpstream ctx "orders" "Orders API" None "team" "https://orders.example.com" None
        [("headers", JArr [JObj [(" Api-Key", JStr "x")]])] UpHttp "http")
     (St [] None (Env 0 0 []))).1 = Raise (Nexus InvalidArgumentsError).
Proof. vm_compute. reflexivity. Qed.

Lemma registered_star :
  star (registry_step (H := sample_ports) (H0 := allow_all_policy)) [] registered.
Proof.
  apply star_one. eapply (step_register (H := sample_ports) (H0 := allow_all_policy) []
    orders (Env 0 0 [])). vm_compute. reflexivity.
Qed.

Lemma registry_invariant_ok (ports : Ports) (policy : EndpointPolicy) d :
  star (registry_step (H := ports) (H0 := policy)) [] d → registry_ok d.
Proof. apply (star_invariant _ registry_ok); [|apply registry_ok_nil]. eauto using registry_step_ok. Qed.
End RegistryExamples.

Lemma registry_invariant_witness :
  RegistryExamples.registered ≠ [] ∧ registry_ok RegistryExamples.registered.
Proof.
  split; [by vm_compute|].
  apply (registry_invariant (H := sample_ports) (H0 := allow_all_policy) [] _ registry_ok_nil
    RegistryExamples.registered_star).
Defined.

Lemma disabled_upstream_stays_disabled_witness :
  ∃ d u u', dget "a-id" d = Some u ∧ us_status u = UpDisabled ∧ us_status u' = UpDisabled.
Proof.
  pose (d := store (disable_upstream (D := upstream_store) RegistryExamples.ctx "a-id"
    (St RegistryExamples.registered None (Env 1 1 []))).2).
  assert (Hs : star (registry_step (H := sample_ports) (H0 := allow_all_policy)) [] d).
  { eapply star_trans; [apply RegistryExamples.registered_star|]. apply star_one.
    eapply (step_disable (H := sample_ports) (H0 := allow_all_policy) _ RegistryExamples.ctx "a-id"
      (Env 1 1 [])). vm_compute. reflexivity. }
  assert (Hu : ∃ u, dget "a-id" d = Some u ∧ us_status u = UpDisabled)
    by (eexists; split; [vm_compute; reflexivity|reflexivity]).
  destruct Hu as (u & Hu & Hst).
  destruct (disabled_upstream_stays_disabled (H := sample_ports) (H0 := allow_all_policy) d d
    "a-id" u (RegistryExamples.registry_invariant_ok _ _ _ Hs) (star_refl _ _) Hu Hst) as (u' & _ & Hu' & _).
  by exists d, u, u'.
Defined.
