(* ===== verification/Publish.v ===== *)
(** * Publish: switching the published version of a tool

    Models [modules/catalog/publish.py] over the stores of
    [InMemoryCatalogUnitOfWork] ([modules/catalog/adapters/in_memory_uow.py]):
    tools, versions, bindings and upstreams.  [publish_tool_in_transaction]
    runs in its caller's unit of work (the direct OpenAPI publication calls it
    too), so it is stated over any store with the four tables. *)

From Stdlib Require Import ZArith Lia.
From stdpp Require Import base sets strings option list.
From S2P Require Import Prelude Text Dict Errors Json Store AuditTrail Catalog Connectors.
From S2P Require Import Registry.
Open Scope py_scope.

(** ** Data *)

Record PublishToolCommand := mkPublishCommand {
  pc_context : ActorContext;
  pc_tool_id : string;
  pc_tool_version_id : string;
  pc_expected_schema_digest : string;
  pc_expected_binding_digest : string }.

Record ToolPublished := mkToolPublished {
  ev_tenant_id : string;
  ev_tool_id : string;
  ev_tool_version_id : string;
  ev_tool_binding_id : string;
  ev_canonical_name : string;
  ev_version : Z;
  ev_actor_id : string;
  ev_request_id : string;
  ev_trace_id : string;
  ev_occurred_at : datetime }.

Record PublishToolResult := mkPublishResult {
  pr_event : ToolPublished;
  pr_retired_tool_version_id : option string }.

(** ** The use case *)

(** [PublishTool._validate_publish_snapshot] *)
Definition validate_publish_snapshot (c : PublishToolCommand) (tool : Tool) (v : ToolVersion)
    (b : ToolBinding) (u : UpstreamService) : res unit :=
  let tenant_id := ctx_tenant_id (pc_context c) in
  raise_if (negb (bool_decide (Forall (λ t, t = tenant_id)
                    [tool_tenant_id tool; tv_tenant_id v; tb_tenant_id b; us_tenant_id u])))
    (Nexus TenantBoundaryViolationError) ;;?
  raise_if (negb (bool_decide (tv_tool_id v = tool_id tool))
            || negb (bool_decide (tb_tool_version_id b = tv_id v)))
    (Nexus InvalidToolStateError) ;;?
  raise_if (negb (bool_decide (tv_status v = VReview))) (Nexus InvalidToolStateError) ;;?
  raise_if (negb (bool_decide (tb_status b = BDraft))) (Nexus InvalidToolStateError) ;;?
  raise_if (negb (bool_decide (us_status u = UpActive))) (Nexus UpstreamNotActiveError) ;;?
  let? schema_digest := calculate_schema_digest (tv_input_schema v) (tv_output_schema v) in
  raise_if (negb (bool_decide (schema_digest = tv_schema_digest v))
            || negb (bool_decide (pc_expected_schema_digest c = tv_schema_digest v)))
    (Nexus SchemaDigestMismatchError) ;;?
  let? binding_digest := calculate_binding_digest b in
  raise_if (negb (bool_decide (binding_digest = tb_binding_digest b))
            || negb (bool_decide (pc_expected_binding_digest c = tb_binding_digest b)))
    (Nexus BindingDigestMismatchError).

Section InTransaction.
Context {D : Type} `{!Table D Tool} `{!Table D ToolVersion} `{!Table D ToolBinding}
  `{!Table D UpstreamService}.

(** [PublishTool._retire_current_version] *)
Definition retire_current_version (tenant_id : string) (tool : Tool) (target : ToolVersion)
    (retired_at : datetime) : M D (option string) :=
  let* current := get_published_version tenant_id (tool_id tool) in
  match current with
  | None => ret None
  | Some current =>
      lift (raise_if (tv_version target <=? tv_version current)%Z
              (Nexus PublishConflictError)) ;;*
      let* locked := get_version_by_id tenant_id (tv_id current) in
      match locked with
      | None => raise (Nexus PublishConflictError)
      | Some locked =>
          lift (raise_if (negb (bool_decide (tv_status locked = VPublished)))
                  (Nexus PublishConflictError)) ;;*
          let* binding := get_binding_by_tool_version tenant_id (tv_id locked) in
          match binding with
          | None => raise (Nexus ToolBindingNotFoundError)
          | Some binding =>
              lift (raise_if (negb (bool_decide (tb_status binding = BPublished)))
                      (Nexus InvalidToolStateError)) ;;*
              let* retired := lift (version_retire locked retired_at) in
              save_version tenant_id retired ;;*
              let* disabled := lift (binding_disable binding) in
              save_binding tenant_id disabled ;;*
              ret (Some (tv_id locked))
          end
      end
  end.

(** [publish_tool_in_transaction]: no commit inside. *)
Definition publish_tool_in_transaction (c : PublishToolCommand) (published_at : datetime) :
    M D PublishToolResult :=
  let tenant_id := ctx_tenant_id (pc_context c) in
  let* tool := get_tool_by_id tenant_id (pc_tool_id c) in
  match tool with None => raise (Nexus ToolNotFoundError) | Some tool =>
  let* version := get_version_by_id tenant_id (pc_tool_version_id c) in
  match version with None => raise (Nexus ToolVersionNotFoundError) | Some version =>
  let* binding := get_binding_by_tool_version tenant_id (tv_id version) in
  match binding with None => raise (Nexus ToolBindingNotFoundError) | Some binding =>
  let* upstream := get_upstream tenant_id (tb_upstream_service_id binding) in
  match upstream with None => raise (Nexus TenantBoundaryViolationError) | Some upstream =>
  lift (validate_publish_snapshot c tool version binding upstream) ;;*
  let* retired_version_id := retire_current_version tenant_id tool version published_at in
  let* published := lift (version_publish version published_at) in
  save_version tenant_id published ;;*
  let* published_binding := lift (binding_publish binding published_at) in
  save_binding tenant_id published_binding ;;*
  let* active := lift (tool_activate tool) in
  save_tool tenant_id active ;;*
  ret (mkPublishResult
         (mkToolPublished tenant_id (tool_id tool) (tv_id version) (tb_id binding)
            (tool_canonical_name tool) (tv_version version) (ctx_principal_id (pc_context c))
            (ctx_request_id (pc_context c)) (ctx_trace_id (pc_context c)) published_at)
         retired_version_id)
  end end end end.
End InTransaction.

Section PublishTool.
Context {D : Type} `{Ports} `{!Table D Tool} `{!Table D ToolVersion} `{!Table D ToolBinding}
  `{!Table D UpstreamService}.

(** [PublishTool.execute] *)
Definition publish_tool (c : PublishToolCommand) : M D PublishToolResult :=
  let* published_at := now in
  lift (raise_if (negb (dt_aware published_at))
          (ValueError "publish clock must return a timezone-aware datetime")) ;;*
  with_uow (
    let* result := publish_tool_in_transaction c published_at in
    commit ;;*
    ret result).
End PublishTool.

(** ** The stores of [InMemoryCatalogUnitOfWork] *)

Record catalog_store := mkCatalogStore {
  cs_tools : dict Tool;
  cs_versions : dict ToolVersion;
  cs_bindings : dict ToolBinding;
  cs_upstreams : dict UpstreamService }.

(** A unit of work that has the catalog's stores, perhaps among others. *)
Class CatalogStores (D : Type) := {
  catalog_of : D → catalog_store;
  with_catalog : catalog_store → D → D;
  catalog_of_with k d : catalog_of (with_catalog k d) = k;
  with_catalog_with k k' d : with_catalog k (with_catalog k' d) = with_catalog k d;
  with_catalog_of d : with_catalog (catalog_of d) d = d }.

#[export, refine] Instance catalog_stores : CatalogStores catalog_store := {
  catalog_of d := d; with_catalog k _ := k }.
Proof. all: done. Defined.

Section Tables.
Context `{CatalogStores D}.

#[export, refine] Instance catalog_tools : Table D Tool := {
  table d := cs_tools (catalog_of d);
  set_table t d := let k := catalog_of d in
    with_catalog (mkCatalogStore t (cs_versions k) (cs_bindings k) (cs_upstreams k)) d }.
Proof.
  all: intros; simpl; rewrite ?catalog_of_with, ?with_catalog_with; try done.
  destruct (catalog_of d) eqn:E; simpl; rewrite <-E; apply with_catalog_of.
Defined.
#[export, refine] Instance catalog_versions : Table D ToolVersion := {
  table d := cs_versions (catalog_of d);
  set_table t d := let k := catalog_of d in
    with_catalog (mkCatalogStore (cs_tools k) t (cs_bindings k) (cs_upstreams k)) d }.
Proof.
  all: intros; simpl; rewrite ?catalog_of_with, ?with_catalog_with; try done.
  destruct (catalog_of d) eqn:E; simpl; rewrite <-E; apply with_catalog_of.
Defined.
#[export, refine] Instance catalog_bindings : Table D ToolBinding := {
  table d := cs_bindings (catalog_of d);
  set_table t d := let k := catalog_of d in
    with_catalog (mkCatalogStore (cs_tools k) (cs_versions k) t (cs_upstreams k)) d }.
Proof.
  all: intros; simpl; rewrite ?catalog_of_with, ?with_catalog_with; try done.
  destruct (catalog_of d) eqn:E; simpl; rewrite <-E; apply with_catalog_of.
Defined.
#[export, refine] Instance catalog_upstreams : Table D UpstreamService := {
  table d := cs_upstreams (catalog_of d);
  set_table t d := let k := catalog_of d in
    with_catalog (mkCatalogStore (cs_tools k) (cs_versions k) (cs_bindings k) t) d }.
Proof.
  all: intros; simpl; rewrite ?catalog_of_with, ?with_catalog_with; try done.
  destruct (catalog_of d) eqn:E; simpl; rewrite <-E; apply with_catalog_of.
Defined.
End Tables.

#[global] Arguments validate_publish_snapshot : simpl never.

(** ** What a publication does *)

(** The aggregate a publication is checked against. *)
Record snapshot_ok (c : PublishToolCommand) (tool : Tool) (v : ToolVersion) (b : ToolBinding)
    (u : UpstreamService) : Prop := {
  snap_tenants : Forall (λ t, t = ctx_tenant_id (pc_context c))
    [tool_tenant_id tool; tv_tenant_id v; tb_tenant_id b; us_tenant_id u];
  snap_tool : tv_tool_id v = tool_id tool;
  snap_binding : tb_tool_version_id b = tv_id v;
  snap_review : tv_status v = VReview;
  snap_draft : tb_status b = BDraft;
  snap_active : us_status u = UpActive;
  snap_schema_digest :
    calculate_schema_digest (tv_input_schema v) (tv_output_schema v) = Ok (tv_schema_digest v);
  snap_expected_schema : pc_expected_schema_digest c = tv_schema_digest v;
  snap_binding_digest : calculate_binding_digest b = Ok (tb_binding_digest b);
  snap_expected_binding : pc_expected_binding_digest c = tb_binding_digest b }.

Lemma validate_publish_snapshot_Ok c tool v b u :
  validate_publish_snapshot c tool v b u = Ok tt ↔ snapshot_ok c tool v b u.
Proof.
  unfold validate_publish_snapshot. split.
  - intros H. guards H. apply raise_if_Ok in H. py_bools. subst. by split.
  - intros []. rewrite (bool_decide_eq_true_2 (Forall _ _)) by done.
    rewrite !bool_decide_eq_true_2 by done. simpl. rewrite snap_schema_digest0. simpl.
    rewrite !bool_decide_eq_true_2 by done. simpl. rewrite snap_binding_digest0. simpl.
    by rewrite !bool_decide_eq_true_2 by done.
Qed.

(** A successful publication, as a relation on the stores: either the tool had
    no published version, or the one it had is retired and its binding
    disabled. *)
Inductive publication (c : PublishToolCommand) (t : datetime) (d : catalog_store) :
    option string → ToolVersion → catalog_store → Prop :=
| publication_first tool v b u :
    dget (pc_tool_id c) (cs_tools d) = Some tool →
    dget (pc_tool_version_id c) (cs_versions d) = Some v →
    find_binding_by_version (ctx_tenant_id (pc_context c)) (tv_id v) (cs_bindings d) = Some b →
    dget (tb_upstream_service_id b) (cs_upstreams d) = Some u →
    snapshot_ok c tool v b u →
    dfind (is_published_version (ctx_tenant_id (pc_context c)) (tool_id tool)) (cs_versions d)
      = None →
    publication c t d None v
      (mkCatalogStore
         (dset (tool_id tool) (tool_with_status ToolActive tool) (cs_tools d))
         (dset (tv_id v) (version_at v VPublished (tv_reviewed_at v) (Some t) (tv_retired_at v))
            (cs_versions d))
         (dset (tb_id b) (binding_at b BPublished (Some t)) (cs_bindings d))
         (cs_upstreams d))
| publication_switch tool v b u old ob :
    dget (pc_tool_id c) (cs_tools d) = Some tool →
    dget (pc_tool_version_id c) (cs_versions d) = Some v →
    find_binding_by_version (ctx_tenant_id (pc_context c)) (tv_id v) (cs_bindings d) = Some b →
    dget (tb_upstream_service_id b) (cs_upstreams d) = Some u →
    snapshot_ok c tool v b u →
    dfind (is_published_version (ctx_tenant_id (pc_context c)) (tool_id tool)) (cs_versions d)
      = Some old →
    find_binding_by_version (ctx_tenant_id (pc_context c)) (tv_id old) (cs_bindings d) = Some ob →
    tb_status ob = BPublished → (tv_version old < tv_version v)%Z →
    publication c t d (Some (tv_id old)) v
      (mkCatalogStore
         (dset (tool_id tool) (tool_with_status ToolActive tool) (cs_tools d))
         (dset (tv_id v) (version_at v VPublished (tv_reviewed_at v) (Some t) (tv_retired_at v))
            (dset (tv_id old)
               (version_at old VRetired (tv_reviewed_at old) (tv_published_at old) (Some t))
               (cs_versions d)))
         (dset (tb_id b) (binding_at b BPublished (Some t))
            (dset (tb_id ob) (binding_at ob BDisabled (tb_published_at ob)) (cs_bindings d)))
         (cs_upstreams d)).

(** Read the calls left by [ok_inv] in a publication. *)
Ltac publish_facts :=
  ok_facts; simpl in *;
  repeat (match goal with
  | H : validate_publish_snapshot _ _ _ _ _ = Ok ?u |- _ =>
      destruct u; apply validate_publish_snapshot_Ok in H
  | H : version_retire _ _ = Ok _ |- _ => apply version_retire_Ok in H as [? ->]
  | H : version_publish _ _ = Ok _ |- _ => apply version_publish_Ok in H as [? ->]
  | H : binding_publish _ _ = Ok _ |- _ => apply binding_publish_Ok in H as [? ->]
  | H : binding_disable _ = Ok _ |- _ => apply binding_disable_Ok in H as [? ->]
  | H : tool_activate _ = Ok _ |- _ => apply tool_activate_Ok in H as ->
  | H : save_version _ _ (St _ (Some _) _) = _ |- _ => apply save_version_Ok in H as [? ->]
  | H : save_binding _ _ (St _ (Some _) _) = _ |- _ => apply save_binding_Ok in H as [? ->]
  | H : save_tool _ _ (St _ (Some _) _) = _ |- _ => apply save_tool_Ok in H as [? ->]
  | H : (_ <=? _)%Z = false |- _ => apply Z.leb_gt in H
  end; simpl in *).

Section PublishFacts.
Context `{Ports}.

Lemma tx_publish_tool_in_transaction `{CatalogStores D} c t :
  tx (publish_tool_in_transaction (D := D) c t).
Proof.
  unfold publish_tool_in_transaction, retire_current_version, get_tool_by_id,
    get_version_by_id, get_binding_by_tool_version, get_upstream, get_published_version,
    save_version, save_binding, save_tool, get_tool_by_name, get_binding_by_tool_version.
  tx_solve.
Qed.

Lemma publish_in_transaction_Ok `{CatalogStores D} c t (d0 d : D) e res s' :
  keyed tv_id (cs_versions (catalog_of d)) →
  publish_tool_in_transaction c t (St d0 (Some d) e) = (Ok res, s') →
  ∃ v k', s' = St d0 (Some (with_catalog k' d)) e ∧
    publication c t (catalog_of d) (pr_retired_tool_version_id res) v k'.
Proof.
  intros Hk Hr.
  unfold publish_tool_in_transaction, retire_current_version, get_tool_by_id,
    get_version_by_id, get_binding_by_tool_version, get_upstream, get_published_version in Hr.
  ok_inv Hr; publish_facts; repeat rewrite ?catalog_of_with, ?with_catalog_with in *; simpl in *.
  - match goal with G : dfind _ _ = Some ?o |- _ =>
      pose proof (dfind_Some tv_id _ _ _ Hk G) as [Hold Hpub] end.
    simplify_eq/=. eexists _, _. split; [reflexivity|]. by eapply publication_switch.
  - eexists _, _. split; [reflexivity|]. by eapply publication_first.
Qed.

Lemma publish_tool_run c d e r s' :
  keyed tv_id (cs_versions d) →
  publish_tool c (St d None e) = (r, s') →
  ∃ e', (∃ x, r = Raise x ∧ s' = St d None e') ∨
    (∃ res v d', r = Ok res ∧ s' = St d' None e' ∧
       publication c (clock_now (ticks e)) d (pr_retired_tool_version_id res) v d').
Proof.
  intros Hk. unfold publish_tool, bind at 1, now. simpl. unfold bind at 1, lift.
  destruct (raise_if _ _) as [u|x]; [|intros [= <- <-]; eauto].
  intros Hr. apply transaction_inv in Hr as (e' & Hr); [|apply tx_publish_tool_in_transaction].
  exists e'. destruct Hr as [(x & ? & ? & _)|(res & d' & -> & -> & Hr)]; [eauto|right].
  apply publish_in_transaction_Ok in Hr as (v & d1 & ? & Hp); [|done].
  simplify_eq. eauto 10.
Qed.

Lemma submit_for_review_run ctx id d e r s' :
  submit_tool_version_for_review ctx id (St d None e) = (r, s') →
  ∃ e', (∃ x, r = Raise x ∧ s' = St d None e') ∨
    (∃ v t, r = Ok tt ∧ dget id (cs_versions d) = Some v ∧ tv_status v = VDraft ∧
       let v' := version_at v VReview (Some t) (tv_published_at v) (tv_retired_at v) in
       s' = St (mkCatalogStore (cs_tools d) (dset (tv_id v) v' (cs_versions d)) (cs_bindings d)
                  (cs_upstreams d)) None e').
Proof.
  intros Hr. unfold submit_tool_version_for_review, get_version_by_id, save_version in Hr.
  run_uow Hr; try (eexists; left; eexists; by split).
  ok_facts. match goal with G : submit_for_review _ _ = Ok _ |- _ =>
    apply submit_for_review_Ok in G as [? ->] end.
  simpl in *. eexists. right. eexists _, _. split_and!; done.
Qed.
End PublishFacts.

(** ** The catalog invariant *)

Definition same_tool (v w : ToolVersion) : Prop :=
  tv_tenant_id v = tv_tenant_id w ∧ tv_tool_id v = tv_tool_id w.
Definition both_published (v w : ToolVersion) : Prop :=
  same_tool v w ∧ tv_status v = VPublished ∧ tv_status w = VPublished.
Definition same_target (a b : ToolBinding) : Prop :=
  tb_tenant_id a = tb_tenant_id b ∧ tb_tool_version_id a = tb_tool_version_id b.

#[export] Instance both_published_sym : Symmetric both_published.
Proof. by intros v w ([? ?] & ? & ?). Qed.
#[export] Instance same_target_sym : Symmetric same_target.
Proof. by intros v w [? ?]. Qed.

(** A published version has a published binding. *)
Definition bound (bindings : dict ToolBinding) (v : ToolVersion) : Prop :=
  ∃ k b, dget k bindings = Some b ∧ tb_tenant_id b = tv_tenant_id v ∧
    tb_tool_version_id b = tv_id v ∧ tb_status b = BPublished.

(** A retired version has been superseded by a newer, published one. *)
Definition superseded (versions : dict ToolVersion) (w : ToolVersion) : Prop :=
  ∃ k v, dget k versions = Some v ∧ same_tool v w ∧ tv_status v = VPublished ∧
    (tv_version w < tv_version v)%Z.

Record catalog_ok (d : catalog_store) : Prop := {
  cat_tools : keyed tool_id (cs_tools d);
  cat_versions : keyed tv_id (cs_versions d);
  cat_bindings : keyed tb_id (cs_bindings d);
  cat_numbers : unique_by tv_id same_version (cs_versions d);
  cat_targets : unique_by tb_id same_target (cs_bindings d);
  cat_published : unique_by tv_id both_published (cs_versions d);
  cat_bound : ∀ k v, dget k (cs_versions d) = Some v → tv_status v = VPublished →
    bound (cs_bindings d) v;
  cat_superseded : ∀ k w, dget k (cs_versions d) = Some w → tv_status w = VRetired →
    superseded (cs_versions d) w }.

(** Rewriting one entry without changing its identity keeps the uniqueness of
    numbers and targets. *)
Lemma numbers_rewrite v v' t :
  keyed tv_id t → unique_by tv_id same_version t → dget (tv_id v) t = Some v →
  tv_id v' = tv_id v → tv_tool_id v' = tv_tool_id v → tv_version v' = tv_version v →
  unique_by tv_id same_version (dset (tv_id v) v' t).
Proof.
  intros Hk Hu Hv Hi Ht Hn. rewrite <-Hi. apply unique_by_dset; [done|apply _|done|].
  intros k w Hw [? ?]. rewrite Hi. symmetry. apply (Hu _ _ _ _ Hv Hw).
  split; congruence.
Qed.

Lemma targets_rewrite b b' t :
  keyed tb_id t → unique_by tb_id same_target t → dget (tb_id b) t = Some b →
  tb_id b' = tb_id b → tb_tenant_id b' = tb_tenant_id b →
  tb_tool_version_id b' = tb_tool_version_id b →
  unique_by tb_id same_target (dset (tb_id b) b' t).
Proof.
  intros Hk Hu Hv Hi Ht Hn. rewrite <-Hi. apply unique_by_dset; [done|apply _|done|].
  intros k w Hw [? ?]. rewrite Hi. symmetry. apply (Hu _ _ _ _ Hv Hw).
  split; congruence.
Qed.

(** What a publication reads. *)
Lemma snapshot_reads c tool v b u d :
  catalog_ok d →
  dget (pc_tool_id c) (cs_tools d) = Some tool →
  dget (pc_tool_version_id c) (cs_versions d) = Some v →
  find_binding_by_version (ctx_tenant_id (pc_context c)) (tv_id v) (cs_bindings d) = Some b →
  snapshot_ok c tool v b u →
  dget (tool_id tool) (cs_tools d) = Some tool ∧ dget (tv_id v) (cs_versions d) = Some v ∧
  dget (tb_id b) (cs_bindings d) = Some b ∧ tv_tenant_id v = ctx_tenant_id (pc_context c) ∧
  tb_tenant_id b = tv_tenant_id v.
Proof.
  intros Hok Ht Hv Hb Hs.
  pose proof (keyed_get _ _ _ _ (cat_tools _ Hok) Ht) as Et.
  pose proof (keyed_get _ _ _ _ (cat_versions _ Hok) Hv) as Ev.
  destruct (dfind_Some tb_id _ _ _ (cat_bindings _ Hok) Hb) as [Hb' _].
  pose proof (snap_tenants _ _ _ _ _ Hs) as Hall.
  inversion Hall as [|?? _ Hall1]; inversion Hall1 as [|?? Hv1 Hall2];
    inversion Hall2 as [|?? Hb1 _]; subst.
  rewrite Et, Ev. split_and!; try done. congruence.
Qed.

Lemma is_published_version_spec tenant tid v :
  is_published_version tenant tid v = true ↔
  tv_tenant_id v = tenant ∧ tv_tool_id v = tid ∧ tv_status v = VPublished.
Proof.
  unfold is_published_version. rewrite !andb_true_iff, !bool_decide_eq_true. tauto.
Qed.

(** Entries of the new tables. *)
Ltac entries :=
  repeat match goal with
  | H : context [dget _ (dset _ _ _)] |- _ => rewrite dget_dset in H
  | H : context [decide (?a = ?b)] |- _ => destruct (decide (a = b)); [subst|]; simplify_eq/=
  end.

Lemma publication_first_ok c t d v d' :
  catalog_ok d → publication c t d None v d' → catalog_ok d'.
Proof.
  intros Hok Hp. inversion Hp as [tool ? b u Ht Hv Hb Hu Hs Hnone|]; subst. clear Hp.
  destruct (snapshot_reads _ _ _ _ _ _ Hok Ht Hv Hb Hs) as (Ht' & Hv' & Hb' & Hten & Hbt).
  assert (Hno : ∀ k w, dget k (cs_versions d) = Some w → tv_status w = VPublished →
    same_tool w v → False).
  { intros k w Hw Hst [E1 E2].
    pose proof (dfind_None _ _ _ (cat_versions _ Hok) Hnone _ _ Hw) as Hf.
    apply not_true_iff_false in Hf. apply Hf, is_published_version_spec.
    rewrite <-(snap_tool _ _ _ _ _ Hs). split_and!; congruence. }
  split; simpl.
  - by apply (keyed_dset tool_id (tool_with_status ToolActive tool)), cat_tools.
  - by apply (keyed_dset tv_id (version_at v _ _ _ _)), cat_versions.
  - by apply (keyed_dset tb_id (binding_at b _ _)), cat_bindings.
  - apply numbers_rewrite; try done; apply Hok.
  - apply targets_rewrite; try done; apply Hok.
  - apply (unique_by_dset tv_id both_published (version_at v _ _ _ _));
      [apply Hok|apply _|apply Hok|].
    intros k w Hw ([? ?] & _ & ?). exfalso. by eapply Hno.
  - intros k w Hw Hst. entries.
    + exists (tb_id b), (binding_at b BPublished (Some t)). rewrite dget_dset_eq. simpl.
      by rewrite (snap_binding _ _ _ _ _ Hs).
    + destruct (cat_bound _ Hok _ _ Hw Hst) as (kb & ob & Hob & ? & ? & Hpub).
      exists kb, ob. rewrite dget_dset_ne; [done|]. intros ->.
      pose proof (snap_draft _ _ _ _ _ Hs). congruence.
  - intros k w Hw Hst. entries. destruct (cat_superseded _ Hok _ _ Hw Hst)
      as (kv & x & Hx & Hsame & Hpub & Hlt).
    exists kv, x. rewrite dget_dset_ne; [done|]. intros ->.
    pose proof (snap_review _ _ _ _ _ Hs). congruence.
Qed.

Lemma publication_switch_ok c t d old_id v d' :
  catalog_ok d → publication c t d (Some old_id) v d' → catalog_ok d'.
Proof.
  intros Hok Hp. inversion Hp as [|tool ? b u old ob Ht Hv Hb Hu Hs Hold Hob Hobs Hlt]; subst.
  clear Hp.
  destruct (snapshot_reads _ _ _ _ _ _ Hok Ht Hv Hb Hs) as (Ht' & Hv' & Hb' & Hten & Hbt).
  destruct (dfind_Some tv_id _ _ _ (cat_versions _ Hok) Hold) as [Hold' Hop].
  apply is_published_version_spec in Hop as (Hot & Hotl & Hops).
  destruct (dfind_Some tb_id _ _ _ (cat_bindings _ Hok) Hob) as [Hob' Hobv].
  py_bools.
  pose proof (snap_review _ _ _ _ _ Hs) as Hrev. pose proof (snap_draft _ _ _ _ _ Hs) as Hdr.
  pose proof (snap_tool _ _ _ _ _ Hs) as Htl.
  assert (Hne : tv_id v ≠ tv_id old) by congruence.
  assert (Hbne : tb_id b ≠ tb_id ob) by congruence.
  assert (Honly : ∀ k w, dget k (cs_versions d) = Some w → tv_status w = VPublished →
    same_tool w v → k = tv_id old).
  { intros k w Hw Hst [E1 E2]. rewrite <-(keyed_get _ _ _ _ (cat_versions _ Hok) Hw).
    apply (cat_published _ Hok _ _ _ _ Hw Hold'). split_and!; try done. split; congruence. }
  assert (Hk1 : keyed tv_id (dset (tv_id old)
    (version_at old VRetired (tv_reviewed_at old) (tv_published_at old) (Some t)) (cs_versions d)))
    by (apply (keyed_dset tv_id (version_at old _ _ _ _)), cat_versions; done).
  assert (Hk2 : keyed tb_id (dset (tb_id ob) (binding_at ob BDisabled (tb_published_at ob))
    (cs_bindings d))) by (apply (keyed_dset tb_id (binding_at ob _ _)), cat_bindings; done).
  split; simpl.
  - by apply (keyed_dset tool_id (tool_with_status ToolActive tool)), cat_tools.
  - by apply (keyed_dset tv_id (version_at v _ _ _ _)).
  - by apply (keyed_dset tb_id (binding_at b _ _)).
  - apply numbers_rewrite; try done; [|by rewrite dget_dset_ne].
    apply numbers_rewrite; try done; apply Hok.
  - apply targets_rewrite; try done; [|by rewrite dget_dset_ne].
    apply targets_rewrite; try done; apply Hok.
  - apply (unique_by_dset tv_id both_published (version_at v _ _ _ _)); [done|apply _| |].
    + intros k k' w w' Hw Hw' Hboth. destruct Hboth as (? & ? & ?). entries; try done.
      by apply (cat_published _ Hok _ _ _ _ Hw Hw').
    + intros k w Hw (Hsame & _ & Hst). entries. exfalso.
      assert (k = tv_id old) by (apply (Honly _ w); [done|done|by destruct Hsame]). done.
  - intros k w Hw Hst. entries.
    + exists (tb_id b), (binding_at b BPublished (Some t)). rewrite dget_dset_eq. simpl.
      by rewrite (snap_binding _ _ _ _ _ Hs).
    + destruct (cat_bound _ Hok _ _ Hw Hst) as (kb & wb & Hwb & Hwt & Hwv & Hpub).
      exists kb, wb. rewrite !dget_dset_ne; [done| |].
      * intros ->. pose proof (keyed_get _ _ _ _ (cat_versions _ Hok) Hw). congruence.
      * intros ->. congruence.
  - intros k w Hw Hst. entries.
    + exists (tv_id v), (version_at v VPublished (tv_reviewed_at v) (Some t) (tv_retired_at v)).
      rewrite dget_dset_eq. split_and!; try done. split; simpl; congruence.
    + destruct (cat_superseded _ Hok _ _ Hw Hst) as (kv & x & Hx & [E1 E2] & Hpub & Hlt').
      destruct (decide (kv = tv_id old)) as [->|Hkv].
      * exists (tv_id v), (version_at v VPublished (tv_reviewed_at v) (Some t) (tv_retired_at v)).
        rewrite dget_dset_eq. assert (x = old) as -> by congruence.
        split_and!; try done; [split; simpl; congruence|simpl; lia].
      * exists kv, x. rewrite !dget_dset_ne; [done|done|]. intros ->. congruence.
Qed.

Lemma publication_ok c t d ret v d' :
  catalog_ok d → publication c t d ret v d' → catalog_ok d'.
Proof.
  intros Hok Hp. destruct ret; [by eapply publication_switch_ok|by eapply publication_first_ok].
Qed.

(** Writing a version that is neither published nor retired, nor was. *)
Lemma catalog_ok_write d v v' versions' :
  catalog_ok d → versions' = dset (tv_id v') v' (cs_versions d) →
  (dget (tv_id v') (cs_versions d) = None ∨
   (dget (tv_id v') (cs_versions d) = Some v ∧ tv_status v = VDraft)) →
  unique_by tv_id same_version versions' →
  tv_status v' = VDraft ∨ tv_status v' = VReview →
  catalog_ok (mkCatalogStore (cs_tools d) versions' (cs_bindings d) (cs_upstreams d)).
Proof.
  intros Hok -> Hold Hnum Hst.
  assert (Hne : ∀ k w, dget k (cs_versions d) = Some w → tv_status w ≠ VDraft → k ≠ tv_id v').
  { intros k w Hw Hs ->. destruct Hold as [?|[? ?]]; congruence. }
  split; simpl; try apply Hok; [by apply keyed_dset, Hok|done| | |].
  - apply unique_by_dset; [apply Hok|apply _|apply Hok|].
    intros k w Hw (_ & ? & _). destruct Hst; congruence.
  - intros k w Hw Hs. entries; [destruct Hst; congruence|by eapply cat_bound].
  - intros k w Hw Hs. entries; [destruct Hst; congruence|].
    destruct (cat_superseded _ Hok _ _ Hw Hs) as (kv & x & Hx & ? & Hp & ?).
    exists kv, x. rewrite dget_dset_ne; [done|]. apply (Hne _ x); [done|congruence].
Qed.

(** Adding a binding keeps the invariant. *)
Lemma catalog_ok_add_binding d b :
  catalog_ok d → dget (tb_id b) (cs_bindings d) = None →
  find_binding_by_version (tb_tenant_id b) (tb_tool_version_id b) (cs_bindings d) = None →
  catalog_ok (mkCatalogStore (cs_tools d) (cs_versions d) (dset (tb_id b) b (cs_bindings d))
                (cs_upstreams d)).
Proof.
  intros Hok Hfresh Hno. split; simpl; try apply Hok; [by apply keyed_dset, Hok| |].
  - apply unique_by_dset; [apply Hok|apply _|apply Hok|]. intros k w Hw [E1 E2].
    pose proof (dfind_None _ _ _ (cat_bindings _ Hok) Hno _ _ Hw) as Hf. simpl in Hf.
    by rewrite E1, E2, !bool_decide_eq_true_2 in Hf.
  - intros k v Hv Hs. destruct (cat_bound _ Hok _ _ Hv Hs) as (kb & w & Hw & ?).
    exists kb, w. rewrite dget_dset_ne; [done|]. intros ->. congruence.
Qed.

(** So does adding a tool, or a draft version with a new number. *)
Lemma catalog_ok_add_tool d x :
  catalog_ok d →
  catalog_ok (mkCatalogStore (dset (tool_id x) x (cs_tools d)) (cs_versions d) (cs_bindings d)
                (cs_upstreams d)).
Proof. intros Hok. split; simpl; try apply Hok. by apply keyed_dset, Hok. Qed.

Lemma catalog_ok_add_version d v :
  catalog_ok d → tv_status v = VDraft → dget (tv_id v) (cs_versions d) = None →
  (∀ w, w ∈ dvalues (cs_versions d) → ¬ same_version v w) →
  catalog_ok (mkCatalogStore (cs_tools d) (dset (tv_id v) v (cs_versions d)) (cs_bindings d)
                (cs_upstreams d)).
Proof.
  intros Hok Hst Hn Hno. refine (catalog_ok_write _ v v _ Hok eq_refl _ _ _); [by left| |by left].
  apply unique_by_dset; [apply Hok|apply _|apply Hok|]. intros k w Hw Hsame.
  exfalso. apply (Hno w); [|done].
  apply (keyed_value tv_id); [apply Hok|]. by rewrite (keyed_get _ _ _ _ (cat_versions _ Hok) Hw).
Qed.

(** And submitting a draft for review. *)
Lemma catalog_ok_submit d v t :
  catalog_ok d → dget (tv_id v) (cs_versions d) = Some v → tv_status v = VDraft →
  catalog_ok (mkCatalogStore (cs_tools d)
                (dset (tv_id v) (version_at v VReview (Some t) (tv_published_at v) (tv_retired_at v))
                   (cs_versions d)) (cs_bindings d) (cs_upstreams d)).
Proof.
  intros Hok Hv Hs.
  refine (catalog_ok_write _ v (version_at v VReview (Some t) (tv_published_at v)
    (tv_retired_at v)) _ Hok eq_refl _ _ _); simpl; [by right| |by right].
  apply numbers_rewrite; try done; apply Hok.
Qed.

(** ** Identities

    No transaction removes an entry of the catalog or changes what it is. *)
Definition keeps {V} (same : V → V → Prop) (t t' : dict V) : Prop :=
  ∀ k v, dget k t = Some v → ∃ v', dget k t' = Some v' ∧ same v v'.

Lemma keeps_refl {V} (same : V → V → Prop) `{!Reflexive same} t : keeps same t t.
Proof. intros k v Hv. eauto. Qed.
Lemma keeps_trans {V} (same : V → V → Prop) `{!Transitive same} t1 t2 t3 :
  keeps same t1 t2 → keeps same t2 t3 → keeps same t1 t3.
Proof.
  intros H1 H2 k v Hv. destruct (H1 k v Hv) as (v2 & Hv2 & S2).
  destruct (H2 k v2 Hv2) as (v3 & Hv3 & S3). exists v3. split; [done|by etransitivity].
Qed.
Lemma keeps_fresh {V} (same : V → V → Prop) `{!Reflexive same} k v t :
  dget k t = None → keeps same t (dset k v t).
Proof. intros Hn k' v' Hv'. exists v'. rewrite dget_dset_ne by (intros ->; congruence). done. Qed.
Lemma keeps_rewrite {V} (same : V → V → Prop) `{!Reflexive same} k v v' t :
  dget k t = Some v → same v v' → keeps same t (dset k v' t).
Proof.
  intros Hv Hs k' w Hw. rewrite dget_dset. destruct (decide (k' = k)) as [->|]; [|by eauto].
  exists v'. simplify_eq. done.
Qed.

Definition tool_identity (x : Tool) := (tool_id x, tool_tenant_id x, tool_canonical_name x).
Definition version_identity (v : ToolVersion) :=
  (tv_id v, tv_tenant_id v, tv_tool_id v, tv_version v, tv_schema_digest v).
Definition binding_identity (b : ToolBinding) :=
  (tb_id b, tb_tenant_id b, tb_tool_version_id b, tb_upstream_service_id b,
   tb_imported_operation_id b, tb_binding_digest b).
Definition same_by {V W} (f : V → W) (v w : V) : Prop := f w = f v.

#[export] Instance same_by_refl {V W} (f : V → W) : Reflexive (same_by f).
Proof. done. Qed.
#[export] Instance same_by_trans {V W} (f : V → W) : Transitive (same_by f).
Proof. unfold same_by. congruence. Qed.

Record catalog_keeps (d d' : catalog_store) : Prop := {
  keeps_tools : keeps (same_by tool_identity) (cs_tools d) (cs_tools d');
  keeps_versions : keeps (same_by version_identity) (cs_versions d) (cs_versions d');
  keeps_bindings : keeps (same_by binding_identity) (cs_bindings d) (cs_bindings d') }.

#[export] Instance catalog_keeps_refl : Reflexive catalog_keeps.
Proof. intros d. split; apply keeps_refl, _. Qed.
#[export] Instance catalog_keeps_trans : Transitive catalog_keeps.
Proof. intros d1 d2 d3 [] []. split; eapply keeps_trans; eauto with typeclass_instances. Qed.

Lemma publication_keeps c t d ret v d' : catalog_ok d → publication c t d ret v d' → catalog_keeps d d'.
Proof.
  intros Hok [tool ? b u Ht Hv Hb Hu Hs Hnone|tool ? b u old ob Ht Hv Hb Hu Hs Hold Hob Hobs Hlt];
    destruct (snapshot_reads _ _ _ _ _ _ Hok Ht Hv Hb Hs) as (Ht' & Hv' & Hb' & Hten & Hbt);
    split; simpl; try (eapply keeps_rewrite; [apply _|eassumption|reflexivity]).
  - destruct (dfind_Some tv_id _ _ _ (cat_versions _ Hok) Hold) as [Hold' Hop].
    apply is_published_version_spec in Hop as (_ & _ & Hops).
    pose proof (snap_review _ _ _ _ _ Hs).
    eapply keeps_trans; [apply _| |apply (keeps_rewrite (same_by version_identity) (tv_id v0) v0)].
    + by apply (keeps_rewrite (same_by version_identity) (tv_id old) old).
    + rewrite dget_dset_ne; [done|congruence].
    + done.
  - destruct (dfind_Some tb_id _ _ _ (cat_bindings _ Hok) Hob) as [Hob' _].
    pose proof (snap_draft _ _ _ _ _ Hs).
    eapply keeps_trans; [apply _| |apply (keeps_rewrite (same_by binding_identity) (tb_id b) b)].
    + by apply (keeps_rewrite (same_by binding_identity) (tb_id ob) ob).
    + rewrite dget_dset_ne; [done|congruence].
    + done.
Qed.

Section Steps.
Context `{Ports}.

(** The writes to the catalog: publishing, submitting for review, and the
    repository calls by which an OpenAPI review adds a tool, a draft version
    and its binding. *)
Inductive catalog_step (d : catalog_store) : catalog_store → Prop :=
| step_publish c e r d' e' :
    publish_tool c (St d None e) = (r, St d' None e') → catalog_step d d'
| step_review ctx id e r d' e' :
    submit_tool_version_for_review ctx id (St d None e) = (r, St d' None e') → catalog_step d d'
| step_add_tool tenant x c e d' e' :
    add_tool tenant x (St c (Some d) e) = (Ok tt, St c (Some d') e') → catalog_step d d'
| step_add_version tenant v c e d' e' :
    tv_status v = VDraft →
    add_version tenant v (St c (Some d) e) = (Ok tt, St c (Some d') e') → catalog_step d d'
| step_add_binding tenant b c e d' e' :
    add_binding tenant b (St c (Some d) e) = (Ok tt, St c (Some d') e') → catalog_step d d'.

Lemma catalog_step_ok d d' : catalog_ok d → catalog_step d d' → catalog_ok d'.
Proof.
  intros Hok [c e r d1 e1 Hr|ctx id e r d1 e1 Hr|tenant x c e d1 e1 Hr|tenant v c e d1 e1 Hst Hr
             |tenant b c e d1 e1 Hr].
  - apply publish_tool_run in Hr as (? & [(? & _ & ?)|(? & v & ? & _ & ? & Hp)]);
      [by simplify_eq|simplify_eq; by eapply publication_ok|apply Hok].
  - apply submit_for_review_run in Hr as (? & [(? & _ & ?)|(v & t & _ & Hv & Hs & Hd)]);
      [by simplify_eq|]. simplify_eq/=.
    pose proof (keyed_get _ _ _ _ (cat_versions _ Hok) Hv) as <-.
    by apply catalog_ok_submit.
  - apply add_tool_Ok in Hr as (_ & _ & _ & ?). simplify_eq/=. by apply catalog_ok_add_tool.
  - apply add_version_Ok in Hr as (_ & Hn & Hno & ?). simplify_eq/=. by apply catalog_ok_add_version.
  - apply add_binding_Ok in Hr as (? & ? & ? & ?). simplify_eq/=. by apply catalog_ok_add_binding.
Qed.

Lemma catalog_step_keeps d d' : catalog_ok d → catalog_step d d' → catalog_keeps d d'.
Proof.
  intros Hok [c e r d1 e1 Hr|ctx id e r d1 e1 Hr|tenant x c e d1 e1 Hr|tenant v c e d1 e1 Hst Hr
             |tenant b c e d1 e1 Hr].
  - apply publish_tool_run in Hr as (? & [(? & _ & ?)|(? & v & ? & _ & ? & Hp)]);
      [by simplify_eq|simplify_eq; by eapply publication_keeps|apply Hok].
  - apply submit_for_review_run in Hr as (? & [(? & _ & ?)|(v & t & _ & Hv & Hs & Hd)]);
      [by simplify_eq|]. simplify_eq/=.
    pose proof (keyed_get _ _ _ _ (cat_versions _ Hok) Hv) as <-.
    split; simpl; try (apply keeps_refl, _).
    by apply (keeps_rewrite (same_by version_identity) (tv_id v) v).
  - apply add_tool_Ok in Hr as (_ & ? & _ & ?). simplify_eq/=.
    split; simpl; try (apply keeps_refl, _). by apply keeps_fresh; [apply _|].
  - apply add_version_Ok in Hr as (_ & ? & _ & ?). simplify_eq/=.
    split; simpl; try (apply keeps_refl, _). by apply keeps_fresh; [apply _|].
  - apply add_binding_Ok in Hr as (_ & ? & _ & ?). simplify_eq/=.
    split; simpl; try (apply keeps_refl, _). by apply keeps_fresh; [apply _|].
Qed.
End Steps.

(** ** Properties *)

Section Properties.
Context `{Ports}.

(** C12: however publications, reviews and additions of drafts are interleaved,
    a tool has at most one published version, version numbers and bindings are
    unique, every published version has a published binding, and a retired
    version has been superseded by a newer published one. *)
Theorem catalog_invariant d d' : catalog_ok d → star catalog_step d d' → catalog_ok d'.
Proof. intros Hd. apply star_invariant; eauto using catalog_step_ok. Qed.

(** The entries of a table are those of another, except under some keys. *)
Definition same_except {V} (keys : list string) (t t' : dict V) : Prop :=
  ∀ k, k ∉ keys → dget k t' = dget k t.

(** [PublishTool] is all or nothing.  When it raises, the stores are the
    ones it started from.  When it returns, the target was under review with a
    draft binding on an active upstream and digests that recompute to the
    stored and the expected ones; it and its binding are now published, the
    previously published version (older, and named in the result) is retired
    with its binding disabled, and nothing else changed. *)
Theorem publish_atomic c d e :
  catalog_ok d →
  match publish_tool c (St d None e) with
  | (Raise _, s') => store s' = d
  | (Ok r, s') =>
      let t := clock_now (ticks e) in
      ∃ tool v b u,
        dget (pc_tool_id c) (cs_tools d) = Some tool ∧
        dget (pc_tool_version_id c) (cs_versions d) = Some v ∧
        dget (tb_id b) (cs_bindings d) = Some b ∧
        dget (tb_upstream_service_id b) (cs_upstreams d) = Some u ∧
        snapshot_ok c tool v b u ∧
        dget (tv_id v) (cs_versions (store s')) =
          Some (version_at v VPublished (tv_reviewed_at v) (Some t) (tv_retired_at v)) ∧
        dget (tb_id b) (cs_bindings (store s')) = Some (binding_at b BPublished (Some t)) ∧
        cs_upstreams (store s') = cs_upstreams d ∧
        match pr_retired_tool_version_id r with
        | None =>
            (∀ k w, dget k (cs_versions d) = Some w → same_tool w v → tv_status w ≠ VPublished) ∧
            same_except [tv_id v] (cs_versions d) (cs_versions (store s')) ∧
            same_except [tb_id b] (cs_bindings d) (cs_bindings (store s'))
        | Some old_id =>
            ∃ old ob, dget old_id (cs_versions d) = Some old ∧ tv_status old = VPublished ∧
              same_tool old v ∧ (tv_version old < tv_version v)%Z ∧
              dget old_id (cs_versions (store s')) =
                Some (version_at old VRetired (tv_reviewed_at old) (tv_published_at old) (Some t)) ∧
              dget (tb_id ob) (cs_bindings d) = Some ob ∧ tb_tool_version_id ob = old_id ∧
              dget (tb_id ob) (cs_bindings (store s')) =
                Some (binding_at ob BDisabled (tb_published_at ob)) ∧
              same_except [tv_id v; old_id] (cs_versions d) (cs_versions (store s')) ∧
              same_except [tb_id b; tb_id ob] (cs_bindings d) (cs_bindings (store s'))
        end
  end.
Proof.
  intros Hok. destruct (publish_tool _ _) as [r s'] eqn:Hr.
  apply publish_tool_run in Hr as (e' & [(x & -> & ->)|(res & v & d' & -> & -> & Hp)]);
    [done| |apply Hok]. simpl.
  destruct (pr_retired_tool_version_id res) as [old_id|] eqn:Hret.
  - inversion Hp as [|tool ? b u old ob Ht Hv Hb Hu Hs Hold Hob Hobs Hlt]; subst.
    destruct (snapshot_reads _ _ _ _ _ _ Hok Ht Hv Hb Hs) as (Ht' & Hv' & Hb' & Hten & Hbt).
    destruct (dfind_Some tv_id _ _ _ (cat_versions _ Hok) Hold) as [Hold' Hop].
    apply is_published_version_spec in Hop as (Hot & Hotl & Hops).
    destruct (dfind_Some tb_id _ _ _ (cat_bindings _ Hok) Hob) as [Hob' Hobv].
    py_bools. pose proof (snap_review _ _ _ _ _ Hs). pose proof (snap_draft _ _ _ _ _ Hs).
    pose proof (snap_tool _ _ _ _ _ Hs).
    exists tool, v, b, u. simpl. rewrite !dget_dset_eq. split_and!; try done.
    exists old, ob. split_and!; try done; try congruence.
    + split; congruence.
    + rewrite dget_dset_ne, dget_dset_eq by congruence. done.
    + rewrite dget_dset_ne, dget_dset_eq by congruence. done.
    + intros k Hk. rewrite !dget_dset_ne by set_solver. done.
    + intros k Hk. rewrite !dget_dset_ne by set_solver. done.
  - inversion Hp as [tool ? b u Ht Hv Hb Hu Hs Hnone|]; subst.
    destruct (snapshot_reads _ _ _ _ _ _ Hok Ht Hv Hb Hs) as (Ht' & Hv' & Hb' & Hten & Hbt).
    exists tool, v, b, u. simpl. rewrite !dget_dset_eq. split_and!; try done.
    + intros k w Hw [E1 E2] Hst.
      pose proof (dfind_None _ _ _ (cat_versions _ Hok) Hnone _ _ Hw) as Hf.
      apply not_true_iff_false in Hf. apply Hf, is_published_version_spec.
      rewrite <-(snap_tool _ _ _ _ _ Hs). split_and!; congruence.
    + intros k Hk. rewrite dget_dset_ne by set_solver. done.
    + intros k Hk. rewrite dget_dset_ne by set_solver. done.
Qed.
End Properties.

(** ** Witnesses *)

Module PublishExamples.
Definition schema : dict json := [("type", JStr "object")].
Definition schema_digest : string :=
  match calculate_schema_digest schema None with Ok g => g | Raise _ => "" end.
Definition t0 : datetime := Datetime 1 true.
Definition tool : Tool := mkTool "t1" "tenant" "orders" "orders.get" "team" ToolActive.
Definition version (id : string) (n : Z) (s : ToolVersionStatus)
    (reviewed published : option datetime) : ToolVersion :=
  mkToolVersion id "tenant" "t1" n "Get" "Get an order" schema None schema_digest []
    ReadOnly VisPublic s "me" t0 reviewed published None.
Definition binding_of (id version_id digest : string) (s : ToolBindingStatus)
    (published : option datetime) : ToolBinding :=
  mkBinding id "tenant" version_id "u1" None BindHttp [("path", JStr "/orders")] digest s t0
    published.
Definition binding_digest : string :=
  match calculate_binding_digest (binding_of "b2" "v2" "x" BDraft None) with
  | Ok g => g | Raise _ => "" end.
Definition upstream : UpstreamService :=
  mkUpstream "u1" "tenant" "orders" "Orders" None "team" UpHttp "http"
    "https://orders.example.com" None None None [] UpActive.
Definition v1 := version "v1" 1 VPublished (Some t0) (Some t0).
Definition v2 := version "v2" 2 VReview (Some t0) None.
Definition b1 := binding_of "b1" "v1" binding_digest BPublished (Some t0).
Definition b2 := binding_of "b2" "v2" binding_digest BDraft None.
Definition catalog : catalog_store :=
  mkCatalogStore (dset "t1" tool []) (dset "v2" v2 (dset "v1" v1 []))
    (dset "b2" b2 (dset "b1" b1 [])) (dset "u1" upstream []).
Definition command : PublishToolCommand :=
  mkPublishCommand (mkActorContext "req" "trace" "tenant" "agent" "static" "admin")
    "t1" "v2" schema_digest binding_digest.

Lemma catalog_is_ok : catalog_ok catalog.
Proof.
  split.
  - apply (keyed_dset tool_id tool), keyed_nil.
  - apply (keyed_dset tv_id v2), (keyed_dset tv_id v1), keyed_nil.
  - apply (keyed_dset tb_id b2), (keyed_dset tb_id b1), keyed_nil.
  - intros k k' v w Hv Hw [_ E]. simpl in *. repeat case_decide; simplify_eq/=; done.
  - intros k k' v w Hv Hw [_ E]. simpl in *. repeat case_decide; simplify_eq/=; done.
  - intros k k' v w Hv Hw (_ & ? & ?). simpl in *. repeat case_decide; simplify_eq/=; done.
  - intros k v Hv Hs. simpl in *. repeat case_decide; simplify_eq/=. by exists "b1", b1.
  - intros k v Hv Hs. simpl in *. repeat case_decide; simplify_eq/=.
Qed.

Definition published : catalog_store :=
  store (publish_tool (H := sample_ports) command (St catalog None (Env 0 0 []))).2.

Lemma published_star : star (catalog_step (H := sample_ports)) catalog published.
Proof.
  apply star_one. eapply (step_publish (H := sample_ports) catalog command (Env 0 0 [])).
  vm_compute. reflexivity.
Qed.
End PublishExamples.

Lemma catalog_invariant_witness :
  dget "v1" (cs_versions PublishExamples.published) ≠
    dget "v1" (cs_versions PublishExamples.catalog) ∧
  catalog_ok PublishExamples.published.
Proof.
  split; [by vm_compute|].
  apply (catalog_invariant (H := sample_ports) PublishExamples.catalog _
    PublishExamples.catalog_is_ok PublishExamples.published_star).
Defined.

Lemma publish_atomic_witness :
  ∃ r s', publish_tool (H := sample_ports) PublishExamples.command
            (St PublishExamples.catalog None (Env 0 0 [])) = (Ok r, s') ∧
  ∃ tool v b u, snapshot_ok PublishExamples.command tool v b u ∧
    dget (tv_id v) (cs_versions (store s')) =
      Some (version_at v VPublished (tv_reviewed_at v) (Some (Datetime 1000 true))
              (tv_retired_at v)).
Proof.
  pose proof (publish_atomic (H := sample_ports) PublishExamples.command
    PublishExamples.catalog (Env 0 0 []) PublishExamples.catalog_is_ok) as Hp.
  destruct (publish_tool _ _) as [[r|x] s'] eqn:E; [|exfalso; vm_compute in E; discriminate].
  exists r, s'. split; [reflexivity|]. destruct Hp as (tool & v & b & u & Hp).
  exists tool, v, b, u. split; apply Hp.
Defined.
