(* ===== verification/Identity.v ===== *)
(** * Identity: principals and their resolution

    Models [modules/identity/domain.py],
    [modules/identity/adapters/context_principal.py] and
    [modules/identity/adapters/static_bearer.py]. *)

From Stdlib Require Import ZArith Ascii.
From stdpp Require Import base sets strings option list.
From S2P Require Import Prelude Text Dict Errors Json Store AuditTrail.
Open Scope py_scope.

Inductive PrincipalType := AgentService | Anonymous.
#[export] Instance principal_type_eq_dec : EqDecision PrincipalType.
Proof. solve_decision. Defined.

Definition principal_type_value (t : PrincipalType) : string :=
  match t with AgentService => "agent_service" | Anonymous => "anonymous" end.

(** [PrincipalType(value)]; [None] is its [ValueError]. *)
Definition principal_type_of (value : string) : option PrincipalType :=
  if decide (value = "agent_service") then Some AgentService
  else if decide (value = "anonymous") then Some Anonymous else None.

Record InternalPrincipal := mkPrincipal {
  ip_id : string;
  ip_tenant_id : string;
  ip_principal_type : PrincipalType;
  ip_authn_method : string }.

#[export] Instance principal_eq_dec : EqDecision InternalPrincipal.
Proof. solve_decision. Defined.

(** [InternalPrincipal.__post_init__] *)
Definition new_principal (p : InternalPrincipal) : res InternalPrincipal :=
  require_non_blank
    [("principal id", ip_id p); ("principal tenant id", ip_tenant_id p);
     ("principal authentication method", ip_authn_method p)] ;;?
  Ok p.

(** [ContextPrincipalResolver.resolve] *)
Definition context_principal (ctx : ActorContext) : res InternalPrincipal :=
  let ty :=
    match principal_type_of (ctx_principal_type ctx) with
    | Some t => t
    | None => if decide (ctx_principal_id ctx = anonymous_principal_id)
              then Anonymous else AgentService
    end in
  new_principal (mkPrincipal (ctx_principal_id ctx) (ctx_tenant_id ctx) ty (ctx_authn_method ctx)).

(** [_token_digest] *)
Definition token_digest (token : string) : string := sha256_hex token.

(** [StaticBearerAgentServiceAuthenticator.__init__]: tokens and principals,
    kept by token digest. *)
Definition principals_by_digest (identities : list (string * InternalPrincipal)) :
    dict InternalPrincipal :=
  foldl (λ d i, dset (token_digest i.1) i.2 d) [] identities.

(** [StaticBearerAgentServiceAuthenticator.authenticate] *)
Definition authenticate (principals : dict InternalPrincipal)
    (authorization_header : option string) (tenant_id : string) : res InternalPrincipal :=
  match authorization_header with
  | None => Raise (Nexus AuthenticationError)
  | Some header =>
      let '(scheme, separator, token) := partition_char " "%char header in
      raise_if (negb separator || negb (bool_decide (lower scheme = "bearer"))
                || str_empty token) (Nexus AuthenticationError) ;;?
      match dget (token_digest token) principals with
      | Some p => if decide (ip_tenant_id p = tenant_id) then Ok p
                  else Raise (Nexus AuthenticationError)
      | None => Raise (Nexus AuthenticationError)
      end
  end.

#[global] Arguments new_principal : simpl never.
#[global] Arguments context_principal : simpl never.
#[global] Opaque token_digest.

(** ** Properties *)

Lemma new_principal_Ok p p' : new_principal p = Ok p' → p' = p.
Proof. unfold new_principal. py_run. Qed.

Lemma context_principal_Ok ctx p :
  context_principal ctx = Ok p →
  ip_id p = ctx_principal_id ctx ∧ ip_tenant_id p = ctx_tenant_id ctx ∧
  ip_authn_method p = ctx_authn_method ctx.
Proof. unfold context_principal. by intros ->%new_principal_Ok. Qed.

Lemma principals_by_digest_get g l p :
  dget g (principals_by_digest l) = Some p → ∃ token, (token, p) ∈ l ∧ token_digest token = g.
Proof.
  unfold principals_by_digest. induction l as [|[t q] l IH] using rev_ind; simpl; [done|].
  rewrite foldl_app. simpl. rewrite dget_dset. case_decide as E; intros H.
  - simplify_eq. exists t. split; [set_solver|done].
  - destruct (IH H) as (token & ? & ?). exists token. split; [set_solver|done].
Qed.

Lemma partition_char_spec c s a b : partition_char c s = (a, true, b) → s = a +:+ String c b.
Proof.
  revert a b. induction s as [|d s IH]; intros a b; simpl; [done|].
  case_bool_decide as E; [intros; by simplify_eq|].
  destruct (partition_char c s) as [[a' f] b'] eqn:E'. intros. simplify_eq/=.
  by rewrite (IH a' b).
Qed.

(** Bearer authentication never accepts anything but a header
    [Bearer <token>] (the scheme in any case) whose non-empty token has the
    SHA-256 digest of a configured token, and the principal it returns is the
    one configured with that token, of the requested tenant. *)
Theorem authenticate_sound identities header tenant p :
  authenticate (principals_by_digest identities) header tenant = Ok p →
  ∃ scheme token configured,
    header = Some (scheme +:+ String " "%char token) ∧ lower scheme = "bearer" ∧ token ≠ "" ∧
    (configured, p) ∈ identities ∧ token_digest configured = token_digest token ∧
    ip_tenant_id p = tenant.
Proof.
  unfold authenticate. destruct header as [header|]; [|done].
  destruct (partition_char _ header) as [[scheme sep] token] eqn:E. intros H. guards H.
  destruct (dget _ _) as [q|] eqn:Hq; [|done]. case_decide as Ht; [|done]. simplify_eq.
  py_bools. subst sep. apply partition_char_spec in E as ->.
  apply principals_by_digest_get in Hq as (configured & ? & ?).
  exists scheme, token, configured. split_and!; try done. by apply str_empty_false.
Qed.

Definition authenticate_example : InternalPrincipal :=
  mkPrincipal "agent" "tenant" AgentService "static_bearer".

Lemma authenticate_sound_witness :
  ∃ scheme token configured,
    Some "BEARER s3cret" = Some (scheme +:+ String " "%char token) ∧ lower scheme = "bearer" ∧
    token ≠ "" ∧ (configured, authenticate_example) ∈ [("s3cret", authenticate_example)] ∧
    token_digest configured = token_digest token ∧ ip_tenant_id authenticate_example = "tenant".
Proof.
  apply (authenticate_sound [("s3cret", authenticate_example)]).
  vm_compute. reflexivity.
Defined.
