(* ===== verification/Policy.v ===== *)
(** * Policy: rule based, most specific first, DENY wins ties

    Models [modules/policy/domain.py], [modules/policy/adapters/rule_based.py]
    and [modules/policy/adapters/static_read_only.py]. *)

From Stdlib Require Import ZArith Lia.
From stdpp Require Import base sets strings option list.
From S2P Require Import Prelude Text Dict Errors Store AuditTrail Catalog Identity Selection.
Open Scope py_scope.

(** ** Domain *)

Inductive ToolAction := ActionCall.
Inductive PolicyEffect := Allow | Deny | RequireApproval.
Inductive PolicySubjectType := SubjectPrincipal | SubjectTenant.
Inductive ToolPolicyStatus := PolicyActive | PolicyDisabled.

#[export] Instance tool_action_eq_dec : EqDecision ToolAction.
Proof. solve_decision. Defined.
#[export] Instance policy_effect_eq_dec : EqDecision PolicyEffect.
Proof. solve_decision. Defined.
#[export] Instance policy_subject_eq_dec : EqDecision PolicySubjectType.
Proof. solve_decision. Defined.
#[export] Instance policy_status_eq_dec : EqDecision ToolPolicyStatus.
Proof. solve_decision. Defined.

Record ToolPolicy := mkPolicy {
  tp_id : string;
  tp_tenant_id : string;
  tp_subject_type : PolicySubjectType;
  tp_subject_id : option string;
  tp_tool_id : option string;
  tp_action : ToolAction;
  tp_effect : PolicyEffect;
  tp_priority : Z;
  tp_version : string;
  tp_reason_code : string;
  tp_status : ToolPolicyStatus }.

(** [not value] of an optional string. *)
Definition falsy (o : option string) : bool :=
  match o with Some s => str_empty s | None => true end.

(** [ToolPolicy.__post_init__] *)
Definition new_policy (p : ToolPolicy) : res ToolPolicy :=
  raise_if (bool_decide (tp_subject_type p = SubjectTenant) && negb (is_none (tp_subject_id p)))
    (ValueError "tenant policy subject must not declare subject id") ;;?
  raise_if (negb (bool_decide (tp_subject_type p = SubjectTenant)) && falsy (tp_subject_id p))
    (ValueError "principal policy subject must declare subject id") ;;?
  raise_if (blank (tp_version p) || blank (tp_reason_code p))
    (ValueError "policy version and reason code must not be blank") ;;?
  Ok p.

Record PolicyEvaluationInput := mkPolicyInput {
  pi_tenant_id : string;
  pi_principal : InternalPrincipal;
  pi_tool_id : string;
  pi_tool_version_id : string;
  pi_action : ToolAction;
  pi_side_effect : ToolSideEffect;
  pi_arguments_digest : string }.

(** [PolicyEvaluationInput.__post_init__] *)
Definition new_policy_input (i : PolicyEvaluationInput) : res PolicyEvaluationInput :=
  raise_if (negb (bool_decide (ip_tenant_id (pi_principal i) = pi_tenant_id i)))
    (ValueError "policy input principal crossed tenant boundary") ;;?
  Ok i.

Record PolicyDecision := mkDecision {
  pd_effect : PolicyEffect;
  pd_policy_version : string;
  pd_reason_code : string }.

(** [PolicyDecision.default_deny] *)
Definition default_deny : PolicyDecision := mkDecision Deny "default" "default_deny".

(** ** [StaticReadOnlyPolicyEvaluator] *)

Definition static_read_only (i : PolicyEvaluationInput) : PolicyDecision :=
  if decide (pi_side_effect i = ReadOnly)
  then mkDecision Allow "static-read-only-v1" "read_only_allowed"
  else mkDecision Deny "static-read-only-v1" "write_not_enabled".

(** ** [RuleBasedPolicyEvaluator] *)

(** [_EFFECT_PRECEDENCE] *)
Definition effect_precedence (e : PolicyEffect) : Z :=
  match e with Allow => 1 | RequireApproval => 2 | Deny => 3 end.

(** [_specificity] *)
Definition policy_specificity (i : PolicyEvaluationInput) (p : ToolPolicy) : option Z :=
  if negb (bool_decide (tp_status p = PolicyActive)) then None
  else if negb (bool_decide (tp_tenant_id p = pi_tenant_id i))
          || negb (bool_decide (tp_action p = pi_action i)) then None
  else if match tp_tool_id p with
          | Some t => negb (bool_decide (t = pi_tool_id i)) | None => false end then None
  else
    let tool_score := (if is_none (tp_tool_id p) then 0 else 1)%Z in
    match tp_subject_type p with
    | SubjectPrincipal =>
        if negb (bool_decide (tp_subject_id p = Some (ip_id (pi_principal i)))) then None
        else Some (30 + tool_score)%Z
    | SubjectTenant => Some (10 + tool_score)%Z
    end.

(** [key=lambda policy: (_EFFECT_PRECEDENCE[policy.effect], policy.id)] *)
Definition policy_ltb (a b : ToolPolicy) : bool :=
  (effect_precedence (tp_effect a) <? effect_precedence (tp_effect b))%Z
  || (effect_precedence (tp_effect a) =? effect_precedence (tp_effect b))%Z
     && negb (str_leb (tp_id b) (tp_id a)).

Definition policy_finalists (policies : list ToolPolicy) (i : PolicyEvaluationInput) :
    list ToolPolicy :=
  maximal tp_priority (maximal fst (candidates (policy_specificity i) policies)).*2.

(** [RuleBasedPolicyEvaluator.evaluate] *)
Definition rule_based_evaluate (policies : list ToolPolicy) (i : PolicyEvaluationInput) :
    PolicyDecision :=
  match max_by policy_ltb (policy_finalists policies i) with
  | None => default_deny
  | Some p => mkDecision (tp_effect p) (tp_version p) (tp_reason_code p)
  end.

#[global] Arguments new_policy_input : simpl never.

(** ** Facts *)

Lemma new_policy_input_Ok i i' :
  new_policy_input i = Ok i' → i' = i ∧ ip_tenant_id (pi_principal i) = pi_tenant_id i.
Proof. unfold new_policy_input. intros H. guards H. by simplify_eq. Qed.

Lemma policy_ltb_irrefl x : policy_ltb x x = false.
Proof. unfold policy_ltb. by rewrite Z.ltb_irrefl, Z.eqb_refl, str_leb_refl. Qed.

Lemma policy_ltb_false a b :
  policy_ltb a b = false ↔
  (effect_precedence (tp_effect b) < effect_precedence (tp_effect a))%Z ∨
  (effect_precedence (tp_effect a) = effect_precedence (tp_effect b) ∧
   str_leb (tp_id b) (tp_id a) = true).
Proof.
  unfold policy_ltb. rewrite orb_false_iff, andb_false_iff, Z.ltb_ge, Z.eqb_neq, negb_false_iff.
  split; [intros [? [?|?]]; [left; lia|] |intros [?|[? ?]]; split; auto; [lia|left; lia|lia]].
  destruct (decide (effect_precedence (tp_effect a) = effect_precedence (tp_effect b)));
    [by right|left; lia].
Qed.

Lemma policy_ltb_asym a b : policy_ltb a b = true → policy_ltb b a = false.
Proof.
  intros H. apply policy_ltb_false. unfold policy_ltb in H.
  apply orb_true_iff in H as [H|H]; [left; by apply Z.ltb_lt|].
  apply andb_true_iff in H as [H1 H2]. apply Z.eqb_eq in H1. apply negb_true_iff in H2.
  right. split; [done|]. destruct (str_leb_total (tp_id a) (tp_id b)); congruence.
Qed.

Lemma policy_ltb_trans x y z :
  policy_ltb y x = false → policy_ltb z y = false → policy_ltb z x = false.
Proof.
  rewrite !policy_ltb_false. intros [?|[? ?]] [?|[? ?]]; try (left; lia).
  right. split; [lia|]. by eapply str_leb_trans.
Qed.

(** A policy that applies to the call. *)
Definition applies (i : PolicyEvaluationInput) (p : ToolPolicy) : Prop :=
  tp_status p = PolicyActive ∧ tp_tenant_id p = pi_tenant_id i ∧ tp_action p = pi_action i ∧
  (∀ t, tp_tool_id p = Some t → t = pi_tool_id i) ∧
  (tp_subject_type p = SubjectPrincipal → tp_subject_id p = Some (ip_id (pi_principal i))).

(** How specific a policy is: principal over tenant, then tool over any tool. *)
Definition specificity_of (p : ToolPolicy) : Z :=
  ((match tp_subject_type p with SubjectPrincipal => 30 | SubjectTenant => 10 end)
   + (if is_none (tp_tool_id p) then 0 else 1))%Z.

Lemma policy_specificity_spec i p s :
  policy_specificity i p = Some s ↔ applies i p ∧ s = specificity_of p.
Proof.
  unfold policy_specificity, applies, specificity_of.
  destruct (decide (tp_status p = PolicyActive));
    [rewrite bool_decide_eq_true_2 by done|rewrite bool_decide_eq_false_2 by done; naive_solver].
  destruct (decide (tp_tenant_id p = pi_tenant_id i));
    [rewrite (bool_decide_eq_true_2 (tp_tenant_id p = _)) by done
    |rewrite (bool_decide_eq_false_2 (tp_tenant_id p = _)) by done; naive_solver].
  destruct (decide (tp_action p = pi_action i));
    [rewrite (bool_decide_eq_true_2 (tp_action p = _)) by done
    |rewrite (bool_decide_eq_false_2 (tp_action p = _)) by done; naive_solver]. simpl.
  assert (Ht : (match tp_tool_id p with
    | Some t => negb (bool_decide (t = pi_tool_id i)) | None => false end = false) ↔
    (∀ t, tp_tool_id p = Some t → t = pi_tool_id i)).
  { destruct (tp_tool_id p); rewrite ?negb_decide_false; naive_solver. }
  destruct (match tp_tool_id p with
    | Some t => negb (bool_decide (t = pi_tool_id i)) | None => false end).
  { split; [done|]. intros [(_ & _ & _ & H & _) _]. by apply Ht in H. }
  destruct (tp_subject_type p); [|naive_solver].
  destruct (decide (tp_subject_id p = Some (ip_id (pi_principal i))));
    [rewrite bool_decide_eq_true_2 by done|rewrite bool_decide_eq_false_2 by done]; naive_solver.
Qed.

(** The finalists: the applicable policies of greatest specificity, then of
    greatest priority. *)
Lemma elem_of_finalists policies i p :
  p ∈ policy_finalists policies i ↔
  (p ∈ policies ∧ applies i p) ∧
  (∀ q, q ∈ policies → applies i q → (specificity_of q ≤ specificity_of p)%Z) ∧
  (∀ q, q ∈ policies → applies i q → specificity_of q = specificity_of p →
    (tp_priority q ≤ tp_priority p)%Z).
Proof.
  unfold policy_finalists. rewrite elem_of_maximal.
  assert (Hin : ∀ q, q ∈ (maximal fst (candidates (policy_specificity i) policies)).*2 ↔
    (q ∈ policies ∧ applies i q) ∧
    ∀ r, r ∈ policies → applies i r → (specificity_of r ≤ specificity_of q)%Z).
  { intros q. rewrite list_elem_of_fmap. split.
    - intros ([s q'] & -> & Hq). apply elem_of_maximal in Hq as [Hq Hmax].
      apply elem_of_candidates in Hq as [Hq [Ha ->]%policy_specificity_spec]. simpl.
      split; [done|]. intros r Hr Hra.
      apply (Hmax (specificity_of r, r)), elem_of_candidates.
      split; [done|]. by apply policy_specificity_spec.
    - intros [[Hq Ha] Hmax]. exists (specificity_of q, q). split; [done|].
      apply elem_of_maximal. split.
      + apply elem_of_candidates. split; [done|]. by apply policy_specificity_spec.
      + intros [s r] [Hr [Hra ->]%policy_specificity_spec]%elem_of_candidates. simpl. auto. }
  setoid_rewrite Hin. split.
  - intros [[Hp Hs] Hprio]. split; [done|]. split; [done|]. intros q Hq Ha E.
    apply Hprio. split; [done|]. intros r Hr Hra. rewrite E. auto.
  - intros (Hp & Hs & Hprio). split; [done|]. intros q [[Hq Ha] Hqs]. apply Hprio; [done|done|].
    destruct Hp. apply Z.le_antisymm; auto.
Qed.

(** ** Properties *)

(** A rule for the principal, a rule for the tool, and equally specific rules. *)
Definition principal_rule (p : ToolPolicy) : bool := bool_decide (tp_subject_type p = SubjectPrincipal).
Definition tool_rule (p : ToolPolicy) : bool := negb (is_none (tp_tool_id p)).
Definition as_specific (q p : ToolPolicy) : Prop :=
  principal_rule q = principal_rule p ∧ tool_rule q = tool_rule p.

Lemma specificity_value p :
  specificity_of p = ((if principal_rule p then 30 else 10) + (if tool_rule p then 1 else 0))%Z.
Proof. unfold specificity_of, principal_rule, tool_rule. by destruct (tp_subject_type p), (tp_tool_id p). Qed.

Lemma specificity_as_specific q p : specificity_of q = specificity_of p ↔ as_specific q p.
Proof.
  rewrite !specificity_value. unfold as_specific.
  destruct (principal_rule q), (principal_rule p), (tool_rule q), (tool_rule p); naive_solver lia.
Qed.

(** C20: the policy decision fails closed and is the most specific one.  Without
    an applicable policy the call is denied by default.  Otherwise the decision is
    that of one applicable policy: a rule for the principal if any applies, then
    a rule for the tool rather than one for all tools; of equally specific rules
    one of the highest priority, whatever the effects; and of those with equal
    priority too, a DENY if there is one, else a REQUIRE_APPROVAL if there is
    one, so that an ALLOW only results when no other effect is tied. *)
Theorem rule_based_decision policies i :
  ((∀ p, p ∈ policies → ¬ applies i p) ∧
   rule_based_evaluate policies i = mkDecision Deny "default" "default_deny") ∨
  (∃ p, p ∈ policies ∧ applies i p ∧
    rule_based_evaluate policies i = mkDecision (tp_effect p) (tp_version p) (tp_reason_code p) ∧
    ∀ q, q ∈ policies → applies i q →
      (principal_rule q = true → principal_rule p = true) ∧
      (principal_rule q = principal_rule p → tool_rule q = true → tool_rule p = true) ∧
      (as_specific q p → (tp_priority q ≤ tp_priority p)%Z) ∧
      (as_specific q p → tp_priority q = tp_priority p →
        (tp_effect q = Deny → tp_effect p = Deny) ∧
        (tp_effect q = RequireApproval → tp_effect p ≠ Allow))).
Proof.
  unfold rule_based_evaluate. destruct (max_by _ _) as [p|] eqn:E.
  - right. apply max_by_Some in E as [Hp Hmax];
      [|exact policy_ltb_irrefl|exact policy_ltb_trans|exact policy_ltb_asym].
    pose proof Hp as Hfin. apply elem_of_finalists in Hp as ((Hin & Ha) & Hs & Hprio).
    exists p. split_and!; try done. intros q Hq Hqa. specialize (Hs q Hq Hqa) as Hle.
    rewrite !specificity_value in Hle. split_and!.
    + by destruct (principal_rule q), (principal_rule p), (tool_rule q), (tool_rule p).
    + by destruct (principal_rule q), (principal_rule p), (tool_rule q), (tool_rule p).
    + intros Hsame%specificity_as_specific. by apply Hprio.
    + intros Hsame%specificity_as_specific Hpr.
      assert (Hqf : q ∈ policy_finalists policies i).
      { apply elem_of_finalists. rewrite Hsame, Hpr. done. }
      specialize (Hmax _ Hqf). apply policy_ltb_false in Hmax.
      unfold effect_precedence in Hmax. destruct (tp_effect q), (tp_effect p); try done; lia.
  - left. apply max_by_None in E. split; [|done]. intros p Hp Ha.
    unfold policy_finalists in E. apply maximal_nil, fmap_nil_inv, maximal_nil in E.
    assert (Hc : (specificity_of p, p) ∈ candidates (policy_specificity i) policies)
      by (apply elem_of_candidates; split; [done|]; by apply policy_specificity_spec).
    rewrite E in Hc. by apply not_elem_of_nil in Hc.
Qed.

(** The decision does not depend on the order in which the policies are
    configured, when their identifiers are distinct. *)
Theorem rule_based_order_independent policies policies' i :
  policies ≡ₚ policies' → NoDup (map tp_id policies) →
  rule_based_evaluate policies i = rule_based_evaluate policies' i.
Proof.
  intros Hp Hnd. unfold rule_based_evaluate.
  destruct (max_by policy_ltb (policy_finalists policies i)) as [p|] eqn:E1,
    (max_by policy_ltb (policy_finalists policies' i)) as [q|] eqn:E2.
  - apply max_by_Some in E1 as [Hp1 Hm1]; [|exact policy_ltb_irrefl|exact policy_ltb_trans|exact policy_ltb_asym].
    apply max_by_Some in E2 as [Hp2 Hm2]; [|exact policy_ltb_irrefl|exact policy_ltb_trans|exact policy_ltb_asym].
    assert (Hperm : policy_finalists policies i ≡ₚ policy_finalists policies' i)
      by (unfold policy_finalists; by rewrite Hp).
    assert (Hq : q ∈ policy_finalists policies i) by (by rewrite Hperm).
    specialize (Hm1 _ Hq). rewrite Hperm in Hp1. specialize (Hm2 _ Hp1).
    apply policy_ltb_false in Hm1, Hm2.
    assert (tp_id p = tp_id q) as Hid
      by (destruct Hm1 as [?|[? ?]], Hm2 as [?|[? ?]]; try lia; by apply str_leb_antisym).
    apply elem_of_finalists in Hq as ((Hq & _) & _). rewrite <-Hperm in Hp1.
    apply elem_of_finalists in Hp1 as ((Hp1 & _) & _).
    assert (p = q) as ->; [|done]. apply list_elem_of_lookup in Hq as [j Hj].
    apply list_elem_of_lookup in Hp1 as [k Hk].
    assert (j = k) as ->; [|congruence].
    apply (NoDup_lookup _ _ _ (tp_id p) Hnd); rewrite list_lookup_fmap.
    + by rewrite Hj, Hid.
    + by rewrite Hk.
  - apply max_by_None in E2.
    assert (Hperm : policy_finalists policies i ≡ₚ policy_finalists policies' i)
      by (unfold policy_finalists; by rewrite Hp).
    rewrite E2 in Hperm. apply Permutation_nil_r in Hperm. by rewrite Hperm in E1.
  - apply max_by_None in E1.
    assert (Hperm : policy_finalists policies i ≡ₚ policy_finalists policies' i)
      by (unfold policy_finalists; by rewrite Hp).
    rewrite E1 in Hperm. symmetry in Hperm. apply Permutation_nil_r in Hperm.
    by rewrite Hperm in E2.
  - done.
Qed.

(** ** Witness *)

Module PolicyExamples.
Definition input : PolicyEvaluationInput :=
  mkPolicyInput "tenant" (mkPrincipal "agent" "tenant" AgentService "static") "t1" "v1"
    ActionCall ReadOnly "digest".
Definition allow : ToolPolicy :=
  mkPolicy "p2" "tenant" SubjectTenant None (Some "t1") ActionCall Allow 5 "v" "ok" PolicyActive.
Definition deny : ToolPolicy :=
  mkPolicy "p1" "tenant" SubjectTenant None (Some "t1") ActionCall Deny 5 "v" "no" PolicyActive.
Definition broad : ToolPolicy :=
  mkPolicy "p0" "tenant" SubjectTenant None None ActionCall Allow 99 "v" "any" PolicyActive.
End PolicyExamples.

Lemma rule_based_order_independent_witness :
  rule_based_evaluate [PolicyExamples.allow; PolicyExamples.broad; PolicyExamples.deny]
    PolicyExamples.input = mkDecision Deny "v" "no" ∧
  rule_based_evaluate [PolicyExamples.allow; PolicyExamples.broad; PolicyExamples.deny]
    PolicyExamples.input =
  rule_based_evaluate [PolicyExamples.deny; PolicyExamples.allow; PolicyExamples.broad]
    PolicyExamples.input.
Proof.
  split; [vm_compute; reflexivity|].
  apply rule_based_order_independent.
  - apply (Permutation_app_comm [_; _] [_]).
  - apply (bool_decide_unpack _). vm_compute. exact I.
Defined.
