(* ===== verification/Credentials.v ===== *)
(** * Credentials: selecting a binding and resolving its secret

    Models [modules/credentials/domain.py],
    [modules/credentials/adapters/in_memory.py] and
    [modules/credentials/adapters/environment.py].  A [SecretValue] is the
    string it hides; its [repr] and [str] are [secret_repr] and [secret_str]. *)

From Stdlib Require Import ZArith Ascii Lia.
From stdpp Require Import base sets strings option list.
From S2P Require Import Prelude Text Dict Errors Store AuditTrail Url Identity Policy.
From S2P Require Import Selection.
Open Scope py_scope.

(** ** Domain *)

Inductive CredentialSubjectType := CredPrincipal | CredTenant.
Inductive CredentialInjectionLocation := InHeader | InQuery.
Inductive CredentialValueFormat := FormatRaw | FormatBearer.
Inductive CredentialBindingStatus := CredActive | CredDisabled.

#[export] Instance cred_subject_eq_dec : EqDecision CredentialSubjectType.
Proof. solve_decision. Defined.
#[export] Instance cred_location_eq_dec : EqDecision CredentialInjectionLocation.
Proof. solve_decision. Defined.
#[export] Instance cred_format_eq_dec : EqDecision CredentialValueFormat.
Proof. solve_decision. Defined.
#[export] Instance cred_status_eq_dec : EqDecision CredentialBindingStatus.
Proof. solve_decision. Defined.

Record SecretReference := mkSecretReference {
  sr_provider : string;
  sr_reference : string;
  sr_version : option string }.

#[export] Instance secret_reference_eq_dec : EqDecision SecretReference.
Proof. solve_decision. Defined.

(** [SecretReference.__post_init__] *)
Definition new_secret_reference (r : SecretReference) : res SecretReference :=
  raise_if (blank (sr_provider r) || blank (sr_reference r))
    (ValueError "secret reference provider and reference must not be blank") ;;?
  raise_if (contains "://" (sr_reference r))
    (ValueError "secret reference must be opaque and must not contain a URL") ;;?
  Ok r.

(** [SecretValue]: the constructor rejects the empty value. *)
Record SecretValue := Secret { reveal : string }.
#[export] Instance secret_value_eq_dec : EqDecision SecretValue.
Proof. solve_decision. Defined.

Definition new_secret_value (value : string) : res SecretValue :=
  raise_if (str_empty value) (ValueError "secret value must not be empty") ;;?
  Ok (Secret value).

Definition secret_repr (_ : SecretValue) : string := "SecretValue('[REDACTED]')".
Definition secret_str (_ : SecretValue) : string := "[REDACTED]".

Record CredentialBinding := mkCredentialBinding {
  cb_id : string;
  cb_tenant_id : string;
  cb_subject_type : CredentialSubjectType;
  cb_subject_id : option string;
  cb_tool_id : option string;
  cb_upstream_service_id : string;
  cb_secret_reference : SecretReference;
  cb_injection_location : CredentialInjectionLocation;
  cb_injection_name : string;
  cb_value_format : CredentialValueFormat;
  cb_status : CredentialBindingStatus }.

#[export] Instance credential_binding_eq_dec : EqDecision CredentialBinding.
Proof. solve_decision. Defined.

(** [CredentialBinding.__post_init__] *)
Definition new_credential_binding (b : CredentialBinding) : res CredentialBinding :=
  raise_if (bool_decide (cb_subject_type b = CredTenant) && negb (is_none (cb_subject_id b)))
    (ValueError "tenant credential subject must not declare subject id") ;;?
  raise_if (negb (bool_decide (cb_subject_type b = CredTenant)) && falsy (cb_subject_id b))
    (ValueError "principal credential subject must declare subject id") ;;?
  raise_if (blank (cb_injection_name b))
    (ValueError "credential injection name must not be blank") ;;?
  Ok b.

Record ResolvedCredential := mkResolvedCredential {
  rc_credential_binding_id : string;
  rc_injection_location : CredentialInjectionLocation;
  rc_injection_name : string;
  rc_value_format : CredentialValueFormat;
  rc_value : SecretValue }.

(** ** [InMemoryCredentialBindingResolver] *)

(** [_specificity] *)
Definition credential_specificity (tenant_id : string) (principal : InternalPrincipal)
    (tool_id upstream_service_id : string) (b : CredentialBinding) : option Z :=
  if negb (bool_decide (cb_status b = CredActive)) then None
  else if negb (bool_decide (cb_tenant_id b = tenant_id))
          || negb (bool_decide (cb_upstream_service_id b = upstream_service_id)) then None
  else if match cb_tool_id b with
          | Some t => negb (bool_decide (t = tool_id)) | None => false end then None
  else
    let tool_score := (if is_none (cb_tool_id b) then 0 else 1)%Z in
    match cb_subject_type b with
    | CredPrincipal =>
        if negb (bool_decide (cb_subject_id b = Some (ip_id principal))) then None
        else Some (30 + tool_score)%Z
    | CredTenant => Some (10 + tool_score)%Z
    end.

(** [InMemoryCredentialBindingResolver.resolve] *)
Definition resolve_credential_binding (bindings : list CredentialBinding) (tenant_id : string)
    (principal : InternalPrincipal) (tool_id upstream_service_id : string) :
    res (option CredentialBinding) :=
  raise_if (negb (bool_decide (ip_tenant_id principal = tenant_id)))
    (Nexus TenantBoundaryViolationError) ;;?
  match (maximal fst
          (candidates (credential_specificity tenant_id principal tool_id upstream_service_id)
             bindings)).*2 with
  | [] => Ok None
  | [b] => Ok (Some b)
  | _ => Raise (Nexus CredentialBindingConflictError)
  end.

(** ** [EnvironmentCredentialProvider] *)

(** [^[A-Z][A-Z0-9_]{0,127}$], whole string. *)
Definition is_upper_alpha (c : ascii) : bool := (65 <=? code c)%N && (code c <=? 90)%N.
Definition environment_reference (s : string) : bool :=
  match s with
  | EmptyString => false
  | String c rest =>
      is_upper_alpha c
      && all_chars (λ c, is_upper_alpha c || is_ascii_digit c || bool_decide (c = "_"%char)) rest
      && (String.length rest <=? 127)%nat
  end.

(** [EnvironmentCredentialProvider.resolve] *)
Definition environment_resolve (environment : dict string) (r : SecretReference) :
    res SecretValue :=
  raise_if (negb (bool_decide (sr_provider r = "environment")))
    (Nexus CredentialResolutionError) ;;?
  raise_if (negb (environment_reference (sr_reference r))) (Nexus CredentialResolutionError) ;;?
  match dget (sr_reference r) environment with
  | None => Raise (Nexus CredentialResolutionError)
  | Some value =>
      raise_if (str_empty value) (Nexus CredentialResolutionError) ;;?
      new_secret_value value
  end.

(** ** Facts *)

(** A binding that may serve the call. *)
Definition serves (tenant_id : string) (principal : InternalPrincipal)
    (tool_id upstream_service_id : string) (b : CredentialBinding) : Prop :=
  cb_status b = CredActive ∧ cb_tenant_id b = tenant_id ∧
  cb_upstream_service_id b = upstream_service_id ∧
  (∀ t, cb_tool_id b = Some t → t = tool_id) ∧
  (cb_subject_type b = CredPrincipal → cb_subject_id b = Some (ip_id principal)).

Definition binding_specificity (b : CredentialBinding) : Z :=
  ((match cb_subject_type b with CredPrincipal => 30 | CredTenant => 10 end)
   + (if is_none (cb_tool_id b) then 0 else 1))%Z.

Section Facts.
Context (tenant : string) (principal : InternalPrincipal) (tool upstream : string).

Lemma credential_specificity_spec b s :
  credential_specificity tenant principal tool upstream b = Some s ↔
  serves tenant principal tool upstream b ∧ s = binding_specificity b.
Proof.
  unfold credential_specificity, serves, binding_specificity.
  destruct (decide (cb_status b = CredActive));
    [rewrite bool_decide_eq_true_2 by done|rewrite bool_decide_eq_false_2 by done; naive_solver].
  destruct (decide (cb_tenant_id b = tenant));
    [rewrite (bool_decide_eq_true_2 (cb_tenant_id b = _)) by done
    |rewrite (bool_decide_eq_false_2 (cb_tenant_id b = _)) by done; naive_solver].
  destruct (decide (cb_upstream_service_id b = upstream));
    [rewrite (bool_decide_eq_true_2 (cb_upstream_service_id b = _)) by done
    |rewrite (bool_decide_eq_false_2 (cb_upstream_service_id b = _)) by done; naive_solver].
  simpl.
  assert (Ht : (match cb_tool_id b with
    | Some t => negb (bool_decide (t = tool)) | None => false end = false) ↔
    (∀ t, cb_tool_id b = Some t → t = tool)).
  { destruct (cb_tool_id b); rewrite ?negb_decide_false; naive_solver. }
  destruct (match cb_tool_id b with
    | Some t => negb (bool_decide (t = tool)) | None => false end).
  { split; [done|]. intros [(_ & _ & _ & H & _) _]. by apply Ht in H. }
  destruct (cb_subject_type b); [|naive_solver].
  destruct (decide (cb_subject_id b = Some (ip_id principal)));
    [rewrite bool_decide_eq_true_2 by done|rewrite bool_decide_eq_false_2 by done]; naive_solver.
Qed.

Definition credential_finalists (bindings : list CredentialBinding) : list CredentialBinding :=
  (maximal fst (candidates (credential_specificity tenant principal tool upstream) bindings)).*2.

Lemma elem_of_credential_finalists bindings b :
  b ∈ credential_finalists bindings ↔
  (b ∈ bindings ∧ serves tenant principal tool upstream b) ∧
  ∀ r, r ∈ bindings → serves tenant principal tool upstream r →
    (binding_specificity r ≤ binding_specificity b)%Z.
Proof.
  unfold credential_finalists. rewrite list_elem_of_fmap. split.
  - intros ([s b'] & -> & Hb). apply elem_of_maximal in Hb as [Hb Hmax].
    apply elem_of_candidates in Hb as [Hb [Ha ->]%credential_specificity_spec]. simpl.
    split; [done|]. intros r Hr Hra.
    apply (Hmax (binding_specificity r, r)), elem_of_candidates.
    split; [done|]. by apply credential_specificity_spec.
  - intros [[Hb Ha] Hmax]. exists (binding_specificity b, b). split; [done|].
    apply elem_of_maximal. split.
    + apply elem_of_candidates. split; [done|]. by apply credential_specificity_spec.
    + intros [s r] [Hr [Hra ->]%credential_specificity_spec]%elem_of_candidates. simpl. auto.
Qed.

#[export] Instance credential_finalists_proper :
  Proper ((≡ₚ) ==> (≡ₚ)) credential_finalists.
Proof. intros l l' H. unfold credential_finalists. by rewrite H. Qed.
End Facts.

(** ** Properties *)

(** Selecting a credential fails closed.  A principal of another tenant is
    refused; no binding is returned only when none serves the call; a binding
    is returned only when it serves the call (active, of the tenant and
    upstream, for this tool or any, for this principal or the tenant) and
    every other binding that serves it is strictly less specific; in every
    other case the selection raises a conflict. *)
Theorem credential_selection_fails_closed bindings tenant principal tool upstream :
  NoDup bindings →
  match resolve_credential_binding bindings tenant principal tool upstream with
  | Ok (Some b) =>
      ip_tenant_id principal = tenant ∧ b ∈ bindings ∧ serves tenant principal tool upstream b ∧
      ∀ r, r ∈ bindings → serves tenant principal tool upstream r → r ≠ b →
        (binding_specificity r < binding_specificity b)%Z
  | Ok None =>
      ip_tenant_id principal = tenant ∧
      ∀ r, r ∈ bindings → ¬ serves tenant principal tool upstream r
  | Raise e =>
      (ip_tenant_id principal ≠ tenant ∧ e = Nexus TenantBoundaryViolationError) ∨
      (ip_tenant_id principal = tenant ∧ e = Nexus CredentialBindingConflictError ∧
       ∃ a b, a ∈ bindings ∧ b ∈ bindings ∧ serves tenant principal tool upstream a ∧
         serves tenant principal tool upstream b ∧ binding_specificity a = binding_specificity b)
  end.
Proof.
  intros Hnd. unfold resolve_credential_binding.
  destruct (decide (ip_tenant_id principal = tenant)) as [Ht|Ht];
    [rewrite bool_decide_eq_true_2 by done|rewrite bool_decide_eq_false_2 by done; simpl; auto].
  simpl. fold (credential_finalists tenant principal tool upstream bindings).
  pose proof (elem_of_credential_finalists tenant principal tool upstream bindings) as Hin.
  destruct (credential_finalists _ _ _ _ _) as [|a [|b rest]] eqn:E.
  - split; [done|]. intros r Hr Hs.
    unfold credential_finalists in E. apply fmap_nil_inv, maximal_nil in E.
    assert (Hc : (binding_specificity r, r) ∈
      candidates (credential_specificity tenant principal tool upstream) bindings)
      by (apply elem_of_candidates; split; [done|]; by apply credential_specificity_spec).
    rewrite E in Hc. by apply not_elem_of_nil in Hc.
  - destruct (proj1 (Hin a) ltac:(by left)) as [[Ha Hs] Hmax]. split_and!; try done.
    intros r Hr Hrs Hne. pose proof (Hmax r Hr Hrs) as Hle.
    destruct (decide (binding_specificity r = binding_specificity a)) as [Heq|]; [|lia].
    assert (Hr' : r ∈ [a]).
    { apply Hin. split; [done|]. intros q Hq Hqs. rewrite Heq. auto. }
    by apply list_elem_of_singleton in Hr'.
  - right. split; [done|]. split; [done|].
    destruct (proj1 (Hin a) ltac:(by left)) as [[Ha Hsa] Hma].
    destruct (proj1 (Hin b) ltac:(right; by left)) as [[Hb Hsb] Hmb].
    exists a, b. split_and!; try done. apply Z.le_antisymm; auto.
Qed.

(** The insertion order of the bindings never decides which credential is
    used. *)
Theorem credential_order_independent bindings bindings' tenant principal tool upstream :
  bindings ≡ₚ bindings' →
  resolve_credential_binding bindings tenant principal tool upstream =
  resolve_credential_binding bindings' tenant principal tool upstream.
Proof.
  intros Hp. unfold resolve_credential_binding.
  fold (credential_finalists tenant principal tool upstream bindings).
  fold (credential_finalists tenant principal tool upstream bindings').
  assert (Hf : credential_finalists tenant principal tool upstream bindings ≡ₚ
    credential_finalists tenant principal tool upstream bindings') by (by rewrite Hp).
  destruct (credential_finalists _ _ _ _ bindings) as [|a [|b l]].
  - symmetry in Hf. by apply Permutation_nil_r in Hf as ->.
  - symmetry in Hf. apply Permutation_singleton_r in Hf as ->. done.
  - apply Permutation_length in Hf.
    by destruct (credential_finalists _ _ _ _ bindings') as [|? [|??]].
Qed.

(** ** Witnesses *)

Module CredentialExamples.
Definition agent : InternalPrincipal := mkPrincipal "agent" "tenant" AgentService "static".
Definition bind (id : string) (ty : CredentialSubjectType) (subject tool : option string) :
    CredentialBinding :=
  mkCredentialBinding id "tenant" ty subject tool "u1"
    (mkSecretReference "environment" "API_KEY" None) InHeader "X-Key" FormatRaw CredActive.
Definition tenant_wide := bind "c1" CredTenant None None.
Definition for_agent := bind "c2" CredPrincipal (Some "agent") None.
Definition for_agent' := bind "c3" CredPrincipal (Some "agent") None.

Example environment_resolve_example :
  environment_resolve [("API_KEY", "s3cret")] (mkSecretReference "environment" "API_KEY" None)
    = Ok (Secret "s3cret") ∧
  environment_resolve [("api", "x")] (mkSecretReference "environment" "api" None)
    = Raise (Nexus CredentialResolutionError).
Proof. vm_compute. done. Qed.
End CredentialExamples.

Lemma credential_selection_fails_closed_witness :
  resolve_credential_binding
    [CredentialExamples.tenant_wide; CredentialExamples.for_agent; CredentialExamples.for_agent']
    "tenant" CredentialExamples.agent "t1" "u1" = Raise (Nexus CredentialBindingConflictError) ∧
  (CredentialExamples.for_agent ∈
     [CredentialExamples.tenant_wide; CredentialExamples.for_agent] ∧
   serves "tenant" CredentialExamples.agent "t1" "u1" CredentialExamples.for_agent).
Proof.
  split; [vm_compute; reflexivity|].
  assert (Hnd : NoDup [CredentialExamples.tenant_wide; CredentialExamples.for_agent])
    by (apply (bool_decide_unpack _); vm_compute; exact I).
  pose proof (credential_selection_fails_closed _ "tenant" CredentialExamples.agent "t1" "u1" Hnd)
    as H.
  assert (E : resolve_credential_binding
    [CredentialExamples.tenant_wide; CredentialExamples.for_agent] "tenant"
    CredentialExamples.agent "t1" "u1" = Ok (Some CredentialExamples.for_agent))
    by (vm_compute; reflexivity).
  rewrite E in H. destruct H as (_ & H1 & H2 & _). split; assumption.
Defined.

Lemma credential_order_independent_witness :
  resolve_credential_binding [CredentialExamples.tenant_wide; CredentialExamples.for_agent]
    "tenant" CredentialExamples.agent "t1" "u1" =
  resolve_credential_binding [CredentialExamples.for_agent; CredentialExamples.tenant_wide]
    "tenant" CredentialExamples.agent "t1" "u1".
Proof. apply credential_order_independent. apply (Permutation_app_comm [_] [_]). Defined.
