(* ===== verification/Approval.v ===== *)
(** * Approval: argument-bound, expiring, single-use approvals

    Models [modules/approval/domain.py], [modules/approval/use_cases.py] and
    [modules/approval/adapters/in_memory.py]. *)

From Stdlib Require Import ZArith QArith Qround.
From stdpp Require Import base sets strings option list.
From S2P Require Import Prelude Text Dict Errors Store AuditTrail.
Open Scope py_scope.

(** ** Domain *)

Inductive ApprovalStatus := ApPending | ApApproved | ApRejected | ApExpired | ApConsumed.
#[export] Instance approval_status_eq_dec : EqDecision ApprovalStatus.
Proof. solve_decision. Defined.

Record ApprovalRequest := mkApproval {
  ar_id : string;
  ar_tenant_id : string;
  ar_principal_id : string;
  ar_tool_id : string;
  ar_tool_version_id : string;
  ar_arguments_digest : string;
  ar_policy_version : string;
  ar_status : ApprovalStatus;
  ar_requested_at : datetime;
  ar_expires_at : datetime;
  ar_idempotency_key : option string;
  ar_decided_by : option string;
  ar_decided_at : option datetime;
  ar_consumed_at : option datetime }.

#[export] Instance approval_eq_dec : EqDecision ApprovalRequest.
Proof. solve_decision. Defined.

(** [ApprovalRequest.__post_init__] *)
Definition new_approval (a : ApprovalRequest) : res ApprovalRequest :=
  require_non_blank
    [("approval id", ar_id a); ("tenant id", ar_tenant_id a);
     ("principal id", ar_principal_id a); ("tool id", ar_tool_id a);
     ("tool version id", ar_tool_version_id a);
     ("arguments digest", ar_arguments_digest a);
     ("policy version", ar_policy_version a)] ;;?
  let? late := dt_le (ar_expires_at a) (ar_requested_at a) in
  raise_if late (ValueError "approval expires_at must be after requested_at") ;;?
  raise_if (match ar_idempotency_key a with Some k => blank k | None => false end)
    (ValueError "approval idempotency key must not be blank") ;;?
  raise_if (bool_decide (ar_status a = ApPending)
            && negb (is_none (ar_decided_by a) && is_none (ar_decided_at a)
                     && is_none (ar_consumed_at a)))
    (ValueError "pending approval must not contain decision state") ;;?
  raise_if ((bool_decide (ar_status a = ApApproved) || bool_decide (ar_status a = ApRejected))
            && (is_none (ar_decided_by a) || is_none (ar_decided_at a)))
    (ValueError "decided approval must contain approver and decision time") ;;?
  raise_if (bool_decide (ar_status a = ApExpired)
            && (is_none (ar_decided_by a) || is_none (ar_decided_at a)))
    (ValueError "expired approval must contain decision state") ;;?
  raise_if (negb (bool_decide (ar_status a = ApConsumed)) && negb (is_none (ar_consumed_at a)))
    (ValueError "only consumed approval may contain consumed_at") ;;?
  raise_if (bool_decide (ar_status a = ApConsumed)
            && (is_none (ar_decided_by a) || is_none (ar_decided_at a)
                || is_none (ar_consumed_at a)))
    (ValueError "consumed approval must contain decision and consume state") ;;?
  Ok a.

(** [dataclasses.replace] on the fields the transitions change; it runs
    [__post_init__] again. *)
Definition approval_replace (a : ApprovalRequest) (status : ApprovalStatus)
    (decided_by : option string) (decided_at consumed_at : option datetime) :
    res ApprovalRequest :=
  new_approval
    (mkApproval (ar_id a) (ar_tenant_id a) (ar_principal_id a) (ar_tool_id a)
       (ar_tool_version_id a) (ar_arguments_digest a) (ar_policy_version a) status
       (ar_requested_at a) (ar_expires_at a) (ar_idempotency_key a)
       decided_by decided_at consumed_at).

(** [_require_pending] *)
Definition require_pending (a : ApprovalRequest) (decided_at : datetime) : res unit :=
  raise_if (negb (bool_decide (ar_status a = ApPending)))
    (ValueError "only pending approval can be decided") ;;?
  let? over := dt_le (ar_expires_at a) decided_at in
  raise_if over (ValueError "expired approval cannot be decided").

Definition decide_as (status : ApprovalStatus) (a : ApprovalRequest)
    (approver_id : string) (decided_at : datetime) : res ApprovalRequest :=
  raise_if (blank approver_id) (ValueError "approval approver id must not be blank") ;;?
  require_pending a decided_at ;;?
  approval_replace a status (Some approver_id) (Some decided_at) (ar_consumed_at a).

Definition approve := decide_as ApApproved.
Definition reject := decide_as ApRejected.

Definition expire (a : ApprovalRequest) (expired_at : datetime) : res ApprovalRequest :=
  raise_if (negb (bool_decide (ar_status a = ApPending)
                  || bool_decide (ar_status a = ApApproved)))
    (ValueError "only pending or approved approval can expire") ;;?
  let? early := dt_lt expired_at (ar_expires_at a) in
  raise_if early (ValueError "approval cannot expire before expires_at") ;;?
  if bool_decide (ar_status a = ApApproved)
  then approval_replace a ApExpired (ar_decided_by a) (ar_decided_at a) (ar_consumed_at a)
  else approval_replace a ApExpired (Some "system") (Some expired_at) (ar_consumed_at a).

Definition consume (a : ApprovalRequest) (principal_id tool_version_id arguments_digest
    policy_version : string) (idempotency_key : option string) (consumed_at : datetime) :
    res ApprovalRequest :=
  raise_if (negb (bool_decide (ar_status a = ApApproved)))
    (ValueError "only approved approval can be consumed") ;;?
  let? over := dt_le (ar_expires_at a) consumed_at in
  raise_if over (ValueError "expired approval cannot be consumed") ;;?
  raise_if (negb (bool_decide (principal_id = ar_principal_id a)))
    (ValueError "approval principal does not match call principal") ;;?
  raise_if (negb (bool_decide (tool_version_id = ar_tool_version_id a)))
    (ValueError "approval tool version does not match call version") ;;?
  raise_if (negb (bool_decide (arguments_digest = ar_arguments_digest a)))
    (ValueError "approval arguments digest does not match call arguments") ;;?
  raise_if (negb (bool_decide (policy_version = ar_policy_version a)))
    (ValueError "approval policy version does not match current policy") ;;?
  raise_if (negb (bool_decide (idempotency_key = ar_idempotency_key a)))
    (ValueError "approval idempotency key does not match call") ;;?
  approval_replace a ApConsumed (ar_decided_by a) (ar_decided_at a) (Some consumed_at).

(** ** [InMemoryApprovalRepository] *)

Section Repository.
Context {D : Type} `{Table D ApprovalRequest}.

(** [get_by_id]; [get_for_update] is the same under the unit of work's lock. *)
Definition approvals_get (tenant_id approval_id : string) : M D (option ApprovalRequest) :=
  let* t := read_table in
  ret (match dget approval_id t with
       | Some a => if decide (ar_tenant_id a = tenant_id) then Some a else None
       | None => None
       end).

Definition approvals_require_tenant (tenant_id : string) (a : ApprovalRequest) : res unit :=
  raise_if (negb (bool_decide (ar_tenant_id a = tenant_id)))
    (Nexus TenantBoundaryViolationError).

Definition approvals_add (tenant_id : string) (a : ApprovalRequest) : M D unit :=
  lift (approvals_require_tenant tenant_id a) ;;*
  let* t := read_table in
  lift (raise_if (dmem (ar_id a) t) (ValueError "approval already exists")) ;;*
  write_table (dset (ar_id a) a t).

Definition approvals_save (tenant_id : string) (a : ApprovalRequest) : M D unit :=
  lift (approvals_require_tenant tenant_id a) ;;*
  let* t := read_table in
  lift (match dget (ar_id a) t with
        | Some c => raise_if (negb (bool_decide (ar_tenant_id c = tenant_id)))
                      (ValueError "approval does not exist in tenant")
        | None => Raise (ValueError "approval does not exist in tenant")
        end) ;;*
  write_table (dset (ar_id a) a t).
End Repository.

(** ** Commands *)

Record RequestApprovalCommand := mkRequestApproval {
  ra_context : ActorContext;
  ra_principal_id : string;
  ra_tool_id : string;
  ra_tool_version_id : string;
  ra_arguments_digest : string;
  ra_policy_version : string;
  ra_idempotency_key : option string;
  ra_policy_reason_code : string;
  ra_mcp_scope_type : string;
  ra_toolset_id : option string;
  ra_toolset_revision : option Z }.

Record ConsumeApprovalCommand := mkConsumeApproval {
  ca_context : ActorContext;
  ca_approval_id : string;
  ca_principal_id : string;
  ca_tool_version_id : string;
  ca_arguments_digest : string;
  ca_policy_version : string;
  ca_idempotency_key : option string }.

Record DecideApprovalCommand := mkDecideApproval {
  da_context : ActorContext;
  da_approval_id : string;
  da_approved : bool }.

(** ** Use cases *)

Definition require_pending_decision (a : ApprovalRequest) : res unit :=
  match ar_status a with
  | ApPending => Ok tt
  | ApExpired => Raise (Nexus ApprovalExpiredError)
  | _ => Raise (Nexus ApprovalInvalidStateError)
  end.

Definition require_consumable_status (a : ApprovalRequest) : res unit :=
  match ar_status a with
  | ApApproved => Ok tt
  | ApPending => Raise (Nexus ApprovalPendingError)
  | ApRejected => Raise (Nexus ApprovalRejectedError)
  | ApExpired => Raise (Nexus ApprovalExpiredError)
  | ApConsumed => Raise (Nexus ApprovalAlreadyConsumedError)
  end.

Definition require_matching_call (a : ApprovalRequest) (c : ConsumeApprovalCommand) : res unit :=
  raise_if (negb (bool_decide (ar_principal_id a = ca_principal_id c)))
    (Nexus ApprovalMismatchError) ;;?
  raise_if (negb (bool_decide (ar_tool_version_id a = ca_tool_version_id c)))
    (Nexus ApprovalMismatchError) ;;?
  raise_if (negb (bool_decide (ar_arguments_digest a = ca_arguments_digest c)))
    (Nexus ApprovalMismatchError) ;;?
  raise_if (negb (bool_decide (ar_policy_version a = ca_policy_version c)))
    (Nexus ApprovalMismatchError) ;;?
  raise_if (negb (bool_decide (ar_idempotency_key a = ca_idempotency_key c)))
    (Nexus ApprovalMismatchError).

Section ConsumeLocked.
Context {D : Type} `{Table D ApprovalRequest}.

(** [consume_locked_approval]: runs in the caller's transaction, no commit. *)
Definition consume_locked_approval (c : ConsumeApprovalCommand) (consumed_at : datetime) :
    M D ApprovalRequest :=
  let tenant_id := ctx_tenant_id (ca_context c) in
  let* found := approvals_get tenant_id (ca_approval_id c) in
  match found with
  | None => raise (Nexus ApprovalNotFoundError)
  | Some a =>
      lift (require_consumable_status a) ;;*
      let* over := lift (dt_le (ar_expires_at a) consumed_at) in
      if over then
        let* expired := lift (expire a consumed_at) in
        approvals_save tenant_id expired ;;*
        raise (Nexus ApprovalExpiredError)
      else
        lift (require_matching_call a c) ;;*
        let* consumed := lift (consume a (ca_principal_id c) (ca_tool_version_id c)
                                 (ca_arguments_digest c) (ca_policy_version c)
                                 (ca_idempotency_key c) consumed_at) in
        approvals_save tenant_id consumed ;;*
        ret consumed
  end.
End ConsumeLocked.

(** [timedelta(seconds=...)]: to the nearest microsecond, ties to even. *)
Definition timedelta_micros (seconds : Q) : Z :=
  let x := (seconds * 1000000)%Q in
  let f := Qfloor x in
  match Qcompare (x - inject_Z f)%Q (1 # 2) with
  | Lt => f
  | Gt => f + 1
  | Eq => if Z.even f then f else f + 1
  end%Z.

Section UseCases.
Context {D : Type} `{Ports} `{!Table D ApprovalRequest} `{!Table D AuditEvent}.

(** [RequestApproval.__init__] rejects a ttl that is not positive. *)
Definition request_approval_config (ttl_seconds : Q) : res Q :=
  raise_if (Qle_bool ttl_seconds 0) (ValueError "approval ttl must be positive") ;;?
  Ok ttl_seconds.

(** [RequestApproval.execute] *)
Definition request_approval (ttl_seconds : Q) (c : RequestApprovalCommand) :
    M D ApprovalRequest :=
  let* t := now in
  let* id := new_id in
  let ctx := ra_context c in
  let* a := lift (new_approval
    (mkApproval id (ctx_tenant_id ctx) (ra_principal_id c) (ra_tool_id c)
       (ra_tool_version_id c) (ra_arguments_digest c) (ra_policy_version c) ApPending
       t (dt_add t (timedelta_micros ttl_seconds)) (ra_idempotency_key c)
       None None None)) in
  with_uow (
    approvals_add (ctx_tenant_id ctx) a ;;*
    let* audit_id := new_id in
    let* metadata := lift (scope_audit_metadata (ra_mcp_scope_type c) (ra_toolset_id c)
                             (ra_toolset_revision c) None None) in
    let* ev := lift (new_audit_event
      (mkAuditEvent audit_id (ctx_tenant_id ctx) (ra_principal_id c) ActToolCall
         "tool_version" (ra_tool_version_id c) OutApprovalRequired (ctx_request_id ctx)
         (ctx_trace_id ctx) t (Some (ra_arguments_digest c)) (Some (ra_policy_version c))
         (Some (ra_policy_reason_code c)) None (Some metadata))) in
    audits_append ev ;;*
    commit) ;;*
  ret a.

(** [DecideApproval.execute] *)
Definition decide_approval (c : DecideApprovalCommand) : M D ApprovalRequest :=
  let ctx := da_context c in
  let tenant_id := ctx_tenant_id ctx in
  with_uow (
    let* found := approvals_get tenant_id (da_approval_id c) in
    match found with
    | None => raise (Nexus ApprovalNotFoundError)
    | Some a =>
        lift (require_pending_decision a) ;;*
        let* t := now in
        let* over := lift (dt_le (ar_expires_at a) t) in
        if over then
          let* expired := lift (expire a t) in
          approvals_save tenant_id expired ;;*
          commit ;;*
          raise (Nexus ApprovalExpiredError)
        else
          let* decided := lift ((if da_approved c then approve else reject)
                                  a (ctx_principal_id ctx) t) in
          approvals_save tenant_id decided ;;*
          let* audit_id := new_id in
          let* ev := lift (new_audit_event
            (mkAuditEvent audit_id tenant_id (ctx_principal_id ctx) ActApprovalDecision
               "approval" (ar_id a) (if da_approved c then OutAllowed else OutDenied)
               (ctx_request_id ctx) (ctx_trace_id ctx) t (Some (ar_arguments_digest a))
               (Some (ar_policy_version a))
               (Some (if da_approved c then "approval_approved" else "approval_rejected"))
               None None)) in
          audits_append ev ;;*
          commit ;;*
          ret decided
    end).

(** [ConsumeApproval.execute] *)
Definition consume_approval (c : ConsumeApprovalCommand) : M D ApprovalRequest :=
  with_uow (
    let* t := now in
    let* consumed :=
      try_except (consume_locked_approval c t)
        (λ e, if decide (e = Nexus ApprovalExpiredError)
              then commit ;;* raise e else raise e) in
    commit ;;*
    ret consumed).

(** [GetApproval.execute] *)
Definition get_approval (ctx : ActorContext) (approval_id : string) : M D ApprovalRequest :=
  let* found := with_uow (approvals_get (ctx_tenant_id ctx) approval_id) in
  match found with
  | None => raise (Nexus ApprovalNotFoundError)
  | Some a => ret a
  end.
End UseCases.

(** ** The store of [InMemoryApprovalUnitOfWork] *)

Record approval_store := mkApprovalStore {
  as_approvals : dict ApprovalRequest;
  as_audits : dict AuditEvent }.

#[export, refine] Instance approval_store_approvals : Table approval_store ApprovalRequest := {
  table := as_approvals;
  set_table t d := mkApprovalStore t (as_audits d) }.
Proof. all: try done. by intros []. Defined.

#[export, refine] Instance approval_store_audits : Table approval_store AuditEvent := {
  table := as_audits;
  set_table t d := mkApprovalStore (as_approvals d) t }.
Proof. all: try done. by intros []. Defined.

(** ** The approval state machine (specification) *)

(** The call an approval is bound to. *)
Definition matches_call (a : ApprovalRequest) (c : ConsumeApprovalCommand) : Prop :=
  ar_principal_id a = ca_principal_id c ∧
  ar_tool_version_id a = ca_tool_version_id c ∧
  ar_arguments_digest a = ca_arguments_digest c ∧
  ar_policy_version a = ca_policy_version c ∧
  ar_idempotency_key a = ca_idempotency_key c.

(** The record with its decision state replaced, nothing else. *)
Definition with_decision (a : ApprovalRequest) (status : ApprovalStatus)
    (by_ : option string) (at_ consumed : option datetime) : ApprovalRequest :=
  mkApproval (ar_id a) (ar_tenant_id a) (ar_principal_id a) (ar_tool_id a)
    (ar_tool_version_id a) (ar_arguments_digest a) (ar_policy_version a) status
    (ar_requested_at a) (ar_expires_at a) (ar_idempotency_key a) by_ at_ consumed.

Definition before (t : datetime) (a : ApprovalRequest) : Prop :=
  dt_le (ar_expires_at a) t = Ok false.
Definition overdue (t : datetime) (a : ApprovalRequest) : Prop :=
  dt_le (ar_expires_at a) t = Ok true.

Inductive moves (a : ApprovalRequest) : ApprovalRequest → Prop :=
| moves_decide status who t :
    ar_status a = ApPending → status = ApApproved ∨ status = ApRejected → before t a →
    moves a (with_decision a status (Some who) (Some t) (ar_consumed_at a))
| moves_expire_pending t :
    ar_status a = ApPending → overdue t a →
    moves a (with_decision a ApExpired (Some "system") (Some t) (ar_consumed_at a))
| moves_expire_approved t :
    ar_status a = ApApproved → overdue t a →
    moves a (with_decision a ApExpired (ar_decided_by a) (ar_decided_at a) (ar_consumed_at a))
| moves_consume t :
    ar_status a = ApApproved → before t a →
    moves a (with_decision a ApConsumed (ar_decided_by a) (ar_decided_at a) (Some t)).

Definition terminal (s : ApprovalStatus) : bool :=
  bool_decide (s ∈ [ApRejected; ApExpired; ApConsumed]).

Lemma moves_not_terminal a a' : moves a a' → terminal (ar_status a) = false.
Proof. by destruct 1 as [?? ? ->|? ->|? ->|? ->]. Qed.

Lemma moves_id a a' : moves a a' → ar_id a' = ar_id a ∧ ar_tenant_id a' = ar_tenant_id a.
Proof. by destruct 1. Qed.

#[global] Arguments new_approval : simpl never.
#[global] Arguments decide_as : simpl never.
#[global] Arguments expire : simpl never.
#[global] Arguments consume : simpl never.

(** *** Reading the operations *)

Lemma new_approval_Ok a a' : new_approval a = Ok a' → a' = a.
Proof. unfold new_approval. intros H. repeat (apply rbind_Ok_inv in H as (? & _ & H)). by simplify_eq. Qed.

Lemma approval_replace_Ok a s b d c a' :
  approval_replace a s b d c = Ok a' → a' = with_decision a s b d c.
Proof. apply new_approval_Ok. Qed.

Lemma decide_as_Ok status a who t a' :
  decide_as status a who t = Ok a' →
  ar_status a = ApPending ∧ before t a ∧ blank who = false ∧
  a' = with_decision a status (Some who) (Some t) (ar_consumed_at a).
Proof.
  unfold decide_as, require_pending. intros H. guards H. guards G0.
  apply raise_if_Ok in G0. subst. apply approval_replace_Ok in H. done.
Qed.

Lemma expire_moves a t a' : expire a t = Ok a' → overdue t a → moves a a'.
Proof.
  unfold expire. intros H Hover. guards H. apply negb_false_iff in G.
  destruct (decide (ar_status a = ApApproved)) as [Ha|Ha].
  - rewrite bool_decide_eq_true_2 in H by done.
    apply approval_replace_Ok in H as ->. by apply moves_expire_approved with t.
  - rewrite (bool_decide_eq_false_2 _ Ha) in H, G. rewrite orb_false_r in G.
    apply bool_decide_eq_true in G. apply approval_replace_Ok in H as ->.
    by apply moves_expire_pending.
Qed.

Lemma consume_Ok a p v g pv k t a' :
  consume a p v g pv k t = Ok a' →
  ar_status a = ApApproved ∧ before t a ∧
  a' = with_decision a ApConsumed (ar_decided_by a) (ar_decided_at a) (Some t).
Proof.
  unfold consume. intros H. guards H. subst. by apply approval_replace_Ok in H as ->.
Qed.

(** *** Tables of approvals evolve along the state machine *)

Definition evolves (t t' : dict ApprovalRequest) : Prop :=
  keyed ar_id t' ∧
  ∀ id a, dget id t = Some a →
    ∃ a', dget id t' = Some a' ∧ (a' = a ∨ moves a a').

Lemma evolves_refl t : keyed ar_id t → evolves t t.
Proof. split; [done|]. eauto. Qed.

Lemma evolves_add a t : keyed ar_id t → dget (ar_id a) t = None → evolves t (dset (ar_id a) a t).
Proof.
  intros Hk Hn. split; [by apply keyed_dset|]. intros id b Hb.
  rewrite dget_dset_ne by congruence. eauto.
Qed.

Lemma evolves_save a a' t :
  keyed ar_id t → dget (ar_id a) t = Some a → moves a a' → evolves t (dset (ar_id a') a' t).
Proof.
  intros Hk Ha Hm. destruct (moves_id _ _ Hm) as [Hid _].
  split; [by apply keyed_dset|]. intros id b Hb. rewrite Hid, dget_dset.
  case_decide; subst; [|eauto]. rewrite Ha in Hb. simplify_eq. eauto.
Qed.

(** A terminal approval is never written again. *)
Lemma evolves_terminal t t' id a :
  evolves t t' → dget id t = Some a → terminal (ar_status a) = true → dget id t' = Some a.
Proof.
  intros [_ He] Ha Ht. destruct (He _ _ Ha) as (a' & Ha' & [->|Hm]); [done|].
  apply moves_not_terminal in Hm. congruence.
Qed.

(** ** [consume_locked_approval], in any store with an approval table *)

Section ConsumeLockedFacts.
Context {D : Type} `{!Table D ApprovalRequest}.
Implicit Types (d : D) (s : st D).

Lemma approvals_get_run tenant id s d :
  working s = Some d →
  approvals_get tenant id s =
  (Ok (match dget id (table d) with
       | Some a => if decide (ar_tenant_id a = tenant) then Some a else None
       | None => None
       end), s).
Proof. intros Hw. unfold approvals_get, bind, read_table. by rewrite Hw. Qed.

Lemma approvals_save_run tenant a c s d :
  working s = Some d → ar_tenant_id a = tenant →
  dget (ar_id a) (table d) = Some c → ar_tenant_id c = tenant →
  approvals_save tenant a s =
  (Ok tt, St (store s) (Some (set_table (dset (ar_id a) a (table d)) d)) (environment s)).
Proof.
  intros Hw Ha Hc Ht.
  unfold approvals_save, approvals_require_tenant, bind, lift, read_table, write_table.
  rewrite Ha, bool_decide_eq_true_2 by done. simpl. rewrite Hw, Hc, Ht.
  rewrite bool_decide_eq_true_2 by done. simpl. by rewrite Hw.
Qed.

(** What one consumption attempt can do to the unit of work. *)
Inductive consumption (c : ConsumeApprovalCommand) (t : datetime) (d : D) :
    res ApprovalRequest → D → Prop :=
| consumption_done a :
    dget (ca_approval_id c) (table d) = Some a →
    ar_tenant_id a = ctx_tenant_id (ca_context c) →
    ar_status a = ApApproved → before t a → matches_call a c →
    let a' := with_decision a ApConsumed (ar_decided_by a) (ar_decided_at a) (Some t) in
    consumption c t d (Ok a') (set_table (dset (ar_id a) a' (table d)) d)
| consumption_expired a a' :
    dget (ca_approval_id c) (table d) = Some a →
    ar_tenant_id a = ctx_tenant_id (ca_context c) →
    ar_status a = ApApproved → overdue t a → expire a t = Ok a' →
    consumption c t d (Raise (Nexus ApprovalExpiredError))
      (set_table (dset (ar_id a) a' (table d)) d)
| consumption_refused e : consumption c t d (Raise e) d.

Lemma consume_locked_run c t s d r s' :
  working s = Some d → keyed ar_id (table d) →
  consume_locked_approval c t s = (r, s') →
  ∃ d', s' = St (store s) (Some d') (environment s) ∧ consumption c t d r d'.
Proof.
  intros Hw Hk. unfold consume_locked_approval.
  rewrite (bind_Ok _ _ _ _ _ (approvals_get_run _ _ _ _ Hw)).
  assert (Href : ∀ e, (Raise e, s) = (r, s') →
    ∃ d', s' = St (store s) (Some d') (environment s) ∧ consumption c t d r d').
  { intros e He. simplify_eq. exists d. split; [|constructor].
    destruct s' as [? w ?]; simpl in *; by subst w. }
  destruct (dget _ _) as [a|] eqn:Ha; [|apply Href].
  case_decide as Htenant; [|apply Href].
  pose proof (keyed_get _ _ _ _ Hk Ha) as Hid.
  unfold bind at 1, lift. destruct (require_consumable_status a) as [[]|e] eqn:Hst;
    simpl; [|apply Href].
  assert (ar_status a = ApApproved) as Hap.
  { unfold require_consumable_status in Hst. by destruct (ar_status a). }
  unfold bind at 1. destruct (dt_le _ _) as [over|e] eqn:Hle; [|apply Href].
  destruct over.
  - unfold bind at 1. destruct (expire a t) as [a'|e] eqn:He; [|apply Href].
    destruct (moves_id _ _ (expire_moves _ _ _ He Hle)) as [Hid' Ht'].
    rewrite (bind_Ok _ _ _ tt _
      (approvals_save_run (ctx_tenant_id (ca_context c)) a' a s d Hw ltac:(congruence) ltac:(congruence) Htenant)).
    unfold raise. intros Hr. simplify_eq. rewrite Hid'. eexists. split; [done|].
    by apply consumption_expired.
  - unfold bind at 1. destruct (require_matching_call a c) as [[]|e] eqn:Hm;
      simpl; [|apply Href].
    unfold bind at 1. destruct (consume a _ _ _ _ _ t) as [a'|e] eqn:Hc; [|apply Href].
    apply consume_Ok in Hc as (_ & Hbefore & ->).
    rewrite (bind_Ok _ _ _ tt _
      (approvals_save_run (ctx_tenant_id (ca_context c)) (with_decision a _ _ _ _) a s d Hw
         ltac:(done) ltac:(simpl; congruence) Htenant)).
    unfold ret. intros Hr. simplify_eq. eexists. split; [done|].
    refine (consumption_done c t d a Ha Htenant Hap Hbefore _).
    unfold require_matching_call in Hm. guards Hm. apply raise_if_Ok in Hm.
    apply negb_decide_false in Hm. done.
Qed.

Lemma consumption_evolves c t d r d' :
  keyed ar_id (table d) → consumption c t d r d' →
  evolves (table d) (table d').
Proof.
  intros Hk Hc. destruct Hc as [a Ha Ht Hs Hb Hm a'|a a' Ha Ht Hs Ho He|e];
    [| |by apply evolves_refl]; rewrite table_set;
    pose proof (keyed_get _ _ _ _ Hk Ha) as Hid; rewrite <-Hid in Ha.
  - by apply (evolves_save a a'); [| |apply moves_consume].
  - pose proof (expire_moves _ _ _ He Ho) as Hm. destruct (moves_id _ _ Hm) as [<- _].
    by apply (evolves_save a a').
Qed.
End ConsumeLockedFacts.

(** ** The use cases *)

Definition approval_inv (d : approval_store) : Prop :=
  keyed ar_id (as_approvals d) ∧ keyed ae_id (as_audits d).

Section UseCaseFacts.
Context `{Ports}.
Implicit Types (d : approval_store) (e : env).

(** [RequestApproval] is all or nothing: a refused request leaves the store
    as it was, a granted one adds one PENDING approval and one
    APPROVAL_REQUIRED event. *)
Lemma request_approval_run ttl c d e r s' :
  request_approval ttl c (St d None e) = (r, s') →
  ∃ e', (∃ x, r = Raise x ∧ s' = St d None e') ∨
  (∃ a ev,
     r = Ok a ∧ dget (ar_id a) (as_approvals d) = None ∧ ar_status a = ApPending ∧
     dget (ae_id ev) (as_audits d) = None ∧ ae_outcome ev = OutApprovalRequired ∧
     ae_arguments_digest ev = Some (ar_arguments_digest a) ∧
     s' = St (mkApprovalStore (dset (ar_id a) a (as_approvals d))
                              (dset (ae_id ev) ev (as_audits d))) None e').
Proof.
  intros Hr. unfold request_approval, approvals_add, approvals_require_tenant,
    audits_append in Hr.
  run_uow Hr; eexists; try (left; eexists; split; reflexivity).
  right.
  match goal with
  | Ga : new_approval _ = Ok ?a, Ge : new_audit_event _ = Ok ?ev |- _ => exists a, ev
  end.
  repeat match goal with
  | G : new_approval _ = Ok _ |- _ => apply new_approval_Ok in G
  | G : new_audit_event _ = Ok _ |- _ => apply new_audit_event_Ok in G
  | G : dmem _ _ = false |- _ => apply dmem_false in G
  end; subst; simpl in *. done.
Qed.

(** [DecideApproval] changes at most the named approval, along the state
    machine, and a decision is audited in the same commit. *)
Inductive decision (c : DecideApprovalCommand) d : res ApprovalRequest → approval_store → Prop :=
| decision_refused x : decision c d (Raise x) d
| decision_expired a a' t :
    dget (da_approval_id c) (as_approvals d) = Some a →
    ar_status a = ApPending → overdue t a → expire a t = Ok a' →
    decision c d (Raise (Nexus ApprovalExpiredError))
      (mkApprovalStore (dset (ar_id a') a' (as_approvals d)) (as_audits d))
| decision_made a t ev :
    dget (da_approval_id c) (as_approvals d) = Some a →
    ar_tenant_id a = ctx_tenant_id (da_context c) →
    ar_status a = ApPending → before t a →
    dget (ae_id ev) (as_audits d) = None →
    ae_resource_id ev = ar_id a → ae_actor_id ev = ctx_principal_id (da_context c) →
    ae_outcome ev = (if da_approved c then OutAllowed else OutDenied) →
    let a' := with_decision a (if da_approved c then ApApproved else ApRejected)
                (Some (ctx_principal_id (da_context c))) (Some t) (ar_consumed_at a) in
    decision c d (Ok a')
      (mkApprovalStore (dset (ar_id a) a' (as_approvals d))
         (dset (ae_id ev) ev (as_audits d))).

Lemma decide_approval_run c d e r s' :
  keyed ar_id (as_approvals d) →
  decide_approval c (St d None e) = (r, s') →
  ∃ d' e', s' = St d' None e' ∧ decision c d r d'.
Proof.
  intros Hk Hr. unfold decide_approval, approvals_get, approvals_save,
    approvals_require_tenant, require_pending_decision, audits_append in Hr.
  run_uow Hr; try (eexists _, _; split; [reflexivity|]; by constructor);
    eexists _, _; (split; [reflexivity|]); [by eapply decision_expired| |];
    repeat match goal with
    | G : approve _ _ _ = Ok _ |- _ => apply decide_as_Ok in G as (? & ? & ? & ->)
    | G : reject _ _ _ = Ok _ |- _ => apply decide_as_Ok in G as (? & ? & ? & ->)
    | G : new_audit_event _ = Ok _ |- _ => apply new_audit_event_Ok in G as ->
    | G : dmem _ _ = false |- _ => apply dmem_false in G
    end; simpl in *;
    match goal with
    | |- context [mkAuditEvent ?i ?t ?p ?ac ?rt ?ri ?o ?rq ?tr ?oc ?g ?pv ?rc ?x ?m] =>
        pose proof (decision_made c d a (clock_now (ticks e))
          (mkAuditEvent i t p ac rt ri o rq tr oc g pv rc x m)) as Hd
    end; simpl in Hd;
    match goal with G : da_approved c = _ |- _ => rewrite G in Hd end; by apply Hd.
Qed.

Lemma decision_evolves c d r d' :
  keyed ar_id (as_approvals d) → decision c d r d' →
  evolves (as_approvals d) (as_approvals d').
Proof.
  intros Hk [x|a a' t Ha Hs Ho He|a t ev Ha _ Hs Hb _ _ _ _ a']; simpl;
    [by apply evolves_refl| |];
    pose proof (keyed_get _ _ _ _ Hk Ha) as Hid; rewrite <-Hid in Ha.
  - by apply (evolves_save a a'), (expire_moves a t).
  - apply (evolves_save a a'); [done|done|].
    by apply moves_decide; [|destruct (da_approved c); auto|].
Qed.

Lemma consume_approval_run c d e r s' :
  keyed ar_id (as_approvals d) →
  consume_approval c (St d None e) = (r, s') →
  ∃ d' e', s' = St d' None e' ∧ consumption c (clock_now (ticks e)) d r d'.
Proof.
  intros Hk. unfold consume_approval, with_uow, bind at 1, now. simpl.
  unfold bind at 1, try_except.
  destruct (consume_locked_approval _ _ _) as [r1 s1] eqn:Hc.
  apply (consume_locked_run _ _ _ d) in Hc as (d1 & -> & Hc); [|done|done].
  intros Hr. destruct r1 as [a|x]; simpl in Hr; [by simplify_eq; eauto|].
  case_decide; simpl in Hr; simplify_eq/=.
  - by eexists _, _.
  - eexists _, _. split; [done|]. inversion Hc; simplify_eq; constructor.
Qed.

(** ** All interleavings of the three commands *)

Inductive approval_step d : approval_store → Prop :=
| step_request ttl c e r d' e' :
    request_approval ttl c (St d None e) = (r, St d' None e') → approval_step d d'
| step_decide c e r d' e' :
    decide_approval c (St d None e) = (r, St d' None e') → approval_step d d'
| step_consume c e r d' e' :
    consume_approval c (St d None e) = (r, St d' None e') → approval_step d d'.

Lemma approval_step_evolves d d' :
  keyed ar_id (as_approvals d) → approval_step d d' →
  evolves (as_approvals d) (as_approvals d').
Proof.
  intros Hk [ttl c e r d1 e' Hr|c e r d1 e' Hr|c e r d1 e' Hr].
  - apply request_approval_run in Hr as
      (? & [(? & _ & ?)|(a & ev & _ & Hn & _ & _ & _ & _ & ?)]); simplify_eq/=;
      [by apply evolves_refl|by apply evolves_add].
  - apply decide_approval_run in Hr as (? & ? & ? & Hd); simplify_eq; [|done].
    by eapply decision_evolves.
  - apply consume_approval_run in Hr as (? & ? & ? & Hc); simplify_eq; [|done].
    exact (consumption_evolves c _ d r x Hk Hc).
Qed.

Lemma approval_steps_terminal d d' id a :
  keyed ar_id (as_approvals d) → star approval_step d d' →
  dget id (as_approvals d) = Some a → terminal (ar_status a) = true →
  keyed ar_id (as_approvals d') ∧ dget id (as_approvals d') = Some a.
Proof.
  intros Hk Hs Ha Ht. induction Hs as [|d d1 d2 Hstep Hs IH]; [done|].
  pose proof (approval_step_evolves _ _ Hk Hstep) as He.
  apply IH; [apply He|by eapply evolves_terminal].
Qed.

(** The fields a decision is bound to never change. *)
Definition same_binding (a a' : ApprovalRequest) : Prop :=
  a' = with_decision a (ar_status a') (ar_decided_by a') (ar_decided_at a') (ar_consumed_at a').

Lemma same_binding_refl a : same_binding a a.
Proof. by destruct a. Qed.

Lemma moves_same_binding a a' : moves a a' → same_binding a a'.
Proof. by destruct 1. Qed.

Lemma same_binding_trans a b c : same_binding a b → same_binding b c → same_binding a c.
Proof. unfold same_binding. intros -> ->. done. Qed.

Lemma approval_steps_moves d d' id a :
  keyed ar_id (as_approvals d) → star approval_step d d' →
  dget id (as_approvals d) = Some a →
  ∃ a', dget id (as_approvals d') = Some a' ∧ star moves a a'.
Proof.
  intros Hk Hs. revert a. induction Hs as [d|d d1 d2 Hstep Hs IH]; intros a Ha.
  { eauto using star. }
  destruct (approval_step_evolves _ _ Hk Hstep) as [Hk1 He].
  destruct (He _ _ Ha) as (a1 & Ha1 & Hm).
  destruct (IH Hk1 _ Ha1) as (a2 & Ha2 & Hr). exists a2. split; [done|].
  destruct Hm as [->|Hm]; [done|by eapply star_step].
Qed.

Lemma moves_star_same_binding a a' : star moves a a' → same_binding a a'.
Proof.
  induction 1 as [|a b c Hm _ IH]; [apply same_binding_refl|].
  eapply same_binding_trans; [by apply moves_same_binding|done].
Qed.

(** *** When a consumption succeeds *)

Definition approvals_valid (t : dict ApprovalRequest) : Prop :=
  ∀ id a, dget id t = Some a → new_approval a = Ok a.

(** A valid APPROVED record stays valid when it is consumed. *)
Lemma consumed_valid a t :
  new_approval a = Ok a → ar_status a = ApApproved →
  let a' := with_decision a ApConsumed (ar_decided_by a) (ar_decided_at a) (Some t) in
  new_approval a' = Ok a'.
Proof.
  unfold new_approval. destruct a as [i tn p tl v g pv st_ rq ex k db da co]. simpl.
  intros Hv ->. guards Hv.
  repeat match goal with
  | G : _ = Ok ?x |- rbind _ _ = Ok _ =>
      eapply rbind_Ok_intro; [exact G|]; clear G
  end.
  repeat (rewrite ?bool_decide_eq_true_2, ?bool_decide_eq_false_2 in * by done; simpl in * ).
  destruct db, da; simplify_eq/=; try done.
  all: repeat match goal with G : _ = Ok ?x |- _ => rewrite G end.
  all: by repeat match goal with G : _ = false |- _ => rewrite G end.
Qed.
End UseCaseFacts.

(** ** Properties *)

Section Properties.
Context `{Ports}.

(** C11: an approval is single use.  Once one consumption of an approval has
    succeeded, then after any interleaving of further requests, decisions
    and consumptions, every other attempt to consume it fails with
    [approval_already_consumed] (or [approval_not_found] from another
    tenant) and changes nothing. *)
Theorem consume_single_use c d e a d1 e1 d2 c' e2 :
  keyed ar_id (as_approvals d) →
  consume_approval c (St d None e) = (Ok a, St d1 None e1) →
  star approval_step d1 d2 →
  ca_approval_id c' = ca_approval_id c →
  consume_approval c' (St d2 None e2) =
    (Raise (Nexus (if decide (ctx_tenant_id (ca_context c) = ctx_tenant_id (ca_context c'))
                   then ApprovalAlreadyConsumedError else ApprovalNotFoundError)),
     St d2 None (Env (S (ticks e2)) (issued e2) (io_log e2))).
Proof.
  intros Hk Hc Hs Hid.
  apply consume_approval_run in Hc as (? & ? & ? & Hc); [simplify_eq|done].
  pose proof (proj1 (consumption_evolves c _ d _ _ Hk Hc)) as Hk1.
  inversion Hc as [b Hb Ht Hst Hbe Hm b' Heq Hd| |]; subst.
  pose proof (keyed_get _ _ _ _ Hk Hb) as Hbid.
  destruct (approval_steps_terminal _ d2 (ar_id b) b' Hk1 Hs) as [_ H2];
    [by simpl; rewrite dget_dset_eq|done|].
  unfold consume_approval, with_uow, bind at 1, now. simpl. unfold bind at 1, try_except.
  unfold consume_locked_approval. unfold bind at 1, approvals_get, bind at 1, read_table.
  simpl. rewrite Hid, <-Hbid, H2. simpl. rewrite <-Ht.
  by case_decide.
Qed.

(** [ConsumeApproval] succeeds exactly when the tenant holds the named
    approval, it is APPROVED, its deadline is not reached at the clock's
    reading, and principal, tool version, arguments digest, policy version
    and idempotency key are the ones it was granted for. *)
Theorem consume_succeeds_iff c d e :
  keyed ar_id (as_approvals d) → approvals_valid (as_approvals d) →
  is_ok (consume_approval c (St d None e)).1 = true ↔
  ∃ a, dget (ca_approval_id c) (as_approvals d) = Some a ∧
       ar_tenant_id a = ctx_tenant_id (ca_context c) ∧
       ar_status a = ApApproved ∧ before (clock_now (ticks e)) a ∧ matches_call a c.
Proof.
  intros Hk Hv. split.
  - destruct (consume_approval c (St d None e)) as [r s'] eqn:Hr. simpl.
    apply consume_approval_run in Hr as (d' & e' & -> & Hc); [|done].
    destruct Hc as [a| |]; try done. intros _. eauto 10.
  - intros (a & Ha & Ht & Hst & Hb & (Hp & Htv & Hg & Hpv & Hik)).
    unfold consume_approval, with_uow, bind at 1, now. simpl. unfold bind at 1, try_except.
    unfold consume_locked_approval. unfold bind at 1, approvals_get, bind at 1, read_table.
    simpl. rewrite Ha. simpl. rewrite decide_True by done.
    unfold require_consumable_status. rewrite Hst. simpl. rewrite Hb.
    unfold bind, lift, require_matching_call. rewrite Hp, Htv, Hg, Hpv, Hik.
    rewrite !bool_decide_eq_true_2 by done. simpl.
    unfold consume, approval_replace. rewrite Hst, Hb, Hp, Htv, Hg, Hpv, Hik. simpl.
    rewrite !bool_decide_eq_true_2 by done. simpl.
    pose proof (consumed_valid a (clock_now (ticks e)) (Hv _ _ Ha) Hst) as Hn.
    unfold with_decision in Hn. rewrite Hg, Hp, Htv, Hpv, Hik in Hn. rewrite Hn.
    rewrite (approvals_save_run _ _ a _ d); try done; simpl;
      by rewrite (keyed_get _ _ _ _ Hk Ha).
Qed.

(** [RequestApproval] is all or nothing.  When it returns, exactly one
    PENDING approval and one APPROVAL_REQUIRED event with the same arguments
    digest were added, under identifiers not used before; when it raises,
    the store is the one it started from. *)
Theorem request_approval_atomic ttl c d e :
  match request_approval ttl c (St d None e) with
  | (Ok a, s') =>
      ∃ ev, ar_status a = ApPending ∧
        dget (ar_id a) (as_approvals d) = None ∧ dget (ae_id ev) (as_audits d) = None ∧
        ae_outcome ev = OutApprovalRequired ∧
        ae_arguments_digest ev = Some (ar_arguments_digest a) ∧
        store s' = mkApprovalStore (dset (ar_id a) a (as_approvals d))
                                   (dset (ae_id ev) ev (as_audits d))
  | (Raise _, s') => store s' = d
  end.
Proof.
  destruct (request_approval _ _ _) as [r s'] eqn:Hr.
  apply request_approval_run in Hr as
    (e' & [(x & -> & ->)|(a & ev & -> & ? & ? & ? & ? & ? & ->)]); [done|].
  by exists ev.
Qed.

(** Along any interleaving of requests, decisions and consumptions a
    stored approval only moves along the state machine (PENDING to
    APPROVED, REJECTED or EXPIRED; APPROVED to EXPIRED or CONSUMED), and
    the call it is bound to never changes. *)
Theorem approval_lifecycle d d' id a :
  keyed ar_id (as_approvals d) → star approval_step d d' →
  dget id (as_approvals d) = Some a →
  ∃ a', dget id (as_approvals d') = Some a' ∧ star moves a a' ∧ same_binding a a'.
Proof.
  intros Hk Hs Ha. destruct (approval_steps_moves _ _ _ _ Hk Hs Ha) as (a' & ? & ?).
  exists a'. eauto using moves_star_same_binding.
Qed.
End Properties.

(** ** Witnesses *)

Module ApprovalExamples.
#[local] Existing Instance sample_ports.

Definition ctx : ActorContext :=
  mkActorContext "req" "trace" "tenant" "agent" "static" "agent_service".
Definition granted : ApprovalRequest :=
  mkApproval "ap" "tenant" "agent" "tool" "v1" "digest" "p1" ApApproved
    (Datetime 10 true) (Datetime 5000 true) None (Some "admin") (Some (Datetime 20 true)) None.
Definition stored : approval_store := mkApprovalStore [("ap", granted)] [].
Definition env0 : env := Env 0 0 [].
Definition call : ConsumeApprovalCommand :=
  mkConsumeApproval ctx "ap" "agent" "v1" "digest" "p1" None.

Definition stored_keyed : keyed ar_id (as_approvals stored) :=
  keyed_dset ar_id granted [] (keyed_nil ar_id).

Lemma stored_valid : approvals_valid (as_approvals stored).
Proof. intros id a. simpl. case_decide; [|done]. intros. by simplify_eq. Qed.
End ApprovalExamples.

Lemma consume_single_use_witness :
  ∃ a d1 e1,
    consume_approval (H := sample_ports) ApprovalExamples.call
      (St ApprovalExamples.stored None ApprovalExamples.env0) = (Ok a, St d1 None e1) ∧
    consume_approval (H := sample_ports) ApprovalExamples.call
      (St d1 None ApprovalExamples.env0) =
      (Raise (Nexus ApprovalAlreadyConsumedError), St d1 None (Env 1 0 [])).
Proof.
  eexists _, _, _. split; [vm_compute; reflexivity|].
  apply (consume_single_use (H := sample_ports) ApprovalExamples.call ApprovalExamples.stored
    ApprovalExamples.env0 _ _ _ _ ApprovalExamples.call ApprovalExamples.env0
    ApprovalExamples.stored_keyed eq_refl (star_refl _ _) eq_refl).
Defined.

Lemma consume_succeeds_iff_witness :
  is_ok (consume_approval (H := sample_ports) ApprovalExamples.call
    (St ApprovalExamples.stored None ApprovalExamples.env0)).1 = true.
Proof.
  apply (consume_succeeds_iff (H := sample_ports) ApprovalExamples.call ApprovalExamples.stored
    ApprovalExamples.env0 ApprovalExamples.stored_keyed ApprovalExamples.stored_valid).
  exists ApprovalExamples.granted. vm_compute. repeat split.
Defined.

Lemma approval_lifecycle_witness :
  ∃ a', dget "ap" (as_approvals ApprovalExamples.stored) = Some a' ∧
    star moves ApprovalExamples.granted a' ∧ same_binding ApprovalExamples.granted a'.
Proof.
  apply (approval_lifecycle (H := sample_ports) ApprovalExamples.stored ApprovalExamples.stored
    "ap" ApprovalExamples.granted ApprovalExamples.stored_keyed (star_refl _ _) eq_refl).
Defined.
