(* ===== verification/Execution.v ===== *)
(** * Execution: domain model and repositories

    Models [modules/execution/domain.py] and
    [modules/execution/adapters/in_memory.py].  Durations are rationals; the
    [data] an upstream returns is a JSON value. *)

From Stdlib Require Import ZArith QArith Ascii Lia.
From stdpp Require Import base sets strings option list.
From S2P Require Import Prelude Text Dict Errors Json Store AuditTrail Catalog Connectors.
Open Scope py_scope.

(** ** Enumerations *)

Inductive ExecutionStatus := ExPlanned | ExRunning | ExSucceeded | ExFailed | ExUnknown | ExCancelled.
Inductive McpScopeType := ScopeRoot | ScopeToolset.
Inductive RetryDisposition := Retry | DoNotRetry | RequireReconciliation.
Inductive ExecutionAttemptStatus := AtRunning | AtSucceeded | AtFailed | AtUnknown | AtCancelled.

#[export] Instance execution_status_eq_dec : EqDecision ExecutionStatus.
Proof. solve_decision. Defined.
#[export] Instance scope_type_eq_dec : EqDecision McpScopeType.
Proof. solve_decision. Defined.
#[export] Instance retry_disposition_eq_dec : EqDecision RetryDisposition.
Proof. solve_decision. Defined.
#[export] Instance attempt_status_eq_dec : EqDecision ExecutionAttemptStatus.
Proof. solve_decision. Defined.

Definition execution_status_value (s : ExecutionStatus) : string :=
  match s with
  | ExPlanned => "planned" | ExRunning => "running" | ExSucceeded => "succeeded"
  | ExFailed => "failed" | ExUnknown => "unknown" | ExCancelled => "cancelled"
  end.
Definition scope_type_value (s : McpScopeType) : string :=
  match s with ScopeRoot => "root" | ScopeToolset => "toolset" end.

Definition execution_terminal (s : ExecutionStatus) : bool :=
  bool_decide (s ∈ [ExSucceeded; ExFailed; ExUnknown; ExCancelled]).

(** ** Validation helpers *)

(** [is_valid_idempotency_key] *)
Definition idempotency_key_characters : string :=
  "ABCDEFGHIJKLMNOPQRSTUVWXYZabcdefghijklmnopqrstuvwxyz0123456789._:-".
Definition is_valid_idempotency_key (value : string) : bool :=
  (1 <=? String.length value)%nat && (String.length value <=? 128)%nat
  && all_chars (char_in idempotency_key_characters) value.

Definition none_or_empty (o : option string) : bool :=
  match o with Some s => str_empty s | None => true end.

(** [_validate_mcp_scope] *)
Definition validate_mcp_scope (ty : McpScopeType) (toolset_id : option string)
    (toolset_revision : option Z) : res unit :=
  raise_if (bool_decide (ty = ScopeRoot)
            && (negb (is_none toolset_id) || negb (is_none toolset_revision)))
    (ValueError "root MCP scope must not declare toolset context") ;;?
  raise_if (bool_decide (ty = ScopeToolset)
            && (none_or_empty toolset_id
                || match toolset_revision with Some r => (r <=? 0)%Z | None => true end))
    (ValueError "toolset MCP scope requires toolset id and positive revision").

(** ** Commands *)

Record CallToolCommand := mkCallTool {
  ct_context : ActorContext;
  ct_tool_name : string;
  ct_arguments : dict json;
  ct_idempotency_key : option string;
  ct_approval_id : option string;
  ct_mcp_scope_type : McpScopeType;
  ct_toolset_id : option string;
  ct_toolset_revision : option Z }.

(** [CallToolCommand.__post_init__] *)
Definition new_call_tool_command (c : CallToolCommand) : res CallToolCommand :=
  raise_if (blank (ct_tool_name c)) (ValueError "tool name must not be blank") ;;?
  raise_if (match ct_idempotency_key c with
            | Some k => negb (is_valid_idempotency_key k) | None => false end)
    (ValueError "idempotency key must be 1-128 safe ASCII token characters") ;;?
  validate_mcp_scope (ct_mcp_scope_type c) (ct_toolset_id c) (ct_toolset_revision c) ;;?
  Ok c.

(** [CallToolCommand.arguments_digest] *)
Definition call_arguments_digest (c : CallToolCommand) : res string :=
  canonical_json_digest (JObj (ct_arguments c)).

Record ResolvedExecutableTool := mkResolvedTool {
  rt_tenant_id : string;
  rt_tool_id : string;
  rt_tool_version_id : string;
  rt_tool_binding_id : string;
  rt_upstream_service_id : string;
  rt_canonical_name : string;
  rt_version : Z;
  rt_input_schema : dict json;
  rt_output_schema : option (dict json);
  rt_side_effect : ToolSideEffect;
  rt_visibility : ToolVisibility;
  rt_binding_type : ToolBindingType;
  rt_binding_config : dict json;
  rt_upstream_endpoint : string;
  rt_upstream_auth_scheme : option string }.

Record ExecutorRequest := mkExecutorRequest {
  xr_execution_id : string;
  xr_tool : ResolvedExecutableTool;
  xr_arguments : dict json;
  xr_timeout_seconds : Q;
  xr_idempotency_key : option string }.

(** [ExecutorRequest.__post_init__] *)
Definition new_executor_request (r : ExecutorRequest) : res ExecutorRequest :=
  raise_if (Qle_bool (xr_timeout_seconds r) 0) (ValueError "executor timeout must be positive") ;;?
  Ok r.

Record ExecutorResult := mkExecutorResult {
  er_data : json;
  er_content_type : option string;
  er_upstream_status : option Z }.

Record CallToolResult := mkCallToolResult {
  cr_execution_id : string;
  cr_data : json;
  cr_content_type : option string;
  cr_upstream_status : option Z;
  cr_attempt_count : Z }.

(** ** [ToolExecution] *)

Record ToolExecution := mkExecution {
  ex_id : string;
  ex_tenant_id : string;
  ex_request_id : string;
  ex_trace_id : string;
  ex_principal_id : string;
  ex_tool_id : string;
  ex_tool_version_id : string;
  ex_tool_binding_id : string;
  ex_arguments_digest : string;
  ex_policy_version : string;
  ex_policy_reason_code : string;
  ex_side_effect : ToolSideEffect;
  ex_status : ExecutionStatus;
  ex_planned_at : datetime;
  ex_approval_id : option string;
  ex_credential_binding_id : option string;
  ex_idempotency_key : option string;
  ex_started_at : option datetime;
  ex_finished_at : option datetime;
  ex_error_code : option string;
  ex_error_category : option ExecutionErrorCategory;
  ex_attempt_count : Z;
  ex_mcp_scope_type : McpScopeType;
  ex_toolset_id : option string;
  ex_toolset_revision : option Z }.

#[export] Instance execution_eq_dec : EqDecision ToolExecution.
Proof. solve_decision. Defined.

(** [ToolExecution.__post_init__] *)
Definition new_execution (x : ToolExecution) : res ToolExecution :=
  let has_error := negb (is_none (ex_error_code x)) || negb (is_none (ex_error_category x)) in
  require_non_blank
    [("execution id", ex_id x); ("tenant id", ex_tenant_id x); ("request id", ex_request_id x);
     ("trace id", ex_trace_id x); ("principal id", ex_principal_id x); ("tool id", ex_tool_id x);
     ("tool version id", ex_tool_version_id x); ("tool binding id", ex_tool_binding_id x);
     ("arguments digest", ex_arguments_digest x); ("policy version", ex_policy_version x);
     ("policy reason code", ex_policy_reason_code x)] ;;?
  raise_if (bool_decide (ex_status x = ExPlanned)
            && (negb (is_none (ex_started_at x)) || negb (is_none (ex_finished_at x))))
    (ValueError "planned execution must not have start or finish time") ;;?
  raise_if (bool_decide (ex_status x = ExRunning) && is_none (ex_started_at x))
    (ValueError "running execution must have started_at") ;;?
  raise_if (execution_terminal (ex_status x) && is_none (ex_finished_at x))
    (ValueError "terminal execution must have finished_at") ;;?
  raise_if (bool_decide (ex_status x ∈ [ExPlanned; ExRunning]) && has_error)
    (ValueError "non-terminal execution must not have error state") ;;?
  raise_if (bool_decide (ex_status x = ExSucceeded) && has_error)
    (ValueError "succeeded execution must not have error state") ;;?
  raise_if (bool_decide (ex_status x ∈ [ExFailed; ExUnknown; ExCancelled])
            && (is_none (ex_error_code x) || is_none (ex_error_category x)))
    (ValueError "unsuccessful terminal execution must contain error state") ;;?
  raise_if (ex_attempt_count x <? 0)%Z
    (ValueError "execution attempt count must not be negative") ;;?
  validate_mcp_scope (ex_mcp_scope_type x) (ex_toolset_id x) (ex_toolset_revision x) ;;?
  Ok x.

(** The record with its lifecycle fields replaced, nothing else. *)
Definition execution_at (x : ToolExecution) (s : ExecutionStatus)
    (started finished : option datetime) (code : option string)
    (category : option ExecutionErrorCategory) (attempts : Z) : ToolExecution :=
  mkExecution (ex_id x) (ex_tenant_id x) (ex_request_id x) (ex_trace_id x) (ex_principal_id x)
    (ex_tool_id x) (ex_tool_version_id x) (ex_tool_binding_id x) (ex_arguments_digest x)
    (ex_policy_version x) (ex_policy_reason_code x) (ex_side_effect x) s (ex_planned_at x)
    (ex_approval_id x) (ex_credential_binding_id x) (ex_idempotency_key x) started finished
    code category attempts (ex_mcp_scope_type x) (ex_toolset_id x) (ex_toolset_revision x).

Definition execution_start (x : ToolExecution) (started_at : datetime) : res ToolExecution :=
  raise_if (negb (bool_decide (ex_status x = ExPlanned)))
    (ValueError "only planned execution can start") ;;?
  new_execution (execution_at x ExRunning (Some started_at) (ex_finished_at x) (ex_error_code x)
                   (ex_error_category x) (ex_attempt_count x)).

(** [ToolExecution._require_running] *)
Definition execution_require_running (x : ToolExecution) : res unit :=
  raise_if (negb (bool_decide (ex_status x = ExRunning)))
    (ValueError "execution must be running before terminal transition").

Definition register_attempt (x : ToolExecution) : res ToolExecution :=
  execution_require_running x ;;?
  new_execution (execution_at x (ex_status x) (ex_started_at x) (ex_finished_at x)
                   (ex_error_code x) (ex_error_category x) (ex_attempt_count x + 1)).

Definition execution_succeed (x : ToolExecution) (t : datetime) : res ToolExecution :=
  execution_require_running x ;;?
  new_execution (execution_at x ExSucceeded (ex_started_at x) (Some t) (ex_error_code x)
                   (ex_error_category x) (ex_attempt_count x)).

Definition execution_fail (x : ToolExecution) (code : string)
    (category : ExecutionErrorCategory) (t : datetime) : res ToolExecution :=
  execution_require_running x ;;?
  new_execution (execution_at x ExFailed (ex_started_at x) (Some t) (Some code) (Some category)
                   (ex_attempt_count x)).

Definition execution_mark_unknown (x : ToolExecution) (code : string) (t : datetime) :
    res ToolExecution :=
  execution_require_running x ;;?
  new_execution (execution_at x ExUnknown (ex_started_at x) (Some t) (Some code)
                   (Some CatUnknown) (ex_attempt_count x)).

Definition execution_cancel (x : ToolExecution) (t : datetime) : res ToolExecution :=
  raise_if (negb (bool_decide (ex_status x ∈ [ExPlanned; ExRunning])))
    (ValueError "only planned or running execution can be cancelled") ;;?
  new_execution (execution_at x ExCancelled (ex_started_at x) (Some t)
                   (Some "execution_cancelled") (Some CatCancelled) (ex_attempt_count x)).

(** ** [ExecutionAttempt] *)

Record ExecutionAttempt := mkAttempt {
  at_id : string;
  at_tenant_id : string;
  at_execution_id : string;
  at_attempt_number : Z;
  at_status : ExecutionAttemptStatus;
  at_started_at : datetime;
  at_finished_at : option datetime;
  at_error_code : option string;
  at_error_category : option ExecutionErrorCategory;
  at_upstream_status : option Z }.

#[export] Instance attempt_eq_dec : EqDecision ExecutionAttempt.
Proof. solve_decision. Defined.

(** [ExecutionAttempt.__post_init__] *)
Definition new_attempt (a : ExecutionAttempt) : res ExecutionAttempt :=
  let has_error := negb (is_none (at_error_code a)) || negb (is_none (at_error_category a)) in
  require_non_blank
    [("execution attempt id", at_id a); ("tenant id", at_tenant_id a);
     ("execution id", at_execution_id a)] ;;?
  raise_if (at_attempt_number a <=? 0)%Z
    (ValueError "execution attempt number must be positive") ;;?
  raise_if (match at_upstream_status a with
            | Some s => negb ((100 <=? s)%Z && (s <=? 599)%Z) | None => false end)
    (ValueError "execution attempt upstream status was invalid") ;;?
  raise_if (bool_decide (at_status a = AtRunning) && negb (is_none (at_finished_at a)))
    (ValueError "running execution attempt must not have finished_at") ;;?
  raise_if (negb (bool_decide (at_status a = AtRunning)) && is_none (at_finished_at a))
    (ValueError "terminal execution attempt must have finished_at") ;;?
  raise_if (bool_decide (at_status a ∈ [AtRunning; AtSucceeded]) && has_error)
    (ValueError "running or succeeded attempt must not have error state") ;;?
  raise_if (bool_decide (at_status a ∈ [AtFailed; AtUnknown; AtCancelled])
            && (is_none (at_error_code a) || is_none (at_error_category a)))
    (ValueError "unsuccessful attempt must contain error state") ;;?
  Ok a.

(** The record with its outcome replaced, nothing else. *)
Definition attempt_at (a : ExecutionAttempt) (s : ExecutionAttemptStatus)
    (finished : option datetime) (code : option string)
    (category : option ExecutionErrorCategory) (upstream : option Z) : ExecutionAttempt :=
  mkAttempt (at_id a) (at_tenant_id a) (at_execution_id a) (at_attempt_number a) s
    (at_started_at a) finished code category upstream.

Definition attempt_require_running (a : ExecutionAttempt) : res unit :=
  raise_if (negb (bool_decide (at_status a = AtRunning)))
    (ValueError "execution attempt must be running before terminal transition").

Definition attempt_succeed (a : ExecutionAttempt) (t : datetime) (upstream : option Z) :
    res ExecutionAttempt :=
  attempt_require_running a ;;?
  new_attempt (attempt_at a AtSucceeded (Some t) (at_error_code a) (at_error_category a) upstream).

Definition attempt_fail (a : ExecutionAttempt) (code : string)
    (category : ExecutionErrorCategory) (t : datetime) (outcome_unknown : bool)
    (upstream : option Z) : res ExecutionAttempt :=
  attempt_require_running a ;;?
  new_attempt (attempt_at a (if outcome_unknown then AtUnknown else AtFailed) (Some t)
                 (Some code) (Some category) upstream).

Definition attempt_cancel (a : ExecutionAttempt) (t : datetime) : res ExecutionAttempt :=
  attempt_require_running a ;;?
  new_attempt (attempt_at a AtCancelled (Some t) (Some "attempt_cancelled") (Some CatCancelled)
                 (at_upstream_status a)).

(** ** [retry_disposition] *)

Definition retry_disposition (side_effect : ToolSideEffect)
    (category : ExecutionErrorCategory) (has_idempotency_key : bool) : RetryDisposition :=
  if bool_decide (category ∈ [CatValidation; CatAuthentication; CatAuthorization; CatApproval;
                              CatCredential; CatUpstream4xx; CatCancelled])
  then DoNotRetry
  else if bool_decide (category ∈ [CatTimeoutAfterSend; CatUnknown])
          && bool_decide (side_effect ∈ [NonIdempotentWrite; UnknownEffect])
  then RequireReconciliation
  else if negb (bool_decide (category ∈ [CatTimeoutBeforeSend; CatTimeoutAfterSend; CatNetwork;
                                         CatUpstream5xx; CatUnknown]))
  then DoNotRetry
  else if bool_decide (side_effect = ReadOnly) then Retry
  else if bool_decide (side_effect = IdempotentWrite) && has_idempotency_key then Retry
  else DoNotRetry.

(** ** Repositories *)

Definition find_by_idempotency_key (tenant_id principal_id version_id key : string)
    (t : dict ToolExecution) : option ToolExecution :=
  dfind (λ x, bool_decide (ex_tenant_id x = tenant_id)
              && bool_decide (ex_principal_id x = principal_id)
              && bool_decide (ex_tool_version_id x = version_id)
              && bool_decide (ex_idempotency_key x = Some key)) t.

Definition list_executions_by_tenant (tenant_id : string) (t : dict ToolExecution) :
    list ToolExecution :=
  filter (λ x, ex_tenant_id x = tenant_id) (dvalues t).

Definition attempt_number_leb (a b : ExecutionAttempt) : bool :=
  (at_attempt_number a <=? at_attempt_number b)%Z.

Definition list_attempts_by_execution (tenant_id execution_id : string)
    (t : dict ExecutionAttempt) : list ExecutionAttempt :=
  sorted_by attempt_number_leb
    (filter (λ a, at_tenant_id a = tenant_id ∧ at_execution_id a = execution_id) (dvalues t)).

Section Repositories.
Context {D : Type} `{!Table D ToolExecution} `{!Table D ExecutionAttempt}.

(** [get_by_id], and [get_for_update] *)
Definition get_execution (tenant_id id : string) : M D (option ToolExecution) :=
  let* t := read_table in ret (in_tenant ex_tenant_id tenant_id (dget id t)).

Definition get_execution_by_key (tenant_id principal_id version_id key : string) :
    M D (option ToolExecution) :=
  let* t := read_table in ret (find_by_idempotency_key tenant_id principal_id version_id key t).

Definition add_execution (tenant_id : string) (x : ToolExecution) : M D unit :=
  lift (require_matching_tenant tenant_id (ex_tenant_id x)) ;;*
  let* t := read_table in
  lift (raise_if (dmem (ex_id x) t) (ValueError "tool execution id already exists")) ;;*
  write_table (dset (ex_id x) x t).

Definition save_execution (tenant_id : string) (x : ToolExecution) : M D unit :=
  lift (require_matching_tenant tenant_id (ex_tenant_id x)) ;;*
  let* t := read_table in
  lift (raise_if (is_none (in_tenant ex_tenant_id tenant_id (dget (ex_id x) t)))
          (ValueError "tool execution does not exist in tenant")) ;;*
  write_table (dset (ex_id x) x t).

Definition get_attempt (tenant_id id : string) : M D (option ExecutionAttempt) :=
  let* t := read_table in ret (in_tenant at_tenant_id tenant_id (dget id t)).

Definition same_attempt_number (a b : ExecutionAttempt) : bool :=
  bool_decide (at_execution_id b = at_execution_id a)
  && bool_decide (at_attempt_number b = at_attempt_number a).

Definition add_attempt (tenant_id : string) (a : ExecutionAttempt) : M D unit :=
  lift (require_matching_tenant tenant_id (at_tenant_id a)) ;;*
  let* t := read_table in
  lift (raise_if (dmem (at_id a) t) (ValueError "execution attempt id already exists")) ;;*
  lift (raise_if (existsb (same_attempt_number a) (dvalues t))
          (ValueError "execution attempt number already exists")) ;;*
  write_table (dset (at_id a) a t).

Definition save_attempt (tenant_id : string) (a : ExecutionAttempt) : M D unit :=
  lift (require_matching_tenant tenant_id (at_tenant_id a)) ;;*
  let* t := read_table in
  lift (raise_if (is_none (in_tenant at_tenant_id tenant_id (dget (at_id a) t)))
          (ValueError "execution attempt does not exist in tenant")) ;;*
  write_table (dset (at_id a) a t).
End Repositories.

#[global] Arguments new_execution : simpl never.
#[global] Arguments execution_start : simpl never.
#[global] Arguments register_attempt : simpl never.
#[global] Arguments execution_succeed : simpl never.
#[global] Arguments execution_fail : simpl never.
#[global] Arguments execution_mark_unknown : simpl never.
#[global] Arguments execution_cancel : simpl never.
#[global] Arguments new_attempt : simpl never.
#[global] Arguments attempt_succeed : simpl never.
#[global] Arguments attempt_fail : simpl never.
#[global] Arguments attempt_cancel : simpl never.
#[global] Arguments new_call_tool_command : simpl never.
#[global] Arguments call_arguments_digest : simpl never.
#[global] Arguments retry_disposition : simpl never.

(** ** Reading the operations *)

Lemma new_execution_Ok x x' : new_execution x = Ok x' → x' = x.
Proof. unfold new_execution. intros H. guards H. by simplify_eq. Qed.
Lemma new_execution_scope x :
  new_execution x = Ok x →
  validate_mcp_scope (ex_mcp_scope_type x) (ex_toolset_id x) (ex_toolset_revision x) = Ok tt.
Proof.
  unfold new_execution. intros Hv. guards Hv.
  match goal with G : validate_mcp_scope _ _ _ = Ok ?u |- _ => by destruct u end.
Qed.

Lemma new_attempt_Ok a a' : new_attempt a = Ok a' → a' = a.
Proof. unfold new_attempt. intros H. guards H. by simplify_eq. Qed.

(** The state machine of an execution. *)
Inductive execution_moves (x : ToolExecution) : ToolExecution → Prop :=
| moves_attempt :
    ex_status x = ExRunning →
    execution_moves x
      (execution_at x ExRunning (ex_started_at x) (ex_finished_at x) (ex_error_code x)
         (ex_error_category x) (ex_attempt_count x + 1))
| moves_finish s t code category :
    ex_status x = ExRunning → execution_terminal s = true →
    execution_moves x
      (execution_at x s (ex_started_at x) (Some t) code category (ex_attempt_count x)).

Lemma register_attempt_Ok x x' :
  register_attempt x = Ok x' →
  ex_status x = ExRunning ∧
  x' = execution_at x ExRunning (ex_started_at x) (ex_finished_at x) (ex_error_code x)
         (ex_error_category x) (ex_attempt_count x + 1) ∧
  new_execution x' = Ok x'.
Proof.
  unfold register_attempt, execution_require_running. intros H. guards H.
  pose proof (new_execution_Ok _ _ H) as E. rewrite G in *. rewrite <-E in H. done.
Qed.

Lemma execution_succeed_Ok x t x' :
  execution_succeed x t = Ok x' →
  ex_status x = ExRunning ∧ new_execution x' = Ok x' ∧
  x' = execution_at x ExSucceeded (ex_started_at x) (Some t) (ex_error_code x)
         (ex_error_category x) (ex_attempt_count x).
Proof.
  unfold execution_succeed, execution_require_running. intros H. guards H.
  pose proof (new_execution_Ok _ _ H) as E. rewrite <-E in H. done.
Qed.

Lemma execution_fail_Ok x code category t x' :
  execution_fail x code category t = Ok x' →
  ex_status x = ExRunning ∧ new_execution x' = Ok x' ∧
  x' = execution_at x ExFailed (ex_started_at x) (Some t) (Some code) (Some category)
         (ex_attempt_count x).
Proof.
  unfold execution_fail, execution_require_running. intros H. guards H.
  pose proof (new_execution_Ok _ _ H) as E. rewrite <-E in H. done.
Qed.

Lemma execution_mark_unknown_Ok x code t x' :
  execution_mark_unknown x code t = Ok x' →
  ex_status x = ExRunning ∧ new_execution x' = Ok x' ∧
  x' = execution_at x ExUnknown (ex_started_at x) (Some t) (Some code) (Some CatUnknown)
         (ex_attempt_count x).
Proof.
  unfold execution_mark_unknown, execution_require_running. intros H. guards H.
  pose proof (new_execution_Ok _ _ H) as E. rewrite <-E in H. done.
Qed.

Lemma execution_cancel_Ok x t x' :
  execution_cancel x t = Ok x' →
  (ex_status x = ExPlanned ∨ ex_status x = ExRunning) ∧ new_execution x' = Ok x' ∧
  x' = execution_at x ExCancelled (ex_started_at x) (Some t) (Some "execution_cancelled")
         (Some CatCancelled) (ex_attempt_count x).
Proof.
  unfold execution_cancel. intros H. guards H.
  pose proof (new_execution_Ok _ _ H) as E. rewrite <-E in H. split; [set_solver|done].
Qed.

Lemma execution_start_Ok x t x' :
  execution_start x t = Ok x' →
  ex_status x = ExPlanned ∧ new_execution x' = Ok x' ∧
  x' = execution_at x ExRunning (Some t) (ex_finished_at x) (ex_error_code x)
         (ex_error_category x) (ex_attempt_count x).
Proof.
  unfold execution_start. intros H. guards H.
  pose proof (new_execution_Ok _ _ H) as E. rewrite <-E in H. done.
Qed.

Lemma attempt_succeed_Ok a t u a' :
  attempt_succeed a t u = Ok a' →
  at_status a = AtRunning ∧
  a' = attempt_at a AtSucceeded (Some t) (at_error_code a) (at_error_category a) u.
Proof.
  unfold attempt_succeed, attempt_require_running. intros H. guards H.
  by apply new_attempt_Ok in H.
Qed.

Lemma attempt_fail_Ok a code category t o u a' :
  attempt_fail a code category t o u = Ok a' →
  at_status a = AtRunning ∧
  a' = attempt_at a (if o then AtUnknown else AtFailed) (Some t) (Some code) (Some category) u.
Proof.
  unfold attempt_fail, attempt_require_running. intros H. guards H.
  by apply new_attempt_Ok in H.
Qed.

Lemma attempt_cancel_Ok a t a' :
  attempt_cancel a t = Ok a' →
  at_status a = AtRunning ∧
  a' = attempt_at a AtCancelled (Some t) (Some "attempt_cancelled") (Some CatCancelled)
         (at_upstream_status a).
Proof.
  unfold attempt_cancel, attempt_require_running. intros H. guards H.
  by apply new_attempt_Ok in H.
Qed.

Section RepositoryFacts.
Context {D : Type} `{!Table D ToolExecution} `{!Table D ExecutionAttempt}.

Lemma add_execution_Ok tenant x c d e u s' :
  add_execution tenant x (St c (Some d) e) = (Ok u, s') →
  ex_tenant_id x = tenant ∧ dget (ex_id x) (table (V := ToolExecution) d) = None ∧
  s' = St c (Some (set_table (dset (ex_id x) x (table d)) d)) e.
Proof. intros H. unfold add_execution in H. ok_inv H. by ok_facts. Qed.

Lemma save_execution_Ok tenant x c d e u s' :
  save_execution tenant x (St c (Some d) e) = (Ok u, s') →
  ex_tenant_id x = tenant ∧ s' = St c (Some (set_table (dset (ex_id x) x (table d)) d)) e.
Proof. intros H. unfold save_execution in H. ok_inv H. by ok_facts. Qed.

Lemma add_attempt_Ok tenant a c d e u s' :
  add_attempt tenant a (St c (Some d) e) = (Ok u, s') →
  at_tenant_id a = tenant ∧ dget (at_id a) (table (V := ExecutionAttempt) d) = None ∧
  (∀ b, b ∈ dvalues (table (V := ExecutionAttempt) d) → same_attempt_number a b = false) ∧
  s' = St c (Some (set_table (dset (at_id a) a (table d)) d)) e.
Proof.
  intros H. unfold add_attempt in H. ok_inv H. ok_facts. split_and!; try done.
  intros b. by apply existsb_false.
Qed.

Lemma save_attempt_Ok tenant a c d e u s' :
  save_attempt tenant a (St c (Some d) e) = (Ok u, s') →
  at_tenant_id a = tenant ∧ s' = St c (Some (set_table (dset (at_id a) a (table d)) d)) e.
Proof. intros H. unfold save_attempt in H. ok_inv H. by ok_facts. Qed.

Lemma tx_executions tenant :
  (∀ id, tx (D := D) (get_execution tenant id)) ∧
  (∀ p v k, tx (D := D) (get_execution_by_key tenant p v k)) ∧
  (∀ x, tx (D := D) (add_execution tenant x)) ∧ (∀ x, tx (D := D) (save_execution tenant x)) ∧
  (∀ id, tx (D := D) (get_attempt tenant id)) ∧
  (∀ a, tx (D := D) (add_attempt tenant a)) ∧ (∀ a, tx (D := D) (save_attempt tenant a)).
Proof.
  unfold get_execution, get_execution_by_key, add_execution, save_execution, get_attempt,
    add_attempt, save_attempt.
  split_and!; tx_solve.
Qed.
End RepositoryFacts.

(** ** Properties *)

(** A call is retried exactly when the failure is a transport failure (a
    timeout, network error, upstream 5xx or unknown error) and repeating it is
    safe: the tool only reads, or it is an idempotent write carrying an
    idempotency key.  A write that is not idempotent is never retried. *)
Theorem retry_disposition_spec side_effect category key :
  retry_disposition side_effect category key = Retry ↔
  category ∈ [CatTimeoutBeforeSend; CatTimeoutAfterSend; CatNetwork; CatUpstream5xx; CatUnknown] ∧
  (side_effect = ReadOnly ∨ (side_effect = IdempotentWrite ∧ key = true)).
Proof.
  destruct side_effect, category, key; unfold retry_disposition; simpl;
    repeat case_bool_decide; set_solver.
Qed.
