(* ===== verification/Lifecycle.v ===== *)
(** * Lifecycle: planning, attempts, terminal states and their audit trail

    Models [modules/execution/lifecycle.py] over the stores of
    [modules/execution/adapters/in_memory_uow.py]: executions, attempts,
    approvals and audit events. *)

From Stdlib Require Import ZArith Lia.
From stdpp Require Import base sets strings option list.
From S2P Require Import Prelude Text Dict Errors Json Store AuditTrail Catalog Approval.
From S2P Require Import Execution.
Open Scope py_scope.

(** ** Commands *)

Record PlanExecutionCommand := mkPlanExecution {
  pe_context : ActorContext;
  pe_principal_id : string;
  pe_tool_id : string;
  pe_tool_version_id : string;
  pe_tool_binding_id : string;
  pe_arguments_digest : string;
  pe_policy_version : string;
  pe_policy_reason_code : string;
  pe_side_effect : ToolSideEffect;
  pe_approval_id : option string;
  pe_credential_binding_id : option string;
  pe_idempotency_key : option string;
  pe_mcp_scope_type : McpScopeType;
  pe_toolset_id : option string;
  pe_toolset_revision : option Z }.

Record RecordCallDecisionCommand := mkRecordDecision {
  rd_context : ActorContext;
  rd_principal_id : string;
  rd_tool_version_id : string;
  rd_arguments_digest : string;
  rd_policy_version : string;
  rd_reason_code : string;
  rd_outcome : AuditOutcome;
  rd_mcp_scope_type : McpScopeType;
  rd_toolset_id : option string;
  rd_toolset_revision : option Z }.

Record RecordMcpScopeDenialCommand := mkRecordDenial {
  dn_context : ActorContext;
  dn_tool_name : string;
  dn_arguments_digest : string;
  dn_reason_code : string;
  dn_mcp_scope_type : McpScopeType;
  dn_toolset_slug : option string;
  dn_toolset_id : option string;
  dn_toolset_revision : option Z }.

(** ** Helpers *)

(** [_raise_idempotency_reuse] *)
Definition idempotency_reuse_error (x : ToolExecution) (arguments_digest : string) :
    nexus_error :=
  if negb (bool_decide (ex_arguments_digest x = arguments_digest))
  then IdempotencyConflictError (ex_id x)
  else match ex_status x with
       | ExPlanned | ExRunning => IdempotencyInProgressError (ex_id x)
       | ExSucceeded => IdempotencyAlreadyCompletedError (ex_id x)
       | ExUnknown => IdempotencyOutcomeUnknownError (ex_id x)
       | ExFailed | ExCancelled => IdempotencyPreviousFailedError (ex_id x)
       end.

(** [reason_code] of an execution's audit event. *)
Definition execution_reason (x : ToolExecution) (outcome : AuditOutcome) : option string :=
  if bool_decide (outcome ∈ [OutFailed; OutUnknown; OutCancelled]) then ex_error_code x
  else Some (ex_policy_reason_code x).

(** The event [_execution_audit] builds under a given identifier. *)
Definition execution_event (audit_id : string) (x : ToolExecution) (outcome : AuditOutcome)
    (occurred_at : datetime) : AuditEvent :=
  mkAuditEvent audit_id (ex_tenant_id x) (ex_principal_id x) ActToolCall "tool_version"
    (ex_tool_version_id x) outcome (ex_request_id x) (ex_trace_id x) occurred_at
    (Some (ex_arguments_digest x)) (Some (ex_policy_version x)) (execution_reason x outcome)
    (Some (ex_id x))
    (Some ([("side_effect", MStr (side_effect_value (ex_side_effect x)));
            ("execution_status", MStr (execution_status_value (ex_status x)));
            ("attempt_count", MInt (ex_attempt_count x))]
           ++ scope_metadata
                (mkScopeEvidence (scope_type_value (ex_mcp_scope_type x)) (ex_toolset_id x)
                   (ex_toolset_revision x) None) None)).

Section Lifecycle.
Context {D : Type} `{Ports} `{!Table D ToolExecution} `{!Table D ExecutionAttempt}
  `{!Table D ApprovalRequest} `{!Table D AuditEvent}.

(** [ExecutionLifecycle._execution_audit] *)
Definition execution_audit (x : ToolExecution) (outcome : AuditOutcome) (t : datetime) :
    M D AuditEvent :=
  let* audit_id := new_id in
  lift (scope_audit_metadata (scope_type_value (ex_mcp_scope_type x)) (ex_toolset_id x)
          (ex_toolset_revision x) None None) ;;*
  lift (new_audit_event (execution_event audit_id x outcome t)).

(** [plan], the idempotency check: a key already used by the principal for the
    tool version is an error that reports the earlier execution. *)
Definition check_idempotency (c : PlanExecutionCommand) : M D unit :=
  match pe_idempotency_key c with
  | None => ret tt
  | Some key =>
      let* existing := get_execution_by_key (ctx_tenant_id (pe_context c)) (pe_principal_id c)
                         (pe_tool_version_id c) key in
      match existing with
      | Some y => raise (Nexus (idempotency_reuse_error y (pe_arguments_digest c)))
      | None => ret tt
      end
  end.

Definition plan_consumption (c : PlanExecutionCommand) (approval_id : string) :
    ConsumeApprovalCommand :=
  mkConsumeApproval (pe_context c) approval_id (pe_principal_id c) (pe_tool_version_id c)
    (pe_arguments_digest c) (pe_policy_version c) (pe_idempotency_key c).

(** [plan], the consumption of the approval in the same transaction; the
    expiry it may discover is committed. *)
Definition consume_for_plan (c : PlanExecutionCommand) (t : datetime) : M D unit :=
  match pe_approval_id c with
  | None => ret tt
  | Some approval_id =>
      try_except
        (consume_locked_approval (plan_consumption c approval_id) t ;;* ret tt)
        (λ e, if decide (e = Nexus ApprovalExpiredError) then commit ;;* raise e else raise e)
  end.

(** [ExecutionLifecycle.plan] *)
Definition plan (c : PlanExecutionCommand) : M D ToolExecution :=
  let ctx := pe_context c in
  let tenant_id := ctx_tenant_id ctx in
  let* t := now in
  let* id := new_id in
  let* planned := lift (new_execution
    (mkExecution id tenant_id (ctx_request_id ctx) (ctx_trace_id ctx) (pe_principal_id c)
       (pe_tool_id c) (pe_tool_version_id c) (pe_tool_binding_id c) (pe_arguments_digest c)
       (pe_policy_version c) (pe_policy_reason_code c) (pe_side_effect c) ExPlanned t
       (pe_approval_id c) (pe_credential_binding_id c) (pe_idempotency_key c)
       None None None None 0 (pe_mcp_scope_type c) (pe_toolset_id c) (pe_toolset_revision c))) in
  let* x := lift (execution_start planned t) in
  with_uow (
    check_idempotency c ;;*
    consume_for_plan c t ;;*
    add_execution tenant_id x ;;*
    let* ev := execution_audit x OutAllowed t in
    audits_append ev ;;*
    commit) ;;*
  ret x.

(** [ExecutionLifecycle.start_attempt] *)
Definition start_attempt (tenant_id execution_id : string) : M D ExecutionAttempt :=
  let* t := now in
  with_uow (
    let* found := get_execution tenant_id execution_id in
    match found with
    | None => raise (Nexus ToolExecutionNotFoundError)
    | Some x =>
        lift (raise_if (negb (bool_decide (ex_status x = ExRunning)))
                (Nexus InvalidExecutionStateError)) ;;*
        let* x := lift (register_attempt x) in
        let* id := new_id in
        let* a := lift (new_attempt
          (mkAttempt id tenant_id execution_id (ex_attempt_count x) AtRunning t
             None None None None)) in
        save_execution tenant_id x ;;*
        add_attempt tenant_id a ;;*
        commit ;;*
        ret a
    end).

(** The terminal record [_finish_attempt] chooses. *)
Definition terminal_attempt (a : ExecutionAttempt) (status : ExecutionAttemptStatus)
    (error_code : option string) (category : option ExecutionErrorCategory) (t : datetime)
    (upstream_status : option Z) : res ExecutionAttempt :=
  match status with
  | AtSucceeded => attempt_succeed a t upstream_status
  | AtCancelled => attempt_cancel a t
  | _ =>
      match error_code, category with
      | Some code, Some cat =>
          attempt_fail a code cat t (bool_decide (status = AtUnknown)) upstream_status
      | _, _ => Raise (ValueError "failed attempt requires error code and category")
      end
  end.

(** [ExecutionLifecycle._finish_attempt] *)
Definition finish_attempt (tenant_id attempt_id : string) (status : ExecutionAttemptStatus)
    (error_code : option string) (category : option ExecutionErrorCategory)
    (upstream_status : option Z) : M D ExecutionAttempt :=
  let* t := now in
  with_uow (
    let* found := get_attempt tenant_id attempt_id in
    match found with
    | None => raise (Nexus ExecutionAttemptNotFoundError)
    | Some a =>
        lift (raise_if (negb (bool_decide (at_status a = AtRunning)))
                (Nexus InvalidExecutionStateError)) ;;*
        let* terminal :=
          lift (terminal_attempt a status error_code category t upstream_status) in
        save_attempt tenant_id terminal ;;*
        commit ;;*
        ret terminal
    end).

Definition succeed_attempt (tenant_id attempt_id : string) (upstream_status : option Z) :
    M D ExecutionAttempt :=
  finish_attempt tenant_id attempt_id AtSucceeded None None upstream_status.

Definition fail_attempt (tenant_id attempt_id : string) (error_code : string)
    (category : ExecutionErrorCategory) (outcome_unknown : bool) (upstream_status : option Z) :
    M D ExecutionAttempt :=
  finish_attempt tenant_id attempt_id (if outcome_unknown then AtUnknown else AtFailed)
    (Some error_code) (Some category) upstream_status.

Definition cancel_attempt (tenant_id attempt_id : string) : M D ExecutionAttempt :=
  finish_attempt tenant_id attempt_id AtCancelled None None None.

(** [ExecutionLifecycle.record_call_decision] *)
Definition record_call_decision (c : RecordCallDecisionCommand) : M D unit :=
  let ctx := rd_context c in
  let* id := new_id in
  let* t := now in
  let* metadata := lift (scope_audit_metadata (scope_type_value (rd_mcp_scope_type c))
                           (rd_toolset_id c) (rd_toolset_revision c) None None) in
  let* ev := lift (new_audit_event
    (mkAuditEvent id (ctx_tenant_id ctx) (rd_principal_id c) ActToolCall "tool_version"
       (rd_tool_version_id c) (rd_outcome c) (ctx_request_id ctx) (ctx_trace_id ctx) t
       (Some (rd_arguments_digest c)) (Some (rd_policy_version c)) (Some (rd_reason_code c))
       None (Some metadata))) in
  with_uow (audits_append ev ;;* commit).

(** [ExecutionLifecycle.record_scope_denial] *)
Definition record_scope_denial (c : RecordMcpScopeDenialCommand) : M D unit :=
  let ctx := dn_context c in
  let* metadata := lift (scope_audit_metadata (scope_type_value (dn_mcp_scope_type c))
                           (dn_toolset_id c) (dn_toolset_revision c) (dn_toolset_slug c)
                           (Some (dn_reason_code c))) in
  let* id := new_id in
  let* t := now in
  let* ev := lift (new_audit_event
    (mkAuditEvent id (ctx_tenant_id ctx) (ctx_principal_id ctx) ActToolCall "tool_name"
       (dn_tool_name c) OutDenied (ctx_request_id ctx) (ctx_trace_id ctx) t
       (Some (dn_arguments_digest c)) None (Some (dn_reason_code c)) None (Some metadata))) in
  with_uow (audits_append ev ;;* commit).

(** The terminal record and outcome [_finish] chooses. *)
Definition finish_execution (x : ToolExecution) (status : ExecutionStatus)
    (error_code : option string) (category : option ExecutionErrorCategory) (t : datetime) :
    res (ToolExecution * AuditOutcome) :=
  match status with
  | ExSucceeded => let? x' := execution_succeed x t in Ok (x', OutSucceeded)
  | ExUnknown =>
      match error_code with
      | None => Raise (ValueError "unknown execution requires error code")
      | Some code => let? x' := execution_mark_unknown x code t in Ok (x', OutUnknown)
      end
  | ExCancelled => let? x' := execution_cancel x t in Ok (x', OutCancelled)
  | _ =>
      match error_code, category with
      | Some code, Some cat => let? x' := execution_fail x code cat t in Ok (x', OutFailed)
      | _, _ => Raise (ValueError "failed execution requires error code and category")
      end
  end.

(** [ExecutionLifecycle._finish] *)
Definition finish (tenant_id execution_id : string) (status : ExecutionStatus)
    (error_code : option string) (category : option ExecutionErrorCategory) :
    M D ToolExecution :=
  let* t := now in
  with_uow (
    let* found := get_execution tenant_id execution_id in
    match found with
    | None => raise (Nexus ToolExecutionNotFoundError)
    | Some x =>
        lift (raise_if (negb (bool_decide (ex_status x = ExRunning)))
                (Nexus InvalidExecutionStateError)) ;;*
        let* terminal := lift (finish_execution x status error_code category t) in
        save_execution tenant_id terminal.1 ;;*
        let* ev := execution_audit terminal.1 terminal.2 t in
        audits_append ev ;;*
        commit ;;*
        ret terminal.1
    end).

Definition succeed (tenant_id execution_id : string) : M D ToolExecution :=
  finish tenant_id execution_id ExSucceeded None None.

Definition fail (tenant_id execution_id error_code : string)
    (category : ExecutionErrorCategory) (outcome_unknown : bool) : M D ToolExecution :=
  finish tenant_id execution_id (if outcome_unknown then ExUnknown else ExFailed)
    (Some error_code) (Some category).

Definition cancel (tenant_id execution_id : string) : M D ToolExecution :=
  finish tenant_id execution_id ExCancelled None None.
End Lifecycle.

#[global] Arguments finish_execution : simpl never.
#[global] Arguments terminal_attempt : simpl never.
#[global] Arguments idempotency_reuse_error : simpl never.

(** ** The stores of [InMemoryExecutionUnitOfWork] *)

Record execution_store := mkExecutionStore {
  es_executions : dict ToolExecution;
  es_attempts : dict ExecutionAttempt;
  es_approvals : dict ApprovalRequest;
  es_audits : dict AuditEvent }.

#[export, refine] Instance execution_store_executions : Table execution_store ToolExecution := {
  table := es_executions;
  set_table t d := mkExecutionStore t (es_attempts d) (es_approvals d) (es_audits d) }.
Proof. all: try done. by intros []. Defined.
#[export, refine] Instance execution_store_attempts : Table execution_store ExecutionAttempt := {
  table := es_attempts;
  set_table t d := mkExecutionStore (es_executions d) t (es_approvals d) (es_audits d) }.
Proof. all: try done. by intros []. Defined.
#[export, refine] Instance execution_store_approvals : Table execution_store ApprovalRequest := {
  table := es_approvals;
  set_table t d := mkExecutionStore (es_executions d) (es_attempts d) t (es_audits d) }.
Proof. all: try done. by intros []. Defined.
#[export, refine] Instance execution_store_audits : Table execution_store AuditEvent := {
  table := es_audits;
  set_table t d := mkExecutionStore (es_executions d) (es_attempts d) (es_approvals d) t }.
Proof. all: try done. by intros []. Defined.

(** ** Reading the operations *)

(** The execution [plan] creates. *)
Definition planned_execution (c : PlanExecutionCommand) (id : string) (t : datetime) :
    ToolExecution :=
  mkExecution id (ctx_tenant_id (pe_context c)) (ctx_request_id (pe_context c))
    (ctx_trace_id (pe_context c)) (pe_principal_id c) (pe_tool_id c) (pe_tool_version_id c)
    (pe_tool_binding_id c) (pe_arguments_digest c) (pe_policy_version c)
    (pe_policy_reason_code c) (pe_side_effect c) ExRunning t (pe_approval_id c)
    (pe_credential_binding_id c) (pe_idempotency_key c) (Some t) None None None 0
    (pe_mcp_scope_type c) (pe_toolset_id c) (pe_toolset_revision c).

(** No earlier execution holds the call's idempotency key. *)
Definition key_free (c : PlanExecutionCommand) (t : dict ToolExecution) : Prop :=
  ∀ key, pe_idempotency_key c = Some key →
    find_by_idempotency_key (ctx_tenant_id (pe_context c)) (pe_principal_id c)
      (pe_tool_version_id c) key t = None.

(** The approval the call named was consumed for it. *)
Definition approval_spent (c : PlanExecutionCommand) (t : datetime)
    (approvals approvals' : dict ApprovalRequest) : Prop :=
  match pe_approval_id c with
  | None => approvals' = approvals
  | Some id =>
      ∃ a, dget id approvals = Some a ∧ ar_tenant_id a = ctx_tenant_id (pe_context c) ∧
        ar_status a = ApApproved ∧ before t a ∧ matches_call a (plan_consumption c id) ∧
        approvals' = dset (ar_id a)
          (with_decision a ApConsumed (ar_decided_by a) (ar_decided_at a) (Some t)) approvals
  end.

(** The approval the call named was found expired, and marked so. *)
Definition approval_lapsed (c : PlanExecutionCommand) (t : datetime)
    (approvals approvals' : dict ApprovalRequest) : Prop :=
  ∃ id a a', pe_approval_id c = Some id ∧ dget id approvals = Some a ∧
    ar_tenant_id a = ctx_tenant_id (pe_context c) ∧ ar_status a = ApApproved ∧ overdue t a ∧
    expire a t = Ok a' ∧ approvals' = dset (ar_id a) a' approvals.

(** The event is the audit record of the execution. *)
Definition records (ev : AuditEvent) (x : ToolExecution) (o : AuditOutcome) (t : datetime) :
    Prop :=
  ev = execution_event (ae_id ev) x o t.

(** The audit outcome of a terminal status. *)
Definition outcome_of (s : ExecutionStatus) : AuditOutcome :=
  match s with
  | ExSucceeded => OutSucceeded | ExFailed => OutFailed | ExUnknown => OutUnknown
  | ExCancelled => OutCancelled | ExPlanned | ExRunning => OutAllowed
  end.

Lemma finish_execution_Ok x status code category t x' o :
  finish_execution x status code category t = Ok (x', o) →
  ex_status x = ExRunning →
  o = outcome_of (ex_status x') ∧ execution_terminal (ex_status x') = true ∧
  new_execution x' = Ok x' ∧
  x' = execution_at x (ex_status x') (ex_started_at x) (Some t) (ex_error_code x')
         (ex_error_category x') (ex_attempt_count x).
Proof.
  unfold finish_execution. intros Hf Hr.
  destruct status; repeat case_match; try discriminate Hf;
    apply rbind_Ok_inv in Hf as (x1 & Hx & Hf); injection Hf as <- <-;
    lazymatch type of Hx with
    | execution_succeed _ _ = _ => apply execution_succeed_Ok in Hx as (_ & Hv & Hx)
    | execution_fail _ _ _ _ = _ => apply execution_fail_Ok in Hx as (_ & Hv & Hx)
    | execution_mark_unknown _ _ _ = _ => apply execution_mark_unknown_Ok in Hx as (_ & Hv & Hx)
    | execution_cancel _ _ = _ => apply execution_cancel_Ok in Hx as (_ & Hv & Hx)
    end; subst x1; split_and!; first [exact Hv|reflexivity].
Qed.

Lemma terminal_attempt_Ok a status code category t upstream a' :
  terminal_attempt a status code category t upstream = Ok a' →
  at_status a = AtRunning ∧ at_status a' ≠ AtRunning ∧
  a' = attempt_at a (at_status a') (Some t) (at_error_code a') (at_error_category a')
         (at_upstream_status a').
Proof.
  unfold terminal_attempt. intros Hf.
  destruct status; repeat case_match; try discriminate Hf;
    lazymatch type of Hf with
    | attempt_succeed _ _ _ = _ => apply attempt_succeed_Ok in Hf as (Hr & Hx)
    | attempt_fail _ _ _ _ _ _ = _ => apply attempt_fail_Ok in Hf as (Hr & Hx)
    | attempt_cancel _ _ = _ => apply attempt_cancel_Ok in Hf as (Hr & Hx)
    end; subst a'; split_and!; first [exact Hr|reflexivity|by vm_compute|by case_bool_decide].
Qed.

Section Facts.
Context `{Ports}.
Implicit Types (d : execution_store) (e : env).

Lemma audits_append_Ok {D} `{!Table D AuditEvent} ev c (d : D) e u s' :
  audits_append ev (St c (Some d) e) = (Ok u, s') →
  dget (ae_id ev) (table (V := AuditEvent) d) = None ∧
  s' = St c (Some (set_table (dset (ae_id ev) ev (table d)) d)) e.
Proof. intros Hr. unfold audits_append in Hr. ok_inv Hr. by ok_facts. Qed.

Lemma tx_audits_append {D} `{!Table D AuditEvent} ev : tx (D := D) (audits_append ev).
Proof. unfold audits_append. tx_solve. Qed.

Lemma execution_audit_Ok x o t c d e ev s' :
  execution_audit x o t (St c (Some d) e) = (Ok ev, s') →
  ev = execution_event (identifier (issued e)) x o t ∧
  s' = St c (Some d) (Env (ticks e) (S (issued e)) (io_log e)).
Proof.
  intros Hr. unfold execution_audit in Hr. ok_inv Hr. by apply new_audit_event_Ok in Hr.
Qed.

Lemma tx_execution_audit x o t : tx (D := execution_store) (execution_audit x o t).
Proof. unfold execution_audit. tx_solve. Qed.

Hint Resolve tx_audits_append tx_execution_audit : tx.

Ltac ok_call H ::=
  lazymatch type of H with
  | audits_append _ (St _ (Some _) _) = _ => ok_use H @audits_append_Ok
  | execution_audit _ _ _ (St _ (Some _) _) = _ => ok_use H execution_audit_Ok
  | add_execution _ _ (St _ (Some _) _) = _ => ok_use H @add_execution_Ok
  | save_execution _ _ (St _ (Some _) _) = _ => ok_use H @save_execution_Ok
  | add_attempt _ _ (St _ (Some _) _) = _ => ok_use H @add_attempt_Ok
  | save_attempt _ _ (St _ (Some _) _) = _ => ok_use H @save_attempt_Ok
  | _ => idtac
  end.

Lemma check_idempotency_run c d0 d e r s' :
  check_idempotency c (St d0 (Some d) e) = (r, s') →
  s' = St d0 (Some d) e ∧ ((∃ x, r = Raise x) ∨ (r = Ok tt ∧ key_free c (es_executions d))).
Proof.
  intros Hr. unfold check_idempotency, get_execution_by_key, key_free in *.
  destruct (pe_idempotency_key c) as [key|]; run_uow Hr; split; try done; eauto.
  all: right; split; [done|]; intros ? ?; by simplify_eq.
Qed.

Lemma consume_for_plan_run c t d e r s' :
  keyed ar_id (es_approvals d) →
  consume_for_plan c t (St d (Some d) e) = (r, s') →
  (∃ x, r = Raise x ∧ s' = St d (Some d) e) ∨
  (∃ ap, r = Ok tt ∧ approval_spent c t (es_approvals d) ap ∧
     s' = St d (Some (mkExecutionStore (es_executions d) (es_attempts d) ap (es_audits d))) e) ∨
  (∃ ap, r = Raise (Nexus ApprovalExpiredError) ∧ approval_lapsed c t (es_approvals d) ap ∧
     let d' := mkExecutionStore (es_executions d) (es_attempts d) ap (es_audits d) in
     s' = St d' (Some d') e).
Proof.
  intros Hk. unfold consume_for_plan, approval_spent, approval_lapsed.
  destruct (pe_approval_id c) as [id|].
  - unfold try_except, bind at 1. destruct (consume_locked_approval _ _ _) as [r1 s1] eqn:Hc.
    apply (consume_locked_run _ _ _ d) in Hc as (d1 & -> & Hc); [|done|done]. simpl in *.
    destruct Hc as [a Hg Ht Hst Hb Hm|a a' Hg Ht Hst Ho He|x]; simpl.
    + unfold ret. intros [= <- <-]. right. left. eexists. split; [done|]. split; [|done].
      by exists a.
    + unfold bind, commit, raise. simpl. intros [= <- <-].
      right. right. eexists. split; [done|]. split; [|done]. by exists id, a, a'.
    + case_decide; unfold bind, commit, raise; simpl; intros [= <- <-]; left; eauto.
  - unfold ret. intros [= <- <-]. right. left. exists (es_approvals d).
    split; [done|]. split; [done|]. by destruct d.
Qed.

Lemma plan_tail_run tenant x t d0 d e r s' :
  (add_execution tenant x ;;*
   let* ev := execution_audit x OutAllowed t in
   audits_append ev ;;* commit) (St d0 (Some d) e) = (r, s') →
  (∃ y d' e', r = Raise y ∧ s' = St d0 (Some d') e') ∨
  (let ev := execution_event (identifier (issued e)) x OutAllowed t in
     r = Ok tt ∧ dget (ex_id x) (es_executions d) = None ∧
     dget (ae_id ev) (es_audits d) = None ∧
     let d' := mkExecutionStore (dset (ex_id x) x (es_executions d)) (es_attempts d)
                 (es_approvals d) (dset (ae_id ev) ev (es_audits d)) in
     s' = St d' (Some d') (Env (ticks e) (S (issued e)) (io_log e))).
Proof.
  intros Hr. pose proof (tx_executions (D := execution_store) tenant) as (_ & _ & Htx & _).
  assert (Hat : atomic (D := execution_store) (add_execution tenant x ;;*
   let* ev := execution_audit x OutAllowed t in audits_append ev ;;* commit)) by atomic_solve.
  specialize (Hat _ _ _ _ _ Hr). destruct r as [[]|y]; [right|left; naive_solver].
  clear Hat. ok_inv Hr. split_and!; try done; reflexivity.
Qed.

(** The outcomes of [plan]: refused without a trace, refused on an approval
    found expired, or planned. *)
Lemma plan_run_full c d e r s' :
  keyed ar_id (es_approvals d) →
  plan c (St d None e) = (r, s') →
  let t := clock_now (ticks e) in
  (∃ x e', r = Raise x ∧ s' = St d None e') ∨
  (∃ ap e', r = Raise (Nexus ApprovalExpiredError) ∧ approval_lapsed c t (es_approvals d) ap ∧
     s' = St (mkExecutionStore (es_executions d) (es_attempts d) ap (es_audits d)) None e') ∨
  (∃ ap, let x := planned_execution c (identifier (issued e)) t in
     let ev := execution_event (identifier (S (issued e))) x OutAllowed t in
     r = Ok x ∧ new_execution x = Ok x ∧ key_free c (es_executions d) ∧
     approval_spent c t (es_approvals d) ap ∧
     dget (ex_id x) (es_executions d) = None ∧ dget (ae_id ev) (es_audits d) = None ∧
     s' = St (mkExecutionStore (dset (ex_id x) x (es_executions d)) (es_attempts d) ap
                (dset (ae_id ev) ev (es_audits d))) None
            (Env (S (ticks e)) (S (S (issued e))) (io_log e))).
Proof.
  intros Hk Hr t. unfold plan in Hr. unfold bind at 1, now in Hr. simpl in Hr. fold t in Hr.
  unfold bind at 1, new_id in Hr. simpl in Hr.
  unfold bind at 1, lift at 1 in Hr. destruct (new_execution _) as [x0|x] eqn:Hn;
    [|simplify_eq; eauto]. apply new_execution_Ok in Hn as ->.
  unfold bind at 1, lift at 1 in Hr. destruct (execution_start _ _) as [x1|x] eqn:Hs;
    [|simplify_eq; eauto]. apply execution_start_Ok in Hs as (_ & Hvalid & Hx).
  change (x1 = planned_execution c (identifier (issued e)) t) in Hx.
  unfold bind at 1 in Hr. destruct (with_uow _ _) as [r1 s1] eqn:Hu.
  unfold with_uow in Hu. simpl in Hu. unfold bind at 1 in Hu.
  destruct (check_idempotency _ _) as [r2 s2] eqn:Hc.
  apply check_idempotency_run in Hc as (-> & [[x ->]|[-> Hfree]]); [simplify_eq; eauto|].
  unfold bind at 1 in Hu. destruct (consume_for_plan _ _ _) as [r2 s2] eqn:Hc.
  apply consume_for_plan_run in Hc as
    [(x & -> & ->)|[(ap & -> & Hsp & ->)|(ap & -> & Hl & ->)]]; [| | |done].
  - simplify_eq. eauto.
  - match type of Hu with context [bind (add_execution ?tn ?y) ?k ?s] =>
      destruct (bind (add_execution tn y) k s) as [r3 s3] eqn:Hb end.
    apply plan_tail_run in Hb as [(x & d' & e' & -> & ->)|(-> & Hn & Hn' & ->)];
      simpl in Hu; simplify_eq; [eauto|].
    unfold ret in Hr. simplify_eq/=. right. right. exists ap. split_and!; try done; reflexivity.
  - simplify_eq/=. right. left. by eexists ap, _.
Qed.

Lemma plan_run c d e r s' :
  keyed ar_id (es_approvals d) →
  plan c (St d None e) = (r, s') →
  let t := clock_now (ticks e) in
  ∃ e', (∃ x, r = Raise x ∧ s' = St d None e') ∨
    (∃ ap, r = Raise (Nexus ApprovalExpiredError) ∧ approval_lapsed c t (es_approvals d) ap ∧
       s' = St (mkExecutionStore (es_executions d) (es_attempts d) ap (es_audits d)) None e') ∨
    (∃ ap ev id, let x := planned_execution c id t in
       r = Ok x ∧ new_execution x = Ok x ∧ key_free c (es_executions d) ∧
       approval_spent c t (es_approvals d) ap ∧
       dget (ex_id x) (es_executions d) = None ∧
       records ev x OutAllowed t ∧ dget (ae_id ev) (es_audits d) = None ∧
       s' = St (mkExecutionStore (dset (ex_id x) x (es_executions d)) (es_attempts d) ap
                  (dset (ae_id ev) ev (es_audits d))) None e').
Proof.
  intros Hk Hr t. apply plan_run_full in Hr as
    [(x & e' & -> & ->)|[(ap & e' & -> & Hl & ->)|(ap & -> & H1 & H2 & H3 & H4 & H5 & ->)]];
    [eauto|eauto 10| |done].
  eexists. right. right. eexists ap, _, _. split; [reflexivity|].
  split_and!; try done; reflexivity.
Qed.

Lemma finish_run tenant id status code category d e r s' :
  finish tenant id status code category (St d None e) = (r, s') →
  let t := clock_now (ticks e) in
  ∃ e', (∃ y, r = Raise y ∧ s' = St d None e') ∨
    (∃ x x' o ev, records ev x' o t ∧ r = Ok x' ∧ dget id (es_executions d) = Some x ∧ ex_tenant_id x = tenant ∧
       ex_status x = ExRunning ∧ finish_execution x status code category t = Ok (x', o) ∧
       dget (ae_id ev) (es_audits d) = None ∧
       s' = St (mkExecutionStore (dset (ex_id x') x' (es_executions d)) (es_attempts d)
                  (es_approvals d) (dset (ae_id ev) ev (es_audits d))) None e').
Proof.
  intros Hr t. unfold finish in Hr. unfold bind at 1, now in Hr. simpl in Hr.
  pose proof (tx_executions (D := execution_store) tenant) as (Htx1 & _ & _ & Htx2 & _).
  apply with_uow_atomic in Hr; [|by atomic_solve].
  destruct Hr as (e' & [(y & -> & -> & _)|(x' & d' & -> & -> & Hr)]); [eauto|].
  exists e'. right. unfold get_execution in Hr. ok_inv Hr; ok_facts; simplify_eq/=.
  match goal with G : finish_execution _ _ _ _ _ = Ok ?p |- _ => destruct p as [xt ot] end.
  eexists _, xt, ot, (execution_event (identifier (issued e)) xt ot t).
  split; [reflexivity|]. split_and!; try done; reflexivity.
Qed.

Lemma start_attempt_run tenant id d e r s' :
  start_attempt tenant id (St d None e) = (r, s') →
  let t := clock_now (ticks e) in
  ∃ e', (∃ y, r = Raise y ∧ s' = St d None e') ∨
    (∃ x x' a,
       a = mkAttempt (at_id a) tenant id (ex_attempt_count x') AtRunning t None None None None ∧
       r = Ok a ∧ dget id (es_executions d) = Some x ∧ ex_tenant_id x = tenant ∧
       register_attempt x = Ok x' ∧ new_attempt a = Ok a ∧
       dget (at_id a) (es_attempts d) = None ∧
       (∀ b, b ∈ dvalues (es_attempts d) → same_attempt_number a b = false) ∧
       s' = St (mkExecutionStore (dset (ex_id x') x' (es_executions d))
                  (dset (at_id a) a (es_attempts d)) (es_approvals d) (es_audits d)) None e').
Proof.
  intros Hr t. unfold start_attempt in Hr. unfold bind at 1, now in Hr. simpl in Hr.
  pose proof (tx_executions (D := execution_store) tenant) as
    (Htx1 & _ & _ & Htx2 & _ & Htx3 & _).
  apply with_uow_atomic in Hr; [|by atomic_solve].
  destruct Hr as (e' & [(y & -> & -> & _)|(a & d' & -> & -> & Hr)]); [eauto|].
  exists e'. right. unfold get_execution in Hr. ok_inv Hr; ok_facts; simplify_eq/=.
  match goal with G : new_attempt ?b = Ok ?a |- _ =>
    pose proof (new_attempt_Ok _ _ G); subst a end.
  match goal with G : new_attempt _ = Ok ?a |- _ => eexists _, _, a end.
  split; [reflexivity|]. split_and!; try done; reflexivity.
Qed.

Lemma finish_attempt_run tenant id status code category upstream d e r s' :
  finish_attempt tenant id status code category upstream (St d None e) = (r, s') →
  let t := clock_now (ticks e) in
  ∃ e', (∃ y, r = Raise y ∧ s' = St d None e') ∨
    (∃ a a', r = Ok a' ∧ dget id (es_attempts d) = Some a ∧ at_tenant_id a = tenant ∧
       at_status a = AtRunning ∧ at_status a' ≠ AtRunning ∧
       a' = attempt_at a (at_status a') (Some t) (at_error_code a') (at_error_category a')
              (at_upstream_status a') ∧
       s' = St (mkExecutionStore (es_executions d) (dset (at_id a') a' (es_attempts d))
                  (es_approvals d) (es_audits d)) None e').
Proof.
  intros Hr t. unfold finish_attempt in Hr. unfold bind at 1, now in Hr. simpl in Hr.
  pose proof (tx_executions (D := execution_store) tenant) as
    (_ & _ & _ & _ & Htx1 & _ & Htx2).
  apply with_uow_atomic in Hr; [|by atomic_solve].
  destruct Hr as (e' & [(y & -> & -> & _)|(a' & d' & -> & -> & Hr)]); [eauto|].
  exists e'. right. unfold get_attempt in Hr. ok_inv Hr; ok_facts; simplify_eq/=.
  match goal with G : terminal_attempt _ _ _ _ _ _ = Ok _ |- _ =>
    apply terminal_attempt_Ok in G as (? & ? & ?) end.
  eexists _, _. split_and!; try done; reflexivity.
Qed.

Lemma record_call_decision_run c d e r s' :
  record_call_decision c (St d None e) = (r, s') →
  ∃ e', (∃ y, r = Raise y ∧ s' = St d None e') ∨
    (∃ ev, r = Ok tt ∧ dget (ae_id ev) (es_audits d) = None ∧ ae_outcome ev = rd_outcome c ∧
       ae_execution_id ev = None ∧ ae_actor_id ev = rd_principal_id c ∧
       ae_tenant_id ev = ctx_tenant_id (rd_context c) ∧
       ae_resource_id ev = rd_tool_version_id c ∧
       ae_arguments_digest ev = Some (rd_arguments_digest c) ∧
       ae_reason_code ev = Some (rd_reason_code c) ∧
       s' = St (mkExecutionStore (es_executions d) (es_attempts d) (es_approvals d)
                  (dset (ae_id ev) ev (es_audits d))) None e').
Proof.
  intros Hr. unfold record_call_decision, audits_append in Hr.
  run_uow Hr; try (eexists; left; eexists; by split).
  match goal with G : new_audit_event _ = Ok _ |- _ => apply new_audit_event_Ok in G as -> end.
  match goal with G : dmem _ _ = false |- _ => apply dmem_false in G end.
  eexists. right. eexists. split_and!; try done; reflexivity.
Qed.

Lemma record_scope_denial_run c d e r s' :
  record_scope_denial c (St d None e) = (r, s') →
  ∃ e', (∃ y, r = Raise y ∧ s' = St d None e') ∨
    (∃ ev, r = Ok tt ∧ dget (ae_id ev) (es_audits d) = None ∧ ae_outcome ev = OutDenied ∧
       ae_execution_id ev = None ∧
       s' = St (mkExecutionStore (es_executions d) (es_attempts d) (es_approvals d)
                  (dset (ae_id ev) ev (es_audits d))) None e').
Proof.
  intros Hr. unfold record_scope_denial, audits_append in Hr.
  run_uow Hr; try (eexists; left; eexists; by split).
  match goal with G : new_audit_event _ = Ok _ |- _ => apply new_audit_event_Ok in G as -> end.
  match goal with G : dmem _ _ = false |- _ => apply dmem_false in G end.
  eexists. right. eexists. split_and!; try done; reflexivity.
Qed.
End Facts.

(** ** The ledger invariant *)

Definition same_key (x y : ToolExecution) : Prop :=
  ex_tenant_id x = ex_tenant_id y ∧ ex_principal_id x = ex_principal_id y ∧
  ex_tool_version_id x = ex_tool_version_id y ∧
  ex_idempotency_key x = ex_idempotency_key y ∧ is_Some (ex_idempotency_key x).
Definition same_approval (x y : ToolExecution) : Prop :=
  ex_approval_id x = ex_approval_id y ∧ is_Some (ex_approval_id x).

#[export] Instance same_key_sym : Symmetric same_key.
Proof. intros x y (? & ? & ? & E & ?). rewrite E in *. done. Qed.
#[export] Instance same_approval_sym : Symmetric same_approval.
Proof. intros x y (E & ?). rewrite E in *. done. Qed.

(** The outcomes an execution's audit events record, in order. *)
Definition trail (id : string) : dict AuditEvent → list AuditOutcome :=
  view ae_outcome (λ ev, ae_execution_id ev = Some id).
(** The numbers of an execution's attempts, in order. *)
Definition attempt_numbers (id : string) : dict ExecutionAttempt → list Z :=
  view at_attempt_number (λ a, at_execution_id a = id).

Definition expected_trail (s : ExecutionStatus) : list AuditOutcome :=
  OutAllowed :: (if execution_terminal s then [outcome_of s] else []).

(** The consumed approval an execution was granted by. *)
Definition granted_by (approvals : dict ApprovalRequest) (x : ToolExecution) (id : string) :
    Prop :=
  ∃ a, dget id approvals = Some a ∧ ar_status a = ApConsumed ∧
    ar_tenant_id a = ex_tenant_id x ∧ ar_principal_id a = ex_principal_id x ∧
    ar_tool_version_id a = ex_tool_version_id x ∧
    ar_arguments_digest a = ex_arguments_digest x ∧
    ar_policy_version a = ex_policy_version x ∧
    ar_idempotency_key a = ex_idempotency_key x.

Record ledger_ok (d : execution_store) : Prop := {
  led_executions : keyed ex_id (es_executions d);
  led_attempts : keyed at_id (es_attempts d);
  led_approvals : keyed ar_id (es_approvals d);
  led_audits : keyed ae_id (es_audits d);
  led_valid : ∀ k x, dget k (es_executions d) = Some x →
    new_execution x = Ok x ∧ ex_status x ≠ ExPlanned;
  led_key : unique_by ex_id same_key (es_executions d);
  led_granted : ∀ k x id, dget k (es_executions d) = Some x → ex_approval_id x = Some id →
    granted_by (es_approvals d) x id;
  led_grant_once : unique_by ex_id same_approval (es_executions d);
  led_trail : ∀ k x, dget k (es_executions d) = Some x →
    trail k (es_audits d) = expected_trail (ex_status x);
  led_trail_owner : ∀ k ev id, dget k (es_audits d) = Some ev → ae_execution_id ev = Some id →
    is_Some (dget id (es_executions d));
  led_numbers : ∀ k x, dget k (es_executions d) = Some x →
    attempt_numbers k (es_attempts d) = seqZ 1 (ex_attempt_count x);
  led_numbers_owner : ∀ k a, dget k (es_attempts d) = Some a →
    is_Some (dget (at_execution_id a) (es_executions d)) }.

(** An execution record whose identity fields are another's. *)
Definition same_call (x x' : ToolExecution) : Prop :=
  x' = execution_at x (ex_status x') (ex_started_at x') (ex_finished_at x') (ex_error_code x')
         (ex_error_category x') (ex_attempt_count x').

Lemma same_call_refl x : same_call x x.
Proof. by destruct x. Qed.

Lemma same_call_trans x y z : same_call x y → same_call y z → same_call x z.
Proof.
  unfold same_call, execution_at. intros H1 H2. destruct x, y, z; simpl in *.
  injection H1. injection H2. intros. by subst.
Qed.

Lemma unique_rewrite_execution same x x' t :
  keyed ex_id t → Symmetric same → unique_by ex_id same t → dget (ex_id x) t = Some x →
  ex_id x' = ex_id x → (∀ y, same x' y → same x y) →
  unique_by ex_id same (dset (ex_id x') x' t).
Proof.
  intros Hk Hsym Hu Hx Hid Hs. apply unique_by_dset; try done. intros k w Hw Hsame.
  rewrite Hid. symmetry. apply (Hu _ _ _ _ Hx Hw). auto.
Qed.

Lemma is_Some_dset {V} k k' (v : V) t : is_Some (dget k t) → is_Some (dget k (dset k' v t)).
Proof. rewrite dget_dset. case_decide; eauto. Qed.

Section Invariant.
Context `{Ports}.
Implicit Types (d : execution_store).

(** Writing back an execution with its attempts or its terminal event. *)
Lemma ledger_update d x x' attempts' audits' :
  ledger_ok d → dget (ex_id x) (es_executions d) = Some x → same_call x x' →
  new_execution x' = Ok x' → ex_status x' ≠ ExPlanned →
  keyed at_id attempts' → keyed ae_id audits' →
  trail (ex_id x) audits' = expected_trail (ex_status x') →
  (∀ k, k ≠ ex_id x → trail k audits' = trail k (es_audits d)) →
  (∀ k ev id, dget k audits' = Some ev → ae_execution_id ev = Some id →
    is_Some (dget id (es_executions d))) →
  attempt_numbers (ex_id x) attempts' = seqZ 1 (ex_attempt_count x') →
  (∀ k, k ≠ ex_id x → attempt_numbers k attempts' = attempt_numbers k (es_attempts d)) →
  (∀ k a, dget k attempts' = Some a → is_Some (dget (at_execution_id a) (es_executions d))) →
  ledger_ok (mkExecutionStore (dset (ex_id x') x' (es_executions d)) attempts'
               (es_approvals d) audits').
Proof.
  intros Hok Hx Hsame Hnew Hpl Hka Hke Ht Ht' Hto Hn Hn' Hno.
  assert (Hid : ex_id x' = ex_id x) by (by rewrite Hsame).
  split; simpl; try apply Hok; try done.
  - by apply keyed_dset, Hok.
  - apply dset_all; [apply Hok|done].
  - apply (unique_rewrite_execution _ x); try done; try apply Hok; [apply _|].
    intros y. rewrite Hsame. by unfold same_key.
  - intros k y id. rewrite dget_dset. case_decide; [|by apply Hok].
    intros [= <-] Hap. rewrite Hsame in Hap |- *. exact (led_granted _ Hok (ex_id x) x id Hx Hap).
  - apply (unique_rewrite_execution _ x); try done; try apply Hok; [apply _|].
    intros y. rewrite Hsame. by unfold same_approval.
  - intros k y. rewrite dget_dset, Hid. case_decide; [intros [= <-]; by subst|].
    intros Hy. rewrite Ht' by done. by apply Hok.
  - intros k ev id Hev Hi. apply is_Some_dset. by eapply Hto.
  - intros k y. rewrite dget_dset, Hid. case_decide; [intros [= <-]; by subst|].
    intros Hy. rewrite Hn' by done. by apply Hok.
  - intros k a Ha. apply is_Some_dset. by eapply Hno.
Qed.

Lemma trail_append k ev audits :
  dget (ae_id ev) audits = None →
  trail k (dset (ae_id ev) ev audits) =
    trail k audits ++ (if decide (ae_execution_id ev = Some k) then [ae_outcome ev] else []).
Proof.
  intros Hn. unfold trail.
  rewrite (view_dset_fresh ae_outcome (λ v, ae_execution_id v = Some k) _ _ _ Hn). simpl.
  by repeat case_decide.
Qed.

Lemma ledger_finish d tenant id status code category e r d' e' :
  ledger_ok d → finish tenant id status code category (St d None e) = (r, St d' None e') →
  ledger_ok d'.
Proof.
  intros Hok Hr. apply finish_run in Hr as (? & [(? & _ & ?)|(x & x' & o & ev & Hev & _ & Hx & _ & Hrun & Hf & Hfr & ?)]);
    simplify_eq; [done|].
  apply finish_execution_Ok in Hf as (-> & Hterm & Hnew & Hx'); [|done].
  pose proof (keyed_get _ _ _ _ (led_executions _ Hok) Hx) as <-.
  assert (Hid : ex_id x' = ex_id x) by (by rewrite Hx').
  assert (Hcount : ex_attempt_count x' = ex_attempt_count x) by (by rewrite Hx').
  apply (ledger_update _ x x'); [done|done| |done| |apply Hok| | | | | |done|].
  - unfold same_call. rewrite Hx' at 1. by f_equal; rewrite Hx'.
  - intros E. by rewrite E in Hterm.
  - by apply keyed_dset, Hok.
  - rewrite trail_append by done. rewrite (led_trail _ Hok _ _ Hx), Hrun. simpl.
    rewrite decide_True by (rewrite Hev; simpl; congruence). rewrite Hev. simpl.
    unfold expected_trail. by rewrite Hterm.
  - intros k Hk. rewrite trail_append by done.
    rewrite decide_False by (rewrite Hev; simpl; congruence). by rewrite app_nil_r.
  - intros k w i Hw. rewrite dget_dset in Hw. case_decide; [|by eapply led_trail_owner].
    injection Hw as <-. rewrite Hev. simpl. intros [= <-]. rewrite Hid. eauto.
  - rewrite Hcount. by apply Hok.
  - intros k a Ha. by eapply led_numbers_owner.
Qed.

Lemma number_append k a attempts :
  dget (at_id a) attempts = None →
  attempt_numbers k (dset (at_id a) a attempts) =
    attempt_numbers k attempts
    ++ (if decide (at_execution_id a = k) then [at_attempt_number a] else []).
Proof.
  intros Hn. unfold attempt_numbers.
  rewrite (view_dset_fresh at_attempt_number (λ v, at_execution_id v = k) _ _ _ Hn). simpl.
  by repeat case_decide.
Qed.

Lemma execution_count_nonneg x : new_execution x = Ok x → (0 <= ex_attempt_count x)%Z.
Proof.
  unfold new_execution. intros Hv. guards Hv.
  match goal with G : (ex_attempt_count x <? 0)%Z = false |- _ => apply Z.ltb_ge in G end. lia.
Qed.

Lemma ledger_start_attempt d tenant id e r d' e' :
  ledger_ok d → start_attempt tenant id (St d None e) = (r, St d' None e') → ledger_ok d'.
Proof.
  intros Hok Hr. apply start_attempt_run in Hr as
    (? & [(? & _ & ?)|(x & x' & a & Ha & _ & Hx & _ & Hreg & Hna & Hfr & Hno & Heq)]);
    [by simplify_eq|].
  apply register_attempt_Ok in Hreg as (Hrun & Hx' & Hnew).
  pose proof (keyed_get _ _ _ _ (led_executions _ Hok) Hx) as <-.
  injection Heq as -> _.
  assert (Hid : ex_id x' = ex_id x) by (by rewrite Hx').
  assert (Hst : ex_status x' = ExRunning) by (by rewrite Hx').
  assert (Hcount : ex_attempt_count x' = (ex_attempt_count x + 1)%Z) by (by rewrite Hx').
  destruct (led_valid _ Hok _ _ Hx) as [Hvx _].
  pose proof (execution_count_nonneg _ Hvx) as Hpos.
  assert (Hae : at_execution_id a = ex_id x) by (by rewrite Ha).
  assert (Han : at_attempt_number a = ex_attempt_count x') by (by rewrite Ha).
  apply (ledger_update _ x x'); [done|done| |done| | |apply Hok| |done| | | |].
  - unfold same_call. rewrite Hx' at 1. by f_equal; rewrite Hx'.
  - congruence.
  - by apply keyed_dset, Hok.
  - rewrite Hst, <-Hrun. by apply Hok.
  - intros k ev i. by apply led_trail_owner.
  - rewrite number_append by done. rewrite (led_numbers _ Hok _ _ Hx), Hcount.
    rewrite decide_True by done. rewrite Han, Hcount.
    rewrite (seqZ_app 1 (ex_attempt_count x) 1) by lia.
    assert (E : seqZ (1 + ex_attempt_count x) 1 = [(ex_attempt_count x + 1)%Z])
      by (unfold seqZ; simpl; f_equal; lia).
    by rewrite E.
  - intros k Hk. rewrite number_append by done. rewrite decide_False by congruence.
    by rewrite app_nil_r.
  - intros k b Hb. rewrite dget_dset in Hb. case_decide; [|by eapply led_numbers_owner].
    injection Hb as <-. rewrite Hae. eauto.
Qed.

Lemma ledger_finish_attempt d tenant id status code category upstream e r d' e' :
  ledger_ok d →
  finish_attempt tenant id status code category upstream (St d None e) = (r, St d' None e') →
  ledger_ok d'.
Proof.
  intros Hok Hr. apply finish_attempt_run in Hr as
    (? & [(? & _ & ?)|(a & a' & _ & Ha & _ & Hrun & _ & Ha' & Heq)]); [by simplify_eq|].
  injection Heq as -> _. pose proof (keyed_get _ _ _ _ (led_attempts _ Hok) Ha) as <-.
  assert (Hid : at_id a' = at_id a) by (by rewrite Ha').
  assert (Hex : at_execution_id a' = at_execution_id a) by (by rewrite Ha').
  assert (Hn : at_attempt_number a' = at_attempt_number a) by (by rewrite Ha').
  split; simpl; try apply Hok.
  - by apply keyed_dset, Hok.
  - intros k y Hy. rewrite <-(led_numbers _ Hok _ _ Hy), Hid. unfold attempt_numbers.
    apply (view_dset_same _ _ _ a); [done|done|by rewrite Hex].
  - intros k b Hb. rewrite Hid, dget_dset in Hb. case_decide; [|by eapply led_numbers_owner].
    injection Hb as <-. rewrite Hex. by eapply led_numbers_owner.
Qed.

(** An event of no execution. *)
Lemma ledger_event d ev :
  ledger_ok d → dget (ae_id ev) (es_audits d) = None → ae_execution_id ev = None →
  ledger_ok (mkExecutionStore (es_executions d) (es_attempts d) (es_approvals d)
               (dset (ae_id ev) ev (es_audits d))).
Proof.
  intros Hok Hfr Hno. split; simpl; try apply Hok.
  - by apply keyed_dset, Hok.
  - intros k x Hx. rewrite trail_append by done. rewrite decide_False by congruence.
    rewrite app_nil_r. by apply Hok.
  - intros k w i Hw. rewrite dget_dset in Hw. case_decide; [|by eapply led_trail_owner].
    congruence.
Qed.

(** Approvals only move along their state machine. *)
Lemma ledger_approvals d approvals' :
  ledger_ok d → evolves (es_approvals d) approvals' →
  ledger_ok (mkExecutionStore (es_executions d) (es_attempts d) approvals' (es_audits d)).
Proof.
  intros Hok [Hk He]. split; simpl; try apply Hok; [done|].
  intros k x id Hx Hid. destruct (led_granted _ Hok _ _ _ Hx Hid) as (a & Ha & Hs & Hrest).
  exists a. split; [|done]. eapply (evolves_terminal _ _ _ _ (conj Hk He)); [done|].
  by rewrite Hs.
Qed.

Lemma approval_spent_evolves c t ap ap' :
  keyed ar_id ap → approval_spent c t ap ap' → evolves ap ap'.
Proof.
  unfold approval_spent. intros Hk Hs.
  destruct (pe_approval_id c) as [id|]; [|subst; by apply evolves_refl].
  destruct Hs as (a & Ha & _ & Hst & Hb & _ & ->).
  pose proof (keyed_get _ _ _ _ Hk Ha) as <-.
  apply (evolves_save a (with_decision a _ _ _ _)); [done|done|]. by apply moves_consume.
Qed.

Lemma approval_lapsed_evolves c t ap ap' :
  keyed ar_id ap → approval_lapsed c t ap ap' → evolves ap ap'.
Proof.
  intros Hk (id & a & a' & _ & Ha & _ & _ & Ho & He & ->).
  pose proof (keyed_get _ _ _ _ Hk Ha) as <-.
  pose proof (expire_moves _ _ _ He Ho) as Hm. destruct (moves_id _ _ Hm) as [<- _].
  destruct (moves_id _ _ Hm) as [Hid _]. apply (evolves_save a); [done|congruence|done].
Qed.

Lemma ledger_add d x ev t :
  ledger_ok d → dget (ex_id x) (es_executions d) = None → new_execution x = Ok x →
  ex_status x = ExRunning → ex_attempt_count x = 0%Z → records ev x OutAllowed t →
  dget (ae_id ev) (es_audits d) = None →
  (∀ k y, dget k (es_executions d) = Some y → ¬ same_key x y) →
  (∀ k y, dget k (es_executions d) = Some y → ¬ same_approval x y) →
  (∀ id, ex_approval_id x = Some id → granted_by (es_approvals d) x id) →
  ledger_ok (mkExecutionStore (dset (ex_id x) x (es_executions d)) (es_attempts d)
               (es_approvals d) (dset (ae_id ev) ev (es_audits d))).
Proof.
  intros Hok Hn Hnew Hrun Hcount Hev Hfr Hkey Hap Hgr.
  assert (Heid : ae_execution_id ev = Some (ex_id x)) by (by rewrite Hev).
  assert (Hout : ae_outcome ev = OutAllowed) by (by rewrite Hev).
  split; simpl.
  - by apply keyed_dset, Hok.
  - apply Hok.
  - apply Hok.
  - by apply keyed_dset, Hok.
  - apply dset_all; [apply Hok|]. split; [done|congruence].
  - apply unique_by_dset; [apply Hok|apply _|apply Hok|]. intros k y Hy Hs.
    exfalso. by eapply Hkey.
  - intros k y id Hy Hid. rewrite dget_dset in Hy. case_decide; [|by eapply led_granted].
    injection Hy as <-. auto.
  - apply unique_by_dset; [apply Hok|apply _|apply Hok|]. intros k y Hy Hs.
    exfalso. by eapply Hap.
  - intros k y Hy. rewrite trail_append, Heid, Hout by done. rewrite dget_dset in Hy.
    case_decide as Hk.
    + injection Hy as <-. subst k. rewrite decide_True by done.
      unfold expected_trail. rewrite Hrun. simpl.
      unfold trail. rewrite (view_nil _ _ ae_id); [done|apply Hok|]. intros k' w Hw Hi.
      destruct (led_trail_owner _ Hok _ _ _ Hw Hi) as [z Hz]. congruence.
    + rewrite decide_False by congruence. rewrite app_nil_r. by apply Hok.
  - intros k w i Hw Hi. rewrite dget_dset in Hw. case_decide.
    + injection Hw as <-. rewrite Heid in Hi. injection Hi as <-. rewrite dget_dset_eq. eauto.
    + apply is_Some_dset. by eapply led_trail_owner.
  - intros k y Hy. rewrite dget_dset in Hy. case_decide as Hk; [|by apply Hok].
    injection Hy as <-. subst k. rewrite Hcount.
    unfold attempt_numbers. apply (view_nil _ _ at_id); [apply Hok|]. intros k' a Ha Hi.
    destruct (led_numbers_owner _ Hok _ _ Ha) as [z Hz]. congruence.
  - intros k a Ha. apply is_Some_dset. by eapply led_numbers_owner.
Qed.

Lemma ledger_plan d c e r d' e' :
  ledger_ok d → plan c (St d None e) = (r, St d' None e') → ledger_ok d'.
Proof.
  intros Hok Hr. pose proof (led_approvals _ Hok) as Hka.
  apply plan_run in Hr as (e1 & [(y & _ & Heq)|[(ap & _ & Hl & Heq)|
    (ap & ev & xid & _ & Hnew & Hfree & Hsp & Hn & Hev & Hfr & Heq)]]); [| | |done].
  - by injection Heq as -> _.
  - injection Heq as -> _. apply (ledger_approvals d); [done|].
    by eapply approval_lapsed_evolves.
  - injection Heq as -> _.
    set (x := planned_execution c xid (clock_now (ticks e))) in *.
    assert (Hok1 : ledger_ok (mkExecutionStore (es_executions d) (es_attempts d) ap (es_audits d)))
      by (apply (ledger_approvals d); [done|]; by eapply approval_spent_evolves).
    refine (ledger_add _ x ev _ Hok1 _ Hnew _ _ Hev _ _ _ _); simpl; try done.
    + intros k y Hy (E1 & E2 & E3 & E4 & [key Hkey]).
      pose proof (dfind_None _ _ _ (led_executions _ Hok) (Hfree key Hkey) _ _ Hy) as Hf.
      simpl in Hf. rewrite bool_decide_eq_true_2, bool_decide_eq_true_2, bool_decide_eq_true_2,
        bool_decide_eq_true_2 in Hf; [done| | | |]; simpl in *; congruence.
    + intros k y Hy [E1 [id Hid]]. unfold approval_spent in Hsp. simpl in Hid, E1.
      rewrite Hid in Hsp. destruct Hsp as (a & Ha & _ & Hst & _).
      rewrite Hid in E1. symmetry in E1.
      destruct (led_granted _ Hok _ _ _ Hy E1) as (b & Hb & Hbs & _). congruence.
    + intros id Hid. unfold approval_spent in Hsp. simpl in Hid. rewrite Hid in Hsp.
      destruct Hsp as (a & Ha & Ht & _ & _ & (H1 & H2 & H3 & H4 & H5) & ->).
      rewrite (keyed_get _ _ _ _ Hka Ha). eexists. rewrite dget_dset_eq. by split.
Qed.

(** Everything that writes the stores: the lifecycle's transactions, and the
    approval use cases, which share the tables of approvals and events. *)
Inductive ledger_step d : execution_store → Prop :=
| step_plan c e r d' e' : plan c (St d None e) = (r, St d' None e') → ledger_step d d'
| step_start tenant id e r d' e' :
    start_attempt tenant id (St d None e) = (r, St d' None e') → ledger_step d d'
| step_finish_attempt tenant id status code category upstream e r d' e' :
    finish_attempt tenant id status code category upstream (St d None e) = (r, St d' None e') →
    ledger_step d d'
| step_finish tenant id status code category e r d' e' :
    finish tenant id status code category (St d None e) = (r, St d' None e') → ledger_step d d'
| step_decision c e r d' e' :
    record_call_decision c (St d None e) = (r, St d' None e') → ledger_step d d'
| step_denial c e r d' e' :
    record_scope_denial c (St d None e) = (r, St d' None e') → ledger_step d d'
| step_approvals approvals' :
    evolves (es_approvals d) approvals' →
    ledger_step d
      (mkExecutionStore (es_executions d) (es_attempts d) approvals' (es_audits d))
| step_event ev :
    dget (ae_id ev) (es_audits d) = None → ae_execution_id ev = None →
    ledger_step d
      (mkExecutionStore (es_executions d) (es_attempts d) (es_approvals d)
         (dset (ae_id ev) ev (es_audits d))).

Lemma ledger_step_ok d d' : ledger_ok d → ledger_step d d' → ledger_ok d'.
Proof.
  intros Hok [c e r d1 e1 Hr|tenant id e r d1 e1 Hr|tenant id s co ca u e r d1 e1 Hr
    |tenant id s co ca e r d1 e1 Hr|c e r d1 e1 Hr|c e r d1 e1 Hr|ap He|ev Hfr Hno].
  - by eapply ledger_plan.
  - by eapply ledger_start_attempt.
  - by eapply ledger_finish_attempt.
  - by eapply ledger_finish.
  - apply record_call_decision_run in Hr as
      (? & [(? & _ & Heq)|(ev & _ & Hfr & _ & Hno & _ & _ & _ & _ & _ & Heq)]);
      injection Heq as -> _; [done|by apply ledger_event].
  - apply record_scope_denial_run in Hr as (? & [(? & _ & Heq)|(ev & _ & Hfr & _ & Hno & Heq)]);
      injection Heq as -> _; [done|by apply ledger_event].
  - by apply ledger_approvals.
  - by apply ledger_event.
Qed.

(** What one step does to the executions: nothing, a new one, or a rewrite of
    a running one that keeps the fields of its call. *)
Lemma ledger_step_executions d d' :
  ledger_ok d → ledger_step d d' →
  es_executions d' = es_executions d ∨
  (∃ x, dget (ex_id x) (es_executions d) = None ∧
     es_executions d' = dset (ex_id x) x (es_executions d)) ∨
  (∃ y y', dget (ex_id y) (es_executions d) = Some y ∧ ex_status y = ExRunning ∧
     same_call y y' ∧ es_executions d' = dset (ex_id y) y' (es_executions d)).
Proof.
  intros Hok Hstep.
  destruct Hstep as [c e r d1 e1 Hr|tenant i e r d1 e1 Hr|tenant i s co ca u e r d1 e1 Hr
    |tenant i s co ca e r d1 e1 Hr|c e r d1 e1 Hr|c e r d1 e1 Hr|ap He|ev Hfr Hno];
    try by left.
  - apply plan_run in Hr as (? & [(? & _ & Heq)|[(ap & _ & _ & Heq)|
      (ap & ev & xid & _ & _ & _ & _ & Hn & _ & _ & Heq)]]); [..|apply Hok];
      injection Heq as -> _; simpl; [by left|by left|].
    right. left. eauto.
  - apply start_attempt_run in Hr as
      (? & [(? & _ & Heq)|(y & y' & a & _ & _ & Hy & _ & Hreg & _ & _ & _ & Heq)]);
      injection Heq as -> _; [by left|]. simpl.
    apply register_attempt_Ok in Hreg as (Hrun & Hy' & _).
    pose proof (keyed_get _ _ _ _ (led_executions _ Hok) Hy) as <-.
    right. right. exists y, y'. replace (ex_id y') with (ex_id y) by (by rewrite Hy').
    split_and!; try done. unfold same_call. rewrite Hy' at 1. by f_equal; rewrite Hy'.
  - apply finish_attempt_run in Hr as (? & [(? & _ & Heq)|(a & a' & _ & _ & _ & _ & _ & _ & Heq)]);
      injection Heq as -> _; by left.
  - apply finish_run in Hr as
      (? & [(? & _ & Heq)|(y & y' & o & ev & _ & _ & Hy & _ & Hrun & Hf & _ & Heq)]);
      injection Heq as -> _; [by left|]. simpl.
    apply finish_execution_Ok in Hf as (_ & _ & _ & Hy'); [|done].
    pose proof (keyed_get _ _ _ _ (led_executions _ Hok) Hy) as <-.
    right. right. exists y, y'. replace (ex_id y') with (ex_id y) by (by rewrite Hy').
    split_and!; try done. unfold same_call. rewrite Hy' at 1. by f_equal; rewrite Hy'.
  - apply record_call_decision_run in Hr as
      (? & [(? & _ & Heq)|(ev & _ & _ & _ & _ & _ & _ & _ & _ & _ & Heq)]);
      injection Heq as -> _; by left.
  - apply record_scope_denial_run in Hr as (? & [(? & _ & Heq)|(ev & _ & _ & _ & _ & Heq)]);
      injection Heq as -> _; by left.
Qed.

(** One step keeps every execution: as it is once it is terminal, with the
    same call before. *)
Lemma ledger_step_keeps d d' id x :
  ledger_ok d → ledger_step d d' → dget id (es_executions d) = Some x →
  ∃ x', dget id (es_executions d') = Some x' ∧ same_call x x' ∧
    (execution_terminal (ex_status x) = true → x' = x).
Proof.
  intros Hok Hs Hx.
  destruct (ledger_step_executions _ _ Hok Hs) as
    [->|[(y & Hn & ->)|(y & y' & Hy & Hrun & Hsame & ->)]]; rewrite ?dget_dset.
  - exists x. split_and!; [done|apply same_call_refl|done].
  - case_decide as E; [congruence|]. exists x. split_and!; [done|apply same_call_refl|done].
  - case_decide as E.
    + rewrite E in Hx. exists y'. assert (x = y) as -> by congruence.
      split_and!; [done|done|]. by rewrite Hrun.
    + exists x. split_and!; [done|apply same_call_refl|done].
Qed.

Lemma ledger_steps_ok d d' : ledger_ok d → star ledger_step d d' → ledger_ok d'.
Proof. intros Hd. apply star_invariant; eauto using ledger_step_ok. Qed.

Lemma ledger_steps_keep d d' id x :
  ledger_ok d → star ledger_step d d' → dget id (es_executions d) = Some x →
  ∃ x', dget id (es_executions d') = Some x' ∧ same_call x x' ∧
    (execution_terminal (ex_status x) = true → x' = x).
Proof.
  intros Hok Hs. revert x. induction Hs as [|d d1 d2 Hstep Hs IH]; intros x Hx.
  - exists x. split_and!; [done|apply same_call_refl|done].
  - destruct (ledger_step_keeps _ _ _ _ Hok Hstep Hx) as (x1 & Hx1 & Hc1 & Ht1).
    destruct (IH (ledger_step_ok _ _ Hok Hstep) _ Hx1) as (x2 & Hx2 & Hc2 & Ht2).
    exists x2. split_and!; [done|by eapply same_call_trans|].
    intros Ht. specialize (Ht1 Ht) as ->. auto.
Qed.
End Invariant.

(** ** A running execution can always be finished *)

Lemma validate_mcp_scope_metadata ty id rev :
  validate_mcp_scope ty id rev = Ok tt →
  scope_audit_metadata (scope_type_value ty) id rev None None =
    Ok (scope_metadata (mkScopeEvidence (scope_type_value ty) id rev None) None).
Proof.
  unfold validate_mcp_scope, scope_audit_metadata, new_scope_evidence. intros Hv.
  destruct ty, id as [id|], rev as [rev|]; simpl in *; try done.
  all: try (destruct (str_empty id); simpl in *; done).
  destruct (str_empty id); [done|]. simpl in *. by destruct (rev <=? 0)%Z.
Qed.

Lemma execution_metadata_keys x :
  existsb (λ k, bool_decide (normalized_key k ∈ audit_sensitive_keys))
    (dkeys ([("side_effect", MStr (side_effect_value (ex_side_effect x)));
             ("execution_status", MStr (execution_status_value (ex_status x)));
             ("attempt_count", MInt (ex_attempt_count x))]
            ++ scope_metadata
                 (mkScopeEvidence (scope_type_value (ex_mcp_scope_type x)) (ex_toolset_id x)
                    (ex_toolset_revision x) None) None)) = false.
Proof.
  unfold scope_metadata. simpl.
  destruct (ex_toolset_id x), (ex_toolset_revision x); vm_compute; done.
Qed.

(** The event of a valid execution is well formed. *)
Lemma execution_event_valid id x o t :
  new_execution x = Ok x → blank id = false →
  new_audit_event (execution_event id x o t) = Ok (execution_event id x o t).
Proof.
  intros Hv Hid. unfold new_execution in Hv. guards Hv.
  match goal with G : require_non_blank _ = Ok ?u |- _ =>
    destruct u; apply require_non_blank_Ok in G; repeat apply Forall_cons in G as [? G] end.
  unfold new_audit_event, execution_event. cbn [ae_id ae_tenant_id ae_actor_id ae_resource_type
    ae_resource_id ae_request_id ae_trace_id ae_metadata].
  rewrite (proj2 (require_non_blank_Ok _)) by (repeat constructor; done).
  cbn [rbind]. by rewrite execution_metadata_keys.
Qed.

(** Finishing keeps a running record valid. *)
Lemma finished_valid x s t code category :
  new_execution x = Ok x → ex_status x = ExRunning → execution_terminal s = true →
  (if decide (s = ExSucceeded) then code = None ∧ category = None
   else is_Some code ∧ is_Some category) →
  let x' := execution_at x s (ex_started_at x) (Some t) code category (ex_attempt_count x) in
  new_execution x' = Ok x'.
Proof.
  intros Hv Hrun Hs Hc. unfold new_execution in *. guards Hv. simpl.
  repeat match goal with
  | G : _ = Ok ?y |- rbind _ _ = Ok _ => eapply rbind_Ok_intro; [exact G|]; clear G
  end.
  destruct s; try done; case_decide; try done; destruct Hc as [Hc1 Hc2]; simplify_eq;
    try destruct Hc1 as [c1 Hc1]; try destruct Hc2 as [c2 Hc2]; subst; simpl.
  all: match goal with G : (_ <? _)%Z = false |- _ => rewrite G end; simpl.
  all: match goal with G : validate_mcp_scope _ _ _ = Ok _ |- _ => rewrite G end; done.
Qed.

(** What [_finish] needs for each status. *)
Definition finish_args (status : ExecutionStatus) (code : option string)
    (category : option ExecutionErrorCategory) : Prop :=
  match status with
  | ExSucceeded | ExCancelled => True
  | ExUnknown => is_Some code
  | _ => is_Some code ∧ is_Some category
  end.

Lemma running_no_error x :
  new_execution x = Ok x → ex_status x = ExRunning →
  ex_error_code x = None ∧ ex_error_category x = None.
Proof.
  intros Hv Hrun. unfold new_execution in Hv. guards Hv. rewrite Hrun in *.
  by destruct (ex_error_code x), (ex_error_category x).
Qed.

Lemma finish_execution_total x status code category t :
  new_execution x = Ok x → ex_status x = ExRunning → finish_args status code category →
  ∃ x', finish_execution x status code category t = Ok (x', outcome_of (ex_status x')) ∧
    ex_status x' = (match status with ExPlanned | ExRunning => ExFailed | s => s end).
Proof.
  intros Hv Hrun Ha. destruct (running_no_error _ Hv Hrun) as [E1 E2].
  pose proof (λ s code cat, finished_valid x s t code cat Hv Hrun) as Hf.
  unfold finish_execution, execution_succeed, execution_fail, execution_mark_unknown,
    execution_cancel, execution_require_running. rewrite Hrun, E1, E2. simpl.
  destruct status; simpl in *;
    repeat match goal with
    | G : _ ∧ _ |- _ => destruct G
    | G : is_Some _ |- _ => destruct G as [? ->]
    end;
    (rewrite Hf; [|reflexivity|by (case_decide; eauto)]);
    exact (ex_intro _ _ (conj eq_refl eq_refl)).
Qed.

Section Totality.
Context `{Ports}.
Implicit Types (d : execution_store).

(** [_finish] always succeeds on a running execution of the tenant, when the
    generator yields a new, non-blank identifier for the audit event. *)
Lemma finish_total d tenant id x status code category e :
  ledger_ok d → dget id (es_executions d) = Some x → ex_tenant_id x = tenant →
  ex_status x = ExRunning → finish_args status code category →
  blank (identifier (issued e)) = false → dget (identifier (issued e)) (es_audits d) = None →
  ∃ x' d', finish tenant id status code category (St d None e) =
      (Ok x', St d' None (Env (S (ticks e)) (S (issued e)) (io_log e))) ∧
    dget id (es_executions d') = Some x' ∧
    ex_status x' = (match status with ExPlanned | ExRunning => ExFailed | s => s end) ∧
    ex_attempt_count x' = ex_attempt_count x.
Proof.
  intros Hok Hx Ht Hrun Ha Hid Hfresh. destruct (led_valid _ Hok _ _ Hx) as [Hv _].
  destruct (finish_execution_total x status code category (clock_now (ticks e)) Hv Hrun Ha)
    as (x' & Hf & Hs).
  pose proof (finish_execution_Ok _ _ _ _ _ _ _ Hf Hrun) as (_ & _ & Hv' & Hx').
  pose proof (keyed_get _ _ _ _ (led_executions _ Hok) Hx) as Hk.
  assert (Eid : ex_id x' = id) by (by rewrite Hx').
  assert (Etn : ex_tenant_id x' = tenant) by (by rewrite Hx').
  unfold finish. unfold bind at 1, now. simpl. unfold with_uow, bind at 1. simpl.
  unfold get_execution, bind at 1, read_table. simpl. rewrite Hx. simpl.
  rewrite decide_True by done. unfold bind at 1, lift. rewrite Hrun. simpl.
  unfold bind at 1, lift. rewrite Hf. simpl.
  unfold bind at 1, save_execution, require_matching_tenant, bind, lift, read_table, write_table.
  rewrite Etn, bool_decide_eq_true_2 by done. simpl. rewrite Eid, Hx. simpl.
  rewrite decide_True by done. simpl.
  unfold execution_audit, bind, new_id, lift. simpl.
  rewrite (validate_mcp_scope_metadata _ _ _ (new_execution_scope _ Hv')). simpl.
  rewrite execution_event_valid by done. simpl.
  unfold audits_append, bind, read_table, lift. simpl.
  rewrite (proj2 (dmem_false _ _)) by done. simpl.
  eexists _, _. split; [reflexivity|]. simpl. rewrite dget_dset_eq.
  split; [done|]. split; [done|]. by rewrite Hx'.
Qed.
End Totality.

(** ** Properties *)

(** The second call repeats the first one's idempotency key: same tenant,
    principal, tool version and key, whatever its arguments. *)
Definition repeats (c c' : PlanExecutionCommand) : Prop :=
  ctx_tenant_id (pe_context c') = ctx_tenant_id (pe_context c) ∧
  pe_principal_id c' = pe_principal_id c ∧
  pe_tool_version_id c' = pe_tool_version_id c ∧
  pe_idempotency_key c' = pe_idempotency_key c ∧ is_Some (pe_idempotency_key c).

(** The record [plan] builds first, before it starts it. *)
Definition planned_record (c : PlanExecutionCommand) (id : string) (t : datetime) :
    ToolExecution :=
  execution_at (planned_execution c id t) ExPlanned None None None None 0.

Lemma planned_record_valid c id t :
  new_execution (planned_execution c id t) = Ok (planned_execution c id t) →
  new_execution (planned_record c id t) = Ok (planned_record c id t) ∧
  execution_start (planned_record c id t) t = Ok (planned_execution c id t).
Proof.
  intros Hv. split; [|exact Hv]. unfold new_execution in *. guards Hv. simpl in *.
  repeat match goal with
  | G : _ = Ok _ |- rbind _ _ = Ok _ => eapply rbind_Ok_intro; [exact G|]; clear G
  | _ => eapply rbind_Ok_intro; [reflexivity|]
  end; done.
Qed.

Lemma ledger_ok_empty : ledger_ok (mkExecutionStore [] [] [] []).
Proof. split; try apply keyed_nil; try done; by intros ????. Qed.

Section Properties.
Context `{Ports}.
Implicit Types (d : execution_store).

Lemma plan_reuse d c e key y :
  pe_idempotency_key c = Some key →
  find_by_idempotency_key (ctx_tenant_id (pe_context c)) (pe_principal_id c)
    (pe_tool_version_id c) key (es_executions d) = Some y →
  is_ok (new_execution (planned_execution c (identifier (issued e)) (clock_now (ticks e)))) = true →
  plan c (St d None e) =
    (Raise (Nexus (idempotency_reuse_error y (pe_arguments_digest c))),
     St d None (Env (S (ticks e)) (S (issued e)) (io_log e))).
Proof.
  intros Hkey Hf Hv. destruct (new_execution (planned_execution _ _ _)) as [x|] eqn:Hn;
    [|done]. pose proof (new_execution_Ok _ _ Hn) as ->.
  apply planned_record_valid in Hn as [Hp Hs].
  unfold plan. unfold bind at 1, now. simpl. unfold bind at 1, new_id. simpl.
  unfold bind at 1, lift at 1.
  match goal with |- context [new_execution ?r] => change r with
    (planned_record c (identifier (issued e)) (clock_now (ticks e))) end.
  rewrite Hp. unfold bind at 1, lift at 1. rewrite Hs.
  unfold bind at 1, with_uow. unfold bind at 1, check_idempotency. rewrite Hkey.
  unfold get_execution_by_key, bind at 1, bind at 1, read_table. simpl.
  unfold ret. simpl. by rewrite Hf.
Qed.

(** C8: every store reachable from a good one through the lifecycle's
    transactions, interleaved in any order with approval transactions and
    other audit events, is good: valid records; at most one execution per
    idempotency key and per approval; every approval an execution names was
    consumed for exactly its call; its audit trail is ALLOWED followed, once
    it is terminal, by the event of its terminal status; its attempts are
    numbered 1, 2, ... up to its attempt count. *)
Theorem ledger_invariant d d' :
  ledger_ok d → star ledger_step d d' → ledger_ok d'.
Proof. apply ledger_steps_ok. Qed.

(** Planning is one transaction.  When [plan] returns, exactly one RUNNING
    execution and one ALLOWED event were added under new identifiers, and the
    approval the call names was consumed for this very call; when it raises,
    the stores are unchanged, except that an approval found expired is
    committed as EXPIRED. *)
Theorem plan_atomic c d e :
  ledger_ok d →
  match plan c (St d None e) with
  | (Ok x, s') =>
      ∃ ap ev, ex_status x = ExRunning ∧ ex_approval_id x = pe_approval_id c ∧
        ex_arguments_digest x = pe_arguments_digest c ∧
        dget (ex_id x) (es_executions d) = None ∧ dget (ae_id ev) (es_audits d) = None ∧
        ae_outcome ev = OutAllowed ∧ ae_execution_id ev = Some (ex_id x) ∧
        approval_spent c (clock_now (ticks e)) (es_approvals d) ap ∧
        store s' = mkExecutionStore (dset (ex_id x) x (es_executions d)) (es_attempts d) ap
                     (dset (ae_id ev) ev (es_audits d))
  | (Raise y, s') =>
      store s' = d ∨
      (y = Nexus ApprovalExpiredError ∧
       ∃ ap, approval_lapsed c (clock_now (ticks e)) (es_approvals d) ap ∧
         store s' = mkExecutionStore (es_executions d) (es_attempts d) ap (es_audits d))
  end.
Proof.
  intros Hok. destruct (plan _ _) as [r s'] eqn:Hr. apply plan_run in Hr as
    (e' & [(x & -> & ->)|[(ap & -> & Hl & ->)|(ap & ev & id & -> & _ & _ & Hs & Hn & Hev & Hfr & ->)]]);
    [by left|right; eauto| |apply Hok].
  exists ap, ev. rewrite Hev at 2 3. done.
Qed.


(** A terminal execution is final: no later transaction changes it. *)
Theorem terminal_execution_is_final d d' id x :
  ledger_ok d → star ledger_step d d' → dget id (es_executions d) = Some x →
  execution_terminal (ex_status x) = true → dget id (es_executions d') = Some x.
Proof.
  intros Hok Hs Hx Ht. destruct (ledger_steps_keep _ _ _ _ Hok Hs Hx) as (x' & Hx' & _ & Hf).
  by rewrite Hf in Hx'.
Qed.

(** C7: in every store reachable from the empty one, an approval funds at most
    one execution, of the principal, tool version, arguments digest, policy
    version and idempotency key it was granted for, and is then CONSUMED. *)
Theorem approval_funds_one_execution d id k k' x x' :
  star ledger_step (mkExecutionStore [] [] [] []) d →
  dget k (es_executions d) = Some x → ex_approval_id x = Some id →
  dget k' (es_executions d) = Some x' → ex_approval_id x' = Some id →
  granted_by (es_approvals d) x id ∧ k' = k ∧ x' = x.
Proof.
  intros Hs Hx Hi Hx' Hi'. pose proof (ledger_steps_ok _ _ ledger_ok_empty Hs) as Hok.
  split; [by eapply led_granted|].
  assert (E : ex_id x = ex_id x').
  { apply (led_grant_once _ Hok _ _ _ _ Hx Hx'). split; [congruence|eauto]. }
  pose proof (keyed_get _ _ _ _ (led_executions _ Hok) Hx) as E1.
  pose proof (keyed_get _ _ _ _ (led_executions _ Hok) Hx') as E2.
  split; congruence.
Qed.

(** In every store reachable from the empty one, the audit trail of every
    execution is complete and exact: one ALLOWED event, followed exactly when
    the execution is terminal by one event with the outcome of its status;
    and its attempts are numbered consecutively from 1. *)
Theorem audit_trail_complete d k x :
  star ledger_step (mkExecutionStore [] [] [] []) d → dget k (es_executions d) = Some x →
  trail k (es_audits d) =
    OutAllowed :: (if execution_terminal (ex_status x) then [outcome_of (ex_status x)] else []) ∧
  attempt_numbers k (es_attempts d) = seqZ 1 (ex_attempt_count x).
Proof.
  intros Hs Hx. pose proof (ledger_steps_ok _ _ ledger_ok_empty Hs) as Hok.
  split; [by apply Hok|by apply Hok].
Qed.

(** A RUNNING execution can always be finished: [_finish] returns, leaves
    it in the requested terminal status with its attempts counted as before,
    whenever the error code and category the status needs are given and the
    identifier drawn for the audit event is new. *)
Theorem running_execution_can_finish d tenant id x status code category e :
  ledger_ok d → dget id (es_executions d) = Some x → ex_tenant_id x = tenant →
  ex_status x = ExRunning → finish_args status code category →
  blank (identifier (issued e)) = false → dget (identifier (issued e)) (es_audits d) = None →
  ∃ x' d', finish tenant id status code category (St d None e) =
      (Ok x', St d' None (Env (S (ticks e)) (S (issued e)) (io_log e))) ∧
    dget id (es_executions d') = Some x' ∧
    ex_status x' = (match status with ExPlanned | ExRunning => ExFailed | s => s end) ∧
    ex_attempt_count x' = ex_attempt_count x.
Proof. apply finish_total. Qed.
End Properties.

(** ** Witnesses *)

Module LifecycleExamples.
#[local] Existing Instance sample_ports.

Definition ctx : ActorContext :=
  mkActorContext "req" "trace" "tenant" "agent" "static" "agent_service".
Definition granted : ApprovalRequest :=
  mkApproval "ap" "tenant" "agent" "tool" "v1" "digest" "p1" ApApproved
    (Datetime 10 true) (Datetime 5000 true) (Some "key") (Some "admin") (Some (Datetime 20 true))
    None.
Definition start : execution_store := mkExecutionStore [] [] [("ap", granted)] [].
Definition env0 : env := Env 0 0 [].
Definition call : PlanExecutionCommand :=
  mkPlanExecution ctx "agent" "tool" "v1" "b1" "digest" "p1" "approved" NonIdempotentWrite (Some "ap")
    None (Some "key") ScopeRoot None None.
Definition other_call : PlanExecutionCommand :=
  mkPlanExecution ctx "agent" "tool" "v1" "b1" "other" "p1" "approved" NonIdempotentWrite (Some "ap")
    None (Some "key") ScopeRoot None None.

Definition planned := Eval vm_compute in plan call (St start None env0).
Definition after_plan : execution_store := store planned.2.
Definition attempted := Eval vm_compute in start_attempt "tenant" "a-id" (St after_plan None (Env 1 2 [])).
Definition after_attempt : execution_store := store attempted.2.
Definition finished := Eval vm_compute in succeed "tenant" "a-id" (St after_attempt None (Env 2 3 [])).
Definition after_finish : execution_store := store finished.2.

Lemma start_ok : ledger_ok start.
Proof.
  apply (ledger_approvals (mkExecutionStore [] [] [] []) [("ap", granted)]);
    [apply ledger_ok_empty|].
  split; [exact (keyed_dset ar_id granted [] (keyed_nil ar_id))|]. by intros k a.
Qed.

Lemma planned_run : plan call (St start None env0) = planned.
Proof. vm_compute. reflexivity. Qed.
Lemma attempted_run : start_attempt "tenant" "a-id" (St after_plan None (Env 1 2 [])) = attempted.
Proof. vm_compute. reflexivity. Qed.
Lemma finished_run : succeed "tenant" "a-id" (St after_attempt None (Env 2 3 [])) = finished.
Proof. vm_compute. reflexivity. Qed.

Lemma start_reachable : star ledger_step (mkExecutionStore [] [] [] []) start.
Proof.
  apply star_one.
  apply (step_approvals (mkExecutionStore [] [] [] []) [("ap", granted)]).
  split; [exact (keyed_dset ar_id granted [] (keyed_nil ar_id))|]. by intros k a.
Qed.

Lemma plan_steps : star ledger_step start after_plan.
Proof. apply star_one. eapply step_plan. exact planned_run. Qed.

Lemma plan_to_finish : star ledger_step after_plan after_finish.
Proof.
  eapply star_step; [eapply step_start; exact attempted_run|].
  apply star_one. eapply step_finish. exact finished_run.
Qed.

Lemma finish_reachable : star ledger_step (mkExecutionStore [] [] [] []) after_finish.
Proof.
  eapply star_trans; [apply start_reachable|].
  eapply star_trans; [apply plan_steps|apply plan_to_finish].
Qed.

Lemma after_plan_ok : ledger_ok after_plan.
Proof. apply (ledger_steps_ok start); [apply start_ok|apply plan_steps]. Qed.
Lemma after_finish_ok : ledger_ok after_finish.
Proof. apply (ledger_steps_ok after_plan); [apply after_plan_ok|apply plan_to_finish]. Qed.
End LifecycleExamples.

Lemma ledger_invariant_witness : ledger_ok LifecycleExamples.after_finish.
Proof.
  apply (ledger_invariant (H := sample_ports) LifecycleExamples.start);
    [apply LifecycleExamples.start_ok|].
  eapply star_trans; [apply LifecycleExamples.plan_steps|apply LifecycleExamples.plan_to_finish].
Defined.

Lemma plan_atomic_witness :
  ∃ x ap ev, (plan (H := sample_ports) LifecycleExamples.call
      (St LifecycleExamples.start None LifecycleExamples.env0)).1 = Ok x ∧
    ae_execution_id ev = Some (ex_id x) ∧
    approval_spent LifecycleExamples.call (Datetime 1000 true)
      (es_approvals LifecycleExamples.start) ap.
Proof.
  pose proof (plan_atomic (H := sample_ports) LifecycleExamples.call LifecycleExamples.start
    LifecycleExamples.env0 LifecycleExamples.start_ok) as P.
  rewrite LifecycleExamples.planned_run in P |- *.
  destruct P as (ap & ev & _ & _ & _ & _ & _ & _ & P & S & _).
  eexists _, ap, ev. split; [reflexivity|]. split; [exact P|exact S].
Defined.


Lemma terminal_execution_is_final_witness :
  ∃ x, dget "a-id" (es_executions LifecycleExamples.after_finish) = Some x ∧
    ex_status x = ExSucceeded.
Proof.
  eexists. split; [|].
  - eapply (terminal_execution_is_final (H := sample_ports) LifecycleExamples.after_finish
      LifecycleExamples.after_finish "a-id" _ LifecycleExamples.after_finish_ok (star_refl _ _));
      [vm_compute; reflexivity|vm_compute; reflexivity].
  - reflexivity.
Defined.

Lemma approval_funds_one_execution_witness :
  ∃ x, granted_by (es_approvals LifecycleExamples.after_finish) x "ap".
Proof.
  eexists. eapply (approval_funds_one_execution (H := sample_ports)
    LifecycleExamples.after_finish "ap" "a-id" "a-id" _ _ LifecycleExamples.finish_reachable);
    vm_compute; reflexivity.
Defined.

Lemma audit_trail_complete_witness :
  trail "a-id" (es_audits LifecycleExamples.after_finish) = [OutAllowed; OutSucceeded] ∧
  attempt_numbers "a-id" (es_attempts LifecycleExamples.after_finish) = [1%Z].
Proof.
  assert (E : ∃ x, dget "a-id" (es_executions LifecycleExamples.after_finish) = Some x ∧
    ex_status x = ExSucceeded ∧ ex_attempt_count x = 1%Z)
    by (eexists; split; [vm_compute; reflexivity|by split]).
  destruct E as (x & Hx & Hs & Hc).
  destruct (audit_trail_complete (H := sample_ports) LifecycleExamples.after_finish "a-id" x
    LifecycleExamples.finish_reachable Hx) as [P Q].
  rewrite P, Q, Hs, Hc. split; reflexivity.
Defined.

Lemma running_execution_can_finish_witness :
  ∃ x' d', fail (H := sample_ports) "tenant" "a-id" "timeout" CatNetwork true
      (St LifecycleExamples.after_plan None (Env 1 2 [])) =
      (Ok x', St d' None (Env 2 3 [])) ∧ ex_status x' = ExUnknown.
Proof.
  destruct (running_execution_can_finish (H := sample_ports) LifecycleExamples.after_plan
    "tenant" "a-id" _ ExUnknown (Some "timeout") (Some CatNetwork) (Env 1 2 [])
    LifecycleExamples.after_plan_ok eq_refl eq_refl eq_refl) as (x' & d' & P & _ & Q & _).
  - by eexists.
  - vm_compute. reflexivity.
  - vm_compute. reflexivity.
  - exists x', d'. by split.
Defined.
