(* ===== verification/Retry.v ===== *)
(** * Retry: one execution, several persisted attempts

    Models [modules/execution/retrying_executor.py]: [ExecuteWithRetry] runs
    the executor inside one [ToolExecution], records an attempt around every
    call and retries, after an exponential backoff, what [retry_disposition]
    allows.  The executor is an oracle over the log of observable calls made
    so far ([ToolExecutor]): its answers may depend on the whole history, and
    so may the sleeper between them ([RetrySleeper]), which a cancellation can
    interrupt.  Seconds are rationals; the backoff [initial * 2 ** (n - 1)] is exact on
    them. *)

From Stdlib Require Import ZArith QArith Lia.
From stdpp Require Import base sets strings option list.
From S2P Require Import Prelude Text Dict Errors Json Store AuditTrail Catalog Connectors.
From S2P Require Import Credentials Approval Execution Lifecycle.
Open Scope py_scope.

(** ** The executor port *)

Class ToolExecutor :=
  run_tool : list io_event → ExecutorRequest → option ResolvedCredential → result exn ExecutorResult.

(** ** The sleeper port

    [RetrySleeper.sleep]: it returns, or raises, as a cancellation does. *)
Class RetrySleeper := run_sleep : list io_event → Q → result exn unit.

(** [ExecuteWithRetry.__init__] *)
Record RetryConfig := mkRetryConfig {
  rc_max_attempts : nat;
  rc_initial_backoff_seconds : Q }.

Definition new_retry_config (max_attempts : Z) (initial_backoff_seconds : Q) :
    res RetryConfig :=
  raise_if (max_attempts <=? 0)%Z (ValueError "retry max attempts must be positive") ;;?
  raise_if (negb (Qle_bool 0 initial_backoff_seconds))
    (ValueError "retry backoff must not be negative") ;;?
  Ok (mkRetryConfig (Z.to_nat max_attempts) initial_backoff_seconds).

(** [initial_backoff_seconds * (2 ** (attempt_number - 1))] *)
Definition backoff (cfg : RetryConfig) (attempt_number : nat) : Q :=
  rc_initial_backoff_seconds cfg * inject_Z (2 ^ (Z.of_nat attempt_number - 1)).

(** The failure raised for a failure that is not retried: an unknown outcome
    of a read is an ordinary failure. *)
Definition surface_failure (request : ExecutorRequest) (f : executor_failure) :
    executor_failure :=
  let side_effect := rt_side_effect (xr_tool request) in
  let disposition := retry_disposition side_effect (ef_category f)
                       (negb (is_none (xr_idempotency_key request))) in
  if bool_decide (side_effect = ReadOnly) && ef_outcome_unknown f
     && negb (bool_decide (disposition = RequireReconciliation))
  then ExecutorFailure (ef_code f) (ef_category f) false (ef_upstream_status f)
  else f.

(** May the loop try again after this failure? *)
Definition may_retry (request : ExecutorRequest) (f : executor_failure) : bool :=
  bool_decide (retry_disposition (rt_side_effect (xr_tool request)) (ef_category f)
                 (negb (is_none (xr_idempotency_key request))) = Retry).

Section Retry.
Context {D : Type} `{Ports, ToolExecutor, RetrySleeper} `{!Table D ToolExecution}
  `{!Table D ExecutionAttempt} `{!Table D ApprovalRequest} `{!Table D AuditEvent}.

(** [await self._executor.execute(request, credential)] *)
Definition invoke_executor (request : ExecutorRequest)
    (credential : option ResolvedCredential) : M D ExecutorResult :=
  emit (IoExecute (xr_execution_id request)) ;;*
  let* log := get_log in
  lift (run_tool log request credential).

(** [await self._sleeper.sleep(seconds)] *)
Definition sleep (seconds : Q) : M D unit :=
  emit (IoSleep seconds) ;;*
  let* log := get_log in
  lift (run_sleep log seconds).

(** The body of [for attempt_number in range(1, max_attempts + 1)], with the
    iterations left. *)
Fixpoint retry_loop (cfg : RetryConfig) (request : ExecutorRequest)
    (credential : option ResolvedCredential) (remaining attempt_number : nat) :
    M D ExecutorResult :=
  let tenant_id := rt_tenant_id (xr_tool request) in
  match remaining with
  | O => raise (RuntimeError "retry loop exhausted without a terminal result")
  | S remaining =>
      let* attempt := start_attempt tenant_id (xr_execution_id request) in
      let* outcome := capture (invoke_executor request credential) in
      match outcome with
      | Raise CancelledError =>
          cancel_attempt tenant_id (at_id attempt) ;;*
          raise CancelledError
      | Raise (Failure f) =>
          fail_attempt tenant_id (at_id attempt) (ef_code f) (ef_category f)
            (ef_outcome_unknown f) (ef_upstream_status f) ;;*
          if may_retry request f && (attempt_number <? rc_max_attempts cfg)%nat
          then
            sleep (backoff cfg attempt_number) ;;*
            retry_loop cfg request credential remaining (S attempt_number)
          else raise (Failure (surface_failure request f))
      | Raise x =>
          fail_attempt tenant_id (at_id attempt) "unexpected_executor_failure" CatUnknown true
            None ;;*
          raise x
      | Ok result =>
          succeed_attempt tenant_id (at_id attempt) (er_upstream_status result) ;;*
          ret result
      end
  end.

(** [ExecuteWithRetry.execute] *)
Definition execute_with_retry (cfg : RetryConfig) (request : ExecutorRequest)
    (credential : option ResolvedCredential) : M D ExecutorResult :=
  retry_loop cfg request credential (rc_max_attempts cfg) 1.
End Retry.

(** ** The schedule of observable calls *)

(** The calls of a run that never stops retrying: executor calls with the
    backoffs between them. *)
Fixpoint schedule (cfg : RetryConfig) (execution_id : string) (remaining n : nat) :
    list io_event :=
  match remaining with
  | O => []
  | S O => [IoExecute execution_id]
  | S remaining =>
      IoExecute execution_id :: IoSleep (backoff cfg n)
      :: schedule cfg execution_id remaining (S n)
  end.

(** The calls that must not be repeated blindly: writes that are not
    idempotent, and idempotent writes without a key. *)
Definition retry_unsafe (request : ExecutorRequest) : Prop :=
  match rt_side_effect (xr_tool request) with
  | ReadOnly => False
  | IdempotentWrite => xr_idempotency_key request = None
  | NonIdempotentWrite | UnknownEffect => True
  end.

Lemma retry_unsafe_never request f : retry_unsafe request → may_retry request f = false.
Proof.
  unfold retry_unsafe, may_retry. destruct (rt_side_effect _), (ef_category f); try done;
    by intros ->.
Qed.

Definition is_execute (ev : io_event) : bool :=
  match ev with IoExecute _ => true | _ => false end.

Section Schedule.
Context {D : Type} `{Ports, ToolExecutor, RetrySleeper} `{!Table D ToolExecution}
  `{!Table D ExecutionAttempt} `{!Table D ApprovalRequest} `{!Table D AuditEvent}.
Implicit Types (s : st D).

Lemma quiet_start_attempt tenant id : quiet (D := D) (start_attempt tenant id).
Proof.
  unfold start_attempt, get_execution, save_execution, add_attempt. quiet_solve.
Qed.

Lemma quiet_finish_attempt tenant id status code category upstream :
  quiet (D := D) (finish_attempt tenant id status code category upstream).
Proof. unfold finish_attempt, get_attempt, save_attempt. quiet_solve. Qed.

Lemma schedule_length cfg id remaining n : 
  length (filter is_execute (schedule cfg id remaining n)) = remaining.
Proof.
  revert n. induction remaining as [|[|r] IH]; intros n; [done|done|].
  cbn -[schedule]. simpl in IH |- *. f_equal. apply IH.
Qed.

(** The calls a loop makes: some prefix of the schedule, of one call when the
    request may not be retried. *)
Definition follows (cfg : RetryConfig) (request : ExecutorRequest) (calls plan : list io_event) :
    Prop :=
  calls `prefix_of` plan ∧ (retry_unsafe request → (length calls <= 1)%nat).

Lemma follows_nil cfg request plan : follows cfg request [] plan.
Proof. split; [apply prefix_nil|]. simpl. lia. Qed.

Lemma follows_one cfg request remaining n :
  follows cfg request [IoExecute (xr_execution_id request)]
    (schedule cfg (xr_execution_id request) (S remaining) n).
Proof.
  split; [|done]. destruct remaining; simpl; [done|]. apply prefix_cons, prefix_nil.
Qed.

Lemma invoke_executor_run request credential s :
  invoke_executor request credential s =
    (run_tool (io_log (environment s) ++ [IoExecute (xr_execution_id request)]) request credential,
     St (store s) (working s) (Env (ticks (environment s)) (issued (environment s))
       (io_log (environment s) ++ [IoExecute (xr_execution_id request)]))).
Proof. done. Qed.

Lemma sleep_run {B} seconds (k : unit → M D B) s :
  bind (sleep seconds) k s =
    let log := io_log (environment s) ++ [IoSleep seconds] in
    let s' := St (store s) (working s) (Env (ticks (environment s)) (issued (environment s)) log) in
    match run_sleep log seconds with Ok u => k u s' | Raise x => (Raise x, s') end.
Proof. unfold sleep, bind, emit, get_log, lift. simpl. by destruct (run_sleep _ _). Qed.

Hint Resolve quiet_start_attempt quiet_finish_attempt : quiet.

Lemma retry_loop_calls cfg request credential remaining n s r s' :
  (remaining + n = S (rc_max_attempts cfg))%nat →
  retry_loop cfg request credential remaining n s = (r, s') →
  ∃ calls, io_log (environment s') = io_log (environment s) ++ calls ∧
    follows cfg request calls (schedule cfg (xr_execution_id request) remaining n).
Proof.
  revert n s. induction remaining as [|remaining IH]; intros n s Hn Hr; cbn [retry_loop] in Hr.
  - injection Hr as <- <-. exists []. rewrite app_nil_r. split; [done|apply follows_nil].
  - apply bind_inv in Hr as [(a & s1 & Ha & Hr)|(x & Ha & ->)];
      apply quiet_log in Ha; auto with quiet;
      [|exists []; rewrite app_nil_r; split; [done|apply follows_nil]].
    rewrite capture_bind, invoke_executor_run in Hr. rewrite Ha in Hr.
    set (id := xr_execution_id request) in *.
    set (log1 := io_log (environment s) ++ [IoExecute id]) in *. simpl in Hr.
    assert (Hquiet : ∀ m : M D ExecutorResult, quiet m →
      m (St (store s1) (working s1)
           (Env (ticks (environment s1)) (issued (environment s1)) log1)) = (r, s') →
      ∃ calls, io_log (environment s') = io_log (environment s) ++ calls ∧
        follows cfg request calls (schedule cfg id (S remaining) n)).
    { intros m Hm Hrun. apply quiet_log in Hrun; [|done]. exists [IoExecute id].
      split; [done|apply follows_one]. }
    destruct (run_tool log1 request credential) as [res|x];
      [|destruct x; try (eapply Hquiet; [|exact Hr]; unfold cancel_attempt, fail_attempt; solve [quiet_solve])].
    { eapply Hquiet; [|exact Hr]. unfold succeed_attempt. quiet_solve. }
    destruct (may_retry request f && (n <? rc_max_attempts cfg)%nat) eqn:Hretry; rewrite ?Hretry in Hr;
      [|eapply Hquiet; [|exact Hr]; unfold fail_attempt; quiet_solve].
    apply andb_true_iff in Hretry as [Hmay Hlt]. apply Nat.ltb_lt in Hlt.
    apply bind_inv in Hr as [(u & s2 & Hf & Hr)|(x & Hf & ->)];
      apply quiet_log in Hf; [|unfold fail_attempt; auto with quiet| |unfold fail_attempt; auto with quiet].
    + rewrite sleep_run in Hr. cbv zeta in Hr.
      destruct (run_sleep (io_log (environment s2) ++ _) _) as [u'|x] eqn:Hsleep.
      2:{ injection Hr as <- <-. exists [IoExecute id; IoSleep (backoff cfg n)]. split.
          - simpl. rewrite Hf. unfold log1. simpl. by rewrite <-app_assoc.
          - split; [|intros Hu; by rewrite (retry_unsafe_never _ _ Hu) in Hmay].
            destruct remaining as [|remaining]; [lia|]. do 2 apply prefix_cons. apply prefix_nil. }
      apply IH in Hr as (calls & Hcalls & [Hpre _]); [|lia].
      exists (IoExecute id :: IoSleep (backoff cfg n) :: calls). split.
      * rewrite Hcalls. simpl. rewrite Hf. unfold log1. simpl. by rewrite <-!app_assoc.
      * split.
        -- destruct remaining as [|remaining]; [lia|]. by do 2 apply prefix_cons.
        -- intros Hu. rewrite (retry_unsafe_never _ _ Hu) in Hmay. done.
    + exists [IoExecute id]. split; [by rewrite Hf|apply follows_one].
Qed.
End Schedule.

(** ** The loop as a function of the executor's answers *)

Section Spec.
Context `{ToolExecutor, RetrySleeper}.

(** What [execute_with_retry] returns, the calls it makes and the attempts it
    records, the stores left aside. *)
Fixpoint retry_spec (cfg : RetryConfig) (request : ExecutorRequest)
    (credential : option ResolvedCredential) (log : list io_event) (remaining n : nat) :
    result exn ExecutorResult * list io_event * nat :=
  match remaining with
  | O => (Raise (RuntimeError "retry loop exhausted without a terminal result"), log, O)
  | S remaining =>
      let log := log ++ [IoExecute (xr_execution_id request)] in
      match run_tool log request credential with
      | Ok result => (Ok result, log, 1%nat)
      | Raise (Failure f) =>
          if may_retry request f && (n <? rc_max_attempts cfg)%nat
          then
            let log := log ++ [IoSleep (backoff cfg n)] in
            match run_sleep log (backoff cfg n) with
            | Ok _ => let '(r, log', k) := retry_spec cfg request credential log remaining (S n) in
                      (r, log', S k)
            | Raise x => (Raise x, log, 1%nat)
            end
          else (Raise (Failure (surface_failure request f)), log, 1%nat)
      | Raise x => (Raise x, log, 1%nat)
      end
  end.
End Spec.

Definition status_ok (upstream : option Z) : Prop :=
  match upstream with Some s => (100 <= s <= 599)%Z | None => True end.

(** The generator yields no blank and, from its [n]-th reading on, no
    identifier of the stores. *)
Definition fresh_ids `{Ports} (n : nat) (d : execution_store) : Prop :=
  ∀ m, (n <= m)%nat → blank (identifier m) = false ∧
    dget (identifier m) (es_executions d) = None ∧ dget (identifier m) (es_attempts d) = None ∧
    dget (identifier m) (es_audits d) = None.

Definition all_closed (execution_id : string) (attempts : dict ExecutionAttempt) : Prop :=
  ∀ k a, dget k attempts = Some a → at_execution_id a = execution_id → at_status a ≠ AtRunning.

Section Refinement.
Context `{Ports} `{!Inj (=) (=) identifier}.
Implicit Types (d : execution_store).

(** A generator that never repeats itself stays fresh when the identifier it
    just gave is used. *)
Lemma fresh_ids_next n d d' :
  fresh_ids n d →
  (∀ m, dget (identifier m) (es_executions d) = None → m ≠ n →
    dget (identifier m) (es_executions d') = None) →
  (∀ m, dget (identifier m) (es_attempts d) = None → m ≠ n →
    dget (identifier m) (es_attempts d') = None) →
  (∀ m, dget (identifier m) (es_audits d) = None → m ≠ n →
    dget (identifier m) (es_audits d') = None) →
  fresh_ids (S n) d'.
Proof.
  intros Hf H1 H2 H3 m Hm. destruct (Hf m) as (Hb & F1 & F2 & F3); [lia|].
  split_and!; [done|apply H1|apply H2|apply H3]; (done || lia).
Qed.

Lemma dget_dset_used {V} n m (v : V) t :
  dget (identifier m) t = None → m ≠ n → dget (identifier m) (dset (identifier n) v t) = None.
Proof. intros Hn Hm. rewrite dget_dset_ne; [done|]. by intros E%(inj _). Qed.

Lemma dget_dset_known {V} k m (v w : V) t :
  dget (identifier m) t = None → dget k t = Some w → dget (identifier m) (dset k v t) = None.
Proof. intros Hn Hk. rewrite dget_dset_ne; [done|]. intros E. congruence. Qed.

Lemma counted_valid x :
  new_execution x = Ok x → ex_status x = ExRunning →
  let x' := execution_at x (ex_status x) (ex_started_at x) (ex_finished_at x) (ex_error_code x)
              (ex_error_category x) (ex_attempt_count x + 1) in
  register_attempt x = Ok x'.
Proof.
  intros Hv Hrun x'. pose proof (execution_count_nonneg _ Hv) as Hpos.
  unfold register_attempt, execution_require_running. rewrite Hrun. simpl.
  subst x'. rewrite Hrun. unfold new_execution in *. guards Hv. rewrite Hrun in *. simpl in *.
  repeat match goal with
  | G : (_ <? 0)%Z = false |- rbind (raise_if (_ <? 0)%Z _) _ = _ =>
      eapply rbind_Ok_intro; [by rewrite (proj2 (Z.ltb_ge _ _)) by lia|]; clear G
  | G : _ = Ok _ |- rbind _ _ = Ok _ => eapply rbind_Ok_intro; [exact G|]; clear G
  | G : _ = false |- rbind (raise_if _ _) _ = Ok _ =>
      rewrite G; eapply rbind_Ok_intro; [reflexivity|]; clear G
  | _ => eapply rbind_Ok_intro; [reflexivity|]
  end; done.
Qed.

Lemma next_number_free d id x b :
  ledger_ok d → dget id (es_executions d) = Some x →
  at_execution_id b = id → at_attempt_number b = (ex_attempt_count x + 1)%Z →
  existsb (same_attempt_number b) (dvalues (es_attempts d)) = false.
Proof.
  intros Hok Hx Hb Hn. apply not_true_iff_false. intros Hex.
  apply existsb_exists in Hex as (a & Hin & Hs). unfold same_attempt_number in Hs. py_bools.
  assert (Hv : at_attempt_number a ∈ attempt_numbers id (es_attempts d)).
  { unfold attempt_numbers. apply list_elem_of_In, dvalues_mem in Hin as [k Hin].
    apply elem_of_view. exists k, a. split_and!; [done|congruence|done]. }
  rewrite (led_numbers _ Hok _ _ Hx) in Hv. apply elem_of_seqZ in Hv. lia.
Qed.

Lemma terminal_attempt_total a status code category t upstream :
  new_attempt a = Ok a → at_status a = AtRunning → at_upstream_status a = None →
  status_ok upstream →
  (status ∈ [AtSucceeded; AtCancelled] ∨ is_Some code ∧ is_Some category) →
  ∃ a', terminal_attempt a status code category t upstream = Ok a'.
Proof.
  intros Hv Hrun Hup Hok Hst.
  assert (Hfin : ∀ s code cat up, s ≠ AtRunning → status_ok up →
    (if decide (s = AtSucceeded) then code = None ∧ cat = None
     else is_Some code ∧ is_Some cat) →
    new_attempt (attempt_at a s (Some t) code cat up) = Ok (attempt_at a s (Some t) code cat up)).
  { clear -Hv. intros s code cat up Hs Hu Hc. unfold new_attempt in *. guards Hv. simpl.
    repeat match goal with
    | G : _ = Ok ?y |- rbind _ _ = Ok _ => eapply rbind_Ok_intro; [exact G|]; clear G
    end.
    rewrite G0. simpl.
    replace (match up with Some s0 => _ | None => false end) with false
      by (destruct up; simpl in *; [|done]; by rewrite (proj2 (Z.leb_le _ _)),
        (proj2 (Z.leb_le _ _)) by lia).
    destruct s; try done; case_decide; try done; destruct Hc as [Hc1 Hc2]; simplify_eq;
      try destruct Hc1 as [? ->]; try destruct Hc2 as [? ->]; done. }
  assert (He : at_error_code a = None ∧ at_error_category a = None).
  { clear -Hv Hrun. unfold new_attempt in Hv. guards Hv. rewrite Hrun in *.
    by destruct (at_error_code a), (at_error_category a). }
  destruct He as [E1 E2].
  unfold terminal_attempt, attempt_succeed, attempt_cancel, attempt_fail, attempt_require_running.
  rewrite Hrun, E1, E2, Hup. simpl.
  destruct status; try (destruct Hst as [Hst|[[? ->] [? ->]]]; [by set_solver|]); simpl;
    (rewrite Hfin; [by eexists|done|done|case_decide; first [done|by eauto]]).
Qed.

(** A running execution can always start its next attempt. *)
Lemma start_attempt_total d id x e :
  ledger_ok d → dget id (es_executions d) = Some x → ex_status x = ExRunning →
  fresh_ids (issued e) d →
  let t := clock_now (ticks e) in
  let n := (ex_attempt_count x + 1)%Z in
  let a := mkAttempt (identifier (issued e)) (ex_tenant_id x) id n AtRunning t
             None None None None in
  let x' := execution_at x (ex_status x) (ex_started_at x) (ex_finished_at x) (ex_error_code x)
              (ex_error_category x) n in
  new_attempt a = Ok a ∧
  start_attempt (ex_tenant_id x) id (St d None e) =
    (Ok a, St (mkExecutionStore (dset id x' (es_executions d)) (dset (at_id a) a (es_attempts d))
                (es_approvals d) (es_audits d)) None
            (Env (S (ticks e)) (S (issued e)) (io_log e))).
Proof.
  intros Hok Hx Hrun Hf t n a x'. destruct (led_valid _ Hok _ _ Hx) as [Hv _].
  pose proof (keyed_get _ _ _ _ (led_executions _ Hok) Hx) as Hid.
  pose proof (execution_count_nonneg _ Hv) as Hpos.
  destruct (Hf (issued e)) as (Hb & _ & Hfr & _); [done|].
  assert (Ha : new_attempt a = Ok a).
  { unfold new_execution in Hv. guards Hv.
    match goal with G : require_non_blank _ = Ok ?u |- _ =>
      destruct u; apply require_non_blank_Ok in G; repeat apply Forall_cons in G as [? G] end.
    unfold new_attempt, a. cbn [at_id at_tenant_id at_execution_id].
    rewrite (proj2 (require_non_blank_Ok _)) by
      (simpl in *; rewrite <-Hid; repeat (apply Forall_cons; split; [done|]); by apply Forall_nil).
    cbn [rbind at_attempt_number]. rewrite (proj2 (Z.leb_gt _ _)) by (unfold n; lia). done. }
  split; [exact Ha|].
  unfold start_attempt, bind at 1, now. simpl. unfold with_uow, bind at 1. simpl.
  unfold get_execution, bind at 1, read_table. simpl. rewrite Hx. simpl.
  rewrite decide_True by done. unfold bind at 1, lift. rewrite Hrun. simpl.
  unfold bind at 1, lift. rewrite (counted_valid _ Hv Hrun). fold n. fold x'.
  unfold bind at 1, new_id. simpl. unfold bind at 1, lift. fold t.
  change (new_attempt _) with (new_attempt a). rewrite Ha.
  unfold bind at 1, save_execution, require_matching_tenant, bind, lift, read_table, write_table.
  simpl. rewrite bool_decide_eq_true_2 by done. simpl. rewrite Hid, Hx. simpl.
  rewrite decide_True by done. simpl.
  unfold add_attempt, require_matching_tenant, bind, lift, read_table, write_table. simpl.
  rewrite bool_decide_eq_true_2 by done. simpl.
  rewrite (proj2 (dmem_false _ _)) by done. simpl.
  by rewrite (next_number_free d id x) by done.
Qed.

(** A running attempt just started can always be finished. *)
Lemma finish_attempt_total d a status code category upstream e :
  dget (at_id a) (es_attempts d) = Some a → new_attempt a = Ok a →
  at_status a = AtRunning → at_upstream_status a = None → status_ok upstream →
  (status ∈ [AtSucceeded; AtCancelled] ∨ is_Some code ∧ is_Some category) →
  ∃ a', finish_attempt (at_tenant_id a) (at_id a) status code category upstream (St d None e) =
      (Ok a', St (mkExecutionStore (es_executions d) (dset (at_id a) a' (es_attempts d))
                    (es_approvals d) (es_audits d)) None
                (Env (S (ticks e)) (issued e) (io_log e))) ∧
    at_status a' ≠ AtRunning ∧ at_id a' = at_id a ∧ at_execution_id a' = at_execution_id a.
Proof.
  intros Ha Hv Hrun Hup Hok Hst.
  destruct (terminal_attempt_total a status code category (clock_now (ticks e)) upstream)
    as (a' & Hterm); try done.
  destruct (terminal_attempt_Ok _ _ _ _ _ _ _ Hterm) as (_ & Hn & Ha').
  exists a'. assert (Hid : at_id a' = at_id a) by (by rewrite Ha').
  assert (Htn : at_tenant_id a' = at_tenant_id a) by (by rewrite Ha').
  split; [|split_and!; [done|done|by rewrite Ha']].
  unfold finish_attempt, bind at 1, now. simpl. unfold with_uow, bind at 1. simpl.
  unfold get_attempt, bind at 1, read_table. simpl. rewrite Ha. simpl.
  rewrite decide_True by done. unfold bind at 1, lift. rewrite Hrun. simpl.
  unfold bind at 1, lift. rewrite Hterm.
  unfold bind at 1, save_attempt, require_matching_tenant, bind, lift, read_table, write_table.
  rewrite Htn, bool_decide_eq_true_2 by done. simpl. rewrite Hid, Ha. simpl.
  by rewrite decide_True.
Qed.

Lemma all_closed_dset id a a' attempts :
  all_closed id attempts → at_status a' ≠ AtRunning →
  all_closed id (dset (at_id a) a' (dset (at_id a) a attempts)).
Proof.
  intros Hc Ha k b. rewrite !dget_dset. case_decide; [|by apply Hc].
  intros [= <-] _. exact Ha.
Qed.
End Refinement.

(** ** The loop computes its specification *)

Section LoopRefinement.
Context `{Ports} `{!Inj (=) (=) identifier} `{ToolExecutor, RetrySleeper}.
Context (cfg : RetryConfig) (request : ExecutorRequest) (credential : option ResolvedCredential).
(** HTTP statuses in the answers are HTTP statuses. *)
Hypothesis statuses_valid : ∀ log,
  match run_tool log request credential with
  | Ok result => status_ok (er_upstream_status result)
  | Raise (Failure f) => status_ok (ef_upstream_status f)
  | Raise _ => True
  end.
Implicit Types (d : execution_store).

(** The state of the ledger around a call of the executor. *)
Record serving (id : string) (x : ToolExecution) d (e : env) : Prop := {
  sv_ok : ledger_ok d;
  sv_stored : dget id (es_executions d) = Some x;
  sv_running : ex_status x = ExRunning;
  sv_fresh : fresh_ids (issued e) d;
  sv_closed : all_closed id (es_attempts d) }.

(** What the loop leaves: the execution with [k] more attempts. *)
Definition served (id : string) (x : ToolExecution) d (k : nat) (d' : execution_store) (e' : env) :
    Prop :=
  ∃ x', serving id x' d' e' ∧ same_call x x' ∧
    ex_attempt_count x' = (ex_attempt_count x + Z.of_nat k)%Z ∧
    es_approvals d' = es_approvals d ∧ es_audits d' = es_audits d ∧
    ∀ k, k ≠ id → dget k (es_executions d') = dget k (es_executions d).

(** One attempt, started and finished around a call. *)
Lemma attempt_served id x d e status code category upstream log :
  serving id x d e → status_ok upstream →
  (status ∈ [AtSucceeded; AtCancelled] ∨ is_Some code ∧ is_Some category) →
  ∃ a d1 a' d2,
    let e1 := Env (S (ticks e)) (S (issued e)) log in
    let e2 := Env (S (S (ticks e))) (S (issued e)) log in
    start_attempt (ex_tenant_id x) id (St d None e) =
      (Ok a, St d1 None (Env (S (ticks e)) (S (issued e)) (io_log e))) ∧
    finish_attempt (ex_tenant_id x) (at_id a) status code category upstream (St d1 None e1) =
      (Ok a', St d2 None e2) ∧
    served id x d 1 d2 e2.
Proof.
  intros [Hok Hx Hrun Hfr Hcl] Hup Hst.
  destruct (start_attempt_total _ _ _ _ Hok Hx Hrun Hfr) as [Hv Hs].
  match type of Hs with _ = (Ok ?a, St ?d1 None _) => exists a, d1; set (a0 := a) in *;
    set (d1' := d1) in * end.
  assert (Hok1 : ledger_ok d1') by (by eapply ledger_start_attempt).
  destruct (finish_attempt_total d1' a0 status code category upstream
    (Env (S (ticks e)) (S (issued e)) log)) as (a' & Hf & Hn & Hid & Hexe); try done.
  { unfold d1'. simpl. by rewrite dget_dset_eq. }
  eexists a', _. intros e1 e2. split; [exact Hs|]. split; [exact Hf|].
  pose proof (keyed_get _ _ _ _ (led_executions _ Hok) Hx) as Hidx.
  eexists. split_and!.
  - split.
    + by eapply ledger_finish_attempt.
    + simpl. by rewrite dget_dset_eq.
    + exact Hrun.
    + apply (fresh_ids_next _ d); [done|..]; simpl; intros m Hm Hne; [|
        by do 2 (apply dget_dset_used; [|done])|done].
      by eapply dget_dset_known.
    + by apply (all_closed_dset id a0 a').
  - by unfold same_call.
  - done.
  - done.
  - done.
  - intros k Hk. simpl. by rewrite dget_dset_ne.
Qed.

Lemma served_refl id x d e : serving id x d e → served id x d 0 d e.
Proof.
  intros Hs. exists x. split_and!; [done|apply same_call_refl|lia|done|done|done].
Qed.

Lemma serving_env id x d e e' : issued e' = issued e → serving id x d e → serving id x d e'.
Proof. intros E []. split; try done. by rewrite E. Qed.

Lemma served_trans id x x1 d d1 d2 e2 k :
  same_call x x1 → ex_attempt_count x1 = (ex_attempt_count x + 1)%Z →
  es_approvals d1 = es_approvals d → es_audits d1 = es_audits d →
  (∀ k, k ≠ id → dget k (es_executions d1) = dget k (es_executions d)) →
  served id x1 d1 k d2 e2 → served id x d (S k) d2 e2.
Proof.
  intros Hc Hn Ha Hu Ho (x2 & Hs & Hc2 & Hn2 & Ha2 & Hu2 & Ho2). exists x2.
  split_and!; [done|by eapply same_call_trans|lia|congruence|congruence|].
  intros k' Hk'. by rewrite Ho2, Ho.
Qed.

(** Around one call: the attempt is started, the call is made, and the
    answer's handler goes on in the state where the attempt is still open. *)
Lemma loop_call remaining n x a d d1 e :
  let id := xr_execution_id request in
  let log := io_log e ++ [IoExecute id] in
  let s1 := St d1 None (Env (S (ticks e)) (S (issued e)) log) in
  rt_tenant_id (xr_tool request) = ex_tenant_id x →
  start_attempt (ex_tenant_id x) id (St d None e) =
    (Ok a, St d1 None (Env (S (ticks e)) (S (issued e)) (io_log e))) →
  retry_loop cfg request credential (S remaining) n (St d None e) =
    match run_tool log request credential with
    | Raise CancelledError =>
        (cancel_attempt (ex_tenant_id x) (at_id a) ;;* raise CancelledError) s1
    | Raise (Failure f) =>
        (fail_attempt (ex_tenant_id x) (at_id a) (ef_code f) (ef_category f)
           (ef_outcome_unknown f) (ef_upstream_status f) ;;*
         if may_retry request f && (n <? rc_max_attempts cfg)%nat
         then
           sleep (backoff cfg n) ;;*
           retry_loop cfg request credential remaining (S n)
         else raise (Failure (surface_failure request f))) s1
    | Raise y =>
        (fail_attempt (ex_tenant_id x) (at_id a) "unexpected_executor_failure" CatUnknown true
           None ;;* raise y) s1
    | Ok result =>
        (succeed_attempt (ex_tenant_id x) (at_id a) (er_upstream_status result) ;;*
         ret result) s1
    end.
Proof.
  intros id log s1 Htn Hs. cbn [retry_loop]. rewrite Htn.
  rewrite (bind_Ok _ _ _ _ _ Hs), capture_bind, invoke_executor_run. simpl. fold id log s1.
  destruct (run_tool log request credential) as [res|y]; [done|by destruct y].
Qed.

(** The attempt of a call that is not made again: it is closed, and its outcome
    goes to the caller. *)
Lemma attempt_ends remaining n x d e status code category upstream r :
  let id := xr_execution_id request in
  let log := io_log e ++ [IoExecute id] in
  rt_tenant_id (xr_tool request) = ex_tenant_id x → serving id x d e → status_ok upstream →
  (status ∈ [AtSucceeded; AtCancelled] ∨ is_Some code ∧ is_Some category) →
  (∀ a d1, start_attempt (ex_tenant_id x) id (St d None e) =
       (Ok a, St d1 None (Env (S (ticks e)) (S (issued e)) (io_log e))) →
     let s1 := St d1 None (Env (S (ticks e)) (S (issued e)) log) in
     retry_loop cfg request credential (S remaining) n (St d None e) =
       (finish_attempt (ex_tenant_id x) (at_id a) status code category upstream ;;* lift r) s1) →
  ∃ d', let e' := Env (2 * 1 + ticks e) (1 + issued e) log in
    retry_loop cfg request credential (S remaining) n (St d None e) = (r, St d' None e') ∧
    served id x d 1 d' e'.
Proof.
  intros id log Htn Hs Hup Hst Hloop.
  destruct (attempt_served _ _ _ _ _ code category _ log Hs Hup Hst) as (a & d1 & a' & d2 & Hat & Hfin & Hsv).
  exists d2. split; [|exact Hsv]. rewrite (Hloop a d1 Hat), (bind_Ok _ _ _ _ _ Hfin). by destruct r.
Qed.

Lemma retry_loop_served remaining n x d e :
  rt_tenant_id (xr_tool request) = ex_tenant_id x → serving (xr_execution_id request) x d e →
  let '(r, log', k) := retry_spec cfg request credential (io_log e) remaining n in
  ∃ d', let e' := Env (2 * k + ticks e) (k + issued e) log' in
    retry_loop cfg request credential remaining n (St d None e) = (r, St d' None e') ∧
    served (xr_execution_id request) x d k d' e'.
Proof.
  revert n x d e. induction remaining as [|remaining IH]; intros n x d e Htn Hs.
  { exists d. split; [by destruct e|]. by apply served_refl, (serving_env _ _ _ e). }
  set (log := io_log e ++ [IoExecute (xr_execution_id request)]).
  pose proof (statuses_valid log) as Hv.
  assert (Hends := λ status code category upstream r, attempt_ends remaining n x d e status code category upstream r Htn Hs).
  assert (Hcall := λ a d1, loop_call remaining n x a d d1 e Htn).
  cbn [retry_spec]. fold log. cbv zeta in Hends, Hcall. fold log in Hends, Hcall.
  destruct (run_tool log request credential) as [res|y] eqn:Hrun.
  { apply (Hends AtSucceeded None None (er_upstream_status res)); [done|set_solver|apply Hcall]. }
  destruct y as [| | | | | | |f|];
    try (apply (Hends AtUnknown (Some "unexpected_executor_failure") (Some CatUnknown) None);
         [done|by eauto|apply Hcall]).
  - apply (Hends AtCancelled None None None); [done|set_solver|apply Hcall].
  - set (status := if ef_outcome_unknown f then AtUnknown else AtFailed).
    destruct (may_retry request f && (n <? rc_max_attempts cfg)%nat) eqn:Hmore.
    + destruct (attempt_served _ _ _ _ status (Some (ef_code f)) (Some (ef_category f)) (ef_upstream_status f) log Hs Hv)
        as (a & d1 & a' & d2 & Hat & Hfin & x1 & Hs1 & Hc1 & Hn1 & Ha1 & Hu1 & Ho1); [by eauto|].
      assert (Hslept := Hcall a d1 Hat). unfold fail_attempt in Hslept. rewrite (bind_Ok _ _ _ _ _ Hfin), sleep_run in Hslept.
      cbv zeta in Hslept. cbn [environment io_log store working ticks issued] in Hslept.
      set (log2 := log ++ [IoSleep (backoff cfg n)]) in *. destruct (run_sleep log2 _) as [u|x'].
      2:{ exists d2. split; [exact Hslept|]. exists x1. split_and!; try done. by refine (serving_env _ _ _ _ _ _ Hs1). }
      specialize (IH (S n) x1 d2 (Env (S (S (ticks e))) (S (issued e)) log2)).
      simpl in IH. destruct (retry_spec _ _ _ _ remaining (S n)) as [[r log'] k].
      destruct IH as (d' & Hd' & Hsv); [by rewrite Hc1; exact Htn|by refine (serving_env _ _ _ _ _ _ Hs1)|].
      exists d'. split.
      * rewrite Hslept, Hd'. f_equal. f_equal. f_equal; lia.
      * replace (2 * S k + ticks e)%nat with (k + (k + 0) + S (S (ticks e)))%nat by lia.
        replace (S k + issued e)%nat with (k + S (issued e))%nat by lia.
        by eapply served_trans.
    + apply (Hends status (Some (ef_code f)) (Some (ef_category f)) (ef_upstream_status f)); [done|by eauto|apply Hcall].
Qed.
End LoopRefinement.

(** ** Properties *)

(** C10: whatever the store, the clock and the executor's answers, the calls
    observed while [ExecuteWithRetry.execute] runs are a prefix of the
    schedule: executor calls for this execution, at most [max_attempts] of
    them, separated by backoffs of [initial * 2 ^ (n - 1)] seconds; and a call
    that is neither read-only nor an idempotent write under a key reaches the
    executor at most once. *)
Theorem retry_calls_bounded {D} `{Ports, ToolExecutor, RetrySleeper} `{!Table D ToolExecution}
    `{!Table D ExecutionAttempt} `{!Table D ApprovalRequest} `{!Table D AuditEvent}
    cfg request credential (s : st D) :
  ∃ calls,
    io_log (environment (execute_with_retry cfg request credential s).2) =
      io_log (environment s) ++ calls ∧
    calls `prefix_of` schedule cfg (xr_execution_id request) (rc_max_attempts cfg) 1 ∧
    (length (filter is_execute calls) <= rc_max_attempts cfg)%nat ∧
    (retry_unsafe request → (length calls <= 1)%nat).
Proof.
  destruct (execute_with_retry cfg request credential s) as [r s'] eqn:Hr. unfold execute_with_retry in Hr.
  apply retry_loop_calls in Hr as (calls & Hc & [Hp Hu]); [|lia].
  exists calls. split_and!; [done|done| |done].
  rewrite <-(schedule_length cfg (xr_execution_id request) (rc_max_attempts cfg) 1).
  destruct Hp as [rest ->]. rewrite filter_app, length_app. lia.
Qed.

(** C9: on a good ledger, for a RUNNING execution without open attempts, when
    the generator never repeats itself and the executor reports HTTP statuses,
    [ExecuteWithRetry.execute] returns or raises exactly what [retry_spec]
    says the answers of the executor and of the sleeper amount to, after exactly its calls; it leaves
    a good ledger in which the execution is still RUNNING with one more
    recorded attempt per call, all of them closed, and approvals and audit
    events as they were. *)
Theorem execute_with_retry_refines `{Ports} `{!Inj (=) (=) identifier} `{ToolExecutor, RetrySleeper}
    cfg request credential d x e
    (Hstatuses : ∀ log,
      match run_tool log request credential with
      | Ok result => status_ok (er_upstream_status result)
      | Raise (Failure f) => status_ok (ef_upstream_status f)
      | Raise _ => True
      end)
    (Htenant : rt_tenant_id (xr_tool request) = ex_tenant_id x)
    (Hserving : serving (xr_execution_id request) x d e) :
  let '(r, log', k) :=
    retry_spec cfg request credential (io_log e) (rc_max_attempts cfg) 1 in
  ∃ d', let e' := Env (2 * k + ticks e) (k + issued e) log' in
    execute_with_retry cfg request credential (St d None e) = (r, St d' None e') ∧
    served (xr_execution_id request) x d k d' e'.
Proof. by apply retry_loop_served. Qed.

(** ** Witnesses *)

Module RetryExamples.
Definition hash : Ascii.ascii := Ascii.ascii_of_nat 35.
Fixpoint unary (n : nat) : string :=
  match n with O => "#" | S n => String hash (unary n) end.
Definition counting_ports : Ports := {|
  clock_now n := Datetime (1000 + Z.of_nat n) true;
  identifier := unary |}.

Lemma unary_inj : Inj (=) (=) unary.
Proof.
  intros n. induction n as [|n IH]; intros [|m] E; simpl in E; simplify_eq; f_equal; auto;
    by (destruct n || destruct m).
Qed.

#[export] Instance counting_inj : Inj (=) (=) (@identifier counting_ports) := unary_inj.

Lemma unary_head n : ∃ s, unary n = String hash s.
Proof. destruct n; by eexists. Qed.

Definition tool : ResolvedExecutableTool :=
  mkResolvedTool "tenant" "tool" "v1" "b1" "up" "ns.tool" 1 [] None ReadOnly VisPublic
    BindHttp [] "https://api.example.com" None.
Definition request : ExecutorRequest := mkExecutorRequest "a-id" tool [] 5 None.
Definition cfg : RetryConfig := mkRetryConfig 3 (1 # 20).

(** Fails on the network twice, then answers. *)
Definition flaky : ToolExecutor := λ log _ _,
  if (length log <? 4)%nat
  then Raise (Failure (ExecutorFailure "upstream_network" CatNetwork true None))
  else Ok (mkExecutorResult JNull None (Some 200%Z)).

(** A sleeper that sleeps, and one whose sleep is cancelled. *)
Definition sleeping : RetrySleeper := λ _ _, Ok tt.
Definition cancelled_sleep : RetrySleeper := λ _ _, Raise CancelledError.

Definition start : execution_store := LifecycleExamples.after_plan.
Definition env0 : env := Env 1 2 [].

Lemma flaky_statuses log :
  match run_tool (ToolExecutor := flaky) log request None with
  | Ok result => status_ok (er_upstream_status result)
  | Raise (Failure f) => status_ok (ef_upstream_status f)
  | Raise _ => True
  end.
Proof. unfold run_tool, flaky. destruct (_ <? _)%nat; simpl; [done|lia]. Qed.

Definition running : ToolExecution :=
  planned_execution LifecycleExamples.call "a-id" (Datetime 1000 true).

Lemma start_serving : serving (H := counting_ports) "a-id" running start env0.
Proof.
  split.
  - apply LifecycleExamples.after_plan_ok.
  - vm_compute. reflexivity.
  - reflexivity.
  - intros m _. simpl. destruct (unary_head m) as [s ->].
    rewrite blank_spec. split_and!; reflexivity.
  - by intros k a.
Qed.
End RetryExamples.

#[local] Existing Instance RetryExamples.counting_inj.

Lemma execute_with_retry_refines_witness :
  ∃ d' x', execute_with_retry (H := RetryExamples.counting_ports) (H0 := RetryExamples.flaky)
      (H1 := RetryExamples.sleeping) RetryExamples.cfg RetryExamples.request None
      (St RetryExamples.start None RetryExamples.env0) =
      (Ok (mkExecutorResult JNull None (Some 200%Z)),
       St d' None (Env 7 5 [IoExecute "a-id"; IoSleep ((1 # 20) * 1); IoExecute "a-id";
                            IoSleep ((1 # 20) * 2); IoExecute "a-id"])) ∧
    ex_attempt_count x' = 3%Z.
Proof.
  destruct (execute_with_retry_refines (H := RetryExamples.counting_ports)
    (H0 := RetryExamples.flaky) (H1 := RetryExamples.sleeping) RetryExamples.cfg RetryExamples.request None RetryExamples.start
    RetryExamples.running RetryExamples.env0 RetryExamples.flaky_statuses eq_refl
    RetryExamples.start_serving) as (d' & P & (x' & _ & _ & Q & _)).
  exists d', x'. split; [exact P|exact Q].
Defined.

(** A cancelled backoff ends the loop with its attempt closed. *)
Example cancelled_backoff :
  let '(r, s') := execute_with_retry (H := RetryExamples.counting_ports) (H0 := RetryExamples.flaky)
      (H1 := RetryExamples.cancelled_sleep) RetryExamples.cfg RetryExamples.request None
      (St RetryExamples.start None RetryExamples.env0) in
  r = Raise CancelledError ∧ io_log (environment s') = [IoExecute "a-id"; IoSleep ((1 # 20) * 1)] ∧
  at_status <$> dvalues (es_attempts (store s')) = [AtUnknown].
Proof. vm_compute. repeat split. Qed.
