(* ===== verification/CallTool.v ===== *)
(** * CallTool: the path of one tool call

    Models [modules/execution/call_tool.py]: principal, tool, visibility,
    arguments, idempotency key, policy, approval gate, egress check,
    credential binding, plan, secret, execution, terminal state.  The
    collaborators of [CallTool.__init__] are the fields of [CallToolPorts]:
    readers answer by the log of the observable calls made so far, the
    executor is any computation over the stores, lawful in the sense of
    [LawfulExecutor]; [execute_with_retry] of Retry.v is one. *)

From Stdlib Require Import ZArith QArith Lia.
From stdpp Require Import base sets strings option list pretty.
From S2P Require Import Prelude Text Dict Errors Json Store AuditTrail Catalog Connectors.
From S2P Require Import Registry Identity Policy Credentials Approval Execution Lifecycle.
From S2P Require Import Retry.
Open Scope py_scope.

(** ** [datetime.isoformat] of a UTC instant *)

(** The civil date of a day number counted from 1970-01-01. *)
Definition civil_from_days (days : Z) : Z * Z * Z :=
  let z := (days + 719468)%Z in
  let era := (z / 146097)%Z in
  let doe := (z - era * 146097)%Z in
  let yoe := ((doe - doe / 1460 + doe / 36524 - doe / 146096) / 365)%Z in
  let doy := (doe - (365 * yoe + yoe / 4 - yoe / 100))%Z in
  let mp := ((5 * doy + 2) / 153)%Z in
  let d := (doy - (153 * mp + 2) / 5 + 1)%Z in
  let m := (if mp <? 10 then mp + 3 else mp - 9)%Z in
  let y := (yoe + era * 400 + (if m <=? 2 then 1 else 0))%Z in
  (y, m, d).

(** [f"{n:0{width}d}"] *)
Definition padded (width : nat) (n : Z) : string :=
  let s := pretty n in
  String.concat "" (replicate (width - String.length s) "0") +:+ s.

Definition isoformat (t : datetime) : string :=
  let us := dt_micros t in
  let '(y, m, d) := civil_from_days (us / 86400000000)%Z in
  let s := (us / 1000000 mod 86400)%Z in
  let micro := (us mod 1000000)%Z in
  padded 4 y +:+ "-" +:+ padded 2 m +:+ "-" +:+ padded 2 d +:+ "T"
  +:+ padded 2 (s / 3600) +:+ ":" +:+ padded 2 (s / 60 mod 60) +:+ ":" +:+ padded 2 (s mod 60)
  +:+ (if (micro =? 0)%Z then "" else "." +:+ padded 6 micro)
  +:+ (if dt_aware t then "+00:00" else "").

(** ** Visibility and the errors shown to clients *)

(** [_is_visible] *)
Definition is_visible (visibility : ToolVisibility) (principal_type : PrincipalType) : bool :=
  match visibility with
  | VisPublic => true
  | VisAuthenticated => negb (bool_decide (principal_type = Anonymous))
  | VisRestricted => false
  end.

(** [_public_executor_error] *)
Definition public_executor_error (f : executor_failure) : nexus_error :=
  if ef_outcome_unknown f then UnknownExecutionOutcomeError
  else if bool_decide (ef_category f = CatValidation) then InvalidArgumentsError
  else if bool_decide (ef_category f = CatAuthorization) then AuthorizationError
  else if bool_decide (ef_category f ∈ [CatTimeoutBeforeSend; CatTimeoutAfterSend])
  then UpstreamTimeoutError
  else if bool_decide (ef_category f ∈ [CatNetwork; CatUpstream5xx])
  then UpstreamUnavailableError
  else UpstreamResponseError.

(** ** The collaborators *)

Definition reader (A : Type) : Type := list io_event → res A.

Record CallToolPorts (D : Type) := mkCallToolPorts {
  cp_principal_resolver : ActorContext → reader InternalPrincipal;
  cp_tool_resolver : string → string → reader (option ResolvedExecutableTool);
  cp_arguments_validator : dict json → dict json → res unit;
  cp_policy_evaluator : PolicyEvaluationInput → reader PolicyDecision;
  cp_executor : ExecutorRequest → option ResolvedCredential → M D ExecutorResult;
  cp_credential_binding_resolver :
    option (string → InternalPrincipal → string → string → reader (option CredentialBinding));
  cp_credential_provider : option (SecretReference → reader SecretValue);
  cp_request_approval : option Q;
  cp_timeout_seconds : Q }.
Arguments cp_principal_resolver {D}.
Arguments cp_tool_resolver {D}.
Arguments cp_arguments_validator {D}.
Arguments cp_policy_evaluator {D}.
Arguments cp_executor {D}.
Arguments cp_credential_binding_resolver {D}.
Arguments cp_credential_provider {D}.
Arguments cp_request_approval {D}.
Arguments cp_timeout_seconds {D}.

(** [CallTool.__init__] *)
Definition new_call_tool {D} (p : CallToolPorts D) : res (CallToolPorts D) :=
  raise_if (Qle_bool (cp_timeout_seconds p) 0) (ValueError "tool call timeout must be positive") ;;?
  Ok p.

(** What the first half of the call settles: who calls which tool, under
    which decision, with which arguments digest. *)
Record AuthorizedCall := mkAuthorized {
  ac_principal : InternalPrincipal;
  ac_tool : ResolvedExecutableTool;
  ac_decision : PolicyDecision;
  ac_digest : string }.

Section CallTool.
Context {D : Type} `{Ports} `{EndpointPolicy} `{!Table D ToolExecution}
  `{!Table D ExecutionAttempt} `{!Table D ApprovalRequest} `{!Table D AuditEvent}.

Definition ask {A} (f : reader A) : M D A := let* log := get_log in lift (f log).

(** [_record_policy_decision] *)
Definition record_policy_decision (c : CallToolCommand) (a : AuthorizedCall)
    (outcome : AuditOutcome) : M D unit :=
  record_call_decision
    (mkRecordDecision (ct_context c) (ip_id (ac_principal a)) (rt_tool_version_id (ac_tool a))
       (ac_digest a) (pd_policy_version (ac_decision a)) (pd_reason_code (ac_decision a)) outcome
       (ct_mcp_scope_type c) (ct_toolset_id c) (ct_toolset_revision c)).

(** [_pass_approval_gate] *)
Definition pass_approval_gate (p : CallToolPorts D) (c : CallToolCommand) (a : AuthorizedCall) :
    M D unit :=
  match ct_approval_id c with
  | Some _ => ret tt
  | None =>
      match cp_request_approval p with
      | None => raise (Nexus (ApprovalRequiredError None None))
      | Some ttl =>
          let* approval := request_approval ttl
            (mkRequestApproval (ct_context c) (ip_id (ac_principal a)) (rt_tool_id (ac_tool a))
               (rt_tool_version_id (ac_tool a)) (ac_digest a)
               (pd_policy_version (ac_decision a)) (ct_idempotency_key c)
               (pd_reason_code (ac_decision a)) (scope_type_value (ct_mcp_scope_type c))
               (ct_toolset_id c) (ct_toolset_revision c)) in
          raise (Nexus (ApprovalRequiredError (Some (ar_id approval))
                          (Some (isoformat (ar_expires_at approval)))))
      end
  end.

(** The checks of [execute] before the policy is asked. *)
Definition check_call (p : CallToolPorts D) (c : CallToolCommand) :
    M D (InternalPrincipal * ResolvedExecutableTool) :=
  let ctx := ct_context c in
  let* principal := ask (cp_principal_resolver p ctx) in
  let* found := ask (cp_tool_resolver p (ctx_tenant_id ctx) (ct_tool_name c)) in
  match found with
  | None => raise (Nexus ToolNotFoundError)
  | Some tool =>
      lift (raise_if (negb (is_visible (rt_visibility tool) (ip_principal_type principal)))
              (Nexus ToolNotVisibleError)) ;;*
      lift (cp_arguments_validator p (rt_input_schema tool) (ct_arguments c)) ;;*
      lift (raise_if (negb (is_none (ct_idempotency_key c))
                      && negb (bool_decide (rt_side_effect tool = IdempotentWrite)))
              (Nexus InvalidArgumentsError)) ;;*
      lift (raise_if (bool_decide (rt_side_effect tool = IdempotentWrite)
                      && is_none (ct_idempotency_key c))
              (Nexus IdempotencyKeyRequiredError)) ;;*
      ret (principal, tool)
  end.

(** The policy's decision on the call, and its digest. *)
Definition decide_call (p : CallToolPorts D) (c : CallToolCommand) (principal : InternalPrincipal)
    (tool : ResolvedExecutableTool) : M D AuthorizedCall :=
  let* digest := lift (call_arguments_digest c) in
  let* input := lift (new_policy_input
    (mkPolicyInput (ctx_tenant_id (ct_context c)) principal (rt_tool_id tool)
       (rt_tool_version_id tool) ActionCall (rt_side_effect tool) digest)) in
  let* decision := ask (cp_policy_evaluator p input) in
  ret (mkAuthorized principal tool decision digest).

(** What the decision's effect makes of the call. *)
Definition enforce_decision (p : CallToolPorts D) (c : CallToolCommand) (a : AuthorizedCall) :
    M D unit :=
  match pd_effect (ac_decision a) with
  | Deny =>
      record_policy_decision c a OutDenied ;;*
      raise (Nexus AuthorizationError)
  | RequireApproval => pass_approval_gate p c a
  | Allow => ret tt
  end.

(** [_resolve_credential_binding] *)
Definition resolve_call_binding (p : CallToolPorts D) (tenant_id : string)
    (principal : InternalPrincipal) (tool : ResolvedExecutableTool) :
    M D (option CredentialBinding) :=
  let auth_scheme :=
    lower (strip (if none_or_empty (rt_upstream_auth_scheme tool) then "none"
                  else default "" (rt_upstream_auth_scheme tool))) in
  if bool_decide (auth_scheme = "none") then ret None
  else
    match cp_credential_binding_resolver p, cp_credential_provider p with
    | Some resolver, Some _ =>
        let* binding := ask (resolver tenant_id principal (rt_tool_id tool)
                               (rt_upstream_service_id tool)) in
        match binding with
        | None => raise (Nexus CredentialBindingNotFoundError)
        | Some b => ret (Some b)
        end
    | _, _ => raise (Nexus CredentialResolutionError)
    end.

(** [_resolve_secret] *)
Definition resolve_secret (p : CallToolPorts D) (binding : option CredentialBinding) :
    M D (option ResolvedCredential) :=
  match binding with
  | None => ret None
  | Some b =>
      match cp_credential_provider p with
      | None => raise (Nexus CredentialResolutionError)
      | Some provider =>
          emit (IoResolveSecret (sr_reference (cb_secret_reference b))) ;;*
          let* value := ask (provider (cb_secret_reference b)) in
          ret (Some (mkResolvedCredential (cb_id b) (cb_injection_location b)
                       (cb_injection_name b) (cb_value_format b) value))
      end
  end.

(** The plan of an authorized call. *)
Definition plan_command (c : CallToolCommand) (a : AuthorizedCall)
    (binding : option CredentialBinding) : PlanExecutionCommand :=
  mkPlanExecution (ct_context c) (ip_id (ac_principal a)) (rt_tool_id (ac_tool a))
    (rt_tool_version_id (ac_tool a)) (rt_tool_binding_id (ac_tool a)) (ac_digest a)
    (pd_policy_version (ac_decision a)) (pd_reason_code (ac_decision a))
    (rt_side_effect (ac_tool a))
    (if bool_decide (pd_effect (ac_decision a) = RequireApproval) then ct_approval_id c else None)
    (cb_id <$> binding) (ct_idempotency_key c) (ct_mcp_scope_type c) (ct_toolset_id c)
    (ct_toolset_revision c).

(** [execute] from the planned execution on: the secret, the call, the
    terminal state. *)
Definition run_planned (p : CallToolPorts D) (c : CallToolCommand) (a : AuthorizedCall)
    (binding : option CredentialBinding) (x : ToolExecution) : M D CallToolResult :=
  let tenant_id := ctx_tenant_id (ct_context c) in
  let* secret := capture (resolve_secret p binding) in
  match secret with
  | Raise (Nexus error) =>
      fail tenant_id (ex_id x) (error_code error) CatCredential false ;;*
      raise (Nexus error)
  | Raise CancelledError => raise CancelledError
  | Raise _ =>
      fail tenant_id (ex_id x) "credential_resolution_failed" CatCredential false ;;*
      raise (Nexus CredentialResolutionError)
  | Ok credential =>
      let* outcome := capture (
        let* request := lift (new_executor_request
          (mkExecutorRequest (ex_id x) (ac_tool a) (ct_arguments c) (cp_timeout_seconds p)
             (ct_idempotency_key c))) in
        cp_executor p request credential) in
      match outcome with
      | Raise CancelledError =>
          cancel tenant_id (ex_id x) ;;*
          raise CancelledError
      | Raise (Failure f) =>
          fail tenant_id (ex_id x) (ef_code f) (ef_category f) (ef_outcome_unknown f) ;;*
          raise (Nexus (public_executor_error f))
      | Raise _ =>
          fail tenant_id (ex_id x) "unexpected_executor_failure" CatUnknown true ;;*
          raise (Nexus UnknownExecutionOutcomeError)
      | Ok result =>
          let* terminal := succeed tenant_id (ex_id x) in
          ret (mkCallToolResult (ex_id x) (er_data result) (er_content_type result)
                 (er_upstream_status result) (ex_attempt_count terminal))
      end
  end.

(** [CallTool.execute] *)
Definition call_tool (p : CallToolPorts D) (c : CallToolCommand) : M D CallToolResult :=
  let* checked := check_call p c in
  let* a := decide_call p c checked.1 checked.2 in
  enforce_decision p c a ;;*
  policy_validate (rt_upstream_endpoint (ac_tool a)) ;;*
  let* binding := resolve_call_binding p (ctx_tenant_id (ct_context c)) (ac_principal a)
                    (ac_tool a) in
  let* x := plan (plan_command c a binding) in
  run_planned p c a binding x.
End CallTool.

Example isoformat_example :
  isoformat (Datetime 1767225599123456 true) = "2025-12-31T23:59:59.123456+00:00" ∧
  isoformat (Datetime 951782400000000 true) = "2000-02-29T00:00:00+00:00" ∧
  isoformat (Datetime 1709164800000001 false) = "2024-02-29T00:00:00.000001".
Proof. by vm_compute. Qed.

(** ** Computations that work on the ledger through its transactions only *)

Section LedgerSafe.
Context `{Ports}.
Implicit Types (d : execution_store).

Definition ledger_safe {A} (m : M execution_store A) : Prop :=
  ∀ d e r s', ledger_ok d → m (St d None e) = (r, s') →
    ∃ d' e', s' = St d' None e' ∧ star ledger_step d d'.

Lemma safe_ret {A} (a : A) : ledger_safe (ret a).
Proof. intros ????? [= _ <-]. eexists _, _. split; [done|apply star_refl]. Qed.
Lemma safe_raise {A} x : ledger_safe (A := A) (raise x).
Proof. intros ????? [= _ <-]. eexists _, _. split; [done|apply star_refl]. Qed.
Lemma safe_lift {A} (r : res A) : ledger_safe (lift r).
Proof. intros ????? [= _ <-]. eexists _, _. split; [done|apply star_refl]. Qed.
Lemma safe_emit ev : ledger_safe (emit ev).
Proof. intros ????? [= _ <-]. eexists _, _. split; [done|apply star_refl]. Qed.
Lemma safe_get_log : ledger_safe get_log.
Proof. intros ????? [= _ <-]. eexists _, _. split; [done|apply star_refl]. Qed.
Lemma safe_bind {A B} (m : M execution_store A) (k : A → M execution_store B) :
  ledger_safe m → (∀ a, ledger_safe (k a)) → ledger_safe (bind m k).
Proof.
  intros Hm Hk d e r s' Hok Hr. apply bind_inv in Hr as [(a & s1 & Ha & Hr)|(x & Hx & _)].
  - destruct (Hm _ _ _ _ Hok Ha) as (d1 & e1 & -> & Hs).
    destruct (Hk a _ _ _ _ (ledger_steps_ok _ _ Hok Hs) Hr) as (d2 & e2 & -> & Hs2).
    eexists _, _. split; [done|by eapply star_trans].
  - by eapply Hm.
Qed.
Lemma safe_capture {A} (m : M execution_store A) : ledger_safe m → ledger_safe (capture m).
Proof.
  intros Hm d e r s' Hok. unfold capture. destruct (m _) as [r1 s1] eqn:E. intros [= _ <-].
  by eapply Hm.
Qed.
Lemma safe_one {A} (m : M execution_store A) :
  (∀ d e r s', ledger_ok d → m (St d None e) = (r, s') →
    ∃ d' e', s' = St d' None e' ∧ ledger_step d d') → ledger_safe m.
Proof.
  intros Hm d e r s' Hok Hr. destruct (Hm _ _ _ _ Hok Hr) as (d' & e' & -> & Hs).
  eexists _, _. split; [done|by apply star_one].
Qed.

Lemma safe_start_attempt tenant id : ledger_safe (start_attempt tenant id).
Proof.
  apply safe_one. intros d e r s' _ Hr. pose proof Hr as Hr'. apply start_attempt_run in Hr' as
    (e' & [(y & -> & ->)|(x & x' & a & _ & -> & _ & _ & _ & _ & _ & _ & ->)]);
    eexists _, _; (split; [done|]); by eapply step_start.
Qed.
Lemma safe_finish_attempt tenant id status code category upstream :
  ledger_safe (finish_attempt tenant id status code category upstream).
Proof.
  apply safe_one. intros d e r s' _ Hr. pose proof Hr as Hr'. apply finish_attempt_run in Hr' as
    (e' & [(y & -> & ->)|(a & a' & -> & _ & _ & _ & _ & _ & ->)]);
    eexists _, _; (split; [done|]); by eapply step_finish_attempt.
Qed.
Lemma safe_finish tenant id status code category :
  ledger_safe (finish tenant id status code category).
Proof.
  apply safe_one. intros d e r s' _ Hr. pose proof Hr as Hr'. apply finish_run in Hr' as
    (e' & [(y & -> & ->)|(x & x' & o & ev & _ & -> & _ & _ & _ & _ & _ & ->)]);
    eexists _, _; (split; [done|]); by eapply step_finish.
Qed.
Lemma safe_plan c : ledger_safe (plan c).
Proof.
  apply safe_one. intros d e r s' Hok Hr. pose proof Hr as Hr'. apply plan_run in Hr' as
    (e' & [(y & -> & ->)|[(ap & -> & _ & ->)|(ap & ev & id & -> & _ & _ & _ & _ & _ & _ & ->)]]);
    [| | |apply Hok]; eexists _, _; (split; [done|]); by eapply step_plan.
Qed.
Lemma safe_record_call_decision c : ledger_safe (record_call_decision c).
Proof.
  apply safe_one. intros d e r s' _ Hr. pose proof Hr as Hr'.
  apply record_call_decision_run in Hr' as
    (e' & [(y & -> & ->)|(ev & -> & _ & _ & _ & _ & _ & _ & _ & _ & ->)]);
    eexists _, _; (split; [done|]); by eapply step_decision.
Qed.
Lemma safe_record_scope_denial c : ledger_safe (record_scope_denial c).
Proof.
  apply safe_one. intros d e r s' _ Hr. pose proof Hr as Hr'.
  apply record_scope_denial_run in Hr' as (e' & [(y & -> & ->)|(ev & -> & _ & _ & _ & ->)]);
    eexists _, _; (split; [done|]); by eapply step_denial.
Qed.

(** [RequestApproval] on the execution stores: one approval, one event. *)
Lemma request_approval_ledger ttl c d e r s' :
  request_approval ttl c (St d None e) = (r, s') →
  ∃ e', (∃ x, r = Raise x ∧ s' = St d None e') ∨
  (∃ a ev, r = Ok a ∧ dget (ar_id a) (es_approvals d) = None ∧ ar_status a = ApPending ∧
     ar_principal_id a = ra_principal_id c ∧ ar_arguments_digest a = ra_arguments_digest c ∧
     dget (ae_id ev) (es_audits d) = None ∧ ae_outcome ev = OutApprovalRequired ∧
     ae_execution_id ev = None ∧
     s' = St (mkExecutionStore (es_executions d) (es_attempts d)
                (dset (ar_id a) a (es_approvals d)) (dset (ae_id ev) ev (es_audits d))) None e').
Proof.
  intros Hr. unfold request_approval, approvals_add, approvals_require_tenant,
    audits_append in Hr.
  run_uow Hr; eexists; try (left; eexists; split; reflexivity).
  right.
  match goal with
  | Ga : new_approval _ = Ok ?a, Ge : new_audit_event _ = Ok ?ev |- _ => exists a, ev
  end.
  repeat match goal with
  | G : new_approval _ = Ok _ |- _ => apply new_approval_Ok in G
  | G : new_audit_event _ = Ok _ |- _ => apply new_audit_event_Ok in G
  | G : dmem _ _ = false |- _ => apply dmem_false in G
  end; subst; simpl in *. done.
Qed.

Lemma safe_request_approval ttl c : ledger_safe (request_approval ttl c).
Proof.
  intros d e r s' Hok Hr. apply request_approval_ledger in Hr as
    (e' & [(x & _ & ->)|(a & ev & _ & Hn & _ & _ & _ & Hev & _ & Hno & ->)]).
  - eexists _, _. split; [done|apply star_refl].
  - eexists _, _. split; [done|]. eapply star_step.
    + apply step_approvals. apply evolves_add; [apply Hok|done].
    + apply star_one. by apply (step_event (mkExecutionStore _ _ _ _) ev).
Qed.
End LedgerSafe.

Create HintDb safe discriminated.
#[export] Hint Resolve safe_ret safe_raise safe_lift safe_emit safe_get_log safe_capture
  safe_start_attempt safe_finish_attempt safe_finish safe_plan safe_record_call_decision
  safe_record_scope_denial safe_request_approval : safe.

Ltac safe_solve :=
  repeat first [progress intros | done | progress auto with safe | apply safe_bind
    | apply safe_capture | case_match | case_decide].

(** ** The law of an executor *)

(** Calls a run of the executor may make: calls of the tool, and backoffs. *)
Definition executor_event (id : string) (ev : io_event) : Prop :=
  match ev with IoExecute id' => id' = id | IoSleep _ => True | _ => False end.

(** An executor works through the lifecycle only, makes no calls but its own,
    and leaves a running execution running, with its attempts closed. *)
Class LawfulExecutor `{Ports}
    (run : ExecutorRequest → option ResolvedCredential → M execution_store ExecutorResult) := {
  executor_safe request credential : ledger_safe (run request credential);
  executor_calls request credential s :
    ∃ calls, io_log (environment (run request credential s).2) = io_log (environment s) ++ calls ∧
      Forall (executor_event (xr_execution_id request)) calls;
  executor_serves request credential x d e :
    rt_tenant_id (xr_tool request) = ex_tenant_id x → serving (xr_execution_id request) x d e →
    ∃ r k d' e', run request credential (St d None e) = (r, St d' None e') ∧
      served (xr_execution_id request) x d k d' e' }.

Lemma schedule_events cfg id remaining n :
  Forall (executor_event id) (schedule cfg id remaining n).
Proof.
  revert n. induction remaining as [|[|remaining] IH]; intros n; simpl; repeat constructor.
  apply IH.
Qed.

Section Laws.
Context `{Ports, ToolExecutor, RetrySleeper}.

Lemma safe_invoke_executor request credential : ledger_safe (invoke_executor request credential).
Proof. unfold invoke_executor. safe_solve. Qed.

(** The executor without retries. *)
#[export] Instance direct_executor_lawful : LawfulExecutor invoke_executor.
Proof.
  split.
  - intros. apply safe_invoke_executor.
  - intros request credential s. rewrite invoke_executor_run. eexists. split; [done|].
    by repeat constructor.
  - intros request credential x d e _ Hs. rewrite invoke_executor_run.
    eexists _, 0%nat, d, _. split; [done|]. by apply served_refl, (serving_env _ _ _ e).
Qed.

Lemma safe_retry_loop cfg request credential remaining n :
  ledger_safe (retry_loop cfg request credential remaining n).
Proof.
  revert n. induction remaining as [|remaining IH]; intros n; cbn [retry_loop]; [apply safe_raise|].
  unfold cancel_attempt, fail_attempt, succeed_attempt.
  apply safe_bind; [apply safe_start_attempt|]. intros a.
  apply safe_bind; [apply safe_capture, safe_invoke_executor|]. intros outcome.
  destruct outcome as [result|[]]; safe_solve.
Qed.

(** [execute_with_retry], over an executor that reports HTTP statuses and a
    generator that never repeats itself. *)
Lemma retrying_executor_lawful `{!Inj (=) (=) identifier} cfg :
  (∀ request credential log,
    match run_tool log request credential with
    | Ok result => status_ok (er_upstream_status result)
    | Raise (Failure f) => status_ok (ef_upstream_status f)
    | Raise _ => True
    end) →
  LawfulExecutor (execute_with_retry cfg).
Proof.
  intros Hst. split.
  - intros. apply safe_retry_loop.
  - intros request credential s. unfold execute_with_retry.
    destruct (retry_loop _ _ _ _ _ s) as [r s'] eqn:Hr.
    apply retry_loop_calls in Hr as (calls & Hc & [Hp _]); [|lia]. exists calls.
    split; [done|]. destruct Hp as [rest E].
    pose proof (schedule_events cfg (xr_execution_id request) (rc_max_attempts cfg) 1) as Hall.
    rewrite E in Hall. by apply Forall_app in Hall as [Hall _].
  - intros request credential x d e Htn Hs. unfold execute_with_retry.
    pose proof (retry_loop_served cfg request credential (Hst request credential)
      (rc_max_attempts cfg) 1 x d e Htn Hs) as Hl.
    destruct (retry_spec _ _ _ _ _ _) as [[r log'] k]. destruct Hl as (d' & Hd & Hsv).
    eexists _, _, _, _. by split.
Qed.
End Laws.

(** ** Reading the call *)

Section CallFacts.
Context `{Ports} `{EndpointPolicy}.
Implicit Types (d : execution_store) (p : CallToolPorts execution_store).

(** Computations that only read. *)
Definition reads {A} (m : M execution_store A) : Prop := ∀ s, (m s).2 = s.

Lemma reads_bind {A B} (m : M execution_store A) (k : A → M execution_store B) :
  reads m → (∀ a, reads (k a)) → reads (bind m k).
Proof.
  intros Hm Hk s. unfold bind. specialize (Hm s).
  destruct (m s) as [[a|x] s1]; simpl in *; subst; [apply Hk|done].
Qed.
Lemma reads_case {A} (m : M execution_store A) s r s' : reads m → m s = (r, s') → s' = s.
Proof. intros Hm E. specialize (Hm s). by rewrite E in Hm. Qed.

Lemma reads_check_call p c : reads (check_call p c).
Proof.
  unfold check_call, ask. repeat (apply reads_bind; [done|intros]). case_match; [|done].
  by repeat (apply reads_bind; [done|intros]).
Qed.
Lemma reads_decide_call p c principal tool : reads (decide_call p c principal tool).
Proof. unfold decide_call, ask. by repeat (apply reads_bind; [done|intros]). Qed.
Lemma reads_resolve_call_binding p tenant principal tool :
  reads (resolve_call_binding p tenant principal tool).
Proof.
  unfold resolve_call_binding, ask. repeat case_match; try done.
  repeat (apply reads_bind; [done|intros]). by case_match.
Qed.

(** The call in its state: the checks and the policy accept the call [a]. *)
Definition decided p (c : CallToolCommand) (s : st execution_store) (a : AuthorizedCall) : Prop :=
  check_call p c s = (Ok (ac_principal a, ac_tool a), s) ∧
  decide_call p c (ac_principal a) (ac_tool a) s = (Ok a, s).

(** The decision lets the call go on. *)
Definition permitted (c : CallToolCommand) (a : AuthorizedCall) : Prop :=
  pd_effect (ac_decision a) = Allow ∨
  (pd_effect (ac_decision a) = RequireApproval ∧ is_Some (ct_approval_id c)).

Lemma decide_call_fields p c principal tool s a s' :
  decide_call p c principal tool s = (Ok a, s') →
  ac_principal a = principal ∧ ac_tool a = tool ∧ call_arguments_digest c = Ok (ac_digest a).
Proof.
  unfold decide_call, ask. intros Hr.
  repeat (apply bind_Ok_inv in Hr as (? & ? & ? & Hr)). injection Hr as <- <-.
  repeat match goal with G : lift _ _ = _ |- _ => apply lift_inv in G as [? ?] end.
  simpl. by subst.
Qed.

Lemma check_call_tool p c s principal tool s' :
  check_call p c s = (Ok (principal, tool), s') →
  ∃ log, cp_tool_resolver p (ctx_tenant_id (ct_context c)) (ct_tool_name c) log = Ok (Some tool).
Proof.
  unfold check_call, ask. intros Hr. apply bind_Ok_inv in Hr as (? & ? & _ & Hr).
  apply bind_Ok_inv in Hr as (found & s1 & Ht & Hr).
  apply bind_Ok_inv in Ht as (log & ? & _ & Ht). apply lift_inv in Ht as [Ht _].
  destruct found as [t|]; [|done]. exists log. rewrite <-Ht.
  repeat (apply bind_Ok_inv in Hr as (? & ? & _ & Hr)). by injection Hr as -> -> _.
Qed.

Lemma enforce_decision_Ok p c a s u s' :
  enforce_decision p c a s = (Ok u, s') → s' = s ∧ permitted c a.
Proof.
  unfold enforce_decision, permitted, pass_approval_gate. intros Hr.
  destruct (pd_effect (ac_decision a)) eqn:He.
  - injection Hr as <- <-. auto.
  - apply bind_Ok_inv in Hr as (? & ? & _ & Hr). done.
  - destruct (ct_approval_id c); [injection Hr as <- <-; eauto|].
    destruct (cp_request_approval p); [|done].
    by apply bind_Ok_inv in Hr as (? & ? & _ & Hr).
Qed.

(** Where a call stops. *)
Inductive call_stops p c (s : st execution_store) :
    res CallToolResult → st execution_store → Prop :=
| stops_refused x : call_stops p c s (Raise x) s
| stops_at_decision a x s' :
    decided p c s a → ¬ permitted c a → enforce_decision p c a s = (Raise x, s') →
    call_stops p c s (Raise x) s'
| stops_before_plan a x :
    decided p c s a → permitted c a →
    call_stops p c s (Raise x)
      (policy_validate (rt_upstream_endpoint (ac_tool a)) s).2
| stops_at_plan a binding x s' :
    decided p c s a → permitted c a →
    validate_endpoint (io_log (environment s)) (rt_upstream_endpoint (ac_tool a)) = Ok tt →
    plan (plan_command c a binding) (policy_validate (rt_upstream_endpoint (ac_tool a)) s).2 =
      (Raise x, s') →
    call_stops p c s (Raise x) s'
| stops_after_plan a binding x s1 r s' :
    decided p c s a → permitted c a →
    validate_endpoint (io_log (environment s)) (rt_upstream_endpoint (ac_tool a)) = Ok tt →
    plan (plan_command c a binding) (policy_validate (rt_upstream_endpoint (ac_tool a)) s).2 =
      (Ok x, s1) →
    run_planned p c a binding x s1 = (r, s') →
    call_stops p c s r s'.

Lemma enforce_decision_Raise p c a s x s' :
  enforce_decision p c a s = (Raise x, s') → ¬ permitted c a.
Proof.
  unfold enforce_decision, pass_approval_gate. intros Hr [He|[He [id Hid]]]; rewrite He in Hr.
  - done.
  - by rewrite Hid in Hr.
Qed.

Lemma call_tool_stops p c s r s' : call_tool p c s = (r, s') → call_stops p c s r s'.
Proof.
  unfold call_tool. intros Hr.
  apply bind_inv in Hr as [([principal tool] & s1 & Hc & Hr)|(x & Hx & ->)];
    [|apply reads_case in Hx as ->; [constructor|apply reads_check_call]].
  pose proof (reads_case _ _ _ _ (reads_check_call p c) Hc) as ->. simpl in Hr.
  apply bind_inv in Hr as [(a & s1 & Hd & Hr)|(x & Hx & ->)];
    [|apply reads_case in Hx as ->; [constructor|apply reads_decide_call]].
  pose proof (reads_case _ _ _ _ (reads_decide_call p c principal tool) Hd) as ->.
  destruct (decide_call_fields _ _ _ _ _ _ _ Hd) as (<- & <- & _).
  assert (Hdec : decided p c s a) by done.
  apply bind_inv in Hr as [(u & s1 & He & Hr)|(x & He & ->)];
    [|by eapply stops_at_decision, He; [|eapply enforce_decision_Raise]].
  apply enforce_decision_Ok in He as [-> Hp].
  apply bind_inv in Hr as [(u' & s1 & He & Hr)|(x & He & ->)];
    [|replace s' with (policy_validate (rt_upstream_endpoint (ac_tool a)) s).2
        by (by rewrite He); by apply stops_before_plan].
  assert (Hs1 : s1 = (policy_validate (D := execution_store)
    (rt_upstream_endpoint (ac_tool a)) s).2) by (by rewrite He).
  assert (Hv : validate_endpoint (io_log (environment s)) (rt_upstream_endpoint (ac_tool a)) = Ok tt).
  { unfold policy_validate in He. apply bind_Ok_inv in He as (log & s2 & [= <- <-] & He).
    apply bind_Ok_inv in He as (? & s2 & _ & He). apply lift_inv in He as [He _].
    destruct u'. done. }
  apply bind_inv in Hr as [(b & s2 & Hb & Hr)|(x & Hb & ->)].
  2: { apply reads_case in Hb as ->; [|apply reads_resolve_call_binding]. subst s1.
       by apply stops_before_plan. }
  apply reads_case in Hb as ->; [|apply reads_resolve_call_binding]. subst s1.
  apply bind_inv in Hr as [(x & s2 & Hb & Hr)|(x & Hb & ->)].
  - by eapply stops_after_plan.
  - by eapply stops_at_plan.
Qed.
End CallFacts.

(** ** The observable calls of a tool call *)

Section Calls.
Context `{Ports} `{EndpointPolicy}.
Implicit Types (d : execution_store) (s : st execution_store).

Lemma quiet_plan c : quiet (D := execution_store) (plan c).
Proof.
  unfold plan, check_idempotency, get_execution_by_key, consume_for_plan,
    consume_locked_approval, approvals_get, approvals_save, approvals_require_tenant,
    add_execution, execution_audit, audits_append. quiet_solve.
Qed.
Lemma quiet_finish tenant id status code category :
  quiet (D := execution_store) (finish tenant id status code category).
Proof.
  unfold finish, get_execution, save_execution, execution_audit, audits_append. quiet_solve.
Qed.
Lemma quiet_record_call_decision c : quiet (D := execution_store) (record_call_decision c).
Proof. unfold record_call_decision, audits_append. quiet_solve. Qed.
Lemma quiet_request_approval ttl c : quiet (D := execution_store) (request_approval ttl c).
Proof.
  unfold request_approval, approvals_add, approvals_require_tenant, audits_append. quiet_solve.
Qed.

Hint Resolve quiet_plan quiet_finish quiet_record_call_decision quiet_request_approval : quiet.

Lemma quiet_enforce_decision p c a : quiet (D := execution_store) (enforce_decision p c a).
Proof. unfold enforce_decision, pass_approval_gate, record_policy_decision. quiet_solve. Qed.

(** The calls of a secret's resolution. *)
Definition secret_calls (calls : list io_event) : Prop :=
  calls = [] ∨ ∃ reference, calls = [IoResolveSecret reference].

Lemma resolve_secret_calls p b s r s' :
  resolve_secret p b s = (r, s') →
  ∃ calls, io_log (environment s') = io_log (environment s) ++ calls ∧ secret_calls calls ∧
    store s' = store s ∧ working s' = working s ∧ ticks (environment s') = ticks (environment s) ∧
    issued (environment s') = issued (environment s).
Proof.
  unfold resolve_secret, ask, secret_calls. intros Hr.
  destruct b as [b|]; [destruct (cp_credential_provider p) as [provider|]|].
  2-3: injection Hr as <- <-; exists []; rewrite app_nil_r; eauto 10.
  eexists [IoResolveSecret _]. unfold bind, emit, get_log, lift, ret in Hr. simpl in Hr.
  destruct (provider _ _); injection Hr as <- <-; simpl; split_and!; eauto.
Qed.

Lemma run_planned_calls p c a b x s `{!LawfulExecutor (cp_executor p)} :
  ∃ secrets calls,
    io_log (environment (run_planned p c a b x s).2) =
      io_log (environment s) ++ secrets ++ calls ∧
    secret_calls secrets ∧ Forall (executor_event (ex_id x)) calls.
Proof.
  unfold run_planned. rewrite capture_bind. destruct (resolve_secret p b s) as [r s1] eqn:Hr.
  apply resolve_secret_calls in Hr as (secrets & Hlog & Hsec & _). simpl.
  match goal with |- ∃ _ _, ?l = _ ∧ _ => set (log' := l) end.
  enough (∃ calls, log' = io_log (environment s1) ++ calls ∧ secret_calls secrets ∧
            Forall (executor_event (ex_id x)) calls) as (calls & E & ? & ?)
    by (exists secrets, calls; by rewrite E, Hlog, <-(assoc_L (++))).
  subst log'. assert (Hq : ∀ m : M execution_store CallToolResult, quiet m →
    ∃ calls, io_log (environment (m s1).2) = io_log (environment s1) ++ calls ∧
      secret_calls secrets ∧ Forall (executor_event (ex_id x)) calls).
  { intros m Hm. exists []. rewrite Hm, app_nil_r. auto. }
  unfold fail. destruct r as [credential|y];
    [|destruct y; apply Hq; solve [quiet_solve]].
  rewrite capture_bind. set (request := mkExecutorRequest _ _ _ _ _).
  destruct (new_executor_request request) as [request'|y] eqn:Hreq.
  - assert (request' = request) as ->.
    { unfold new_executor_request in Hreq. guards Hreq. congruence. }
    rewrite (bind_Ok _ _ _ request s1) by done. clear Hq.
    destruct (executor_calls request credential s1) as (calls & Hcalls & Hall).
    exists calls. rewrite <-Hcalls. split; [|by split].
    destruct (cp_executor p request credential s1) as [r2 s2]. simpl.
    match goal with |- io_log (environment (?m s2).2) = _ => assert (Hm : quiet m) end;
      [|by rewrite Hm].
    unfold fail, succeed, cancel. destruct r2 as [res|[]]; quiet_solve.
  - rewrite (bind_Raise _ _ _ y s1) by done. simpl. unfold cancel.
    destruct y; apply Hq; solve [quiet_solve].
Qed.

Lemma safe_run_planned p c a b x `{!LawfulExecutor (cp_executor p)} :
  ledger_safe (run_planned p c a b x).
Proof.
  pose proof executor_safe as Hex. unfold run_planned, resolve_secret, ask, fail, cancel, succeed.
  repeat first [progress intros | done | apply Hex | progress auto with safe | apply safe_bind
    | apply safe_capture | case_match ].
Qed.
Hint Resolve safe_run_planned : safe.

Lemma safe_call_tool p c `{!LawfulExecutor (cp_executor p)} : ledger_safe (call_tool p c).
Proof.
  unfold call_tool, check_call, decide_call, enforce_decision, record_policy_decision,
    pass_approval_gate, resolve_call_binding, policy_validate, ask.
  safe_solve.
Qed.
End Calls.

(** ** A planned execution always ends *)

Section Settling.
Context `{Ports} `{EndpointPolicy}.
Implicit Types (d : execution_store).

(** [_finish] on an execution being served. *)
Lemma finish_served id x d e status code category :
  serving id x d e → finish_args status code category →
  ∃ x' d' e', finish (ex_tenant_id x) id status code category (St d None e) =
      (Ok x', St d' None e') ∧
    dget id (es_executions d') = Some x' ∧
    ex_status x' = (match status with ExPlanned | ExRunning => ExFailed | s => s end) ∧
    ex_attempt_count x' = ex_attempt_count x ∧ ex_id x' = id ∧
    all_closed id (es_attempts d') ∧
    ∀ k, k ≠ id → dget k (es_executions d') = dget k (es_executions d).
Proof.
  intros [Hok Hx Hrun Hfr Hcl] Ha. destruct (Hfr (issued e)) as (Hb & _ & _ & Hn); [done|].
  destruct (finish_total d (ex_tenant_id x) id x status code category e Hok Hx eq_refl Hrun Ha
    Hb Hn) as (x' & d' & Hf & Hx' & Hs & Hc).
  pose proof (keyed_get _ _ _ _ (led_executions _ (ledger_finish _ _ _ _ _ _ _ _ _ _ Hok Hf))
    Hx') as Hid.
  eexists x', d', _. split_and!; try done.
  - apply finish_run in Hf as (? & [(? & ? & _)|(y & y' & o & ev & _ & _ & _ & _ & _ & _ & _ & Heq)]);
      [done|]. injection Heq as -> _. done.
  - intros k Hk. apply finish_run in Hf as
      (? & [(? & ? & _)|(y & y' & o & ev & _ & Hr & _ & _ & _ & _ & _ & Heq)]); [done|].
    injection Heq as -> _. simpl. injection Hr as <-. rewrite Hid. by rewrite dget_dset_ne.
Qed.

(** The terminal record of a call and what the caller gets. *)
Definition settled (r : res CallToolResult) (x : ToolExecution) : Prop :=
  match r with
  | Ok result =>
      ex_status x = ExSucceeded ∧ cr_execution_id result = ex_id x ∧
      cr_attempt_count result = ex_attempt_count x
  | Raise CancelledError => ex_status x = ExCancelled
  | Raise (Nexus y) =>
      ex_status x = ExFailed ∨ (ex_status x = ExUnknown ∧ y = UnknownExecutionOutcomeError)
  | Raise _ => False
  end.

Lemma settled_terminal r x : settled r x → execution_terminal (ex_status x) = true.
Proof.
  destruct r as [|[]]; simpl; try done;
    [intros [E _]|intros E|intros [E|[E _]]]; by rewrite E.
Qed.

Definition all_settled (id : string) (d : execution_store) (r : res CallToolResult)
    (d' : execution_store) : Prop :=
  ∃ x', dget id (es_executions d') = Some x' ∧ settled r x' ∧
    all_closed id (es_attempts d') ∧
    ∀ k, k ≠ id → dget k (es_executions d') = dget k (es_executions d).

Lemma finish_settles id x d e status code category (m : ToolExecution → res CallToolResult) :
  serving id x d e → finish_args status code category →
  (∀ x', ex_status x' = (match status with ExPlanned | ExRunning => ExFailed | s => s end) →
    ex_id x' = id → settled (m x') x') →
  ∃ r d' e', (let* x' := finish (ex_tenant_id x) id status code category in lift (m x'))
      (St d None e) = (r, St d' None e') ∧ all_settled id d r d'.
Proof.
  intros Hs Ha Hm.
  destruct (finish_served _ _ _ _ _ _ _ Hs Ha) as (x' & d' & e' & Hf & Hx' & Hst & _ & Hid & Hc & Ho).
  eexists (m x'), d', e'. rewrite (bind_Ok _ _ _ _ _ Hf). split; [done|].
  exists x'. split_and!; auto.
Qed.

(** The secret's resolution was cancelled: the caller gets the cancellation, and
    the execution stays RUNNING, without an attempt. *)
Definition left_running (p : CallToolPorts execution_store) (id : string) (d : execution_store)
    (r : res CallToolResult) (d' : execution_store) : Prop :=
  r = Raise CancelledError ∧
  (∃ provider reference log, cp_credential_provider p = Some provider ∧
     provider reference log = Raise CancelledError) ∧
  (∃ x', dget id (es_executions d') = Some x' ∧ ex_status x' = ExRunning) ∧
  (∀ k at_, dget k (es_attempts d') = Some at_ → at_execution_id at_ ≠ id) ∧
  ∀ k, k ≠ id → dget k (es_executions d') = dget k (es_executions d).

Lemma cancelled_or_not {A} (r : res A) : r = Raise CancelledError ∨ r ≠ Raise CancelledError.
Proof. destruct r as [|[]]; by (left + right). Qed.

Lemma run_planned_cancelled p c a b x d e :
  (resolve_secret p b (St d None e)).1 = Raise CancelledError →
  (∃ e', run_planned p c a b x (St d None e) = (Raise CancelledError, St d None e')) ∧
  ∃ provider reference log, cp_credential_provider p = Some provider ∧
    provider reference log = Raise CancelledError.
Proof.
  intros Hc. destruct (resolve_secret p b (St d None e)) as [r s1] eqn:Hr. simpl in Hc. subst r. split.
  - pose proof Hr as Hs. apply resolve_secret_calls in Hs as (secrets & _ & _ & Hst & Hw & _). simpl in Hst, Hw.
    unfold run_planned. rewrite capture_bind, Hr. destruct s1 as [d1 w1 e1]. simpl in Hst, Hw. subst. by exists e1.
  - unfold resolve_secret, ask in Hr.
    destruct b as [b|]; [|done]. destruct (cp_credential_provider p) as [provider|] eqn:Hp; [|done].
    unfold bind, emit, get_log, lift, ret in Hr. simpl in Hr.
    destruct (provider _ _) eqn:Hv; [done|]. injection Hr as -> _. eauto.
Qed.

Lemma run_planned_settles p c a b x d e `{!LawfulExecutor (cp_executor p)} :
  ctx_tenant_id (ct_context c) = ex_tenant_id x → rt_tenant_id (ac_tool a) = ex_tenant_id x →
  serving (ex_id x) x d e →
  (resolve_secret p b (St d None e)).1 ≠ Raise CancelledError →
  ∃ r d' e', run_planned p c a b x (St d None e) = (r, St d' None e') ∧
    all_settled (ex_id x) d r d'.
Proof.
  intros Htn Htool Hs Hnc. unfold run_planned. rewrite capture_bind, Htn.
  destruct (resolve_secret p b (St d None e)) as [r s1] eqn:Hr. apply resolve_secret_calls in Hr as (secrets & _ & _ & Hst & Hw & _ & Hiss). simpl in *.
  destruct s1 as [d1 w1 e1]. simpl in *. subst d1 w1.
  apply (serving_env _ _ _ _ e1 Hiss) in Hs. clear Hiss. unfold fail, cancel, succeed.
  destruct r as [credential|y].
  - rewrite capture_bind. set (request := mkExecutorRequest _ _ _ _ _).
    destruct (new_executor_request request) as [request'|y] eqn:Hreq.
    + assert (request' = request) as ->.
      { unfold new_executor_request in Hreq. guards Hreq. congruence. }
      rewrite (bind_Ok _ _ _ request (St d None e1)) by done.
      destruct (executor_serves request credential x d e1 Htool Hs) as
        (r2 & k & d2 & e2 & Hrun & x2 & Hs2 & Hc2 & _ & _ & _ & Ho2).
      rewrite Hrun. simpl in *. unfold request in Hs2. simpl in Hs2.
      assert (Htn2 : ex_tenant_id x2 = ex_tenant_id x) by (by rewrite Hc2).
      rewrite <-Htn2.
      assert (Hend : ∀ status code category (m : ToolExecution → res CallToolResult),
        finish_args status code category →
        (∀ x', ex_status x' = (match status with ExPlanned | ExRunning => ExFailed | s => s end) →
          ex_id x' = ex_id x → settled (m x') x') →
        ∃ r d' e', (let* x' := finish (ex_tenant_id x2) (ex_id x) status code category in
                    lift (m x')) (St d2 None e2) = (r, St d' None e') ∧
          all_settled (ex_id x) d r d').
      { intros status code category m Ha Hm.
        destruct (finish_settles (ex_id x) x2 d2 e2 status code category m Hs2 Ha Hm)
          as (r & d' & e' & Hf & x' & H1 & H2 & H3 & H4).
        exists r, d', e'. split; [done|]. exists x'. split_and!; [done|done|done|].
        intros k' Hk'. rewrite H4 by done. by apply Ho2. }
      destruct r2 as [result|[]]; simpl;
        try (eapply (Hend ExUnknown _ _ (λ _, Raise (Nexus UnknownExecutionOutcomeError)));
             [by eexists|intros; simpl; eauto]; fail).
      * eapply (Hend ExSucceeded _ _ (λ t, Ok (mkCallToolResult _ _ _ _ (ex_attempt_count t))));
          [done|]. intros x' H1 H2. simpl. auto.
      * eapply (Hend ExCancelled _ _ (λ _, Raise CancelledError)); [done|]. auto.
      * eapply (Hend _ _ _ (λ _, Raise (Nexus _)));
          [by destruct (ef_outcome_unknown f); simpl; eauto|].
        intros x' H1 _. simpl. unfold public_executor_error.
        destruct (ef_outcome_unknown f); simpl in *; auto.
    + rewrite (bind_Raise _ _ _ y (St d None e1)) by done.
      unfold new_executor_request in Hreq.
      destruct (Qle_bool _ _); [|done]. injection Hreq as <-. simpl.
      eapply (finish_settles _ _ _ _ ExUnknown _ _ (λ _, Raise (Nexus _))); [done|by eexists|].
      simpl. auto.
  - destruct y; try done; simpl;
      (eapply (finish_settles _ _ _ _ ExFailed _ _ (λ _, Raise (Nexus _)));
        [done|by split; eexists|simpl; auto]).
Qed.
End Settling.

(** ** Properties *)

Section Properties.
Context `{Ports} `{EndpointPolicy}.
Context (p : CallToolPorts execution_store) `{!LawfulExecutor (cp_executor p)}.
Implicit Types (d : execution_store) (c : CallToolCommand) (a : AuthorizedCall).

Definition endpoint_of (a : AuthorizedCall) : string := rt_upstream_endpoint (ac_tool a).

Lemma policy_validate_run endpoint d e :
  (policy_validate endpoint (St d None e)).2 =
    St d None (Env (ticks e) (issued e) (io_log e ++ [IoValidateEndpoint endpoint])).
Proof. done. Qed.

(** A decision that stops the call touches no execution. *)
Lemma enforce_decision_executions c a d e r s' :
  enforce_decision p c a (St d None e) = (r, s') →
  ∃ d' e', s' = St d' None e' ∧ es_executions d' = es_executions d ∧
    es_attempts d' = es_attempts d.
Proof.
  unfold enforce_decision, pass_approval_gate, record_policy_decision. intros Hr.
  destruct (pd_effect (ac_decision a)).
  - injection Hr as _ <-. eauto.
  - apply bind_inv in Hr as [(u & s1 & Hd & Hr)|(x & Hd & _)];
      apply record_call_decision_run in Hd as
        (e1 & [(y & _ & ->)|(ev & _ & _ & _ & _ & _ & _ & _ & _ & _ & ->)]);
      try injection Hr as _ <-; eauto.
  - destruct (ct_approval_id c); [injection Hr as _ <-; eauto|].
    destruct (cp_request_approval p); [|injection Hr as _ <-; eauto].
    apply bind_inv in Hr as [(u & s1 & Hd & Hr)|(x & Hd & _)];
      apply request_approval_ledger in Hd as
        (e1 & [(y & _ & ->)|(ap & ev & _ & _ & _ & _ & _ & _ & _ & _ & ->)]);
      try injection Hr as _ <-; eauto.
Qed.

Lemma planned_fields (c : PlanExecutionCommand) d e x s1 :
  ledger_ok d → plan c (St d None e) = (Ok x, s1) →
  ∃ d1 e1, s1 = St d1 None e1 ∧ ledger_ok d1 ∧ dget (ex_id x) (es_executions d) = None ∧
    dget (ex_id x) (es_executions d1) = Some x ∧
    ex_tenant_id x = ctx_tenant_id (pe_context c) ∧
    ex_arguments_digest x = pe_arguments_digest c ∧ ex_approval_id x = pe_approval_id c ∧
    ∀ k, k ≠ ex_id x → dget k (es_executions d1) = dget k (es_executions d).
Proof.
  intros Hok Hp. pose proof Hp as Hp'.
  apply plan_run_full in Hp' as [(? & ? & ? & _)|[(? & ? & ? & _)|(ap & Hx & _ & _ & _ & Hn & _ & ->)]];
    [done|done| |apply Hok].
  injection Hx as ->. eexists _, _. split; [done|].
  split_and!; try done.
  - by eapply ledger_plan.
  - simpl. by rewrite dget_dset_eq.
  - intros k Hk. simpl. by rewrite dget_dset_ne.
Qed.

Lemma planned_attempts (c : PlanExecutionCommand) d e x s1 :
  ledger_ok d → plan c (St d None e) = (Ok x, s1) →
  ex_status x = ExRunning ∧
  ∀ k at_, dget k (es_attempts (store s1)) = Some at_ → at_execution_id at_ ≠ ex_id x.
Proof.
  intros Hok Hp.
  apply plan_run_full in Hp as [(? & ? & ? & _)|[(? & ? & ? & _)|(ap & Hx & _ & _ & _ & Hn & _ & ->)]];
    [done|done| |apply Hok].
  injection Hx as ->. split; [done|]. simpl. intros k at_ Hat Hex.
  destruct (led_numbers_owner _ Hok _ _ Hat) as [y Hy]. rewrite Hex in Hy. simpl in Hy, Hn. congruence.
Qed.

(** A planned execution is ready to be served. *)
Lemma planned_serving (c : PlanExecutionCommand) d e x s1 `{!Inj (=) (=) identifier} :
  ledger_ok d → fresh_ids (issued e) d → plan c (St d None e) = (Ok x, s1) →
  ∃ d1 e1, s1 = St d1 None e1 ∧ serving (ex_id x) x d1 e1.
Proof.
  intros Hok Hfr Hp. destruct (planned_fields _ _ _ _ _ Hok Hp) as
    (d1 & e1 & -> & Hok1 & Hn & Hx1 & _). exists d1, e1. split; [done|].
  apply plan_run_full in Hp as [(? & ? & ? & _)|[(? & ? & ? & _)|(ap & Hx & _ & _ & _ & _ & _ & Heq)]];
    [done|done| |apply Hok].
  injection Heq as -> ->. injection Hx as ->. split; try done.
  - intros m Hm. destruct (Hfr m) as (Hb & F1 & F2 & F3); [simpl in Hm; lia|].
    split_and!; simpl; [done| |done|]; rewrite dget_dset_ne; try done;
      intros E%(inj _); simpl in Hm; lia.
  - intros k at_ Hat Hex. simpl in Hat.
    destruct (led_numbers_owner _ Hok _ _ Hat) as [y Hy]. congruence.
Qed.

(** A call works on the ledger through its transactions only, so
    whatever the collaborators answer and wherever the call stops, a good
    ledger stays good: audit trails, idempotency keys and approvals included. *)
Theorem call_tool_keeps_ledger c d e :
  ledger_ok d →
  ∃ d' e', (call_tool p c (St d None e)).2 = St d' None e' ∧
    star ledger_step d d' ∧ ledger_ok d'.
Proof.
  intros Hok. destruct (call_tool p c (St d None e)) as [r s'] eqn:Hr.
  destruct (safe_call_tool p c d e r s' Hok Hr) as (d' & e' & -> & Hs).
  exists d', e'. split_and!; [done|done|by eapply ledger_steps_ok].
Qed.

(** C1: no effect without authorization, in order.  Whatever a call does
    outside starts with the egress check of the resolved tool's endpoint,
    reached only when the checks passed and the policy allowed the call, or
    required an approval and one was named; a secret is resolved and the
    executor called only when that check passed and a new execution was
    committed, whose stored record has the digest of this call's arguments and,
    when the policy required an approval, the approval the call names (and none
    otherwise); and the secret comes before the executor, which is called for
    that execution. *)
Theorem call_tool_effects_authorized c d e :
  ledger_ok d →
  ∃ calls, io_log (environment (call_tool p c (St d None e)).2) = io_log e ++ calls ∧
    (calls = [] ∨ ∃ a rest,
      decided p c (St d None e) a ∧ permitted c a ∧
      calls = IoValidateEndpoint (endpoint_of a) :: rest ∧
      (rest = [] ∨
       validate_endpoint (io_log e) (endpoint_of a) = Ok tt ∧
       ∃ id x secrets executed,
         dget id (es_executions d) = None ∧
         dget id (es_executions (store (call_tool p c (St d None e)).2)) = Some x ∧
         canonical_json_digest (JObj (ct_arguments c)) = Ok (ex_arguments_digest x) ∧
         ex_approval_id x = (if bool_decide (pd_effect (ac_decision a) = RequireApproval)
                             then ct_approval_id c else None) ∧
         rest = secrets ++ executed ∧ secret_calls secrets ∧
         Forall (executor_event id) executed)).
Proof.
  intros Hok. destruct (call_tool p c (St d None e)) as [r s'] eqn:Hr. simpl.
  apply call_tool_stops in Hr as
    [x|a x s2 Hd Hp He|a x Hd Hp|a b x s2 Hd Hp Hv Hpl|a b x s1 r2 s2 Hd Hp Hv Hpl Hrun].
  - exists []. rewrite app_nil_r. auto.
  - exists []. rewrite app_nil_r. split; [|by left].
    by apply quiet_log in He; [|apply quiet_enforce_decision].
  - eexists. split; [done|]. right. exists a, []. auto.
  - exists [IoValidateEndpoint (endpoint_of a)]. apply quiet_log in Hpl; [|apply quiet_plan].
    split; [exact Hpl|]. right. exists a, []. auto.
  - pose proof Hpl as Hlog. apply quiet_log in Hlog; [|apply quiet_plan].
    destruct (run_planned_calls p c a b x s1) as (secrets & executed & Hc & Hs & Hx).
    rewrite Hrun in Hc. simpl in Hc.
    exists (IoValidateEndpoint (endpoint_of a) :: secrets ++ executed). split.
    { rewrite Hc, Hlog. simpl. by rewrite <-(assoc_L (++)). }
    right. exists a, (secrets ++ executed). split_and!; try done. right. split; [done|].
    rewrite policy_validate_run in Hpl.
    destruct (planned_fields _ d _ x s1 Hok Hpl) as
      (d1 & e1 & -> & Hok1 & Hn & Hx1 & _ & Hdig & Happ & _).
    destruct (safe_run_planned p c a b x _ _ _ _ Hok1 Hrun) as (d' & e' & -> & Hsteps).
    destruct (ledger_steps_keep _ _ _ _ Hok1 Hsteps Hx1) as (x' & Hx' & Hsame & _).
    pose proof (f_equal ex_arguments_digest Hsame) as Hd1. pose proof (f_equal ex_approval_id Hsame) as Hd2.
    destruct Hd as [? Hdec]. apply decide_call_fields in Hdec as (_ & _ & Hdig').
    simpl in Hd1, Hd2. exists (ex_id x), x', secrets, executed. rewrite Hd1, Hd2, Hdig. by split_and!.
Qed.

(** A denied call is denied, and leaves evidence: when the checks pass and
    the policy says DENY, the call touches nothing outside, plans nothing,
    and, its denial being recordable, raises the authorization error with
    exactly one DENIED event added: of the principal, on the tool version,
    with the arguments digest and the policy's reason. *)
Theorem denied_call_leaves_evidence c d e a :
  decided p c (St d None e) a → pd_effect (ac_decision a) = Deny →
  is_ok (record_policy_decision (D := execution_store) c a OutDenied (St d None e)).1 = true →
  ∃ ev e', call_tool p c (St d None e) =
      (Raise (Nexus AuthorizationError),
       St (mkExecutionStore (es_executions d) (es_attempts d) (es_approvals d)
             (dset (ae_id ev) ev (es_audits d))) None e') ∧
    io_log e' = io_log e ∧
    dget (ae_id ev) (es_audits d) = None ∧ ae_outcome ev = OutDenied ∧
    ae_execution_id ev = None ∧ ae_actor_id ev = ip_id (ac_principal a) ∧
    ae_resource_id ev = rt_tool_version_id (ac_tool a) ∧
    ae_arguments_digest ev = Some (ac_digest a) ∧
    ae_reason_code ev = Some (pd_reason_code (ac_decision a)).
Proof.
  intros [Hc Hd] He Hrec.
  destruct (record_policy_decision c a OutDenied (St d None e)) as [r s'] eqn:Hr.
  pose proof Hr as Hq. apply quiet_log in Hq; [|apply quiet_record_call_decision].
  pose proof Hr as Hrun. apply record_call_decision_run in Hrun as
    (e' & [(y & -> & _)|(ev & -> & H1 & H2 & H3 & H4 & H5 & H6 & H7 & H8 & ->)]); [done|].
  exists ev, e'. split_and!; try done.
  unfold call_tool. rewrite (bind_Ok _ _ _ _ _ Hc). cbn [fst snd].
  rewrite (bind_Ok _ _ _ _ _ Hd). apply bind_Raise.
  unfold enforce_decision. rewrite He. by rewrite (bind_Ok _ _ _ _ _ Hr).
Qed.

(** C2: every call ends, and settles what it planned.  From a good ledger with
    a generator that never repeats itself, when the resolver finds tools of the
    tenant it is asked for, whatever the other collaborators answer, raise or
    cancel (the backoffs of the executor included), the call comes to an end
    with the ledger good and one of: no execution changed and an error raised;
    exactly one execution added, in a terminal status that agrees with what the
    caller gets, all of its attempts closed; or, only when the resolution of
    the secret was cancelled, exactly one execution added that stays RUNNING
    without an attempt, and the cancellation raised.  The transactions of the
    ledger themselves are not interrupted in the model. *)
Theorem call_tool_settles `{!Inj (=) (=) identifier} c d e :
  (∀ tenant name log t, cp_tool_resolver p tenant name log = Ok (Some t) →
     rt_tenant_id t = tenant) →
  ledger_ok d → fresh_ids (issued e) d →
  ∃ r d' e', call_tool p c (St d None e) = (r, St d' None e') ∧ ledger_ok d' ∧
    ((∃ y, r = Raise y ∧ es_executions d' = es_executions d) ∨
     (∃ id, dget id (es_executions d) = None ∧ all_settled id d r d') ∨
     (∃ id, dget id (es_executions d) = None ∧ left_running p id d r d')).
Proof.
  intros Htool Hok Hfr.
  destruct (call_tool p c (St d None e)) as [r s'] eqn:Hr.
  destruct (safe_call_tool p c d e r s' Hok Hr) as (d' & e' & -> & Hsteps).
  exists r, d', e'. split; [done|]. split; [by eapply ledger_steps_ok|].
  apply call_tool_stops in Hr. inversion Hr as
    [x|a x s2 Hd Hp He|a x Hd Hp|a b x s2 Hd Hp Hv Hpl|a b x s1 r2 s2 Hd Hp Hv Hpl Hrun]; subst.
  - left. eauto.
  - left. destruct (enforce_decision_executions _ _ _ _ _ _ He) as (d1 & e1 & Heq & Hx & _).
    injection Heq as -> ->. eauto.
  - left. eauto.
  - left. rewrite policy_validate_run in Hpl. apply plan_run_full in Hpl as
      [(? & ? & _ & Heq)|[(? & ? & _ & _ & Heq)|(ap & ? & _)]]; [| |done|apply Hok];
      injection Heq as -> ->; eauto.
  - right. rewrite policy_validate_run in Hpl. destruct (planned_attempts _ d _ x s1 Hok Hpl) as [Hrg Hnone].
    destruct (planned_fields _ d _ x s1 Hok Hpl) as
      (d1 & e1 & -> & _ & Hn & Hx1 & Htn & _ & _ & Ho).
    destruct (cancelled_or_not (resolve_secret p b (St d1 None e1)).1) as [Hc|Hc].
    + right. apply (run_planned_cancelled p c a b x) in Hc as [[e2 Hc] Hcause]. rewrite Hc in Hrun.
      injection Hrun as <- <- _. exists (ex_id x). split; [done|]. split_and!; eauto.
    + left. destruct (planned_serving _ d (Env (ticks e) (issued e) _) x _ Hok Hfr Hpl) as (d2 & e2 & Heq & Hs).
      injection Heq as <- <-.
      destruct (run_planned_settles p c a b x d1 e1) as (r3 & d3 & e3 & Hrun2 & Hall); [done| |done|done|].
      { destruct Hd as [Hd _]. rewrite Htn. apply check_call_tool in Hd as [log Hd].
        by eapply Htool. }
      rewrite Hrun2 in Hrun. injection Hrun as -> -> ->.
      exists (ex_id x). split; [done|].
      destruct Hall as (x' & H1 & H2 & H3 & H4). exists x'. split_and!; try done.
      intros k Hk. by rewrite H4, Ho.
Qed.
End Properties.

(** A gap in the orchestration.  A secret resolution that is cancelled is
    not among the exceptions [execute] handles: the cancellation leaves the
    stores as the plan committed them, so the execution stays RUNNING and its
    audit trail has no terminal event. *)
Theorem cancelled_secret_leaves_running `{Ports} `{EndpointPolicy} p c a b x d e provider :
  ledger_ok d → dget (ex_id x) (es_executions d) = Some x → ex_status x = ExRunning →
  cp_credential_provider p = Some provider →
  (∀ log, provider (cb_secret_reference b) log = Raise CancelledError) →
  ∃ e', run_planned p c a (Some b) x (St d None e) = (Raise CancelledError, St d None e') ∧
    trail (ex_id x) (es_audits d) = [OutAllowed].
Proof.
  intros Hok Hx Hrun Hp Hc. eexists. split.
  - unfold run_planned. rewrite capture_bind. unfold resolve_secret, ask. rewrite Hp.
    unfold bind, emit, get_log, lift. simpl. rewrite Hc. simpl. reflexivity.
  - rewrite (led_trail _ Hok _ _ Hx), Hrun. reflexivity.
Qed.

(** ** Witnesses *)

Module CallToolExamples.
#[local] Existing Instance RetryExamples.counting_ports.
#[local] Existing Instance RetryExamples.counting_inj.
#[local] Existing Instance RetryExamples.flaky.
#[local] Existing Instance RetryExamples.sleeping.
#[local] Existing Instance allow_all_policy.

Definition ports (effect : PolicyEffect) : CallToolPorts execution_store :=
  mkCallToolPorts _ (λ ctx _, context_principal ctx)
    (λ tenant name _, Ok (if decide (tenant = "tenant" ∧ name = "ns.tool")
                          then Some RetryExamples.tool else None))
    (λ _ _, Ok tt) (λ _ _, Ok (mkDecision effect "p1" "reason"))
    (execute_with_retry RetryExamples.cfg) None None (Some 60%Q) 5.

Definition command : CallToolCommand :=
  mkCallTool LifecycleExamples.ctx "ns.tool" [] None None ScopeRoot None None.

Definition empty : execution_store := mkExecutionStore [] [] [] [].
Definition env0 : env := Env 0 0 [].

#[export] Instance ports_lawful effect : LawfulExecutor (cp_executor (ports effect)).
Proof.
  apply retrying_executor_lawful. intros request credential log.
  unfold run_tool, RetryExamples.flaky. destruct (_ <? _)%nat; simpl; [done|lia].
Qed.

Lemma empty_fresh : fresh_ids 0 empty.
Proof.
  intros m _. simpl. destruct (RetryExamples.unary_head m) as [s ->]. rewrite blank_spec.
  by split_and!.
Qed.

Lemma ports_tenant effect tenant name log t :
  cp_tool_resolver (ports effect) tenant name log = Ok (Some t) → rt_tenant_id t = tenant.
Proof. simpl. case_decide as E; [|done]. destruct E as [-> _]. by intros [= <-]. Qed.

Definition digest : string :=
  Eval vm_compute in match call_arguments_digest command with Ok s => s | _ => "" end.
Definition denied_call : AuthorizedCall :=
  mkAuthorized (mkPrincipal "agent" "tenant" AgentService "static") RetryExamples.tool
    (mkDecision Deny "p1" "reason") digest.

Lemma denied_decided : decided (ports Deny) command (St empty None env0) denied_call.
Proof. split; vm_compute; reflexivity. Qed.

Definition binding : CredentialBinding :=
  mkCredentialBinding "cb" "tenant" CredTenant None None "up"
    (mkSecretReference "environment" "KEY" None) InHeader "X-Key" FormatRaw CredActive.
Definition cancelling : CallToolPorts execution_store :=
  mkCallToolPorts _ (λ ctx _, context_principal ctx) (λ _ _ _, Ok None)
    (λ _ _, Ok tt) (λ _ _, Ok default_deny)
    (execute_with_retry RetryExamples.cfg) None (Some (λ _ _, Raise CancelledError)) None 5.
End CallToolExamples.

#[local] Existing Instance RetryExamples.counting_inj.
#[local] Existing Instance CallToolExamples.ports_lawful.

Lemma call_tool_keeps_ledger_witness :
  ∃ d' e', (call_tool (H := RetryExamples.counting_ports) (H0 := allow_all_policy)
      (CallToolExamples.ports Allow) CallToolExamples.command
      (St CallToolExamples.empty None CallToolExamples.env0)).2 = St d' None e' ∧ ledger_ok d'.
Proof.
  destruct (call_tool_keeps_ledger (H := RetryExamples.counting_ports) (H0 := allow_all_policy)
    (CallToolExamples.ports Allow) CallToolExamples.command CallToolExamples.empty
    CallToolExamples.env0 ledger_ok_empty) as (d' & e' & P & _ & Q).
  exists d', e'. split; [exact P|exact Q].
Defined.

Lemma call_tool_effects_authorized_witness :
  ∃ id x, dget id (es_executions (store (call_tool (H := RetryExamples.counting_ports)
      (H0 := allow_all_policy) (CallToolExamples.ports Allow) CallToolExamples.command
      (St CallToolExamples.empty None CallToolExamples.env0)).2)) = Some x ∧
    canonical_json_digest (JObj []) = Ok (ex_arguments_digest x).
Proof.
  destruct (call_tool_effects_authorized (H := RetryExamples.counting_ports)
    (H0 := allow_all_policy) (CallToolExamples.ports Allow) CallToolExamples.command
    CallToolExamples.empty CallToolExamples.env0 ledger_ok_empty)
    as (calls & Hl & [->|(a & rest & _ & _ & -> & [->|(_ & id & x & ? & ? & _ & Hx & Hd & _)])]).
  - exfalso. vm_compute in Hl. discriminate.
  - exfalso. vm_compute in Hl. discriminate.
  - exists id, x. split; [exact Hx|exact Hd].
Defined.

Lemma denied_call_leaves_evidence_witness :
  ∃ ev e', call_tool (H := RetryExamples.counting_ports) (H0 := allow_all_policy)
      (CallToolExamples.ports Deny) CallToolExamples.command
      (St CallToolExamples.empty None CallToolExamples.env0) =
    (Raise (Nexus AuthorizationError), St (mkExecutionStore [] [] [] [(ae_id ev, ev)]) None e') ∧
    ae_outcome ev = OutDenied.
Proof.
  destruct (denied_call_leaves_evidence (H := RetryExamples.counting_ports)
    (H0 := allow_all_policy) (CallToolExamples.ports Deny) CallToolExamples.command
    CallToolExamples.empty CallToolExamples.env0 CallToolExamples.denied_call
    CallToolExamples.denied_decided eq_refl) as (ev & e' & P & _ & _ & Q & _).
  - vm_compute. reflexivity.
  - exists ev, e'. split; [exact P|exact Q].
Defined.

Lemma call_tool_settles_witness :
  ∃ r d' e', call_tool (H := RetryExamples.counting_ports) (H0 := allow_all_policy)
      (CallToolExamples.ports Allow) CallToolExamples.command
      (St CallToolExamples.empty None CallToolExamples.env0) = (r, St d' None e') ∧ ledger_ok d'.
Proof.
  destruct (call_tool_settles (H := RetryExamples.counting_ports) (H0 := allow_all_policy)
    (CallToolExamples.ports Allow) CallToolExamples.command CallToolExamples.empty
    CallToolExamples.env0 (CallToolExamples.ports_tenant Allow) ledger_ok_empty CallToolExamples.empty_fresh)
    as (r & d' & e' & P & Q & _).
  exists r, d', e'. split; [exact P|exact Q].
Defined.

Lemma cancelled_secret_leaves_running_witness :
  ∃ e', run_planned (H := RetryExamples.counting_ports) CallToolExamples.cancelling
      CallToolExamples.command CallToolExamples.denied_call (Some CallToolExamples.binding)
      RetryExamples.running (St RetryExamples.start None RetryExamples.env0) =
    (Raise CancelledError, St RetryExamples.start None e').
Proof.
  destruct (cancelled_secret_leaves_running (H := RetryExamples.counting_ports)
    (H0 := allow_all_policy) CallToolExamples.cancelling CallToolExamples.command
    CallToolExamples.denied_call CallToolExamples.binding RetryExamples.running
    RetryExamples.start RetryExamples.env0 _ LifecycleExamples.after_plan_ok eq_refl eq_refl
    eq_refl) as (e' & P & _).
  - reflexivity.
  - exists e'. exact P.
Defined.
