(* ===== verification/Egress.v ===== *)
(** * Egress: which upstream endpoints may be connected to

    Models [infrastructure/networking/egress.py]: host normalization, CIDR
    and port allowlists and [StaticUpstreamEndpointPolicy.validate].  The
    resolver is a parameter ([HostResolver]), as is the IDNA encoding of hosts
    that are not ASCII; on ASCII hosts the codec only checks label lengths,
    which is modelled.  Whether [ipaddress] judges an IPv4-mapped IPv6 address
    by the IPv4 address changed between patch levels of Python 3.12;
    [maps_ipv4] is either behaviour, and the theorems hold for both. *)

From Stdlib Require Import ZArith NArith Ascii Lia.
From stdpp Require Import base sets strings option list.
From S2P Require Import Prelude Text Dict Errors Json Store Url AuditTrail Registry.
Open Scope py_scope.

(** ** [ipaddress.ip_network(text, strict=False)] *)

Definition ones (n : N) : N := N.ones n.

(** [_prefix_from_prefix_string] *)
Definition prefix_length (max : N) (s : string) : option N :=
  if str_empty s || negb (all_chars is_ascii_digit s) then None
  else if (max <? decimal s)%N then None else Some (decimal s).

(** [_prefix_from_ip_int]: the prefix length of a netmask. *)
Definition prefix_of_mask (mask : N) : option N :=
  find (λ n, (N.shiftl (ones n) (32 - n) =? mask)%N) (map N.of_nat (seq 0 33)).

(** [_make_netmask] of IPv4: a length, a netmask, or a hostmask. *)
Definition prefix_v4 (s : string) : option N :=
  match prefix_length 32 s with
  | Some n => Some n
  | None =>
      match parse_ipv4 s with
      | None => None
      | Some mask =>
          match prefix_of_mask mask with
          | Some n => Some n
          | None => prefix_of_mask (N.lxor mask (ones 32))
          end
      end
  end.

Definition network_base (bits n prefix : N) : N :=
  N.shiftl (N.shiftr n (bits - prefix)) (bits - prefix).

Definition ip_network_v4 (address : string) (prefix : option string) : option IpNetwork :=
  match parse_ipv4 address, match prefix with Some s => prefix_v4 s | None => Some 32%N end with
  | Some n, Some len => Some (mkNetwork false (network_base 32 n len) len)
  | _, _ => None
  end.

Definition ip_network_v6 (address : string) (prefix : option string) : option IpNetwork :=
  match parse_ipv6 address,
        match prefix with Some s => prefix_length 128 s | None => Some 128%N end with
  | Some (IPv6 n _), Some len => Some (mkNetwork true (network_base 128 n len) len)
  | _, _ => None
  end.

Definition ip_network (text : string) : option IpNetwork :=
  match split_char "/"%char text with
  | [address] =>
      match ip_network_v4 address None with
      | Some n => Some n | None => ip_network_v6 address None
      end
  | [address; prefix] =>
      match ip_network_v4 address (Some prefix) with
      | Some n => Some n | None => ip_network_v6 address (Some prefix)
      end
  | _ => None
  end.

Example ip_network_examples :
  ip_network "10.1.2.3/8" = Some (mkNetwork false (v4 10 0 0 0) 8) ∧
  ip_network "10.1.2.3" = Some (mkNetwork false (v4 10 1 2 3) 32) ∧
  ip_network "10.0.0.0/255.255.255.0" = Some (mkNetwork false (v4 10 0 0 0) 24) ∧
  ip_network "10.0.0.0/0.0.0.255" = Some (mkNetwork false (v4 10 0 0 0) 24) ∧
  ip_network "10.0.0.0/255.0.255.0" = None ∧ ip_network "10.0.0.0/" = None ∧
  ip_network "10.0.0.0/33" = None ∧
  ip_network "2001:db8::1/32" = Some (mkNetwork true (N.shiftl 0x20010db8 96) 32) ∧
  ip_network "::1/129" = None ∧ ip_network "1/2/3" = None.
Proof. by vm_compute. Qed.

(** ** Addresses *)

(** The IPv4 address of an IPv4-mapped IPv6 address. *)
Definition ipv4_mapped (a : IpAddress) : option N :=
  match a with
  | IPv6 n _ => if (N.shiftr n 32 =? 65535)%N then Some (N.land n (ones 32)) else None
  | IPv4 _ => None
  end.

(** Does [ipaddress] judge a mapped address by its IPv4 address? *)
Class MappedAddresses := maps_ipv4 : bool.

Definition judged `{MappedAddresses} (a : IpAddress) : IpAddress :=
  if maps_ipv4 then match ipv4_mapped a with Some n => IPv4 n | None => a end else a.

(** [_METADATA_ADDRESSES], [_METADATA_HOSTS], [_LOCAL_DEMO_HOSTS] *)
Definition metadata_addresses : list IpAddress :=
  [IPv4 (v4 100 100 100 200); IPv4 (v4 169 254 169 254)].
Definition metadata_hosts : list string := ["metadata.google.internal"; "metadata.google.internal."].
Definition local_demo_hosts : list string := ["localhost"; "127.0.0.1"; "::1"].

(** ** Hosts *)

(** [_literal_address] *)
Definition literal_address (host : string) : option IpAddress := ip_address host.

Definition is_ascii (s : string) : bool := all_chars (λ c, (code c <? 128)%N) s.

(** [str.encode("idna")] of hosts that are not ASCII. *)
Class IdnaCodec := idna_encode_unicode : string → option string.

Fixpoint labels_ok (labels : list string) : bool :=
  match labels with
  | [] => true
  | [last] => (String.length last <? 64)%nat
  | l :: ls => negb (str_empty l) && (String.length l <? 64)%nat && labels_ok ls
  end.

Definition idna_encode `{IdnaCodec} (host : string) : option string :=
  if str_empty host then Some host
  else if is_ascii host
  then if labels_ok (split_char "."%char host) then Some host else None
  else idna_encode_unicode host.

(** [_normalize_host] *)
Definition normalize_host `{IdnaCodec} (value : string) : res string :=
  let host := lower (rstrip_chars (char_in ".") (strip value)) in
  raise_if (str_empty host) (ValueError "egress allowed host must not be blank") ;;?
  raise_if (contains "%" host)
    (ValueError "IPv6 zone identifiers are not allowed in egress hosts") ;;?
  raise_if (is_none (literal_address host)
            && negb (all_chars (λ c, negb (is_space c || char_in "/\@:" c)) host))
    (ValueError "egress allowed host was invalid") ;;?
  match idna_encode host with
  | Some encoded => Ok encoded
  | None => Raise (ValueError "egress allowed host was invalid")
  end.

(** ** [StaticUpstreamEndpointPolicy] *)

Record egress_policy := mkEgressPolicy {
  eg_allowed_hosts : list string;
  eg_allowed_networks : list IpNetwork;
  eg_allowed_ports : list Z;
  eg_allow_local_demo : bool }.

(** [StaticUpstreamEndpointPolicy.__init__] *)
Definition new_egress_policy `{IdnaCodec} (allowed_hosts allowed_cidrs : list string)
    (allowed_ports : list Z) (allow_local_demo : bool) : res egress_policy :=
  let? hosts := traverse normalize_host allowed_hosts in
  let? networks := traverse (λ cidr, match ip_network cidr with
                                     | Some n => Ok n
                                     | None => Raise (ValueError "egress allowed CIDR was invalid")
                                     end) allowed_cidrs in
  raise_if (match allowed_ports with [] => true | _ => false end
            || existsb (λ p, negb ((1 <=? p)%Z && (p <=? 65535)%Z)) allowed_ports)
    (ValueError "egress allowed ports were invalid") ;;?
  Ok (mkEgressPolicy hosts networks allowed_ports allow_local_demo).

Definition unsafe_endpoint : exn := Nexus UnsafeUpstreamEndpointError.

(** [_validate_address] *)
Definition validate_address `{MappedAddresses} (p : egress_policy) (host : string)
    (a : IpAddress) : res unit :=
  if is_loopback (judged a) then
    raise_if (negb (eg_allow_local_demo p && bool_decide (host ∈ local_demo_hosts)))
      unsafe_endpoint
  else
    raise_if (bool_decide (a ∈ metadata_addresses) || is_link_local (judged a)
              || is_unspecified (judged a) || is_multicast (judged a) || is_reserved (judged a))
      unsafe_endpoint ;;?
    if bool_decide (host ∈ eg_allowed_hosts p) then Ok tt
    else raise_if (negb (existsb (in_network a) (eg_allowed_networks p))) unsafe_endpoint.

Fixpoint validate_addresses `{MappedAddresses} (p : egress_policy) (host : string)
    (addresses : list IpAddress) : res unit :=
  match addresses with
  | [] => Ok tt
  | a :: rest => validate_address p host a ;;? validate_addresses p host rest
  end.

(** [HostResolver.resolve] *)
Class HostResolver := resolve_host : list io_event → string → Z → res (list IpAddress).

(** [except ValueError: raise UnsafeUpstreamEndpointError] *)
Definition as_unsafe {A} (r : res A) : res A :=
  match r with
  | Raise x => if is_value_error x then Raise unsafe_endpoint else r
  | Ok _ => r
  end.

(** The port of the endpoint: [parsed.port or default]. *)
Definition endpoint_port (u : split_url) : res Z :=
  let? port := url_port u in
  let default_port := (if bool_decide (url_scheme u = "https") then 443 else 80)%Z in
  Ok (match port with
      | Some 0%N | None => default_port
      | Some n => Z.of_N n
      end).

(** [validate] *)
Definition egress_validate `{MappedAddresses} `{IdnaCodec} `{HostResolver} (p : egress_policy)
    (log : list io_event) (endpoint : string) : res unit :=
  let? parsed := urlsplit endpoint in
  match url_hostname parsed with
  | None => Raise unsafe_endpoint
  | Some hostname =>
      raise_if (negb (bool_decide (url_scheme parsed ∈ ["http"; "https"]))) unsafe_endpoint ;;?
      raise_if (negb (is_none (url_username parsed)) || negb (is_none (url_password parsed)))
        unsafe_endpoint ;;?
      raise_if (negb (str_empty (url_fragment parsed))) unsafe_endpoint ;;?
      let? port := as_unsafe (endpoint_port parsed) in
      raise_if (negb (bool_decide (port ∈ eg_allowed_ports p))) unsafe_endpoint ;;?
      let? host := as_unsafe (normalize_host hostname) in
      raise_if (bool_decide (host ∈ metadata_hosts)) unsafe_endpoint ;;?
      match literal_address host with
      | Some a => validate_address p host a
      | None =>
          raise_if (negb (bool_decide (host ∈ eg_allowed_hosts p))) unsafe_endpoint ;;?
          let? addresses := resolve_host log host port in
          validate_addresses p host addresses
      end
  end.

(** The policy as what [CallTool] and the registry ask for. *)
Definition static_egress_policy `{MappedAddresses} `{IdnaCodec} `{HostResolver}
    (p : egress_policy) : EndpointPolicy := egress_validate p.

(** ** Specification *)

(** The addresses no configuration admits. *)
Definition hard_denied `{MappedAddresses} (a : IpAddress) : Prop :=
  a ∈ metadata_addresses ∨ is_link_local (judged a) = true ∨ is_unspecified (judged a) = true ∨
  is_multicast (judged a) = true ∨ is_reserved (judged a) = true.

Definition address_admitted `{MappedAddresses} (p : egress_policy) (host : string)
    (a : IpAddress) : Prop :=
  if is_loopback (judged a)
  then eg_allow_local_demo p = true ∧ host ∈ local_demo_hosts
  else ¬ hard_denied a ∧
       (host ∈ eg_allowed_hosts p ∨ ∃ net, net ∈ eg_allowed_networks p ∧ in_network a net = true).

(** What an admitted endpoint is: its parts, host and addresses. *)
Record admitted `{MappedAddresses} `{IdnaCodec} `{HostResolver} (p : egress_policy)
    (log : list io_event) (endpoint : string) (u : split_url) (host : string)
    (addresses : list IpAddress) : Prop := {
  ad_url : urlsplit endpoint = Ok u;
  ad_scheme : url_scheme u ∈ ["http"; "https"];
  ad_host : ∃ hostname, url_hostname u = Some hostname ∧ normalize_host hostname = Ok host;
  ad_no_credentials : url_username u = None ∧ url_password u = None;
  ad_no_fragment : url_fragment u = "";
  ad_port : ∃ port, endpoint_port u = Ok port ∧ port ∈ eg_allowed_ports p ∧
    match literal_address host with
    | Some a => addresses = [a]
    | None => host ∈ eg_allowed_hosts p ∧ resolve_host log host port = Ok addresses
    end;
  ad_not_metadata : host ∉ metadata_hosts;
  ad_addresses : Forall (address_admitted p host) addresses }.

Section Spec.
Context `{MappedAddresses} `{IdnaCodec} `{HostResolver} (p : egress_policy).

Lemma validate_address_Ok host a :
  validate_address p host a = Ok tt ↔ address_admitted p host a.
Proof.
  unfold validate_address, address_admitted, hard_denied.
  destruct (is_loopback (judged a)).
  - rewrite raise_if_Ok, negb_false_iff, andb_true_iff, bool_decide_eq_true. done.
  - destruct (bool_decide (a ∈ metadata_addresses) || is_link_local (judged a)
              || is_unspecified (judged a) || is_multicast (judged a) || is_reserved (judged a)) eqn:E;
      simpl.
    + split; [done|]. intros [Hn _]. exfalso. apply Hn.
      rewrite !orb_true_iff, bool_decide_eq_true in E. tauto.
    + rewrite !orb_false_iff, bool_decide_eq_false in E.
      assert (Hn : ¬ (a ∈ metadata_addresses ∨ is_link_local (judged a) = true ∨
        is_unspecified (judged a) = true ∨ is_multicast (judged a) = true ∨
        is_reserved (judged a) = true)) by (intros ?; intuition congruence).
      case_bool_decide as Hh; [naive_solver|].
      rewrite raise_if_Ok, negb_false_iff, existsb_exists. split.
      * intros (net & Hin & Hnet). split; [done|]. right. exists net.
        by rewrite list_elem_of_In.
      * intros [_ [?|(net & Hin & Hnet)]]; [done|]. exists net. by rewrite <-list_elem_of_In.
Qed.

Lemma validate_addresses_Ok host addresses :
  validate_addresses p host addresses = Ok tt ↔ Forall (address_admitted p host) addresses.
Proof.
  induction addresses as [|a rest IH]; simpl; [by split|].
  rewrite Forall_cons, <-IH, <-validate_address_Ok.
  destruct (validate_address p host a) as [[]|]; simpl; naive_solver.
Qed.

Lemma as_unsafe_Ok {A} (r : res A) x : as_unsafe r = Ok x → r = Ok x.
Proof. destruct r as [|y]; simpl; [done|]. by destruct (is_value_error y). Qed.

(** The egress policy admits exactly the endpoints that are admitted by
    its specification: an http(s) URL without credentials or fragment on an
    allowed port, whose host is not a metadata host and is either a literal
    address or an allowlisted name, all of whose addresses are admitted:
    loopback only for the local demo, never a metadata, link-local,
    unspecified, multicast or reserved address, and otherwise only for an
    allowlisted host or inside an allowlisted network. *)
Theorem egress_validate_spec log endpoint :
  egress_validate p log endpoint = Ok tt ↔
  ∃ u host addresses, admitted p log endpoint u host addresses.
Proof.
  split.
  - unfold egress_validate. intros Hr. apply rbind_Ok_inv in Hr as (u & Hu & Hr).
    destruct (url_hostname u) as [hostname|] eqn:Hh; [|done].
    apply rbind_Ok_inv in Hr as (? & G1%raise_if_Ok & Hr).
    apply rbind_Ok_inv in Hr as (? & G2%raise_if_Ok & Hr).
    apply rbind_Ok_inv in Hr as (? & G3%raise_if_Ok & Hr).
    apply rbind_Ok_inv in Hr as (port & G4%as_unsafe_Ok & Hr).
    apply rbind_Ok_inv in Hr as (? & G5%raise_if_Ok & Hr).
    apply rbind_Ok_inv in Hr as (host & G6%as_unsafe_Ok & Hr).
    apply rbind_Ok_inv in Hr as (? & G7%raise_if_Ok & Hr).
    py_bools. apply str_empty_true in G3.
    assert (Hc : url_username u = None ∧ url_password u = None)
      by (destruct (url_username u), (url_password u); done).
    destruct (literal_address host) as [a|] eqn:Hl.
    + exists u, host, [a]. apply validate_address_Ok in Hr.
      split; eauto. exists port. by rewrite Hl.
    + apply rbind_Ok_inv in Hr as (? & G8%raise_if_Ok & Hr).
      apply rbind_Ok_inv in Hr as (addresses & Hres & Hr). py_bools.
      exists u, host, addresses. apply validate_addresses_Ok in Hr.
      split; eauto. exists port. by rewrite Hl.
  - intros (u & host & addresses & [Hu Hs (hostname & Hh & Hn) [Hc1 Hc2] Hf
      (port & Hp & Hin & Ha) Hm Hall]).
    unfold egress_validate. rewrite Hu. simpl. rewrite Hh, Hc1, Hc2, Hf, Hp, Hn.
    rewrite bool_decide_eq_true_2 by done. cbn [rbind raise_if negb orb is_none str_empty as_unsafe].
    rewrite bool_decide_eq_true_2 by done. cbn [rbind raise_if negb].
    rewrite bool_decide_eq_false_2 by done. cbn [rbind raise_if].
    destruct (literal_address host) as [a|].
    + subst addresses. apply validate_address_Ok. by inversion Hall.
    + destruct Ha as [Hh' Hr]. rewrite bool_decide_eq_true_2 by done. cbn [rbind raise_if negb]. rewrite Hr.
      by apply validate_addresses_Ok.
Qed.
End Spec.

(** ** The denied ranges as numbers *)

Lemma in_v4_spec n base len :
  in_v4 n base len = true ↔ (n / 2 ^ (32 - len) = base / 2 ^ (32 - len))%N.
Proof. unfold in_v4. by rewrite N.eqb_eq, !N.shiftr_div_pow2. Qed.

Lemma v4_block n base len :
  (base mod 2 ^ (32 - len) = 0)%N →
  in_v4 n base len = true ↔ (base <= n < base + 2 ^ (32 - len))%N.
Proof.
  intros Hb. rewrite in_v4_spec. set (k := (2 ^ (32 - len))%N) in *.
  assert (Hk : (k ≠ 0)%N) by (apply N.pow_nonzero; lia). clearbody k.
  pose proof (N.div_mod base k Hk) as E1. pose proof (N.div_mod n k Hk) as E2.
  pose proof (N.mod_lt n k Hk) as L. rewrite Hb, N.add_0_r in E1. split.
  - intros E. rewrite E, <-E1 in E2. revert E2 L. clear. generalize (n mod k)%N.
    intros r ? ?. lia.
  - intros Hn. symmetry.
    apply (N.div_unique n k (base / k) (n - base)); [clear -Hn; lia|].
    rewrite <-E1. clear -Hn. lia.
Qed.

(** Dotted addresses and block sizes as numerals. *)
Ltac v4_numerals :=
  repeat match goal with
  | H : context [v4 ?a ?b ?c ?d] |- _ =>
      let x := eval vm_compute in (v4 a b c d) in change (v4 a b c d) with x in H
  | |- context [v4 ?a ?b ?c ?d] =>
      let x := eval vm_compute in (v4 a b c d) in change (v4 a b c d) with x
  | H : context [(2 ^ ?e)%N] |- _ =>
      let x := eval vm_compute in (2 ^ e)%N in change (2 ^ e)%N with x in H
  end.

(** An admitted IPv4 address, by its value. *)
Lemma admitted_v4 `{MappedAddresses} p host n :
  address_admitted p host (IPv4 n) → (n < 2 ^ 32)%N →
  ((v4 127 0 0 0 <= n <= v4 127 255 255 255)%N ∧
     eg_allow_local_demo p = true ∧ host ∈ local_demo_hosts) ∨
  (n ≠ v4 100 100 100 200 ∧ n ≠ 0 ∧ n < v4 224 0 0 0 ∧
   ¬ (v4 127 0 0 0 <= n <= v4 127 255 255 255) ∧
   ¬ (v4 169 254 0 0 <= n <= v4 169 254 255 255))%N.
Proof.
  unfold address_admitted, hard_denied.
  assert (Hj : judged (IPv4 n) = IPv4 n) by (unfold judged; by destruct maps_ipv4).
  rewrite Hj. intros Ha Hn. cbn [is_loopback is_link_local is_unspecified is_multicast is_reserved] in Ha.
  destruct (in_v4 n (v4 127 0 0 0) 8) eqn:El.
  - left. apply v4_block in El; [|done]. split; [|done]. v4_numerals. lia.
  - right. destruct Ha as [Hd _].
    assert (El' : ¬ (v4 127 0 0 0 <= n < v4 127 0 0 0 + 2 ^ (32 - 8))%N)
      by (rewrite <-v4_block; [by rewrite El|done]).
    assert (E1 : ¬ (v4 169 254 0 0 <= n < v4 169 254 0 0 + 2 ^ (32 - 16))%N)
      by (rewrite <-v4_block; [tauto|done]).
    assert (E2 : ¬ (v4 224 0 0 0 <= n < v4 224 0 0 0 + 2 ^ (32 - 4))%N)
      by (rewrite <-v4_block; [tauto|done]).
    assert (E3 : ¬ (v4 240 0 0 0 <= n < v4 240 0 0 0 + 2 ^ (32 - 4))%N)
      by (rewrite <-v4_block; [tauto|done]).
    assert (E4 : n ≠ v4 100 100 100 200).
    { intros ->. apply Hd. left. unfold metadata_addresses. set_solver. }
    assert (E5 : n ≠ 0%N) by (intros ->; apply Hd; auto).
    v4_numerals. lia.
Qed.

(** C22: whatever is allowlisted and whatever DNS answers, an admitted endpoint
    has no IPv4 address that is a metadata service, link-local, unspecified,
    multicast or reserved; a loopback address only when the local demo is
    enabled, for its hosts; and a name that is not allowlisted is never
    resolved. *)
Theorem egress_never_reaches_internal `{MappedAddresses} `{IdnaCodec} `{HostResolver}
    p log endpoint :
  egress_validate p log endpoint = Ok tt →
  ∃ u host addresses, admitted p log endpoint u host addresses ∧
    (literal_address host = None → host ∈ eg_allowed_hosts p) ∧
    ∀ n, IPv4 n ∈ addresses → (n < 2 ^ 32)%N →
      ((v4 127 0 0 0 <= n <= v4 127 255 255 255)%N ∧
         eg_allow_local_demo p = true ∧ host ∈ local_demo_hosts) ∨
      (n ≠ v4 100 100 100 200 ∧ n ≠ 0 ∧ n < v4 224 0 0 0 ∧
       ¬ (v4 127 0 0 0 <= n <= v4 127 255 255 255) ∧
       ¬ (v4 169 254 0 0 <= n <= v4 169 254 255 255))%N.
Proof.
  intros Hv. apply egress_validate_spec in Hv as (u & host & addresses & Ha).
  exists u, host, addresses. split; [done|]. split.
  - intros Hl. destruct (ad_port _ _ _ _ _ _ Ha) as (port & _ & _ & Hr).
    rewrite Hl in Hr. by destruct Hr.
  - intros n Hin Hn. pose proof (ad_addresses _ _ _ _ _ _ Ha) as Hall.
    rewrite Forall_forall in Hall. by apply admitted_v4; [apply Hall|].
Qed.

(** The errors of the egress check: it raises the unsafe-endpoint error,
    unless the URL does not parse at all, and then the [ValueError] of
    [urlsplit], or the resolver itself failed, and then the resolver's error. *)
Lemma egress_errors `{MappedAddresses} `{IdnaCodec} `{HostResolver} p log endpoint x :
  egress_validate p log endpoint = Raise x →
  x = unsafe_endpoint ∨ urlsplit endpoint = Raise x ∨
  ∃ host port, resolve_host log host port = Raise x.
Proof.
  assert (Hin : ∀ (c : bool) y, raise_if c unsafe_endpoint = Raise y → y = unsafe_endpoint)
    by (intros [] y; naive_solver).
  assert (Haddr : ∀ host a y, validate_address p host a = Raise y → y = unsafe_endpoint).
  { intros host a y. unfold validate_address. case_match; [apply Hin|].
    match goal with |- rbind ?r _ = _ → _ => destruct r as [u|z] eqn:E end; simpl;
      [|intros [= <-]; by eapply Hin].
    destruct (bool_decide (host ∈ _)); [done|apply Hin]. }
  assert (Has : ∀ A (r : res A) y, as_unsafe r = Raise y →
    (∀ z, r = Raise z → is_value_error z = true) → y = unsafe_endpoint).
  { intros A r y. destruct r as [a|z]; simpl; [done|]. intros Hz Hy. specialize (Hy z eq_refl).
    rewrite Hy in Hz. by injection Hz as <-. }
  unfold egress_validate. destruct (urlsplit endpoint) as [u|y]; simpl; [|naive_solver].
  destruct (url_hostname u) as [hostname|]; [|naive_solver].
  repeat match goal with
  | |- rbind (raise_if ?c unsafe_endpoint) _ = _ → _ =>
      let E := fresh "E" in
      destruct (raise_if c unsafe_endpoint) as [[]|] eqn:E; simpl;
        [clear E|intros [= ->]; left; by eapply Hin]
  end.
  destruct (as_unsafe (endpoint_port u)) as [port|y] eqn:Hp; simpl.
  2: { intros [= ->]. left. eapply Has; [done|]. intros z. unfold endpoint_port, url_port.
       destruct (url_hostinfo u) as [h port]. repeat case_match; simpl; naive_solver. }
  repeat match goal with
  | |- rbind (raise_if ?c unsafe_endpoint) _ = _ → _ =>
      let E := fresh "E" in
      destruct (raise_if c unsafe_endpoint) as [[]|] eqn:E; simpl;
        [clear E|intros [= ->]; left; by eapply Hin]
  end.
  destruct (as_unsafe (normalize_host hostname)) as [host|y] eqn:Hh; simpl.
  2: { intros [= ->]. left. eapply Has; [done|]. intros z. unfold normalize_host, raise_if, rbind.
       repeat case_match; naive_solver. }
  repeat match goal with
  | |- rbind (raise_if ?c unsafe_endpoint) _ = _ → _ =>
      let E := fresh "E" in
      destruct (raise_if c unsafe_endpoint) as [[]|] eqn:E; simpl;
        [clear E|intros [= ->]; left; by eapply Hin]
  end.
  destruct (literal_address host) as [a|]; [intros ?; left; by eapply Haddr|].
  destruct (raise_if _ _) as [[]|] eqn:E; simpl; [clear E|intros [= ->]; left; by eapply Hin].
  destruct (resolve_host log host port) as [addresses|y] eqn:Hr; simpl; [|naive_solver].
  intros Hv. left. clear Hr. induction addresses as [|a rest IH]; simpl in Hv; [done|].
  destruct (validate_address p host a) as [[]|z] eqn:E; simpl in Hv; [by apply IH|].
  injection Hv as ->. by eapply Haddr.
Qed.

(** ** The policy on concrete endpoints *)

Module EgressExamples.

(** No host here needs IDNA; names resolve to a fixed table. *)
#[local] Instance example_idna : IdnaCodec := λ _, None.
#[local] Instance example_maps : MappedAddresses := true.
#[local] Instance example_resolver : HostResolver := λ _ host _,
  if bool_decide (host = "api.internal") then Ok [IPv4 (v4 10 1 2 3)]
  else if bool_decide (host = "rebind.internal") then Ok [IPv4 (v4 10 1 2 3); IPv4 (v4 169 254 169 254)]
  else if bool_decide (host = "mapped.internal")
  then Ok [IPv6 (N.lor (N.shiftl 65535 32) (v4 100 100 100 200)) None]
  else if bool_decide (host = "localhost") then Ok [IPv4 (v4 127 0 0 1)]
  else Raise unsafe_endpoint.

Definition example_policy : egress_policy :=
  match new_egress_policy [" API.internal. "; "rebind.internal"; "mapped.internal"; "localhost"]
          ["10.2.0.0/16"] [80; 443; 8000]%Z true with
  | Ok p => p
  | Raise _ => mkEgressPolicy [] [] [] false
  end.

Example example_policy_parsed :
  new_egress_policy ["api.internal"] ["10.2.0.0/16"] [80%Z] false =
    Ok (mkEgressPolicy ["api.internal"] [mkNetwork false (v4 10 2 0 0) 16] [80%Z] false) ∧
  is_ok (new_egress_policy ["a b"] [] [80%Z] false) = false ∧
  is_ok (new_egress_policy [] ["10.0.0.0/40"] [80%Z] false) = false ∧
  is_ok (new_egress_policy [] [] [0%Z] false) = false ∧ is_ok (new_egress_policy [] [] [] false) = false.
Proof. by vm_compute. Qed.

Example admitted_endpoints :
  egress_validate example_policy [] "https://api.internal/tasks" = Ok tt ∧
  egress_validate example_policy [] "https://10.2.9.9:8000" = Ok tt ∧
  egress_validate example_policy [] "http://localhost:8000" = Ok tt.
Proof. by vm_compute. Qed.

Example refused_endpoints :
  Forall (λ url, egress_validate example_policy [] url = Raise unsafe_endpoint)
    ["ftp://api.internal"; "https://user:pw@api.internal"; "https://api.internal#frag";
     "https://api.internal:22"; "https://metadata.google.internal."; "https://other.internal";
     "https://10.3.0.1"; "http://169.254.169.254"; "http://100.100.100.200"; "https://127.0.0.2";
     "https://rebind.internal"; "https://[::]"; "https://api.internal:99999"; "/tasks"].
Proof. repeat constructor; by vm_compute. Qed.

(** Where [ipaddress] judges IPv4-mapped addresses by the IPv4 address, the
    metadata address 100.100.100.200, which is denied by comparing addresses,
    is not recognized in its IPv4-mapped form. *)
Lemma mapped_metadata_address_admitted :
  egress_validate example_policy [] "https://mapped.internal" = Ok tt ∧
  resolve_host [] "mapped.internal" 443 =
    Ok [IPv6 (N.lor (N.shiftl 65535 32) (v4 100 100 100 200)) None] ∧
  IPv4 (v4 100 100 100 200) ∈ metadata_addresses.
Proof. split; [by vm_compute|]. split; [by vm_compute|]. set_solver. Qed.

Lemma egress_never_reaches_internal_witness :
  ∃ u host addresses, admitted example_policy [] "http://localhost:8000" u host addresses ∧
    (literal_address host = None → host ∈ eg_allowed_hosts example_policy) ∧
    ∀ n, IPv4 n ∈ addresses → (n < 2 ^ 32)%N →
      ((v4 127 0 0 0 <= n <= v4 127 255 255 255)%N ∧
         eg_allow_local_demo example_policy = true ∧ host ∈ local_demo_hosts) ∨
      (n ≠ v4 100 100 100 200 ∧ n ≠ 0 ∧ n < v4 224 0 0 0 ∧
       ¬ (v4 127 0 0 0 <= n <= v4 127 255 255 255) ∧
       ¬ (v4 169 254 0 0 <= n <= v4 169 254 255 255))%N.
Proof. apply egress_never_reaches_internal. by vm_compute. Defined.
End EgressExamples.
