(* ===== verification/Format.v ===== *)
(** * Formatting: [str(value)], [str.upper], [str.replace] and [urllib.parse.quote]

    The parts of Python the HTTP executor builds requests with: [str] and
    [repr] of JSON values, upper-casing and replacing in strings, and
    percent-encoding with no safe characters, with its inverse. *)

From Stdlib Require Import ZArith NArith Ascii Lia.
From stdpp Require Import base sets strings option list pretty.
From S2P Require Import Prelude Text Dict Errors Json Url.
Open Scope py_scope.

(** ** [str.upper] *)

(** One character below U+0100.  U+00B5 and U+00FF have their upper case
    above U+00FF and are kept. *)
Definition upper_char (c : ascii) : string :=
  let n := code c in
  if ((97 <=? n) && (n <=? 122) || (224 <=? n) && (n <=? 254) && negb (n =? 247))%N
  then String (ascii_of_N (n - 32)) ""
  else if (n =? 223)%N then "SS" else String c "".

Fixpoint upper (s : string) : string :=
  match s with EmptyString => "" | String c s' => upper_char c +:+ upper s' end.

(** ** [repr] and [str] *)

Definition apostrophe : ascii := ascii_of_N 39.
Definition double_quote : ascii := ascii_of_N 34.
Definition backslash : ascii := ascii_of_N 92.

(** [str.isprintable] on one character below U+0100. *)
Definition is_printable (c : ascii) : bool :=
  let n := code c in ((32 <=? n) && (n <=? 126) || (161 <=? n) && negb (n =? 173))%N.

Definition repr_char (delimiter c : ascii) : string :=
  if bool_decide (c = delimiter) || bool_decide (c = backslash)
  then String backslash (String c "")
  else if (code c =? 10)%N then String backslash "n"
  else if (code c =? 13)%N then String backslash "r"
  else if (code c =? 9)%N then String backslash "t"
  else if is_printable c then String c ""
  else String backslash (String (ascii_of_N 120)
         (String (hex_digit (code c / 16)) (String (hex_digit (code c mod 16)) ""))).

Fixpoint repr_chars (delimiter : ascii) (s : string) : string :=
  match s with
  | EmptyString => ""
  | String c s' => repr_char delimiter c +:+ repr_chars delimiter s'
  end.

Definition has_char (c : ascii) (s : string) : bool :=
  negb (all_chars (λ d, negb (bool_decide (d = c))) s).

Definition str_repr (s : string) : string :=
  let delimiter := if has_char apostrophe s && negb (has_char double_quote s)
                   then double_quote else apostrophe in
  String delimiter "" +:+ repr_chars delimiter s +:+ String delimiter "".

Fixpoint py_repr (j : json) : string :=
  match j with
  | JNull => "None"
  | JBool b => if b then "True" else "False"
  | JInt z => pretty z
  | JFloat r => r
  | JStr s => str_repr s
  | JArr l => "[" +:+ str_join ", " (map py_repr l) +:+ "]"
  | JObj d => "{" +:+ str_join ", " (map (λ kv, str_repr kv.1 +:+ ": " +:+ py_repr kv.2) d) +:+ "}"
  end.

(** [str(value)] *)
Definition py_str (j : json) : string :=
  match j with JStr s => s | _ => py_repr j end.

Example py_str_examples :
  py_str (JStr "it's") = "it's" ∧ py_str (JInt (-7)) = "-7" ∧ py_str (JBool true) = "True" ∧
  py_str JNull = "None" ∧
  py_str (JArr [JStr "it's"; JInt 1; JObj [("k", JStr "v")]]) =
    "[" +:+ String double_quote ("it's" +:+ String double_quote ", 1, {'k': 'v'}]") ∧
  upper "get" = "GET" ∧ upper "Put" = "PUT".
Proof. by vm_compute. Qed.

(** ** [str.replace] *)

(** Replaces from left to right; [skip] characters of the last match are
    still to be passed over. *)
Fixpoint replace_from (old new : string) (skip : nat) (s : string) : string :=
  match s with
  | EmptyString => ""
  | String c s' =>
      match skip with
      | S skip' => replace_from old new skip' s'
      | O => if startswith old s
             then new +:+ replace_from old new (String.length old - 1) s'
             else String c (replace_from old new 0 s')
      end
  end.

(** [s.replace(old, new)] for an [old] that is not empty. *)
Definition str_replace (old new s : string) : string := replace_from old new 0 s.

Example str_replace_examples :
  str_replace "{id}" "7" "/a/{id}/b/{id}" = "/a/7/b/7" ∧ str_replace "aa" "b" "aaaaa" = "bba" ∧
  str_replace "{x}" "7" "/a/{id}" = "/a/{id}" ∧ str_replace "{id}" "" "{id}" = "".
Proof. by vm_compute. Qed.

(** ** [urllib.parse.quote(value, safe="")] *)

Definition is_unreserved (n : N) : bool :=
  ((48 <=? n) && (n <=? 57) || (65 <=? n) && (n <=? 90) || (97 <=? n) && (n <=? 122)
   || (n =? 95) || (n =? 46) || (n =? 45) || (n =? 126))%N.

Definition upper_hex_digit (n : N) : ascii :=
  ascii_of_N (if (n <? 10)%N then 48 + n else 55 + n).

Definition quote_byte (n : N) : string :=
  if is_unreserved n then String (ascii_of_N n) ""
  else String "%"%char (String (upper_hex_digit (n / 16)) (String (upper_hex_digit (n mod 16)) "")).

Fixpoint quote_bytes (bs : list N) : string :=
  match bs with [] => "" | b :: bs' => quote_byte b +:+ quote_bytes bs' end.

Definition quote (value : string) : string := quote_bytes (utf8 value).

(** [urllib.parse.unquote_to_bytes]: what the other side decodes. *)
Fixpoint unquote_bytes (s : string) : list N :=
  match s with
  | EmptyString => []
  | String c s' =>
      match s' with
      | String h (String l rest) =>
          match bool_decide (c = "%"%char), hex_value h, hex_value l with
          | true, Some x, Some y => (16 * x + y)%N :: unquote_bytes rest
          | _, _, _ => code c :: unquote_bytes s'
          end
      | _ => code c :: unquote_bytes s'
      end
  end.

Example quote_examples :
  quote "a b/c?d#e" = "a%20b%2Fc%3Fd%23e" ∧ quote ".." = ".." ∧ quote "{x}" = "%7Bx%7D" ∧
  unquote_bytes (quote "a b/c") = utf8 "a b/c".
Proof. by vm_compute. Qed.

(** ** Facts *)

Lemma small_cases (P : N → Prop) (m : nat) n :
  (∀ i, (i < m)%nat → P (N.of_nat i)) → (n < N.of_nat m)%N → P n.
Proof. intros H Hn. rewrite <-(N2Nat.id n). apply H. lia. Qed.

Lemma hex_value_upper n : (n < 16)%N → hex_value (upper_hex_digit n) = Some n.
Proof.
  apply (small_cases (λ n, hex_value (upper_hex_digit n) = Some n) 16).
  intros i Hi. do 16 (destruct i as [|i]; [by vm_compute|]). lia.
Qed.

Lemma upper_hex_safe n : (n < 16)%N → is_unreserved (code (upper_hex_digit n)) = true.
Proof.
  apply (small_cases (λ n, is_unreserved (code (upper_hex_digit n)) = true) 16).
  intros i Hi. do 16 (destruct i as [|i]; [by vm_compute|]). lia.
Qed.

Lemma code_ascii n : (n < 256)%N → code (ascii_of_N n) = n.
Proof. apply N_ascii_embedding. Qed.

Lemma code_bound c : (code c < 256)%N.
Proof. apply N_ascii_bounded. Qed.

Lemma unreserved_bound n : is_unreserved n = true → (n < 127)%N ∧ n ≠ 37%N.
Proof.
  unfold is_unreserved. rewrite !orb_true_iff, !andb_true_iff, !N.leb_le, !N.eqb_eq. lia.
Qed.

Lemma byte_nibbles n : (n < 256)%N → (n / 16 < 16)%N ∧ (n mod 16 < 16)%N ∧ (16 * (n / 16) + n mod 16 = n)%N.
Proof.
  intros Hn. repeat split.
  - apply N.Div0.div_lt_upper_bound; lia.
  - by apply N.mod_lt.
  - symmetry. apply (N.div_mod n 16). lia.
Qed.

Lemma utf8_bytes s : Forall (λ b, (b < 256)%N) (utf8 s).
Proof.
  induction s as [|c s IH]; simpl; [constructor|]. pose proof (code_bound c).
  assert (code c / 64 < 4)%N by (apply N.Div0.div_lt_upper_bound; lia).
  assert (code c mod 64 < 64)%N by (by apply N.mod_lt).
  destruct (N.ltb_spec (code c) 128); repeat (apply Forall_cons; split); try done; lia.
Qed.

Lemma unquote_plain c t : c ≠ "%"%char → unquote_bytes (String c t) = code c :: unquote_bytes t.
Proof.
  intros Hc. destruct t as [|h [|l t]]; [done|done|]. cbn [unquote_bytes].
  by rewrite bool_decide_eq_false_2.
Qed.

Lemma unquote_escape h l t :
  unquote_bytes (String "%"%char (String h (String l t))) =
    match hex_value h, hex_value l with
    | Some x, Some y => (16 * x + y)%N :: unquote_bytes t
    | _, _ => code "%"%char :: unquote_bytes (String h (String l t))
    end.
Proof. cbn -[hex_value]. by destruct (hex_value h). Qed.

Lemma unquote_quote_byte n t : (n < 256)%N →
  unquote_bytes (quote_byte n +:+ t) = n :: unquote_bytes t.
Proof.
  intros Hn. unfold quote_byte. destruct (is_unreserved n) eqn:E; cbn [String.append].
  - apply unreserved_bound in E as [_ E].
    change (unquote_bytes (String (ascii_of_N n) t) = n :: unquote_bytes t).
    rewrite unquote_plain, code_ascii by (done || intros He; apply E; by rewrite <-(code_ascii n), He).
    done.
  - pose proof (byte_nibbles n Hn) as (H1 & H2 & H3).
    etrans; [apply unquote_escape|]. rewrite !hex_value_upper by done. by rewrite H3.
Qed.

Lemma str_app_cons c (a b : string) : String c a +:+ b = String c (a +:+ b).
Proof. done. Qed.
Lemma str_app_nil_l (a : string) : "" +:+ a = a.
Proof. done. Qed.
Lemma str_app_assoc (a b c : string) : (a +:+ b) +:+ c = a +:+ b +:+ c.
Proof. induction a as [|x a IH]; [done|]. by rewrite !str_app_cons, IH. Qed.
Lemma str_app_nil_r (a : string) : a +:+ "" = a.
Proof. induction a as [|x a IH]; [done|]. by rewrite str_app_cons, IH. Qed.

(** Percent-encoding is inverted by decoding. *)
Lemma unquote_quote s : unquote_bytes (quote s) = utf8 s.
Proof.
  unfold quote. pose proof (utf8_bytes s) as H. revert H. generalize (utf8 s). intros l.
  induction 1 as [|b l Hb _ IH]; simpl; [done|]. by rewrite unquote_quote_byte, IH.
Qed.

Lemma all_chars_app P a b : all_chars P (a +:+ b) = all_chars P a && all_chars P b.
Proof. induction a as [|c a IH]; [done|]. rewrite str_app_cons. simpl. by rewrite IH, andb_assoc. Qed.

(** The characters of percent-encoded text. *)
Definition quoted_char (c : ascii) : bool := is_unreserved (code c) || (code c =? 37)%N.

Lemma quote_chars s : all_chars quoted_char (quote s) = true.
Proof.
  unfold quote. pose proof (utf8_bytes s) as H. revert H. generalize (utf8 s). intros l.
  induction 1 as [|b l Hb _ IH]; simpl; [done|]. rewrite all_chars_app, IH, andb_true_r.
  unfold quote_byte. destruct (is_unreserved b) eqn:E; simpl; unfold quoted_char.
  - by rewrite code_ascii, E.
  - pose proof (byte_nibbles b Hb) as (H1 & H2 & _). by rewrite !upper_hex_safe.
Qed.

(** ** Counting characters *)

Fixpoint count_chars (P : ascii → bool) (s : string) : nat :=
  match s with
  | EmptyString => 0
  | String c s' => (if P c then 1 else 0) + count_chars P s'
  end.

Lemma count_chars_app P a b : count_chars P (a +:+ b) = (count_chars P a + count_chars P b)%nat.
Proof. induction a as [|c a IH]; [done|]. rewrite str_app_cons. simpl. rewrite IH. lia. Qed.

Lemma count_chars_none P s : all_chars (λ c, negb (P c)) s = true → count_chars P s = 0%nat.
Proof.
  induction s as [|c s IH]; simpl; [done|]. rewrite andb_true_iff, negb_true_iff.
  intros [-> Hs]. by apply IH.
Qed.

(** Replacing by text without a kind of characters adds none of them. *)
Lemma replace_from_count P old new skip s : count_chars P new = 0%nat →
  (count_chars P (replace_from old new skip s) <= count_chars P s)%nat.
Proof.
  intros Hn. revert skip. induction s as [|c s IH]; intros skip; simpl; [lia|].
  destruct skip as [|skip]; [|specialize (IH skip); lia].
  destruct (startswith old (String c s)).
  - rewrite count_chars_app, Hn. specialize (IH (String.length old - 1)%nat). lia.
  - simpl. specialize (IH 0%nat). lia.
Qed.
