(* ===== verification/HttpExecutor.v ===== *)
(** * HttpExecutor: what a tool call sends upstream

    Models [modules/execution/adapters/httpx_executor.py]: the checks of the
    binding, the second egress check, the mapping of the arguments to path,
    query, headers and body, the injection of credential and idempotency key,
    the request and the reading of the response.  The HTTP client is a
    parameter ([HttpClient]) that may answer anything; the calls the executor
    makes to the egress policy and to the client are its [wire_event]s.
    [HttpxToolExecutor] as the [ToolExecutor] of the retry loop is the
    instance [httpx_tool_executor]. *)

From Stdlib Require Import ZArith NArith QArith Ascii Lia.
From stdpp Require Import base sets strings option list pretty.
From S2P Require Import Prelude Text Dict Errors Json Store AuditTrail Catalog Connectors.
From S2P Require Import Url Registry Credentials Approval Execution Lifecycle Retry CallTool Egress Format.
Open Scope py_scope.

(** ** Requests, responses and the client *)

Record http_request := mkHttpRequest {
  hr_method : string;
  hr_url : string;
  hr_params : dict string;
  hr_headers : dict string;
  hr_json : json;
  hr_timeout : Q }.

(** A response: [response.json()] is [None] where it raises [ValueError]. *)
Record http_response := mkHttpResponse {
  rs_status_code : Z;
  rs_content_length : Z;
  rs_content_type : option string;
  rs_json : option json;
  rs_text : string }.

Inductive client_answer :=
| Responded (r : http_response)
| TimedOut
| NetworkFailed
| ClientRaised (x : exn).

Class HttpClient := client_request : list io_event → http_request → client_answer.

Inductive wire_event :=
| EgressCheck (endpoint : string)
| Send (r : http_request).

(** Computations that record what they did on the wire. *)
Definition wire (A : Type) : Type := list wire_event * res A.

Definition wret {A} (r : res A) : wire A := ([], r).
Definition wbind {A B} (m : wire A) (f : A → wire B) : wire B :=
  match m.2 with
  | Ok a => (m.1 ++ (f a).1, (f a).2)
  | Raise x => (m.1, Raise x)
  end.

Definition validation_failure (code : string) : exn := Failure (ExecutorFailure code CatValidation false None).
Definition authorization_failure (code : string) : exn :=
  Failure (ExecutorFailure code CatAuthorization false None).

(** ** [_map_arguments] *)

(** [config.get(key)], [None] for a missing key. *)
Definition config_get (key : string) (d : dict json) : json := default JNull (dget key d).
(** [str(config.get(key, default))] *)
Definition config_str (key : string) (d : dict json) : string := from_option py_str "" (dget key d).

Definition placeholder (upstream_name : string) : string := "{" +:+ upstream_name +:+ "}".

Definition http_parts : Type := string * dict string * dict string.

Definition map_argument (arguments : dict json) (raw_parameter : json) (parts : http_parts) :
    res http_parts :=
  match raw_parameter with
  | JObj parameter =>
      let '(path, query, headers) := parts in
      let argument_name := config_str "argument_name" parameter in
      let upstream_name := config_str "upstream_name" parameter in
      let location := config_str "location" parameter in
      match dget argument_name arguments with
      | None =>
          raise_if (bool_decide (dget "required" parameter = Some (JBool true)))
            (validation_failure "required_argument_missing_after_validation") ;;?
          Ok parts
      | Some argument =>
          let value := py_str argument in
          if bool_decide (location = "path") then
            raise_if (negb (contains (placeholder upstream_name) path))
              (validation_failure "path_parameter_placeholder_missing") ;;?
            Ok (str_replace (placeholder upstream_name) (quote value) path, query, headers)
          else if bool_decide (location = "query") then
            Ok (path, dset upstream_name value query, headers)
          else if bool_decide (location = "header") then
            Ok (path, query, dset upstream_name value headers)
          else Raise (validation_failure "unsupported_parameter_location")
      end
  | _ => Raise (validation_failure "invalid_parameter_mapping")
  end.

Fixpoint map_parameters (arguments : dict json) (raw_parameters : list json)
    (parts : http_parts) : res http_parts :=
  match raw_parameters with
  | [] => Ok parts
  | raw_parameter :: rest =>
      let? parts := map_argument arguments raw_parameter parts in
      map_parameters arguments rest parts
  end.

Definition map_arguments (path_template : string) (raw_parameters : option json)
    (arguments : dict json) : res http_parts :=
  match raw_parameters with
  | Some (JArr raw_parameters) => map_parameters arguments raw_parameters (path_template, [], [])
  | _ => Raise (validation_failure "invalid_parameter_mapping")
  end.

(** ** [_map_request_body] *)

Definition map_request_body (method : string) (raw_request_body : json)
    (arguments : dict json) : res json :=
  if bool_decide (method = "GET") then Ok JNull else
  match raw_request_body with
  | JObj request_body =>
      raise_if (negb (bool_decide (dget "content_type" request_body = Some (JStr "application/json"))))
        (validation_failure "unsupported_request_body_content_type") ;;?
      match dget (config_str "argument_name" request_body) arguments with
      | Some argument => Ok argument
      | None =>
          raise_if (bool_decide (dget "required" request_body = Some (JBool true)))
            (validation_failure "required_request_body_missing_after_validation") ;;?
          Ok JNull
      end
  | _ => Raise (validation_failure "put_binding_requires_json_body")
  end.

(** ** Trusted headers and credentials *)

Definition same_header (a b : string) : bool := bool_decide (lower a = lower b).

(** [_set_trusted_header] *)
Definition set_trusted_header (headers : dict string) (name value : string) : dict string :=
  dset name value (filter (λ h, same_header h.1 name = false) headers).

(** [_inject_credential]: query and headers. *)
Definition credential_value (c : ResolvedCredential) : string :=
  match rc_value_format c with
  | FormatBearer => "Bearer " +:+ reveal (rc_value c)
  | FormatRaw => reveal (rc_value c)
  end.

Definition inject_credential (query headers : dict string)
    (credential : option ResolvedCredential) : dict string * dict string :=
  match credential with
  | None => (query, headers)
  | Some c =>
      match rc_injection_location c with
      | InHeader => (query, set_trusted_header headers (rc_injection_name c) (credential_value c))
      | InQuery => (dset (rc_injection_name c) (credential_value c) query, headers)
      end
  end.

(** ** Reading the response *)

Definition upstream_failure (status : Z) (category : ExecutionErrorCategory) : exn :=
  Failure (ExecutorFailure ("upstream_" +:+ pretty status) category false (Some status)).

(** [response.headers.get("content-type", "").split(";", 1)[0] or None] *)
Definition response_content_type (r : http_response) : option string :=
  let media_type := (partition_char ";"%char (default "" (rs_content_type r))).1.1 in
  if str_empty media_type then None else Some media_type.

Definition read_response (max_response_bytes : Z) (r : http_response) : res ExecutorResult :=
  let status := rs_status_code r in
  raise_if ((400 <=? status)%Z && (status <? 500)%Z) (upstream_failure status CatUpstream4xx) ;;?
  raise_if (500 <=? status)%Z (upstream_failure status CatUpstream5xx) ;;?
  raise_if (negb ((200 <=? status)%Z && (status <? 300)%Z)) (upstream_failure status CatUnknown) ;;?
  raise_if (max_response_bytes <? rs_content_length r)%Z
    (Failure (ExecutorFailure "upstream_response_too_large" CatUnknown false None)) ;;?
  let content_type := response_content_type r in
  let? data := if bool_decide (content_type = Some "application/json")
               then match rs_json r with
                    | Some data => Ok data
                    | None => Raise (Failure (ExecutorFailure "upstream_invalid_json" CatUnknown false None))
                    end
               else Ok (JStr (rs_text r)) in
  Ok (mkExecutorResult data content_type (Some status)).

Definition read_answer (max_response_bytes : Z) (a : client_answer) : res ExecutorResult :=
  match a with
  | Responded r => read_response max_response_bytes r
  | TimedOut => Raise (Failure (ExecutorFailure "upstream_timeout" CatTimeoutAfterSend true None))
  | NetworkFailed => Raise (Failure (ExecutorFailure "upstream_network_error" CatNetwork false None))
  | ClientRaised x => Raise x
  end.

(** ** [HttpxToolExecutor] *)

(** [HttpxToolExecutor.__init__] *)
Definition new_httpx_executor (max_response_bytes : Z) : res Z :=
  raise_if (max_response_bytes <=? 0)%Z (ValueError "max response bytes must be positive") ;;?
  Ok max_response_bytes.

(** The checks before the endpoint is looked at; gives the method. *)
Definition check_binding (request : ExecutorRequest) : res string :=
  let tool := xr_tool request in
  raise_if (negb (bool_decide (rt_binding_type tool = BindHttp)))
    (validation_failure "unsupported_binding_type") ;;?
  let config := rt_binding_config tool in
  let method := upper (config_str "method" config) in
  raise_if (negb (bool_decide (method ∈ ["GET"; "PUT"])))
    (authorization_failure "write_execution_not_enabled") ;;?
  raise_if (bool_decide (method = "PUT")
            && negb (bool_decide (rt_side_effect tool = IdempotentWrite)))
    (authorization_failure "put_tool_must_be_idempotent_write") ;;?
  raise_if (bool_decide (method = "PUT") && is_none (xr_idempotency_key request))
    (validation_failure "idempotency_key_required") ;;?
  raise_if (bool_decide (method = "GET")
            && negb (bool_decide (config_get "request_body" config = JNull)))
    (validation_failure "get_binding_must_not_have_request_body") ;;?
  Ok method.

Definition idempotency_header (key : option string) (headers : dict string) : dict string :=
  match key with
  | Some k => set_trusted_header headers "Idempotency-Key" k
  | None => headers
  end.

(** The request, from the binding and the arguments. *)
Definition prepare_request (method : string) (request : ExecutorRequest)
    (credential : option ResolvedCredential) : res http_request :=
  let tool := xr_tool request in
  let config := rt_binding_config tool in
  let path_template := config_str "path_template" config in
  raise_if (negb (startswith "/" path_template)) (validation_failure "invalid_path_template") ;;?
  let? mapped := map_arguments path_template (dget "parameters" config) (xr_arguments request) in
  let '(path, query, headers) := mapped in
  let? body := map_request_body method (config_get "request_body" config) (xr_arguments request) in
  let headers := idempotency_header (xr_idempotency_key request) headers in
  let '(query, headers) := inject_credential query headers credential in
  Ok (mkHttpRequest method (rstrip_chars (char_in "/") (rt_upstream_endpoint tool) +:+ path)
        query headers body (xr_timeout_seconds request)).

Section Executor.
Context `{EndpointPolicy} `{HttpClient} (max_response_bytes : Z).

(** The check right before the connection. *)
Definition check_egress (log : list io_event) (endpoint : string) : wire unit :=
  ([EgressCheck endpoint],
   match validate_endpoint log endpoint with
   | Raise (Nexus UnsafeUpstreamEndpointError) =>
       Raise (authorization_failure "unsafe_upstream_endpoint")
   | r => r
   end).

Definition send_request (log : list io_event) (r : http_request) : wire ExecutorResult :=
  ([Send r], read_answer max_response_bytes (client_request log r)).

(** [execute] *)
Definition httpx_execute (log : list io_event) (request : ExecutorRequest)
    (credential : option ResolvedCredential) : wire ExecutorResult :=
  wbind (wret (check_binding request)) (λ method,
  wbind (check_egress log (rt_upstream_endpoint (xr_tool request))) (λ _,
  wbind (wret (prepare_request method request credential)) (λ r,
  send_request log r))).

(** The executor the retry loop calls. *)
Definition httpx_tool_executor : ToolExecutor := λ log request credential,
  (httpx_execute log request credential).2.
End Executor.

(** ** What is sent *)

Section Facts.
Context `{EndpointPolicy} `{HttpClient} (max_response_bytes : Z).

Lemma check_binding_Ok request method :
  check_binding request = Ok method →
  (method = "GET" ∧ config_get "request_body" (rt_binding_config (xr_tool request)) = JNull) ∨
  (method = "PUT" ∧ rt_side_effect (xr_tool request) = IdempotentWrite ∧
   ∃ k, xr_idempotency_key request = Some k).
Proof.
  unfold check_binding. intros Hr.
  apply rbind_Ok_inv in Hr as (? & _ & Hr).
  apply rbind_Ok_inv in Hr as (? & G1%raise_if_Ok & Hr).
  apply rbind_Ok_inv in Hr as (? & G2%raise_if_Ok & Hr).
  apply rbind_Ok_inv in Hr as (? & G3%raise_if_Ok & Hr).
  apply rbind_Ok_inv in Hr as (? & G4%raise_if_Ok & Hr).
  injection Hr as <-. revert G1 G2 G3 G4. generalize (upper (config_str "method" (rt_binding_config (xr_tool request)))).
  intros method G1 G2 G3 G4. apply negb_false_iff, bool_decide_eq_true in G1.
  apply list_elem_of_In in G1 as [<-|[<-|[]]].
  - left. split; [done|]. rewrite bool_decide_eq_true_2 in G4 by done.
    by apply andb_false_iff in G4 as [|?%negb_false_iff%bool_decide_eq_true].
  - right. rewrite bool_decide_eq_true_2 in G2, G3 by done. simpl in *.
    apply negb_false_iff, bool_decide_eq_true in G2.
    destruct (xr_idempotency_key request); [eauto|done].
Qed.

Lemma httpx_execute_cases log request credential :
  let endpoint := rt_upstream_endpoint (xr_tool request) in
  let run := httpx_execute max_response_bytes log request credential in
  ((run.1 = [] ∨ run.1 = [EgressCheck endpoint]) ∧ is_ok run.2 = false) ∨
  ∃ method r, check_binding request = Ok method ∧ validate_endpoint log endpoint = Ok tt ∧
    prepare_request method request credential = Ok r ∧
    run = ([EgressCheck endpoint; Send r], read_answer max_response_bytes (client_request log r)).
Proof.
  intros endpoint run. subst run. unfold httpx_execute, wbind, wret. cbn [fst snd].
  destruct (check_binding request) as [method|x] eqn:Hb; [|left; split; by auto].
  cbn [fst snd check_egress]. fold endpoint.
  destruct (validate_endpoint log endpoint) as [[]|x] eqn:He.
  2: { left. destruct x as [| | | | | | | |[]]; simpl; auto. }
  destruct (prepare_request method request credential) as [r|x] eqn:Hp; [|left; simpl; by auto].
  right. exists method, r. by repeat split.
Qed.

Lemma prepare_request_Ok method request credential r :
  prepare_request method request credential = Ok r →
  let tool := xr_tool request in
  let config := rt_binding_config tool in
  ∃ path query headers body,
    startswith "/" (config_str "path_template" config) = true ∧
    map_arguments (config_str "path_template" config) (dget "parameters" config)
      (xr_arguments request) = Ok (path, query, headers) ∧
    map_request_body method (config_get "request_body" config) (xr_arguments request) = Ok body ∧
    r = mkHttpRequest method (rstrip_chars (char_in "/") (rt_upstream_endpoint tool) +:+ path)
          (inject_credential query (idempotency_header (xr_idempotency_key request) headers) credential).1
          (inject_credential query (idempotency_header (xr_idempotency_key request) headers) credential).2
          body (xr_timeout_seconds request).
Proof.
  intros Hr tool config. unfold prepare_request in Hr.
  apply rbind_Ok_inv in Hr as (? & G%raise_if_Ok & Hr). apply negb_false_iff in G.
  apply rbind_Ok_inv in Hr as ([[path query] headers] & Hm & Hr).
  apply rbind_Ok_inv in Hr as (body & Hb & Hr).
  exists path, query, headers, body. repeat split; try done.
  destruct (inject_credential _ _ credential) as [query' headers'] eqn:E. by injection Hr as <-.
Qed.
End Facts.

(** *** Headers *)

(** The values sent for a header name, which is case-insensitive. *)
Definition header_values (name : string) (headers : dict string) : list string :=
  (filter (λ h, same_header h.1 name = true) headers).*2.

Lemma same_header_trans a b c : same_header a b = true → same_header a c = same_header b c.
Proof. unfold same_header. intros ->%bool_decide_eq_true. done. Qed.

Lemma dset_append {V} k (v : V) d : k ∉ dkeys d → dset k v d = d ++ [(k, v)].
Proof. intros. by apply dset_fresh, dget_None. Qed.

Lemma header_values_set name headers name' value :
  header_values name (set_trusted_header headers name' value) =
    if same_header name' name then [value] else header_values name headers.
Proof.
  unfold header_values, set_trusted_header. rewrite dset_append.
  2: { unfold dkeys. intros Hin. apply list_elem_of_fmap in Hin as (kv & E & Hin).
       apply list_elem_of_filter in Hin as [Hs _]. rewrite <-E in Hs. unfold same_header in Hs. by rewrite bool_decide_eq_true_2 in Hs. }
  rewrite filter_app, fmap_app, filter_cons, filter_nil. simpl.
  destruct (same_header name' name) eqn:E; simpl.
  - replace (filter _ (filter _ headers)) with (@nil (string * string)); [done|].
    induction headers as [|h t IH]; [done|]. rewrite filter_cons.
    case_decide as E1; [|done]. rewrite filter_cons, decide_False; [done|].
    intros E2. unfold same_header in *. rewrite bool_decide_eq_true in E, E2.
    rewrite bool_decide_eq_false in E1. congruence.
  - rewrite app_nil_r. f_equal. induction headers as [|h t IH]; [done|].
    rewrite !filter_cons. case_decide as E1.
    + rewrite filter_cons. case_decide; by rewrite IH.
    + rewrite IH, decide_False; [done|]. intros E2. unfold same_header in *.
      rewrite bool_decide_eq_true in E2. rewrite bool_decide_eq_false in E.
      apply not_false_iff_true, bool_decide_eq_true in E1. congruence.
Qed.

(** In a prepared request no argument can stand in for a trusted header:
    the credential's header has exactly the credential's value, and the
    idempotency key's header exactly the key (unless the credential was bound
    to that very header), however the arguments' header names are cased. *)
Theorem trusted_headers_win method request credential r :
  prepare_request method request credential = Ok r →
  (∀ c, credential = Some c → rc_injection_location c = InHeader →
     header_values (rc_injection_name c) (hr_headers r) = [credential_value c]) ∧
  (∀ k, xr_idempotency_key request = Some k →
     (∀ c, credential = Some c → rc_injection_location c = InHeader →
        same_header (rc_injection_name c) "Idempotency-Key" = false) →
     header_values "Idempotency-Key" (hr_headers r) = [k]) ∧
  (∀ c, credential = Some c → rc_injection_location c = InQuery →
     dget (rc_injection_name c) (hr_params r) = Some (credential_value c)).
Proof.
  intros (path & query & headers & body & _ & _ & _ & ->)%prepare_request_Ok.
  cbn [hr_headers hr_params]. repeat split.
  - intros c -> Hl. unfold inject_credential. rewrite Hl. cbn [snd].
    rewrite header_values_set. unfold same_header. by rewrite bool_decide_eq_true_2.
  - intros k -> Hc. cbn [idempotency_header].
    assert (Hk : header_values "Idempotency-Key"
      (set_trusted_header headers "Idempotency-Key" k) = [k]) by (by rewrite header_values_set).
    destruct credential as [c|]; cbn [inject_credential snd]; [|done].
    specialize (Hc c eq_refl).
    destruct (rc_injection_location c); cbn [snd]; [|done].
    by rewrite header_values_set, Hc.
  - intros c -> Hl. unfold inject_credential. rewrite Hl. cbn [fst]. apply dget_dset_eq.
Qed.

(** *** Path *)

Lemma replace_keeps_slash name new path :
  startswith "/" path = true → startswith "/" (str_replace (placeholder name) new path) = true.
Proof.
  destruct path as [|c path]; [done|]. cbn [startswith]. rewrite andb_true_r.
  intros <-%bool_decide_eq_true. unfold placeholder. rewrite str_app_cons, str_app_nil_l. done.
Qed.

Lemma map_argument_path P arguments raw path query headers path' query' headers' :
  (∀ c, quoted_char c = true → P c = false) →
  map_argument arguments raw (path, query, headers) = Ok (path', query', headers') →
  (count_chars P path' <= count_chars P path)%nat ∧
  (startswith "/" path = true → startswith "/" path' = true).
Proof.
  intros HP. destruct raw as [| | | | | |d]; try done. cbn [map_argument].
  destruct (dget (config_str "argument_name" d) arguments) as [a|].
  2: { intros Hr. apply rbind_Ok_inv in Hr as (? & _ & [= <- <- <-]). auto. }
  repeat case_bool_decide; try done; [|intros [= <- <- <-]; by auto..].
  intros Hr. apply rbind_Ok_inv in Hr as (? & _ & [= <- <- <-]). split.
  - apply replace_from_count, count_chars_none. pose proof (quote_chars (py_str a)) as Hq.
    revert Hq. generalize (quote (py_str a)). induction s as [|c s IH]; [done|]. simpl.
    rewrite !andb_true_iff. intros [Hc Hs]. rewrite HP by done. split; [done|by apply IH].
  - apply replace_keeps_slash.
Qed.

Lemma map_parameters_path P arguments raws path query headers path' query' headers' :
  (∀ c, quoted_char c = true → P c = false) →
  map_parameters arguments raws (path, query, headers) = Ok (path', query', headers') →
  (count_chars P path' <= count_chars P path)%nat ∧
  (startswith "/" path = true → startswith "/" path' = true).
Proof.
  intros HP. revert path query headers. induction raws as [|raw raws IH]; intros path query headers.
  { intros [= <- <- <-]. auto. }
  cbn [map_parameters]. intros Hr. apply rbind_Ok_inv in Hr as ([[path1 query1] headers1] & H1 & H2).
  apply (map_argument_path P) in H1 as [H1 H1']; [|done]. apply IH in H2 as [H2 H2']. split; [lia|auto].
Qed.

Lemma map_arguments_path P template raws arguments path query headers :
  (∀ c, quoted_char c = true → P c = false) →
  map_arguments template raws arguments = Ok (path, query, headers) →
  (count_chars P path <= count_chars P template)%nat ∧
  (startswith "/" template = true → startswith "/" path = true).
Proof.
  intros HP. destruct raws as [[| | | | |raws|]|]; try done. cbn [map_arguments].
  by apply map_parameters_path.
Qed.

(** The URL of a prepared request is the upstream endpoint without its
    trailing slashes followed by a path that begins with a slash, and no
    argument adds to it a character that percent-encoding escapes: it has no
    more slashes, question marks, hashes, at signs, braces or any other such
    character than the path template the administrator published. *)
Theorem arguments_stay_in_path method request credential r (P : ascii → bool) :
  prepare_request method request credential = Ok r →
  (∀ c, quoted_char c = true → P c = false) →
  ∃ path,
    hr_url r = rstrip_chars (char_in "/") (rt_upstream_endpoint (xr_tool request)) +:+ path ∧
    startswith "/" path = true ∧
    (count_chars P path
       <= count_chars P (config_str "path_template" (rt_binding_config (xr_tool request))))%nat.
Proof.
  intros (path & query & headers & body & Ht & Hm & _ & ->)%prepare_request_Ok HP.
  exists path. split; [done|]. apply (map_arguments_path P) in Hm as [Hm Hs]; auto.
Qed.

(** *** The authority of the request URL *)

Fixpoint slashes (n : nat) : string :=
  match n with O => "" | S n' => String "/"%char (slashes n') end.

Lemma rstrip_slashes e : ∃ n, e = rstrip_chars (char_in "/") e +:+ slashes n.
Proof.
  induction e as [|c e [n IH]]; [by exists 0%nat|]. cbn [rstrip_chars].
  destruct (rstrip_chars (char_in "/") e) as [|c' e'] eqn:E.
  - rewrite str_app_nil_l in IH. destruct (char_in "/" c) eqn:Hc.
    + exists (S n). rewrite str_app_nil_l. simpl. rewrite <-IH. f_equal.
      revert Hc. unfold char_in. simpl. case_bool_decide; [done|done].
    + exists n. by rewrite str_app_cons, str_app_nil_l, <-IH.
  - exists n. by rewrite str_app_cons, <-IH.
Qed.

Lemma remove_chars_app P a b : remove_chars P (a +:+ b) = remove_chars P a +:+ remove_chars P b.
Proof.
  induction a as [|c a IH]; [done|]. rewrite str_app_cons. cbn [remove_chars].
  destruct (P c); [done|]. by rewrite str_app_cons, IH.
Qed.

Lemma lstrip_chars_app P a b :
  lstrip_chars P (a +:+ b) = if all_chars P a then lstrip_chars P b else lstrip_chars P a +:+ b.
Proof.
  induction a as [|c a IH]; [done|]. rewrite str_app_cons. cbn [lstrip_chars all_chars].
  by destruct (P c).
Qed.

Lemma split_before_app seps a b :
  match b with EmptyString => True | String c _ => char_in seps c = true end →
  (split_before seps (a +:+ b)).1 = (split_before seps a).1.
Proof.
  intros Hb. induction a as [|c a IH].
  - rewrite str_app_nil_l. destruct b as [|c b]; [done|]. simpl. by rewrite Hb.
  - rewrite str_app_cons. cbn [split_before]. destruct (char_in seps c); [done|].
    revert IH. destruct (split_before seps (a +:+ b)), (split_before seps a). simpl. by intros ->.
Qed.

Lemma partition_char_app sep a b :
  partition_char sep (a +:+ b) =
    match partition_char sep a with
    | (x, true, y) => (x, true, y +:+ b)
    | (_, false, _) => match partition_char sep b with
                       | (x, found, y) => (a +:+ x, found, y)
                       end
    end.
Proof.
  induction a as [|c a IH].
  - rewrite str_app_nil_l. simpl. by destruct (partition_char sep b) as [[? ?] ?].
  - rewrite str_app_cons. cbn [partition_char]. case_bool_decide; [done|]. rewrite IH.
    destruct (partition_char sep a) as [[x []] y]; [done|].
    by destruct (partition_char sep b) as [[? ?] ?].
Qed.

Lemma partition_slashes n : (partition_char ":"%char (slashes n)).1.2 = false.
Proof.
  induction n as [|n IH]; [done|]. cbn [slashes partition_char].
  rewrite bool_decide_eq_false_2 by done. by destruct (partition_char ":"%char (slashes n)) as [[? ?] ?].
Qed.

(** The steps of [urlsplit]. *)
Definition clean_url (text : string) : string :=
  remove_chars unsafe_url_char (lstrip_chars c0_or_space text).
Definition split_scheme (url : string) : string * string :=
  let '(before, colon, after) := partition_char ":"%char url in
  if colon && match before with String c _ => is_ascii_alpha c | EmptyString => false end
     && all_chars scheme_char before
  then (lower before, after) else (EmptyString, url).
Definition split_netloc (url : string) : string * string :=
  if startswith "//" url
  then split_before "/?#" (match url with String _ (String _ t) => t | _ => EmptyString end)
  else (EmptyString, url).
Definition check_netloc (netloc : string) : res unit :=
  let has_open := contains "[" netloc in
  let has_close := contains "]" netloc in
  raise_if (xorb has_open has_close) url_value_error ;;?
  (if has_open && has_close then check_bracketed_netloc netloc else Ok tt).

Lemma urlsplit_steps text :
  let '(scheme, url) := split_scheme (clean_url text) in
  let '(netloc, url) := split_netloc url in
  (∃ x, check_netloc netloc = Raise x ∧ urlsplit text = Raise x) ∨
  (check_netloc netloc = Ok tt ∧
   ∃ u, urlsplit text = Ok u ∧ url_scheme u = scheme ∧ url_netloc u = netloc).
Proof.
  unfold split_scheme, split_netloc, urlsplit, check_netloc. fold (clean_url text).
  destruct (partition_char ":"%char (clean_url text)) as [[before colon] after].
  destruct (_ && all_chars scheme_char before);
    (destruct (startswith "//" _); [destruct (split_before _ _) as [netloc url]|]);
    match goal with |- context [xorb ?a ?b] => destruct (xorb a b); cbn [raise_if rbind]; [left; eauto|] end;
    match goal with |- context [rbind ?c _] => destruct c as [[]|x]; cbn [rbind]; [right|left; eauto] end;
    (split; [done|]);
    destruct (partition_char "#"%char _) as [[? ?] ?]; destruct (partition_char "?"%char _) as [[? ?] ?];
    eauto.
Qed.

Lemma split_netloc_slashes n : (split_netloc (slashes n)).1 = "".
Proof. by destruct n as [|[|[|n]]]. Qed.

Lemma split_netloc_extend y n q :
  startswith "/" q = true → (split_netloc (y +:+ slashes n)).1 ≠ "" →
  (split_netloc (y +:+ q)).1 = (split_netloc (y +:+ slashes n)).1.
Proof.
  intros Hq Hn.
  assert (Hsep : match slashes n with "" => True | String c _ => char_in "/?#" c = true end)
    by (by destruct n).
  assert (Hq' : match q with "" => True | String c _ => char_in "/?#" c = true end).
  { destruct q as [|c q]; [done|]. simpl in Hq. rewrite andb_true_r in Hq.
    by apply bool_decide_eq_true in Hq as <-. }
  destruct y as [|a [|b y]].
  - by rewrite str_app_nil_l, split_netloc_slashes in Hn.
  - exfalso. apply Hn. rewrite str_app_cons, str_app_nil_l. unfold split_netloc. simpl.
    case_bool_decide; [|done]. by destruct n as [|[|n]].
  - rewrite !str_app_cons in *. unfold split_netloc in *. cbn [startswith] in *.
    destruct (_ && _); [|done]. by rewrite !split_before_app.
Qed.

Lemma clean_slashes n :
  clean_url (slashes n) = slashes n ∧ remove_chars unsafe_url_char (slashes n) = slashes n.
Proof.
  assert (Hr : remove_chars unsafe_url_char (slashes n) = slashes n).
  { induction n as [|n IH]; [done|]. cbn [slashes remove_chars].
    replace (unsafe_url_char "/") with false by done. by rewrite IH. }
  split; [|done]. unfold clean_url. by destruct n.
Qed.

(** An absolute URL keeps its scheme and authority when its trailing slashes
    are replaced by a path. *)
Lemma urlsplit_extend e u p :
  urlsplit e = Ok u → url_scheme u ≠ "" → url_netloc u ≠ "" → startswith "/" p = true →
  ∃ u', urlsplit (rstrip_chars (char_in "/") e +:+ p) = Ok u' ∧
    url_scheme u' = url_scheme u ∧ url_netloc u' = url_netloc u.
Proof.
  intros He Hs Hn Hp. pose proof (urlsplit_steps e) as He'.
  destruct (rstrip_slashes e) as [n En]. revert En. generalize (rstrip_chars (char_in "/") e).
  intros a En. pose proof (urlsplit_steps (a +:+ p)) as Hu.
  destruct (clean_slashes n) as [Hsl Hsr].
  assert (Hq : startswith "/" (remove_chars unsafe_url_char p) = true).
  { destruct p as [|c p]; [done|]. simpl in Hp. rewrite andb_true_r in Hp.
    by apply bool_decide_eq_true in Hp as <-. }
  unfold clean_url in He', Hu, Hsl. rewrite En in He'.
  rewrite lstrip_chars_app in He', Hu. destruct (all_chars c0_or_space a).
  { exfalso. rewrite Hsl in He'. unfold split_scheme in He'.
    pose proof (partition_slashes n) as Hc.
    destruct (partition_char ":"%char (slashes n)) as [[? colon] ?]. simpl in Hc. subst colon.
    cbn [andb] in He'. destruct (split_netloc _). rewrite <-En in He'.
    destruct He' as [(? & _ & ?)|(_ & ? & ? & ? & _)]; congruence. }
  rewrite remove_chars_app in He', Hu. rewrite Hsr in He'.
  revert Hq He' Hu. generalize (remove_chars unsafe_url_char p) as q.
  generalize (remove_chars unsafe_url_char (lstrip_chars c0_or_space a)) as b. intros b q Hq.
  unfold split_scheme. rewrite !partition_char_app. rewrite <-En, He.
  pose proof (partition_slashes n) as Hc.
  destruct (partition_char ":"%char b) as [[before []] after].
  - destruct (_ && all_chars scheme_char before).
    + pose proof (split_netloc_extend after n q Hq) as Hx.
      destruct (split_netloc (after +:+ slashes n)) as [netloc url] eqn:E1,
        (split_netloc (after +:+ q)) as [netloc' url']. cbn [fst] in Hx.
      intros [(? & _ & ?)|(Hc1 & u1 & [= <-] & Hs1 & Hn1)]; [done|].
      rewrite Hx by congruence. intros [(x & Hc2 & _)|(_ & u' & Hu' & Hs' & Hn')]; [congruence|].
      exists u'. rewrite Hu', Hs', Hn', Hs1, Hn1. done.
    + destruct (split_netloc _). intros [(? & _ & ?)|(Hc1 & u1 & [= <-] & Hs1 & Hn1)]; congruence.
  - destruct (partition_char ":"%char (slashes n)) as [[? colon] ?]. simpl in Hc. subst colon.
    cbn [andb]. destruct (split_netloc _).
    intros [(? & _ & ?)|(Hc1 & u1 & [= <-] & Hs1 & Hn1)]; congruence.
Qed.

(** ** The executor over the egress policy *)

Section Reach.
Context `{MappedAddresses} `{IdnaCodec} `{HostResolver} `{HttpClient}.
Context (p : egress_policy) (max_response_bytes : Z).
#[local] Instance executor_policy : EndpointPolicy := static_egress_policy p.

(** What one wire event must satisfy. *)
Definition event_authorized (log : list io_event) (request : ExecutorRequest) (ev : wire_event) : Prop :=
  let tool := xr_tool request in
  match ev with
  | EgressCheck endpoint => endpoint = rt_upstream_endpoint tool
  | Send r =>
      (∃ u u' host addresses,
         admitted p log (rt_upstream_endpoint tool) u host addresses ∧
         urlsplit (hr_url r) = Ok u' ∧ url_scheme u' = url_scheme u ∧ url_netloc u' = url_netloc u) ∧
      (hr_method r = "GET" ∧ hr_json r = JNull ∨
       hr_method r = "PUT" ∧ rt_side_effect tool = IdempotentWrite ∧
       is_Some (xr_idempotency_key request)) ∧
      hr_timeout r = xr_timeout_seconds request
  end.

Lemma hostname_netloc u hostname : url_hostname u = Some hostname → url_netloc u ≠ "".
Proof. unfold url_hostname, url_hostinfo. intros Hh E. by rewrite E in Hh. Qed.

(** C21: whatever the binding, the arguments, the credential, DNS and the
    client answer, one execution checks the endpoint at most once, sends at
    most one request and only after the check admitted the endpoint; the URL
    of the request has the scheme and the authority (host, port, no user
    information) of the endpoint that was checked; the method is GET without
    a body, or PUT for an idempotent write that carries an idempotency key;
    and no result is returned without a request. *)
Theorem sent_requests_are_authorized log request credential :
  let run := httpx_execute max_response_bytes log request credential in
  Forall (event_authorized log request) run.1 ∧
  match run.1 with
  | [] | [EgressCheck _] => is_ok run.2 = false
  | [EgressCheck _; Send r] => run.2 = read_answer max_response_bytes (client_request log r)
  | _ => False
  end.
Proof.
  intros run. subst run.
  destruct (httpx_execute_cases max_response_bytes log request credential)
    as [[[Ht|Ht] Hok]|(method & r & Hb & Hv & Hp & ->)].
  - rewrite Ht. by split.
  - rewrite Ht. split; [|done]. by repeat constructor.
  - cbn [fst snd]. split; [|done]. constructor; [done|]. constructor; [|constructor].
    apply check_binding_Ok in Hb. apply prepare_request_Ok in Hp as
      (path & query & headers & body & Htpl & Hm & Hbody & ->).
    apply (map_arguments_path (λ _, false)) in Hm as [_ Hm]; [|done].
    apply egress_validate_spec in Hv as (u & host & addresses & Ha).
    cbn [hr_url hr_method hr_json hr_timeout event_authorized]. split; [|split; [|done]].
    + destruct (ad_host _ _ _ _ _ _ Ha) as (hostname & Hh & _).
      destruct (urlsplit_extend (rt_upstream_endpoint (xr_tool request)) u path)
        as (u' & Hu' & Hs & Hn).
      * by destruct Ha.
      * pose proof (ad_scheme _ _ _ _ _ _ Ha) as Hs. intros E. rewrite E in Hs. set_solver.
      * by eapply hostname_netloc.
      * by apply Hm.
      * by exists u, u', host, addresses.
    + destruct Hb as [[-> Hb]|(-> & Hs & k & Hk)]; [left|right].
      * split; [done|]. unfold map_request_body in Hbody.
        rewrite bool_decide_eq_true_2 in Hbody by done. by injection Hbody as <-.
      * rewrite Hk. eauto.
Qed.
End Reach.

(** ** Reading responses *)

(** The result of a request, for every answer of the client: a success is
    a 2xx response of at most the configured size, parsed as JSON exactly
    when its media type is [application/json]; every other answer is a
    failure whose category tells apart 4xx, 5xx, timeouts (the only failure
    whose outcome is unknown) and network errors. *)
Theorem read_answer_spec max_response_bytes a :
  match a with
  | Responded r =>
      let status := rs_status_code r in
      match read_response max_response_bytes r with
      | Ok result =>
          (200 <= status < 300)%Z ∧ (rs_content_length r <= max_response_bytes)%Z ∧
          er_upstream_status result = Some status ∧
          er_content_type result = response_content_type r ∧
          (if bool_decide (er_content_type result = Some "application/json")
           then rs_json r = Some (er_data result) else er_data result = JStr (rs_text r))
      | Raise (Failure f) =>
          ef_outcome_unknown f = false ∧
          ((ef_upstream_status f = Some status ∧ ef_code f = "upstream_" +:+ pretty status ∧
            match ef_category f with
            | CatUpstream4xx => (400 <= status < 500)%Z
            | CatUpstream5xx => (500 <= status)%Z
            | CatUnknown => (status < 200 ∨ 300 <= status < 400)%Z
            | _ => False
            end) ∨
           (ef_upstream_status f = None ∧ ef_category f = CatUnknown ∧ (200 <= status < 300)%Z ∧
            ((max_response_bytes < rs_content_length r)%Z ∧ ef_code f = "upstream_response_too_large" ∨
             rs_json r = None ∧ ef_code f = "upstream_invalid_json")))
      | Raise _ => False
      end ∧ read_answer max_response_bytes a = read_response max_response_bytes r
  | TimedOut => read_answer max_response_bytes a =
      Raise (Failure (ExecutorFailure "upstream_timeout" CatTimeoutAfterSend true None))
  | NetworkFailed => read_answer max_response_bytes a =
      Raise (Failure (ExecutorFailure "upstream_network_error" CatNetwork false None))
  | ClientRaised x => read_answer max_response_bytes a = Raise x
  end.
Proof.
  destruct a as [r| | |x]; try done. intros status. split; [|done].
  unfold read_response, upstream_failure. fold status. clearbody status.
  destruct ((400 <=? status)%Z && (status <? 500)%Z) eqn:E1; cbn [raise_if rbind].
  { split; [done|]. left. repeat split; simpl; lia. }
  destruct (500 <=? status)%Z eqn:E2; cbn [raise_if rbind].
  { split; [done|]. left. repeat split; simpl; lia. }
  destruct (negb ((200 <=? status)%Z && (status <? 300)%Z)) eqn:E3; cbn [raise_if rbind].
  { split; [done|]. left. repeat split; simpl; lia. }
  destruct (max_response_bytes <? rs_content_length r)%Z eqn:E4; cbn [raise_if rbind].
  { split; [done|]. right. repeat split; try (simpl; lia). left. split; [lia|done]. }
  case_bool_decide as E5; [destruct (rs_json r) as [data|] eqn:E6|]; cbn [rbind].
  - cbn [er_upstream_status er_content_type er_data]. rewrite bool_decide_eq_true_2 by done.
    repeat split; lia || done.
  - split; [done|]. right. repeat split; try (simpl; lia). by right.
  - cbn [er_upstream_status er_content_type er_data]. rewrite bool_decide_eq_false_2 by done.
    repeat split; lia || done.
Qed.

(** ** The executor as the tool call's collaborator *)

Section Lawful.
Context `{Ports} `{!Inj (=) (=) identifier} `{EndpointPolicy} `{HttpClient} (max_response_bytes : Z).

(** The client reports HTTP statuses, and neither it nor the endpoint policy
    raises the executor's own error. *)
Definition client_reports_statuses : Prop := ∀ log r,
  match client_request log r with
  | Responded response => (100 <= rs_status_code response <= 599)%Z
  | ClientRaised (Failure _) => False
  | _ => True
  end.
Definition policy_raises_no_failure : Prop := ∀ log endpoint f,
  validate_endpoint log endpoint ≠ Raise (Failure f).

Lemma read_response_status n response : (100 <= rs_status_code response <= 599)%Z →
  match read_response n response with
  | Ok result => status_ok (er_upstream_status result)
  | Raise (Failure f) => status_ok (ef_upstream_status f)
  | Raise _ => True
  end.
Proof.
  intros Hs. pose proof (read_answer_spec n (Responded response)) as [Hr _]. revert Hr.
  destruct (read_response n response) as [result|[]]; try done.
  - intros (_ & _ & -> & _). done.
  - by intros (_ & [(-> & _)|(-> & _)]).
Qed.

Lemma binding_statuses request f : check_binding request = Raise (Failure f) →
  ef_upstream_status f = None.
Proof.
  unfold check_binding, validation_failure, authorization_failure, raise_if, rbind.
  repeat case_match; naive_solver.
Qed.

Lemma map_parameters_statuses arguments raws parts f :
  map_parameters arguments raws parts = Raise (Failure f) → ef_upstream_status f = None.
Proof.
  revert parts. induction raws as [|raw raws IH]; intros parts; [done|]. cbn [map_parameters].
  destruct (map_argument arguments raw parts) as [parts'|x] eqn:E; cbn [rbind]; [apply IH|].
  intros [= ->]. revert E. unfold map_argument, validation_failure, raise_if, rbind.
  repeat case_match; naive_solver.
Qed.

Lemma prepare_statuses method request credential f :
  prepare_request method request credential = Raise (Failure f) → ef_upstream_status f = None.
Proof.
  unfold prepare_request.
  destruct (negb (startswith "/" _)); cbn [raise_if rbind]; [by intros [= <-]|].
  destruct (map_arguments _ _ _) as [[[? ?] ?]|x] eqn:Hm; cbn [rbind].
  2: { intros [= ->]. revert Hm. unfold map_arguments.
       repeat case_match; try apply map_parameters_statuses; naive_solver. }
  destruct (map_request_body _ _ _) as [|x] eqn:Hb; cbn [rbind].
  { by destruct (inject_credential _ _ _). }
  intros [= ->]. revert Hb. unfold map_request_body, validation_failure, raise_if, rbind.
  repeat case_match; naive_solver.
Qed.

Lemma httpx_statuses request credential log :
  client_reports_statuses → policy_raises_no_failure →
  match httpx_tool_executor max_response_bytes log request credential with
  | Ok result => status_ok (er_upstream_status result)
  | Raise (Failure f) => status_ok (ef_upstream_status f)
  | Raise _ => True
  end.
Proof.
  intros Hc Hp. unfold httpx_tool_executor, httpx_execute, wbind, wret. cbn [fst snd].
  destruct (check_binding request) as [method|x] eqn:Hb.
  2: { destruct x; try done. cbn [snd]. by rewrite (binding_statuses _ _ Hb). }
  cbn [fst snd check_egress].
  destruct (validate_endpoint log (rt_upstream_endpoint (xr_tool request))) as [[]|x] eqn:He.
  2: { destruct x as [| | | | | | | |[]]; try done. by apply Hp in He. }
  destruct (prepare_request method request credential) as [r|x] eqn:Hr.
  2: { destruct x; try done. cbn [snd]. by rewrite (prepare_statuses _ _ _ _ Hr). }
  cbn [fst snd send_request]. specialize (Hc log r).
  destruct (client_request log r) as [response| | |x]; try done.
  - by apply read_response_status.
  - by destruct x.
Qed.

(** The HTTP executor under the retry loop is an executor the tool call
    may be given: it keeps the ledger, calls only for its own execution, and
    serves every running execution with all its attempts closed. *)
Theorem http_executor_lawful `{RetrySleeper} cfg :
  client_reports_statuses → policy_raises_no_failure →
  LawfulExecutor (execute_with_retry (H0 := httpx_tool_executor max_response_bytes) cfg).
Proof.
  intros Hc Hp. apply retrying_executor_lawful. intros request credential log.
  by apply httpx_statuses.
Qed.
End Lawful.

(** ** Concrete requests *)

#[local] Existing Instance RetryExamples.counting_inj.

Module HttpExamples.
#[local] Instance idna : IdnaCodec := λ _, None.
#[local] Instance maps : MappedAddresses := false.
#[local] Instance resolver : HostResolver := λ _ _ _, Ok [IPv4 (v4 10 1 2 3)].
Definition policy : egress_policy := mkEgressPolicy ["api.example.com"] [] [443%Z] false.
#[local] Instance endpoint_policy : EndpointPolicy := static_egress_policy policy.

Definition json_response (status : Z) (data : json) : http_response :=
  mkHttpResponse status 20 (Some "application/json;charset=utf-8") (Some data) "".

(** Fails with 503 on the first attempt, then answers. *)
#[local] Instance client : HttpClient := λ log _,
  if (length log <=? 1)%nat then Responded (json_response 503 JNull)
  else Responded (json_response 200 (JStr "done")).

Definition parameter (argument upstream location : string) (required : bool) : json :=
  JObj [("argument_name", JStr argument); ("upstream_name", JStr upstream);
        ("location", JStr location); ("required", JBool required)].

Definition put_config : dict json :=
  [("method", JStr "put"); ("path_template", JStr "/projects/{id}/tasks");
   ("parameters", JArr [parameter "project" "id" "path" true; parameter "page" "page" "query" false;
                        parameter "key" "idempotency-KEY" "header" false;
                        parameter "auth" "authorization" "header" false]);
   ("request_body", JObj [("content_type", JStr "application/json"); ("argument_name", JStr "body")])].

Definition tool_of (method_config : dict json) (side_effect : ToolSideEffect) : ResolvedExecutableTool :=
  mkResolvedTool "tenant" "tool" "v1" "b1" "up" "ns.tool" 1 [] None side_effect VisPublic
    BindHttp method_config "https://api.example.com/v1/" None.

Definition put_request (key : option string) (arguments : dict json) : ExecutorRequest :=
  mkExecutorRequest "a-id" (tool_of put_config IdempotentWrite) arguments 5 key.

Definition call_arguments : dict json :=
  [("project", JStr "a/../b?x"); ("page", JInt 2); ("key", JStr "forged"); ("auth", JStr "forged");
   ("body", JObj [("title", JStr "t")])].

Definition bearer : ResolvedCredential :=
  mkResolvedCredential "cb" InHeader "Authorization" FormatBearer (Secret "s3cret").

Definition sent : http_request :=
  mkHttpRequest "PUT" "https://api.example.com/v1/projects/a%2F..%2Fb%3Fx/tasks" [("page", "2")]
    [("Idempotency-Key", "k1"); ("Authorization", "Bearer s3cret")] (JObj [("title", JStr "t")]) 5.

Example put_is_sent :
  httpx_execute 1000 [] (put_request (Some "k1") call_arguments) (Some bearer) =
    ([EgressCheck "https://api.example.com/v1/"; Send sent],
     Raise (Failure (ExecutorFailure "upstream_503" CatUpstream5xx false (Some 503%Z)))).
Proof. by vm_compute. Qed.

Example put_needs_key_and_side_effect :
  httpx_execute 1000 [] (put_request None call_arguments) None =
    ([], Raise (validation_failure "idempotency_key_required")) ∧
  httpx_execute 1000 []
    (mkExecutorRequest "a-id" (tool_of put_config NonIdempotentWrite) call_arguments 5 (Some "k")) None =
    ([], Raise (authorization_failure "put_tool_must_be_idempotent_write")) ∧
  httpx_execute 1000 []
    (mkExecutorRequest "a-id" (tool_of [("method", JStr "DELETE")] IdempotentWrite) [] 5 (Some "k")) None =
    ([], Raise (authorization_failure "write_execution_not_enabled")).
Proof. by vm_compute. Qed.

(** Percent-encoding leaves dots alone: an argument may be a dot segment. *)
Lemma dot_segment_argument_is_sent :
  (let? r := prepare_request "PUT"
      (put_request (Some "k1") [("project", JStr ".."); ("body", JNull)]) None in
   Ok (hr_url r)) = Ok "https://api.example.com/v1/projects/../tasks".
Proof. by vm_compute. Qed.

Lemma client_statuses : client_reports_statuses.
Proof. intros log r. unfold client_request, client. destruct (_ <=? _)%nat; simpl; lia. Qed.

Lemma policy_failures : policy_raises_no_failure.
Proof.
  intros log e f E. apply egress_errors in E as [E|[E|(h & port & E)]]; [done| |done].
  pose proof (urlsplit_steps e) as Hu. destruct (split_scheme _), (split_netloc _).
  destruct Hu as [(x & Hx & Hu)|(_ & u & Hu & _)]; [|by rewrite Hu in E].
  rewrite Hu in E. injection E as ->. revert Hx. unfold check_netloc, check_bracketed_netloc,
    check_bracketed_host, url_value_error, raise_if, rbind. repeat case_match; naive_solver.
Qed.

Lemma trusted_headers_win_witness :
  (∀ c, Some bearer = Some c → rc_injection_location c = InHeader →
     header_values (rc_injection_name c) (hr_headers sent) = [credential_value c]) ∧
  (∀ k, xr_idempotency_key (put_request (Some "k1") call_arguments) = Some k →
     (∀ c, Some bearer = Some c → rc_injection_location c = InHeader →
        same_header (rc_injection_name c) "Idempotency-Key" = false) →
     header_values "Idempotency-Key" (hr_headers sent) = [k]) ∧
  (∀ c, Some bearer = Some c → rc_injection_location c = InQuery →
     dget (rc_injection_name c) (hr_params sent) = Some (credential_value c)).
Proof. apply (trusted_headers_win "PUT"). by vm_compute. Defined.

Lemma arguments_stay_in_path_witness :
  ∃ path,
    hr_url sent = rstrip_chars (char_in "/") "https://api.example.com/v1/" +:+ path ∧
    startswith "/" path = true ∧
    (count_chars (char_in "/?#@:{}") path
       <= count_chars (char_in "/?#@:{}") "/projects/{id}/tasks")%nat.
Proof.
  apply (arguments_stay_in_path "PUT" (put_request (Some "k1") call_arguments) (Some bearer) sent).
  - by vm_compute.
  - intros [[] [] [] [] [] [] [] []]; done || by vm_compute.
Defined.

Lemma http_executor_lawful_witness :
  LawfulExecutor (H := RetryExamples.counting_ports)
    (execute_with_retry (H := RetryExamples.counting_ports)
       (H0 := httpx_tool_executor 1000) (H1 := RetryExamples.sleeping) RetryExamples.cfg).
Proof.
  apply (http_executor_lawful (H := RetryExamples.counting_ports)).
  - exact client_statuses.
  - exact policy_failures.
Defined.
End HttpExamples.
