(* ===== verification/Toolsets.v ===== *)
(** * Toolsets: the aggregate

    Models [modules/toolsets/domain.py] and [errors.py]: a toolset with its
    members and grants, its construction and its mutations.  Each mutation
    checks the revision its caller has seen and gives the same toolset or its
    next revision.  Repository and use cases are ToolsetAdmin.v; what a
    granted principal may call through an endpoint is ToolsetAccess.v. *)

From Stdlib Require Import ZArith Ascii Lia.
From stdpp Require Import base sets strings option list.
From S2P Require Import Prelude Text Dict Errors Json Store AuditTrail Url Catalog.
Open Scope py_scope.

(** ** Domain *)

Inductive ToolsetKind := KindExplicit | KindAllPublished.
Inductive ToolsetDiscoveryMode := ModeDirect | ModeSearchFirst.
Inductive ToolsetStatus := TsDraft | TsActive | TsDisabled.
Inductive ToolsetHealth := Healthy | Degraded | Unavailable.
Inductive ToolsetMemberAvailability := MemberAvailable | MemberToolDisabled | MemberNoPublishedVersion.

#[export] Instance toolset_kind_eq_dec : EqDecision ToolsetKind.
Proof. solve_decision. Defined.
#[export] Instance discovery_mode_eq_dec : EqDecision ToolsetDiscoveryMode.
Proof. solve_decision. Defined.
#[export] Instance toolset_status_eq_dec : EqDecision ToolsetStatus.
Proof. solve_decision. Defined.
#[export] Instance toolset_health_eq_dec : EqDecision ToolsetHealth.
Proof. solve_decision. Defined.
#[export] Instance member_availability_eq_dec : EqDecision ToolsetMemberAvailability.
Proof. solve_decision. Defined.

Definition toolset_kind_value (k : ToolsetKind) : string :=
  match k with KindExplicit => "explicit" | KindAllPublished => "all_published" end.

(** [_require_aware] and [_require_digest] *)
Definition require_aware (field : string) (d : datetime) : res unit :=
  raise_if (negb (dt_aware d)) (ValueError (field +:+ " must be timezone-aware")).
Definition require_digest (field digest : string) : res unit :=
  raise_if (negb (is_hex_digest digest)) (ValueError (field +:+ " must be a lowercase sha256 digest")).

Record ToolsetMember := mkMember {
  tm_tenant_id : string;
  tm_toolset_id : string;
  tm_tool_id : string;
  tm_added_by : string;
  tm_added_at : datetime }.

Definition new_member (m : ToolsetMember) : res ToolsetMember :=
  require_non_blank
    [("member tenant id", tm_tenant_id m); ("member toolset id", tm_toolset_id m);
     ("member tool id", tm_tool_id m); ("member actor id", tm_added_by m)] ;;?
  require_aware "member added_at" (tm_added_at m) ;;?
  Ok m.

Record ToolsetAccessGrant := mkGrant {
  tg_tenant_id : string;
  tg_toolset_id : string;
  tg_principal_id : string;
  tg_granted_by : string;
  tg_granted_at : datetime }.

Definition new_grant (g : ToolsetAccessGrant) : res ToolsetAccessGrant :=
  require_non_blank
    [("grant tenant id", tg_tenant_id g); ("grant toolset id", tg_toolset_id g);
     ("grant principal id", tg_principal_id g); ("grant actor id", tg_granted_by g)] ;;?
  require_aware "grant granted_at" (tg_granted_at g) ;;?
  Ok g.

#[export] Instance member_eq_dec : EqDecision ToolsetMember.
Proof. solve_decision. Defined.
#[export] Instance grant_eq_dec : EqDecision ToolsetAccessGrant.
Proof. solve_decision. Defined.

(** [_normalized_ids]: the distinct values, sorted; blank ones are refused. *)
Definition normalized_ids (field : string) (values : list string) : res (list string) :=
  require_non_blank (map (pair field) values) ;;?
  Ok (sorted_set values).

(** [_ALL_PUBLISHED_MEMBERSHIP_DIGEST] *)
Definition all_published_membership_digest : string :=
  sha256_hex (dumps (JObj [("kind", JStr "all_published"); ("rule_version", JInt 1)])).

(** [calculate_membership_digest] *)
Definition calculate_membership_digest (kind : ToolsetKind) (tool_ids : list string) : res string :=
  let? normalized := normalized_ids "tool id" tool_ids in
  match kind with
  | KindAllPublished =>
      raise_if (negb (bool_decide (normalized = [])))
        (ValueError "all_published membership digest does not accept tool ids") ;;?
      Ok all_published_membership_digest
  | KindExplicit =>
      canonical_json_digest
        (JObj [("kind", JStr (toolset_kind_value kind)); ("tool_ids", JArr (map JStr normalized))])
  end.

Record Toolset := mkToolset {
  ts_id : string;
  ts_tenant_id : string;
  ts_slug : string;
  ts_name : string;
  ts_description : option string;
  ts_kind : ToolsetKind;
  ts_discovery_mode : ToolsetDiscoveryMode;
  ts_status : ToolsetStatus;
  ts_revision : Z;
  ts_membership_digest : string;
  ts_created_by : string;
  ts_created_at : datetime;
  ts_updated_at : datetime;
  ts_members : list ToolsetMember;
  ts_grants : list ToolsetAccessGrant }.

#[export] Instance toolset_eq_dec : EqDecision Toolset.
Proof. solve_decision. Defined.

(** [Toolset.tool_ids], [Toolset.principal_ids] *)
Definition ts_tool_ids (t : Toolset) : list string := map tm_tool_id (ts_members t).
Definition ts_principal_ids (t : Toolset) : list string := map tg_principal_id (ts_grants t).

(** [_TOOLSET_SLUG.fullmatch]: [[a-z0-9]+(?:-[a-z0-9]+)*]. *)
Definition slug_char (c : ascii) : bool :=
  (97 <=? code c)%N && (code c <=? 122)%N || is_ascii_digit c.
Definition slug_pattern (s : string) : bool :=
  forallb (λ part, negb (str_empty part) && all_chars slug_char part) (split_char "-"%char s).

(** The loop of [_validate_members] and [_validate_grants]: every entry
    belongs to the toolset and no key repeats one of [seen]. *)
Fixpoint validate_entries {A} (belongs : A → bool) (key : A → string) (crossed repeated : exn)
    (seen : list string) (entries : list A) : res unit :=
  match entries with
  | [] => Ok tt
  | x :: rest =>
      raise_if (negb (belongs x)) crossed ;;?
      raise_if (bool_decide (key x ∈ seen)) repeated ;;?
      validate_entries belongs key crossed repeated (key x :: seen) rest
  end.

(** [_validate_members] *)
Definition validate_members (t : Toolset) : res unit :=
  validate_entries
    (λ m, bool_decide (tm_tenant_id m = ts_tenant_id t) && bool_decide (tm_toolset_id m = ts_id t))
    tm_tool_id (ValueError "toolset member crossed aggregate tenant or identity boundary")
    (ValueError "toolset member tool id must be unique") [] (ts_members t).

(** [_validate_grants] *)
Definition validate_grants (t : Toolset) : res unit :=
  validate_entries
    (λ g, bool_decide (tg_tenant_id g = ts_tenant_id t) && bool_decide (tg_toolset_id g = ts_id t))
    tg_principal_id (ValueError "toolset grant crossed aggregate tenant or identity boundary")
    (ValueError "toolset grant principal id must be unique") [] (ts_grants t).

Definition is_empty {A} (l : list A) : bool := match l with [] => true | _ => false end.

(** [Toolset.__post_init__] *)
Definition new_toolset (t : Toolset) : res Toolset :=
  require_non_blank
    [("toolset id", ts_id t); ("toolset tenant id", ts_tenant_id t);
     ("toolset name", ts_name t); ("toolset creator", ts_created_by t)] ;;?
  raise_if ((64 <? String.length (ts_slug t))%nat || negb (slug_pattern (ts_slug t)))
    (ValueError "toolset slug must use lowercase kebab-case") ;;?
  raise_if (128 <? String.length (ts_name t))%nat
    (ValueError "toolset name must not exceed 128 characters") ;;?
  raise_if (ts_revision t <=? 0)%Z (ValueError "toolset revision must be positive") ;;?
  require_digest "toolset membership digest" (ts_membership_digest t) ;;?
  require_aware "toolset created_at" (ts_created_at t) ;;?
  require_aware "toolset updated_at" (ts_updated_at t) ;;?
  let? early := dt_lt (ts_updated_at t) (ts_created_at t) in
  raise_if early (ValueError "toolset updated_at must not precede created_at") ;;?
  raise_if (bool_decide (ts_kind t = KindAllPublished)
            && negb (bool_decide (ts_slug t = "all-published")))
    (ValueError "system all_published toolset must use reserved slug") ;;?
  raise_if (bool_decide (ts_kind t = KindAllPublished) && negb (is_empty (ts_members t)))
    (ValueError "all_published toolset must not contain explicit members") ;;?
  raise_if (bool_decide (ts_kind t = KindExplicit) && bool_decide (ts_status t = TsActive)
            && is_empty (ts_members t))
    (ValueError "active explicit toolset must contain at least one member") ;;?
  validate_members t ;;?
  validate_grants t ;;?
  let? digest := calculate_membership_digest (ts_kind t) (ts_tool_ids t) in
  raise_if (negb (bool_decide (ts_membership_digest t = digest)))
    (ValueError "toolset membership digest did not match members") ;;?
  Ok t.

(** [Toolset.create_explicit] *)
Definition create_explicit (id tenant_id slug name : string) (description : option string)
    (created_by : string) (created_at : datetime) (mode : ToolsetDiscoveryMode) : res Toolset :=
  let? digest := calculate_membership_digest KindExplicit [] in
  new_toolset (mkToolset id tenant_id slug name description KindExplicit mode TsDraft 1 digest
                 created_by created_at created_at [] []).

(** [Toolset.create_all_published] *)
Definition create_all_published (id tenant_id created_by : string) (created_at : datetime) :
    res Toolset :=
  new_toolset (mkToolset id tenant_id "all-published" "All Published Tools"
                 (Some "System-managed view of all current published tools.")
                 KindAllPublished ModeSearchFirst TsActive 1 all_published_membership_digest
                 created_by created_at created_at [] []).

(** [_require_revision] and [_require_mutation_time] *)
Definition require_revision (t : Toolset) (expected_revision : Z) : res unit :=
  raise_if (negb (expected_revision =? ts_revision t)%Z)
    (ToolsetRevisionConflict "toolset revision conflict").
Definition require_mutation_time (t : Toolset) (occurred_at : datetime) : res unit :=
  require_aware "toolset mutation time" occurred_at ;;?
  let? early := dt_lt occurred_at (ts_updated_at t) in
  raise_if early (ValueError "toolset mutation time must not precede updated_at").

(** [replace(self, ..., revision=self.revision + 1, updated_at=at)] *)
Definition next_revision (t : Toolset) (name : string) (description : option string)
    (mode : ToolsetDiscoveryMode) (status : ToolsetStatus) (digest : string)
    (members : list ToolsetMember) (grants : list ToolsetAccessGrant) (at_ : datetime) : res Toolset :=
  new_toolset (mkToolset (ts_id t) (ts_tenant_id t) (ts_slug t) name description (ts_kind t) mode
                 status (ts_revision t + 1) digest (ts_created_by t) (ts_created_at t) at_
                 members grants).

(** [Toolset.update_profile] *)
Definition update_profile (t : Toolset) (expected_revision : Z) (name : string)
    (description : option string) (mode : ToolsetDiscoveryMode) (updated_at : datetime) : res Toolset :=
  require_revision t expected_revision ;;?
  raise_if (bool_decide (ts_kind t = KindAllPublished)
            && (negb (bool_decide (ts_name t = name))
                || negb (bool_decide (ts_description t = description))))
    (SystemToolsetMutationError "system all_published toolset identity is immutable") ;;?
  if bool_decide (ts_name t = name) && bool_decide (ts_description t = description)
     && bool_decide (ts_discovery_mode t = mode)
  then Ok t
  else
    require_mutation_time t updated_at ;;?
    next_revision t name description mode (ts_status t) (ts_membership_digest t)
      (ts_members t) (ts_grants t) updated_at.

(** [existing.get(key) or new entry], for each of the wanted keys; [existing]
    is the dict built from the entries, in which later ones win. *)
Fixpoint merge_entries {A} (key : A → string) (make : string → res A) (existing : list A)
    (wanted : list string) : res (list A) :=
  match wanted with
  | [] => Ok []
  | k :: rest =>
      let? x := match find (λ x, bool_decide (key x = k)) (rev existing) with
                | Some x => Ok x
                | None => make k
                end in
      let? xs := merge_entries key make existing rest in
      Ok (x :: xs)
  end.

(** [Toolset.replace_members] *)
Definition replace_members (t : Toolset) (expected_revision : Z) (tool_ids : list string)
    (actor_id : string) (occurred_at : datetime) : res Toolset :=
  require_revision t expected_revision ;;?
  raise_if (bool_decide (ts_kind t = KindAllPublished))
    (SystemToolsetMutationError "all_published toolset does not accept explicit members") ;;?
  let? normalized := normalized_ids "tool id" tool_ids in
  raise_if (bool_decide (ts_status t = TsActive) && is_empty normalized)
    (ValueError "active explicit toolset must contain at least one member") ;;?
  if bool_decide (normalized = ts_tool_ids t) then Ok t
  else
    require_mutation_time t occurred_at ;;?
    let? members := merge_entries tm_tool_id
      (λ tool_id, new_member (mkMember (ts_tenant_id t) (ts_id t) tool_id actor_id occurred_at))
      (ts_members t) normalized in
    let? digest := calculate_membership_digest (ts_kind t) normalized in
    next_revision t (ts_name t) (ts_description t) (ts_discovery_mode t) (ts_status t) digest
      members (ts_grants t) occurred_at.

(** [Toolset.replace_grants] *)
Definition replace_grants (t : Toolset) (expected_revision : Z) (principal_ids : list string)
    (actor_id : string) (occurred_at : datetime) : res Toolset :=
  require_revision t expected_revision ;;?
  let? normalized := normalized_ids "principal id" principal_ids in
  if bool_decide (normalized = ts_principal_ids t) then Ok t
  else
    require_mutation_time t occurred_at ;;?
    let? grants := merge_entries tg_principal_id
      (λ principal_id, new_grant (mkGrant (ts_tenant_id t) (ts_id t) principal_id actor_id occurred_at))
      (ts_grants t) normalized in
    next_revision t (ts_name t) (ts_description t) (ts_discovery_mode t) (ts_status t)
      (ts_membership_digest t) (ts_members t) grants occurred_at.

(** [Toolset.activate] and [Toolset.disable] *)
Definition activate (t : Toolset) (expected_revision : Z) (activated_at : datetime) : res Toolset :=
  require_revision t expected_revision ;;?
  if bool_decide (ts_status t = TsActive) then Ok t
  else
    raise_if (bool_decide (ts_kind t = KindExplicit) && is_empty (ts_members t))
      (ValueError "explicit toolset must contain members before activation") ;;?
    require_mutation_time t activated_at ;;?
    next_revision t (ts_name t) (ts_description t) (ts_discovery_mode t) TsActive
      (ts_membership_digest t) (ts_members t) (ts_grants t) activated_at.

Definition disable (t : Toolset) (expected_revision : Z) (disabled_at : datetime) : res Toolset :=
  require_revision t expected_revision ;;?
  if bool_decide (ts_status t = TsDisabled) then Ok t
  else
    raise_if (bool_decide (ts_kind t = KindAllPublished))
      (SystemToolsetMutationError "system all_published toolset cannot be disabled") ;;?
    require_mutation_time t disabled_at ;;?
    next_revision t (ts_name t) (ts_description t) (ts_discovery_mode t) TsDisabled
      (ts_membership_digest t) (ts_members t) (ts_grants t) disabled_at.

(** [derive_toolset_health] *)
Definition derive_toolset_health (availabilities : dict ToolsetMemberAvailability) : ToolsetHealth :=
  if is_empty availabilities then Unavailable
  else
    let available := length (filter (λ a, a = MemberAvailable) (dvalues availabilities)) in
    if (available =? length availabilities)%nat then Healthy
    else if (available =? 0)%nat then Unavailable else Degraded.

#[global] Arguments new_toolset : simpl never.
#[global] Arguments next_revision : simpl never.

(** ** What a constructed toolset satisfies *)

Record toolset_facts (t : Toolset) : Prop := {
  tf_ids : blank (ts_id t) = false ∧ blank (ts_tenant_id t) = false ∧ blank (ts_name t) = false ∧
    blank (ts_created_by t) = false;
  tf_slug : (String.length (ts_slug t) <= 64)%nat ∧ slug_pattern (ts_slug t) = true;
  tf_name : (String.length (ts_name t) <= 128)%nat;
  tf_revision : (0 < ts_revision t)%Z;
  tf_times : dt_aware (ts_created_at t) = true ∧ dt_aware (ts_updated_at t) = true ∧
    (dt_micros (ts_created_at t) <= dt_micros (ts_updated_at t))%Z;
  tf_system : ts_kind t = KindAllPublished → ts_slug t = "all-published" ∧ ts_members t = [];
  tf_active : ts_kind t = KindExplicit → ts_status t = TsActive → ts_members t ≠ [];
  tf_members : NoDup (ts_tool_ids t) ∧
    Forall (λ m, tm_tenant_id m = ts_tenant_id t ∧ tm_toolset_id m = ts_id t) (ts_members t);
  tf_grants : NoDup (ts_principal_ids t) ∧
    Forall (λ g, tg_tenant_id g = ts_tenant_id t ∧ tg_toolset_id g = ts_id t) (ts_grants t);
  tf_digest : is_hex_digest (ts_membership_digest t) = true ∧
    calculate_membership_digest (ts_kind t) (ts_tool_ids t) = Ok (ts_membership_digest t) }.

Lemma require_aware_Ok field d u : require_aware field d = Ok u ↔ dt_aware d = true.
Proof. unfold require_aware. by rewrite raise_if_Ok, negb_false_iff. Qed.

Lemma require_digest_Ok field s u : require_digest field s = Ok u ↔ is_hex_digest s = true.
Proof. unfold require_digest. by rewrite raise_if_Ok, negb_false_iff. Qed.

Lemma validate_entries_Ok {A} belongs (key : A → string) crossed repeated seen l :
  validate_entries belongs key crossed repeated seen l = Ok tt ↔
  NoDup (map key l) ∧ (∀ x, x ∈ map key l → x ∉ seen) ∧ Forall (λ x, belongs x = true) l.
Proof.
  revert seen. induction l as [|a l IH]; intros seen; simpl.
  { split; [|done]. split; [constructor|]. split; [set_solver|constructor]. }
  rewrite NoDup_cons, Forall_cons. split.
  - intros H. guards H. apply IH in H as (Hn & Hs & Hf). py_bools.
    split; [split; [|done]|]. { intros Hin. apply Hs in Hin. set_solver. }
    split; [|done]. intros y [->|Hy]%elem_of_cons; [done|]. apply Hs in Hy. set_solver.
  - intros ((Hn & Hd) & Hs & Hb & Hf). rewrite Hb. simpl.
    rewrite bool_decide_eq_false_2 by (apply Hs; by left). simpl. apply IH.
    split; [done|]. split; [|done]. intros y Hy [->|Hy']%elem_of_cons; [done|].
    eapply Hs; [by right|done].
Qed.

Lemma Forall_both {A} (l : list A) (f g : A → string) x y :
  Forall (λ m, bool_decide (f m = x) && bool_decide (g m = y) = true) l ↔
  Forall (λ m, f m = x ∧ g m = y) l.
Proof. apply Forall_iff. intros m. by rewrite andb_true_iff, !bool_decide_eq_true. Qed.

Lemma validate_members_Ok t :
  validate_members t = Ok tt ↔ NoDup (ts_tool_ids t) ∧
    Forall (λ m, tm_tenant_id m = ts_tenant_id t ∧ tm_toolset_id m = ts_id t) (ts_members t).
Proof. unfold validate_members. rewrite validate_entries_Ok, Forall_both. set_solver. Qed.

Lemma validate_grants_Ok t :
  validate_grants t = Ok tt ↔ NoDup (ts_principal_ids t) ∧
    Forall (λ g, tg_tenant_id g = ts_tenant_id t ∧ tg_toolset_id g = ts_id t) (ts_grants t).
Proof. unfold validate_grants. rewrite validate_entries_Ok, Forall_both. set_solver. Qed.

Lemma is_empty_true {A} (l : list A) : is_empty l = true ↔ l = [].
Proof. by destruct l. Qed.
Lemma is_empty_false {A} (l : list A) : is_empty l = false ↔ l ≠ [].
Proof. by destruct l. Qed.

Lemma andb_false_impl (P : Prop) `{Decision P} b : bool_decide P && b = false → P → b = false.
Proof. intros Hb HP. by rewrite bool_decide_eq_true_2 in Hb. Qed.

(** A toolset can be constructed exactly when it is well formed. *)
Lemma new_toolset_Ok t t' : new_toolset t = Ok t' → t' = t ∧ toolset_facts t.
Proof.
  unfold new_toolset. intros H. guards H.
  repeat match goal with u : () |- _ => destruct u end.
  apply require_non_blank_Ok in G. rewrite !Forall_cons in G. destruct G as (? & ? & ? & ? & _).
  apply orb_false_iff in G0 as [G0 G0']. apply negb_false_iff in G0'.
  apply negb_false_iff in G3, G4, G5. apply dt_lt_Ok in G6 as [_ ->]. subst x13.
  apply validate_members_Ok in G11. apply validate_grants_Ok in G12. injection H as <-.
  apply Nat.ltb_ge in G0, G1. apply Z.leb_gt in G2. simpl in *.
  split; [done|]. split; try done.
  - split; [done|]. split; [done|]. apply Z.ltb_ge in G7. lia.
  - intros Hk. pose proof (andb_false_impl _ _ G8 Hk) as Hs. pose proof (andb_false_impl _ _ G9 Hk) as Hm.
    apply negb_false_iff in Hs, Hm. by apply bool_decide_eq_true in Hs; apply is_empty_true in Hm.
  - intros Hk Ha. rewrite !bool_decide_eq_true_2 in G10 by done. by apply is_empty_false in G10.
Qed.

(** A toolset value can be constructed exactly when it is well formed:
    non-blank identity, kebab-case slug of at most 64 characters, positive
    revision, ordered aware times, members and grants of this very toolset
    without repetition, the system toolset without explicit members, an active
    explicit one with some, and the digest of exactly its members. *)
Theorem new_toolset_spec t : new_toolset t = Ok t ↔ toolset_facts t.
Proof.
  split; [by intros [_ ?]%new_toolset_Ok|].
  intros [(H1 & H2 & H3 & H4) [Hl Hs] Hn Hr (Hc & Hu & Ho) Hsys Hact Hm Hg [Hd Hdig]].
  unfold new_toolset.
  rewrite (proj2 (require_non_blank_Ok _)) by (by repeat constructor). cbn [rbind].
  rewrite Hs. unfold require_digest, require_aware. rewrite Hd, Hc, Hu.
  replace (64 <? String.length (ts_slug t))%nat with false by (symmetry; apply Nat.ltb_ge; lia).
  replace (128 <? String.length (ts_name t))%nat with false by (symmetry; apply Nat.ltb_ge; lia).
  replace (ts_revision t <=? 0)%Z with false by (symmetry; apply Z.leb_gt; lia).
  cbn [rbind raise_if negb orb]. unfold dt_lt, dt_ltb. rewrite Hc, Hu. cbn [eqb opt_type_error rbind].
  replace (dt_micros (ts_updated_at t) <? dt_micros (ts_created_at t))%Z with false
    by (symmetry; apply Z.ltb_ge; lia).
  cbn [rbind raise_if].
  assert (E1 : bool_decide (ts_kind t = KindAllPublished)
    && negb (bool_decide (ts_slug t = "all-published")) = false).
  { case_bool_decide as Hk; [|done]. destruct (Hsys Hk) as [-> _]. done. }
  assert (E2 : bool_decide (ts_kind t = KindAllPublished) && negb (is_empty (ts_members t)) = false).
  { case_bool_decide as Hk; [|done]. destruct (Hsys Hk) as [_ ->]. done. }
  assert (E3 : bool_decide (ts_kind t = KindExplicit) && bool_decide (ts_status t = TsActive)
    && is_empty (ts_members t) = false).
  { destruct (decide (ts_kind t = KindExplicit)) as [Hk|Hk];
      [|by rewrite (bool_decide_eq_false_2 _ Hk)].
    destruct (decide (ts_status t = TsActive)) as [Ha|Ha];
      [|by rewrite (bool_decide_eq_false_2 _ Ha), andb_false_r].
    by rewrite (proj2 (is_empty_false _) (Hact Hk Ha)), andb_false_r. }
  rewrite E1, E2, E3. cbn [rbind raise_if].
  rewrite (proj2 (validate_members_Ok t)), (proj2 (validate_grants_Ok t)), Hdig by done.
  cbn [rbind raise_if]. rewrite bool_decide_eq_true_2 by done. done.
Qed.

(** ** Mutations: nothing, or the next revision of the same toolset *)

Definition same_toolset (t t' : Toolset) : Prop :=
  ts_id t' = ts_id t ∧ ts_tenant_id t' = ts_tenant_id t ∧ ts_slug t' = ts_slug t ∧
  ts_kind t' = ts_kind t ∧ ts_created_by t' = ts_created_by t ∧ ts_created_at t' = ts_created_at t.

#[export] Instance same_toolset_refl : Reflexive same_toolset.
Proof. done. Qed.
#[export] Instance same_toolset_trans : Transitive same_toolset.
Proof. intros a b c (?&?&?&?&?&?) (?&?&?&?&?&?). repeat split; congruence. Qed.

Definition advances (t t' : Toolset) : Prop :=
  toolset_facts t' ∧ same_toolset t t' ∧ ts_revision t' = (ts_revision t + 1)%Z ∧
  (dt_micros (ts_updated_at t) <= dt_micros (ts_updated_at t'))%Z.

Definition moves (t t' : Toolset) : Prop := t' = t ∨ advances t t'.

Lemma require_revision_Ok t r u : require_revision t r = Ok u → r = ts_revision t.
Proof. unfold require_revision. intros H%raise_if_Ok. by apply negb_false_iff, Z.eqb_eq in H. Qed.

Lemma next_revision_Ok t name description mode status digest members grants at_ u t' :
  require_mutation_time t at_ = Ok u →
  next_revision t name description mode status digest members grants at_ = Ok t' →
  advances t t' ∧
  t' = mkToolset (ts_id t) (ts_tenant_id t) (ts_slug t) name description (ts_kind t) mode status
         (ts_revision t + 1) digest (ts_created_by t) (ts_created_at t) at_ members grants.
Proof.
  unfold require_mutation_time. intros Hm Hr. guards Hm.
  apply dt_lt_Ok in G0 as [_ ->]. apply raise_if_Ok in Hm. apply Z.ltb_ge in Hm.
  apply new_toolset_Ok in Hr as [-> Hf]. split; [|done]. split; [done|]. by split; [|split].
Qed.

(** Split [H : rbind m k = Ok _] as often as possible, dropping unit results. *)
Ltac steps H :=
  repeat match type of H with
  | rbind _ _ = Ok _ => let G := fresh "G" in apply rbind_Ok_inv in H as (? & G & H)
  end;
  repeat match goal with u : () |- _ => destruct u end.

(** Use [next_revision_Ok] where a mutation went through. *)
Ltac advance_with H Ha :=
  match goal with
  | G : require_mutation_time _ _ = Ok _ |- _ =>
      let E := fresh in
      destruct (next_revision_Ok _ _ _ _ _ _ _ _ _ _ _ G H) as [Ha E]; rewrite E
  end.

(** What a mutation did, with the values it wrote. *)
Lemma update_profile_Ok t r name description mode at_ t' :
  update_profile t r name description mode at_ = Ok t' →
  r = ts_revision t ∧ moves t t' ∧
  ts_name t' = name ∧ ts_description t' = description ∧ ts_discovery_mode t' = mode ∧
  ts_status t' = ts_status t ∧ ts_members t' = ts_members t ∧ ts_grants t' = ts_grants t.
Proof.
  unfold update_profile. intros H. steps H. apply require_revision_Ok in G as ->.
  destruct (_ && _ && _) eqn:E.
  - injection H as <-. py_bools. split_and!; try done; by left.
  - steps H. advance_with H Ha.
    split_and!; try done. right. congruence.
Qed.

Lemma activate_Ok t r at_ t' :
  activate t r at_ = Ok t' →
  r = ts_revision t ∧ moves t t' ∧ ts_status t' = TsActive ∧
  ts_members t' = ts_members t ∧ ts_grants t' = ts_grants t.
Proof.
  unfold activate. intros H. steps H. apply require_revision_Ok in G as ->. case_bool_decide.
  - injection H as <-. split_and!; try done; by left.
  - steps H. advance_with H Ha.
    split_and!; try done. right. congruence.
Qed.

Lemma disable_Ok t r at_ t' :
  disable t r at_ = Ok t' →
  r = ts_revision t ∧ moves t t' ∧ ts_status t' = TsDisabled ∧
  ts_members t' = ts_members t ∧ ts_grants t' = ts_grants t.
Proof.
  unfold disable. intros H. steps H. apply require_revision_Ok in G as ->. case_bool_decide.
  - injection H as <-. split_and!; try done; by left.
  - steps H. advance_with H Ha.
    split_and!; try done. right. congruence.
Qed.

Lemma merge_entries_keys {A} (key : A → string) make existing wanted l :
  (∀ k x, make k = Ok x → key x = k) →
  merge_entries key make existing wanted = Ok l → map key l = wanted.
Proof.
  intros Hmake. revert l. induction wanted as [|k wanted IH]; intros l; cbn [merge_entries].
  { by intros [= <-]. }
  intros H. steps H. injection H as <-. simpl. f_equal; [|by apply IH].
  destruct (find _ _) as [y|] eqn:E; [|by apply Hmake].
  injection G as <-. apply find_Some_iff in E as [_ E]. by apply bool_decide_eq_true in E.
Qed.

Lemma NoDup_key_inj {A} (key : A → string) l x y :
  NoDup (map key l) → x ∈ l → y ∈ l → key x = key y → x = y.
Proof.
  intros Hnd Hx Hy E. induction l as [|z l IH]; [by apply elem_of_nil in Hx|].
  simpl in Hnd. apply NoDup_cons in Hnd as [Hz Hnd].
  apply elem_of_cons in Hx, Hy. destruct Hx as [->|Hx], Hy as [->|Hy]; [done| | |by apply IH];
    exfalso; apply Hz; [rewrite E|rewrite <-E]; by apply list_elem_of_fmap_2.
Qed.

Lemma elem_of_rev {A} (l : list A) x : x ∈ rev l ↔ x ∈ l.
Proof. by rewrite !list_elem_of_In, <-in_rev. Qed.

(** An entry whose key is wanted and was there is kept as it was. *)
Lemma merge_entries_kept {A} (key : A → string) make existing wanted l x :
  NoDup (map key existing) → merge_entries key make existing wanted = Ok l →
  x ∈ existing → key x ∈ wanted → x ∈ l.
Proof.
  intros Hnd. revert l. induction wanted as [|k wanted IH]; intros l; cbn [merge_entries].
  { intros _ _ Hin. by apply elem_of_nil in Hin. }
  intros H Hx Hk. steps H. injection H as <-. apply elem_of_cons in Hk as [<-|Hk];
    apply elem_of_cons; [left|right; by eapply IH].
  destruct (find _ _) as [y|] eqn:E.
  - apply find_Some_iff in E as [Hy E]. apply bool_decide_eq_true in E.
    injection G as <-. apply (NoDup_key_inj key existing); [done|done|by apply elem_of_rev|done].
  - pose proof (proj1 (find_None_iff _ _) E x) as Hx'. simpl in Hx'.
    rewrite bool_decide_eq_true_2 in Hx' by done. by specialize (Hx' (proj2 (elem_of_rev _ _) Hx)).
Qed.

Lemma normalized_ids_Ok field values l :
  normalized_ids field values = Ok l → l = sorted_set values ∧ Forall (λ v, blank v = false) values.
Proof.
  unfold normalized_ids. intros H. steps H. injection H as <-. split; [done|].
  apply require_non_blank_Ok in G. rewrite Forall_map in G. done.
Qed.

Lemma replace_members_Ok t r ids actor at_ t' :
  toolset_facts t → replace_members t r ids actor at_ = Ok t' →
  r = ts_revision t ∧ moves t t' ∧ ts_kind t = KindExplicit ∧
  ts_tool_ids t' = sorted_set ids ∧ ts_status t' = ts_status t ∧ ts_grants t' = ts_grants t ∧
  (∀ m, m ∈ ts_members t → tm_tool_id m ∈ ids → m ∈ ts_members t').
Proof.
  intros Hf. unfold replace_members. intros H. steps H. apply require_revision_Ok in G as ->.
  apply normalized_ids_Ok in G1 as [-> _].
  assert (Hk : ts_kind t = KindExplicit).
  { apply raise_if_Ok, bool_decide_eq_false in G0. by destruct (ts_kind t). }
  destruct (bool_decide (sorted_set ids = _)) eqn:E.
  - injection H as <-. apply bool_decide_eq_true in E. split_and!; try done. by left.
  - steps H. advance_with H Ha.
    split_and!; try done; [right; congruence| |].
    + unfold ts_tool_ids. simpl. eapply merge_entries_keys; [|eassumption].
      intros k x Hx. unfold new_member in Hx. steps Hx. by injection Hx as <-.
    + intros m Hm Hi. simpl. eapply merge_entries_kept; [apply (tf_members _ Hf)|eassumption|done|].
      by apply elem_of_sorted_set.
Qed.

Lemma replace_grants_Ok t r ids actor at_ t' :
  toolset_facts t → replace_grants t r ids actor at_ = Ok t' →
  r = ts_revision t ∧ moves t t' ∧
  ts_principal_ids t' = sorted_set ids ∧ ts_status t' = ts_status t ∧ ts_members t' = ts_members t ∧
  (∀ g, g ∈ ts_grants t → tg_principal_id g ∈ ids → g ∈ ts_grants t').
Proof.
  intros Hf. unfold replace_grants. intros H. steps H. apply require_revision_Ok in G as ->.
  apply normalized_ids_Ok in G0 as [-> _]. case_bool_decide as E.
  - injection H as <-. split_and!; try done. by left.
  - steps H. advance_with H Ha.
    split_and!; try done; [right; congruence| |].
    + unfold ts_principal_ids. simpl. eapply merge_entries_keys; [|eassumption].
      intros k x Hx. unfold new_grant in Hx. steps Hx. by injection Hx as <-.
    + intros g Hg Hi. simpl. eapply merge_entries_kept; [apply (tf_grants _ Hf)|eassumption|done|].
      by apply elem_of_sorted_set.
Qed.

Lemma create_explicit_Ok id tenant slug name description creator at_ mode t :
  create_explicit id tenant slug name description creator at_ mode = Ok t →
  toolset_facts t ∧ ts_id t = id ∧ ts_tenant_id t = tenant ∧ ts_slug t = slug ∧
  ts_kind t = KindExplicit ∧ ts_revision t = 1%Z ∧ ts_status t = TsDraft ∧
  ts_members t = [] ∧ ts_grants t = [].
Proof.
  unfold create_explicit. intros H. steps H. apply new_toolset_Ok in H as [-> Hf].
  split; [exact Hf|]. split_and!; reflexivity.
Qed.

Lemma create_all_published_Ok id tenant creator at_ t :
  create_all_published id tenant creator at_ = Ok t →
  toolset_facts t ∧ ts_id t = id ∧ ts_tenant_id t = tenant ∧ ts_slug t = "all-published" ∧
  ts_kind t = KindAllPublished ∧ ts_revision t = 1%Z ∧ ts_status t = TsActive ∧
  ts_members t = [] ∧ ts_grants t = [].
Proof.
  unfold create_all_published. intros H. apply new_toolset_Ok in H as [-> Hf].
  split; [exact Hf|]. split_and!; reflexivity.
Qed.
