(* ===== verification/ToolsetAdmin.v ===== *)
(** * ToolsetAdmin: toolset repository and administration

    Models [modules/toolsets/ports.py], [use_cases.py], and the in-memory
    adapters ([adapters/in_memory.py], [in_memory_uow.py],
    [_repository_rules.py]) over the aggregate of Toolsets.v.  A unit of work
    holds the toolsets and the catalog snapshots a reader may see in the same
    transaction; the catalog changes between transactions only. *)

From Stdlib Require Import ZArith Ascii Lia.
From stdpp Require Import base sets strings option list.
From S2P Require Import Prelude Text Dict Errors Json Store AuditTrail Url Catalog Toolsets.
Open Scope py_scope.

(** ** Catalog snapshots and their reader ([ports.py]) *)

Record ToolsetCatalogSnapshot := mkSnapshot {
  cs_tool_id : string;
  cs_tenant_id : string;
  cs_availability : ToolsetMemberAvailability;
  cs_published_tool_version_id : option string;
  cs_canonical_name : option string;
  cs_description : option string;
  cs_serialized_schema_size : Z }.

#[export] Instance snapshot_eq_dec : EqDecision ToolsetCatalogSnapshot.
Proof. solve_decision. Defined.

(** [ToolsetCatalogSnapshot.__post_init__] *)
Definition new_snapshot (s : ToolsetCatalogSnapshot) : res ToolsetCatalogSnapshot :=
  raise_if (blank (cs_tool_id s) || blank (cs_tenant_id s))
    (ValueError "catalog snapshot ids must not be blank") ;;?
  raise_if (bool_decide (cs_availability s = MemberAvailable)
            && from_option str_empty true (cs_published_tool_version_id s))
    (ValueError "available catalog snapshot requires published version id") ;;?
  raise_if (negb (bool_decide (cs_availability s = MemberAvailable))
            && negb (is_none (cs_published_tool_version_id s)))
    (ValueError "unavailable catalog snapshot must not expose published version id") ;;?
  raise_if (cs_serialized_schema_size s <? 0)%Z
    (ValueError "catalog snapshot schema size must not be negative") ;;?
  Ok s.

(** The snapshots a transaction sees. *)
Class CatalogSnapshots (D : Type) := catalog_snapshots : D → list ToolsetCatalogSnapshot.

(** [InMemoryToolsetCatalogReader] *)
Definition snapshot_of (snapshots : list ToolsetCatalogSnapshot) (tenant_id tool_id : string) :
    option ToolsetCatalogSnapshot :=
  find (λ s, bool_decide (cs_tenant_id s = tenant_id) && bool_decide (cs_tool_id s = tool_id)) snapshots.

Definition member_snapshots_of (snapshots : list ToolsetCatalogSnapshot) (tenant_id : string)
    (tool_ids : list string) : list ToolsetCatalogSnapshot :=
  omap (snapshot_of snapshots tenant_id) tool_ids.

(** [key=lambda snapshot: (snapshot.canonical_name or "", snapshot.tool_id)] *)
Definition snapshot_leb (a b : ToolsetCatalogSnapshot) : bool :=
  if decide (default "" (cs_canonical_name a) = default "" (cs_canonical_name b))
  then str_leb (cs_tool_id a) (cs_tool_id b)
  else str_leb (default "" (cs_canonical_name a)) (default "" (cs_canonical_name b)).

Definition published_snapshots_of (snapshots : list ToolsetCatalogSnapshot) (tenant_id : string) :
    list ToolsetCatalogSnapshot :=
  sorted_by snapshot_leb
    (filter (λ s, cs_tenant_id s = tenant_id ∧ cs_availability s = MemberAvailable) snapshots).

Definition list_member_snapshots {D} `{CatalogSnapshots D} (tenant_id : string)
    (tool_ids : list string) : M D (list ToolsetCatalogSnapshot) := λ s,
  match working s with
  | Some d => (Ok (member_snapshots_of (catalog_snapshots d) tenant_id tool_ids), s)
  | None => (Raise uow_error, s)
  end.

Definition list_published_snapshots {D} `{CatalogSnapshots D} (tenant_id : string) :
    M D (list ToolsetCatalogSnapshot) := λ s,
  match working s with
  | Some d => (Ok (published_snapshots_of (catalog_snapshots d) tenant_id), s)
  | None => (Raise uow_error, s)
  end.

(** ** [requires_persistence_update] *)

Definition requires_persistence_update (current replacement : Toolset) : res bool :=
  raise_if (negb (bool_decide (ts_id current = ts_id replacement))
            || negb (bool_decide (ts_tenant_id current = ts_tenant_id replacement))
            || negb (bool_decide (ts_slug current = ts_slug replacement))
            || negb (bool_decide (ts_kind current = ts_kind replacement))
            || negb (bool_decide (ts_created_by current = ts_created_by replacement))
            || negb (bool_decide (ts_created_at current = ts_created_at replacement)))
    (ValueError "toolset stable identity fields are immutable") ;;?
  if bool_decide (replacement = current) then Ok false
  else
    raise_if (negb (ts_revision replacement =? ts_revision current + 1)%Z)
      (ToolsetRevisionConflict "toolset revision transition was invalid") ;;?
    Ok true.

(** ** [InMemoryToolsetRepository] *)

Definition find_toolset_by_slug (tenant_id slug : string) (t : dict Toolset) : option Toolset :=
  dfind (λ x, bool_decide (ts_tenant_id x = tenant_id) && bool_decide (ts_slug x = slug)) t.
Definition find_all_published (tenant_id : string) (t : dict Toolset) : option Toolset :=
  dfind (λ x, bool_decide (ts_tenant_id x = tenant_id)
              && bool_decide (ts_kind x = KindAllPublished)) t.
Definition slug_leb (a b : Toolset) : bool := str_leb (ts_slug a) (ts_slug b).

(** [InMemoryToolsetRepository.__init__] with [_validate_seed_uniqueness];
    [clone] goes through it. *)
Definition has_duplicates {A} `{EqDecision A} (l : list A) : bool :=
  negb (length l =? length (remove_dups l))%nat.
Definition new_toolset_repository (seed : list Toolset) : res (dict Toolset) :=
  raise_if (has_duplicates (map ts_id seed)) (ValueError "toolset id already exists") ;;?
  raise_if (has_duplicates (map (λ t, (ts_tenant_id t, ts_slug t)) seed))
    (ValueError "toolset slug already exists in tenant") ;;?
  raise_if (has_duplicates (map ts_tenant_id (filter (λ t, ts_kind t = KindAllPublished) seed)))
    (ValueError "all_published toolset already exists in tenant") ;;?
  Ok (dict_of ts_id seed).

Section Repository.
Context {D : Type} `{!Table D Toolset}.

(** [get_by_id] and [get_for_update] *)
Definition get_toolset (tenant_id id : string) : M D (option Toolset) :=
  let* t := read_table in ret (in_tenant ts_tenant_id tenant_id (dget id t)).
Definition get_toolset_by_slug (tenant_id slug : string) : M D (option Toolset) :=
  let* t := read_table in ret (find_toolset_by_slug tenant_id slug t).
Definition get_all_published (tenant_id : string) : M D (option Toolset) :=
  let* t := read_table in ret (find_all_published tenant_id t).

Definition add_toolset (tenant_id : string) (x : Toolset) : M D unit :=
  lift (require_matching_tenant tenant_id (ts_tenant_id x)) ;;*
  let* t := read_table in
  lift (raise_if (dmem (ts_id x) t) (ValueError "toolset id already exists")) ;;*
  let* owner := get_toolset_by_slug tenant_id (ts_slug x) in
  lift (raise_if (negb (is_none owner)) (ValueError "toolset slug already exists in tenant")) ;;*
  let* all := get_all_published tenant_id in
  lift (raise_if (bool_decide (ts_kind x = KindAllPublished) && negb (is_none all))
          (ValueError "all_published toolset already exists in tenant")) ;;*
  write_table (dset (ts_id x) x t).

Definition save_toolset (tenant_id : string) (x : Toolset) : M D unit :=
  lift (require_matching_tenant tenant_id (ts_tenant_id x)) ;;*
  let* t := read_table in
  match in_tenant ts_tenant_id tenant_id (dget (ts_id x) t) with
  | None => raise (ValueError "toolset does not exist in tenant")
  | Some current =>
      let* changed := lift (requires_persistence_update current x) in
      if changed then
        let* owner := get_toolset_by_slug tenant_id (ts_slug x) in
        lift (raise_if (match owner with
                        | Some o => negb (bool_decide (ts_id o = ts_id x))
                        | None => false
                        end) (ValueError "toolset slug already exists in tenant")) ;;*
        let* all := get_all_published tenant_id in
        lift (raise_if (bool_decide (ts_kind x = KindAllPublished)
                        && match all with
                           | Some o => negb (bool_decide (ts_id o = ts_id x))
                           | None => false
                           end) (ValueError "all_published toolset already exists in tenant")) ;;*
        write_table (dset (ts_id x) x t)
      else ret tt
  end.

Definition list_toolsets_by_tenant (tenant_id : string) : M D (list Toolset) :=
  let* t := read_table in
  ret (sorted_by slug_leb (filter (λ x, ts_tenant_id x = tenant_id) (dvalues t))).

Definition list_granted_active (tenant_id principal_id : string) : M D (list Toolset) :=
  let* all := list_toolsets_by_tenant tenant_id in
  ret (filter (λ x, ts_status x = TsActive ∧ principal_id ∈ ts_principal_ids x) all).
End Repository.

(** ** Commands and profiles *)

Record CreateToolsetCommand := mkCreateToolset {
  ct_context : ActorContext;
  ct_slug : string;
  ct_name : string;
  ct_description : option string;
  ct_discovery_mode : ToolsetDiscoveryMode }.

Record UpdateToolsetCommand := mkUpdateToolset {
  ut_context : ActorContext;
  ut_toolset_id : string;
  ut_expected_revision : Z;
  ut_name : string;
  ut_description : option string;
  ut_discovery_mode : ToolsetDiscoveryMode }.

Record ReplaceToolsetMembersCommand := mkReplaceMembers {
  rm_context : ActorContext;
  rm_toolset_id : string;
  rm_expected_revision : Z;
  rm_tool_ids : list string }.

Record ReplaceToolsetGrantsCommand := mkReplaceGrants {
  rg_context : ActorContext;
  rg_toolset_id : string;
  rg_expected_revision : Z;
  rg_principal_ids : list string }.

Record ChangeToolsetStatusCommand := mkChangeStatus {
  cts_context : ActorContext;
  cts_toolset_id : string;
  cts_expected_revision : Z }.

Record ListToolsetsQuery := mkListToolsets {
  lq_context : ActorContext;
  lq_offset : Z;
  lq_limit : Z;
  lq_text : option string;
  lq_status : option ToolsetStatus;
  lq_kind : option ToolsetKind;
  lq_discovery_mode : option ToolsetDiscoveryMode }.

Record ToolsetMemberProfile := mkMemberProfile {
  mp_tool_id : string;
  mp_canonical_name : option string;
  mp_description : option string;
  mp_availability : ToolsetMemberAvailability;
  mp_published_tool_version_id : option string;
  mp_serialized_schema_size : Z }.

Record ToolsetProfile := mkToolsetProfile {
  tp_id : string;
  tp_tenant_id : string;
  tp_slug : string;
  tp_name : string;
  tp_description : option string;
  tp_kind : ToolsetKind;
  tp_discovery_mode : ToolsetDiscoveryMode;
  tp_status : ToolsetStatus;
  tp_revision : Z;
  tp_membership_digest : string;
  tp_endpoint_path : string;
  tp_health : ToolsetHealth;
  tp_tool_count : Z;
  tp_available_tool_count : Z;
  tp_serialized_schema_size : Z;
  tp_principal_ids : list string;
  tp_members : list ToolsetMemberProfile;
  tp_created_by : string;
  tp_created_at : datetime;
  tp_updated_at : datetime }.

Record page (A : Type) := mkPage { pg_items : list A; pg_offset : Z; pg_limit : Z; pg_total : Z }.
Arguments mkPage {A}.
Arguments pg_items {A}.
Arguments pg_offset {A}.
Arguments pg_limit {A}.
Arguments pg_total {A}.

(** [_member_profile] *)
Definition member_profile (s : ToolsetCatalogSnapshot) : ToolsetMemberProfile :=
  mkMemberProfile (cs_tool_id s) (cs_canonical_name s) (cs_description s) (cs_availability s)
    (cs_published_tool_version_id s) (cs_serialized_schema_size s).

(** The profile [_profile] builds from the snapshots it has read. *)
Definition profile_of (t : Toolset) (snapshots : list ToolsetCatalogSnapshot) : ToolsetProfile :=
  let profiles := map member_profile snapshots in
  let available_count := length (filter (λ p, mp_availability p = MemberAvailable) profiles) in
  let expected_count := match ts_kind t with
                        | KindAllPublished => length profiles
                        | KindExplicit => length (ts_members t)
                        end in
  let health := if (expected_count =? 0)%nat || (available_count =? 0)%nat then Unavailable
                else if (available_count =? expected_count)%nat then Healthy else Degraded in
  mkToolsetProfile (ts_id t) (ts_tenant_id t) (ts_slug t) (ts_name t) (ts_description t) (ts_kind t)
    (ts_discovery_mode t) (ts_status t) (ts_revision t) (ts_membership_digest t)
    ("/mcp/toolsets/" +:+ ts_slug t) health (Z.of_nat expected_count) (Z.of_nat available_count)
    (foldr (λ p n, mp_serialized_schema_size p + n)%Z 0%Z profiles) (ts_principal_ids t) profiles
    (ts_created_by t) (ts_created_at t) (ts_updated_at t).

(** [_require_available] *)
Definition require_available (snapshots : list ToolsetCatalogSnapshot)
    (expected_count : option nat) : res unit :=
  raise_if (match expected_count with
            | Some n => negb (length snapshots =? n)%nat
            | None => false
            end) (Nexus InvalidToolsetMembersError) ;;?
  raise_if (existsb (λ s, negb (bool_decide (cs_availability s = MemberAvailable))) snapshots)
    (Nexus ToolsetMemberUnavailableError).

(** [_require_expected_revision] *)
Definition require_expected_revision (t : Toolset) (expected_revision : Z) : res unit :=
  raise_if (negb (ts_revision t =? expected_revision)%Z) (Nexus ToolsetRevisionConflictError).

(** [_map_mutation_error] *)
Definition map_mutation_error (x : exn) : exn :=
  match x with
  | ToolsetRevisionConflict _ => Nexus ToolsetRevisionConflictError
  | SystemToolsetMutationError _ => Nexus SystemToolsetImmutableError
  | _ => Nexus InvalidArgumentsError
  end.

(** [try: m  except ValueError as error: raise f(error)] *)
Definition on_value_error {D A} (f : exn → exn) (m : M D A) : M D A :=
  try_except m (λ x, if is_value_error x then raise (f x) else raise x).

(** ** Use cases *)

Section UseCases.
Context {D : Type} `{Ports} `{!Table D Toolset} `{!CatalogSnapshots D}.

(** [_get_locked] *)
Definition get_locked (ctx : ActorContext) (toolset_id : string) : M D Toolset :=
  let* found := get_toolset (ctx_tenant_id ctx) toolset_id in
  match found with
  | None => raise (Nexus ToolsetNotFoundError)
  | Some t => ret t
  end.

(** [_profile] *)
Definition toolset_profile (t : Toolset) : M D ToolsetProfile :=
  let* snapshots := match ts_kind t with
                    | KindAllPublished => list_published_snapshots (ts_tenant_id t)
                    | KindExplicit => list_member_snapshots (ts_tenant_id t) (ts_tool_ids t)
                    end in
  ret (profile_of t snapshots).

(** [GetToolset.execute] *)
Definition get_toolset_profile (ctx : ActorContext) (toolset_id : string) : M D ToolsetProfile :=
  with_uow (
    let* found := get_toolset (ctx_tenant_id ctx) toolset_id in
    match found with
    | None => raise (Nexus ToolsetNotFoundError)
    | Some t => toolset_profile t
    end).

(** [CreateToolset.execute] *)
Definition create_toolset (c : CreateToolsetCommand) : M D ToolsetProfile :=
  let* now_ := now in
  let* toolset := on_value_error (λ _, Nexus InvalidArgumentsError) (
    let* id := new_id in
    lift (create_explicit id (ctx_tenant_id (ct_context c)) (ct_slug c) (ct_name c)
            (ct_description c) (ctx_principal_id (ct_context c)) now_ (ct_discovery_mode c))) in
  with_uow (
    let* existing := get_toolset_by_slug (ts_tenant_id toolset) (ts_slug toolset) in
    lift (raise_if (negb (is_none existing)) (Nexus ToolsetConflictError)) ;;*
    on_value_error (λ _, Nexus ToolsetConflictError) (
      add_toolset (ts_tenant_id toolset) toolset ;;*
      commit)) ;;*
  get_toolset_profile (ct_context c) (ts_id toolset).

(** The body shared by the commands that change one toolset: the try block,
    then the profile and the commit. *)
Definition mutate_toolset (tenant_id : string) (mutation : datetime → res Toolset) :
    M D ToolsetProfile :=
  let* updated := on_value_error map_mutation_error (
    let* at_ := now in
    let* updated := lift (mutation at_) in
    save_toolset tenant_id updated ;;*
    ret updated) in
  let* profile := toolset_profile updated in
  commit ;;*
  ret profile.

(** [UpdateToolset.execute] *)
Definition update_toolset (c : UpdateToolsetCommand) : M D ToolsetProfile :=
  with_uow (
    let* toolset := get_locked (ut_context c) (ut_toolset_id c) in
    mutate_toolset (ctx_tenant_id (ut_context c)) (λ at_,
      update_profile toolset (ut_expected_revision c) (ut_name c) (ut_description c)
        (ut_discovery_mode c) at_)).

(** [ReplaceToolsetMembers.execute] *)
Definition replace_toolset_members (c : ReplaceToolsetMembersCommand) : M D ToolsetProfile :=
  with_uow (
    let* toolset := get_locked (rm_context c) (rm_toolset_id c) in
    lift (require_expected_revision toolset (rm_expected_revision c)) ;;*
    let requested := sorted_set (rm_tool_ids c) in
    let* snapshots := list_member_snapshots (ctx_tenant_id (rm_context c)) requested in
    lift (raise_if (negb (bool_decide (sorted_set (map cs_tool_id snapshots) = requested)))
            (Nexus InvalidToolsetMembersError)) ;;*
    (if bool_decide (ts_status toolset = TsActive)
     then lift (require_available snapshots None) else ret tt) ;;*
    mutate_toolset (ctx_tenant_id (rm_context c)) (λ at_,
      replace_members toolset (rm_expected_revision c) requested
        (ctx_principal_id (rm_context c)) at_)).

(** [ReplaceToolsetGrants.execute] *)
Definition replace_toolset_grants (c : ReplaceToolsetGrantsCommand) : M D ToolsetProfile :=
  with_uow (
    let* toolset := get_locked (rg_context c) (rg_toolset_id c) in
    mutate_toolset (ctx_tenant_id (rg_context c)) (λ at_,
      replace_grants toolset (rg_expected_revision c) (rg_principal_ids c)
        (ctx_principal_id (rg_context c)) at_)).

(** [ActivateToolset.execute] *)
Definition activate_toolset (c : ChangeToolsetStatusCommand) : M D ToolsetProfile :=
  with_uow (
    let* toolset := get_locked (cts_context c) (cts_toolset_id c) in
    lift (require_expected_revision toolset (cts_expected_revision c)) ;;*
    let* snapshots := list_member_snapshots (ctx_tenant_id (cts_context c)) (ts_tool_ids toolset) in
    lift (require_available snapshots (Some (length (ts_tool_ids toolset)))) ;;*
    mutate_toolset (ctx_tenant_id (cts_context c)) (λ at_,
      activate toolset (cts_expected_revision c) at_)).

(** [DisableToolset.execute] *)
Definition disable_toolset (c : ChangeToolsetStatusCommand) : M D ToolsetProfile :=
  with_uow (
    let* toolset := get_locked (cts_context c) (cts_toolset_id c) in
    mutate_toolset (ctx_tenant_id (cts_context c)) (λ at_,
      disable toolset (cts_expected_revision c) at_)).

(** The first transaction of [EnsureAllPublishedToolset.execute]: [None] when
    the toolset is there already or another instance won the race. *)
Definition create_system_toolset (tenant_id : string) (principal_ids : list string) :
    M D (option Toolset) :=
  let* found := get_all_published tenant_id in
  match found with
  | Some _ => ret None
  | None =>
      let* id := new_id in
      let* at_ := now in
      let* toolset := lift (create_all_published id tenant_id "system" at_) in
      let* toolset := if is_empty principal_ids then ret toolset else
        let* at_ := now in
        lift (replace_grants toolset (ts_revision toolset) principal_ids "system" at_) in
      try_except (
        add_toolset tenant_id toolset ;;*
        commit ;;*
        ret (Some toolset))
        (λ x, if is_value_error x then rollback ;;* ret None else raise x)
  end.

(** The second one: merge the grants into the existing toolset. *)
Definition merge_system_grants (tenant_id : string) (principal_ids : list string) : M D Toolset :=
  let* found := get_all_published tenant_id in
  match found with
  | None => raise (Nexus ToolsetConflictError)
  | Some toolset =>
      let desired := sorted_set (ts_principal_ids toolset ++ principal_ids) in
      let* at_ := now in
      let* updated := lift (replace_grants toolset (ts_revision toolset) desired "system" at_) in
      save_toolset tenant_id updated ;;*
      commit ;;*
      ret updated
  end.

(** [EnsureAllPublishedToolset.execute] *)
Definition ensure_all_published (tenant_id : string) (principal_ids : list string) : M D Toolset :=
  let* created := with_uow (create_system_toolset tenant_id principal_ids) in
  match created with
  | Some toolset => ret toolset
  | None => with_uow (merge_system_grants tenant_id principal_ids)
  end.

(** [str.casefold] below U+0100: [str.lower], and U+00DF is two letters.  The
    micro sign U+00B5 stays itself; Python maps it to U+03BC, which no other
    character of the model folds to, so comparisons agree. *)
Fixpoint casefold (s : string) : string :=
  match s with
  | EmptyString => EmptyString
  | String c s' => (if (code c =? 223)%N then "ss" else String (lower_char c) "") +:+ casefold s'
  end.

(** [sequence[start:stop]] *)
Definition slice_bound (len i : Z) : nat :=
  Z.to_nat (Z.min len (if (i <? 0)%Z then Z.max 0 (len + i) else i)).
Definition py_slice {A} (start stop : Z) (l : list A) : list A :=
  let len := Z.of_nat (length l) in
  let i := slice_bound len start in
  take (slice_bound len stop - i) (drop i l).

Definition matches_option {A} `{EqDecision A} (wanted : option A) (x : A) : bool :=
  match wanted with Some y => bool_decide (x = y) | None => true end.

Definition list_filter_matches (q : ListToolsetsQuery) (t : Toolset) : bool :=
  let text := match lq_text q with
              | Some s => if str_empty s then None else Some (strip (casefold s))
              | None => None
              end in
  match text with
  | Some s => contains s (casefold (ts_name t +:+ " " +:+ ts_slug t))
  | None => true
  end
  && matches_option (lq_status q) (ts_status t) && matches_option (lq_kind q) (ts_kind t)
  && matches_option (lq_discovery_mode q) (ts_discovery_mode t).

Fixpoint toolset_profiles (window : list Toolset) : M D (list ToolsetProfile) :=
  match window with
  | [] => ret []
  | t :: rest =>
      let* p := toolset_profile t in
      let* ps := toolset_profiles rest in
      ret (p :: ps)
  end.

(** [ListToolsets.execute] *)
Definition list_toolsets (q : ListToolsetsQuery) : M D (page ToolsetProfile) :=
  with_uow (
    let* candidates := list_toolsets_by_tenant (ctx_tenant_id (lq_context q)) in
    let selected := filter (λ t, list_filter_matches q t = true) candidates in
    let window := py_slice (lq_offset q) (lq_offset q + lq_limit q) selected in
    let* profiles := toolset_profiles window in
    ret (mkPage profiles (lq_offset q) (lq_limit q) (Z.of_nat (length selected)))).
End UseCases.

(** ** The store of [InMemoryToolsetUnitOfWork] *)

Record toolset_store := mkToolsetStore {
  tst_toolsets : dict Toolset;
  tst_catalog : list ToolsetCatalogSnapshot }.

#[export, refine] Instance toolset_store_table : Table toolset_store Toolset := {
  table := tst_toolsets;
  set_table t d := mkToolsetStore t (tst_catalog d) }.
Proof. all: intros; try done; by destruct d. Defined.

#[export] Instance toolset_store_catalog : CatalogSnapshots toolset_store := tst_catalog.

(** ** The stored toolsets *)

Definition same_slug (a b : Toolset) : Prop :=
  ts_tenant_id a = ts_tenant_id b ∧ ts_slug a = ts_slug b.
Definition both_all_published (a b : Toolset) : Prop :=
  ts_tenant_id a = ts_tenant_id b ∧ ts_kind a = KindAllPublished ∧ ts_kind b = KindAllPublished.

#[export] Instance same_slug_sym : Symmetric same_slug.
Proof. by intros a b [? ?]. Qed.
#[export] Instance both_all_published_sym : Symmetric both_all_published.
Proof. by intros a b (? & ? & ?). Qed.

Record toolsets_ok (t : dict Toolset) : Prop := {
  toolsets_keyed : keyed ts_id t;
  toolsets_slugs : unique_by ts_id same_slug t;
  toolsets_system : unique_by ts_id both_all_published t;
  toolsets_facts : ∀ k x, dget k t = Some x → toolset_facts x }.

Lemma toolsets_ok_nil : toolsets_ok [].
Proof. split; [apply keyed_nil|unfold unique_by|unfold unique_by|]; intros; discriminate. Qed.

(** What one transaction may do to the table. *)
Inductive evolves (t : dict Toolset) : dict Toolset → Prop :=
| evolves_same : evolves t t
| evolves_next x x' :
    dget (ts_id x) t = Some x → advances x x' → evolves t (dset (ts_id x) x' t)
| evolves_add x :
    dget (ts_id x) t = None → toolset_facts x →
    find_toolset_by_slug (ts_tenant_id x) (ts_slug x) t = None →
    (ts_kind x = KindAllPublished → find_all_published (ts_tenant_id x) t = None) →
    evolves t (dset (ts_id x) x t).

(** Replacing a stored toolset by one of the same identity. *)
Lemma toolsets_ok_replace t x x' :
  toolsets_ok t → dget (ts_id x) t = Some x → same_toolset x x' → toolset_facts x' →
  toolsets_ok (dset (ts_id x) x' t).
Proof.
  intros [Hk Hs Ha Hf] Hx (Hid & Ht & Hsl & Hki & _) Hx'. rewrite <-Hid.
  split; [by apply keyed_dset| | |by apply dset_all].
  - apply unique_by_dset; [done|apply _|done|]. intros k w Hw [? ?]. rewrite Hid. symmetry.
    apply (Hs _ _ _ _ Hx Hw). split; congruence.
  - apply unique_by_dset; [done|apply _|done|]. intros k w Hw (? & ? & ?). rewrite Hid. symmetry.
    apply (Ha _ _ _ _ Hx Hw). split_and!; congruence.
Qed.

Lemma evolves_ok t t' : toolsets_ok t → evolves t t' → toolsets_ok t'.
Proof.
  intros Hok [|x x' Hx (Hx' & Hsame & _)|x Hx Hfx Hn1 Hn2]; [done|by apply toolsets_ok_replace|].
  destruct Hok as [Hk Hs Ha Hf]. split; [by apply keyed_dset| | |by apply dset_all].
  - apply unique_by_dset; [done|apply _|done|]. intros k w Hw [E1 E2].
    pose proof (dfind_None ts_id _ _ Hk Hn1 _ _ Hw) as Hno. simpl in Hno.
    by rewrite E1, E2, !bool_decide_eq_true_2 in Hno.
  - apply unique_by_dset; [done|apply _|done|]. intros k w Hw (E1 & E2 & E3).
    pose proof (dfind_None ts_id _ _ Hk (Hn2 E2) _ _ Hw) as Hno. simpl in Hno.
    by rewrite E1, E3, !bool_decide_eq_true_2 in Hno.
Qed.

Section Runs.
Context `{Ports}.
Implicit Types (d : toolset_store) (e : env).

(** Writing one toolset of the working copy. *)
Definition put (x : Toolset) d : toolset_store :=
  mkToolsetStore (dset (ts_id x) x (tst_toolsets d)) (tst_catalog d).

Lemma requires_update_Ok current x b :
  requires_persistence_update current x = Ok b →
  same_toolset current x ∧
  if b then ts_revision x = (ts_revision current + 1)%Z else x = current.
Proof.
  unfold requires_persistence_update. intros H'. steps H'. apply raise_if_Ok in G.
  py_bools. split; [unfold same_toolset; split_and!; congruence|].
  destruct (bool_decide (x = current)) eqn:E.
  - injection H' as <-. by apply bool_decide_eq_true in E.
  - steps H'. injection H' as <-. apply raise_if_Ok, negb_false_iff, Z.eqb_eq in G. done.
Qed.

Lemma save_toolset_run tenant x c d e r s' :
  save_toolset tenant x (St c (Some d) e) = (r, s') →
  (∃ y, r = Raise y ∧ is_value_error y = true ∧ s' = St c (Some d) e) ∨
  (r = Ok tt ∧ ∃ current, dget (ts_id x) (tst_toolsets d) = Some current ∧
     ts_tenant_id x = tenant ∧ same_toolset current x ∧
     (x = current ∧ s' = St c (Some d) e ∨
      ts_revision x = (ts_revision current + 1)%Z ∧ s' = St c (Some (put x d)) e)).
Proof.
  unfold save_toolset. unfold bind at 1, lift. cbn [fst snd].
  destruct (require_matching_tenant tenant (ts_tenant_id x)) as [[]|y] eqn:Ht.
  2: { intros [= <- <-]. left. exists y. split_and!; try done.
       unfold require_matching_tenant in Ht. destruct (negb _); [by injection Ht as <-|done]. }
  apply require_matching_tenant_Ok in Ht. unfold bind at 1, read_table. cbn.
  destruct (in_tenant _ _ _) as [current|] eqn:Hc; [|intros [= <- <-]; eauto].
  apply in_tenant_Some in Hc as [Hc _]. unfold bind at 1, lift.
  destruct (requires_persistence_update current x) as [b|y] eqn:Hu.
  2: { intros [= <- <-]. left. exists y. split_and!; try done. revert Hu.
       unfold requires_persistence_update, raise_if, rbind. repeat case_match; naive_solver. }
  apply requires_update_Ok in Hu as [Hs Hu]. destruct b.
  - unfold get_toolset_by_slug, get_all_published, raise_if. unfold bind, read_table, ret, lift. cbn.
    repeat (match goal with |- context [match (if ?b then _ else _) with _ => _ end] => destruct b end;
      [intros [= <- <-]; by eauto|]; cbn).
    intros [= <- <-]. right. split; [done|]. exists current. by split_and!; auto.
  - intros [= <- <-]. right. split; [done|]. exists current. by split_and!; auto.
Qed.

Lemma toolset_profile_run t c d e r s' :
  toolset_profile t (St c (Some d) e) = (r, s') →
  s' = St c (Some d) e ∧
  r = Ok (profile_of t (match ts_kind t with
                        | KindAllPublished => published_snapshots_of (tst_catalog d) (ts_tenant_id t)
                        | KindExplicit => member_snapshots_of (tst_catalog d) (ts_tenant_id t) (ts_tool_ids t)
                        end)).
Proof. unfold toolset_profile, bind. by destruct (ts_kind t); intros [= <- <-]. Qed.

(** A mutation commits the next revision it computed, or nothing. *)
Lemma mutate_toolset_run tenant mutation t c d e r s' :
  dget (ts_id t) (tst_toolsets d) = Some t →
  (∀ at_ t', mutation at_ = Ok t' → moves t t') →
  mutate_toolset tenant mutation (St c (Some d) e) = (r, s') →
  ∃ e', (∃ y, r = Raise y ∧ s' = St c (Some d) e') ∨
    (∃ p t', r = Ok p ∧ mutation (clock_now (ticks e)) = Ok t' ∧ moves t t' ∧
       ts_tenant_id t' = tenant ∧ tp_revision p = ts_revision t' ∧
       s' = St (put t' d) (Some (put t' d)) e').
Proof.
  intros Ht Hmoves. unfold mutate_toolset, on_value_error. unfold bind at 1, try_except.
  unfold bind at 1, now. cbn [fst snd store working environment].
  unfold bind at 1, lift. set (e1 := Env _ _ _).
  destruct (mutation (clock_now (ticks e))) as [t'|y] eqn:Hm.
  2: { destruct (is_value_error y); intros [= <- <-]; exists e1; eauto. }
  apply Hmoves in Hm as Hmv. unfold bind at 1.
  destruct (save_toolset tenant t' _) as [rs s1] eqn:Hs.
  apply save_toolset_run in Hs as [(y & -> & _ & ->)|(-> & cur & Hcur & Htn & Hsame & Hs)].
  { destruct (is_value_error y); intros [= <- <-]; exists e1; eauto. }
  assert (Hid : ts_id t' = ts_id t) by (destruct Hmv as [->|(_ & (? & _) & _)]; done).
  rewrite Hid, Ht in Hcur. injection Hcur as <-.
  assert (Hput : s1 = St c (Some (put t' d)) e1).
  { destruct Hs as [[-> ->]|[_ ->]]; [|done]. unfold put. rewrite dset_same by done. by destruct d. }
  rewrite Hput. unfold ret at 1. cbn [fst snd]. unfold bind at 1.
  destruct (toolset_profile t' _) as [rp s2] eqn:Hp. apply toolset_profile_run in Hp as [-> ->].
  unfold bind, commit, ret. intros [= <- <-]. exists e1. right. eexists _, t'.
  split_and!; try done.
Qed.
End Runs.

(** The other outcomes are typed errors. *)
Lemma mutate_toolset_errors `{Ports} tenant mutation c (d : toolset_store) e y s' :
  (∀ at_ x, mutation at_ = Raise x → is_value_error x = true) →
  mutate_toolset tenant mutation (St c (Some d) e) = (Raise y, s') → ∃ n, y = Nexus n.
Proof.
  intros Hv. unfold mutate_toolset, on_value_error. unfold bind at 1, try_except.
  unfold bind at 1, now. cbn [fst snd store working environment].
  unfold bind at 1, lift. set (e1 := Env _ _ _).
  assert (Hmap : ∀ x, ∃ n, map_mutation_error x = Nexus n) by (intros []; eexists; reflexivity).
  destruct (mutation (clock_now (ticks e))) as [t'|x] eqn:Hm.
  2: { rewrite (Hv _ _ Hm). intros [= <- <-]. apply Hmap. }
  unfold bind at 1. destruct (save_toolset tenant t' _) as [rs s1] eqn:Hs.
  apply save_toolset_run in Hs as [(x & -> & Hx & ->)|(-> & cur & _ & _ & _ & Hs)].
  { rewrite Hx. intros [= <- <-]. apply Hmap. }
  assert (Hw : ∃ d1, s1 = St c (Some d1) e1) by (destruct Hs as [[_ ->]|[_ ->]]; eauto).
  destruct Hw as [d1 ->]. unfold ret at 1. cbn [fst snd]. unfold bind at 1.
  destruct (toolset_profile t' _) as [rp s2] eqn:Hp. by apply toolset_profile_run in Hp as [-> ->].
Qed.

(** ** The commands that change one toolset *)

Inductive toolset_command :=
| CmdUpdate (c : UpdateToolsetCommand)
| CmdMembers (c : ReplaceToolsetMembersCommand)
| CmdGrants (c : ReplaceToolsetGrantsCommand)
| CmdActivate (c : ChangeToolsetStatusCommand)
| CmdDisable (c : ChangeToolsetStatusCommand).

Definition command_context (c : toolset_command) : ActorContext :=
  match c with
  | CmdUpdate c => ut_context c | CmdMembers c => rm_context c | CmdGrants c => rg_context c
  | CmdActivate c | CmdDisable c => cts_context c
  end.
Definition command_toolset_id (c : toolset_command) : string :=
  match c with
  | CmdUpdate c => ut_toolset_id c | CmdMembers c => rm_toolset_id c | CmdGrants c => rg_toolset_id c
  | CmdActivate c | CmdDisable c => cts_toolset_id c
  end.
Definition command_expected_revision (c : toolset_command) : Z :=
  match c with
  | CmdUpdate c => ut_expected_revision c | CmdMembers c => rm_expected_revision c
  | CmdGrants c => rg_expected_revision c
  | CmdActivate c | CmdDisable c => cts_expected_revision c
  end.

(** What each command asks of the aggregate. *)
Definition command_mutation (c : toolset_command) (t : Toolset) (at_ : datetime) : res Toolset :=
  match c with
  | CmdUpdate c => update_profile t (ut_expected_revision c) (ut_name c) (ut_description c)
                     (ut_discovery_mode c) at_
  | CmdMembers c => replace_members t (rm_expected_revision c) (sorted_set (rm_tool_ids c))
                      (ctx_principal_id (rm_context c)) at_
  | CmdGrants c => replace_grants t (rg_expected_revision c) (rg_principal_ids c)
                     (ctx_principal_id (rg_context c)) at_
  | CmdActivate c => activate t (cts_expected_revision c) at_
  | CmdDisable c => disable t (cts_expected_revision c) at_
  end.

Definition run_command `{Ports} (c : toolset_command) : M toolset_store ToolsetProfile :=
  match c with
  | CmdUpdate c => update_toolset c
  | CmdMembers c => replace_toolset_members c
  | CmdGrants c => replace_toolset_grants c
  | CmdActivate c => activate_toolset c
  | CmdDisable c => disable_toolset c
  end.

(** What a command demands of the catalog before it changes the toolset. *)
Definition command_guard (c : toolset_command) (t : Toolset) (snapshots : list ToolsetCatalogSnapshot) :
    Prop :=
  match c with
  | CmdMembers c =>
      let found := member_snapshots_of snapshots (ctx_tenant_id (rm_context c))
                     (sorted_set (rm_tool_ids c)) in
      (∀ id, id ∈ rm_tool_ids c → id ∈ map cs_tool_id found) ∧
      (ts_status t = TsActive → Forall (λ s, cs_availability s = MemberAvailable) found)
  | CmdActivate c =>
      let found := member_snapshots_of snapshots (ctx_tenant_id (cts_context c)) (ts_tool_ids t) in
      length found = length (ts_tool_ids t) ∧ Forall (λ s, cs_availability s = MemberAvailable) found
  | _ => True
  end.

Lemma command_mutation_moves c t at_ t' :
  toolset_facts t → command_mutation c t at_ = Ok t' →
  command_expected_revision c = ts_revision t ∧ moves t t'.
Proof.
  intros Hf. destruct c; simpl; intros Hm.
  - by apply update_profile_Ok in Hm as (-> & ? & _).
  - by apply replace_members_Ok in Hm as (-> & ? & _).
  - by apply replace_grants_Ok in Hm as (-> & ? & _).
  - by apply activate_Ok in Hm as (-> & ? & _).
  - by apply disable_Ok in Hm as (-> & ? & _).
Qed.

Lemma require_available_Ok snapshots n u :
  require_available snapshots n = Ok u →
  (∀ k, n = Some k → length snapshots = k) ∧
  Forall (λ s, cs_availability s = MemberAvailable) snapshots.
Proof.
  unfold require_available. intros H'. steps H'. apply raise_if_Ok in G, H'. split.
  - intros k ->. apply negb_false_iff in G. by apply Nat.eqb_eq in G.
  - rewrite Forall_forall. intros s Hs. rewrite <-not_true_iff_false, existsb_exists in H'.
    destruct (decide (cs_availability s = MemberAvailable)); [done|]. exfalso. apply H'.
    exists s. rewrite <-list_elem_of_In. split; [done|]. by rewrite bool_decide_eq_false_2.
Qed.


Lemma require_available_errors snapshots n y :
  require_available snapshots n = Raise y → ∃ x, y = Nexus x.
Proof. unfold require_available, raise_if, rbind. repeat case_match; naive_solver. Qed.

(** ** Errors of the commands *)

(** A pure call that fails only with [ValueError]s, which the use cases turn
    into typed errors. *)
Definition value_errors {A} (r : res A) : Prop := ∀ x, r = Raise x → is_value_error x = true.

Lemma value_errors_Ok {A} (a : A) : value_errors (Ok a).
Proof. done. Qed.
Lemma value_errors_raise_if b x : is_value_error x = true → value_errors (raise_if b x).
Proof. intros Hx y. destruct b; [by intros [= <-]|done]. Qed.
Lemma value_errors_bind {A B} (r : res A) (k : A → res B) :
  value_errors r → (∀ a, r = Ok a → value_errors (k a)) → value_errors (rbind r k).
Proof. intros Hr Hk y. destruct r as [a|x]; simpl; [by apply Hk|intros [= <-]; by apply Hr]. Qed.
Lemma value_errors_non_blank fields : value_errors (require_non_blank fields).
Proof.
  induction fields as [|[n v] l IH]; simpl; [done|]. destruct (blank v); [|done]. by intros y [= <-].
Qed.
Lemma value_errors_digest j : value_errors (canonical_json_digest j).
Proof. unfold canonical_json_digest. case_match; [done|by intros y [= <-]]. Qed.
Lemma value_errors_dt_lt a b : dt_aware a = true → dt_aware b = true → value_errors (dt_lt a b).
Proof. intros Ha Hb. unfold dt_lt, dt_ltb. by rewrite Ha, Hb. Qed.

Create HintDb value_errors discriminated.
#[export] Hint Resolve value_errors_Ok value_errors_non_blank value_errors_digest : value_errors.

Ltac value_errors_solve :=
  repeat first
    [ progress intros
    | solve [eauto 2 with value_errors]
    | apply value_errors_raise_if; reflexivity
    | apply value_errors_bind
    | apply value_errors_dt_lt; by eapply require_aware_Ok
    | progress case_match ].

Lemma value_errors_entries {A} belongs (key : A → string) m1 m2 seen l :
  value_errors (validate_entries belongs key (ValueError m1) (ValueError m2) seen l).
Proof.
  revert seen. induction l as [|x l IH]; intros seen; simpl; [done|]. by value_errors_solve.
Qed.

Lemma value_errors_membership kind ids : value_errors (calculate_membership_digest kind ids).
Proof. unfold calculate_membership_digest, normalized_ids. value_errors_solve. Qed.
#[export] Hint Resolve value_errors_membership : value_errors.

Lemma value_errors_new_toolset t : value_errors (new_toolset t).
Proof.
  unfold new_toolset, require_digest, validate_members, validate_grants.
  value_errors_solve; try apply value_errors_entries.
Qed.
#[export] Hint Resolve value_errors_new_toolset : value_errors.

Lemma value_errors_merge {A} (key : A → string) make existing wanted :
  (∀ k, value_errors (make k)) → value_errors (merge_entries key make existing wanted).
Proof. intros Hm. induction wanted as [|k wanted IH]; simpl; value_errors_solve. Qed.

Lemma value_errors_mutation_time t at_ :
  toolset_facts t → value_errors (require_mutation_time t at_).
Proof.
  intros Hf. unfold require_mutation_time. apply value_errors_bind; [apply value_errors_raise_if; done|].
  intros [] Ha. apply require_aware_Ok in Ha. apply value_errors_bind; [|value_errors_solve].
  apply value_errors_dt_lt; [done|apply (tf_times _ Hf)].
Qed.

Lemma value_errors_command c t at_ : toolset_facts t → value_errors (command_mutation c t at_).
Proof.
  intros Hf. destruct c; cbn [command_mutation];
    unfold update_profile, replace_members, replace_grants, activate, disable, require_revision,
      normalized_ids, next_revision;
    repeat first
      [ progress intros
      | solve [eauto 2 with value_errors]
      | apply value_errors_raise_if; reflexivity
      | apply value_errors_mutation_time; exact Hf
      | apply value_errors_bind
      | apply value_errors_merge; unfold new_member, new_grant, require_aware
      | progress case_match ].
Qed.

Section CommandRuns.
Context `{Ports}.
Implicit Types (d : toolset_store) (e : env).

Lemma get_locked_run ctx id c d e r s' :
  keyed ts_id (tst_toolsets d) → get_locked ctx id (St c (Some d) e) = (r, s') →
  s' = St c (Some d) e ∧
  (r = Raise (Nexus ToolsetNotFoundError) ∨
   ∃ t, r = Ok t ∧ dget (ts_id t) (tst_toolsets d) = Some t ∧ ts_id t = id ∧
        ts_tenant_id t = ctx_tenant_id ctx).
Proof.
  intros Hk. unfold get_locked, get_toolset, bind, read_table, ret, raise. cbn.
  destruct (in_tenant _ _ _) as [t|] eqn:Ht; intros [= <- <-]; split; auto. right.
  apply in_tenant_Some in Ht as [Ht Htn]. pose proof (keyed_get _ _ _ _ Hk Ht) as <-. eauto.
Qed.

(** Every outcome of every command. *)
Definition command_outcome (c : toolset_command) d e (r : res ToolsetProfile) (s' : st toolset_store) :
    Prop :=
  ∃ e', (∃ n, r = Raise (Nexus n) ∧ s' = St d None e') ∨
    (∃ p t t', r = Ok p ∧ dget (ts_id t) (tst_toolsets d) = Some t ∧
       ts_id t = command_toolset_id c ∧ ts_tenant_id t = ctx_tenant_id (command_context c) ∧
       ts_revision t = command_expected_revision c ∧
       command_guard c t (tst_catalog d) ∧
       command_mutation c t (clock_now (ticks e)) = Ok t' ∧ moves t t' ∧
       tp_revision p = ts_revision t' ∧ s' = St (put t' d) None e').

Lemma command_body c (guard : Toolset → M toolset_store ()) d e r s' :
  toolsets_ok (tst_toolsets d) →
  (∀ t rg sg, guard t (St d (Some d) e) = (rg, sg) →
     sg = St d (Some d) e ∧
     match rg with
     | Ok _ => command_guard c t (tst_catalog d)
     | Raise y => ∃ n, y = Nexus n
     end) →
  with_uow (
    let* t := get_locked (command_context c) (command_toolset_id c) in
    guard t ;;*
    mutate_toolset (ctx_tenant_id (command_context c)) (command_mutation c t))
    (St d None e) = (r, s') →
  command_outcome c d e r s'.
Proof.
  intros Hok Hguard. unfold with_uow. cbn [store environment]. unfold bind at 1.
  destruct (get_locked _ _ _) as [rl sl] eqn:Hl.
  apply get_locked_run in Hl as [-> [->|(t & -> & Ht & Hid & Htn)]]; [cbn; intros [= <- <-]; exists e; eauto| |apply Hok].
  unfold bind at 1. destruct (guard t _) as [rg sg] eqn:Hg. apply Hguard in Hg as [-> Hg].
  destruct rg as [[]|y]; [|destruct Hg as [n ->]; cbn; intros [= <- <-]; exists e; eauto].
  destruct (mutate_toolset _ _ _) as [rm sm] eqn:Hm. cbn. intros [= <- <-].
  destruct rm as [p0|y].
  2: { pose proof Hm as Hm'. eapply mutate_toolset_errors in Hm as [n ->].
       - eapply mutate_toolset_run in Hm' as (e' & [(y & [= <-] & ->)|(p & t' & [=] & _)]);
           [exists e'; eauto|exact Ht|].
         intros at_ t' Hmut. by apply (command_mutation_moves c t at_ t' (toolsets_facts _ Hok _ _ Ht)).
       - intros at_ x. apply value_errors_command, (toolsets_facts _ Hok _ _ Ht). }
  eapply mutate_toolset_run in Hm as (e' & [(y & ? & ->)|(p & t' & [= ->] & Hmut & Hmv & _ & Hp & ->)]);
    [done| |exact Ht|].
  - exists e'. right. exists p, t, t'. destruct (command_mutation_moves _ _ _ _
      (toolsets_facts _ Hok _ _ Ht) Hmut) as [Hr _]. by split_and!.
  - intros at_ t' Hmut. by apply (command_mutation_moves c t at_ t' (toolsets_facts _ Hok _ _ Ht)).
Qed.

(** Rebracketing, at a state. *)
Lemma bind_ext {A B} (m : M toolset_store A) (f g : A → M toolset_store B) s :
  (∀ a s', f a s' = g a s') → bind m f s = bind m g s.
Proof. intros E. unfold bind. destruct (m s) as [[a|x] s']; [apply E|done]. Qed.
Lemma bind_assoc {A B C} (m : M toolset_store A) (f : A → M toolset_store B)
    (g : B → M toolset_store C) s :
  bind (bind m f) g s = bind m (λ a, bind (f a) g) s.
Proof. unfold bind. by destruct (m s) as [[]]. Qed.
Lemma with_uow_ext {A} (m m' : M toolset_store A) s :
  (∀ s', m s' = m' s') → with_uow m s = with_uow m' s.
Proof. intros E. unfold with_uow. by rewrite E. Qed.

Definition members_guard (c : ReplaceToolsetMembersCommand) (t : Toolset) : M toolset_store () :=
  lift (require_expected_revision t (rm_expected_revision c)) ;;*
  let* snapshots := list_member_snapshots (ctx_tenant_id (rm_context c)) (sorted_set (rm_tool_ids c)) in
  lift (raise_if (negb (bool_decide (sorted_set (map cs_tool_id snapshots) = sorted_set (rm_tool_ids c))))
          (Nexus InvalidToolsetMembersError)) ;;*
  if bool_decide (ts_status t = TsActive) then lift (require_available snapshots None) else ret tt.

Definition activate_guard (c : ChangeToolsetStatusCommand) (t : Toolset) : M toolset_store () :=
  lift (require_expected_revision t (cts_expected_revision c)) ;;*
  let* snapshots := list_member_snapshots (ctx_tenant_id (cts_context c)) (ts_tool_ids t) in
  lift (require_available snapshots (Some (length (ts_tool_ids t)))).

Lemma members_guard_run c t d e rg sg :
  members_guard c t (St d (Some d) e) = (rg, sg) →
  sg = St d (Some d) e ∧
  match rg with
  | Ok _ => command_guard (CmdMembers c) t (tst_catalog d)
  | Raise y => ∃ n, y = Nexus n
  end.
Proof.
  unfold members_guard, list_member_snapshots, bind, lift, ret. cbn -[member_snapshots_of require_available].
  destruct (require_expected_revision _ _) as [[]|y] eqn:Hrev.
  2: { intros [= <- <-]. split; [done|]. revert Hrev. unfold require_expected_revision.
       destruct (negb _); [|done]. intros [= <-]. eauto. }
  set (found := member_snapshots_of _ _ _).
  destruct (raise_if _ _) as [[]|y] eqn:Hset.
  2: { intros [= <- <-]. split; [done|]. revert Hset. destruct (negb _); [|done]. intros [= <-]. eauto. }
  apply raise_if_Ok, negb_false_iff, bool_decide_eq_true in Hset.
  assert (Hin : ∀ id, id ∈ rm_tool_ids c → id ∈ map cs_tool_id found).
  { intros id Hid. apply elem_of_sorted_set. rewrite Hset. by apply elem_of_sorted_set. }
  case_bool_decide as Ha; intros [= <- <-]; (split; [done|]); [|by split].
  destruct (require_available found None) as [u|y] eqn:Hok; [|by eapply require_available_errors].
  split; [done|]. intros _. by apply require_available_Ok in Hok as [_ ?].
Qed.

Lemma activate_guard_run c t d e rg sg :
  activate_guard c t (St d (Some d) e) = (rg, sg) →
  sg = St d (Some d) e ∧
  match rg with
  | Ok _ => command_guard (CmdActivate c) t (tst_catalog d)
  | Raise y => ∃ n, y = Nexus n
  end.
Proof.
  unfold activate_guard, list_member_snapshots, bind, lift. cbn -[member_snapshots_of require_available].
  destruct (require_expected_revision _ _) as [[]|y] eqn:Hrev.
  2: { intros [= <- <-]. split; [done|]. revert Hrev. unfold require_expected_revision.
       destruct (negb _); [|done]. intros [= <-]. eauto. }
  intros [= <- <-]. split; [done|].
  destruct (require_available _ _) as [u|y] eqn:Hok; [|by eapply require_available_errors].
  apply require_available_Ok in Hok as [Hn Hall]. split; [by apply Hn|done].
Qed.

Lemma run_command_outcome c d e r s' :
  toolsets_ok (tst_toolsets d) → run_command c (St d None e) = (r, s') → command_outcome c d e r s'.
Proof.
  intros Hok. destruct c as [c|c|c|c|c].
  - apply (command_body (CmdUpdate c) (λ _, ret tt)); [done|]. by intros t rg sg [= <- <-]; split.
  - intros Hr. apply (command_body (CmdMembers c) (members_guard c)); [done|intros t; apply members_guard_run|].
    rewrite <-Hr. apply with_uow_ext. intros s1. apply bind_ext. intros t s2.
    unfold members_guard. rewrite bind_assoc. apply bind_ext. intros _ s3.
    rewrite bind_assoc. apply bind_ext. intros sn s4. rewrite bind_assoc. by apply bind_ext.
  - apply (command_body (CmdGrants c) (λ _, ret tt)); [done|]. by intros t rg sg [= <- <-]; split.
  - intros Hr. apply (command_body (CmdActivate c) (activate_guard c)); [done|intros t; apply activate_guard_run|].
    rewrite <-Hr. apply with_uow_ext. intros s1. apply bind_ext. intros t s2.
    unfold activate_guard. rewrite bind_assoc. apply bind_ext. intros _ s3.
    rewrite bind_assoc. by apply bind_ext.
  - apply (command_body (CmdDisable c) (λ _, ret tt)); [done|]. by intros t rg sg [= <- <-]; split.
Qed.

Lemma get_toolset_profile_state ctx id d e r s' :
  get_toolset_profile ctx id (St d None e) = (r, s') → s' = St d None e.
Proof.
  unfold get_toolset_profile, with_uow, get_toolset, bind, read_table, ret, raise. cbn.
  destruct (in_tenant _ _ _) as [t|]; [|by intros [= <- <-]].
  destruct (toolset_profile t _) as [rp sp] eqn:Hp. apply toolset_profile_run in Hp as [-> ->].
  by intros [= <- <-].
Qed.

(** Every outcome of [CreateToolset]. *)
Lemma create_toolset_run c d e r s' :
  create_toolset c (St d None e) = (r, s') →
  ∃ e', s' = St d None e' ∧ is_ok r = false ∨
    ∃ t, dget (ts_id t) (tst_toolsets d) = None ∧ toolset_facts t ∧ ts_kind t = KindExplicit ∧
      ts_tenant_id t = ctx_tenant_id (ct_context c) ∧ ts_slug t = ct_slug c ∧
      find_toolset_by_slug (ts_tenant_id t) (ts_slug t) (tst_toolsets d) = None ∧
      s' = St (put t d) None e'.
Proof.
  unfold create_toolset, on_value_error. intros Hr. unfold bind at 1, now in Hr.
  cbn [fst snd store working environment] in Hr. unfold bind at 1, try_except in Hr.
  unfold bind at 1, new_id, lift in Hr. cbn [fst snd store working environment ticks issued io_log] in Hr.
  set (e1 := Env _ _ _) in Hr.
  destruct (create_explicit _ _ _ _ _ _ _ _) as [t|x] eqn:Hc.
  2: { destruct (is_value_error x); injection Hr as <- <-; exists e1; by left. }
  apply create_explicit_Ok in Hc as (Hf & _ & Htn & Hsl & Hk & _).
  unfold bind at 1 in Hr. destruct (with_uow _ _) as [ru su] eqn:Hu.
  unfold with_uow, add_toolset, get_toolset_by_slug, get_all_published, require_matching_tenant in Hu.
  run_uow Hu; try (exists e1; by left).
  apply get_toolset_profile_state in Hr as ->. exists e1. right. exists t.
  split_and!; try done.
  - by apply dmem_false.
  - by apply not_none_false.
Qed.

(** A well-formed system toolset of the tenant, granted to exactly [ids]. *)
Definition system_toolset (tenant : string) (ids : list string) (t : Toolset) : Prop :=
  ts_kind t = KindAllPublished ∧ ts_tenant_id t = tenant ∧ toolset_facts t ∧
  ∀ id, id ∈ ts_principal_ids t ↔ id ∈ ids.

Lemma created_system_toolset id tenant at_ t :
  create_all_published id tenant "system" at_ = Ok t → system_toolset tenant [] t.
Proof.
  intros Hc. apply create_all_published_Ok in Hc as (Hf & _ & Htn & _ & Hk & _ & _ & _ & Hg).
  split_and!; try done. intros i. unfold ts_principal_ids. by rewrite Hg.
Qed.

Lemma moves_facts t t' : toolset_facts t → moves t t' → toolset_facts t' ∧ same_toolset t t'.
Proof. intros Hf [->|(? & ? & _)]; [by split|by split]. Qed.

Lemma granted_system_toolset tenant old t r ids actor at_ t' :
  system_toolset tenant old t → replace_grants t r ids actor at_ = Ok t' →
  system_toolset tenant ids t' ∧ moves t t'.
Proof.
  intros (Hk & Htn & Hf & _) Hr. apply replace_grants_Ok in Hr as (_ & Hm & Hp & _); [|done].
  split; [|done]. apply moves_facts in Hm as [Hf' (_ & Et & _ & Ek & _)]; [|done].
  split_and!; [congruence|congruence|done|]. intros id. by rewrite Hp, elem_of_sorted_set.
Qed.

(** Every outcome of [EnsureAllPublishedToolset]. *)
Lemma create_system_toolset_run tenant ids d e r s' :
  with_uow (create_system_toolset tenant ids) (St d None e) = (r, s') →
  ∃ e', (s' = St d None e' ∧ (is_ok r = false ∨ r = Ok None)) ∨
    ∃ t, r = Ok (Some t) ∧ s' = St (put t d) None e' ∧ system_toolset tenant ids t ∧
      dget (ts_id t) (tst_toolsets d) = None ∧
      find_toolset_by_slug tenant (ts_slug t) (tst_toolsets d) = None ∧
      find_all_published tenant (tst_toolsets d) = None.
Proof.
  unfold create_system_toolset, add_toolset, get_toolset_by_slug, get_all_published,
    require_matching_tenant. intros Hu.
  run_uow Hu; try (eexists; left; split; [reflexivity|]; auto).
  all: eexists; right; eexists; split; [reflexivity|]; split; [reflexivity|].
  all: repeat match goal with
  | G : create_all_published _ _ _ _ = Ok _ |- _ => apply created_system_toolset in G
  | G : is_empty _ = true |- _ => apply is_empty_true in G as ->
  | G : dmem _ _ = false |- _ => apply dmem_false in G
  | G : negb (is_none _) = false |- _ => apply not_none_false in G
  | Gs : system_toolset _ _ ?a, G : replace_grants ?a _ _ _ _ = Ok _ |- _ =>
      apply (granted_system_toolset _ _ _ _ _ _ _ _ Gs) in G as [G _]; clear Gs
  end.
  all: by split_and!.
Qed.

Lemma merge_system_grants_run tenant ids d e r s' :
  toolsets_ok (tst_toolsets d) →
  with_uow (merge_system_grants tenant ids) (St d None e) = (r, s') →
  ∃ e', (s' = St d None e' ∧ is_ok r = false) ∨
    ∃ t t', r = Ok t' ∧ s' = St (put t' d) None e' ∧ moves t t' ∧
      find_all_published tenant (tst_toolsets d) = Some t ∧
      dget (ts_id t) (tst_toolsets d) = Some t ∧
      system_toolset tenant (ts_principal_ids t ++ ids) t'.
Proof.
  intros Hok. unfold merge_system_grants, get_all_published, with_uow. cbn [store environment].
  unfold bind at 1, bind at 1, read_table, ret. cbn [working table toolset_store_table fst snd].
  destruct (find_all_published tenant _) as [t|] eqn:Ht; [|cbn; intros [= <- <-]; eauto].
  destruct (dfind_Some ts_id _ _ _ (toolsets_keyed _ Hok) Ht) as [Hg Hp].
  apply andb_true_iff in Hp as [Htn%bool_decide_eq_true Hk%bool_decide_eq_true].
  unfold bind at 1, now. cbn [working store environment]. unfold bind at 1, lift.
  set (e1 := Env _ _ _). cbn [fst snd].
  destruct (replace_grants t _ _ _ _) as [t'|x] eqn:Hr; [|cbn; intros [= <- <-]; eauto].
  assert (Hsys : system_toolset tenant (ts_principal_ids t) t).
  { split_and!; try done. by apply (toolsets_facts _ Hok _ _ Hg). }
  destruct (granted_system_toolset _ _ _ _ _ _ _ _ Hsys Hr) as [Hsys' Hm].
  unfold bind at 1. destruct (save_toolset _ _ _) as [rs ss] eqn:Hs.
  apply save_toolset_run in Hs as [(y & -> & _ & ->)|(-> & cur & Hcur & _ & _ & Hs)];
    [cbn; intros [= <- <-]; eauto|].
  assert (Hid : ts_id t' = ts_id t) by (destruct Hm as [->|(_ & (? & _) & _)]; done).
  rewrite Hid, Hg in Hcur. injection Hcur as <-.
  assert (Hput : ss = St d (Some (put t' d)) e1).
  { destruct Hs as [[-> ->]|[_ ->]]; [|done]. unfold put. rewrite dset_same by done. by destruct d. }
  rewrite Hput. unfold bind, commit. cbn. intros [= <- <-]. exists e1. right. exists t, t'.
  split_and!; try done. destruct Hsys' as (? & ? & ? & Hin). split_and!; try done.
  intros id. by rewrite Hin, elem_of_sorted_set.
Qed.

Lemma ensure_all_published_run tenant ids d e r s' :
  toolsets_ok (tst_toolsets d) →
  ensure_all_published tenant ids (St d None e) = (r, s') →
  ∃ e', (s' = St d None e' ∧ is_ok r = false) ∨
    ∃ t, r = Ok t ∧ s' = St (put t d) None e' ∧
      evolves (tst_toolsets d) (tst_toolsets (put t d)) ∧
      system_toolset tenant
        (from_option ts_principal_ids [] (find_all_published tenant (tst_toolsets d)) ++ ids) t ∧
      (∀ old, find_all_published tenant (tst_toolsets d) = Some old → moves old t).
Proof.
  intros Hok. unfold ensure_all_published. unfold bind at 1.
  destruct (with_uow (create_system_toolset _ _) _) as [ru su] eqn:Hu.
  apply create_system_toolset_run in Hu as (e1 & [[-> Hu]|(t & -> & -> & Hsys & Hn & Hs & Ha)]).
  - destruct ru as [[t|]|x]; [by destruct Hu| |intros [= <- <-]; eauto].
    intros Hm. apply merge_system_grants_run in Hm as (e2 & [Hm|(t & t' & -> & -> & Hmv & Hf & Hg & Hsys)]);
      [exists e2; by left| |done].
    exists e2. right. exists t'. rewrite Hf. split_and!; try done; [|by intros old [= <-]].
    assert (Hid : ts_id t' = ts_id t) by (destruct Hmv as [->|(_ & (? & _) & _)]; done).
    unfold put. cbn. destruct Hmv as [->|Hmv]; [rewrite dset_same by done; constructor|].
    rewrite Hid. by apply evolves_next.
  - intros [= <- <-]. exists e1. right. exists t. rewrite Ha. split_and!; try done.
    destruct Hsys as (Hk & Htn & Hf & _). apply evolves_add; try done; by rewrite Htn.
Qed.
End CommandRuns.

(** ** Interleavings *)

Section Steps.
Context `{Ports}.
Implicit Types (d : toolset_store) (e : env).

(** The transactions of the administration, in any order, between which the
    catalog may change at will. *)
Inductive toolset_step d : toolset_store → Prop :=
| step_create_toolset c e r d' e' :
    create_toolset c (St d None e) = (r, St d' None e') → toolset_step d d'
| step_toolset_command c e r d' e' :
    run_command c (St d None e) = (r, St d' None e') → toolset_step d d'
| step_ensure_all_published tenant_id principal_ids e r d' e' :
    ensure_all_published tenant_id principal_ids (St d None e) = (r, St d' None e') →
    toolset_step d d'
| step_catalog snapshots : toolset_step d (mkToolsetStore (tst_toolsets d) snapshots).

Lemma put_evolves d t t' :
  dget (ts_id t) (tst_toolsets d) = Some t → moves t t' →
  evolves (tst_toolsets d) (tst_toolsets (put t' d)).
Proof.
  intros Hg Hm. assert (Hid : ts_id t' = ts_id t) by (destruct Hm as [->|(_ & (? & _) & _)]; done).
  unfold put. cbn. destruct Hm as [->|Hm]; [rewrite dset_same by done; constructor|].
  rewrite Hid. by apply evolves_next.
Qed.

Lemma toolset_step_evolves d d' :
  toolsets_ok (tst_toolsets d) → toolset_step d d' → evolves (tst_toolsets d) (tst_toolsets d').
Proof.
  intros Hok [c e r d1 e1 Hr|c e r d1 e1 Hr|tenant ids e r d1 e1 Hr|snapshots]; [..|constructor].
  - apply create_toolset_run in Hr as (e' & [[[= -> _] _]|(t & Hn & Hf & Hk & _ & _ & Hs & [= -> _])]);
      [constructor|]. apply evolves_add; try done. by rewrite Hk.
  - apply run_command_outcome in Hr as (e' & [(y & _ & [= -> _])|
      (p & t & t' & _ & Hg & _ & _ & _ & _ & _ & Hm & _ & [= -> _])]); [constructor| |done].
    by eapply put_evolves.
  - apply ensure_all_published_run in Hr as (e' & [[[= -> _] _]|(t & _ & [= -> _] & He & _)]);
      [constructor|done|done].
Qed.

Lemma toolset_step_ok d d' :
  toolsets_ok (tst_toolsets d) → toolset_step d d' → toolsets_ok (tst_toolsets d').
Proof. intros Hok Hs. eapply evolves_ok; [done|by apply toolset_step_evolves]. Qed.

(** The later state of one toolset: the same one, at the same revision or at
    a higher one. *)
Definition later (t t' : Toolset) : Prop :=
  same_toolset t t' ∧ (ts_revision t <= ts_revision t')%Z ∧
  (dt_micros (ts_updated_at t) <= dt_micros (ts_updated_at t'))%Z ∧
  (ts_revision t' = ts_revision t → t' = t).

#[export] Instance later_refl : Reflexive later.
Proof. intros t. unfold later. split_and!; done. Qed.

Lemma later_trans a b c : later a b → later b c → later a c.
Proof.
  intros (S1 & R1 & U1 & E1) (S2 & R2 & U2 & E2). split; [by etrans|]. split; [lia|]. split; [lia|].
  intros E. rewrite E2 by lia. apply E1. lia.
Qed.

Lemma advances_later t t' : advances t t' → later t t'.
Proof. intros (_ & Hs & Hr & Hu). split; [done|]. split; [lia|]. split; [lia|]. intros. lia. Qed.

Lemma evolves_later t t' id x :
  keyed ts_id t → evolves t t' → dget id t = Some x → ∃ x', dget id t' = Some x' ∧ later x x'.
Proof.
  intros Hk [|y y' Hy Hadv|y Hy _ _ _] Hx.
  - exists x. by split.
  - rewrite dget_dset. case_decide as E; [|exists x; by split]. subst id. rewrite Hx in Hy.
    injection Hy as ->. exists y'. split; [done|by apply advances_later].
  - rewrite dget_dset. case_decide as E; [|exists x; by split]. subst id. congruence.
Qed.

Lemma star_later d d' id t :
  toolsets_ok (tst_toolsets d) → star toolset_step d d' → dget id (tst_toolsets d) = Some t →
  ∃ t', dget id (tst_toolsets d') = Some t' ∧ later t t'.
Proof.
  intros Hok Hs. revert t. induction Hs as [d|d d1 d2 Hstep Hs IH]; intros t Ht.
  { exists t. by split. }
  destruct (evolves_later _ _ _ _ (toolsets_keyed _ Hok) (toolset_step_evolves _ _ Hok Hstep) Ht)
    as (t1 & Ht1 & L1).
  destruct (IH (toolset_step_ok _ _ Hok Hstep) _ Ht1) as (t2 & Ht2 & L2).
  exists t2. split; [done|by eapply later_trans].
Qed.

Lemma star_toolsets_ok d d' :
  toolsets_ok (tst_toolsets d) → star toolset_step d d' → toolsets_ok (tst_toolsets d').
Proof.
  apply (star_invariant _ (λ d, toolsets_ok (tst_toolsets d))). intros ??. apply toolset_step_ok.
Qed.
End Steps.

(** ** Properties *)

Section Properties.
Context `{Ports}.
Implicit Types (d : toolset_store) (e : env).

(** However creations, updates, member and grant replacements, activations,
    disablings, the bootstrap and changes of the catalog are interleaved, every
    stored toolset is well formed, a slug names at most one toolset of a tenant
    and a tenant has at most one system toolset. *)
Theorem toolset_invariant d d' :
  toolsets_ok (tst_toolsets d) → star toolset_step d d' → toolsets_ok (tst_toolsets d').
Proof. apply star_toolsets_ok. Qed.

(** A toolset is never removed and keeps its identity, tenant, slug, kind
    and creation; its revision never goes back, and one revision is one content:
    if the revision is unchanged, nothing is. *)
Theorem revision_identifies_content d d' id t :
  toolsets_ok (tst_toolsets d) → star toolset_step d d' → dget id (tst_toolsets d) = Some t →
  ∃ t', dget id (tst_toolsets d') = Some t' ∧ later t t'.
Proof. apply star_later. Qed.

(** C27: a command either raises a typed error and changes nothing, or the caller saw the
    current revision, the catalog guard of the command held in the same
    transaction, and exactly the aggregate's mutation is committed: the same
    toolset unchanged or its next revision. *)
Theorem toolset_command_effect c d e r s' :
  toolsets_ok (tst_toolsets d) → run_command c (St d None e) = (r, s') → command_outcome c d e r s'.
Proof. apply run_command_outcome. Qed.

(** C26: no lost update.  Of two successful commands on one toolset that expect
    the same revision, with any transactions in between, the earlier one
    changed nothing. *)
Theorem no_lost_update c1 c2 d0 e0 p1 d1 e1 d2 e2 p2 s3 :
  toolsets_ok (tst_toolsets d0) →
  run_command c1 (St d0 None e0) = (Ok p1, St d1 None e1) →
  star toolset_step d1 d2 →
  run_command c2 (St d2 None e2) = (Ok p2, s3) →
  command_toolset_id c1 = command_toolset_id c2 →
  command_expected_revision c1 = command_expected_revision c2 →
  tst_toolsets d1 = tst_toolsets d0.
Proof.
  intros Hok H1 Hs H2 Hid Hrev.
  assert (Hok1 : toolsets_ok (tst_toolsets d1))
    by (eapply toolset_step_ok; [done|by eapply step_toolset_command]).
  assert (Hok2 := star_toolsets_ok _ _ Hok1 Hs).
  apply run_command_outcome in H1 as (e' & [(y & ? & _)|
    (q & t & t' & _ & Ht & Hi & _ & Hr & _ & _ & Hm & _ & [= -> _])]); [done| |done].
  apply run_command_outcome in H2 as (e'' & [(y & ? & _)|
    (q2 & t2 & t2' & _ & Ht2 & Hi2 & _ & Hr2 & _)]); [done| |done].
  destruct Hm as [->|Hadv]; [unfold put; cbn; by rewrite dset_same|]. exfalso.
  pose proof Hadv as (_ & (Hid' & _) & Hrev' & _).
  destruct (star_later _ _ (ts_id t') t' Hok1 Hs) as (t3 & Ht3 & (_ & Hle & _)).
  { unfold put. cbn. by rewrite dget_dset_eq. }
  rewrite Hid', Hi, Hid, <-Hi2, Ht2 in Ht3. injection Ht3 as <-. lia.
Qed.

(** The bootstrap of the system toolset is a merge: when it succeeds the
    stored system toolset of the tenant is granted to exactly the principals it
    was granted to before and the required ones, so none is revoked, and
    nothing else changes. *)
Theorem ensure_all_published_merges tenant ids d e r s' :
  toolsets_ok (tst_toolsets d) →
  ensure_all_published tenant ids (St d None e) = (r, s') →
  ∃ e', (s' = St d None e' ∧ is_ok r = false) ∨
    ∃ t, r = Ok t ∧ s' = St (put t d) None e' ∧
      evolves (tst_toolsets d) (tst_toolsets (put t d)) ∧
      system_toolset tenant
        (from_option ts_principal_ids [] (find_all_published tenant (tst_toolsets d)) ++ ids) t ∧
      (∀ old, find_all_published tenant (tst_toolsets d) = Some old → moves old t).
Proof. apply ensure_all_published_run. Qed.
End Properties.

(** ** The health shown by the administration is the derived health *)

Lemma profile_health_derived t snapshots :
  (ts_kind t = KindExplicit → length snapshots = length (ts_members t)) →
  tp_health (profile_of t snapshots) =
    derive_toolset_health (map (λ s, (cs_tool_id s, cs_availability s)) snapshots).
Proof.
  intros Hlen. unfold profile_of, derive_toolset_health. cbn [tp_health].
  set (available := length (filter _ (map member_profile snapshots))).
  assert (Hv : dvalues (map (λ s, (cs_tool_id s, cs_availability s)) snapshots)
    = map cs_availability snapshots) by (unfold dvalues; by rewrite <-list_fmap_compose).
  assert (Ha : length (filter (λ a, a = MemberAvailable) (map cs_availability snapshots)) = available).
  { unfold available. clear. induction snapshots as [|s l IH]; [done|]. cbn [map].
    rewrite !filter_cons. cbn [member_profile mp_availability].
    destruct (decide _); cbn [length]; by rewrite IH. }
  rewrite Hv,Ha, !length_map. clearbody available.
  assert (Hn : match ts_kind t with
               | KindAllPublished => length snapshots | KindExplicit => length (ts_members t)
               end = length snapshots) by (destruct (ts_kind t); [symmetry; auto|done]).
  rewrite Hn. destruct snapshots as [|s l]; [done|]. cbn [is_empty map length]. simpl.
  destruct available; simpl; [done|]. done.
Qed.

(** ** Concrete toolsets and witnesses *)

Module ToolsetExamples.
Definition ctx : ActorContext := mkActorContext "req" "trace" "tenant" "admin" "static" "admin".
Definition orders : ToolsetCatalogSnapshot :=
  mkSnapshot "orders" "tenant" MemberAvailable (Some "v1") (Some "shop.orders") None 120.
Definition legacy : ToolsetCatalogSnapshot :=
  mkSnapshot "legacy" "tenant" MemberToolDisabled None (Some "shop.legacy") None 40.
Definition empty_store : toolset_store := mkToolsetStore [] [orders; legacy].
Definition env0 : env := Env 0 0 [].

Definition create : CreateToolsetCommand := mkCreateToolset ctx "shop-tools" "Shop" None ModeDirect.
Definition created : toolset_store :=
  store (create_toolset (H := sample_ports) create (St empty_store None env0)).2.
Definition run (c : toolset_command) (d : toolset_store) (n : nat) : toolset_store :=
  store (run_command (H := sample_ports) c (St d None (Env n 1 []))).2.

Definition members_cmd (ids : list string) (revision : Z) : toolset_command :=
  CmdMembers (mkReplaceMembers ctx "a-id" revision ids).
Definition filled : toolset_store := run (members_cmd ["orders"] 1) created 1.
Definition activated : toolset_store := run (CmdActivate (mkChangeStatus ctx "a-id" 2)) filled 2.
Definition granted : toolset_store :=
  run (CmdGrants (mkReplaceGrants ctx "a-id" 3 ["agent"; "bot"; "agent"])) activated 3.

Definition error_of (c : toolset_command) (d : toolset_store) : option exn :=
  match (run_command (H := sample_ports) c (St d None (Env 5 1 []))).1 with
  | Raise x => Some x | Ok _ => None
  end.

Example toolset_story :
  option_map ts_revision (dget "a-id" (tst_toolsets granted)) = Some 4%Z ∧
  option_map ts_status (dget "a-id" (tst_toolsets granted)) = Some TsActive ∧
  option_map ts_principal_ids (dget "a-id" (tst_toolsets granted)) = Some ["agent"; "bot"] ∧
  error_of (members_cmd ["orders"; "legacy"] 4) granted = Some (Nexus ToolsetMemberUnavailableError) ∧
  error_of (members_cmd ["missing"] 4) granted = Some (Nexus InvalidToolsetMembersError) ∧
  error_of (members_cmd [] 4) granted = Some (Nexus InvalidArgumentsError) ∧
  error_of (members_cmd ["orders"] 3) granted = Some (Nexus ToolsetRevisionConflictError) ∧
  error_of (CmdActivate (mkChangeStatus ctx "a-id" 1)) created = Some (Nexus InvalidArgumentsError).
Proof. by vm_compute. Qed.

Lemma created_star : star (toolset_step (H := sample_ports)) empty_store created.
Proof.
  apply star_one. eapply (step_create_toolset (H := sample_ports) empty_store create env0).
  vm_compute. reflexivity.
Qed.

Lemma run_star c d n :
  (∃ r e', run_command (H := sample_ports) c (St d None (Env n 1 [])) = (r, St (run c d n) None e')) →
  star (toolset_step (H := sample_ports)) d (run c d n).
Proof. intros (r & e' & E). apply star_one. by eapply step_toolset_command. Qed.

Lemma filled_star : star (toolset_step (H := sample_ports)) created filled.
Proof. apply run_star. eexists _, _. vm_compute. reflexivity. Qed.

Lemma granted_star : star (toolset_step (H := sample_ports)) empty_store granted.
Proof.
  eapply star_trans; [apply created_star|]. eapply star_trans; [apply filled_star|].
  eapply star_trans; [apply (run_star (CmdActivate (mkChangeStatus ctx "a-id" 2)) filled 2)|].
  { eexists _, _. vm_compute. reflexivity. }
  apply (run_star (CmdGrants (mkReplaceGrants ctx "a-id" 3 ["agent"; "bot"; "agent"])) activated 3).
  eexists _, _. vm_compute. reflexivity.
Qed.

Lemma empty_ok : toolsets_ok (tst_toolsets empty_store).
Proof. apply toolsets_ok_nil. Qed.

Lemma created_ok : toolsets_ok (tst_toolsets created).
Proof. apply (star_toolsets_ok (H := sample_ports) empty_store); [apply empty_ok|apply created_star]. Qed.

Lemma toolset_invariant_witness :
  tst_toolsets granted ≠ [] ∧ toolsets_ok (tst_toolsets granted).
Proof.
  split; [by vm_compute|].
  apply (toolset_invariant (H := sample_ports) empty_store granted empty_ok granted_star).
Defined.

Lemma revision_identifies_content_witness :
  ∃ t', dget "a-id" (tst_toolsets filled) = Some t' ∧ ts_revision t' = 2%Z.
Proof.
  destruct (dget "a-id" (tst_toolsets created)) as [t|] eqn:Ht; [|by vm_compute in Ht].
  destruct (revision_identifies_content (H := sample_ports) created filled "a-id" t created_ok
    filled_star Ht) as (t' & Ht' & _).
  exists t'. split; [done|]. vm_compute in Ht'. injection Ht' as <-. reflexivity.
Defined.

Lemma toolset_command_effect_witness :
  ∃ d e r s', command_outcome (H := sample_ports) (members_cmd ["orders"] 1) d e r s' ∧ is_ok r = true.
Proof.
  destruct (run_command (H := sample_ports) (members_cmd ["orders"] 1)
    (St created None (Env 1 1 []))) as [r s'] eqn:E.
  exists created, (Env 1 1 []), r, s'. split.
  - apply (toolset_command_effect (H := sample_ports)); [apply created_ok|exact E].
  - vm_compute in E. by injection E as <- <-.
Defined.

(** An update to the profile the toolset already has, then the first change. *)
Lemma no_lost_update_witness :
  ∃ c1 c2, command_expected_revision c1 = command_expected_revision c2 ∧
    tst_toolsets (run c1 created 1) = tst_toolsets created ∧
    tst_toolsets (run c2 created 2) ≠ tst_toolsets created.
Proof.
  pose (c1 := CmdUpdate (mkUpdateToolset ctx "a-id" 1 "Shop" None ModeDirect)).
  pose (c2 := members_cmd ["orders"] 1).
  exists c1, c2. split; [done|]. split; [|by vm_compute].
  destruct (run_command (H := sample_ports) c1 (St created None (Env 1 1 []))) as [r1 s1] eqn:E1.
  destruct (run_command (H := sample_ports) c2 (St created None (Env 2 1 []))) as [r2 s2] eqn:E2.
  destruct r1 as [p1|]; [|by vm_compute in E1]. destruct r2 as [p2|]; [|by vm_compute in E2].
  assert (H1 : s1 = St created None (Env 2 1 [])).
  { vm_compute in E1. injection E1 as _ <-. by vm_compute. }
  rewrite H1 in E1.
  assert (Hr : run c1 created 1 = created) by (unfold run; by rewrite E1).
  rewrite Hr.
  apply (no_lost_update (H := sample_ports) c1 c2 created (Env 1 1 []) p1 created (Env 2 1 []) created
    (Env 2 1 []) p2 s2 created_ok E1 (star_refl _ _) E2); done.
Defined.

Lemma ensure_all_published_merges_witness :
  ∃ t, (ensure_all_published (H := sample_ports) "tenant" ["gateway"]
          (St granted None (Env 4 1 []))).1 = Ok t ∧
    system_toolset "tenant" ["gateway"] t.
Proof.
  assert (Hok : toolsets_ok (tst_toolsets granted))
    by (apply (star_toolsets_ok (H := sample_ports) empty_store);
        [apply empty_ok|apply granted_star]).
  destruct (ensure_all_published (H := sample_ports) "tenant" ["gateway"] (St granted None (Env 4 1 [])))
    as [r s'] eqn:E.
  destruct (ensure_all_published_merges (H := sample_ports) "tenant" ["gateway"] granted (Env 4 1 []) r s'
    Hok E) as (e' & [[_ Hf]|(t & Hr & _ & _ & Hsys & _)]).
  { exfalso. vm_compute in E. injection E as <- _. done. }
  exists t. split; [exact Hr|].
  assert (Hnone : find_all_published "tenant" (tst_toolsets granted) = None) by by vm_compute.
  rewrite Hnone in Hsys. exact Hsys.
Defined.
End ToolsetExamples.
