(* ===== verification/ToolsetAccess.v ===== *)
(** * ToolsetAccess: what a principal may call through an MCP endpoint

    Models [modules/toolsets/runtime.py]: the scope of an endpoint (the root
    endpoint, or one toolset's), [ResolveToolsetAccess] and the check of a
    business tool against the resolved access.  The published tools the reader
    returns after the transaction are an argument; toolsets and catalog
    snapshots are those of ToolsetAdmin.v. *)

From Stdlib Require Import ZArith Ascii Lia.
From stdpp Require Import base sets strings option list.
From S2P Require Import Prelude Text Dict Errors Json Store AuditTrail Url Catalog Toolsets.
From S2P Require Import ToolsetAdmin.
Open Scope py_scope.

(** ** Endpoint scopes *)

Inductive McpEndpointScopeType := ScopeRoot | ScopeToolset.
#[export] Instance scope_type_eq_dec : EqDecision McpEndpointScopeType.
Proof. solve_decision. Defined.

Record McpEndpointScope := mkScope {
  sc_type : McpEndpointScopeType;
  sc_toolset_slug : option string }.

(** [McpEndpointScope.__post_init__] *)
Definition new_endpoint_scope (s : McpEndpointScope) : res McpEndpointScope :=
  raise_if (bool_decide (sc_type s = ScopeRoot) && negb (is_none (sc_toolset_slug s)))
    (ValueError "root endpoint scope must not contain toolset slug") ;;?
  raise_if (bool_decide (sc_type s = ScopeToolset) && from_option str_empty true (sc_toolset_slug s))
    (ValueError "toolset endpoint scope requires slug") ;;?
  Ok s.

(** [McpEndpointScope.root] and [.toolset] *)
Definition root_scope : res McpEndpointScope := new_endpoint_scope (mkScope ScopeRoot None).
Definition toolset_scope (slug : string) : res McpEndpointScope :=
  new_endpoint_scope (mkScope ScopeToolset (Some slug)).

(** ** Resolved access *)

Record ResolvedToolsetAccess := mkAccess {
  ra_endpoint_scope : McpEndpointScope;
  ra_tools : list PublishedTool;
  ra_unavailable_tool_names : list string;
  ra_discovery_mode : option ToolsetDiscoveryMode;
  ra_toolset_id : option string;
  ra_toolset_revision : option Z }.

(** [available_tool_ids] *)
Definition available_tool_ids (a : ResolvedToolsetAccess) : list string :=
  map pt_tool_id (ra_tools a).

(** [require_business_tool] *)
Definition require_business_tool (a : ResolvedToolsetAccess) (canonical_name : string) : res unit :=
  if existsb (λ t, bool_decide (pt_canonical_name t = canonical_name)) (ra_tools a) then Ok tt
  else if bool_decide (canonical_name ∈ ra_unavailable_tool_names a)
  then Raise (Nexus ToolsetMemberUnavailableError)
  else Raise (Nexus ToolsetAccessDeniedError).

(** [_require_scoped_access] *)
Definition require_scoped_access (toolset : option Toolset) (ctx : ActorContext) : res Toolset :=
  match toolset with
  | None => Raise (Nexus ToolsetNotFoundError)
  | Some t =>
      raise_if (negb (bool_decide (ts_status t = TsActive))) (Nexus ToolsetNotActiveError) ;;?
      raise_if (negb (bool_decide (ctx_principal_id ctx ∈ ts_principal_ids t)))
        (Nexus ToolsetAccessDeniedError) ;;?
      Ok t
  end.

(** The tool ids [_member_snapshots] asks the catalog for. *)
Definition explicit_tool_ids (toolsets : list Toolset) : list string :=
  sorted_set (mjoin (map ts_tool_ids (filter (λ t, ts_kind t = KindExplicit) toolsets))).

Section Access.
Context {D : Type} `{!Table D Toolset} `{!CatalogSnapshots D}.

(** [_member_snapshots] *)
Definition member_snapshots (tenant_id : string) (toolsets : list Toolset) :
    M D (list ToolsetCatalogSnapshot) :=
  list_member_snapshots tenant_id (explicit_tool_ids toolsets).

(** The toolsets an endpoint serves to the caller. *)
Definition scoped_toolsets (ctx : ActorContext) (scope : McpEndpointScope) : M D (list Toolset) :=
  match sc_type scope with
  | ScopeToolset =>
      match sc_toolset_slug scope with
      | None => raise OtherException
      | Some slug =>
          let* found := get_toolset_by_slug (ctx_tenant_id ctx) slug in
          let* t := lift (require_scoped_access found ctx) in
          ret [t]
      end
  | ScopeRoot => list_granted_active (ctx_tenant_id ctx) (ctx_principal_id ctx)
  end.

(** The access computed from the toolsets, their snapshots and the tools
    published in the tenant. *)
Definition access_of (ctx : ActorContext) (scope : McpEndpointScope) (toolsets : list Toolset)
    (snapshots : list ToolsetCatalogSnapshot) (published : list PublishedTool) :
    ResolvedToolsetAccess :=
  let allowed_all_published := existsb (λ t, bool_decide (ts_kind t = KindAllPublished)) toolsets in
  let allowed_ids := map cs_tool_id snapshots in
  let eligible := sorted_by name_leb
    (filter (λ t, allowed_all_published || bool_decide (pt_tool_id t ∈ allowed_ids) = true ∧
                  is_visible_to t (ctx_principal_id ctx) = true) published) in
  let published_ids := map pt_tool_id published in
  let unavailable_names := omap cs_canonical_name
    (filter (λ s, cs_availability s ≠ MemberAvailable ∨ cs_tool_id s ∉ published_ids) snapshots) in
  let scoped := match sc_type scope with ScopeToolset => head toolsets | ScopeRoot => None end in
  mkAccess scope eligible unavailable_names (ts_discovery_mode <$> scoped) (ts_id <$> scoped)
    (ts_revision <$> scoped).

(** [ResolveToolsetAccess.execute]; [tools] are the published tools the reader
    finds after the transaction. *)
Definition resolve_toolset_access (tools : list PublishedTool) (ctx : ActorContext)
    (scope : McpEndpointScope) : M D ResolvedToolsetAccess :=
  let* seen := with_uow (
    let* toolsets := scoped_toolsets ctx scope in
    let* snapshots := member_snapshots (ctx_tenant_id ctx) toolsets in
    ret (toolsets, snapshots)) in
  let '(toolsets, snapshots) := seen in
  ret (access_of ctx scope toolsets snapshots
         (list_published_by_tenant (ctx_tenant_id ctx) tools)).
End Access.

(** ** Specification *)

(** The toolset serves the caller at the endpoint. *)
Definition serves (d : toolset_store) (ctx : ActorContext) (scope : McpEndpointScope) (t : Toolset) :
    Prop :=
  dget (ts_id t) (tst_toolsets d) = Some t ∧ ts_tenant_id t = ctx_tenant_id ctx ∧
  ts_status t = TsActive ∧ ctx_principal_id ctx ∈ ts_principal_ids t ∧
  (sc_type scope = ScopeToolset → sc_toolset_slug scope = Some (ts_slug t)).

(** The stored toolset of the caller's tenant with this slug. *)
Definition slug_names (d : toolset_store) (ctx : ActorContext) (slug : string) (t : Toolset) : Prop :=
  dget (ts_id t) (tst_toolsets d) = Some t ∧ ts_tenant_id t = ctx_tenant_id ctx ∧ ts_slug t = slug.

(** The first rule a toolset endpoint breaks, with its error: the slug names a
    toolset of the tenant, which is active, and granted to the principal.  A
    scope without its slug is a fault of the caller. *)
Inductive refused (d : toolset_store) (ctx : ActorContext) (scope : McpEndpointScope) : exn → Prop :=
| refused_no_slug : sc_toolset_slug scope = None → refused d ctx scope OtherException
| refused_unknown slug :
    sc_toolset_slug scope = Some slug → (¬ ∃ t, slug_names d ctx slug t) →
    refused d ctx scope (Nexus ToolsetNotFoundError)
| refused_inactive slug t :
    sc_toolset_slug scope = Some slug → slug_names d ctx slug t → ts_status t ≠ TsActive →
    refused d ctx scope (Nexus ToolsetNotActiveError)
| refused_not_granted slug t :
    sc_toolset_slug scope = Some slug → slug_names d ctx slug t → ts_status t = TsActive →
    ctx_principal_id ctx ∉ ts_principal_ids t →
    refused d ctx scope (Nexus ToolsetAccessDeniedError).

(** The toolset gives the tool: the system toolset every published one, an
    explicit one its members that the catalog knows. *)
Definition grants_tool (d : toolset_store) (t : Toolset) (tool_id : string) : Prop :=
  match ts_kind t with
  | KindAllPublished => True
  | KindExplicit => tool_id ∈ ts_tool_ids t ∧
      ∃ s, s ∈ tst_catalog d ∧ cs_tenant_id s = ts_tenant_id t ∧ cs_tool_id s = tool_id
  end.

(** The tools of the endpoint, independently of how they are computed. *)
Definition accessible (d : toolset_store) (tools : list PublishedTool) (ctx : ActorContext)
    (scope : McpEndpointScope) (tool : PublishedTool) : Prop :=
  tool ∈ tools ∧ pt_tenant_id tool = ctx_tenant_id ctx ∧
  is_visible_to tool (ctx_principal_id ctx) = true ∧
  ∃ t, serves d ctx scope t ∧ grants_tool d t (pt_tool_id tool).


(** ** The toolsets an endpoint serves *)

Lemma list_granted_active_run tenant principal c (d : toolset_store) e :
  list_granted_active tenant principal (St c (Some d) e) =
    (Ok (filter (λ x, ts_status x = TsActive ∧ principal ∈ ts_principal_ids x)
           (sorted_by slug_leb (filter (λ x, ts_tenant_id x = tenant) (dvalues (tst_toolsets d))))),
     St c (Some d) e).
Proof. done. Qed.

Lemma require_scoped_access_Ok found ctx t :
  require_scoped_access found ctx = Ok t ↔
  found = Some t ∧ ts_status t = TsActive ∧ ctx_principal_id ctx ∈ ts_principal_ids t.
Proof.
  destruct found as [t'|]; simpl; [|naive_solver]. split.
  - intros H'. guards H'. by injection H' as <-.
  - intros ([= ->] & Ha & Hp). by rewrite !bool_decide_eq_true_2.
Qed.

Lemma find_slug_unique t d slug tenant :
  toolsets_ok d → dget (ts_id t) d = Some t → ts_tenant_id t = tenant → ts_slug t = slug →
  find_toolset_by_slug tenant slug d = Some t.
Proof.
  intros Hok Hg Htn Hs. destruct (find_toolset_by_slug tenant slug d) as [t'|] eqn:Hf.
  - apply (dfind_Some ts_id _ _ _ (toolsets_keyed _ Hok)) in Hf as [Hg' Hp].
    apply andb_true_iff in Hp as [Hp1%bool_decide_eq_true Hp2%bool_decide_eq_true].
    assert (E : ts_id t' = ts_id t).
    { apply (toolsets_slugs _ Hok _ _ _ _ Hg' Hg). split; congruence. }
    rewrite E in Hg'. congruence.
  - pose proof (dfind_None ts_id _ _ (toolsets_keyed _ Hok) Hf _ _ Hg) as Hp. simpl in Hp.
    by rewrite Htn, Hs, !bool_decide_eq_true_2 in Hp.
Qed.

Lemma require_scoped_access_Raise d scope slug found ctx x :
  (∀ t, slug_names d ctx slug t ↔ found = Some t) → sc_toolset_slug scope = Some slug →
  require_scoped_access found ctx = Raise x → refused d ctx scope x.
Proof.
  intros Hnames Hsl. unfold require_scoped_access, raise_if, rbind. destruct found as [t|].
  2: { intros [= <-]. apply (refused_unknown _ _ _ slug); [done|]. by intros (t & Ht%Hnames). }
  assert (Ht : slug_names d ctx slug t) by by apply Hnames.
  destruct (bool_decide (ts_status t = TsActive)) eqn:Ha; simpl.
  - apply bool_decide_eq_true in Ha.
    destruct (bool_decide (ctx_principal_id ctx ∈ ts_principal_ids t)) eqn:Hp; simpl; [done|].
    apply bool_decide_eq_false in Hp. intros [= <-]. by apply (refused_not_granted _ _ _ slug t).
  - apply bool_decide_eq_false in Ha. intros [= <-]. by apply (refused_inactive _ _ _ slug t).
Qed.

Lemma scoped_toolsets_run ctx scope (d : toolset_store) e r s' :
  toolsets_ok (tst_toolsets d) →
  scoped_toolsets ctx scope (St d (Some d) e) = (r, s') →
  s' = St d (Some d) e ∧
  match r with
  | Ok toolsets => ∀ t, t ∈ toolsets ↔ serves d ctx scope t
  | Raise x => sc_type scope = ScopeToolset ∧ (¬ ∃ t, serves d ctx scope t) ∧ refused d ctx scope x
  end.
Proof.
  intros Hok. unfold scoped_toolsets. destruct (sc_type scope) eqn:Hty.
  - rewrite list_granted_active_run. intros [= <- <-]. split; [done|]. intros t.
    rewrite list_elem_of_filter, elem_of_sorted_by, list_elem_of_filter.
    rewrite (keyed_value ts_id t _ (toolsets_keyed _ Hok)). unfold serves. rewrite Hty. naive_solver.
  - destruct (sc_toolset_slug scope) as [slug|] eqn:Hsl.
    2: { intros [= <- <-]. split; [done|]. split; [done|]. split; [|by constructor].
         intros (t & _ & _ & _ & _ & Ht). by rewrite Hsl in Ht; specialize (Ht Hty). }
    unfold get_toolset_by_slug, bind, read_table, ret, lift. cbn [working table toolset_store_table].
    set (found := find_toolset_by_slug _ _ _).
    destruct (require_scoped_access found ctx) as [t|x] eqn:Hreq.
    + intros [= <- <-]. split; [done|]. apply require_scoped_access_Ok in Hreq as (Hf & Ha & Hp).
      pose proof Hf as Hf'. apply (dfind_Some ts_id _ _ _ (toolsets_keyed _ Hok)) in Hf' as [Hg Hb].
      apply andb_true_iff in Hb as [Hb1%bool_decide_eq_true Hb2%bool_decide_eq_true].
      intros t'. rewrite list_elem_of_singleton. unfold serves. rewrite Hty, Hsl. split.
      * intros ->. split_and!; try done. by rewrite Hb2.
      * intros (Hg' & Ht' & _ & _ & Hs'). specialize (Hs' eq_refl). injection Hs' as Hs'.
        pose proof (find_slug_unique _ _ _ _ Hok Hg' Ht' (eq_sym Hs')) as Hf'. fold found in Hf'.
        congruence.
    + intros [= <- <-]. split; [done|]. split; [done|]. split.
      * intros (t & Hg & Ht & Ha & Hp & Hs). specialize (Hs Hty). rewrite Hsl in Hs.
        injection Hs as Hs.
        pose proof (find_slug_unique _ _ _ _ Hok Hg Ht (eq_sym Hs)) as Hf. fold found in Hf.
        pose proof (proj2 (require_scoped_access_Ok found ctx t) (conj Hf (conj Ha Hp))) as E. congruence.
      * assert (Hnames : ∀ t, slug_names d ctx slug t ↔ found = Some t).
        { intros t. split.
          - intros (Hg & Ht & Hs). by apply find_slug_unique.
          - intros Hf. apply (dfind_Some ts_id _ _ _ (toolsets_keyed _ Hok)) in Hf as [Hg Hb].
            by apply andb_true_iff in Hb as [Hb1%bool_decide_eq_true Hb2%bool_decide_eq_true]. }
        by apply (require_scoped_access_Raise d scope slug found).
Qed.

(** ** The tools of an endpoint *)

Lemma snapshot_of_Some snapshots tenant id s :
  snapshot_of snapshots tenant id = Some s →
  s ∈ snapshots ∧ cs_tenant_id s = tenant ∧ cs_tool_id s = id.
Proof.
  unfold snapshot_of. intros [Hin Hp]%find_Some_iff.
  by apply andb_true_iff in Hp as [?%bool_decide_eq_true ?%bool_decide_eq_true].
Qed.

Lemma elem_of_member_snapshots snapshots tenant ids id :
  id ∈ map cs_tool_id (member_snapshots_of snapshots tenant ids) ↔
  id ∈ ids ∧ ∃ s, s ∈ snapshots ∧ cs_tenant_id s = tenant ∧ cs_tool_id s = id.
Proof.
  unfold member_snapshots_of. split.
  - intros (s & -> & (i & Hi & Hs)%list_elem_of_omap)%list_elem_of_fmap.
    apply snapshot_of_Some in Hs as (? & ? & <-). eauto.
  - intros (Hid & s & Hin & Ht & Hs).
    destruct (snapshot_of snapshots tenant id) as [s'|] eqn:E.
    + apply list_elem_of_fmap. exists s'. pose proof (snapshot_of_Some _ _ _ _ E) as (_ & _ & E').
      split; [done|]. apply list_elem_of_omap. eauto.
    + unfold snapshot_of in E. pose proof (proj1 (find_None_iff _ _) E s Hin) as Hp. simpl in Hp.
      by rewrite Ht, Hs, !bool_decide_eq_true_2 in Hp.
Qed.

Lemma elem_of_explicit_tool_ids toolsets id :
  id ∈ explicit_tool_ids toolsets ↔
  ∃ t, t ∈ toolsets ∧ ts_kind t = KindExplicit ∧ id ∈ ts_tool_ids t.
Proof.
  unfold explicit_tool_ids. rewrite elem_of_sorted_set, list_elem_of_join. split.
  - intros (l & Hid & (t & -> & [Hk Ht]%list_elem_of_filter)%list_elem_of_fmap). eauto.
  - intros (t & Ht & Hk & Hid). exists (ts_tool_ids t). split; [done|].
    apply list_elem_of_fmap. exists t. by rewrite list_elem_of_filter.
Qed.

Lemma access_of_tools d ctx scope toolsets tools tool :
  (∀ t, t ∈ toolsets ↔ serves d ctx scope t) →
  tool ∈ ra_tools (access_of ctx scope toolsets
    (member_snapshots_of (tst_catalog d) (ctx_tenant_id ctx) (explicit_tool_ids toolsets))
    (list_published_by_tenant (ctx_tenant_id ctx) tools)) ↔
  accessible d tools ctx scope tool.
Proof.
  intros Hts. unfold access_of, accessible, list_published_by_tenant. cbn [ra_tools].
  rewrite elem_of_sorted_by, list_elem_of_filter, elem_of_sorted_by, list_elem_of_filter.
  rewrite orb_true_iff, bool_decide_eq_true, elem_of_member_snapshots, elem_of_explicit_tool_ids.
  rewrite existsb_exists. split.
  - intros ((Hg & Hv) & Ht & Hin). split_and!; try done.
    destruct Hg as [(t & Hin' & Hk)|((t & Hin' & Hk & Hid) & s & Hs & Hst & Hsi)].
    + apply list_elem_of_In in Hin'. apply bool_decide_eq_true in Hk. exists t.
      split; [by apply Hts|]. unfold grants_tool. by rewrite Hk.
    + exists t. pose proof (proj1 (Hts t) Hin') as Hserves. split; [done|]. unfold grants_tool.
      rewrite Hk. destruct Hserves as (_ & Htn & _). split; [done|]. exists s. by rewrite Htn.
  - intros (Hin & Ht & Hv & t & Hserves & Hg). pose proof (proj2 (Hts t) Hserves) as Hin'.
    split_and!; try done. unfold grants_tool in Hg. destruct (ts_kind t) eqn:Hk.
    + right. destruct Hserves as (_ & Htn & _). destruct Hg as [Hid (s & Hs & Hst & Hsi)].
      rewrite Htn in Hst. split; eauto.
    + left. exists t. split; [by apply list_elem_of_In|]. by apply bool_decide_eq_true.
Qed.

Lemma require_business_tool_Ok a name :
  require_business_tool a name = Ok tt ↔ ∃ t, t ∈ ra_tools a ∧ pt_canonical_name t = name.
Proof.
  unfold require_business_tool. destruct (existsb _ _) eqn:E.
  - split; [|done]. intros _. apply existsb_exists in E as (t & Hin & Hn).
    exists t. by rewrite list_elem_of_In, <-(bool_decide_eq_true (pt_canonical_name t = name)).
  - split; [by case_match|]. intros (t & Hin & Hn). rewrite <-not_true_iff_false, existsb_exists in E.
    exfalso. apply E. exists t. by rewrite <-list_elem_of_In, bool_decide_eq_true.
Qed.

(** C28: an endpoint gives exactly what the stored toolsets grant.  Resolving
    changes nothing; when it succeeds, its tools are the published tools of the
    tenant that are visible to the principal and given by an active toolset
    granted to the principal (the one of the slug, at a toolset endpoint),
    ordered by name; a business tool passes the check if and only if it is one
    of them; and nothing is reachable at a toolset endpoint that is not
    reachable at the root.  It fails only at a toolset endpoint that does not
    serve the principal, with the error of the first rule broken: not found when
    the slug names no toolset of the tenant, not active when the named one is not
    active, access denied when it is active and not granted to the principal. *)
Theorem endpoint_scope_is_enforced tools ctx scope (d : toolset_store) e r s' :
  toolsets_ok (tst_toolsets d) →
  resolve_toolset_access tools ctx scope (St d None e) = (r, s') →
  s' = St d None e ∧
  match r with
  | Ok a =>
      (∀ tool, tool ∈ ra_tools a ↔ accessible d tools ctx scope tool) ∧
      ordered name_leb (ra_tools a) ∧
      (∀ name, require_business_tool a name = Ok tt ↔
         ∃ tool, accessible d tools ctx scope tool ∧ pt_canonical_name tool = name) ∧
      (∀ tool, tool ∈ ra_tools a → accessible d tools ctx (mkScope ScopeRoot None) tool)
  | Raise x => sc_type scope = ScopeToolset ∧ (¬ ∃ t, serves d ctx scope t) ∧ refused d ctx scope x
  end.
Proof.
  intros Hok. unfold resolve_toolset_access, with_uow. cbn [store environment].
  unfold bind at 1. unfold bind at 1. destruct (scoped_toolsets _ _ _) as [rt st1] eqn:Hs.
  apply scoped_toolsets_run in Hs as [-> Hs]; [|done]. destruct rt as [toolsets|x].
  2: { cbn. intros [= <- <-]. by split. }
  unfold member_snapshots, list_member_snapshots, bind, ret. cbn [working].
  intros [= <- <-]. split; [done|].
  assert (Htools : ∀ tool, tool ∈ ra_tools (access_of ctx scope toolsets
      (member_snapshots_of (tst_catalog d) (ctx_tenant_id ctx) (explicit_tool_ids toolsets))
      (list_published_by_tenant (ctx_tenant_id ctx) tools)) ↔ accessible d tools ctx scope tool)
    by (intros tool; by apply access_of_tools).
  split; [exact Htools|]. split; [|split].
  - apply sorted_by_ordered; [apply name_leb_total|apply name_leb_trans].
  - intros name. rewrite require_business_tool_Ok. by setoid_rewrite Htools.
  - intros tool Ht. apply Htools in Ht as (H1 & H2 & H3 & t & (S1 & S2 & S3 & S4 & _) & Hg).
    split_and!; try done. exists t. split; [|done]. by split_and!.
Qed.

(** ** A concrete endpoint *)

Module AccessExamples.
Definition agent : ActorContext := mkActorContext "req" "trace" "tenant" "agent" "static" "agent_service".
Definition published (id name : string) (v : ToolVisibility) : PublishedTool :=
  mkPublishedTool id (id +:+ "-v1") "tenant" name name "" [] None 1 v ReadOnly "digest" None [].
Definition tools : list PublishedTool :=
  [published "orders" "shop.orders" VisPublic; published "secret" "shop.secret" VisRestricted;
   published "other" "shop.other" VisPublic].

Definition resolve (scope : McpEndpointScope) : res ResolvedToolsetAccess :=
  (resolve_toolset_access tools agent scope (St ToolsetExamples.granted None (Env 9 1 []))).1.
Definition shop : McpEndpointScope := mkScope ScopeToolset (Some "shop-tools").

Example shop_endpoint :
  match resolve shop with
  | Ok a => map pt_canonical_name (ra_tools a) = ["shop.orders"] ∧
      require_business_tool a "shop.orders" = Ok tt ∧
      require_business_tool a "shop.other" = Raise (Nexus ToolsetAccessDeniedError) ∧
      ra_toolset_revision a = Some 4%Z
  | Raise _ => False
  end ∧
  resolve (mkScope ScopeToolset (Some "unknown")) = Raise (Nexus ToolsetNotFoundError).
Proof. by vm_compute. Qed.

Lemma endpoint_scope_is_enforced_witness :
  ∃ a, resolve shop = Ok a ∧
    ∀ tool, tool ∈ ra_tools a ↔ accessible ToolsetExamples.granted tools agent shop tool.
Proof.
  destruct (resolve_toolset_access tools agent shop (St ToolsetExamples.granted None (Env 9 1 [])))
    as [r s'] eqn:E.
  assert (Hok : toolsets_ok (tst_toolsets ToolsetExamples.granted))
    by (apply (star_toolsets_ok (H := sample_ports) ToolsetExamples.empty_store);
        [apply ToolsetExamples.empty_ok|apply ToolsetExamples.granted_star]).
  destruct (endpoint_scope_is_enforced tools agent shop ToolsetExamples.granted (Env 9 1 []) r s' Hok E)
    as [_ Hr].
  destruct r as [a|x]; [|by vm_compute in E]. exists a. split; [unfold resolve; by rewrite E|apply Hr].
Defined.
End AccessExamples.
