(* ===== verification/OpenApi.v ===== *)
(** * OpenAPI documents: domain and parser

    Models [modules/openapi_import/domain.py] and [parser.py]: the import job
    and its state machine, imported operations, and the parser that turns an
    OpenAPI 3 document (a JSON object) into operations with a tool name, an
    input schema and a conflict status.  Repositories and use cases are
    OpenApiImport.v. *)

From Stdlib Require Import ZArith Ascii Lia.
From stdpp Require Import base sets strings option list.
From S2P Require Import Prelude Text Dict Errors Json Store AuditTrail Url Catalog Connectors Registry Format.
Open Scope py_scope.

(** ** Domain *)

Inductive OpenApiSourceType := SourceUpload | SourceLocalFixture | SourceUrl.
Inductive ImportJobStatus := JobPending | JobValidating | JobParsing | JobCompleted | JobFailed.
Inductive OperationReviewStatus := ReviewPending | ReviewAccepted | ReviewRejected | ReviewNeedsChange.
Inductive OperationConflictStatus :=
  ConflictNone | ConflictNameCollision | ConflictMissingOperationId | ConflictUnsupported.

#[export] Instance source_type_eq_dec : EqDecision OpenApiSourceType.
Proof. solve_decision. Defined.
#[export] Instance job_status_eq_dec : EqDecision ImportJobStatus.
Proof. solve_decision. Defined.
#[export] Instance review_status_eq_dec : EqDecision OperationReviewStatus.
Proof. solve_decision. Defined.
#[export] Instance conflict_status_eq_dec : EqDecision OperationConflictStatus.
Proof. solve_decision. Defined.

Record OpenApiImportJob := mkJob {
  ij_id : string;
  ij_tenant_id : string;
  ij_upstream_service_id : string;
  ij_source_type : OpenApiSourceType;
  ij_source_ref : string;
  ij_source_digest : string;
  ij_openapi_version : option string;
  ij_operation_allowlist : list string;
  ij_allowlist_snapshot : dict json;
  ij_status : ImportJobStatus;
  ij_error_summary : option string;
  ij_created_by : string;
  ij_created_at : datetime;
  ij_started_at : option datetime;
  ij_completed_at : option datetime }.

(** [replace(self, ...)] of the fields the transitions change. *)
Definition job_with (j : OpenApiImportJob) (version : option string) (status : ImportJobStatus)
    (error : option string) (started completed : option datetime) : OpenApiImportJob :=
  mkJob (ij_id j) (ij_tenant_id j) (ij_upstream_service_id j) (ij_source_type j) (ij_source_ref j)
    (ij_source_digest j) version (ij_operation_allowlist j) (ij_allowlist_snapshot j) status error
    (ij_created_by j) (ij_created_at j) started completed.

(** [OpenApiImportJob.start_validation] *)
Definition start_validation (j : OpenApiImportJob) (started_at : datetime) : res OpenApiImportJob :=
  raise_if (negb (bool_decide (ij_status j = JobPending)))
    (ValueError "only pending import job can start validation") ;;?
  Ok (job_with j (ij_openapi_version j) JobValidating (ij_error_summary j) (Some started_at)
        (ij_completed_at j)).

(** [OpenApiImportJob.start_parsing] *)
Definition start_parsing (j : OpenApiImportJob) : res OpenApiImportJob :=
  raise_if (negb (bool_decide (ij_status j = JobValidating)))
    (ValueError "only validating import job can start parsing") ;;?
  Ok (job_with j (ij_openapi_version j) JobParsing (ij_error_summary j) (ij_started_at j)
        (ij_completed_at j)).

(** [OpenApiImportJob.complete] *)
Definition complete_job (j : OpenApiImportJob) (openapi_version : string) (completed_at : datetime) :
    res OpenApiImportJob :=
  raise_if (negb (bool_decide (ij_status j = JobParsing)))
    (ValueError "only parsing import job can complete") ;;?
  Ok (job_with j (Some openapi_version) JobCompleted None (ij_started_at j) (Some completed_at)).

(** [OpenApiImportJob.fail] *)
Definition fail_job (j : OpenApiImportJob) (error_summary : string) (completed_at : datetime) :
    res OpenApiImportJob :=
  raise_if (bool_decide (ij_status j ∈ [JobCompleted; JobFailed]))
    (ValueError "terminal import job cannot fail again") ;;?
  Ok (job_with j (ij_openapi_version j) JobFailed (Some error_summary) (ij_started_at j)
        (Some completed_at)).

Record ImportedOperation := mkImported {
  io_id : string;
  io_tenant_id : string;
  io_import_job_id : string;
  io_upstream_service_id : string;
  io_operation_key : string;
  io_operation_id : option string;
  io_method : string;
  io_path : string;
  io_normalized_operation : dict json;
  io_generated_tool_name : option string;
  io_conflict_status : OperationConflictStatus;
  io_review_status : OperationReviewStatus;
  io_review_notes : option string;
  io_draft_tool_version_id : option string;
  io_draft_tool_binding_id : option string }.

(** [ImportedOperation.accept] *)
Definition accept_operation (o : ImportedOperation) (version_id binding_id : string)
    (notes : option string) : res ImportedOperation :=
  raise_if (negb (bool_decide (io_conflict_status o = ConflictNone)))
    (ValueError "operation with conflict cannot be accepted") ;;?
  raise_if (negb (bool_decide (io_review_status o ∈ [ReviewPending; ReviewNeedsChange])))
    (ValueError "operation cannot be accepted from current review state") ;;?
  Ok (mkImported (io_id o) (io_tenant_id o) (io_import_job_id o) (io_upstream_service_id o)
        (io_operation_key o) (io_operation_id o) (io_method o) (io_path o)
        (io_normalized_operation o) (io_generated_tool_name o) (io_conflict_status o)
        ReviewAccepted notes (Some version_id) (Some binding_id)).

Record ParsedOperation := mkParsed {
  po_operation_key : string;
  po_operation_id : option string;
  po_method : string;
  po_path : string;
  po_normalized_operation : dict json;
  po_generated_tool_name : option string;
  po_conflict_status : OperationConflictStatus }.

Record ParsedOpenApiDocument := mkParsedDocument {
  pd_openapi_version : string;
  pd_operations : list ParsedOperation }.

Record OpenApiDocument := mkDocument {
  od_source_ref : string;
  od_source_digest : string;
  od_content : dict json }.

(** ** Reading JSON values *)

Definition document_invalid : exn := Nexus OpenApiDocumentInvalidError.
Definition feature_unsupported : exn := Nexus OpenApiFeatureUnsupportedError.

(** [mapping.get(key)] and [mapping.get(key, default)] *)
Definition get_or (fallback : json) (key : string) (d : dict json) : json :=
  default fallback (dget key d).
Definition get (key : string) (d : dict json) : json := get_or JNull key d.

(** [_require_mapping] *)
Definition require_mapping (value : json) : res (dict json) :=
  match value with JObj d => Ok d | _ => Raise document_invalid end.

(** [_require_sequence] *)
Definition require_sequence (value : json) : res (list json) :=
  match value with JArr l => Ok l | _ => Raise document_invalid end.

(** [value is True] *)
Definition is_true (value : json) : bool := bool_decide (value = JBool true).

(** [_string_list] *)
Definition string_list (value : json) : res (list string) :=
  let? items := require_sequence value in
  traverse (λ item, match item with JStr s => Ok s | _ => Raise document_invalid end) items.

(** [_optional_text] *)
Definition optional_text (value : json) : json :=
  match value with
  | JStr s => if str_empty (strip s) then JNull else JStr s
  | _ => JNull
  end.

(** [sorted(d)], with the value of each key *)
Definition sorted_items (d : dict json) : list (string * json) :=
  sorted_by (λ a b, str_leb a.1 b.1) d.

(** ** References *)

(** [_resolve_pointer] *)
Fixpoint follow (current : json) (parts : list string) : res json :=
  match parts with
  | [] => Ok current
  | raw_part :: rest =>
      let part := str_replace "~0" "~" (str_replace "~1" "/" raw_part) in
      match current with
      | JObj d => match dget part d with
                  | Some next => follow next rest
                  | None => Raise document_invalid
                  end
      | _ => Raise document_invalid
      end
  end.

(** [s[n:]] *)
Fixpoint str_drop (n : nat) (s : string) : string :=
  match n, s with
  | S n', String _ s' => str_drop n' s'
  | _, _ => s
  end.

Definition resolve_pointer (document : dict json) (reference : string) : res json :=
  follow (JObj document) (split_char "/"%char (str_drop 2 reference)).

(** [{**base, **over}] *)
Definition dict_update (base over : dict json) : dict json :=
  foldl (λ d kv, dset kv.1 kv.2 d) base over.

Definition example_keys : list string := ["example"; "examples"].

(** [_MAX_REF_DEPTH]: a node at depth 33 is refused, so the levels that may
    still be entered at depth [d] are [33 - d]. *)
Definition max_ref_depth : nat := 32.
Definition max_levels : nat := S max_ref_depth.

(** [_resolve_node], by recursion on the levels left. *)
Fixpoint resolve_node (levels : nat) (document : dict json) (stack : list string) (value : json) :
    res json :=
  match levels with
  | O => Raise feature_unsupported
  | S below =>
      match value with
      | JArr items =>
          let? l := traverse (resolve_node below document stack) items in
          Ok (JArr l)
      | JObj fields =>
          match get "$ref" fields with
          | JNull =>
              let? d := traverse (λ kv, let? v := resolve_node below document stack kv.2 in
                                        Ok (kv.1, v))
                          (filter (λ kv, kv.1 ∉ example_keys) fields) in
              Ok (JObj d)
          | JStr reference =>
              raise_if (negb (startswith "#/" reference)) feature_unsupported ;;?
              raise_if (bool_decide (reference ∈ stack)) feature_unsupported ;;?
              let? target := resolve_pointer document reference in
              let? resolved := resolve_node below document (stack ++ [reference]) target in
              let? base := require_mapping resolved in
              let siblings := filter (λ kv, kv.1 ≠ "$ref") fields in
              let? over := resolve_node below document stack (JObj siblings) in
              match over with
              | JObj d => Ok (JObj (dict_update base d))
              | _ => Raise TypeError
              end
          | _ => Raise feature_unsupported
          end
      | scalar => Ok scalar
      end
  end.

(** [_resolve_node(value, document)] *)
Definition resolve (document : dict json) (value : json) : res json :=
  resolve_node max_levels document [] value.

(** ** Operations *)

Definition is_alnum (c : ascii) : bool := is_ascii_alpha c || is_ascii_digit c.
Definition is_upper_alpha (c : ascii) : bool := (65 <=? code c)%N && (code c <=? 90)%N.
Definition is_lower_or_digit (c : ascii) : bool := is_lower_alpha c || is_ascii_digit c.
Definition is_underscore (c : ascii) : bool := bool_decide (c = "_"%char).

(** [_CAMEL_BOUNDARY.sub(r"\1_\2", s)]: no two matches overlap, a match ends
    in an upper-case letter and the next starts with another character. *)
Fixpoint camel_to_snake (s : string) : string :=
  match s with
  | String a ((String b _) as s') =>
      if is_lower_or_digit a && is_upper_alpha b
      then String a (String "_" (camel_to_snake s'))
      else String a (camel_to_snake s')
  | _ => s
  end.

(** [_NON_IDENTIFIER.sub("_", s)]: each maximal run is one underscore;
    [inside] tells that the run has begun. *)
Fixpoint squeeze_from (inside : bool) (s : string) : string :=
  match s with
  | EmptyString => EmptyString
  | String c s' =>
      if is_alnum c then String c (squeeze_from false s')
      else if inside then squeeze_from true s'
      else String "_" (squeeze_from true s')
  end.
Definition squeeze (s : string) : string := squeeze_from false s.

(** [s.strip("_")] *)
Definition strip_underscores (s : string) : string :=
  lstrip_chars is_underscore (rstrip_chars is_underscore s).

(** [_argument_name] *)
Definition argument_name (name : string) : string := lower (strip_underscores (squeeze name)).

(** [_generated_tool_name] *)
Definition generated_tool_name (namespace : string) (operation_id : option string)
    (method path : string) : string :=
  let candidate := match operation_id with
                   | Some id => if str_empty id then method +:+ "_" +:+ path else id
                   | None => method +:+ "_" +:+ path
                   end in
  namespace +:+ "." +:+ lower (strip_underscores (squeeze (camel_to_snake candidate))).

(** [_SIDE_EFFECTS] *)
Definition side_effects : list string :=
  ["read_only"; "idempotent_write"; "non_idempotent_write"; "unknown"].

(** [_side_effect] *)
Definition side_effect (operation : dict json) (method : string) : string :=
  let by_method :=
    if bool_decide (method = "get") then "read_only"
    else if bool_decide (method ∈ ["put"; "delete"]) then "idempotent_write"
    else if bool_decide (method = "post") then "non_idempotent_write"
    else "unknown" in
  match get "x-nexusmcp-side-effect" operation with
  | JStr declared => if bool_decide (declared ∈ side_effects) then declared else by_method
  | _ => by_method
  end.

(** [_normalize_security] *)
Definition normalize_security (value : json) : res json :=
  match value with
  | JNull => Ok (JArr [])
  | _ =>
      let? requirements := require_sequence value in
      let? normalized := traverse (λ requirement,
        let? mapping := require_mapping requirement in
        let? scopes := traverse (λ kv, let? l := string_list kv.2 in
                                       Ok (kv.1, JArr (map JStr l))) mapping in
        Ok (JObj scopes)) requirements in
      Ok (JArr normalized)
  end.

(** [hash(value)] of a JSON value raises [TypeError] for a list or a dict. *)
Definition hashable (value : json) : bool :=
  match value with JArr _ | JObj _ => false | _ => true end.

(** [merged[key] = parameter].  The keys are compared as JSON values: Python
    also identifies [1] and [True], but entries whose name or location is
    not a string all end as UNSUPPORTED, one or two of them alike. *)
Fixpoint put_parameter (key : json * json) (parameter : dict json)
    (merged : list ((json * json) * dict json)) : list ((json * json) * dict json) :=
  match merged with
  | [] => [(key, parameter)]
  | (k, p) :: rest =>
      if bool_decide (k = key) then (k, parameter) :: rest
      else (k, p) :: put_parameter key parameter rest
  end.

(** [_merge_parameters] *)
Fixpoint merge_from (document : dict json) (merged : list ((json * json) * dict json))
    (raw_parameters : list json) : res (list (dict json)) :=
  match raw_parameters with
  | [] => Ok (map snd merged)
  | raw_parameter :: rest =>
      let? resolved := resolve document raw_parameter in
      let? parameter := require_mapping resolved in
      let key := (get "name" parameter, get "in" parameter) in
      raise_if (negb (hashable key.1 && hashable key.2)) TypeError ;;?
      merge_from document (put_parameter key parameter merged) rest
  end.
Definition merge_parameters (path_parameters operation_parameters : list json)
    (document : dict json) : res (list (dict json)) :=
  merge_from document [] (path_parameters ++ operation_parameters).

(** The loop variables of [_parse_operation]. *)
Record parameter_loop := mkLoop {
  pl_conflict : OperationConflictStatus;
  pl_normalized : list json;
  pl_properties : dict json;
  pl_required : list string }.

Definition parameter_locations : list string := ["path"; "query"; "header"].

(** [location in _PARAMETER_LOCATIONS and isinstance(name, str) and name] *)
Definition parameter_key (parameter : dict json) : option (string * string) :=
  match get "in" parameter, get "name" parameter with
  | JStr location, JStr name =>
      if bool_decide (location ∈ parameter_locations) && negb (str_empty name)
      then Some (location, name) else None
  | _, _ => None
  end.

(** One round of [for parameter in combined_parameters]. *)
Definition add_parameter (document : dict json) (l : parameter_loop) (parameter : dict json) :
    res parameter_loop :=
  match parameter_key parameter with
  | None => Ok (mkLoop ConflictUnsupported (pl_normalized l) (pl_properties l) (pl_required l))
  | Some (location, name) =>
      let argument := argument_name name in
      let argument := if dmem argument (pl_properties l)
                      then location +:+ "_" +:+ argument else argument in
      let? schema := require_mapping (get_or (JObj []) "schema" parameter) in
      let? resolved_schema := resolve document (JObj schema) in
      let required := bool_decide (location = "path") || is_true (get "required" parameter) in
      Ok (mkLoop (pl_conflict l)
            (pl_normalized l ++
             [JObj [("argument_name", JStr argument); ("upstream_name", JStr name);
                    ("location", JStr location); ("required", JBool required);
                    ("schema", resolved_schema)]])
            (dset argument resolved_schema (pl_properties l))
            (if required then pl_required l ++ [argument] else pl_required l))
  end.

Fixpoint add_parameters (document : dict json) (l : parameter_loop) (parameters : list (dict json)) :
    res parameter_loop :=
  match parameters with
  | [] => Ok l
  | parameter :: rest =>
      let? l := add_parameter document l parameter in
      add_parameters document l rest
  end.

Record request_body := mkRequestBody { rb_required : bool; rb_schema : json }.

Definition request_body_json (b : option request_body) : json :=
  match b with
  | None => JNull
  | Some b => JObj [("argument_name", JStr "body"); ("required", JBool (rb_required b));
                    ("content_type", JStr "application/json"); ("schema", rb_schema b)]
  end.

(** [_normalize_request_body] *)
Definition normalize_request_body (raw_request_body : json) (document : dict json) :
    res (option request_body * bool) :=
  match raw_request_body with
  | JNull => Ok (None, false)
  | _ =>
      let? resolved := resolve document raw_request_body in
      let? body := require_mapping resolved in
      let? content := require_mapping (get "content" body) in
      match get "application/json" content with
      | JNull => Ok (None, true)
      | media_type =>
          let? media := require_mapping media_type in
          let? schema := require_mapping (get_or (JObj []) "schema" media) in
          let? resolved_schema := resolve document (JObj schema) in
          Ok (Some (mkRequestBody (is_true (get "required" body)) resolved_schema), false)
      end
  end.

(** One round of [for status_code in sorted(responses)]: the entry, its schema
    ([JNull] for none) and whether its content is unsupported. *)
Definition normalize_response (document : dict json) (entry : string * json) :
    res (json * json * bool) :=
  let '(status_code, raw_response) := entry in
  let? resolved := resolve document raw_response in
  let? response := require_mapping resolved in
  let? content := require_mapping (get_or (JObj []) "content" response) in
  let content_types := sorted_by str_leb (dkeys content) in
  let? found := match get "application/json" content with
                | JNull => Ok (JNull, match content with [] => false | _ => true end)
                | json_media =>
                    let? media := require_mapping json_media in
                    let? raw_schema := require_mapping (get_or (JObj []) "schema" media) in
                    let? schema := resolve document (JObj raw_schema) in
                    Ok (schema, false)
                end in
  Ok (JObj [("status_code", JStr status_code);
            ("description", optional_text (get "description" response));
            ("content_types", JArr (map JStr content_types)); ("schema", found.1)],
      found.1, found.2).

(** [_normalize_responses] *)
Definition normalize_responses (raw_responses : json) (document : dict json) :
    res (list json * json * bool) :=
  let? responses := require_mapping raw_responses in
  let entries := sorted_items responses in
  let? normalized := traverse (normalize_response document) entries in
  let successful := filter (λ p, startswith "2" p.1.1 = true ∧ p.2.1.2 ≠ JNull)
                      (zip entries normalized) in
  let output_schema := match successful with [] => JNull | p :: _ => p.2.1.2 end in
  Ok (map (λ n, n.1.1) normalized, output_schema, existsb snd normalized).

Definition optional_string (s : option string) : json :=
  match s with Some s => JStr s | None => JNull end.

(** [OpenApiParser._parse_operation] *)
Definition parse_operation (document : dict json) (namespace method path operation_key : string)
    (operation_id : option string) (operation : dict json) (path_parameters : list json) :
    res ParsedOperation :=
  let conflict := if is_none operation_id then ConflictMissingOperationId else ConflictNone in
  let? operation_parameters := require_sequence (get_or (JArr []) "parameters" operation) in
  let? combined_parameters := merge_parameters path_parameters operation_parameters document in
  let? l := add_parameters document (mkLoop conflict [] [] []) combined_parameters in
  let? (body, body_unsupported) := normalize_request_body (get "requestBody" operation) document in
  let conflict := if body_unsupported then ConflictUnsupported else pl_conflict l in
  let input_properties := match body with
                          | Some b => dset "body" (rb_schema b) (pl_properties l)
                          | None => pl_properties l
                          end in
  let required_arguments := match body with
                            | Some b => if rb_required b then pl_required l ++ ["body"]
                                        else pl_required l
                            | None => pl_required l
                            end in
  let? (responses, output_schema, response_unsupported) :=
    normalize_responses (get "responses" operation) document in
  let conflict := if response_unsupported then ConflictUnsupported else conflict in
  let tool_name := generated_tool_name namespace operation_id method path in
  let? tags := string_list (get_or (JArr []) "tags" operation) in
  let? security := normalize_security (get_or (JArr []) "security" operation) in
  let normalized_operation :=
    [("operation_id", optional_string operation_id);
     ("summary", optional_text (get "summary" operation));
     ("description", optional_text (get "description" operation));
     ("method", JStr (upper method));
     ("path", JStr path);
     ("tags", JArr (map JStr tags));
     ("parameters", JArr (pl_normalized l));
     ("request_body", request_body_json body);
     ("responses", JArr responses);
     ("security", security);
     ("side_effect", JStr (side_effect operation method));
     ("tool_input_schema",
        JObj [("type", JStr "object"); ("properties", JObj input_properties);
              ("required", JArr (map JStr required_arguments));
              ("additionalProperties", JBool false)]);
     ("tool_output_schema", output_schema)] in
  Ok (mkParsed operation_key operation_id (upper method) path normalized_operation
        (Some tool_name) conflict).

(** [_HTTP_METHODS] *)
Definition http_methods : list string := ["get"; "post"; "put"; "patch"; "delete"].

(** [operation.get("operationId")], stripped; blank or not a string is [None]. *)
Definition operation_id_of (operation : dict json) : option string :=
  match get "operationId" operation with
  | JStr s => if str_empty (strip s) then None else Some (strip s)
  | _ => None
  end.

Definition operation_key_of (method path : string) : string := upper method +:+ " " +:+ path.

(** [not allowlist or operation_key in allowlist or operation_id in allowlist] *)
Definition is_allowed (allowlist : list string) (operation_key : string)
    (operation_id : option string) : bool :=
  match allowlist with
  | [] => true
  | _ => bool_decide (operation_key ∈ allowlist)
         || match operation_id with Some id => bool_decide (id ∈ allowlist) | None => false end
  end.

(** One round of [for method in _HTTP_METHODS]. *)
Definition parse_method (document : dict json) (namespace : string) (allowlist : list string)
    (path : string) (path_item : dict json) (path_parameters : list json) (method : string) :
    res (option ParsedOperation) :=
  match get method path_item with
  | JNull => Ok None
  | raw_operation =>
      let? operation := require_mapping raw_operation in
      let operation_id := operation_id_of operation in
      let operation_key := operation_key_of method path in
      if negb (is_allowed allowlist operation_key operation_id) then Ok None
      else
        let? parsed := parse_operation document namespace method path operation_key operation_id
                         operation path_parameters in
        Ok (Some parsed)
  end.

(** One round of [for path in sorted(paths)]. *)
Definition parse_path (document : dict json) (namespace : string) (allowlist : list string)
    (entry : string * json) : res (list ParsedOperation) :=
  let '(path, raw_item) := entry in
  raise_if (negb (startswith "/" path)) document_invalid ;;?
  let? path_item := require_mapping raw_item in
  let? path_parameters := require_sequence (get_or (JArr []) "parameters" path_item) in
  let? found := traverse (parse_method document namespace allowlist path path_item path_parameters)
                  http_methods in
  Ok (omap id found).

(** [name_counts[name]] *)
Definition name_count (name : string) (operations : list ParsedOperation) : nat :=
  length (filter (λ o, po_generated_tool_name o = Some name) operations).

(** The conflict status [parse] gives an operation after counting names. *)
Definition mark_collision (operations : list ParsedOperation) (o : ParsedOperation) : ParsedOperation :=
  match po_generated_tool_name o with
  | Some name =>
      if (1 <? name_count name operations)%nat && bool_decide (po_conflict_status o = ConflictNone)
      then mkParsed (po_operation_key o) (po_operation_id o) (po_method o) (po_path o)
             (po_normalized_operation o) (po_generated_tool_name o) ConflictNameCollision
      else o
  | None => o
  end.

(** [OpenApiParser.parse] *)
Definition parse (document : dict json) (namespace : string) (operation_allowlist : list string) :
    res ParsedOpenApiDocument :=
  raise_if (negb (namespace_pattern namespace)) document_invalid ;;?
  let? version := match get "openapi" document with
                  | JStr v => if startswith "3.0." v || startswith "3.1." v then Ok v
                              else Raise feature_unsupported
                  | _ => Raise feature_unsupported
                  end in
  let? paths := require_mapping (get "paths" document) in
  let? found := traverse (parse_path document namespace operation_allowlist) (sorted_items paths) in
  let operations := concat found in
  raise_if (match operations with [] => true | _ => false end) document_invalid ;;?
  Ok (mkParsedDocument version (map (mark_collision operations) operations)).

(** ** Reference expansion: the specification

    [expands document n v v']: without looking at cycles, replacing every
    reference of [v] by the expansion of its target, and dropping the
    example keys, ends after at most [n] nested steps with [v']. *)

Definition is_reference (d : dict json) : Prop := get "$ref" d ≠ JNull.

#[local] Set Warnings "-register-all".
Inductive expands (document : dict json) : nat → json → json → Prop :=
| expands_scalar n v :
    (∀ l, v ≠ JArr l) → (∀ d, v ≠ JObj d) → expands document (S n) v v
| expands_array n l l' :
    Forall2 (expands document n) l l' → expands document (S n) (JArr l) (JArr l')
| expands_object n d d' :
    get "$ref" d = JNull →
    Forall2 (λ kv kv', kv'.1 = kv.1 ∧ expands document n kv.2 kv'.2)
      (filter (λ kv, kv.1 ∉ example_keys) d) d' →
    expands document (S n) (JObj d) (JObj d')
| expands_reference n d reference target base over :
    get "$ref" d = JStr reference → startswith "#/" reference = true →
    resolve_pointer document reference = Ok target →
    expands document n target (JObj base) →
    expands document n (JObj (filter (λ kv, kv.1 ≠ "$ref") d)) (JObj over) →
    expands document (S n) (JObj d) (JObj (dict_update base over)).

Lemma expands_mono document n v v' m : expands document n v v' → n ≤ m → expands document m v v'.
Proof.
  revert v v' m. induction n as [|n IH]; intros v v' m H Hm; [inversion H|].
  destruct m as [|m]; [lia|]. apply le_S_n in Hm.
  inversion H as [? ? Hl Hd|? l l' Hl|? d d' Hr Hd|? d r t base over Hr Hs Ht Hb Ho]; subst.
  - by constructor.
  - constructor. eapply Forall2_impl; [exact Hl|]. eauto.
  - apply expands_object; [done|]. eapply Forall2_impl; [exact Hd|]. intros ?? [? ?]; eauto.
  - eapply expands_reference; eauto.
Qed.

Lemma get_filter_ref d : get "$ref" (filter (λ kv : string * json, kv.1 ≠ "$ref") d) = JNull.
Proof.
  unfold get, get_or. induction d as [|[k v] d IH]; [done|].
  rewrite filter_cons. case_decide as E; simpl in *; [|done]. by rewrite decide_False.
Qed.

(** A run of the resolver is an expansion. *)
Lemma resolve_node_sound document levels : ∀ stack v v',
  resolve_node levels document stack v = Ok v' → expands document levels v v'.
Proof.
  induction levels as [|n IH]; intros stack v v' H; simpl in H; [done|].
  destruct v as [| | | | |l|d]; try (injection H as <-; by constructor).
  - apply rbind_Ok_inv in H as (l' & Hl & [= <-]). apply traverse_Ok in Hl.
    apply expands_array. eapply Forall2_impl; [exact Hl|]. intros x y; apply IH.
  - destruct (get "$ref" d) as [| | | |r| |] eqn:Hr; try done.
    + apply rbind_Ok_inv in H as (d' & Hd & [= <-]). apply traverse_Ok in Hd.
      apply expands_object; [done|]. eapply Forall2_impl; [done|]. intros kv kv' Hkv.
      apply rbind_Ok_inv in Hkv as (w & Hw & [= <-]). eauto.
    + apply rbind_Ok_inv in H as ([] & Hs%raise_if_Ok & H).
      apply rbind_Ok_inv in H as ([] & _ & H).
      apply rbind_Ok_inv in H as (t & Ht & H).
      apply rbind_Ok_inv in H as (w & Hw & H).
      apply rbind_Ok_inv in H as (base & Hb & H).
      apply rbind_Ok_inv in H as (o & Ho & H).
      destruct o as [| | | | | |over]; try done. injection H as <-.
      destruct w; try done. injection Hb as ->. apply negb_false_iff in Hs.
      eapply expands_reference; eauto.
Qed.

Lemma Forall2_functional {A B} (R1 R2 : A → B → Prop) l l1 l2 :
  (∀ x y z, R1 x y → R2 x z → y = z) → Forall2 R1 l l1 → Forall2 R2 l l2 → l1 = l2.
Proof.
  intros HR H1. revert l2. induction H1 as [|x y l l1 Hxy _ IH]; intros l2 H2; inversion H2; subst; [done|].
  f_equal; eauto.
Qed.

Lemma expands_unique document n v v1 v2 :
  expands document n v v1 → expands document n v v2 → v1 = v2.
Proof.
  revert v v1 v2. induction n as [|n IH]; intros v v1 v2 H1 H2; [inversion H1|].
  inversion H1 as [? ? Hl Hd|? l l' Hl|? d d' Hr Hd|? d r t base over Hr Hs Ht Hb Ho];
    inversion H2 as [? ? Hl2 Hd2|? l2 l2' Hl2|? d2 d2' Hr2 Hd2|? d2 r2 t2 base2 over2 Hr2 Hs2 Ht2 Hb2 Ho2];
    simplify_eq; try done; try congruence; try (by exfalso; eapply Hl); try (by exfalso; eapply Hd);
    try (by exfalso; eapply Hl2); try (by exfalso; eapply Hd2).
  - f_equal. eapply Forall2_functional; [|exact Hl|exact Hl2]. eauto.
  - f_equal. eapply Forall2_functional; [|exact Hd|exact Hd2].
    intros [k x] [k1 y] [k2 z] [? ?] [? ?]; simpl in *; subst. f_equal; eauto.
  - rewrite Hr in Hr2. injection Hr2 as <-. rewrite Ht in Ht2. injection Ht2 as <-.
    pose proof (IH _ _ _ Hb Hb2) as [= ->]. by pose proof (IH _ _ _ Ho Ho2) as [= ->].
Qed.

Lemma minimal_witness (P : nat → Prop) n :
  P n → ¬ ¬ ∃ m, m ≤ n ∧ P m ∧ ∀ k, k < m → ¬ P k.
Proof.
  induction (lt_wf n) as [n _ IH]. intros Hn Hno. apply Hno. exists n.
  split_and!; [lia|done|]. intros k Hk HP. apply (IH k Hk HP). intros (m & ? & ? & ?).
  apply Hno. exists m. split_and!; [lia|done|done].
Qed.

(** No reference of the stack has a target that expands within fewer steps:
    what keeps the cycle check from refusing a document without cycles. *)
Definition fresh (document : dict json) (stack : list string) (n : nat) : Prop :=
  ∀ r t o k, r ∈ stack → resolve_pointer document r = Ok t → k < n → ¬ expands document k t o.

Lemma fresh_mono document stack n m : fresh document stack n → m ≤ n → fresh document stack m.
Proof. intros H Hm r t o k Hr Ht Hk. apply (H r t o k Hr Ht). lia. Qed.

(** Every expansion within the levels is found by the resolver. *)
Lemma resolve_node_complete document n : ∀ levels stack v v',
  expands document n v v' → fresh document stack n → n ≤ levels →
  resolve_node levels document stack v = Ok v'.
Proof.
  induction (lt_wf n) as [n _ IH]. intros levels stack v v' H Hf Hn.
  destruct n as [|n]; [inversion H|]. destruct levels as [|levels]; [lia|]. apply le_S_n in Hn.
  assert (Hf' : fresh document stack n) by (eapply fresh_mono; [done|lia]).
  assert (IHn := IH n (Nat.lt_succ_diag_r n) levels).
  inversion H as [? ? Hl Hd|? l l' Hl|? d d' Hr Hd|? d r t base over Hr Hs Ht Hb Ho]; subst; cbn [resolve_node].
  - destruct v'; try done; [by exfalso; eapply Hl|by exfalso; eapply Hd].
  - rewrite (proj2 (traverse_Ok _ _ l')); [done|]. eapply Forall2_impl; [exact Hl|]. eauto.
  - rewrite Hr. rewrite (proj2 (traverse_Ok _ _ d')); [done|].
    eapply Forall2_impl; [exact Hd|]. intros [k x] [k' y] [? Hx]; simpl in *; subst.
    by rewrite (IHn _ _ _ Hx Hf' Hn).
  - rewrite Hr, Hs, bool_decide_eq_false_2.
    2:{ intros Hin. apply (Hf r t (JObj base) n Hin Ht); [lia|done]. }
    cbn [rbind raise_if negb]. rewrite Ht. cbn [rbind]. apply dec_stable. intros Hno.
    apply (minimal_witness (λ k, ∃ o, expands document k t o) n); [eauto|].
    intros (m & Hm & (o & Hm') & Hmin). apply Hno.
    pose proof (expands_unique _ _ _ _ _ (expands_mono _ _ _ _ _ Hm' Hm) Hb) as ->.
    rewrite (IH m ltac:(lia) levels (stack ++ [r]) t (JObj base) Hm'); [| |lia].
    + cbn [rbind require_mapping]. by rewrite (IHn _ _ _ Ho Hf' Hn).
    + intros r' t' o' k Hin Ht' Hk Hx. apply elem_of_app in Hin as [Hin| ->%list_elem_of_singleton].
      * apply (Hf r' t' o' k Hin Ht'); [lia|done].
      * rewrite Ht in Ht'. injection Ht' as <-. apply (Hmin k Hk). eauto.
Qed.

(** C32: the reference resolver computes exactly the expansion: with enough
    levels left neither the stack of references nor anything else can make it
    fail on a node that has an expansion. *)
Theorem resolve_computes_expansion document v v' :
  resolve document v = Ok v' ↔ expands document max_levels v v'.
Proof.
  split; [apply resolve_node_sound|]. intros H.
  eapply resolve_node_complete; [exact H| |done].
  intros r t o k Hr%elem_of_nil. done.
Qed.

(** ** What a resolved node is *)

(** Nesting, a scalar counting one. *)
Fixpoint height (j : json) : nat :=
  match j with
  | JArr l => S (list_max (map height l))
  | JObj d => S (list_max (map (λ kv, height kv.2) d))
  | _ => 1
  end.

(** No reference is left, nor an example. *)
Fixpoint closed (j : json) : bool :=
  match j with
  | JArr l => forallb closed l
  | JObj d => bool_decide (get "$ref" d = JNull)
              && forallb (λ kv, bool_decide (kv.1 ∉ example_keys) && closed kv.2) d
  | _ => true
  end.

(** The conditions on each item of a resolved object. *)
Definition closed_item (n : nat) (kv : string * json) : Prop :=
  (kv.1 ∉ example_keys) ∧ closed kv.2 = true ∧ height kv.2 ≤ n.

Lemma list_max_le_iff l n : list_max l ≤ n ↔ (∀ x, x ∈ l → x ≤ n).
Proof. rewrite list_max_le, <-Forall_forall. done. Qed.

Lemma closed_array l n :
  closed (JArr l) = true ∧ height (JArr l) ≤ S n ↔ (∀ x, x ∈ l → closed x = true ∧ height x ≤ n).
Proof.
  simpl. rewrite forallb_forall, <-Nat.succ_le_mono, list_max_le_iff. split.
  - intros [Hc Hh] x Hx. split; [by apply Hc, list_elem_of_In|].
    apply Hh, list_elem_of_In, in_map, list_elem_of_In, Hx.
  - intros H. split; [intros x Hx; by apply H, list_elem_of_In|].
    intros h Hh. apply list_elem_of_fmap in Hh as (x & -> & Hx). by apply H.
Qed.

Lemma closed_object d n :
  closed (JObj d) = true ∧ height (JObj d) ≤ S n ↔
  get "$ref" d = JNull ∧ (∀ kv, kv ∈ d → closed_item n kv).
Proof.
  cbn [closed height]. rewrite andb_true_iff, bool_decide_eq_true, forallb_forall, <-Nat.succ_le_mono,
    list_max_le_iff. unfold closed_item. split.
  - intros [[Hr Hc] Hh]. split; [done|]. intros kv Hkv.
    pose proof (Hc kv (proj1 (list_elem_of_In _ _) Hkv)) as H. py_bools.
    split_and!; [done|done|]. apply Hh.
    by apply list_elem_of_In, (in_map (λ kv : string * json, height kv.2)), list_elem_of_In.
  - intros [Hr H]. split_and!; [done| |].
    + intros kv Hkv%list_elem_of_In. destruct (H _ Hkv) as (? & -> & ?).
      by rewrite bool_decide_eq_true_2.
    + intros h Hh. apply list_elem_of_fmap in Hh as (kv & -> & Hkv). by apply H.
Qed.

Lemma dset_item {V} k (v : V) d kv : kv ∈ dset k v d → kv = (k, v) ∨ kv ∈ d.
Proof.
  induction d as [|[k' v'] d IH]; simpl; [rewrite list_elem_of_singleton; by left|].
  destruct (decide (k = k')) as [<-|]; rewrite !elem_of_cons; intros [->|H]; auto.
  destruct (IH H); auto.
Qed.

Lemma dict_update_item base over kv :
  kv ∈ dict_update base over → kv ∈ base ∨ kv ∈ over.
Proof.
  unfold dict_update. revert base. induction over as [|[k v] over IH]; intros base; simpl; [by left|].
  rewrite elem_of_cons. intros [H|H]%IH; [|by auto]. apply dset_item in H as [->|H]; auto.
Qed.

Lemma dict_update_other base over k :
  (∀ kv, kv ∈ over → kv.1 ≠ k) → dget k (dict_update base over) = dget k base.
Proof.
  unfold dict_update. revert base. induction over as [|[k' v] over IH]; intros base H; simpl; [done|].
  rewrite IH by (intros kv Hkv; apply H; by constructor).
  apply dget_dset_ne. intros ->. by apply (H (k', v) (list_elem_of_here _ _)).
Qed.

Lemma expands_items document n d d' kv' :
  get "$ref" d = JNull → expands document (S n) (JObj d) (JObj d') → kv' ∈ d' →
  ∃ kv, kv ∈ d ∧ kv'.1 = kv.1 ∧ (kv.1 ∉ example_keys) ∧ expands document n kv.2 kv'.2.
Proof.
  intros Hr H Hin. inversion H as [? ? ? Hd| |? ? ? ? Hd|]; subst; [by exfalso; eapply Hd| |congruence].
  apply list_elem_of_lookup in Hin as (i & Hi). destruct (Forall2_lookup_r _ _ _ _ _ Hd Hi) as (kv & Hkv & E & Hx).
  apply list_elem_of_lookup_2, list_elem_of_filter in Hkv as [? ?]. eauto.
Qed.

Lemma dget_filter (P : string → Prop) `{∀ k, Decision (P k)} {V} k (d : dict V) :
  P k → dget k (filter (λ kv, P kv.1) d) = dget k d.
Proof.
  intros Hk. induction d as [|[k' v] d IH]; [done|]. rewrite filter_cons. simpl.
  destruct (decide (P k')) as [|Hn]; simpl; [by rewrite IH|].
  rewrite decide_False; [done|congruence].
Qed.

(** The fields of an expanded object that is not a reference. *)
Lemma expands_dget document n d d' k :
  get "$ref" d = JNull → expands document (S n) (JObj d) (JObj d') → k ∉ example_keys →
  (dget k d = None ∧ dget k d' = None) ∨
  (∃ x y, dget k d = Some x ∧ dget k d' = Some y ∧ expands document n x y).
Proof.
  intros Hr H Hk. inversion H as [? ? ? Hd| |? ? ? ? Hd|]; subst; [by exfalso; eapply Hd| |congruence].
  rewrite <-(dget_filter (λ k, k ∉ example_keys) k d Hk). clear Hr H. revert Hd.
  induction 1 as [|[k1 x] [k2 y] l l' [E Hx] _ IH]; simpl in *; [by left|]. subst.
  destruct (decide (k = k1)) as [<-|]; [|done]. right. eauto.
Qed.

Lemma expands_get_ref document n d d' :
  get "$ref" d = JNull → expands document (S n) (JObj d) (JObj d') → get "$ref" d' = JNull.
Proof.
  intros Hr H. destruct (expands_dget _ _ _ _ "$ref" Hr H) as [[_ E]|(x & y & Ex & Ey & Hx)].
  - by apply (bool_decide_unpack _).
  - unfold get, get_or. by rewrite E.
  - unfold get, get_or in *. rewrite Ex in Hr. rewrite Ey. simpl in *. subst. by inversion Hx.
Qed.

Lemma expands_closed document n : ∀ v v', expands document n v v' → closed v' = true ∧ height v' ≤ n.
Proof.
  induction n as [|n IH]; intros v v' H; [inversion H|].
  inversion H as [? ? Hl Hd|? l l' Hl|? d d' Hr Hd|? d r t base over Hr Hs Ht Hb Ho]; subst.
  - destruct v'; simpl; try (split; [done|lia]); [by exfalso; eapply Hl|by exfalso; eapply Hd].
  - apply closed_array. intros x Hx. apply list_elem_of_lookup in Hx as (i & Hi).
    destruct (Forall2_lookup_r _ _ _ _ _ Hl Hi) as (y & _ & Hy). eauto.
  - assert (Hitem : ∀ kv, kv ∈ d' → closed_item n kv).
    { intros kv Hkv. destruct (expands_items _ _ _ _ _ Hr H Hkv) as ([k x] & Hin & E & He & Hx).
      unfold closed_item. rewrite E. destruct (IH _ _ Hx). done. }
    apply closed_object. split; [|done]. by eapply expands_get_ref.
  - destruct n as [|n]; [inversion Hb|].
    destruct (proj1 (closed_object base n) (IH _ _ Hb)) as [Hbr Hbi].
    destruct (proj1 (closed_object over n) (IH _ _ Ho)) as [_ Hoi].
    apply closed_object. split.
    + unfold get, get_or. rewrite dict_update_other; [done|]. intros kv Hkv.
      destruct (expands_items _ _ _ _ _ (get_filter_ref d) Ho Hkv) as (kv' & Hin & -> & _).
      by apply list_elem_of_filter in Hin as [? _].
    + intros kv [Hkv|Hkv]%dict_update_item;
        [destruct (Hbi _ Hkv) as (? & ? & ?)|destruct (Hoi _ Hkv) as (? & ? & ?)]; split_and!; try done; lia.
Qed.

Lemma closed_expands document v : ∀ n, closed v = true → height v ≤ n → expands document n v v.
Proof.
  induction v as [| | | | |l IH|d IH] using json_induction; intros n Hc Hh;
    (destruct n as [|n]; [simpl in Hh; lia|]); try (apply expands_scalar; done).
  - apply expands_array. pose proof (proj1 (closed_array l n) (conj Hc Hh)) as H. clear Hc Hh.
    induction IH as [|x l Hx _ IHl]; constructor.
    + by apply Hx; apply H; constructor.
    + apply IHl. intros y Hy. apply H. by constructor.
  - destruct (proj1 (closed_object d n) (conj Hc Hh)) as [Hr H]. clear Hc Hh.
    apply expands_object; [done|]. clear Hr.
    induction IH as [|kv d Hx _ IHd]; [constructor|].
    destruct (H kv (list_elem_of_here _ _)) as (He & Hc & Hh).
    rewrite filter_cons_True by done. constructor; [by auto|].
    apply IHd. intros y Hy. apply H. by constructor.
Qed.

(** C34: what the resolver returns is closed: no reference is left, no example is
    kept, it nests at most 33 deep, and resolving it again, in any document,
    gives the same value; so the parser may resolve a schema it cut out of a
    resolved request body or response a second time. *)
Theorem resolved_is_closed document document' v v' :
  resolve document v = Ok v' →
  closed v' = true ∧ height v' ≤ max_levels ∧ resolve document' v' = Ok v'.
Proof.
  intros H%resolve_computes_expansion. destruct (expands_closed _ _ _ _ H) as [Hc Hh].
  split_and!; [done|done|]. by apply resolve_computes_expansion, closed_expands.
Qed.

(** ** JSON pointers *)

(** RFC 6901: how a key is written in a pointer. *)
Fixpoint escape_key (s : string) : string :=
  match s with
  | EmptyString => EmptyString
  | String c s' =>
      if bool_decide (c = "~"%char) then "~0" +:+ escape_key s'
      else if bool_decide (c = "/"%char) then "~1" +:+ escape_key s'
      else String c (escape_key s')
  end.

(** The reference to the value under the keys [k :: ks]. *)
Definition reference_to (k : string) (ks : list string) : string :=
  "#/" +:+ str_join "/" (map escape_key (k :: ks)).

(** The value under a list of keys. *)
Fixpoint value_at (current : json) (keys : list string) : option json :=
  match keys with
  | [] => Some current
  | k :: ks => match current with
               | JObj d => match dget k d with Some next => value_at next ks | None => None end
               | _ => None
               end
  end.

(** [escape_key] with the slashes put back. *)
Fixpoint escape_tilde (s : string) : string :=
  match s with
  | EmptyString => EmptyString
  | String c s' => if bool_decide (c = "~"%char) then "~0" +:+ escape_tilde s'
                   else String c (escape_tilde s')
  end.

Lemma unescape_slash s : str_replace "~1" "/" (escape_key s) = escape_tilde s.
Proof.
  unfold str_replace. induction s as [|c s IH]; [done|]. cbn [escape_key escape_tilde].
  destruct (bool_decide (c = "~"%char)) eqn:E; [|destruct (bool_decide (c = "/"%char)) eqn:E'].
  - rewrite !str_app_cons, !str_app_nil_l. simpl. by rewrite IH.
  - apply bool_decide_eq_true in E' as ->. rewrite !str_app_cons, !str_app_nil_l. simpl.
    by rewrite IH, str_app_cons, str_app_nil_l.
  - simpl. apply bool_decide_eq_false in E. rewrite bool_decide_eq_false_2 by congruence. simpl. by rewrite IH.
Qed.

Lemma unescape_tilde s : str_replace "~0" "~" (escape_tilde s) = s.
Proof.
  unfold str_replace. induction s as [|c s IH]; [done|]. cbn [escape_tilde].
  destruct (bool_decide (c = "~"%char)) eqn:E.
  - apply bool_decide_eq_true in E as ->. rewrite !str_app_cons, !str_app_nil_l. simpl.
    by rewrite IH, str_app_cons, str_app_nil_l.
  - simpl. apply bool_decide_eq_false in E. rewrite bool_decide_eq_false_2 by congruence. simpl. by rewrite IH.
Qed.

Definition no_slash (c : ascii) : bool := negb (bool_decide (c = "/"%char)).

Lemma escape_key_no_slash s : all_chars no_slash (escape_key s) = true.
Proof.
  induction s as [|c s IH]; [done|]. cbn [escape_key].
  destruct (bool_decide (c = "~"%char)); [|destruct (bool_decide (c = "/"%char)) eqn:E];
    rewrite ?all_chars_app, ?IH; try done.
  cbn [all_chars]. rewrite IH, andb_true_r. unfold no_slash. by rewrite E.
Qed.

Lemma split_char_one a : all_chars no_slash a = true → split_char "/"%char a = [a].
Proof.
  induction a as [|c a IH]; [done|]. simpl. intros [Hc Ha]%andb_true_iff.
  apply negb_true_iff in Hc. by rewrite Hc, IH.
Qed.

Lemma split_char_app a b :
  all_chars no_slash a = true → split_char "/"%char (a +:+ String "/" b) = a :: split_char "/"%char b.
Proof.
  induction a as [|c a IH]; [done|]. rewrite str_app_cons. simpl. intros [Hc Ha]%andb_true_iff.
  apply negb_true_iff in Hc. by rewrite Hc, IH.
Qed.

Lemma split_join a l :
  all_chars no_slash a = true → Forall (λ s, all_chars no_slash s = true) l →
  split_char "/"%char (str_join "/" (a :: l)) = a :: l.
Proof.
  intros Ha Hl. revert a Ha. induction Hl as [|b l Hb _ IH]; intros a Ha; [by apply split_char_one|].
  change (str_join "/" (a :: b :: l)) with (a +:+ "/" +:+ str_join "/" (b :: l)).
  rewrite str_app_cons, str_app_nil_l, split_char_app by done. by rewrite IH.
Qed.

Lemma follow_keys current keys :
  follow current (map escape_key keys) =
  match value_at current keys with Some v => Ok v | None => Raise document_invalid end.
Proof.
  revert current. induction keys as [|k ks IH]; intros current; [done|].
  cbn [map follow value_at]. rewrite unescape_slash, unescape_tilde.
  destruct current; try done. destruct (dget k d); [apply IH|done].
Qed.

(** Writing a path of keys as a reference and resolving it is looking the
    keys up one after the other, whatever characters they have (slashes and
    tildes included); a missing key is an invalid document. *)
Theorem reference_round_trip document k ks :
  startswith "#/" (reference_to k ks) = true ∧
  resolve_pointer document (reference_to k ks) =
    match value_at (JObj document) (k :: ks) with
    | Some v => Ok v
    | None => Raise document_invalid
    end.
Proof.
  unfold reference_to, resolve_pointer. split; [apply startswith_app|].
  rewrite <-follow_keys. f_equal. rewrite !str_app_cons, str_app_nil_l. cbn [str_drop map].
  rewrite split_join; [done|apply escape_key_no_slash|].
  apply Forall_fmap, Forall_true. intros. apply escape_key_no_slash.
Qed.

(** ** Names *)

Definition identifier_char (c : ascii) : bool := is_lower_or_digit c || is_underscore c.

Lemma all_chars_impl (P Q : ascii → bool) s :
  (∀ c, P c = true → Q c = true) → all_chars P s = true → all_chars Q s = true.
Proof.
  intros H. induction s as [|c s IH]; [done|]. cbn [all_chars].
  intros [Hc Hs]%andb_true_iff. by rewrite (H _ Hc), IH.
Qed.

Lemma all_chars_lstrip P Q s : all_chars P s = true → all_chars P (lstrip_chars Q s) = true.
Proof.
  induction s as [|c s IH]; [done|]. cbn [all_chars lstrip_chars]. intros H.
  destruct (Q c); [|done]. apply IH. by apply andb_true_iff in H as [_ ?].
Qed.

Lemma all_chars_rstrip P Q s : all_chars P s = true → all_chars P (rstrip_chars Q s) = true.
Proof.
  induction s as [|c s IH]; [done|]. cbn [all_chars rstrip_chars]. intros [Hc Hs]%andb_true_iff.
  specialize (IH Hs). destruct (rstrip_chars Q s) as [|c' t]; [by destruct (Q c); simpl; rewrite ?Hc|].
  cbn [all_chars] in *. by rewrite Hc.
Qed.

Lemma squeeze_chars inside s :
  all_chars (λ c, is_alnum c || is_underscore c) (squeeze_from inside s) = true.
Proof.
  revert inside. induction s as [|c s IH]; intros inside; [done|]. cbn [squeeze_from].
  destruct (is_alnum c) eqn:E; [cbn [all_chars]; by rewrite E, IH|].
  destruct inside; [apply IH|]. cbn [all_chars]. by rewrite IH.
Qed.

Lemma lower_identifier_char c :
  is_alnum c || is_underscore c = true → identifier_char (lower_char c) = true.
Proof. destruct c as [[] [] [] [] [] [] [] []]; vm_compute; done. Qed.

Lemma all_chars_lower (P Q : ascii → bool) s :
  (∀ c, P c = true → Q (lower_char c) = true) → all_chars P s = true → all_chars Q (lower s) = true.
Proof.
  intros H. induction s as [|c s IH]; [done|]. cbn [all_chars lower].
  intros [Hc Hs]%andb_true_iff. by rewrite (H _ Hc), IH.
Qed.

(** Argument names and tool names consist of [a-z0-9_]. *)
Lemma argument_name_chars s : all_chars identifier_char (argument_name s) = true.
Proof.
  unfold argument_name, strip_underscores, squeeze.
  eapply all_chars_lower; [exact lower_identifier_char|].
  apply all_chars_lstrip, all_chars_rstrip, squeeze_chars.
Qed.

Lemma generated_tool_name_shape namespace operation_id method path :
  ∃ suffix, generated_tool_name namespace operation_id method path = namespace +:+ "." +:+ suffix ∧
    all_chars identifier_char suffix = true.
Proof.
  unfold generated_tool_name. eexists. split; [reflexivity|]. apply argument_name_chars.
Qed.

(** ** Input schemas *)

(** The items of [required] are properties, the schemas are closed, and every
    described parameter names a property and a place of the request. *)
Record loop_ok (l : parameter_loop) : Prop := {
  loop_required : ∀ r, r ∈ pl_required l → r ∈ dkeys (pl_properties l);
  loop_closed : ∀ kv, kv ∈ pl_properties l → closed kv.2 = true;
  loop_names : ∀ k, k ∈ dkeys (pl_properties l) → all_chars identifier_char k = true;
  loop_parameters : ∀ p, p ∈ pl_normalized l → ∃ argument name location required schema,
    p = JObj [("argument_name", JStr argument); ("upstream_name", JStr name);
              ("location", JStr location); ("required", JBool required); ("schema", schema)] ∧
    argument ∈ dkeys (pl_properties l) ∧ name ≠ "" ∧ location ∈ parameter_locations ∧
    (location = "path" → required = true) ∧ (required = true → argument ∈ pl_required l) }.

Lemma parameter_key_Some p location name :
  parameter_key p = Some (location, name) → location ∈ parameter_locations ∧ name ≠ "".
Proof.
  unfold parameter_key. destruct (get "in" p); try done. destruct (get "name" p); try done.
  destruct (bool_decide _ && negb (str_empty _)) eqn:E; [|done]. intros [= <- <-].
  py_bools. split; [done|]. by apply str_empty_false.
Qed.

Lemma elem_of_dkeys_dset {V} k' k (v : V) d : k' ∈ dkeys (dset k v d) ↔ k' = k ∨ k' ∈ dkeys d.
Proof.
  rewrite dkeys_dset. destruct (dget k d) as [w|] eqn:E; [|rewrite elem_of_app, list_elem_of_singleton; tauto].
  split; [by right|]. intros [->|H]; [|done]. apply dget_Some_mem in E. by apply (list_elem_of_fmap_2 fst) in E.
Qed.

(** Adding a property (and possibly requiring it) keeps what was there. *)
Lemma loop_ok_set l argument schema required conflict :
  loop_ok l → closed schema = true → all_chars identifier_char argument = true →
  loop_ok (mkLoop conflict (pl_normalized l) (dset argument schema (pl_properties l))
             (if required : bool then pl_required l ++ [argument] else pl_required l)).
Proof.
  intros [Hr Hc Hn Hp] Hs Ha. split; simpl.
  - intros r. rewrite elem_of_dkeys_dset. destruct required; [rewrite elem_of_app, list_elem_of_singleton|]; naive_solver.
  - intros kv [->|H]%dset_item; auto.
  - intros k [->|H]%elem_of_dkeys_dset; auto.
  - intros p H. destruct (Hp p H) as (a & n & loc & req & sch & -> & Hk & Hne & Hl & Hpath & Hreq).
    do 5 eexists. split; [reflexivity|]. rewrite elem_of_dkeys_dset. split_and!; auto.
    intros ->. destruct required; [apply elem_of_app; left|]; auto.
Qed.

Lemma add_parameter_ok document l p l' :
  loop_ok l → add_parameter document l p = Ok l' → loop_ok l'.
Proof.
  intros Hl. unfold add_parameter. destruct (parameter_key p) as [[location name]|] eqn:E.
  2:{ intros [= <-]. destruct Hl. by split. }
  intros H. apply rbind_Ok_inv in H as (schema & _ & (resolved & Hres & [= <-])%rbind_Ok_inv).
  set (argument := if dmem _ _ then _ else _). set (required := bool_decide _ || _).
  apply parameter_key_Some in E as [Hloc Hne].
  apply resolve_computes_expansion, expands_closed in Hres as [Hclosed _].
  assert (Harg : all_chars identifier_char argument = true).
  { unfold argument. destruct (dmem _ _); [|apply argument_name_chars].
    rewrite !all_chars_app, argument_name_chars, andb_true_r.
    repeat (apply elem_of_cons in Hloc as [->|Hloc]; [done|]). by apply elem_of_nil in Hloc. }
  destruct (loop_ok_set l argument resolved required (pl_conflict l) Hl Hclosed Harg) as [Hr Hc Hn Hp].
  split; simpl in *; [done|done|done|]. intros q [Hq| ->%list_elem_of_singleton]%elem_of_app; [by apply Hp|].
  do 5 eexists. split; [reflexivity|]. rewrite elem_of_dkeys_dset. split_and!; auto.
  - intros ->. done.
  - intros ->. apply elem_of_app. right. constructor.
Qed.

Lemma add_parameters_ok document ps : ∀ l l',
  loop_ok l → add_parameters document l ps = Ok l' → loop_ok l'.
Proof.
  induction ps as [|p ps IH]; intros l l' Hl; simpl; [by intros [= <-]|].
  intros (l1 & H1 & H)%rbind_Ok_inv. eauto using add_parameter_ok.
Qed.

(** A parameter of the request as the operation describes it. *)
Record described := mkDescribed {
  de_argument : string;
  de_name : string;
  de_location : string;
  de_required : bool;
  de_schema : json }.

Definition described_json (d : described) : json :=
  JObj [("argument_name", JStr (de_argument d)); ("upstream_name", JStr (de_name d));
        ("location", JStr (de_location d)); ("required", JBool (de_required d));
        ("schema", de_schema d)].

(** It is a parameter of the document: its name, its place, its schema with the
    references resolved; a path parameter is required, another one if it says
    so; the argument is named after it. *)
Definition describes (document parameter : dict json) (d : described) : Prop :=
  get "name" parameter = JStr (de_name d) ∧ de_name d ≠ "" ∧
  get "in" parameter = JStr (de_location d) ∧ de_location d ∈ ["path"; "query"; "header"] ∧
  resolve document (get_or (JObj []) "schema" parameter) = Ok (de_schema d) ∧
  (de_required d = true ↔ de_location d = "path" ∨ get "required" parameter = JBool true) ∧
  (de_argument d = argument_name (de_name d) ∨
   de_argument d = de_location d +:+ "_" +:+ argument_name (de_name d)).

(** The parameters that are described: those with a name and in a place that
    is supported. *)
Definition is_supported (parameter : dict json) : bool := negb (is_none (parameter_key parameter)).

(** The properties and the required items of the arguments' schema: one of each
    parameter, a later one in place of an earlier one of the same argument, and
    that of the body last. *)
Definition properties_of (ds : list described) : dict json :=
  foldl (λ props d, dset (de_argument d) (de_schema d) props) [] ds.
Definition input_properties (ds : list described) (body : option request_body) : dict json :=
  match body with Some b => dset "body" (rb_schema b) (properties_of ds) | None => properties_of ds end.
Definition required_of (ds : list described) : list string :=
  map de_argument (filter (λ d, de_required d = true) ds).
Definition required_arguments (ds : list described) (body : option request_body) : list string :=
  required_of ds ++ match body with Some b => if rb_required b then ["body"] else [] | None => [] end.

(** What a published tool relies on: the operation describes the parameters of
    its path and its own in the document, and its body; the schema of its
    arguments is the object of these, and well formed: what is required is a
    property, the schemas are closed and the names are identifiers. *)
Definition input_contract (document : dict json) (path_parameters operation_parameters : list json)
    (operation : dict json) (o : ParsedOperation) : Prop :=
  ∃ merged ds body unsupported,
    merge_parameters path_parameters operation_parameters document = Ok merged ∧
    Forall2 (describes document) (filter (λ p, is_supported p = true) merged) ds ∧
    normalize_request_body (get "requestBody" operation) document = Ok (body, unsupported) ∧
    dget "parameters" (po_normalized_operation o) = Some (JArr (map described_json ds)) ∧
    dget "request_body" (po_normalized_operation o) = Some (request_body_json body) ∧
    dget "tool_input_schema" (po_normalized_operation o) =
      Some (JObj [("type", JStr "object"); ("properties", JObj (input_properties ds body));
                  ("required", JArr (map JStr (required_arguments ds body)));
                  ("additionalProperties", JBool false)]) ∧
    (∀ r, r ∈ required_arguments ds body → r ∈ dkeys (input_properties ds body)) ∧
    (∀ kv, kv ∈ input_properties ds body → closed kv.2 = true ∧ all_chars identifier_char kv.1 = true).

(** The loop's variables after the parameters [ds]. *)
Definition loop_state (ds : list described) (l : parameter_loop) : Prop :=
  pl_normalized l = map described_json ds ∧ pl_properties l = properties_of ds ∧
  pl_required l = required_of ds.

Lemma properties_of_snoc ds d :
  properties_of (ds ++ [d]) = dset (de_argument d) (de_schema d) (properties_of ds).
Proof. unfold properties_of. by rewrite foldl_app. Qed.

Lemma required_of_snoc ds d :
  required_of (ds ++ [d]) = if de_required d then required_of ds ++ [de_argument d] else required_of ds.
Proof.
  unfold required_of. rewrite filter_app, map_app, filter_cons.
  destruct (de_required d); [done|]. by rewrite decide_False, app_nil_r by done.
Qed.

Lemma parameter_key_supported p : is_supported p = false → parameter_key p = None.
Proof. unfold is_supported. by destruct (parameter_key p). Qed.

Lemma parameter_key_fields p location name :
  parameter_key p = Some (location, name) → get "in" p = JStr location ∧ get "name" p = JStr name.
Proof.
  unfold parameter_key. destruct (get "in" p); try done. destruct (get "name" p); try done.
  destruct (bool_decide _ && negb _); [|done]. by intros [= -> ->].
Qed.

Lemma add_parameter_described document l p l' ds :
  loop_state ds l → add_parameter document l p = Ok l' →
  if is_supported p then ∃ d, describes document p d ∧ loop_state (ds ++ [d]) l' else loop_state ds l'.
Proof.
  intros (Hn & Hp & Hr) H. unfold add_parameter in H. unfold is_supported.
  destruct (parameter_key p) as [[location name]|] eqn:E; simpl; [|injection H as <-; by split_and!].
  apply rbind_Ok_inv in H as (schema & Hs & (resolved & Hres & [= <-])%rbind_Ok_inv).
  set (argument := if dmem _ _ then _ else _). set (required := bool_decide _ || _).
  assert (Harg : argument = argument_name name ∨ argument = location +:+ "_" +:+ argument_name name)
    by (unfold argument; destruct (dmem _ _); auto).
  exists (mkDescribed argument name location required resolved).
  apply parameter_key_fields in E as E'. destruct E' as [Hin Hname]. apply parameter_key_Some in E as [Hloc Hne].
  split.
  - split_and!; simpl; try done.
    + destruct (get_or (JObj []) "schema" p); try done. by injection Hs as ->.
    + unfold required, is_true. by rewrite orb_true_iff, !bool_decide_eq_true.
  - unfold loop_state. simpl. rewrite properties_of_snoc, required_of_snoc, map_app, Hn, Hp, Hr.
    by split_and!; [|rewrite <-Hp|].
Qed.

Lemma add_parameters_described document ps : ∀ l l' ds,
  loop_state ds l → add_parameters document l ps = Ok l' →
  ∃ ds', Forall2 (describes document) (filter (λ p, is_supported p = true) ps) ds' ∧ loop_state (ds ++ ds') l'.
Proof.
  induction ps as [|p ps IH]; intros l l' ds Hl; simpl.
  { intros [= <-]. exists []. rewrite app_nil_r. split; [constructor|done]. }
  intros (l1 & H1 & H)%rbind_Ok_inv. apply (add_parameter_described _ _ _ _ ds Hl) in H1.
  rewrite filter_cons. destruct (is_supported p).
  - destruct H1 as (d & Hd & Hl1). destruct (IH _ _ _ Hl1 H) as (ds' & Hds & Hl').
    rewrite decide_True by done. exists (d :: ds'). split; [by constructor|]. by rewrite <-app_assoc in Hl'.
  - rewrite decide_False by done. by apply (IH _ _ _ H1 H).
Qed.

Lemma normalize_request_body_closed raw document b u :
  normalize_request_body raw document = Ok (Some b, u) → closed (rb_schema b) = true.
Proof.
  unfold normalize_request_body. intros H.
  assert (∃ v, resolve document v = Ok (rb_schema b)) as [v Hv].
  { destruct raw; try done;
      apply rbind_Ok_inv in H as (r & _ & (body & _ & (c & _ & H)%rbind_Ok_inv)%rbind_Ok_inv);
      destruct (get "application/json" c); try done;
      apply rbind_Ok_inv in H as (media & _ & (sch & _ & (v & Hv & [= <- _])%rbind_Ok_inv)%rbind_Ok_inv);
      eexists; exact Hv. }
  by apply resolve_computes_expansion, expands_closed in Hv as [? _].
Qed.

Lemma add_parameters_conflict document ps : ∀ l l',
  add_parameters document l ps = Ok l' →
  pl_conflict l' = pl_conflict l ∨ pl_conflict l' = ConflictUnsupported.
Proof.
  induction ps as [|p ps IH]; intros l l'; simpl; [intros [= <-]; by left|].
  intros (l1 & H1 & H)%rbind_Ok_inv. destruct (IH _ _ H) as [->|]; [|by right].
  unfold add_parameter in H1. destruct (parameter_key p) as [[location name]|]; [|by injection H1 as <-; right].
  apply rbind_Ok_inv in H1 as (? & _ & (? & _ & [= <-])%rbind_Ok_inv). by left.
Qed.

Lemma parse_operation_ok document namespace method path key id operation pps o :
  parse_operation document namespace method path key id operation pps = Ok o →
  po_operation_key o = key ∧ po_operation_id o = id ∧ po_method o = upper method ∧ po_path o = path ∧
  po_generated_tool_name o = Some (generated_tool_name namespace id method path) ∧
  (id = None → po_conflict_status o ≠ ConflictNone) ∧
  ∃ ops, get_or (JArr []) "parameters" operation = JArr ops ∧ input_contract document pps ops operation o.
Proof.
  unfold parse_operation. cbv zeta. set (start := mkLoop _ _ _ _).
  intros (ops & Hops & (merged & Hm & (l & Hl & H)%rbind_Ok_inv)%rbind_Ok_inv)%rbind_Ok_inv.
  apply rbind_Ok_inv in H as ([body bu] & Hb & H).
  apply rbind_Ok_inv in H as ([[rs out] ru] & _ & (tags & _ & (sec & _ & [= <-])%rbind_Ok_inv)%rbind_Ok_inv).
  assert (Hok : loop_ok l).
  { eapply add_parameters_ok; [|exact Hl]. split; simpl; by intros ? ?%elem_of_nil. }
  assert (Hconf : pl_conflict l = pl_conflict start ∨ pl_conflict l = ConflictUnsupported).
  { apply add_parameters_conflict in Hl. done. }
  destruct (add_parameters_described document merged start l []) as (ds & Hds & Hn & Hp & Hr); [done|exact Hl|].
  cbn [app] in Hn, Hp, Hr.
  cbn [po_operation_key po_operation_id po_method po_path po_generated_tool_name po_conflict_status].
  split_and!; try done.
  { intros ->. destruct ru, bu; try done. by destruct Hconf as [-> | ->]. }
  exists ops. split; [destruct (get_or (JArr []) "parameters" operation); try done; by injection Hops as ->|].
  set (l' := mkLoop ConflictNone (pl_normalized l)
    (match body with Some b => dset "body" (rb_schema b) (pl_properties l) | None => pl_properties l end)
    (if match body with Some b => rb_required b | None => false end then pl_required l ++ ["body"] else pl_required l)).
  assert (Hok' : loop_ok l').
  { unfold l'. destruct body as [b|]; [|by destruct Hok].
    apply loop_ok_set; [done|by eapply normalize_request_body_closed|done]. }
  assert (Hprops : pl_properties l' = input_properties ds body)
    by (unfold l', input_properties; simpl; by destruct body; rewrite Hp).
  assert (Hreq : pl_required l' = required_arguments ds body).
  { unfold l', required_arguments. simpl. rewrite Hr.
    by destruct body as [b|]; [destruct (rb_required b)|]; rewrite ?app_nil_r. }
  exists merged, ds, body, bu. split_and!; [done|done|exact Hb|by rewrite <-Hn|done| | |].
  - simpl. rewrite <-Hprops, <-Hreq. unfold l'. simpl. by destruct body as [b|]; [destruct (rb_required b)|].
  - rewrite <-Hprops, <-Hreq. apply Hok'.
  - rewrite <-Hprops. intros kv Hkv. split; [by apply Hok'|].
    apply (loop_names _ Hok'). by apply (list_elem_of_fmap_2 fst).
Qed.

(** ** The parsed document *)

(** The operations the allowlist admits: all if it is empty, otherwise those of
    which it has the method and the path, or the stripped [operationId]. *)
Definition admitted (allowlist : list string) (path method : string) (operation : dict json) : Prop :=
  allowlist = [] ∨ upper method +:+ " " +:+ path ∈ allowlist ∨
  match get "operationId" operation with
  | JStr operation_id => strip operation_id ≠ "" ∧ strip operation_id ∈ allowlist
  | _ => False
  end.
#[export] Instance admitted_dec allowlist path method operation :
  Decision (admitted allowlist path method operation).
Proof. unfold admitted. destruct (get "operationId" operation); apply _. Defined.

Lemma is_allowed_iff allowlist path method operation :
  is_allowed allowlist (operation_key_of method path) (operation_id_of operation) = true ↔
  admitted allowlist path method operation.
Proof.
  unfold is_allowed, admitted, operation_id_of, operation_key_of. destruct allowlist as [|a l].
  { split; [by left|done]. }
  rewrite orb_true_iff, bool_decide_eq_true.
  destruct (get "operationId" operation) as [| | | |id| |]; try naive_solver.
  destruct (str_empty (strip id)) eqn:E.
  - apply str_empty_true in E. rewrite E. naive_solver.
  - apply str_empty_false in E. rewrite bool_decide_eq_true. naive_solver.
Qed.

(** The keys of the admitted operations, in the order of the sorted paths and
    of the five methods. *)
Definition allowed_key (allowlist : list string) (path : string) (item : dict json)
    (method : string) : option string :=
  match get method item with
  | JObj operation =>
      if decide (admitted allowlist path method operation) then Some (upper method +:+ " " +:+ path) else None
  | _ => None
  end.
Definition allowed_keys (allowlist : list string) (paths : dict json) : list string :=
  concat (map (λ entry, match entry.2 with
                        | JObj item => omap (allowed_key allowlist entry.1 item)
                                         ["get"; "post"; "put"; "patch"; "delete"]
                        | _ => []
                        end) (sorted_items paths)).

(** An operation of the result is an operation of the document: under its path
    and method, with its id, a name in the namespace, and its input. *)
Definition parsed_of (document : dict json) (namespace path : string) (item : dict json) (method : string)
    (operation : dict json) (o : ParsedOperation) : Prop :=
  get method item = JObj operation ∧
  po_operation_key o = upper method +:+ " " +:+ path ∧ po_method o = upper method ∧ po_path o = path ∧
  po_operation_id o = operation_id_of operation ∧
  (∃ suffix, po_generated_tool_name o = Some (namespace +:+ "." +:+ suffix) ∧
     all_chars identifier_char suffix = true) ∧
  (po_conflict_status o = ConflictNone → po_operation_id o ≠ None) ∧
  ∃ path_parameters operation_parameters,
    get_or (JArr []) "parameters" item = JArr path_parameters ∧
    get_or (JArr []) "parameters" operation = JArr operation_parameters ∧
    input_contract document path_parameters operation_parameters operation o.

Definition parsed_ok (document : dict json) (namespace : string) (paths : dict json)
    (o : ParsedOperation) : Prop :=
  ∃ path item method operation, (path, JObj item) ∈ paths ∧
    method ∈ ["get"; "post"; "put"; "patch"; "delete"] ∧
    parsed_of document namespace path item method operation o.

Lemma parse_method_keys document namespace allowlist path item pps methods found :
  get_or (JArr []) "parameters" item = JArr pps →
  traverse (parse_method document namespace allowlist path item pps) methods = Ok found →
  map po_operation_key (omap id found) = omap (allowed_key allowlist path item) methods ∧
  Forall (λ o, ∃ method operation, method ∈ methods ∧ parsed_of document namespace path item method operation o)
    (omap id found).
Proof.
  intros Hpps. rewrite traverse_Ok. induction 1 as [|m r ms found Hm _ [IH1 IH2]]; [by split|].
  assert (IH2' : Forall (λ o, ∃ method operation, method ∈ m :: ms ∧
                   parsed_of document namespace path item method operation o) (omap id found)).
  { eapply Forall_impl; [exact IH2|]. intros o (m' & op & ? & ?). exists m', op. split; [by right|done]. }
  unfold parse_method in Hm.
  assert (Hcase : r = None ∧ allowed_key allowlist path item m = None ∨
                  ∃ o op, r = Some o ∧ allowed_key allowlist path item m = Some (po_operation_key o) ∧
                       parsed_of document namespace path item m op o).
  { unfold allowed_key. destruct (get m item) as [| | | | | |op] eqn:Eg; try done; [injection Hm as <-; by left|].
    cbn [rbind require_mapping] in Hm. cbv zeta in *.
    destruct (is_allowed _ _ _) eqn:Ea; cbn [negb] in Hm.
    - apply is_allowed_iff in Ea. rewrite decide_True by done.
      apply rbind_Ok_inv in Hm as (o & Ho & [= <-]). right. exists o, op.
      destruct (parse_operation_ok _ _ _ _ _ _ _ _ _ Ho)
        as (Hk & Hid & Hmeth & Hpath & Hname & Hc & ops & Hops & Hi).
      split; [done|]. split; [by rewrite Hk|]. split_and!; try done.
      + rewrite Hname. destruct (generated_tool_name_shape namespace (operation_id_of op) m path) as (s & -> & ?).
        eauto.
      + rewrite Hid. naive_solver.
      + exists pps, ops. by split_and!.
    - rewrite decide_False; [injection Hm as <-; by left|]. rewrite <-is_allowed_iff, Ea. done. }
  simpl. destruct Hcase as [[-> ->]|(o & op & -> & -> & Ho)]; simpl; [by split|].
  split; [by f_equal|]. constructor; [|done]. exists m, op. split; [by left|done].
Qed.

Lemma parse_path_keys document namespace allowlist entries found :
  traverse (parse_path document namespace allowlist) entries = Ok found →
  map po_operation_key (concat found) =
    concat (map (λ entry, match entry.2 with
                          | JObj item => omap (allowed_key allowlist entry.1 item) http_methods
                          | _ => []
                          end) entries) ∧
  Forall (parsed_ok document namespace entries) (concat found).
Proof.
  rewrite traverse_Ok. induction 1 as [|[path raw] r entries found Hp _ [IH1 IH2]]; [by split|].
  unfold parse_path in Hp. apply rbind_Ok_inv in Hp as ([] & _ & (item & Hi & (pps & Hpps & H)%rbind_Ok_inv)%rbind_Ok_inv).
  apply rbind_Ok_inv in H as (rs & Hrs & [= <-]). destruct raw; try done. injection Hi as ->.
  assert (Hpps' : get_or (JArr []) "parameters" item = JArr pps)
    by (destruct (get_or (JArr []) "parameters" item); try done; by injection Hpps as ->).
  destruct (parse_method_keys _ _ _ _ _ _ _ _ Hpps' Hrs) as [H1 H2]. cbn [map concat fst snd].
  rewrite map_app, H1, IH1. split; [done|]. apply Forall_app. split.
  - eapply Forall_impl; [exact H2|]. intros o (m & op & ? & ?). exists path, item, m, op.
    split; [by left|done].
  - eapply Forall_impl; [exact IH2|]. intros o (p & it & m & op & ? & ? & ?). exists p, it, m, op.
    split; [by right|done].
Qed.

Lemma filter_two {A} (P : A → Prop) `{∀ x, Decision (P x)} (l : list A) i j x y :
  l !! i = Some x → l !! j = Some y → P x → P y → i < j → 2 ≤ length (filter P l).
Proof.
  revert i j. induction l as [|z l IH]; intros i j Hi Hj Px Py Hij; [done|].
  destruct j as [|j]; [lia|]. simpl in Hj. destruct i as [|i].
  - injection Hi as ->. rewrite filter_cons_True by done. simpl.
    assert (y ∈ filter P l) by (apply list_elem_of_filter; eauto using list_elem_of_lookup_2).
    destruct (filter P l); [by apply elem_of_nil in H0|simpl; lia].
  - rewrite filter_cons. specialize (IH i j Hi Hj Px Py ltac:(lia)).
    case_decide; simpl; lia.
Qed.

Lemma mark_collision_fields ops o :
  po_operation_key (mark_collision ops o) = po_operation_key o ∧
  po_operation_id (mark_collision ops o) = po_operation_id o ∧
  po_normalized_operation (mark_collision ops o) = po_normalized_operation o ∧
  po_generated_tool_name (mark_collision ops o) = po_generated_tool_name o.
Proof. unfold mark_collision. repeat case_match; done. Qed.

Lemma mark_collision_place ops o :
  po_method (mark_collision ops o) = po_method o ∧ po_path (mark_collision ops o) = po_path o.
Proof. unfold mark_collision. repeat case_match; done. Qed.

Lemma mark_collision_none ops o :
  po_conflict_status (mark_collision ops o) = ConflictNone →
  po_conflict_status o = ConflictNone ∧
  ∀ name, po_generated_tool_name o = Some name → name_count name ops ≤ 1.
Proof.
  unfold mark_collision. destruct (po_generated_tool_name o) as [name|] eqn:E; [|by split].
  destruct ((1 <? name_count name ops)%nat && _) eqn:Hc; simpl; [done|]. intros Hn. split; [done|].
  intros n [= <-]. rewrite Hn, bool_decide_eq_true_2, andb_true_r in Hc by done.
  apply Nat.ltb_ge in Hc. lia.
Qed.

Lemma parsed_ok_mark document namespace paths ops o :
  parsed_ok document namespace paths o → parsed_ok document namespace paths (mark_collision ops o).
Proof.
  destruct (mark_collision_fields ops o) as (Hk & Hid & Hn & Hname).
  intros (p & it & m & op & Hin & Hm & Hg & H1 & H2 & H3 & H4 & H5 & H6 & pps & ops' & H7 & H8 & H9).
  exists p, it, m, op. split; [done|]. split; [done|]. unfold parsed_of, input_contract.
  rewrite Hid, Hn, Hname, Hk. split_and!; try done.
  - by destruct (mark_collision_place ops o) as [-> _].
  - by destruct (mark_collision_place ops o) as [_ ->].
  - intros [H _]%mark_collision_none. auto.
  - exists pps, ops'. by split_and!.
Qed.

(** Operation keys identify path and method. *)
Lemma operation_key_inj m m' p p' :
  m ∈ http_methods → m' ∈ http_methods → operation_key_of m p = operation_key_of m' p' → m = m' ∧ p = p'.
Proof.
  unfold http_methods, operation_key_of. intros Hm Hm'.
  repeat (apply elem_of_cons in Hm as [->|Hm]); try (by apply elem_of_nil in Hm);
    repeat (apply elem_of_cons in Hm' as [->|Hm']); try (by apply elem_of_nil in Hm');
    cbn -[String.append]; rewrite !str_app_cons, ?str_app_nil_l; intros E; simplify_eq; done.
Qed.

Lemma allowed_key_Some allowlist path item m key :
  allowed_key allowlist path item m = Some key → key = operation_key_of m path.
Proof. unfold allowed_key. intros H. destruct (get m item); try done. case_decide; by simplify_eq. Qed.

Lemma NoDup_omap {A B} (f : A → option B) l :
  NoDup l → (∀ x y b, x ∈ l → y ∈ l → f x = Some b → f y = Some b → x = y) → NoDup (omap f l).
Proof.
  induction 1 as [|x l Hx _ IH]; intros Hf; simpl; [constructor|].
  assert (NoDup (omap f l)) by (apply IH; intros; eapply Hf; eauto; by constructor).
  destruct (f x) as [b|] eqn:E; [|done]. constructor; [|done].
  intros (y & Hy & E')%list_elem_of_omap. apply Hx.
  rewrite (Hf x y b); [done|constructor|by constructor|done|done].
Qed.

Lemma allowed_keys_NoDup allowlist paths : NoDup (dkeys paths) → NoDup (allowed_keys allowlist paths).
Proof.
  intros Hnd. unfold allowed_keys.
  assert (Hs : NoDup (sorted_items paths).*1).
  { unfold sorted_items. rewrite (fmap_Permutation fst _ _ (sorted_by_perm _ paths)). done. }
  revert Hs. induction (sorted_items paths) as [|[path raw] entries IH]; [constructor|].
  rewrite fmap_cons, NoDup_cons. intros [Hp Hs]. cbn [map concat fst snd]. apply NoDup_app. split_and!.
  - destruct raw; try constructor. apply NoDup_omap; [repeat constructor; set_solver|].
    intros x y key Hx Hy E1%allowed_key_Some E2%allowed_key_Some.
    by apply (operation_key_inj x y path path Hx Hy); rewrite <-E1, <-E2.
  - intros key Hk Hk'. destruct raw as [| | | | | |item]; try by apply elem_of_nil in Hk.
    apply list_elem_of_omap in Hk as (m & Hm & ->%allowed_key_Some).
    apply list_elem_of_In, in_concat in Hk' as (ks & Hks & Hin).
    apply in_map_iff in Hks as ([path' raw'] & <- & Hin'). apply list_elem_of_In in Hin. cbn [fst snd] in Hin.
    destruct raw' as [| | | | | |item']; try by apply elem_of_nil in Hin.
    apply list_elem_of_omap in Hin as (m' & Hm' & E%allowed_key_Some).
    destruct (operation_key_inj m m' path path' Hm Hm' E) as [-> ->].
    apply Hp. apply list_elem_of_In in Hin'. by apply (list_elem_of_fmap_2 fst) in Hin'.
  - by apply IH.
Qed.


(** The exceptions of the parser: a document it does not accept, a feature it
    does not support, or an unhashable parameter name. *)
Definition parser_error (x : exn) : Prop :=
  x = document_invalid ∨ x = feature_unsupported ∨ x = TypeError.

Definition raises_parser_errors {A} (r : res A) : Prop := ∀ x, r = Raise x → parser_error x.

Create HintDb parser discriminated.

Lemma raises_Ok {A} (a : A) : raises_parser_errors (Ok a).
Proof. done. Qed.
Lemma raises_invalid {A} : raises_parser_errors (A := A) (Raise document_invalid).
Proof. intros x [= <-]. by left. Qed.
Lemma raises_unsupported {A} : raises_parser_errors (A := A) (Raise feature_unsupported).
Proof. intros x [= <-]. by right; left. Qed.
Lemma raises_TypeError {A} : raises_parser_errors (A := A) (Raise TypeError).
Proof. intros x [= <-]. by right; right. Qed.
Lemma raises_raise_if c x : parser_error x → raises_parser_errors (raise_if c x).
Proof. intros Hx y. destruct c; [by intros [= <-]|done]. Qed.
Lemma raises_rbind {A B} (m : res A) (k : A → res B) :
  raises_parser_errors m → (∀ a, raises_parser_errors (k a)) → raises_parser_errors (rbind m k).
Proof. intros Hm Hk. destruct m; simpl; [apply Hk|intros y [= <-]; by apply Hm]. Qed.
Lemma raises_traverse {A B} (f : A → res B) l :
  (∀ x, raises_parser_errors (f x)) → raises_parser_errors (traverse f l).
Proof. intros Hf. induction l as [|x l IH]; simpl; auto using @raises_rbind, @raises_Ok. Qed.
#[local] Hint Resolve raises_Ok raises_invalid raises_unsupported raises_TypeError : parser.

(** Walk through the code: sequencing, guards, loops and branches. *)
Ltac raises_solve :=
  repeat match goal with
  | |- raises_parser_errors (rbind _ _) => apply raises_rbind; [|intros]
  | |- raises_parser_errors (traverse _ _) => apply raises_traverse; intros
  | |- raises_parser_errors (raise_if _ _) => apply raises_raise_if; unfold parser_error; tauto
  | |- raises_parser_errors (match ?d with _ => _ end) => destruct d
  | |- raises_parser_errors (let _ := _ in _) => cbv zeta
  | |- _ => solve [auto with parser]
  end.

Lemma require_mapping_raises v : raises_parser_errors (require_mapping v).
Proof. unfold require_mapping. raises_solve. Qed.
Lemma require_sequence_raises v : raises_parser_errors (require_sequence v).
Proof. unfold require_sequence. raises_solve. Qed.
#[local] Hint Resolve require_mapping_raises require_sequence_raises : parser.

Lemma string_list_raises v : raises_parser_errors (string_list v).
Proof. unfold string_list. raises_solve. Qed.
Lemma follow_raises current parts : raises_parser_errors (follow current parts).
Proof. revert current. induction parts; intros current; simpl; raises_solve. Qed.
#[local] Hint Resolve string_list_raises follow_raises : parser.

Lemma resolve_node_raises document levels : ∀ stack v,
  raises_parser_errors (resolve_node levels document stack v).
Proof. induction levels; intros stack v; cbn [resolve_node]; unfold resolve_pointer; raises_solve. Qed.

Lemma resolve_raises document v : raises_parser_errors (resolve document v).
Proof. apply resolve_node_raises. Qed.
#[local] Hint Resolve resolve_raises : parser.

Lemma merge_from_raises document raw : ∀ merged, raises_parser_errors (merge_from document merged raw).
Proof. induction raw; intros merged; cbn [merge_from]; raises_solve. Qed.
Lemma add_parameters_raises document ps : ∀ l, raises_parser_errors (add_parameters document l ps).
Proof. induction ps; intros l; cbn [add_parameters]; unfold add_parameter; raises_solve. Qed.
Lemma normalize_request_body_raises raw document : raises_parser_errors (normalize_request_body raw document).
Proof. unfold normalize_request_body. raises_solve. Qed.
Lemma normalize_responses_raises raw document : raises_parser_errors (normalize_responses raw document).
Proof. unfold normalize_responses, normalize_response. raises_solve. Qed.
Lemma normalize_security_raises v : raises_parser_errors (normalize_security v).
Proof. unfold normalize_security. raises_solve. Qed.
#[local] Hint Resolve merge_from_raises add_parameters_raises normalize_request_body_raises
  normalize_responses_raises normalize_security_raises : parser.

(** The parser fails with one of the two import errors, or with the
    [TypeError] of an unhashable parameter name or location. *)
Lemma parse_raises document namespace allowlist : raises_parser_errors (parse document namespace allowlist).
Proof.
  unfold parse, parse_path, parse_method, parse_operation, merge_parameters. raises_solve.
Qed.

(** ** Examples *)

Module OpenApiExamples.
Definition ref (r : string) : json := JObj [("$ref", JStr r)].
Definition obj (d : dict json) : json := JObj d.

(** Two operations share a parameter and a schema through references; one
    has no operation id and is kept, with a conflict. *)
Definition orders : dict json := [
  ("openapi", JStr "3.1.0");
  ("components", obj [
    ("parameters", obj [("Id", obj [("name", JStr "orderId"); ("in", JStr "path");
       ("schema", obj [("type", JStr "string"); ("example", JStr "o-1")])])]);
    ("schemas", obj [
       ("Order", obj [("type", JStr "object"); ("properties", obj [("total", ref "#/components/schemas/Money~1EUR")])]);
       ("Money/EUR", obj [("type", JStr "number")])])]);
  ("paths", obj [
    ("/orders/{orderId}", obj [
      ("parameters", JArr [ref "#/components/parameters/Id"]);
      ("put", obj [("operationId", JStr " updateOrder "); ("requestBody", obj [("required", JBool true);
         ("content", obj [("application/json", obj [("schema", ref "#/components/schemas/Order")])])]);
         ("responses", obj [("204", obj [("description", JStr "done")])])]);
      ("get", obj [("responses", obj [("200", obj [("content",
         obj [("application/json", obj [("schema", ref "#/components/schemas/Order")])])])])])])])].

Definition names (r : res ParsedOpenApiDocument) : list (string * option string * OperationConflictStatus) :=
  match r with
  | Ok d => map (λ o, (po_operation_key o, po_generated_tool_name o, po_conflict_status o)) (pd_operations d)
  | Raise _ => []
  end.

Example orders_parsed : names (parse orders "shop" []) =
  [("GET /orders/{orderId}", Some "shop.get_orders_order_id", ConflictMissingOperationId);
   ("PUT /orders/{orderId}", Some "shop.update_order", ConflictNone)].
Proof. by vm_compute. Qed.

Example orders_allowlist :
  names (parse orders "shop" ["updateOrder"]) = [("PUT /orders/{orderId}", Some "shop.update_order", ConflictNone)] ∧
  parse orders "shop" ["deleteOrder"] = Raise document_invalid ∧
  parse orders "Shop" [] = Raise document_invalid.
Proof. by vm_compute. Qed.

Definition order_schema : json :=
  obj [("type", JStr "object"); ("properties", obj [("total", obj [("type", JStr "number")])])].

Example order_schema_resolved : resolve orders (ref "#/components/schemas/Order") = Ok order_schema.
Proof. by vm_compute. Qed.

Lemma resolved_is_closed_witness :
  resolve orders (ref "#/components/schemas/Order") = Ok order_schema ∧
  resolve [] order_schema = Ok order_schema.
Proof.
  split; [by vm_compute|].
  refine (proj2 (proj2 (resolved_is_closed orders [] (ref "#/components/schemas/Order") order_schema _))).
  by vm_compute.
Defined.


(** A cycle of references is refused, and so is one that escapes the document. *)
Definition tree : dict json := [("Node", obj [("child", ref "#/Node")])].
Example cycles_are_refused :
  resolve tree (ref "#/Node") = Raise feature_unsupported ∧
  resolve tree (ref "https://example.org/#/Node") = Raise feature_unsupported ∧
  resolve tree (ref "#/Leaf") = Raise document_invalid.
Proof. by vm_compute. Qed.

(** A property that is called [example] is dropped from its schema like an
    example of it, while [required] still names it. *)
Example property_named_example_is_dropped :
  resolve [] (obj [("type", JStr "object");
                   ("properties", obj [("example", obj [("type", JStr "string")])]);
                   ("required", JArr [JStr "example"])]) =
  Ok (obj [("type", JStr "object"); ("properties", obj []); ("required", JArr [JStr "example"])]).
Proof. by vm_compute. Qed.

(** The schema of a parameter called [body] is overwritten by the request
    body's; the operation has no conflict. *)
Definition body_clash : dict json := [
  ("openapi", JStr "3.0.3");
  ("paths", obj [("/notes", obj [("post", obj [
     ("operationId", JStr "addNote");
     ("parameters", JArr [obj [("name", JStr "Body"); ("in", JStr "query"); ("schema", obj [("type", JStr "string")])]]);
     ("requestBody", obj [("content", obj [("application/json", obj [("schema", obj [("type", JStr "array")])])])]);
     ("responses", obj [])])])])].
Definition input_properties (r : res ParsedOpenApiDocument) : list json :=
  match r with
  | Ok d => map (λ o, match get "tool_input_schema" (po_normalized_operation o) with
                      | JObj s => get "properties" s | _ => JNull end) (pd_operations d)
  | Raise _ => []
  end.
Example parameter_named_body_is_overwritten :
  names (parse body_clash "notes" []) = [("POST /notes", Some "notes.add_note", ConflictNone)] ∧
  input_properties (parse body_clash "notes" []) = [obj [("body", obj [("type", JStr "array")])]].
Proof. by vm_compute. Qed.

(** An operation id without letters or digits gives a name that ends in the dot. *)
Example empty_tool_name : generated_tool_name "shop" (Some "--") "get" "/" = "shop.".
Proof. by vm_compute. Qed.
End OpenApiExamples.
