(* ===== verification/OpenApiImport.v ===== *)
(** * OpenAPI import: jobs and the import use case

    Models [modules/openapi_import/adapters/in_memory.py], [in_memory_uow.py],
    [in_memory_review_uow.py], [import_openapi.py] and [queries.py].  An
    import runs in several short transactions: it creates the job, marks it
    parsing, and completes it with its operations or fails it.  The reader of
    local documents does file input/output and is a parameter. *)

From Stdlib Require Import ZArith Lia.
From stdpp Require Import base sets strings option list.
From S2P Require Import Prelude Text Dict Errors Json Store AuditTrail Catalog Connectors Registry Publish OpenApi.
Open Scope py_scope.

(** ** [InMemoryOpenApiImportRepository] *)

Section Repository.
Context {D : Type} `{!Table D OpenApiImportJob} `{!Table D ImportedOperation}.

Definition add_job (tenant_id : string) (j : OpenApiImportJob) : M D unit :=
  lift (require_matching_tenant tenant_id (ij_tenant_id j)) ;;*
  let* t := read_table in
  lift (raise_if (dmem (ij_id j) t) (ValueError "OpenAPI import job id already exists")) ;;*
  write_table (dset (ij_id j) j t).

Definition save_job (tenant_id : string) (j : OpenApiImportJob) : M D unit :=
  lift (require_matching_tenant tenant_id (ij_tenant_id j)) ;;*
  let* t := read_table in
  lift (raise_if (is_none (in_tenant ij_tenant_id tenant_id (dget (ij_id j) t)))
          (ValueError "OpenAPI import job does not exist in tenant")) ;;*
  write_table (dset (ij_id j) j t).

(** [get_job_by_id], and [get_job_for_update] *)
Definition get_job (tenant_id id : string) : M D (option OpenApiImportJob) :=
  let* t := read_table in ret (in_tenant ij_tenant_id tenant_id (dget id t)).

Definition job_and_key (o : ImportedOperation) : string * string :=
  (io_import_job_id o, io_operation_key o).

(** The loop of [add_operations], with the keys seen so far. *)
Fixpoint add_operations_from (tenant_id : string) (existing_keys : list (string * string))
    (operations : list ImportedOperation) : M D unit :=
  match operations with
  | [] => ret tt
  | o :: rest =>
      lift (require_matching_tenant tenant_id (io_tenant_id o)) ;;*
      let* t := read_table in
      lift (raise_if (dmem (io_id o) t) (ValueError "imported operation id already exists")) ;;*
      lift (raise_if (bool_decide (job_and_key o ∈ existing_keys))
              (ValueError "operation key already exists in import job")) ;;*
      write_table (dset (io_id o) o t) ;;*
      add_operations_from tenant_id (job_and_key o :: existing_keys) rest
  end.

Definition add_operations (tenant_id : string) (operations : list ImportedOperation) : M D unit :=
  let* t := read_table in
  add_operations_from tenant_id (map job_and_key (dvalues t)) operations.

Definition operation_leb (a b : ImportedOperation) : bool :=
  str_leb (io_operation_key a) (io_operation_key b).

Definition list_operations (tenant_id job_id : string) : M D (list ImportedOperation) :=
  let* t := read_table in
  ret (sorted_by operation_leb
         (filter (λ o, io_tenant_id o = tenant_id ∧ io_import_job_id o = job_id) (dvalues t))).

(** [get_operation_for_update] *)
Definition get_operation (tenant_id id : string) : M D (option ImportedOperation) :=
  let* t := read_table in ret (in_tenant io_tenant_id tenant_id (dget id t)).

Definition save_operation (tenant_id : string) (o : ImportedOperation) : M D unit :=
  lift (require_matching_tenant tenant_id (io_tenant_id o)) ;;*
  let* t := read_table in
  lift (raise_if (is_none (in_tenant io_tenant_id tenant_id (dget (io_id o) t)))
          (ValueError "imported operation does not exist in tenant")) ;;*
  write_table (dset (io_id o) o t).
End Repository.

(** ** Use cases *)

(** [OpenApiDocumentReader.read] *)
Class DocumentReader := read_document : string → res OpenApiDocument.

Record ImportOpenApiCommand := mkImportCommand {
  ic_context : ActorContext;
  ic_upstream_service_id : string;
  ic_source_ref : string;
  ic_operation_allowlist : list string }.

Record ImportOpenApiResult := mkImportResult {
  ir_import_job_id : string;
  ir_operation_ids : list string;
  ir_conflict_count : Z }.

Record GetOpenApiImportResult := mkGetImportResult {
  gr_job : OpenApiImportJob;
  gr_operations : list ImportedOperation }.

(** [ImportOpenApi._build_operations], with the identifiers drawn for them *)
Definition imported_operation (tenant_id id : string) (j : OpenApiImportJob) (o : ParsedOperation) :
    ImportedOperation :=
  mkImported id tenant_id (ij_id j) (ij_upstream_service_id j) (po_operation_key o)
    (po_operation_id o) (po_method o) (po_path o) (po_normalized_operation o)
    (po_generated_tool_name o) (po_conflict_status o) ReviewPending None None None.

Section UseCases.
Context {D : Type} `{Ports} `{DocumentReader} `{!Table D OpenApiImportJob}
  `{!Table D ImportedOperation} `{!Table D UpstreamService}.

Fixpoint build_operations (tenant_id : string) (j : OpenApiImportJob)
    (parsed : list ParsedOperation) : M D (list ImportedOperation) :=
  match parsed with
  | [] => ret []
  | o :: rest =>
      let* id := new_id in
      let* built := build_operations tenant_id j rest in
      ret (imported_operation tenant_id id j o :: built)
  end.

(** The first transaction of [ImportOpenApi.execute]. *)
Definition start_import (c : ImportOpenApiCommand) (document : OpenApiDocument) (job_id : string)
    (created_at : datetime) : M D (OpenApiImportJob * UpstreamService) :=
  let tenant_id := ctx_tenant_id (ic_context c) in
  with_uow (
    let* upstream := get_upstream tenant_id (ic_upstream_service_id c) in
    match upstream with
    | None => raise (Nexus TenantBoundaryViolationError)
    | Some upstream =>
        lift (raise_if (negb (bool_decide (us_status upstream = UpActive)))
                (Nexus UpstreamNotActiveError)) ;;*
        let* job := lift (start_validation
          (mkJob job_id tenant_id (us_id upstream) SourceLocalFixture (od_source_ref document)
             (od_source_digest document) None (ic_operation_allowlist c)
             [("network_access", JBool false); ("source_type", JStr "local_fixture")]
             JobPending None (ctx_principal_id (ic_context c)) created_at None None) created_at) in
        add_job tenant_id job ;;*
        commit ;;*
        ret (job, upstream)
    end).

(** [ImportOpenApi._mark_parsing] *)
Definition mark_parsing (tenant_id job_id : string) : M D unit :=
  with_uow (
    let* job := get_job tenant_id job_id in
    match job with
    | None => raise document_invalid
    | Some job =>
        let* job := lift (start_parsing job) in
        save_job tenant_id job ;;*
        commit
    end).

(** [ImportOpenApi._complete_job] *)
Definition complete_import (tenant_id job_id : string) (parsed : ParsedOpenApiDocument)
    (operations : list ImportedOperation) : M D unit :=
  with_uow (
    let* job := get_job tenant_id job_id in
    match job with
    | None => raise document_invalid
    | Some job =>
        add_operations tenant_id operations ;;*
        let* completed_at := now in
        let* job := lift (complete_job job (pd_openapi_version parsed) completed_at) in
        save_job tenant_id job ;;*
        commit
    end).

(** [ImportOpenApi._fail_job] *)
Definition fail_import (tenant_id job_id safe_summary : string) : M D unit :=
  with_uow (
    let* job := get_job tenant_id job_id in
    match job with
    | None => ret tt
    | Some job =>
        if bool_decide (ij_status job ∈ [JobCompleted; JobFailed]) then ret tt
        else
          let* completed_at := now in
          let* job := lift (fail_job job safe_summary completed_at) in
          save_job tenant_id job ;;*
          commit
    end).

(** The [try] block of [ImportOpenApi.execute]. *)
Definition run_import (c : ImportOpenApiCommand) (document : OpenApiDocument)
    (job : OpenApiImportJob) (upstream : UpstreamService) : M D (list ImportedOperation) :=
  let tenant_id := ctx_tenant_id (ic_context c) in
  mark_parsing tenant_id (ij_id job) ;;*
  let* parsed := lift (parse (od_content document) (us_namespace upstream)
                         (ic_operation_allowlist c)) in
  let* operations := build_operations tenant_id job (pd_operations parsed) in
  complete_import tenant_id (ij_id job) parsed operations ;;*
  ret operations.

(** The [except] clauses of [ImportOpenApi.execute]. *)
Definition on_import_error {A} (tenant_id job_id : string) (x : exn) : M D A :=
  match x with
  | Nexus error => fail_import tenant_id job_id (safe_message error) ;;* raise (Nexus error)
  | _ => if is_exception x
         then fail_import tenant_id job_id (safe_message OpenApiDocumentInvalidError) ;;*
              raise document_invalid
         else raise x
  end.

(** [ImportOpenApi.execute] *)
Definition import_openapi (c : ImportOpenApiCommand) : M D ImportOpenApiResult :=
  let tenant_id := ctx_tenant_id (ic_context c) in
  let* document := lift (read_document (ic_source_ref c)) in
  let* job_id := new_id in
  let* created_at := now in
  let* (job, upstream) := start_import c document job_id created_at in
  let* operations := try_except (run_import c document job upstream)
                       (on_import_error tenant_id job_id) in
  ret (mkImportResult job_id (map io_id operations)
         (Z.of_nat (length (filter (λ o, io_conflict_status o ≠ ConflictNone) operations)))).

(** [GetOpenApiImport.execute] *)
Definition get_openapi_import (ctx : ActorContext) (import_job_id : string) :
    M D GetOpenApiImportResult :=
  with_uow (
    let* job := get_job (ctx_tenant_id ctx) import_job_id in
    match job with
    | None => raise (Nexus OpenApiImportJobNotFoundError)
    | Some job =>
        let* operations := list_operations (ctx_tenant_id ctx) import_job_id in
        ret (mkGetImportResult job operations)
    end).
End UseCases.

(** ** The stores of [InMemoryReviewUnitOfWork]

    The import's unit of work has the import repository and the upstreams,
    the review's the catalog's tables too; both work on the same committed
    repositories. *)

Record import_store := mkImportStore {
  is_jobs : dict OpenApiImportJob;
  is_operations : dict ImportedOperation;
  is_catalog : catalog_store }.

#[export, refine] Instance import_store_jobs : Table import_store OpenApiImportJob := {
  table := is_jobs;
  set_table t d := mkImportStore t (is_operations d) (is_catalog d) }.
Proof. all: try done. by intros []. Defined.
#[export, refine] Instance import_store_operations : Table import_store ImportedOperation := {
  table := is_operations;
  set_table t d := mkImportStore (is_jobs d) t (is_catalog d) }.
Proof. all: try done. by intros []. Defined.
#[export, refine] Instance import_store_catalog : CatalogStores import_store := {
  catalog_of := is_catalog;
  with_catalog k d := mkImportStore (is_jobs d) (is_operations d) k }.
Proof. all: try done. by intros []. Defined.

(** ** What the transactions do *)

Definition with_job (j : OpenApiImportJob) (d : import_store) : import_store :=
  mkImportStore (dset (ij_id j) j (is_jobs d)) (is_operations d) (is_catalog d).

Definition operation_entries (ops : list ImportedOperation) : dict ImportedOperation :=
  map (λ o, (io_id o, o)) ops.

(** The job [start_import] creates. *)
Definition created_job (c : ImportOpenApiCommand) (document : OpenApiDocument) (upstream_id job_id : string)
    (created_at : datetime) : OpenApiImportJob :=
  mkJob job_id (ctx_tenant_id (ic_context c)) upstream_id SourceLocalFixture (od_source_ref document)
    (od_source_digest document) None (ic_operation_allowlist c)
    [("network_access", JBool false); ("source_type", JStr "local_fixture")]
    JobValidating None (ctx_principal_id (ic_context c)) created_at (Some created_at) None.

Definition parsing_job (j : OpenApiImportJob) : OpenApiImportJob :=
  job_with j (ij_openapi_version j) JobParsing (ij_error_summary j) (ij_started_at j) (ij_completed_at j).
Definition failed_job (j : OpenApiImportJob) (summary : string) (t : datetime) : OpenApiImportJob :=
  job_with j (ij_openapi_version j) JobFailed (Some summary) (ij_started_at j) (Some t).
Definition completed_job (j : OpenApiImportJob) (version : string) (t : datetime) : OpenApiImportJob :=
  job_with j (Some version) JobCompleted None (ij_started_at j) (Some t).

Section Transactions.
Context `{Ports} `{DocumentReader}.
Implicit Types d : import_store.

Lemma in_tenant_eq {V} (f : V → string) v : in_tenant f (f v) (Some v) = Some v.
Proof. simpl. by rewrite decide_True. Qed.

Lemma start_import_run c document job_id t d e r s' :
  start_import c document job_id t (St d None e) = (r, s') →
  (∃ x, r = Raise x ∧ s' = St d None e) ∨
  (∃ u, let job := created_job c document (us_id u) job_id t in
     r = Ok (job, u) ∧ s' = St (with_job job d) None e ∧ dget job_id (is_jobs d) = None ∧
     dget (ic_upstream_service_id c) (cs_upstreams (is_catalog d)) = Some u ∧
     us_tenant_id u = ctx_tenant_id (ic_context c) ∧ us_status u = UpActive).
Proof.
  intros Hr. unfold start_import, get_upstream, add_job, start_validation in Hr.
  run_uow Hr; try (left; eexists; by split). ok_facts. right. eexists. split_and!; try reflexivity; done.
Qed.

Lemma mark_parsing_run job d e :
  dget (ij_id job) (is_jobs d) = Some job → ij_status job = JobValidating →
  mark_parsing (ij_tenant_id job) (ij_id job) (St d None e) = (Ok tt, St (with_job (parsing_job job) d) None e).
Proof.
  intros Hj Hs. unfold mark_parsing, with_uow, get_job, bind, read_table. simpl.
  rewrite Hj, in_tenant_eq. unfold lift, start_parsing. rewrite Hs. simpl.
  unfold save_job, bind, lift, read_table, require_matching_tenant. simpl.
  rewrite bool_decide_eq_true_2, Hj, in_tenant_eq by done. done.
Qed.

Lemma fail_import_run job summary d e :
  dget (ij_id job) (is_jobs d) = Some job → ij_status job = JobParsing →
  fail_import (ij_tenant_id job) (ij_id job) summary (St d None e) =
  (Ok tt, St (with_job (failed_job job summary (clock_now (ticks e))) d) None
            (Env (S (ticks e)) (issued e) (io_log e))).
Proof.
  intros Hj Hs. unfold fail_import, with_uow, get_job, bind, read_table. simpl.
  rewrite Hj, in_tenant_eq. unfold lift, fail_job. rewrite Hs. simpl.
  unfold save_job, bind, lift, read_table, require_matching_tenant. simpl.
  rewrite bool_decide_eq_true_2, Hj, in_tenant_eq by done. done.
Qed.

Lemma build_operations_run tenant job parsed : ∀ (s : st import_store), ∃ ops e',
  build_operations tenant job parsed s = (Ok ops, St (store s) (working s) e') ∧
  Forall2 (λ p o, o = imported_operation tenant (io_id o) job p) parsed ops.
Proof.
  induction parsed as [|p parsed IH]; intros s.
  - exists [], (environment s). by destruct s.
  - simpl. unfold bind at 1, new_id.
    destruct (IH (St (store s) (working s) (Env (ticks (environment s)) (S (issued (environment s)))
      (io_log (environment s))))) as (ops & e' & Hr & Hops).
    unfold bind. rewrite Hr. simpl. eexists _, _. split; [reflexivity|]. by constructor.
Qed.

Lemma add_operations_from_run tenant ops : ∀ keys c d e r s',
  add_operations_from tenant keys ops (St c (Some d) e) = (r, s') →
  (∃ d', s' = St c (Some d') e) ∧
  match r with
  | Ok _ => s' = St c (Some (mkImportStore (is_jobs d) (is_operations d ++ operation_entries ops) (is_catalog d))) e
  | Raise x => is_exception x = true
  end.
Proof.
  induction ops as [|o ops IH]; intros keys c d e r s' Hr; simpl in Hr.
  - injection Hr as <- <-. simpl. rewrite app_nil_r. destruct d. eauto.
  - unfold bind at 1, lift at 1 in Hr.
    destruct (require_matching_tenant _ _) eqn:E1;
      [|injection Hr as <- <-; split; [eauto|]; unfold require_matching_tenant, raise_if in E1; by case_match; simplify_eq].
    unfold bind at 1, read_table in Hr. simpl in Hr. unfold bind at 1, lift at 1 in Hr.
    destruct (raise_if (dmem _ _) _) eqn:E2; [|injection Hr as <- <-; split; [eauto|]; unfold raise_if in E2; by case_match; simplify_eq].
    unfold bind at 1, lift at 1 in Hr.
    destruct (raise_if (bool_decide _) _) eqn:E3; [|injection Hr as <- <-; split; [eauto|]; unfold raise_if in E3; by case_match; simplify_eq].
    unfold bind at 1, write_table in Hr. simpl in Hr.
    apply raise_if_Ok, dmem_false in E2. rewrite (dset_fresh _ _ _ E2) in Hr.
    apply IH in Hr as [Hs Hr]. split; [done|]. destruct r; [|done]. rewrite Hr. simpl. by rewrite <-app_assoc.
Qed.

Lemma complete_import_run job parsed ops d e :
  dget (ij_id job) (is_jobs d) = Some job → ij_status job = JobParsing →
  match complete_import (ij_tenant_id job) (ij_id job) parsed ops (St d None e) with
  | (Raise x, s') => is_exception x = true ∧ ∃ e', s' = St d None e'
  | (Ok _, s') => ∃ t e',
      s' = St (with_job (completed_job job (pd_openapi_version parsed) t)
                 (mkImportStore (is_jobs d) (is_operations d ++ operation_entries ops) (is_catalog d)))
             None e'
  end.
Proof.
  intros Hj Hs. unfold complete_import, with_uow, get_job. unfold bind at 1 2. unfold read_table at 1. simpl.
  rewrite Hj, in_tenant_eq. unfold bind at 1, add_operations, bind at 1. unfold read_table at 1. simpl.
  destruct (add_operations_from _ _ _ _) as [r s1] eqn:E.
  apply add_operations_from_run in E as [(d' & ->) Hr]. destruct r as [u|x]; [|by eauto].
  injection Hr as ->. unfold bind, now, lift, complete_job. rewrite Hs. simpl.
  unfold save_job, bind, lift, read_table, require_matching_tenant. simpl.
  rewrite bool_decide_eq_true_2, Hj, in_tenant_eq by done. simpl. eexists _, _. reflexivity.
Qed.
End Transactions.

Lemma dset_dset {V} k (v w : V) t : dset k v (dset k w t) = dset k v t.
Proof.
  induction t as [|[k' v'] t IH]; simpl; [by rewrite decide_True|].
  destruct (decide (k = k')) as [<-|Hne]; simpl; [by rewrite decide_True|].
  rewrite decide_False by done. by rewrite IH.
Qed.

Lemma with_job_twice j j' d : ij_id j = ij_id j' → with_job j (with_job j' d) = with_job j d.
Proof. intros E. unfold with_job. simpl. by rewrite <-E, dset_dset. Qed.

Section ImportRuns.
Context `{Ports} `{DocumentReader}.

Lemma run_import_run c document job u d e :
  ij_status job = JobValidating → ij_tenant_id job = ctx_tenant_id (ic_context c) →
  match run_import c document job u (St (with_job job d) None e) with
  | (Raise x, s') => is_exception x = true ∧
      ∃ j e', ij_status j = JobParsing ∧ ij_id j = ij_id job ∧ ij_tenant_id j = ij_tenant_id job ∧
        s' = St (with_job j d) None e'
  | (Ok ops, s') => ∃ parsed t e',
      parse (od_content document) (us_namespace u) (ic_operation_allowlist c) = Ok parsed ∧
      Forall2 (λ p o, o = imported_operation (ij_tenant_id job) (io_id o) job p) (pd_operations parsed) ops ∧
      s' = St (with_job (completed_job (parsing_job job) (pd_openapi_version parsed) t)
                 (mkImportStore (is_jobs d) (is_operations d ++ operation_entries ops) (is_catalog d))) None e'
  end.
Proof.
  intros Hs Ht. unfold run_import. rewrite <-Ht. unfold bind at 1.
  rewrite (mark_parsing_run job) by (simpl; rewrite ?dget_dset_eq; done).
  rewrite (with_job_twice (parsing_job job) job) by done. unfold bind at 1, lift at 1.
  destruct (parse _ _ _) as [parsed|x] eqn:Hp.
  2:{ split; [|exists (parsing_job job); eexists; split_and!; done].
      by destruct (parse_raises _ _ _ _ Hp) as [->|[->| ->]]. }
  unfold bind at 1.
  destruct (build_operations_run (ij_tenant_id job) job (pd_operations parsed)
    (St (with_job (parsing_job job) d) None e)) as (ops & e' & -> & Hops). simpl.
  pose proof (complete_import_run (parsing_job job) parsed ops (with_job (parsing_job job) d) e'
    ltac:(simpl; apply dget_dset_eq) eq_refl) as Hc. simpl in Hc.
  unfold bind. destruct (complete_import _ _ _ _ _) as [[[]|x] s'].
  - destruct Hc as (t & e1 & ->). simpl. exists parsed, t, e1. split_and!; [done|done|].
    unfold with_job, parsing_job, completed_job. simpl. by rewrite dset_dset.
  - destruct Hc as (Hx & e1 & ->). split; [done|]. exists (parsing_job job), e1. done.
Qed.

Lemma on_import_error_run A j x d e :
  ij_status j = JobParsing → is_exception x = true →
  ∃ error t e', on_import_error (A := list A) (ij_tenant_id j) (ij_id j) x (St (with_job j d) None e) =
    (Raise (Nexus error), St (with_job (failed_job j (safe_message error) t) d) None e').
Proof.
  intros Hj Hx.
  assert (Hfail : ∀ error, ∃ t e', (fail_import (ij_tenant_id j) (ij_id j) (safe_message error) ;;*
    raise (A := list A) (Nexus error)) (St (with_job j d) None e) =
    (Raise (Nexus error), St (with_job (failed_job j (safe_message error) t) d) None e')).
  { intros error. unfold bind. rewrite (fail_import_run j) by (simpl; rewrite ?dget_dset_eq; done).
    rewrite (with_job_twice (failed_job j _ _) j) by done. eexists _, _. reflexivity. }
  destruct x; try discriminate Hx; try (exists OpenApiDocumentInvalidError; apply Hfail). eexists. apply Hfail.
Qed.

(** C29: every import that is started settles.  Either nothing is stored (the
    document could not be read, or the upstream is not an active one of the
    tenant), or exactly one job is added: COMPLETED, together with one pending
    operation for each operation of the parsed document, and reported with
    their identifiers; or FAILED, without any operation, with the safe message
    of the error the caller gets. *)
Theorem import_settles c d e :
  match import_openapi c (St d None e) with
  | (Raise x, s') =>
      working s' = None ∧
      (store s' = d ∨
       ∃ job error, x = Nexus error ∧ dget (ij_id job) (is_jobs d) = None ∧
         ij_status job = JobFailed ∧ ij_error_summary job = Some (safe_message error) ∧
         ij_tenant_id job = ctx_tenant_id (ic_context c) ∧ store s' = with_job job d)
  | (Ok r, s') =>
      working s' = None ∧
      ∃ document u parsed job ops,
        read_document (ic_source_ref c) = Ok document ∧
        dget (ic_upstream_service_id c) (cs_upstreams (is_catalog d)) = Some u ∧
        us_tenant_id u = ctx_tenant_id (ic_context c) ∧ us_status u = UpActive ∧
        parse (od_content document) (us_namespace u) (ic_operation_allowlist c) = Ok parsed ∧
        dget (ij_id job) (is_jobs d) = None ∧ ij_status job = JobCompleted ∧
        ij_openapi_version job = Some (pd_openapi_version parsed) ∧ ij_error_summary job = None ∧
        ij_tenant_id job = ctx_tenant_id (ic_context c) ∧ ij_upstream_service_id job = us_id u ∧
        Forall2 (λ p o, o = imported_operation (ij_tenant_id job) (io_id o) job p) (pd_operations parsed) ops ∧
        ir_import_job_id r = ij_id job ∧ ir_operation_ids r = map io_id ops ∧
        store s' = with_job job
          (mkImportStore (is_jobs d) (is_operations d ++ operation_entries ops) (is_catalog d))
  end.
Proof.
  unfold import_openapi. unfold bind at 1, lift at 1.
  destruct (read_document _) as [document|x] eqn:Hd; [|by split; [|left]].
  unfold bind at 1, new_id. unfold bind at 1, now. simpl. unfold bind at 1.
  set (e1 := Env _ _ _). destruct (start_import _ _ _ _ _) as [r s1] eqn:Hst.
  apply start_import_run in Hst as [(x & -> & ->)|(u & -> & -> & Hfresh & Hu & Hut & Hua)];
    [by split; [|left]|].
  set (job := created_job _ _ _ _ _) in *. unfold bind at 1, try_except.
  pose proof (run_import_run c document job u d e1 eq_refl eq_refl) as Hrun.
  destruct (run_import _ _ _ _ _) as [[ops|x] s2].
  - destruct Hrun as (parsed & t & e2 & Hp & Hops & ->). simpl. split; [done|].
    exists document, u, parsed, (completed_job (parsing_job job) (pd_openapi_version parsed) t), ops.
    split_and!; try done.
  - destruct Hrun as (Hx & j & e2 & Hjs & Hji & Hjt & ->).
    change (ctx_tenant_id (ic_context c)) with (ij_tenant_id job).
    change (identifier (issued e)) with (ij_id job). rewrite <-Hjt, <-Hji.
    destruct (on_import_error_run ImportedOperation j x d e2 Hjs Hx) as (error & t & e3 & ->).
    split; [done|]. right. exists (failed_job j (safe_message error) t), error.
    split_and!; try done. simpl. by rewrite Hji.
Qed.
End ImportRuns.
