(* ===== verification/LocalDocuments.v ===== *)
(** * Local OpenAPI documents

    Models [openapi_import/adapters/local_document_reader.py]: the reader that
    an import gets its document from.  It uses [pathlib] over a file system with
    symbolic links, so that this file models both: a file system is a finite map
    from absolute paths to directories, files and links; [resolve] is
    [Path.resolve] of Python 3.12 (the resolution of [posixpath], which may
    meet a loop of links, and the [stat] after it), [walk] is how the system
    follows a path.  Permissions, the length of names and changes of the file
    system during a read are outside; [json.loads] is a parameter. *)

From Stdlib Require Import ZArith Ascii Lia.
From stdpp Require Import base gmap sets strings option list.
From S2P Require Import Prelude Text Dict Errors Json Url OpenApi OpenApiImport.
Open Scope py_scope.

(** ** The file system *)

(** An absolute path is the list of its components below the root. *)
Inductive node :=
| Directory (size : Z)
| File (content : list N)
| Link (target : string).

Definition file_system : Type := gmap (list string) node.

(** What has a parent has a directory as its parent. *)
Definition well_formed (fs : file_system) : Prop :=
  ∀ p name n, fs !! (p ++ [name]) = Some n → ∃ size, fs !! p = Some (Directory size).

Definition is_link (n : node) : bool := match n with Link _ => true | _ => false end.

(** The components of a text; [starts_at] is the directory a link is read
    from. *)
Definition components (s : string) : list string := split_char "/"%char s.
Definition is_absolute (s : string) : bool := startswith "/" s.
Definition starts_at (at_dir : list string) (s : string) : list string := if is_absolute s then [] else at_dir.

Definition is_current (name : string) : bool := bool_decide (name = "") || bool_decide (name = ".").
Definition is_parent (name : string) : bool := bool_decide (name = "..").
Definition parent (p : list string) : list string := removelast p.

(** ** How the system follows a path *)

Inductive walked := Found (p : list string) | NoEntry | NotADirectory | TooManyLinks.

Section Walk.
Context (fs : file_system).

(** At most [links] links are followed. *)
Fixpoint walk (links : nat) : list string → list string → walked :=
  fix go at_dir todo :=
    match todo with
    | [] => Found at_dir
    | name :: rest =>
        if is_current name then go at_dir rest
        else if is_parent name then go (parent at_dir) rest
        else
          let new := at_dir ++ [name] in
          match fs !! new with
          | None => NoEntry
          | Some (Directory _) => go new rest
          | Some (File _) => match rest with [] => Found new | _ => NotADirectory end
          | Some (Link target) =>
              match links with
              | O => TooManyLinks
              | S links' => walk links' (starts_at at_dir target) (components target ++ rest)
              end
          end
    end.
End Walk.

(** [MAXSYMLINKS] *)
Definition max_links : nat := 40.

(** ** [posixpath.realpath] *)

(** [posixpath.join(path, rest)] for the components of [rest] *)
Definition join_rest (p : list string) (rest : list string) : list string :=
  match rest with
  | name :: _ :: _ => if str_empty name then rest else p ++ rest
  | _ => p ++ rest
  end.

Section Resolve.
Context (fs : file_system).

(** [posixpath._joinrealpath] with [strict=False]: the path, whether it is
    resolved, and what is known of the links: the resolution of a link, or
    [None] while that is under way.  [fuel] is the number of links that
    may be under way at once. *)
Fixpoint joinrealpath (fuel : nat) :
    gmap (list string) (option (list string)) → list string → list string →
    list string * bool * gmap (list string) (option (list string)) :=
  match fuel with
  | O => λ seen at_dir todo, (at_dir ++ todo, false, seen)
  | S fuel' =>
      fix go seen at_dir todo :=
        match todo with
        | [] => (at_dir, true, seen)
        | name :: rest =>
            if is_current name then go seen at_dir rest
            else if is_parent name then go seen (parent at_dir) rest
            else
              let new := at_dir ++ [name] in
              match fs !! new with
              | Some (Link target) =>
                  match seen !! new with
                  | Some (Some p) => go seen p rest
                  | Some None => (join_rest new rest, false, seen)
                  | None =>
                      let '(p, ok, seen') :=
                        joinrealpath fuel' (<[new := None]> seen) (starts_at at_dir target) (components target) in
                      if ok then go (<[new := Some p]> seen') p rest else (join_rest p rest, false, seen')
                  end
              | _ => go seen new rest
              end
        end
  end.

Definition links : gset (list string) := dom (filter (λ kv, is_link kv.2 = true) fs).

(** [posixpath.normpath] of an absolute path *)
Definition normpath (names : list string) : list string :=
  foldl (λ p name, if is_current name then p else if is_parent name then parent p else p ++ [name]) [] names.

Definition real_path (names : list string) : list string * bool :=
  let '(p, ok, _) := joinrealpath (S (size links)) ∅ [] names in (normpath p, ok).

(** [Path.resolve()] *)
Definition resolve_path (names : list string) : res (list string) :=
  let p := (real_path names).1 in
  match walk fs max_links [] p with
  | TooManyLinks => Raise (RuntimeError "Symlink loop")
  | _ => Ok p
  end.
End Resolve.

(** ** [LocalOpenApiDocumentReader] *)

Record LocalReader := mkLocalReader { lo_allowed_root : list string; lo_max_bytes : Z }.

(** [LocalOpenApiDocumentReader.__init__], of an absolute [allowed_root] *)
Definition new_local_reader (fs : file_system) (allowed_root : list string) (max_bytes : Z) : res LocalReader :=
  raise_if (max_bytes <=? 0)%Z (ValueError "OpenAPI document max bytes must be positive") ;;?
  let? root := resolve_path fs allowed_root in
  Ok (mkLocalReader root max_bytes).

(** [allowed_root / source_ref] *)
Definition joined_path (root : list string) (source_ref : string) : list string :=
  starts_at root source_ref ++ filter (λ name, is_current name = false) (components source_ref).

(** [is_relative_to] *)
Fixpoint is_relative_to (root p : list string) : bool :=
  match root, p with
  | [], _ => true
  | a :: root', b :: p' => bool_decide (a = b) && is_relative_to root' p'
  | _ :: _, [] => false
  end.

(** [PurePath.suffix]: from the last dot, which is neither the first nor the
    last character of the name. *)
Fixpoint from_last_dot (s : string) : option string :=
  match s with
  | EmptyString => None
  | String c s' =>
      match from_last_dot s' with
      | Some t => Some t
      | None => if bool_decide (c = "."%char) then Some s else None
      end
  end.
Definition path_suffix (p : list string) : string :=
  match default "" (last p) with
  | EmptyString => ""
  | String _ rest =>
      match from_last_dot rest with
      | Some t => if (String.length t <=? 1)%nat then "" else t
      | None => ""
      end
  end.

(** What [json.loads] makes of bytes: a value, one of the two errors that are
    caught, or another exception. *)
Inductive loads_result := Loaded (j : json) | NotUtf8Json | LoadRaised (x : exn).

Section Reader.
Context (json_loads : list N → loads_result).

Definition source_not_found : exn := Nexus OpenApiSourceNotFoundError.

(** [stat] and [read_bytes] of the path; [OtherException] is an [OSError] that
    is not [FileNotFoundError]. *)
Definition read_file (fs : file_system) (max_bytes : Z) (p : list string) : res (list N) :=
  match walk fs max_links [] p with
  | NoEntry => Raise source_not_found
  | NotADirectory | TooManyLinks => Raise OtherException
  | Found q =>
      match fs !! q with
      | Some (File content) =>
          raise_if (max_bytes <? Z.of_nat (length content))%Z document_invalid ;;?
          Ok content
      | Some (Directory size) =>
          raise_if (max_bytes <? size)%Z document_invalid ;;?
          Raise OtherException
      | _ => Raise source_not_found
      end
  end.

(** [LocalOpenApiDocumentReader.read]; a text with a null character is refused
    by the system calls. *)
Definition read_local (fs : file_system) (r : LocalReader) (source_ref : string) : res OpenApiDocument :=
  raise_if (char_in source_ref (ascii_of_N 0)) (ValueError "embedded null byte") ;;?
  let? source_path := resolve_path fs (joined_path (lo_allowed_root r) source_ref) in
  raise_if (negb (is_relative_to (lo_allowed_root r) source_path)) source_not_found ;;?
  raise_if (negb (bool_decide (lower (path_suffix source_path) = ".json"))) document_invalid ;;?
  let? raw_content := read_file fs (lo_max_bytes r) source_path in
  match json_loads raw_content with
  | LoadRaised x => Raise x
  | NotUtf8Json => Raise document_invalid
  | Loaded (JObj content) => Ok (mkDocument source_ref (Sha256.hexdigest raw_content) content)
  | Loaded _ => Raise document_invalid
  end.
End Reader.

(** The reader of the import use case. *)
Definition local_document_reader (json_loads : list N → loads_result) (fs : file_system) (r : LocalReader) :
    DocumentReader := read_local json_loads fs r.

(** ** The resolution *)

Lemma joinrealpath_cons fs n seen at_dir name rest :
  joinrealpath fs (S n) seen at_dir (name :: rest) =
  if is_current name then joinrealpath fs (S n) seen at_dir rest
  else if is_parent name then joinrealpath fs (S n) seen (parent at_dir) rest
  else
    match fs !! (at_dir ++ [name]) with
    | Some (Link target) =>
        match seen !! (at_dir ++ [name]) with
        | Some (Some p) => joinrealpath fs (S n) seen p rest
        | Some None => (join_rest (at_dir ++ [name]) rest, false, seen)
        | None =>
            let '(p, ok, seen') := joinrealpath fs n (<[at_dir ++ [name] := None]> seen)
                                     (starts_at at_dir target) (components target) in
            if ok then joinrealpath fs (S n) (<[at_dir ++ [name] := Some p]> seen') p rest
            else (join_rest p rest, false, seen')
        end
    | _ => joinrealpath fs (S n) seen (at_dir ++ [name]) rest
    end.
Proof. reflexivity. Qed.

(** A name that is looked up. *)
Definition plain_name (name : string) : Prop := is_current name = false ∧ is_parent name = false.

(** A path that the resolution is done with: no part of it is a link. *)
Definition resolved (fs : file_system) (p : list string) : Prop :=
  Forall plain_name p ∧ ∀ q name target, q ++ [name] `prefix_of` p → fs !! (q ++ [name]) ≠ Some (Link target).

Definition seen_resolved (fs : file_system) (seen : gmap (list string) (option (list string))) : Prop :=
  ∀ l p, seen !! l = Some (Some p) → resolved fs p.

Lemma resolved_nil fs : resolved fs [].
Proof. split; [constructor|]. intros q name target [k H]. by destruct q. Qed.

Lemma resolved_prefix fs q p : q `prefix_of` p → resolved fs p → resolved fs q.
Proof.
  intros [k ->] [Hn Hl]. split; [by apply Forall_app in Hn as [Hn _]|].
  intros q' name target Hq. apply Hl. etrans; [done|by exists k].
Qed.

Lemma removelast_prefix {A} (l : list A) : removelast l `prefix_of` l.
Proof.
  induction l as [|x l IH]; [done|]. destruct l as [|y l]; [by exists [x]|].
  change (removelast (x :: y :: l)) with (x :: removelast (y :: l)). by apply prefix_cons.
Qed.

Lemma resolved_parent fs p : resolved fs p → resolved fs (parent p).
Proof. apply resolved_prefix, removelast_prefix. Qed.

Lemma resolved_start fs p target : resolved fs p → resolved fs (starts_at p target).
Proof. intros H. unfold starts_at. case_match; [apply resolved_nil|done]. Qed.

Lemma resolved_snoc fs p name :
  resolved fs p → plain_name name → (∀ target, fs !! (p ++ [name]) ≠ Some (Link target)) → resolved fs (p ++ [name]).
Proof.
  intros [Hn Hl] Hname Hlink. split; [apply Forall_app; by split; [|constructor]|].
  intros q name' target [k Hk]. destruct k as [|last k _] using rev_ind.
  - rewrite app_nil_r in Hk. apply app_inj_tail in Hk as [-> ->]. apply Hlink.
  - rewrite app_assoc in Hk. apply app_inj_tail in Hk as [-> _]. apply Hl. by exists k.
Qed.

Lemma plain_name_intro name : is_current name = false → is_parent name = false → plain_name name.
Proof. by split. Qed.

(** The paths of a resolution that meets no loop are resolved. *)
Lemma joinrealpath_resolved fs n seen at_dir todo p ok seen' :
  joinrealpath fs n seen at_dir todo = (p, ok, seen') → resolved fs at_dir → seen_resolved fs seen →
  seen_resolved fs seen' ∧ (ok = true → resolved fs p).
Proof.
  revert seen at_dir todo p ok seen'. induction n as [|n IHn]; intros seen at_dir todo.
  { by intros p ok seen' [= <- <- <-]. }
  revert seen at_dir. induction todo as [|name rest IH]; intros seen at_dir p ok seen' H Hd Hs.
  { cbn in H. by simplify_eq. }
  rewrite joinrealpath_cons in H.
  destruct (is_current name) eqn:Hc; [by eapply IH|].
  destruct (is_parent name) eqn:Hp; [eapply IH; [done|by apply resolved_parent|done]|].
  assert (Hname := plain_name_intro name Hc Hp).
  destruct (fs !! (at_dir ++ [name])) as [[size|content|target]|] eqn:Hnode;
    [eapply IH; [done|apply resolved_snoc; by rewrite ?Hnode|done]
    |eapply IH; [done|apply resolved_snoc; by rewrite ?Hnode|done]| |
     eapply IH; [done|apply resolved_snoc; by rewrite ?Hnode|done]].
  destruct (seen !! _) as [[q|]|] eqn:Hseen; [eapply IH; eauto|by simplify_eq|].
  destruct (joinrealpath fs n _ _ _) as [[q ok'] seen1] eqn:E.
  apply IHn in E as [Hs1 Hq]; [|by apply resolved_start|
    by intros l r [[_ ?]|[_ ?]]%lookup_insert_Some; [done|eapply Hs]].
  destruct ok'; [|by simplify_eq].
  apply IH in H; [done|auto|]. intros l r [[_ [= <-]]|[_ Hl]]%lookup_insert_Some; [auto|by eapply Hs1].
Qed.

Lemma normpath_resolved fs p : resolved fs p → normpath p = p.
Proof.
  intros [Hn _]. unfold normpath.
  assert (H : ∀ acc, foldl (λ p name, if is_current name then p else if is_parent name then parent p else p ++ [name])
                       acc p = acc ++ p).
  { induction Hn as [|name p [Hc Hp] _ IH]; intros acc; simpl; [by rewrite app_nil_r|].
    by rewrite Hc, Hp, IH, <-app_assoc. }
  apply H.
Qed.

(** Without a loop, [Path.resolve] gives a path no part of which is a link. *)
Lemma real_path_resolved fs names : (real_path fs names).2 = true → resolved fs (real_path fs names).1.
Proof.
  unfold real_path. destruct (joinrealpath _ _ _ _ _) as [[p ok] seen] eqn:E. simpl. intros ->.
  apply joinrealpath_resolved in E as [_ H]; [|apply resolved_nil|by intros ? ? ?%lookup_empty_Some].
  rewrite (normpath_resolved fs) by auto. auto.
Qed.

Lemma well_formed_prefix fs q name k n :
  well_formed fs → fs !! (q ++ name :: k) = Some n →
  ∃ n', fs !! (q ++ [name]) = Some n' ∧ (k = [] ∨ ∃ size, n' = Directory size).
Proof.
  intros Hw. revert n. induction k as [|last k IH] using rev_ind; intros n H; [eauto|].
  rewrite app_comm_cons, app_assoc in H. apply Hw in H as [size H].
  destruct (IH _ H) as (n' & Hn' & Hd). exists n'. split; [done|]. right.
  destruct Hd as [->|Hd]; [|done]. rewrite Hn' in H. simplify_eq. eauto.
Qed.

(** The system finds such a path where it is, if anything is there. *)
Lemma walk_resolved fs n p node :
  well_formed fs → resolved fs p → fs !! p = Some node → walk fs n [] p = Found p.
Proof.
  intros Hw [Hn Hl] Hp.
  assert (H : ∀ done todo, p = done ++ todo → walk fs n done todo = Found p).
  { intros dn todo Hsplit. revert dn Hsplit. induction todo as [|name todo IH]; intros dn Hsplit.
    { rewrite app_nil_r in Hsplit. subst. by destruct n. }
    assert (Hname : plain_name name).
    { rewrite Forall_forall in Hn. apply Hn. rewrite Hsplit. apply elem_of_app. right. left. }
    destruct Hname as [Hc Hq].
    subst p. destruct (well_formed_prefix fs dn name todo node Hw Hp) as (node' & Hnode & Hkind).
    assert (Hstep : walk fs n dn (name :: todo) = match node' with
      | Directory _ => walk fs n (dn ++ [name]) todo
      | File _ => match todo with [] => Found (dn ++ [name]) | _ => NotADirectory end
      | Link t => match n with O => TooManyLinks | S k => walk fs k (starts_at dn t) (components t ++ todo) end end).
    { destruct n; cbn [walk]; rewrite Hc, Hq, Hnode; by destruct node'. }
    rewrite Hstep. assert (Hsplit : dn ++ name :: todo = (dn ++ [name]) ++ todo) by by rewrite <-app_assoc.
    destruct node' as [size|content|target].
    - by apply IH.
    - destruct Hkind as [->|[? ?]]; [|done]. done.
    - exfalso. apply (Hl dn name target); [by exists todo|done]. }
  by apply H.
Qed.

(** ** The fuel is enough *)

Lemma joinrealpath_seen fs n seen at_dir todo p ok seen' :
  joinrealpath fs n seen at_dir todo = (p, ok, seen') → dom seen ⊆ dom seen'.
Proof.
  revert seen at_dir todo p ok seen'. induction n as [|n IHn]; intros seen at_dir todo.
  { by intros p ok seen' [= <- <- <-]. }
  revert seen at_dir. induction todo as [|name rest IH]; intros seen at_dir p ok seen' H.
  { cbn in H. by simplify_eq. }
  rewrite joinrealpath_cons in H.
  destruct (is_current name); [by eapply IH|]. destruct (is_parent name); [by eapply IH|].
  destruct (fs !! (at_dir ++ [name])) as [[]|]; [by eapply IH|by eapply IH| |by eapply IH].
  destruct (seen !! _) as [[q|]|]; [by eapply IH|by simplify_eq|].
  destruct (joinrealpath fs n _ _ _) as [[q ok'] seen1] eqn:E. apply IHn in E.
  destruct ok'; [apply IH in H|simplify_eq]; set_solver.
Qed.

(** The links whose resolution has not begun. *)
Definition pending (fs : file_system) (seen : gmap (list string) (option (list string))) : gset (list string) :=
  links fs ∖ dom seen.

Lemma elem_of_links fs l target : fs !! l = Some (Link target) → l ∈ links fs.
Proof. intros H. apply elem_of_dom. exists (Link target). by apply map_lookup_filter_Some. Qed.

Lemma pending_seen fs seen l : l ∈ links fs → seen !! l = None →
  (size (pending fs (<[l := None]> seen)) < size (pending fs seen))%nat.
Proof.
  intros Hl Hs. apply subset_size. unfold pending. rewrite dom_insert.
  apply not_elem_of_dom in Hs. set_solver.
Qed.

Lemma pending_mono fs seen seen' :
  dom seen ⊆ dom seen' → (size (pending fs seen') ≤ size (pending fs seen))%nat.
Proof. intros H. apply subseteq_size. unfold pending. set_solver. Qed.

(** More fuel than there are links changes nothing. *)
Lemma joinrealpath_fuel fs n m seen at_dir todo :
  (size (pending fs seen) < n)%nat → (size (pending fs seen) < m)%nat →
  joinrealpath fs n seen at_dir todo = joinrealpath fs m seen at_dir todo.
Proof.
  revert m seen at_dir todo. induction n as [|n IHn]; intros [|m] seen at_dir todo Hn Hm; [lia..|].
  revert seen at_dir Hn Hm. induction todo as [|name rest IH]; intros seen at_dir Hn Hm; [done|].
  rewrite !joinrealpath_cons.
  destruct (is_current name); [by apply IH|]. destruct (is_parent name); [by apply IH|].
  destruct (fs !! (at_dir ++ [name])) as [[| |target]|] eqn:Hnode; [by apply IH|by apply IH| |by apply IH].
  destruct (seen !! _) as [[q|]|] eqn:Hseen; [by apply IH|done|].
  assert (Hlt := pending_seen fs seen _ (elem_of_links _ _ _ Hnode) Hseen).
  rewrite (IHn m) by lia.
  destruct (joinrealpath fs m _ _ _) as [[q ok'] seen1] eqn:E. apply joinrealpath_seen in E.
  destruct ok'; [|done].
  assert (Hle := pending_mono fs seen (<[at_dir ++ [name] := Some q]> seen1) ltac:(set_solver)).
  apply IH; lia.
Qed.

Lemma real_path_fuel fs n names : (size (links fs) < n)%nat →
  joinrealpath fs (S (size (links fs))) ∅ [] names = joinrealpath fs n ∅ [] names.
Proof.
  intros Hn. assert (Hs : pending fs ∅ = links fs) by (unfold pending; set_solver).
  apply joinrealpath_fuel; rewrite Hs; lia.
Qed.

(** ** What is read *)

Lemma is_relative_to_spec root p : is_relative_to root p = true ↔ root `prefix_of` p.
Proof.
  revert p. induction root as [|a root IH]; intros p; simpl; [split; [intros _; apply prefix_nil|done]|].
  destruct p as [|b p]; [split; [done|intros [k Hk]; done]|].
  rewrite andb_true_iff, bool_decide_eq_true, IH. split.
  - intros [-> H]. by apply prefix_cons.
  - intros H. split; [by apply prefix_cons_inv_1 in H|by apply prefix_cons_inv_2 in H].
Qed.

Lemma resolve_path_Ok fs names q : resolve_path fs names = Ok q → q = (real_path fs names).1.
Proof. unfold resolve_path. destruct (walk _ _ _ _); congruence. Qed.

Lemma resolve_resolved fs names :
  well_formed fs → (real_path fs names).2 = true →
  (∃ n, fs !! (real_path fs names).1 = Some n) → resolve_path fs names = Ok (real_path fs names).1.
Proof.
  intros Hw Hok [n Hn]. unfold resolve_path.
  rewrite (walk_resolved fs max_links _ n) by (done || by apply real_path_resolved). done.
Qed.

(** Where the system finds something along a resolved path. *)
Lemma walk_found fs n p q : resolved fs p → walk fs n [] p = Found q → q = p.
Proof.
  intros [Hn Hl].
  assert (H : ∀ dn todo, p = dn ++ todo → walk fs n dn todo = Found q → q = p).
  { intros dn todo. revert dn. induction todo as [|name todo IH]; intros dn Hsplit Hq.
    { rewrite app_nil_r in Hsplit. destruct n; cbn in Hq; congruence. }
    assert (Hname : plain_name name).
    { rewrite Forall_forall in Hn. apply Hn. rewrite Hsplit. apply elem_of_app. right. left. }
    destruct Hname as [Hc Hp].
    assert (Hsplit' : p = (dn ++ [name]) ++ todo) by by rewrite <-app_assoc.
    assert (Hno : ∀ target, fs !! (dn ++ [name]) ≠ Some (Link target)) by (intros t; apply Hl; by exists todo).
    destruct n; cbn [walk] in Hq; rewrite Hc, Hp in Hq;
      (destruct (fs !! (dn ++ [name])) as [[| |t]|];
        [by apply IH in Hq|destruct todo; [|done]; rewrite app_nil_r in Hsplit'; congruence|by destruct (Hno t)|done]). }
  by apply H.
Qed.

(** C30: The reader stays inside its root: when the resolution of the source
    meets no loop of links, the path it ends with has no link in it, and a
    document is answered exactly when that path is below the root, ends in
    [.json], and is a file of at most [max_bytes] bytes that hold a JSON object;
    its digest is that of these bytes. *)
Theorem read_stays_inside json_loads fs r source_ref :
  well_formed fs → (real_path fs (joined_path (lo_allowed_root r) source_ref)).2 = true →
  let p := (real_path fs (joined_path (lo_allowed_root r) source_ref)).1 in
  resolved fs p ∧
  ∀ d, read_local json_loads fs r source_ref = Ok d ↔
    char_in source_ref (ascii_of_N 0) = false ∧ lo_allowed_root r `prefix_of` p ∧ lower (path_suffix p) = ".json" ∧
    ∃ raw content, fs !! p = Some (File raw) ∧ (Z.of_nat (length raw) ≤ lo_max_bytes r)%Z ∧
      json_loads raw = Loaded (JObj content) ∧ d = mkDocument source_ref (Sha256.hexdigest raw) content.
Proof.
  intros Hw Hok p. assert (Hp : resolved fs p) by by apply real_path_resolved. split; [done|]. intros d. split.
  - intros H. unfold read_local in H. apply rbind_Ok_inv in H as (u0 & H0%raise_if_Ok & H).
    apply rbind_Ok_inv in H as (q & Hq & H).
    apply rbind_Ok_inv in H as (u1 & H1%raise_if_Ok%negb_false_iff%is_relative_to_spec & H).
    apply rbind_Ok_inv in H as (u2 & H2%raise_if_Ok & H). apply negb_false_iff, bool_decide_eq_true in H2.
    apply rbind_Ok_inv in H as (raw & Hraw & H).
    assert (q = p) as -> by by apply resolve_path_Ok.
    unfold read_file in Hraw. destruct (walk fs max_links [] p) as [q| | |] eqn:Hwalk; try done.
    apply walk_found in Hwalk as ->; [|done].
    destruct (fs !! p) as [[size|content|]|]; try done.
    + by apply rbind_Ok_inv in Hraw as (? & _ & ?).
    + apply rbind_Ok_inv in Hraw as (u3 & H3%raise_if_Ok & [= ->]). apply Z.ltb_ge in H3.
      destruct (json_loads raw) as [[]| |] eqn:Hj; simplify_eq. do 3 (split; [done|]). eauto 10.
  - intros (H0 & H1%is_relative_to_spec & H2 & raw & content & Hf & Hmax & Hj & ->).
    unfold read_local. rewrite H0. cbn [raise_if rbind].
    rewrite resolve_resolved by eauto. fold p. cbn [rbind]. rewrite H1. cbn [negb raise_if rbind].
    rewrite (bool_decide_eq_true_2 (lower (path_suffix p) = ".json")) by done. cbn [negb raise_if rbind].
    unfold read_file. rewrite (walk_resolved fs max_links p (File raw)), Hf by done.
    rewrite (proj2 (Z.ltb_ge _ _) Hmax). cbn [raise_if rbind]. by rewrite Hj.
Qed.

(** ** Examples *)

Module LocalDocumentsExamples.

(** A root with a document, a link to it, a link out of the root, a loop and a
    directory with the name of a document. *)
Definition entries : list (list string * node) :=
  [([], Directory 4096); (["etc"], Directory 4096); (["etc"; "secret.json"], File [123; 125]%N);
   (["srv"], Directory 4096);
   (["srv"; "crm.json"], File [123; 125]%N); (["srv"; "alias.json"], Link "./crm.json");
   (["srv"; "out.json"], Link "/etc/secret.json"); (["srv"; "loop"], Link "loop");
   (["srv"; "dir.json"], Directory 4096)].
Definition disk : file_system := list_to_map entries.

(** [json.loads] of the two bytes of an empty object. *)
Definition loads (raw : list N) : loads_result := if bool_decide (raw = [123; 125]%N) then Loaded (JObj []) else NotUtf8Json.
Definition fixture_reader : LocalReader := mkLocalReader ["srv"] 8192.

Lemma disk_well_formed : well_formed disk.
Proof.
  intros p name n H. apply elem_of_list_to_map_2 in H. unfold entries in H.
  repeat (apply elem_of_cons in H as [H|H];
    [injection H as H ->;
     first [by destruct p
           |match type of H with ?l ++ [_] = _ =>
              apply (f_equal (@removelast string)) in H; rewrite removelast_last in H; subst p; exists 4096%Z; reflexivity end]|]).
  by apply not_elem_of_nil in H.
Qed.

(** The alias is resolved, and the document behind it is read. *)
Lemma read_stays_inside_witness :
  read_local loads disk fixture_reader "alias.json" = Ok (mkDocument "alias.json" (Sha256.hexdigest [123; 125]%N) []).
Proof.
  apply (proj2 (read_stays_inside loads disk fixture_reader "alias.json" disk_well_formed eq_refl)
    (mkDocument "alias.json" (Sha256.hexdigest [123; 125]%N) [])).
  split; [reflexivity|]. split; [by exists ["crm.json"]|]. split; [reflexivity|].
  exists [123; 125]%N, []. split; [reflexivity|]. split; [by apply Z.leb_le|]. split; reflexivity.
Defined.

(** What leaves the root is refused, and a loop of links raises. *)
Example refused_sources :
  read_local loads disk fixture_reader "out.json" = Raise source_not_found ∧
  read_local loads disk fixture_reader "../etc/secret.json" = Raise source_not_found ∧
  read_local loads disk fixture_reader "/etc/secret.json" = Raise source_not_found ∧
  read_local loads disk fixture_reader "" = Raise document_invalid ∧
  read_local loads disk fixture_reader "none.json" = Raise source_not_found ∧
  read_local loads disk fixture_reader "loop" = Raise (RuntimeError "Symlink loop").
Proof. repeat split; vm_compute; reflexivity. Qed.

(** A directory, or a name below a file, raises an [OSError] that is not
    handled. *)
Example directory_escapes :
  read_local loads disk fixture_reader "dir.json" = Raise OtherException ∧
  read_local loads disk fixture_reader "crm.json/x.json" = Raise OtherException.
Proof. split; vm_compute; reflexivity. Qed.

(** After a loop the rest of the source is kept as it is: a link that leaves
    the root, which is refused by itself, is followed. *)
Example loop_hides_link :
  (real_path disk (joined_path ["srv"] "loop/../out.json")) = (["srv"; "out.json"], false) ∧
  read_local loads disk fixture_reader "loop/../out.json" =
    Ok (mkDocument "loop/../out.json" (Sha256.hexdigest [123; 125]%N) []).
Proof. split; vm_compute; reflexivity. Qed.

End LocalDocumentsExamples.
