(* ===== verification/OpenApiReview.v ===== *)
(** * OpenAPI review and direct publication

    Models [modules/openapi_import/review.py] and [direct_publish.py]:
    accepting an imported operation creates a draft tool version with its
    binding (and the tool, when its name is new), and the direct publication
    reviews and publishes in one transaction. *)

From Stdlib Require Import ZArith Lia.
From stdpp Require Import base sets strings option list.
From S2P Require Import Prelude Text Dict Errors Json Store AuditTrail Catalog Connectors Registry Publish OpenApi OpenApiImport.
Open Scope py_scope.

(** ** Data *)

Record ReviewImportedOperationCommand := mkReviewCommand {
  rc_context : ActorContext;
  rc_operation_id : string;
  rc_owner : string;
  rc_visibility : ToolVisibility;
  rc_review_notes : option string }.

Record ReviewImportedOperationResult := mkReviewResult {
  rr_operation_id : string;
  rr_tool_id : string;
  rr_tool_version_id : string;
  rr_tool_binding_id : string;
  rr_canonical_name : string;
  rr_version : Z;
  rr_schema_digest : string;
  rr_binding_digest : string }.

Record DirectPublishImportedOperationResult := mkDirectResult {
  dr_reviewed : ReviewImportedOperationResult;
  dr_retired_tool_version_id : option string;
  dr_published_at : datetime;
  dr_already_published : bool }.

(** ** Reading a normalized operation *)

Definition invalid_review_state : exn := Nexus InvalidReviewStateError.

(** [_mapping] *)
Definition review_mapping (value : json) : res (dict json) :=
  match value with JObj d => Ok d | _ => Raise invalid_review_state end.

(** [_mapping(value) if value is not None else None] *)
Definition optional_mapping (value : json) : res (option (dict json)) :=
  match value with JNull => Ok None | _ => let? d := review_mapping value in Ok (Some d) end.

(** [_list_of_mappings]; an absent value is the empty tuple, not a list. *)
Definition list_of_mappings (value : json) : res (list (dict json)) :=
  match value with
  | JArr items => traverse review_mapping items
  | _ => Raise invalid_review_state
  end.

(** [_string_list] *)
Definition review_string_list (value : json) : res (list string) :=
  match value with
  | JArr items => traverse (λ item, match item with JStr s => Ok s | _ => Raise invalid_review_state end) items
  | _ => Raise invalid_review_state
  end.

(** [_text] *)
Definition review_text (value : json) : option string :=
  match value with
  | JStr s => if str_empty (strip s) then None else Some s
  | _ => None
  end.

(** [ToolSideEffect(str(value))], with [UNKNOWN] for a [ValueError]; only a
    string can be the value of a member. *)
Definition side_effect_of (value : json) : ToolSideEffect :=
  match value with
  | JStr s =>
      if bool_decide (s = "read_only") then ReadOnly
      else if bool_decide (s = "idempotent_write") then IdempotentWrite
      else if bool_decide (s = "non_idempotent_write") then NonIdempotentWrite
      else UnknownEffect
  | _ => UnknownEffect
  end.

(** [a or b] for texts *)
Definition text_or (a : option string) (b : string) : string :=
  match a with Some s => if str_empty s then b else s | None => b end.

(** One element of [binding_config["parameters"]]. *)
Definition binding_parameter (parameter : dict json) : json :=
  JObj [("argument_name", get "argument_name" parameter);
        ("upstream_name", get "upstream_name" parameter);
        ("location", get "location" parameter);
        ("required", JBool (is_true (get "required" parameter)))].

Definition binding_request_body (request_body : option (dict json)) : json :=
  match request_body with
  | None => JNull
  | Some b => JObj [("argument_name", get "argument_name" b);
                    ("content_type", get "content_type" b);
                    ("required", JBool (is_true (get "required" b)))]
  end.

(** [binding_config] of [_build_binding] *)
Definition binding_config_of (o : ImportedOperation) : res (dict json) :=
  let normalized := io_normalized_operation o in
  let? parameters := list_of_mappings (get "parameters" normalized) in
  let? request_body := optional_mapping (get "request_body" normalized) in
  Ok [("method", JStr (io_method o)); ("path_template", JStr (io_path o));
      ("parameters", JArr (map binding_parameter parameters));
      ("request_body", binding_request_body request_body)].

(** [replace(binding, binding_digest=calculate_binding_digest(binding))] *)
Definition with_binding_digest (b : ToolBinding) : res ToolBinding :=
  let? digest := calculate_binding_digest b in
  new_binding (mkBinding (tb_id b) (tb_tenant_id b) (tb_tool_version_id b) (tb_upstream_service_id b)
    (tb_imported_operation_id b) (tb_binding_type b) (tb_binding_config b) digest (tb_status b)
    (tb_created_at b) (tb_published_at b)).

(** ** The use cases *)

Section Review.
Context {D : Type} `{Ports} `{!Table D OpenApiImportJob} `{!Table D ImportedOperation}
  `{!Table D Tool} `{!Table D ToolVersion} `{!Table D ToolBinding} `{!Table D UpstreamService}.

(** [ReviewImportedOperation._build_version] *)
Definition build_version (c : ReviewImportedOperationCommand) (o : ImportedOperation) (tool : Tool)
    (version_number : Z) : M D ToolVersion :=
  let normalized := io_normalized_operation o in
  let* input_schema := lift (review_mapping (get "tool_input_schema" normalized)) in
  let* output_schema := lift (optional_mapping (get "tool_output_schema" normalized)) in
  let side_effect := side_effect_of (get_or (JStr "unknown") "side_effect" normalized) in
  let summary := text_or (review_text (get "summary" normalized))
                   (text_or (io_operation_id o) (tool_canonical_name tool)) in
  let description := text_or (review_text (get "description" normalized)) summary in
  let* tags := lift (review_string_list (get_or (JArr []) "tags" normalized)) in
  let* id := new_id in
  let* schema_digest := lift (calculate_schema_digest input_schema output_schema) in
  let* created_at := now in
  lift (new_tool_version
    (mkToolVersion id (ctx_tenant_id (rc_context c)) (tool_id tool) version_number summary description
       input_schema output_schema schema_digest tags side_effect (rc_visibility c) VDraft
       (ctx_principal_id (rc_context c)) created_at None None None)).

(** [ReviewImportedOperation._build_binding] *)
Definition build_binding (o : ImportedOperation) (v : ToolVersion) : M D ToolBinding :=
  let* binding_config := lift (binding_config_of o) in
  let* id := new_id in
  let* created_at := now in
  let* binding := lift (new_binding
    (mkBinding id (io_tenant_id o) (tv_id v) (io_upstream_service_id o) (Some (io_id o)) BindHttp
       binding_config "pending" BDraft created_at None)) in
  lift (with_binding_digest binding).

Definition review_result (o : ImportedOperation) (tool : Tool) (v : ToolVersion) (b : ToolBinding) :
    ReviewImportedOperationResult :=
  mkReviewResult (io_id o) (tool_id tool) (tv_id v) (tb_id b) (tool_canonical_name tool)
    (tv_version v) (tv_schema_digest v) (tb_binding_digest b).

(** [ReviewImportedOperation._existing_result] *)
Definition existing_result (tenant_id : string) (o : ImportedOperation) :
    M D ReviewImportedOperationResult :=
  match io_draft_tool_version_id o, io_draft_tool_binding_id o with
  | Some version_id, Some binding_id =>
      let* version := get_version_by_id tenant_id version_id in
      let* binding := get_binding_by_id tenant_id binding_id in
      match version, binding with
      | Some version, Some binding =>
          let* tool := get_tool_by_id tenant_id (tv_tool_id version) in
          match tool with
          | None => raise invalid_review_state
          | Some tool => ret (review_result o tool version binding)
          end
      | _, _ => raise invalid_review_state
      end
  | _, _ => raise invalid_review_state
  end.

(** The tool of the operation's name, created when it is new. *)
Definition tool_for (c : ReviewImportedOperationCommand) (upstream : UpstreamService)
    (canonical_name : string) : M D Tool :=
  let tenant_id := ctx_tenant_id (rc_context c) in
  let* found := get_tool_by_name tenant_id canonical_name in
  match found with
  | Some tool => ret tool
  | None =>
      let* id := new_id in
      let* tool := lift (new_tool (mkTool id tenant_id (us_namespace upstream) canonical_name
                                     (rc_owner c) ToolDisabled)) in
      add_tool tenant_id tool ;;*
      ret tool
  end.

(** Everything after the checks of [execute_in_transaction]. *)
Definition accept_in_transaction (c : ReviewImportedOperationCommand) (o : ImportedOperation)
    (upstream : UpstreamService) (canonical_name : string) : M D ReviewImportedOperationResult :=
  let tenant_id := ctx_tenant_id (rc_context c) in
  let* tool := tool_for c upstream canonical_name in
  let* version_number := next_version_number tenant_id (tool_id tool) in
  let* version := build_version c o tool version_number in
  let* binding := build_binding o version in
  let* accepted := lift (accept_operation o (tv_id version) (tb_id binding) (rc_review_notes c)) in
  add_version tenant_id version ;;*
  add_binding tenant_id binding ;;*
  save_operation tenant_id accepted ;;*
  ret (review_result o tool version binding).

(** [ReviewImportedOperation.execute_in_transaction] *)
Definition review_in_transaction (c : ReviewImportedOperationCommand) :
    M D ReviewImportedOperationResult :=
  let tenant_id := ctx_tenant_id (rc_context c) in
  let* operation := get_operation tenant_id (rc_operation_id c) in
  match operation with
  | None => raise (Nexus ImportedOperationNotFoundError)
  | Some o =>
      if bool_decide (io_review_status o = ReviewAccepted) then existing_result tenant_id o
      else
        lift (raise_if (negb (bool_decide (io_conflict_status o = ConflictNone))) invalid_review_state) ;;*
        match io_generated_tool_name o with
        | None => raise invalid_review_state
        | Some canonical_name =>
            let* upstream := get_upstream tenant_id (io_upstream_service_id o) in
            match upstream with
            | None => raise (Nexus TenantBoundaryViolationError)
            | Some upstream =>
                lift (raise_if (negb (bool_decide (us_status upstream = UpActive)))
                        (Nexus UpstreamNotActiveError)) ;;*
                accept_in_transaction c o upstream canonical_name
            end
        end
  end.

(** [ReviewImportedOperation.execute] *)
Definition review_imported_operation (c : ReviewImportedOperationCommand) :
    M D ReviewImportedOperationResult :=
  with_uow (
    let* result := review_in_transaction c in
    commit ;;*
    ret result).

(** What [DirectPublishImportedOperation.execute] finds in its transaction. *)
Inductive direct_outcome :=
| AlreadyPublished (reviewed : ReviewImportedOperationResult) (published_at : datetime)
| Published (reviewed : ReviewImportedOperationResult) (publication : PublishToolResult).

Definition direct_result (outcome : direct_outcome) : DirectPublishImportedOperationResult :=
  match outcome with
  | AlreadyPublished reviewed published_at => mkDirectResult reviewed None published_at true
  | Published reviewed p =>
      mkDirectResult reviewed (pr_retired_tool_version_id p) (ev_occurred_at (pr_event p)) false
  end.

(** The body of its [async with] block, without the commit. *)
Definition direct_in_transaction (c : ReviewImportedOperationCommand) (published_at : datetime) :
    M D direct_outcome :=
  let tenant_id := ctx_tenant_id (rc_context c) in
  let* reviewed := review_in_transaction c in
  let* version := get_version_by_id tenant_id (rr_tool_version_id reviewed) in
  let* binding := get_binding_by_tool_version tenant_id (rr_tool_version_id reviewed) in
  let* tool := get_tool_by_id tenant_id (rr_tool_id reviewed) in
  match version, binding, tool with
  | Some version, Some binding, Some tool =>
      if bool_decide (tv_status version = VPublished) then
        match tv_published_at version with
        | Some at_ =>
            lift (raise_if (negb (bool_decide (tb_status binding = BPublished))
                            || negb (bool_decide (tool_status tool = ToolActive)))
                    (Nexus InvalidToolStateError)) ;;*
            ret (AlreadyPublished reviewed at_)
        | None => raise (Nexus InvalidToolStateError)
        end
      else
        (if bool_decide (tv_status version = VDraft) then
           let* version := lift (submit_for_review version published_at) in
           save_version tenant_id version
         else lift (raise_if (negb (bool_decide (tv_status version = VReview)))
                      (Nexus InvalidToolStateError))) ;;*
        let* publication := publish_tool_in_transaction
          (mkPublishCommand (rc_context c) (rr_tool_id reviewed) (rr_tool_version_id reviewed)
             (rr_schema_digest reviewed) (rr_binding_digest reviewed)) published_at in
        ret (Published reviewed publication)
  | _, _, _ => raise invalid_review_state
  end.

(** [DirectPublishImportedOperation.execute]; an operation published before
    is returned without a commit. *)
Definition direct_publish (c : ReviewImportedOperationCommand) :
    M D DirectPublishImportedOperationResult :=
  let* published_at := now in
  lift (raise_if (negb (dt_aware published_at))
          (ValueError "publish clock must return a timezone-aware datetime")) ;;*
  let* outcome := with_uow (
    let* outcome := direct_in_transaction c published_at in
    match outcome with
    | AlreadyPublished _ _ => ret outcome
    | Published _ _ => commit ;;* ret outcome
    end) in
  ret (direct_result outcome).
End Review.

(** ** What a review does *)

(** The tables after a tool was found or added. *)
Inductive tool_found (c : ReviewImportedOperationCommand) (upstream : UpstreamService) (name : string)
    (tools : dict Tool) (tool : Tool) : dict Tool → Prop :=
| tool_existing :
    find_tool_by_name (ctx_tenant_id (rc_context c)) name tools = Some tool →
    tool_found c upstream name tools tool tools
| tool_new id :
    find_tool_by_name (ctx_tenant_id (rc_context c)) name tools = None →
    dget id tools = None →
    tool = mkTool id (ctx_tenant_id (rc_context c)) (us_namespace upstream) name (rc_owner c) ToolDisabled →
    tool_found c upstream name tools tool (dset id tool tools).

Definition next_number (tenant_id tid : string) (versions : dict ToolVersion) : Z :=
  (foldr Z.max 0 (map tv_version (filter (λ v, tv_tenant_id v = tenant_id ∧ tv_tool_id v = tid)
                                    (dvalues versions))) + 1)%Z.

(** A draft version of an operation, and the draft binding of it. *)
Record draft_version (c : ReviewImportedOperationCommand) (o : ImportedOperation) (tool : Tool)
    (number : Z) (v : ToolVersion) : Prop := {
  dv_tenant : tv_tenant_id v = ctx_tenant_id (rc_context c);
  dv_tool : tv_tool_id v = tool_id tool;
  dv_number : tv_version v = number;
  dv_status : tv_status v = VDraft;
  dv_visibility : tv_visibility v = rc_visibility c;
  dv_schema : get "tool_input_schema" (io_normalized_operation o) = JObj (tv_input_schema v);
  dv_effect : tv_side_effect v = side_effect_of (get_or (JStr "unknown") "side_effect" (io_normalized_operation o));
  dv_digest : calculate_schema_digest (tv_input_schema v) (tv_output_schema v) = Ok (tv_schema_digest v) }.

Record draft_binding (o : ImportedOperation) (v : ToolVersion) (b : ToolBinding) : Prop := {
  db_tenant : tb_tenant_id b = io_tenant_id o;
  db_version : tb_tool_version_id b = tv_id v;
  db_upstream : tb_upstream_service_id b = io_upstream_service_id o;
  db_operation : tb_imported_operation_id b = Some (io_id o);
  db_config : binding_config_of o = Ok (tb_binding_config b);
  db_status : tb_status b = BDraft;
  db_digest : calculate_binding_digest b = Ok (tb_binding_digest b) }.

Definition accepted_operation (o : ImportedOperation) (v : ToolVersion) (b : ToolBinding)
    (notes : option string) : ImportedOperation :=
  mkImported (io_id o) (io_tenant_id o) (io_import_job_id o) (io_upstream_service_id o)
    (io_operation_key o) (io_operation_id o) (io_method o) (io_path o) (io_normalized_operation o)
    (io_generated_tool_name o) (io_conflict_status o) ReviewAccepted notes (Some (tv_id v)) (Some (tb_id b)).

(** Accepting an operation: from the stores [d] to [d']. *)
Inductive acceptance (c : ReviewImportedOperationCommand) (d : import_store) (o : ImportedOperation) :
    Tool → ToolVersion → ToolBinding → import_store → Prop :=
| acceptance_intro name u tool v b tools' :
    let k := is_catalog d in
    io_conflict_status o = ConflictNone →
    io_review_status o ∈ [ReviewPending; ReviewNeedsChange] →
    io_generated_tool_name o = Some name →
    dget (io_upstream_service_id o) (cs_upstreams k) = Some u → us_status u = UpActive →
    tool_found c u name (cs_tools k) tool tools' →
    draft_version c o tool (next_number (ctx_tenant_id (rc_context c)) (tool_id tool) (cs_versions k)) v →
    draft_binding o v b →
    dget (tv_id v) (cs_versions k) = None →
    (∀ w, w ∈ dvalues (cs_versions k) → ¬ same_version v w) →
    dget (tb_id b) (cs_bindings k) = None →
    find_binding_by_version (tb_tenant_id b) (tb_tool_version_id b) (cs_bindings k) = None →
    acceptance c d o tool v b
      (mkImportStore (is_jobs d)
         (dset (io_id o) (accepted_operation o v b (rc_review_notes c)) (is_operations d))
         (mkCatalogStore tools' (dset (tv_id v) v (cs_versions k)) (dset (tb_id b) b (cs_bindings k))
            (cs_upstreams k))).

Section ReviewFacts.
Context `{Ports}.
Implicit Types d : import_store.

Lemma build_version_Ok c o tool n d0 d e v s' :
  build_version c o tool n (St d0 (Some d) e) = (Ok v, s') →
  draft_version c o tool n v ∧ ∃ e', s' = St d0 (Some d) e'.
Proof.
  intros Hr. unfold build_version in Hr. ok_inv Hr. apply new_tool_version_Ok in Hr as ->.
  split; [|eauto]. split; try done; simpl.
  match goal with G : review_mapping ?j = Ok _ |- _ => by destruct j; try discriminate G; injection G as -> end.
Qed.

Lemma with_binding_digest_Ok b b' :
  with_binding_digest b = Ok b' →
  calculate_binding_digest b' = Ok (tb_binding_digest b') ∧
  tb_id b' = tb_id b ∧ tb_tenant_id b' = tb_tenant_id b ∧ tb_tool_version_id b' = tb_tool_version_id b ∧
  tb_upstream_service_id b' = tb_upstream_service_id b ∧
  tb_imported_operation_id b' = tb_imported_operation_id b ∧
  tb_binding_config b' = tb_binding_config b ∧ tb_status b' = tb_status b.
Proof.
  unfold with_binding_digest. intros (digest & Hd & ->%new_binding_Ok)%rbind_Ok_inv. by split_and!.
Qed.

Lemma build_binding_Ok o v d0 d e b s' :
  build_binding o v (St d0 (Some d) e) = (Ok b, s') →
  draft_binding o v b ∧ ∃ e', s' = St d0 (Some d) e'.
Proof.
  intros Hr. unfold build_binding in Hr. ok_inv Hr.
  match goal with G : new_binding _ = Ok _ |- _ => apply new_binding_Ok in G as -> end.
  apply with_binding_digest_Ok in Hr as (? & Hid & ? & ? & ? & ? & Hc & ?); simpl in *.
  split; [|eauto]. split; try done. by rewrite Hc.
Qed.

Lemma tool_for_Ok c u name d0 d e tool s' :
  tool_for c u name (St d0 (Some d) e) = (Ok tool, s') →
  ∃ tools' e', tool_found c u name (cs_tools (is_catalog d)) tool tools' ∧
    s' = St d0 (Some (mkImportStore (is_jobs d) (is_operations d)
      (mkCatalogStore tools' (cs_versions (is_catalog d)) (cs_bindings (is_catalog d))
         (cs_upstreams (is_catalog d))))) e'.
Proof.
  intros Hr. unfold tool_for, get_tool_by_name in Hr. ok_inv Hr.
  - eexists _, _. split; [by apply tool_existing|]. by destruct d as [? ? []].
  - match goal with G : new_tool _ = Ok _ |- _ => apply new_tool_Ok in G as -> end.
    match goal with G : add_tool _ _ _ = _ |- _ => apply add_tool_Ok in G as (_ & Hn & Hno & ->) end.
    eexists _, _. split; [by eapply tool_new|]. reflexivity.
Qed.

Lemma accept_operation_Ok o vid bid notes o' :
  accept_operation o vid bid notes = Ok o' →
  io_conflict_status o = ConflictNone ∧ io_review_status o ∈ [ReviewPending; ReviewNeedsChange] ∧
  o' = mkImported (io_id o) (io_tenant_id o) (io_import_job_id o) (io_upstream_service_id o)
         (io_operation_key o) (io_operation_id o) (io_method o) (io_path o) (io_normalized_operation o)
         (io_generated_tool_name o) (io_conflict_status o) ReviewAccepted notes (Some vid) (Some bid).
Proof. unfold accept_operation. intros Hr. guards Hr. py_bools. split_and!; [done|done|by injection Hr as <-]. Qed.

Lemma save_operation_Ok tenant o d0 d e u s' :
  save_operation tenant o (St d0 (Some d) e) = (Ok u, s') →
  io_tenant_id o = tenant ∧
  s' = St d0 (Some (mkImportStore (is_jobs d) (dset (io_id o) o (is_operations d)) (is_catalog d))) e.
Proof. intros Hr. unfold save_operation in Hr. ok_inv Hr. by ok_facts. Qed.

(** The drafts an accepted operation refers to. *)
Definition drafts_of (tenant : string) d (o : ImportedOperation) (tool : Tool) (v : ToolVersion)
    (b : ToolBinding) : Prop :=
  ∃ version_id binding_id,
    io_draft_tool_version_id o = Some version_id ∧ io_draft_tool_binding_id o = Some binding_id ∧
    dget version_id (cs_versions (is_catalog d)) = Some v ∧ tv_tenant_id v = tenant ∧
    dget binding_id (cs_bindings (is_catalog d)) = Some b ∧ tb_tenant_id b = tenant ∧
    dget (tv_tool_id v) (cs_tools (is_catalog d)) = Some tool ∧ tool_tenant_id tool = tenant.

Lemma existing_result_Ok tenant o d0 d e r s' :
  existing_result tenant o (St d0 (Some d) e) = (Ok r, s') →
  ∃ tool v b, drafts_of tenant d o tool v b ∧ r = review_result o tool v b ∧ s' = St d0 (Some d) e.
Proof.
  intros Hr. unfold existing_result, get_version_by_id, get_binding_by_id, get_tool_by_id in Hr.
  ok_inv Hr. ok_facts. eexists _, _, _. split; [|by split]. unfold drafts_of. eexists _, _. by split_and!.
Qed.

Lemma accept_in_transaction_Ok c o u name d0 d e r s' :
  io_generated_tool_name o = Some name →
  dget (io_upstream_service_id o) (cs_upstreams (is_catalog d)) = Some u → us_status u = UpActive →
  accept_in_transaction c o u name (St d0 (Some d) e) = (Ok r, s') →
  ∃ tool v b d' e', acceptance c d o tool v b d' ∧ r = review_result o tool v b ∧ s' = St d0 (Some d') e'.
Proof.
  intros Hname Hu Hua Hr. unfold accept_in_transaction in Hr.
  apply bind_Ok_inv in Hr as (tool & s1 & Ht & Hr).
  apply tool_for_Ok in Ht as (tools' & e1 & Hfound & ->).
  unfold next_version_number at 1 in Hr.
  apply bind_Ok_inv in Hr as (number & s1 & Hn & Hr). ok_inv Hn. simpl in Hr.
  apply bind_Ok_inv in Hr as (v & s1 & Hv & Hr). apply build_version_Ok in Hv as [Hv [e2 ->]].
  apply bind_Ok_inv in Hr as (b & s1 & Hb & Hr). apply build_binding_Ok in Hb as [Hb [e3 ->]].
  apply bind_Ok_inv in Hr as (o' & s1 & Ho & Hr). apply lift_Ok_inv in Ho as [Ho ->].
  apply accept_operation_Ok in Ho as (Hc & Hs & ->).
  apply bind_Ok_inv in Hr as ([] & s1 & G & Hr). apply add_version_Ok in G as (Hvt & Hvf & Hvn & ->).
  apply bind_Ok_inv in Hr as ([] & s1 & G & Hr). apply add_binding_Ok in G as (Hbt & Hbf & Hbn & ->).
  apply bind_Ok_inv in Hr as ([] & s1 & G & Hr). apply save_operation_Ok in G as (_ & ->).
  apply ret_Ok_inv in Hr as [-> ->]. simpl in *.
  eexists tool, v, b, _, e3. split_and!; [|reflexivity|reflexivity].
  econstructor; try done. by rewrite Hbt.
Qed.

Lemma review_in_transaction_Ok c d0 d e r s' :
  review_in_transaction c (St d0 (Some d) e) = (Ok r, s') →
  ∃ o tool v b d' e', dget (rc_operation_id c) (is_operations d) = Some o ∧
    io_tenant_id o = ctx_tenant_id (rc_context c) ∧ r = review_result o tool v b ∧ s' = St d0 (Some d') e' ∧
    if bool_decide (io_review_status o = ReviewAccepted)
    then drafts_of (ctx_tenant_id (rc_context c)) d o tool v b ∧ d' = d
    else acceptance c d o tool v b d'.
Proof.
  intros Hr. unfold review_in_transaction, get_operation in Hr.
  apply bind_Ok_inv in Hr as (found & s1 & G & Hr). ok_inv G. simpl in Hr.
  destruct (in_tenant _ _ _) as [o|] eqn:Ho; [|discriminate Hr]. apply in_tenant_Some in Ho as [Ho Hot].
  exists o. destruct (bool_decide (io_review_status o = ReviewAccepted)).
  - apply existing_result_Ok in Hr as (tool & v & b & Hd & -> & ->).
    exists tool, v, b, d, e. split_and!; done.
  - apply bind_Ok_inv in Hr as ([] & s1 & G & Hr). apply lift_Ok_inv in G as [_ ->].
    destruct (io_generated_tool_name o) as [name|] eqn:Hname; [|discriminate Hr].
    unfold get_upstream in Hr. apply bind_Ok_inv in Hr as (found & s1 & G & Hr). ok_inv G. simpl in Hr.
    destruct (in_tenant us_tenant_id _ _) as [u|] eqn:Hu; [|discriminate Hr]. apply in_tenant_Some in Hu as [Hu _].
    apply bind_Ok_inv in Hr as ([] & s1 & G & Hr). apply lift_Ok_inv in G as [Hua ->].
    apply raise_if_Ok, negb_decide_false in Hua.
    apply accept_in_transaction_Ok in Hr as (tool & v & b & d' & e' & Ha & -> & ->); try done.
    exists tool, v, b, d', e'. split_and!; done.
Qed.
End ReviewFacts.

(** ** The invariant *)

Definition same_operation_key (a b : ImportedOperation) : Prop :=
  io_import_job_id a = io_import_job_id b ∧ io_operation_key a = io_operation_key b.
#[export] Instance same_operation_key_sym : Symmetric same_operation_key.
Proof. by intros a b [? ?]. Qed.

(** The job of an operation is complete. *)
Definition imported_by (jobs : dict OpenApiImportJob) (o : ImportedOperation) : Prop :=
  ∃ j, dget (io_import_job_id o) jobs = Some j ∧ ij_status j = JobCompleted ∧
    ij_tenant_id j = io_tenant_id o.

(** An accepted operation has no conflict, and its drafts are there: a tool
    of its name with a version, and the binding that leads back to it. *)
Definition has_drafts (k : catalog_store) (o : ImportedOperation) : Prop :=
  io_conflict_status o = ConflictNone ∧
  ∃ tool v b, io_draft_tool_version_id o = Some (tv_id v) ∧ io_draft_tool_binding_id o = Some (tb_id b) ∧
    dget (tv_id v) (cs_versions k) = Some v ∧ dget (tb_id b) (cs_bindings k) = Some b ∧
    dget (tv_tool_id v) (cs_tools k) = Some tool ∧
    tv_tenant_id v = io_tenant_id o ∧ tb_tenant_id b = io_tenant_id o ∧ tool_tenant_id tool = io_tenant_id o ∧
    io_generated_tool_name o = Some (tool_canonical_name tool) ∧
    tb_tool_version_id b = tv_id v ∧ tb_imported_operation_id b = Some (io_id o) ∧
    tb_upstream_service_id b = io_upstream_service_id o.

Definition job_settled (j : OpenApiImportJob) : Prop :=
  match ij_status j with
  | JobCompleted => is_Some (ij_openapi_version j) ∧ is_Some (ij_completed_at j) ∧ ij_error_summary j = None
  | JobFailed => is_Some (ij_error_summary j) ∧ is_Some (ij_completed_at j)
  | _ => ij_error_summary j = None ∧ ij_completed_at j = None
  end.

Record imports_ok (d : import_store) : Prop := {
  im_catalog : catalog_ok (is_catalog d);
  im_jobs : keyed ij_id (is_jobs d);
  im_operations : keyed io_id (is_operations d);
  im_keys : unique_by io_id same_operation_key (is_operations d);
  im_settled : ∀ k j, dget k (is_jobs d) = Some j → job_settled j;
  im_imported : ∀ k o, dget k (is_operations d) = Some o → imported_by (is_jobs d) o;
  im_drafts : ∀ k o, dget k (is_operations d) = Some o → io_review_status o = ReviewAccepted →
    has_drafts (is_catalog d) o }.

Lemma same_by_eq {V W} (f : V → W) v w : same_by f v w → f w = f v.
Proof. done. Qed.

Lemma has_drafts_keeps k k' o :
  catalog_ok k' → catalog_keeps k k' → has_drafts k o → has_drafts k' o.
Proof.
  intros Hok' [Ht Hv Hb] (Hc & tool & v & b & Ev & Eb & Dv & Db & Dt & T1 & T2 & T3 & Hn & B1 & B2 & B3).
  split; [done|].
  destruct (Hv _ _ Dv) as (v' & Dv' & [= Iv1 Iv2 Iv3 Iv4 Iv5]%same_by_eq).
  destruct (Hb _ _ Db) as (b' & Db' & [= Ib1 Ib2 Ib3 Ib4 Ib5 Ib6]%same_by_eq).
  destruct (Ht _ _ Dt) as (tool' & Dt' & [= It1 It2 It3]%same_by_eq).
  exists tool', v', b'. split_and!; congruence.
Qed.

(** A change of the catalog alone. *)
Lemma imports_ok_catalog d k :
  imports_ok d → catalog_ok k → catalog_keeps (is_catalog d) k →
  imports_ok (mkImportStore (is_jobs d) (is_operations d) k).
Proof.
  intros Hok Hk Hkeep. split; simpl; try apply Hok; [done|]. intros i o Ho Hs.
  eapply has_drafts_keeps; [done|done|]. by eapply im_drafts.
Qed.

(** The three entries an acceptance adds to the catalog. *)
Lemma tool_found_keeps c u name tools tool tools' :
  keyed tool_id tools → tool_found c u name tools tool tools' →
  keyed tool_id tools' ∧ keeps (same_by tool_identity) tools tools' ∧
  dget (tool_id tool) tools' = Some tool ∧ tool_tenant_id tool = ctx_tenant_id (rc_context c) ∧
  tool_canonical_name tool = name.
Proof.
  intros Hk [Hf|id Hf Hn ->].
  - destruct (dfind_Some tool_id _ _ _ Hk Hf) as [Hd Hp]. py_bools. split_and!; try done. apply keeps_refl, _.
  - split_and!; try done.
    + by apply (keyed_dset tool_id (mkTool id _ _ _ _ _)).
    + by apply keeps_fresh; [apply _|].
    + apply dget_dset_eq.
Qed.

Lemma acceptance_catalog c d o tool v b d' :
  imports_ok d → acceptance c d o tool v b d' →
  catalog_ok (is_catalog d') ∧ catalog_keeps (is_catalog d) (is_catalog d').
Proof.
  intros Hok [name u tool' v' b' tools' k Hc Hs Hn Hu Hua Hf Hv Hb Hvf Hvn Hbf Hbn]. simpl.
  pose proof (im_catalog _ Hok) as Hk.
  destruct (tool_found_keeps _ _ _ _ _ _ (cat_tools _ Hk) Hf) as (Hkt & Hkeep & _).
  split.
  - assert (Hk1 : catalog_ok (mkCatalogStore tools' (cs_versions k) (cs_bindings k) (cs_upstreams k)))
      by (split; simpl; try done; apply Hk).
    pose proof (catalog_ok_add_version _ v' Hk1 (dv_status _ _ _ _ _ Hv) Hvf Hvn) as Hk2.
    exact (catalog_ok_add_binding _ b' Hk2 Hbf Hbn).
  - split; simpl; [done|by apply keeps_fresh; [apply _|]|by apply keeps_fresh; [apply _|]].
Qed.

Lemma acceptance_ok c d o tool v b d' :
  imports_ok d → dget (rc_operation_id c) (is_operations d) = Some o →
  io_tenant_id o = ctx_tenant_id (rc_context c) →
  acceptance c d o tool v b d' → imports_ok d'.
Proof.
  intros Hok Ho Hot Ha. destruct (acceptance_catalog _ _ _ _ _ _ _ Hok Ha) as [Hk Hkeep].
  destruct Ha as [name u tool' v' b' tools' k Hc Hs Hn Hu Hua Hf Hv Hb Hvf Hvn Hbf Hbn].
  destruct (tool_found_keeps _ _ _ _ _ _ (cat_tools _ (im_catalog _ Hok)) Hf) as (_ & _ & Dt & Tt & Tn).
  pose proof (keyed_get _ _ _ _ (im_operations _ Hok) Ho) as Eo.
  split; simpl in *; try apply Hok; [done| | | |].
  - by apply (keyed_dset io_id (accepted_operation o v' b' (rc_review_notes c))), Hok.
  - apply (unique_by_dset io_id same_operation_key (accepted_operation o v' b' (rc_review_notes c)));
      [apply Hok|apply _|apply Hok|].
    intros i w Hw Hsame. simpl. rewrite Eo. symmetry. rewrite <-Eo.
    apply (im_keys _ Hok _ _ _ _ Ho Hw) in Hsame. congruence.
  - intros i w. rewrite dget_dset. destruct (decide _) as [->|].
    + intros [= <-]. by apply (im_imported _ Hok _ _ Ho).
    + apply Hok.
  - intros i w. rewrite dget_dset. destruct (decide _) as [->|].
    + intros [= <-] _. split; [done|]. exists tool', v', b'. simpl.
      rewrite !dget_dset_eq. destruct Hv, Hb. split_and!; try congruence.
    + intros Hw Hst. eapply has_drafts_keeps; [done|exact Hkeep|by eapply im_drafts].
Qed.

(** ** Reviews and publications as transactions *)

Section Direct.
Context `{Ports} `{DocumentReader}.
Implicit Types d : import_store.

Lemma tx_review c : tx (D := import_store) (review_in_transaction c).
Proof.
  unfold review_in_transaction, existing_result, accept_in_transaction, tool_for, build_version, build_binding,
    get_operation, save_operation, get_upstream, get_tool_by_id, get_tool_by_name, add_tool, get_tool_by_name,
    get_version_by_id, add_version, next_version_number, get_binding_by_id, add_binding,
    get_binding_by_tool_version.
  tx_solve.
Qed.

Lemma tx_direct c t : tx (D := import_store) (direct_in_transaction c t).
Proof.
  unfold direct_in_transaction. apply tx_bind; [apply tx_review|intros reviewed].
  unfold get_tool_by_id, get_version_by_id, get_binding_by_tool_version, save_version.
  repeat first [progress intros | solve [eauto 2 with tx] | apply tx_publish_tool_in_transaction
               | apply tx_bind | progress case_match].
Qed.

(** The catalog a publication starts from: the reviewed one, its draft
    submitted when it was one. *)
Inductive submitted (t : datetime) (k : catalog_store) (version_id : string) : catalog_store → Prop :=
| submitted_before v :
    dget version_id (cs_versions k) = Some v → tv_status v = VReview → submitted t k version_id k
| submitted_now v :
    dget version_id (cs_versions k) = Some v → tv_status v = VDraft →
    submitted t k version_id
      (mkCatalogStore (cs_tools k)
         (dset (tv_id v) (version_at v VReview (Some t) (tv_published_at v) (tv_retired_at v)) (cs_versions k))
         (cs_bindings k) (cs_upstreams k)).

Definition reviewed_as (c : ReviewImportedOperationCommand) d (o : ImportedOperation) (tool : Tool)
    (v : ToolVersion) (b : ToolBinding) d1 : Prop :=
  dget (rc_operation_id c) (is_operations d) = Some o ∧ io_tenant_id o = ctx_tenant_id (rc_context c) ∧
  if bool_decide (io_review_status o = ReviewAccepted)
  then drafts_of (ctx_tenant_id (rc_context c)) d o tool v b ∧ d1 = d
  else acceptance c d o tool v b d1.

Definition direct_command (c : ReviewImportedOperationCommand) (r : ReviewImportedOperationResult) :
    PublishToolCommand :=
  mkPublishCommand (rc_context c) (rr_tool_id r) (rr_tool_version_id r) (rr_schema_digest r)
    (rr_binding_digest r).

Lemma reviewed_as_ok c d o tool v b d1 : imports_ok d → reviewed_as c d o tool v b d1 → imports_ok d1.
Proof.
  intros Hok (Ho & Ht & H1). destruct (bool_decide _); [by destruct H1 as [_ ->]|]. by eapply acceptance_ok.
Qed.

Lemma direct_in_transaction_Ok c t d0 d e out s' :
  imports_ok d →
  direct_in_transaction c t (St d0 (Some d) e) = (Ok out, s') →
  ∃ o tool v b d1 e', reviewed_as c d o tool v b d1 ∧ dr_reviewed (direct_result out) = review_result o tool v b ∧
    match out with
    | AlreadyPublished r _ => s' = St d0 (Some d1) e' ∧
        ∃ w wb wt, dget (tv_id v) (cs_versions (is_catalog d1)) = Some w ∧ tv_status w = VPublished ∧
          find_binding_by_version (ctx_tenant_id (rc_context c)) (tv_id v) (cs_bindings (is_catalog d1)) = Some wb ∧
          tb_status wb = BPublished ∧
          dget (tool_id tool) (cs_tools (is_catalog d1)) = Some wt ∧ tool_status wt = ToolActive
    | Published r p =>
        ∃ k1 w k', submitted t (is_catalog d1) (tv_id v) k1 ∧
          publication (direct_command c r) t k1 (pr_retired_tool_version_id p) w k' ∧
          s' = St d0 (Some (with_catalog k' d1)) e'
    end.
Proof.
  intros Hok Hr. unfold direct_in_transaction in Hr.
  apply bind_Ok_inv in Hr as (r & s1 & Hrev & Hr).
  apply review_in_transaction_Ok in Hrev as (o & tool & v & b & d1 & e1 & Ho & Ht & -> & -> & Hcase).
  assert (Hok1 : imports_ok d1) by (eapply reviewed_as_ok; [exact Hok|by split_and!]).
  exists o, tool, v, b, d1. unfold get_version_by_id, get_binding_by_tool_version, get_tool_by_id in Hr.
  apply bind_Ok_inv in Hr as (fv & s1 & G & Hr). ok_inv G. simpl in Hr.
  apply bind_Ok_inv in Hr as (fb & s1 & G & Hr). ok_inv G. simpl in Hr.
  apply bind_Ok_inv in Hr as (ft & s1 & G & Hr). ok_inv G. simpl in Hr.
  destruct (in_tenant tv_tenant_id _ _) as [w|] eqn:Hw; [|discriminate Hr]. apply in_tenant_Some in Hw as [Hw _].
  destruct (find_binding_by_version _ _ _) as [wb|] eqn:Hwb; [|discriminate Hr].
  destruct (in_tenant tool_tenant_id _ _) as [wt|] eqn:Hwt; [|discriminate Hr]. apply in_tenant_Some in Hwt as [Hwt _].
  destruct (bool_decide (tv_status w = VPublished)) eqn:Hpub.
  - destruct (tv_published_at w) as [at_|]; [|discriminate Hr].
    apply bind_Ok_inv in Hr as ([] & s1 & G & Hr). apply lift_Ok_inv in G as [G ->].
    apply raise_if_Ok in G. py_bools. apply ret_Ok_inv in Hr as [-> ->].
    exists e1. split_and!; [by split_and!|done|done|]. eexists w, wb, wt. by split_and!.
  - apply bind_Ok_inv in Hr as ([] & s1 & G & Hr).
    assert (Hsub : ∃ k1, submitted t (is_catalog d1) (tv_id v) k1 ∧ keyed tv_id (cs_versions k1) ∧
      s1 = St d0 (Some (with_catalog k1 d1)) e1).
    { destruct (bool_decide (tv_status w = VDraft)) eqn:Hdraft.
      - apply bind_Ok_inv in G as (w' & s2 & G & Hsave). apply lift_Ok_inv in G as [G ->].
        apply submit_for_review_Ok in G as [Hd ->]. apply save_version_Ok in Hsave as [_ ->].
        eexists. split_and!; [by eapply submitted_now| |reflexivity]. simpl.
        apply (keyed_dset tv_id (version_at w _ _ _ _)), Hok1.
      - apply lift_Ok_inv in G as [G ->]. apply raise_if_Ok, negb_decide_false in G.
        exists (is_catalog d1). split_and!; [by eapply submitted_before|apply Hok1|by destruct d1]. }
    destruct Hsub as (k1 & Hsub & Hk1 & ->).
    apply bind_Ok_inv in Hr as (p & s2 & Hp & Hr). apply ret_Ok_inv in Hr as [-> ->].
    apply publish_in_transaction_Ok in Hp as (w' & k' & -> & Hp); [|done].
    exists e1. split_and!; [by split_and!|done|]. exists k1, w', k'. by split_and!.
Qed.

Lemma submitted_ok t k vid k1 :
  catalog_ok k → submitted t k vid k1 → catalog_ok k1 ∧ catalog_keeps k k1.
Proof.
  intros Hk [v Hv Hs|v Hv Hs]; [done|].
  pose proof (keyed_get _ _ _ _ (cat_versions _ Hk) Hv) as <-. split; [by apply catalog_ok_submit|].
  split; simpl; try (apply keeps_refl, _). by apply (keeps_rewrite (same_by version_identity) (tv_id v) v).
Qed.

(** One run of each use case. *)
Lemma review_run c d e r s' :
  review_imported_operation c (St d None e) = (r, s') →
  ∃ e', (∃ x, r = Raise x ∧ s' = St d None e') ∨
    (∃ o tool v b d', reviewed_as c d o tool v b d' ∧ r = Ok (review_result o tool v b) ∧ s' = St d' None e').
Proof.
  intros Hr. apply transaction_inv in Hr as (e' & [(x & ? & ? & _)|(a & d' & -> & -> & Hr)]); [by eauto 10| |apply tx_review].
  apply review_in_transaction_Ok in Hr as (o & tool & v & b & d1 & e1 & Ho & Ht & -> & [= -> ->] & Hcase).
  exists e1. right. exists o, tool, v, b, d1. split_and!; [by split_and!|done|done].
Qed.

Lemma direct_publish_run c d e r s' :
  direct_publish c (St d None e) = (r, s') →
  ∃ e1 e', (∃ x, r = Raise x ∧ s' = St d None e') ∨
    (∃ out d', r = Ok (direct_result out) ∧
       direct_in_transaction c (clock_now (ticks e)) (St d (Some d) e1) = (Ok out, St d (Some d') e') ∧
       s' = St (match out with AlreadyPublished _ _ => d | Published _ _ => d' end) None e').
Proof.
  unfold direct_publish, bind at 1, now. cbv beta iota. unfold bind at 1, lift. intros Hr.
  set (e1 := Env _ _ _) in Hr. exists e1.
  destruct (raise_if _ _) as [[]|x]; [|injection Hr as <- <-; eauto 10].
  unfold bind at 1, with_uow, bind at 1 in Hr. simpl in Hr.
  destruct (direct_in_transaction _ _ _) as [[out|x] s1] eqn:E;
    destruct (tx_direct _ _ _ _ _ _ _ E) as (d' & e' & ->).
  - exists e'. right. exists out, d'. destruct out; injection Hr as <- <-; by split_and!.
  - injection Hr as <- <-. eauto 10.
Qed.
End Direct.

(** ** Interleavings *)

Section Steps.
Context `{Ports}.
Implicit Types d : import_store.

(** Operations as [_build_operations] builds them for the job. *)
Definition built_for (tenant_id job_id : string) (ops : list ImportedOperation) : Prop :=
  Forall (λ o, io_tenant_id o = tenant_id ∧ io_import_job_id o = job_id ∧ io_review_status o = ReviewPending) ops.

(** Every transaction on these stores: those of an import one by one, the
    review, the direct publication, and the catalog's. *)
Inductive import_step d : import_store → Prop :=
| step_start c document id t e r d' e' :
    start_import c document id t (St d None e) = (r, St d' None e') → import_step d d'
| step_parsing tenant id e r d' e' :
    mark_parsing tenant id (St d None e) = (r, St d' None e') → import_step d d'
| step_complete tenant id parsed ops e r d' e' :
    built_for tenant id ops →
    complete_import tenant id parsed ops (St d None e) = (r, St d' None e') → import_step d d'
| step_fail tenant id summary e r d' e' :
    fail_import tenant id summary (St d None e) = (r, St d' None e') → import_step d d'
| step_accept c e r d' e' :
    review_imported_operation c (St d None e) = (r, St d' None e') → import_step d d'
| step_direct c e r d' e' :
    direct_publish c (St d None e) = (r, St d' None e') → import_step d d'
| step_catalog k :
    catalog_step (is_catalog d) k → import_step d (mkImportStore (is_jobs d) (is_operations d) k).

(** Writing a job: a new one, or a later state of one that is not settled. *)
Lemma imports_ok_job d j :
  imports_ok d → job_settled j →
  (∀ j0, dget (ij_id j) (is_jobs d) = Some j0 → ij_status j0 ≠ JobCompleted) →
  imports_ok (with_job j d).
Proof.
  intros Hok Hj Hold. split; simpl; try apply Hok; [by apply keyed_dset, Hok| |].
  - intros k w. rewrite dget_dset. destruct (decide _) as [->|]; [by intros [= <-]|apply Hok].
  - intros k o Ho. destruct (im_imported _ Hok _ _ Ho) as (w & Hw & Hs & Ht).
    exists w. rewrite dget_dset_ne; [done|]. intros E. rewrite E in Hw. by apply (Hold w).
Qed.

(** What the transactions of an import do to a job. *)
Lemma mark_parsing_inv tenant id d e r s' :
  mark_parsing tenant id (St d None e) = (r, s') →
  s' = St d None e ∨ ∃ j, dget id (is_jobs d) = Some j ∧ ij_status j = JobValidating ∧
    s' = St (with_job (parsing_job j) d) None e.
Proof.
  intros Hr. unfold mark_parsing, get_job, save_job, start_parsing in Hr.
  run_uow Hr; try (left; done). ok_facts. py_bools. right. eexists. by split_and!.
Qed.

Lemma fail_import_inv tenant id summary d e r s' :
  fail_import tenant id summary (St d None e) = (r, s') →
  store s' = d ∨ ∃ j t, dget id (is_jobs d) = Some j ∧ (ij_status j ∉ [JobCompleted; JobFailed]) ∧
    store s' = with_job (failed_job j summary t) d.
Proof.
  intros Hr. unfold fail_import, get_job, save_job, fail_job in Hr.
  run_uow Hr; try (left; done). ok_facts. py_bools. right. eexists _, _. by split_and!.
Qed.

Lemma add_operations_from_Ok tenant ops : ∀ keys c d e s',
  keyed io_id (is_operations d) → unique_by io_id same_operation_key (is_operations d) →
  (∀ o, o ∈ dvalues (is_operations d) → job_and_key o ∈ keys) →
  add_operations_from tenant keys ops (St c (Some d) e) = (Ok tt, s') →
  ∃ t', s' = St c (Some (mkImportStore (is_jobs d) t' (is_catalog d))) e ∧ keyed io_id t' ∧
    unique_by io_id same_operation_key t' ∧
    ∀ k o, dget k t' = Some o → dget k (is_operations d) = Some o ∨ o ∈ ops.
Proof.
  induction ops as [|o ops IH]; intros keys c d e s' Hk Hu Hkeys Hr; simpl in Hr.
  - injection Hr as <-. exists (is_operations d). split_and!; [by destruct d|done|done|by left].
  - apply bind_Ok_inv in Hr as ([] & s1 & G & Hr). apply lift_Ok_inv in G as [_ ->].
    apply bind_Ok_inv in Hr as (t & s1 & G & Hr). ok_inv G. simpl in Hr.
    apply bind_Ok_inv in Hr as ([] & s1 & G & Hr). apply lift_Ok_inv in G as [Hid ->].
    apply bind_Ok_inv in Hr as ([] & s1 & G & Hr). apply lift_Ok_inv in G as [Hkey ->].
    apply bind_Ok_inv in Hr as ([] & s1 & G & Hr). ok_inv G.
    apply raise_if_Ok, dmem_false in Hid. apply raise_if_Ok, bool_decide_eq_false in Hkey.
    apply IH in Hr as (t' & -> & Hk' & Hu' & Hfrom); simpl in *.
    + exists t'. split_and!; try done. intros k w Hw. destruct (Hfrom k w Hw) as [Hold|Hnew]; [|right; by constructor].
      rewrite dget_dset in Hold. destruct (decide _); [right; simplify_eq; constructor|by left].
    + by apply keyed_dset.
    + apply unique_by_dset; [done|apply _|done|]. intros k w Hw [E1 E2]. exfalso. apply Hkey.
      replace (job_and_key o) with (job_and_key w) by (unfold job_and_key; congruence).
      apply Hkeys. apply (keyed_value io_id); [done|]. by rewrite (keyed_get _ _ _ _ Hk Hw).
    + intros w Hw. apply (keyed_value io_id) in Hw; [|by apply keyed_dset]. rewrite dget_dset in Hw.
      destruct (decide _); [simplify_eq; constructor|]. right. apply Hkeys. by apply (keyed_value io_id).
Qed.

Lemma complete_import_inv tenant id parsed ops d e r s' :
  imports_ok d → complete_import tenant id parsed ops (St d None e) = (r, s') →
  store s' = d ∨ ∃ j t t', dget id (is_jobs d) = Some j ∧ ij_tenant_id j = tenant ∧ ij_status j = JobParsing ∧
    keyed io_id t' ∧ unique_by io_id same_operation_key t' ∧
    (∀ k o, dget k t' = Some o → dget k (is_operations d) = Some o ∨ o ∈ ops) ∧
    store s' = with_job (completed_job j (pd_openapi_version parsed) t) (mkImportStore (is_jobs d) t' (is_catalog d)).
Proof.
  intros Hok Hr. unfold complete_import, with_uow, get_job, add_operations in Hr.
  unfold bind at 1 2, read_table at 1 in Hr. simpl in Hr.
  destruct (in_tenant _ _ _) as [j|] eqn:Hj; [|injection Hr as <- <-; by left].
  apply in_tenant_Some in Hj as [Hj Ht]. unfold bind at 1 in Hr. unfold bind at 1, read_table at 1 in Hr. simpl in Hr.
  destruct (add_operations_from _ _ _ _) as [r1 s1] eqn:E.
  destruct (add_operations_from_run _ _ _ _ _ _ _ _ E) as [(d1 & ->) Hrun].
  destruct r1 as [[]|x]; [|injection Hr as <- <-; by left].
  apply add_operations_from_Ok in E as (t' & [= ->] & Hk & Hu & Hfrom); [|apply Hok|apply Hok|].
  2:{ intros o Ho. by apply list_elem_of_fmap_2. }
  destruct (decide (ij_status j = JobParsing)) as [Hs|Hs].
  - right. exists j. unfold bind, now, lift, complete_job in Hr. rewrite Hs in Hr. simpl in Hr.
    unfold save_job, bind, lift, read_table, require_matching_tenant in Hr. simpl in Hr.
    rewrite bool_decide_eq_true_2, (keyed_get _ _ _ _ (im_jobs _ Hok) Hj), Hj in Hr by done. simpl in Hr.
    rewrite decide_True in Hr by done. simpl in Hr. injection Hr as <- <-. simpl.
    eexists _, t'. split_and!; try done. unfold with_job. simpl. by rewrite (keyed_get _ _ _ _ (im_jobs _ Hok) Hj).
  - left. unfold bind, now, lift, complete_job in Hr. rewrite bool_decide_eq_false_2 in Hr by done.
    by injection Hr as <- <-.
Qed.
End Steps.

Section Invariant.
Context `{Ports}.
Implicit Types d : import_store.

Lemma direct_publish_ok c d e r s' :
  imports_ok d → direct_publish c (St d None e) = (r, s') → imports_ok (store s').
Proof.
  intros Hok Hr. apply direct_publish_run in Hr as (e1 & e' & [(x & -> & ->)|(out & d' & -> & Hr & ->)]); [done|].
  destruct (direct_in_transaction_Ok _ _ _ _ _ _ _ Hok Hr) as (o & tool & v & b & d1 & e2 & Hrev & _ & Hout).
  destruct out as [rv at_|rv p]; [done|]. destruct Hout as (k1 & w & k' & Hsub & Hp & [= -> _]). simpl.
  pose proof (reviewed_as_ok _ _ _ _ _ _ _ Hok Hrev) as Hok1.
  destruct (submitted_ok _ _ _ _ (im_catalog _ Hok1) Hsub) as [Hk1 Hkeep].
  apply (imports_ok_catalog d1); [done|by eapply publication_ok|].
  etransitivity; [done|by eapply publication_keeps].
Qed.

Lemma import_step_ok d d' : imports_ok d → import_step d d' → imports_ok d'.
Proof.
  intros Hok [c document id t e r d1 e1 Hr|tenant id e r d1 e1 Hr|tenant id parsed ops e r d1 e1 Hb Hr
    |tenant id summary e r d1 e1 Hr|c e r d1 e1 Hr|c e r d1 e1 Hr|k Hk].
  - apply start_import_run in Hr as [(x & _ & [= ->])|(u & _ & [= -> _] & Hn & _)]; [done|].
    apply imports_ok_job; [done|done|]. simpl. congruence.
  - apply mark_parsing_inv in Hr as [[= ->]|(j & Hj & Hs & [= -> _])]; [done|].
    pose proof (im_settled _ Hok _ _ Hj) as Hset. pose proof (keyed_get _ _ _ _ (im_jobs _ Hok) Hj) as <-.
    unfold job_settled in Hset. rewrite Hs in Hset.
    apply imports_ok_job; [done|done|]. simpl. intros j0. rewrite Hj. congruence.
  - apply complete_import_inv in Hr as [E|(j & t & t' & Hj & Ht & Hs & Hk & Hu & Hfrom & E)]; [|  |done];
      simpl in E; subst d1; [done|].
    pose proof (keyed_get _ _ _ _ (im_jobs _ Hok) Hj) as Eid.
    assert (Hold : imports_ok (with_job (completed_job j (pd_openapi_version parsed) t) d)).
    { apply imports_ok_job; [done|by split_and!; eauto|]. simpl. rewrite Eid. intros j0. rewrite Hj. congruence. }
    split; simpl; try apply Hold; [done|done| |].
    + intros k o Ho. destruct (Hfrom k o Ho) as [Ho'|Hnew]; [by apply (im_imported _ Hold k o)|].
      unfold built_for in Hb. rewrite Forall_forall in Hb. destruct (Hb _ Hnew) as (? & E & _).
      exists (completed_job j (pd_openapi_version parsed) t). rewrite E, Eid, dget_dset_eq.
      split_and!; [done|done|simpl; congruence].
    + intros k o Ho Hst. destruct (Hfrom k o Ho) as [Ho'|Hnew]; [by apply (im_drafts _ Hok k o)|].
      unfold built_for in Hb. rewrite Forall_forall in Hb. destruct (Hb _ Hnew) as (_ & _ & ?). congruence.
  - apply fail_import_inv in Hr as [E|(j & t & Hj & Hs & E)]; simpl in E; subst d1; [done|].
    pose proof (keyed_get _ _ _ _ (im_jobs _ Hok) Hj) as <-.
    apply imports_ok_job; [done|by split; eauto|]. simpl. intros j0. rewrite Hj. intros [= <-] Hc.
    apply Hs. rewrite Hc. constructor.
  - apply review_run in Hr as (e2 & [(x & _ & [= -> _])|(o & tool & v & b & d2 & Hrev & _ & [= -> _])]); [done|].
    by eapply reviewed_as_ok.
  - by apply direct_publish_ok in Hr.
  - apply imports_ok_catalog; [done| |]; [by eapply catalog_step_ok; [apply Hok|]|].
    eapply catalog_step_keeps; [apply Hok|done].
Qed.

(** C31: however the transactions of imports, reviews, direct publications and
    of the catalog are interleaved, operations belong to a completed job of
    their tenant, with unique keys in it; jobs that ended carry their version
    or error; an accepted operation has no conflict, and its tool, draft
    version and binding are there and refer to each other; and the catalog
    keeps its own invariant. *)
Theorem imports_invariant d d' : imports_ok d → star import_step d d' → imports_ok d'.
Proof. intros Hd. apply star_invariant; eauto using import_step_ok. Qed.

(** A review is all or nothing and idempotent.  When it raises, the stores
    are as before.  Otherwise the operation was accepted before: nothing
    changes and the result names the drafts it already has; or it was an
    operation without conflict of an active upstream, and it is accepted
    now, with a new draft version numbered after the tool's others, whose
    digests recompute, and the binding that leads back to it. *)
Theorem review_effect c d e :
  imports_ok d →
  match review_imported_operation c (St d None e) with
  | (Raise _, s') => store s' = d
  | (Ok r, s') =>
      ∃ o tool v b, dget (rc_operation_id c) (is_operations d) = Some o ∧
        io_tenant_id o = ctx_tenant_id (rc_context c) ∧ r = review_result o tool v b ∧
        if bool_decide (io_review_status o = ReviewAccepted)
        then store s' = d ∧ io_draft_tool_version_id o = Some (tv_id v) ∧
             io_draft_tool_binding_id o = Some (tb_id b) ∧
             dget (tv_id v) (cs_versions (is_catalog d)) = Some v ∧
             dget (tb_id b) (cs_bindings (is_catalog d)) = Some b
        else acceptance c d o tool v b (store s')
  end.
Proof.
  intros Hok. destruct (review_imported_operation _ _) as [r s'] eqn:Hr.
  apply review_run in Hr as (e' & [(x & -> & ->)|(o & tool & v & b & d' & (Ho & Ht & Hcase) & -> & ->)]); [done|].
  exists o, tool, v, b. split_and!; [done|done|done|]. simpl. destruct (bool_decide _); [|done].
  destruct Hcase as [(vid & bid & Hv & Hb & Dv & _ & Db & _) ->].
  pose proof (keyed_get _ _ _ _ (cat_versions _ (im_catalog _ Hok)) Dv) as ->.
  pose proof (keyed_get _ _ _ _ (cat_bindings _ (im_catalog _ Hok)) Db) as ->. by split_and!.
Qed.

(** An accepted operation can always be reviewed again, with the same result. *)
Lemma review_again c d e o :
  imports_ok d → dget (rc_operation_id c) (is_operations d) = Some o →
  io_tenant_id o = ctx_tenant_id (rc_context c) → io_review_status o = ReviewAccepted →
  ∃ tool v b, review_imported_operation c (St d None e) = (Ok (review_result o tool v b), St d None e).
Proof.
  intros Hok Ho Ht Hs.
  destruct (im_drafts _ Hok _ _ Ho Hs) as (_ & tool & v & b & Ev & Eb & Dv & Db & Dt & Tv & Tb & Tt & _).
  exists tool, v, b. unfold review_imported_operation, with_uow, review_in_transaction, get_operation.
  unfold bind at 1 2 3. unfold read_table at 1. simpl. rewrite Ho. simpl. rewrite decide_True by done. simpl.
  rewrite bool_decide_eq_true_2 by done. unfold existing_result. rewrite Ev, Eb.
  unfold get_version_by_id, get_binding_by_id, get_tool_by_id, bind, read_table. simpl. rewrite Dv. simpl.
  rewrite decide_True by congruence. simpl. rewrite Db. simpl. rewrite decide_True by congruence. simpl.
  rewrite Dt. simpl. rewrite decide_True by congruence. done.
Qed.
End Invariant.

(** ** Direct publication *)

Lemma publication_published c t d ret v d' :
  catalog_ok d → publication c t d ret v d' →
  ∃ tool b w,
    dget (tb_id b) (cs_bindings d) = Some b ∧ tb_tool_version_id b = pc_tool_version_id c ∧
    tb_tenant_id b = ctx_tenant_id (pc_context c) ∧
    dget (pc_tool_version_id c) (cs_versions d') = Some w ∧ tv_status w = VPublished ∧
    dget (tb_id b) (cs_bindings d') = Some (binding_at b BPublished (Some t)) ∧
    dget (pc_tool_id c) (cs_tools d') = Some (tool_with_status ToolActive tool).
Proof.
  intros Hok [tool ? b u Ht Hv Hb Hu Hs Hnone|tool ? b u old ob Ht Hv Hb Hu Hs Hold Hob Hobs Hlt];
    destruct (snapshot_reads _ _ _ _ _ _ Hok Ht Hv Hb Hs) as (Ht' & Hv' & Hb' & Hten & Hbt);
    pose proof (keyed_get _ _ _ _ (cat_versions _ Hok) Hv) as Ev;
    pose proof (keyed_get _ _ _ _ (cat_tools _ Hok) Ht) as Et;
    rewrite <-Ev, <-Et; eexists tool, b, _; simpl; rewrite !dget_dset_eq;
    split_and!; try reflexivity; try done; try congruence; apply (snap_binding _ _ _ _ _ Hs).
Qed.

Section DirectPublication.
Context `{Ports}.
Implicit Types d : import_store.

(** The operation after its review, with its drafts. *)
Lemma reviewed_operation c d o tool v b d1 :
  imports_ok d → reviewed_as c d o tool v b d1 →
  is_jobs d1 = is_jobs d ∧
  ∃ o1 b1, dget (rc_operation_id c) (is_operations d1) = Some o1 ∧ io_review_status o1 = ReviewAccepted ∧
    io_draft_tool_version_id o1 = Some (tv_id v) ∧ io_draft_tool_binding_id o1 = Some (tb_id b) ∧
    io_id o1 = io_id o ∧
    dget (tb_id b) (cs_bindings (is_catalog d1)) = Some b1 ∧ tb_id b1 = tb_id b ∧
    tb_tenant_id b1 = ctx_tenant_id (rc_context c) ∧
    tb_tool_version_id b1 = tv_id v ∧ tb_imported_operation_id b1 = Some (io_id o).
Proof.
  intros Hok Hrev. pose proof (reviewed_as_ok _ _ _ _ _ _ _ Hok Hrev) as Hok1.
  destruct Hrev as (Ho & Ht & Hcase).
  assert (Ho1 : is_jobs d1 = is_jobs d ∧ ∃ o1, dget (rc_operation_id c) (is_operations d1) = Some o1 ∧
    io_review_status o1 = ReviewAccepted ∧ io_draft_tool_version_id o1 = Some (tv_id v) ∧
    io_draft_tool_binding_id o1 = Some (tb_id b) ∧ io_id o1 = io_id o ∧ io_tenant_id o1 = io_tenant_id o).
  { destruct (bool_decide _) eqn:Hacc.
    - apply bool_decide_eq_true in Hacc. destruct Hcase as [(vid & bid & Hv & Hb & Dv & _ & Db & _) ->].
      pose proof (keyed_get _ _ _ _ (cat_versions _ (im_catalog _ Hok)) Dv) as ->.
      pose proof (keyed_get _ _ _ _ (cat_bindings _ (im_catalog _ Hok)) Db) as ->.
      split; [done|]. exists o. by split_and!.
    - destruct Hcase as [name u tool' v' b' tools' k Hc Hs Hn Hu Hua Hf Hv Hb Hvf Hvn Hbf Hbn].
      split; [done|]. exists (accepted_operation o v' b' (rc_review_notes c)). simpl.
      rewrite (keyed_get _ _ _ _ (im_operations _ Hok) Ho), dget_dset_eq. by split_and!. }
  destruct Ho1 as (Hj & o1 & D1 & S1 & V1 & B1 & I1 & T1). split; [done|].
  destruct (im_drafts _ Hok1 _ _ D1 S1) as (_ & tool1 & v1 & b1 & Ev & Eb & Dv & Db & _ & _ & Tb & _ & _ & L1 & L2 & _).
  exists o1, b1. rewrite Ev in V1. rewrite Eb in B1. injection V1 as V1. injection B1 as B1.
  split_and!; try congruence.
Qed.

(** Direct publication reviews and publishes in one transaction.  When it
    raises, the stores are as before.  When it returns, the operation is
    accepted, and the version and binding its review drafted are published
    and its tool is active; when all that was so before, nothing changes and
    the result says so. *)
Theorem direct_publish_atomic c d e :
  imports_ok d →
  match direct_publish c (St d None e) with
  | (Raise _, s') => store s' = d
  | (Ok r, s') =>
      let k' := is_catalog (store s') in
      imports_ok (store s') ∧ is_jobs (store s') = is_jobs d ∧
      (dr_already_published r = true → store s' = d) ∧
      ∃ o v b tool,
        dget (rc_operation_id c) (is_operations (store s')) = Some o ∧ io_review_status o = ReviewAccepted ∧
        io_draft_tool_version_id o = Some (rr_tool_version_id (dr_reviewed r)) ∧
        dget (rr_tool_version_id (dr_reviewed r)) (cs_versions k') = Some v ∧ tv_status v = VPublished ∧
        dget (rr_tool_binding_id (dr_reviewed r)) (cs_bindings k') = Some b ∧ tb_status b = BPublished ∧
        tb_imported_operation_id b = Some (io_id o) ∧
        dget (rr_tool_id (dr_reviewed r)) (cs_tools k') = Some tool ∧ tool_status tool = ToolActive
  end.
Proof.
  intros Hok. destruct (direct_publish _ _) as [r s'] eqn:Hr.
  pose proof (direct_publish_ok _ _ _ _ _ Hok Hr) as Hok'.
  apply direct_publish_run in Hr as (e1 & e' & [(x & -> & ->)|(out & d' & -> & Hr & ->)]); [done|].
  destruct (direct_in_transaction_Ok _ _ _ _ _ _ _ Hok Hr) as (o & tool & v & b & d1 & e2 & Hrev & Hres & Hout).
  pose proof (reviewed_as_ok _ _ _ _ _ _ _ Hok Hrev) as Hok1.
  destruct (reviewed_operation _ _ _ _ _ _ _ Hok Hrev) as (Hj & o1 & b1 & D1 & S1 & V1 & B1 & I1 & Db & Eb & Tb & L1 & L2).
  rewrite Hres. cbv zeta. simpl.
  destruct out as [rv at_|rv p].
  - destruct Hout as ([= -> _] & w & wb & wt & Hw & Hws & Hwb & Hwbs & Hwt & Hwts).
    assert (Hd1 : d1 = d).
    { destruct Hrev as (_ & _ & Hcase). destruct (bool_decide _); [by destruct Hcase|].
      destruct Hcase as [name u tool' v' b' tools' k Hc Hs Hn Hu Hua Hf Hv Hb Hvf Hvn Hbf Hbn]. simpl in Hw.
      rewrite dget_dset_eq in Hw. injection Hw as <-. rewrite (dv_status _ _ _ _ _ Hv) in Hws. done. }
    subst d1. split_and!; [done|done|done|].
    destruct (dfind_Some tb_id _ _ _ (cat_bindings _ (im_catalog _ Hok)) Hwb) as [Dwb Pwb]. py_bools.
    assert (tb_id wb = tb_id b1) as Ewb.
    { apply (cat_targets _ (im_catalog _ Hok) _ _ _ _ Dwb Db). split; congruence. }
    assert (wb = b1) as -> by congruence.
    exists o1, w, b1, wt. split_and!; try done; congruence.
  - destruct Hout as (k1 & w & k' & Hsub & Hp & [= -> _]). simpl.
    destruct (submitted_ok _ _ _ _ (im_catalog _ Hok1) Hsub) as [Hk1 _].
    assert (Hkb : cs_bindings k1 = cs_bindings (is_catalog d1)) by (by destruct Hsub).
    destruct (publication_published _ _ _ _ _ _ Hk1 Hp) as (pt & pb & pv & Dpb & Lpb & Tpb & Dv & Sv & Db' & Dt).
    simpl in Hres. subst rv. simpl in *. rewrite Hkb in Dpb.
    assert (tb_id pb = tb_id b1) as Epb.
    { apply (cat_targets _ (im_catalog _ Hok1) _ _ _ _ Dpb Db). split; congruence. }
    assert (pb = b1) as -> by congruence.
    split_and!; [done|done|done|].
    exists o1, pv, (binding_at b1 BPublished (Some (clock_now (ticks e)))), (tool_with_status ToolActive pt).
    rewrite Eb in Db'. split_and!; try done. simpl. congruence.
Qed.
End DirectPublication.

(** ** A whole import is a sequence of these steps *)

Section WholeImport.
Context `{Ports} `{DocumentReader}.
Implicit Types d : import_store.

Lemma with_uow_closed {D A} (m : M D A) s r s' :
  with_uow m s = (r, s') → s' = St (store s') None (environment s').
Proof. unfold with_uow. destruct (m _) as [? ?]. by intros [= <- <-]. Qed.

Lemma run_import_star c document job u d e r s' :
  ij_tenant_id job = ctx_tenant_id (ic_context c) →
  run_import c document job u (St d None e) = (r, s') →
  working s' = None ∧ star import_step d (store s').
Proof.
  intros Ht Hr. unfold run_import in Hr. apply bind_inv in Hr.
  assert (Hmark : ∀ r1 s1, mark_parsing (ctx_tenant_id (ic_context c)) (ij_id job) (St d None e) = (r1, s1) →
    working s1 = None ∧ star import_step d (store s1)).
  { intros r1 s1 E. pose proof (with_uow_closed _ _ _ _ E) as Es. rewrite Es in E |- *.
    split; [done|]. by eapply star_one, step_parsing. }
  destruct Hr as [([] & s1 & E1 & Hr)|(x & E1 & ->)]; [|by eapply Hmark].
  destruct (Hmark _ _ E1) as [Hw1 Hs1]. destruct s1 as [d1 w1 e1]; simpl in *. subst w1. clear E1 Hmark.
  unfold bind at 1, lift in Hr. destruct (parse _ _ _) as [parsed|x]; [|by injection Hr as <- <-].
  destruct (build_operations_run (ctx_tenant_id (ic_context c)) job (pd_operations parsed) (St d1 None e1))
    as (ops & e2 & Hb & Hops). unfold bind at 1 in Hr. rewrite Hb in Hr. simpl in Hr.
  assert (Hbuilt : built_for (ctx_tenant_id (ic_context c)) (ij_id job) ops).
  { unfold built_for. clear -Hops. induction Hops as [|p o ps ops Ho _ IH]; constructor; [|done]. by rewrite Ho. }
  unfold bind in Hr. destruct (complete_import _ _ _ _ _) as [r2 s2] eqn:E2.
  pose proof (with_uow_closed _ _ _ _ E2) as Es. rewrite Es in E2.
  assert (Hs2 : star import_step d (store s2)).
  { eapply star_trans; [exact Hs1|]. by eapply star_one, step_complete. }
  rewrite Es in Hr. destruct r2; injection Hr as <- <-; by split.
Qed.

Lemma import_openapi_star c d e r s' :
  import_openapi c (St d None e) = (r, s') → working s' = None ∧ star import_step d (store s').
Proof.
  intros Hr. unfold import_openapi in Hr. unfold bind at 1, lift at 1 in Hr.
  destruct (read_document _) as [document|x]; [|injection Hr as <- <-; split; [done|apply star_refl]].
  unfold bind at 1, new_id in Hr. unfold bind at 1, now in Hr. simpl in Hr. unfold bind at 1 in Hr.
  destruct (start_import _ _ _ _ _) as [r1 s1] eqn:E1. pose proof E1 as E1'.
  apply start_import_run in E1 as [(x & -> & ->)|(u & -> & -> & _)];
    [injection Hr as <- <-; split; [done|apply star_refl]|].
  set (job := created_job _ _ _ _ _) in *.
  assert (Hs1 : star import_step d (with_job job d)) by (by eapply star_one, step_start).
  unfold bind at 1, try_except in Hr.
  destruct (run_import _ _ _ _ _) as [r2 s2] eqn:E2.
  apply run_import_star in E2 as [Hw2 Hs2]; [|done].
  destruct r2 as [ops|x]; [injection Hr as <- <-; split; [done|by eapply star_trans]|].
  destruct s2 as [d2 w2 e2]; simpl in *. subst w2.
  assert (Hfail : ∀ (A : Type) summary error (r3 : res A) s3,
    (fail_import (ctx_tenant_id (ic_context c)) (identifier (issued e)) summary ;;* raise error)
      (St d2 None e2) = (r3, s3) → working s3 = None ∧ star import_step d (store s3)).
  { intros A summary error r3 s3 E3. unfold bind in E3.
    destruct (fail_import _ _ _ _) as [r4 s4] eqn:E4. pose proof (with_uow_closed _ _ _ _ E4) as Es.
    rewrite Es in E4. assert (star import_step d (store s4)).
    { eapply star_trans; [exact Hs1|eapply star_trans; [exact Hs2|]]. by eapply star_one, step_fail. }
    rewrite Es in E3. destruct r4; injection E3 as <- <-; by split. }
  destruct (on_import_error _ _ _ _) as [r3 s3] eqn:E3.
  assert (Hs3 : working s3 = None ∧ star import_step d (store s3)).
  { unfold on_import_error in E3. destruct x; simpl in E3;
      first [by eapply Hfail|injection E3 as <- <-; split; [done|by eapply star_trans]]. }
  destruct r3; injection Hr as <- <-; done.
Qed.
End WholeImport.

(** ** Witnesses *)

Module ReviewExamples.
Definition ctx : ActorContext := mkActorContext "req" "trace" "tenant" "admin" "static" "admin".
Definition upstream : UpstreamService :=
  mkUpstream "u1" "tenant" "shop" "Orders" None "team" UpHttp "http"
    "https://orders.example.com" None None None [] UpActive.
Definition start : import_store :=
  mkImportStore [] [] (mkCatalogStore [] [] [] (dset "u1" upstream [])).
Definition env0 : env := Env 0 0 [].
#[local] Existing Instance sample_ports.
#[local] Instance reader : DocumentReader := λ ref, Ok (mkDocument ref "digest" OpenApiExamples.orders).

Definition import : ImportOpenApiCommand := mkImportCommand ctx "u1" "orders.json" [].
Definition imported : import_store := Eval vm_compute in store (import_openapi import (St start None env0)).2.
Definition review : ReviewImportedOperationCommand := mkReviewCommand ctx "c-id" "team" VisPublic None.
Definition env1 : env := Env 5 5 [].
Definition reviewed : import_store := Eval vm_compute in store (review_imported_operation review (St imported None env1)).2.
Definition env2 : env := Env 9 9 [].
Definition published : import_store := Eval vm_compute in store (direct_publish review (St reviewed None env2)).2.

Lemma import_start_ok : imports_ok start.
Proof.
  split; try apply keyed_nil; try (unfold unique_by; intros; discriminate).
  split; try apply keyed_nil; unfold unique_by; intros; discriminate.
Qed.

Lemma import_run : ∃ r e, import_openapi import (St start None env0) = (Ok r, St imported None e).
Proof. eexists _, _. vm_compute. reflexivity. Qed.
Lemma review_runs : ∃ r e, review_imported_operation review (St imported None env1) = (Ok r, St reviewed None e).
Proof. eexists _, _. vm_compute. reflexivity. Qed.
Lemma direct_publish_runs : ∃ r e, dr_already_published r = false ∧
  direct_publish review (St reviewed None env2) = (Ok r, St published None e).
Proof. eexists _, _. split; cycle 1; [vm_compute; reflexivity|reflexivity]. Qed.

Lemma imported_reachable : star import_step start imported.
Proof. destruct import_run as (r & e & E). by apply import_openapi_star in E as [_ ?]. Qed.
Lemma imported_ok : imports_ok imported.
Proof. eapply star_invariant; [exact import_step_ok|apply import_start_ok|apply imported_reachable]. Qed.
Lemma reviewed_ok : imports_ok reviewed.
Proof.
  destruct review_runs as (r & e & E).
  exact (import_step_ok _ _ imported_ok (step_accept _ _ _ _ _ _ E)).
Qed.

(** The import found two operations; the one without conflict is accepted
    and published. *)
Example imported_operations :
  map (λ o, (io_id o, io_operation_key o, io_conflict_status o)) (dvalues (is_operations imported)) =
    [("b-id", "GET /orders/{orderId}", ConflictMissingOperationId);
     ("c-id", "PUT /orders/{orderId}", ConflictNone)].
Proof. by vm_compute. Qed.
Example reviewed_drafts :
  map (λ v, (tv_display_name v, tv_status v, tv_side_effect v)) (dvalues (cs_versions (is_catalog reviewed))) =
    [("updateOrder", VDraft, IdempotentWrite)].
Proof. by vm_compute. Qed.
Example published_versions :
  map tv_status (dvalues (cs_versions (is_catalog published))) = [VPublished].
Proof. by vm_compute. Qed.

Lemma imports_invariant_witness : imports_ok start ∧ imports_ok imported.
Proof. split; [apply import_start_ok|]. exact (imports_invariant start imported import_start_ok imported_reachable). Defined.

Definition operation : ImportedOperation :=
  match dget "c-id" (is_operations imported) with
  | Some o => o
  | None => mkImported "" "" "" "" "" None "" "" [] None ConflictNone ReviewPending None None None
  end.

Lemma review_effect_witness :
  ∃ r tool v b, r = review_result operation tool v b ∧ acceptance review imported operation tool v b reviewed.
Proof.
  pose proof (review_effect review imported env1 imported_ok) as Hw.
  destruct review_runs as (r & e & E). rewrite E in Hw.
  destruct Hw as (o & tool & v & b & Ho & _ & Er & Hcase). exists r, tool, v, b.
  assert (o = operation) as -> by (unfold operation; change "c-id" with (rc_operation_id review); by rewrite Ho).
  split; [exact Er|]. exact Hcase.
Defined.

Lemma direct_publish_atomic_witness :
  ∃ r e, direct_publish review (St reviewed None env2) = (Ok r, St published None e) ∧
    dr_already_published r = false ∧ imports_ok published.
Proof.
  pose proof (direct_publish_atomic review reviewed env2 reviewed_ok) as Hw.
  destruct direct_publish_runs as (r & e & Ha & E). rewrite E in Hw.
  exists r, e. destruct Hw as [Hw _]. split; [exact E|split; [exact Ha|exact Hw]].
Defined.
End ReviewExamples.
