(* ===== verification/Floats.v ===== *)
(** * Floats: the doubles that JSON numbers become

    Python's [float(value)] of an [int], and the value of a [float] named by
    the text that [float.__repr__] prints for it (see [Json]).  A finite
    double is its rational value in lowest terms; rounding is to nearest,
    ties to even, with 53 bits and the exponents of IEEE binary64.
    The values of the embedding vectors and the scores of a search are of this
    kind: [nearest_double] is the rounding every operation of [float] ends in. *)

From Stdlib Require Import ZArith QArith Qreduction Qcanon Ascii Lia.
From stdpp Require Import base strings option list.
From S2P Require Import Prelude Text Dict Errors Json Store Url.
Open Scope Z_scope.

(** [n / d] to the nearest integer, ties to even. *)
Definition round_half_even (n : Z) (d : Z) : Z :=
  let q := n / d in
  let r := n mod d in
  if 2 * r <? d then q
  else if d <? 2 * r then q + 1
  else if Z.even q then q else q + 1.

(** [n / d] divided by [2 ^ e], as a numerator and a denominator. *)
Definition scaled (n d e : Z) : Z * Z :=
  if 0 <=? e then (n, d * 2 ^ e) else (n * 2 ^ (- e), d).

(** The exponent of the last of 53 bits; the subnormal numbers share one. *)
Definition double_exponent (n d : Z) : Z :=
  let e := Z.log2 n - Z.log2 d - 52 in
  let '(sn, sd) := scaled n d e in
  Z.max (-1074) (if sn / sd <? 2 ^ 52 then e - 1 else e).

(** [m * 2 ^ e] in lowest terms. *)
Definition dyadic (m e : Z) : Q :=
  Qred (if 0 <=? e then inject_Z (m * 2 ^ e) else Qmake m (Z.to_pos (2 ^ (- e)))).

(** The double nearest to [n / d], for [n] not negative; [None] past the largest. *)
Definition round_magnitude (n d : Z) : option Q :=
  if n =? 0 then Some 0%Q
  else
    let e := double_exponent n d in
    let '(sn, sd) := scaled n d e in
    let m := round_half_even sn sd in
    if Qle_bool (inject_Z (2 ^ 1024)) (dyadic m e) then None else Some (dyadic m e).

Definition round_double (n d : Z) : option Q :=
  if n <? 0 then Qopp <$> round_magnitude (- n) d else round_magnitude n d.

(** [float(value)] of an [int]: [None] where it raises [OverflowError]. *)
Definition float_of_int (z : Z) : option Q := round_double z 1.

(** ** The value of a [float] *)

(** The leading digits and the rest. *)
Fixpoint span_digits (s : string) : string * string :=
  match s with
  | String c s' =>
      if is_ascii_digit c then let '(digits, rest) := span_digits s' in (String c digits, rest)
      else ("", s)
  | EmptyString => ("", s)
  end.

Definition signed (s : string) : bool * string :=
  match s with
  | String "-"%char s' => (true, s')
  | String "+"%char s' => (false, s')
  | _ => (false, s)
  end.

(** The exponent after [e], 0 where there is none. *)
Definition decimal_exponent (s : string) : option Z :=
  match s with
  | EmptyString => Some 0
  | String "e"%char s' =>
      let '(minus, s') := signed s' in
      let '(digits, rest) := span_digits s' in
      if str_empty digits || negb (str_empty rest) then None
      else Some (if minus then - Z.of_N (decimal digits) else Z.of_N (decimal digits))
  | _ => None
  end.

(** [mantissa * 10 ^ exponent] as a double. *)
Definition decimal_double (m x : Z) : option Q :=
  if 0 <=? x then round_double (m * 10 ^ x) 1 else round_double m (10 ^ (- x)).

(** [-]digits[.digits][e[+-]digits]; [nan], [inf] and [-inf] have no value. *)
Definition float_value (repr : string) : option Q :=
  let '(minus, s) := signed repr in
  let '(whole, s) := span_digits s in
  let '(fraction, s) := match s with String "."%char s' => span_digits s' | _ => ("", s) end in
  if str_empty whole then None
  else
    match decimal_exponent s with
    | Some x =>
        let m := Z.of_N (decimal (whole +:+ fraction)) in
        decimal_double (if minus then - m else m) (x - Z.of_nat (String.length fraction))
    | None => None
    end.

(** ** Arithmetic

    [+], [-] and [/] of floats: the double nearest to the exact result.  Above
    every double, [2 ^ 1024] stands for infinity. *)

Definition float_infinity : Q := inject_Z (2 ^ 1024).

Definition nearest_double (q : Q) : Q :=
  match round_double (Qnum q) (Zpos (Qden q)) with
  | Some x => x
  | None => if Qnum q <? 0 then (- float_infinity)%Q else float_infinity
  end.

Definition float_add (a b : Q) : Q := nearest_double (a + b).
Definition float_sub (a b : Q) : Q := nearest_double (a - b).
Definition float_div (a b : Q) : Q := nearest_double (a / b).

(** ** Facts *)

Lemma round_half_even_exact n : round_half_even n 1 = n.
Proof. unfold round_half_even. rewrite Z.mod_1_r, Z.div_1_r. done. Qed.

(** The rounded integer is within half of the exact quotient. *)
Lemma round_half_even_near n d : 0 < d → 2 * Z.abs (round_half_even n d * d - n) <= d.
Proof.
  intros Hd. unfold round_half_even.
  pose proof (Z.div_mod n d ltac:(lia)) as E. pose proof (Z.mod_pos_bound n d Hd) as B.
  set (q := n / d) in *. set (r := n mod d) in *.
  destruct (2 * r <? d) eqn:E1; [|destruct (d <? 2 * r) eqn:E2; [|destruct (Z.even q)]]; nia.
Qed.

Lemma dyadic_nonneg n k : 0 <= k → dyadic (n * 2 ^ k) (- k) = inject_Z n.
Proof.
  intros Hk. unfold dyadic. destruct (0 <=? - k) eqn:E.
  - assert (k = 0) as -> by lia. simpl. rewrite !Z.mul_1_r. apply Qred_identity. simpl.
    by rewrite Z.gcd_1_r.
  - rewrite Z.opp_involutive. transitivity (Qred (inject_Z n)).
    + apply Qred_complete. unfold Qeq. simpl. rewrite Z2Pos.id by (apply Z.pow_pos_nonneg; lia). lia.
    + apply Qred_identity. simpl. by rewrite Z.gcd_1_r.
Qed.

Lemma double_exponent_int n :
  0 < n → n <= 2 ^ 53 → double_exponent n 1 <= 0 ∨ n = 2 ^ 53.
Proof.
  intros H0 H1. destruct (decide (n = 2 ^ 53)) as [->|Hn]; [by right|left].
  unfold double_exponent. change (Z.log2 1) with 0.
  assert (Z.log2 n < 53) by (apply Z.log2_lt_pow2; lia).
  destruct (scaled n 1 _) as [sn sd]. destruct (_ <? _); lia.
Qed.

(** [int]s up to [2 ** 53] are doubles. *)
Lemma float_of_int_exact z : Z.abs z <= 2 ^ 53 → float_of_int z = Some (inject_Z z).
Proof.
  assert (Hpos : ∀ n, 0 < n → n <= 2 ^ 53 → round_magnitude n 1 = Some (inject_Z n)).
  { intros n H0 H1. unfold round_magnitude. destruct (n =? 0) eqn:E; [lia|].
    destruct (double_exponent_int n H0 H1) as [He| ->]; [|by vm_compute].
    set (e := double_exponent n 1) in *. unfold scaled.
    assert (Hs : (if 0 <=? e then (n, 1 * 2 ^ e) else (n * 2 ^ (- e), 1)) = (n * 2 ^ (- e), 1)).
    { destruct (0 <=? e) eqn:Ee; [|done]. assert (e = 0) as -> by lia. simpl. f_equal. lia. }
    assert (Hd : dyadic (n * 2 ^ (- e)) e = inject_Z n).
    { pose proof (dyadic_nonneg n (- e) ltac:(lia)) as Hd. by rewrite Z.opp_involutive in Hd. }
    rewrite Hs, round_half_even_exact, Hd.
    destruct (Qle_bool (inject_Z (2 ^ 1024)) (inject_Z n)) eqn:Eb; [|done].
    apply Qle_bool_iff in Eb. rewrite <-Zle_Qle in Eb.
    assert (2 ^ 53 < 2 ^ 1024) by (by vm_compute). lia. }
  intros Hz. unfold float_of_int, round_double.
  destruct (z <? 0) eqn:E.
  - rewrite Hpos by lia. simpl. f_equal. unfold inject_Z, Qopp. simpl. f_equal. lia.
  - destruct (decide (z = 0)) as [->|]; [done|]. rewrite Hpos by lia. done.
Qed.

(** Beyond the doubles: [OverflowError] for an [int], no value for a text. *)
Lemma float_examples :
  float_value "0.1" = Some (3602879701896397 # 36028797018963968)%Q ∧
  float_value "-12.5" = Some (-25 # 2)%Q ∧ float_value "1e-07" = float_value "0.0000001" ∧
  float_value "5e-324" = Some (dyadic 1 (-1074)) ∧ float_value "nan" = None ∧
  float_value "-inf" = None ∧ float_of_int (2 ^ 53 + 1) = Some (inject_Z (2 ^ 53)) ∧
  is_none (float_of_int (2 ^ 1024 - 2 ^ 970)) = true ∧
  is_none (float_of_int (2 ^ 1024 - 2 ^ 970 - 1)) = false.
Proof. by vm_compute. Qed.

(** Sums are rounded: the order of the additions matters, and what is equal as
    a rational need not be equal as a double. *)
Example float_arithmetic :
  nearest_double (1 # 10) = (3602879701896397 # 36028797018963968)%Q ∧
  float_add (nearest_double (1 # 10)) (nearest_double (1 # 5)) ≠ nearest_double (3 # 10) ∧
  float_sub 1 (1 # 4) = (3 # 4)%Q ∧ float_div 1 4 = (1 # 4)%Q ∧
  float_add (inject_Z (2 ^ 1023)) (inject_Z (2 ^ 1023)) = float_infinity.
Proof. by vm_compute. Qed.
