(* ===== verification/ToolSearch.v ===== *)
(** * Tool search: documents, rank fusion and the search tool

    Models [modules/tool_search/domain.py], [document_builder.py],
    [rank_fusion.py], [vector_search.py], [hybrid_search.py] and
    [search_tools.py].  The embedding provider, the vector index, the policy
    evaluator and the principal resolver are arguments; a score is a double,
    the rational of its value, and the sums of the fusion are rounded as Floats
    says; a value that is not finite is [None].  The index of embeddings and
    its jobs are SearchIndex.v. *)

From Stdlib Require Import ZArith QArith Qminmax Sorting.Sorted Ascii Lia.
From stdpp Require Import base sets strings option list pretty.
From S2P Require Import Prelude Text Dict Errors Json Store AuditTrail Url Catalog Identity Policy Format Floats.
Open Scope py_scope.

(** ** Domain *)

Inductive ToolRetrievalMode := RetrievalLexical | RetrievalHybrid.
#[export] Instance retrieval_mode_eq_dec : EqDecision ToolRetrievalMode.
Proof. solve_decision. Defined.

Record ToolSearchDocument := mkSearchDocument {
  sd_tenant_id : string;
  sd_tool_id : string;
  sd_tool_version_id : string;
  sd_canonical_name : string;
  sd_content : string;
  sd_source_digest : string }.

(** [ToolSearchDocument.__post_init__] *)
Definition new_search_document (d : ToolSearchDocument) : res ToolSearchDocument :=
  require_non_blank
    [("tenant id", sd_tenant_id d); ("tool id", sd_tool_id d);
     ("tool version id", sd_tool_version_id d); ("canonical name", sd_canonical_name d);
     ("tool search document", sd_content d)] ;;?
  raise_if (negb (String.length (sd_source_digest d) =? 64)%nat)
    (ValueError "tool search source digest must be a SHA-256 hex digest") ;;?
  Ok d.

Record EmbeddingVector := mkVector {
  vec_model : string;
  vec_dimensions : Z;
  vec_values : list (option Q) }.

(** [EmbeddingVector.__post_init__] *)
Definition new_vector (v : EmbeddingVector) : res EmbeddingVector :=
  raise_if (blank (vec_model v)) (ValueError "embedding model must not be blank") ;;?
  raise_if ((vec_dimensions v <=? 0)%Z
            || negb (Z.of_nat (length (vec_values v)) =? vec_dimensions v)%Z)
    (ValueError "embedding vector dimensions did not match values") ;;?
  raise_if (negb (forallb (λ x, negb (is_none x)) (vec_values v)))
    (ValueError "embedding vector values must be finite") ;;?
  Ok v.

Record ToolSearchEmbedding := mkEmbedding {
  te_id : string;
  te_tenant_id : string;
  te_tool_version_id : string;
  te_embedding_model : string;
  te_embedding_dimensions : Z;
  te_source_digest : string;
  te_vector : EmbeddingVector;
  te_indexed_at : datetime }.

(** [ToolSearchEmbedding.__post_init__] *)
Definition new_embedding (e : ToolSearchEmbedding) : res ToolSearchEmbedding :=
  require_non_blank
    [("embedding id", te_id e); ("tenant id", te_tenant_id e);
     ("tool version id", te_tool_version_id e); ("embedding model", te_embedding_model e)] ;;?
  raise_if (negb (String.length (te_source_digest e) =? 64)%nat)
    (ValueError "embedding source digest must be a SHA-256 hex digest") ;;?
  raise_if (negb (bool_decide (vec_model (te_vector e) = te_embedding_model e)))
    (ValueError "embedding vector model did not match projection") ;;?
  raise_if (negb (vec_dimensions (te_vector e) =? te_embedding_dimensions e)%Z)
    (ValueError "embedding vector dimensions did not match projection") ;;?
  Ok e.

(** [PublishedToolSearchHit] with a fractional rank; the in-memory catalog
    ranks with integers. *)
Record ScoredHit := mkScored { sh_tool : PublishedTool; sh_rank : Q }.
Definition scored (h : PublishedToolSearchHit) : ScoredHit :=
  mkScored (hit_tool h) (inject_Z (hit_rank h)).
Definition identity_of (h : ScoredHit) : string := pt_tool_version_id (sh_tool h).

Record VectorSearchResult := mkVectorResult {
  vr_hits : list ScoredHit;
  vr_eligible_count : Z;
  vr_indexed_count : Z }.

(** [VectorSearchResult.__post_init__] *)
Definition new_vector_result (r : VectorSearchResult) : res VectorSearchResult :=
  raise_if ((vr_eligible_count r <? 0)%Z || (vr_indexed_count r <? 0)%Z)
    (ValueError "vector search coverage counts must not be negative") ;;?
  raise_if (vr_eligible_count r <? vr_indexed_count r)%Z
    (ValueError "indexed tool count must not exceed eligible tool count") ;;?
  raise_if (vr_indexed_count r <? Z.of_nat (length (vr_hits r)))%Z
    (ValueError "vector search hits must not exceed indexed tool count") ;;?
  Ok r.

(** ** [ToolSearchDocumentBuilder] *)

(** [_normalize_text] *)
Definition normalize_text (value : string) : string := str_join " " (split_ws value).

Fixpoint characters (s : string) : list json :=
  match s with EmptyString => [] | String c s' => JStr (String c "") :: characters s' end.

(** [for item in value]; what is not iterable raises [TypeError]. *)
Definition iterate (value : json) : res (list json) :=
  match value with
  | JArr l => Ok l
  | JStr s => Ok (characters s)
  | JObj d => Ok (map JStr (dkeys d))
  | _ => Raise TypeError
  end.

Definition field (key : string) (fallback : json) (d : dict json) : json := default fallback (dget key d).

(** [{str(name) for name in schema.get("required", ()) if isinstance(name, str)}] *)
Definition required_names (schema : dict json) : res (list string) :=
  let? items := iterate (field "required" (JArr []) schema) in
  Ok (omap (λ item, match item with JStr s => Some s | _ => None end) items).

Definition field_type_text (schema : dict json) : string :=
  match field "type" (JStr "unknown") schema with
  | JArr types => str_join "|" (sorted_by str_leb (map py_str types))
  | other => py_str other
  end.

(** The summary line of a field without nested properties. *)
Definition field_summary (path : string) (schema : dict json) (required : bool) : string :=
  let summary := path +:+ " (" +:+ field_type_text schema +:+ ", "
                 +:+ (if required then "required" else "optional") +:+ ")" in
  match field "description" JNull schema with
  | JStr description =>
      if str_empty (strip description) then summary
      else summary +:+ ": " +:+ normalize_text description
  | _ => summary
  end.

(** [_collect_field]: [levels] is [3 - depth]. *)
Fixpoint collect_field (levels : nat) (path : string) (schema : dict json) (required : bool) :
    res (list string) :=
  match levels, field "properties" JNull schema with
  | S below, JObj ((_ :: _) as nested) =>
      let? nested_required := required_names schema in
      let? found := traverse (λ name,
        match field name JNull nested with
        | JObj value => collect_field below (path +:+ "." +:+ name) value
                          (bool_decide (name ∈ nested_required))
        | _ => Ok []
        end) (sorted_by str_leb (dkeys nested)) in
      Ok (concat found)
  | _, _ => Ok [field_summary path schema required]
  end.

(** [_input_field_summaries] *)
Definition input_field_summaries (schema : dict json) : res (list string) :=
  let? required := required_names schema in
  match field "properties" JNull schema with
  | JObj properties =>
      let? found := traverse (λ name,
        match field name JNull properties with
        | JObj value => collect_field 3 name value (bool_decide (name ∈ required))
        | _ => Ok []
        end) (sorted_by str_leb (dkeys properties)) in
      Ok (concat found)
  | _ => Ok []
  end.

(** [text or "none"] *)
Definition or_else (text fallback : string) : string := if str_empty text then fallback else text.

Definition newline : string := String (ascii_of_N 10) "".

(** [ToolSearchDocumentBuilder.build] *)
Definition build_document (tool : PublishedTool) : res ToolSearchDocument :=
  let? inputs := input_field_summaries (pt_input_schema tool) in
  let content := str_join newline
    ["Canonical Name: " +:+ pt_canonical_name tool;
     "Display Name: " +:+ normalize_text (pt_display_name tool);
     "Namespace: " +:+ pt_namespace tool;
     "Description: " +:+ normalize_text (pt_description tool);
     "Tags: " +:+ or_else (str_join ", " (sorted_by str_leb (pt_tags tool))) "none";
     "Side Effect: " +:+ side_effect_value (pt_side_effect tool);
     "Inputs: " +:+ or_else (str_join ", " inputs) "none";
     "Owner: " +:+ normalize_text (or_else (default "" (pt_owner tool)) "unknown")] in
  new_search_document
    (mkSearchDocument (pt_tenant_id tool) (pt_tool_id tool) (pt_tool_version_id tool)
       (pt_canonical_name tool) content (sha256_hex content)).

(** ** [ReciprocalRankFusion] *)

(** [1.0 / (self._rank_constant + position)]; an [int] past the largest double
    raises [OverflowError]. *)
Definition contribution (rank_constant position : positive) : res Q :=
  match float_of_int (Zpos (rank_constant + position)) with
  | Some divisor => Ok (float_div 1 divisor)
  | None => Raise OtherException
  end.

Record fusion := mkFusion { fu_scores : dict Q; fu_tools : dict ScoredHit }.

(** The rows of one ranking; [seen] are the identities it had so far. *)
Fixpoint fuse_ranking (rank_constant : positive) (position : positive) (seen : list string)
    (ranking : list ScoredHit) (f : fusion) : res fusion :=
  match ranking with
  | [] => Ok f
  | hit :: rest =>
      let identity := identity_of hit in
      if bool_decide (identity ∈ seen)
      then fuse_ranking rank_constant (Pos.succ position) seen rest f
      else
        let tools := if dmem identity (fu_tools f) then fu_tools f
                     else dset identity hit (fu_tools f) in
        let? share := contribution rank_constant position in
        let score := float_add (default 0%Q (dget identity (fu_scores f))) share in
        fuse_ranking rank_constant (Pos.succ position) (identity :: seen) rest
          (mkFusion (dset identity score (fu_scores f)) tools)
  end.

Fixpoint fuse_rankings (rank_constant : positive) (rankings : list (list ScoredHit)) (f : fusion) :
    res fusion :=
  match rankings with
  | [] => Ok f
  | ranking :: rest =>
      let? f := fuse_ranking rank_constant 1 [] ranking f in fuse_rankings rank_constant rest f
  end.

(** Greater first; a string key in its order. *)
Definition by_score (score : string → Q) (a b : string) : bool := Qle_bool (score b) (score a).
Definition by_text (text : string → string) (a b : string) : bool := str_leb (text a) (text b).

(** [key=lambda identity: (-scores[identity], canonical_name, identity)] *)
Definition fused_leb (f : fusion) : string → string → bool :=
  then_by (by_score (λ i, default 0%Q (dget i (fu_scores f))))
    (then_by (by_text (λ i, from_option (λ h, pt_canonical_name (sh_tool h)) "" (dget i (fu_tools f))))
       (by_text id)).

(** [ReciprocalRankFusion.fuse] *)
Definition fuse (rank_constant : positive) (rankings : list (list ScoredHit)) (limit : Z) :
    res (list ScoredHit) :=
  raise_if (limit <=? 0)%Z (ValueError "RRF result limit must be positive") ;;?
  let? f := fuse_rankings rank_constant rankings (mkFusion [] []) in
  let ordered := sorted_by (fused_leb f) (dkeys (fu_scores f)) in
  Ok (omap (λ i, match dget i (fu_tools f), dget i (fu_scores f) with
                 | Some h, Some score => Some (mkScored (sh_tool h) score)
                 | _, _ => None
                 end) (take (Z.to_nat limit) ordered)).

(** [ReciprocalRankFusion.__init__] *)
Definition new_rank_fusion (rank_constant : Z) : res positive :=
  raise_if (rank_constant <=? 0)%Z (ValueError "RRF rank constant must be positive") ;;?
  Ok (Z.to_pos rank_constant).

(** ** [SearchVectorTools] *)

(** [EmbeddingProvider]: [embed] answers, or raises, per batch of texts. *)
Record EmbeddingProvider := mkProvider {
  ep_model : string;
  ep_dimensions : Z;
  ep_embed : list string → res (list EmbeddingVector) }.

(** [VectorToolSearch.search_published_by_vector] *)
Definition VectorToolSearch : Type :=
  string → EmbeddingVector → search_filter → Z → res VectorSearchResult.

(** [SearchVectorTools.index_version] *)
Definition index_version (p : EmbeddingProvider) : string :=
  ep_model p +:+ "@" +:+ pretty (ep_dimensions p).

(** [vector_search._validate_query] *)
Definition validate_query (q : SearchPublishedToolsQuery) : res string :=
  let query_text := strip (sq_text q) in
  raise_if (str_empty query_text) (Nexus InvalidArgumentsError) ;;?
  raise_if (200 <? String.length query_text)%nat (Nexus InvalidArgumentsError) ;;?
  raise_if (negb ((1 <=? sq_limit q)%Z && (sq_limit q <=? 50)%Z)) (Nexus InvalidArgumentsError) ;;?
  raise_if (bool_decide (strip <$> sq_namespace q = Some "")) (Nexus InvalidArgumentsError) ;;?
  Ok query_text.

(** [SearchVectorTools.execute] *)
Definition search_vector_tools (p : EmbeddingProvider) (search : VectorToolSearch)
    (q : SearchPublishedToolsQuery) : res VectorSearchResult :=
  let? query_text := validate_query q in
  if bool_decide (sq_eligible_tool_ids q = Some [])
  then new_vector_result (mkVectorResult [] 0 0)
  else
    let? vectors := ep_embed p [query_text] in
    match vectors with
    | [query_vector] =>
        raise_if (negb (bool_decide (vec_model query_vector = ep_model p))
                  || negb (vec_dimensions query_vector =? ep_dimensions p)%Z)
          (Nexus EmbeddingResponseError) ;;?
        let? result := search (ctx_tenant_id (sq_context q)) query_vector
          (mkSearchFilter (discoverable (sq_context q)) (sq_eligible_tool_ids q)
             (sq_namespace q) (sq_side_effect q)) (sq_limit q) in
        raise_if ((0 <? vr_eligible_count result)%Z && (vr_indexed_count result =? 0)%Z)
          (Nexus ToolSearchModeUnavailableError) ;;?
        Ok result
    | _ => Raise (Nexus EmbeddingResponseError)
    end.

(** ** [SearchHybridTools] *)

Record HybridHitDiagnostics := mkHybridDiagnostics {
  hd_rrf_score : Q;
  hd_lexical_rank : option positive;
  hd_lexical_score : option Q;
  hd_vector_rank : option positive;
  hd_vector_cosine_similarity : option Q }.

Record HybridSearchResult := mkHybridResult {
  hr_hits : list ScoredHit;
  hr_diagnostics : dict HybridHitDiagnostics }.

(** [enumerate(hits, start=position)] *)
Fixpoint enumerate {A} (position : positive) (l : list A) : list (positive * A) :=
  match l with [] => [] | x :: l' => (position, x) :: enumerate (Pos.succ position) l' end.

(** [_ranked_hits] *)
Definition ranked_hits (hits : list ScoredHit) : dict (positive * Q) :=
  foldl (λ ranked row,
           let identity := identity_of (snd row) in
           if dmem identity ranked then ranked
           else dset identity (fst row, sh_rank (snd row)) ranked)
        [] (enumerate 1 hits).

(** [asyncio.gather(first, second)]: a failure of either is raised; of two,
    the one that comes first, which the event loop decides. *)
Definition gather {A B} (first_fails_first : bool) (first : res A) (second : res B) : res (A * B) :=
  match first, second with
  | Ok a, Ok b => Ok (a, b)
  | Raise e, Ok _ | Ok _, Raise e => Raise e
  | Raise e, Raise e' => Raise (if first_fails_first then e else e')
  end.

Definition hybrid_diagnostics (lexical vector : dict (positive * Q)) (hit : ScoredHit) :
    HybridHitDiagnostics :=
  let identity := identity_of hit in
  mkHybridDiagnostics (sh_rank hit)
    (fst <$> dget identity lexical) (snd <$> dget identity lexical)
    (fst <$> dget identity vector) (snd <$> dget identity vector).

(** [SearchHybridTools.execute_detailed] *)
Definition execute_detailed (rank_constant : positive) (first_fails_first : bool)
    (lexical_search : SearchPublishedToolsQuery → res (list ScoredHit))
    (vector_search : SearchPublishedToolsQuery → res VectorSearchResult)
    (q : SearchPublishedToolsQuery) : res HybridSearchResult :=
  let? found := gather first_fails_first (lexical_search q) (vector_search q) in
  let lexical_hits := fst found in
  let vector_hits := vr_hits (snd found) in
  let? fused := fuse rank_constant [lexical_hits; vector_hits] (sq_limit q) in
  let lexical := ranked_hits lexical_hits in
  let vector := ranked_hits vector_hits in
  Ok (mkHybridResult fused
        (foldl (λ d hit, dset (identity_of hit) (hybrid_diagnostics lexical vector hit) d) [] fused)).

(** [SearchPublishedTools.execute] over the published tools of the catalog,
    as a ranking. *)
Definition lexical_ranking (tools : list PublishedTool) (q : SearchPublishedToolsQuery) :
    res (list ScoredHit) :=
  let? hits := search_published_tools q tools in Ok (map scored hits).

(** ** [SearchTools] *)

Record SearchToolsQuery := mkSearchToolsQuery {
  stq_context : ActorContext;
  stq_text : string;
  stq_retrieval_mode : ToolRetrievalMode;
  stq_limit : Z;
  stq_namespace : option string;
  stq_side_effect : option ToolSideEffect;
  stq_eligible_tool_ids : option (list string) }.

Inductive score_kind := ScoreFts | ScoreRrf.

Record ToolSearchHitDiagnostics := mkHitDiagnostics {
  thd_score_kind : score_kind;
  thd_lexical_rank : option positive;
  thd_lexical_score : option Q;
  thd_vector_rank : option positive;
  thd_vector_cosine_similarity : option Q;
  thd_rrf_score : option Q }.

Record SearchToolsResult := mkSearchToolsResult {
  str_hits : list ScoredHit;
  str_retrieval_mode : ToolRetrievalMode;
  str_index_version : option string;
  str_diagnostics : dict ToolSearchHitDiagnostics }.

(** The searches of [SearchTools]: the candidate search of each mode and,
    where it is wired, the hybrid search with its diagnostics. *)
Record SearchToolsDeps := mkSearchToolsDeps {
  std_lexical_search : SearchPublishedToolsQuery → res (list ScoredHit);
  std_hybrid_search : option (SearchPublishedToolsQuery → res (list ScoredHit));
  std_hybrid_diagnostic_search : option (SearchPublishedToolsQuery → res HybridSearchResult);
  std_hybrid_index_version : option string;
  std_overfetch_factor : Z;
  std_resolve_principal : ActorContext → res InternalPrincipal;
  std_evaluate_policy : PolicyEvaluationInput → res PolicyDecision }.

(** [SearchTools.__init__] *)
Definition new_search_tools (d : SearchToolsDeps) : res SearchToolsDeps :=
  raise_if (std_overfetch_factor d <=? 0)%Z
    (ValueError "tool search overfetch factor must be positive") ;;?
  raise_if (negb (is_none (std_hybrid_search d)) && blank (default "" (std_hybrid_index_version d)))
    (ValueError "hybrid tool search must declare an index version") ;;?
  Ok d.

(** The dictionary comprehensions over hits: a later row of an identity wins. *)
Definition diagnostics_of {A} (key : A → string) (value : A → ToolSearchHitDiagnostics)
    (rows : list A) : dict ToolSearchHitDiagnostics :=
  foldl (λ d row, dset (key row) (value row) d) [] rows.

Definition fts_diagnostics (row : positive * ScoredHit) : ToolSearchHitDiagnostics :=
  mkHitDiagnostics ScoreFts (Some (fst row)) (Some (sh_rank (snd row))) None None None.

Definition rrf_diagnostics (d : HybridHitDiagnostics) : ToolSearchHitDiagnostics :=
  mkHitDiagnostics ScoreRrf (hd_lexical_rank d) (hd_lexical_score d) (hd_vector_rank d)
    (hd_vector_cosine_similarity d) (Some (hd_rrf_score d)).

Definition rrf_score_only (hit : ScoredHit) : ToolSearchHitDiagnostics :=
  mkHitDiagnostics ScoreRrf None None None None (Some (sh_rank hit)).

(** The candidates of the query's mode, with their diagnostics. *)
Definition raw_candidates (deps : SearchToolsDeps) (mode : ToolRetrievalMode)
    (q : SearchPublishedToolsQuery) : res (list ScoredHit * dict ToolSearchHitDiagnostics) :=
  match mode with
  | RetrievalHybrid =>
      match std_hybrid_search deps with
      | None => Raise (Nexus ToolSearchModeUnavailableError)
      | Some hybrid_search =>
          match std_hybrid_diagnostic_search deps with
          | Some search =>
              let? detailed := search q in
              Ok (hr_hits detailed,
                  diagnostics_of fst (λ row, rrf_diagnostics (snd row)) (hr_diagnostics detailed))
          | None =>
              let? hits := hybrid_search q in
              Ok (hits, diagnostics_of identity_of rrf_score_only hits)
          end
      end
  | RetrievalLexical =>
      let? hits := std_lexical_search deps q in
      Ok (hits, diagnostics_of (λ row, identity_of (snd row)) fts_diagnostics (enumerate 1 hits))
  end.

Definition call_input (ctx : ActorContext) (principal : InternalPrincipal) (digest : string)
    (hit : ScoredHit) : PolicyEvaluationInput :=
  mkPolicyInput (ctx_tenant_id ctx) principal (pt_tool_id (sh_tool hit))
    (pt_tool_version_id (sh_tool hit)) ActionCall (pt_side_effect (sh_tool hit)) digest.

(** The loop over the raw hits: [visible] has the hits kept so far. *)
Fixpoint filter_visible (evaluate : PolicyEvaluationInput → res PolicyDecision)
    (input_of : ScoredHit → PolicyEvaluationInput) (limit : Z)
    (visible raw_hits : list ScoredHit) : res (list ScoredHit) :=
  match raw_hits with
  | [] => Ok visible
  | hit :: rest =>
      let? input := new_policy_input (input_of hit) in
      let? decision := evaluate input in
      let visible' := if bool_decide (pd_effect decision = Deny) then visible
                      else visible ++ [hit] in
      if (Z.of_nat (length visible') =? limit)%Z then Ok visible'
      else filter_visible evaluate input_of limit visible' rest
  end.

(** [raw_diagnostics[identity]] raises [KeyError] where it is missing. *)
Definition pick_diagnostics (raw : dict ToolSearchHitDiagnostics) (hits : list ScoredHit) :
    res (dict ToolSearchHitDiagnostics) :=
  let? rows := traverse (λ hit, match dget (identity_of hit) raw with
                                | Some d => Ok (identity_of hit, d)
                                | None => Raise OtherException
                                end) hits in
  Ok (diagnostics_of fst snd rows).

(** [SearchTools.execute] *)
Definition search_tools (deps : SearchToolsDeps) (q : SearchToolsQuery) : res SearchToolsResult :=
  raise_if (negb ((1 <=? stq_limit q)%Z && (stq_limit q <=? 10)%Z)) (Nexus InvalidArgumentsError) ;;?
  let search_query := mkSearchQuery (stq_context q) (stq_text q)
    (Z.min (stq_limit q * std_overfetch_factor deps) 50) (stq_namespace q) (stq_side_effect q)
    (stq_eligible_tool_ids q) in
  let? raw := raw_candidates deps (stq_retrieval_mode q) search_query in
  let? principal := std_resolve_principal deps (stq_context q) in
  let? empty_arguments_digest := canonical_json_digest (JObj []) in
  let? visible := filter_visible (std_evaluate_policy deps)
    (call_input (stq_context q) principal empty_arguments_digest) (stq_limit q) [] (fst raw) in
  let? diagnostics := pick_diagnostics (snd raw) visible in
  Ok (mkSearchToolsResult visible (stq_retrieval_mode q)
        (if bool_decide (stq_retrieval_mode q = RetrievalHybrid)
         then std_hybrid_index_version deps else None)
        diagnostics).

(** ** [SqlAlchemyVectorToolSearch]

    The statement of [search_published_by_vector] over the rows of the joined
    tables: [tools] are the active tools with their published version and
    binding, [embeddings] the index; pgvector's cosine distance is an argument.
    Identifiers are UUID texts, so [as_uuid] accepts them. *)

Definition in_scope (tenant_id : string) (f : search_filter) (t : PublishedTool) : bool :=
  bool_decide (pt_tenant_id t = tenant_id)
  && bool_decide (pt_visibility t ∈ sf_visibilities f)
  && match sf_namespace f with Some n => bool_decide (pt_namespace t = n) | None => true end
  && match sf_eligible_tool_ids f with
     | Some ids => bool_decide (pt_tool_id t ∈ ids) | None => true end
  && match sf_side_effect f with
     | Some s => bool_decide (pt_side_effect t = s) | None => true end.

(** [embedding_join] *)
Definition embedding_joins (tenant_id : string) (query_vector : EmbeddingVector)
    (t : PublishedTool) (e : ToolSearchEmbedding) : bool :=
  bool_decide (te_tool_version_id e = pt_tool_version_id t)
  && bool_decide (te_tenant_id e = tenant_id)
  && bool_decide (te_embedding_model e = vec_model query_vector)
  && (te_embedding_dimensions e =? vec_dimensions query_vector)%Z.

(** [order_by(distance.asc(), ToolModel.canonical_name)], on hits of rank
    [1 - distance]. *)
Definition nearest_leb : ScoredHit → ScoredHit → bool :=
  then_by (λ a b, Qle_bool (sh_rank b) (sh_rank a)) (λ a b, name_leb (sh_tool a) (sh_tool b)).

Definition search_published_by_vector (cosine_distance : EmbeddingVector → EmbeddingVector → Q)
    (tools : list PublishedTool) (embeddings : list ToolSearchEmbedding) : VectorToolSearch :=
  λ tenant_id query_vector f limit,
    if bool_decide (sf_visibilities f = []) || bool_decide (sf_eligible_tool_ids f = Some [])
    then new_vector_result (mkVectorResult [] 0 0)
    else
      let scope := filter (λ t, in_scope tenant_id f t) tools in
      let joined t := filter (λ e, embedding_joins tenant_id query_vector t e) embeddings in
      let rows := t ← scope; (λ e, mkScored t (float_sub 1 (cosine_distance (te_vector e) query_vector)))
                               <$> joined t in
      let count ts := Z.of_nat (length (remove_dups (pt_tool_version_id <$> ts))) in
      new_vector_result
        (mkVectorResult (take (Z.to_nat limit) (sorted_by nearest_leb rows))
           (count scope) (count (filter (λ t, joined t ≠ []) scope))).

(** ** Fusion against its definition

    What RRF means, without dictionaries: the position of an identity is that
    of its first row, its score the sum, in the order of the rankings and
    rounded at every step, of [1 / (k + position)] over the rankings that have
    it, its tool that of its first row in any ranking. *)

Fixpoint first_position (i : string) (position : positive) (ranking : list ScoredHit) :
    option positive :=
  match ranking with
  | [] => None
  | hit :: rest => if bool_decide (identity_of hit = i) then Some position
                   else first_position i (Pos.succ position) rest
  end.

(** The double of one over the double of [k + position]. *)
Definition rrf_share (k position : positive) : Q :=
  nearest_double (1 / nearest_double (inject_Z (Zpos k + Zpos position))).

Definition rrf_total (k : positive) (positions : list (option positive)) : Q :=
  foldl (λ score o, match o with Some p => nearest_double (score + rrf_share k p) | None => score end)
    0%Q positions.

Definition rrf_score (k : positive) (rankings : list (list ScoredHit)) (i : string) : Q :=
  rrf_total k (first_position i 1 <$> rankings).

Definition first_hit (rankings : list (list ScoredHit)) (i : string) : option ScoredHit :=
  find (λ hit, bool_decide (identity_of hit = i)) (concat rankings).

Definition hit_name (rankings : list (list ScoredHit)) (i : string) : string :=
  from_option (λ h, pt_canonical_name (sh_tool h)) "" (first_hit rankings i).

(** [a] comes before [b]: its score is greater, or the scores are equal and its
    name is the smaller one, or both are equal and its identity is not greater. *)
Definition rrf_before (k : positive) (rankings : list (list ScoredHit)) (a b : string) : Prop :=
  (rrf_score k rankings b < rrf_score k rankings a)%Q ∨
  (rrf_score k rankings a == rrf_score k rankings b)%Q ∧
  (hit_name rankings a ≠ hit_name rankings b ∧
   str_leb (hit_name rankings a) (hit_name rankings b) = true ∨
   hit_name rankings a = hit_name rankings b ∧ str_leb a b = true).

Definition rrf_better (k : positive) (rankings : list (list ScoredHit)) : string → string → bool :=
  then_by (by_score (rrf_score k rankings)) (then_by (by_text (hit_name rankings)) (by_text id)).

Definition rrf_reference (k : positive) (rankings : list (list ScoredHit)) (limit : nat) :
    list ScoredHit :=
  omap (λ i, (λ h, mkScored (sh_tool h) (rrf_score k rankings i)) <$> first_hit rankings i)
    (take limit (sorted_by (rrf_better k rankings)
                   (remove_dups (identity_of <$> concat rankings)))).

(** The divisor is a double as it is, as long as it is at most [2 ^ 53]. *)
Lemma contribution_share k p c : contribution k p = Ok c → c = rrf_share k p.
Proof.
  unfold contribution, rrf_share.
  assert (nearest_double (inject_Z (Zpos k + Zpos p)) =
          match float_of_int (Zpos (k + p)) with Some x => x | None => float_infinity end) as -> by done.
  destruct (float_of_int _); intros; by simplify_eq.
Qed.

Lemma small_divisor_exact k p :
  (Zpos k + Zpos p <= 2 ^ 53)%Z → contribution k p = Ok (nearest_double (1 # (k + p))).
Proof. intros H. unfold contribution. by rewrite float_of_int_exact by lia. Qed.

(** What the dictionaries of the loop hold, after the rankings [done]. *)
Definition fused_state (score : string → option Q) (tool : string → option ScoredHit) (f : fusion) : Prop :=
  NoDup (dkeys (fu_scores f)) ∧
  (∀ i, dget i (fu_scores f) = score i) ∧ (∀ i, dget i (fu_tools f) = tool i).

Definition add_position (k : positive) (old : option Q) (p : option positive) : option Q :=
  match p with Some p => Some (nearest_double (default 0 old + rrf_share k p)%Q) | None => old end.

Definition unless_seen {A} (seen : list string) (i : string) (o : option A) : option A :=
  if bool_decide (i ∈ seen) then None else o.

Definition or_first (o : option ScoredHit) (i : string) (ranking : list ScoredHit) : option ScoredHit :=
  match o with Some h => Some h | None => find (λ hit, bool_decide (identity_of hit = i)) ranking end.

Lemma fuse_ranking_state k position seen ranking f f' score tool :
  fused_state score tool f →
  (∀ i, i ∈ seen → is_Some (tool i)) →
  fuse_ranking k position seen ranking f = Ok f' →
  fused_state (λ i, add_position k (score i) (unless_seen seen i (first_position i position ranking)))
    (λ i, or_first (tool i) i ranking) f'.
Proof.
  revert position seen f score tool.
  induction ranking as [|hit rest IH]; intros position seen f score tool (Hn & Hs & Ht) Hseen; simpl.
  - intros [= <-]. split_and!; [done| |]; intros i; unfold unless_seen, or_first.
    + rewrite Hs. by case_bool_decide.
    + rewrite Ht. by destruct (tool i).
  - destruct (bool_decide (identity_of hit ∈ seen)) eqn:E.
    + apply bool_decide_eq_true in E. intros H.
      destruct (IH (Pos.succ position) seen f score tool) as (Hn' & Hs' & Ht'); [done|done|done|].
      split_and!; [done| |]; intros i.
      * rewrite Hs'. destruct (decide (identity_of hit = i)) as [<-|Hne].
        -- unfold unless_seen. by rewrite bool_decide_true.
        -- by rewrite (bool_decide_false (identity_of hit = i)).
      * rewrite Ht'. unfold or_first. destruct (tool i) eqn:Ei; [done|]. simpl.
        rewrite bool_decide_false; [done|]. intros <-. destruct (Hseen _ E). congruence.
    + apply bool_decide_eq_false in E.
      set (i0 := identity_of hit) in *. intros H.
      apply rbind_Ok_inv in H as (share & ->%contribution_share & H).
      set (c := rrf_share k position) in *.
      edestruct (IH (Pos.succ position) (i0 :: seen)
        (mkFusion (dset i0 (float_add (default 0%Q (dget i0 (fu_scores f))) c) (fu_scores f))
           (if dmem i0 (fu_tools f) then fu_tools f else dset i0 hit (fu_tools f)))
        (λ i, if decide (i = i0) then Some (float_add (default 0%Q (score i0)) c) else score i)
        (λ i, if decide (i = i0) then or_first (tool i) i [hit] else tool i)) as (Hn' & Hs' & Ht').
      { split_and!; simpl.
        - by apply dset_NoDup.
        - intros i. rewrite dget_dset, !Hs. repeat case_decide; congruence.
        - intros i. unfold dmem. rewrite Ht. case_decide as Ei.
          + subst i. unfold or_first. destruct (tool i0) eqn:Et.
            * by rewrite bool_decide_true, Ht by eauto.
            * rewrite bool_decide_false by (intros [??]; congruence).
              rewrite dget_dset_eq. simpl. by rewrite bool_decide_true.
          + case_bool_decide; [apply Ht|]. rewrite dget_dset_ne by done. apply Ht. }
      { intros i. rewrite elem_of_cons. case_decide as Ei.
        - subst i. intros _. unfold or_first. destruct (tool i0); [done|]. simpl.
          rewrite bool_decide_true; done.
        - intros [?|?]; [done|auto]. }
      { exact H. }
      split_and!; [done| |]; intros i.
      * rewrite Hs'. unfold unless_seen. destruct (decide (i = i0)) as [->|Hne].
        -- rewrite (bool_decide_true (i0 ∈ i0 :: seen)) by apply list_elem_of_here.
           rewrite (bool_decide_false (i0 ∈ seen)), bool_decide_true by done. done.
        -- rewrite (bool_decide_false (i0 = i)) by done.
           rewrite (bool_decide_ext (i ∈ i0 :: seen) (i ∈ seen)); [done|].
           rewrite elem_of_cons. naive_solver.
      * rewrite Ht'. unfold or_first. simpl. case_decide as Ei.
        -- subst i. destruct (tool i0); [done|]. rewrite bool_decide_true by done. done.
        -- destruct (tool i); [done|]. by rewrite bool_decide_false.
Qed.

Lemma rrf_score_app k rankings ranking i :
  rrf_score k (rankings ++ [ranking]) i =
  match first_position i 1 ranking with
  | Some p => nearest_double (rrf_score k rankings i + rrf_share k p)
  | None => rrf_score k rankings i end.
Proof. unfold rrf_score, rrf_total. by rewrite fmap_app, foldl_app. Qed.

Lemma find_app {A} (P : A → bool) l l' :
  find P (l ++ l') = match find P l with Some x => Some x | None => find P l' end.
Proof. induction l as [|x l IH]; simpl; [done|]. by destruct (P x). Qed.

Lemma first_position_None i p ranking :
  first_position i p ranking = None ↔ find (λ hit, bool_decide (identity_of hit = i)) ranking = None.
Proof.
  revert p. induction ranking as [|hit rest IH]; intros p; simpl; [done|].
  case_bool_decide; [done|apply IH].
Qed.

Lemma first_hit_app rankings ranking i :
  first_hit (rankings ++ [ranking]) i = or_first (first_hit rankings i) i ranking.
Proof. unfold first_hit. rewrite concat_app, find_app. simpl. by rewrite app_nil_r. Qed.

Lemma rrf_score_fresh k rankings i : first_hit rankings i = None → rrf_score k rankings i = 0%Q.
Proof.
  induction rankings as [|ranking rankings IH] using rev_ind; [done|].
  rewrite first_hit_app, rrf_score_app. unfold or_first. destruct (first_hit rankings i); [done|].
  intros Hf. rewrite (proj2 (first_position_None i 1 ranking)) by done. auto.
Qed.

Lemma fuse_rankings_app k rankings ranking f :
  fuse_rankings k (rankings ++ [ranking]) f =
  let? f := fuse_rankings k rankings f in fuse_ranking k 1 [] ranking f.
Proof.
  revert f. induction rankings as [|r rankings IH]; intros f; simpl; [by destruct (fuse_ranking _ _ _ _ _)|].
  destruct (fuse_ranking k 1 [] r f); simpl; [apply IH|done].
Qed.

Lemma fuse_rankings_state k rankings f :
  fuse_rankings k rankings (mkFusion [] []) = Ok f →
  fused_state (λ i, (λ _, rrf_score k rankings i) <$> first_hit rankings i) (first_hit rankings) f.
Proof.
  revert f. induction rankings as [|ranking rankings IH] using rev_ind; intros f' H.
  { simpl in H. simplify_eq. by split_and!; [constructor| |]. }
  rewrite fuse_rankings_app in H. apply rbind_Ok_inv in H as (f & Hf & H).
  destruct (fuse_ranking_state k 1 [] ranking f f' _ _ (IH f Hf)) as (Hn & Hs & Ht); [|done|].
  { intros i ?%not_elem_of_nil. done. }
  split_and!; [done| |intros i; by rewrite Ht, first_hit_app]. intros i.
  rewrite Hs, first_hit_app, rrf_score_app. unfold unless_seen, or_first.
  rewrite bool_decide_false by apply not_elem_of_nil.
  pose proof (first_position_None i 1 ranking) as Hp. pose proof (rrf_score_fresh k rankings i) as Hr.
  destruct (first_hit rankings i); simpl; [by destruct (first_position i 1 ranking)|].
  rewrite Hr by done. destruct (first_position i 1 ranking), (find _ ranking); simpl; try done;
    naive_solver.
Qed.

Lemma first_hit_Some rankings i h :
  first_hit rankings i = Some h → h ∈ concat rankings ∧ identity_of h = i.
Proof. intros [Hin E]%find_Some_iff. by apply bool_decide_eq_true in E. Qed.

Lemma first_hit_is_Some rankings i :
  is_Some (first_hit rankings i) ↔ i ∈ identity_of <$> concat rankings.
Proof.
  rewrite list_elem_of_fmap. split.
  - intros [h [Hin <-]%first_hit_Some]. eauto.
  - intros (h & -> & Hin). destruct (first_hit rankings (identity_of h)) eqn:E; [done|].
    pose proof (proj1 (find_None_iff _ _) E h Hin) as Hf. cbn beta in Hf. by rewrite bool_decide_true in Hf.
Qed.

Lemma fuse_keys k rankings f :
  fuse_rankings k rankings (mkFusion [] []) = Ok f →
  dkeys (fu_scores f) ≡ₚ remove_dups (identity_of <$> concat rankings).
Proof.
  intros (Hn & Hs & _)%fuse_rankings_state.
  apply NoDup_Permutation; [done|apply NoDup_remove_dups|]. intros i.
  rewrite elem_of_remove_dups, <-first_hit_is_Some. specialize (Hs i).
  destruct (first_hit rankings i) eqn:E; simpl in Hs.
  - split; [done|]. intros _. destruct (decide (i ∈ dkeys (fu_scores f))); [done|].
    apply dget_None in n. congruence.
  - apply dget_None in Hs. split; [done|]. by intros [? ?].
Qed.

Lemma fused_leb_better k rankings f a b :
  fuse_rankings k rankings (mkFusion [] []) = Ok f →
  fused_leb f a b = rrf_better k rankings a b.
Proof.
  intros (_ & Hs & Ht)%fuse_rankings_state.
  assert (Hscore : ∀ i, default 0%Q (dget i (fu_scores f)) = rrf_score k rankings i).
  { intros i. rewrite Hs. destruct (first_hit rankings i) eqn:E; simpl; [done|].
    by rewrite rrf_score_fresh. }
  unfold fused_leb, rrf_better, then_by, by_score, by_text, hit_name. by rewrite !Hscore, !Ht.
Qed.

Lemma by_score_total score x y : by_score score x y = true ∨ by_score score y x = true.
Proof. unfold by_score. rewrite !Qle_bool_iff. destruct (Qlt_le_dec (score x) (score y)); auto using Qlt_le_weak. Qed.
Lemma by_score_trans score x y z :
  by_score score x y = true → by_score score y z = true → by_score score x z = true.
Proof. unfold by_score. rewrite !Qle_bool_iff. intros. by eapply Qle_trans. Qed.
Lemma by_text_total text x y : by_text text x y = true ∨ by_text text y x = true.
Proof. apply str_leb_total. Qed.
Lemma by_text_trans text x y z :
  by_text text x y = true → by_text text y z = true → by_text text x z = true.
Proof. apply str_leb_trans. Qed.

Lemma rrf_better_total k rankings x y :
  rrf_better k rankings x y = true ∨ rrf_better k rankings y x = true.
Proof.
  apply then_by_total; [apply by_score_total|].
  apply then_by_total; apply by_text_total.
Qed.

Lemma rrf_better_trans k rankings x y z :
  rrf_better k rankings x y = true → rrf_better k rankings y z = true →
  rrf_better k rankings x z = true.
Proof.
  apply then_by_trans; [apply by_score_total|apply by_score_trans|].
  apply then_by_trans; [apply by_text_total|apply by_text_trans|apply by_text_trans].
Qed.

Lemma rrf_better_antisym k rankings x y :
  rrf_better k rankings x y = true → rrf_better k rankings y x = true → x = y.
Proof.
  apply then_by_antisym; [apply by_score_total|]. apply then_by_antisym; [apply by_text_total|].
  apply str_leb_antisym.
Qed.

#[local] Hint Resolve rrf_better_total rrf_better_trans : core.

Lemma rrf_better_before k rankings a b :
  rrf_better k rankings a b = true → rrf_before k rankings a b.
Proof.
  unfold rrf_better, rrf_before. rewrite then_by_iff by apply by_score_total.
  rewrite then_by_iff by apply by_text_total. unfold by_score, by_text, id.
  rewrite !Qle_bool_iff. intros [Hle Hties].
  destruct (Qlt_le_dec (rrf_score k rankings b) (rrf_score k rankings a)) as [?|Hge]; [by left|right].
  destruct (Hties Hge) as [Hname Hid]. split; [by apply Qle_antisym|].
  destruct (decide (hit_name rankings a = hit_name rankings b)) as [E|]; [right|by left].
  split; [done|]. apply Hid. rewrite E in Hname |- *. done.
Qed.

Lemma ordered_before k rankings l :
  ordered (rrf_better k rankings) l → StronglySorted (rrf_before k rankings) l.
Proof.
  induction 1 as [|x l _ IH Hx]; constructor; [done|].
  eapply Forall_impl; [exact Hx|]. intros. by apply rrf_better_before.
Qed.

Lemma fused_order k rankings f :
  fuse_rankings k rankings (mkFusion [] []) = Ok f →
  sorted_by (fused_leb f) (dkeys (fu_scores f)) =
  sorted_by (rrf_better k rankings) (remove_dups (identity_of <$> concat rankings)).
Proof.
  intros Hf. apply (ordered_unique (rrf_better k rankings)); [eauto using rrf_better_antisym| | |].
  - assert (E : ∀ l, sorted_by (fused_leb f) l = sorted_by (rrf_better k rankings) l).
    { assert (Ei : ∀ x l, insert_by (fused_leb f) x l = insert_by (rrf_better k rankings) x l).
      { intros x l. induction l as [|y l IH]; simpl; [done|].
        by rewrite (fused_leb_better k rankings), IH. }
      intros l. induction l as [|x l IH]; simpl; [done|]. by rewrite IH, Ei. }
    rewrite E. apply sorted_by_ordered; eauto.
  - apply sorted_by_ordered; eauto.
  - by rewrite !sorted_by_perm, (fuse_keys k rankings f).
Qed.

(** The dictionary-based fusion computes the reference ranking. *)
Lemma fuse_reference k rankings limit hits :
  fuse k rankings limit = Ok hits →
  (0 < limit)%Z ∧ hits = rrf_reference k rankings (Z.to_nat limit).
Proof.
  unfold fuse, raise_if. destruct (limit <=? 0)%Z eqn:El; simpl; [done|]. intros H.
  apply rbind_Ok_inv in H as (f & Hf & H). simplify_eq. split; [lia|].
  rewrite (fused_order k rankings f) by done. unfold rrf_reference.
  destruct (fuse_rankings_state k rankings f Hf) as (_ & Hs & Ht).
  apply list_omap_ext, Forall_Forall2_diag, Forall_true. intros i.
  rewrite Hs, Ht. by destruct (first_hit rankings i).
Qed.

(** No divisor overflows where positions and rank constant stay small. *)
Lemma fuse_ranking_answers k position seen ranking f :
  (Zpos k + Zpos position + Z.of_nat (length ranking) <= 2 ^ 53)%Z →
  ∃ f', fuse_ranking k position seen ranking f = Ok f'.
Proof.
  revert position seen f. induction ranking as [|hit rest IH]; intros position seen f Hle; cbn [fuse_ranking]; [eauto|].
  cbn [length] in Hle. destruct (bool_decide _); [apply IH; lia|].
  rewrite small_divisor_exact by lia. cbn [rbind]. apply IH. lia.
Qed.

Lemma fuse_answers k rankings limit :
  (0 < limit)%Z →
  (∀ ranking, ranking ∈ rankings → Zpos k + Z.of_nat (length ranking) < 2 ^ 53)%Z →
  ∃ hits, fuse k rankings limit = Ok hits.
Proof.
  intros Hl Hr. unfold fuse, raise_if. destruct (limit <=? 0)%Z eqn:El; [lia|]. cbn [rbind].
  cut (∃ f, fuse_rankings k rankings (mkFusion [] []) = Ok f).
  { intros [f ->]. cbn [rbind]. eauto. }
  generalize (mkFusion [] []). induction rankings as [|ranking rest IH]; intros f; cbn [fuse_rankings]; [eauto|].
  destruct (fuse_ranking_answers k 1 [] ranking f) as [f' ->].
  - specialize (Hr ranking (list_elem_of_here _ _)). lia.
  - cbn [rbind]. apply IH. intros. apply Hr. by right.
Qed.

Lemma rrf_reference_identities k rankings limit :
  identity_of <$> rrf_reference k rankings limit =
  take limit (sorted_by (rrf_better k rankings) (remove_dups (identity_of <$> concat rankings))).
Proof.
  unfold rrf_reference. set (l := take limit _).
  assert (Hl : ∀ i, i ∈ l → is_Some (first_hit rankings i)).
  { intros i Hi%elem_of_take_in. rewrite elem_of_sorted_by, elem_of_remove_dups in Hi.
    by apply first_hit_is_Some. }
  set (F := λ i, _ <$> first_hit rankings i).
  assert (HF : ∀ i, is_Some (first_hit rankings i) → ∃ h, F i = Some h ∧ identity_of h = i).
  { intros i [h Hh]. unfold F. rewrite Hh. eexists. split; [done|]. by apply first_hit_Some in Hh as [_ <-]. }
  clearbody F. induction l as [|i l IH]; [done|].
  destruct (HF i (Hl i (list_elem_of_here _ _))) as (h & Hh & Hi). cbn [omap list_omap]. rewrite Hh.
  csimpl. rewrite Hi. f_equal. apply IH. intros j Hj. apply Hl. by right.
Qed.

Lemma elem_of_rrf_reference k rankings limit h :
  h ∈ rrf_reference k rankings limit →
  sh_rank h = rrf_score k rankings (identity_of h) ∧
  ∃ h', first_hit rankings (identity_of h) = Some h' ∧ sh_tool h = sh_tool h'.
Proof.
  unfold rrf_reference. rewrite list_elem_of_omap. intros (i & _ & E).
  destruct (first_hit rankings i) as [h'|] eqn:Ei; simplify_eq/=.
  pose proof (first_hit_Some _ _ _ Ei) as [_ <-]. by split; [|exists h'].
Qed.

(** What the clients of the fusion use. *)
Lemma rank_fusion_facts k rankings limit hits :
  fuse k rankings limit = Ok hits →
  hits = rrf_reference k rankings (Z.to_nat limit) ∧
  NoDup (identity_of <$> hits) ∧
  ∀ h, h ∈ hits → sh_rank h = rrf_score k rankings (identity_of h) ∧
     ∃ h', first_hit rankings (identity_of h) = Some h' ∧ sh_tool h = sh_tool h'.
Proof.
  intros [_ ->]%fuse_reference. split_and!; [done| |by intros h ?%elem_of_rrf_reference].
  rewrite rrf_reference_identities. eapply sublist_NoDup; [|apply sublist_take].
  apply NoDup_sorted_by, NoDup_remove_dups.
Qed.

(** C36: reciprocal rank fusion.  A limit that is not positive is refused;
    any other is answered, for rankings below [2 ^ 53] rows.  The answer has
    each identity of the rankings at most once, with the tool of its first row
    and the sum, rounded to a double at every step, of [1 / (k + position)]
    over the rankings that have it, the position being that of its first row
    there.  Of two hits the one with the greater score comes first, then that
    with the smaller name, then that with the smaller identity; an identity is
    left out only where the limit is reached by hits that come before it. *)
Theorem rank_fusion_correct k rankings limit :
  ((limit <= 0)%Z →
     fuse k rankings limit = Raise (ValueError "RRF result limit must be positive")) ∧
  ((0 < limit)%Z → (∀ ranking, ranking ∈ rankings → Zpos k + Z.of_nat (length ranking) < 2 ^ 53)%Z →
     ∃ hits, fuse k rankings limit = Ok hits) ∧
  ∀ hits, fuse k rankings limit = Ok hits →
    NoDup (identity_of <$> hits) ∧
    StronglySorted (rrf_before k rankings) (identity_of <$> hits) ∧
    (∀ h, h ∈ hits → sh_rank h = rrf_score k rankings (identity_of h) ∧
       ∃ h', first_hit rankings (identity_of h) = Some h' ∧ sh_tool h = sh_tool h') ∧
    ∀ i, i ∈ identity_of <$> concat rankings → i ∉ identity_of <$> hits →
      Z.of_nat (length hits) = limit ∧
      ∀ h, h ∈ hits → rrf_before k rankings (identity_of h) i.
Proof.
  split; [|split; [apply fuse_answers|]].
  { intros. unfold fuse, raise_if. by rewrite (proj2 (Z.leb_le limit 0)). }
  intros hits H. destruct (rank_fusion_facts _ _ _ _ H) as (E & Hn & Hscore).
  apply fuse_reference in H as [Hl _]. subst hits.
  assert (Hids := rrf_reference_identities k rankings (Z.to_nat limit)).
  set (all := remove_dups (identity_of <$> concat rankings)) in *.
  assert (Hord : ordered (rrf_better k rankings) (sorted_by (rrf_better k rankings) all))
    by (apply sorted_by_ordered; eauto).
  split_and!; [done| |done|].
  - rewrite Hids. by apply ordered_before, ordered_take.
  - intros i Hi Hout. rewrite Hids in Hout.
    assert (Hin : i ∈ sorted_by (rrf_better k rankings) all)
      by (by rewrite elem_of_sorted_by; apply elem_of_remove_dups).
    destruct (ordered_take_complete _ (Z.to_nat limit) _ _ Hord Hin) as [?|[Hlen Hbest]]; [done|].
    rewrite <-Hids in *. rewrite length_fmap in Hlen. split; [lia|].
    intros h Hh. apply rrf_better_before, Hbest. by apply list_elem_of_fmap_2.
Qed.

(** ** Hybrid search *)

Definition ranked_at (p : positive) (hits : list ScoredHit) (i : string) : option (positive * Q) :=
  match first_position i p hits, find (λ hit, bool_decide (identity_of hit = i)) hits with
  | Some q, Some h => Some (q, sh_rank h)
  | _, _ => None
  end.

Lemma ranked_hits_get hits i : dget i (ranked_hits hits) = ranked_at 1 hits i.
Proof.
  unfold ranked_hits.
  assert (H : ∀ p d, dget i (foldl (λ ranked row,
      let identity := identity_of (snd row) in
      if dmem identity ranked then ranked else dset identity (fst row, sh_rank (snd row)) ranked)
      d (enumerate p hits)) = match dget i d with Some v => Some v | None => ranked_at p hits i end).
  { unfold ranked_at. induction hits as [|h hits IH]; intros p d; simpl; [by destruct (dget i d)|].
    rewrite IH. unfold dmem. case_bool_decide as Hm; case_bool_decide as Hi; subst.
    - by destruct Hm as [v ->].
    - done.
    - rewrite dget_dset_eq. destruct (dget (identity_of h) d); [by destruct Hm|done].
    - by rewrite dget_dset_ne. }
  apply H.
Qed.

Lemma ranked_at_first hits i :
  fst <$> ranked_at 1 hits i = first_position i 1 hits ∧
  snd <$> ranked_at 1 hits i = sh_rank <$> first_hit [hits] i.
Proof.
  unfold ranked_at, first_hit. simpl. rewrite app_nil_r. pose proof (first_position_None i 1 hits).
  destruct (first_position i 1 hits), (find _ hits); simpl; naive_solver.
Qed.

(** A dictionary comprehension over rows with distinct keys. *)
Lemma comprehension_get {A V} (key : A → string) (value : A → V) rows (d : dict V) row :
  NoDup (key <$> rows) → row ∈ rows →
  dget (key row) (foldl (λ d row, dset (key row) (value row) d) d rows) = Some (value row).
Proof.
  assert (Hout : ∀ rows d i, i ∉ key <$> rows →
    dget i (foldl (λ d row, dset (key row) (value row) d) d rows) = dget i d).
  { clear. induction rows as [|r rows IH]; intros d i Hi; [done|]. simpl.
    rewrite fmap_cons, not_elem_of_cons in Hi. rewrite IH by tauto. apply dget_dset_ne. tauto. }
  revert d. induction rows as [|r rows IH]; intros d; [by intros _ ?%not_elem_of_nil|].
  rewrite fmap_cons, NoDup_cons, elem_of_cons. simpl. intros [Hr Hn] [->|Hin]; [|auto].
  rewrite Hout by done. apply dget_dset_eq.
Qed.

(** Hybrid search.  A result is the fusion of the keyword ranking and the
    vector ranking of the same query, and its diagnostics explain it: they have
    an entry for every hit, with the position and the score each strategy gave
    it, whose shares add up to the hit's fused score; every hit comes
    from one of the strategies, and carries the tool that strategy returned. *)
Theorem hybrid_diagnostics_explain k first_fails_first lexical_search vector_search q r :
  execute_detailed k first_fails_first lexical_search vector_search q = Ok r →
  ∃ lexical vector,
    lexical_search q = Ok lexical ∧ vector_search q = Ok vector ∧
    hr_hits r = rrf_reference k [lexical; vr_hits vector] (Z.to_nat (sq_limit q)) ∧
    ∀ hit, hit ∈ hr_hits r → ∃ d,
      dget (identity_of hit) (hr_diagnostics r) = Some d ∧
      hd_lexical_rank d = first_position (identity_of hit) 1 lexical ∧
      hd_lexical_score d = sh_rank <$> first_hit [lexical] (identity_of hit) ∧
      hd_vector_rank d = first_position (identity_of hit) 1 (vr_hits vector) ∧
      hd_vector_cosine_similarity d = sh_rank <$> first_hit [vr_hits vector] (identity_of hit) ∧
      hd_rrf_score d = rrf_total k [hd_lexical_rank d; hd_vector_rank d] ∧
      (is_Some (hd_lexical_rank d) ∨ is_Some (hd_vector_rank d)) ∧
      ∃ source, source ∈ lexical ++ vr_hits vector ∧ sh_tool source = sh_tool hit.
Proof.
  unfold execute_detailed, gather. intros H.
  destruct (lexical_search q) as [lexical|], (vector_search q) as [vector|]; try done.
  simpl in H. apply rbind_Ok_inv in H as (fused & Hf & H). simplify_eq. simpl in *.
  exists lexical, vector.
  destruct (rank_fusion_facts _ _ _ _ Hf) as (Hr & Hn & Hscore).
  split_and!; [done|done|done|]. intros hit Hin. eexists. split.
  { by apply (comprehension_get identity_of (hybrid_diagnostics _ _)). }
  unfold hybrid_diagnostics. simpl. rewrite !ranked_hits_get.
  destruct (ranked_at_first lexical (identity_of hit)) as [-> ->].
  destruct (ranked_at_first (vr_hits vector) (identity_of hit)) as [-> ->].
  destruct (Hscore hit Hin) as [-> (source & Hs & Ht)].
  split_and!; try done.
  - pose proof (first_position_None (identity_of hit) 1 lexical) as Hl.
    pose proof (first_position_None (identity_of hit) 1 (vr_hits vector)) as Hv.
    unfold first_hit in Hs. simpl in Hs. rewrite app_nil_r, find_app in Hs.
    destruct (first_position _ 1 lexical); [by left; eauto|].
    rewrite (proj1 Hl eq_refl) in Hs.
    destruct (first_position _ 1 (vr_hits vector)); [by right; eauto|].
    by rewrite (proj1 Hv eq_refl) in Hs.
  - exists source. apply first_hit_Some in Hs as [Hs _]. simpl in Hs. rewrite app_nil_r in Hs. done.
Qed.

(** ** The search tool *)

(** The policy answers, and does not deny. *)
Definition permitted (evaluate : PolicyEvaluationInput → res PolicyDecision)
    (input_of : ScoredHit → PolicyEvaluationInput) (hit : ScoredHit) : bool :=
  match evaluate (input_of hit) with
  | Ok d => negb (bool_decide (pd_effect d = Deny))
  | Raise _ => false
  end.

Definition same_tenant (i : PolicyEvaluationInput) : Prop := ip_tenant_id (pi_principal i) = pi_tenant_id i.

Lemma call_input_Ok i i' : new_policy_input i = Ok i' ↔ i' = i ∧ same_tenant i.
Proof.
  unfold new_policy_input, same_tenant, raise_if. case_bool_decide; simpl; split; naive_solver.
Qed.

Lemma filter_visible_spec evaluate input_of limit raw : ∀ visible out,
  (Z.of_nat (length visible) < limit)%Z →
  filter_visible evaluate input_of limit visible raw = Ok out →
  out = take (Z.to_nat limit) (visible ++ filter (λ h, permitted evaluate input_of h) raw) ∧
  ∀ h, h ∈ out → h ∈ visible ∨ same_tenant (input_of h).
Proof.
  induction raw as [|hit raw IH]; intros visible out Hlt H; simpl in H.
  { simplify_eq. rewrite filter_nil, app_nil_r, take_ge by lia. auto. }
  apply rbind_Ok_inv in H as (input & [-> Hten]%call_input_Ok & H).
  apply rbind_Ok_inv in H as (d & Hd & H).
  assert (Hp : permitted evaluate input_of hit = negb (bool_decide (pd_effect d = Deny)))
    by (unfold permitted; by rewrite Hd).
  rewrite filter_cons. destruct (bool_decide (pd_effect d = Deny)) eqn:Ed.
  - rewrite decide_False by (rewrite Hp; simpl; tauto).
    destruct (Z.eqb_spec (Z.of_nat (length visible)) limit); [lia|]. by apply IH.
  - rewrite decide_True by (by rewrite Hp).
    assert (Hlen : length (visible ++ [hit]) = S (length visible)) by (rewrite length_app; simpl; lia).
    destruct (Z.eqb_spec (Z.of_nat (length (visible ++ [hit]))) limit) as [E|E].
    + simplify_eq. rewrite (cons_middle hit _ (filter _ raw)), (assoc_L (++)), take_app_le by lia.
      rewrite take_ge by lia. split; [done|]. intros h. rewrite elem_of_app, list_elem_of_singleton.
      intros [?| ->]; auto.
    + apply IH in H as [-> Hin]; [|lia]. split; [by rewrite (cons_middle hit _ (filter _ raw)), (assoc_L (++))|].
      intros h [Hv|?]%Hin; [|by right]. rewrite elem_of_app, list_elem_of_singleton in Hv.
      destruct Hv as [?| ->]; auto.
Qed.

(** Where nothing raises, the loop ends. *)
Lemma filter_visible_total evaluate input_of limit raw : ∀ visible,
  (∀ h, h ∈ raw → same_tenant (input_of h) ∧ ∃ d, evaluate (input_of h) = Ok d) →
  ∃ out, filter_visible evaluate input_of limit visible raw = Ok out.
Proof.
  induction raw as [|hit raw IH]; intros visible H; simpl; [eauto|].
  destruct (H hit) as [Ht [d Hd]]; [by left|].
  rewrite (proj2 (call_input_Ok _ _) (conj eq_refl Ht)). simpl. rewrite Hd. simpl.
  destruct (_ =? _)%Z; [eauto|]. apply IH. intros; apply H. by right.
Qed.

(** Writing rows whose value is a function of their key. *)
Lemma diagnostics_functional {A} (key : A → string) (value : A → ToolSearchHitDiagnostics) rows row :
  (∀ a b, a ∈ rows → b ∈ rows → key a = key b → value a = value b) → row ∈ rows →
  dget (key row) (diagnostics_of key value rows) = Some (value row).
Proof.
  unfold diagnostics_of. generalize (@nil (string * ToolSearchHitDiagnostics)).
  induction rows as [|r rows IH] using rev_ind; intros d Hf Hin; [by apply not_elem_of_nil in Hin|].
  rewrite foldl_app. simpl. rewrite dget_dset. case_decide as E.
  - f_equal. apply Hf; [set_solver|done|done].
  - apply IH; [intros; apply Hf; set_solver|]. apply elem_of_app in Hin as [?|Hin]; [done|].
    apply list_elem_of_singleton in Hin. by subst.
Qed.

Lemma pick_diagnostics_spec raw hits d :
  pick_diagnostics raw hits = Ok d →
  ∀ h, h ∈ hits → dget (identity_of h) d = dget (identity_of h) raw ∧
                  is_Some (dget (identity_of h) raw).
Proof.
  unfold pick_diagnostics. intros H. apply rbind_Ok_inv in H as (rows & Hr & H). simplify_eq.
  apply traverse_elem in Hr as [Hl Hr]. intros h Hh.
  assert (Hrow : ∀ row, row ∈ rows → dget (fst row) raw = Some (snd row)).
  { intros row Hrow. destruct (Hr row Hrow) as (h' & _ & E).
    destruct (dget (identity_of h') raw) eqn:Ed; simplify_eq. done. }
  destruct (Hl h Hh) as (row & Hin & E).
  destruct (dget (identity_of h) raw) as [v|] eqn:Ed; simplify_eq. split; [|done].
  apply (diagnostics_functional fst snd rows (identity_of h, v)); [|done].
  intros a b Ha%Hrow Hb%Hrow Eab. rewrite Eab in Ha. congruence.
Qed.

(** What a search promises its client: it only finds tools of the catalog, of
    the caller's tenant, that the caller may discover and that pass the query's
    filters. *)
Definition in_query_scope (tools : list PublishedTool) (q : SearchPublishedToolsQuery)
    (t : PublishedTool) : Prop :=
  t ∈ tools ∧ pt_tenant_id t = ctx_tenant_id (sq_context q) ∧
  is_visible_to t (ctx_principal_id (sq_context q)) = true ∧
  (∀ ids, sq_eligible_tool_ids q = Some ids → pt_tool_id t ∈ ids) ∧
  (∀ s, sq_side_effect q = Some s → pt_side_effect t = s).

Class ScopedSearch (tools : list PublishedTool)
    (search : SearchPublishedToolsQuery → res (list ScoredHit)) : Prop :=
  scoped_search q hits : search q = Ok hits →
    ∀ h, h ∈ hits → in_query_scope tools q (sh_tool h).

(** The keyword search of the in-memory catalog. *)
#[export] Instance lexical_ranking_scoped tools : ScopedSearch tools (lexical_ranking tools).
Proof.
  intros q hits H h Hh. unfold lexical_ranking in H.
  apply rbind_Ok_inv in H as (found & Hf & H). simplify_eq.
  apply list_elem_of_fmap in Hh as (p & -> & Hp). simpl.
  unfold search_published_tools in Hf. guards Hf. simplify_eq.
  unfold search_published in Hp. apply elem_of_take_in in Hp. rewrite elem_of_sorted_by in Hp.
  apply list_elem_of_fmap in Hp as (t & -> & Ht). simpl.
  apply list_elem_of_filter in Ht as [Hm Ht]. apply Is_true_true in Hm.
  unfold search_matches in Hm. py_bools. simpl in *. split_and!; try done.
  - by apply discoverable_visible.
  - intros ids Hids. rewrite Hids in *. by py_bools.
  - intros s Hs. rewrite Hs in *. by py_bools.
Qed.

(** The vector search over the index. *)
Lemma search_vector_tools_scoped p distance tools embeddings :
  ScopedSearch tools (λ q, let? r := search_vector_tools p
    (search_published_by_vector distance tools embeddings) q in Ok (vr_hits r)).
Proof.
  intros q hits H h Hh. apply rbind_Ok_inv in H as (r & Hr & H). simplify_eq.
  unfold search_vector_tools in Hr. apply rbind_Ok_inv in Hr as (text & _ & Hr).
  destruct (bool_decide (sq_eligible_tool_ids q = Some [])).
  { unfold new_vector_result in Hr. guards Hr. simplify_eq. by apply not_elem_of_nil in Hh. }
  apply rbind_Ok_inv in Hr as (vectors & _ & Hr).
  destruct vectors as [|v [|]]; try done. apply rbind_Ok_inv in Hr as (? & _ & Hr).
  apply rbind_Ok_inv in Hr as (r' & Hr' & Hr). guards Hr. simplify_eq.
  unfold search_published_by_vector in Hr'. destruct (_ || _).
  { unfold new_vector_result in Hr'. guards Hr'. simplify_eq. by apply not_elem_of_nil in Hh. }
  unfold new_vector_result in Hr'. guards Hr'. simplify_eq. simpl in Hh.
  apply elem_of_take_in in Hh. rewrite elem_of_sorted_by in Hh.
  apply list_elem_of_bind in Hh as (t & Hh & Ht).
  apply list_elem_of_fmap in Hh as (e & -> & _). simpl.
  apply list_elem_of_filter in Ht as [Hm Ht]. apply Is_true_true in Hm.
  unfold in_scope in Hm. py_bools. simpl in *. split_and!; try done.
  - by apply discoverable_visible.
  - intros ids Hids. rewrite Hids in *. by py_bools.
  - intros s Hs. rewrite Hs in *. by py_bools.
Qed.

(** Their hybrid. *)
Lemma execute_detailed_scoped tools k b lexical vector :
  ScopedSearch tools lexical → ScopedSearch tools (λ q, let? r := vector q in Ok (vr_hits r)) →
  ScopedSearch tools (λ q, let? r := execute_detailed k b lexical vector q in Ok (hr_hits r)).
Proof.
  intros Hl Hv q hits H h Hh. apply rbind_Ok_inv in H as (r & Hr & H). simplify_eq.
  unfold execute_detailed, gather in Hr.
  destruct (lexical q) as [lhits|] eqn:El, (vector q) as [vr|] eqn:Ev; try done.
  simpl in Hr. apply rbind_Ok_inv in Hr as (fused & Hf & Hr). simplify_eq. simpl in *.
  destruct (rank_fusion_facts _ _ _ _ Hf) as (_ & _ & Hs). destruct (Hs h Hh) as (_ & h' & Hh' & ->).
  apply first_hit_Some in Hh' as [Hh' _]. simpl in Hh'. rewrite app_nil_r, elem_of_app in Hh'.
  destruct Hh'; [by eapply Hl|]. eapply Hv; [|done]. by rewrite Ev.
Qed.

(** The searches of [SearchTools] all keep the promise. *)
Record scoped_deps (tools : list PublishedTool) (deps : SearchToolsDeps) : Prop := {
  scoped_lexical : ScopedSearch tools (std_lexical_search deps);
  scoped_hybrid : ∀ s, std_hybrid_search deps = Some s → ScopedSearch tools s;
  scoped_detailed : ∀ s, std_hybrid_diagnostic_search deps = Some s →
    ScopedSearch tools (λ q, let? r := s q in Ok (hr_hits r)) }.

Lemma raw_candidates_scoped tools deps mode q raw diagnostics :
  scoped_deps tools deps → raw_candidates deps mode q = Ok (raw, diagnostics) →
  ∀ h, h ∈ raw → in_query_scope tools q (sh_tool h).
Proof.
  intros [Hl Hh Hd] H. unfold raw_candidates in H. destruct mode.
  - apply rbind_Ok_inv in H as (hits & Hs & H). simplify_eq. by apply Hl.
  - destruct (std_hybrid_search deps) as [s|]; [|done].
    destruct (std_hybrid_diagnostic_search deps) as [s'|].
    + apply rbind_Ok_inv in H as (r & Hr & H). simplify_eq. apply (Hd _ eq_refl). by rewrite Hr.
    + apply rbind_Ok_inv in H as (hits & Hs & H). simplify_eq. by apply (Hh _ eq_refl).
Qed.

(** The query [SearchTools] passes to its searches. *)
Definition candidate_query (deps : SearchToolsDeps) (q : SearchToolsQuery) : SearchPublishedToolsQuery :=
  mkSearchQuery (stq_context q) (stq_text q) (Z.min (stq_limit q * std_overfetch_factor deps) 50)
    (stq_namespace q) (stq_side_effect q) (stq_eligible_tool_ids q).

(** The run behind an answer. *)
Lemma search_tools_run deps q r :
  search_tools deps q = Ok r →
  (1 <= stq_limit q <= 10)%Z ∧
  ∃ raw diagnostics principal digest,
    raw_candidates deps (stq_retrieval_mode q) (candidate_query deps q) = Ok (raw, diagnostics) ∧
    std_resolve_principal deps (stq_context q) = Ok principal ∧
    canonical_json_digest (JObj []) = Ok digest ∧
    let input_of := call_input (stq_context q) principal digest in
    str_hits r = take (Z.to_nat (stq_limit q))
                   (filter (λ h, permitted (std_evaluate_policy deps) input_of h) raw) ∧
    ∀ h, h ∈ str_hits r →
      ip_tenant_id principal = ctx_tenant_id (stq_context q) ∧
      ∃ d, dget (identity_of h) (str_diagnostics r) = Some d ∧
           dget (identity_of h) diagnostics = Some d.
Proof.
  intros H. unfold search_tools in H. apply rbind_Ok_inv in H as (? & Hlim & H).
  rewrite raise_if_Ok in Hlim. py_bools.
  repeat match goal with G : (_ <=? _)%Z = true |- _ => apply Z.leb_le in G end.
  apply rbind_Ok_inv in H as ([raw diagnostics] & Hraw & H).
  apply rbind_Ok_inv in H as (principal & Hp & H). apply rbind_Ok_inv in H as (digest & Hd & H).
  apply rbind_Ok_inv in H as (visible & Hv & H). apply rbind_Ok_inv in H as (picked & Hpick & H).
  injection H as <-. cbn [str_hits str_diagnostics fst snd] in *.
  apply filter_visible_spec in Hv as [-> Hten]; [|cbn [length]; lia].
  cbn [app] in *. split; [lia|]. exists raw, diagnostics, principal, digest.
  do 2 (split; [done|]). split; [exact Hd|]. clear Hd. split; [done|].
  intros h Hh. destruct (Hten h Hh) as [?%not_elem_of_nil|Ht]; [done|].
  destruct (pick_diagnostics_spec _ _ _ Hpick h Hh) as [E [d Ed]].
  split; [done|exists d; by rewrite E].
Qed.

Lemma permitted_inv evaluate input_of h :
  permitted evaluate input_of h = true →
  ∃ d, evaluate (input_of h) = Ok d ∧ pd_effect d ≠ Deny.
Proof.
  unfold permitted. destruct (evaluate _) as [d|]; [|done].
  intros Hd. exists d. split; [done|]. by py_bools.
Qed.

Lemma search_tools_permitted deps q r h :
  search_tools deps q = Ok r → h ∈ str_hits r →
  ∃ principal digest d, std_resolve_principal deps (stq_context q) = Ok principal ∧
    std_evaluate_policy deps (call_input (stq_context q) principal digest h) = Ok d ∧
    pd_effect d ≠ Deny.
Proof.
  intros H Hh. destruct (search_tools_run _ _ _ H) as (_ & raw & diags & p & dg & _ & Hp & _ & E & _).
  rewrite E in Hh. apply elem_of_take_in in Hh. apply list_elem_of_filter in Hh as [Hh _].
  apply Is_true_true in Hh. destruct (permitted_inv _ _ _ Hh) as (d & Hd & Hne). eauto 10.
Qed.

Lemma search_tools_scoped tools deps q r :
  scoped_deps tools deps → search_tools deps q = Ok r →
  ∀ h, h ∈ str_hits r → in_query_scope tools (candidate_query deps q) (sh_tool h).
Proof.
  intros Hdeps H h Hh.
  destruct (search_tools_run _ _ _ H) as (_ & raw & diags & p & dg & Hraw & _ & _ & E & _).
  rewrite E in Hh. apply elem_of_take_in in Hh. apply list_elem_of_filter in Hh as [_ Hh].
  by eapply raw_candidates_scoped.
Qed.

(** C35: the search tool discloses only what its caller may call.  Whatever the
    retrieval mode, the hits are the first [limit] (at most ten) of the
    candidates, in their order, that the policy does not deny; each is a
    published tool of the caller's tenant that the caller may discover and that
    passes the query's filters, and has its diagnostics. *)
Theorem search_tools_discloses_permitted tools deps q r :
  scoped_deps tools deps → search_tools deps q = Ok r →
  (1 <= stq_limit q <= 10)%Z ∧ (Z.of_nat (length (str_hits r)) <= stq_limit q)%Z ∧
  ∃ raw diagnostics principal digest,
    raw_candidates deps (stq_retrieval_mode q) (candidate_query deps q) = Ok (raw, diagnostics) ∧
    std_resolve_principal deps (stq_context q) = Ok principal ∧
    canonical_json_digest (JObj []) = Ok digest ∧
    let evaluate := std_evaluate_policy deps in
    let input_of := call_input (stq_context q) principal digest in
    str_hits r = take (Z.to_nat (stq_limit q))
                   (filter (λ h, permitted evaluate input_of h) raw) ∧
    ∀ h, h ∈ str_hits r →
      in_query_scope tools (candidate_query deps q) (sh_tool h) ∧
      ip_tenant_id principal = ctx_tenant_id (stq_context q) ∧
      (∃ d, evaluate (input_of h) = Ok d ∧ pd_effect d ≠ Deny) ∧
      ∃ d, dget (identity_of h) (str_diagnostics r) = Some d ∧
           dget (identity_of h) diagnostics = Some d.
Proof.
  intros Hdeps H.
  destruct (search_tools_run _ _ _ H) as (Hlim & raw & diags & p & dg & Hraw & Hp & Hd & E & Hh).
  split; [done|]. split; [rewrite E, length_take; lia|]. exists raw, diags, p, dg.
  do 2 (split; [done|]). split; [exact Hd|]. clear Hd. split; [exact E|].
  intros h Hin. destruct (Hh h Hin) as [Ht Hdiag]. split; [by eapply search_tools_scoped|].
  split; [done|]. split; [|done].
  rewrite E in Hin. apply elem_of_take_in in Hin. apply list_elem_of_filter in Hin as [Hperm _].
  apply permitted_inv. by apply Is_true_true.
Qed.

(** ** Examples *)

Module SearchExamples.
Definition ctx : ActorContext := mkActorContext "req" "trace" "tenant" "agent" "static" "agent_service".

Definition tool (id name display : string) (effect : ToolSideEffect) : PublishedTool :=
  mkPublishedTool id ("v-" +:+ id) "tenant" name display display
    [("type", JStr "object"); ("required", JArr [JStr "id"]);
     ("properties", JObj [("id", JObj [("type", JStr "string"); ("description", JStr " The  order ")])])]
    None 1 VisPublic effect "digest" None ["sales"].
Definition get_order := tool "t1" "orders.get" "Get order" ReadOnly.
Definition cancel_order := tool "t2" "orders.cancel" "Cancel order" NonIdempotentWrite.
Definition find_invoice := tool "t3" "billing.find" "Find invoice" ReadOnly.
Definition tools := [get_order; cancel_order; find_invoice].

Definition vector (a b : Q) : EmbeddingVector := mkVector "model" 2 [Some a; Some b].
Definition embedding (t : PublishedTool) (v : EmbeddingVector) : ToolSearchEmbedding :=
  mkEmbedding ("e-" +:+ pt_tool_id t) "tenant" (pt_tool_version_id t) "model" 2 "digest" v
    (Datetime 0 true).
Definition embeddings := [embedding get_order (vector 1 0); embedding find_invoice (vector 0 1)].

(** The distance of unit vectors of the plane: one minus their product. *)
Definition distance (v w : EmbeddingVector) : Q :=
  match vec_values v, vec_values w with
  | [Some a; Some b], [Some c; Some d] => (1 - (a * c + b * d))%Q
  | _, _ => 1%Q
  end.

Definition provider : EmbeddingProvider := mkProvider "model" 2 (λ texts, Ok (map (λ _, vector 0 1) texts)).
Definition hybrid (q : SearchPublishedToolsQuery) : res HybridSearchResult :=
  execute_detailed 60 true (lexical_ranking tools)
    (search_vector_tools provider (search_published_by_vector distance tools embeddings)) q.

(** [create_app]: the hybrid search serves both ports. *)
Definition deps : SearchToolsDeps :=
  mkSearchToolsDeps (lexical_ranking tools) (Some (λ q, let? r := hybrid q in Ok (hr_hits r)))
    (Some hybrid) (Some (index_version provider)) 4 context_principal
    (λ i, Ok (static_read_only i)).

Definition query (mode : ToolRetrievalMode) : SearchToolsQuery :=
  mkSearchToolsQuery ctx "order" mode 2 None None None.

Lemma deps_scoped : scoped_deps tools deps.
Proof.
  assert (H : ScopedSearch tools (λ q, let? r := hybrid q in Ok (hr_hits r)))
    by (apply execute_detailed_scoped; [apply _|apply search_vector_tools_scoped]).
  constructor; simpl; [apply _| |]; intros s [= <-]; exact H.
Qed.

Definition raw_hybrid_hits : list string :=
  match hybrid (candidate_query deps (query RetrievalHybrid)) with
  | Ok r => identity_of <$> hr_hits r | Raise _ => [] end.

(** The tool both strategies find comes first; the policy denies the
    one that writes. *)
Example hybrid_order : raw_hybrid_hits = ["v-t1"; "v-t3"; "v-t2"].
Proof. vm_compute. reflexivity. Qed.

Definition found (mode : ToolRetrievalMode) : res (list string) :=
  let? r := search_tools deps (query mode) in Ok (identity_of <$> str_hits r).
Lemma found_hybrid : found RetrievalHybrid = Ok ["v-t1"; "v-t3"].
Proof. vm_compute. reflexivity. Qed.
Example found_lexical : found RetrievalLexical = Ok ["v-t1"].
Proof. vm_compute. reflexivity. Qed.

(** A query text of the namespace filter with spaces around it: the keyword
    search strips it, the vector search does not, and finds nothing. *)
Definition spaced : SearchPublishedToolsQuery :=
  mkSearchQuery ctx "order" 10 (Some " orders ") None None.
Example namespace_stripped_in_one_strategy :
  (let? hits := lexical_ranking tools spaced in Ok (identity_of <$> hits)) = Ok ["v-t2"; "v-t1"] ∧
  search_vector_tools provider (search_published_by_vector distance tools embeddings) spaced
  = Ok (mkVectorResult [] 0 0).
Proof. split; vm_compute; reflexivity. Qed.

Example document :
  (let? d := build_document get_order in
   Ok (contains "Inputs: id (string, required): The order" (sd_content d))) = Ok true.
Proof. vm_compute. reflexivity. Qed.

(** Two rankings with a repeated row in the first: the tool of both comes
    first, and of the two tools that each ranking has first, the one with the
    smaller name would come second if the limit were greater. *)
Definition rankings : list (list ScoredHit) :=
  [map scored [mkHit get_order 5; mkHit get_order 5; mkHit cancel_order 5];
   [mkScored find_invoice (9 # 10); mkScored get_order (1 # 10)]].

Lemma rank_fusion_correct_witness :
  ∃ hits, fuse 60 rankings 2 = Ok hits ∧ (identity_of <$> hits) = ["v-t1"; "v-t3"] ∧
    StronglySorted (rrf_before 60 rankings) (identity_of <$> hits).
Proof.
  destruct (rank_fusion_correct 60 rankings 2) as (_ & Ha & Hall).
  destruct Ha as [hits H]; [done| |].
  { intros r Hr. repeat (apply elem_of_cons in Hr as [->|Hr]; [vm_compute; reflexivity|]).
    by apply not_elem_of_nil in Hr. }
  exists hits. split; [exact H|]. split; [|by destruct (Hall hits H) as (_ & ? & _)].
  vm_compute in H. injection H as <-. vm_compute. reflexivity.
Defined.

(** Positions 6 and 39 give as much as positions 12 and 28, as rationals; as
    doubles they do not. *)
Example float_ties :
  (1 # 66) + (1 # 99) == (1 # 72) + (1 # 88) ∧
  rrf_total 60 [Some 6%positive; Some 39%positive] ≠ rrf_total 60 [Some 12%positive; Some 28%positive].
Proof. by vm_compute. Qed.

(** A rank constant past the largest double: [OverflowError]. *)
Example divisor_overflow :
  fuse (Z.to_pos (2 ^ 1024)) rankings 2 = Raise OtherException.
Proof. vm_compute. reflexivity. Qed.

Lemma hybrid_diagnostics_explain_witness :
  ∃ r d, hybrid (candidate_query deps (query RetrievalHybrid)) = Ok r ∧
    dget "v-t1" (hr_diagnostics r) = Some d ∧ hd_vector_rank d = Some 2%positive.
Proof.
  destruct (hybrid (candidate_query deps (query RetrievalHybrid))) as [r|] eqn:E;
    [|vm_compute in E; discriminate].
  destruct (hybrid_diagnostics_explain _ _ _ _ _ _ E) as (l & v & El & Ev & Er & Hd).
  assert (Hin : ∃ hit, hit ∈ hr_hits r ∧ identity_of hit = "v-t1").
  { pose proof hybrid_order as Ho. unfold raw_hybrid_hits in Ho. rewrite E in Ho.
    destruct (hr_hits r) as [|h hs]; [done|]. exists h. split; [by left|]. by injection Ho. }
  destruct Hin as (hit & Hin & Hid). destruct (Hd hit Hin) as (d & Hget & _ & _ & Hv & _).
  rewrite Hid in Hget, Hv. exists r, d. split; [done|]. split; [done|].
  rewrite Hv. vm_compute in Ev. injection Ev as <-. vm_compute. reflexivity.
Defined.

Lemma search_tools_discloses_permitted_witness :
  ∃ r, search_tools deps (query RetrievalHybrid) = Ok r ∧
    (identity_of <$> str_hits r) = ["v-t1"; "v-t3"] ∧
    ∀ h, h ∈ str_hits r → pt_tenant_id (sh_tool h) = "tenant".
Proof.
  destruct (search_tools deps (query RetrievalHybrid)) as [r|] eqn:E.
  - exists r. split; [done|]. pose proof found_hybrid as F. unfold found in F. rewrite E in F.
    cbn [rbind] in F. injection F as F. split; [done|].
    destruct (search_tools_discloses_permitted tools deps _ r deps_scoped E)
      as (_ & _ & raw & di & p & dg & _ & _ & _ & _ & Hh).
    intros h Hin. destruct (Hh h Hin) as ((_ & T & _) & _). exact T.
  - pose proof found_hybrid as F. unfold found in F. rewrite E in F. discriminate.
Defined.
End SearchExamples.
