(* ===== verification/SearchIndex.v ===== *)
(** * The tool search index and its reindex jobs

    Models [modules/tool_search/reindex_tools.py], [index_management.py], the
    in-memory embedding repository ([adapters/in_memory.py]) and the
    transactions of the job store ([adapters/sqlalchemy_job_store.py], with the
    constraints of [sqlalchemy_models.py]).  The dictionary of embeddings is a
    [gmap]: its consumers build dictionaries from it, so the order of its
    entries does not matter.  The published tools are what the catalog reader
    returns; the embedding provider is an argument. *)

From Stdlib Require Import ZArith QArith Ascii Lia.
From stdpp Require Import base sets gmap strings option list pretty.
From S2P Require Import Prelude Text Dict Errors Json Store AuditTrail Url Catalog ToolSearch.
Open Scope py_scope.

(** ** Stores *)

(** [EmbeddingScope]: tenant, tool version, model and dimensions. *)
Abbreviation embedding_scope := (string * string * string * Z)%type.
Abbreviation embedding_index := (gmap embedding_scope ToolSearchEmbedding).

Inductive ToolSearchReindexJobStatus := JobPending | JobRunning | JobSucceeded | JobFailed.
#[export] Instance reindex_status_eq_dec : EqDecision ToolSearchReindexJobStatus.
Proof. solve_decision. Defined.

Record ToolSearchReindexJob := mkReindexJob {
  rj_id : string;
  rj_tenant_id : string;
  rj_requested_by : string;
  rj_status : ToolSearchReindexJobStatus;
  rj_force : bool;
  rj_batch_size : Z;
  rj_embedding_model : string;
  rj_embedding_dimensions : Z;
  rj_published_count : Z;
  rj_current_count : Z;
  rj_pending_count : Z;
  rj_embedded_count : Z;
  rj_batch_count : Z;
  rj_error_code : option string;
  rj_created_at : datetime;
  rj_started_at : option datetime;
  rj_finished_at : option datetime }.

Record search_db := mkSearchDb {
  db_index : embedding_index;
  db_jobs : dict ToolSearchReindexJob }.

#[export] Program Instance jobs_table : Table search_db ToolSearchReindexJob := {
  table := db_jobs;
  set_table t d := mkSearchDb (db_index d) t }.
Next Obligation. done. Qed.
Next Obligation. by intros []. Qed.
Next Obligation. done. Qed.

(** ** The embedding repository *)

Definition scope_of (tenant_id : string) (e : ToolSearchEmbedding) : embedding_scope :=
  (tenant_id, te_tool_version_id e, te_embedding_model e, te_embedding_dimensions e).

(** [InMemoryToolSearchEmbeddingRepository.list_by_tool_versions] *)
Definition list_by_tool_versions (tenant_id : string) (tool_version_ids : list string)
    (model : string) (dimensions : Z) (index : embedding_index) : list ToolSearchEmbedding :=
  snd <$> filter (λ row, let '(t, v, m, n) := fst row in
                         t = tenant_id ∧ v ∈ tool_version_ids ∧ m = model ∧ n = dimensions)
            (map_to_list index).

(** A stored row keeps its id; the rest is replaced. *)
Definition persisted (current : option ToolSearchEmbedding) (e : ToolSearchEmbedding) :
    res ToolSearchEmbedding :=
  match current with
  | None => Ok e
  | Some c => new_embedding (mkEmbedding (te_id c) (te_tenant_id e) (te_tool_version_id e)
                (te_embedding_model e) (te_embedding_dimensions e) (te_source_digest e)
                (te_vector e) (te_indexed_at e))
  end.

(** [InMemoryToolSearchEmbeddingRepository.upsert_many] *)
Fixpoint upsert_many (tenant_id : string) (embeddings : list ToolSearchEmbedding)
    (index : embedding_index) : res embedding_index :=
  match embeddings with
  | [] => Ok index
  | e :: rest =>
      raise_if (negb (bool_decide (te_tenant_id e = tenant_id)))
        (Nexus TenantBoundaryViolationError) ;;?
      let scope := scope_of tenant_id e in
      let? row := persisted (index !! scope) e in
      upsert_many tenant_id rest (<[scope := row]> index)
  end.

(** ** [ReindexTools] *)

Record ReindexToolsCommand := mkReindexCommand {
  rc_context : ActorContext;
  rc_batch_size : Z;
  rc_force : bool;
  rc_dry_run : bool }.

Record ReindexToolsResult := mkReindexResult {
  rr_published_count : Z;
  rr_current_count : Z;
  rr_pending_count : Z;
  rr_embedded_count : Z;
  rr_batch_count : Z;
  rr_model : string;
  rr_dimensions : Z;
  rr_dry_run : bool }.

(** The collaborators and the configuration; [published] is what the catalog
    reader holds. *)
Record Reindexer := mkReindexer {
  rx_published_tools : list PublishedTool;
  rx_embedding_provider : option EmbeddingProvider;
  rx_embedding_model : string;
  rx_embedding_dimensions : Z }.

(** [ReindexTools.__init__] *)
Definition new_reindexer (x : Reindexer) : res Reindexer :=
  raise_if (blank (rx_embedding_model x) || (rx_embedding_dimensions x <=? 0)%Z)
    (ValueError "reindex embedding configuration was invalid") ;;?
  raise_if (match rx_embedding_provider x with
            | None => false
            | Some p => negb (bool_decide (ep_model p = rx_embedding_model x))
                        || negb (ep_dimensions p =? rx_embedding_dimensions x)%Z
            end)
    (ValueError "embedding provider did not match reindex configuration") ;;?
  Ok x.

(** [sorted(tools, key=lambda item: item.canonical_name)] of the tenant's
    published tools. *)
Definition published_of (x : Reindexer) (tenant_id : string) : list PublishedTool :=
  sorted_by name_leb (list_published_by_tenant tenant_id (rx_published_tools x)).

Definition documents_of (x : Reindexer) (tenant_id : string) : res (list ToolSearchDocument) :=
  traverse build_document (published_of x tenant_id).

(** [{embedding.tool_version_id: embedding for embedding in embeddings}] *)
Definition by_version (embeddings : list ToolSearchEmbedding) : gmap string ToolSearchEmbedding :=
  foldl (λ d e, <[te_tool_version_id e := e]> d) ∅ embeddings.

Definition needs_indexing (force : bool) (existing : gmap string ToolSearchEmbedding)
    (d : ToolSearchDocument) : bool :=
  force || match existing !! sd_tool_version_id d with
           | None => true
           | Some e => negb (bool_decide (te_source_digest e = sd_source_digest d))
           end.

(** [pending[start : start + batch_size] for start in range(0, len(pending), batch_size)] *)
Fixpoint batches_fuel (fuel : nat) (size : nat) {A} (pending : list A) : list (list A) :=
  match fuel, pending with
  | S fuel', _ :: _ => take size pending :: batches_fuel fuel' size (drop size pending)
  | _, _ => []
  end.
Definition batches {A} (size : nat) (pending : list A) : list (list A) :=
  batches_fuel (length pending) size pending.

Section Reindex.
Context `{Ports}.

Definition read_index : M search_db embedding_index := λ s,
  match working s with
  | Some d => (Ok (db_index d), s)
  | None => (Raise uow_error, s)
  end.

Definition write_index (index : embedding_index) : M search_db unit := λ s,
  match working s with
  | Some d => (Ok tt, St (store s) (Some (mkSearchDb index (db_jobs d))) (environment s))
  | None => (Raise uow_error, s)
  end.

(** [_load_existing] *)
Definition load_existing (x : Reindexer) (tenant_id : string) (documents : list ToolSearchDocument) :
    M search_db (gmap string ToolSearchEmbedding) :=
  with_uow (
    let* index := read_index in
    ret (by_version (list_by_tool_versions tenant_id (sd_tool_version_id <$> documents)
           (rx_embedding_model x) (rx_embedding_dimensions x) index))).

Definition projection (x : Reindexer) (existing : gmap string ToolSearchEmbedding)
    (document : ToolSearchDocument) (vector : EmbeddingVector) : M search_db ToolSearchEmbedding :=
  let* id := match existing !! sd_tool_version_id document with
             | Some e => ret (te_id e)
             | None => new_id
             end in
  let* t := now in
  lift (new_embedding (mkEmbedding id (sd_tenant_id document) (sd_tool_version_id document)
          (rx_embedding_model x) (rx_embedding_dimensions x) (sd_source_digest document) vector t)).

Fixpoint projections (x : Reindexer) (existing : gmap string ToolSearchEmbedding)
    (rows : list (ToolSearchDocument * EmbeddingVector)) : M search_db (list ToolSearchEmbedding) :=
  match rows with
  | [] => ret []
  | (document, vector) :: rest =>
      let* e := projection x existing document vector in
      let* es := projections x existing rest in
      ret (e :: es)
  end.

(** The transaction that writes the rows of a batch. *)
Definition write_rows (tenant_id : string) (rows : list ToolSearchEmbedding) : M search_db unit :=
  with_uow (
    let* index := read_index in
    let* index' := lift (upsert_many tenant_id rows index) in
    write_index index' ;;*
    commit).

(** One turn of the loop over the batches. *)
Definition index_batch (x : Reindexer) (p : EmbeddingProvider) (tenant_id : string)
    (existing : gmap string ToolSearchEmbedding) (batch : list ToolSearchDocument) :
    M search_db unit :=
  let* vectors := lift (ep_embed p (sd_content <$> batch)) in
  lift (raise_if (negb (length vectors =? length batch)%nat) (Nexus EmbeddingResponseError)) ;;*
  let* rows := projections x existing (zip batch vectors) in
  write_rows tenant_id rows.

Fixpoint index_batches (x : Reindexer) (p : EmbeddingProvider) (tenant_id : string)
    (existing : gmap string ToolSearchEmbedding) (todo : list (list ToolSearchDocument))
    (batch_count embedded_count : Z) : M search_db (Z * Z) :=
  match todo with
  | [] => ret (batch_count, embedded_count)
  | batch :: rest =>
      index_batch x p tenant_id existing batch ;;*
      index_batches x p tenant_id existing rest (batch_count + 1)%Z
        (embedded_count + Z.of_nat (length batch))%Z
  end.

(** [ReindexTools.execute] *)
Definition reindex_tools (x : Reindexer) (c : ReindexToolsCommand) : M search_db ReindexToolsResult :=
  let tenant_id := ctx_tenant_id (rc_context c) in
  lift (raise_if (negb ((1 <=? rc_batch_size c)%Z && (rc_batch_size c <=? 64)%Z))
          (ValueError "reindex batch size must be between 1 and 64")) ;;*
  let* documents := lift (documents_of x tenant_id) in
  let* existing := load_existing x tenant_id documents in
  let pending := filter (λ d, needs_indexing (rc_force c) existing d) documents in
  let published_count := Z.of_nat (length documents) in
  let pending_count := Z.of_nat (length pending) in
  let result embedded_count batch_count dry_run :=
    mkReindexResult published_count (published_count - pending_count) pending_count
      embedded_count batch_count (rx_embedding_model x) (rx_embedding_dimensions x) dry_run in
  if rc_dry_run c || bool_decide (pending = []) then ret (result 0 0 (rc_dry_run c))%Z
  else
    match rx_embedding_provider x with
    | None => raise (Nexus EmbeddingUnavailableError)
    | Some p =>
        let* counts := index_batches x p tenant_id existing
                         (batches (Z.to_nat (rc_batch_size c)) pending) 0 0 in
        ret (result (snd counts) (fst counts) false)
    end.
End Reindex.

(** ** Inspection of the index *)

Inductive ToolSearchIndexState := IndexMissing | IndexStale | IndexCurrent.
#[export] Instance index_state_eq_dec : EqDecision ToolSearchIndexState.
Proof. solve_decision. Defined.

Record ToolSearchIndexItem := mkIndexItem {
  ii_tool_id : string;
  ii_tool_version_id : string;
  ii_canonical_name : string;
  ii_state : ToolSearchIndexState;
  ii_indexed_at : option datetime }.

Record ToolSearchIndexSnapshot := mkIndexSnapshot {
  ix_published_count : Z;
  ix_current_count : Z;
  ix_missing_count : Z;
  ix_stale_count : Z;
  ix_embedding_model : string;
  ix_embedding_dimensions : Z;
  ix_embedding_available : bool;
  ix_items : list ToolSearchIndexItem }.

Definition index_state (existing : gmap string ToolSearchEmbedding) (d : ToolSearchDocument) :
    ToolSearchIndexState :=
  match existing !! sd_tool_version_id d with
  | None => IndexMissing
  | Some e => if bool_decide (te_source_digest e = sd_source_digest d) then IndexCurrent
              else IndexStale
  end.

Definition index_item (existing : gmap string ToolSearchEmbedding)
    (row : PublishedTool * ToolSearchDocument) : ToolSearchIndexItem :=
  mkIndexItem (pt_tool_id (fst row)) (pt_tool_version_id (fst row)) (pt_canonical_name (fst row))
    (index_state existing (snd row))
    (te_indexed_at <$> existing !! sd_tool_version_id (snd row)).

Definition count_state (state : ToolSearchIndexState) (items : list ToolSearchIndexItem) : Z :=
  Z.of_nat (length (filter (λ i, ii_state i = state) items)).

Section Jobs.
Context `{Ports}.

(** [InspectToolSearchIndex.execute] *)
Definition inspect_index (x : Reindexer) (embedding_available : bool) (tenant_id : string) :
    M search_db ToolSearchIndexSnapshot :=
  let* documents := lift (documents_of x tenant_id) in
  let* existing := load_existing x tenant_id documents in
  let items := map (index_item existing) (zip (published_of x tenant_id) documents) in
  ret (mkIndexSnapshot (Z.of_nat (length items)) (count_state IndexCurrent items)
         (count_state IndexMissing items) (count_state IndexStale items)
         (rx_embedding_model x) (rx_embedding_dimensions x) embedding_available items).

(** ** The job store

    A transaction per operation; the row lock of [_locked_model] makes the
    others wait. *)

Definition active (j : ToolSearchReindexJob) : bool :=
  bool_decide (rj_status j = JobPending) || bool_decide (rj_status j = JobRunning).

Definition active_of (tenant_id : string) (j : ToolSearchReindexJob) : bool :=
  bool_decide (rj_tenant_id j = tenant_id) && active j.

(** [create]: the primary key and the partial unique index on active jobs
    raise SQLSTATE 23505, the check on the batch size another
    [IntegrityError]. *)
Definition store_create (j : ToolSearchReindexJob) : M search_db unit :=
  with_uow (
    let* jobs := read_table in
    lift (raise_if (negb ((1 <=? rj_batch_size j)%Z && (rj_batch_size j <=? 64)%Z)) OtherException) ;;*
    lift (raise_if (dmem (rj_id j) jobs
                    || (active j && existsb (active_of (rj_tenant_id j)) (dvalues jobs)))
            (Nexus ToolSearchReindexJobConflictError)) ;;*
    write_table (dset (rj_id j) j jobs) ;;*
    commit).

Definition locked_job (tenant_id job_id : string) (jobs : dict ToolSearchReindexJob) :
    option ToolSearchReindexJob :=
  match dget job_id jobs with
  | Some j => if bool_decide (rj_tenant_id j = tenant_id) then Some j else None
  | None => None
  end.

Definition store_get (tenant_id job_id : string) : M search_db (option ToolSearchReindexJob) :=
  with_uow (let* jobs := read_table in ret (locked_job tenant_id job_id jobs)).

(** The assignments of the four writers. *)
Definition started (t : datetime) (j : ToolSearchReindexJob) : ToolSearchReindexJob :=
  mkReindexJob (rj_id j) (rj_tenant_id j) (rj_requested_by j) JobRunning (rj_force j)
    (rj_batch_size j) (rj_embedding_model j) (rj_embedding_dimensions j) (rj_published_count j)
    (rj_current_count j) (rj_pending_count j) (rj_embedded_count j) (rj_batch_count j)
    (rj_error_code j) (rj_created_at j) (Some t) (rj_finished_at j).

Definition succeeded (r : ReindexToolsResult) (t : datetime) (j : ToolSearchReindexJob) :
    ToolSearchReindexJob :=
  mkReindexJob (rj_id j) (rj_tenant_id j) (rj_requested_by j) JobSucceeded (rj_force j)
    (rj_batch_size j) (rj_embedding_model j) (rj_embedding_dimensions j) (rr_published_count r)
    (rr_current_count r) (rr_pending_count r) (rr_embedded_count r) (rr_batch_count r)
    None (rj_created_at j) (rj_started_at j) (Some t).

Definition failed (error_code : string) (t : datetime) (j : ToolSearchReindexJob) :
    ToolSearchReindexJob :=
  mkReindexJob (rj_id j) (rj_tenant_id j) (rj_requested_by j) JobFailed (rj_force j)
    (rj_batch_size j) (rj_embedding_model j) (rj_embedding_dimensions j) (rj_published_count j)
    (rj_current_count j) (rj_pending_count j) (rj_embedded_count j) (rj_batch_count j)
    (Some error_code) (rj_created_at j) (rj_started_at j) (Some t).

(** [claim] *)
Definition store_claim (tenant_id job_id : string) (started_at : datetime) :
    M search_db (option ToolSearchReindexJob) :=
  with_uow (
    let* jobs := read_table in
    match locked_job tenant_id job_id jobs with
    | None => ret None
    | Some j =>
        if negb (bool_decide (rj_status j = JobPending)) then ret None
        else
          let j' := started started_at j in
          write_table (dset job_id j' jobs) ;;*
          commit ;;*
          ret (Some j')
    end).

(** [succeed] and [fail]: whatever the status of the job. *)
Definition store_update (tenant_id job_id : string)
    (assign : ToolSearchReindexJob → ToolSearchReindexJob) : M search_db unit :=
  with_uow (
    let* jobs := read_table in
    match locked_job tenant_id job_id jobs with
    | None => ret tt
    | Some j => write_table (dset job_id (assign j) jobs) ;;* commit
    end).

Definition store_succeed (tenant_id job_id : string) (r : ReindexToolsResult) (t : datetime) :
    M search_db unit := store_update tenant_id job_id (succeeded r t).
Definition store_fail (tenant_id job_id error_code : string) (t : datetime) :
    M search_db unit := store_update tenant_id job_id (failed error_code t).

(** [recover_interrupted] *)
Definition recovered (tenant_id : string) (t : datetime) (j : ToolSearchReindexJob) :
    ToolSearchReindexJob :=
  if active_of tenant_id j then failed "reindex_job_interrupted" t j else j.

Definition recover_interrupted (tenant_id : string) (finished_at : datetime) : M search_db Z :=
  with_uow (
    let* jobs := read_table in
    let recovered_count := Z.of_nat (length (filter (λ j, active_of tenant_id j) (dvalues jobs))) in
    write_table (map (λ row, (fst row, recovered tenant_id finished_at (snd row))) jobs) ;;*
    commit ;;*
    ret recovered_count).

(** [list_recent]: the newest first, by creation time and id. *)
Definition recent_leb : ToolSearchReindexJob → ToolSearchReindexJob → bool :=
  then_by (λ a b, (dt_micros (rj_created_at b) <=? dt_micros (rj_created_at a))%Z)
    (λ a b, str_leb (rj_id b) (rj_id a)).

Definition list_recent (tenant_id : string) (offset limit : nat) :
    M search_db (list ToolSearchReindexJob * Z) :=
  with_uow (
    let* jobs := read_table in
    let mine := filter (λ j, rj_tenant_id j = tenant_id) (dvalues jobs) in
    ret (take limit (drop offset (sorted_by recent_leb mine)), Z.of_nat (length mine))).

(** ** The job use cases *)

(** [CreateToolSearchReindexJob.execute] *)
Definition create_reindex_job (model : string) (dimensions : Z) (embedding_available : bool)
    (ctx : ActorContext) (force : bool) (batch_size : Z) : M search_db ToolSearchReindexJob :=
  lift (raise_if (negb embedding_available) (Nexus EmbeddingUnavailableError)) ;;*
  lift (raise_if (negb ((1 <=? batch_size)%Z && (batch_size <=? 64)%Z))
          (ValueError "reindex job batch size must be between 1 and 64")) ;;*
  let* id := new_id in
  let* t := now in
  let job := mkReindexJob id (ctx_tenant_id ctx) (ctx_principal_id ctx) JobPending force batch_size
               model dimensions 0 0 0 0 0 None t None None in
  store_create job ;;*
  ret job.

(** [job.id.replace("-", "")] *)
Fixpoint without_dashes (s : string) : string :=
  match s with
  | EmptyString => EmptyString
  | String c s' => if (c =? "-")%char then without_dashes s' else String c (without_dashes s')
  end.

(** [RunToolSearchReindexJob.execute] *)
Definition job_command (job : ToolSearchReindexJob) : ReindexToolsCommand :=
  mkReindexCommand
    (mkActorContext (rj_id job) (without_dashes (rj_id job)) (rj_tenant_id job)
       (rj_requested_by job) "admin_background_job" "agent_service")
    (rj_batch_size job) (rj_force job) false.

Definition job_error_code (error : exn) : string :=
  match error with Nexus e => error_code e | _ => "internal_error" end.

Definition run_reindex_job (x : Reindexer) (tenant_id job_id : string) : M search_db unit :=
  let* started_at := now in
  let* claimed := store_claim tenant_id job_id started_at in
  match claimed with
  | None => ret tt
  | Some job =>
      let* outcome := capture (reindex_tools x (job_command job)) in
      match outcome with
      | Ok result =>
          let* t := now in
          store_succeed tenant_id job_id result t
      | Raise error =>
          if is_exception error then
            let* t := now in
            store_fail tenant_id job_id (job_error_code error) t
          else raise error
      end
  end.

(** [GetToolSearchReindexJob.execute] *)
Definition get_reindex_job (tenant_id job_id : string) : M search_db ToolSearchReindexJob :=
  let* found := store_get tenant_id job_id in
  match found with
  | Some j => ret j
  | None => raise (Nexus ToolSearchReindexJobNotFoundError)
  end.
End Jobs.

(** ** The batches *)

Lemma batches_fuel_concat {A} size fuel (l : list A) :
  (0 < size)%nat → (length l <= fuel)%nat → concat (batches_fuel fuel size l) = l.
Proof.
  intros Hs. revert l. induction fuel as [|fuel IH]; intros l Hl.
  { by destruct l; simpl in *; [|lia]. }
  destruct l as [|a l]; [done|]. cbn [batches_fuel concat].
  rewrite IH; [apply take_drop|]. rewrite length_drop. simpl in *. lia.
Qed.

Lemma batches_concat {A} size (l : list A) : (0 < size)%nat → concat (batches size l) = l.
Proof. intros. by apply batches_fuel_concat. Qed.

Lemma batches_length {A} size (l : list A) batch :
  (0 < size)%nat → batch ∈ batches size l → (1 <= length batch <= size)%nat.
Proof.
  intros Hs. unfold batches. generalize (length l). intros fuel. revert l.
  induction fuel as [|fuel IH]; intros [|a l]; cbn [batches_fuel]; try by intros ?%not_elem_of_nil.
  intros [->|Hb]%elem_of_cons; [|by eapply IH]. rewrite length_take. cbn [length]. lia.
Qed.

(** As many as the batches it takes: [ceil(len / size)]. *)
Lemma batches_fuel_count {A} size fuel (l : list A) :
  (0 < size)%nat → (length l <= fuel)%nat →
  let n := Z.of_nat (length (batches_fuel fuel size l)) in
  ((n - 1) * Z.of_nat size < Z.of_nat (length l) ∨ n = 0)%Z ∧
  (Z.of_nat (length l) <= n * Z.of_nat size)%Z.
Proof.
  intros Hs. revert l. induction fuel as [|fuel IH]; intros l Hl.
  { destruct l; simpl in *; lia. }
  destruct l as [|a l]; [simpl; lia|]. cbn [batches_fuel length].
  specialize (IH (drop size (a :: l))). rewrite length_drop in IH. cbn [length] in *.
  destruct IH as [IH1 IH2]; [lia|]. cbv zeta in *.
  set (n := length (batches_fuel _ _ _)) in *. clearbody n.
  rewrite Nat2Z.inj_succ. unfold Z.succ. set (b := Z.of_nat n) in *.
  assert (0 <= b)%Z by lia. clearbody b.
  destruct (Z.eq_dec b 0%Z) as [->|]; [lia|].
  destruct IH1 as [IH1|]; [|done]. assert (0 <= (b - 1) * Z.of_nat size)%Z by nia.
  split; [left|]; lia.
Qed.

Lemma batches_nonempty {A} size (l : list A) b :
  (0 < size)%nat → b ∈ batches size l → (0 < length b <= size)%nat.
Proof.
  intros Hs. unfold batches. generalize (length l). intros fuel. revert l.
  induction fuel as [|fuel IH]; intros l; [by intros ?%not_elem_of_nil|].
  destruct l as [|a l]; [by intros ?%not_elem_of_nil|]. cbn [batches_fuel].
  rewrite elem_of_cons. intros [->|?]; [|eauto]. rewrite length_take. simpl. lia.
Qed.

(** ** The repository *)

(** What a row of the index says: everything but its id and its time. *)
Definition same_content (a b : ToolSearchEmbedding) : Prop :=
  te_tenant_id a = te_tenant_id b ∧ te_tool_version_id a = te_tool_version_id b ∧
  te_embedding_model a = te_embedding_model b ∧
  te_embedding_dimensions a = te_embedding_dimensions b ∧
  te_source_digest a = te_source_digest b ∧ te_vector a = te_vector b ∧
  te_indexed_at a = te_indexed_at b.

(** The index invariant: every row is a valid embedding under its scope. *)
Definition index_ok (index : embedding_index) : Prop :=
  ∀ scope e, index !! scope = Some e →
    scope = scope_of (te_tenant_id e) e ∧ new_embedding e = Ok e.

Lemma new_embedding_Ok e e' : new_embedding e = Ok e' → e' = e.
Proof. unfold new_embedding. intros H. guards H. by simplify_eq. Qed.

Lemma persisted_Ok current e row :
  persisted current e = Ok row → same_content row e ∧
  te_id row = from_option te_id (te_id e) current ∧
  (new_embedding e = Ok e → new_embedding row = Ok row).
Proof.
  unfold persisted. destruct current as [c|]; intros H; [|by simplify_eq].
  pose proof (new_embedding_Ok _ _ H) as ->. by split_and!.
Qed.

Lemma upsert_many_frame tenant es : ∀ index index',
  upsert_many tenant es index = Ok index' →
  (∀ e, e ∈ es → te_tenant_id e = tenant) ∧
  ∀ scope, scope ∉ (scope_of tenant <$> es) → index' !! scope = index !! scope.
Proof.
  induction es as [|e es IH]; intros index index' H; simpl in H.
  { simplify_eq. split; [by intros ? ?%not_elem_of_nil|done]. }
  apply rbind_Ok_inv in H as (u & Ht & H). apply rbind_Ok_inv in H as (row & _ & H).
  rewrite raise_if_Ok in Ht. destruct (IH _ _ H) as [IH1 IH2]. py_bools. split.
  - intros ?. rewrite elem_of_cons. intros [->|?]; auto.
  - intros scope. rewrite fmap_cons, not_elem_of_cons. intros [? ?].
    rewrite IH2 by done. by apply lookup_insert_ne.
Qed.

(** Every row written is there, under the id its scope had. *)
Lemma upsert_many_get tenant es : ∀ index index',
  NoDup (scope_of tenant <$> es) → upsert_many tenant es index = Ok index' →
  ∀ e, e ∈ es → ∃ row, index' !! scope_of tenant e = Some row ∧ same_content row e ∧
    te_id row = from_option te_id (te_id e) (index !! scope_of tenant e).
Proof.
  induction es as [|e es IH]; intros index index' Hn H; [by intros ? ?%not_elem_of_nil|].
  rewrite fmap_cons, NoDup_cons in Hn. destruct Hn as [He Hn]. cbn [upsert_many] in H.
  apply rbind_Ok_inv in H as (u & Ht & H). apply rbind_Ok_inv in H as (row & Hrow & H).
  intros e'. rewrite elem_of_cons. intros [->|Hin].
  - exists row. destruct (persisted_Ok _ _ _ Hrow) as (Hc & Hid & _).
    rewrite (proj2 (upsert_many_frame _ _ _ _ H) _ He), lookup_insert. by rewrite decide_True.
  - destruct (IH _ _ Hn H e' Hin) as (row' & Hget & Hc & Hid). exists row'.
    rewrite lookup_insert_ne in Hid; [done|]. intros Eq. apply He. rewrite Eq.
    by apply list_elem_of_fmap_2.
Qed.

Lemma upsert_many_ok tenant es : ∀ index index',
  (∀ e, e ∈ es → new_embedding e = Ok e) → index_ok index →
  upsert_many tenant es index = Ok index' → index_ok index'.
Proof.
  induction es as [|e es IH]; intros index index' Hes Hok H; simpl in H; [by simplify_eq|].
  apply rbind_Ok_inv in H as (u & Ht & H). apply rbind_Ok_inv in H as (row & Hrow & H).
  rewrite raise_if_Ok in Ht. py_bools.
  eapply IH; [intros; apply Hes; by right| |exact H].
  destruct (persisted_Ok _ _ _ Hrow) as ((E1 & E2 & E3 & E4 & _) & _ & Hv).
  intros scope e'. rewrite lookup_insert. case_decide as Es; [|apply Hok].
  intros [= <-]. subst scope. split; [|apply Hv, Hes; by left].
  unfold scope_of. by rewrite E1, E2, E3, E4, Ht.
Qed.

Lemma by_version_get es : ∀ (d : gmap string ToolSearchEmbedding) v e,
  (∀ a b, a ∈ es → b ∈ es → te_tool_version_id a = te_tool_version_id b → a = b) →
  foldl (λ d e, <[te_tool_version_id e := e]> d) d es !! v = Some e ↔
  (e ∈ es ∧ te_tool_version_id e = v) ∨
  (d !! v = Some e ∧ ∀ a, a ∈ es → te_tool_version_id a ≠ v).
Proof.
  induction es as [|a es IH]; intros d v e Hinj; simpl.
  { split; [|intros [[?%not_elem_of_nil _]|[? _]]; done].
    intros. right. split; [done|]. by intros ? ?%not_elem_of_nil. }
  rewrite IH by (intros; apply Hinj; [by right|by right|done]).
  setoid_rewrite elem_of_cons. rewrite lookup_insert. split.
  - intros [[? ?]|[Hd Hes]]; [auto|]. case_decide as Ea.
    + left. simplify_eq. auto.
    + right. split; [done|]. intros b [->|?]; auto.
  - intros [[[->|?] Hv]|[Hd Hes]].
    + destruct (decide (te_tool_version_id a ∈ te_tool_version_id <$> es)) as [Ha|Ha].
      * apply list_elem_of_fmap in Ha as (b & Eb & Hb). left.
        rewrite (Hinj a b); [by rewrite <-Eb|by left|by right|done].
      * right. rewrite decide_True by done. split; [done|].
        intros b Hb Eb. apply Ha. rewrite Hv, <-Eb. by apply list_elem_of_fmap_2.
    + by left.
    + right. rewrite decide_False by (apply Hes; by left). split; [done|auto].
Qed.

(** The rows a run or an inspection starts from: those of its documents. *)
Lemma existing_get x tenant ids index v e :
  index_ok index →
  by_version (list_by_tool_versions tenant ids (rx_embedding_model x) (rx_embedding_dimensions x) index)
    !! v = Some e ↔
  v ∈ ids ∧ index !! (tenant, v, rx_embedding_model x, rx_embedding_dimensions x) = Some e.
Proof.
  intros Hok.
  assert (Hin : ∀ a, a ∈ list_by_tool_versions tenant ids (rx_embedding_model x)
                           (rx_embedding_dimensions x) index ↔
    te_tool_version_id a ∈ ids ∧
    index !! (tenant, te_tool_version_id a, rx_embedding_model x, rx_embedding_dimensions x) = Some a).
  { intros a. unfold list_by_tool_versions. rewrite list_elem_of_fmap. split.
    - intros ([[[[t w] m] n] b] & -> & Hb). simpl.
      apply list_elem_of_filter in Hb as [(-> & ? & -> & ->) Hb]. apply elem_of_map_to_list in Hb.
      destruct (Hok _ _ Hb) as [[= _ Ew _ _] _]. subst w. by split.
    - intros [? Hg]. eexists (_, a). split; [done|]. apply list_elem_of_filter.
      split; [|by apply elem_of_map_to_list]. by split_and!. }
  unfold by_version. rewrite by_version_get.
  - rewrite lookup_empty, Hin. split.
    + intros [[[? ?] <-]|[? _]]; done.
    + intros [Hv Hg]. left. destruct (Hok _ _ Hg) as [[= _ Ev _ _] _]. subst v. by split.
  - intros a b Ha Hb Eab. apply Hin in Ha as [_ Ha], Hb as [_ Hb]. rewrite Eab in Ha. congruence.
Qed.

(** ** A run *)

Section Runs.
Context `{Ports} (x : Reindexer).

Definition doc_scope (d : ToolSearchDocument) : embedding_scope :=
  (sd_tenant_id d, sd_tool_version_id d, rx_embedding_model x, rx_embedding_dimensions x).

(** The index has the document's text. *)
Definition current (index : embedding_index) (d : ToolSearchDocument) : Prop :=
  ∃ e, index !! doc_scope d = Some e ∧ te_source_digest e = sd_source_digest d.

(** What a run may do to the index, whatever its outcome: the rows it changes
    are those of its documents and then current; no row disappears or changes
    its id. *)
Definition touched (docs : list ToolSearchDocument) (index index' : embedding_index) : Prop :=
  (∀ scope, index' !! scope = index !! scope ∨
     ∃ d, d ∈ docs ∧ scope = doc_scope d ∧ current index' d) ∧
  ∀ scope e, index !! scope = Some e → ∃ e', index' !! scope = Some e' ∧ te_id e' = te_id e.

Lemma touched_refl docs index : touched docs index index.
Proof. split; [by left|eauto]. Qed.

Lemma touched_trans docs docs' index index1 index2 :
  touched docs index index1 → touched docs' index1 index2 → touched (docs ++ docs') index index2.
Proof.
  intros [Ha Hia] [Hb Hib]. split.
  - intros scope. destruct (Hb scope) as [Eb|(d & Hd & -> & Hc)].
    + rewrite Eb. destruct (Ha scope) as [?|(d & Hd & -> & Hc)]; [by left|]. right.
      exists d. split_and!; [apply elem_of_app; by left|done|]. unfold current. by rewrite Eb.
    + right. exists d. split_and!; [apply elem_of_app; by right|done|done].
  - intros scope e He. destruct (Hia _ _ He) as (e1 & He1 & <-). eauto.
Qed.

Definition projects (row : ToolSearchDocument * EmbeddingVector) (e : ToolSearchEmbedding) : Prop :=
  new_embedding e = Ok e ∧ scope_of (te_tenant_id e) e = doc_scope (fst row) ∧
  te_source_digest e = sd_source_digest (fst row) ∧ te_vector e = snd row.

Lemma projection_spec existing d v s r s' :
  projection x existing d v s = (r, s') →
  store s' = store s ∧ working s' = working s ∧ ∀ e, r = Ok e → projects (d, v) e.
Proof.
  unfold projection. intros Hr.
  apply bind_inv in Hr as [(id & s1 & Hid & Hr)|(y & Hid & ->)].
  - assert (store s1 = store s ∧ working s1 = working s) as [<- <-]
      by (destruct (existing !! _); unfold ret, new_id in Hid; by simplify_eq/=).
    apply bind_inv in Hr as [(t & s2 & Ht & Hr)|(y & Ht & ->)].
    + unfold now in Ht. simplify_eq/=. unfold lift in Hr. simplify_eq. split_and!; [done|done|].
      intros e He. pose proof (new_embedding_Ok _ _ He) as ->. split_and!; done.
    + unfold now in Ht. by simplify_eq.
  - destruct (existing !! _); unfold ret, new_id in Hid; by simplify_eq.
Qed.

Lemma projections_spec existing rows : ∀ s r s',
  projections x existing rows s = (r, s') →
  store s' = store s ∧ working s' = working s ∧ ∀ es, r = Ok es → Forall2 projects rows es.
Proof.
  induction rows as [|[d v] rows IH]; intros s r s' Hr; simpl in Hr.
  { unfold ret in Hr. simplify_eq. split_and!; [done|done|]. intros. by simplify_eq. }
  apply bind_inv in Hr as [(e & s1 & He & Hr)|(y & He & ->)].
  - apply projection_spec in He as (<- & <- & Hp).
    apply bind_inv in Hr as [(es & s2 & Hes & Hr)|(y & Hes & ->)];
      apply IH in Hes as (<- & <- & Hps); [|by split_and!].
    unfold ret in Hr. simplify_eq. split_and!; [done|done|]. intros. simplify_eq.
    constructor; auto.
  - apply projection_spec in He as (? & ? & _). by split_and!.
Qed.


Lemma write_rows_spec tenant rows d e r s' :
  write_rows tenant rows (St d None e) = (r, s') →
  (∃ index', r = Ok tt ∧ upsert_many tenant rows (db_index d) = Ok index' ∧
     s' = St (mkSearchDb index' (db_jobs d)) None e) ∨
  (∃ y, r = Raise y ∧ s' = St d None e).
Proof.
  unfold write_rows, with_uow, bind, read_index, lift, write_index, commit. simpl.
  destruct (upsert_many tenant rows (db_index d)) as [index'|y]; simpl; intros; simplify_eq; eauto.
Qed.

Lemma projected_scopes rows es tenant :
  Forall2 projects rows es → (∀ row, row ∈ rows → sd_tenant_id (fst row) = tenant) →
  (∀ e, e ∈ es → new_embedding e = Ok e) ∧
  scope_of tenant <$> es = doc_scope ∘ fst <$> rows ∧
  ∀ row, row ∈ rows → ∃ e, e ∈ es ∧ scope_of tenant e = doc_scope (fst row) ∧
    te_source_digest e = sd_source_digest (fst row) ∧ te_vector e = snd row.
Proof.
  intros Hes Ht. induction Hes as [|row e rows es (Hok & Hs & Hd & Hv) _ IH].
  { split_and!; [by intros ? ?%not_elem_of_nil|done|by intros ? ?%not_elem_of_nil]. }
  destruct IH as (IH1 & IH2 & IH3); [intros; apply Ht; by right|].
  assert (Hsc : scope_of tenant e = doc_scope (fst row)).
  { rewrite <-Hs. unfold scope_of. unfold scope_of, doc_scope in Hs. injection Hs as Et _ _ _.
    rewrite (Ht row) in Et by (by left). by rewrite Et. }
  split_and!.
  - intros e'. rewrite elem_of_cons. intros [->|?]; auto.
  - rewrite !fmap_cons, IH2. by rewrite Hsc.
  - intros row'. rewrite elem_of_cons. intros [->|Hin].
    + exists e. split_and!; [by left|done|done|done].
    + destruct (IH3 _ Hin) as (e' & ? & ? & ? & ?). exists e'. split_and!; [by right|done|done|done].
Qed.

Lemma doc_scope_inj d1 d2 : doc_scope d1 = doc_scope d2 → sd_tool_version_id d1 = sd_tool_version_id d2.
Proof. by intros [= _ ?]. Qed.

(** What a run owes for the documents it was given: nothing but their rows
    change and, where it succeeds, they are all current. *)
Definition indexes (tenant_id : string) (docs : list ToolSearchDocument) {A} (d d' : search_db)
    (r : res A) : Prop :=
  db_jobs d' = db_jobs d ∧ touched docs (db_index d) (db_index d') ∧
  (index_ok (db_index d) → index_ok (db_index d')) ∧
  ((∀ a, r = Ok a → ∀ doc, doc ∈ docs → current (db_index d') doc)).

Lemma indexes_raise tenant docs {A} (d : search_db) y : indexes tenant docs d d (Raise y : res A).
Proof. split_and!; [done|apply touched_refl|done|done]. Qed.

(** The provider was asked once for each batch, and the row of each of its
    documents has the document's digest and the vector of the answer at the
    document's place. *)
Definition served (p : EmbeddingProvider) (todo : list (list ToolSearchDocument))
    (index : embedding_index) : Prop :=
  ∀ batch, batch ∈ todo → ∃ vectors, ep_embed p (sd_content <$> batch) = Ok vectors ∧
    Forall2 (λ doc vector, ∃ e, index !! doc_scope doc = Some e ∧
               te_source_digest e = sd_source_digest doc ∧ te_vector e = vector) batch vectors.

Lemma Forall2_zip_rows {A B} (P : A → B → Prop) l : ∀ k,
  length l = length k → (∀ row, row ∈ zip l k → P (fst row) (snd row)) → Forall2 P l k.
Proof.
  induction l as [|a l IH]; intros [|b k] Hl Hz; try done. constructor.
  - apply (Hz (a, b)). by left.
  - apply IH; [simpl in Hl; lia|]. intros row Hrow. apply Hz. by right.
Qed.

Lemma index_batch_spec p tenant existing batch d e r s' :
  (∀ doc, doc ∈ batch → sd_tenant_id doc = tenant) → NoDup (sd_tool_version_id <$> batch) →
  index_batch x p tenant existing batch (St d None e) = (r, s') →
  ∃ d' e', s' = St d' None e' ∧ indexes tenant batch d d' r ∧
    ∀ a, r = Ok a → served p [batch] (db_index d').
Proof.
  intros Htenant Hnodup. unfold index_batch. intros Hr.
  assert (Hno : ∀ y e2, ∃ d' e', St d None e2 = St d' None e' ∧
    indexes tenant batch d d' (Raise y : res unit) ∧
    ∀ a, (Raise y : res unit) = Ok a → served p [batch] (db_index d')).
  { intros y e2. exists d, e2. split; [done|]. by split; [apply indexes_raise|]. }
  apply bind_inv in Hr as [(vectors & s1 & Hv & Hr)|(y & Hv & ->)];
    apply lift_inv in Hv as [Hv ->]; [|apply Hno].
  apply bind_inv in Hr as [(? & s2 & Hl & Hr)|(y & Hl & ->)];
    apply lift_inv in Hl as [Hl ->]; [|apply Hno].
  symmetry in Hl. rewrite raise_if_Ok in Hl. py_bools. apply Nat.eqb_eq in Hl.
  apply bind_inv in Hr as [(rows & [c w e1] & Hp & Hr)|(y & Hp & ->)].
  - apply projections_spec in Hp as (Hc & Hw & Hrows). simpl in *. subst c w.
    specialize (Hrows _ eq_refl).
    assert (Hfst : ∀ {B} (f : ToolSearchDocument → B), f ∘ fst <$> zip batch vectors = f <$> batch).
    { intros B f. rewrite <-(fst_zip batch vectors) at 2 by lia. by rewrite <-list_fmap_compose. }
    destruct (projected_scopes _ _ tenant Hrows) as (Hok & Hscopes & Hcur).
    { intros row Hrow. apply Htenant. rewrite <-(list_fmap_id batch), <-(Hfst _ id).
      by apply (list_elem_of_fmap_2 (id ∘ fst)). }
    rewrite Hfst in Hscopes.
    apply write_rows_spec in Hr as [(index' & -> & Hu & ->)|(y & -> & ->)]; [|apply Hno].
    eexists _, _. split; [done|]. simpl.
    assert (Hn : NoDup (scope_of tenant <$> rows)).
    { rewrite Hscopes.
      eapply (NoDup_fmap_1 (λ sc : embedding_scope, sc.1.1.2)). by rewrite <-list_fmap_compose. }
    assert (Hserved : ∀ row, row ∈ zip batch vectors → ∃ e', index' !! doc_scope (fst row) = Some e' ∧
      te_source_digest e' = sd_source_digest (fst row) ∧ te_vector e' = snd row).
    { intros row Hrow. destruct (Hcur row Hrow) as (e' & He' & Hsc & Hdig & Hvec).
      destruct (upsert_many_get _ _ _ _ Hn Hu e' He')
        as (row' & Hget & (_ & _ & _ & _ & Hd & Hv' & _) & _).
      exists row'. rewrite <-Hsc. split; [done|]. split; congruence. }
    assert (Hdocs : ∀ doc, doc ∈ batch → current index' doc).
    { intros doc Hdoc. rewrite <-(list_fmap_id batch), <-(Hfst _ id) in Hdoc.
      apply list_elem_of_fmap in Hdoc as (row & -> & Hrow). simpl.
      destruct (Hserved row Hrow) as (e' & ? & ? & _). by exists e'. }
    split; cycle 1.
    { intros _ _ b ->%list_elem_of_singleton. exists vectors. split; [by symmetry|].
      by apply Forall2_zip_rows. }
    split_and!; simpl; [done| |intros; by eapply upsert_many_ok|auto].
    split.
    + intros scope. destruct (decide (scope ∈ doc_scope <$> batch)) as [Hin|Hout].
      * right. apply list_elem_of_fmap in Hin as (doc & -> & Hdoc). eauto.
      * left. rewrite <-Hscopes in Hout. by apply (upsert_many_frame _ _ _ _ Hu).
    + intros scope e' He'. destruct (decide (scope ∈ scope_of tenant <$> rows)) as [Hin|Hout].
      * apply list_elem_of_fmap in Hin as (e2 & -> & He2).
        destruct (upsert_many_get _ _ _ _ Hn Hu e2 He2) as (row & Hget & _ & Hid).
        exists row. split; [done|]. by rewrite Hid, He'.
      * rewrite (proj2 (upsert_many_frame _ _ _ _ Hu)) by done. eauto.
  - apply projections_spec in Hp as (Hc & Hw & _). destruct s' as [c w e1]. simpl in *. subst.
    apply Hno.
Qed.

Lemma touched_weaken docs docs' index index' :
  (∀ doc, doc ∈ docs → doc ∈ docs') → touched docs index index' → touched docs' index index'.
Proof.
  intros Hs [Ht Hi]. split; [|done]. intros scope.
  destruct (Ht scope) as [?|(doc & ? & ? & ?)]; [by left|]. right. exists doc. auto.
Qed.

(** Rows that stand outlive a run over other documents. *)
Lemma untouched_row docs docs' index index' doc :
  NoDup (sd_tool_version_id <$> docs ++ docs') → touched docs' index index' → doc ∈ docs →
  index' !! doc_scope doc = index !! doc_scope doc.
Proof.
  intros Hn [Ht _] Hdoc. destruct (Ht (doc_scope doc)) as [E|(doc' & Hdoc' & Hs%doc_scope_inj & _)]; [done|].
  exfalso. rewrite fmap_app in Hn. apply NoDup_app in Hn as (_ & Hn & _).
  apply (Hn (sd_tool_version_id doc)); [by apply list_elem_of_fmap_2|].
  rewrite Hs. by apply list_elem_of_fmap_2.
Qed.

Lemma indexes_app tenant docs docs' {A} (d d1 d' : search_db) (r : res A) :
  NoDup (sd_tool_version_id <$> docs ++ docs') →
  indexes tenant docs d d1 (Ok tt : res unit) → indexes tenant docs' d1 d' r →
  indexes tenant (docs ++ docs') d d' r.
Proof.
  intros Hn (Hj & Ht & Ho & Hc) (Hj' & Ht' & Ho' & Hc').
  split_and!; [congruence|by eapply touched_trans|auto|].
  intros a Ha doc [Hdoc|Hdoc]%elem_of_app; [|by eapply Hc'].
  destruct (Hc tt eq_refl doc Hdoc) as (e & He & Hd). exists e.
  by rewrite (untouched_row _ _ _ _ _ Hn Ht' Hdoc).
Qed.

Lemma Forall2_impl_in {A B} (P Q : A → B → Prop) l k :
  Forall2 P l k → (∀ a b, a ∈ l → P a b → Q a b) → Forall2 Q l k.
Proof.
  induction 1 as [|a b l k Hab _ IH]; intros Hpq; constructor.
  - apply Hpq; [by left|done].
  - apply IH. intros. apply Hpq; [by right|done].
Qed.

Lemma served_outlives p batch docs' index index' :
  NoDup (sd_tool_version_id <$> batch ++ docs') → touched docs' index index' →
  served p [batch] index → served p [batch] index'.
Proof.
  intros Hn Ht Hs b ->%list_elem_of_singleton. destruct (Hs batch) as (vectors & Ev & Hf); [by left|].
  exists vectors. split; [done|]. eapply Forall2_impl_in; [exact Hf|]. intros doc v Hdoc.
  by rewrite (untouched_row _ _ _ _ _ Hn Ht Hdoc).
Qed.

Lemma served_cons p batch todo index :
  served p [batch] index → served p todo index → served p (batch :: todo) index.
Proof. intros H1 H2 b [->|Hb]%elem_of_cons; [apply H1; by left|by apply H2]. Qed.

Lemma index_batches_spec p tenant existing todo : ∀ d e bc ec r s',
  (∀ doc, doc ∈ concat todo → sd_tenant_id doc = tenant) →
  NoDup (sd_tool_version_id <$> concat todo) →
  index_batches x p tenant existing todo bc ec (St d None e) = (r, s') →
  ∃ d' e', s' = St d' None e' ∧ indexes tenant (concat todo) d d' r ∧
    ∀ counts, r = Ok counts →
      counts = (bc + Z.of_nat (length todo), ec + Z.of_nat (length (concat todo)))%Z ∧
      served p todo (db_index d').
Proof.
  induction todo as [|batch todo IH]; intros d e bc ec r s' Htenant Hn Hr.
  { unfold index_batches, ret in Hr. simplify_eq. exists d, e. split; [done|]. split.
    - split_and!; [done|apply touched_refl|done|]. by intros ??? ?%not_elem_of_nil.
    - intros counts [= <-]. simpl. split; [f_equal; lia|]. by intros ? ?%not_elem_of_nil. }
  cbn [concat] in *. cbn [index_batches] in Hr.
  assert (Hn' := Hn). rewrite fmap_app in Hn'. apply NoDup_app in Hn' as (Hnb & _ & Hnt).
  assert (Htb : ∀ doc, doc ∈ batch → sd_tenant_id doc = tenant)
    by (intros; apply Htenant, elem_of_app; by left).
  apply bind_inv in Hr as [([] & s1 & Hb & Hr)|(y & Hb & ->)];
    destruct (index_batch_spec _ _ _ _ _ _ _ _ Htb Hnb Hb) as (d1 & e1 & -> & Hi & Hserved).
  - apply IH in Hr as (d' & e' & -> & Hi' & Hc); [|intros; apply Htenant, elem_of_app; by right|done].
    exists d', e'. split; [done|]. split; [by eapply indexes_app|].
    intros counts Hcounts. destruct (Hc _ Hcounts) as [-> Hs']. rewrite length_app. cbn [length].
    split; [f_equal; lia|]. apply served_cons; [|done].
    apply (served_outlives p batch (concat todo) (db_index d1)); [done| |by eapply Hserved].
    by destruct Hi' as (_ & ? & _).
  - exists d1, e1. split; [done|]. split; [|done].
    destruct Hi as (Hj & Ht & Ho & _). split_and!; [done| |done|done].
    eapply touched_weaken; [|done]. intros. apply elem_of_app. by left.
Qed.

(** ** Runs of [reindex_tools] *)

Lemma load_existing_spec tenant docs d e :
  load_existing x tenant docs (St d None e) =
  (Ok (by_version (list_by_tool_versions tenant (sd_tool_version_id <$> docs)
         (rx_embedding_model x) (rx_embedding_dimensions x) (db_index d))), St d None e).
Proof. done. Qed.

Lemma build_document_facts t doc :
  build_document t = Ok doc →
  sd_tenant_id doc = pt_tenant_id t ∧ sd_tool_version_id doc = pt_tool_version_id t.
Proof.
  unfold build_document. intros G. apply rbind_Ok_inv in G as (inputs & _ & G).
  unfold new_search_document in G.
  apply rbind_Ok_inv in G as (? & _ & G). apply rbind_Ok_inv in G as (? & _ & G). by simplify_eq.
Qed.

Lemma documents_of_facts tenant docs :
  documents_of x tenant = Ok docs →
  (∀ doc, doc ∈ docs → sd_tenant_id doc = tenant) ∧
  sd_tool_version_id <$> docs = pt_tool_version_id <$> published_of x tenant.
Proof.
  unfold documents_of. intros G. split.
  - intros doc Hdoc. destruct (proj2 (traverse_elem _ _ _ G) _ Hdoc) as (t & Ht & Hb).
    apply build_document_facts in Hb as [-> _]. unfold published_of in Ht.
    rewrite elem_of_sorted_by in Ht. unfold list_published_by_tenant in Ht.
    rewrite elem_of_sorted_by in Ht. by apply list_elem_of_filter in Ht as [? _].
  - apply traverse_Ok in G. induction G as [|t doc ts docs Hb _ IH]; [done|].
    rewrite !fmap_cons, IH. by apply build_document_facts in Hb as [_ ->].
Qed.

(** The documents a run has to embed. *)
Definition pending_of (tenant : string) (force : bool) (index : embedding_index)
    (docs : list ToolSearchDocument) : list ToolSearchDocument :=
  filter (λ doc, needs_indexing force
    (by_version (list_by_tool_versions tenant (sd_tool_version_id <$> docs)
       (rx_embedding_model x) (rx_embedding_dimensions x) index)) doc) docs.

(** A document is pending unless its text is indexed. *)
Lemma needs_indexing_iff tenant index docs doc :
  index_ok index → doc ∈ docs → sd_tenant_id doc = tenant →
  needs_indexing false
    (by_version (list_by_tool_versions tenant (sd_tool_version_id <$> docs)
       (rx_embedding_model x) (rx_embedding_dimensions x) index)) doc = false ↔ current index doc.
Proof.
  intros Hok Hdoc Ht. unfold needs_indexing, current, doc_scope. rewrite Ht. simpl.
  destruct (by_version _ !! _) as [e|] eqn:E.
  - apply existing_get in E as [_ E]; [|done]. rewrite E. rewrite negb_decide_false. split; [eauto|].
    by intros (e' & [= <-] & ?).
  - split; [done|]. intros (e & He & _). exfalso.
    assert (None = Some e) as [=]. rewrite <-E. apply existing_get; [done|].
    split; [by apply list_elem_of_fmap_2|done].
Qed.

Lemma pending_iff tenant force index docs doc :
  index_ok index → (∀ doc, doc ∈ docs → sd_tenant_id doc = tenant) → doc ∈ docs →
  doc ∈ pending_of tenant force index docs ↔ force = true ∨ ¬ current index doc.
Proof.
  intros Hok Ht Hdoc. unfold pending_of. rewrite list_elem_of_filter, Is_true_true.
  rewrite <-(needs_indexing_iff tenant index docs doc) by auto.
  rewrite not_false_iff_true. unfold needs_indexing. rewrite orb_true_iff. simpl. tauto.
Qed.

Lemma NoDup_pending tenant force index docs :
  NoDup (sd_tool_version_id <$> docs) →
  NoDup (sd_tool_version_id <$> pending_of tenant force index docs).
Proof. intros G. eapply sublist_NoDup; [exact G|]. apply fmap_sublist, sublist_filter. Qed.

Lemma reindex_tools_spec c docs d e r s' :
  let tenant := ctx_tenant_id (rc_context c) in
  let pending := pending_of tenant (rc_force c) (db_index d) docs in
  NoDup (pt_tool_version_id <$> published_of x tenant) → documents_of x tenant = Ok docs →
  reindex_tools x c (St d None e) = (r, s') →
  ∃ d' e', s' = St d' None e' ∧ db_jobs d' = db_jobs d ∧
    touched pending (db_index d) (db_index d') ∧ (index_ok (db_index d) → index_ok (db_index d')) ∧
    ∀ a, r = Ok a →
      rr_published_count a = Z.of_nat (length docs) ∧
      (rr_current_count a + rr_pending_count a = rr_published_count a)%Z ∧
      rr_pending_count a = Z.of_nat (length pending) ∧
      (if rc_dry_run c then d' = d ∧ rr_embedded_count a = 0%Z
       else (∀ doc, doc ∈ pending → current (db_index d') doc) ∧
            (pending ≠ [] → ∃ p todo, rx_embedding_provider x = Some p ∧ concat todo = pending ∧
               (∀ batch, batch ∈ todo → (1 <= Z.of_nat (length batch) <= rc_batch_size c)%Z) ∧
               rr_batch_count a = Z.of_nat (length todo) ∧ served p todo (db_index d')) ∧
            rr_embedded_count a = rr_pending_count a ∧
            (rr_pending_count a <= rr_batch_count a * rc_batch_size c)%Z ∧
            ((rr_batch_count a - 1) * rc_batch_size c < rr_pending_count a ∨ rr_batch_count a = 0)%Z).
Proof.
  intros tenant pending Hn Hdocs Hr. destruct (documents_of_facts _ _ Hdocs) as [Htenant Hids].
  unfold reindex_tools in Hr. fold tenant in Hr.
  assert (Hno : ∀ (Q : search_db → ReindexToolsResult → Prop) y,
    ∃ d' e', St d None e = St d' None e' ∧ db_jobs d' = db_jobs d ∧
    touched pending (db_index d) (db_index d') ∧ (index_ok (db_index d) → index_ok (db_index d')) ∧
    ∀ a, (Raise y : res ReindexToolsResult) = Ok a → Q d' a).
  { intros Q y. exists d, e. split_and!; [done|done|apply touched_refl|done|done]. }
  apply bind_inv in Hr as [([] & s1 & Hb & Hr)|(y & Hb & ->)]; apply lift_inv in Hb as [Hb ->];
    [|apply (Hno _ y)].
  symmetry in Hb. rewrite raise_if_Ok in Hb. py_bools.
  repeat match goal with G : (_ <=? _)%Z = true |- _ => apply Z.leb_le in G end.
  apply bind_inv in Hr as [(docs' & s1 & Hd & Hr)|(y & Hd & ->)]; apply lift_inv in Hd as [Hd ->];
    [|congruence].
  rewrite Hdocs in Hd. injection Hd as ->.
  unfold bind at 1 in Hr. rewrite load_existing_spec in Hr. cbv beta iota zeta in Hr.
  fold (pending_of tenant (rc_force c) (db_index d) docs) in Hr. fold pending in Hr.
  destruct (rc_dry_run c) eqn:Edry; cbn [orb] in Hr.
  { unfold ret in Hr. simplify_eq. exists d, e. split_and!; [done|done|apply touched_refl|done|].
    intros a [= <-]. simpl. split_and!; try done. lia. }
  destruct (bool_decide (pending = [])) eqn:Ep.
  { apply bool_decide_eq_true in Ep. unfold ret in Hr. simplify_eq.
    exists d, e. split_and!; [done|done|apply touched_refl|done|]. rewrite Ep.
    intros a [= <-]. simpl. split_and!; try lia; [by intros ? ?%not_elem_of_nil|done]. }
  destruct (rx_embedding_provider x) as [p|] eqn:Eprov;
    [|unfold raise in Hr; simplify_eq; apply (Hno _ (Nexus EmbeddingUnavailableError))].
  set (size := Z.to_nat (rc_batch_size c)) in *.
  assert (Hsize : (0 < size)%nat) by lia. clear Hno.
  assert (Hpt : ∀ doc, doc ∈ concat (batches size pending) → sd_tenant_id doc = tenant).
  { rewrite batches_concat by done. intros doc [_ ?]%list_elem_of_filter. by apply Htenant. }
  assert (Hpn : NoDup (sd_tool_version_id <$> concat (batches size pending))).
  { rewrite batches_concat by done. apply NoDup_pending. by rewrite Hids. }
  apply bind_inv in Hr as [(counts & s1 & Hi & Hr)|(y & Hi & ->)];
    destruct (index_batches_spec _ _ _ _ _ _ _ _ _ _ Hpt Hpn Hi) as (d' & e' & -> & (Hj & Ht & Ho & Hc) & Hcounts);
    rewrite batches_concat in Ht, Hc, Hcounts by done; exists d', e'.
  - unfold ret in Hr. simplify_eq. split_and!; [done|done|done|done|].
    intros a [= <-]. destruct (Hcounts _ eq_refl) as [-> Hserved]. simpl.
    destruct (batches_fuel_count size (length pending) pending Hsize (le_n _)) as [Hc1 Hc2].
    fold (batches size pending) in Hc1, Hc2.
    split_and!; [done|lia|done|by eapply Hc| |lia| |].
    1: { intros _. exists p, (batches size pending). split_and!; [done|by apply batches_concat| |lia|done].
         intros batch Hb. apply batches_length in Hb; lia. }
    all: rewrite <-(Z2Nat.id (rc_batch_size c)) by lia;
      fold size; lia.
  - split_and!; try done.
Qed.

(** Without documents there is nothing to run on. *)
Lemma reindex_tools_no_documents c y d e r s' :
  documents_of x (ctx_tenant_id (rc_context c)) = Raise y →
  reindex_tools x c (St d None e) = (r, s') → s' = St d None e ∧ ∃ y', r = Raise y'.
Proof.
  intros Hd. unfold reindex_tools, bind, lift. destruct (raise_if _ _); [|naive_solver].
  rewrite Hd. naive_solver.
Qed.
End Runs.

(** ** The job store's transactions *)

Definition with_jobs (jobs : dict ToolSearchReindexJob) (d : search_db) : search_db :=
  mkSearchDb (db_index d) jobs.

Section JobRuns.
Context `{Ports}.

Lemma store_claim_run tenant id t d e :
  store_claim tenant id t (St d None e) =
  match locked_job tenant id (db_jobs d) with
  | Some j =>
      if decide (rj_status j = JobPending)
      then (Ok (Some (started t j)), St (with_jobs (dset id (started t j) (db_jobs d)) d) None e)
      else (Ok None, St d None e)
  | None => (Ok None, St d None e)
  end.
Proof.
  unfold store_claim, with_uow, bind, read_table, write_table, commit, ret. simpl.
  destruct (locked_job _ _ _) as [j|]; [|done].
  destruct (decide (rj_status j = JobPending)) as [E|E].
  - by rewrite bool_decide_true.
  - by rewrite bool_decide_false.
Qed.

Lemma store_update_run tenant id assign d e :
  store_update tenant id assign (St d None e) =
  match locked_job tenant id (db_jobs d) with
  | Some j => (Ok tt, St (with_jobs (dset id (assign j) (db_jobs d)) d) None e)
  | None => (Ok tt, St d None e)
  end.
Proof. unfold store_update, with_uow, bind, read_table. simpl. by destruct (locked_job _ _ _). Qed.

Lemma recover_run tenant t d e :
  recover_interrupted tenant t (St d None e) =
  (Ok (Z.of_nat (length (filter (λ j, active_of tenant j) (dvalues (db_jobs d))))),
   St (with_jobs (map (λ row, (fst row, recovered tenant t (snd row))) (db_jobs d)) d) None e).
Proof. done. Qed.

Lemma store_create_run j d e r s' :
  store_create j (St d None e) = (r, s') →
  (r = Ok tt ∧ (1 <= rj_batch_size j <= 64)%Z ∧ dget (rj_id j) (db_jobs d) = None ∧
   (active j = true → ∀ k, k ∈ dvalues (db_jobs d) → active_of (rj_tenant_id j) k = false) ∧
   s' = St (with_jobs (dset (rj_id j) j (db_jobs d)) d) None e) ∨
  (∃ y, r = Raise y ∧ s' = St d None e).
Proof.
  unfold store_create, with_uow, bind, read_table, write_table, commit, lift. simpl.
  destruct (raise_if (negb _) _) as [[]|y] eqn:Eb; simpl; [|intros; simplify_eq; eauto].
  destruct (raise_if (dmem _ _ || _) _) as [[]|y] eqn:Ec; simpl; [|intros; simplify_eq; eauto].
  intros Hr. simplify_eq. left. rewrite raise_if_Ok in Eb, Ec.
  apply orb_false_iff in Ec as [Ec1 Ec2]. apply dmem_false in Ec1. py_bools.
  repeat match goal with G : (_ <=? _)%Z = true |- _ => apply Z.leb_le in G end.
  split_and!; [done|lia|lia|done| |done]. intros Ha k Hk. rewrite Ha in Ec2. simpl in Ec2.
  destruct (active_of (rj_tenant_id j) k) eqn:Ek; [|done].
  rewrite <-Ec2. symmetry. apply existsb_exists. exists k. by rewrite <-list_elem_of_In.
Qed.

(** What a job record may look like in each status. *)
Definition job_shape (j : ToolSearchReindexJob) : Prop :=
  (1 <= rj_batch_size j <= 64)%Z ∧
  match rj_status j with
  | JobPending => rj_started_at j = None ∧ rj_finished_at j = None ∧ rj_error_code j = None
  | JobRunning => is_Some (rj_started_at j) ∧ rj_finished_at j = None ∧ rj_error_code j = None
  | JobSucceeded => is_Some (rj_finished_at j) ∧ rj_error_code j = None
  | JobFailed => is_Some (rj_finished_at j) ∧ is_Some (rj_error_code j)
  end.

(** At most one active job per tenant, stored under its id. *)
Definition jobs_ok (jobs : dict ToolSearchReindexJob) : Prop :=
  keyed rj_id jobs ∧
  (∀ k j, dget k jobs = Some j → job_shape j) ∧
  ∀ k k' j j', dget k jobs = Some j → dget k' jobs = Some j' →
    active j = true → active j' = true → rj_tenant_id j = rj_tenant_id j' → k = k'.

(** A transaction on the jobs, or one that writes index rows. *)
Inductive job_operation : ∀ A, M search_db A → Prop :=
| op_create model dims available ctx force size :
    job_operation _ (create_reindex_job model dims available ctx force size)
| op_claim tenant id t : job_operation _ (store_claim tenant id t)
| op_succeed tenant id r t : job_operation _ (store_succeed tenant id r t)
| op_fail tenant id code t : job_operation _ (store_fail tenant id code t)
| op_recover tenant t : job_operation _ (recover_interrupted tenant t)
| op_write_rows tenant rows : job_operation _ (write_rows tenant rows).

Inductive job_step (d d' : search_db) : Prop :=
| run_operation A (m : M search_db A) e r s' :
    job_operation A m → m (St d None e) = (r, s') → store s' = d' → job_step d d'.

(** The order in which a job's status may change. *)
Definition phase (j : ToolSearchReindexJob) : nat :=
  match rj_status j with JobPending => 0 | JobRunning => 1 | _ => 2 end.

Definition advances (jobs jobs' : dict ToolSearchReindexJob) : Prop :=
  ∀ k j, dget k jobs = Some j → ∃ j', dget k jobs' = Some j' ∧
    rj_tenant_id j' = rj_tenant_id j ∧ rj_requested_by j' = rj_requested_by j ∧
    (phase j <= phase j')%nat.

(** Replacing one job by a later state of it. *)
Lemma replace_job jobs k j j' :
  jobs_ok jobs → dget k jobs = Some j → job_shape j' → rj_id j' = rj_id j →
  rj_tenant_id j' = rj_tenant_id j → rj_requested_by j' = rj_requested_by j →
  (phase j <= phase j')%nat → (active j' = true → active j = true) →
  jobs_ok (dset k j' jobs) ∧ advances jobs (dset k j' jobs).
Proof.
  intros (Hk & Hs & Hu) Hj Hshape Hid Ht Hreq Hp Ha. split; [split_and!|].
  - assert (k = rj_id j') as -> by (rewrite Hid; symmetry; by eapply keyed_get).
    by apply keyed_dset.
  - by apply dset_all.
  - intros k1 k2 j1 j2. rewrite !dget_dset.
    repeat case_decide; intros; simplify_eq; try done; eapply Hu; eauto; try congruence.
  - intros k1 j1 Hj1. rewrite dget_dset. case_decide; [|by eauto 10].
    simplify_eq. eauto 10.
Qed.

Lemma advances_refl jobs : advances jobs jobs.
Proof. intros k j Hj. eauto 10. Qed.

Lemma advances_trans jobs1 jobs2 jobs3 :
  advances jobs1 jobs2 → advances jobs2 jobs3 → advances jobs1 jobs3.
Proof.
  intros H12 H23 k j Hj. destruct (H12 k j Hj) as (j2 & Hj2 & ? & ? & ?).
  destruct (H23 k j2 Hj2) as (j3 & Hj3 & ? & ? & ?). exists j3. split_and!; try congruence. lia.
Qed.

Lemma locked_job_Some tenant id jobs j :
  locked_job tenant id jobs = Some j → dget id jobs = Some j ∧ rj_tenant_id j = tenant.
Proof.
  unfold locked_job. destruct (dget id jobs); [|done]. case_bool_decide; intros; by simplify_eq.
Qed.

Lemma dget_map_values {V W} (f : V → W) k (d : dict V) :
  dget k (map (λ row, (fst row, f (snd row))) d) = f <$> dget k d.
Proof. induction d as [|[k' v] d IH]; simpl; [done|]. by destruct (decide (k = k')). Qed.

Lemma dkeys_map_values {V W} (f : V → W) (d : dict V) :
  dkeys (map (λ row, (fst row, f (snd row))) d) = dkeys d.
Proof. unfold dkeys. induction d as [|row d IH]; csimpl; [done|]. by rewrite <-IH. Qed.

Lemma recovered_facts tenant t j :
  rj_id (recovered tenant t j) = rj_id j ∧ rj_tenant_id (recovered tenant t j) = rj_tenant_id j ∧
  rj_requested_by (recovered tenant t j) = rj_requested_by j ∧
  (phase j <= phase (recovered tenant t j))%nat ∧
  (active (recovered tenant t j) = true → active j = true) ∧
  (job_shape j → job_shape (recovered tenant t j)).
Proof.
  unfold recovered. destruct (active_of tenant j) eqn:Ea; [|by split_and!].
  split_and!; try done.
  - unfold phase. simpl. destruct (rj_status j); lia.
  - intros [? _]. split; [done|simpl; eauto].
Qed.

Lemma recover_jobs tenant t jobs :
  jobs_ok jobs →
  let jobs' := map (λ row, (fst row, recovered tenant t (snd row))) jobs in
  jobs_ok jobs' ∧ advances jobs jobs'.
Proof.
  intros (Hk & Hs & Hu) jobs'.
  assert (Hget : ∀ k j', dget k jobs' = Some j' → ∃ j, dget k jobs = Some j ∧ j' = recovered tenant t j).
  { intros k j'. unfold jobs'. rewrite dget_map_values. destruct (dget k jobs); simpl; naive_solver. }
  split; [split_and!|].
  - destruct Hk as [Hn Hk]. split.
    + unfold jobs'. by rewrite dkeys_map_values.
    + intros k v Hin. apply list_elem_of_fmap in Hin as ([k0 j] & [= -> ->] & Hin). simpl.
      destruct (recovered_facts tenant t j) as (-> & _). by apply Hk.
  - intros k j' (j & Hj & ->)%Hget. apply recovered_facts. by eapply Hs.
  - intros k k' ? ? (j1 & Hj1 & ->)%Hget (j2 & Hj2 & ->)%Hget.
    destruct (recovered_facts tenant t j1) as (_ & -> & _ & _ & Ha1 & _),
      (recovered_facts tenant t j2) as (_ & -> & _ & _ & Ha2 & _). eauto.
  - intros k j Hj. exists (recovered tenant t j). unfold jobs'. rewrite dget_map_values, Hj.
    destruct (recovered_facts tenant t j) as (_ & ? & ? & ? & _). by split_and!.
Qed.

Lemma create_job_run model dims available ctx force size d e r s' :
  create_reindex_job model dims available ctx force size (St d None e) = (r, s') →
  ∃ e', (∃ y, r = Raise y ∧ s' = St d None e') ∨
    ∃ j, r = Ok j ∧ rj_status j = JobPending ∧ job_shape j ∧ dget (rj_id j) (db_jobs d) = None ∧
      rj_tenant_id j = ctx_tenant_id ctx ∧
      (∀ k, k ∈ dvalues (db_jobs d) → active_of (rj_tenant_id j) k = false) ∧
      s' = St (with_jobs (dset (rj_id j) j (db_jobs d)) d) None e'.
Proof.
  unfold create_reindex_job. intros Hr.
  apply bind_inv in Hr as [(? & s1 & Hl & Hr)|(y & Hl & ->)]; apply lift_inv in Hl as [Hl ->];
    [|eauto 10].
  apply bind_inv in Hr as [(? & s1 & Hm & Hr)|(y & Hm & ->)]; apply lift_inv in Hm as [Hm ->];
    [|eauto 10].
  unfold bind at 1, new_id at 1 in Hr. unfold bind at 1, now at 1 in Hr.
  apply bind_inv in Hr as [(? & s1 & Hc & Hr)|(y & Hc & ->)];
    apply store_create_run in Hc as [(Er & Hb & Hd & Ha & ->)|(y' & Er & ->)]; simplify_eq; [|eauto 10].
  unfold ret in Hr. simplify_eq. eexists. right. eexists. split_and!; try done. by apply Ha.
Qed.

(** An assignment that ends a job. *)
Definition finishes (assign : ToolSearchReindexJob → ToolSearchReindexJob) : Prop :=
  ∀ j, job_shape j → job_shape (assign j) ∧ rj_id (assign j) = rj_id j ∧
    rj_tenant_id (assign j) = rj_tenant_id j ∧ rj_requested_by (assign j) = rj_requested_by j ∧
    phase (assign j) = 2%nat ∧ active (assign j) = false.

Lemma phase_bound j : (phase j <= 2)%nat.
Proof. unfold phase. destruct (rj_status j); lia. Qed.

Lemma update_jobs tenant id assign d e r s' :
  jobs_ok (db_jobs d) → finishes assign →
  store_update tenant id assign (St d None e) = (r, s') →
  jobs_ok (db_jobs (store s')) ∧ advances (db_jobs d) (db_jobs (store s')).
Proof.
  intros Hok Hf Hm. rewrite store_update_run in Hm. destruct (locked_job _ _ _) as [j|] eqn:Ej;
    simplify_eq/=; [|by split; [|apply advances_refl]].
  apply locked_job_Some in Ej as [Ej _].
  destruct (Hf j) as (? & ? & ? & ? & Hp & Ha); [by eapply Hok|].
  apply (replace_job _ _ j); try done; [rewrite Hp; apply phase_bound|congruence].
Qed.

Lemma job_step_ok d d' :
  jobs_ok (db_jobs d) → job_step d d' → jobs_ok (db_jobs d') ∧ advances (db_jobs d) (db_jobs d').
Proof.
  intros Hok [A m e r s' Hop Hm <-]. destruct Hop.
  - apply create_job_run in Hm as (e' & [(y & -> & ->)|(j & -> & Hp & Hs & Hd & _ & Ha & ->)]);
      simpl; [by split; [|apply advances_refl]|].
    destruct Hok as (Hk & Hshape & Hu). split; [split_and!|].
    + by apply keyed_dset.
    + by apply dset_all.
    + assert (Hnew : ∀ k k', dget k (db_jobs d) = Some k' → active k' = true →
                rj_tenant_id k' ≠ rj_tenant_id j).
      { intros k k' Hk' Hact Ht. specialize (Ha k').
        unfold active_of in Ha. rewrite Hact, bool_decide_true in Ha by done.
        assert (true = false); [|done]. apply Ha. apply dvalues_mem. exists k. by apply dget_Some_mem. }
      intros k1 k2 j1 j2. rewrite !dget_dset.
      repeat case_decide; intros; simplify_eq; try done; eauto; exfalso;
        eapply Hnew; eauto.
    + intros k k' Hk'. exists k'. rewrite dget_dset_ne by congruence. eauto.
  - rewrite store_claim_run in Hm. destruct (locked_job _ _ _) as [j|] eqn:Ej;
      [|simplify_eq; by split; [|apply advances_refl]].
    apply locked_job_Some in Ej as [Ej _].
    destruct (decide (rj_status j = JobPending)) as [Es|];
      simplify_eq; [|by split; [|apply advances_refl]]. simpl.
    pose proof (proj1 (proj2 Hok) _ _ Ej) as [Hb Hs]. rewrite Es in Hs.
    apply (replace_job _ _ j); try done; [by split_and!; naive_solver| |].
    + unfold phase. rewrite Es. simpl. lia.
    + unfold active. by rewrite Es.
  - eapply update_jobs; [done| |exact Hm]. intros j [? _]. split_and!; try done; simpl; eauto.
  - eapply update_jobs; [done| |exact Hm]. intros j [? _]. split_and!; try done; simpl; eauto.
  - rewrite recover_run in Hm. simplify_eq. by apply recover_jobs.
  - apply write_rows_spec in Hm as [(index' & -> & _ & ->)|(y & -> & ->)];
      (split; [done|apply advances_refl]).
Qed.

Lemma jobs_star d d' :
  jobs_ok (db_jobs d) → star job_step d d' → jobs_ok (db_jobs d') ∧ advances (db_jobs d) (db_jobs d').
Proof.
  intros Hok Hstar. revert Hok. induction Hstar as [d|d d1 d' Hstep Hstar IH]; intros Hok.
  { by split; [|apply advances_refl]. }
  destruct (job_step_ok _ _ Hok Hstep) as [Hok1 Ha1]. destruct (IH Hok1) as [Hok' Ha'].
  split; [done|]. by eapply advances_trans.
Qed.

(** The reindex job invariant.  Whatever the order in which jobs are
    created, claimed, finished and recovered, in any number of processes, each
    tenant has at most one active job, every job looks as its status says, no
    job disappears or changes its tenant or requester, and no status goes back:
    PENDING, then RUNNING, then SUCCEEDED or FAILED. *)
Theorem reindex_jobs_invariant d d' :
  jobs_ok (db_jobs d) → star job_step d d' →
  (∀ k j, dget k (db_jobs d') = Some j → rj_id j = k ∧ job_shape j) ∧
  (∀ k k' j j', dget k (db_jobs d') = Some j → dget k' (db_jobs d') = Some j' →
     active j = true → active j' = true → rj_tenant_id j = rj_tenant_id j' → k = k') ∧
  advances (db_jobs d) (db_jobs d').
Proof.
  intros Hok Hstar. destruct (jobs_star _ _ Hok Hstar) as [(Hk & Hs & Hu) Ha].
  split_and!; [|exact Hu|done]. intros k j Hj. split; [by eapply keyed_get|by eapply Hs].
Qed.

(** A reindex job runs at most once.  Once a claim was granted, no later
    claim of that job is, whatever happened in between: not after a failure,
    a recovery or a success. *)
Theorem reindex_job_runs_once tenant id t d e j s1 d2 tenant' t' e2 :
  jobs_ok (db_jobs d) → store_claim tenant id t (St d None e) = (Ok (Some j), s1) →
  star job_step (store s1) d2 →
  rj_status j = JobRunning ∧ rj_tenant_id j = tenant ∧
  store_claim tenant' id t' (St d2 None e2) = (Ok None, St d2 None e2).
Proof.
  intros Hok Hc Hstar.
  assert (Hok1 : jobs_ok (db_jobs (store s1))).
  { eapply job_step_ok; [exact Hok|]. by eapply run_operation; [apply op_claim|exact Hc|]. }
  rewrite store_claim_run in Hc. destruct (locked_job _ _ _) as [j0|] eqn:Ej; [|done].
  apply locked_job_Some in Ej as [_ Ht]. destruct (decide _); simplify_eq.
  split_and!; [done|done|]. destruct (jobs_star _ _ Hok1 Hstar) as [_ Ha].
  destruct (Ha id (started t j0)) as (j2 & Hj2 & _ & _ & Hp); [apply dget_dset_eq|].
  rewrite store_claim_run. unfold locked_job. rewrite Hj2. case_bool_decide; [|done].
  destruct (decide (rj_status j2 = JobPending)) as [E|]; [|done].
  unfold phase in Hp. rewrite E in Hp. simpl in Hp. lia.
Qed.

(** A run leaves the jobs alone, and its index is that of its outcome. *)
Lemma reindex_tools_jobs x c d e r s' :
  NoDup (pt_tool_version_id <$> published_of x (ctx_tenant_id (rc_context c))) →
  reindex_tools x c (St d None e) = (r, s') →
  ∃ d' e', s' = St d' None e' ∧ db_jobs d' = db_jobs d.
Proof.
  intros Hn Hr. destruct (documents_of x (ctx_tenant_id (rc_context c))) as [docs|y] eqn:Ed.
  - destruct (reindex_tools_spec _ _ _ _ _ _ _ Hn Ed Hr) as (d' & e' & -> & Hj & _). eauto.
  - destruct (reindex_tools_no_documents _ _ _ _ _ _ _ Ed Hr) as [-> _]. eauto.
Qed.

(** Every reindex job that is run settles.  Running a pending job claims it
    and runs one reindex for its tenant, batch size and force flag, from the
    stores as they are; where that returns, the job is SUCCEEDED with its
    counts, and where it raises, FAILED with the error's code, or
    "internal_error" for an error that is not the program's own.  Only a
    cancellation leaves the job RUNNING.  A job that is not pending, or not the
    tenant's, is left alone. *)
Theorem run_reindex_job_settles x tenant id d e r s' :
  NoDup (pt_tool_version_id <$> published_of x tenant) →
  run_reindex_job x tenant id (St d None e) = (r, s') →
  match locked_job tenant id (db_jobs d) with
  | Some j =>
      if decide (rj_status j = JobPending) then
        ∃ outcome t1 t2 d1 d' e1 e',
          reindex_tools x (job_command (started t1 j))
            (St (with_jobs (dset id (started t1 j) (db_jobs d)) d) None e1) = (outcome, St d1 None e') ∧
          s' = St d' None (environment s') ∧ db_index d' = db_index d1 ∧
          match outcome with
          | Ok a => r = Ok tt ∧ dget id (db_jobs d') = Some (succeeded a t2 (started t1 j))
          | Raise y =>
              if is_exception y
              then r = Ok tt ∧ dget id (db_jobs d') = Some (failed (job_error_code y) t2 (started t1 j))
              else r = Raise y ∧ dget id (db_jobs d') = Some (started t1 j)
          end
      else r = Ok tt ∧ s' = St d None (environment s')
  | None => r = Ok tt ∧ s' = St d None (environment s')
  end.
Proof.
  intros Hn Hr. unfold run_reindex_job in Hr. unfold bind at 1, now at 1 in Hr.
  cbn [store working environment] in Hr. set (t1 := clock_now (ticks e)) in *.
  set (e1 := Env _ _ _) in Hr. clearbody e1 t1.
  unfold bind at 1 in Hr. rewrite store_claim_run in Hr.
  destruct (locked_job tenant id (db_jobs d)) as [j|] eqn:Ej; [|unfold ret in Hr; by simplify_eq].
  apply locked_job_Some in Ej as [Ej Ht].
  destruct (decide (rj_status j = JobPending)) as [Ep|]; [|unfold ret in Hr; by simplify_eq].
  cbv beta iota in Hr. rewrite capture_bind in Hr.
  destruct (reindex_tools x _ _) as [outcome s1] eqn:Erun. cbn [fst snd] in Hr.
  assert (Hn' : NoDup (pt_tool_version_id <$>
    published_of x (ctx_tenant_id (rc_context (job_command (started t1 j)))))) by (simpl; by rewrite Ht).
  destruct (reindex_tools_jobs _ _ _ _ _ _ Hn' Erun) as (d1 & e' & -> & Hj). simpl in Hj.
  assert (Hlock : locked_job tenant id (db_jobs d1) = Some (started t1 j)).
  { rewrite Hj. unfold locked_job. rewrite dget_dset_eq. simpl. by rewrite bool_decide_true. }
  cbv beta iota in Hr. exists outcome, t1.
  destruct outcome as [a|y]; [|destruct (is_exception y)];
    [unfold store_succeed, store_fail, bind, now in Hr; simpl in Hr;
     rewrite store_update_run, Hlock in Hr; simplify_eq..|].
  - eexists _, d1, _, e1, e'. split; [done|]. split; [done|]. split; [done|].
    split; [done|]. apply dget_dset_eq.
  - eexists _, d1, _, e1, e'. split; [done|]. split; [done|]. split; [done|].
    split; [done|]. apply dget_dset_eq.
  - unfold raise in Hr. simplify_eq. exists t1, d1, d1, e1, e'.
    split; [done|]. split; [done|]. split; [done|]. split; [done|].
    rewrite Hj. apply dget_dset_eq.
Qed.
End JobRuns.

Section IndexTheorems.
Context `{Ports} (x : Reindexer).

Lemma NoDup_key {A B} (f : A → B) l a b : NoDup (f <$> l) → a ∈ l → b ∈ l → f a = f b → a = b.
Proof.
  induction l as [|c l IH]; [by intros _ ?%not_elem_of_nil|].
  rewrite fmap_cons, NoDup_cons, !elem_of_cons. intros [Hc Hn] [->|Ha] [->|Hb] E; try done; auto;
    exfalso; apply Hc; [rewrite E|rewrite <-E]; by apply list_elem_of_fmap_2.
Qed.

(** What was current stays current: a run writes a document's row for that
    document only. *)
Lemma touched_current docs pending index index' doc :
  NoDup (sd_tool_version_id <$> docs) → (∀ p, p ∈ pending → p ∈ docs) →
  touched x pending index index' → doc ∈ docs → current x index doc → current x index' doc.
Proof.
  intros Hn Hp [Ht _] Hdoc (e & He & Hd). destruct (Ht (doc_scope x doc)) as [E|(p & Hin & E & Hc)].
  - exists e. by rewrite E.
  - apply doc_scope_inj in E. by rewrite (NoDup_key _ _ _ _ Hn Hdoc (Hp _ Hin) E).
Qed.

(** Over an up-to-date index nothing is pending. *)
Lemma pending_nil tenant index docs :
  index_ok index → (∀ doc, doc ∈ docs → sd_tenant_id doc = tenant) →
  (∀ doc, doc ∈ docs → current x index doc) → pending_of x tenant false index docs = [].
Proof.
  intros Hok Ht Hc. unfold pending_of.
  enough (Hf : ∀ l, (∀ doc, doc ∈ l → doc ∈ docs) → filter (λ doc, needs_indexing false
    (by_version (list_by_tool_versions tenant (sd_tool_version_id <$> docs)
       (rx_embedding_model x) (rx_embedding_dimensions x) index)) doc) l = []) by auto.
  induction l as [|doc l IH]; intros Hl; [done|]. rewrite filter_cons_False, IH; [done| |].
  - intros. apply Hl. by right.
  - rewrite (proj2 (needs_indexing_iff x tenant index docs doc Hok (Hl _ (list_elem_of_here _ _))
      (Ht _ (Hl _ (list_elem_of_here _ _))))); [simpl; tauto|]. apply Hc, Hl. by left.
Qed.

(** C37: reindexing converges.  A run that is no dry run and returns has brought
    the index up to date: the row of every published tool has the digest of the
    tool's current search document.  Pending are exactly the documents whose
    row is missing or has another digest, and with [force] all of them: these
    and no other rows change, they are embedded in their order in batches of at
    most the batch size, the provider asked once for each, and their rows have
    the vectors it answered.  The counts are theirs.  A further run without
    [force] and with a valid batch size, whatever its provider, has nothing to
    embed and changes nothing. *)
Theorem reindex_converges c docs d e a s' :
  let tenant := ctx_tenant_id (rc_context c) in
  index_ok (db_index d) → NoDup (pt_tool_version_id <$> published_of x tenant) →
  documents_of x tenant = Ok docs → rc_dry_run c = false →
  reindex_tools x c (St d None e) = (Ok a, s') →
  (∀ doc, doc ∈ docs → current x (db_index (store s')) doc) ∧
  (∃ pending, sublist pending docs ∧
     (∀ doc, doc ∈ docs → doc ∈ pending ↔ rc_force c = true ∨ ¬ current x (db_index d) doc) ∧
     rr_pending_count a = Z.of_nat (length pending) ∧
     touched x pending (db_index d) (db_index (store s')) ∧
     (pending ≠ [] → ∃ p todo, rx_embedding_provider x = Some p ∧ concat todo = pending ∧
        (∀ batch, batch ∈ todo → (1 <= Z.of_nat (length batch) <= rc_batch_size c)%Z) ∧
        rr_batch_count a = Z.of_nat (length todo) ∧ served x p todo (db_index (store s')))) ∧
  rr_published_count a = Z.of_nat (length docs) ∧
  (rr_current_count a + rr_pending_count a = rr_published_count a)%Z ∧
  rr_embedded_count a = rr_pending_count a ∧
  (rr_pending_count a <= rr_batch_count a * rc_batch_size c)%Z ∧
  ((rr_batch_count a - 1) * rc_batch_size c < rr_pending_count a ∨ rr_batch_count a = 0)%Z ∧
  ∀ c' provider e',
    ctx_tenant_id (rc_context c') = tenant → (1 <= rc_batch_size c' <= 64)%Z → rc_force c' = false →
    let x' := mkReindexer (rx_published_tools x) provider (rx_embedding_model x)
                (rx_embedding_dimensions x) in
    ∃ a', reindex_tools x' c' (St (store s') None e') = (Ok a', St (store s') None e') ∧
      rr_pending_count a' = 0%Z ∧ rr_embedded_count a' = 0%Z ∧ rr_batch_count a' = 0%Z.
Proof.
  intros tenant Hok Hn Hdocs Hdry Hr.
  destruct (documents_of_facts _ _ _ Hdocs) as [Htenant Hids].
  destruct (reindex_tools_spec _ _ _ _ _ _ _ Hn Hdocs Hr) as (d' & e1 & -> & _ & Ht & Hok' & Ha).
  destruct (Ha a eq_refl) as (Hp & Hsum & Hpend & Hrest). rewrite Hdry in Hrest.
  destruct Hrest as (Hcur & Hserved & Hemb & Hb1 & Hb2). specialize (Hok' Hok).
  assert (Hall : ∀ doc, doc ∈ docs → current x (db_index d') doc).
  { intros doc Hdoc. set (existing := by_version (list_by_tool_versions tenant
      (sd_tool_version_id <$> docs) (rx_embedding_model x) (rx_embedding_dimensions x) (db_index d))).
    destruct (needs_indexing (rc_force c) existing doc) eqn:En.
    - apply Hcur. unfold pending_of. apply list_elem_of_filter. split; [|done]. by apply Is_true_true.
    - assert (En' : needs_indexing false existing doc = false)
        by (unfold needs_indexing in *; by apply orb_false_iff in En as [_ ->]).
      apply (needs_indexing_iff x tenant (db_index d) docs doc Hok Hdoc (Htenant _ Hdoc)) in En'.
      eapply (touched_current docs); [by rewrite Hids| |exact Ht|done|done].
      intros p. by intros [_ ?]%list_elem_of_filter. }
  cbn [store]. split; [done|]. split.
  { exists (pending_of x tenant (rc_force c) (db_index d) docs). split; [apply sublist_filter|]. split_and!; [|exact Hpend|exact Ht|exact Hserved].
    intros doc Hdoc. by apply pending_iff. }
  do 5 (split; [done|]).
  intros c' provider e' Hc' Hsize Hforce. set (x' := mkReindexer _ _ _ _).
  unfold reindex_tools. rewrite Hc'. unfold bind at 1, lift at 1.
  rewrite (proj2 (raise_if_Ok _ _ tt)) by
    (apply negb_false_iff, andb_true_iff; split; apply Z.leb_le; lia).
  unfold bind at 1, lift at 1. change (documents_of x' tenant) with (documents_of x tenant).
  rewrite Hdocs. unfold bind at 1. rewrite load_existing_spec. cbv beta iota zeta.
  rewrite Hforce. fold (pending_of x' tenant false (db_index d') docs).
  change (pending_of x' tenant) with (pending_of x tenant).
  rewrite (pending_nil tenant _ _ Hok' Htenant Hall).
  rewrite bool_decide_true by done. rewrite orb_true_r. eexists. split; [reflexivity|done].
Qed.

(** A reindex run is safe to interrupt.  Whatever its outcome (an invalid
    document, a provider that fails or answers too few or unfit vectors in any
    batch), the index stays valid, the rows that changed are those of published
    tools and carry their current digest, no row disappears or changes its id,
    and the jobs are untouched. *)
Theorem reindex_keeps_index c docs d e r s' :
  let tenant := ctx_tenant_id (rc_context c) in
  index_ok (db_index d) → NoDup (pt_tool_version_id <$> published_of x tenant) →
  documents_of x tenant = Ok docs → reindex_tools x c (St d None e) = (r, s') →
  index_ok (db_index (store s')) ∧ touched x docs (db_index d) (db_index (store s')) ∧
  db_jobs (store s') = db_jobs d ∧ working s' = None ∧
  (rc_dry_run c = true → is_ok r = true → store s' = d).
Proof.
  intros tenant Hok Hn Hdocs Hr.
  destruct (reindex_tools_spec _ _ _ _ _ _ _ Hn Hdocs Hr) as (d' & e1 & -> & Hj & Ht & Hok' & Ha).
  split_and!; [auto| |done|done|].
  - eapply touched_weaken; [|exact Ht]. intros doc. by intros [_ ?]%list_elem_of_filter.
  - intros Hdry Hr'. destruct r as [a|]; [|done].
    destruct (Ha a eq_refl) as (_ & _ & _ & Hrest). rewrite Hdry in Hrest. by destruct Hrest.
Qed.

Lemma zip_snd_filter {A B} (P : B → Prop) `{∀ b, Decision (P b)} (l : list A) : ∀ (k : list B),
  length l = length k → length (filter (λ row, P (snd row)) (zip l k)) = length (filter P k).
Proof.
  induction l as [|a l IH]; intros [|b k]; try done. simpl. intros [= Hl].
  rewrite !filter_cons. simpl. destruct (decide (P b)); simpl; by rewrite IH.
Qed.

Lemma count_state_docs existing state ts docs :
  length ts = length docs →
  count_state state (map (index_item existing) (zip ts docs)) =
  Z.of_nat (length (filter (λ doc, index_state existing doc = state) docs)).
Proof.
  intros Hl. unfold count_state. 
  rewrite <-(zip_snd_filter (λ doc, index_state existing doc = state) ts docs) by done. f_equal.
  induction (zip ts docs) as [|row rows IH]; [done|]. simpl. rewrite !filter_cons. simpl.
  repeat case_decide; simpl; congruence.
Qed.

Lemma states_partition existing (docs : list ToolSearchDocument) :
  (length (filter (λ doc, index_state existing doc = IndexMissing) docs) +
   length (filter (λ doc, index_state existing doc = IndexStale) docs) =
   length (filter (λ doc, needs_indexing false existing doc) docs))%nat ∧
  (length (filter (λ doc, index_state existing doc = IndexCurrent) docs) +
   length (filter (λ doc, needs_indexing false existing doc) docs) = length docs)%nat.
Proof.
  induction docs as [|doc docs [IH1 IH2]]; [done|]. rewrite !filter_cons.
  unfold needs_indexing, index_state in *. simpl in *.
  destruct (existing !! sd_tool_version_id doc) as [emb|]; [destruct (bool_decide _)|]; simpl;
    repeat (case_decide; try done); simpl; lia.
Qed.

Lemma documents_of_length tenant docs :
  documents_of x tenant = Ok docs → length (published_of x tenant) = length docs.
Proof. intros G. apply traverse_Ok in G. by apply Forall2_length in G. Qed.

(** The inspection and the reindexing agree.  The inspection changes
    nothing; its counts are those of a dry run of the reindexing over the same
    stores, MISSING and STALE together being what a run would embed; and every
    item has the state of the row of its tool's current document. *)
Theorem inspection_agrees_with_reindex c available docs d e :
  let tenant := ctx_tenant_id (rc_context c) in
  index_ok (db_index d) → documents_of x tenant = Ok docs →
  rc_dry_run c = true → rc_force c = false → (1 <= rc_batch_size c <= 64)%Z →
  ∃ snapshot a,
    inspect_index x available tenant (St d None e) = (Ok snapshot, St d None e) ∧
    reindex_tools x c (St d None e) = (Ok a, St d None e) ∧
    rr_published_count a = ix_published_count snapshot ∧
    rr_current_count a = ix_current_count snapshot ∧
    rr_pending_count a = (ix_missing_count snapshot + ix_stale_count snapshot)%Z ∧
    ∀ item, item ∈ ix_items snapshot → ∃ t doc,
      t ∈ published_of x tenant ∧ build_document t = Ok doc ∧
      ii_tool_id item = pt_tool_id t ∧ ii_canonical_name item = pt_canonical_name t ∧
      (ii_state item = IndexMissing ↔ db_index d !! doc_scope x doc = None) ∧
      (ii_state item = IndexCurrent ↔ current x (db_index d) doc).
Proof.
  intros tenant Hok Hdocs Hdry Hforce Hsize.
  destruct (documents_of_facts _ _ _ Hdocs) as [Htenant _].
  pose proof (documents_of_length _ _ Hdocs) as Hlen.
  set (existing := by_version (list_by_tool_versions tenant (sd_tool_version_id <$> docs)
         (rx_embedding_model x) (rx_embedding_dimensions x) (db_index d))).
  destruct (states_partition existing docs) as [Hpart1 Hpart2].
  eexists _, _. split; [|split].
  - unfold inspect_index, bind, lift. rewrite Hdocs, load_existing_spec. reflexivity.
  - unfold reindex_tools, bind, lift. fold tenant.
    rewrite (proj2 (raise_if_Ok _ _ tt)) by
      (apply negb_false_iff, andb_true_iff; split; apply Z.leb_le; lia).
    rewrite Hdocs, load_existing_spec. rewrite Hdry. reflexivity.
  - cbn [rr_published_count rr_current_count rr_pending_count ix_published_count ix_current_count
      ix_missing_count ix_stale_count ix_items]. fold existing.
    rewrite !count_state_docs by done. rewrite length_map, length_zip, Hlen, Hforce.
    split_and!; [lia|lia|lia|]. intros item Hitem.
    apply list_elem_of_fmap in Hitem as ([t doc] & -> & Hin). simpl.
    assert (Hrow : t ∈ published_of x tenant ∧ doc ∈ docs ∧ build_document t = Ok doc).
    { apply list_elem_of_lookup in Hin as [i Hi]. apply lookup_zip_Some in Hi as [Ht Hd].
      split_and!; [by eapply list_elem_of_lookup_2|by eapply list_elem_of_lookup_2|].
      apply traverse_Ok in Hdocs. by eapply Forall2_lookup_lr in Hdocs; eauto. }
    destruct Hrow as (Ht & Hd & Hb). exists t, doc.
    do 4 (split; [done|]).
    assert (Hstate : index_state existing doc =
      match db_index d !! doc_scope x doc with
      | None => IndexMissing
      | Some emb => if bool_decide (te_source_digest emb = sd_source_digest doc)
                    then IndexCurrent else IndexStale end).
    { unfold index_state. unfold doc_scope. rewrite (Htenant _ Hd).
      destruct (existing !! sd_tool_version_id doc) as [emb|] eqn:E.
      - apply existing_get in E as [_ ->]; done.
      - destruct (db_index d !! _) as [emb|] eqn:E'; [|done].
        assert (None = Some emb) as [=]. rewrite <-E. apply existing_get; [done|].
        split; [by apply list_elem_of_fmap_2|done]. }
    rewrite Hstate. unfold current.
    destruct (db_index d !! doc_scope x doc) as [emb|]; [case_bool_decide|]; naive_solver.
Qed.
End IndexTheorems.

(** ** Examples *)

Module IndexExamples.
#[local] Instance ports : Ports := {
  clock_now n := Datetime (Z.of_nat n) true;
  identifier n := "id-" +:+ pretty n }.

Definition ctx : ActorContext := SearchExamples.ctx.
Definition reindexer : Reindexer :=
  mkReindexer SearchExamples.tools (Some SearchExamples.provider) "model" 2.
Definition command (force dry_run : bool) : ReindexToolsCommand := mkReindexCommand ctx 2 force dry_run.
Definition environment0 : env := Env 0 0 [].

Definition pending_job : ToolSearchReindexJob :=
  mkReindexJob "job" "tenant" "admin" JobPending false 2 "model" 2 0 0 0 0 0 None
    (Datetime 0 true) None None.
Definition db0 : search_db := mkSearchDb ∅ [("job", pending_job)].

Definition docs : list ToolSearchDocument :=
  Eval vm_compute in match documents_of reindexer "tenant" with Ok l => l | Raise _ => [] end.
Lemma docs_ok : documents_of reindexer "tenant" = Ok docs.
Proof. vm_compute. reflexivity. Qed.

Lemma versions_distinct : NoDup (pt_tool_version_id <$> published_of reindexer "tenant").
Proof. apply (bool_decide_eq_true _). vm_compute. reflexivity. Qed.

Lemma index0_ok : index_ok (db_index db0).
Proof. intros scope e He. unfold db0 in He. cbn [db_index] in He. by rewrite lookup_empty in He. Qed.

Lemma jobs0_ok : jobs_ok (db_jobs db0).
Proof.
  split_and!.
  - apply (keyed_dset rj_id pending_job []), keyed_nil.
  - intros k j. simpl. destruct (decide (k = "job")); [|done]. intros [= <-]. by split.
  - intros k k' j j'. simpl. by destruct (decide (k = "job")), (decide (k' = "job")); intros; simplify_eq.
Qed.

(** The first run embeds the three tools in two batches, a second none. *)
Lemma first_run : ∃ a s', reindex_tools reindexer (command false false) (St db0 None environment0) = (Ok a, s') ∧
  (rr_pending_count a, rr_batch_count a) = (3, 2)%Z.
Proof. eexists _, _. vm_compute. split; reflexivity. Qed.

Lemma reindex_converges_witness :
  ∃ a s' a', reindex_tools reindexer (command false false) (St db0 None environment0) = (Ok a, s') ∧
    rr_embedded_count a = 3%Z ∧
    reindex_tools reindexer (command false false) (St (store s') None environment0)
      = (Ok a', St (store s') None environment0) ∧ rr_embedded_count a' = 0%Z.
Proof.
  destruct first_run as (a & s' & E & C). injection C as C1 C2.
  destruct (reindex_converges reindexer (command false false) docs db0 environment0 a s'
    index0_ok versions_distinct docs_ok eq_refl E) as (_ & _ & _ & _ & Ee & _ & _ & Hagain).
  destruct (Hagain (command false false) (Some SearchExamples.provider) environment0)
    as (a' & E' & _ & Z & _); [reflexivity|split; discriminate|reflexivity|].
  exists a, s', a'. split; [exact E|]. split; [by rewrite Ee|]. split; [exact E'|exact Z].
Defined.

(** A provider whose second batch fails: the first one is kept. *)
Definition failing : Reindexer :=
  mkReindexer SearchExamples.tools
    (Some (mkProvider "model" 2 (λ texts,
       if (length texts <? 2)%nat then Raise (Nexus EmbeddingUnavailableError)
       else Ok (map (λ _, SearchExamples.vector 0 1) texts)))) "model" 2.
Lemma failing_docs : documents_of failing "tenant" = Ok docs.
Proof. vm_compute. reflexivity. Qed.
Lemma failing_versions : NoDup (pt_tool_version_id <$> published_of failing "tenant").
Proof. apply (bool_decide_eq_true _). vm_compute. reflexivity. Qed.
Lemma failing_run : ∃ s', reindex_tools failing (command false false) (St db0 None environment0)
  = (Raise (Nexus EmbeddingUnavailableError), s') ∧ length (map_to_list (db_index (store s'))) = 2%nat.
Proof. eexists. vm_compute. split; reflexivity. Qed.

Lemma reindex_keeps_index_witness :
  ∃ s', reindex_tools failing (command false false) (St db0 None environment0)
          = (Raise (Nexus EmbeddingUnavailableError), s') ∧
    length (map_to_list (db_index (store s'))) = 2%nat ∧ index_ok (db_index (store s')).
Proof.
  destruct failing_run as (s' & E & C). exists s'. split; [exact E|]. split; [exact C|].
  exact (proj1 (reindex_keeps_index failing (command false false) docs db0 environment0 _ s'
    index0_ok failing_versions failing_docs E)).
Defined.

Lemma inspection_agrees_with_reindex_witness :
  ∃ snapshot, inspect_index reindexer true "tenant" (St db0 None environment0)
                = (Ok snapshot, St db0 None environment0) ∧
    (ix_missing_count snapshot + ix_stale_count snapshot)%Z = 3%Z.
Proof.
  destruct (inspection_agrees_with_reindex reindexer (command false true) true docs db0 environment0)
    as (snapshot & a & Ei & Er & _ & _ & Ep & _); [exact index0_ok|exact docs_ok|reflexivity|reflexivity|split; discriminate|].
  exists snapshot. split; [exact Ei|]. rewrite <-Ep. revert Er. vm_compute. by intros [= <-].
Defined.

Definition after_claim : search_db :=
  with_jobs [("job", started (Datetime 5 true) pending_job)] db0.
Lemma claim_step : store_claim "tenant" "job" (Datetime 5 true) (St db0 None environment0)
  = (Ok (Some (started (Datetime 5 true) pending_job)), St after_claim None environment0).
Proof. reflexivity. Qed.

Definition after_recovery : search_db :=
  Eval vm_compute in store (snd (recover_interrupted "tenant" (Datetime 6 true) (St after_claim None environment0))).

Lemma reindex_job_runs_once_witness :
  store_claim "tenant" "job" (Datetime 7 true) (St after_recovery None environment0)
  = (Ok None, St after_recovery None environment0).
Proof.
  destruct (reindex_job_runs_once "tenant" "job" (Datetime 5 true) db0 environment0 _ _ after_recovery
    "tenant" (Datetime 7 true) environment0 jobs0_ok claim_step) as (_ & _ & C); [|exact C].
  apply star_one. eapply (run_operation _ _ _ _ environment0);
    [apply (op_recover "tenant" (Datetime 6 true))| |]; reflexivity.
Defined.

Lemma reindex_jobs_invariant_witness :
  star job_step db0 after_claim ∧ job_shape (started (Datetime 5 true) pending_job).
Proof.
  assert (E : star job_step db0 after_claim).
  { apply star_one. eapply run_operation; [apply (op_claim "tenant" "job" (Datetime 5 true))| |];
      [exact claim_step|reflexivity]. }
  split; [exact E|]. destruct (reindex_jobs_invariant _ _ jobs0_ok E) as (Hs & _ & _).
  by apply (Hs "job").
Defined.

Lemma run_job : ∃ s', run_reindex_job reindexer "tenant" "job" (St db0 None environment0) = (Ok tt, s').
Proof. eexists. vm_compute. reflexivity. Qed.

Lemma run_reindex_job_settles_witness :
  ∃ s' j, run_reindex_job reindexer "tenant" "job" (St db0 None environment0) = (Ok tt, s') ∧
    dget "job" (db_jobs (store s')) = Some j ∧ (rj_status j = JobSucceeded ∨ rj_status j = JobFailed).
Proof.
  destruct run_job as [s' E].
  pose proof (run_reindex_job_settles reindexer "tenant" "job" db0 environment0 _ _
    versions_distinct E) as (outcome & t1 & t2 & d1 & d' & e1 & e' & _ & Hs & _ & Hout).
  assert (Hst : store s' = d') by (by rewrite Hs). rewrite <-Hst in Hout.
  exists s'. clear Hs.
  destruct outcome as [a|y]; [|destruct (is_exception y)]; destruct Hout as [Hr Hj].
  - eexists. split; [exact E|]. split; [exact Hj|]. by left.
  - eexists. split; [exact E|]. split; [exact Hj|]. by right.
  - discriminate Hr.
Defined.

(** A job that a restart recovered as FAILED while its task was still running
    is overwritten when the task ends. *)
Example late_success_overwrites_recovery :
  let s := St after_recovery None environment0 in
  (rj_status <$> dget "job" (db_jobs (store s))) = Some JobFailed ∧
  (rj_status <$> dget "job" (db_jobs (store (snd
     (store_succeed "tenant" "job" (mkReindexResult 0 0 0 0 0 "model" 2 false) (Datetime 8 true) s)))))
  = Some JobSucceeded.
Proof. split; reflexivity. Qed.
End IndexExamples.
