(* ===== verification/McpServer.v ===== *)
(** * The MCP server: listing tools and handling tool calls

    Models [interfaces/mcp/context.py], [errors.py], [meta_tools.py],
    [server.py] and the check of [http_transport.py], over the use cases of
    CallTool.v, Approval.v, ToolsetAccess.v and ToolSearch.v.  The SDK's request
    context, its result types and the identifiers it makes are data of the
    model; telemetry and logs only observe, except that telemetry may replace
    the trace id.  [float_repr] is Python's [repr] of a score. *)

From Stdlib Require Import ZArith QArith Ascii Lia.
From stdpp Require Import base sets strings option list pretty.
From S2P Require Import Prelude Text Dict Errors Json Store AuditTrail Url Catalog Connectors Registry Toolsets ToolsetAdmin.
From S2P Require Import Identity Policy Approval Execution Lifecycle Retry CallTool ToolsetAccess ToolSearch.
Open Scope py_scope.

(** ** Request context ([shared/request_context.py], [context.py]) *)

Inductive ProtocolEra := Modern | Legacy.
#[export] Instance era_eq_dec : EqDecision ProtocolEra.
Proof. solve_decision. Defined.

Record RequestContext := mkRequestContext {
  rq_actor : ActorContext;
  rq_protocol_version : string;
  rq_protocol_era : ProtocolEra }.

(** What [context.py] reads of the SDK's [ServerRequestContext]: headers and
    path parameters are [None] where the request has no such mapping. *)
Record ServerRequestContext := mkServerContext {
  sc_request_id : option string;
  sc_protocol_version : string;
  sc_headers : option (dict string);
  sc_path_params : option (dict json) }.

Definition MODERN_PROTOCOL_VERSION : string := "2026-07-28".

(** [request_headers] *)
Definition request_headers (ctx : ServerRequestContext) : dict string :=
  match sc_headers ctx with
  | None => []
  | Some headers => foldl (λ d row, dset (lower row.1) row.2 d) [] headers
  end.

(** [resolve_endpoint_scope] *)
Definition resolve_endpoint_scope (ctx : ServerRequestContext) : res McpEndpointScope :=
  match sc_path_params ctx with
  | None => root_scope
  | Some params =>
      match dget "toolset_slug" params with
      | None | Some JNull => root_scope
      | Some (JStr slug) =>
          raise_if (str_empty slug)
            (ValueError "toolset endpoint path contained an invalid slug") ;;?
          toolset_scope slug
      | Some _ => Raise (ValueError "toolset endpoint path contained an invalid slug")
      end
  end.

Definition is_hex_char (c : ascii) : bool :=
  let n := code c in
  ((48 <=? n) && (n <=? 57) || (97 <=? n) && (n <=? 102) || (65 <=? n) && (n <=? 70))%N.

Fixpoint all_hex (s : string) : bool :=
  match s with EmptyString => true | String c s' => is_hex_char c && all_hex s' end.

(** [_TRACEPARENT_PATTERN.fullmatch]: the trace id of a match. *)
Definition traceparent_id (s : string) : option string :=
  let part start len := String.substring start len s in
  if (String.length s =? 55)%nat
     && all_hex (part 0 2)%nat && bool_decide (part 2 1 = "-")%nat
     && all_hex (part 3 32)%nat && bool_decide (part 35 1 = "-")%nat
     && all_hex (part 36 16)%nat && bool_decide (part 52 1 = "-")%nat
     && all_hex (part 53 2)%nat
  then Some (part 3 32)%nat else None.

(** [_trace_id]; [fresh] is [uuid.uuid4().hex]. *)
Definition trace_id_of (headers : dict string) (fresh : string) : string :=
  match traceparent_id (default "" (dget "traceparent" headers)) with
  | Some id => lower id
  | None => fresh
  end.

Definition anonymous_principal (tenant_id : string) : InternalPrincipal :=
  mkPrincipal anonymous_principal_id tenant_id Anonymous "anonymous".

(** [resolve_request_context] *)
Definition resolve_request_context (ctx : ServerRequestContext) (tenant_id : string)
    (principal : option InternalPrincipal) (fresh_request_id fresh_trace_id : string) :
    res RequestContext :=
  let? resolved_principal := match principal with
    | Some p => Ok p
    | None => new_principal (anonymous_principal tenant_id)
    end in
  let era := if bool_decide (sc_protocol_version ctx = MODERN_PROTOCOL_VERSION)
             then Modern else Legacy in
  Ok (mkRequestContext
        (mkActorContext (default fresh_request_id (sc_request_id ctx))
           (trace_id_of (request_headers ctx) fresh_trace_id) tenant_id (ip_id resolved_principal)
           (ip_authn_method resolved_principal)
           (principal_type_value (ip_principal_type resolved_principal)))
        (sc_protocol_version ctx) era).

(** [create_app]'s [context_resolver], with an authenticator or a fixed
    principal. *)
Definition app_context_resolver (principals : option (dict InternalPrincipal))
    (static_agent : option InternalPrincipal) (tenant_id : string) (fresh : string * string)
    (ctx : ServerRequestContext) : res RequestContext :=
  let? principal := match principals with
    | None => Ok static_agent
    | Some ps =>
        let? p := authenticate ps (dget "authorization" (request_headers ctx)) tenant_id in
        Ok (Some p)
    end in
  resolve_request_context ctx tenant_id principal fresh.1 fresh.2.

(** [ModernToolsetEndpoint.__call__]: whether an HTTP request passes. *)
Definition modern_toolset_endpoint (headers : list (string * string)) : bool :=
  let headers := foldl (λ d row, dset (lower row.1) row.2 d) [] headers in
  bool_decide (dget "mcp-protocol-version" headers = Some MODERN_PROTOCOL_VERSION).

(** ** Protocol types *)

Record ProtocolTool := mkProtocolTool {
  mt_name : string;
  mt_title : string;
  mt_description : string;
  mt_input_schema : dict json;
  mt_output_schema : option (dict json);
  mt_meta : dict json }.

(** A response of the client to the approval elicitation. *)
Inductive elicit_action := ElicitAccept | ElicitDecline | ElicitCancel.
Inductive input_response :=
| ElicitResult (action : elicit_action) (content : option (dict json))
| OtherInputResponse.

Record CallToolRequestParams := mkCallParams {
  cp_name : string;
  cp_arguments : option (dict json);
  cp_request_state : option string;
  cp_input_responses : option (dict input_response);
  cp_meta : option (dict json) }.

Record McpToolResult := mkToolResult {
  mr_text : string;
  mr_structured_content : option json;
  mr_is_error : bool;
  mr_meta : dict json }.

Inductive call_response :=
| CallToolResponse (r : McpToolResult)
| InputRequiredResponse (message request_state : string) (expires_at : option string).

(** [MCPError] of [to_mcp_error], or an exception that is not mapped. *)
Inductive list_error :=
| McpError (message : string) (code : string)
| Escaped (x : exn).

(** [json.dumps(data, ensure_ascii=False, separators=(",", ":"))]: keys in
    their order. *)
Fixpoint dumps_ordered (j : json) : string :=
  match j with
  | JNull => "null"
  | JBool b => if b then "true" else "false"
  | JInt z => pretty z
  | JFloat r => r
  | JStr s => quoted s
  | JArr l => "[" +:+ str_join "," (map dumps_ordered l) +:+ "]"
  | JObj d => "{" +:+ str_join "," (map (λ kv, quoted kv.1 +:+ ":" +:+ dumps_ordered kv.2) d) +:+ "}"
  end.

(** ** [errors.py] *)

Definition existing_execution_id (e : nexus_error) : option string :=
  match e with
  | IdempotencyConflictError id | IdempotencyInProgressError id
  | IdempotencyAlreadyCompletedError id | IdempotencyOutcomeUnknownError id
  | IdempotencyPreviousFailedError id => Some id
  | _ => None
  end.

(** [to_call_tool_error] *)
Definition to_call_tool_error (e : nexus_error) : call_response :=
  CallToolResponse (mkToolResult (safe_message e) None true
    (("com.nexusmcp/errorCode", JStr (error_code e)) ::
     match existing_execution_id e with
     | Some id => [("com.nexusmcp/existingExecutionId", JStr id)]
     | None => []
     end)).

(** [to_mcp_error] *)
Definition to_mcp_error (e : nexus_error) : list_error := McpError (safe_message e) (error_code e).

(** ** [meta_tools.py] *)

Definition NEXUS_SEARCH_TOOLS_NAME : string := "nexus.search_tools".

Definition search_tools_description : string :=
  "Search the visible enterprise Tool Catalog. Use lexical for explicit names, " +:+
  "namespaces, tags, abbreviations, or domain keywords. Use hybrid for fuzzy, " +:+
  "synonymous, or cross-language intent, and when lexical candidates are insufficient.".

(** [search_tools_definition] *)
Definition search_tools_definition : ProtocolTool :=
  mkProtocolTool NEXUS_SEARCH_TOOLS_NAME "Search enterprise tools" search_tools_description
    [("type", JStr "object");
     ("properties", JObj
        [("query", JObj [("type", JStr "string"); ("minLength", JInt 1); ("maxLength", JInt 200)]);
         ("retrieval_mode", JObj [("type", JStr "string");
                                  ("enum", JArr [JStr "lexical"; JStr "hybrid"])]);
         ("limit", JObj [("type", JStr "integer"); ("minimum", JInt 1); ("maximum", JInt 10);
                         ("default", JInt 5)]);
         ("namespace", JObj [("type", JArr [JStr "string"; JStr "null"])]);
         ("side_effect", JObj [("type", JArr [JStr "string"; JStr "null"]);
            ("enum", JArr [JStr "read_only"; JStr "idempotent_write"; JStr "non_idempotent_write";
                           JStr "unknown"; JNull])])]);
     ("required", JArr [JStr "query"; JStr "retrieval_mode"]);
     ("additionalProperties", JBool false)]
    (Some [("type", JStr "object");
           ("properties", JObj [("retrievalMode", JObj [("type", JStr "string")]);
                                ("tools", JObj [("type", JStr "array");
                                                ("items", JObj [("type", JStr "object")])])]);
           ("required", JArr [JStr "retrievalMode"; JStr "tools"])])
    [("com.nexusmcp/builtIn", JBool true)].

(** [ToolRetrievalMode(mode)], [ToolSideEffect(value)] *)
Definition retrieval_mode_value (m : ToolRetrievalMode) : string :=
  match m with RetrievalLexical => "lexical" | RetrievalHybrid => "hybrid" end.
Definition retrieval_mode_of (mode : json) : option ToolRetrievalMode :=
  match mode with
  | JStr s => if bool_decide (s = "lexical") then Some RetrievalLexical
              else if bool_decide (s = "hybrid") then Some RetrievalHybrid else None
  | _ => None
  end.
Definition side_effect_filter (value : json) : option ToolSideEffect :=
  find (λ s, bool_decide (value = JStr (side_effect_value s)))
    [ReadOnly; IdempotentWrite; NonIdempotentWrite; UnknownEffect].

(** [parse_search_tools_query] *)
Definition parse_search_tools_query (ctx : RequestContext) (arguments : dict json) :
    res SearchToolsQuery :=
  let invalid := Nexus InvalidArgumentsError in
  raise_if (existsb (λ k, negb (bool_decide (k ∈ ["query"; "retrieval_mode"; "limit"; "namespace";
                                                  "side_effect"]))) (dkeys arguments)) invalid ;;?
  let? text := match dget "query" arguments with
    | Some (JStr text) => if blank text then Raise invalid else Ok text
    | _ => Raise invalid
    end in
  let? mode := match retrieval_mode_of (default JNull (dget "retrieval_mode" arguments)) with
    | Some mode => Ok mode
    | None => Raise invalid
    end in
  let? limit := match default (JInt 5) (dget "limit" arguments) with
    | JInt limit => Ok limit
    | _ => Raise invalid
    end in
  let? namespace := match default JNull (dget "namespace" arguments) with
    | JNull => Ok None
    | JStr namespace => Ok (Some namespace)
    | _ => Raise invalid
    end in
  let? side_effect := match default JNull (dget "side_effect" arguments) with
    | JNull => Ok None
    | value => match side_effect_filter value with
               | Some s => Ok (Some s)
               | None => Raise invalid
               end
    end in
  Ok (mkSearchToolsQuery (rq_actor ctx) text mode limit namespace side_effect None).

Definition opt_json {A} (f : A → json) (o : option A) : json :=
  match o with Some a => f a | None => JNull end.

(** [_candidate] *)
Definition candidate (float_repr : Q → string) (hit : ScoredHit) : json :=
  let tool := sh_tool hit in
  JObj [("name", JStr (pt_canonical_name tool)); ("title", JStr (pt_display_name tool));
        ("description", JStr (pt_description tool)); ("namespace", JStr (pt_namespace tool));
        ("owner", opt_json JStr (pt_owner tool)); ("tags", JArr (map JStr (pt_tags tool)));
        ("version", JInt (pt_version tool)); ("sideEffect", JStr (side_effect_value (pt_side_effect tool)));
        ("inputSchema", JObj (pt_input_schema tool));
        ("outputSchema", opt_json JObj (pt_output_schema tool));
        ("toolId", JStr (pt_tool_id tool)); ("toolVersionId", JStr (pt_tool_version_id tool));
        ("rank", JFloat (float_repr (sh_rank hit)))].

(** [search_tools_result] *)
Definition search_tools_result (float_repr : Q → string) (r : SearchToolsResult) : call_response :=
  let mode := retrieval_mode_value (str_retrieval_mode r) in
  let data := JObj [("retrievalMode", JStr mode);
                    ("tools", JArr (map (candidate float_repr) (str_hits r)))] in
  CallToolResponse (mkToolResult (dumps_ordered data) (Some data) false
    (("com.nexusmcp/searchStrategyUsed", JStr mode) ::
     ("com.nexusmcp/candidateCount", JInt (Z.of_nat (length (str_hits r)))) ::
     match str_index_version r with
     | Some version => [("com.nexusmcp/indexVersion", JStr version)]
     | None => []
     end)).

(** ** [server.py]: pure parts *)

(** [_search_first] *)
Definition search_first_of (access : option ResolvedToolsetAccess) (root_search_first : bool) : bool :=
  match access with
  | Some a =>
      match sc_type (ra_endpoint_scope a) with
      | ToolsetAccess.ScopeRoot => root_search_first
      | ToolsetAccess.ScopeToolset => bool_decide (ra_discovery_mode a = Some Toolsets.ModeSearchFirst)
      end
  | None => root_search_first
  end.

(** [_meta_search_visible] *)
Definition meta_search_visible (access : option ResolvedToolsetAccess) (root_search_first : bool) :
    bool :=
  match access with
  | Some a =>
      match sc_type (ra_endpoint_scope a) with
      | ToolsetAccess.ScopeRoot => true
      | ToolsetAccess.ScopeToolset => search_first_of access root_search_first
      end
  | None => true
  end.

(** [_execution_scope_type] *)
Definition execution_scope_type (access : option ResolvedToolsetAccess) : McpScopeType :=
  match access with
  | Some a => match sc_type (ra_endpoint_scope a) with
              | ToolsetAccess.ScopeToolset => Execution.ScopeToolset
              | ToolsetAccess.ScopeRoot => Execution.ScopeRoot
              end
  | None => Execution.ScopeRoot
  end.

(** [_filter_search_result] *)
Definition filter_search_result (r : SearchToolsResult) (a : ResolvedToolsetAccess) :
    SearchToolsResult :=
  let hits := filter (λ h, pt_tool_id (sh_tool h) ∈ available_tool_ids a) (str_hits r) in
  mkSearchToolsResult hits (str_retrieval_mode r) (str_index_version r)
    (foldl (λ d h, match dget (identity_of h) (str_diagnostics r) with
                   | Some v => dset (identity_of h) v d
                   | None => d end) [] hits).

(** [_protocol_output_schema] *)
Definition protocol_output_schema (schema : option (dict json)) (ctx : RequestContext) :
    option (dict json) :=
  match schema with
  | None => None
  | Some s =>
      if bool_decide (rq_protocol_era ctx = Legacy)
         && negb (bool_decide (dget "type" s = Some (JStr "object")))
      then None else Some s
  end.

(** [_protocol_structured_content] *)
Definition protocol_structured_content (data : json) (ctx : RequestContext) : option json :=
  match rq_protocol_era ctx, data with
  | Legacy, JObj _ | Modern, _ => Some data
  | Legacy, _ => None
  end.

(** [_idempotency_key] *)
Definition idempotency_key_of (params : CallToolRequestParams) : res (option string) :=
  match dget "com.nexusmcp/idempotencyKey" (default [] (cp_meta params)) with
  | None | Some JNull => Ok None
  | Some (JStr value) =>
      if is_valid_idempotency_key value then Ok (Some value) else Raise (Nexus InvalidArgumentsError)
  | Some _ => Raise (Nexus InvalidArgumentsError)
  end.

(** [_approval_input_required] *)
Definition approval_input_required (tool_name approval_id : string) (expires_at : option string) :
    call_response :=
  InputRequiredResponse ("Approve one call to " +:+ tool_name +:+ "?") approval_id expires_at.

(** The [types.Tool] of a published tool. *)
Definition protocol_tool (ctx : RequestContext) (t : PublishedTool) : ProtocolTool :=
  mkProtocolTool (pt_canonical_name t) (pt_display_name t) (pt_description t) (pt_input_schema t)
    (protocol_output_schema (pt_output_schema t) ctx)
    [("com.nexusmcp/toolId", JStr (pt_tool_id t));
     ("com.nexusmcp/toolVersionId", JStr (pt_tool_version_id t));
     ("com.nexusmcp/toolVersion", JInt (pt_version t))].

(** ** [server.py]: the handlers *)

(** The collaborators of [create_mcp_server]; an optional one is [None] where
    it is not configured.  [sv_trace_id] is the trace id telemetry observed. *)
Record McpServices (D : Type) := mkServices {
  sv_context_resolver : ServerRequestContext → res RequestContext;
  sv_trace_id : RequestContext → option string;
  sv_list_visible_tools : ActorContext → res (list PublishedTool);
  sv_call_tool : option (CallToolCommand → M D CallToolResult);
  sv_search_tools : option (SearchToolsQuery → res SearchToolsResult);
  sv_search_first : bool;
  sv_decide_approval : option (DecideApprovalCommand → M D ApprovalRequest);
  sv_resolve_toolset_access : option (ActorContext → McpEndpointScope → res ResolvedToolsetAccess);
  sv_scope_audit : option (RecordMcpScopeDenialCommand → M D unit);
  sv_float_repr : Q → string }.
Arguments sv_context_resolver {D}.
Arguments sv_trace_id {D}.
Arguments sv_list_visible_tools {D}.
Arguments sv_call_tool {D}.
Arguments sv_search_tools {D}.
Arguments sv_search_first {D}.
Arguments sv_decide_approval {D}.
Arguments sv_resolve_toolset_access {D}.
Arguments sv_scope_audit {D}.
Arguments sv_float_repr {D}.

(** [replace(request_context, trace_id=observation.trace_id or request_context.trace_id)] *)
Definition observed (trace_id : option string) (ctx : RequestContext) : RequestContext :=
  match trace_id with
  | Some id =>
      if str_empty id then ctx
      else
        let a := rq_actor ctx in
        mkRequestContext
          (mkActorContext (ctx_request_id a) id (ctx_tenant_id a) (ctx_principal_id a)
             (ctx_authn_method a) (ctx_principal_type a))
          (rq_protocol_version ctx) (rq_protocol_era ctx)
  | None => ctx
  end.

Section Server.
Context {D : Type} (sv : McpServices D).

(** [_resolve_toolset_access] *)
Definition resolve_access (scope : McpEndpointScope) (ctx : RequestContext) :
    res (option ResolvedToolsetAccess) :=
  match sv_resolve_toolset_access sv with
  | None => Ok None
  | Some resolver => let? access := resolver (rq_actor ctx) scope in Ok (Some access)
  end.

(** The [try] block of [on_list_tools]. *)
Definition listed_tools (raw : ServerRequestContext) (ctx : RequestContext) : res (list ProtocolTool) :=
  let? scope := resolve_endpoint_scope raw in
  let? access := resolve_access scope ctx in
  let? tools :=
    if search_first_of access (sv_search_first sv) then Ok []
    else match access with
         | Some a => Ok (ra_tools a)
         | None => sv_list_visible_tools sv (rq_actor ctx)
         end in
  let protocol_tools := map (protocol_tool ctx) tools in
  Ok (if negb (is_none (sv_search_tools sv)) && meta_search_visible access (sv_search_first sv)
      then search_tools_definition :: protocol_tools else protocol_tools).

(** [on_list_tools] *)
Definition on_list_tools (raw : ServerRequestContext) : result list_error (list ProtocolTool) :=
  match sv_context_resolver sv raw with
  | Raise x => Raise (Escaped x)
  | Ok ctx =>
      match listed_tools raw (observed (sv_trace_id sv ctx) ctx) with
      | Ok tools => Ok tools
      | Raise (Nexus e) => Raise (to_mcp_error e)
      | Raise x => Raise (Escaped x)
      end
  end.

(** [_record_scope_denial]: a failure of the audit is logged. *)
Definition server_scope_denial (e : nexus_error) (ctx : RequestContext) (scope : McpEndpointScope)
    (params : CallToolRequestParams) (access : option ResolvedToolsetAccess) : M D unit :=
  match sv_scope_audit sv with
  | None => ret tt
  | Some record =>
      if negb (is_toolset_scope_error e) then ret tt
      else
        try_except (
          let* digest := lift (canonical_json_digest (JObj (default [] (cp_arguments params)))) in
          record (mkRecordDenial (rq_actor ctx) (cp_name params) digest (error_code e)
                    (match sc_type scope with
                     | ToolsetAccess.ScopeToolset => Execution.ScopeToolset
                     | ToolsetAccess.ScopeRoot => Execution.ScopeRoot end)
                    (sc_toolset_slug scope)
                    (access ≫= ra_toolset_id) (access ≫= ra_toolset_revision)))
          (λ x, if is_exception x then ret tt else raise x)
  end.

(** [_resolve_interactive_approval] *)
Definition resolve_interactive_approval (params : CallToolRequestParams) (ctx : RequestContext) :
    M D unit :=
  let mismatch := Nexus ApprovalMismatchError in
  match cp_input_responses params with
  | None => ret tt
  | Some responses =>
      match cp_request_state params, sv_decide_approval sv with
      | Some approval_id, Some decide_approval =>
          lift (raise_if (negb (bool_decide (remove_dups (dkeys responses) = ["approval"]))) mismatch) ;;*
          match dget "approval" responses with
          | Some (ElicitResult action content) =>
              let* approved := lift (match action with
                | ElicitAccept =>
                    if bool_decide (content ≫= dget "approved" = Some (JBool true))
                    then Ok true else Raise mismatch
                | _ => Ok false
                end) in
              decide_approval (mkDecideApproval (rq_actor ctx) approval_id approved) ;;*
              ret tt
          | _ => raise mismatch
          end
      | _, _ => raise mismatch
      end
  end.

(** The meta tool: the [try] block. *)
Definition run_meta_tool (search : SearchToolsQuery → res SearchToolsResult)
    (params : CallToolRequestParams) (ctx : RequestContext) (access : option ResolvedToolsetAccess) :
    res SearchToolsResult :=
  raise_if (negb (meta_search_visible access (sv_search_first sv))) (Nexus ToolsetAccessDeniedError) ;;?
  let? query := parse_search_tools_query ctx (default [] (cp_arguments params)) in
  match access with
  | None => search query
  | Some a =>
      let? r := search (mkSearchToolsQuery (stq_context query) (stq_text query)
                          (stq_retrieval_mode query) (stq_limit query) (stq_namespace query)
                          (stq_side_effect query) (Some (sorted_set (available_tool_ids a)))) in
      Ok (filter_search_result r a)
  end.

(** A business tool: the [try] block. *)
Definition run_business_tool (call_tool : CallToolCommand → M D CallToolResult)
    (params : CallToolRequestParams) (ctx : RequestContext) (access : option ResolvedToolsetAccess) :
    M D CallToolResult :=
  match access with
  | Some a => lift (require_business_tool a (cp_name params))
  | None => ret tt
  end ;;*
  resolve_interactive_approval params ctx ;;*
  let* key := lift (idempotency_key_of params) in
  let* command := lift (new_call_tool_command
    (mkCallTool (rq_actor ctx) (cp_name params) (default [] (cp_arguments params)) key
       (cp_request_state params) (execution_scope_type access)
       (access ≫= ra_toolset_id) (access ≫= ra_toolset_revision))) in
  call_tool command.

Definition business_result (ctx : RequestContext) (r : CallToolResult) : call_response :=
  CallToolResponse (mkToolResult
    (match cr_data r with JStr text => text | data => dumps_ordered data end)
    (protocol_structured_content (cr_data r) ctx) false
    [("com.nexusmcp/executionId", JStr (cr_execution_id r));
     ("com.nexusmcp/upstreamStatus", opt_json JInt (cr_upstream_status r));
     ("com.nexusmcp/attemptCount", JInt (cr_attempt_count r))]).

(** [on_call_tool] for a call of the meta tool. *)
Definition on_meta_call (scope : McpEndpointScope) (params : CallToolRequestParams)
    (ctx : RequestContext) (access : option ResolvedToolsetAccess) : M D call_response :=
  match sv_search_tools sv with
  | None => ret (to_call_tool_error NexusMcpError)
  | Some search =>
      match run_meta_tool search params ctx access with
      | Ok r => ret (search_tools_result (sv_float_repr sv) r)
      | Raise (Nexus e) =>
          server_scope_denial e ctx scope params access ;;* ret (to_call_tool_error e)
      | Raise x => if is_exception x then ret (to_call_tool_error NexusMcpError) else raise x
      end
  end.

(** [on_call_tool] for a call of a business tool. *)
Definition on_business_call (scope : McpEndpointScope) (params : CallToolRequestParams)
    (ctx : RequestContext) (access : option ResolvedToolsetAccess) : M D call_response :=
  match sv_call_tool sv with
  | None => ret (to_call_tool_error NexusMcpError)
  | Some call_tool =>
      let* outcome := capture (run_business_tool call_tool params ctx access) in
      match outcome with
      | Ok r => ret (business_result ctx r)
      | Raise (Nexus (ApprovalRequiredError approval_id expires_at as e)) =>
          match approval_id, rq_protocol_era ctx with
          | Some id, Modern => ret (approval_input_required (cp_name params) id expires_at)
          | _, _ => ret (to_call_tool_error e)
          end
      | Raise (Nexus e) =>
          server_scope_denial e ctx scope params access ;;* ret (to_call_tool_error e)
      | Raise x => if is_exception x then ret (to_call_tool_error NexusMcpError) else raise x
      end
  end.

(** [on_call_tool] *)
Definition on_call_tool (raw : ServerRequestContext) (params : CallToolRequestParams) :
    M D call_response :=
  match sv_context_resolver sv raw with
  | Raise (Nexus e) => ret (to_call_tool_error e)
  | Raise x => raise x
  | Ok resolved =>
      let ctx := observed (sv_trace_id sv resolved) resolved in
      let* scope := lift (resolve_endpoint_scope raw) in
      match resolve_access scope ctx with
      | Raise (Nexus e) =>
          server_scope_denial e ctx scope params None ;;* ret (to_call_tool_error e)
      | Raise x => raise x
      | Ok access =>
          if bool_decide (cp_name params = NEXUS_SEARCH_TOOLS_NAME)
          then on_meta_call scope params ctx access
          else on_business_call scope params ctx access
      end
  end.
End Server.

(** ** Every call is answered *)

Section Answers.
Context {D : Type} (sv : McpServices D).

(** The denial record stops a call only where it is cancelled. *)
Lemma server_scope_denial_run e ctx scope params access s r s' :
  server_scope_denial sv e ctx scope params access s = (r, s') → r = Ok tt ∨ r = Raise CancelledError.
Proof.
  unfold server_scope_denial. destruct (sv_scope_audit sv) as [record|]; [|intros [= <- _]; auto].
  destruct (negb _); [intros [= <- _]; auto|].
  unfold try_except. destruct (bind _ _ s) as [[[]|x] s1]; [intros [= <- _]; auto|].
  destruct x; simpl; intros [= <- _]; auto.
Qed.

Lemma denial_then_error e ctx scope params access s r s' :
  (server_scope_denial sv e ctx scope params access ;;* ret (to_call_tool_error e))%py s = (r, s') →
  r = Ok (to_call_tool_error e) ∨ r = Raise CancelledError.
Proof.
  intros Hr. apply bind_inv in Hr as [([] & s1 & Hd & Hr)|(y & Hd & ->)].
  - unfold ret in Hr. simplify_eq. by left.
  - apply server_scope_denial_run in Hd as [|[= ->]]; [done|by right].
Qed.

(** An exception that is not one of the program's own. *)
Definition foreign (x : exn) : Prop := match x with Nexus _ => False | _ => True end.

(** What is raised before the handlers of tools/call: a foreign exception of
    the context resolver, any of the reading of the endpoint's path, a foreign
    exception of the access resolution. *)
Definition escapes (raw : ServerRequestContext) (x : exn) : Prop :=
  (sv_context_resolver sv raw = Raise x ∧ foreign x) ∨
  ∃ resolved, sv_context_resolver sv raw = Ok resolved ∧
    (resolve_endpoint_scope raw = Raise x ∨
     ∃ scope, resolve_endpoint_scope raw = Ok scope ∧
       resolve_access sv scope (observed (sv_trace_id sv resolved) resolved) = Raise x ∧ foreign x).

(** C5: a tool call is answered, or what interrupts it is known.  tools/call
    returns a response whatever the search, the approval decision, the executor
    and the audit do, be it with errors of the program or with foreign
    exceptions; it raises only a cancellation, a foreign exception of the context
    resolver or of the access resolution, or an error of the reading of the
    endpoint's path, which come before its handlers. *)
Theorem tool_call_is_answered raw params s :
  (∃ response, (on_call_tool sv raw params s).1 = Ok response) ∨
  ∃ x, (on_call_tool sv raw params s).1 = Raise x ∧ (x = CancelledError ∨ escapes raw x).
Proof.
  assert (Hmeet : ∀ r : res call_response,
    (∃ response, r = Ok response) ∨ r = Raise CancelledError →
    (∃ response, r = Ok response) ∨ ∃ x, r = Raise x ∧ (x = CancelledError ∨ escapes raw x))
    by (intros r [?| ->]; eauto).
  destruct (on_call_tool sv raw params s) as [r s'] eqn:Hr. cbn [fst]. unfold on_call_tool in Hr.
  destruct (sv_context_resolver sv raw) as [resolved|x] eqn:Ec.
  2: { destruct x as [| | | | | | | |e]; unfold ret, raise in Hr; simplify_eq; [..|by left; eexists];
         right; eexists; (split; [done|]); right; left; (split; [exact Ec|exact I]). }
  destruct (resolve_endpoint_scope raw) as [scope|x] eqn:Es.
  2: { unfold bind, lift in Hr. simplify_eq. right. eexists. split; [done|]. right. right. eauto 10. }
  cbv zeta in Hr. unfold bind at 1, lift at 1 in Hr.
  destruct (resolve_access sv scope _) as [access|x] eqn:Ea.
  2: { destruct x as [| | | | | | | |e];
         [..|apply Hmeet; apply denial_then_error in Hr as [->| ->]; eauto];
         unfold raise in Hr; simplify_eq; right; eexists; (split; [done|]); right; right;
         exists resolved; (split; [done|]); right; exists scope; by split_and!. }
  apply Hmeet. set (ctx := observed _ resolved) in *.
  destruct (bool_decide _).
  - unfold on_meta_call in Hr. destruct (sv_search_tools sv) as [search|];
      [|unfold ret in Hr; simplify_eq; eauto].
    destruct (run_meta_tool sv search params ctx access) as [found|x];
      [unfold ret in Hr; simplify_eq; eauto|].
    destruct x; cbn [is_exception] in Hr; try (unfold ret, raise in Hr; simplify_eq; eauto; fail).
    apply denial_then_error in Hr as [->| ->]; eauto.
  - unfold on_business_call in Hr. destruct (sv_call_tool sv) as [call|];
      [|unfold ret in Hr; simplify_eq; eauto].
    rewrite capture_bind in Hr. destruct (run_business_tool _ _ _ _ _ _) as [[result|x] s1]; cbn [fst snd] in Hr;
      [unfold ret in Hr; simplify_eq; eauto|].
    destruct x as [| | | | | | | |e]; cbn [is_exception] in Hr;
      try (unfold ret, raise in Hr; simplify_eq; eauto; fail).
    destruct e; try (apply denial_then_error in Hr as [->| ->]; eauto; fail).
    repeat case_match; unfold ret in Hr; simplify_eq; eauto.
Qed.
End Answers.

(** ** Scopes *)

Lemma quiet_scope_denial `{Ports} c (s : st execution_store) r s' :
  record_scope_denial c s = (r, s') → io_log (environment s') = io_log (environment s).
Proof.
  assert (Hq : quiet (D := execution_store) (record_scope_denial c))
    by (unfold record_scope_denial, audits_append; quiet_solve).
  apply quiet_log, Hq.
Qed.

(** C3: no call leaves its endpoint.  A call at an endpoint whose resolved
    access does not have the tool is answered with the error "unavailable" or
    "access denied" before anything else happens: no execution, no attempt, no
    approval, no call to the outside; at most one DENIED event is added to the
    audit trail, for no execution. *)
Theorem call_outside_scope_runs_nothing `{Ports} (sv : McpServices execution_store)
    raw params resolved scope a d e r s' :
  (sv_scope_audit sv = None ∨ sv_scope_audit sv = Some record_scope_denial) →
  sv_context_resolver sv raw = Ok resolved → resolve_endpoint_scope raw = Ok scope →
  resolve_access sv scope (observed (sv_trace_id sv resolved) resolved) = Ok (Some a) →
  cp_name params ≠ NEXUS_SEARCH_TOOLS_NAME → is_Some (sv_call_tool sv) →
  cp_name params ∉ (pt_canonical_name <$> ra_tools a) →
  on_call_tool sv raw params (St d None e) = (r, s') →
  ∃ d', store s' = d' ∧ es_executions d' = es_executions d ∧ es_attempts d' = es_attempts d ∧
    es_approvals d' = es_approvals d ∧ io_log (environment s') = io_log e ∧
    (es_audits d' = es_audits d ∨
     ∃ ev, dget (ae_id ev) (es_audits d) = None ∧ ae_outcome ev = OutDenied ∧
       ae_execution_id ev = None ∧ es_audits d' = dset (ae_id ev) ev (es_audits d)) ∧
    (r = Raise CancelledError ∨
     r = Ok (to_call_tool_error (if bool_decide (cp_name params ∈ ra_unavailable_tool_names a)
                                 then ToolsetMemberUnavailableError else ToolsetAccessDeniedError))).
Proof.
  intros Haudit Hc Hs Ha Hname [call Hcall] Hout Hr. unfold on_call_tool in Hr. rewrite Hc, Hs in Hr.
  cbv zeta in Hr. unfold bind at 1, lift at 1 in Hr. rewrite Ha, bool_decide_false in Hr by done.
  unfold on_business_call in Hr. rewrite Hcall, capture_bind in Hr.
  set (err := if bool_decide (cp_name params ∈ ra_unavailable_tool_names a)
              then ToolsetMemberUnavailableError else ToolsetAccessDeniedError) in *.
  assert (Hreq : require_business_tool a (cp_name params) = Raise (Nexus err)).
  { unfold require_business_tool. destruct (existsb _ _) eqn:Ex.
    - apply existsb_exists in Ex as (t & Ht & E). apply bool_decide_eq_true in E.
      destruct Hout. rewrite <-E. apply list_elem_of_fmap_2. by apply list_elem_of_In.
    - unfold err. by case_bool_decide. }
  unfold run_business_tool in Hr. unfold bind at 2, lift in Hr. rewrite Hreq in Hr.
  cbn [fst snd] in Hr.
  assert (Hr' : (server_scope_denial sv err (observed (sv_trace_id sv resolved) resolved) scope params
            (Some a) ;;* ret (to_call_tool_error err))%py (St d None e) = (r, s')).
  { unfold err in *. by case_bool_decide. }
  clear Hr. pose proof Hr' as Hresp. apply denial_then_error in Hresp.
  assert (Hstate : ∃ s1 r1, server_scope_denial sv err (observed (sv_trace_id sv resolved) resolved)
            scope params (Some a) (St d None e) = (r1, s1) ∧ s' = s1).
  { apply bind_inv in Hr' as [([] & s1 & Hd & Hr)|(y & Hd & ->)]; [|eauto].
    unfold ret in Hr. simplify_eq. eauto. }
  destruct Hstate as (s1 & r1 & Hd & ->). unfold server_scope_denial in Hd.
  assert (Hanswer : r = Raise CancelledError ∨ r = Ok (to_call_tool_error err)) by tauto.
  clear Hresp Hr'.
  destruct Haudit as [Haudit|Haudit]; rewrite Haudit in Hd.
  { unfold ret in Hd. simplify_eq. eexists. split_and!; eauto. }
  destruct (negb _); [unfold ret in Hd; simplify_eq; eexists; split_and!; eauto|].
  unfold try_except in Hd.
  destruct (bind _ _ (St d None e)) as [r2 s2] eqn:Eb.
  assert (Es : s1 = s2) by (destruct r2 as [|x]; [|destruct x]; simpl in Hd; unfold ret, raise in Hd; by simplify_eq).
  subst s2. unfold bind, lift in Eb.
  destruct (canonical_json_digest _) as [digest|]; [|simplify_eq; eexists; split_and!; eauto].
  pose proof (quiet_scope_denial _ _ _ _ Eb) as Hlog.
  apply record_scope_denial_run in Eb as (e2 & [(y & _ & ->)|(ev & _ & Hf & Ho & Hx & ->)]);
    (eexists; split; [reflexivity|]); do 3 (split; [reflexivity|]); (split; [exact Hlog|]);
    (split; [|exact Hanswer]); [by left|right].
  exists ev. by split_and!.
Qed.

(** ** The meta tool at an endpoint *)

(** The filter after the search has nothing to remove: the search was already
    restricted to the endpoint's tools. *)
Lemma filter_hits_id (a : ResolvedToolsetAccess) (hits : list ScoredHit) :
  (∀ h, h ∈ hits → pt_tool_id (sh_tool h) ∈ available_tool_ids a) →
  filter (λ h, pt_tool_id (sh_tool h) ∈ available_tool_ids a) hits = hits.
Proof.
  induction hits as [|h hits IH]; intros Hin; [done|]. rewrite filter_cons_True by (apply Hin; by left).
  f_equal. apply IH. intros. apply Hin. by right.
Qed.

Lemma run_meta_tool_hits {D} (sv : McpServices D) tools deps params ctx a r :
  scoped_deps tools deps →
  run_meta_tool sv (search_tools deps) params ctx (Some a) = Ok r →
  ∃ q found, parse_search_tools_query ctx (default [] (cp_arguments params)) = Ok q ∧
    search_tools deps (mkSearchToolsQuery (stq_context q) (stq_text q) (stq_retrieval_mode q)
      (stq_limit q) (stq_namespace q) (stq_side_effect q) (Some (sorted_set (available_tool_ids a))))
      = Ok found ∧
    str_hits r = str_hits found ∧
    ∀ h, h ∈ str_hits r → pt_tool_id (sh_tool h) ∈ available_tool_ids a.
Proof.
  intros Hdeps Hr. unfold run_meta_tool in Hr. apply rbind_Ok_inv in Hr as (? & _ & Hr).
  apply rbind_Ok_inv in Hr as (q & Hq & Hr). apply rbind_Ok_inv in Hr as (found & Hf & Hr).
  injection Hr as <-. exists q, found. split; [done|]. split; [done|]. cbn [str_hits filter_search_result].
  assert (Hin : ∀ h, h ∈ str_hits found → pt_tool_id (sh_tool h) ∈ available_tool_ids a).
  { intros h Hh. destruct (search_tools_scoped _ _ _ _ Hdeps Hf h Hh) as (_ & _ & _ & Hel & _).
    apply elem_of_sorted_set. by apply Hel. }
  rewrite filter_hits_id by done. by split.
Qed.

(** *** The arguments of the search tool *)

Lemma parse_context ctx arguments q :
  parse_search_tools_query ctx arguments = Ok q → stq_context q = rq_actor ctx.
Proof.
  unfold parse_search_tools_query. intros H.
  repeat (apply rbind_Ok_inv in H as (? & _ & H)). by injection H as <-.
Qed.

(** A search through an endpoint shows what the endpoint serves.  Where
    tools/call of the search tool at an endpoint with a resolved access is
    answered without an error, the answer presents a result all of whose hits
    are tools of that access, found by the search restricted to them, permitted
    to the caller by the policy and of the caller's tenant. *)
Theorem endpoint_search_shows_its_tools {D} (sv : McpServices D) tools deps raw params resolved scope a
    s response s' :
  let ctx := observed (sv_trace_id sv resolved) resolved in
  scoped_deps tools deps → sv_search_tools sv = Some (search_tools deps) →
  sv_context_resolver sv raw = Ok resolved → resolve_endpoint_scope raw = Ok scope →
  resolve_access sv scope ctx = Ok (Some a) →
  cp_name params = NEXUS_SEARCH_TOOLS_NAME →
  on_call_tool sv raw params s = (Ok response, s') →
  (∃ e, response = to_call_tool_error e) ∨
  (s' = s ∧ ∃ found, response = search_tools_result (sv_float_repr sv) found ∧
     ∀ h, h ∈ str_hits found →
       pt_tool_id (sh_tool h) ∈ available_tool_ids a ∧
       pt_tenant_id (sh_tool h) = ctx_tenant_id (rq_actor ctx) ∧
       is_visible_to (sh_tool h) (ctx_principal_id (rq_actor ctx)) = true ∧
       ∃ principal digest d, std_resolve_principal deps (rq_actor ctx) = Ok principal ∧
         std_evaluate_policy deps (call_input (rq_actor ctx) principal digest h) = Ok d ∧
         pd_effect d ≠ Deny).
Proof.
  intros ctx Hdeps Hsearch Hc Hs Ha Hname Hr. unfold on_call_tool in Hr. rewrite Hc, Hs in Hr.
  cbv zeta in Hr. fold ctx in Hr. unfold bind at 1, lift at 1 in Hr.
  rewrite Ha, bool_decide_true in Hr by done. unfold on_meta_call in Hr. rewrite Hsearch in Hr.
  destruct (run_meta_tool sv (search_tools deps) params ctx (Some a)) as [r|x] eqn:Em.
  - unfold ret in Hr. injection Hr as <- <-. right. split; [done|]. exists r. split; [done|].
    destruct (run_meta_tool_hits _ _ _ _ _ _ _ Hdeps Em) as (q & found & Hq & Hf & -> & Hin).
    assert (Hctx : stq_context q = rq_actor ctx) by (by eapply parse_context).
    intros h Hh. split; [by apply Hin|].
    destruct (search_tools_scoped _ _ _ _ Hdeps Hf h Hh) as (_ & Ht & Hv & _).
    destruct (search_tools_permitted _ _ _ h Hf Hh) as (p & digest & dec & Hp & Hd & Hne).
    simpl in *. rewrite Hctx in *. eauto 10.
  - left. destruct x; cbn [is_exception] in Hr; try (unfold ret, raise in Hr; simplify_eq; eauto; fail).
    apply denial_then_error in Hr as [[= ->]|]; [eauto|done].
Qed.

(** ** The ledger under tool calls *)

Section Ledger.
Context `{Ports} `{EndpointPolicy}.

(** A decision: a step of the approvals, and one of the audit trail. *)
Lemma decided_steps d a a' ev :
  ledger_ok d → dget (ar_id a) (es_approvals d) = Some a → moves a a' → ar_id a' = ar_id a →
  dget (ae_id ev) (es_audits d) = None → ae_execution_id ev = None →
  star ledger_step d
    (mkExecutionStore (es_executions d) (es_attempts d) (dset (ar_id a') a' (es_approvals d))
       (dset (ae_id ev) ev (es_audits d))).
Proof.
  intros Hok Ha Hm Hid Hev Hx. eapply star_step.
  - apply step_approvals. by eapply evolves_save; [apply Hok|exact Ha|exact Hm].
  - apply star_one. by apply (step_event (mkExecutionStore _ _ _ _) ev).
Qed.

(** [DecideApproval] on the execution stores. *)
Lemma safe_decide_approval c : ledger_safe (decide_approval c).
Proof.
  intros d e r s' Hok Hr.
  assert (Hk : keyed ar_id (es_approvals d)) by apply Hok.
  unfold decide_approval, approvals_get, approvals_save, approvals_require_tenant,
    require_pending_decision, audits_append in Hr.
  run_uow Hr; try (eexists _, _; split; [reflexivity|apply star_refl]);
    eexists _, _; (split; [reflexivity|]);
    match goal with G : dget (da_approval_id c) _ = Some ?a |- _ =>
      pose proof (keyed_get _ _ _ _ Hk G) as Hid; rewrite <-Hid in G end;
    repeat match goal with
    | G : approve _ _ _ = Ok _ |- _ => apply decide_as_Ok in G as (? & ? & ? & ->)
    | G : reject _ _ _ = Ok _ |- _ => apply decide_as_Ok in G as (? & ? & ? & ->)
    | G : new_audit_event _ = Ok _ |- _ => apply new_audit_event_Ok in G as ->
    | G : dmem _ _ = false |- _ => apply dmem_false in G
    end.
  - apply star_one, step_approvals. eapply evolves_save; [done|eassumption|].
    eapply expire_moves; [eassumption|]. done.
  - apply (decided_steps d a); try done. apply moves_decide; auto.
  - apply (decided_steps d a); try done. apply moves_decide; auto.
Qed.

(** The services of a server over the execution stores: the modelled use
    cases, each where it is configured. *)
Record ledger_services (sv : McpServices execution_store) : Prop := {
  ls_call_tool : ∀ call c, sv_call_tool sv = Some call → ledger_safe (call c);
  ls_decide : ∀ decide c, sv_decide_approval sv = Some decide → ledger_safe (decide c);
  ls_audit : ∀ record c, sv_scope_audit sv = Some record → ledger_safe (record c) }.

Lemma safe_try {A} (m : M execution_store A) h :
  ledger_safe m → (∀ x, ledger_safe (h x)) → ledger_safe (try_except m h).
Proof.
  intros Hm Hh d e r s' Hok Hr. unfold try_except in Hr. destruct (m _) as [[a|x] s1] eqn:E.
  - simplify_eq. by eapply Hm.
  - destruct (Hm _ _ _ _ Hok E) as (d1 & e1 & -> & Hs).
    destruct (Hh x _ _ _ _ (ledger_steps_ok _ _ Hok Hs) Hr) as (d2 & e2 & -> & Hs2).
    eexists _, _. split; [done|by eapply star_trans].
Qed.

Lemma safe_server_scope_denial sv e ctx scope params access :
  ledger_services sv → ledger_safe (server_scope_denial sv e ctx scope params access).
Proof.
  intros Hsv. unfold server_scope_denial. destruct (sv_scope_audit sv) as [record|] eqn:Es;
    [|apply safe_ret]. destruct (negb _); [apply safe_ret|].
  apply safe_try; [apply safe_bind; [apply safe_lift|]; intros; by eapply ls_audit|].
  intros x. destruct (is_exception x); [apply safe_ret|apply safe_raise].
Qed.

Lemma safe_interactive_approval sv params ctx :
  ledger_services sv → ledger_safe (resolve_interactive_approval sv params ctx).
Proof.
  intros Hsv. unfold resolve_interactive_approval.
  destruct (cp_input_responses params) as [responses|]; [|apply safe_ret].
  destruct (cp_request_state params) as [id|]; [|apply safe_raise].
  destruct (sv_decide_approval sv) as [decide|] eqn:Ed; [|apply safe_raise].
  apply safe_bind; [apply safe_lift|intros _].
  destruct (dget "approval" responses) as [[action content|]|]; try apply safe_raise.
  apply safe_bind; [apply safe_lift|intros approved].
  apply safe_bind; [by eapply ls_decide|intros; apply safe_ret].
Qed.

Lemma safe_on_call_tool sv raw params :
  ledger_services sv → ledger_safe (on_call_tool sv raw params).
Proof.
  intros Hsv. unfold on_call_tool. destruct (sv_context_resolver sv raw) as [resolved|x];
    [|destruct x; apply safe_ret || apply safe_raise].
  apply safe_bind; [apply safe_lift|intros scope].
  assert (Hdenial : ∀ e ctx access, ledger_safe
    (server_scope_denial sv e ctx scope params access ;;* ret (to_call_tool_error e))%py)
    by (intros; apply safe_bind; [by apply safe_server_scope_denial|intros; apply safe_ret]).
  destruct (resolve_access _ _ _) as [access|x]; [|destruct x; try apply safe_raise; apply Hdenial].
  destruct (bool_decide _).
  - unfold on_meta_call. destruct (sv_search_tools sv); [|apply safe_ret].
    destruct (run_meta_tool _ _ _ _ _) as [|x]; [apply safe_ret|].
    destruct x; simpl; try apply safe_ret; try apply safe_raise; apply Hdenial.
  - unfold on_business_call. destruct (sv_call_tool sv) as [call|] eqn:Ec; [|apply safe_ret].
    apply safe_bind.
    + apply safe_capture. unfold run_business_tool.
      apply safe_bind; [destruct access; [apply safe_lift|apply safe_ret]|intros _].
      apply safe_bind; [by apply safe_interactive_approval|intros _].
      apply safe_bind; [apply safe_lift|intros key]. apply safe_bind; [apply safe_lift|intros c].
      by eapply ls_call_tool.
    + intros [result|x]; [apply safe_ret|].
      destruct x as [| | | | | | | |e]; cbn [is_exception]; try apply safe_ret; try apply safe_raise.
      destruct e; try apply Hdenial. repeat case_match; apply safe_ret.
Qed.

(** Requests of any number of callers, one after the other. *)
Inductive serves_call (sv : McpServices execution_store) : execution_store → execution_store → Prop :=
| one_call raw params d e r s' :
    on_call_tool sv raw params (St d None e) = (r, s') → serves_call sv d (store s').

(** C4: the ledger survives every client.  Over the modelled use cases with a
    lawful executor, whatever requests come in, whatever their arguments,
    metadata, approval answers and scopes, every tools/call moves the stores by
    the ledger's own transactions only: the ledger invariant (valid records,
    single use of idempotency keys and approvals, complete audit trails) holds
    after every sequence of requests. *)
Theorem tool_calls_keep_ledger sv p `{!LawfulExecutor (cp_executor p)} d d' :
  sv_call_tool sv = Some (call_tool p) ∨ sv_call_tool sv = None →
  sv_decide_approval sv = Some decide_approval ∨ sv_decide_approval sv = None →
  sv_scope_audit sv = Some record_scope_denial ∨ sv_scope_audit sv = None →
  ledger_ok d → star (serves_call sv) d d' → star ledger_step d d' ∧ ledger_ok d'.
Proof.
  intros Hc Hd Ha Hok Hstar.
  assert (Hsv : ledger_services sv).
  { constructor; intros m c E; [destruct Hc as [G|G]|destruct Hd as [G|G]|destruct Ha as [G|G]];
      rewrite G in E; simplify_eq.
    - by apply safe_call_tool.
    - apply safe_decide_approval.
    - apply safe_record_scope_denial. }
  enough (star ledger_step d d') by (split; [done|by eapply ledger_steps_ok]).
  revert Hok. induction Hstar as [d|d d2 d' Hcall _ IH]; intros Hok; [apply star_refl|].
  destruct Hcall as [raw params d e r s' Hr].
  destruct (safe_on_call_tool sv raw params Hsv d e r s' Hok Hr) as (d1 & e1 & -> & Hs).
  eapply star_trans; [exact Hs|]. apply IH. by eapply ledger_steps_ok.
Qed.
End Ledger.

(** ** Interactive approval *)

(** A decision is taken only on the approval that the protected request state
    names, from a single well-formed response, and an approval only from an
    accepted form that says [true]; anything else decides nothing. *)
Theorem approval_needs_confirmation {D} (sv : McpServices D) params ctx s r s' :
  resolve_interactive_approval sv params ctx s = (r, s') →
  (s' = s ∧ (r = Raise (Nexus ApprovalMismatchError) ∨ (r = Ok tt ∧ cp_input_responses params = None))) ∨
  ∃ responses decide approval_id action content approved,
    cp_input_responses params = Some responses ∧ sv_decide_approval sv = Some decide ∧
    cp_request_state params = Some approval_id ∧
    (∀ k, k ∈ dkeys responses → k = "approval") ∧
    dget "approval" responses = Some (ElicitResult action content) ∧
    (approved = true ↔ action = ElicitAccept) ∧
    (action = ElicitAccept → ∃ form, content = Some form ∧ dget "approved" form = Some (JBool true)) ∧
    (decide (mkDecideApproval (rq_actor ctx) approval_id approved) ;;* ret tt)%py s = (r, s').
Proof.
  unfold resolve_interactive_approval. intros Hr.
  destruct (cp_input_responses params) as [responses|]; [|unfold ret in Hr; simplify_eq; eauto].
  destruct (cp_request_state params) as [id|], (sv_decide_approval sv) as [decide|];
    try (unfold raise in Hr; simplify_eq; eauto; fail).
  unfold bind at 1, lift at 1 in Hr. destruct (raise_if _ _) as [[]|x] eqn:Ek.
  2: { unfold raise_if in Ek. destruct (negb _); simplify_eq. eauto. }
  rewrite raise_if_Ok, negb_decide_false in Ek.
  destruct (dget "approval" responses) as [[action content|]|] eqn:Er;
    try (unfold raise in Hr; simplify_eq; eauto; fail).
  assert (Hkeys : ∀ k, k ∈ dkeys responses → k = "approval").
  { intros k Hk. apply elem_of_remove_dups in Hk. rewrite Ek in Hk. by apply list_elem_of_singleton. }
  unfold bind at 1, lift at 1 in Hr.
  destruct action; cbv beta iota in Hr;
    [destruct (bool_decide _) eqn:Ea; [|simplify_eq; eauto]| |];
    right;
    [exists responses, decide, id, ElicitAccept, content, true
    |exists responses, decide, id, ElicitDecline, content, false
    |exists responses, decide, id, ElicitCancel, content, false];
    do 5 (split; [done|]); (split; [done|]); (split; [|exact Hr]); try done.
  intros _. apply bool_decide_eq_true in Ea. destruct content as [form|]; [|done]. eauto.
Qed.

(** ** What a client of the older protocol gets *)

(** A client of the older protocol is never asked for input, and the structured
    content of its results is an object or absent. *)
Theorem legacy_answers {D} (sv : McpServices D) raw params resolved s response s' :
  sv_context_resolver sv raw = Ok resolved → rq_protocol_era resolved = Legacy →
  on_call_tool sv raw params s = (Ok response, s') →
  ∃ r, response = CallToolResponse r ∧
    (mr_structured_content r = None ∨ ∃ d, mr_structured_content r = Some (JObj d)).
Proof.
  intros Hc Hera Hr. unfold on_call_tool in Hr. rewrite Hc in Hr. cbv zeta in Hr.
  assert (Hera' : rq_protocol_era (observed (sv_trace_id sv resolved) resolved) = Legacy).
  { unfold observed. destruct (sv_trace_id sv resolved); [|done]. by destruct (str_empty _). }
  revert Hera' Hr. generalize (observed (sv_trace_id sv resolved) resolved). intros ctx Hl Hr.
  assert (Herr : ∀ e, ∃ r, to_call_tool_error e = CallToolResponse r ∧
    (mr_structured_content r = None ∨ ∃ d, mr_structured_content r = Some (JObj d)))
    by (intros; eexists; split; [reflexivity|by left]).
  assert (Hdenial : ∀ e scope access s0, (server_scope_denial sv e ctx scope params access ;;*
      ret (to_call_tool_error e))%py s0 = (Ok response, s') → response = to_call_tool_error e).
  { intros e scope access s0 Hd. apply denial_then_error in Hd as [[= ->]|]; done. }
  unfold bind at 1, lift at 1 in Hr. destruct (resolve_endpoint_scope raw) as [scope|]; [|done].
  destruct (resolve_access sv scope ctx) as [access|x].
  2: { destruct x; try done. by apply Hdenial in Hr as ->. }
  destruct (bool_decide _).
  - unfold on_meta_call in Hr. destruct (sv_search_tools sv); [|unfold ret in Hr; by simplify_eq].
    destruct (run_meta_tool _ _ _ _ _) as [found|x].
    + unfold ret in Hr. simplify_eq. eexists. split; [reflexivity|]. right. by eexists.
    + destruct x; cbn [is_exception] in Hr; try (unfold ret, raise in Hr; simplify_eq; apply Herr).
      by apply Hdenial in Hr as ->.
  - unfold on_business_call in Hr. destruct (sv_call_tool sv); [|unfold ret in Hr; by simplify_eq].
    rewrite capture_bind in Hr. destruct (run_business_tool _ _ _ _ _ _) as [[result|x] s1];
      cbn [fst snd] in Hr.
    + unfold ret in Hr. simplify_eq. eexists. split; [reflexivity|]. simpl.
      unfold protocol_structured_content. rewrite Hl. destruct (cr_data result); eauto.
    + destruct x as [| | | | | | | |e]; cbn [is_exception] in Hr;
        try (unfold ret, raise in Hr; simplify_eq; apply Herr).
      destruct e; try (by apply Hdenial in Hr as ->). rewrite Hl in Hr.
      destruct approval_id; unfold ret in Hr; simplify_eq; apply Herr.
Qed.

(** ** Listing agrees with calling *)

(** At an endpoint with a resolved access that is not search-first, the tools
    listed besides the search tool are exactly those a call of which passes the
    endpoint's check. *)
Theorem listed_tools_are_callable {D} (sv : McpServices D) raw ctx scope a tools :
  resolve_endpoint_scope raw = Ok scope → resolve_access sv scope ctx = Ok (Some a) →
  search_first_of (Some a) (sv_search_first sv) = false →
  (∀ t, t ∈ ra_tools a → pt_canonical_name t ≠ NEXUS_SEARCH_TOOLS_NAME) →
  listed_tools sv raw ctx = Ok tools →
  ∀ name, name ≠ NEXUS_SEARCH_TOOLS_NAME →
    (name ∈ (mt_name <$> tools) ↔ require_business_tool a name = Ok tt).
Proof.
  intros Hs Ha Hf Hres Hr name Hname. unfold listed_tools in Hr.
  rewrite Hs in Hr. cbn [rbind] in Hr. rewrite Ha in Hr. cbn [rbind] in Hr. rewrite Hf in Hr.
  cbn [rbind] in Hr. injection Hr as <-.
  assert (Hnames : mt_name <$> map (protocol_tool ctx) (ra_tools a) = pt_canonical_name <$> ra_tools a)
    by (by rewrite <-list_fmap_compose).
  assert (Hin : name ∈ (mt_name <$> (if negb (is_none (sv_search_tools sv)) &&
      meta_search_visible (Some a) (sv_search_first sv)
      then search_tools_definition :: map (protocol_tool ctx) (ra_tools a)
      else map (protocol_tool ctx) (ra_tools a))) ↔ name ∈ pt_canonical_name <$> ra_tools a).
  { destruct (_ && _); [rewrite fmap_cons, elem_of_cons|]; rewrite Hnames; [|done].
    split; [by intros [->|]|auto]. }
  rewrite Hin. unfold require_business_tool. split.
  - intros (t & -> & Ht)%list_elem_of_fmap. 
    assert (existsb (λ t0, bool_decide (pt_canonical_name t0 = pt_canonical_name t)) (ra_tools a) = true) as ->.
    { apply existsb_exists. exists t. split; [by apply list_elem_of_In|by apply bool_decide_eq_true]. }
    done.
  - destruct (existsb _ _) eqn:Ex; [|by case_bool_decide].
    intros _. apply existsb_exists in Ex as (t & Ht & E). apply bool_decide_eq_true in E as <-.
    apply list_elem_of_fmap_2. by apply list_elem_of_In.
Qed.

(** ** The arguments of the search tool round trip *)

Definition search_arguments (q : SearchToolsQuery) : dict json :=
  [("query", JStr (stq_text q)); ("retrieval_mode", JStr (retrieval_mode_value (stq_retrieval_mode q)));
   ("limit", JInt (stq_limit q)); ("namespace", opt_json JStr (stq_namespace q));
   ("side_effect", opt_json (λ s, JStr (side_effect_value s)) (stq_side_effect q))].

(** A query written as the arguments its schema describes is parsed back. *)
Theorem search_arguments_round_trip ctx q :
  stq_context q = rq_actor ctx → stq_eligible_tool_ids q = None → blank (stq_text q) = false →
  parse_search_tools_query ctx (search_arguments q) = Ok q.
Proof.
  destruct q as [c text mode limit namespace side_effect eligible]. simpl. intros -> -> Hb.
  unfold parse_search_tools_query, search_arguments. simpl. rewrite Hb.
  destruct mode, namespace, side_effect as [[]|]; reflexivity.
Qed.

(** ** Concrete calls *)

Module McpExamples.
#[local] Existing Instance RetryExamples.counting_ports.
#[local] Existing Instance allow_all_policy.

Definition request (name : string) (arguments : dict json) : CallToolRequestParams :=
  mkCallParams name (Some arguments) None None None.
Definition raw (params : dict json) : ServerRequestContext :=
  mkServerContext (Some "req") MODERN_PROTOCOL_VERSION (Some []) (Some params).
Definition shop_raw : ServerRequestContext := raw [("toolset_slug", JStr "shop")].
Definition root_raw : ServerRequestContext := raw [].
Definition shop : McpEndpointScope := mkScope ToolsetAccess.ScopeToolset (Some "shop").

Definition agent : RequestContext :=
  mkRequestContext SearchExamples.ctx MODERN_PROTOCOL_VERSION Modern.

(** The shop serves one tool; a second one is configured but not available. *)
Definition shop_access : ResolvedToolsetAccess :=
  mkAccess shop [SearchExamples.get_order] ["orders.cancel"] (Some Toolsets.ModeSearchFirst)
    (Some "ts") (Some 4%Z).
Definition root_access : ResolvedToolsetAccess :=
  mkAccess (mkScope ToolsetAccess.ScopeRoot None)
    [SearchExamples.tool "tool" "ns.tool" "Tool" NonIdempotentWrite] [] None None None.
Definition resolver (ctx : ActorContext) (scope : McpEndpointScope) : res ResolvedToolsetAccess :=
  match sc_toolset_slug scope with
  | None => Ok root_access
  | Some slug => if bool_decide (slug = "shop") then Ok shop_access
                 else Raise (Nexus ToolsetAccessDeniedError)
  end.

Definition server : McpServices execution_store :=
  mkServices _ (λ _, Ok agent) (λ _, None) (λ _, Ok SearchExamples.tools)
    (Some (call_tool (CallToolExamples.ports Allow))) (Some (search_tools SearchExamples.deps)) false
    (Some decide_approval) (Some resolver) (Some record_scope_denial) (λ _, "0.0").

Definition start : st execution_store := St CallToolExamples.empty None CallToolExamples.env0.

Definition query_arguments : dict json := [("query", JStr "order"); ("retrieval_mode", JStr "hybrid")].

Definition answered_tools (r : res call_response) : option json :=
  match r with
  | Ok (CallToolResponse r) =>
      match mr_structured_content r with
      | Some (JObj d) =>
          match dget "tools" d with
          | Some (JArr tools) =>
              Some (JArr (map (λ t, match t with JObj d => default JNull (dget "name" d) | _ => JNull end)
                            tools))
          | _ => None
          end
      | _ => None
      end
  | _ => None
  end.

(** The whole catalog has three tools, the shop shows its own. *)
Example shop_search :
  answered_tools (on_call_tool server shop_raw (request NEXUS_SEARCH_TOOLS_NAME query_arguments) start).1
  = Some (JArr [JStr "orders.get"]).
Proof. vm_compute. reflexivity. Qed.

(** [tools/list] resolves the context outside its [try]: where [tools/call]
    answers an unauthenticated caller, it lets the error escape. *)
Definition locked : McpServices execution_store :=
  mkServices _ (λ _, Raise (Nexus AuthenticationError)) (λ _, None) (λ _, Ok []) None None false
    None None None (λ _, "0.0").
Example unauthenticated_list_escapes :
  on_list_tools locked root_raw = Raise (Escaped (Nexus AuthenticationError)) ∧
  (on_call_tool locked root_raw (request "ns.tool" []) start).1
  = Ok (to_call_tool_error AuthenticationError).
Proof. split; reflexivity. Qed.

Lemma cancel_not_served :
  cp_name (request "orders.cancel" []) ∉ (pt_canonical_name <$> ra_tools shop_access).
Proof. apply (bool_decide_eq_false _). reflexivity. Qed.
End McpExamples.

#[local] Existing Instance RetryExamples.counting_inj.
#[local] Existing Instance CallToolExamples.ports_lawful.

Lemma call_outside_scope_runs_nothing_witness :
  ∃ d', store (on_call_tool McpExamples.server McpExamples.shop_raw
      (McpExamples.request "orders.cancel" []) McpExamples.start).2 = d' ∧ es_executions d' = [].
Proof.
  destruct (on_call_tool McpExamples.server McpExamples.shop_raw _ _) as [r s'] eqn:E.
  destruct (call_outside_scope_runs_nothing (H := RetryExamples.counting_ports) McpExamples.server
    McpExamples.shop_raw (McpExamples.request "orders.cancel" []) McpExamples.agent McpExamples.shop
    McpExamples.shop_access CallToolExamples.empty CallToolExamples.env0 r s') as (d' & Hd & Hx & _).
  - by right.
  - reflexivity.
  - reflexivity.
  - reflexivity.
  - discriminate.
  - by eexists.
  - exact McpExamples.cancel_not_served.
  - exact E.
  - exists d'. split; [exact Hd|exact Hx].
Defined.

Lemma endpoint_search_shows_its_tools_witness :
  ∃ response, (on_call_tool McpExamples.server McpExamples.shop_raw
      (McpExamples.request NEXUS_SEARCH_TOOLS_NAME McpExamples.query_arguments)
      McpExamples.start).1 = Ok response ∧
  ((∃ e, response = to_call_tool_error e) ∨
   ∃ found, response = search_tools_result (sv_float_repr McpExamples.server) found ∧
     ∀ h, h ∈ str_hits found → pt_tool_id (sh_tool h) ∈ ["t1"]).
Proof.
  destruct (on_call_tool McpExamples.server McpExamples.shop_raw
    (McpExamples.request NEXUS_SEARCH_TOOLS_NAME McpExamples.query_arguments)
    McpExamples.start) as [r s'] eqn:E.
  assert (Hok : is_ok r = true).
  { change r with (r, s').1. rewrite <-E. vm_compute. reflexivity. }
  destruct r as [response|]; [|discriminate Hok]. exists response. split; [reflexivity|].
  destruct (endpoint_search_shows_its_tools McpExamples.server SearchExamples.tools SearchExamples.deps
    McpExamples.shop_raw (McpExamples.request NEXUS_SEARCH_TOOLS_NAME McpExamples.query_arguments)
    McpExamples.agent McpExamples.shop McpExamples.shop_access McpExamples.start response s'
    SearchExamples.deps_scoped eq_refl eq_refl eq_refl eq_refl eq_refl E) as [He|(_ & found & Hf & Hh)].
  - by left.
  - right. exists found. split; [exact Hf|]. intros h Hin. apply (Hh h Hin).
Defined.

Lemma tool_calls_keep_ledger_witness :
  ∃ d', star (serves_call McpExamples.server) CallToolExamples.empty d' ∧ ledger_ok d'.
Proof.
  assert (Hstep : star (serves_call McpExamples.server) CallToolExamples.empty
    (store (on_call_tool McpExamples.server McpExamples.root_raw
      (McpExamples.request "ns.tool" []) McpExamples.start).2)).
  { apply star_one. destruct (on_call_tool _ _ _ _) as [r s'] eqn:E. by eapply one_call. }
  eexists. split; [exact Hstep|].
  apply (tool_calls_keep_ledger (H := RetryExamples.counting_ports) (H0 := allow_all_policy)
    McpExamples.server (CallToolExamples.ports Allow) CallToolExamples.empty _
    (or_introl eq_refl) (or_introl eq_refl) (or_introl eq_refl) ledger_ok_empty Hstep).
Defined.

(** The call of the root endpoint's tool does run, and is audited. *)
Example root_call_runs :
  length (es_executions (store (on_call_tool McpExamples.server McpExamples.root_raw
    (McpExamples.request "ns.tool" []) McpExamples.start).2)) = 1.
Proof. vm_compute. reflexivity. Qed.
