(* ===== verification/Uuid.v ===== *)
(** * UUIDs

    Python's [uuid.UUID]: reading its text forms, the canonical form [str]
    writes, and [as_uuid] of [infrastructure/persistence/identifiers.py] with
    the lenient [_optional_uuid] of [admin_queries.py].  Writing and reading
    round trip, so a stored identifier is found again exactly under its
    canonical text. *)

From Stdlib Require Import ZArith Ascii Lia.
From stdpp Require Import base strings option list.
From S2P Require Import Prelude Text Dict Errors Json Url Format.
Open Scope py_scope.

(** [UUID.int]: a number below [2 ** 128]. *)
Record UUID := mkUUID { uuid_int : N }.

#[export] Instance uuid_eq_dec : EqDecision UUID.
Proof. solve_decision. Defined.

Definition uuid_bound : N := (2 ^ 128)%N.
Definition uuid_valid (u : UUID) : Prop := (uuid_int u < uuid_bound)%N.

(** ** Writing *)

(** ["%0{k}x" % n] for an [n] of at most [k] digits. *)
Fixpoint hex_text (k : nat) (n : N) : string :=
  match k with
  | O => ""
  | S k' => hex_text k' (n / 16) +:+ String (hex_digit (n mod 16)) ""
  end.

(** [UUID.__str__] *)
Definition uuid_str (u : UUID) : string :=
  let hex := hex_text 32 (uuid_int u) in
  let part start len := String.substring start len hex in
  (part 0 8 +:+ "-" +:+ part 8 4 +:+ "-" +:+ part 12 4 +:+ "-" +:+ part 16 4 +:+ "-" +:+ part 20 12)%nat.

(** ** Reading *)

(** The spaces [int] skips: C's, and the two others of this range. *)
Definition is_int_space (c : ascii) : bool :=
  let n := code c in
  ((9 <=? n) && (n <=? 13) || (n =? 32) || (n =? 133) || (n =? 160))%N.

(** Digits of [int(text, 16)]: one underscore may stand between two digits.
    [after_digit] tells whether an underscore may come next. *)
Fixpoint hex_digits (after_digit : bool) (acc : N) (s : string) : option N :=
  match s with
  | EmptyString => if after_digit then Some acc else None
  | String c s' =>
      if bool_decide (c = "_"%char)
      then if after_digit then hex_digits false acc s' else None
      else match hex_value c with
           | Some d => hex_digits true (16 * acc + d) s'
           | None => None
           end
  end.

Definition drop_plus (s : string) : string :=
  match s with String "+" s' => s' | _ => s end.
Definition drop_underscore (s : string) : string :=
  match s with String "_" s' => s' | _ => s end.
Definition after_0x (s : string) : option string :=
  match s with String "0" (String "x" s' | String "X" s') => Some s' | _ => None end.

(** [int(text, 16)] of a text without a minus sign. *)
Definition int_hex (text : string) : option N :=
  let s := drop_plus (lstrip_chars is_int_space (rstrip_chars is_int_space text)) in
  match after_0x s with
  | Some s' => hex_digits false 0 (drop_underscore s')
  | None => hex_digits false 0 s
  end.

(** [UUID.__init__] of a text: [urn:], [uuid:], outer braces and all dashes are
    dropped, 32 characters must stay. *)
Definition uuid_parse (text : string) : res UUID :=
  let hex := str_replace "uuid:" "" (str_replace "urn:" "" text) in
  let is_brace c := char_in "{}" c in
  let hex := remove_chars (λ c, bool_decide (c = "-"%char))
               (lstrip_chars is_brace (rstrip_chars is_brace hex)) in
  if (String.length hex =? 32)%nat
  then match int_hex hex with
       | Some n => Ok (mkUUID n)
       | None => Raise (ValueError "invalid literal for int() with base 16")
       end
  else Raise (ValueError "badly formed hexadecimal UUID string").

(** [as_uuid] *)
Definition as_uuid (value field_name : string) : res UUID :=
  match uuid_parse value with
  | Raise (ValueError _) => Raise (ValueError (field_name +:+ " must be a valid UUID"))
  | r => r
  end.

(** [_optional_uuid] *)
Definition optional_uuid (value : string) : option UUID :=
  match uuid_parse value with Ok u => Some u | Raise _ => None end.

(** Several texts name one identifier; this one is what [str] writes. *)
Definition canonical_uuid (s : string) : bool :=
  match uuid_parse s with Ok u => bool_decide (uuid_str u = s) | Raise _ => false end.

Example uuid_examples :
  let u := mkUUID 0x123e4567e89b12d3a456426614174000 in
  uuid_str u = "123e4567-e89b-12d3-a456-426614174000" ∧
  uuid_parse "123e4567-e89b-12d3-a456-426614174000" = Ok u ∧
  uuid_parse "{123E4567E89B12D3A456426614174000}" = Ok u ∧
  uuid_parse "urn:uuid:123e4567-e89b-12d3-a456-426614174000" = Ok u ∧
  uuid_parse "0x1_3e4567e89b12d3a4564266141740" = Ok (mkUUID 0x13e4567e89b12d3a4564266141740) ∧
  uuid_parse "tool-1" = Raise (ValueError "badly formed hexadecimal UUID string") ∧
  is_ok (uuid_parse "g23e4567-e89b-12d3-a456-426614174000") = false ∧
  canonical_uuid "123E4567-e89b-12d3-a456-426614174000" = false.
Proof. by vm_compute. Qed.

(** ** Facts *)

(** *** Hexadecimal texts *)

Lemma hex_value_digit n : (n < 16)%N → hex_value (hex_digit n) = Some n.
Proof.
  apply (small_cases (λ n, hex_value (hex_digit n) = Some n) 16).
  intros i Hi. do 16 (destruct i as [|i]; [by vm_compute|]). lia.
Qed.

(** The characters [str] writes: digits and the small letters to [f]. *)
Definition is_hex_digit (c : ascii) : bool :=
  let n := code c in ((48 <=? n) && (n <=? 57) || (97 <=? n) && (n <=? 102))%N.

Lemma hex_digit_is n : (n < 16)%N → is_hex_digit (hex_digit n) = true.
Proof.
  apply (small_cases (λ n, is_hex_digit (hex_digit n) = true) 16).
  intros i Hi. do 16 (destruct i as [|i]; [by vm_compute|]). lia.
Qed.

Lemma all_chars_weaken (P Q : ascii → bool) s :
  (∀ c, P c = true → Q c = true) → all_chars P s = true → all_chars Q s = true.
Proof.
  intros H. induction s as [|c s IH]; [done|]. simpl. rewrite !andb_true_iff. intros []. auto.
Qed.

Lemma str_length_app s t : String.length (s +:+ t) = (String.length s + String.length t)%nat.
Proof. induction s as [|c s IH]; [done|]. simpl. by f_equal. Qed.

Lemma hex_text_length k n : String.length (hex_text k n) = k.
Proof.
  revert n. induction k as [|k IH]; intros n; [done|]. simpl. rewrite str_length_app, IH. simpl. lia.
Qed.

Lemma hex_text_chars k n : all_chars is_hex_digit (hex_text k n) = true.
Proof.
  revert n. induction k as [|k IH]; intros n; [done|]. simpl. rewrite all_chars_app, IH. simpl.
  rewrite hex_digit_is; [done|]. by apply N.mod_lt.
Qed.

(** Reading digits is a fold over them. *)
Lemma hex_digits_text k n b acc t :
  (0 < k)%nat → (n < 16 ^ N.of_nat k)%N →
  hex_digits b acc (hex_text k n +:+ t) = hex_digits true (acc * 16 ^ N.of_nat k + n) t.
Proof.
  revert n b acc t. induction k as [|k IH]; intros n b acc t Hk Hn; [lia|].
  assert (Hd : (n mod 16 < 16)%N) by (by apply N.mod_lt).
  assert (Hstep : ∀ b' acc', hex_digits b' acc' (String (hex_digit (n mod 16)) t)
    = hex_digits true (16 * acc' + n mod 16) t).
  { intros b' acc'. simpl. rewrite (hex_value_digit _ Hd).
    destruct (bool_decide (hex_digit (n mod 16) = "_"%char)) eqn:E; [|done].
    apply bool_decide_eq_true in E. pose proof (hex_digit_is _ Hd) as H. by rewrite E in H. }
  simpl hex_text. rewrite str_app_assoc. cbn [String.append].
  pose proof (N.div_mod n 16 ltac:(done)) as Hdm.
  rewrite Nat2N.inj_succ, N.pow_succ_r' in Hn |- *.
  destruct k as [|k].
  - simpl hex_text. cbn [String.append]. rewrite Hstep. f_equal. change (N.of_nat 0) with 0%N in *.
    rewrite N.pow_0_r in *. rewrite N.mod_small by lia. lia.
  - rewrite IH; [|lia|by apply N.Div0.div_lt_upper_bound].
    rewrite Hstep. f_equal. lia.
Qed.

(** *** Cutting a text and removing the dashes *)

Lemma substring_cat s m n k :
  String.substring k m s +:+ String.substring (k + m) n s = String.substring k (m + n) s.
Proof.
  revert k m. induction s as [|c s IH]; intros [|k] [|m]; try (by destruct n); try apply (IH k).
  change (String c (String.substring 0 m s +:+ String.substring (0 + m) n s)
    = String c (String.substring 0 (m + n) s)). f_equal. apply IH.
Qed.

Lemma substring_full s : String.substring 0 (String.length s) s = s.
Proof. induction s as [|c s IH]; [done|]. simpl. by f_equal. Qed.

Lemma substring_chars P s k n : all_chars P s = true → all_chars P (String.substring k n s) = true.
Proof.
  revert k n. induction s as [|c s IH]; intros [|k] [|n]; try done; simpl; rewrite ?andb_true_iff;
    intros [? ?]; auto.
Qed.

Lemma remove_chars_concat P s t : remove_chars P (s +:+ t) = remove_chars P s +:+ remove_chars P t.
Proof.
  induction s as [|c s IH]; [done|]. change (String c s +:+ t) with (String c (s +:+ t)).
  simpl. rewrite IH. by destruct (P c).
Qed.

Lemma remove_chars_none P s : all_chars (λ c, negb (P c)) s = true → remove_chars P s = s.
Proof.
  induction s as [|c s IH]; [done|]. simpl. destruct (P c); [done|]. intros H. f_equal. auto.
Qed.

Lemma lstrip_chars_none P s : all_chars (λ c, negb (P c)) s = true → lstrip_chars P s = s.
Proof. destruct s as [|c s]; [done|]. simpl. by destruct (P c). Qed.

Lemma rstrip_chars_none P s : all_chars (λ c, negb (P c)) s = true → rstrip_chars P s = s.
Proof.
  induction s as [|c s IH]; [done|]. simpl. destruct (P c) eqn:E; [done|]. intros H.
  rewrite IH by done. by destruct s.
Qed.

(** Nothing to replace where the first character does not occur. *)
Lemma str_replace_none c old new s :
  all_chars (λ d, negb (bool_decide (c = d))) s = true → str_replace (String c old) new s = s.
Proof.
  unfold str_replace. induction s as [|d s IH]; [done|]. simpl. rewrite andb_true_iff.
  intros [Hd Hs]. destruct (bool_decide (c = d)); [done|]. simpl. f_equal. by apply IH.
Qed.

Definition dashed (s : string) : string :=
  let part start len := String.substring start len s in
  (part 0 8 +:+ "-" +:+ part 8 4 +:+ "-" +:+ part 12 4 +:+ "-" +:+ part 16 4 +:+ "-" +:+ part 20 12)%nat.

Lemma dashed_undashed s :
  String.length s = 32%nat → all_chars is_hex_digit s = true →
  remove_chars (λ c, bool_decide (c = "-"%char)) (dashed s) = s.
Proof.
  intros Hl Hs. unfold dashed. rewrite !remove_chars_concat.
  assert (Hp : ∀ k n, remove_chars (λ c, bool_decide (c = "-"%char)) (String.substring k n s)
    = String.substring k n s).
  { intros k n. apply remove_chars_none, substring_chars. eapply all_chars_weaken, Hs.
    intros c Hc. destruct (bool_decide (c = "-"%char)) eqn:E; [|done].
    apply bool_decide_eq_true in E as ->. by vm_compute in Hc. }
  rewrite !Hp. assert (He : ∀ t, "" +:+ t = t) by done.
  replace (remove_chars _ "-") with "" by (by vm_compute). rewrite !He.
  pose proof (substring_cat s 4 12 16) as H1. pose proof (substring_cat s 4 16 12) as H2.
  pose proof (substring_cat s 4 20 8) as H3. pose proof (substring_cat s 8 24 0) as H4.
  cbn [Nat.add] in *. rewrite H1, H2, H3, H4, <-Hl. apply substring_full.
Qed.

Lemma dashed_chars s :
  all_chars is_hex_digit s = true →
  all_chars (λ c, is_hex_digit c || bool_decide (c = "-"%char)) (dashed s) = true.
Proof.
  intros Hs. assert (Hp : ∀ k n, all_chars (λ c, is_hex_digit c || bool_decide (c = "-"%char))
    (String.substring k n s) = true).
  { intros k n. apply substring_chars. eapply all_chars_weaken, Hs. by intros c ->. }
  unfold dashed. rewrite !all_chars_app, !Hp. by vm_compute.
Qed.

(** No other letter is written. *)
Lemma written_avoids (P : ascii → bool) s :
  (∀ c, is_hex_digit c || bool_decide (c = "-"%char) = true → P c = false) →
  all_chars is_hex_digit s = true → all_chars (λ c, negb (P c)) (dashed s) = true.
Proof.
  intros HP Hs. eapply all_chars_weaken, dashed_chars, Hs. intros c Hc. simpl. by rewrite HP.
Qed.

(** *** Round trip *)

Lemma str_append_empty s : s +:+ "" = s.
Proof. induction s as [|c s IH]; [done|]. change (String c (s +:+ "") = String c s). by f_equal. Qed.

Lemma hex_text_head k n : (0 < k)%nat → ∃ c s, hex_text k n = String c s ∧ is_hex_digit c = true.
Proof.
  intros Hk. pose proof (hex_text_length k n) as Hl. pose proof (hex_text_chars k n) as Hc.
  destruct (hex_text k n) as [|c s]; [simpl in Hl; lia|]. apply andb_true_iff in Hc as [? _]. eauto.
Qed.

Lemma avoid_char (d : ascii) :
  is_hex_digit d || bool_decide (d = "-"%char) = false →
  ∀ c, is_hex_digit c || bool_decide (c = "-"%char) = true → bool_decide (d = c) = false.
Proof. intros Hd c Hc. apply bool_decide_eq_false. intros ->. by rewrite Hd in Hc. Qed.

Lemma hex_no_space c : is_hex_digit c = true → is_int_space c = false.
Proof.
  unfold is_hex_digit, is_int_space. rewrite !orb_true_iff, !andb_true_iff, !N.leb_le.
  intros H. rewrite !orb_false_iff, !andb_false_iff, !N.leb_gt, !N.eqb_neq. lia.
Qed.

Lemma hex_not (d c : ascii) : is_hex_digit d = false → is_hex_digit c = true → c ≠ d.
Proof. intros Hd Hc ->. by rewrite Hd in Hc. Qed.

Lemma drop_plus_none c s : c ≠ "+"%char → drop_plus (String c s) = String c s.
Proof. intros Hc. by destruct c as [[] [] [] [] [] [] [] []]. Qed.

Lemma after_0x_none c c' s : c' ≠ "x"%char → c' ≠ "X"%char → after_0x (String c (String c' s)) = None.
Proof.
  intros Hx HX. destruct c as [[] [] [] [] [] [] [] []]; try done.
  by destruct c' as [[] [] [] [] [] [] [] []].
Qed.

Lemma drop_plus_length s : (String.length (drop_plus s) ≤ String.length s)%nat.
Proof. destruct s as [|[[] [] [] [] [] [] [] []] s]; simpl; lia. Qed.

Lemma drop_underscore_length s : (String.length (drop_underscore s) ≤ String.length s)%nat.
Proof. destruct s as [|[[] [] [] [] [] [] [] []] s]; simpl; lia. Qed.

Lemma after_0x_length s s' : after_0x s = Some s' → (String.length s' ≤ String.length s)%nat.
Proof.
  destruct s as [|[[] [] [] [] [] [] [] []] [|c s]]; try done.
  destruct c as [[] [] [] [] [] [] [] []]; try done; intros [= ->]; simpl; lia.
Qed.

Lemma int_hex_text n : uuid_valid (mkUUID n) → int_hex (hex_text 32 n) = Some n.
Proof.
  intros Hn. pose proof (hex_text_chars 32 n) as Hc.
  assert (Hs : all_chars (λ c, negb (is_int_space c)) (hex_text 32 n) = true)
    by (eapply all_chars_weaken, Hc; intros c Hh; by rewrite hex_no_space).
  unfold int_hex. rewrite rstrip_chars_none, lstrip_chars_none by done.
  assert (Hd : hex_digits false 0 (hex_text 32 n) = Some n).
  { rewrite <-(str_append_empty (hex_text 32 n)), hex_digits_text; [done|lia|exact Hn]. }
  remember (hex_text 32 n) as s eqn:Es. destruct s as [|c [|c' s]]; [done| |].
  1: { pose proof (hex_text_length 32 n) as Hl. by rewrite <-Es in Hl. }
  simpl in Hc. apply andb_true_iff in Hc as [Hc1 [Hc2 _]%andb_true_iff].
  rewrite drop_plus_none, after_0x_none by (by apply hex_not). exact Hd.
Qed.

Lemma no_brace c : is_hex_digit c || bool_decide (c = "-"%char) = true → char_in "{}" c = false.
Proof. by destruct c as [[] [] [] [] [] [] [] []]. Qed.

(** A written identifier is read back. *)
Theorem uuid_round_trip u : uuid_valid u → uuid_parse (uuid_str u) = Ok u.
Proof.
  destruct u as [n]. intros Hn. pose proof (hex_text_chars 32 n) as Hc.
  pose proof (hex_text_length 32 n) as Hl. pose proof (int_hex_text n Hn) as Hi.
  unfold uuid_parse. change (uuid_str (mkUUID n)) with (dashed (hex_text 32 n)).
  remember (hex_text 32 n) as s.
  rewrite (str_replace_none "u" "rn:"), (str_replace_none "u" "uid:").
  2-3: apply (written_avoids (λ c, bool_decide ("u"%char = c))); [by apply avoid_char|done].
  rewrite rstrip_chars_none, lstrip_chars_none.
  2-3: by apply written_avoids; [apply no_brace|].
  rewrite dashed_undashed by done. by rewrite Hl, Hi.
Qed.

(** *** What is read is an identifier *)

Lemma hex_value_bound c d : hex_value c = Some d → (d < 16)%N.
Proof.
  unfold hex_value, is_ascii_digit. intros H.
  repeat match type of H with context [if ?b then _ else _] => destruct b eqn:? end; simplify_eq;
    rewrite ?andb_true_iff, ?N.leb_le in *; lia.
Qed.

Lemma hex_digits_bound b acc s n :
  hex_digits b acc s = Some n → (n < (acc + 1) * 16 ^ N.of_nat (String.length s))%N.
Proof.
  revert b acc. induction s as [|c s IH]; intros b acc H; simpl in H.
  - destruct b; simplify_eq. simpl. lia.
  - change (String.length (String c s)) with (S (String.length s)). rewrite Nat2N.inj_succ, N.pow_succ_r'.
    destruct (bool_decide _).
    + destruct b; [|done]. apply IH in H. nia.
    + destruct (hex_value c) as [d|] eqn:Ed; [|done]. apply hex_value_bound in Ed. apply IH in H. nia.
Qed.

Lemma hex_digits_shorter b s n k :
  hex_digits b 0 s = Some n → (String.length s ≤ k)%nat → (n < 16 ^ N.of_nat k)%N.
Proof.
  intros H Hk. apply hex_digits_bound in H. rewrite N.add_0_l, N.mul_1_l in H.
  eapply N.lt_le_trans; [exact H|]. apply N.pow_le_mono_r; [done|lia].
Qed.

Lemma lstrip_chars_length P s : (String.length (lstrip_chars P s) ≤ String.length s)%nat.
Proof. induction s as [|c s IH]; [done|]. simpl. destruct (P c); simpl; lia. Qed.

Lemma rstrip_chars_length P s : (String.length (rstrip_chars P s) ≤ String.length s)%nat.
Proof.
  induction s as [|c s IH]; [done|]. simpl. destruct (rstrip_chars P s); simpl in *; [destruct (P c)|];
    simpl; lia.
Qed.

Lemma int_hex_bound s n : int_hex s = Some n → (n < 16 ^ N.of_nat (String.length s))%N.
Proof.
  unfold int_hex. cbv zeta. set (t := lstrip_chars is_int_space (rstrip_chars is_int_space s)).
  assert (Ht : (String.length (drop_plus t) ≤ String.length s)%nat).
  { etrans; [apply drop_plus_length|]. etrans; [apply lstrip_chars_length|]. apply rstrip_chars_length. }
  revert Ht. generalize (drop_plus t). intros u Hu H.
  destruct (after_0x u) as [v|] eqn:E; (eapply hex_digits_shorter; [exact H|]); [|done].
  etrans; [apply drop_underscore_length|]. etrans; [by eapply after_0x_length|done].
Qed.

Theorem uuid_parse_valid s u : uuid_parse s = Ok u → uuid_valid u.
Proof.
  unfold uuid_parse. cbv zeta. destruct (Nat.eqb_spec (String.length (remove_chars
    (λ c, bool_decide (c = "-"%char)) (lstrip_chars (λ c, char_in "{}" c) (rstrip_chars
      (λ c, char_in "{}" c) (str_replace "uuid:" "" (str_replace "urn:" "" s)))))) 32) as [E|]; [|done].
  destruct (int_hex _) as [n|] eqn:Ei; [|done]. intros [= <-].
  apply int_hex_bound in Ei. rewrite E in Ei. exact Ei.
Qed.

(** *** Canonical texts *)

Lemma uuid_str_inj u v : uuid_valid u → uuid_valid v → uuid_str u = uuid_str v → u = v.
Proof.
  intros Hu Hv E. apply uuid_round_trip in Hu, Hv. rewrite E in Hu. congruence.
Qed.

Lemma canonical_str u : uuid_valid u → canonical_uuid (uuid_str u) = true.
Proof.
  intros Hu. unfold canonical_uuid. rewrite uuid_round_trip by done. by apply bool_decide_eq_true.
Qed.

Lemma canonical_inv s :
  canonical_uuid s = true → ∃ u, uuid_valid u ∧ uuid_parse s = Ok u ∧ s = uuid_str u.
Proof.
  unfold canonical_uuid. destruct (uuid_parse s) as [u|] eqn:E; [|done].
  rewrite bool_decide_eq_true. intros <-. eauto using uuid_parse_valid.
Qed.

Lemma canonical_as_uuid s f u :
  canonical_uuid s = true → as_uuid s f = Ok u ↔ uuid_valid u ∧ s = uuid_str u.
Proof.
  intros (v & Hv & Hp & ->)%canonical_inv. unfold as_uuid. rewrite Hp. split.
  - intros [= ->]. done.
  - intros [Hu E]. f_equal. by apply uuid_str_inj.
Qed.

Lemma as_uuid_str u f : uuid_valid u → as_uuid (uuid_str u) f = Ok u.
Proof. intros Hu. unfold as_uuid. by rewrite uuid_round_trip. Qed.

Lemma optional_uuid_str u : uuid_valid u → optional_uuid (uuid_str u) = Some u.
Proof. intros Hu. unfold optional_uuid. by rewrite uuid_round_trip. Qed.
