(* ===== verification/Rows.v ===== *)
(** * Database rows

    The SQLAlchemy models ([modules/*/adapters/sqlalchemy_models.py], the mixins
    of [infrastructure/persistence/base.py]) as records: identifiers are UUIDs,
    enumerations are their text, [created_at] and [updated_at] of the timestamp
    mixin are columns.  The check constraints are predicates on rows, the unique
    constraints on pairs of rows.  [StrEnum] is the interface of a Python string
    enumeration: writing its value and reading it round trip, and a check
    constraint lists exactly its values. *)

From Stdlib Require Import ZArith QArith.
From stdpp Require Import base strings option list.
From S2P Require Import Prelude Text Dict Errors Json Store AuditTrail Catalog Connectors Registry.
From S2P Require Import Approval Execution OpenApi Toolsets ToolSearch Uuid.
Open Scope py_scope.

(** ** String enumerations *)

Class StrEnum (A : Type) := {
  enum_value : A → string;
  enum_members : list A;
  enum_member a : a ∈ enum_members;
  enum_value_inj : Inj (=) (=) enum_value }.
#[export] Existing Instance enum_value_inj.

(** [E(text)] *)
Definition enum_of {A} `{StrEnum A} (text : string) : res A :=
  match find (λ a, bool_decide (enum_value a = text)) enum_members with
  | Some a => Ok a
  | None => Raise (ValueError "not a valid member")
  end.

(** [column IN ('...', ...)] *)
Definition enum_check (A : Type) `{StrEnum A} (text : string) : bool :=
  bool_decide (text ∈ map enum_value (enum_members (A := A))).

Section EnumFacts.
Context {A : Type} `{StrEnum A}.

Lemma enum_of_Ok text (a : A) : enum_of text = Ok a ↔ text = enum_value a.
Proof.
  unfold enum_of. destruct (find _ _) as [b|] eqn:E.
  - apply find_Some_iff in E as [_ Eb%bool_decide_eq_true]. subst text. split.
    + by intros [= ->].
    + by intros ->%enum_value_inj.
  - split; [done|]. intros ->. apply find_None_iff with (x := a) in E; [|apply enum_member].
    by rewrite bool_decide_eq_false in E.
Qed.

Lemma enum_round_trip (a : A) : enum_of (enum_value a) = Ok a.
Proof. by apply enum_of_Ok. Qed.

Lemma enum_check_iff text : enum_check A text = true ↔ ∃ a : A, enum_of text = Ok a.
Proof.
  unfold enum_check. rewrite bool_decide_eq_true, list_elem_of_fmap. split.
  - intros (a & -> & _). exists a. apply enum_round_trip.
  - intros [a ->%enum_of_Ok]. exists a. split; [done|apply enum_member].
Qed.

Lemma enum_check_value (a : A) : enum_check A (enum_value a) = true.
Proof. apply enum_check_iff. exists a. apply enum_round_trip. Qed.
End EnumFacts.

(** Instances by enumeration of the members. *)
Ltac enum_solve :=
  first [ solve [intros []; repeat (apply list_elem_of_here || apply list_elem_of_further)]
        | solve [intros [] []; (reflexivity || (intros E; vm_compute in E; discriminate E))] ].

#[local] Obligation Tactic := enum_solve.

#[export] Program Instance tool_status_enum : StrEnum ToolStatus := {|
  enum_value s := match s with ToolActive => "active" | ToolDisabled => "disabled" end;
  enum_members := [ToolActive; ToolDisabled] |}.

#[export] Program Instance version_status_enum : StrEnum ToolVersionStatus := {|
  enum_value s := match s with
    | VDraft => "draft" | VReview => "review" | VPublished => "published" | VRetired => "retired" end;
  enum_members := [VDraft; VReview; VPublished; VRetired] |}.

#[export] Program Instance visibility_enum : StrEnum ToolVisibility := {|
  enum_value := visibility_value;
  enum_members := [VisPublic; VisAuthenticated; VisRestricted] |}.

#[export] Program Instance side_effect_enum : StrEnum ToolSideEffect := {|
  enum_value := side_effect_value;
  enum_members := [ReadOnly; IdempotentWrite; NonIdempotentWrite; UnknownEffect] |}.

#[export] Program Instance binding_type_enum : StrEnum ToolBindingType := {|
  enum_value := binding_type_value; enum_members := [BindHttp; BindRemoteMcp] |}.

#[export] Program Instance binding_status_enum : StrEnum ToolBindingStatus := {|
  enum_value s := match s with
    | BDraft => "draft" | BPublished => "published" | BDisabled => "disabled" end;
  enum_members := [BDraft; BPublished; BDisabled] |}.

#[export] Program Instance service_type_enum : StrEnum UpstreamServiceType := {|
  enum_value s := match s with UpHttp => "http" | UpRemoteMcp => "remote_mcp" end;
  enum_members := [UpHttp; UpRemoteMcp] |}.

#[export] Program Instance upstream_status_enum : StrEnum UpstreamStatus := {|
  enum_value s := match s with
    | UpDraft => "draft" | UpActive => "active" | UpDisabled => "disabled" end;
  enum_members := [UpDraft; UpActive; UpDisabled] |}.

#[export] Program Instance approval_status_enum : StrEnum ApprovalStatus := {|
  enum_value s := match s with
    | ApPending => "pending" | ApApproved => "approved" | ApRejected => "rejected"
    | ApExpired => "expired" | ApConsumed => "consumed" end;
  enum_members := [ApPending; ApApproved; ApRejected; ApExpired; ApConsumed] |}.

#[export] Program Instance execution_status_enum : StrEnum ExecutionStatus := {|
  enum_value := execution_status_value;
  enum_members := [ExPlanned; ExRunning; ExSucceeded; ExFailed; ExUnknown; ExCancelled] |}.

#[export] Program Instance attempt_status_enum : StrEnum ExecutionAttemptStatus := {|
  enum_value s := match s with
    | AtRunning => "running" | AtSucceeded => "succeeded" | AtFailed => "failed"
    | AtUnknown => "unknown" | AtCancelled => "cancelled" end;
  enum_members := [AtRunning; AtSucceeded; AtFailed; AtUnknown; AtCancelled] |}.

#[export] Program Instance scope_type_enum : StrEnum McpScopeType := {|
  enum_value := scope_type_value; enum_members := [Execution.ScopeRoot; Execution.ScopeToolset] |}.

#[export] Program Instance category_enum : StrEnum ExecutionErrorCategory := {|
  enum_value c := match c with
    | CatValidation => "validation" | CatAuthentication => "authentication"
    | CatAuthorization => "authorization" | CatApproval => "approval"
    | CatCredential => "credential" | CatTimeoutBeforeSend => "timeout_before_send"
    | CatTimeoutAfterSend => "timeout_after_send" | CatNetwork => "network"
    | CatUpstream4xx => "upstream_4xx" | CatUpstream5xx => "upstream_5xx"
    | CatCancelled => "cancelled" | CatUnknown => "unknown" end;
  enum_members := [CatValidation; CatAuthentication; CatAuthorization; CatApproval; CatCredential;
                   CatTimeoutBeforeSend; CatTimeoutAfterSend; CatNetwork; CatUpstream4xx;
                   CatUpstream5xx; CatCancelled; CatUnknown] |}.

#[export] Program Instance audit_action_enum : StrEnum AuditAction := {|
  enum_value a := match a with
    | ActToolCall => "tool_call" | ActApprovalDecision => "approval_decision"
    | ActCredentialResolution => "credential_resolution" end;
  enum_members := [ActToolCall; ActApprovalDecision; ActCredentialResolution] |}.

#[export] Program Instance audit_outcome_enum : StrEnum AuditOutcome := {|
  enum_value o := match o with
    | OutAllowed => "allowed" | OutDenied => "denied" | OutApprovalRequired => "approval_required"
    | OutSucceeded => "succeeded" | OutFailed => "failed" | OutUnknown => "unknown"
    | OutCancelled => "cancelled" end;
  enum_members := [OutAllowed; OutDenied; OutApprovalRequired; OutSucceeded; OutFailed; OutUnknown;
                   OutCancelled] |}.

#[export] Program Instance source_type_enum : StrEnum OpenApiSourceType := {|
  enum_value s := match s with
    | SourceUpload => "upload" | SourceLocalFixture => "local_fixture" | SourceUrl => "url" end;
  enum_members := [SourceUpload; SourceLocalFixture; SourceUrl] |}.

#[export] Program Instance import_status_enum : StrEnum ImportJobStatus := {|
  enum_value s := match s with
    | JobPending => "pending" | JobValidating => "validating" | JobParsing => "parsing"
    | JobCompleted => "completed" | JobFailed => "failed" end;
  enum_members := [JobPending; JobValidating; JobParsing; JobCompleted; JobFailed] |}.

#[export] Program Instance review_status_enum : StrEnum OperationReviewStatus := {|
  enum_value s := match s with
    | ReviewPending => "pending" | ReviewAccepted => "accepted" | ReviewRejected => "rejected"
    | ReviewNeedsChange => "needs_change" end;
  enum_members := [ReviewPending; ReviewAccepted; ReviewRejected; ReviewNeedsChange] |}.

#[export] Program Instance conflict_status_enum : StrEnum OperationConflictStatus := {|
  enum_value s := match s with
    | ConflictNone => "none" | ConflictNameCollision => "name_collision"
    | ConflictMissingOperationId => "missing_operation_id" | ConflictUnsupported => "unsupported" end;
  enum_members := [ConflictNone; ConflictNameCollision; ConflictMissingOperationId;
                   ConflictUnsupported] |}.

#[export] Program Instance toolset_kind_enum : StrEnum ToolsetKind := {|
  enum_value := toolset_kind_value; enum_members := [KindExplicit; KindAllPublished] |}.

#[export] Program Instance discovery_mode_enum : StrEnum ToolsetDiscoveryMode := {|
  enum_value m := match m with ModeDirect => "direct" | ModeSearchFirst => "search_first" end;
  enum_members := [ModeDirect; ModeSearchFirst] |}.

#[export] Program Instance toolset_status_enum : StrEnum ToolsetStatus := {|
  enum_value s := match s with
    | TsDraft => "draft" | TsActive => "active" | TsDisabled => "disabled" end;
  enum_members := [TsDraft; TsActive; TsDisabled] |}.

(** ** Rows *)

Record UpstreamServiceModel := mkUpstreamRow {
  ur_id : UUID;
  ur_tenant_id : UUID;
  ur_namespace : string;
  ur_name : string;
  ur_description : option string;
  ur_owner : string;
  ur_service_type : string;
  ur_transport_type : string;
  ur_endpoint : string;
  ur_protocol_min : option string;
  ur_protocol_max : option string;
  ur_auth_scheme : option string;
  ur_config_json : dict json;
  ur_status : string;
  ur_created_at : datetime;
  ur_updated_at : datetime }.

Record ToolModel := mkToolRow {
  tr_id : UUID;
  tr_tenant_id : UUID;
  tr_namespace : string;
  tr_canonical_name : string;
  tr_owner : string;
  tr_status : string;
  tr_created_at : datetime;
  tr_updated_at : datetime }.

(** Without the text search column, which PostgreSQL computes. *)
Record ToolVersionModel := mkVersionRow {
  vr_id : UUID;
  vr_tenant_id : UUID;
  vr_tool_id : UUID;
  vr_version : Z;
  vr_display_name : string;
  vr_description : string;
  vr_input_schema_json : dict json;
  vr_output_schema_json : option (dict json);
  vr_schema_digest : string;
  vr_tags_json : list string;
  vr_search_name : string;
  vr_search_tags : string;
  vr_search_description : string;
  vr_side_effect : string;
  vr_visibility : string;
  vr_status : string;
  vr_created_by : string;
  vr_created_at : datetime;
  vr_reviewed_at : option datetime;
  vr_published_at : option datetime;
  vr_retired_at : option datetime }.

Record ToolBindingModel := mkBindingRow {
  br_id : UUID;
  br_tenant_id : UUID;
  br_tool_version_id : UUID;
  br_upstream_service_id : UUID;
  br_imported_operation_id : option UUID;
  br_binding_type : string;
  br_binding_config_json : dict json;
  br_binding_digest : string;
  br_status : string;
  br_created_at : datetime;
  br_updated_at : datetime;
  br_published_at : option datetime }.

Record ApprovalRequestModel := mkApprovalRow {
  pr_id : UUID;
  pr_tenant_id : UUID;
  pr_principal_id : string;
  pr_tool_id : UUID;
  pr_tool_version_id : UUID;
  pr_arguments_digest : string;
  pr_policy_version : string;
  pr_idempotency_key : option string;
  pr_status : string;
  pr_requested_at : datetime;
  pr_expires_at : datetime;
  pr_decided_by : option string;
  pr_decided_at : option datetime;
  pr_consumed_at : option datetime }.

Record ToolExecutionModel := mkExecutionRow {
  xm_id : UUID;
  xm_tenant_id : UUID;
  xm_request_id : string;
  xm_trace_id : string;
  xm_principal_id : string;
  xm_tool_id : UUID;
  xm_tool_version_id : UUID;
  xm_tool_binding_id : UUID;
  xm_mcp_scope_type : string;
  xm_toolset_id : option UUID;
  xm_toolset_revision : option Z;
  xm_approval_id : option UUID;
  xm_credential_binding_id : option string;
  xm_arguments_digest : string;
  xm_policy_version : string;
  xm_policy_reason_code : string;
  xm_side_effect : string;
  xm_status : string;
  xm_key : option string;
  xm_planned_at : datetime;
  xm_started_at : option datetime;
  xm_finished_at : option datetime;
  xm_error_code : option string;
  xm_error_category : option string;
  xm_attempt_count : Z }.

Record ExecutionAttemptModel := mkAttemptRow {
  atr_id : UUID;
  atr_tenant_id : UUID;
  atr_execution_id : UUID;
  atr_attempt_number : Z;
  atr_status : string;
  atr_started_at : datetime;
  atr_finished_at : option datetime;
  atr_error_code : option string;
  atr_error_category : option string;
  atr_upstream_status : option Z }.

Record AuditEventModel := mkAuditRow {
  aur_id : UUID;
  aur_tenant_id : UUID;
  aur_actor_id : string;
  aur_action : string;
  aur_resource_type : string;
  aur_resource_id : string;
  aur_outcome : string;
  aur_request_id : string;
  aur_trace_id : string;
  aur_occurred_at : datetime;
  aur_arguments_digest : option string;
  aur_policy_version : option string;
  aur_reason_code : option string;
  aur_execution_id : option UUID;
  aur_metadata_json : dict meta_value }.

Record OpenApiImportJobModel := mkJobRow {
  jr_id : UUID;
  jr_tenant_id : UUID;
  jr_upstream_service_id : UUID;
  jr_source_type : string;
  jr_source_ref : string;
  jr_source_digest : string;
  jr_openapi_version : option string;
  jr_operation_allowlist_json : list string;
  jr_allowlist_snapshot_json : dict json;
  jr_status : string;
  jr_error_summary : option string;
  jr_created_by : string;
  jr_created_at : datetime;
  jr_started_at : option datetime;
  jr_completed_at : option datetime }.

Record ImportedOperationModel := mkOperationRow {
  opr_id : UUID;
  opr_tenant_id : UUID;
  opr_import_job_id : UUID;
  opr_upstream_service_id : UUID;
  opr_operation_key : string;
  opr_operation_id : option string;
  opr_method : string;
  opr_path : string;
  opr_normalized_operation_json : dict json;
  opr_generated_tool_name : option string;
  opr_conflict_status : string;
  opr_review_status : string;
  opr_review_notes : option string;
  opr_draft_tool_version_id : option UUID;
  opr_draft_tool_binding_id : option UUID;
  opr_created_at : datetime;
  opr_updated_at : datetime }.

(** The vector column is what pgvector stores; its values are read back as
    floats. *)
Record ToolSearchEmbeddingModel := mkEmbeddingRow {
  emr_id : UUID;
  emr_tenant_id : UUID;
  emr_tool_version_id : UUID;
  emr_embedding_model : string;
  emr_embedding_dimensions : Z;
  emr_source_digest : string;
  emr_embedding : list (option Q);
  emr_indexed_at : datetime }.

Record ToolsetModel := mkToolsetRow {
  tsr_id : UUID;
  tsr_tenant_id : UUID;
  tsr_slug : string;
  tsr_name : string;
  tsr_description : option string;
  tsr_kind : string;
  tsr_discovery_mode : string;
  tsr_status : string;
  tsr_revision : Z;
  tsr_membership_digest : string;
  tsr_created_by : string;
  tsr_created_at : datetime;
  tsr_updated_at : datetime }.

Record ToolsetMemberModel := mkMemberRow {
  tmr_tenant_id : UUID;
  tmr_toolset_id : UUID;
  tmr_tool_id : UUID;
  tmr_added_by : string;
  tmr_added_at : datetime }.

Record ToolsetAccessGrantModel := mkGrantRow {
  tgr_tenant_id : UUID;
  tgr_toolset_id : UUID;
  tgr_principal_id : string;
  tgr_granted_by : string;
  tgr_granted_at : datetime }.

(** ** Check constraints *)

Definition upstream_check (r : UpstreamServiceModel) : bool :=
  enum_check UpstreamServiceType (ur_service_type r) && enum_check UpstreamStatus (ur_status r).
Definition tool_check (r : ToolModel) : bool := enum_check ToolStatus (tr_status r).
Definition version_check (r : ToolVersionModel) : bool :=
  enum_check ToolSideEffect (vr_side_effect r) && enum_check ToolVisibility (vr_visibility r)
  && enum_check ToolVersionStatus (vr_status r).
Definition binding_check (r : ToolBindingModel) : bool :=
  enum_check ToolBindingType (br_binding_type r) && enum_check ToolBindingStatus (br_status r).
Definition approval_check (r : ApprovalRequestModel) : bool :=
  enum_check ApprovalStatus (pr_status r).
(** A comparison with NULL is unknown, which a check constraint lets pass. *)
Definition execution_check (r : ToolExecutionModel) : bool :=
  enum_check ExecutionStatus (xm_status r) && enum_check ToolSideEffect (xm_side_effect r)
  && match xm_error_category r with
     | None => true | Some c => enum_check ExecutionErrorCategory c end
  && (bool_decide (xm_mcp_scope_type r = "root") && is_none (xm_toolset_id r)
        && is_none (xm_toolset_revision r)
      || bool_decide (xm_mcp_scope_type r = "toolset") && negb (is_none (xm_toolset_id r))
         && match xm_toolset_revision r with Some n => (0 <? n)%Z | None => true end).
Definition attempt_check (r : ExecutionAttemptModel) : bool :=
  enum_check ExecutionAttemptStatus (atr_status r) && (0 <? atr_attempt_number r)%Z.
Definition audit_check (r : AuditEventModel) : bool :=
  enum_check AuditAction (aur_action r) && enum_check AuditOutcome (aur_outcome r).
Definition import_job_check (r : OpenApiImportJobModel) : bool :=
  enum_check OpenApiSourceType (jr_source_type r) && enum_check ImportJobStatus (jr_status r).
Definition operation_check (r : ImportedOperationModel) : bool :=
  enum_check OperationReviewStatus (opr_review_status r)
  && enum_check OperationConflictStatus (opr_conflict_status r).

Definition toolset_check (r : ToolsetModel) : bool :=
  enum_check ToolsetKind (tsr_kind r) && enum_check ToolsetDiscoveryMode (tsr_discovery_mode r)
  && enum_check ToolsetStatus (tsr_status r) && (0 <? tsr_revision r)%Z.

(** ** Unique constraints: two different rows that may not be together *)

Definition upstream_clash (a b : UpstreamServiceModel) : bool :=
  bool_decide (ur_tenant_id a = ur_tenant_id b) && bool_decide (ur_namespace a = ur_namespace b)
  && bool_decide (ur_name a = ur_name b).
Definition tool_clash (a b : ToolModel) : bool :=
  bool_decide (tr_tenant_id a = tr_tenant_id b)
  && bool_decide (tr_canonical_name a = tr_canonical_name b).
Definition version_clash (a b : ToolVersionModel) : bool :=
  bool_decide (vr_tool_id a = vr_tool_id b)
  && (bool_decide (vr_version a = vr_version b)
      || bool_decide (vr_status a = "published") && bool_decide (vr_status b = "published")).
Definition binding_clash (a b : ToolBindingModel) : bool :=
  bool_decide (br_tool_version_id a = br_tool_version_id b).
Definition execution_clash (a b : ToolExecutionModel) : bool :=
  bool_decide (xm_tenant_id a = xm_tenant_id b) && bool_decide (xm_principal_id a = xm_principal_id b)
  && bool_decide (xm_tool_version_id a = xm_tool_version_id b)
  && bool_decide (xm_key a = xm_key b) && negb (is_none (xm_key a)).
Definition attempt_clash (a b : ExecutionAttemptModel) : bool :=
  bool_decide (atr_execution_id a = atr_execution_id b)
  && bool_decide (atr_attempt_number a = atr_attempt_number b).
Definition operation_clash (a b : ImportedOperationModel) : bool :=
  bool_decide (opr_import_job_id a = opr_import_job_id b)
  && bool_decide (opr_operation_key a = opr_operation_key b).
Definition embedding_clash (a b : ToolSearchEmbeddingModel) : bool :=
  bool_decide (emr_tenant_id a = emr_tenant_id b)
  && bool_decide (emr_tool_version_id a = emr_tool_version_id b)
  && bool_decide (emr_embedding_model a = emr_embedding_model b)
  && bool_decide (emr_embedding_dimensions a = emr_embedding_dimensions b).

Definition toolset_clash (a b : ToolsetModel) : bool :=
  bool_decide (tsr_tenant_id a = tsr_tenant_id b)
  && (bool_decide (tsr_slug a = tsr_slug b)
      || bool_decide (tsr_kind a = "all_published") && bool_decide (tsr_kind b = "all_published")).

(** ** The database *)

Record Database := mkDatabase {
  db_upstreams : list UpstreamServiceModel;
  db_tools : list ToolModel;
  db_versions : list ToolVersionModel;
  db_bindings : list ToolBindingModel;
  db_approvals : list ApprovalRequestModel;
  db_executions : list ToolExecutionModel;
  db_attempts : list ExecutionAttemptModel;
  db_audits : list AuditEventModel;
  db_jobs : list OpenApiImportJobModel;
  db_operations : list ImportedOperationModel;
  db_embeddings : list ToolSearchEmbeddingModel }.

Definition empty_database : Database := mkDatabase [] [] [] [] [] [] [] [] [] [] [].
