(* ===== verification/ControlPlane.v ===== *)
(** * Control plane read models

    Models [modules/control_plane/read_models.py] and the queries of
    [infrastructure/persistence/admin_queries.py] on the rows of Rows.v.  A
    query selects, joins and filters rows, orders them and cuts a page.  What
    PostgreSQL decides, the order of texts and case folding, is the class
    [DatabaseText]; [percent a b] is Python's [round(a / b * 100, 2)].  An
    offset past [bigint] and a text with a null character are refused by the
    database ([cut], [with_texts]). *)

From Stdlib Require Import ZArith QArith Ascii String Sorting.Sorted Lia.
From stdpp Require Import base sets strings option list.
From S2P Require Import Prelude Text Dict Errors Json AuditTrail Format Uuid Rows.
Open Scope py_scope.

(** ** Read models *)

Record Page (A : Type) := mkPage {
  pg_items : list A;
  pg_offset : Z;
  pg_limit : Z;
  pg_total : Z }.
Arguments mkPage {A}.
Arguments pg_items {A}.
Arguments pg_offset {A}.
Arguments pg_limit {A}.
Arguments pg_total {A}.

Record SearchProjectionSummary := mkProjection {
  sps_published_tools : Z;
  sps_indexed_tools : Z;
  sps_pending_tools : Z;
  sps_coverage_percent : Q;
  sps_embedding_model : string;
  sps_embedding_dimensions : Z;
  sps_latest_indexed_at : option datetime }.

Record DashboardSummary := mkDashboard {
  ds_active_upstreams : Z;
  ds_published_tools : Z;
  ds_pending_reviews : Z;
  ds_pending_approvals : Z;
  ds_failed_executions : Z;
  ds_unknown_executions : Z;
  ds_search_projection : SearchProjectionSummary }.

Record UpstreamDetail := mkUpstreamDetail {
  ud_id : string;
  ud_tenant_id : string;
  ud_namespace : string;
  ud_name : string;
  ud_description : option string;
  ud_owner : string;
  ud_service_type : string;
  ud_transport_type : string;
  ud_endpoint : string;
  ud_protocol_min : option string;
  ud_protocol_max : option string;
  ud_auth_scheme : option string;
  ud_config : dict json;
  ud_status : string;
  ud_created_at : datetime;
  ud_updated_at : datetime }.

Record ImportJobSummary := mkImportSummary {
  ijs_id : string;
  ijs_upstream_service_id : string;
  ijs_upstream_name : string;
  ijs_source_type : string;
  ijs_source_ref : string;
  ijs_source_digest : string;
  ijs_openapi_version : option string;
  ijs_status : string;
  ijs_error_summary : option string;
  ijs_created_by : string;
  ijs_created_at : datetime;
  ijs_started_at : option datetime;
  ijs_completed_at : option datetime }.

Record ReviewOperationSummary := mkReviewSummary {
  ros_id : string;
  ros_import_job_id : string;
  ros_upstream_service_id : string;
  ros_operation_id : option string;
  ros_operation_key : string;
  ros_method : string;
  ros_path : string;
  ros_generated_tool_name : option string;
  ros_conflict_status : string;
  ros_review_status : string;
  ros_review_notes : option string;
  ros_draft_tool_version_id : option string;
  ros_draft_tool_binding_id : option string;
  ros_created_at : datetime;
  ros_updated_at : datetime }.

Record ToolSummary := mkToolSummary {
  tsm_id : string;
  tsm_namespace : string;
  tsm_canonical_name : string;
  tsm_owner : string;
  tsm_status : string;
  tsm_latest_version_id : string;
  tsm_latest_version : Z;
  tsm_display_name : string;
  tsm_description : string;
  tsm_version_status : string;
  tsm_visibility : string;
  tsm_side_effect : string;
  tsm_tags : list string;
  tsm_upstream_service_id : option string;
  tsm_upstream_name : option string;
  tsm_upstream_namespace : option string;
  tsm_created_at : datetime;
  tsm_updated_at : datetime }.

Record ToolVersionDetail := mkVersionDetail {
  tvd_id : string;
  tvd_tool_id : string;
  tvd_version : Z;
  tvd_display_name : string;
  tvd_description : string;
  tvd_input_schema : dict json;
  tvd_output_schema : option (dict json);
  tvd_schema_digest : string;
  tvd_tags : list string;
  tvd_side_effect : string;
  tvd_visibility : string;
  tvd_status : string;
  tvd_created_by : string;
  tvd_created_at : datetime;
  tvd_reviewed_at : option datetime;
  tvd_published_at : option datetime;
  tvd_retired_at : option datetime }.

Record ToolDetail := mkToolDetail {
  td_id : string;
  td_tenant_id : string;
  td_namespace : string;
  td_canonical_name : string;
  td_owner : string;
  td_status : string;
  td_created_at : datetime;
  td_updated_at : datetime }.

Record ToolBindingDetail := mkBindingDetail {
  tbd_id : string;
  tbd_tool_version_id : string;
  tbd_upstream_service_id : string;
  tbd_imported_operation_id : option string;
  tbd_binding_type : string;
  tbd_binding_config : dict json;
  tbd_binding_digest : string;
  tbd_status : string;
  tbd_created_at : datetime;
  tbd_updated_at : datetime;
  tbd_published_at : option datetime }.

Record ApprovalSummary := mkApprovalSummary {
  aps_id : string;
  aps_principal_id : string;
  aps_tool_id : string;
  aps_tool_version_id : string;
  aps_canonical_name : string;
  aps_arguments_digest : string;
  aps_policy_version : string;
  aps_has_idempotency_key : bool;
  aps_status : string;
  aps_requested_at : datetime;
  aps_expires_at : datetime;
  aps_decided_by : option string;
  aps_decided_at : option datetime;
  aps_consumed_at : option datetime }.

Record ExecutionSummary := mkExecutionSummary {
  exs_id : string;
  exs_request_id : string;
  exs_trace_id : string;
  exs_principal_id : string;
  exs_tool_id : string;
  exs_tool_version_id : string;
  exs_tool_binding_id : string;
  exs_canonical_name : string;
  exs_policy_version : string;
  exs_policy_reason_code : string;
  exs_side_effect : string;
  exs_status : string;
  exs_has_idempotency_key : bool;
  exs_planned_at : datetime;
  exs_started_at : option datetime;
  exs_finished_at : option datetime;
  exs_error_code : option string;
  exs_error_category : option string;
  exs_attempt_count : Z;
  exs_mcp_scope_type : string;
  exs_toolset_id : option string;
  exs_toolset_revision : option Z }.

Record ExecutionAttemptSummary := mkAttemptSummary {
  ats_id : string;
  ats_execution_id : string;
  ats_attempt_number : Z;
  ats_status : string;
  ats_started_at : datetime;
  ats_finished_at : option datetime;
  ats_error_code : option string;
  ats_error_category : option string;
  ats_upstream_status : option Z }.

Record AuditEventSummary := mkAuditSummary {
  aus_id : string;
  aus_actor_id : string;
  aus_action : string;
  aus_resource_type : string;
  aus_resource_id : string;
  aus_outcome : string;
  aus_request_id : string;
  aus_trace_id : string;
  aus_occurred_at : datetime;
  aus_arguments_digest : option string;
  aus_policy_version : option string;
  aus_reason_code : option string;
  aus_execution_id : option string;
  aus_metadata : dict meta_value }.

(** ** From rows to read models *)

(** [_upstream_detail] *)
Definition upstream_detail (m : UpstreamServiceModel) : UpstreamDetail :=
  mkUpstreamDetail (uuid_str (ur_id m)) (uuid_str (ur_tenant_id m)) (ur_namespace m) (ur_name m)
    (ur_description m) (ur_owner m) (ur_service_type m) (ur_transport_type m) (ur_endpoint m)
    (ur_protocol_min m) (ur_protocol_max m) (ur_auth_scheme m) (ur_config_json m) (ur_status m)
    (ur_created_at m) (ur_updated_at m).

(** [_import_summary] *)
Definition import_summary (m : OpenApiImportJobModel) (upstream_name : string) : ImportJobSummary :=
  mkImportSummary (uuid_str (jr_id m)) (uuid_str (jr_upstream_service_id m)) upstream_name
    (jr_source_type m) (jr_source_ref m) (jr_source_digest m) (jr_openapi_version m) (jr_status m)
    (jr_error_summary m) (jr_created_by m) (jr_created_at m) (jr_started_at m) (jr_completed_at m).

(** [_review_summary] *)
Definition review_summary (m : ImportedOperationModel) : ReviewOperationSummary :=
  mkReviewSummary (uuid_str (opr_id m)) (uuid_str (opr_import_job_id m))
    (uuid_str (opr_upstream_service_id m)) (opr_operation_id m) (opr_operation_key m) (opr_method m)
    (opr_path m) (opr_generated_tool_name m) (opr_conflict_status m) (opr_review_status m)
    (opr_review_notes m) (uuid_str <$> opr_draft_tool_version_id m)
    (uuid_str <$> opr_draft_tool_binding_id m) (opr_created_at m) (opr_updated_at m).

(** [_tool_summary] *)
Definition tool_summary (tool : ToolModel) (version : ToolVersionModel)
    (binding : option ToolBindingModel) (upstream : option UpstreamServiceModel) : ToolSummary :=
  mkToolSummary (uuid_str (tr_id tool)) (tr_namespace tool) (tr_canonical_name tool) (tr_owner tool)
    (tr_status tool) (uuid_str (vr_id version)) (vr_version version) (vr_display_name version)
    (vr_description version) (vr_status version) (vr_visibility version) (vr_side_effect version)
    (vr_tags_json version) ((λ b, uuid_str (br_upstream_service_id b)) <$> binding)
    (ur_name <$> upstream) (ur_namespace <$> upstream) (tr_created_at tool) (tr_updated_at tool).

(** [_tool_detail] *)
Definition tool_detail (m : ToolModel) : ToolDetail :=
  mkToolDetail (uuid_str (tr_id m)) (uuid_str (tr_tenant_id m)) (tr_namespace m)
    (tr_canonical_name m) (tr_owner m) (tr_status m) (tr_created_at m) (tr_updated_at m).

(** [_version_detail]; an empty output schema is shown as none. *)
Definition version_detail (m : ToolVersionModel) : ToolVersionDetail :=
  mkVersionDetail (uuid_str (vr_id m)) (uuid_str (vr_tool_id m)) (vr_version m) (vr_display_name m)
    (vr_description m) (vr_input_schema_json m)
    (match vr_output_schema_json m with Some [] => None | o => o end)
    (vr_schema_digest m) (vr_tags_json m) (vr_side_effect m) (vr_visibility m) (vr_status m)
    (vr_created_by m) (vr_created_at m) (vr_reviewed_at m) (vr_published_at m) (vr_retired_at m).

(** [_binding_detail] *)
Definition binding_detail (m : ToolBindingModel) : ToolBindingDetail :=
  mkBindingDetail (uuid_str (br_id m)) (uuid_str (br_tool_version_id m))
    (uuid_str (br_upstream_service_id m)) (uuid_str <$> br_imported_operation_id m)
    (br_binding_type m) (br_binding_config_json m) (br_binding_digest m) (br_status m)
    (br_created_at m) (br_updated_at m) (br_published_at m).

(** [_approval_summary] *)
Definition approval_summary (m : ApprovalRequestModel) (canonical_name : string) : ApprovalSummary :=
  mkApprovalSummary (uuid_str (pr_id m)) (pr_principal_id m) (uuid_str (pr_tool_id m))
    (uuid_str (pr_tool_version_id m)) canonical_name (pr_arguments_digest m) (pr_policy_version m)
    (negb (is_none (pr_idempotency_key m))) (pr_status m) (pr_requested_at m) (pr_expires_at m)
    (pr_decided_by m) (pr_decided_at m) (pr_consumed_at m).

(** [_execution_summary] *)
Definition execution_summary (m : ToolExecutionModel) (canonical_name : string) : ExecutionSummary :=
  mkExecutionSummary (uuid_str (xm_id m)) (xm_request_id m) (xm_trace_id m) (xm_principal_id m)
    (uuid_str (xm_tool_id m)) (uuid_str (xm_tool_version_id m)) (uuid_str (xm_tool_binding_id m))
    canonical_name (xm_policy_version m) (xm_policy_reason_code m) (xm_side_effect m) (xm_status m)
    (negb (is_none (xm_key m))) (xm_planned_at m) (xm_started_at m) (xm_finished_at m)
    (xm_error_code m) (xm_error_category m) (xm_attempt_count m) (xm_mcp_scope_type m)
    (uuid_str <$> xm_toolset_id m) (xm_toolset_revision m).

(** [_attempt_summary] *)
Definition attempt_summary (m : ExecutionAttemptModel) : ExecutionAttemptSummary :=
  mkAttemptSummary (uuid_str (atr_id m)) (uuid_str (atr_execution_id m)) (atr_attempt_number m)
    (atr_status m) (atr_started_at m) (atr_finished_at m) (atr_error_code m) (atr_error_category m)
    (atr_upstream_status m).

(** [_audit_summary] *)
Definition audit_summary (m : AuditEventModel) : AuditEventSummary :=
  mkAuditSummary (uuid_str (aur_id m)) (aur_actor_id m) (aur_action m) (aur_resource_type m)
    (aur_resource_id m) (aur_outcome m) (aur_request_id m) (aur_trace_id m) (aur_occurred_at m)
    (aur_arguments_digest m) (aur_policy_version m) (aur_reason_code m)
    (uuid_str <$> aur_execution_id m) (aur_metadata_json m).

(** ** SQL *)

(** What the database decides about texts. *)
Class DatabaseText := {
  collate : string → string → bool;
  collate_total a b : collate a b = true ∨ collate b a = true;
  collate_trans a b c : collate a b = true → collate b c = true → collate a c = true;
  collate_antisym a b : collate a b = true → collate b a = true → a = b;
  fold_char : ascii → ascii;
  fold_pattern c : fold_char c ∈ ["%"; "_"; "\"]%char ∨ c ∈ ["%"; "_"; "\"]%char → fold_char c = c }.

Fixpoint fold_case `{DatabaseText} (s : string) : string :=
  match s with EmptyString => "" | String c s' => String (fold_char c) (fold_case s') end.

(** A [LIKE] pattern with the escape character [\]. *)
Inductive like_token := LikeChar (c : ascii) | LikeAnyString | LikeAnyChar.

Fixpoint like_pattern (s : string) : option (list like_token) :=
  match s with
  | EmptyString => Some []
  | String c s' =>
      if bool_decide (c = "\"%char)
      then match s' with
           | String d s'' => cons (LikeChar d) <$> like_pattern s''
           | EmptyString => None
           end
      else cons (if bool_decide (c = "%"%char) then LikeAnyString
                 else if bool_decide (c = "_"%char) then LikeAnyChar else LikeChar c)
             <$> like_pattern s'
  end.

Fixpoint like_match (p : list like_token) (s : string) : bool :=
  match p with
  | [] => str_empty s
  | LikeChar c :: p' =>
      match s with String d s' => bool_decide (c = d) && like_match p' s' | EmptyString => false end
  | LikeAnyChar :: p' =>
      match s with String _ s' => like_match p' s' | EmptyString => false end
  | LikeAnyString :: p' =>
      (fix any s := like_match p' s || match s with String _ s' => any s' | EmptyString => false end) s
  end.

(** [column.ilike(pattern, escape="\\")]; a pattern that ends in its escape
    character is an error of the database. *)
Definition ilike `{DatabaseText} (column pattern : string) : res bool :=
  match like_pattern (fold_case pattern) with
  | Some p => Ok (like_match p (fold_case column))
  | None => Raise OtherException
  end.

(** [_escape_like] *)
Definition escape_like (value : string) : string :=
  str_replace "_" "\_" (str_replace "%" "\%" (str_replace "\" "\\" value)).

(** [offset(...)] and [limit(...)], which are [bigint]: the driver refuses a
    number past its range, the database a negative one. *)
Definition bigint_end : Z := 2 ^ 63.
Definition cut {R} (offset limit : Z) (rows : list R) : res (list R) :=
  raise_if (bigint_end <=? limit)%Z OtherException ;;?
  raise_if (bigint_end <=? offset)%Z OtherException ;;?
  raise_if (limit <? 0)%Z OtherException ;;?
  raise_if (offset <? 0)%Z OtherException ;;?
  Ok (take (Z.to_nat limit) (drop (Z.to_nat offset) rows)).

(** A statement with the texts among its parameters: PostgreSQL has no text
    with a null character, and refuses one. *)
Definition null_character (s : string) : bool := char_in s (ascii_of_N 0).
Definition with_texts {A} (texts : list (option string)) (statement : res A) : res A :=
  raise_if (existsb (from_option null_character false) texts) OtherException ;;? statement.

(** [_paged_rows] of an ordered statement: the rows of the page and the count
    of all rows. *)
Definition paged_rows {R} (leb : R → R → bool) (rows : list R) (offset limit : Z) :
    res (list R * Z) :=
  let total := Z.of_nat (length rows) in
  let? page := cut offset limit (sorted_by leb rows) in
  Ok (page, total).

(** The page of a statement's rows as read models. *)
Definition page_of {R A} (leb : R → R → bool) (view : R → A) (rows : list R) (offset limit : Z) :
    res (Page A) :=
  let? page := paged_rows leb rows offset limit in
  Ok (mkPage (map view page.1) offset limit page.2).

Definition empty_page {A} (offset limit : Z) : res (Page A) := Ok (mkPage [] offset limit 0).

(** A [where] on a column, added where the filter is given. *)
Definition where_text (filter : option string) (column : string) : bool :=
  match filter with Some text => bool_decide (column = text) | None => true end.
Definition where_id (filter : option UUID) (column : UUID) : bool :=
  match filter with Some id => bool_decide (column = id) | None => true end.

(** An identifier filter: none, a UUID, or a text that names nothing. *)
Definition id_filter (text : option string) : option (option UUID) :=
  match text with
  | None => Some None
  | Some text => match optional_uuid text with Some id => Some (Some id) | None => None end
  end.

Definition by_text {R} `{DatabaseText} (key : R → string) (a b : R) : bool := collate (key a) (key b).
Definition by_time_desc {R} (key : R → datetime) (a b : R) : bool :=
  (dt_micros (key b) <=? dt_micros (key a))%Z.
Definition by_id_desc {R} (key : R → UUID) (a b : R) : bool :=
  (uuid_int (key b) <=? uuid_int (key a))%N.
Definition by_int {R} (key : R → Z) (a b : R) : bool := (key a <=? key b)%Z.
Definition by_int_desc {R} (key : R → Z) (a b : R) : bool := (key b <=? key a)%Z.

(** ** [SqlAlchemyControlPlaneQueries] *)

Section Queries.
Context `{DatabaseText} (percent : Z → Z → Q).

(** The adapter's configuration. *)
Context (embedding_model : string) (embedding_dimensions : Z).

Definition count {R} (P : R → bool) (rows : list R) : Z :=
  Z.of_nat (length (filter (λ r, P r = true) rows)).

Definition http_upstream (tenant : UUID) (u : UpstreamServiceModel) : bool :=
  bool_decide (ur_tenant_id u = tenant) && bool_decide (ur_service_type u = "http")
  && bool_decide (ur_transport_type u = "http").

Definition published_row (tenant : UUID) (v : ToolVersionModel) : bool :=
  bool_decide (vr_tenant_id v = tenant) && bool_decide (vr_status v = "published").

Definition of_model (tenant : UUID) (e : ToolSearchEmbeddingModel) : bool :=
  bool_decide (emr_tenant_id e = tenant) && bool_decide (emr_embedding_model e = embedding_model)
  && bool_decide (emr_embedding_dimensions e = embedding_dimensions).

(** [max(column)] *)
Definition latest (times : list datetime) : option datetime :=
  match times with
  | [] => None
  | t :: ts => Some (foldl (λ a b, if (dt_micros a <? dt_micros b)%Z then b else a) t ts)
  end.

(** The rows [embeddings join versions] of the index that are published. *)
Definition indexed_rows (db : Database) (tenant : UUID) :
    list (ToolSearchEmbeddingModel * ToolVersionModel) :=
  e ← filter (λ e, of_model tenant e = true) (db_embeddings db);
  v ← filter (λ v, vr_id v = emr_tool_version_id e ∧ vr_status v = "published") (db_versions db);
  [(e, v)].

(** [_search_projection_status] *)
Definition search_projection_of (db : Database) (tenant : UUID) : SearchProjectionSummary :=
  let published_tools := count (published_row tenant) (db_versions db) in
  let indexed_tools := Z.of_nat (length (indexed_rows db tenant)) in
  mkProjection published_tools indexed_tools (published_tools - indexed_tools `max` 0)
    (if (published_tools =? 0)%Z then 100%Q else percent indexed_tools published_tools)
    embedding_model embedding_dimensions
    (latest (map emr_indexed_at (filter (λ e, of_model tenant e = true) (db_embeddings db)))).

(** [search_projection_status] *)
Definition search_projection_status (db : Database) (tenant_id : string) :
    res SearchProjectionSummary :=
  let? tenant := uuid_parse tenant_id in Ok (search_projection_of db tenant).

(** [dashboard] *)
Definition dashboard (db : Database) (tenant_id : string) : res DashboardSummary :=
  let? tenant := uuid_parse tenant_id in
  Ok (mkDashboard
        (count (λ u, http_upstream tenant u && bool_decide (ur_status u = "active")) (db_upstreams db))
        (count (published_row tenant) (db_versions db))
        (count (λ o, bool_decide (opr_tenant_id o = tenant)
                     && bool_decide (opr_review_status o ∈ ["pending"; "needs_change"]))
           (db_operations db))
        (count (λ a, bool_decide (pr_tenant_id a = tenant) && bool_decide (pr_status a = "pending"))
           (db_approvals db))
        (count (λ x, bool_decide (xm_tenant_id x = tenant) && bool_decide (xm_status x = "failed"))
           (db_executions db))
        (count (λ x, bool_decide (xm_tenant_id x = tenant) && bool_decide (xm_status x = "unknown"))
           (db_executions db))
        (search_projection_of db tenant)).

(** One row of a tenant by its identifier; an identifier that is no UUID names
    no row. *)
Definition get_row {R A} (tenant_of id_of : R → UUID) (rows : list R) (view : R → A)
    (tenant_id id : string) : res (option A) :=
  let? tenant := uuid_parse tenant_id in
  match optional_uuid id with
  | None => Ok None
  | Some u => Ok (view <$> find (λ r, bool_decide (tenant_of r = tenant) && bool_decide (id_of r = u)) rows)
  end.

(** [get_upstream] *)
Definition get_upstream (db : Database) : string → string → res (option UpstreamDetail) :=
  get_row ur_tenant_id ur_id (db_upstreams db) upstream_detail.

(** [list_upstreams] *)
Definition upstream_rows (db : Database) (tenant : UUID) (namespace status : option string) :
    list UpstreamServiceModel :=
  filter (λ u, http_upstream tenant u && where_text namespace (ur_namespace u)
               && where_text status (ur_status u) = true) (db_upstreams db).
Definition upstream_order : UpstreamServiceModel → UpstreamServiceModel → bool :=
  then_by (by_text ur_namespace) (by_text ur_name).
Definition list_upstreams (db : Database) (tenant_id : string) (offset limit : Z)
    (namespace status : option string) : res (Page UpstreamDetail) :=
  let? tenant := uuid_parse tenant_id in
  with_texts [namespace; status]
    (page_of upstream_order upstream_detail (upstream_rows db tenant namespace status) offset limit).

(** [list_imports]: the job with the name of its upstream. *)
Definition import_rows (db : Database) (tenant : UUID) (status : option string)
    (upstream : option UUID) : list (OpenApiImportJobModel * UpstreamServiceModel) :=
  j ← filter (λ j, bool_decide (jr_tenant_id j = tenant) && where_text status (jr_status j)
                   && where_id upstream (jr_upstream_service_id j) = true) (db_jobs db);
  u ← filter (λ u, ur_id u = jr_upstream_service_id j) (db_upstreams db);
  [(j, u)].
Definition import_order (a b : OpenApiImportJobModel * UpstreamServiceModel) : bool :=
  then_by (by_time_desc (λ r, jr_created_at r.1)) (by_id_desc (λ r, jr_id r.1)) a b.
Definition list_imports (db : Database) (tenant_id : string) (offset limit : Z)
    (status upstream_id : option string) : res (Page ImportJobSummary) :=
  let? tenant := uuid_parse tenant_id in
  match id_filter upstream_id with
  | None => empty_page offset limit
  | Some upstream =>
      with_texts [status]
        (page_of import_order (λ r, import_summary r.1 (ur_name r.2))
           (import_rows db tenant status upstream) offset limit)
  end.

(** [list_review_operations] *)
Definition operation_rows (db : Database) (tenant : UUID) (review_status conflict_status : option string)
    (job : option UUID) : list ImportedOperationModel :=
  filter (λ o, bool_decide (opr_tenant_id o = tenant) && where_text review_status (opr_review_status o)
               && where_text conflict_status (opr_conflict_status o)
               && where_id job (opr_import_job_id o) = true) (db_operations db).
Definition operation_order : ImportedOperationModel → ImportedOperationModel → bool :=
  then_by (by_time_desc opr_created_at) (by_id_desc opr_id).
Definition list_review_operations (db : Database) (tenant_id : string) (offset limit : Z)
    (review_status conflict_status import_job_id : option string) : res (Page ReviewOperationSummary) :=
  let? tenant := uuid_parse tenant_id in
  match id_filter import_job_id with
  | None => empty_page offset limit
  | Some job =>
      with_texts [review_status; conflict_status]
        (page_of operation_order review_summary
           (operation_rows db tenant review_status conflict_status job) offset limit)
  end.

(** [list_tools] *)
Record ToolFilter := mkToolFilter {
  tf_query : option string;
  tf_upstream_id : option string;
  tf_namespace : option string;
  tf_status : option string;
  tf_version_status : option string;
  tf_visibility : option string;
  tf_side_effect : option string }.

(** [latest_versions]: the greatest version number of each tool. *)
Definition latest_version (db : Database) (tenant tool : UUID) : option Z :=
  match map vr_version (filter (λ v, vr_tenant_id v = tenant ∧ vr_tool_id v = tool) (db_versions db)) with
  | [] => None
  | n :: ns => Some (foldl Z.max n ns)
  end.

(** An outer join: the matching rows, or one without. *)
Definition outer {R} (rows : list R) : list (option R) :=
  match rows with [] => [None] | _ => map Some rows end.

Definition tool_row : Type :=
  ToolModel * ToolVersionModel * option ToolBindingModel * option UpstreamServiceModel.

Definition tool_join (db : Database) (tenant : UUID) : list tool_row :=
  t ← filter (λ t, tr_tenant_id t = tenant) (db_tools db);
  v ← filter (λ v, vr_tool_id v = tr_id t ∧ Some (vr_version v) = latest_version db tenant (tr_id t))
        (db_versions db);
  b ← outer (filter (λ b, br_tenant_id b = tenant ∧ br_tool_version_id b = vr_id v) (db_bindings db));
  u ← outer (match b with
             | Some b => filter (λ u, ur_tenant_id u = tenant ∧ ur_id u = br_upstream_service_id b)
                           (db_upstreams db)
             | None => [] end);
  [(t, v, b, u)].

(** The search over names and description; a blank text searches for nothing. *)
Definition matches_query (query : option string) (t : ToolModel) (v : ToolVersionModel) : res bool :=
  match query with
  | None => Ok true
  | Some text =>
      let normalized_query := strip text in
      if str_empty normalized_query then Ok true
      else
        let pattern := "%" +:+ escape_like normalized_query +:+ "%" in
        let? a := ilike (tr_canonical_name t) pattern in
        let? b := ilike (vr_display_name v) pattern in
        let? c := ilike (vr_description v) pattern in
        Ok (a || b || c)
  end.

Definition tool_filter (f : ToolFilter) (upstream : option UUID) (r : tool_row) : bool :=
  let '(t, v, b, _) := r in
  match upstream with
  | Some id => match b with Some b => bool_decide (br_upstream_service_id b = id) | None => false end
  | None => true
  end
  && where_text (tf_namespace f) (tr_namespace t) && where_text (tf_status f) (tr_status t)
  && where_text (tf_version_status f) (vr_status v) && where_text (tf_visibility f) (vr_visibility v)
  && where_text (tf_side_effect f) (vr_side_effect v).

Fixpoint filter_res {A} (P : A → res bool) (l : list A) : res (list A) :=
  match l with
  | [] => Ok []
  | x :: l' =>
      let? keep := P x in
      let? rest := filter_res P l' in
      Ok (if keep then x :: rest else rest)
  end.

Definition tool_order (a b : tool_row) : bool :=
  by_text (λ r : tool_row, tr_canonical_name r.1.1.1) a b.
Definition tool_rows (db : Database) (tenant : UUID) (f : ToolFilter) (upstream : option UUID) :
    res (list tool_row) :=
  let? rows := filter_res (λ r : tool_row, matches_query (tf_query f) r.1.1.1 r.1.1.2)
                 (tool_join db tenant) in
  Ok (filter (λ r, tool_filter f upstream r = true) rows).
Definition list_tools (db : Database) (tenant_id : string) (offset limit : Z) (f : ToolFilter) :
    res (Page ToolSummary) :=
  let? tenant := uuid_parse tenant_id in
  match id_filter (tf_upstream_id f) with
  | None => empty_page offset limit
  | Some upstream =>
      with_texts [strip <$> tf_query f; tf_namespace f; tf_status f; tf_version_status f;
                  tf_visibility f; tf_side_effect f]
        (let? rows := tool_rows db tenant f upstream in
         page_of tool_order (λ r : tool_row, tool_summary r.1.1.1 r.1.1.2 r.1.2 r.2) rows offset limit)
  end.

(** [get_tool], [get_tool_version], [get_tool_binding] *)
Definition get_tool (db : Database) : string → string → res (option ToolDetail) :=
  get_row tr_tenant_id tr_id (db_tools db) tool_detail.
Definition get_tool_version (db : Database) : string → string → res (option ToolVersionDetail) :=
  get_row vr_tenant_id vr_id (db_versions db) version_detail.
Definition get_tool_binding (db : Database) : string → string → res (option ToolBindingDetail) :=
  get_row br_tenant_id br_id (db_bindings db) binding_detail.

(** [get_tool_version_binding] *)
Definition get_tool_version_binding (db : Database) : string → string → res (option ToolBindingDetail) :=
  get_row br_tenant_id br_tool_version_id (db_bindings db) binding_detail.

(** [list_tool_versions] *)
Definition version_rows (db : Database) (tenant tool : UUID) : list ToolVersionModel :=
  filter (λ v, bool_decide (vr_tenant_id v = tenant) && bool_decide (vr_tool_id v = tool) = true)
    (db_versions db).
Definition list_tool_versions (db : Database) (tenant_id tool_id : string) (offset limit : Z) :
    res (Page ToolVersionDetail) :=
  let? tenant := uuid_parse tenant_id in
  match optional_uuid tool_id with
  | None => empty_page offset limit
  | Some tool =>
      page_of (by_int_desc vr_version) version_detail (version_rows db tenant tool) offset limit
  end.

(** [list_approvals]: the approval with its tool. *)
Definition approval_rows (db : Database) (tenant : UUID) (status principal_id : option string)
    (tool : option UUID) : list (ApprovalRequestModel * ToolModel) :=
  a ← filter (λ a, bool_decide (pr_tenant_id a = tenant) && where_text status (pr_status a)
                   && where_text principal_id (pr_principal_id a)
                   && where_id tool (pr_tool_id a) = true) (db_approvals db);
  t ← filter (λ t, tr_id t = pr_tool_id a) (db_tools db);
  [(a, t)].
Definition approval_order (a b : ApprovalRequestModel * ToolModel) : bool :=
  then_by (by_time_desc (λ r, pr_requested_at r.1)) (by_id_desc (λ r, pr_id r.1)) a b.
Definition list_approvals (db : Database) (tenant_id : string) (offset limit : Z)
    (status principal_id tool_id : option string) : res (Page ApprovalSummary) :=
  let? tenant := uuid_parse tenant_id in
  match id_filter tool_id with
  | None => empty_page offset limit
  | Some tool =>
      with_texts [status; principal_id]
        (page_of approval_order (λ r, approval_summary r.1 (tr_canonical_name r.2))
           (approval_rows db tenant status principal_id tool) offset limit)
  end.

(** The execution with its tool. *)
Definition execution_join (db : Database) (P : ToolExecutionModel → bool) :
    list (ToolExecutionModel * ToolModel) :=
  x ← filter (λ x, P x = true) (db_executions db);
  t ← filter (λ t, tr_id t = xm_tool_id x) (db_tools db);
  [(x, t)].

(** [list_executions] *)
Definition execution_rows (db : Database) (tenant : UUID) (status principal_id trace_id : option string)
    (tool : option UUID) : list (ToolExecutionModel * ToolModel) :=
  execution_join db
    (λ x, bool_decide (xm_tenant_id x = tenant) && where_text status (xm_status x)
          && where_text principal_id (xm_principal_id x) && where_text trace_id (xm_trace_id x)
          && where_id tool (xm_tool_id x)).
Definition execution_order (a b : ToolExecutionModel * ToolModel) : bool :=
  then_by (by_time_desc (λ r, xm_planned_at r.1)) (by_id_desc (λ r, xm_id r.1)) a b.
Definition list_executions (db : Database) (tenant_id : string) (offset limit : Z)
    (status principal_id tool_id trace_id : option string) : res (Page ExecutionSummary) :=
  let? tenant := uuid_parse tenant_id in
  match id_filter tool_id with
  | None => empty_page offset limit
  | Some tool =>
      with_texts [status; principal_id; trace_id]
        (page_of execution_order (λ r, execution_summary r.1 (tr_canonical_name r.2))
           (execution_rows db tenant status principal_id trace_id tool) offset limit)
  end.

(** [get_execution] *)
Definition get_execution (db : Database) (tenant_id execution_id : string) :
    res (option ExecutionSummary) :=
  let? tenant := uuid_parse tenant_id in
  match optional_uuid execution_id with
  | None => Ok None
  | Some id =>
      Ok ((λ r, execution_summary r.1 (tr_canonical_name r.2)) <$>
          head (execution_join db
                  (λ x, bool_decide (xm_tenant_id x = tenant) && bool_decide (xm_id x = id))))
  end.

(** [list_execution_attempts] *)
Definition attempt_rows (db : Database) (tenant execution : UUID) : list ExecutionAttemptModel :=
  filter (λ a, bool_decide (atr_tenant_id a = tenant) && bool_decide (atr_execution_id a = execution)
               = true) (db_attempts db).
Definition list_execution_attempts (db : Database) (tenant_id execution_id : string)
    (offset limit : Z) : res (Page ExecutionAttemptSummary) :=
  let? tenant := uuid_parse tenant_id in
  match optional_uuid execution_id with
  | None => empty_page offset limit
  | Some execution =>
      page_of (by_int atr_attempt_number) attempt_summary (attempt_rows db tenant execution)
        offset limit
  end.

(** [list_audit_events]: the filter by tool selects the events whose resource
    is one of the tool's versions. *)
Definition audit_rows (db : Database) (tenant : UUID) (trace_id principal_id outcome : option string)
    (execution tool : option UUID) : list AuditEventModel :=
  filter (λ e, bool_decide (aur_tenant_id e = tenant) && where_text trace_id (aur_trace_id e)
               && where_text principal_id (aur_actor_id e) && where_text outcome (aur_outcome e)
               && match execution with
                  | Some id => bool_decide (aur_execution_id e = Some id) | None => true end
               && match tool with
                  | Some tool => bool_decide (aur_resource_id e ∈
                      map (λ v, uuid_str (vr_id v)) (version_rows db tenant tool))
                  | None => true end = true) (db_audits db).
Definition audit_order : AuditEventModel → AuditEventModel → bool :=
  then_by (by_time_desc aur_occurred_at) (by_id_desc aur_id).
Definition list_audit_events (db : Database) (tenant_id : string) (offset limit : Z)
    (trace_id principal_id tool_id execution_id outcome : option string) : res (Page AuditEventSummary) :=
  let? tenant := uuid_parse tenant_id in
  match id_filter execution_id with
  | None => empty_page offset limit
  | Some execution =>
      match id_filter tool_id with
      | None => empty_page offset limit
      | Some tool =>
          with_texts [trace_id; principal_id; outcome]
            (page_of audit_order audit_summary
               (audit_rows db tenant trace_id principal_id outcome execution tool) offset limit)
      end
  end.
End Queries.

(** ** The search text is matched literally *)

Section Like.
Context `{DatabaseText}.

Definition is_special (c : ascii) : bool := bool_decide (c ∈ ["%"; "_"; "\"]%char).
Definition escape_special (c : ascii) : string :=
  if is_special c then String "\" (String c "") else String c "".

Lemma replace_cons d new c s :
  str_replace (String d "") new (String c s)
  = (if bool_decide (d = c) then new else String c "") +:+ str_replace (String d "") new s.
Proof.
  unfold str_replace. simpl. rewrite andb_true_r. by destruct (bool_decide (d = c)).
Qed.

Lemma replace_app d new s t :
  str_replace (String d "") new (s +:+ t) = str_replace (String d "") new s +:+ str_replace (String d "") new t.
Proof.
  induction s as [|c s IH]; [done|]. change (String c s +:+ t) with (String c (s +:+ t)).
  by rewrite !replace_cons, IH, str_app_assoc.
Qed.

Lemma escape_like_cons c s : escape_like (String c s) = escape_special c +:+ escape_like s.
Proof.
  unfold escape_like. rewrite (replace_cons "\"), !replace_app. f_equal.
  unfold escape_special, is_special.
  destruct (bool_decide_reflect ("\"%char = c)) as [<-|H1]; [by vm_compute|].
  rewrite replace_cons. destruct (bool_decide_reflect ("%"%char = c)) as [<-|H2]; [by vm_compute|].
  change (String c "" +:+ str_replace "%" "\%" "") with (String c "").
  rewrite replace_cons. destruct (bool_decide_reflect ("_"%char = c)) as [<-|H3]; [by vm_compute|].
  rewrite bool_decide_false; [done|]. rewrite !elem_of_cons, elem_of_nil. naive_solver.
Qed.

Lemma fold_special c : is_special (fold_char c) = is_special c ∧ (is_special c = true → fold_char c = c).
Proof.
  unfold is_special. pose proof (fold_pattern c) as Hf. split.
  - apply bool_decide_ext. split; intros Hc; [rewrite <-Hf|rewrite Hf]; auto.
  - rewrite bool_decide_eq_true. auto.
Qed.

Lemma fold_case_app s t : fold_case (s +:+ t) = fold_case s +:+ fold_case t.
Proof.
  induction s as [|c s IH]; [done|].
  change (String (fold_char c) (fold_case (s +:+ t)) = String (fold_char c) (fold_case s +:+ fold_case t)).
  by f_equal.
Qed.

Lemma fold_escape s : fold_case (escape_like s) = escape_like (fold_case s).
Proof.
  induction s as [|c s IH]; [by vm_compute|].
  change (fold_case (String c s)) with (String (fold_char c) (fold_case s)).
  rewrite !escape_like_cons, fold_case_app, IH. f_equal. unfold escape_special.
  destruct (fold_special c) as [-> Hc]. destruct (is_special c); [|done].
  rewrite Hc by done. simpl. rewrite Hc by done.
  replace (fold_char "\") with "\"%char; [done|]. symmetry. apply fold_pattern. right.
  apply list_elem_of_further, list_elem_of_further, list_elem_of_here.
Qed.

Lemma like_pattern_escape s t p :
  like_pattern t = Some p → like_pattern (escape_like s +:+ t) = Some (map LikeChar (list_ascii_of_string s) ++ p).
Proof.
  intros Ht. induction s as [|c s IH]; [exact Ht|].
  rewrite escape_like_cons, str_app_assoc. unfold escape_special.
  destruct (is_special c) eqn:E.
  - change (String "\" (String c "") +:+ (escape_like s +:+ t))
      with (String "\" (String c (escape_like s +:+ t))). simpl. by rewrite IH.
  - change (String c "" +:+ (escape_like s +:+ t)) with (String c (escape_like s +:+ t)). simpl.
    unfold is_special in E. rewrite bool_decide_eq_false, !elem_of_cons in E.
    rewrite !bool_decide_false by naive_solver. by rewrite IH.
Qed.

Lemma like_prefix q s :
  like_match (map LikeChar (list_ascii_of_string q) ++ [LikeAnyString]) s = startswith q s.
Proof.
  revert s. induction q as [|c q IH]; intros s.
  - simpl. induction s as [|d s IHs]; [done|]. simpl in *. done.
  - destruct s as [|d s]; [done|]. simpl. by rewrite IH.
Qed.

Lemma like_infix q s :
  like_match (LikeAnyString :: map LikeChar (list_ascii_of_string q) ++ [LikeAnyString]) s = contains q s.
Proof.
  induction s as [|d s IH]; simpl in *; rewrite like_prefix; [by destruct q|]. by rewrite IH.
Qed.

(** C19: the administrator's search text is matched as it is written.  Whatever
    characters it has, SQL's wildcards and the escape character included, the
    escaped pattern matches a column exactly where the column contains the
    text, up to case, and the database never refuses the pattern.  (Of the
    texts a parameter may have: one with a null character is refused before,
    see [with_texts].) *)
Theorem search_text_is_literal (column text : string) :
  ilike column ("%" +:+ escape_like text +:+ "%") = Ok (contains (fold_case text) (fold_case column)).
Proof.
  unfold ilike. rewrite !fold_case_app, fold_escape.
  replace (fold_case "%") with "%".
  2: { simpl. rewrite fold_pattern; [done|]. right. apply list_elem_of_here. }
  change ("%" +:+ (escape_like (fold_case text) +:+ "%"))
    with (String "%" (escape_like (fold_case text) +:+ "%")).
  assert (E : ∀ u, like_pattern (String "%" u) = cons LikeAnyString <$> like_pattern u) by done.
  rewrite E, (like_pattern_escape _ "%" [LikeAnyString]) by done.
  change (Ok (E := exn) (like_match (LikeAnyString :: map LikeChar (list_ascii_of_string (fold_case text))
    ++ [LikeAnyString]) (fold_case column)) = Ok (contains (fold_case text) (fold_case column))).
  f_equal. apply like_infix.
Qed.
End Like.

(** ** Pages *)

Section Pages.
Context {R A : Type} (leb : R → R → bool) (view : R → A).

(** The pages of size [limit], the first [n] of them. *)
Definition pages (rows : list R) (limit : Z) (n : nat) : res (list (list A)) :=
  traverse (λ k, let? p := page_of leb view rows (Z.of_nat k * limit) limit in Ok (pg_items p))
    (seq 0 n).

Lemma cut_Ok {B} offset limit (l : list B) :
  (0 ≤ limit < bigint_end)%Z → (0 ≤ offset < bigint_end)%Z →
  cut offset limit l = Ok (take (Z.to_nat limit) (drop (Z.to_nat offset) l)).
Proof.
  intros [Hl Hl'] [Ho Ho']. unfold cut.
  by rewrite (proj2 (Z.leb_gt _ _) Hl'), (proj2 (Z.leb_gt _ _) Ho'), (proj2 (Z.ltb_ge _ _) Hl),
    (proj2 (Z.ltb_ge _ _) Ho).
Qed.

(** What is outside the range is refused. *)
Lemma cut_refused {B} offset limit (l : list B) :
  (limit < 0 ∨ bigint_end ≤ limit ∨ offset < 0 ∨ bigint_end ≤ offset)%Z →
  cut offset limit l = Raise OtherException.
Proof.
  intros Hout. unfold cut, raise_if.
  destruct (Z.leb_spec bigint_end limit); [done|]. destruct (Z.leb_spec bigint_end offset); [done|].
  destruct (Z.ltb_spec limit 0); [done|]. destruct (Z.ltb_spec offset 0); [done|lia].
Qed.

Lemma page_of_Ok rows offset limit :
  (0 ≤ limit < bigint_end)%Z → (0 ≤ offset < bigint_end)%Z →
  page_of leb view rows offset limit
  = Ok (mkPage (map view (take (Z.to_nat limit) (drop (Z.to_nat offset) (sorted_by leb rows))))
          offset limit (Z.of_nat (length rows))).
Proof. intros Hl Ho. unfold page_of, paged_rows. by rewrite cut_Ok. Qed.

Lemma page_of_inv rows offset limit p :
  page_of leb view rows offset limit = Ok p →
  (0 ≤ limit)%Z ∧ (0 ≤ offset)%Z ∧ pg_total p = Z.of_nat (length rows) ∧
  pg_offset p = offset ∧ pg_limit p = limit ∧
  pg_items p = map view (take (Z.to_nat limit) (drop (Z.to_nat offset) (sorted_by leb rows))).
Proof.
  unfold page_of, paged_rows, cut, raise_if.
  destruct (bigint_end <=? limit)%Z; [done|]. destruct (bigint_end <=? offset)%Z; [done|].
  destruct (limit <? 0)%Z eqn:El; [done|]. destruct (offset <? 0)%Z eqn:Eo; [done|].
  simpl. intros [= <-]. apply Z.ltb_ge in El, Eo. by split_and!.
Qed.

Lemma page_items_rows rows offset limit p a :
  page_of leb view rows offset limit = Ok p → a ∈ pg_items p → ∃ r, r ∈ rows ∧ a = view r.
Proof.
  intros (_ & _ & _ & _ & _ & ->)%page_of_inv (r & -> & Hr)%list_elem_of_fmap. exists r. split; [|done].
  apply elem_of_take_in in Hr. rewrite <-(elem_of_sorted_by leb).
  rewrite <-(take_drop (Z.to_nat offset) (sorted_by leb rows)). apply elem_of_app. by right.
Qed.

Lemma chunks_cover {B} (l : list B) (limit n : nat) :
  (length l ≤ n * limit)%nat →
  mjoin (map (λ k, take limit (drop (k * limit) l)) (seq 0 n)) = l.
Proof.
  revert l. induction n as [|n IH]; intros l Hl.
  - simpl in Hl. by destruct l; [|simpl in Hl; lia].
  - etrans; [|apply (take_drop limit)]. simpl. f_equal.
    etrans; [|apply (IH (drop limit l)); rewrite length_drop; lia].
    rewrite <-seq_shift, map_map. f_equal. apply map_ext. intros k. by rewrite drop_drop.
Qed.

Lemma pages_Ok rows limit n :
  (0 < limit < bigint_end)%Z → (Z.of_nat n * limit ≤ bigint_end)%Z →
  pages rows limit n
  = Ok (map (λ k, map view (take (Z.to_nat limit) (drop (k * Z.to_nat limit) (sorted_by leb rows))))
          (seq 0 n)).
Proof.
  intros Hl Hn. unfold pages.
  assert (Hks : ∀ k, k ∈ seq 0 n → (0 ≤ Z.of_nat k * limit < bigint_end)%Z).
  { intros k Hk%elem_of_seq. nia. }
  revert Hks. generalize (seq 0 n). intros ks Hks. induction ks as [|k ks IH]; [done|].
  simpl. rewrite page_of_Ok; [|lia|apply Hks; by left]. simpl. rewrite IH by (intros; apply Hks; by right).
  simpl. repeat f_equal. lia.
Qed.

Context (leb_total : ∀ x y, leb x y = true ∨ leb y x = true).
Context (leb_trans : ∀ x y z, leb x y = true → leb y z = true → leb x z = true).

Lemma sorted_by_stable rows rows' :
  (∀ x y, x ∈ rows → y ∈ rows → leb x y = true → leb y x = true → x = y) →
  rows ≡ₚ rows' → sorted_by leb rows = sorted_by leb rows'.
Proof.
  intros Hanti Hp. apply (ordered_unique leb).
  - intros x y. rewrite !elem_of_sorted_by. apply Hanti.
  - by apply sorted_by_ordered.
  - by apply sorted_by_ordered.
  - by rewrite !sorted_by_perm.
Qed.

Lemma page_of_stable rows rows' offset limit :
  (∀ x y, x ∈ rows → y ∈ rows → leb x y = true → leb y x = true → x = y) →
  rows ≡ₚ rows' → page_of leb view rows offset limit = page_of leb view rows' offset limit.
Proof.
  intros Hanti Hp. unfold page_of, paged_rows.
  by rewrite (sorted_by_stable rows rows'), (Permutation_length Hp).
Qed.

(** Paging loses and repeats nothing.  The pages of a statement, taken one
    after the other with any positive size until the offset passes the total
    that every page reports, are together exactly the statement's rows, each as
    often as it occurs, in order; a negative size or offset, and one past
    [bigint], is refused. *)
Theorem pages_partition_rows rows limit n :
  (0 < limit < bigint_end)%Z → (Z.of_nat (length rows) ≤ Z.of_nat n * limit ≤ bigint_end)%Z →
  ∃ chunks, pages rows limit n = Ok chunks ∧
    mjoin chunks = map view (sorted_by leb rows) ∧ sorted_by leb rows ≡ₚ rows ∧
    ordered leb (sorted_by leb rows) ∧
    (∀ offset p, page_of leb view rows offset limit = Ok p →
       pg_total p = Z.of_nat (length rows) ∧ (pg_total p ≤ pg_offset p → pg_items p = [])%Z ∧
       (Z.of_nat (length (pg_items p)) ≤ limit)%Z) ∧
    (∀ offset l, (l < 0 ∨ bigint_end ≤ l ∨ offset < 0 ∨ bigint_end ≤ offset)%Z →
       page_of leb view rows offset l = Raise OtherException).
Proof.
  intros Hl [Hn Hn']. eexists. split; [by apply pages_Ok|]. split_and!.
  - etrans; [|apply (f_equal (map view)), (chunks_cover (sorted_by leb rows) (Z.to_nat limit) n)].
    2: { rewrite length_sorted_by. nia. }
    generalize (seq 0 n). intros ks. induction ks as [|k ks IH]; [done|].
    simpl. rewrite map_app. by f_equal.
  - apply sorted_by_perm.
  - by apply sorted_by_ordered.
  - intros offset p (_ & Ho & Ht & -> & _ & ->)%page_of_inv. split; [done|]. split.
    + intros Hge. rewrite drop_ge; [by rewrite take_nil|]. rewrite length_sorted_by. lia.
    + rewrite length_map, length_take. lia.
  - intros offset l Hout. unfold page_of, paged_rows. by rewrite cut_refused.
Qed.
End Pages.

(** ** The port: [ControlPlaneQueryPort] *)

Inductive ControlPlaneQuery :=
| QDashboard
| QGetUpstream (upstream_id : string)
| QListUpstreams (offset limit : Z) (namespace status : option string)
| QListImports (offset limit : Z) (status upstream_id : option string)
| QListReviewOperations (offset limit : Z) (review_status conflict_status import_job_id : option string)
| QListTools (offset limit : Z) (f : ToolFilter)
| QGetTool (tool_id : string)
| QListToolVersions (tool_id : string) (offset limit : Z)
| QGetToolBinding (binding_id : string)
| QGetToolVersion (tool_version_id : string)
| QGetToolVersionBinding (tool_version_id : string)
| QListApprovals (offset limit : Z) (status principal_id tool_id : option string)
| QListExecutions (offset limit : Z) (status principal_id tool_id trace_id : option string)
| QGetExecution (execution_id : string)
| QListExecutionAttempts (execution_id : string) (offset limit : Z)
| QListAuditEvents (offset limit : Z) (trace_id principal_id tool_id execution_id outcome : option string)
| QSearchProjectionStatus.

Inductive ControlPlaneAnswer :=
| ADashboard (a : DashboardSummary)
| AUpstream (a : option UpstreamDetail)
| AUpstreams (a : Page UpstreamDetail)
| AImports (a : Page ImportJobSummary)
| AReviewOperations (a : Page ReviewOperationSummary)
| ATools (a : Page ToolSummary)
| ATool (a : option ToolDetail)
| AToolVersions (a : Page ToolVersionDetail)
| AToolBinding (a : option ToolBindingDetail)
| AToolVersion (a : option ToolVersionDetail)
| AApprovals (a : Page ApprovalSummary)
| AExecutions (a : Page ExecutionSummary)
| AExecution (a : option ExecutionSummary)
| AAttempts (a : Page ExecutionAttemptSummary)
| AAudits (a : Page AuditEventSummary)
| AProjection (a : SearchProjectionSummary).

Definition answer {A} (wrap : A → ControlPlaneAnswer) (r : res A) : res ControlPlaneAnswer :=
  let? a := r in Ok (wrap a).

Section Port.
Context `{DatabaseText} (percent : Z → Z → Q) (model : string) (dimensions : Z).

(** The adapter as an implementation of the port. *)
Definition run_query (db : Database) (tenant_id : string) (q : ControlPlaneQuery) :
    res ControlPlaneAnswer :=
  match q with
  | QDashboard => answer ADashboard (dashboard percent model dimensions db tenant_id)
  | QGetUpstream id => answer AUpstream (get_upstream db tenant_id id)
  | QListUpstreams o l ns st => answer AUpstreams (list_upstreams db tenant_id o l ns st)
  | QListImports o l st u => answer AImports (list_imports db tenant_id o l st u)
  | QListReviewOperations o l r c j =>
      answer AReviewOperations (list_review_operations db tenant_id o l r c j)
  | QListTools o l f => answer ATools (list_tools db tenant_id o l f)
  | QGetTool id => answer ATool (get_tool db tenant_id id)
  | QListToolVersions t o l => answer AToolVersions (list_tool_versions db tenant_id t o l)
  | QGetToolBinding id => answer AToolBinding (get_tool_binding db tenant_id id)
  | QGetToolVersion id => answer AToolVersion (get_tool_version db tenant_id id)
  | QGetToolVersionBinding id => answer AToolBinding (get_tool_version_binding db tenant_id id)
  | QListApprovals o l st p t => answer AApprovals (list_approvals db tenant_id o l st p t)
  | QListExecutions o l st p t tr => answer AExecutions (list_executions db tenant_id o l st p t tr)
  | QGetExecution id => answer AExecution (get_execution db tenant_id id)
  | QListExecutionAttempts x o l => answer AAttempts (list_execution_attempts db tenant_id x o l)
  | QListAuditEvents o l tr p t x out =>
      answer AAudits (list_audit_events db tenant_id o l tr p t x out)
  | QSearchProjectionStatus =>
      answer AProjection (search_projection_status percent model dimensions db tenant_id)
  end.
End Port.

(** ** A tenant's part of the database *)

Definition own {R} (tenant_of : R → UUID) (tenant : UUID) (rows : list R) : list R :=
  filter (λ r, tenant_of r = tenant) rows.

Definition tenant_part (tenant : UUID) (db : Database) : Database :=
  mkDatabase (own ur_tenant_id tenant (db_upstreams db)) (own tr_tenant_id tenant (db_tools db))
    (own vr_tenant_id tenant (db_versions db)) (own br_tenant_id tenant (db_bindings db))
    (own pr_tenant_id tenant (db_approvals db)) (own xm_tenant_id tenant (db_executions db))
    (own atr_tenant_id tenant (db_attempts db)) (own aur_tenant_id tenant (db_audits db))
    (own jr_tenant_id tenant (db_jobs db)) (own opr_tenant_id tenant (db_operations db))
    (own emr_tenant_id tenant (db_embeddings db)).

(** References stay inside a tenant: what the use cases maintain and the foreign
    keys, which name the other row's identifier only, do not. *)
Record refs_in_tenant (db : Database) : Prop := {
  rt_version v t : v ∈ db_versions db → t ∈ db_tools db → vr_tool_id v = tr_id t →
    vr_tenant_id v = tr_tenant_id t;
  rt_job j u : j ∈ db_jobs db → u ∈ db_upstreams db → ur_id u = jr_upstream_service_id j →
    ur_tenant_id u = jr_tenant_id j;
  rt_approval a t : a ∈ db_approvals db → t ∈ db_tools db → tr_id t = pr_tool_id a →
    tr_tenant_id t = pr_tenant_id a;
  rt_execution x t : x ∈ db_executions db → t ∈ db_tools db → tr_id t = xm_tool_id x →
    tr_tenant_id t = xm_tenant_id x;
  rt_embedding e v : e ∈ db_embeddings db → v ∈ db_versions db → vr_id v = emr_tool_version_id e →
    vr_tenant_id v = emr_tenant_id e }.

(** What a tenant's queries may read: the tenant's own rows, and of others the
    rows its own rows refer to: the upstreams of its import jobs, the tools of
    its approvals and executions, the versions of its tools and of its index. *)
Definition visible_part (tenant : UUID) (db : Database) : Database :=
  let jobs := own jr_tenant_id tenant (db_jobs db) in
  let tools := own tr_tenant_id tenant (db_tools db) in
  let approvals := own pr_tenant_id tenant (db_approvals db) in
  let executions := own xm_tenant_id tenant (db_executions db) in
  let embeddings := own emr_tenant_id tenant (db_embeddings db) in
  mkDatabase
    (filter (λ u, ur_tenant_id u = tenant ∨ ur_id u ∈ jr_upstream_service_id <$> jobs) (db_upstreams db))
    (filter (λ t, tr_tenant_id t = tenant ∨ tr_id t ∈ pr_tool_id <$> approvals
                  ∨ tr_id t ∈ xm_tool_id <$> executions) (db_tools db))
    (filter (λ v, vr_tenant_id v = tenant ∨ vr_tool_id v ∈ tr_id <$> tools
                  ∨ vr_id v ∈ emr_tool_version_id <$> embeddings) (db_versions db))
    (own br_tenant_id tenant (db_bindings db)) approvals executions
    (own atr_tenant_id tenant (db_attempts db)) (own aur_tenant_id tenant (db_audits db))
    jobs (own opr_tenant_id tenant (db_operations db)) embeddings.

Lemma filter_filter_in {R} (P Q : R → Prop) `{∀ r, Decision (P r)} `{∀ r, Decision (Q r)} (l : list R) :
  (∀ r, r ∈ l → P r → Q r) → filter P (filter Q l) = filter P l.
Proof.
  induction l as [|r l IH]; intros Himp; [done|]. rewrite !filter_cons.
  assert (IH' : filter P (filter Q l) = filter P l) by (apply IH; intros; apply Himp; [by right|done]).
  destruct (decide (Q r)) as [Hq|Hq].
  - rewrite filter_cons. destruct (decide (P r)); [by f_equal|done].
  - destruct (decide (P r)) as [Hp|]; [|done]. destruct Hq. apply Himp; [by left|done].
Qed.

Lemma bind_ext_in {A B} (f g : A → list B) (l : list A) :
  (∀ a, a ∈ l → f a = g a) → l ≫= f = l ≫= g.
Proof.
  induction l as [|a l IH]; intros Hfg; [done|]. simpl. rewrite Hfg by (by left). f_equal.
  apply IH. intros. apply Hfg. by right.
Qed.

(** Rows of a tenant: a condition that asks for the tenant. *)
Lemma own_filter {R} (tenant_of : R → UUID) tenant (P : R → Prop) `{∀ r, Decision (P r)} rows :
  (∀ r, P r → tenant_of r = tenant) → filter P (own tenant_of tenant rows) = filter P rows.
Proof. intros HP. apply filter_filter_in. intros r _. apply HP. Qed.

Lemma list_filter_iff_in {R} (P Q : R → Prop) `{∀ r, Decision (P r)} `{∀ r, Decision (Q r)} (l : list R) :
  (∀ r, r ∈ l → P r ↔ Q r) → filter P l = filter Q l.
Proof.
  induction l as [|r l IH]; intros Hiff; [done|]. rewrite !filter_cons.
  rewrite IH by (intros; apply Hiff; by right). pose proof (Hiff r (list_elem_of_here _ _)).
  repeat case_decide; tauto.
Qed.

Ltac own_solve :=
  intros ?; unfold http_upstream, published_row, of_model;
  rewrite ?andb_true_iff, ?bool_decide_eq_true; tauto.

Lemma elem_of_own {R} (tenant_of : R → UUID) tenant r rows :
  r ∈ own tenant_of tenant rows ↔ tenant_of r = tenant ∧ r ∈ rows.
Proof. unfold own. by rewrite list_elem_of_filter. Qed.

(** Where no reference leaves a tenant, the visible part is the tenant's own. *)
Lemma visible_own tenant db : refs_in_tenant db → visible_part tenant db = tenant_part tenant db.
Proof.
  intros Hrefs. unfold visible_part, tenant_part, own. f_equal; apply list_filter_iff_in.
  - intros u Hu. split; [|by left]. intros [?|(j & E & [<- Hj]%elem_of_own)%list_elem_of_fmap]; [done|].
    by apply (rt_job db Hrefs).
  - intros t Ht. split; [|by left]. intros [?|[Hr|Hr]]; [done|..].
    + apply list_elem_of_fmap in Hr as (a & E & [<- Ha]%elem_of_own). by apply (rt_approval db Hrefs).
    + apply list_elem_of_fmap in Hr as (x & E & [<- Hx]%elem_of_own). by apply (rt_execution db Hrefs).
  - intros v Hv. split; [|by left]. intros [?|[Hr|Hr]]; [done|..].
    + apply list_elem_of_fmap in Hr as (t & E & [<- Ht]%elem_of_own). by apply (rt_version db Hrefs).
    + apply list_elem_of_fmap in Hr as (e & E & [<- He]%elem_of_own). by apply (rt_embedding db Hrefs).
Qed.

Section Noninterference.
Context (tenant : UUID) (db : Database).
Abbreviation part := (visible_part tenant db).

(** Conditions that ask for the tenant, over rows of which more are visible. *)
Lemma count_seen {R} (tenant_of : R → UUID) (Q : R → Prop) `{∀ r, Decision (Q r)} P rows :
  (∀ r, P r = true → tenant_of r = tenant) → (∀ r, tenant_of r = tenant → Q r) →
  count P (filter Q rows) = count P rows.
Proof. intros HP HQ. unfold count. rewrite filter_filter_in; auto. Qed.

Lemma find_seen {R} (Q : R → Prop) `{∀ r, Decision (Q r)} (P : R → bool) rows :
  (∀ r, P r = true → Q r) → find P (filter Q rows) = find P rows.
Proof.
  intros HP. induction rows as [|r rows IH]; [done|]. rewrite filter_cons. simpl.
  destruct (decide (Q r)); simpl; [by rewrite IH|]. destruct (P r) eqn:E; [by apply HP in E|done].
Qed.

Lemma count_own {R} (tenant_of : R → UUID) P rows :
  (∀ r, P r = true → tenant_of r = tenant) → count P (own tenant_of tenant rows) = count P rows.
Proof. intros HP. unfold count. by rewrite own_filter. Qed.

Lemma indexed_rows_own model dimensions :
  indexed_rows model dimensions part tenant = indexed_rows model dimensions db tenant.
Proof.
  unfold indexed_rows. simpl. rewrite own_filter by own_solve. apply bind_ext_in. intros e He.
  apply list_elem_of_filter in He as [Hm He]. f_equal. apply filter_filter_in. intros v Hv [Hid _].
  unfold of_model in Hm. rewrite !andb_true_iff, bool_decide_eq_true in Hm. destruct Hm as [[Ht _] _].
  right. right. rewrite Hid. by apply list_elem_of_fmap_2, elem_of_own.
Qed.

Lemma projection_own percent model dimensions :
  search_projection_of percent model dimensions part tenant
  = search_projection_of percent model dimensions db tenant.
Proof.
  unfold search_projection_of. rewrite indexed_rows_own. simpl.
  rewrite (count_seen vr_tenant_id) by (own_solve || auto). by rewrite own_filter by own_solve.
Qed.

Lemma import_rows_own status upstream : import_rows part tenant status upstream = import_rows db tenant status upstream.
Proof.
  unfold import_rows. simpl. rewrite own_filter by own_solve. apply bind_ext_in. intros j Hj.
  apply list_elem_of_filter in Hj as [Hj Hin]. rewrite !andb_true_iff, bool_decide_eq_true in Hj.
  destruct Hj as [[Ht _] _]. f_equal. apply filter_filter_in. intros u Hu Hid.
  right. rewrite Hid. by apply list_elem_of_fmap_2, elem_of_own.
Qed.

Lemma approval_rows_own status principal tool :
  approval_rows part tenant status principal tool = approval_rows db tenant status principal tool.
Proof.
  unfold approval_rows. simpl. rewrite own_filter by own_solve. apply bind_ext_in. intros a Ha.
  apply list_elem_of_filter in Ha as [Ha Hin]. rewrite !andb_true_iff, bool_decide_eq_true in Ha.
  destruct Ha as [[[Ha _] _] _]. f_equal. apply filter_filter_in. intros t Ht Hid.
  right. left. rewrite Hid. by apply list_elem_of_fmap_2, elem_of_own.
Qed.

Lemma execution_join_own P :
  (∀ x, P x = true → xm_tenant_id x = tenant) → execution_join part P = execution_join db P.
Proof.
  intros HP. unfold execution_join. simpl. rewrite own_filter by done. apply bind_ext_in. intros x Hx.
  apply list_elem_of_filter in Hx as [Hx%HP Hin]. f_equal. apply filter_filter_in. intros t Ht Hid.
  right. right. rewrite Hid. by apply list_elem_of_fmap_2, elem_of_own.
Qed.

Lemma version_rows_own tool : version_rows part tenant tool = version_rows db tenant tool.
Proof.
  unfold version_rows. simpl. apply filter_filter_in. intros v _.
  rewrite andb_true_iff, !bool_decide_eq_true. tauto.
Qed.

Lemma latest_version_own tool : latest_version part tenant tool = latest_version db tenant tool.
Proof. unfold latest_version. simpl. rewrite filter_filter_in; [done|]. tauto. Qed.

Lemma tool_join_own : tool_join part tenant = tool_join db tenant.
Proof.
  unfold tool_join. simpl. rewrite filter_filter_in by tauto. apply bind_ext_in. intros t Ht.
  apply list_elem_of_filter in Ht as [E Ht]. rewrite latest_version_own, filter_filter_in.
  2: { intros v Hv [Hid _]. right. left. rewrite Hid. by apply list_elem_of_fmap_2, elem_of_own. }
  apply bind_ext_in. intros v _.
  rewrite own_filter by (by intros ? []). apply bind_ext_in. intros [b|] _; [|done].
  rewrite filter_filter_in; [done|]. tauto.
Qed.

Lemma audit_rows_own trace principal outcome execution tool :
  audit_rows part tenant trace principal outcome execution tool
  = audit_rows db tenant trace principal outcome execution tool.
Proof.
  unfold audit_rows. simpl. rewrite own_filter by own_solve.
  destruct tool as [tool|]; [|done]. by rewrite version_rows_own.
Qed.

Context `{DatabaseText} (percent : Z → Z → Q) (model : string) (dimensions : Z).

Lemma get_row_seen {R A} (tenant_of id_of : R → UUID) (Q : R → Prop) `{∀ r, Decision (Q r)} rows
    (view : R → A) tenant_id id :
  uuid_parse tenant_id = Ok tenant → (∀ r, tenant_of r = tenant → Q r) →
  get_row tenant_of id_of (filter Q rows) view tenant_id id
  = get_row tenant_of id_of rows view tenant_id id.
Proof.
  intros Ht HQ. unfold get_row. rewrite Ht. simpl. destruct (optional_uuid id); [|done].
  rewrite find_seen; [done|]. intros r. rewrite andb_true_iff, !bool_decide_eq_true. naive_solver.
Qed.

(** A query sees the tenant's visible part only. *)
Lemma run_query_own tenant_id q :
  uuid_parse tenant_id = Ok tenant →
  run_query percent model dimensions part tenant_id q = run_query percent model dimensions db tenant_id q.
Proof.
  intros Ht. destruct q; simpl; f_equal;
    try (apply (get_row_seen ur_tenant_id); [done|tauto]);
    try (apply (get_row_seen tr_tenant_id); [done|tauto]);
    try (apply (get_row_seen vr_tenant_id); [done|tauto]);
    try (apply (get_row_seen br_tenant_id); [done|tauto]).
  - unfold dashboard. rewrite Ht. simpl.
    rewrite projection_own, (count_seen ur_tenant_id), (count_seen vr_tenant_id), !count_own
      by (own_solve || auto). done.
  - unfold list_upstreams, upstream_rows. rewrite Ht. simpl. rewrite filter_filter_in; [done|].
    intros u _. rewrite !andb_true_iff. unfold http_upstream.
    rewrite !andb_true_iff, !bool_decide_eq_true. tauto.
  - unfold list_imports. rewrite Ht. simpl. destruct (id_filter _); [|done]. by rewrite import_rows_own.
  - unfold list_review_operations, operation_rows. rewrite Ht. simpl. destruct (id_filter _); [|done].
    by rewrite own_filter by own_solve.
  - unfold list_tools, tool_rows. rewrite Ht. simpl. destruct (id_filter _); [|done].
    by rewrite tool_join_own.
  - unfold list_tool_versions. rewrite Ht. simpl. destruct (optional_uuid _); [|done].
    by rewrite version_rows_own.
  - unfold list_approvals. rewrite Ht. simpl. destruct (id_filter _); [|done]. by rewrite approval_rows_own.
  - unfold list_executions, execution_rows. rewrite Ht. simpl. destruct (id_filter _); [|done].
    rewrite execution_join_own; [done|own_solve].
  - unfold get_execution. rewrite Ht. simpl. destruct (optional_uuid _); [|done].
    rewrite execution_join_own; [done|own_solve].
  - unfold list_execution_attempts, attempt_rows. rewrite Ht. simpl. destruct (optional_uuid _); [|done].
    by rewrite own_filter by own_solve.
  - unfold list_audit_events. rewrite Ht. simpl. destruct (id_filter _); [|done].
    destruct (id_filter _); [|done]. by rewrite audit_rows_own.
  - unfold search_projection_status. rewrite Ht. simpl. by rewrite projection_own.
Qed.
End Noninterference.

(** C18: the control plane does not leak across tenants.  The answer to any
    query of a tenant - counts, pages with their totals, details, filters by
    identifiers of others - depends only on the tenant's visible part: its own
    rows, and of others only the rows that its own rows refer to (the upstream
    of an import job, the tool of an approval or of an execution, a version of
    one of its tools or in its index), which the joins do not filter by tenant.
    Where references stay inside tenants, as the use cases leave them, the
    answer depends on the tenant's own rows alone. *)
Theorem tenant_noninterference `{DatabaseText} percent model dimensions db db' tenant tenant_id q :
  uuid_parse tenant_id = Ok tenant →
  (visible_part tenant db = visible_part tenant db' →
     run_query percent model dimensions db tenant_id q
     = run_query percent model dimensions db' tenant_id q) ∧
  (refs_in_tenant db → refs_in_tenant db' → tenant_part tenant db = tenant_part tenant db' →
     run_query percent model dimensions db tenant_id q
     = run_query percent model dimensions db' tenant_id q).
Proof.
  intros Ht. assert (Hall : visible_part tenant db = visible_part tenant db' →
    run_query percent model dimensions db tenant_id q
    = run_query percent model dimensions db' tenant_id q).
  { intros E. by rewrite <-(run_query_own tenant db), <-(run_query_own tenant db'), E. }
  split; [done|]. intros Hdb Hdb' E. apply Hall. by rewrite !visible_own.
Qed.

(** ** Constraints of the schema *)

(** Primary keys, the unique constraints and foreign keys the queries rely on. *)
Record constraints (db : Database) : Prop := {
  ck_upstreams : NoDup (ur_id <$> db_upstreams db);
  ck_tools : NoDup (tr_id <$> db_tools db);
  ck_versions : NoDup ((λ v, (vr_tool_id v, vr_version v)) <$> db_versions db);
  ck_bindings : NoDup (br_tool_version_id <$> db_bindings db);
  ck_approval_tool a : a ∈ db_approvals db → pr_tool_id a ∈ tr_id <$> db_tools db;
  ck_execution_tool x : x ∈ db_executions db → xm_tool_id x ∈ tr_id <$> db_tools db }.

Section Keys.
Context {R K : Type} `{EqDecision K} (key : R → K).

Lemma filter_key_nil k rows : k ∉ key <$> rows → filter (λ r, key r = k) rows = [].
Proof.
  intros Hk. induction rows as [|r rows IH]; [done|]. rewrite filter_cons. rewrite fmap_cons, not_elem_of_cons in Hk.
  rewrite decide_False by naive_solver. apply IH. tauto.
Qed.

Lemma filter_key_one k rows :
  NoDup (key <$> rows) → k ∈ key <$> rows → ∃ r, key r = k ∧ r ∈ rows ∧ filter (λ r, key r = k) rows = [r].
Proof.
  induction rows as [|r rows IH]; [by intros _ ?%elem_of_nil|].
  rewrite fmap_cons, NoDup_cons, filter_cons. intros [Hr Hnd]. rewrite elem_of_cons.
  destruct (decide (key r = k)) as [<-|Hne].
  - intros _. exists r. rewrite filter_key_nil by done. split_and!; [done|by left|done].
  - intros [->|Hk]; [done|]. destruct (IH Hnd Hk) as (r' & Hr' & Hin & Hf). exists r'.
    split_and!; [done|by right|done].
Qed.

Lemma filter_key_at_most k rows (P : R → Prop) `{∀ r, Decision (P r)} :
  NoDup (key <$> rows) → (∀ r, P r → key r = k) → (length (filter P rows) ≤ 1)%nat.
Proof.
  intros Hnd HP. rewrite <-(filter_filter_in P (λ r, key r = k)) by auto.
  destruct (decide (k ∈ key <$> rows)) as [Hk|Hk].
  - destruct (filter_key_one k rows Hnd Hk) as (r & _ & _ & ->). rewrite filter_cons.
    destruct (decide (P r)); simpl; lia.
  - rewrite filter_key_nil by done. simpl. lia.
Qed.
End Keys.

(** A join along a reference keeps the rows. *)
Lemma join_length {A B} (l : list A) (partners : A → list B) :
  (∀ a, a ∈ l → length (partners a) = 1%nat) →
  length (a ← l; b ← partners a; [(a, b)]) = length l.
Proof.
  induction l as [|a l IH]; intros Hl; [done|]. rewrite bind_cons, length_app, IH by (intros; apply Hl; by right).
  assert (Ha : length (partners a) = 1%nat) by (apply Hl; by left).
  destruct (partners a) as [|b [|b' bs]]; done.
Qed.

Section Dashboard.
Context `{DatabaseText} (percent : Z → Z → Q) (model : string) (dimensions : Z).
Context (db : Database) (Hdb : constraints db).

Lemma tool_partner id : id ∈ tr_id <$> db_tools db → length (filter (λ t, tr_id t = id) (db_tools db)) = 1%nat.
Proof. intros (t & _ & _ & ->)%filter_key_one; [done|]. by apply ck_tools. Qed.

Lemma count_split {R} (P Q S : R → bool) rows :
  (∀ r, P r = Q r || S r) → (∀ r, Q r = true → S r = false) →
  count P rows = (count Q rows + count S rows)%Z.
Proof.
  intros HP HQ. unfold count. induction rows as [|r rows IH]; [done|]. rewrite !filter_cons, HP.
  specialize (HQ r). destruct (Q r), (S r); simpl; try (specialize (HQ eq_refl)); try done; lia.
Qed.

Lemma count_ext {R} (P Q : R → bool) rows : (∀ r, P r = Q r) → count P rows = count Q rows.
Proof. intros HPQ. unfold count. f_equal. f_equal. apply list_filter_iff. intros r. by rewrite HPQ. Qed.

(** The dashboard agrees with the pages behind it.  Under the schema's keys
    every counter is the total that the listing with the same filter reports:
    active upstreams, pending approvals, failed and unknown executions; pending
    reviews are the operations pending or in need of change; the projection is
    the one of the projection endpoint. *)
Theorem dashboard_agrees_with_listings tenant_id d limit pu pa pf pn po po' :
  dashboard percent model dimensions db tenant_id = Ok d →
  list_upstreams db tenant_id 0 limit None (Some "active") = Ok pu →
  list_approvals db tenant_id 0 limit (Some "pending") None None = Ok pa →
  list_executions db tenant_id 0 limit (Some "failed") None None None = Ok pf →
  list_executions db tenant_id 0 limit (Some "unknown") None None None = Ok pn →
  list_review_operations db tenant_id 0 limit (Some "pending") None None = Ok po →
  list_review_operations db tenant_id 0 limit (Some "needs_change") None None = Ok po' →
  ds_active_upstreams d = pg_total pu ∧ ds_pending_approvals d = pg_total pa ∧
  ds_failed_executions d = pg_total pf ∧ ds_unknown_executions d = pg_total pn ∧
  ds_pending_reviews d = (pg_total po + pg_total po')%Z ∧
  search_projection_status percent model dimensions db tenant_id = Ok (ds_search_projection d).
Proof.
  unfold dashboard, list_upstreams, list_approvals, list_executions, list_review_operations,
    search_projection_status.
  destruct (uuid_parse tenant_id) as [tenant|]; [|done]. unfold with_texts. simpl. intros [= <-].
  intros (_ & _ & -> & _)%page_of_inv (_ & _ & -> & _)%page_of_inv (_ & _ & -> & _)%page_of_inv
    (_ & _ & -> & _)%page_of_inv (_ & _ & -> & _)%page_of_inv (_ & _ & -> & _)%page_of_inv.
  simpl. split_and!; try done.
  - apply count_ext. intros u. simpl. by rewrite andb_true_r.
  - unfold approval_rows. rewrite join_length.
    2: { intros a [_ Ha]%list_elem_of_filter. by apply tool_partner, ck_approval_tool. }
    apply count_ext. intros a. simpl. by rewrite !andb_true_r.
  - unfold execution_rows, execution_join. rewrite join_length.
    2: { intros x [_ Hx]%list_elem_of_filter. by apply tool_partner, ck_execution_tool. }
    apply count_ext. intros x. simpl. by rewrite !andb_true_r.
  - unfold execution_rows, execution_join. rewrite join_length.
    2: { intros x [_ Hx]%list_elem_of_filter. by apply tool_partner, ck_execution_tool. }
    apply count_ext. intros x. simpl. by rewrite !andb_true_r.
  - unfold operation_rows. apply (count_split _ (λ o, _) (λ o, _)); intros o; simpl; rewrite !andb_true_r.
    + destruct (bool_decide (opr_tenant_id o = tenant)); [|done]. simpl.
      rewrite <-bool_decide_or. apply bool_decide_ext. rewrite !elem_of_cons, elem_of_nil. tauto.
    + rewrite andb_true_iff, !bool_decide_eq_true. intros [_ E]. rewrite E.
      by rewrite andb_false_intro2.
Qed.
End Dashboard.

(** ** One row per tool *)

Section ToolRows.
Context (db : Database) (Hdb : constraints db) (tenant : UUID).

Lemma foldl_max n ns : foldl Z.max n ns ∈ n :: ns ∧ ∀ k, k ∈ n :: ns → (k ≤ foldl Z.max n ns)%Z.
Proof.
  revert n. induction ns as [|m ns IH]; intros n; simpl.
  - split; [by left|]. intros k ->%list_elem_of_singleton. lia.
  - destruct (IH (n `max` m)%Z) as [Hin Hle]. split.
    + rewrite !elem_of_cons in *. destruct Hin as [E|]; [|tauto]. rewrite E.
      destruct (Z.max_spec n m) as [[_ ->]|[_ ->]]; tauto.
    + intros k. rewrite !elem_of_cons. intros [->|[->|Hk]].
      * etrans; [|apply Hle; by left]. lia.
      * etrans; [|apply Hle; by left]. lia.
      * apply Hle. by right.
Qed.

Lemma latest_version_Some tool n :
  latest_version db tenant tool = Some n →
  (∃ v, v ∈ db_versions db ∧ vr_tenant_id v = tenant ∧ vr_tool_id v = tool ∧ vr_version v = n) ∧
  ∀ v, v ∈ db_versions db → vr_tenant_id v = tenant → vr_tool_id v = tool → (vr_version v ≤ n)%Z.
Proof.
  unfold latest_version. destruct (map vr_version _) as [|k ks] eqn:E; [done|]. intros [= <-].
  destruct (foldl_max k ks) as [Hin Hle]. rewrite <-E in Hin, Hle. split.
  - apply list_elem_of_fmap in Hin as (v & Hv & [[Ht Hu] Hm]%list_elem_of_filter). eauto.
  - intros v Hv Ht Hu. apply Hle, list_elem_of_fmap_2, list_elem_of_filter. auto.
Qed.

(** The versions the join takes for a tool: the latest one, or none. *)
Lemma latest_rows t :
  (filter (λ v, vr_tool_id v = tr_id t ∧ Some (vr_version v) = latest_version db tenant (tr_id t))
     (db_versions db) = [] ∧ latest_version db tenant (tr_id t) = None) ∨
  ∃ v, filter (λ v, vr_tool_id v = tr_id t ∧ Some (vr_version v) = latest_version db tenant (tr_id t))
         (db_versions db) = [v] ∧
    v ∈ db_versions db ∧ vr_tool_id v = tr_id t ∧ latest_version db tenant (tr_id t) = Some (vr_version v).
Proof.
  destruct (latest_version db tenant (tr_id t)) as [n|] eqn:E.
  - right. destruct (latest_version_Some _ _ E) as [(v & Hv & _ & Hu & Hn) _].
    set (rows := filter _ _).
    assert (Hrows : v ∈ rows) by (apply list_elem_of_filter; by rewrite Hn).
    assert (Hlen : (length rows ≤ 1)%nat).
    { apply (filter_key_at_most (λ v, (vr_tool_id v, vr_version v)) (tr_id t, n)); [by apply ck_versions|].
      intros w [-> [= ->]]. done. }
    destruct rows as [|w [|]]; [by apply elem_of_nil in Hrows| |simpl in Hlen; lia].
    apply list_elem_of_singleton in Hrows as <-. exists v. rewrite <-Hn. by split_and!.
  - left. split; [|done]. apply elem_of_nil_inv. intros v [[_ ?] _]%list_elem_of_filter. done.
Qed.

Lemma outer_one {R} (rows : list R) : (length rows ≤ 1)%nat → ∃ o, outer rows = [o] ∧ ∀ r, r ∈ rows ↔ o = Some r.
Proof.
  destruct rows as [|r [|]]; simpl; intros Hl; [| |lia].
  - exists None. split; [done|]. intros r. by rewrite elem_of_nil.
  - exists (Some r). split; [done|]. intros r'. rewrite list_elem_of_singleton. split; congruence.
Qed.

Lemma version_join_one t v :
  ∃ b u, (b ← outer (filter (λ b, br_tenant_id b = tenant ∧ br_tool_version_id b = vr_id v) (db_bindings db));
          u ← outer (match b with
             | Some b => filter (λ u, ur_tenant_id u = tenant ∧ ur_id u = br_upstream_service_id b)
                           (db_upstreams db)
             | None => [] end);
          [(t, v, b, u)]) = [(t, v, b, u) : tool_row] ∧
    ∀ b', b' ∈ db_bindings db ∧ br_tenant_id b' = tenant ∧ br_tool_version_id b' = vr_id v ↔ b = Some b'.
Proof.
  destruct (outer_one (filter (λ b, br_tenant_id b = tenant ∧ br_tool_version_id b = vr_id v) (db_bindings db)))
    as (b & Eb & Hb).
  { apply (filter_key_at_most br_tool_version_id (vr_id v)); [by apply ck_bindings|]. by intros r []. }
  destruct (outer_one (match b with
    | Some b => filter (λ u, ur_tenant_id u = tenant ∧ ur_id u = br_upstream_service_id b) (db_upstreams db)
    | None => [] end)) as (u & Eu & _).
  { destruct b as [b|]; [|simpl; lia].
    apply (filter_key_at_most ur_id (br_upstream_service_id b)); [by apply ck_upstreams|]. by intros r []. }
  exists b, u. rewrite Eb. simpl. rewrite Eu. split; [done|].
  intros b'. rewrite <-Hb, list_elem_of_filter. tauto.
Qed.

(** The tool list shows every tool once, with its latest version.  Under the
    schema's keys the rows of the tool list are, in the order of the tools,
    exactly the tenant's tools that have a version; each with the version of the
    greatest number, and with the tenant's binding of that version where there
    is one. *)
Theorem tools_listed_once :
  (λ r : tool_row, r.1.1.1) <$> tool_join db tenant
  = filter (λ t, tr_tenant_id t = tenant ∧ is_Some (latest_version db tenant (tr_id t))) (db_tools db) ∧
  ∀ t v b u, (t, v, b, u) ∈ tool_join db tenant →
    vr_tool_id v = tr_id t ∧ v ∈ db_versions db ∧
    (∀ v', v' ∈ db_versions db → vr_tenant_id v' = tenant → vr_tool_id v' = tr_id t →
       (vr_version v' ≤ vr_version v)%Z) ∧
    (∀ b', b = Some b' ↔
       b' ∈ db_bindings db ∧ br_tenant_id b' = tenant ∧ br_tool_version_id b' = vr_id v).
Proof.
  unfold tool_join. split.
  - induction (db_tools db) as [|t ts IH]; [done|]. rewrite !filter_cons.
    destruct (decide (tr_tenant_id t = tenant)) as [Et|]; [|rewrite decide_False by tauto; apply IH].
    rewrite bind_cons, fmap_app, IH.
    destruct (latest_rows t) as [[-> En]|(v & -> & _ & _ & Ev)].
    + rewrite decide_False; [done|]. rewrite En. by intros [_ [? ?]].
    + rewrite decide_True by (rewrite Ev; eauto). simpl. rewrite app_nil_r.
      destruct (version_join_one t v) as (b & u & -> & _). done.
  - intros t v b u Hin. apply list_elem_of_bind in Hin as (t' & Hin & Ht').
    apply list_elem_of_bind in Hin as (v' & Hin & Hv').
    destruct (version_join_one t' v') as (b' & u' & E & Hb). rewrite E in Hin.
    apply list_elem_of_singleton in Hin. injection Hin as -> -> -> ->.
    apply list_elem_of_filter in Hv' as [[Hu Hn] Hv]. split; [done|]. split; [done|]. split.
    + intros v1 H1 H2 H3. symmetry in Hn. by eapply (latest_version_Some _ _ Hn).
    + intros b1. by rewrite <-Hb.
Qed.
End ToolRows.

(** ** A database *)

(** The C collation, and folding of the letters of this range. *)
Lemma lower_char_pattern c :
  lower_char c ∈ ["%"; "_"; "\"]%char ∨ c ∈ ["%"; "_"; "\"]%char → lower_char c = c.
Proof.
  assert (Hc : implb (bool_decide (lower_char c ∈ ["%"; "_"; "\"]%char)
    || bool_decide (c ∈ ["%"; "_"; "\"]%char)) (bool_decide (lower_char c = c)) = true).
  { by destruct c as [[] [] [] [] [] [] [] []]. }
  intros Hor. apply (bool_decide_eq_true (lower_char c = c)). revert Hc.
  destruct Hor as [Hor|Hor]; rewrite (bool_decide_true _ Hor), ?orb_true_r; done.
Qed.

#[export] Instance c_text : DatabaseText := {|
  collate := str_leb;
  collate_total := str_leb_total;
  collate_trans := str_leb_trans;
  collate_antisym := str_leb_antisym;
  fold_char := lower_char;
  fold_pattern := lower_char_pattern |}.

Module ControlPlaneExamples.
Definition at_time (n : Z) : datetime := Datetime n true.
Definition acme : UUID := mkUUID 1.
Definition rival : UUID := mkUUID 2.
Definition acme_id : string := "00000000-0000-0000-0000-000000000001".

Definition upstream (id : N) (tenant : UUID) (name status : string) : UpstreamServiceModel :=
  mkUpstreamRow (mkUUID id) tenant "shop" name None "team" "http" "http" "https://shop" None None None []
    status (at_time 1) (at_time 1).
Definition tool (id : N) (tenant : UUID) (name : string) : ToolModel :=
  mkToolRow (mkUUID id) tenant "shop" name "team" "active" (at_time 1) (at_time 1).
Definition version (id tool : N) (tenant : UUID) (n : Z) (status name : string) : ToolVersionModel :=
  mkVersionRow (mkUUID id) tenant (mkUUID tool) n name "100% cotton" [] (Some []) "digest" [] "" "" ""
    "read_only" "public" status "admin" (at_time 1) None None None.
Definition binding (id version upstream : N) (tenant : UUID) : ToolBindingModel :=
  mkBindingRow (mkUUID id) tenant (mkUUID version) (mkUUID upstream) None "http" [] "digest" "published"
    (at_time 1) (at_time 1) None.
Definition approval (id tool : N) (status : string) : ApprovalRequestModel :=
  mkApprovalRow (mkUUID id) acme "agent" (mkUUID tool) (mkUUID 31) "digest" "p1" None status (at_time 5)
    (at_time 9) None None None.
Definition execution (id tool : N) (status : string) : ToolExecutionModel :=
  mkExecutionRow (mkUUID id) acme "req" "trace" "agent" (mkUUID tool) (mkUUID 31) (mkUUID 41) "root" None
    None None None "digest" "p1" "reason" "read_only" status None (at_time 5) None None None None 0.
Definition operation (id : N) (status : string) : ImportedOperationModel :=
  mkOperationRow (mkUUID id) acme (mkUUID 81) (mkUUID 11) (uuid_str (mkUUID id)) None "get" "/" [] None
    "none" status None None None (at_time 1) (at_time 1).

Definition own_upstreams := [upstream 11 acme "orders" "active"; upstream 12 acme "billing" "disabled"].
Definition own_tools := [tool 21 acme "shop.orders"; tool 22 acme "shop.cancel"; tool 23 acme "shop.new"].
Definition own_versions :=
  [version 31 21 acme 1 "published" "Orders"; version 32 21 acme 2 "draft" "Orders";
   version 33 22 acme 1 "published" "Cancel 100%"].

Definition db : Database :=
  mkDatabase (own_upstreams ++ [upstream 13 rival "orders" "active"])
    (own_tools ++ [tool 24 rival "shop.secret"])
    (own_versions ++ [version 34 24 rival 7 "published" "Secret"])
    [binding 41 33 11 acme] [approval 51 21 "pending"; approval 52 22 "approved"]
    [execution 61 21 "failed"; execution 62 22 "unknown"; execution 63 22 "failed"] [] []
    [] [operation 71 "pending"; operation 72 "accepted"; operation 73 "needs_change"] [].

(** The same database without the other tenant. *)
Definition alone : Database :=
  mkDatabase own_upstreams own_tools own_versions (db_bindings db) (db_approvals db) (db_executions db)
    [] [] [] (db_operations db) [].

Definition percent (a b : Z) : Q := (a # 1) * 100 / (b # 1).

Definition no_filter (query : option string) : ToolFilter :=
  mkToolFilter query None None None None None None.

Definition listed (query : option string) : res (list (string * Z)) :=
  let? p := list_tools db acme_id 0 50 (no_filter query) in
  Ok (map (λ t, (tsm_canonical_name t, tsm_latest_version t)) (pg_items p)).

Example tools_listed : listed None = Ok [("shop.cancel", 1%Z); ("shop.orders", 2%Z)].
Proof. vm_compute. reflexivity. Qed.

(** The percent sign is no wildcard, the underscore neither. *)
Example searched :
  listed (Some "0% C") = Ok [("shop.cancel", 1%Z); ("shop.orders", 2%Z)] ∧
  listed (Some "l 1") = Ok [("shop.cancel", 1%Z)] ∧ listed (Some "_") = Ok [] ∧
  listed (Some "SECRET") = Ok [].
Proof. split_and!; vm_compute; reflexivity. Qed.

(** An output schema that is the empty object is shown as no schema. *)
Example empty_schema_hidden :
  vr_output_schema_json (version 31 21 acme 1 "published" "Orders") = Some [] ∧
  tvd_output_schema (version_detail (version 31 21 acme 1 "published" "Orders")) = None.
Proof. by split. Qed.

Lemma elem_cases {A} (P : A → Prop) l : Forall P l → ∀ x, x ∈ l → P x.
Proof. by rewrite Forall_forall. Qed.

Lemma db_constraints : constraints db.
Proof.
  constructor; try (apply (bool_decide_unpack _); vm_compute; exact I).
  - apply (elem_cases (λ a, pr_tool_id a ∈ tr_id <$> db_tools db)).
    apply (bool_decide_unpack _). vm_compute. exact I.
  - apply (elem_cases (λ x, xm_tool_id x ∈ tr_id <$> db_tools db)).
    apply (bool_decide_unpack _). vm_compute. exact I.
Qed.

Lemma refs_check (d : Database) :
  Forall (λ v, Forall (λ t, vr_tool_id v = tr_id t → vr_tenant_id v = tr_tenant_id t) (db_tools d))
    (db_versions d) →
  Forall (λ a, Forall (λ t, tr_id t = pr_tool_id a → tr_tenant_id t = pr_tenant_id a) (db_tools d))
    (db_approvals d) →
  Forall (λ x, Forall (λ t, tr_id t = xm_tool_id x → tr_tenant_id t = xm_tenant_id x) (db_tools d))
    (db_executions d) →
  db_jobs d = [] → db_embeddings d = [] → refs_in_tenant d.
Proof.
  intros Hv Ha Hx Hj He. constructor.
  - intros v t Hin Ht. by eapply Forall_forall in Hv; [|exact Hin]; eapply Forall_forall in Hv.
  - intros j u Hin. rewrite Hj in Hin. by apply elem_of_nil in Hin.
  - intros a t Hin Ht. by eapply Forall_forall in Ha; [|exact Hin]; eapply Forall_forall in Ha.
  - intros x t Hin Ht. by eapply Forall_forall in Hx; [|exact Hin]; eapply Forall_forall in Hx.
  - intros e v Hin. rewrite He in Hin. by apply elem_of_nil in Hin.
Qed.

Lemma db_refs : refs_in_tenant db.
Proof. apply refs_check; try done; apply (bool_decide_unpack _); vm_compute; exact I. Qed.
Lemma alone_refs : refs_in_tenant alone.
Proof. apply refs_check; try done; apply (bool_decide_unpack _); vm_compute; exact I. Qed.

Lemma tenant_noninterference_witness :
  run_query percent "model" 2 db acme_id (QListTools 0 50 (no_filter (Some "sec")))
  = run_query percent "model" 2 alone acme_id (QListTools 0 50 (no_filter (Some "sec"))).
Proof.
  apply (tenant_noninterference percent "model" 2 db alone acme acme_id);
    [vm_compute; reflexivity|exact db_refs|exact alone_refs|vm_compute; reflexivity].
Defined.

(** An execution that refers to another tenant's tool: its name is shown. *)
Definition crossed : Database :=
  mkDatabase [] [tool 24 rival "shop.secret"] [] [] [] [execution 61 24 "failed"] [] [] [] [] [].
Example foreign_reference_is_shown :
  (let? x := get_execution crossed acme_id (uuid_str (mkUUID 61)) in Ok (exs_canonical_name <$> x))
  = Ok (Some "shop.secret") ∧
  tenant_part acme crossed ≠ visible_part acme crossed.
Proof. split; [vm_compute; reflexivity|]. intros E. apply (f_equal (λ d, length (db_tools d))) in E. by vm_compute in E. Qed.

Lemma pages_partition_rows_witness :
  ∃ chunks, pages upstream_order upstream_detail (db_upstreams db) 2 2 = Ok chunks ∧
    mjoin chunks = map upstream_detail (sorted_by upstream_order (db_upstreams db)).
Proof.
  destruct (pages_partition_rows upstream_order upstream_detail
    (then_by_total _ _ (λ x y, collate_total _ _) (λ x y, collate_total _ _))
    (then_by_trans _ _ (λ x y, collate_total _ _) (λ x y z, collate_trans _ _ _) (λ x y z, collate_trans _ _ _))
    (db_upstreams db) 2 2) as (chunks & Hp & Hj & _).
  - by split.
  - by split.
  - exists chunks. split; [exact Hp|exact Hj].
Defined.

Lemma dashboard_agrees_with_listings_witness :
  ∃ d, dashboard percent "model" 2 db acme_id = Ok d ∧ ds_pending_reviews d = 2%Z ∧
    ds_failed_executions d = 2%Z.
Proof.
  destruct (dashboard percent "model" 2 db acme_id) as [d|] eqn:Ed; [|vm_compute in Ed; discriminate Ed].
  exists d. split; [reflexivity|].
  destruct (list_upstreams db acme_id 0 1 None (Some "active")) as [pu|] eqn:E1;
    [|vm_compute in E1; discriminate E1].
  destruct (list_approvals db acme_id 0 1 (Some "pending") None None) as [pa|] eqn:E2;
    [|vm_compute in E2; discriminate E2].
  destruct (list_executions db acme_id 0 1 (Some "failed") None None None) as [pf|] eqn:E3;
    [|vm_compute in E3; discriminate E3].
  destruct (list_executions db acme_id 0 1 (Some "unknown") None None None) as [pn|] eqn:E4;
    [|vm_compute in E4; discriminate E4].
  destruct (list_review_operations db acme_id 0 1 (Some "pending") None None) as [po|] eqn:E5;
    [|vm_compute in E5; discriminate E5].
  destruct (list_review_operations db acme_id 0 1 (Some "needs_change") None None) as [po'|] eqn:E6;
    [|vm_compute in E6; discriminate E6].
  destruct (dashboard_agrees_with_listings percent "model" 2 db db_constraints acme_id d 1 pu pa pf pn po po'
    Ed E1 E2 E3 E4 E5 E6) as (_ & _ & Hf & _ & Hr & _).
  vm_compute in E3, E5, E6. injection E3 as <-. injection E5 as <-. injection E6 as <-.
  split; [exact Hr|exact Hf].
Defined.

Lemma tools_listed_once_witness :
  (λ r : tool_row, r.1.1.1) <$> tool_join db acme = [tool 21 acme "shop.orders"; tool 22 acme "shop.cancel"].
Proof.
  destruct (tools_listed_once db db_constraints acme) as [E _]. rewrite E. vm_compute. reflexivity.
Defined.
End ControlPlaneExamples.
