(* ===== verification/HttpProblems.v ===== *)
(** * HTTP problem responses

    Models the handlers of [interfaces/http/errors.py] over the status table of
    Errors.v: the problem details of the program's own errors and of invalid
    requests, the declaration of a route's problem responses, and the
    normalisation of the generated contract in [interfaces/admin/app.py].  What
    FastAPI's validation reports ([RequestValidationError.errors()]) is data. *)

From Stdlib Require Import ZArith.
From stdpp Require Import base sets strings option list pretty.
From S2P Require Import Prelude Text Dict Errors Json.
Open Scope py_scope.

(** ** Responses *)

Record HttpResponse := mkResponse {
  hr_status : Z;
  hr_media_type : string;
  hr_body : json }.

Definition PROBLEM_JSON : string := "application/problem+json".
Definition APPLICATION_JSON : string := "application/json".

(** A field of [model_dump(exclude_none=True)]. *)
Definition field_unless_none (name : string) (value : option json) : dict json :=
  match value with Some v => [(name, v)] | None => [] end.

Record ProblemFieldError := mkFieldError {
  pf_field : string;
  pf_code : string;
  pf_detail : string }.

(** [ProblemDetails(...).model_dump(mode="json", exclude_none=True)] *)
Definition problem_dump (p : problem_details) (errors : option (list ProblemFieldError)) : json :=
  JObj ([("type", JStr (pd_type p)); ("title", JStr (pd_title p)); ("status", JInt (pd_status p));
         ("detail", JStr (pd_detail p)); ("code", JStr (pd_code p))]
        ++ field_unless_none "request_id" (JStr <$> pd_request_id p)
        ++ field_unless_none "errors"
             ((λ l, JArr (map (λ e, JObj [("field", JStr (pf_field e)); ("code", JStr (pf_code e));
                                          ("detail", JStr (pf_detail e))]) l)) <$> errors)).

(** [nexusmcp_error_handler], given the request id of the log context *)
Definition nexusmcp_error_handler (request_id : option string) (error : exn) : res HttpResponse :=
  match error with
  | Nexus e => Ok (mkResponse (http_status_for e) PROBLEM_JSON
                     (problem_dump (http_error_body request_id e) None))
  | _ => Raise TypeError
  end.

(** One entry of [error.errors()]: its location if it is a tuple or a list, of
    names and indices, its type and its message. *)
Record ValidationItem := mkValidationItem {
  vi_loc : option (list (string + Z));
  vi_type : option string;
  vi_msg : option string }.

Definition part_text (item : string + Z) : string :=
  match item with inl s => s | inr n => pretty n end.

(** [_field_path] *)
Definition field_path (location : option (list (string + Z))) : string :=
  match location with
  | None => "request"
  | Some items =>
      let parts := map part_text
        (filter (λ item, item ∉ [inl "body"; inl "query"; inl "path"]) items) in
      let path := str_join "." parts in
      if str_empty path then "request" else path
  end.

Definition field_error (item : ValidationItem) : ProblemFieldError :=
  mkFieldError (field_path (vi_loc item)) (default "validation_error" (vi_type item))
    (default "Invalid value" (vi_msg item)).

(** [request_validation_error_handler] *)
Definition request_validation_error_handler (request_id : option string)
    (errors : list ValidationItem) : HttpResponse :=
  mkResponse 422 PROBLEM_JSON
    (problem_dump
       (ProblemDetails "urn:nexusmcp:error:request_validation_failed" "Request validation failed"
          422 "The request did not match the expected contract." "request_validation_failed"
          request_id)
       (Some (map field_error errors))).

(** [register_http_exception_handlers]: the program's own errors become problems,
    any other exception goes on to the server. *)
Definition handle_exceptions (request_id : option string) (outcome : res HttpResponse) :
    res HttpResponse :=
  match outcome with
  | Raise (Nexus e) => nexusmcp_error_handler request_id (Nexus e)
  | other => other
  end.

(** ** Declared problem responses *)

(** The phrases of [http.HTTPStatus]. *)
Definition http_phrases : list (Z * string) := [
  (100, "Continue"); (101, "Switching Protocols"); (102, "Processing"); (103, "Early Hints");
  (200, "OK"); (201, "Created"); (202, "Accepted"); (203, "Non-Authoritative Information");
  (204, "No Content"); (205, "Reset Content"); (206, "Partial Content"); (207, "Multi-Status");
  (208, "Already Reported"); (226, "IM Used"); (300, "Multiple Choices");
  (301, "Moved Permanently"); (302, "Found"); (303, "See Other"); (304, "Not Modified");
  (305, "Use Proxy"); (307, "Temporary Redirect"); (308, "Permanent Redirect");
  (400, "Bad Request"); (401, "Unauthorized"); (402, "Payment Required"); (403, "Forbidden");
  (404, "Not Found"); (405, "Method Not Allowed"); (406, "Not Acceptable");
  (407, "Proxy Authentication Required"); (408, "Request Timeout"); (409, "Conflict");
  (410, "Gone"); (411, "Length Required"); (412, "Precondition Failed");
  (413, "Request Entity Too Large"); (414, "Request-URI Too Long");
  (415, "Unsupported Media Type"); (416, "Requested Range Not Satisfiable");
  (417, "Expectation Failed"); (418, "I'm a Teapot"); (421, "Misdirected Request");
  (422, "Unprocessable Entity"); (423, "Locked"); (424, "Failed Dependency"); (425, "Too Early");
  (426, "Upgrade Required"); (428, "Precondition Required"); (429, "Too Many Requests");
  (431, "Request Header Fields Too Large"); (451, "Unavailable For Legal Reasons");
  (500, "Internal Server Error"); (501, "Not Implemented"); (502, "Bad Gateway");
  (503, "Service Unavailable"); (504, "Gateway Timeout"); (505, "HTTP Version Not Supported");
  (506, "Variant Also Negotiates"); (507, "Insufficient Storage"); (508, "Loop Detected");
  (510, "Not Extended"); (511, "Network Authentication Required") ]%Z.

Definition http_phrase (status : Z) : res string :=
  match find (λ row, (row.1 =? status)%Z) http_phrases with
  | Some row => Ok row.2
  | None => Raise (ValueError "is not a valid HTTPStatus")
  end.

(** A declared response: its description and its empty content, under the
    media type of problems.  The model is always [ProblemDetails]. *)
Record ProblemResponse := mkProblemResponse {
  prs_description : string;
  prs_content : dict json }.

(** [sorted({422, *statuses})] *)
Definition documented_statuses (statuses : list Z) : list Z :=
  sorted_by Z.leb (remove_dups (422%Z :: statuses)).

(** [problem_responses] *)
Definition problem_responses (statuses : list Z) : res (list (Z * ProblemResponse)) :=
  traverse (λ status, let? phrase := http_phrase status in
              Ok (status, mkProblemResponse phrase [(PROBLEM_JSON, JObj [])]))
    (documented_statuses statuses).

Lemma documented_iff status statuses :
  status ∈ documented_statuses statuses ↔ status = 422%Z ∨ status ∈ statuses.
Proof.
  unfold documented_statuses. rewrite elem_of_sorted_by, elem_of_remove_dups, elem_of_cons. done.
Qed.

(** ** The generated contract *)

(** [d.pop(key, None)] without the value *)
Definition ddel {V} (key : string) (d : dict V) : dict V := filter (λ kv, kv.1 ≠ key) d.

(** [for value in d.values(): update(value)] where [update] changes objects in
    place and skips what is no object. *)
Definition each_object (update : dict json → dict json) (d : dict json) : dict json :=
  map (λ kv, match kv.2 with JObj o => (kv.1, JObj (update o)) | _ => kv end) d.

(** The object under a key, updated in place if there is one. *)
Definition at_object (key : string) (update : dict json → dict json) (d : dict json) : dict json :=
  match dget key d with Some (JObj o) => dset key (JObj (update o)) d | _ => d end.

Definition normalize_content (content : dict json) : dict json :=
  if dmem PROBLEM_JSON content then
    let rest := ddel "application/json" content in
    match dget "application/json" content with
    | Some (JObj contract) => dset PROBLEM_JSON (JObj contract) rest
    | _ => rest
    end
  else content.

(** [_normalize_problem_response_media_types] *)
Definition normalize_problem_response_media_types (schema : dict json) : dict json :=
  at_object "paths"
    (each_object (each_object (at_object "responses" (each_object (at_object "content" normalize_content)))))
    schema.

Section Normalized.

Lemma dset_twice {V} k (v v' : V) d : dset k v (dset k v' d) = dset k v d.
Proof.
  induction d as [|[k' w] d IH]; simpl; [by rewrite decide_True|].
  destruct (decide (k = k')) as [->|]; simpl; [by rewrite decide_True|].
  rewrite decide_False by done. by rewrite IH.
Qed.

Lemma ddel_get {V} k (d : dict V) : dget k (ddel k d) = None.
Proof.
  apply dget_None. unfold dkeys, ddel. rewrite list_elem_of_fmap.
  intros ([k' v] & -> & [Hne _]%list_elem_of_filter). by apply Hne.
Qed.

Lemma ddel_twice {V} k (d : dict V) : ddel k (ddel k d) = ddel k d.
Proof.
  unfold ddel. rewrite list_filter_filter. apply list_filter_iff. naive_solver.
Qed.

Lemma ddel_fresh {V} k (d : dict V) : dget k d = None → ddel k d = d.
Proof.
  unfold ddel. induction d as [|[k' v] d IH]; simpl; [done|].
  destruct (decide (k = k')); [done|]. intros. rewrite filter_cons_True by (simpl; congruence).
  by rewrite IH.
Qed.

Lemma dget_ddel_ne {V} k k' (d : dict V) : k ≠ k' → dget k (ddel k' d) = dget k d.
Proof.
  intros Hne. unfold ddel. induction d as [|[k'' v] d IH]; simpl; [done|].
  destruct (decide (k'' = k')) as [->|].
  - rewrite filter_cons_False by (simpl; tauto). by rewrite decide_False.
  - rewrite filter_cons_True by done. simpl. by rewrite IH.
Qed.

Lemma each_object_idempotent f :
  (∀ o, f (f o) = f o) → ∀ d, each_object f (each_object f d) = each_object f d.
Proof.
  intros Hf d. unfold each_object. rewrite map_map. apply map_ext.
  intros [k []]; simpl; by rewrite ?Hf.
Qed.

Lemma at_object_idempotent key f :
  (∀ o, f (f o) = f o) → ∀ d, at_object key f (at_object key f d) = at_object key f d.
Proof.
  intros Hf d. unfold at_object. destruct (dget key d) as [[]|] eqn:E; try (by rewrite E).
  rewrite dget_dset_eq, dset_twice. by rewrite Hf.
Qed.

(** After normalisation, problems are only described as problem JSON. *)
Lemma normalize_content_json content :
  dmem PROBLEM_JSON content = true →
  dget "application/json" (normalize_content content) = None.
Proof.
  intros Hp. unfold normalize_content. rewrite Hp.
  assert (dget "application/json" (ddel "application/json" content) = None) by apply ddel_get.
  destruct (dget "application/json" content) as [[]|]; try done.
  rewrite dget_dset_ne; [done|]. by vm_compute.
Qed.

Lemma normalize_content_problem content :
  dmem PROBLEM_JSON (normalize_content content) = dmem PROBLEM_JSON content.
Proof.
  unfold normalize_content. destruct (dmem PROBLEM_JSON content) eqn:Hp; [|done].
  assert (dmem PROBLEM_JSON (ddel "application/json" content) = true).
  { unfold dmem in *. by rewrite dget_ddel_ne by (by vm_compute). }
  destruct (dget "application/json" content) as [[]|]; try done.
  unfold dmem. by rewrite dget_dset_eq.
Qed.

Lemma normalize_content_idempotent content :
  normalize_content (normalize_content content) = normalize_content content.
Proof.
  destruct (dmem PROBLEM_JSON content) eqn:Hp.
  - pose proof (normalize_content_json _ Hp) as Hj.
    unfold normalize_content at 1. rewrite normalize_content_problem, Hp, Hj.
    by apply ddel_fresh.
  - unfold normalize_content. by rewrite Hp, Hp.
Qed.

(** FastAPI keeps the generated contract and hands out the same object again:
    normalising it a second time changes nothing. *)
Theorem contract_normalization_idempotent schema :
  normalize_problem_response_media_types (normalize_problem_response_media_types schema)
  = normalize_problem_response_media_types schema.
Proof.
  apply at_object_idempotent, each_object_idempotent, each_object_idempotent,
    at_object_idempotent, each_object_idempotent, at_object_idempotent,
    normalize_content_idempotent.
Qed.
End Normalized.

Module ProblemExamples.
Example missing_tool :
  nexusmcp_error_handler (Some "r1") (Nexus ToolNotFoundError)
  = Ok (mkResponse 404 "application/problem+json" (JObj
      [("type", JStr "urn:nexusmcp:error:tool_not_found"); ("title", JStr "Request rejected");
       ("status", JInt 404); ("detail", JStr "The requested tool was not found.");
       ("code", JStr "tool_not_found"); ("request_id", JStr "r1")])).
Proof. vm_compute. reflexivity. Qed.

Example paths_of_fields :
  map field_path [Some [inl "body"; inl "members"; inr 0%Z]; Some [inl "query"]; None]
  = ["members.0"; "request"; "request"].
Proof. vm_compute. reflexivity. Qed.

Example declared : fst <$> default [] (match problem_responses [409; 404; 409]%Z with
                                       | Ok l => Some l | Raise _ => None end)
  = [404; 409; 422]%Z.
Proof. vm_compute. reflexivity. Qed.
End ProblemExamples.
