(* ===== verification/AdminQueries.v ===== *)
(** * Read routes of the administration API

    Models [interfaces/admin/query_models.py], [query_routes.py] and the
    listing of upstreams in [app.py]: how a request's parameters are validated,
    which query it becomes, and the JSON body of the answer.  The routes use the
    read port through an interface, [ControlPlaneQueryPort]; the adapter of
    ControlPlane.v implements it.  A parameter FastAPI converts is its text or
    number before the conditions the routes state on it; what pydantic writes
    for a datetime, a float or a violated condition is the parameter
    [Pydantic]. *)

From Stdlib Require Import ZArith QArith Ascii.
From stdpp Require Import base sets strings option list.
From S2P Require Import Prelude Text Dict Errors Json AuditTrail Catalog Approval Execution OpenApi Registry.
From S2P Require Import Toolsets Format Uuid Rows ControlPlane HttpProblems.
Open Scope py_scope.

(** ** Parameters and their conditions *)

Inductive condition :=
| AtLeast (n : Z)
| AtMost (n : Z)
| MinLength (n : Z)
| MaxLength (n : Z)
| Matches (pattern : string)
| OneOf (values : list string).

Class Pydantic := {
  dump_datetime : datetime → json;
  dump_float : Q → json;
  condition_message : condition → string }.

(** The error types pydantic documents. *)
Definition condition_type (c : condition) : string :=
  match c with
  | AtLeast _ => "greater_than_equal"
  | AtMost _ => "less_than_equal"
  | MinLength _ => "string_too_short"
  | MaxLength _ => "string_too_long"
  | Matches _ => "string_pattern_mismatch"
  | OneOf _ => "enum"
  end.

Section Conditions.
Context `{Pydantic}.

(** The first condition that fails is reported at the parameter's location. *)
Fixpoint check_at (loc : list (string + Z)) (conditions : list (condition * bool)) :
    list ValidationItem :=
  match conditions with
  | [] => []
  | (c, true) :: rest => check_at loc rest
  | (c, false) :: _ =>
      [mkValidationItem (Some loc) (Some (condition_type c)) (Some (condition_message c))]
  end.

Definition query_at (name : string) : list (string + Z) := [inl "query"; inl name].

(** [Annotated[int, Query(ge=lo, le=hi)]] *)
Definition int_query (name : string) (lo : Z) (hi : option Z) (value : Z) : list ValidationItem :=
  check_at (query_at name)
    ((AtLeast lo, (lo <=? value)%Z)
       :: match hi with Some n => [(AtMost n, (value <=? n)%Z)] | None => [] end).

(** [Annotated[str | None, Query(min_length=lo, max_length=hi)]] *)
Definition text_conditions (lo hi : Z) (value : string) : list (condition * bool) :=
  [(MaxLength hi, (Z.of_nat (String.length value) <=? hi)%Z);
   (MinLength lo, (lo <=? Z.of_nat (String.length value))%Z)].
Definition text_query (name : string) (lo hi : Z) (value : option string) : list ValidationItem :=
  match value with Some s => check_at (query_at name) (text_conditions lo hi s) | None => [] end.

(** [E | None] for a string enumeration [E] *)
Definition enum_query (E : Type) `{StrEnum E} (name : string) (value : option string) :
    list ValidationItem :=
  match value with
  | Some s => check_at (query_at name)
                [(OneOf (map enum_value (enum_members (A := E))), enum_check E s)]
  | None => []
  end.

(** [PageOffset] and [PageLimit] *)
Definition page_query (offset limit : Z) : list ValidationItem :=
  int_query "offset" 0 None offset ++ int_query "limit" 1 (Some 100%Z) limit.
End Conditions.

(** ** Response models *)

Section Responses.
Context `{Pydantic}.

Definition opt_str (s : option string) : json := from_option JStr JNull s.
Definition opt_int (n : option Z) : json := from_option JInt JNull n.
Definition opt_time (t : option datetime) : json := from_option dump_datetime JNull t.
Definition opt_obj (d : option (dict json)) : json := from_option JObj JNull d.
Definition strings (l : list string) : json := JArr (map JStr l).

(** A field declared [Literal[...]]. *)
Definition literal (values : list string) (value : string) : res json :=
  if bool_decide (value ∈ values) then Ok (JStr value)
  else Raise (ValueError "validation error").

Definition PageMetadata (offset limit total : Z) : json :=
  JObj [("offset", JInt offset); ("limit", JInt limit); ("total", JInt total)].

Definition SearchProjectionResponse (s : SearchProjectionSummary) : json :=
  JObj [("published_tools", JInt (sps_published_tools s));
        ("indexed_tools", JInt (sps_indexed_tools s));
        ("pending_tools", JInt (sps_pending_tools s));
        ("coverage_percent", dump_float (sps_coverage_percent s));
        ("embedding_model", JStr (sps_embedding_model s));
        ("embedding_dimensions", JInt (sps_embedding_dimensions s));
        ("latest_indexed_at", opt_time (sps_latest_indexed_at s))].

Definition DashboardResponse (d : DashboardSummary) : json :=
  JObj [("active_upstreams", JInt (ds_active_upstreams d));
        ("published_tools", JInt (ds_published_tools d));
        ("pending_reviews", JInt (ds_pending_reviews d));
        ("pending_approvals", JInt (ds_pending_approvals d));
        ("failed_executions", JInt (ds_failed_executions d));
        ("unknown_executions", JInt (ds_unknown_executions d));
        ("search_projection", SearchProjectionResponse (ds_search_projection d))].

Definition UpstreamDetailResponse (u : UpstreamDetail) : res json :=
  let? service_type := literal ["http"] (ud_service_type u) in
  let? transport_type := literal ["http"] (ud_transport_type u) in
  Ok (JObj [("id", JStr (ud_id u)); ("tenant_id", JStr (ud_tenant_id u));
            ("namespace", JStr (ud_namespace u)); ("name", JStr (ud_name u));
            ("description", opt_str (ud_description u)); ("owner", JStr (ud_owner u));
            ("service_type", service_type); ("transport_type", transport_type);
            ("endpoint", JStr (ud_endpoint u)); ("protocol_min", opt_str (ud_protocol_min u));
            ("protocol_max", opt_str (ud_protocol_max u));
            ("auth_scheme", opt_str (ud_auth_scheme u)); ("config", JObj (ud_config u));
            ("status", JStr (ud_status u)); ("created_at", dump_datetime (ud_created_at u));
            ("updated_at", dump_datetime (ud_updated_at u))]).

Definition ImportJobSummaryResponse (j : ImportJobSummary) : json :=
  JObj [("id", JStr (ijs_id j)); ("upstream_service_id", JStr (ijs_upstream_service_id j));
        ("upstream_name", JStr (ijs_upstream_name j)); ("source_type", JStr (ijs_source_type j));
        ("source_ref", JStr (ijs_source_ref j)); ("source_digest", JStr (ijs_source_digest j));
        ("openapi_version", opt_str (ijs_openapi_version j)); ("status", JStr (ijs_status j));
        ("error_summary", opt_str (ijs_error_summary j)); ("created_by", JStr (ijs_created_by j));
        ("created_at", dump_datetime (ijs_created_at j));
        ("started_at", opt_time (ijs_started_at j));
        ("completed_at", opt_time (ijs_completed_at j))].

Definition ReviewOperationSummaryResponse (o : ReviewOperationSummary) : json :=
  JObj [("id", JStr (ros_id o)); ("import_job_id", JStr (ros_import_job_id o));
        ("upstream_service_id", JStr (ros_upstream_service_id o));
        ("operation_id", opt_str (ros_operation_id o));
        ("operation_key", JStr (ros_operation_key o)); ("method", JStr (ros_method o));
        ("path", JStr (ros_path o)); ("generated_tool_name", opt_str (ros_generated_tool_name o));
        ("conflict_status", JStr (ros_conflict_status o));
        ("review_status", JStr (ros_review_status o));
        ("review_notes", opt_str (ros_review_notes o));
        ("draft_tool_version_id", opt_str (ros_draft_tool_version_id o));
        ("draft_tool_binding_id", opt_str (ros_draft_tool_binding_id o));
        ("created_at", dump_datetime (ros_created_at o));
        ("updated_at", dump_datetime (ros_updated_at o))].

Definition ToolSummaryResponse (t : ToolSummary) : json :=
  JObj [("id", JStr (tsm_id t)); ("namespace", JStr (tsm_namespace t));
        ("canonical_name", JStr (tsm_canonical_name t)); ("owner", JStr (tsm_owner t));
        ("status", JStr (tsm_status t)); ("latest_version_id", JStr (tsm_latest_version_id t));
        ("latest_version", JInt (tsm_latest_version t));
        ("display_name", JStr (tsm_display_name t)); ("description", JStr (tsm_description t));
        ("version_status", JStr (tsm_version_status t)); ("visibility", JStr (tsm_visibility t));
        ("side_effect", JStr (tsm_side_effect t)); ("tags", strings (tsm_tags t));
        ("upstream_service_id", opt_str (tsm_upstream_service_id t));
        ("upstream_name", opt_str (tsm_upstream_name t));
        ("upstream_namespace", opt_str (tsm_upstream_namespace t));
        ("created_at", dump_datetime (tsm_created_at t));
        ("updated_at", dump_datetime (tsm_updated_at t))].

Definition ToolDetailResponse (t : ToolDetail) : json :=
  JObj [("id", JStr (td_id t)); ("tenant_id", JStr (td_tenant_id t));
        ("namespace", JStr (td_namespace t)); ("canonical_name", JStr (td_canonical_name t));
        ("owner", JStr (td_owner t)); ("status", JStr (td_status t));
        ("created_at", dump_datetime (td_created_at t));
        ("updated_at", dump_datetime (td_updated_at t))].

Definition ToolVersionDetailResponse (v : ToolVersionDetail) : json :=
  JObj [("id", JStr (tvd_id v)); ("tool_id", JStr (tvd_tool_id v)); ("version", JInt (tvd_version v));
        ("display_name", JStr (tvd_display_name v)); ("description", JStr (tvd_description v));
        ("input_schema", JObj (tvd_input_schema v)); ("output_schema", opt_obj (tvd_output_schema v));
        ("schema_digest", JStr (tvd_schema_digest v)); ("tags", strings (tvd_tags v));
        ("side_effect", JStr (tvd_side_effect v)); ("visibility", JStr (tvd_visibility v));
        ("status", JStr (tvd_status v)); ("created_by", JStr (tvd_created_by v));
        ("created_at", dump_datetime (tvd_created_at v));
        ("reviewed_at", opt_time (tvd_reviewed_at v));
        ("published_at", opt_time (tvd_published_at v));
        ("retired_at", opt_time (tvd_retired_at v))].

Definition ToolBindingDetailResponse (b : ToolBindingDetail) : res json :=
  let? binding_type := literal ["http"] (tbd_binding_type b) in
  Ok (JObj [("id", JStr (tbd_id b)); ("tool_version_id", JStr (tbd_tool_version_id b));
            ("upstream_service_id", JStr (tbd_upstream_service_id b));
            ("imported_operation_id", opt_str (tbd_imported_operation_id b));
            ("binding_type", binding_type); ("binding_config", JObj (tbd_binding_config b));
            ("binding_digest", JStr (tbd_binding_digest b)); ("status", JStr (tbd_status b));
            ("created_at", dump_datetime (tbd_created_at b));
            ("updated_at", dump_datetime (tbd_updated_at b));
            ("published_at", opt_time (tbd_published_at b))]).

Definition ApprovalSummaryResponse (a : ApprovalSummary) : json :=
  JObj [("id", JStr (aps_id a)); ("principal_id", JStr (aps_principal_id a));
        ("tool_id", JStr (aps_tool_id a)); ("tool_version_id", JStr (aps_tool_version_id a));
        ("canonical_name", JStr (aps_canonical_name a));
        ("arguments_digest", JStr (aps_arguments_digest a));
        ("policy_version", JStr (aps_policy_version a));
        ("has_idempotency_key", JBool (aps_has_idempotency_key a));
        ("status", JStr (aps_status a)); ("requested_at", dump_datetime (aps_requested_at a));
        ("expires_at", dump_datetime (aps_expires_at a)); ("decided_by", opt_str (aps_decided_by a));
        ("decided_at", opt_time (aps_decided_at a)); ("consumed_at", opt_time (aps_consumed_at a))].

Definition ExecutionSummaryResponse (x : ExecutionSummary) : res json :=
  let? mcp_scope_type := literal ["root"; "toolset"] (exs_mcp_scope_type x) in
  Ok (JObj [("id", JStr (exs_id x)); ("request_id", JStr (exs_request_id x));
            ("trace_id", JStr (exs_trace_id x)); ("principal_id", JStr (exs_principal_id x));
            ("tool_id", JStr (exs_tool_id x)); ("tool_version_id", JStr (exs_tool_version_id x));
            ("tool_binding_id", JStr (exs_tool_binding_id x));
            ("canonical_name", JStr (exs_canonical_name x));
            ("policy_version", JStr (exs_policy_version x));
            ("policy_reason_code", JStr (exs_policy_reason_code x));
            ("side_effect", JStr (exs_side_effect x)); ("status", JStr (exs_status x));
            ("has_idempotency_key", JBool (exs_has_idempotency_key x));
            ("planned_at", dump_datetime (exs_planned_at x));
            ("started_at", opt_time (exs_started_at x)); ("finished_at", opt_time (exs_finished_at x));
            ("error_code", opt_str (exs_error_code x));
            ("error_category", opt_str (exs_error_category x));
            ("attempt_count", JInt (exs_attempt_count x)); ("mcp_scope_type", mcp_scope_type);
            ("toolset_id", opt_str (exs_toolset_id x));
            ("toolset_revision", opt_int (exs_toolset_revision x))]).

Definition ExecutionAttemptResponse (a : ExecutionAttemptSummary) : json :=
  JObj [("id", JStr (ats_id a)); ("execution_id", JStr (ats_execution_id a));
        ("attempt_number", JInt (ats_attempt_number a)); ("status", JStr (ats_status a));
        ("started_at", dump_datetime (ats_started_at a)); ("finished_at", opt_time (ats_finished_at a));
        ("error_code", opt_str (ats_error_code a)); ("error_category", opt_str (ats_error_category a));
        ("upstream_status", opt_int (ats_upstream_status a))].

Definition meta_json (v : meta_value) : json :=
  match v with MStr s => JStr s | MInt n => JInt n | MBool b => JBool b | MNone => JNull end.

Definition AuditEventResponse (e : AuditEventSummary) : json :=
  JObj [("id", JStr (aus_id e)); ("actor_id", JStr (aus_actor_id e)); ("action", JStr (aus_action e));
        ("resource_type", JStr (aus_resource_type e)); ("resource_id", JStr (aus_resource_id e));
        ("outcome", JStr (aus_outcome e)); ("request_id", JStr (aus_request_id e));
        ("trace_id", JStr (aus_trace_id e)); ("occurred_at", dump_datetime (aus_occurred_at e));
        ("arguments_digest", opt_str (aus_arguments_digest e));
        ("policy_version", opt_str (aus_policy_version e));
        ("reason_code", opt_str (aus_reason_code e)); ("execution_id", opt_str (aus_execution_id e));
        ("metadata", JObj (prod_map id meta_json <$> aus_metadata e))].

(** [UpstreamResponse.from_read_model] *)
Definition remote_mcp (service_type transport_type : string) : bool :=
  negb (bool_decide (service_type = "http")) || negb (bool_decide (transport_type = "http")).
Definition upstream_response (id tenant_id namespace name : string) (description : option string)
    (owner endpoint : string) (auth_scheme : option string) (config : dict json) (status : UpstreamStatus) :
    json :=
  JObj [("id", JStr id); ("tenant_id", JStr tenant_id); ("namespace", JStr namespace);
        ("name", JStr name); ("description", opt_str description); ("owner", JStr owner);
        ("service_type", JStr "http"); ("transport_type", JStr "http"); ("endpoint", JStr endpoint);
        ("auth_scheme", opt_str auth_scheme); ("config", JObj config);
        ("status", JStr (enum_value status))].
Definition from_read_model (u : UpstreamDetail) : res json :=
  raise_if (remote_mcp (ud_service_type u) (ud_transport_type u)) (Nexus FeatureNotEnabledError) ;;?
  let? status := enum_of (ud_status u) in
  Ok (upstream_response (ud_id u) (ud_tenant_id u) (ud_namespace u) (ud_name u) (ud_description u)
        (ud_owner u) (ud_endpoint u) (ud_auth_scheme u) (ud_config u) status).

(** [_page_response] *)
Definition page_response {A} (item : A → res json) (page : Page A) : res json :=
  let? items := traverse item (pg_items page) in
  Ok (JObj [("items", JArr items);
            ("page", PageMetadata (pg_offset page) (pg_limit page) (pg_total page))]).
End Responses.

(** ** The read port *)

Record ControlPlaneQueryPort := mkQueryPort {
  q_dashboard : string → res DashboardSummary;
  q_get_upstream : string → string → res (option UpstreamDetail);
  q_list_upstreams : string → Z → Z → option string → option string → res (Page UpstreamDetail);
  q_list_imports : string → Z → Z → option string → option string → res (Page ImportJobSummary);
  q_list_review_operations :
    string → Z → Z → option string → option string → option string → res (Page ReviewOperationSummary);
  q_list_tools : string → Z → Z → ToolFilter → res (Page ToolSummary);
  q_get_tool : string → string → res (option ToolDetail);
  q_list_tool_versions : string → string → Z → Z → res (Page ToolVersionDetail);
  q_get_tool_binding : string → string → res (option ToolBindingDetail);
  q_get_tool_version : string → string → res (option ToolVersionDetail);
  q_get_tool_version_binding : string → string → res (option ToolBindingDetail);
  q_list_approvals :
    string → Z → Z → option string → option string → option string → res (Page ApprovalSummary);
  q_list_executions :
    string → Z → Z → option string → option string → option string → option string →
    res (Page ExecutionSummary);
  q_get_execution : string → string → res (option ExecutionSummary);
  q_list_execution_attempts : string → string → Z → Z → res (Page ExecutionAttemptSummary);
  q_list_audit_events :
    string → Z → Z → option string → option string → option string → option string → option string →
    res (Page AuditEventSummary);
  q_search_projection_status : string → res SearchProjectionSummary }.

(** [SqlAlchemyControlPlaneQueries] over the rows of a database *)
Definition sql_queries `{DatabaseText} (percent : Z → Z → Q) (model : string) (dimensions : Z)
    (db : Database) : ControlPlaneQueryPort := {|
  q_dashboard := dashboard percent model dimensions db;
  q_get_upstream := get_upstream db;
  q_list_upstreams := list_upstreams db;
  q_list_imports := list_imports db;
  q_list_review_operations := list_review_operations db;
  q_list_tools := list_tools db;
  q_get_tool := get_tool db;
  q_list_tool_versions := list_tool_versions db;
  q_get_tool_binding := get_tool_binding db;
  q_get_tool_version := get_tool_version db;
  q_get_tool_version_binding := get_tool_version_binding db;
  q_list_approvals := list_approvals db;
  q_list_executions := list_executions db;
  q_get_execution := get_execution db;
  q_list_execution_attempts := list_execution_attempts db;
  q_list_audit_events := list_audit_events db;
  q_search_projection_status := search_projection_status percent model dimensions db |}.

(** ** Routes *)

(** The read requests with their parameters, defaults filled in. *)
Inductive ReadRequest :=
| GetDashboard
| GetUpstream (upstream_service_id : string)
| ListUpstreams (offset limit : Z) (namespace status : option string)
| ListImports (offset limit : Z) (status upstream_service_id : option string)
| ListReviewOperations (offset limit : Z) (review_status conflict_status import_job_id : option string)
| ListTools (offset limit : Z) (f : ToolFilter)
| GetTool (tool_id : string)
| ListToolVersions (tool_id : string) (offset limit : Z)
| GetToolVersion (tool_version_id : string)
| GetToolVersionBinding (tool_version_id : string)
| GetToolBinding (tool_binding_id : string)
| ListApprovals (offset limit : Z) (status principal_id tool_id : option string)
| ListExecutions (offset limit : Z) (status principal_id tool_id trace_id : option string)
| GetExecution (execution_id : string)
| ListExecutionAttempts (execution_id : string) (offset limit : Z)
| ListAuditEvents (offset limit : Z) (trace_id principal_id tool_id execution_id outcome : option string)
| GetSearchProjectionStatus.

(** The problem statuses each route declares. *)
Definition read_problems (r : ReadRequest) : list Z :=
  match r with
  | GetDashboard | GetSearchProjectionStatus => [503]
  | GetUpstream _ | GetToolVersionBinding _ | GetToolBinding _ => [404; 501]
  | ListUpstreams _ _ _ _ => [400]
  | GetTool _ | GetToolVersion _ | GetExecution _ => [404]
  | ListToolVersions _ _ _ | ListExecutionAttempts _ _ _ => [404; 422]
  | ListImports _ _ _ _ | ListReviewOperations _ _ _ _ _ | ListTools _ _ _
  | ListApprovals _ _ _ _ _ | ListExecutions _ _ _ _ _ _ | ListAuditEvents _ _ _ _ _ _ _ => [422]
  end%Z.

Section Routes.
Context `{Pydantic}.

(** The conditions on the parameters, in their order. *)
Definition read_validation (r : ReadRequest) : list ValidationItem :=
  match r with
  | ListUpstreams offset limit namespace status =>
      page_query offset limit ++ text_query "namespace" 1 64 namespace
      ++ enum_query UpstreamStatus "status" status
  | ListImports offset limit status _ =>
      page_query offset limit ++ enum_query ImportJobStatus "status" status
  | ListReviewOperations offset limit review_status conflict_status _ =>
      page_query offset limit ++ enum_query OperationReviewStatus "review_status" review_status
      ++ enum_query OperationConflictStatus "conflict_status" conflict_status
  | ListTools offset limit f =>
      page_query offset limit ++ text_query "q" 1 200 (tf_query f)
      ++ text_query "namespace" 1 64 (tf_namespace f)
      ++ enum_query ToolStatus "status" (tf_status f)
      ++ enum_query ToolVersionStatus "version_status" (tf_version_status f)
      ++ enum_query ToolVisibility "visibility" (tf_visibility f)
      ++ enum_query ToolSideEffect "side_effect" (tf_side_effect f)
  | ListToolVersions _ offset limit | ListExecutionAttempts _ offset limit => page_query offset limit
  | ListApprovals offset limit status _ _ =>
      page_query offset limit ++ enum_query ApprovalStatus "status" status
  | ListExecutions offset limit status _ _ _ =>
      page_query offset limit ++ enum_query ExecutionStatus "status" status
  | ListAuditEvents offset limit _ _ _ _ outcome =>
      page_query offset limit ++ enum_query AuditOutcome "outcome" outcome
  | GetDashboard | GetUpstream _ | GetTool _ | GetToolVersion _ | GetToolVersionBinding _
  | GetToolBinding _ | GetExecution _ | GetSearchProjectionStatus => []
  end.

Context (queries : ControlPlaneQueryPort) (tenant_id : string).

Definition get_dashboard : res json :=
  let? d := q_dashboard queries tenant_id in Ok (DashboardResponse d).

Definition get_upstream_route (upstream_service_id : string) : res json :=
  let? found := q_get_upstream queries tenant_id upstream_service_id in
  match found with
  | None => Raise (Nexus UpstreamNotFoundError)
  | Some upstream =>
      raise_if (remote_mcp (ud_service_type upstream) (ud_transport_type upstream))
        (Nexus FeatureNotEnabledError) ;;?
      UpstreamDetailResponse upstream
  end.

Definition list_upstreams_route (offset limit : Z) (namespace status : option string) : res json :=
  let? upstreams := q_list_upstreams queries tenant_id offset limit namespace status in
  page_response from_read_model upstreams.

Definition list_imports_route (offset limit : Z) (status upstream_service_id : option string) :
    res json :=
  let? page := q_list_imports queries tenant_id offset limit status upstream_service_id in
  page_response (λ j, Ok (ImportJobSummaryResponse j)) page.

Definition list_review_operations_route (offset limit : Z)
    (review_status conflict_status import_job_id : option string) : res json :=
  let? page := q_list_review_operations queries tenant_id offset limit review_status conflict_status
                 import_job_id in
  page_response (λ o, Ok (ReviewOperationSummaryResponse o)) page.

Definition list_tools_route (offset limit : Z) (f : ToolFilter) : res json :=
  let? page := q_list_tools queries tenant_id offset limit f in
  page_response (λ t, Ok (ToolSummaryResponse t)) page.

Definition get_tool_route (tool_id : string) : res json :=
  let? found := q_get_tool queries tenant_id tool_id in
  match found with
  | None => Raise (Nexus ToolNotFoundError)
  | Some tool => Ok (ToolDetailResponse tool)
  end.

Definition list_tool_versions_route (tool_id : string) (offset limit : Z) : res json :=
  let? found := q_get_tool queries tenant_id tool_id in
  raise_if (is_none found) (Nexus ToolNotFoundError) ;;?
  let? page := q_list_tool_versions queries tenant_id tool_id offset limit in
  page_response (λ v, Ok (ToolVersionDetailResponse v)) page.

Definition get_tool_version_route (tool_version_id : string) : res json :=
  let? found := q_get_tool_version queries tenant_id tool_version_id in
  match found with
  | None => Raise (Nexus ToolVersionNotFoundError)
  | Some version => Ok (ToolVersionDetailResponse version)
  end.

(** The common end of the two binding routes. *)
Definition binding_answer (found : option ToolBindingDetail) : res json :=
  match found with
  | None => Raise (Nexus ToolBindingNotFoundError)
  | Some binding =>
      raise_if (negb (bool_decide (tbd_binding_type binding = "http")))
        (Nexus FeatureNotEnabledError) ;;?
      ToolBindingDetailResponse binding
  end.
Definition get_tool_version_binding_route (tool_version_id : string) : res json :=
  let? found := q_get_tool_version_binding queries tenant_id tool_version_id in
  binding_answer found.
Definition get_tool_binding_route (tool_binding_id : string) : res json :=
  let? found := q_get_tool_binding queries tenant_id tool_binding_id in
  binding_answer found.

Definition list_approvals_route (offset limit : Z) (status principal_id tool_id : option string) :
    res json :=
  let? page := q_list_approvals queries tenant_id offset limit status principal_id tool_id in
  page_response (λ a, Ok (ApprovalSummaryResponse a)) page.

Definition list_executions_route (offset limit : Z)
    (status principal_id tool_id trace_id : option string) : res json :=
  let? page := q_list_executions queries tenant_id offset limit status principal_id tool_id trace_id in
  page_response ExecutionSummaryResponse page.

Definition get_execution_route (execution_id : string) : res json :=
  let? found := q_get_execution queries tenant_id execution_id in
  match found with
  | None => Raise (Nexus ToolExecutionNotFoundError)
  | Some execution => ExecutionSummaryResponse execution
  end.

Definition list_execution_attempts_route (execution_id : string) (offset limit : Z) : res json :=
  let? found := q_get_execution queries tenant_id execution_id in
  raise_if (is_none found) (Nexus ToolExecutionNotFoundError) ;;?
  let? page := q_list_execution_attempts queries tenant_id execution_id offset limit in
  page_response (λ a, Ok (ExecutionAttemptResponse a)) page.

Definition list_audit_events_route (offset limit : Z)
    (trace_id principal_id tool_id execution_id outcome : option string) : res json :=
  let? page := q_list_audit_events queries tenant_id offset limit trace_id principal_id tool_id
                 execution_id outcome in
  page_response (λ e, Ok (AuditEventResponse e)) page.

Definition get_search_projection_status : res json :=
  let? s := q_search_projection_status queries tenant_id in Ok (SearchProjectionResponse s).

(** The router: a valid request to its route. *)
Definition read_route (r : ReadRequest) : res json :=
  match r with
  | GetDashboard => get_dashboard
  | GetUpstream id => get_upstream_route id
  | ListUpstreams o l ns st => list_upstreams_route o l ns st
  | ListImports o l st u => list_imports_route o l st u
  | ListReviewOperations o l rs cs j => list_review_operations_route o l rs cs j
  | ListTools o l f => list_tools_route o l f
  | GetTool id => get_tool_route id
  | ListToolVersions id o l => list_tool_versions_route id o l
  | GetToolVersion id => get_tool_version_route id
  | GetToolVersionBinding id => get_tool_version_binding_route id
  | GetToolBinding id => get_tool_binding_route id
  | ListApprovals o l st p t => list_approvals_route o l st p t
  | ListExecutions o l st p t tr => list_executions_route o l st p t tr
  | GetExecution id => get_execution_route id
  | ListExecutionAttempts id o l => list_execution_attempts_route id o l
  | ListAuditEvents o l tr p t x out => list_audit_events_route o l tr p t x out
  | GetSearchProjectionStatus => get_search_projection_status
  end.

(** The whole request: validation, the route, and the exception handlers. *)
Definition handle_read (request_id : option string) (r : ReadRequest) : res HttpResponse :=
  match read_validation r with
  | [] => handle_exceptions request_id
            (let? body := read_route r in Ok (mkResponse 200 APPLICATION_JSON body))
  | items => Ok (request_validation_error_handler request_id items)
  end.
End Routes.

(** ** What each route answers

    The contract of the read routes over the rows of a database: what the JSON
    body of a request shows, when a request is refused with which error, and
    which requests the database cannot take. *)

Section Contract.
Context `{Pydantic, DatabaseText} (percent : Z → Z → Q) (model : string) (dimensions : Z).
Context (db : Database) (tenant_id : string) (tenant : UUID).

(** The tenant's row with an identifier; a text that is no UUID has none. *)
Definition row_of {R} (tenant_of id_of : R → UUID) (rows : list R) (id : string) : option R :=
  match optional_uuid id with
  | Some u => find (λ r, bool_decide (tenant_of r = tenant) && bool_decide (id_of r = u)) rows
  | None => None
  end.

Definition execution_row (id : string) : option (ToolExecutionModel * ToolModel) :=
  match optional_uuid id with
  | Some u => head (execution_join db (λ x, bool_decide (xm_tenant_id x = tenant) && bool_decide (xm_id x = u)))
  | None => None
  end.

(** The body of a page: the rows of the statement from the offset on, as many
    as the limit allows, in their order and each shown, and their number. *)
Definition page_shows {R} (leb : R → R → bool) (rows : list R) (shows : R → json → Prop)
    (offset limit : Z) (body : json) : Prop :=
  ∃ items, Forall2 shows (take (Z.to_nat limit) (drop (Z.to_nat offset) (sorted_by leb rows))) items ∧
    body = JObj [("items", JArr items);
                 ("page", JObj [("offset", JInt offset); ("limit", JInt limit);
                                ("total", JInt (Z.of_nat (length rows)))])].

(** An identifier that is no UUID selects no row. *)
Definition selected {R} (filter : option (option UUID)) (rows : option UUID → list R) : list R :=
  match filter with Some u => rows u | None => [] end.

Definition read_shows (r : ReadRequest) (body : json) : Prop :=
  match r with
  | GetDashboard => ∃ d, dashboard percent model dimensions db tenant_id = Ok d ∧
      body = DashboardResponse d
  | GetUpstream id => ∃ u, row_of ur_tenant_id ur_id (db_upstreams db) id = Some u ∧
      UpstreamDetailResponse (upstream_detail u) = Ok body
  | ListUpstreams o l namespace status =>
      page_shows upstream_order (upstream_rows db tenant namespace status)
        (λ u j, from_read_model (upstream_detail u) = Ok j) o l body
  | ListImports o l status upstream =>
      page_shows import_order (selected (id_filter upstream) (import_rows db tenant status))
        (λ r j, j = ImportJobSummaryResponse (import_summary r.1 (ur_name r.2))) o l body
  | ListReviewOperations o l review conflict job =>
      page_shows operation_order (selected (id_filter job) (operation_rows db tenant review conflict))
        (λ r j, j = ReviewOperationSummaryResponse (review_summary r)) o l body
  | ListTools o l f => ∃ rows,
      match id_filter (tf_upstream_id f) with Some u => tool_rows db tenant f u | None => Ok [] end = Ok rows ∧
      page_shows tool_order rows
        (λ (r : tool_row) j, j = ToolSummaryResponse (tool_summary r.1.1.1 r.1.1.2 r.1.2 r.2)) o l body
  | GetTool id => ∃ t, row_of tr_tenant_id tr_id (db_tools db) id = Some t ∧
      body = ToolDetailResponse (tool_detail t)
  | ListToolVersions id o l => ∃ t, row_of tr_tenant_id tr_id (db_tools db) id = Some t ∧
      page_shows (by_int_desc vr_version) (version_rows db tenant (tr_id t))
        (λ v j, j = ToolVersionDetailResponse (version_detail v)) o l body
  | GetToolVersion id => ∃ v, row_of vr_tenant_id vr_id (db_versions db) id = Some v ∧
      body = ToolVersionDetailResponse (version_detail v)
  | GetToolVersionBinding id => ∃ b, row_of br_tenant_id br_tool_version_id (db_bindings db) id = Some b ∧
      ToolBindingDetailResponse (binding_detail b) = Ok body
  | GetToolBinding id => ∃ b, row_of br_tenant_id br_id (db_bindings db) id = Some b ∧
      ToolBindingDetailResponse (binding_detail b) = Ok body
  | ListApprovals o l status principal tool =>
      page_shows approval_order (selected (id_filter tool) (approval_rows db tenant status principal))
        (λ r j, j = ApprovalSummaryResponse (approval_summary r.1 (tr_canonical_name r.2))) o l body
  | ListExecutions o l status principal tool trace =>
      page_shows execution_order (selected (id_filter tool) (execution_rows db tenant status principal trace))
        (λ r j, ExecutionSummaryResponse (execution_summary r.1 (tr_canonical_name r.2)) = Ok j) o l body
  | GetExecution id => ∃ x t, execution_row id = Some (x, t) ∧
      ExecutionSummaryResponse (execution_summary x (tr_canonical_name t)) = Ok body
  | ListExecutionAttempts id o l => ∃ u, is_Some (execution_row id) ∧ optional_uuid id = Some u ∧
      page_shows (by_int atr_attempt_number) (attempt_rows db tenant u)
        (λ a j, j = ExecutionAttemptResponse (attempt_summary a)) o l body
  | ListAuditEvents o l trace principal tool execution outcome =>
      page_shows audit_order
        (selected (id_filter execution) (λ x, selected (id_filter tool) (audit_rows db tenant trace principal outcome x)))
        (λ e j, j = AuditEventResponse (audit_summary e)) o l body
  | GetSearchProjectionStatus =>
      body = SearchProjectionResponse (search_projection_of percent model dimensions db tenant)
  end.

(** The errors: what is asked for is not there, or is not served. *)
Definition read_refuses (r : ReadRequest) (e : nexus_error) : Prop :=
  match r with
  | GetUpstream id =>
      match row_of ur_tenant_id ur_id (db_upstreams db) id with
      | None => e = UpstreamNotFoundError
      | Some u => (ur_service_type u ≠ "http" ∨ ur_transport_type u ≠ "http") ∧ e = FeatureNotEnabledError
      end
  | GetTool id | ListToolVersions id _ _ =>
      row_of tr_tenant_id tr_id (db_tools db) id = None ∧ e = ToolNotFoundError
  | GetToolVersion id => row_of vr_tenant_id vr_id (db_versions db) id = None ∧ e = ToolVersionNotFoundError
  | GetToolVersionBinding id =>
      match row_of br_tenant_id br_tool_version_id (db_bindings db) id with
      | None => e = ToolBindingNotFoundError
      | Some b => br_binding_type b ≠ "http" ∧ e = FeatureNotEnabledError
      end
  | GetToolBinding id =>
      match row_of br_tenant_id br_id (db_bindings db) id with
      | None => e = ToolBindingNotFoundError
      | Some b => br_binding_type b ≠ "http" ∧ e = FeatureNotEnabledError
      end
  | GetExecution id | ListExecutionAttempts id _ _ => execution_row id = None ∧ e = ToolExecutionNotFoundError
  | _ => False
  end.

(** The page offset of a request, and the texts it filters by. *)
Definition request_offset (r : ReadRequest) : Z :=
  match r with
  | ListUpstreams o _ _ _ | ListImports o _ _ _ | ListReviewOperations o _ _ _ _ | ListTools o _ _
  | ListToolVersions _ o _ | ListApprovals o _ _ _ _ | ListExecutions o _ _ _ _ _
  | ListExecutionAttempts _ o _ | ListAuditEvents o _ _ _ _ _ _ => o
  | _ => 0%Z
  end.
Definition request_texts (r : ReadRequest) : list (option string) :=
  match r with
  | ListUpstreams _ _ a b => [a; b]
  | ListImports _ _ a _ => [a]
  | ListReviewOperations _ _ a b _ => [a; b]
  | ListTools _ _ f => [strip <$> tf_query f; tf_namespace f; tf_status f; tf_version_status f;
                        tf_visibility f; tf_side_effect f]
  | ListApprovals _ _ a b _ => [a; b]
  | ListExecutions _ _ a b _ c => [a; b; c]
  | ListAuditEvents _ _ a b _ _ c => [a; b; c]
  | _ => []
  end.

(** What the database refuses: an offset past [bigint], a null character. *)
Definition unbindable (r : ReadRequest) : bool :=
  (2 ^ 63 <=? request_offset r)%Z || existsb (from_option null_character false) (request_texts r).
End Contract.

(** ** Every read is answered as its route declares *)

Section Answers.
Context `{Pydantic, DatabaseText}.

Lemma check_at_nil loc conditions :
  check_at loc conditions = [] ↔ Forall (λ c, c.2 = true) conditions.
Proof.
  induction conditions as [|[c []] l IH]; simpl; rewrite ?Forall_cons; [|naive_solver..].
  by split; [constructor|].
Qed.

Lemma page_query_nil offset limit :
  page_query offset limit = [] ↔ (0 ≤ offset)%Z ∧ (1 ≤ limit ≤ 100)%Z.
Proof.
  unfold page_query, int_query. rewrite app_nil, !check_at_nil, !Forall_cons, !Forall_nil. simpl. lia.
Qed.

Lemma traverse_shows {R A} (view : R → A) (item : A → res json) (shows : R → json → Prop) rows :
  (∀ r, r ∈ rows → ∃ j, item (view r) = Ok j ∧ shows r j) →
  ∃ items, traverse item (map view rows) = Ok items ∧ Forall2 shows rows items.
Proof.
  induction rows as [|r rows IH]; intros Hi; [by exists []|]. simpl.
  destruct (Hi r) as (j & -> & Hj); [by left|].
  destruct IH as (items & -> & Hitems); [intros; apply Hi; by right|]. simpl. eauto.
Qed.

(** A page is shown, or its offset is past [bigint]. *)
Lemma page_answer {R A} leb (view : R → A) (item : A → res json) (shows : R → json → Prop) rows offset limit :
  (0 ≤ offset)%Z → (1 ≤ limit ≤ 100)%Z →
  (∀ r, r ∈ rows → ∃ j, item (view r) = Ok j ∧ shows r j) →
  (∃ body, (let? p := page_of leb view rows offset limit in page_response item p) = Ok body ∧
     page_shows leb rows shows offset limit body) ∨
  (2 ^ 63 <= offset)%Z ∧ (let? p := page_of leb view rows offset limit in page_response item p) = Raise OtherException.
Proof.
  intros Ho Hl Hi. destruct (Z.lt_ge_cases offset (2 ^ 63)) as [Hlt|Hge].
  - left. rewrite page_of_Ok by (unfold bigint_end; lia). cbn [rbind]. unfold page_response. cbn [pg_items].
    destruct (traverse_shows view item shows (take (Z.to_nat limit) (drop (Z.to_nat offset) (sorted_by leb rows))))
      as (items & -> & Hitems).
    { intros r Hr%elem_of_take_in. apply Hi. apply (elem_of_sorted_by leb).
      rewrite <-(take_drop (Z.to_nat offset) (sorted_by leb rows)). apply elem_of_app. by right. }
    eexists. split; [reflexivity|]. by exists items.
  - right. split; [done|]. unfold page_of, paged_rows. rewrite cut_refused; [done|]. unfold bigint_end. lia.
Qed.

Lemma empty_page_answer {R A} leb (item : A → res json) (shows : R → json → Prop) offset limit :
  ∃ body, (let? p := empty_page offset limit in page_response item p) = Ok body ∧
    page_shows leb [] shows offset limit body.
Proof.
  eexists. split; [reflexivity|]. exists []. split; [|done].
  simpl. rewrite drop_nil, take_nil. constructor.
Qed.

Lemma get_row_of {R A} (tenant_of id_of : R → UUID) rows (view : R → A) tenant_id tenant id :
  uuid_parse tenant_id = Ok tenant →
  get_row tenant_of id_of rows view tenant_id id = Ok (view <$> row_of tenant tenant_of id_of rows id).
Proof. intros Ht. unfold get_row, row_of. rewrite Ht. simpl. by destruct (optional_uuid id). Qed.

Lemma row_of_id {R} tenant (tenant_of id_of : R → UUID) rows id r :
  row_of tenant tenant_of id_of rows id = Some r → r ∈ rows ∧ optional_uuid id = Some (id_of r).
Proof.
  unfold row_of. destruct (optional_uuid id) as [u|]; [|done]. intros [Hr E]%find_Some_iff.
  apply andb_true_iff in E as [_ E%bool_decide_eq_true]. by rewrite E.
Qed.

Lemma ilike_literal_Ok column text : ∃ b, ilike column ("%" +:+ escape_like text +:+ "%") = Ok b.
Proof.
  unfold ilike. rewrite !fold_case_app, fold_escape.
  replace (fold_case "%") with "%".
  2: { simpl. rewrite fold_pattern; [done|]. right. apply list_elem_of_here. }
  change (like_pattern ("%" +:+ (escape_like (fold_case text) +:+ "%")))
    with (cons LikeAnyString <$> like_pattern (escape_like (fold_case text) +:+ "%")).
  rewrite (like_pattern_escape _ "%" [LikeAnyString]) by done. by eexists.
Qed.

Lemma matches_query_Ok query t v : ∃ b, matches_query query t v = Ok b.
Proof.
  unfold matches_query. destruct query as [text|]; [|by eexists].
  destruct (str_empty (strip text)); [by eexists|].
  destruct (ilike_literal_Ok (tr_canonical_name t) (strip text)) as [a ->].
  destruct (ilike_literal_Ok (vr_display_name v) (strip text)) as [b ->].
  destruct (ilike_literal_Ok (vr_description v) (strip text)) as [c ->]. by eexists.
Qed.

Lemma filter_res_Ok {A} (P : A → res bool) l :
  (∀ a, ∃ b, P a = Ok b) → ∃ l', filter_res P l = Ok l'.
Proof.
  intros HP. induction l as [|a l [l' IH]]; [by eexists|]. simpl.
  destruct (HP a) as [b ->]. simpl. rewrite IH. by eexists.
Qed.

Lemma tool_rows_Ok db tenant f upstream : ∃ rows, tool_rows db tenant f upstream = Ok rows.
Proof.
  unfold tool_rows.
  destruct (filter_res_Ok (λ r : tool_row, matches_query (tf_query f) r.1.1.1 r.1.1.2)
              (tool_join db tenant)) as [rows ->]; [intros; apply matches_query_Ok|]. by eexists.
Qed.

Lemma literal_mem values value : value ∈ values → literal values value = Ok (JStr value).
Proof. intros. unfold literal. by rewrite bool_decide_true. Qed.

Lemma remote_mcp_iff service transport :
  remote_mcp service transport = true ↔ service ≠ "http" ∨ transport ≠ "http".
Proof. unfold remote_mcp. by rewrite orb_true_iff, !negb_true_iff, !bool_decide_eq_false. Qed.

Lemma remote_mcp_false service transport :
  remote_mcp service transport = false → service = "http" ∧ transport = "http".
Proof.
  unfold remote_mcp. rewrite orb_false_iff, !negb_false_iff, !bool_decide_eq_true. done.
Qed.

Lemma from_read_model_Ok db tenant namespace status u :
  Forall (λ u, upstream_check u = true) (db_upstreams db) →
  u ∈ upstream_rows db tenant namespace status →
  ∃ j, from_read_model (upstream_detail u) = Ok j.
Proof.
  intros Hck [Hu Hin]%list_elem_of_filter. rewrite Forall_forall in Hck.
  specialize (Hck u Hin). unfold upstream_check in Hck. apply andb_true_iff in Hck as [_ Hst].
  apply enum_check_iff in Hst as [s Hs].
  rewrite !andb_true_iff in Hu. destruct Hu as [[Hhttp _] _].
  unfold http_upstream in Hhttp. rewrite !andb_true_iff, !bool_decide_eq_true in Hhttp.
  unfold from_read_model, remote_mcp. simpl.
  rewrite !bool_decide_true by tauto. simpl. rewrite Hs. by eexists.
Qed.

Lemma scope_literal x : execution_check x = true → xm_mcp_scope_type x ∈ ["root"; "toolset"].
Proof.
  unfold execution_check. rewrite !andb_true_iff, orb_true_iff, !andb_true_iff, !bool_decide_eq_true.
  set_solver.
Qed.

Lemma ExecutionSummaryResponse_Ok x name :
  execution_check x = true → ∃ j, ExecutionSummaryResponse (execution_summary x name) = Ok j.
Proof.
  intros Hx. unfold ExecutionSummaryResponse. rewrite literal_mem by (by apply scope_literal).
  by eexists.
Qed.

Lemma execution_join_in db P r :
  r ∈ execution_join db P → r.1 ∈ db_executions db.
Proof.
  unfold execution_join. rewrite list_elem_of_bind. intros (x & Hr & [_ Hx]%list_elem_of_filter).
  apply list_elem_of_bind in Hr as (t & Hr & _). by apply list_elem_of_singleton in Hr as ->.
Qed.
End Answers.

Section Declared.
Context `{Pydantic, DatabaseText} (percent : Z → Z → Q) (model : string) (dimensions : Z).
Context (db : Database) (tenant_id : string) (tenant : UUID).
Context (tenant_ok : uuid_parse tenant_id = Ok tenant).
Context (upstreams_ok : Forall (λ u, upstream_check u = true) (db_upstreams db)).
Context (executions_ok : Forall (λ x, execution_check x = true) (db_executions db)).

Abbreviation queries := (sql_queries percent model dimensions db).
Abbreviation shows := (read_shows percent model dimensions db tenant_id tenant).
Abbreviation refuses := (read_refuses db tenant).

(** What a route may do with a valid request. *)
Definition answers (r : ReadRequest) (o : res json) : Prop :=
  (∃ body, o = Ok body ∧ shows r body) ∨
  (∃ e, o = Raise (Nexus e) ∧ refuses r e ∧ http_status_for e ∈ read_problems r) ∨
  unbindable r = true ∧ o = Raise OtherException.

Lemma answers_shown r body : shows r body → answers r (Ok body).
Proof. left. eauto. Qed.
Lemma answers_refused r e : refuses r e → http_status_for e ∈ read_problems r → answers r (Raise (Nexus e)).
Proof. right. left. eauto. Qed.
Lemma answers_unbindable r : unbindable r = true → answers r (Raise OtherException).
Proof. right. by right. Qed.

(** A page of a listing. *)
Lemma answers_page {R A} r texts leb (view : R → A) (item : A → res json) (shown : R → json → Prop) rows offset limit :
  request_texts r = texts → request_offset r = offset → (0 ≤ offset)%Z → (1 ≤ limit ≤ 100)%Z →
  (∀ row, row ∈ rows → ∃ j, item (view row) = Ok j ∧ shown row j) →
  (∀ body, page_shows leb rows shown offset limit body → shows r body) →
  answers r (let? p := with_texts texts (page_of leb view rows offset limit) in page_response item p).
Proof.
  intros <- <- Ho Hl Hi Hshow. unfold with_texts.
  destruct (existsb _ (request_texts r)) eqn:Et; cbn [raise_if rbind].
  { apply answers_unbindable. unfold unbindable. by rewrite Et, orb_true_r. }
  destruct (page_answer leb view item shown rows _ limit Ho Hl Hi) as [(body & -> & Hbody)|[Hbig ->]].
  - by apply answers_shown, Hshow.
  - apply answers_unbindable. unfold unbindable. by rewrite (proj2 (Z.leb_le _ _) Hbig).
Qed.

Lemma answers_page_pure {R A} r texts leb (view : R → A) (item : A → json) rows offset limit :
  request_texts r = texts → request_offset r = offset → (0 ≤ offset)%Z → (1 ≤ limit ≤ 100)%Z →
  (∀ body, page_shows leb rows (λ row j, j = item (view row)) offset limit body → shows r body) →
  answers r (let? p := with_texts texts (page_of leb view rows offset limit) in
             page_response (λ a, Ok (item a)) p).
Proof.
  intros Ht Hr Ho Hl Hs.
  by eapply (answers_page r texts leb view _ (λ row j, j = item (view row))); eauto.
Qed.

Lemma answers_empty {R A} r leb (item : A → res json) (shown : R → json → Prop) offset limit :
  (∀ body, page_shows leb [] shown offset limit body → shows r body) →
  answers r (let? p := empty_page offset limit in page_response item p).
Proof.
  intros Hs. destruct (empty_page_answer leb item shown offset limit) as (body & -> & Hb).
  by apply answers_shown, Hs.
Qed.

Lemma with_no_texts {A} (statement : res A) : with_texts [] statement = statement.
Proof. done. Qed.

(** ** The lookups *)

Lemma upstream_answers id : answers (GetUpstream id) (get_upstream_route queries tenant_id id).
Proof.
  unfold get_upstream_route. simpl. unfold get_upstream. rewrite (get_row_of _ _ _ _ _ tenant) by done.
  cbn [rbind]. destruct (row_of tenant ur_tenant_id ur_id (db_upstreams db) id) as [u|] eqn:E; simpl.
  - destruct (remote_mcp (ur_service_type u) (ur_transport_type u)) eqn:Er; simpl.
    + apply answers_refused; simpl; [|set_solver]. rewrite E. by apply remote_mcp_iff in Er.
    + apply remote_mcp_false in Er as [Hs Ht]. unfold UpstreamDetailResponse. simpl.
      rewrite !literal_mem by (rewrite ?Hs, ?Ht; set_solver). apply answers_shown. exists u. split; [done|].
      unfold UpstreamDetailResponse. simpl. by rewrite !literal_mem by (rewrite ?Hs, ?Ht; set_solver).
  - apply answers_refused; simpl; [by rewrite E|set_solver].
Qed.

Lemma tool_answers id : answers (GetTool id) (get_tool_route queries tenant_id id).
Proof.
  unfold get_tool_route. simpl. unfold get_tool. rewrite (get_row_of _ _ _ _ _ tenant) by done. cbn [rbind].
  destruct (row_of tenant tr_tenant_id tr_id (db_tools db) id) as [t|] eqn:E; simpl.
  - apply answers_shown. simpl. eauto.
  - apply answers_refused; simpl; [done|set_solver].
Qed.

Lemma tool_version_answers id : answers (GetToolVersion id) (get_tool_version_route queries tenant_id id).
Proof.
  unfold get_tool_version_route. simpl. unfold get_tool_version. rewrite (get_row_of _ _ _ _ _ tenant) by done.
  cbn [rbind]. destruct (row_of tenant vr_tenant_id vr_id (db_versions db) id) as [v|] eqn:E; simpl.
  - apply answers_shown. simpl. eauto.
  - apply answers_refused; simpl; [done|set_solver].
Qed.

(** The common end of the two binding routes. *)
Lemma binding_answers r (o : option ToolBindingModel) :
  read_problems r = [404; 501]%Z →
  (∀ b body, o = Some b → ToolBindingDetailResponse (binding_detail b) = Ok body → shows r body) →
  (o = None → refuses r ToolBindingNotFoundError) →
  (∀ b, o = Some b → br_binding_type b ≠ "http" → refuses r FeatureNotEnabledError) →
  answers r (binding_answer (binding_detail <$> o)).
Proof.
  intros Hp Hs Hn Hr. destruct o as [b|]; simpl.
  - destruct (bool_decide (br_binding_type b = "http")) eqn:E; simpl.
    + apply bool_decide_eq_true in E.
      assert (∃ body, ToolBindingDetailResponse (binding_detail b) = Ok body) as [body Hb].
      { unfold ToolBindingDetailResponse. rewrite literal_mem by (simpl; rewrite E; set_solver). by eexists. }
      rewrite Hb. apply answers_shown. eauto.
    + apply bool_decide_eq_false in E. apply answers_refused; [eauto|]. rewrite Hp. set_solver.
  - apply answers_refused; [eauto|]. rewrite Hp. set_solver.
Qed.

Lemma tool_version_binding_answers id :
  answers (GetToolVersionBinding id) (get_tool_version_binding_route queries tenant_id id).
Proof.
  unfold get_tool_version_binding_route. simpl. unfold get_tool_version_binding.
  rewrite (get_row_of _ _ _ _ _ tenant) by done. cbn [rbind]. apply binding_answers; [done|..]; simpl.
  - eauto.
  - by intros ->.
  - by intros b ->.
Qed.

Lemma tool_binding_answers id : answers (GetToolBinding id) (get_tool_binding_route queries tenant_id id).
Proof.
  unfold get_tool_binding_route. simpl. unfold get_tool_binding.
  rewrite (get_row_of _ _ _ _ _ tenant) by done. cbn [rbind]. apply binding_answers; [done|..]; simpl.
  - eauto.
  - by intros ->.
  - by intros b ->.
Qed.

Lemma get_execution_row id :
  get_execution db tenant_id id =
  Ok ((λ r, execution_summary r.1 (tr_canonical_name r.2)) <$> execution_row db tenant id).
Proof. unfold get_execution, execution_row. rewrite tenant_ok. simpl. by destruct (optional_uuid id). Qed.

Lemma execution_row_shown id x t :
  execution_row db tenant id = Some (x, t) →
  ∃ j, ExecutionSummaryResponse (execution_summary x (tr_canonical_name t)) = Ok j.
Proof.
  unfold execution_row. destruct (optional_uuid id); [|done]. intros Hh.
  apply head_Some_elem_of, execution_join_in in Hh. apply ExecutionSummaryResponse_Ok.
  rewrite Forall_forall in executions_ok. by apply executions_ok.
Qed.

Lemma execution_answers id : answers (GetExecution id) (get_execution_route queries tenant_id id).
Proof.
  unfold get_execution_route. simpl. rewrite get_execution_row. cbn [rbind].
  destruct (execution_row db tenant id) as [[x t]|] eqn:E; simpl.
  - destruct (execution_row_shown _ _ _ E) as [j Hj]. rewrite Hj. apply answers_shown. simpl. eauto.
  - apply answers_refused; simpl; [done|set_solver].
Qed.

(** ** The listings *)

Lemma upstreams_answer o l namespace status :
  (0 ≤ o)%Z → (1 ≤ l ≤ 100)%Z →
  answers (ListUpstreams o l namespace status) (list_upstreams_route queries tenant_id o l namespace status).
Proof.
  intros Ho Hl. unfold list_upstreams_route. simpl. unfold list_upstreams. rewrite tenant_ok. cbn [rbind].
  eapply (answers_page _ _ _ _ _ (λ u j, from_read_model (upstream_detail u) = Ok j)); try done.
  intros u Hu. destruct (from_read_model_Ok _ _ _ _ u upstreams_ok Hu) as [j Hj]. eauto.
Qed.

Lemma executions_answer o l status principal tool trace :
  (0 ≤ o)%Z → (1 ≤ l ≤ 100)%Z →
  answers (ListExecutions o l status principal tool trace)
    (list_executions_route queries tenant_id o l status principal tool trace).
Proof.
  intros Ho Hl. unfold list_executions_route. simpl. unfold list_executions. rewrite tenant_ok. cbn [rbind].
  set (shown := λ (r : ToolExecutionModel * ToolModel) j,
    ExecutionSummaryResponse (execution_summary r.1 (tr_canonical_name r.2)) = Ok j).
  destruct (id_filter tool) as [u|] eqn:E.
  - eapply (answers_page _ _ _ _ _ shown); try done; [|simpl; by rewrite E].
    intros r Hr. apply execution_join_in in Hr. rewrite Forall_forall in executions_ok.
    destruct (ExecutionSummaryResponse_Ok r.1 (tr_canonical_name r.2) (executions_ok _ Hr)) as [j Hj]. eauto.
  - apply (answers_empty _ execution_order _ shown). simpl. by rewrite E.
Qed.

Lemma tools_answer o l f :
  (0 ≤ o)%Z → (1 ≤ l ≤ 100)%Z → answers (ListTools o l f) (list_tools_route queries tenant_id o l f).
Proof.
  intros Ho Hl. unfold list_tools_route. simpl. unfold list_tools. rewrite tenant_ok. cbn [rbind].
  destruct (id_filter (tf_upstream_id f)) as [u|] eqn:E.
  - destruct (tool_rows_Ok db tenant f u) as [rows Hrows]. rewrite Hrows. cbn [rbind].
    eapply (answers_page_pure _ _ tool_order); try done. intros body Hb. simpl. rewrite E. eauto.
  - apply (answers_empty _ tool_order _ (λ (r : tool_row) j,
      j = ToolSummaryResponse (tool_summary r.1.1.1 r.1.1.2 r.1.2 r.2))). simpl. rewrite E. eauto.
Qed.

Lemma tool_versions_answer id o l :
  (0 ≤ o)%Z → (1 ≤ l ≤ 100)%Z →
  answers (ListToolVersions id o l) (list_tool_versions_route queries tenant_id id o l).
Proof.
  intros Ho Hl. unfold list_tool_versions_route. simpl. unfold get_tool at 1.
  rewrite (get_row_of _ _ _ _ _ tenant) by done. cbn [rbind].
  destruct (row_of tenant tr_tenant_id tr_id (db_tools db) id) as [t|] eqn:E; simpl.
  - unfold list_tool_versions. rewrite tenant_ok. cbn [rbind].
    destruct (row_of_id _ _ _ _ _ _ E) as [_ ->]. rewrite <-(with_no_texts (page_of _ _ _ _ _)).
    eapply (answers_page_pure _ _ (by_int_desc vr_version)); try done. intros body Hb. simpl. eauto.
  - apply answers_refused; simpl; [done|set_solver].
Qed.

Lemma attempts_answer id o l :
  (0 ≤ o)%Z → (1 ≤ l ≤ 100)%Z →
  answers (ListExecutionAttempts id o l) (list_execution_attempts_route queries tenant_id id o l).
Proof.
  intros Ho Hl. unfold list_execution_attempts_route. simpl. rewrite get_execution_row. cbn [rbind].
  destruct (execution_row db tenant id) as [[x t]|] eqn:E; simpl.
  - unfold list_execution_attempts. rewrite tenant_ok. cbn [rbind].
    assert (∃ u, optional_uuid id = Some u) as [u Hu].
    { unfold execution_row in E. destruct (optional_uuid id); [eauto|done]. }
    rewrite Hu. rewrite <-(with_no_texts (page_of _ _ _ _ _)).
    eapply (answers_page_pure _ _ (by_int atr_attempt_number)); try done. intros body Hb. simpl. rewrite E. eauto.
  - apply answers_refused; simpl; [done|set_solver].
Qed.

(** ** Any request *)

Definition is_lookup (r : ReadRequest) : bool :=
  match r with
  | GetDashboard | GetUpstream _ | GetTool _ | GetToolVersion _ | GetToolVersionBinding _
  | GetToolBinding _ | GetExecution _ | GetSearchProjectionStatus => true
  | _ => false
  end.

Lemma lookups_answered r : is_lookup r = true → answers r (read_route queries tenant_id r).
Proof.
  destruct r; try done; intros _; simpl.
  - unfold get_dashboard. simpl. destruct (dashboard percent model dimensions db tenant_id) as [d|] eqn:E.
    + apply answers_shown. simpl. eauto.
    + unfold dashboard in E. by rewrite tenant_ok in E.
  - apply upstream_answers.
  - apply tool_answers.
  - apply tool_version_answers.
  - apply tool_version_binding_answers.
  - apply tool_binding_answers.
  - apply execution_answers.
  - unfold get_search_projection_status. simpl. unfold search_projection_status. rewrite tenant_ok.
    by apply answers_shown.
Qed.

Lemma listings_answered r :
  is_lookup r = false → read_validation r = [] → answers r (read_route queries tenant_id r).
Proof.
  destruct r; try done; intros _ Hv; simpl in Hv |- *;
    repeat match goal with E : _ ++ _ = [] |- _ => apply app_nil in E as [? ?] end;
    match goal with E : page_query _ _ = [] |- _ => apply page_query_nil in E as [Ho Hl] end.
  - by apply upstreams_answer.
  - unfold list_imports_route. simpl. unfold list_imports. rewrite tenant_ok. cbn [rbind].
    destruct (id_filter _) as [u|] eqn:E.
    + eapply (answers_page_pure _ _ import_order); try done. simpl. by rewrite E.
    + apply (answers_empty _ import_order _ (λ r j, j = ImportJobSummaryResponse (import_summary r.1 (ur_name r.2)))).
      simpl. by rewrite E.
  - unfold list_review_operations_route. simpl. unfold list_review_operations. rewrite tenant_ok. cbn [rbind].
    destruct (id_filter _) as [u|] eqn:E.
    + eapply (answers_page_pure _ _ operation_order); try done. simpl. by rewrite E.
    + apply (answers_empty _ operation_order _ (λ r j, j = ReviewOperationSummaryResponse (review_summary r))).
      simpl. by rewrite E.
  - by apply tools_answer.
  - by apply tool_versions_answer.
  - unfold list_approvals_route. simpl. unfold list_approvals. rewrite tenant_ok. cbn [rbind].
    destruct (id_filter _) as [u|] eqn:E.
    + eapply (answers_page_pure _ _ approval_order); try done. simpl. by rewrite E.
    + apply (answers_empty _ approval_order _
        (λ r j, j = ApprovalSummaryResponse (approval_summary r.1 (tr_canonical_name r.2)))).
      simpl. by rewrite E.
  - by apply executions_answer.
  - by apply attempts_answer.
  - unfold list_audit_events_route. simpl. unfold list_audit_events. rewrite tenant_ok. cbn [rbind].
    set (shown := λ e j, j = AuditEventResponse (audit_summary e)).
    destruct (id_filter execution_id) as [x|] eqn:Ex;
      [destruct (id_filter tool_id) as [t|] eqn:Et|].
    + eapply (answers_page_pure _ _ audit_order); try done. simpl. by rewrite Ex, Et.
    + apply (answers_empty _ audit_order _ shown). simpl. by rewrite Ex, Et.
    + apply (answers_empty _ audit_order _ shown). simpl. by rewrite Ex.
Qed.

(** C40: reads are answered as the contract declares.  Over a database that meets
    its check constraints, with a tenant identifier that is a UUID: a request
    that breaks a condition on its parameters gets the 422 problem of the broken
    conditions; any other the JSON of its route - the row it names, or the page
    of the rows its filters select, in order and with their number, as
    [read_shows] says - or the problem of an error that [read_refuses] allows
    and whose status the route declares.  The only reads that fail are those
    the database cannot take: an offset of [2 ^ 63] or more, or a filter text
    with a null character. *)
Theorem reads_answered_as_declared request_id r :
  match handle_read queries tenant_id request_id r with
  | Ok response =>
      match read_validation r with
      | [] =>
          (∃ body, shows r body ∧ response = mkResponse 200 APPLICATION_JSON body) ∨
          ∃ e, refuses r e ∧ nexusmcp_error_handler request_id (Nexus e) = Ok response ∧
            hr_status response = http_status_for e ∧
            hr_status response ∈ documented_statuses (read_problems r) ∧
            hr_media_type response = PROBLEM_JSON
      | items =>
          response = request_validation_error_handler request_id items ∧
          hr_status response = 422%Z ∧ hr_media_type response = PROBLEM_JSON
      end
  | Raise x => x = OtherException ∧ read_validation r = [] ∧ unbindable r = true
  end.
Proof.
  unfold handle_read. destruct (read_validation r) as [|i l] eqn:Hv; [|done].
  assert (answers r (read_route queries tenant_id r)) as [(body & -> & Hb)|[(e & -> & Hr & He)|[Hu ->]]].
  { destruct (is_lookup r) eqn:Hr; [by apply lookups_answered|by apply listings_answered]. }
  - left. eauto.
  - cbn [rbind handle_exceptions]. destruct (nexusmcp_error_handler request_id (Nexus e)) as [response|x] eqn:E.
    + right. exists e. unfold nexusmcp_error_handler in E. simplify_eq. split_and!; try done.
      apply documented_iff. by right.
    + unfold nexusmcp_error_handler in E. done.
  - done.
Qed.
End Declared.

Module ReadExamples.
Import ControlPlaneExamples.
#[local] Existing Instance c_text.
#[local] Instance pydantic : Pydantic := {
  dump_datetime t := JInt (dt_micros t);
  dump_float q := JInt (Qnum q / Z.pos (Qden q));
  condition_message c := condition_type c }.

Abbreviation port := (sql_queries percent "model" 8 db).

Example malformed_id_is_not_found :
  (λ r, hr_status r) <$> match handle_read port acme_id None (GetTool "not-a-uuid") with
                         | Ok r => Some r | Raise _ => None end = Some 404%Z.
Proof. vm_compute. reflexivity. Qed.

Example limit_is_bounded :
  map vi_type (read_validation (ListUpstreams 0 101 (Some "") (Some "gone")))
  = [Some "less_than_equal"; Some "string_too_short"; Some "enum"].
Proof. vm_compute. reflexivity. Qed.

(** An offset that no statement can take, and a text that none can. *)
Example unbindable_reads :
  handle_read port acme_id None (ListUpstreams (2 ^ 63) 50 None None) = Raise OtherException ∧
  handle_read port acme_id None (ListApprovals 0 50 None (Some (String (ascii_of_N 0) "")) None)
    = Raise OtherException ∧
  read_validation (ListUpstreams (2 ^ 63) 50 None None) = [].
Proof. split_and!; vm_compute; reflexivity. Qed.

Lemma reads_answered_as_declared_witness :
  uuid_parse acme_id = Ok acme ∧
  ∃ response, handle_read port acme_id (Some "r") (ListUpstreams 0 50 None None) = Ok response
    ∧ hr_status response = 200%Z
    ∧ ∃ body, read_shows percent "model" 8 db acme_id acme (ListUpstreams 0 50 None None) body
        ∧ hr_body response = body.
Proof.
  split; [reflexivity|].
  pose proof (reads_answered_as_declared percent "model" 8 db acme_id acme
              ltac:(reflexivity)
              ltac:(apply (bool_decide_unpack _); vm_compute; exact I)
              ltac:(apply (bool_decide_unpack _); vm_compute; exact I)
              (Some "r") (ListUpstreams 0 50 None None)) as H.
  destruct (handle_read port acme_id (Some "r") (ListUpstreams 0 50 None None)) as [response|x] eqn:E.
  - exists response. split; [reflexivity|].
    assert (V : read_validation (ListUpstreams 0 50 None None) = []) by (vm_compute; reflexivity).
    rewrite V in H. destruct H as [(body & Hb & ->)|(e & Hr & _)]; [|destruct Hr].
    split; [reflexivity|]. exists body. split; [exact Hb|reflexivity].
  - vm_compute in E. discriminate E.
Defined.
End ReadExamples.
