(* ===== verification/Raises.v ===== *)
(** * Which of the program's errors a computation can raise

    [raises P m]: whatever the state, an error of the [NexusMcpError] hierarchy
    that [m] raises satisfies [P].  Other exceptions are not judged: callers map
    them or pass them to the server.  The rules follow the shape of the code, so
    the errors of a use case are found by the hints of the database [raises]. *)

From stdpp Require Import base strings option list.
From S2P Require Import Prelude Text Dict Errors Store.
Open Scope py_scope.

Create HintDb raises.

Section Raises.
Context {S : Type}.
Implicit Types (P Q : nexus_error → Prop).

Definition raises {A} P (m : SE exn S A) : Prop :=
  ∀ s n s', m s = (Raise (Nexus n), s') → P n.

(** The same of a pure call. *)
Definition raises_pure {A} P (r : res A) : Prop := ∀ n, r = Raise (Nexus n) → P n.

Lemma raises_weaken {A} P Q (m : SE exn S A) : (∀ n, P n → Q n) → raises P m → raises Q m.
Proof. intros HPQ Hm s n s' H. by eapply HPQ, Hm. Qed.

Lemma raises_ret {A} P (a : A) : raises P (ret a).
Proof. by intros s n s'. Qed.
Lemma raises_raise {A} P n : P n → raises (A := A) P (raise (Nexus n)).
Proof. intros Hn s m s' [= <- _]. done. Qed.
Lemma raises_other {A} P x : (∀ n, x ≠ Nexus n) → raises (A := A) P (raise x).
Proof. intros Hx s m s' [= -> _]. by destruct (Hx m). Qed.
Lemma raises_lift {A} P (r : res A) : raises_pure P r → raises P (lift r).
Proof. intros Hr s n s' [= -> _]. by apply Hr. Qed.
Lemma raises_bind {A B} P (m : SE exn S A) (k : A → SE exn S B) :
  raises P m → (∀ a, raises P (k a)) → raises P (bind m k).
Proof.
  intros Hm Hk s n s'. unfold bind. destruct (m s) as [[a|x] s1] eqn:E.
  - apply Hk.
  - intros [= -> _]. by eapply Hm.
Qed.
(** A handler sees the exceptions of its body. *)
Lemma raises_try {A} P Q (m : SE exn S A) (h : exn → SE exn S A) :
  raises Q m → (∀ x, (∀ n, x = Nexus n → Q n) → raises P (h x)) → raises P (try_except m h).
Proof.
  intros Hm Hh s n s'. unfold try_except. destruct (m s) as [[a|x] s1] eqn:E; [done|].
  apply Hh. intros k ->. by eapply Hm.
Qed.
Lemma raises_capture {A} P (m : SE exn S A) : raises P (capture m).
Proof. intros s n s'. unfold capture. by destruct (m s). Qed.
End Raises.

Section Pure.
Implicit Types (P : nexus_error → Prop).

Lemma pure_ok {A} P (a : A) : raises_pure P (Ok a).
Proof. by intros n. Qed.
Lemma pure_raise {A} P n : P n → raises_pure (A := A) P (Raise (Nexus n)).
Proof. by intros Hn m [= <-]. Qed.
Lemma pure_value_error {A} P msg : raises_pure (A := A) P (Raise (ValueError msg)).
Proof. by intros n. Qed.
Lemma pure_other {A} P x : (∀ n, x ≠ Nexus n) → raises_pure (A := A) P (Raise x).
Proof. intros Hx n [= ->]. by destruct (Hx n). Qed.
Lemma pure_rbind {A B} P (m : res A) (k : A → res B) :
  raises_pure P m → (∀ a, raises_pure P (k a)) → raises_pure P (rbind m k).
Proof. intros Hm Hk n. destruct m as [a|x]; simpl; [apply Hk|]. intros [= ->]. by apply Hm. Qed.
Lemma pure_raise_if P c n : P n → raises_pure P (raise_if c (Nexus n)).
Proof. intros Hn m. destruct c; [|done]. by intros [= <-]. Qed.
Lemma pure_raise_other P c x : (∀ n, x ≠ Nexus n) → raises_pure P (raise_if c x).
Proof. intros Hx m. destruct c; [|done]. intros [= ->]. by destruct (Hx m). Qed.
Lemma pure_traverse {A B} P (f : A → res B) l :
  (∀ a, raises_pure P (f a)) → raises_pure P (traverse f l).
Proof.
  intros Hf. induction l as [|a l IH]; [apply pure_ok|]. simpl.
  apply pure_rbind; [apply Hf|]. intros b. apply pure_rbind; [exact IH|]. intros bs. apply pure_ok.
Qed.
End Pure.

Section Stores.
Context {D : Type} `{Ports}.
Implicit Types (P : nexus_error → Prop).

Lemma raises_now P : raises P (now (D := D)).
Proof. by intros s n s'. Qed.
Lemma raises_new_id P : raises P (new_id (D := D)).
Proof. by intros s n s'. Qed.
Lemma raises_emit P ev : raises P (emit (D := D) ev).
Proof. by intros s n s'. Qed.
Lemma raises_commit P : raises P (commit (D := D)).
Proof. intros s n s'. unfold commit. by destruct (working s). Qed.
Lemma raises_rollback P : raises P (rollback (D := D)).
Proof. intros s n s'. unfold rollback. by destruct (working s). Qed.
Lemma raises_read P {V} `{!Table D V} : raises P (read_table (V := V)).
Proof. intros s n s'. unfold read_table. by destruct (working s). Qed.
Lemma raises_write P {V} `{!Table D V} t : raises P (write_table (V := V) t).
Proof. intros s n s'. unfold write_table. by destruct (working s). Qed.
Lemma raises_with_uow {A} P (m : M D A) : raises P m → raises P (with_uow m).
Proof.
  intros Hm s n s'. unfold with_uow. destruct (m _) as [r s1] eqn:E.
  intros [= -> _]. by eapply Hm.
Qed.
End Stores.

#[export] Hint Resolve raises_ret raises_capture raises_now raises_new_id raises_emit raises_commit
  raises_rollback raises_read raises_write pure_ok pure_value_error : raises.

(** Follow the code: sequencing, branches, calls whose lemma is a hint. *)
Ltac raises_step :=
  match goal with
  | |- raises _ (with_uow _) => apply raises_with_uow
  | |- raises _ (raise (Nexus _)) => apply raises_raise
  | |- raises _ (raise _) => apply raises_other; congruence
  | |- raises_pure _ (raise_if _ (Nexus _)) => apply pure_raise_if
  | |- raises_pure _ (raise_if _ _) => apply pure_raise_other; congruence
  | |- raises_pure _ (Raise (Nexus _)) => apply pure_raise
  | |- raises_pure _ (Raise _) => apply pure_other; congruence
  | |- raises _ _ => solve [eauto with raises]
  | |- raises_pure _ _ => solve [eauto with raises]
  | |- raises _ (bind _ _) => apply raises_bind; [|intros ?]
  | |- raises _ (lift _) => apply raises_lift
  | |- raises_pure _ (rbind _ _) => apply pure_rbind; [|intros ?]
  | |- raises_pure _ (traverse _ _) => apply pure_traverse; intros ?
  | |- raises _ (match ?x with _ => _ end) => destruct x
  | |- raises_pure _ (match ?x with _ => _ end) => destruct x
  end.
Ltac raises_auto := repeat (simpl; raises_step).

(** The continuation may rely on what the value satisfies. *)
Definition yields {S A} (V : A → Prop) (m : SE exn S A) : Prop := ∀ s a s', m s = (Ok a, s') → V a.

Lemma raises_bind_yields {S A B} (P : nexus_error → Prop) V (m : SE exn S A) (k : A → SE exn S B) :
  raises P m → yields V m → (∀ a, V a → raises P (k a)) → raises P (bind m k).
Proof.
  intros Hm HV Hk s n s'. unfold bind. destruct (m s) as [[a|x] s1] eqn:E.
  - apply Hk. by eapply HV.
  - intros [= -> _]. by eapply Hm.
Qed.

Lemma yields_lift {S A} (V : A → Prop) (r : res A) : (∀ a, r = Ok a → V a) → yields (S := S) V (lift r).
Proof. intros Hr s a s' [= -> _]. by apply Hr. Qed.
