(* ===== verification/UseCaseErrors.v ===== *)
(** * Which errors the use cases of the administration raise

    For the use cases behind the routes that keep to their declared statuses:
    the errors of the [NexusMcpError] hierarchy each can raise, found by the
    rules of Raises.v along its code.  Domain constructors and mutations raise
    value errors only, which the use cases map or pass on. *)

From Stdlib Require Import ZArith.
From stdpp Require Import base sets strings option list.
From S2P Require Import Prelude Text Dict Errors Json Store AuditTrail Catalog Approval OpenApi Registry Publish.
From S2P Require Import Toolsets ToolsetAdmin OpenApiImport ToolSearch SearchIndex Raises.
Open Scope py_scope.

(** ** Which errors the use cases raise *)

Section DomainErrors.
Implicit Types (P : nexus_error → Prop).

Lemma require_non_blank_raises P fields : raises_pure P (require_non_blank fields).
Proof. induction fields as [|[n v] l IH]; simpl; [apply pure_ok|]. by destruct (blank v). Qed.
Lemma dt_le_raises P a b : raises_pure P (dt_le a b).
Proof. unfold dt_le, opt_type_error. by destruct (dt_leb a b). Qed.
Lemma dt_lt_raises P a b : raises_pure P (dt_lt a b).
Proof. unfold dt_lt, opt_type_error. by destruct (dt_ltb a b). Qed.
Lemma canonical_json_digest_raises P j : raises_pure P (canonical_json_digest j).
Proof. unfold canonical_json_digest. by destruct (json_finite j). Qed.
Lemma require_aware_raises P field t : raises_pure P (require_aware field t).
Proof. unfold require_aware. raises_auto. Qed.
Hint Resolve require_non_blank_raises dt_le_raises dt_lt_raises canonical_json_digest_raises
  require_aware_raises : raises.

Lemma new_tool_version_raises P v : raises_pure P (new_tool_version v).
Proof.
  unfold new_tool_version, validate_input_schema, validate_lifecycle_timestamps. raises_auto.
Qed.
Lemma submit_for_review_raises P v t : raises_pure P (submit_for_review v t).
Proof. unfold submit_for_review. raises_auto. apply new_tool_version_raises. Qed.
Lemma new_audit_event_raises P e : raises_pure P (new_audit_event e).
Proof. unfold new_audit_event. raises_auto. Qed.
Lemma new_approval_raises P a : raises_pure P (new_approval a).
Proof. unfold new_approval. raises_auto. Qed.
Hint Resolve new_approval_raises : raises.
Lemma decide_as_raises P status a approver t : raises_pure P (decide_as status a approver t).
Proof. unfold decide_as, require_pending, approval_replace. raises_auto. Qed.
Lemma expire_raises P a t : raises_pure P (expire a t).
Proof. unfold expire, approval_replace. raises_auto. Qed.

Lemma validate_entries_raises P {A} belongs (key : A → string) crossed repeated seen l :
  (∀ n, crossed ≠ Nexus n) → (∀ n, repeated ≠ Nexus n) →
  raises_pure P (validate_entries belongs key crossed repeated seen l).
Proof.
  intros Hc Hr. revert seen. induction l as [|x l IH]; intros seen; simpl; [apply pure_ok|].
  raises_auto; auto.
Qed.
Lemma normalized_ids_raises P field ids : raises_pure P (normalized_ids field ids).
Proof. unfold normalized_ids. raises_auto. Qed.
Hint Resolve normalized_ids_raises : raises.
Lemma calculate_membership_digest_raises P kind ids :
  raises_pure P (calculate_membership_digest kind ids).
Proof. unfold calculate_membership_digest. raises_auto. Qed.
Hint Resolve calculate_membership_digest_raises : raises.
Lemma new_toolset_raises P t : raises_pure P (new_toolset t).
Proof.
  unfold new_toolset, require_digest, validate_members, validate_grants. raises_auto;
    by apply validate_entries_raises.
Qed.
Lemma new_member_raises P m : raises_pure P (new_member m).
Proof. unfold new_member. raises_auto. Qed.
Lemma new_grant_raises P g : raises_pure P (new_grant g).
Proof. unfold new_grant. raises_auto. Qed.
Lemma merge_entries_raises P {A} (key : A → string) make existing wanted :
  (∀ k, raises_pure P (make k)) → raises_pure P (merge_entries key make existing wanted).
Proof.
  intros Hm. induction wanted as [|k l IH]; simpl; [apply pure_ok|]. raises_auto; auto.
Qed.
Hint Resolve new_toolset_raises new_member_raises new_grant_raises merge_entries_raises : raises.

Lemma next_revision_raises P t name description mode status digest members grants at_ :
  raises_pure P (next_revision t name description mode status digest members grants at_).
Proof. unfold next_revision. raises_auto. Qed.
Hint Resolve next_revision_raises : raises.

Lemma persistence_update_raises P t t' : raises_pure P (requires_persistence_update t t').
Proof. unfold requires_persistence_update. raises_auto. Qed.

(** The aggregate's mutations raise value errors only. *)
Lemma toolset_mutations_raise P t :
  (∀ e name description mode at_, raises_pure P (update_profile t e name description mode at_)) ∧
  (∀ e ids actor at_, raises_pure P (replace_members t e ids actor at_)) ∧
  (∀ e ids actor at_, raises_pure P (replace_grants t e ids actor at_)) ∧
  (∀ e at_, raises_pure P (activate t e at_)) ∧
  (∀ e at_, raises_pure P (disable t e at_)).
Proof.
  unfold update_profile, replace_members, replace_grants, activate, disable, require_revision,
    require_mutation_time.
  split_and!; intros; raises_auto.
Qed.
End DomainErrors.

#[export] Hint Resolve require_non_blank_raises dt_le_raises dt_lt_raises canonical_json_digest_raises
  new_tool_version_raises submit_for_review_raises new_audit_event_raises decide_as_raises
  expire_raises new_toolset_raises calculate_membership_digest_raises : raises.

Section UseCaseErrors.
Context `{Ports}.

Definition among (errors : list nexus_error) (n : nexus_error) : Prop := n ∈ errors.

Lemma among_more l l' n : (∀ m, m ∈ l → m ∈ l') → among l n → among l' n.
Proof. unfold among. auto. Qed.

Lemma raises_on_value_error {D A} l f (m : M D A) :
  (∀ x n, is_value_error x = true → f x = Nexus n → n ∈ l) → raises (among l) m →
  raises (among l) (on_value_error f m).
Proof.
  intros Hf Hm. unfold on_value_error. eapply raises_try; [exact Hm|].
  intros x Hx. destruct (is_value_error x) eqn:E.
  - intros s n s' [= En _]. by eapply Hf.
  - intros s n s' [= -> _]. by apply Hx.
Qed.

(** Approvals *)

Lemma get_approval_raises {D} `{!Table D ApprovalRequest} `{!Table D AuditEvent} ctx id :
  raises (among [ApprovalNotFoundError]) (get_approval (D := D) ctx id).
Proof. unfold get_approval, approvals_get. raises_auto; unfold among; set_solver. Qed.

Lemma with_tenant_raises l tenant a :
  ar_tenant_id a = tenant → raises_pure (among l) (approvals_require_tenant tenant a).
Proof. intros Ha n. unfold approvals_require_tenant. by rewrite bool_decide_true. Qed.

Lemma approvals_save_raises {D} `{!Table D ApprovalRequest} l tenant a :
  ar_tenant_id a = tenant → raises (among l) (approvals_save (D := D) tenant a).
Proof.
  intros Ha. unfold approvals_save. raises_auto. by apply with_tenant_raises.
Qed.

Lemma approval_replace_tenant a status decider at_ consumed a' :
  approval_replace a status decider at_ consumed = Ok a' → ar_tenant_id a' = ar_tenant_id a.
Proof.
  unfold approval_replace. intros ->%new_approval_Ok. done.
Qed.

Lemma decided_tenant status a approver t a' :
  decide_as status a approver t = Ok a' → ar_tenant_id a' = ar_tenant_id a.
Proof.
  unfold decide_as. intros (? & _ & (? & _ & E)%rbind_Ok_inv)%rbind_Ok_inv.
  by eapply approval_replace_tenant.
Qed.

Lemma expired_tenant a t a' : expire a t = Ok a' → ar_tenant_id a' = ar_tenant_id a.
Proof.
  unfold expire. intros (? & _ & (? & _ & (? & _ & E)%rbind_Ok_inv)%rbind_Ok_inv)%rbind_Ok_inv.
  destruct (bool_decide _); by eapply approval_replace_tenant.
Qed.

Lemma decide_approval_raises {D} `{!Table D ApprovalRequest} `{!Table D AuditEvent} c :
  raises (among [ApprovalNotFoundError; ApprovalExpiredError; ApprovalInvalidStateError])
    (decide_approval (D := D) c).
Proof.
  unfold decide_approval. apply raises_with_uow.
  apply raises_bind_yields with (V := λ o : option ApprovalRequest,
    ∀ a, o = Some a → ar_tenant_id a = ctx_tenant_id (da_context c)).
  { unfold approvals_get. raises_auto. }
  { intros s o s'. unfold approvals_get, bind, ret. destruct (read_table s) as [[t|] s1]; [|done].
    intros [= <- _] a. destruct (dget _ _) as [b|]; [|done].
    destruct (decide _); [|done]. by intros [= <-]. }
  intros [a|] Ha; [|apply raises_raise; unfold among; set_solver]. specialize (Ha a eq_refl).
  apply raises_bind; [|intros _].
  { apply raises_lift. unfold require_pending_decision. raises_auto; unfold among; set_solver. }
  apply raises_bind; [auto with raises|intros t].
  apply raises_bind; [apply raises_lift; auto with raises|intros over].
  destruct over.
  - eapply raises_bind_yields; [apply raises_lift; auto with raises| |].
    { apply yields_lift. exact (expired_tenant a t). }
    intros a' Ha'. apply raises_bind; [apply approvals_save_raises; congruence|intros _].
    raises_auto. unfold among. set_solver.
  - eapply raises_bind_yields with (V := λ a' : ApprovalRequest, ar_tenant_id a' = ar_tenant_id a).
    { apply raises_lift. destruct (da_approved c); apply decide_as_raises. }
    { apply yields_lift. intros a'. destruct (da_approved c); apply decided_tenant. }
    intros a' Ha'. apply raises_bind; [apply approvals_save_raises; congruence|intros _].
    unfold audits_append. raises_auto.
Qed.

(** Catalog and imports *)

Lemma submit_review_raises {D} `{!Table D Tool} `{!Table D ToolVersion} ctx id :
  raises (among [ToolVersionNotFoundError; InvalidToolStateError])
    (submit_tool_version_for_review (D := D) ctx id).
Proof.
  unfold submit_tool_version_for_review, get_version_by_id, save_version, require_matching_tenant.
  raises_auto; unfold among; set_solver.
Qed.

Lemma get_openapi_import_raises {D} `{!Table D OpenApiImportJob} `{!Table D ImportedOperation} ctx id :
  raises (among [OpenApiImportJobNotFoundError]) (get_openapi_import (D := D) ctx id).
Proof.
  unfold get_openapi_import, get_job, list_operations. raises_auto; unfold among; set_solver.
Qed.

(** Toolsets *)

Section Toolset.
Context {D : Type} `{!Table D Toolset} `{!CatalogSnapshots D}.

Definition toolset_errors : list nexus_error :=
  [ToolsetNotFoundError; InvalidArgumentsError; ToolsetRevisionConflictError;
   SystemToolsetImmutableError; InvalidToolsetMembersError; ToolsetMemberUnavailableError].

Lemma member_snapshots_raise P tenant ids : raises P (list_member_snapshots (D := D) tenant ids).
Proof. intros s n s'. unfold list_member_snapshots. by destruct (working s). Qed.
Lemma published_snapshots_raise P tenant : raises P (list_published_snapshots (D := D) tenant).
Proof. intros s n s'. unfold list_published_snapshots. by destruct (working s). Qed.

Lemma toolset_profile_raises P t : raises P (toolset_profile (D := D) t).
Proof. 
  unfold toolset_profile. apply raises_bind; [|intros ?; apply raises_ret].
  destruct (ts_kind t); auto using published_snapshots_raise, member_snapshots_raise.
 Qed.
Hint Resolve toolset_profile_raises : raises.

Lemma mutate_toolset_raises l tenant mutation :
  (∀ m, m ∈ [InvalidArgumentsError; ToolsetRevisionConflictError; SystemToolsetImmutableError] → m ∈ l) →
  (∀ at_, raises_pure (among l) (mutation at_)) →
  raises (among l) (mutate_toolset (D := D) tenant mutation).
Proof.
  intros Hl Hm. unfold mutate_toolset. apply raises_bind; [|intros ?; raises_auto].
  apply raises_on_value_error.
  - intros x n _. destruct x; simpl; intros [= <-]; apply Hl; set_solver.
  - unfold save_toolset, require_matching_tenant, get_toolset_by_slug, get_all_published. raises_auto;
      solve [apply persistence_update_raises | apply Hm].
Qed.

Lemma get_locked_raises l ctx id :
  ToolsetNotFoundError ∈ l → raises (among l) (get_locked (D := D) ctx id).
Proof. intros Hl. unfold get_locked, get_toolset. raises_auto. exact Hl. Qed.

Lemma get_toolset_raises ctx id :
  raises (among [ToolsetNotFoundError]) (get_toolset_profile (D := D) ctx id).
Proof. unfold get_toolset_profile, get_toolset. raises_auto. unfold among. set_solver. Qed.

Lemma toolset_commands_raise :
  (∀ c, raises (among toolset_errors) (update_toolset (D := D) c)) ∧
  (∀ c, raises (among toolset_errors) (replace_toolset_members (D := D) c)) ∧
  (∀ c, raises (among toolset_errors) (replace_toolset_grants (D := D) c)) ∧
  (∀ c, raises (among toolset_errors) (activate_toolset (D := D) c)) ∧
  (∀ c, raises (among toolset_errors) (disable_toolset (D := D) c)).
Proof.
  assert (Hmut : ∀ tenant mutation, (∀ at_, raises_pure (among toolset_errors) (mutation at_)) →
    raises (among toolset_errors) (mutate_toolset (D := D) tenant mutation)).
  { intros. apply mutate_toolset_raises; [set_solver|done]. }
  assert (Hm := toolset_mutations_raise (among toolset_errors)).
  unfold update_toolset, replace_toolset_members, replace_toolset_grants, activate_toolset,
    disable_toolset, require_expected_revision, require_available.
  split_and!; intros c; apply raises_with_uow;
    (apply raises_bind; [apply get_locked_raises; set_solver|intros t]);
    specialize (Hm t) as (? & ? & ? & ? & ?).
  all: repeat first [ apply Hmut; intros; eauto
                    | apply member_snapshots_raise
                    | raises_step ].
  all: unfold among; set_solver.
Qed.

Lemma toolset_profiles_raise P window : raises P (toolset_profiles (D := D) window).
Proof. induction window as [|t l IH]; simpl; raises_auto. Qed.

Lemma list_toolsets_raises P q : raises P (list_toolsets (D := D) q).
Proof.
  unfold list_toolsets, list_toolsets_by_tenant. raises_auto. apply toolset_profiles_raise.
Qed.
End Toolset.

(** Creating a toolset succeeds or is refused with one of two errors: the
    toolset it reads back at the end is there. *)
Lemma get_toolset_profile_found ctx t d e :
  dget (ts_id t) (tst_toolsets d) = Some t → ts_tenant_id t = ctx_tenant_id ctx →
  ∃ p, get_toolset_profile ctx (ts_id t) (St d None e) = (Ok p, St d None e).
Proof.
  intros Ht Htn. unfold get_toolset_profile, with_uow, get_toolset, bind, read_table, ret. cbn.
  rewrite Ht. unfold in_tenant. cbn. rewrite <-Htn. rewrite decide_True by done.
  destruct (toolset_profile t _) as [rp sp] eqn:Hp. apply toolset_profile_run in Hp as [-> ->].
  by eexists.
Qed.

Lemma create_toolset_answers c d e r s' :
  create_toolset (D := toolset_store) c (St d None e) = (r, s') →
  (∃ p, r = Ok p) ∨ r = Raise (Nexus InvalidArgumentsError) ∨ r = Raise (Nexus ToolsetConflictError).
Proof.
  unfold create_toolset, on_value_error. intros Hr. unfold bind at 1, now in Hr.
  cbn [fst snd store working environment] in Hr. unfold bind at 1, try_except in Hr.
  unfold bind at 1, new_id, lift in Hr. cbn [fst snd store working environment ticks issued io_log] in Hr.
  set (e1 := Env _ _ _) in Hr.
  destruct (create_explicit _ _ _ _ _ _ _ _) as [t|x] eqn:Hc.
  2: { assert (is_value_error x = true) as Hx.
       { clear Hr. revert x Hc. change (value_errors (create_explicit (identifier (issued e))
           (ctx_tenant_id (ct_context c)) (ct_slug c) (ct_name c) (ct_description c)
           (ctx_principal_id (ct_context c)) (clock_now (ticks e)) (ct_discovery_mode c))).
         unfold create_explicit. value_errors_solve. }
       rewrite Hx in Hr. injection Hr as <- _. auto. }
  apply create_explicit_Ok in Hc as (Hf & _ & Htn & Hsl & Hk & _).
  unfold bind at 1 in Hr. destruct (with_uow _ _) as [ru su] eqn:Hu.
  unfold with_uow, add_toolset, get_toolset_by_slug, get_all_published, require_matching_tenant in Hu.
  run_uow Hu; auto.
  left. destruct (get_toolset_profile_found (ct_context c) t (put t d) e1) as [p Hp].
  { apply dget_dset_eq. }
  { exact Htn. }
  unfold put in Hp. rewrite Hp in Hr. injection Hr as <- _. by exists p.
Qed.

Lemma get_toolset_answers ctx id d e r s' :
  get_toolset_profile (D := toolset_store) ctx id (St d None e) = (r, s') →
  (∃ p, r = Ok p) ∨ r = Raise (Nexus ToolsetNotFoundError).
Proof.
  unfold get_toolset_profile, with_uow, get_toolset, bind, read_table, ret, raise. cbn.
  destruct (in_tenant _ _ _) as [t|]; [|intros [= <- _]; auto].
  destruct (toolset_profile t _) as [rp sp] eqn:Hp. apply toolset_profile_run in Hp as [-> ->].
  intros [= <- _]. eauto.
Qed.

Lemma toolset_profiles_run window c d e :
  ∃ ps, toolset_profiles (D := toolset_store) window (St c (Some d) e) = (Ok ps, St c (Some d) e).
Proof.
  induction window as [|t l [ps IH]]; [by eexists|]. cbn [toolset_profiles]. unfold bind.
  destruct (toolset_profile t _) as [rp sp] eqn:Hp. apply toolset_profile_run in Hp as [-> ->].
  rewrite IH. by eexists.
Qed.

Lemma list_toolsets_answers q d e :
  ∃ p, list_toolsets (D := toolset_store) q (St d None e) = (Ok p, St d None e).
Proof.
  unfold list_toolsets, list_toolsets_by_tenant, with_uow, bind, read_table, ret. cbn.
  match goal with |- context [toolset_profiles ?w _] =>
    destruct (toolset_profiles_run w d d e) as [ps ->] end.
  by eexists.
Qed.

(** The five commands on a well-formed store: an answer or a typed error. *)
Lemma toolset_command_answers c d e r s' :
  toolsets_ok (tst_toolsets d) → run_command c (St d None e) = (r, s') →
  (∃ p, r = Ok p) ∨ ∃ n, r = Raise (Nexus n).
Proof.
  intros Hok Hr. apply run_command_outcome in Hr as (e' & [(n & -> & _)|(p & t & t' & -> & _)]); eauto.
Qed.

(** Reindex jobs *)

Lemma create_reindex_job_raises model dimensions available ctx force batch_size :
  raises (among [EmbeddingUnavailableError; ToolSearchReindexJobConflictError])
    (create_reindex_job model dimensions available ctx force batch_size).
Proof.
  unfold create_reindex_job, store_create. raises_auto; unfold among; set_solver.
Qed.

Lemma get_reindex_job_raises tenant id :
  raises (among [ToolSearchReindexJobNotFoundError]) (get_reindex_job tenant id).
Proof. unfold get_reindex_job, store_get. raises_auto; unfold among; set_solver. Qed.

Lemma list_recent_raises P tenant offset limit : raises P (list_recent tenant offset limit).
Proof. unfold list_recent. raises_auto. Qed.
End UseCaseErrors.
