(* ===== verification/AdminRoutes.v ===== *)
(** * The administration API

    Models [interfaces/admin/app.py], [toolset_models.py] and
    [toolset_routes.py]: the services the application is built from, every
    route with the conditions on its request, the command it gives its use case
    and the JSON it answers, the context the middleware binds, the exception
    handlers and the background task of a reindex request.  The read routes are
    those of AdminQueries.v.  Bodies arrive as pydantic parsed them: a field of
    an enumeration is its text before the enumeration is checked. *)

From Stdlib Require Import ZArith QArith.
From stdpp Require Import base sets strings option list.
From S2P Require Import Prelude Text Dict Errors Json Store AuditTrail Catalog Approval OpenApi Registry Publish.
From S2P Require Import Toolsets ToolsetAdmin OpenApiImport OpenApiReview ToolSearch SearchIndex.
From S2P Require Import Uuid Rows ControlPlane HttpProblems AdminQueries Raises UseCaseErrors.
Open Scope py_scope.

(** ** Enumerations *)

#[local] Obligation Tactic := enum_solve.

#[export] Program Instance toolset_health_enum : StrEnum ToolsetHealth := {|
  enum_value h := match h with
    | Healthy => "healthy" | Degraded => "degraded" | Unavailable => "unavailable" end;
  enum_members := [Healthy; Degraded; Unavailable] |}.

#[export] Program Instance availability_enum : StrEnum ToolsetMemberAvailability := {|
  enum_value a := match a with
    | MemberAvailable => "available" | MemberToolDisabled => "tool_disabled"
    | MemberNoPublishedVersion => "no_published_version" end;
  enum_members := [MemberAvailable; MemberToolDisabled; MemberNoPublishedVersion] |}.

#[export] Program Instance retrieval_mode_enum : StrEnum ToolRetrievalMode := {|
  enum_value m := match m with RetrievalLexical => "lexical" | RetrievalHybrid => "hybrid" end;
  enum_members := [RetrievalLexical; RetrievalHybrid] |}.

#[export] Program Instance index_state_enum : StrEnum ToolSearchIndexState := {|
  enum_value s := match s with
    | IndexMissing => "missing" | IndexStale => "stale" | IndexCurrent => "current" end;
  enum_members := [IndexMissing; IndexStale; IndexCurrent] |}.

#[export] Program Instance reindex_status_enum : StrEnum ToolSearchReindexJobStatus := {|
  enum_value s := match s with
    | SearchIndex.JobPending => "pending" | JobRunning => "running" | JobSucceeded => "succeeded"
    | SearchIndex.JobFailed => "failed" end;
  enum_members := [SearchIndex.JobPending; JobRunning; JobSucceeded; SearchIndex.JobFailed] |}.

(** ** Services *)

Record ToolsetAdminServices (W : Type) := mkToolsetServices {
  sv_create : CreateToolsetCommand → SE exn W ToolsetProfile;
  sv_list : ListToolsetsQuery → SE exn W (page ToolsetProfile);
  sv_get : ActorContext → string → SE exn W ToolsetProfile;
  sv_update : UpdateToolsetCommand → SE exn W ToolsetProfile;
  sv_replace_members : ReplaceToolsetMembersCommand → SE exn W ToolsetProfile;
  sv_replace_grants : ReplaceToolsetGrantsCommand → SE exn W ToolsetProfile;
  sv_activate : ChangeToolsetStatusCommand → SE exn W ToolsetProfile;
  sv_disable : ChangeToolsetStatusCommand → SE exn W ToolsetProfile }.
Arguments mkToolsetServices {W}.
Arguments sv_create {W}.
Arguments sv_list {W}.
Arguments sv_get {W}.
Arguments sv_update {W}.
Arguments sv_replace_members {W}.
Arguments sv_replace_grants {W}.
Arguments sv_activate {W}.
Arguments sv_disable {W}.

Record AdminServices (W : Type) := mkServices {
  sv_register_upstream : RegisterUpstreamCommand → SE exn W UpstreamService;
  sv_update_upstream : UpdateUpstreamCommand → SE exn W UpstreamService;
  sv_disable_upstream : ActorContext → string → SE exn W UpstreamService;
  sv_queries : W → ControlPlaneQueryPort;
  sv_import_openapi : ImportOpenApiCommand → SE exn W ImportOpenApiResult;
  sv_get_openapi_import : ActorContext → string → SE exn W GetOpenApiImportResult;
  sv_review_operation : ReviewImportedOperationCommand → SE exn W ReviewImportedOperationResult;
  sv_direct_publish_operation :
    ReviewImportedOperationCommand → SE exn W DirectPublishImportedOperationResult;
  sv_submit_version_review : ActorContext → string → SE exn W unit;
  sv_publish_tool : PublishToolCommand → SE exn W PublishToolResult;
  sv_search_tools : SearchPublishedToolsQuery → SE exn W (list PublishedToolSearchHit);
  sv_search_lab : option (SearchToolsQuery → SE exn W SearchToolsResult);
  sv_inspect_search_index : string → SE exn W ToolSearchIndexSnapshot;
  sv_create_reindex_job : ActorContext → bool → Z → SE exn W ToolSearchReindexJob;
  sv_run_reindex_job : string → string → SE exn W unit;
  sv_get_reindex_job : string → string → SE exn W ToolSearchReindexJob;
  sv_list_reindex_jobs : string → Z → Z → SE exn W (list ToolSearchReindexJob * Z);
  sv_decide_approval : DecideApprovalCommand → SE exn W ApprovalRequest;
  sv_get_approval : ActorContext → string → SE exn W ApprovalRequest;
  sv_toolsets : ToolsetAdminServices W;
  sv_reset_demo_workspace : option (ActorContext → SE exn W string) }.
Arguments mkServices {W}.
Arguments sv_register_upstream {W}.
Arguments sv_update_upstream {W}.
Arguments sv_disable_upstream {W}.
Arguments sv_queries {W}.
Arguments sv_import_openapi {W}.
Arguments sv_get_openapi_import {W}.
Arguments sv_review_operation {W}.
Arguments sv_direct_publish_operation {W}.
Arguments sv_submit_version_review {W}.
Arguments sv_publish_tool {W}.
Arguments sv_search_tools {W}.
Arguments sv_search_lab {W}.
Arguments sv_inspect_search_index {W}.
Arguments sv_create_reindex_job {W}.
Arguments sv_run_reindex_job {W}.
Arguments sv_get_reindex_job {W}.
Arguments sv_list_reindex_jobs {W}.
Arguments sv_decide_approval {W}.
Arguments sv_get_approval {W}.
Arguments sv_toolsets {W}.
Arguments sv_reset_demo_workspace {W}.

(** ** Request bodies *)

Record RegisterUpstreamRequest := mkRegisterRequest {
  rq_namespace : string;
  rq_name : string;
  rq_description : option string;
  rq_owner : string;
  rq_endpoint : string;
  rq_auth_scheme : option string;
  rq_config : dict json;
  rq_service_type : string;
  rq_transport_type : string }.

Record UpdateUpstreamRequest := mkUpdateRequest {
  uq_description : option string;
  uq_owner : string;
  uq_endpoint : string;
  uq_auth_scheme : option string;
  uq_config : dict json }.

Record SubmitImportRequest := mkImportRequest {
  sq_upstream_service_id : string;
  sq_source_ref : string;
  sq_operation_allowlist : list string }.

Record ReviewOperationRequest := mkReviewRequest {
  vq_owner : string;
  vq_visibility : string;
  vq_review_notes : option string }.

Record PublishToolRequest := mkPublishRequest {
  pq_expected_schema_digest : string;
  pq_expected_binding_digest : string }.

Record CreateToolSearchReindexJobRequest := mkReindexRequest {
  jq_force : bool;
  jq_batch_size : Z }.

Record SearchLabRequest := mkSearchLabRequest {
  lb_text : string;
  lb_retrieval_mode : string;
  lb_limit : Z;
  lb_namespace : option string;
  lb_side_effect : option string }.

Record CreateToolsetRequest := mkCreateToolsetRequest {
  ctq_slug : string;
  ctq_name : string;
  ctq_description : option string;
  ctq_discovery_mode : string }.

Record UpdateToolsetRequest := mkUpdateToolsetRequest {
  utq_expected_revision : Z;
  utq_name : string;
  utq_description : option string;
  utq_discovery_mode : string }.

Record ReplaceToolsetMembersRequest := mkReplaceMembersRequest {
  rmq_expected_revision : Z;
  rmq_tool_ids : list string }.

Record ReplaceToolsetAccessGrantsRequest := mkReplaceGrantsRequest {
  rgq_expected_revision : Z;
  rgq_principal_ids : list string }.

Record ChangeToolsetStatusRequest := mkChangeStatusRequest { csq_expected_revision : Z }.

Record ListToolsetsRequest := mkListToolsetsRequest {
  ltq_offset : Z;
  ltq_limit : Z;
  ltq_text : option string;
  ltq_status : option string;
  ltq_kind : option string;
  ltq_discovery_mode : option string }.

Inductive AdminRequest :=
| Read (r : ReadRequest)
| PostUpstream (b : RegisterUpstreamRequest)
| PutUpstream (upstream_service_id : string) (b : UpdateUpstreamRequest)
| DisableUpstream (upstream_service_id : string)
| SubmitImport (b : SubmitImportRequest)
| GetImport (import_job_id : string)
| ReviewOperation (operation_id : string) (b : ReviewOperationRequest)
| DirectPublishOperation (operation_id : string) (b : ReviewOperationRequest)
| SubmitVersionReview (tool_version_id : string)
| PublishTool (tool_id tool_version_id : string) (b : PublishToolRequest)
| SearchCatalog (query_text : string) (limit : Z)
| GetIndexStatus (offset limit : Z)
| CreateReindexJob (b : CreateToolSearchReindexJobRequest)
| ListReindexJobs (offset limit : Z)
| GetReindexJob (job_id : string)
| SearchLab (q : SearchLabRequest)
| GetApproval (approval_id : string)
| ApproveCall (approval_id : string)
| RejectCall (approval_id : string)
| ResetDemo
| CreateToolset (b : CreateToolsetRequest)
| ListToolsets (q : ListToolsetsRequest)
| GetToolset (toolset_id : string)
| UpdateToolset (toolset_id : string) (b : UpdateToolsetRequest)
| ReplaceMembers (toolset_id : string) (b : ReplaceToolsetMembersRequest)
| ReplaceGrants (toolset_id : string) (b : ReplaceToolsetAccessGrantsRequest)
| ActivateToolset (toolset_id : string) (b : ChangeToolsetStatusRequest)
| DisableToolset (toolset_id : string) (b : ChangeToolsetStatusRequest).

(** The problem statuses each route declares. *)
Definition admin_problems (r : AdminRequest) : list Z :=
  match r with
  | Read r => read_problems r
  | PostUpstream _ => [400; 409; 501]
  | PutUpstream _ _ => [400; 404]
  | DisableUpstream _ | SubmitVersionReview _ | ApproveCall _ | RejectCall _ => [404; 409]
  | SubmitImport _ => [400; 404; 422]
  | GetImport _ | GetReindexJob _ | GetApproval _ | GetToolset _ => [404]
  | ReviewOperation _ _ | PublishTool _ _ _ => [404; 409; 422]
  | DirectPublishOperation _ _ | ReplaceMembers _ _ => [400; 404; 409; 422]
  | SearchCatalog _ _ | SearchLab _ => [422; 503]
  | GetIndexStatus _ _ | ResetDemo => [503]
  | CreateReindexJob _ => [409; 503]
  | ListReindexJobs _ _ | ListToolsets _ => [422]
  | CreateToolset _ => [400; 409]
  | UpdateToolset _ _ | ReplaceGrants _ _ | ActivateToolset _ _ | DisableToolset _ _ => [400; 404; 409]
  end%Z.

(** The status of a successful answer. *)
Definition success_status (r : AdminRequest) : Z :=
  match r with
  | PostUpstream _ | CreateToolset _ => 201
  | SubmitImport _ | CreateReindexJob _ => 202
  | _ => 200
  end.

(** ** Conditions on requests *)

Section Validation.
Context `{Pydantic}.

Definition body_at (name : string) : list (string + Z) := [inl "body"; inl name].
Definition body_int (name : string) (lo : Z) (hi : option Z) (value : Z) : list ValidationItem :=
  check_at (body_at name)
    ((AtLeast lo, (lo <=? value)%Z)
       :: match hi with Some n => [(AtMost n, (value <=? n)%Z)] | None => [] end).
Definition body_enum (E : Type) `{StrEnum E} (name value : string) : list ValidationItem :=
  check_at (body_at name) [(OneOf (map enum_value (enum_members (A := E))), enum_check E value)].

Definition slug_regex : string := "^[a-z0-9]+(?:-[a-z0-9]+)*$".
Definition valid_create_toolset (b : CreateToolsetRequest) : list ValidationItem :=
  check_at (body_at "slug")
    (text_conditions 1 64 (ctq_slug b) ++ [(Matches slug_regex, slug_pattern (ctq_slug b))])
  ++ check_at (body_at "name") (text_conditions 1 128 (ctq_name b))
  ++ body_enum ToolsetDiscoveryMode "discovery_mode" (ctq_discovery_mode b).

Definition valid_update_toolset (b : UpdateToolsetRequest) : list ValidationItem :=
  body_int "expected_revision" 1 None (utq_expected_revision b)
  ++ check_at (body_at "name") (text_conditions 1 128 (utq_name b))
  ++ body_enum ToolsetDiscoveryMode "discovery_mode" (utq_discovery_mode b).

Definition valid_list_toolsets (q : ListToolsetsRequest) : list ValidationItem :=
  page_query (ltq_offset q) (ltq_limit q) ++ text_query "q" 1 128 (ltq_text q)
  ++ enum_query ToolsetStatus "status" (ltq_status q)
  ++ enum_query ToolsetKind "kind" (ltq_kind q)
  ++ enum_query ToolsetDiscoveryMode "discovery_mode" (ltq_discovery_mode q).

Definition valid_search_lab (q : SearchLabRequest) : list ValidationItem :=
  text_query "q" 1 500 (Some (lb_text q))
  ++ enum_query ToolRetrievalMode "retrieval_mode" (Some (lb_retrieval_mode q))
  ++ int_query "limit" 1 (Some 10%Z) (lb_limit q)
  ++ text_query "namespace" 1 64 (lb_namespace q)
  ++ enum_query ToolSideEffect "side_effect" (lb_side_effect q).

Definition admin_validation (r : AdminRequest) : list ValidationItem :=
  match r with
  | Read r => read_validation r
  | ReviewOperation _ b | DirectPublishOperation _ b =>
      body_enum ToolVisibility "visibility" (vq_visibility b)
  | SearchCatalog text limit =>
      text_query "q" 1 200 (Some text) ++ int_query "limit" 1 (Some 50%Z) limit
  | GetIndexStatus offset limit | ListReindexJobs offset limit => page_query offset limit
  | CreateReindexJob b => body_int "batch_size" 1 (Some 64%Z) (jq_batch_size b)
  | SearchLab q => valid_search_lab q
  | CreateToolset b => valid_create_toolset b
  | ListToolsets q => valid_list_toolsets q
  | UpdateToolset _ b => valid_update_toolset b
  | ReplaceMembers _ b => body_int "expected_revision" 1 None (rmq_expected_revision b)
  | ReplaceGrants _ b => body_int "expected_revision" 1 None (rgq_expected_revision b)
  | ActivateToolset _ b | DisableToolset _ b =>
      body_int "expected_revision" 1 None (csq_expected_revision b)
  | _ => []
  end.
End Validation.

(** ** Responses *)

Section Responses.
Context `{Pydantic}.

(** [UpstreamResponse.from_domain] *)
Definition from_domain (u : UpstreamService) : res json :=
  raise_if (negb (bool_decide (us_service_type u = UpHttp))
            || negb (bool_decide (us_transport_type u = "http"))) (Nexus FeatureNotEnabledError) ;;?
  Ok (upstream_response (us_id u) (us_tenant_id u) (us_namespace u) (us_name u) (us_description u)
        (us_owner u) (us_endpoint u) (us_auth_scheme u) (us_config u) (us_status u)).

Definition SubmitImportResponse (r : ImportOpenApiResult) : json :=
  JObj [("import_job_id", JStr (ir_import_job_id r)); ("operation_ids", strings (ir_operation_ids r));
        ("conflict_count", JInt (ir_conflict_count r))].

(** [_job_response] *)
Definition job_response (j : OpenApiImportJob) : json :=
  JObj [("id", JStr (ij_id j)); ("upstream_service_id", JStr (ij_upstream_service_id j));
        ("source_ref", JStr (ij_source_ref j)); ("source_digest", JStr (ij_source_digest j));
        ("openapi_version", opt_str (ij_openapi_version j));
        ("status", JStr (enum_value (ij_status j))); ("error_summary", opt_str (ij_error_summary j));
        ("created_at", dump_datetime (ij_created_at j)); ("started_at", opt_time (ij_started_at j));
        ("completed_at", opt_time (ij_completed_at j))].

(** [_optional_response_text] *)
Definition optional_response_text (value : option json) : option string :=
  match value with
  | Some (JStr s) => if blank s then None else Some s
  | _ => None
  end.

(** [_operation_response] *)
Definition operation_response (o : ImportedOperation) : json :=
  let normalized := io_normalized_operation o in
  let side_effect := side_effect_of (default (JStr "unknown") (dget "side_effect" normalized)) in
  JObj [("id", JStr (io_id o)); ("operation_key", JStr (io_operation_key o));
        ("operation_id", opt_str (io_operation_id o)); ("method", JStr (io_method o));
        ("path", JStr (io_path o)); ("generated_tool_name", opt_str (io_generated_tool_name o));
        ("conflict_status", JStr (enum_value (io_conflict_status o)));
        ("review_status", JStr (enum_value (io_review_status o)));
        ("draft_tool_version_id", opt_str (io_draft_tool_version_id o));
        ("draft_tool_binding_id", opt_str (io_draft_tool_binding_id o));
        ("summary", opt_str (optional_response_text (dget "summary" normalized)));
        ("description", opt_str (optional_response_text (dget "description" normalized)));
        ("side_effect", JStr (enum_value side_effect));
        ("input_schema", match dget "tool_input_schema" normalized with
                         | Some (JObj d) => JObj d | _ => JObj [] end);
        ("output_schema", match dget "tool_output_schema" normalized with
                          | Some (JObj d) => JObj d | _ => JNull end)].

Definition ImportDetailResponse (r : GetOpenApiImportResult) : json :=
  JObj [("job", job_response (gr_job r));
        ("operations", JArr (map operation_response (gr_operations r)))].

Definition reviewed_fields (r : ReviewImportedOperationResult) : dict json :=
  [("operation_id", JStr (rr_operation_id r)); ("tool_id", JStr (rr_tool_id r));
   ("tool_version_id", JStr (rr_tool_version_id r)); ("tool_binding_id", JStr (rr_tool_binding_id r));
   ("canonical_name", JStr (rr_canonical_name r)); ("version", JInt (rr_version r));
   ("schema_digest", JStr (rr_schema_digest r)); ("binding_digest", JStr (rr_binding_digest r))].
Definition ReviewOperationResponse (r : ReviewImportedOperationResult) : json :=
  JObj (reviewed_fields r).
Definition DirectPublishOperationResponse (r : DirectPublishImportedOperationResult) : json :=
  JObj (reviewed_fields (dr_reviewed r) ++
        [("retired_tool_version_id", opt_str (dr_retired_tool_version_id r));
         ("published_at", dump_datetime (dr_published_at r));
         ("already_published", JBool (dr_already_published r))]).

Definition PublishToolResponse (r : PublishToolResult) : json :=
  let event := pr_event r in
  JObj [("tool_id", JStr (ev_tool_id event)); ("tool_version_id", JStr (ev_tool_version_id event));
        ("tool_binding_id", JStr (ev_tool_binding_id event));
        ("canonical_name", JStr (ev_canonical_name event)); ("version", JInt (ev_version event));
        ("retired_tool_version_id", opt_str (pr_retired_tool_version_id r));
        ("occurred_at", dump_datetime (ev_occurred_at event))].

Definition SearchToolResponse (h : PublishedToolSearchHit) : json :=
  let tool := hit_tool h in
  JObj [("tool_id", JStr (pt_tool_id tool)); ("tool_version_id", JStr (pt_tool_version_id tool));
        ("canonical_name", JStr (pt_canonical_name tool));
        ("display_name", JStr (pt_display_name tool)); ("description", JStr (pt_description tool));
        ("version", JInt (pt_version tool)); ("visibility", JStr (enum_value (pt_visibility tool)));
        ("side_effect", JStr (enum_value (pt_side_effect tool)));
        ("rank", dump_float (inject_Z (hit_rank h)))].

Definition score_kind_value (k : score_kind) : string :=
  match k with ScoreFts => "fts" | ScoreRrf => "rrf" end.
Definition opt_rank (n : option positive) : json := from_option (λ p, JInt (Z.pos p)) JNull n.
Definition opt_score (q : option Q) : json := from_option dump_float JNull q.

(** One hit of the search lab; [result.diagnostics[tool_version_id]] raises
    [KeyError] for a version without diagnostics. *)
Definition search_lab_hit (diagnostics : dict ToolSearchHitDiagnostics) (position : nat)
    (h : ScoredHit) : res json :=
  match dget (identity_of h) diagnostics with
  | None => Raise OtherException
  | Some d =>
      let tool := sh_tool h in
      Ok (JObj [("position", JInt (Z.of_nat position)); ("tool_id", JStr (pt_tool_id tool));
                ("tool_version_id", JStr (pt_tool_version_id tool));
                ("canonical_name", JStr (pt_canonical_name tool));
                ("display_name", JStr (pt_display_name tool));
                ("description", JStr (pt_description tool)); ("version", JInt (pt_version tool));
                ("visibility", JStr (enum_value (pt_visibility tool)));
                ("side_effect", JStr (enum_value (pt_side_effect tool)));
                ("owner", opt_str (pt_owner tool)); ("tags", strings (pt_tags tool));
                ("rank", dump_float (sh_rank h));
                ("score_kind", JStr (score_kind_value (thd_score_kind d)));
                ("lexical_rank", opt_rank (thd_lexical_rank d));
                ("lexical_score", opt_score (thd_lexical_score d));
                ("vector_rank", opt_rank (thd_vector_rank d));
                ("vector_cosine_similarity", opt_score (thd_vector_cosine_similarity d));
                ("rrf_score", opt_score (thd_rrf_score d));
                ("input_schema", JObj (pt_input_schema tool));
                ("output_schema", opt_obj (pt_output_schema tool))])
  end.

Definition SearchLabResponse (r : SearchToolsResult) : res json :=
  let? hits := traverse (λ row, search_lab_hit (str_diagnostics r) row.1 row.2)
                 (zip (seq 1 (length (str_hits r))) (str_hits r)) in
  Ok (JObj [("retrieval_mode", JStr (enum_value (str_retrieval_mode r)));
            ("index_version", opt_str (str_index_version r)); ("hits", JArr hits)]).

(** [_index_item_response] *)
Definition index_item_response (i : ToolSearchIndexItem) : json :=
  JObj [("tool_id", JStr (ii_tool_id i)); ("tool_version_id", JStr (ii_tool_version_id i));
        ("canonical_name", JStr (ii_canonical_name i)); ("state", JStr (enum_value (ii_state i)));
        ("indexed_at", opt_time (ii_indexed_at i))].

(** [_index_status_response] *)
Definition index_status_response (x : ToolSearchIndexSnapshot) (offset limit : Z) : json :=
  let selected := py_slice offset (offset + limit) (ix_items x) in
  JObj [("published_count", JInt (ix_published_count x)); ("current_count", JInt (ix_current_count x));
        ("missing_count", JInt (ix_missing_count x)); ("stale_count", JInt (ix_stale_count x));
        ("embedding_model", JStr (ix_embedding_model x));
        ("embedding_dimensions", JInt (ix_embedding_dimensions x));
        ("embedding_available", JBool (ix_embedding_available x));
        ("items", JArr (map index_item_response selected));
        ("page", PageMetadata offset limit (Z.of_nat (length (ix_items x))))].

(** [_reindex_job_response] *)
Definition reindex_job_response (j : ToolSearchReindexJob) : json :=
  JObj [("id", JStr (rj_id j)); ("tenant_id", JStr (rj_tenant_id j));
        ("requested_by", JStr (rj_requested_by j)); ("status", JStr (enum_value (rj_status j)));
        ("force", JBool (rj_force j)); ("batch_size", JInt (rj_batch_size j));
        ("embedding_model", JStr (rj_embedding_model j));
        ("embedding_dimensions", JInt (rj_embedding_dimensions j));
        ("published_count", JInt (rj_published_count j)); ("current_count", JInt (rj_current_count j));
        ("pending_count", JInt (rj_pending_count j)); ("embedded_count", JInt (rj_embedded_count j));
        ("batch_count", JInt (rj_batch_count j)); ("error_code", opt_str (rj_error_code j));
        ("created_at", dump_datetime (rj_created_at j)); ("started_at", opt_time (rj_started_at j));
        ("finished_at", opt_time (rj_finished_at j))].

(** [ApprovalResponse.from_domain] *)
Definition approval_response (a : ApprovalRequest) : json :=
  JObj [("id", JStr (ar_id a)); ("tenant_id", JStr (ar_tenant_id a));
        ("principal_id", JStr (ar_principal_id a)); ("tool_id", JStr (ar_tool_id a));
        ("tool_version_id", JStr (ar_tool_version_id a));
        ("arguments_digest", JStr (ar_arguments_digest a));
        ("policy_version", JStr (ar_policy_version a));
        ("idempotency_key", opt_str (ar_idempotency_key a));
        ("status", JStr (enum_value (ar_status a))); ("requested_at", dump_datetime (ar_requested_at a));
        ("expires_at", dump_datetime (ar_expires_at a)); ("decided_by", opt_str (ar_decided_by a));
        ("decided_at", opt_time (ar_decided_at a)); ("consumed_at", opt_time (ar_consumed_at a))].

(** [ToolsetMemberResponse.from_profile] and [ToolsetResponse.from_profile] *)
Definition ToolsetMemberResponse (m : ToolsetMemberProfile) : json :=
  JObj [("tool_id", JStr (mp_tool_id m)); ("canonical_name", opt_str (mp_canonical_name m));
        ("description", opt_str (mp_description m));
        ("availability", JStr (enum_value (mp_availability m)));
        ("published_tool_version_id", opt_str (mp_published_tool_version_id m));
        ("serialized_schema_size", JInt (mp_serialized_schema_size m))].
Definition ToolsetResponse (p : ToolsetProfile) : json :=
  JObj [("id", JStr (tp_id p)); ("tenant_id", JStr (tp_tenant_id p)); ("slug", JStr (tp_slug p));
        ("name", JStr (tp_name p)); ("description", opt_str (tp_description p));
        ("kind", JStr (enum_value (tp_kind p)));
        ("discovery_mode", JStr (enum_value (tp_discovery_mode p)));
        ("status", JStr (enum_value (tp_status p))); ("revision", JInt (tp_revision p));
        ("membership_digest", JStr (tp_membership_digest p));
        ("endpoint_path", JStr (tp_endpoint_path p)); ("health", JStr (enum_value (tp_health p)));
        ("tool_count", JInt (tp_tool_count p)); ("available_tool_count", JInt (tp_available_tool_count p));
        ("serialized_schema_size", JInt (tp_serialized_schema_size p));
        ("grant_count", JInt (Z.of_nat (length (tp_principal_ids p))));
        ("principal_ids", strings (tp_principal_ids p));
        ("members", JArr (map ToolsetMemberResponse (tp_members p)));
        ("created_by", JStr (tp_created_by p)); ("created_at", dump_datetime (tp_created_at p));
        ("updated_at", dump_datetime (tp_updated_at p))].
Definition ToolsetPageResponse (p : page ToolsetProfile) : json :=
  JObj [("items", JArr (map ToolsetResponse (ToolsetAdmin.pg_items p)));
        ("page", PageMetadata (ToolsetAdmin.pg_offset p) (ToolsetAdmin.pg_limit p)
                   (ToolsetAdmin.pg_total p))].
End Responses.

(** ** Routes *)

(** A background task: a reindex job of a tenant. *)
Definition background_task : Type := string * string.

Record RouteAnswer := mkAnswer {
  an_body : json;
  an_background : option background_task }.
Definition plain (body : json) : RouteAnswer := mkAnswer body None.

Section Routes.
Context `{Pydantic} {W : Type} (services : AdminServices W) (context : ActorContext).

Definition post_upstream (b : RegisterUpstreamRequest) : SE exn W json :=
  lift (raise_if (remote_mcp (rq_service_type b) (rq_transport_type b)) (Nexus FeatureNotEnabledError)) ;;*
  let* upstream := sv_register_upstream services
    (mkRegisterUpstream context (rq_namespace b) (rq_name b) (rq_description b) (rq_owner b)
       (rq_endpoint b) (rq_auth_scheme b) (rq_config b) UpHttp "http") in
  lift (from_domain upstream).

Definition put_upstream (upstream_service_id : string) (b : UpdateUpstreamRequest) : SE exn W json :=
  let* upstream := sv_update_upstream services
    (mkUpdateUpstream context upstream_service_id (uq_description b) (uq_owner b) (uq_endpoint b)
       (uq_auth_scheme b) (uq_config b)) in
  lift (from_domain upstream).

Definition disable_upstream_route (upstream_service_id : string) : SE exn W json :=
  let* upstream := sv_disable_upstream services context upstream_service_id in
  lift (from_domain upstream).

Definition submit_import (b : SubmitImportRequest) : SE exn W json :=
  let* result := sv_import_openapi services
    (mkImportCommand context (sq_upstream_service_id b) (sq_source_ref b) (sq_operation_allowlist b)) in
  ret (SubmitImportResponse result).

Definition get_import (import_job_id : string) : SE exn W json :=
  let* result := sv_get_openapi_import services context import_job_id in
  ret (ImportDetailResponse result).

Definition review_command (operation_id : string) (b : ReviewOperationRequest) :
    SE exn W ReviewImportedOperationCommand :=
  let* visibility := lift (enum_of (vq_visibility b)) in
  ret (mkReviewCommand context operation_id (vq_owner b) visibility (vq_review_notes b)).

Definition review_operation (operation_id : string) (b : ReviewOperationRequest) : SE exn W json :=
  let* command := review_command operation_id b in
  let* result := sv_review_operation services command in
  ret (ReviewOperationResponse result).

Definition direct_publish_operation (operation_id : string) (b : ReviewOperationRequest) : SE exn W json :=
  let* command := review_command operation_id b in
  let* result := sv_direct_publish_operation services command in
  ret (DirectPublishOperationResponse result).

Definition submit_version_review (tool_version_id : string) : SE exn W json :=
  sv_submit_version_review services context tool_version_id ;;*
  ret (JObj [("status", JStr "review")]).

Definition publish_tool_route (tool_id tool_version_id : string) (b : PublishToolRequest) : SE exn W json :=
  let* result := sv_publish_tool services
    (mkPublishCommand context tool_id tool_version_id (pq_expected_schema_digest b)
       (pq_expected_binding_digest b)) in
  ret (PublishToolResponse result).

Definition search_catalog (query_text : string) (limit : Z) : SE exn W json :=
  let* hits := sv_search_tools services (mkSearchQuery context query_text limit None None None) in
  ret (JArr (map SearchToolResponse hits)).

Definition get_index_status (offset limit : Z) : SE exn W json :=
  let* snapshot := sv_inspect_search_index services (ctx_tenant_id context) in
  ret (index_status_response snapshot offset limit).

(** The job is run after the response was sent. *)
Definition create_reindex_job_route (b : CreateToolSearchReindexJobRequest) : SE exn W RouteAnswer :=
  let* job := sv_create_reindex_job services context (jq_force b) (jq_batch_size b) in
  ret (mkAnswer (reindex_job_response job) (Some (ctx_tenant_id context, rj_id job))).

Definition list_reindex_jobs_route (offset limit : Z) : SE exn W json :=
  let* found := sv_list_reindex_jobs services (ctx_tenant_id context) offset limit in
  ret (JObj [("items", JArr (map reindex_job_response found.1));
             ("page", PageMetadata offset limit found.2)]).

Definition get_reindex_job_route (job_id : string) : SE exn W json :=
  let* job := sv_get_reindex_job services (ctx_tenant_id context) job_id in
  ret (reindex_job_response job).

(** An optional field of an enumeration. *)
Definition optional_enum {E} `{StrEnum E} (text : option string) : res (option E) :=
  match text with
  | None => Ok None
  | Some s => let? e := enum_of s in Ok (Some e)
  end.

Definition search_tool_candidates (q : SearchLabRequest) : SE exn W json :=
  match sv_search_lab services with
  | None => raise (Nexus FeatureNotEnabledError)
  | Some search =>
      let* mode := lift (enum_of (lb_retrieval_mode q)) in
      let* side_effect := lift (optional_enum (lb_side_effect q)) in
      let* result := search (mkSearchToolsQuery context (lb_text q) mode (lb_limit q) (lb_namespace q)
                               side_effect None) in
      lift (SearchLabResponse result)
  end.

Definition get_approval_route (approval_id : string) : SE exn W json :=
  let* approval := sv_get_approval services context approval_id in
  ret (approval_response approval).
Definition decide_approval_route (approved : bool) (approval_id : string) : SE exn W json :=
  let* approval := sv_decide_approval services (mkDecideApproval context approval_id approved) in
  ret (approval_response approval).

(** The route exists in a composition with a demo workspace only. *)
Definition reset_demo_workspace : SE exn W json :=
  match sv_reset_demo_workspace services with
  | None => raise OtherException
  | Some reset =>
      let* tenant := reset context in
      ret (JObj [("status", JStr "reset"); ("tenant_id", JStr tenant)])
  end.

(** *** [toolset_routes.py] *)

Abbreviation toolsets := (sv_toolsets services).

Definition create_toolset_route (b : CreateToolsetRequest) : SE exn W json :=
  let* mode := lift (enum_of (ctq_discovery_mode b)) in
  let* profile := sv_create toolsets
    (mkCreateToolset context (ctq_slug b) (ctq_name b) (ctq_description b) mode) in
  ret (ToolsetResponse profile).

Definition list_toolsets_route (q : ListToolsetsRequest) : SE exn W json :=
  let* status := lift (optional_enum (ltq_status q)) in
  let* kind := lift (optional_enum (ltq_kind q)) in
  let* mode := lift (optional_enum (ltq_discovery_mode q)) in
  let* page := sv_list toolsets
    (mkListToolsets context (ltq_offset q) (ltq_limit q) (ltq_text q) status kind mode) in
  ret (ToolsetPageResponse page).

Definition get_toolset_route (toolset_id : string) : SE exn W json :=
  let* profile := sv_get toolsets context toolset_id in
  ret (ToolsetResponse profile).

Definition update_toolset_route (toolset_id : string) (b : UpdateToolsetRequest) : SE exn W json :=
  let* mode := lift (enum_of (utq_discovery_mode b)) in
  let* profile := sv_update toolsets
    (mkUpdateToolset context toolset_id (utq_expected_revision b) (utq_name b) (utq_description b) mode) in
  ret (ToolsetResponse profile).

Definition replace_toolset_members_route (toolset_id : string) (b : ReplaceToolsetMembersRequest) :
    SE exn W json :=
  let* profile := sv_replace_members toolsets
    (mkReplaceMembers context toolset_id (rmq_expected_revision b) (rmq_tool_ids b)) in
  ret (ToolsetResponse profile).

Definition replace_toolset_grants_route (toolset_id : string) (b : ReplaceToolsetAccessGrantsRequest) :
    SE exn W json :=
  let* profile := sv_replace_grants toolsets
    (mkReplaceGrants context toolset_id (rgq_expected_revision b) (rgq_principal_ids b)) in
  ret (ToolsetResponse profile).

Definition activate_toolset_route (toolset_id : string) (b : ChangeToolsetStatusRequest) : SE exn W json :=
  let* profile := sv_activate toolsets (mkChangeStatus context toolset_id (csq_expected_revision b)) in
  ret (ToolsetResponse profile).
Definition disable_toolset_route (toolset_id : string) (b : ChangeToolsetStatusRequest) : SE exn W json :=
  let* profile := sv_disable toolsets (mkChangeStatus context toolset_id (csq_expected_revision b)) in
  ret (ToolsetResponse profile).

(** The router: a valid request to its route. *)
Definition answering (m : SE exn W json) : SE exn W RouteAnswer := let* body := m in ret (plain body).

Definition admin_route (r : AdminRequest) : SE exn W RouteAnswer :=
  match r with
  | Read r => answering (λ w, (read_route (sv_queries services w) (ctx_tenant_id context) r, w))
  | PostUpstream b => answering (post_upstream b)
  | PutUpstream id b => answering (put_upstream id b)
  | DisableUpstream id => answering (disable_upstream_route id)
  | SubmitImport b => answering (submit_import b)
  | GetImport id => answering (get_import id)
  | ReviewOperation id b => answering (review_operation id b)
  | DirectPublishOperation id b => answering (direct_publish_operation id b)
  | SubmitVersionReview id => answering (submit_version_review id)
  | PublishTool tool version b => answering (publish_tool_route tool version b)
  | SearchCatalog text limit => answering (search_catalog text limit)
  | GetIndexStatus o l => answering (get_index_status o l)
  | CreateReindexJob b => create_reindex_job_route b
  | ListReindexJobs o l => answering (list_reindex_jobs_route o l)
  | GetReindexJob id => answering (get_reindex_job_route id)
  | SearchLab q => answering (search_tool_candidates q)
  | GetApproval id => answering (get_approval_route id)
  | ApproveCall id => answering (decide_approval_route true id)
  | RejectCall id => answering (decide_approval_route false id)
  | ResetDemo => answering reset_demo_workspace
  | CreateToolset b => answering (create_toolset_route b)
  | ListToolsets q => answering (list_toolsets_route q)
  | GetToolset id => answering (get_toolset_route id)
  | UpdateToolset id b => answering (update_toolset_route id b)
  | ReplaceMembers id b => answering (replace_toolset_members_route id b)
  | ReplaceGrants id b => answering (replace_toolset_grants_route id b)
  | ActivateToolset id b => answering (activate_toolset_route id b)
  | DisableToolset id b => answering (disable_toolset_route id b)
  end.
End Routes.

(** ** The application *)

(** The identity [create_admin_app] is given. *)
Record AdminIdentity := mkAdminIdentity {
  ai_tenant_id : string;
  ai_principal_id : string;
  ai_authn_method : string }.

(** [uuid.uuid4().hex] *)
Definition uuid_hex (u : UUID) : string := hex_text 32 (uuid_int u).

(** The context [bind_admin_context] makes, of two fresh UUIDs. *)
Definition admin_context (identity : AdminIdentity) (fresh : UUID * UUID) : ActorContext :=
  mkActorContext (uuid_str fresh.1) (uuid_hex fresh.2) (ai_tenant_id identity)
    (ai_principal_id identity) (ai_authn_method identity) "agent_service".

(** What the client gets, with the header [X-Request-ID], and what runs after. *)
Record Served := mkServed {
  se_response : HttpResponse;
  se_request_id : string;
  se_background : option background_task }.

Section Application.
Context `{Pydantic} {W : Type} (services : AdminServices W) (identity : AdminIdentity).

(** One request: middleware, validation, route and exception handlers.  An
    exception without a handler goes to the server, which answers 500. *)
Definition admin_app (fresh : UUID * UUID) (r : AdminRequest) : SE exn W Served :=
  let context := admin_context identity fresh in
  let request_id := Some (ctx_request_id context) in
  let* served :=
    match admin_validation r with
    | [] =>
        let* outcome := capture (admin_route services context r) in
        match outcome with
        | Ok answer => ret (mkResponse (success_status r) APPLICATION_JSON (an_body answer),
                            an_background answer)
        | Raise x =>
            let* response := lift (handle_exceptions request_id (Raise x)) in
            ret (response, None)
        end
    | items => ret (request_validation_error_handler request_id items, None)
    end in
  ret (mkServed served.1 (ctx_request_id context) served.2).

(** The background task of a response; its exceptions reach nobody. *)
Definition run_background (task : option background_task) : SE exn W unit :=
  match task with
  | None => ret tt
  | Some (tenant_id, job_id) => capture (sv_run_reindex_job services tenant_id job_id) ;;* ret tt
  end.
End Application.

(** ** The composition ([bootstrap/app.py]) *)

(** The stores behind the services, one unit of work each. *)
Record admin_store := mkAdminStore {
  am_imports : import_store;
  am_approvals : approval_store;
  am_toolsets : toolset_store;
  am_search : search_db }.

(** A use case on its own stores, with its units of work. *)
Definition zoom {D D' A} (get : D → D') (put : D' → D → D) (m : M D' A) : M D A := λ s,
  let '(r, s') := m (St (get (store s)) None (environment s)) in
  (r, St (put (store s') (store s)) (working s) (environment s')).

Definition on_imports {A} : M import_store A → M admin_store A :=
  zoom am_imports (λ x d, mkAdminStore x (am_approvals d) (am_toolsets d) (am_search d)).
Definition on_approvals {A} : M approval_store A → M admin_store A :=
  zoom am_approvals (λ x d, mkAdminStore (am_imports d) x (am_toolsets d) (am_search d)).
Definition on_toolsets {A} : M toolset_store A → M admin_store A :=
  zoom am_toolsets (λ x d, mkAdminStore (am_imports d) (am_approvals d) x (am_search d)).
Definition on_search {A} : M search_db A → M admin_store A :=
  zoom am_search (λ x d, mkAdminStore (am_imports d) (am_approvals d) (am_toolsets d) x).

(** [ResetDemoWorkspace.execute] *)
Definition execute_reset {W} (reset : string → SE exn W unit)
    (after_reset : option (string → SE exn W unit)) (ctx : ActorContext) : SE exn W string :=
  reset (ctx_tenant_id ctx) ;;*
  match after_reset with Some f => f (ctx_tenant_id ctx) | None => ret tt end ;;*
  ret (ctx_tenant_id ctx).

(** What the composition takes from outside: the rows the read port sees, the
    readers of published tools, the embedding service behind the searches, the
    documents, the egress policy and the demo workspace. *)
Record AdminSetup := mkAdminSetup {
  su_queries : st admin_store → ControlPlaneQueryPort;
  su_published : list PublishedTool;
  su_search : SearchToolsDeps;
  su_reindexer : Reindexer;
  su_embedding_available : bool;
  su_demo : option (string → M admin_store unit) }.

Section Composition.
Context `{Ports} `{EndpointPolicy} `{DocumentReader} (setup : AdminSetup).

Definition memory_toolset_services : ToolsetAdminServices (st admin_store) := {|
  sv_create c := on_toolsets (create_toolset c);
  sv_list q := on_toolsets (list_toolsets q);
  sv_get ctx id := on_toolsets (get_toolset_profile ctx id);
  sv_update c := on_toolsets (update_toolset c);
  sv_replace_members c := on_toolsets (replace_toolset_members c);
  sv_replace_grants c := on_toolsets (replace_toolset_grants c);
  sv_activate c := on_toolsets (activate_toolset c);
  sv_disable c := on_toolsets (disable_toolset c) |}.

Definition memory_services : AdminServices (st admin_store) :=
  let x := su_reindexer setup in {|
  sv_register_upstream c := on_imports (register_upstream c);
  sv_update_upstream c := on_imports (update_upstream c);
  sv_disable_upstream ctx id := on_imports (disable_upstream ctx id);
  sv_queries := su_queries setup;
  sv_import_openapi c := on_imports (import_openapi c);
  sv_get_openapi_import ctx id := on_imports (get_openapi_import ctx id);
  sv_review_operation c := on_imports (review_imported_operation c);
  sv_direct_publish_operation c := on_imports (direct_publish c);
  sv_submit_version_review ctx id := on_imports (submit_tool_version_for_review ctx id);
  sv_publish_tool c := on_imports (publish_tool c);
  sv_search_tools q := lift (search_published_tools q (su_published setup));
  sv_search_lab := Some (λ q, lift (search_tools (su_search setup) q));
  sv_inspect_search_index tenant_id :=
    on_search (inspect_index x (su_embedding_available setup) tenant_id);
  sv_create_reindex_job ctx force batch_size :=
    on_search (create_reindex_job (rx_embedding_model x) (rx_embedding_dimensions x)
                 (su_embedding_available setup) ctx force batch_size);
  sv_run_reindex_job tenant_id job_id := on_search (run_reindex_job x tenant_id job_id);
  sv_get_reindex_job tenant_id job_id := on_search (get_reindex_job tenant_id job_id);
  sv_list_reindex_jobs tenant_id offset limit :=
    on_search (list_recent tenant_id (Z.to_nat offset) (Z.to_nat limit));
  sv_decide_approval c := on_approvals (decide_approval c);
  sv_get_approval ctx id := on_approvals (get_approval ctx id);
  sv_toolsets := memory_toolset_services;
  sv_reset_demo_workspace := (λ reset, execute_reset reset None) <$> su_demo setup |}.
End Composition.

(** ** Only the configured identity acts *)

(** Services that refuse a context unless it satisfies [ok]. *)
Section Guard.
Context {W : Type} (ok : ActorContext → bool) (tenant_ok : string → bool).

Definition only_if {A} (c : bool) (m : SE exn W A) : SE exn W A :=
  if c then m else raise (RuntimeError "call for another identity").
Definition pure_only_if {A} (c : bool) (r : res A) : res A :=
  if c then r else Raise (RuntimeError "read of another tenant").

Definition guard_queries (q : ControlPlaneQueryPort) : ControlPlaneQueryPort := {|
  q_dashboard t := pure_only_if (tenant_ok t) (q_dashboard q t);
  q_get_upstream t id := pure_only_if (tenant_ok t) (q_get_upstream q t id);
  q_list_upstreams t o l a b := pure_only_if (tenant_ok t) (q_list_upstreams q t o l a b);
  q_list_imports t o l a b := pure_only_if (tenant_ok t) (q_list_imports q t o l a b);
  q_list_review_operations t o l a b c :=
    pure_only_if (tenant_ok t) (q_list_review_operations q t o l a b c);
  q_list_tools t o l f := pure_only_if (tenant_ok t) (q_list_tools q t o l f);
  q_get_tool t id := pure_only_if (tenant_ok t) (q_get_tool q t id);
  q_list_tool_versions t id o l := pure_only_if (tenant_ok t) (q_list_tool_versions q t id o l);
  q_get_tool_binding t id := pure_only_if (tenant_ok t) (q_get_tool_binding q t id);
  q_get_tool_version t id := pure_only_if (tenant_ok t) (q_get_tool_version q t id);
  q_get_tool_version_binding t id := pure_only_if (tenant_ok t) (q_get_tool_version_binding q t id);
  q_list_approvals t o l a b c := pure_only_if (tenant_ok t) (q_list_approvals q t o l a b c);
  q_list_executions t o l a b c d := pure_only_if (tenant_ok t) (q_list_executions q t o l a b c d);
  q_get_execution t id := pure_only_if (tenant_ok t) (q_get_execution q t id);
  q_list_execution_attempts t id o l :=
    pure_only_if (tenant_ok t) (q_list_execution_attempts q t id o l);
  q_list_audit_events t o l a b c d e :=
    pure_only_if (tenant_ok t) (q_list_audit_events q t o l a b c d e);
  q_search_projection_status t := pure_only_if (tenant_ok t) (q_search_projection_status q t) |}.

Definition guard_toolsets (s : ToolsetAdminServices W) : ToolsetAdminServices W := {|
  sv_create c := only_if (ok (ct_context c)) (sv_create s c);
  sv_list q := only_if (ok (lq_context q)) (sv_list s q);
  sv_get ctx id := only_if (ok ctx) (sv_get s ctx id);
  sv_update c := only_if (ok (ut_context c)) (sv_update s c);
  sv_replace_members c := only_if (ok (rm_context c)) (sv_replace_members s c);
  sv_replace_grants c := only_if (ok (rg_context c)) (sv_replace_grants s c);
  sv_activate c := only_if (ok (cts_context c)) (sv_activate s c);
  sv_disable c := only_if (ok (cts_context c)) (sv_disable s c) |}.

Definition guard_services (s : AdminServices W) : AdminServices W := {|
  sv_register_upstream c := only_if (ok (ru_context c)) (sv_register_upstream s c);
  sv_update_upstream c := only_if (ok (uu_context c)) (sv_update_upstream s c);
  sv_disable_upstream ctx id := only_if (ok ctx) (sv_disable_upstream s ctx id);
  sv_queries w := guard_queries (sv_queries s w);
  sv_import_openapi c := only_if (ok (ic_context c)) (sv_import_openapi s c);
  sv_get_openapi_import ctx id := only_if (ok ctx) (sv_get_openapi_import s ctx id);
  sv_review_operation c := only_if (ok (OpenApiReview.rc_context c)) (sv_review_operation s c);
  sv_direct_publish_operation c := only_if (ok (OpenApiReview.rc_context c)) (sv_direct_publish_operation s c);
  sv_submit_version_review ctx id := only_if (ok ctx) (sv_submit_version_review s ctx id);
  sv_publish_tool c := only_if (ok (pc_context c)) (sv_publish_tool s c);
  sv_search_tools q := only_if (ok (sq_context q)) (sv_search_tools s q);
  sv_search_lab := (λ f q, only_if (ok (stq_context q)) (f q)) <$> sv_search_lab s;
  sv_inspect_search_index t := only_if (tenant_ok t) (sv_inspect_search_index s t);
  sv_create_reindex_job ctx force n := only_if (ok ctx) (sv_create_reindex_job s ctx force n);
  sv_run_reindex_job t id := only_if (tenant_ok t) (sv_run_reindex_job s t id);
  sv_get_reindex_job t id := only_if (tenant_ok t) (sv_get_reindex_job s t id);
  sv_list_reindex_jobs t o l := only_if (tenant_ok t) (sv_list_reindex_jobs s t o l);
  sv_decide_approval c := only_if (ok (da_context c)) (sv_decide_approval s c);
  sv_get_approval ctx id := only_if (ok ctx) (sv_get_approval s ctx id);
  sv_toolsets := guard_toolsets (sv_toolsets s);
  sv_reset_demo_workspace := (λ f ctx, only_if (ok ctx) (f ctx)) <$> sv_reset_demo_workspace s |}.
End Guard.

Section Identity.
Context `{Pydantic} {W : Type} (services : AdminServices W) (identity : AdminIdentity).

Definition identity_ok (ctx : ActorContext) : bool :=
  bool_decide (ctx_tenant_id ctx = ai_tenant_id identity)
  && bool_decide (ctx_principal_id ctx = ai_principal_id identity)
  && bool_decide (ctx_authn_method ctx = ai_authn_method identity).
Definition identity_tenant (tenant_id : string) : bool := bool_decide (tenant_id = ai_tenant_id identity).

Abbreviation guarded := (guard_services identity_ok identity_tenant services).

Lemma identity_context fresh : identity_ok (admin_context identity fresh) = true.
Proof. unfold identity_ok. simpl. by rewrite !bool_decide_true. Qed.

Lemma identity_tenant_true : identity_tenant (ai_tenant_id identity) = true.
Proof. by apply bool_decide_true. Qed.

Lemma guarded_read q r :
  read_route (guard_queries identity_tenant q) (ai_tenant_id identity) r
  = read_route q (ai_tenant_id identity) r.
Proof.
  destruct r; simpl;
    unfold get_dashboard, get_upstream_route, list_upstreams_route, list_imports_route,
      list_review_operations_route, list_tools_route, get_tool_route, list_tool_versions_route,
      get_tool_version_route, get_tool_version_binding_route, get_tool_binding_route,
      list_approvals_route, list_executions_route, get_execution_route,
      list_execution_attempts_route, list_audit_events_route, get_search_projection_status;
    simpl; unfold pure_only_if; by rewrite identity_tenant_true.
Qed.

Lemma guarded_route fresh r w :
  admin_route guarded (admin_context identity fresh) r w
  = admin_route services (admin_context identity fresh) r w.
Proof.
  assert (Hc := identity_context fresh).
  destruct r; cbn [admin_route];
    try (unfold answering; unfold bind; cbn; by rewrite guarded_read);
    unfold answering, post_upstream, put_upstream, disable_upstream_route, submit_import, get_import,
      review_operation, direct_publish_operation, review_command, submit_version_review,
      publish_tool_route, search_catalog, get_index_status, create_reindex_job_route,
      list_reindex_jobs_route, get_reindex_job_route, search_tool_candidates, get_approval_route,
      decide_approval_route, reset_demo_workspace, create_toolset_route, list_toolsets_route,
      get_toolset_route, update_toolset_route, replace_toolset_members_route,
      replace_toolset_grants_route, activate_toolset_route, disable_toolset_route.
  all: unfold bind, only_if, lift; cbn -[identity_ok identity_tenant admin_context];
    change (ctx_tenant_id (admin_context identity fresh)) with (ai_tenant_id identity);
    rewrite ?Hc, ?identity_tenant_true; try reflexivity.
  all: try (destruct (sv_search_lab services); [|reflexivity]);
    try (destruct (sv_reset_demo_workspace services); [|reflexivity]);
    cbn -[identity_ok identity_tenant admin_context];
    repeat match goal with
    | |- context [enum_of ?t] => destruct (enum_of t); cbn -[identity_ok identity_tenant admin_context]
    | |- context [optional_enum ?t] =>
        destruct (optional_enum t); cbn -[identity_ok identity_tenant admin_context]
    end;
    rewrite ?Hc; reflexivity.
Qed.

Lemma answering_background (m : SE exn W json) w a w' :
  answering m w = (Ok a, w') → an_background a = None.
Proof.
  unfold answering, bind. destruct (m w) as [[body|x] w1]; [|done]. by intros [= <- _].
Qed.

Lemma route_background context r w a w' t id :
  admin_route services context r w = (Ok a, w') → an_background a = Some (t, id) →
  t = ctx_tenant_id context.
Proof.
  destruct r; cbn [admin_route]; intros Hr Hb;
    try (apply answering_background in Hr; congruence).
  unfold create_reindex_job_route, bind in Hr.
  destruct (sv_create_reindex_job services _ _ _ w) as [[job|x] w1]; [|done].
  injection Hr as <- _. by injection Hb as <- _.
Qed.

(** The administration acts as its configured identity only.  Whatever a
    client sends, the application behaves the same over services that refuse
    every call whose context has another tenant, principal or authentication
    method, and every read and background job of another tenant: no request
    makes a use case act for somebody else. *)
Theorem only_configured_identity_acts fresh r w :
  admin_app guarded identity fresh r w = admin_app services identity fresh r w ∧
  let '(outcome, w') := admin_app services identity fresh r w in
  match outcome with
  | Ok served => run_background guarded (se_background served) w'
                 = run_background services (se_background served) w'
  | Raise _ => True
  end.
Proof.
  split.
  { unfold admin_app. destruct (admin_validation r); [|reflexivity].
    unfold bind, capture. by rewrite guarded_route. }
  unfold admin_app. destruct (admin_validation r) as [|i l]; [|done].
  unfold bind, capture, ret, lift.
  destruct (admin_route services (admin_context identity fresh) r w) as [[a|x] w1] eqn:Hr.
  - cbn [se_background fst snd]. unfold run_background.
    destruct (an_background a) as [[t id]|] eqn:Hb; [|done].
    assert (t = ai_tenant_id identity) as -> by exact (route_background _ _ _ _ _ _ _ Hr Hb).
    cbn [sv_run_reindex_job guard_services]. unfold only_if. by rewrite identity_tenant_true.
  - destruct (handle_exceptions _ _); done.
Qed.
End Identity.

(** ** Problems have declared statuses *)

Section Declared.
Context `{Pydantic} `{Ports} `{EndpointPolicy} `{DocumentReader} (setup : AdminSetup)
  (identity : AdminIdentity).

Abbreviation services := (memory_services setup).

(** The routes whose use cases raise nothing but what they declare. *)
Definition conforming (r : AdminRequest) : bool :=
  match r with
  | GetImport _ | SubmitVersionReview _ | GetApproval _ | ApproveCall _ | RejectCall _
  | CreateReindexJob _ | ListReindexJobs _ _ | GetReindexJob _
  | CreateToolset _ | ListToolsets _ | GetToolset _ | UpdateToolset _ _ | ReplaceMembers _ _
  | ReplaceGrants _ _ | ActivateToolset _ _ | DisableToolset _ _ => true
  | _ => false
  end.

Lemma raises_zoom {D D' A} P (get : D → D') put (m : M D' A) :
  raises P m → raises P (zoom get put m).
Proof.
  intros Hm s n s'. unfold zoom. destruct (m _) as [r s1] eqn:E. intros [= -> _]. by eapply Hm.
Qed.

Lemma raises_zoom_at {D D' A} P (get : D → D') put (m : M D' A) :
  (∀ d e n s', m (St d None e) = (Raise (Nexus n), s') → P n) → raises P (zoom get put m).
Proof.
  intros Hm s n s'. unfold zoom. destruct (m _) as [r s1] eqn:E. intros [= -> _]. by eapply Hm.
Qed.

Definition status_in (statuses : list Z) (n : nexus_error) : Prop := http_status_for n ∈ statuses.

(** A list of errors whose statuses are all declared. *)
Lemma among_status {W A} l statuses (m : SE exn W A) :
  forallb (λ n, bool_decide (http_status_for n ∈ statuses)) l = true →
  raises (among l) m → raises (status_in statuses) m.
Proof.
  rewrite forallb_forall. intros Hl. apply raises_weaken. intros n Hn.
  eapply bool_decide_eq_true_1, Hl. by apply list_elem_of_In.
Qed.

Lemma answering_raises {W} P (m : SE exn W json) : raises P m → raises P (answering m).
Proof. intros Hm. unfold answering. apply raises_bind; [exact Hm|]. intros b. apply raises_ret. Qed.

Lemma enum_of_raises {E} `{StrEnum E} P text : raises_pure P (enum_of text).
Proof. unfold enum_of. raises_auto. Qed.
Lemma optional_enum_raises {E} `{StrEnum E} P text : raises_pure P (optional_enum (E := E) text).
Proof. unfold optional_enum. raises_auto. apply enum_of_raises. Qed.

Lemma use_case_status {A} (use_case : SE exn (st admin_store) A) (body : A → json) l statuses :
  forallb (λ n, bool_decide (http_status_for n ∈ statuses)) l = true →
  raises (among l) use_case →
  raises (status_in statuses) (answering (let* a := use_case in ret (body a))).
Proof.
  intros Hl Hu. apply answering_raises, raises_bind; [by eapply among_status|].
  intros a. apply raises_ret.
Qed.

(** A route whose first step checks an enumeration. *)
Lemma answering_lift {W A} P (r : res A) (k : A → SE exn W json) :
  raises_pure P r → (∀ a, raises P (answering (k a))) → raises P (answering (let* a := lift r in k a)).
Proof.
  intros Hr Hk s n s'. unfold answering, bind, lift. destruct r as [a|x]; [apply Hk|].
  intros [= -> _]. by apply Hr.
Qed.

Lemma conforming_raises context r :
  conforming r = true →
  raises (status_in (documented_statuses (admin_problems r))) (admin_route services context r).
Proof.
  intros Hr. destruct (toolset_commands_raise (D := toolset_store)) as (Hu & Hm & Hg & Ha & Hd).
  destruct r; try discriminate Hr; cbn [admin_route]; clear Hr.
  all: repeat (first [apply answering_lift; [first [apply enum_of_raises|apply optional_enum_raises]|intros ?]]).
  all: try (eapply use_case_status; [|apply raises_zoom; solve
    [ apply get_openapi_import_raises | apply submit_review_raises | apply get_approval_raises
    | apply decide_approval_raises | apply get_reindex_job_raises
    | apply (list_recent_raises (among []))
    | apply (list_toolsets_raises (among [])) | apply get_toolset_raises
    | apply Hu | apply Hm | apply Hg | apply Ha | apply Hd ]]; reflexivity).
  - unfold create_reindex_job_route. apply raises_bind; [|intros ?; apply raises_ret].
    eapply among_status; [|apply raises_zoom, create_reindex_job_raises]. reflexivity.
  - apply (use_case_status _ ToolsetResponse [InvalidArgumentsError; ToolsetConflictError]); [reflexivity|].
    apply raises_zoom_at. intros d e n s' Hn. unfold among.
    apply create_toolset_answers in Hn as [[p [=]]|[[= <-]|[= <-]]]; set_solver.
Qed.

(** Problems have the statuses the contract declares.  Of the sixteen routes
    over imports, reviews, approvals, reindex jobs and toolsets listed in
    [conforming], every response to every request in every state is the route's
    success, the 422 problem of an invalid request, or a problem whose status
    the route's OpenAPI contract declares. *)
Theorem problems_are_declared fresh r s served s' :
  conforming r = true → admin_app services identity fresh r s = (Ok served, s') →
  hr_status (se_response served) = success_status r ∧ admin_validation r = []
  ∨ hr_status (se_response served) ∈ documented_statuses (admin_problems r)
    ∧ hr_media_type (se_response served) = PROBLEM_JSON.
Proof.
  intros Hr. unfold admin_app. destruct (admin_validation r) as [|i l] eqn:Hv.
  2: { intros [= <- _]. right. simpl. split; [|done]. apply documented_iff. by left. }
  unfold bind, capture, ret, lift.
  destruct (admin_route services (admin_context identity fresh) r s) as [[a|x] s1] eqn:E.
  { intros [= <- _]. by left. }
  destruct x as [| | | | | | | |n]; try discriminate. intros [= <- _]. right. simpl.
  split; [|done]. exact (conforming_raises _ _ Hr _ _ _ E).
Qed.
End Declared.

(** ** Toolset requests are always answered *)

Section Answered.
Context `{Pydantic} `{Ports} `{EndpointPolicy} `{DocumentReader} (setup : AdminSetup)
  (identity : AdminIdentity).

Abbreviation services := (memory_services setup).
Abbreviation toolsets_of s := (tst_toolsets (am_toolsets (store s))).

Definition is_toolset_request (r : AdminRequest) : bool :=
  match r with
  | CreateToolset _ | ListToolsets _ | GetToolset _ | UpdateToolset _ _ | ReplaceMembers _ _
  | ReplaceGrants _ _ | ActivateToolset _ _ | DisableToolset _ _ => true
  | _ => false
  end.

(** Only an answer or one of the program's own errors. *)
Definition typed {A} (r : res A) : Prop := (∃ a, r = Ok a) ∨ ∃ n, r = Raise (Nexus n).

Lemma typed_answering {W A} (use_case : SE exn W A) (body : A → json) s :
  typed (use_case s).1 → typed (answering (let* a := use_case in ret (body a)) s).1.
Proof.
  unfold answering, bind, ret. destruct (use_case s) as [r s1]. simpl.
  intros [[a ->]|[n ->]]; [left|right]; by eexists.
Qed.

Lemma typed_lift {W A} (r : res A) (k : A → SE exn W json) a s :
  r = Ok a → typed (answering (k a) s).1 → typed (answering (let* a := lift r in k a) s).1.
Proof. by intros ->. Qed.

Lemma typed_toolsets {A} (m : M toolset_store A) s :
  (∀ r s', m (St (am_toolsets (store s)) None (environment s)) = (r, s') → typed r) →
  typed (on_toolsets m s).1.
Proof.
  intros Hm. unfold on_toolsets, zoom. destruct (m _) as [r s1] eqn:E. by eapply Hm.
Qed.

Lemma typed_command c s :
  toolsets_ok (toolsets_of s) → typed (on_toolsets (run_command c) s).1.
Proof. intros Hok. apply typed_toolsets. intros r s'. by apply toolset_command_answers. Qed.

Lemma valid_enum {E} `{StrEnum E} loc text :
  check_at loc [(OneOf (map enum_value (enum_members (A := E))), enum_check E text)] = [] →
  ∃ e : E, enum_of text = Ok e.
Proof. rewrite check_at_nil, Forall_cons. intros [He _]. by apply enum_check_iff in He. Qed.

Lemma valid_optional {E} `{StrEnum E} name text :
  enum_query E name text = [] → ∃ e : option E, optional_enum text = Ok e.
Proof.
  destruct text as [s|]; [|by exists None].
  intros [e He]%valid_enum. exists (Some e). unfold optional_enum. by rewrite He.
Qed.

Lemma toolset_route_typed context r s :
  is_toolset_request r = true → admin_validation r = [] → toolsets_ok (toolsets_of s) →
  typed (admin_route services context r s).1.
Proof.
  intros Hr Hv Hok.
  destruct r; try discriminate Hr; clear Hr; cbn [admin_route admin_validation] in *.
  - unfold valid_create_toolset in Hv. rewrite !app_nil in Hv. destruct Hv as (_ & _ & [m Hm]%valid_enum).
    eapply typed_lift; [exact Hm|]. apply typed_answering, typed_toolsets.
    intros r s' [[p ->]|[->| ->]]%create_toolset_answers; [left|right..]; by eexists.
  - unfold valid_list_toolsets in Hv. rewrite !app_nil in Hv.
    destruct Hv as (_ & _ & [st Hst]%valid_optional & [k Hk]%valid_optional & [m Hm]%valid_optional).
    eapply typed_lift; [exact Hst|]. eapply typed_lift; [exact Hk|]. eapply typed_lift; [exact Hm|].
    apply typed_answering, typed_toolsets. intros r s'.
    match goal with |- list_toolsets ?q (St ?d None ?e) = _ → _ =>
      destruct (list_toolsets_answers q d e) as [p ->] end.
    intros [= <- _]. left. by eexists.
  - apply typed_answering, typed_toolsets. intros r s' [[p ->]| ->]%get_toolset_answers; [left|right];
      by eexists.
  - unfold valid_update_toolset in Hv. rewrite !app_nil in Hv. destruct Hv as (_ & _ & [m Hm]%valid_enum).
    eapply typed_lift; [exact Hm|]. apply typed_answering.
    exact (typed_command (CmdUpdate (mkUpdateToolset context toolset_id (utq_expected_revision b)
      (utq_name b) (utq_description b) m)) s Hok).
  - apply typed_answering. exact (typed_command (CmdMembers (mkReplaceMembers context toolset_id
      (rmq_expected_revision b) (rmq_tool_ids b))) s Hok).
  - apply typed_answering. exact (typed_command (CmdGrants (mkReplaceGrants context toolset_id
      (rgq_expected_revision b) (rgq_principal_ids b))) s Hok).
  - apply typed_answering. exact (typed_command (CmdActivate (mkChangeStatus context toolset_id
      (csq_expected_revision b))) s Hok).
  - apply typed_answering. exact (typed_command (CmdDisable (mkChangeStatus context toolset_id
      (csq_expected_revision b))) s Hok).
Qed.

(** Every toolset request is answered.  Over well-formed toolsets, which
    every sequence of toolset transactions keeps, no request to the eight
    toolset routes, valid or not, ends in an exception: the client gets the
    route's success, or a problem whose status the route declares. *)
Theorem toolset_requests_answered fresh r s :
  is_toolset_request r = true → toolsets_ok (toolsets_of s) →
  ∃ served s', admin_app services identity fresh r s = (Ok served, s') ∧
    (hr_status (se_response served) = success_status r
     ∨ hr_status (se_response served) ∈ documented_statuses (admin_problems r)).
Proof.
  intros Hr Hok. unfold admin_app. destruct (admin_validation r) as [|i l] eqn:Hv.
  2: { eexists _, _. split; [reflexivity|]. right. apply documented_iff. by left. }
  pose proof (toolset_route_typed (admin_context identity fresh) r s Hr Hv Hok) as Ht.
  unfold bind, capture, ret, lift.
  destruct (admin_route services (admin_context identity fresh) r s) as [o s1] eqn:E. simpl in Ht.
  destruct Ht as [[a ->]|[n ->]]; simpl; eexists _, _; (split; [reflexivity|]); [by left|right].
  simpl. exact (conforming_raises setup _ r ltac:(by destruct r) _ _ _ E).
Qed.
End Answered.

(** ** A posted reindex job is run and settles *)

Section Reindex.
Context `{Pydantic} `{Ports} `{EndpointPolicy} `{DocumentReader} (setup : AdminSetup)
  (identity : AdminIdentity).

Abbreviation services := (memory_services setup).
Abbreviation jobs_of s := (SearchIndex.db_jobs (am_search (store s))).

Lemma create_reindex_job_run model dimensions available ctx force batch_size d e job s' :
  create_reindex_job model dimensions available ctx force batch_size (St d None e) = (Ok job, s') →
  rj_tenant_id job = ctx_tenant_id ctx ∧ rj_status job = SearchIndex.JobPending ∧
  rj_force job = force ∧ rj_batch_size job = batch_size ∧
  ∃ e', s' = St (SearchIndex.with_jobs (dset (rj_id job) job (SearchIndex.db_jobs d)) d) None e'.
Proof.
  unfold create_reindex_job. unfold bind at 1, lift at 1. destruct (raise_if _ _) as [[]|]; [|done].
  unfold bind at 1, lift at 1. destruct (raise_if _ _) as [[]|]; [|done].
  unfold bind at 1, new_id. unfold bind at 1, now. cbn [store working environment ticks issued io_log].
  unfold bind at 1. destruct (store_create _ _) as [rc sc] eqn:Hc.
  apply store_create_run in Hc as [(-> & _ & _ & _ & ->)|(y & -> & _)]; [|done].
  intros [= <- <-]. split_and!; try done. by eexists.
Qed.

(** What became of a job that was run once. *)
Definition settled (j : ToolSearchReindexJob) : Prop :=
  rj_status j = JobSucceeded ∨ rj_status j = SearchIndex.JobFailed.

Lemma run_pending_job x tenant id d e r s' job :
  NoDup (pt_tool_version_id <$> published_of x tenant) →
  dget id (SearchIndex.db_jobs d) = Some job → rj_tenant_id job = tenant → rj_status job = SearchIndex.JobPending →
  run_reindex_job x tenant id (St d None e) = (r, s') →
  ∃ j, dget id (SearchIndex.db_jobs (store s')) = Some j ∧
    (r = Ok tt ∧ settled j ∨
     r = Raise CancelledError ∧ rj_status j = JobRunning).
Proof.
  intros Hn Hj Ht Hp Hr. apply run_reindex_job_settles in Hr; [|done].
  replace (locked_job tenant id (SearchIndex.db_jobs d)) with (Some job) in Hr.
  2: { unfold locked_job. rewrite Hj. by rewrite bool_decide_true. }
  rewrite decide_True in Hr by done.
  destruct Hr as (outcome & t1 & t2 & d1 & d' & e1 & e' & _ & -> & _ & Hout).
  destruct outcome as [a|y]; [|destruct (is_exception y) eqn:Ey].
  - destruct Hout as [-> Hd]. eexists. split; [exact Hd|]. left. split; [done|]. by left.
  - destruct Hout as [-> Hd]. eexists. split; [exact Hd|]. left. split; [done|]. by right.
  - destruct Hout as [-> Hd]. eexists. split; [exact Hd|]. right. destruct y; try discriminate Ey. done.
Qed.

(** A posted reindex job is run after its response and settles.  When the
    route answers 202, the response's background task names the job it stored,
    which waits as PENDING under the caller's tenant with the requested force
    flag and batch size; running the task leaves that job SUCCEEDED or FAILED.
    Only a cancellation of the task leaves it RUNNING.  Any other response has
    no background task. *)
Theorem posted_reindex_settles fresh b s served s1 :
  NoDup (pt_tool_version_id <$> published_of (su_reindexer setup) (ai_tenant_id identity)) →
  admin_app services identity fresh (CreateReindexJob b) s = (Ok served, s1) →
  match se_background served with
  | None => hr_status (se_response served) ≠ 202%Z
  | Some (tenant, id) =>
      hr_status (se_response served) = 202%Z ∧ tenant = ai_tenant_id identity ∧
      (∃ job, dget id (jobs_of s1) = Some job ∧ rj_status job = SearchIndex.JobPending ∧
         rj_tenant_id job = tenant ∧ rj_force job = jq_force b ∧ rj_batch_size job = jq_batch_size b) ∧
      ∀ r s2, sv_run_reindex_job services tenant id s1 = (r, s2) →
        ∃ j, dget id (jobs_of s2) = Some j ∧
          (r = Ok tt ∧ settled j ∨ r = Raise CancelledError ∧ rj_status j = JobRunning)
  end.
Proof.
  intros Hn. unfold admin_app. destruct (admin_validation _) as [|i l]; [|by intros [= <- _]].
  unfold bind, capture, ret, lift. cbn [admin_route]. unfold create_reindex_job_route, bind, ret.
  cbn [sv_create_reindex_job memory_services]. unfold on_search at 1, zoom.
  destruct (create_reindex_job _ _ _ _ _ _ _) as [[job|x] sc] eqn:Hc.
  2: { destruct x; try discriminate. intros [= <- _]. simpl.
       apply create_reindex_job_raises in Hc. unfold among in Hc.
       rewrite !elem_of_cons in Hc. by destruct Hc as [->|[->|[]%elem_of_nil]]. }
  apply create_reindex_job_run in Hc as (Ht & Hp & Hf & Hb & e' & ->).
  intros [= <- <-]. cbn [se_background se_response hr_status fst snd].
  assert (Hget : dget (rj_id job) (dset (rj_id job) job (SearchIndex.db_jobs (am_search (store s)))) = Some job)
    by apply dget_dset_eq.
  split_and!; [done|done|by exists job|].
  intros r s2. cbn [sv_run_reindex_job memory_services]. unfold on_search, zoom.
  destruct (run_reindex_job _ _ _ _) as [rr sr] eqn:Hrun. intros [= <- <-].
  cbn [store am_search]. eapply run_pending_job in Hrun; [exact Hrun|done|exact Hget|done|done].
Qed.
End Reindex.

(** ** The search lab *)

Section Lab.
Context `{Pydantic} `{Ports} `{EndpointPolicy} `{DocumentReader} (setup : AdminSetup).

Lemma lab_hits_Ok diagnostics rows :
  (∀ row : nat * ScoredHit, row ∈ rows → is_Some (dget (identity_of row.2) diagnostics)) →
  ∃ l, traverse (λ row : nat * ScoredHit, search_lab_hit diagnostics row.1 row.2) rows = Ok l ∧
    length l = length rows.
Proof.
  induction rows as [|[n h] rows IH]; intros Hd; [by exists []|]. simpl.
  destruct (Hd (n, h)) as [d Eh]; [by left|]. simpl in Eh.
  unfold search_lab_hit at 1. rewrite Eh. simpl.
  destruct IH as (l & -> & Hl); [intros row Hrow; apply Hd; by right|].
  eexists. split; [done|]. simpl. by rewrite Hl.
Qed.

(** The search lab reports every hit it is given.  A valid request gives the
    search the mode and filters it names; where the search answers, so does the
    route, with one entry per hit: no hit lacks the diagnostics the entry reads.
    Where the search raises, the route raises the same. *)
Theorem search_lab_reports_every_hit context q s :
  valid_search_lab q = [] →
  ∃ mode effect, enum_of (lb_retrieval_mode q) = Ok mode ∧ optional_enum (lb_side_effect q) = Ok effect ∧
    let query := mkSearchToolsQuery context (lb_text q) mode (lb_limit q) (lb_namespace q) effect None in
    match search_tools (su_search setup) query with
    | Ok r => ∃ hits, search_tool_candidates (memory_services setup) context q s =
        (Ok (JObj [("retrieval_mode", JStr (enum_value mode)); ("index_version", opt_str (str_index_version r));
                   ("hits", JArr hits)]), s) ∧ length hits = length (str_hits r)
    | Raise x => search_tool_candidates (memory_services setup) context q s = (Raise x, s)
    end.
Proof.
  intros Hv. unfold valid_search_lab in Hv. rewrite !app_nil in Hv.
  destruct Hv as (_ & Hmode & _ & _ & Heff). apply valid_optional in Heff as [effect He].
  unfold enum_query in Hmode. apply valid_enum in Hmode as [mode Hm].
  exists mode, effect. split; [done|]. split; [done|]. intros query.
  unfold search_tool_candidates. cbn [sv_search_lab memory_services]. unfold bind, lift. rewrite Hm, He.
  cbn [fst snd]. fold query. destruct (search_tools (su_search setup) query) as [r|x] eqn:Hs; [|done].
  assert (Hr : str_retrieval_mode r = mode).
  { unfold search_tools in Hs. repeat (apply rbind_Ok_inv in Hs as (? & _ & Hs)). by injection Hs as <-. }
  apply search_tools_run in Hs as (_ & raw & diagnostics & principal & digest & _ & _ & _ & _ & Hd).
  unfold SearchLabResponse.
  destruct (lab_hits_Ok (str_diagnostics r) (zip (seq 1 (length (str_hits r))) (str_hits r))) as (l & -> & Hl).
  { intros [n h] Hrow. apply elem_of_zip_r in Hrow. destruct (Hd h Hrow) as (_ & d & Ed & _). by exists d. }
  simpl. rewrite Hr. exists l. split; [done|]. rewrite Hl, length_zip_with, length_seq. lia.
Qed.
End Lab.

Module AdminExamples.
#[local] Existing Instance ReadExamples.pydantic.
#[local] Existing Instance ReviewExamples.reader.
#[local] Existing Instance sample_ports.
(** A policy that refuses one internal endpoint. *)
#[local] Instance policy : EndpointPolicy := λ _ endpoint,
  raise_if (bool_decide (endpoint = "http://169.254.169.254/")) (Nexus UnsafeUpstreamEndpointError).

Definition identity : AdminIdentity := mkAdminIdentity "tenant" "admin" "local_admin".
Definition fresh : UUID * UUID := (mkUUID 1, mkUUID 2).
Definition setup : AdminSetup :=
  mkAdminSetup (λ _, ReadExamples.port) SearchExamples.tools SearchExamples.deps
    IndexExamples.reindexer true None.
Definition services : AdminServices (st admin_store) := memory_services setup.

Definition remote : UpstreamService :=
  mkUpstream "u2" "tenant" "shop" "Remote" None "team" UpRemoteMcp "streamable_http"
    "https://mcp.example.com" None None None [] UpActive.
Definition start : st admin_store :=
  St (mkAdminStore
        (mkImportStore [] [] (mkCatalogStore [] [] [] [("u1", ReviewExamples.upstream); ("u2", remote)]))
        (mkApprovalStore [] []) (mkToolsetStore [] []) (mkSearchDb ∅ [])) None (Env 0 0 []).

Definition serve (r : AdminRequest) : res Served * st admin_store :=
  admin_app services identity fresh r start.
Definition status_of (r : AdminRequest) : option Z :=
  match (serve r).1 with Ok s => Some (hr_status (se_response s)) | Raise _ => None end.

Definition registration (endpoint : string) : AdminRequest :=
  PostUpstream (mkRegisterRequest "crm" "CRM" None "team" endpoint None [] "http" "http").

Example registered : status_of (registration "https://crm.example.com") = Some 201%Z.
Proof. vm_compute. reflexivity. Qed.

(** Statuses the contracts of the other routes do not declare. *)
Example refused_endpoint :
  status_of (registration "http://169.254.169.254/") = Some 403%Z ∧
  403%Z ∉ documented_statuses (admin_problems (registration "http://169.254.169.254/")).
Proof. split; [vm_compute; reflexivity|]. apply (bool_decide_unpack _). vm_compute. exact I. Qed.

Definition missing_upstream : AdminRequest := SubmitImport (mkImportRequest "nobody" "orders.json" []).
Example import_for_missing_upstream :
  status_of missing_upstream = Some 403%Z ∧
  403%Z ∉ documented_statuses (admin_problems missing_upstream).
Proof. split; [vm_compute; reflexivity|]. apply (bool_decide_unpack _). vm_compute. exact I. Qed.

Example blank_catalog_search :
  status_of (SearchCatalog "   " 10) = Some 400%Z ∧
  400%Z ∉ documented_statuses (admin_problems (SearchCatalog "   " 10)).
Proof. split; [vm_compute; reflexivity|]. apply (bool_decide_unpack _). vm_compute. exact I. Qed.

(** An endpoint [urlsplit] refuses: its [ValueError] has no handler. *)
Example malformed_endpoint_escapes :
  (serve (registration "http://[")).1 = Raise (ValueError "Invalid IPv6 URL").
Proof. vm_compute. reflexivity. Qed.

(** Disabling a remote MCP upstream is committed and then answered with 501. *)
Definition status_in_store (s : st admin_store) (id : string) : option UpstreamStatus :=
  us_status <$> dget id (cs_upstreams (is_catalog (am_imports (store s)))).
Example disabled_but_refused :
  status_of (DisableUpstream "u2") = Some 501%Z ∧
  status_in_store (serve (DisableUpstream "u2")).2 "u2" = Some UpDisabled.
Proof. vm_compute. split; reflexivity. Qed.

Definition create : AdminRequest :=
  CreateToolset (mkCreateToolsetRequest "shop-tools" "Shop" None "direct").
Definition post_job : CreateToolSearchReindexJobRequest := mkReindexRequest false 2.

Lemma toolset_requests_answered_witness :
  ∃ served s', admin_app services identity fresh create start = (Ok served, s') ∧
    hr_status (se_response served) = 201%Z.
Proof.
  destruct (toolset_requests_answered setup identity fresh create start) as (served & s' & Hr & Hs).
  { reflexivity. }
  { exact toolsets_ok_nil. }
  exists served, s'. split; [exact Hr|].
  assert (E : status_of create = Some 201%Z) by (vm_compute; reflexivity).
  unfold status_of, serve, services in E. rewrite Hr in E. cbn [fst] in E. by injection E as ->.
Defined.

Lemma problems_are_declared_witness :
  ∃ served s', admin_app services identity fresh (GetApproval "nothing") start = (Ok served, s') ∧
    hr_status (se_response served) ∈ [404; 422]%Z.
Proof.
  destruct (admin_app services identity fresh (GetApproval "nothing") start) as [r s'] eqn:E.
  assert (Er : ∃ served, r = Ok served ∧ hr_status (se_response served) ≠ 200%Z).
  { assert (E' := f_equal fst E). vm_compute in E'. subst r. eexists. split; [reflexivity|]. discriminate. }
  destruct Er as (served & -> & Hne). exists served, s'. split; [reflexivity|].
  destruct (problems_are_declared setup identity fresh (GetApproval "nothing") start served s')
    as [[H _]|[H _]]; [reflexivity|exact E| |exact H].
  by destruct Hne.
Defined.

Lemma posted_reindex_settles_witness :
  ∃ served s1 id s2 j,
    admin_app services identity fresh (CreateReindexJob post_job) start = (Ok served, s1) ∧
    se_background served = Some ("tenant", id) ∧
    sv_run_reindex_job services "tenant" id s1 = (Ok tt, s2) ∧
    dget id (SearchIndex.db_jobs (am_search (store s2))) = Some j ∧ settled j.
Proof.
  destruct (admin_app services identity fresh (CreateReindexJob post_job) start) as [r s1] eqn:E.
  assert (Er : ∃ served id, r = Ok served ∧ se_background served = Some ("tenant", id)).
  { assert (E' := f_equal fst E). vm_compute in E'. subst r. eexists _, _. split; reflexivity. }
  destruct Er as (served & id & -> & Hb).
  pose proof (posted_reindex_settles setup identity fresh post_job start served s1
    IndexExamples.versions_distinct E) as H. rewrite Hb in H. destruct H as (_ & _ & _ & H).
  destruct (sv_run_reindex_job services "tenant" id s1) as [rr s2] eqn:E2.
  destruct (H rr s2 E2) as (j & Hj & Hs).
  assert (rr = Ok tt) as ->.
  { assert (Hid : id = "a-id") by
      (assert (E' := f_equal fst E); vm_compute in E'; injection E' as <-; by injection Hb as <-).
    subst id. assert (E' := f_equal snd E). vm_compute in E'. subst s1.
    assert (E3 := f_equal fst E2). vm_compute in E3. by subst rr. }
  destruct Hs as [[_ Hs]|[Hs _]]; [|discriminate Hs].
  exists served, s1, id, s2, j. by split_and!.
Defined.

Definition lab_query : SearchLabRequest := mkSearchLabRequest "order" "hybrid" 2 None None.
Lemma search_lab_reports_every_hit_witness :
  valid_search_lab lab_query = [] ∧
  ∃ mode, enum_of (lb_retrieval_mode lab_query) = Ok mode ∧ mode = RetrievalHybrid.
Proof.
  split; [reflexivity|].
  destruct (search_lab_reports_every_hit setup SearchExamples.ctx lab_query start eq_refl)
    as (mode & effect & Hm & _).
  exists mode. split; [exact Hm|]. assert (E := Hm). vm_compute in E. by injection E as <-.
Defined.
End AdminExamples.
