(* ===== verification/RowMapping.v ===== *)
(** * Mapping between the domain and rows

    Models the [sqlalchemy_mapping.py] of every module.  [*_to_model] builds a
    row, its identifiers parsed and its enumerations written; the columns of the
    timestamp mixin, which the mapping leaves to the server, get the database's
    time.  [update_*_model] assigns the columns that may change, [*_from_model]
    builds the entity, whose constructor validates it again.  JSON columns are
    kept as they were given: the database keeps a document up to the order of its
    keys, to which the program's comparisons of documents are indifferent. *)

From Stdlib Require Import ZArith QArith.
From stdpp Require Import base strings option list.
From S2P Require Import Prelude Text Dict Errors Json Store AuditTrail Catalog Connectors Registry.
From S2P Require Import Approval Execution OpenApi Toolsets ToolSearch Uuid Rows.
Open Scope py_scope.

(** ** Optional columns *)

(** [as_uuid(v) if v is not None else None] *)
Definition as_optional_uuid (value : option string) (field_name : string) : res (option UUID) :=
  match value with
  | None => Ok None
  | Some v => let? u := as_uuid v field_name in Ok (Some u)
  end.

(** [str(v) if v is not None else None] *)
Definition optional_str (value : option UUID) : option string := uuid_str <$> value.

(** [E(v) if v is not None else None] *)
Definition optional_member {A} `{StrEnum A} (value : option string) : res (option A) :=
  match value with
  | None => Ok None
  | Some v => let? a := enum_of v in Ok (Some a)
  end.
Definition optional_value {A} `{StrEnum A} (value : option A) : option string :=
  enum_value <$> value.

(** ** [modules/registry] *)

Definition upstream_to_model (db_now : datetime) (u : UpstreamService) : res UpstreamServiceModel :=
  let? id := as_uuid (us_id u) "upstream service id" in
  let? tenant := as_uuid (us_tenant_id u) "tenant id" in
  Ok (mkUpstreamRow id tenant (us_namespace u) (us_name u) (us_description u) (us_owner u)
        (enum_value (us_service_type u)) (us_transport_type u) (us_endpoint u) (us_protocol_min u)
        (us_protocol_max u) (us_auth_scheme u) (us_config u) (enum_value (us_status u)) db_now db_now).

Definition update_upstream_model (r : UpstreamServiceModel) (u : UpstreamService) :
    res UpstreamServiceModel :=
  Ok (mkUpstreamRow (ur_id r) (ur_tenant_id r) (ur_namespace r) (ur_name r) (us_description u)
        (us_owner u) (ur_service_type r) (ur_transport_type r) (us_endpoint u) (us_protocol_min u)
        (us_protocol_max u) (us_auth_scheme u) (us_config u) (enum_value (us_status u))
        (ur_created_at r) (ur_updated_at r)).

Definition upstream_from_model (r : UpstreamServiceModel) : res UpstreamService :=
  let? service_type := enum_of (ur_service_type r) in
  let? status := enum_of (ur_status r) in
  new_upstream
    (mkUpstream (uuid_str (ur_id r)) (uuid_str (ur_tenant_id r)) (ur_namespace r) (ur_name r)
       (ur_description r) (ur_owner r) service_type (ur_transport_type r) (ur_endpoint r)
       (ur_protocol_min r) (ur_protocol_max r) (ur_auth_scheme r) (ur_config_json r) status).

(** ** [modules/catalog] *)

Definition tool_to_model (db_now : datetime) (t : Tool) : res ToolModel :=
  let? id := as_uuid (tool_id t) "tool id" in
  let? tenant := as_uuid (tool_tenant_id t) "tenant id" in
  Ok (mkToolRow id tenant (tool_namespace t) (tool_canonical_name t) (tool_owner t)
        (enum_value (tool_status t)) db_now db_now).

Definition update_tool_model (r : ToolModel) (t : Tool) : res ToolModel :=
  Ok (mkToolRow (tr_id r) (tr_tenant_id r) (tool_namespace t) (tool_canonical_name t) (tool_owner t)
        (enum_value (tool_status t)) (tr_created_at r) (tr_updated_at r)).

Definition tool_from_model (r : ToolModel) : res Tool :=
  let? status := enum_of (tr_status r) in
  new_tool (mkTool (uuid_str (tr_id r)) (uuid_str (tr_tenant_id r)) (tr_namespace r)
              (tr_canonical_name r) (tr_owner r) status).

Record search_fields := mkSearchFields {
  sfd_name : string;
  sfd_tags : string;
  sfd_description : string }.

Definition tool_version_search_fields (v : ToolVersion) (namespace canonical_name : string) :
    search_fields :=
  mkSearchFields
    (str_join " " (filter (λ part, str_empty part = false)
                     [namespace; canonical_name; tv_display_name v]))
    (str_join " " (tv_tags v)) (tv_description v).

Definition tool_version_to_model (namespace canonical_name : string) (db_now : datetime)
    (v : ToolVersion) : res ToolVersionModel :=
  let search := tool_version_search_fields v namespace canonical_name in
  let? id := as_uuid (tv_id v) "tool version id" in
  let? tenant := as_uuid (tv_tenant_id v) "tenant id" in
  let? tool := as_uuid (tv_tool_id v) "tool id" in
  Ok (mkVersionRow id tenant tool (tv_version v) (tv_display_name v) (tv_description v)
        (tv_input_schema v) (tv_output_schema v) (tv_schema_digest v) (tv_tags v)
        (sfd_name search) (sfd_tags search) (sfd_description search)
        (enum_value (tv_side_effect v)) (enum_value (tv_visibility v)) (enum_value (tv_status v))
        (tv_created_by v) (tv_created_at v) (tv_reviewed_at v) (tv_published_at v) (tv_retired_at v)).

Definition update_tool_version_model (namespace canonical_name : string) (r : ToolVersionModel)
    (v : ToolVersion) : res ToolVersionModel :=
  let search := tool_version_search_fields v namespace canonical_name in
  Ok (mkVersionRow (vr_id r) (vr_tenant_id r) (vr_tool_id r) (tv_version v) (tv_display_name v)
        (tv_description v) (tv_input_schema v) (tv_output_schema v) (tv_schema_digest v) (tv_tags v)
        (sfd_name search) (sfd_tags search) (sfd_description search)
        (enum_value (tv_side_effect v)) (enum_value (tv_visibility v)) (enum_value (tv_status v))
        (tv_created_by v) (tv_created_at v) (tv_reviewed_at v) (tv_published_at v) (tv_retired_at v)).

Definition tool_version_from_model (r : ToolVersionModel) : res ToolVersion :=
  let? side_effect := enum_of (vr_side_effect r) in
  let? visibility := enum_of (vr_visibility r) in
  let? status := enum_of (vr_status r) in
  new_tool_version
    (mkToolVersion (uuid_str (vr_id r)) (uuid_str (vr_tenant_id r)) (uuid_str (vr_tool_id r))
       (vr_version r) (vr_display_name r) (vr_description r) (vr_input_schema_json r)
       (vr_output_schema_json r) (vr_schema_digest r) (vr_tags_json r) side_effect visibility status
       (vr_created_by r) (vr_created_at r) (vr_reviewed_at r) (vr_published_at r) (vr_retired_at r)).

Definition published_tool_from_models (tool : ToolModel) (version : ToolVersionModel) :
    res PublishedTool :=
  let? visibility := enum_of (vr_visibility version) in
  let? side_effect := enum_of (vr_side_effect version) in
  new_published_tool
    (mkPublishedTool (uuid_str (tr_id tool)) (uuid_str (vr_id version)) (uuid_str (tr_tenant_id tool))
       (tr_canonical_name tool) (vr_display_name version) (vr_description version)
       (vr_input_schema_json version) (vr_output_schema_json version) (vr_version version)
       visibility side_effect (vr_schema_digest version) (Some (tr_owner tool)) (vr_tags_json version)).

(** ** [modules/connectors] *)

Definition tool_binding_to_model (db_now : datetime) (b : ToolBinding) : res ToolBindingModel :=
  let? id := as_uuid (tb_id b) "tool binding id" in
  let? tenant := as_uuid (tb_tenant_id b) "tenant id" in
  let? version := as_uuid (tb_tool_version_id b) "tool version id" in
  let? upstream := as_uuid (tb_upstream_service_id b) "upstream service id" in
  let? operation := as_optional_uuid (tb_imported_operation_id b) "imported operation id" in
  Ok (mkBindingRow id tenant version upstream operation (enum_value (tb_binding_type b))
        (tb_binding_config b) (tb_binding_digest b) (enum_value (tb_status b)) (tb_created_at b)
        db_now (tb_published_at b)).

Definition update_tool_binding_model (r : ToolBindingModel) (b : ToolBinding) : res ToolBindingModel :=
  let? version := as_uuid (tb_tool_version_id b) "tool version id" in
  let? upstream := as_uuid (tb_upstream_service_id b) "upstream service id" in
  let? operation := as_optional_uuid (tb_imported_operation_id b) "imported operation id" in
  Ok (mkBindingRow (br_id r) (br_tenant_id r) version upstream operation
        (enum_value (tb_binding_type b)) (tb_binding_config b) (tb_binding_digest b)
        (enum_value (tb_status b)) (tb_created_at b) (br_updated_at r) (tb_published_at b)).

Definition tool_binding_from_model (r : ToolBindingModel) : res ToolBinding :=
  let? binding_type := enum_of (br_binding_type r) in
  let? status := enum_of (br_status r) in
  new_binding
    (mkBinding (uuid_str (br_id r)) (uuid_str (br_tenant_id r)) (uuid_str (br_tool_version_id r))
       (uuid_str (br_upstream_service_id r)) (optional_str (br_imported_operation_id r)) binding_type
       (br_binding_config_json r) (br_binding_digest r) status (br_created_at r) (br_published_at r)).

(** ** [modules/approval] *)

Definition approval_to_model (a : ApprovalRequest) : res ApprovalRequestModel :=
  let? id := as_uuid (ar_id a) "approval id" in
  let? tenant := as_uuid (ar_tenant_id a) "tenant id" in
  let? tool := as_uuid (ar_tool_id a) "tool id" in
  let? version := as_uuid (ar_tool_version_id a) "tool version id" in
  Ok (mkApprovalRow id tenant (ar_principal_id a) tool version (ar_arguments_digest a)
        (ar_policy_version a) (ar_idempotency_key a) (enum_value (ar_status a)) (ar_requested_at a)
        (ar_expires_at a) (ar_decided_by a) (ar_decided_at a) (ar_consumed_at a)).

Definition update_approval_model (r : ApprovalRequestModel) (a : ApprovalRequest) :
    res ApprovalRequestModel :=
  Ok (mkApprovalRow (pr_id r) (pr_tenant_id r) (pr_principal_id r) (pr_tool_id r)
        (pr_tool_version_id r) (pr_arguments_digest r) (pr_policy_version r) (pr_idempotency_key r)
        (enum_value (ar_status a)) (pr_requested_at r) (pr_expires_at r) (ar_decided_by a)
        (ar_decided_at a) (ar_consumed_at a)).

Definition approval_from_model (r : ApprovalRequestModel) : res ApprovalRequest :=
  let? status := enum_of (pr_status r) in
  new_approval
    (mkApproval (uuid_str (pr_id r)) (uuid_str (pr_tenant_id r)) (pr_principal_id r)
       (uuid_str (pr_tool_id r)) (uuid_str (pr_tool_version_id r)) (pr_arguments_digest r)
       (pr_policy_version r) status (pr_requested_at r) (pr_expires_at r) (pr_idempotency_key r)
       (pr_decided_by r) (pr_decided_at r) (pr_consumed_at r)).

(** ** [modules/execution] *)

Definition execution_to_model (x : ToolExecution) : res ToolExecutionModel :=
  let? id := as_uuid (ex_id x) "execution id" in
  let? tenant := as_uuid (ex_tenant_id x) "tenant id" in
  let? tool := as_uuid (ex_tool_id x) "tool id" in
  let? version := as_uuid (ex_tool_version_id x) "tool version id" in
  let? binding := as_uuid (ex_tool_binding_id x) "tool binding id" in
  let? toolset := as_optional_uuid (ex_toolset_id x) "toolset id" in
  let? approval := as_optional_uuid (ex_approval_id x) "approval id" in
  Ok (mkExecutionRow id tenant (ex_request_id x) (ex_trace_id x) (ex_principal_id x) tool version
        binding (enum_value (ex_mcp_scope_type x)) toolset (ex_toolset_revision x) approval
        (ex_credential_binding_id x) (ex_arguments_digest x) (ex_policy_version x)
        (ex_policy_reason_code x) (enum_value (ex_side_effect x)) (enum_value (ex_status x))
        (ex_idempotency_key x) (ex_planned_at x) (ex_started_at x) (ex_finished_at x)
        (ex_error_code x) (optional_value (ex_error_category x)) (ex_attempt_count x)).

Definition update_execution_model (r : ToolExecutionModel) (x : ToolExecution) :
    res ToolExecutionModel :=
  Ok (mkExecutionRow (xm_id r) (xm_tenant_id r) (xm_request_id r) (xm_trace_id r)
        (xm_principal_id r) (xm_tool_id r) (xm_tool_version_id r) (xm_tool_binding_id r)
        (xm_mcp_scope_type r) (xm_toolset_id r) (xm_toolset_revision r) (xm_approval_id r)
        (xm_credential_binding_id r) (xm_arguments_digest r) (xm_policy_version r)
        (xm_policy_reason_code r) (xm_side_effect r) (enum_value (ex_status x)) (xm_key r)
        (xm_planned_at r) (ex_started_at x) (ex_finished_at x) (ex_error_code x)
        (optional_value (ex_error_category x)) (ex_attempt_count x)).

Definition execution_from_model (r : ToolExecutionModel) : res ToolExecution :=
  let? scope := enum_of (xm_mcp_scope_type r) in
  let? side_effect := enum_of (xm_side_effect r) in
  let? status := enum_of (xm_status r) in
  let? category := optional_member (xm_error_category r) in
  new_execution
    (mkExecution (uuid_str (xm_id r)) (uuid_str (xm_tenant_id r)) (xm_request_id r) (xm_trace_id r)
       (xm_principal_id r) (uuid_str (xm_tool_id r)) (uuid_str (xm_tool_version_id r))
       (uuid_str (xm_tool_binding_id r)) (xm_arguments_digest r) (xm_policy_version r)
       (xm_policy_reason_code r) side_effect status (xm_planned_at r) (optional_str (xm_approval_id r))
       (xm_credential_binding_id r) (xm_key r) (xm_started_at r) (xm_finished_at r) (xm_error_code r)
       category (xm_attempt_count r) scope (optional_str (xm_toolset_id r)) (xm_toolset_revision r)).

Definition attempt_to_model (a : ExecutionAttempt) : res ExecutionAttemptModel :=
  let? id := as_uuid (at_id a) "execution attempt id" in
  let? tenant := as_uuid (at_tenant_id a) "tenant id" in
  let? execution := as_uuid (at_execution_id a) "execution id" in
  Ok (mkAttemptRow id tenant execution (at_attempt_number a) (enum_value (at_status a))
        (at_started_at a) (at_finished_at a) (at_error_code a) (optional_value (at_error_category a))
        (at_upstream_status a)).

Definition update_attempt_model (r : ExecutionAttemptModel) (a : ExecutionAttempt) :
    res ExecutionAttemptModel :=
  Ok (mkAttemptRow (atr_id r) (atr_tenant_id r) (atr_execution_id r) (atr_attempt_number r)
        (enum_value (at_status a)) (atr_started_at r) (at_finished_at a) (at_error_code a)
        (optional_value (at_error_category a)) (at_upstream_status a)).

Definition attempt_from_model (r : ExecutionAttemptModel) : res ExecutionAttempt :=
  let? status := enum_of (atr_status r) in
  let? category := optional_member (atr_error_category r) in
  new_attempt
    (mkAttempt (uuid_str (atr_id r)) (uuid_str (atr_tenant_id r)) (uuid_str (atr_execution_id r))
       (atr_attempt_number r) status (atr_started_at r) (atr_finished_at r) (atr_error_code r)
       category (atr_upstream_status r)).

(** ** [modules/audit] *)

(** [dict(event.metadata or {})]: absent metadata is stored as an empty object. *)
Definition audit_to_model (e : AuditEvent) : res AuditEventModel :=
  let? id := as_uuid (ae_id e) "audit id" in
  let? tenant := as_uuid (ae_tenant_id e) "tenant id" in
  let? execution := as_optional_uuid (ae_execution_id e) "execution id" in
  Ok (mkAuditRow id tenant (ae_actor_id e) (enum_value (ae_action e)) (ae_resource_type e)
        (ae_resource_id e) (enum_value (ae_outcome e)) (ae_request_id e) (ae_trace_id e)
        (ae_occurred_at e) (ae_arguments_digest e) (ae_policy_version e) (ae_reason_code e) execution
        (default [] (ae_metadata e))).

Definition audit_from_model (r : AuditEventModel) : res AuditEvent :=
  let? action := enum_of (aur_action r) in
  let? outcome := enum_of (aur_outcome r) in
  new_audit_event
    (mkAuditEvent (uuid_str (aur_id r)) (uuid_str (aur_tenant_id r)) (aur_actor_id r) action
       (aur_resource_type r) (aur_resource_id r) outcome (aur_request_id r) (aur_trace_id r)
       (aur_occurred_at r) (aur_arguments_digest r) (aur_policy_version r) (aur_reason_code r)
       (optional_str (aur_execution_id r)) (Some (aur_metadata_json r))).

(** ** [modules/openapi_import] *)

Definition import_job_to_model (j : OpenApiImportJob) : res OpenApiImportJobModel :=
  let? id := as_uuid (ij_id j) "import job id" in
  let? tenant := as_uuid (ij_tenant_id j) "tenant id" in
  let? upstream := as_uuid (ij_upstream_service_id j) "upstream service id" in
  Ok (mkJobRow id tenant upstream (enum_value (ij_source_type j)) (ij_source_ref j)
        (ij_source_digest j) (ij_openapi_version j) (ij_operation_allowlist j)
        (ij_allowlist_snapshot j) (enum_value (ij_status j)) (ij_error_summary j) (ij_created_by j)
        (ij_created_at j) (ij_started_at j) (ij_completed_at j)).

Definition update_import_job_model (r : OpenApiImportJobModel) (j : OpenApiImportJob) :
    res OpenApiImportJobModel :=
  Ok (mkJobRow (jr_id r) (jr_tenant_id r) (jr_upstream_service_id r) (jr_source_type r)
        (ij_source_ref j) (ij_source_digest j) (ij_openapi_version j) (ij_operation_allowlist j)
        (ij_allowlist_snapshot j) (enum_value (ij_status j)) (ij_error_summary j) (jr_created_by r)
        (jr_created_at r) (ij_started_at j) (ij_completed_at j)).

(** The job's dataclass has no [__post_init__]. *)
Definition import_job_from_model (r : OpenApiImportJobModel) : res OpenApiImportJob :=
  let? source_type := enum_of (jr_source_type r) in
  let? status := enum_of (jr_status r) in
  Ok (mkJob (uuid_str (jr_id r)) (uuid_str (jr_tenant_id r)) (uuid_str (jr_upstream_service_id r))
        source_type (jr_source_ref r) (jr_source_digest r) (jr_openapi_version r)
        (jr_operation_allowlist_json r) (jr_allowlist_snapshot_json r) status (jr_error_summary r)
        (jr_created_by r) (jr_created_at r) (jr_started_at r) (jr_completed_at r)).

Definition imported_operation_to_model (db_now : datetime) (o : ImportedOperation) :
    res ImportedOperationModel :=
  let? id := as_uuid (io_id o) "imported operation id" in
  let? tenant := as_uuid (io_tenant_id o) "tenant id" in
  let? job := as_uuid (io_import_job_id o) "import job id" in
  let? upstream := as_uuid (io_upstream_service_id o) "upstream service id" in
  let? version := as_optional_uuid (io_draft_tool_version_id o) "draft tool version id" in
  let? binding := as_optional_uuid (io_draft_tool_binding_id o) "draft tool binding id" in
  Ok (mkOperationRow id tenant job upstream (io_operation_key o) (io_operation_id o) (io_method o)
        (io_path o) (io_normalized_operation o) (io_generated_tool_name o)
        (enum_value (io_conflict_status o)) (enum_value (io_review_status o)) (io_review_notes o)
        version binding db_now db_now).

Definition update_imported_operation_model (r : ImportedOperationModel) (o : ImportedOperation) :
    res ImportedOperationModel :=
  let? version := as_optional_uuid (io_draft_tool_version_id o) "draft tool version id" in
  let? binding := as_optional_uuid (io_draft_tool_binding_id o) "draft tool binding id" in
  Ok (mkOperationRow (opr_id r) (opr_tenant_id r) (opr_import_job_id r) (opr_upstream_service_id r)
        (opr_operation_key r) (io_operation_id o) (opr_method r) (opr_path r)
        (io_normalized_operation o) (io_generated_tool_name o) (enum_value (io_conflict_status o))
        (enum_value (io_review_status o)) (io_review_notes o) version binding
        (opr_created_at r) (opr_updated_at r)).

Definition imported_operation_from_model (r : ImportedOperationModel) : res ImportedOperation :=
  let? conflict := enum_of (opr_conflict_status r) in
  let? review := enum_of (opr_review_status r) in
  Ok (mkImported (uuid_str (opr_id r)) (uuid_str (opr_tenant_id r)) (uuid_str (opr_import_job_id r))
        (uuid_str (opr_upstream_service_id r)) (opr_operation_key r) (opr_operation_id r)
        (opr_method r) (opr_path r) (opr_normalized_operation_json r) (opr_generated_tool_name r)
        conflict review (opr_review_notes r) (optional_str (opr_draft_tool_version_id r))
        (optional_str (opr_draft_tool_binding_id r))).

(** ** [modules/tool_search] *)

Definition embedding_from_model (r : ToolSearchEmbeddingModel) : res ToolSearchEmbedding :=
  let? vector := new_vector (mkVector (emr_embedding_model r) (emr_embedding_dimensions r)
                               (emr_embedding r)) in
  new_embedding
    (mkEmbedding (uuid_str (emr_id r)) (uuid_str (emr_tenant_id r)) (uuid_str (emr_tool_version_id r))
       (emr_embedding_model r) (emr_embedding_dimensions r) (emr_source_digest r) vector
       (emr_indexed_at r)).

(** ** [modules/toolsets] *)

Definition toolset_to_model (t : Toolset) : res ToolsetModel :=
  let? id := as_uuid (ts_id t) "toolset id" in
  let? tenant := as_uuid (ts_tenant_id t) "tenant id" in
  Ok (mkToolsetRow id tenant (ts_slug t) (ts_name t) (ts_description t) (enum_value (ts_kind t))
        (enum_value (ts_discovery_mode t)) (enum_value (ts_status t)) (ts_revision t)
        (ts_membership_digest t) (ts_created_by t) (ts_created_at t) (ts_updated_at t)).

Definition update_toolset_model (r : ToolsetModel) (t : Toolset) : res ToolsetModel :=
  raise_if (negb (bool_decide (uuid_str (tsr_id r) = ts_id t))
            || negb (bool_decide (uuid_str (tsr_tenant_id r) = ts_tenant_id t))
            || negb (bool_decide (tsr_slug r = ts_slug t))
            || negb (bool_decide (tsr_kind r = enum_value (ts_kind t)))
            || negb (bool_decide (tsr_created_by r = ts_created_by t))
            || negb (bool_decide (tsr_created_at r = ts_created_at t)))
    (ValueError "toolset stable identity fields are immutable") ;;?
  Ok (mkToolsetRow (tsr_id r) (tsr_tenant_id r) (tsr_slug r) (ts_name t) (ts_description t)
        (tsr_kind r) (enum_value (ts_discovery_mode t)) (enum_value (ts_status t)) (ts_revision t)
        (ts_membership_digest t) (tsr_created_by r) (tsr_created_at r) (ts_updated_at t)).

Definition member_to_model (m : ToolsetMember) : res ToolsetMemberModel :=
  let? tenant := as_uuid (tm_tenant_id m) "tenant id" in
  let? toolset := as_uuid (tm_toolset_id m) "toolset id" in
  let? tool := as_uuid (tm_tool_id m) "tool id" in
  Ok (mkMemberRow tenant toolset tool (tm_added_by m) (tm_added_at m)).

Definition grant_to_model (g : ToolsetAccessGrant) : res ToolsetAccessGrantModel :=
  let? tenant := as_uuid (tg_tenant_id g) "tenant id" in
  let? toolset := as_uuid (tg_toolset_id g) "toolset id" in
  Ok (mkGrantRow tenant toolset (tg_principal_id g) (tg_granted_by g) (tg_granted_at g)).

Definition member_from_model (r : ToolsetMemberModel) : res ToolsetMember :=
  new_member (mkMember (uuid_str (tmr_tenant_id r)) (uuid_str (tmr_toolset_id r))
                (uuid_str (tmr_tool_id r)) (tmr_added_by r) (tmr_added_at r)).
Definition grant_from_model (r : ToolsetAccessGrantModel) : res ToolsetAccessGrant :=
  new_grant (mkGrant (uuid_str (tgr_tenant_id r)) (uuid_str (tgr_toolset_id r)) (tgr_principal_id r)
               (tgr_granted_by r) (tgr_granted_at r)).

Definition toolset_from_models (r : ToolsetModel) (members : list ToolsetMemberModel)
    (grants : list ToolsetAccessGrantModel) : res Toolset :=
  let? kind := enum_of (tsr_kind r) in
  let? mode := enum_of (tsr_discovery_mode r) in
  let? status := enum_of (tsr_status r) in
  let? members := traverse member_from_model members in
  let? grants := traverse grant_from_model grants in
  new_toolset
    (mkToolset (uuid_str (tsr_id r)) (uuid_str (tsr_tenant_id r)) (tsr_slug r) (tsr_name r)
       (tsr_description r) kind mode status (tsr_revision r) (tsr_membership_digest r)
       (tsr_created_by r) (tsr_created_at r) (tsr_updated_at r) members grants).

(** ** The interface of a mapping

    [Mapping E R] gathers what a repository uses of the rows [R] of an entity
    [E]; [LawfulMapping] is what it relies on.  [storable e]: the identifiers of
    [e] are the texts [str] writes, and the constructor accepts [e]. *)

Class Mapping (E R : Type) := {
  construct : E → res E;
  (** what a row keeps of an entity *)
  kept : E → E;
  ids_of : E → list string;
  tenant_of : E → string;
  id_of : E → string;
  row_ids : R → list UUID;
  row_tenant : R → UUID;
  row_id : R → UUID;
  row_check : R → bool;
  to_model : datetime → E → res R;
  from_model : R → res E;
  update_model : R → E → res R;
  (** the fields [update_model] leaves alone agree *)
  same_fixed : E → E → Prop }.

Definition storable {E R} `{Mapping E R} (e : E) : Prop :=
  Forall (λ s, canonical_uuid s = true) (ids_of e) ∧ construct e = Ok e.

(** The row [r] holds [e]. *)
Definition holds {E R} `{Mapping E R} (r : R) (e : E) : Prop :=
  from_model r = Ok e ∧ Forall uuid_valid (row_ids r) ∧ row_check r = true.

Class LawfulMapping (E R : Type) `{Mapping E R} := {
  to_model_holds db_now (e : E) : storable e → ∃ r, to_model db_now e = Ok r ∧ holds r (kept e);
  update_model_holds (r : R) (e e' : E) : holds r e → storable e' → same_fixed e e' →
    ∃ r', update_model r e' = Ok r' ∧ holds r' (kept e') ∧
      row_id r' = row_id r ∧ row_tenant r' = row_tenant r;
  kept_key (e : E) : id_of (kept e) = id_of e ∧ tenant_of (kept e) = tenant_of e;
  held_storable (r : R) (e : E) : holds r e → storable e ∧ kept e = e ∧
    id_of e = uuid_str (row_id r) ∧ tenant_of e = uuid_str (row_tenant r) ∧
    uuid_valid (row_id r) ∧ uuid_valid (row_tenant r) }.

(** ** Parsing canonical texts *)

Lemma canonical_parses s :
  canonical_uuid s = true →
  ∃ u, uuid_valid u ∧ uuid_str u = s ∧ ∀ f, as_uuid s f = Ok u.
Proof.
  intros (u & Hu & _ & ->)%canonical_inv. exists u. split_and!; [done..|]. intros f. by apply as_uuid_str.
Qed.

Lemma canonical_option_parses o :
  Forall (λ s, canonical_uuid s = true) (option_list o) →
  ∃ ou, Forall uuid_valid (option_list ou) ∧ optional_str ou = o ∧ ∀ f, as_optional_uuid o f = Ok ou.
Proof.
  destruct o as [s|]; simpl; [|by exists None].
  rewrite Forall_singleton. intros (u & Hu & Hs & Hp)%canonical_parses. exists (Some u).
  simpl. rewrite Hs. split_and!; [by constructor|done|]. intros f. by rewrite Hp.
Qed.

Lemma optional_str_canonical ou :
  Forall uuid_valid (option_list ou) → Forall (λ s, canonical_uuid s = true) (option_list (optional_str ou)).
Proof.
  destruct ou; simpl; [|done]. rewrite !Forall_singleton. apply canonical_str.
Qed.

Lemma optional_round_trip {A} `{StrEnum A} (o : option A) : optional_member (optional_value o) = Ok o.
Proof. destruct o; simpl; [|done]. by rewrite enum_round_trip. Qed.

Lemma optional_member_Ok {A} `{StrEnum A} (text : option string) (o : option A) :
  optional_member text = Ok o → text = optional_value o.
Proof.
  destruct text as [s|]; simpl; [|by intros [= <-]].
  intros (a & ->%enum_of_Ok & [= <-])%rbind_Ok_inv. done.
Qed.

(** ** Automation

    [parse_ids]: parse the canonical identifiers in the context;
    [read_row H]: what a successful reading of a row says of its columns. *)

Ltac parse_ids :=
  repeat match goal with
  | H : Forall _ (_ ++ _) |- _ => rewrite Forall_app in H; destruct H
  | H : Forall _ (_ :: _) |- _ => rewrite Forall_cons in H; destruct H
  | H : Forall (λ s, canonical_uuid s = true) (option_list ?o) |- _ =>
      let u := fresh "u" in let Hv := fresh "Hv" in let Hs := fresh "Hs" in let Hp := fresh "Hp" in
      apply canonical_option_parses in H as (u & Hv & Hs & Hp)
  | H : canonical_uuid ?s = true |- _ =>
      let u := fresh "u" in let Hv := fresh "Hv" in let Hs := fresh "Hs" in let Hp := fresh "Hp" in
      apply canonical_parses in H as (u & Hv & Hs & Hp)
  end.

Ltac use_parses :=
  repeat match goal with
  | H : ∀ f, as_uuid ?s f = Ok _ |- context [as_uuid ?s _] => rewrite H
  | H : ∀ f, as_optional_uuid ?s f = Ok _ |- context [as_optional_uuid ?s _] => rewrite H
  end; simpl.

Ltac read_row H :=
  repeat match type of H with
  | rbind (enum_of _) _ = Ok _ =>
      let a := fresh "a" in let E := fresh "E" in
      apply rbind_Ok_inv in H as (a & E & H); apply enum_of_Ok in E
  | rbind (optional_member _) _ = Ok _ =>
      let a := fresh "a" in let E := fresh "E" in
      apply rbind_Ok_inv in H as (a & E & H); apply optional_member_Ok in E
  end.

Ltac enum_checks := rewrite ?enum_check_value; simpl.

#[local] Arguments enum_value : simpl never.
#[local] Arguments enum_of : simpl never.
#[local] Arguments enum_check : simpl never.

Create HintDb mapping.
#[export] Hint Unfold upstream_to_model update_upstream_model upstream_from_model upstream_check
  tool_to_model update_tool_model tool_from_model tool_check
  tool_version_to_model update_tool_version_model tool_version_from_model version_check
  tool_binding_to_model update_tool_binding_model tool_binding_from_model binding_check
  approval_to_model update_approval_model approval_from_model approval_check
  execution_to_model update_execution_model execution_from_model
  attempt_to_model update_attempt_model attempt_from_model
  audit_to_model audit_from_model audit_check
  import_job_to_model update_import_job_model import_job_from_model import_job_check
  imported_operation_to_model update_imported_operation_model imported_operation_from_model
  operation_check : mapping.

(** The laws of one mapping: enumerations and identifiers round trip, the
    constructor decides the rest.  [check] proves the check constraint. *)
Ltac enums := repeat (rewrite ?enum_round_trip, ?optional_round_trip, ?enum_check_value; simpl).
Ltac valid_ids := repeat (rewrite ?Forall_app, ?Forall_cons); split_and?; done.
Ltac holds_solve Hc check :=
  eexists; (split; [reflexivity|]); unfold holds; simpl; autounfold with mapping; simpl;
  enums; subst; split_and!; [exact Hc | valid_ids | check | ..]; try done.
Ltac read_held r e new_Ok :=
  destruct r; intros (Hf & Hv & Hk); simpl in *; autounfold with mapping in Hf; simpl in Hf;
  read_row Hf; pose proof Hf as He; apply new_Ok in He; subst e; simpl in *.
Ltac mapping_laws new_Ok check :=
  split;
  [ intros db_now [] [Hids Hc]; simpl in *; parse_ids; autounfold with mapping; simpl; use_parses;
    holds_solve Hc check
  | intros r e e' Hh [Hids Hc] Hfix; revert Hh; read_held r e new_Ok; destruct e'; simpl in *;
    try (cbv [execution_at attempt_at] in Hfix; simpl in Hfix; injection Hfix; clear Hfix; intros);
    destruct_and?; subst; parse_ids; autounfold with mapping; simpl; use_parses; holds_solve Hc check
  | done
  | intros r e; read_held r e new_Ok; parse_ids; split_and!; try done; split; [|assumption]; simpl;
    repeat (rewrite ?Forall_app, ?Forall_cons); split_and?; auto using canonical_str, optional_str_canonical ].

(** ** Instances *)

#[export] Instance upstream_mapping : Mapping UpstreamService UpstreamServiceModel := {|
  construct := new_upstream; kept x := x;
  ids_of u := [us_id u; us_tenant_id u];
  tenant_of := us_tenant_id; id_of := us_id;
  row_ids r := [ur_id r; ur_tenant_id r];
  row_tenant := ur_tenant_id; row_id := ur_id;
  row_check := upstream_check;
  to_model := upstream_to_model; from_model := upstream_from_model;
  update_model := update_upstream_model;
  same_fixed u v := us_id u = us_id v ∧ us_tenant_id u = us_tenant_id v ∧
    us_namespace u = us_namespace v ∧ us_name u = us_name v ∧
    us_service_type u = us_service_type v ∧ us_transport_type u = us_transport_type v |}.
#[export] Instance upstream_lawful : LawfulMapping UpstreamService UpstreamServiceModel.
Proof. mapping_laws new_upstream_Ok ltac:(done). Qed.

#[export] Instance tool_mapping : Mapping Tool ToolModel := {|
  construct := new_tool; kept x := x;
  ids_of t := [tool_id t; tool_tenant_id t];
  tenant_of := tool_tenant_id; id_of := tool_id;
  row_ids r := [tr_id r; tr_tenant_id r];
  row_tenant := tr_tenant_id; row_id := tr_id;
  row_check := tool_check;
  to_model := tool_to_model; from_model := tool_from_model; update_model := update_tool_model;
  same_fixed t t' := tool_id t = tool_id t' ∧ tool_tenant_id t = tool_tenant_id t' |}.
#[export] Instance tool_lawful : LawfulMapping Tool ToolModel.
Proof. mapping_laws new_tool_Ok ltac:(done). Qed.

Lemma new_version_Ok v v' : new_tool_version v = Ok v' → v' = v.
Proof. unfold new_tool_version. intros H. guards H. by simplify_eq. Qed.

(** A version's rows also hold the search texts of its tool's names. *)
Definition version_mapping (namespace canonical_name : string) :
    Mapping ToolVersion ToolVersionModel := {|
  construct := new_tool_version; kept x := x;
  ids_of v := [tv_id v; tv_tenant_id v; tv_tool_id v];
  tenant_of := tv_tenant_id; id_of := tv_id;
  row_ids r := [vr_id r; vr_tenant_id r; vr_tool_id r];
  row_tenant := vr_tenant_id; row_id := vr_id;
  row_check := version_check;
  to_model := tool_version_to_model namespace canonical_name;
  from_model := tool_version_from_model;
  update_model := update_tool_version_model namespace canonical_name;
  same_fixed v w := tv_id v = tv_id w ∧ tv_tenant_id v = tv_tenant_id w ∧ tv_tool_id v = tv_tool_id w |}.
#[export] Instance version_lawful namespace canonical_name :
  LawfulMapping ToolVersion ToolVersionModel (H := version_mapping namespace canonical_name).
Proof. mapping_laws new_version_Ok ltac:(done). Qed.

#[export] Instance binding_mapping : Mapping ToolBinding ToolBindingModel := {|
  construct := new_binding; kept x := x;
  ids_of b := [tb_id b; tb_tenant_id b; tb_tool_version_id b; tb_upstream_service_id b]
              ++ option_list (tb_imported_operation_id b);
  tenant_of := tb_tenant_id; id_of := tb_id;
  row_ids r := [br_id r; br_tenant_id r; br_tool_version_id r; br_upstream_service_id r]
               ++ option_list (br_imported_operation_id r);
  row_tenant := br_tenant_id; row_id := br_id;
  row_check := binding_check;
  to_model := tool_binding_to_model; from_model := tool_binding_from_model;
  update_model := update_tool_binding_model;
  same_fixed b c := tb_id b = tb_id c ∧ tb_tenant_id b = tb_tenant_id c |}.
#[export] Instance binding_lawful : LawfulMapping ToolBinding ToolBindingModel.
Proof. mapping_laws new_binding_Ok ltac:(done). Qed.
#[export] Instance approval_mapping : Mapping ApprovalRequest ApprovalRequestModel := {|
  construct := new_approval; kept x := x;
  ids_of a := [ar_id a; ar_tenant_id a; ar_tool_id a; ar_tool_version_id a];
  tenant_of := ar_tenant_id; id_of := ar_id;
  row_ids r := [pr_id r; pr_tenant_id r; pr_tool_id r; pr_tool_version_id r];
  row_tenant := pr_tenant_id; row_id := pr_id;
  row_check := approval_check;
  to_model _ := approval_to_model; from_model := approval_from_model;
  update_model := update_approval_model;
  same_fixed a b := ar_id a = ar_id b ∧ ar_tenant_id a = ar_tenant_id b ∧
    ar_principal_id a = ar_principal_id b ∧ ar_tool_id a = ar_tool_id b ∧
    ar_tool_version_id a = ar_tool_version_id b ∧ ar_arguments_digest a = ar_arguments_digest b ∧
    ar_policy_version a = ar_policy_version b ∧ ar_requested_at a = ar_requested_at b ∧
    ar_expires_at a = ar_expires_at b ∧ ar_idempotency_key a = ar_idempotency_key b |}.
#[export] Instance approval_lawful : LawfulMapping ApprovalRequest ApprovalRequestModel.
Proof. mapping_laws new_approval_Ok ltac:(done). Qed.

(** The scope of a valid execution meets the check constraint of its columns. *)
Lemma valid_scope scope (toolset : option UUID) revision :
  validate_mcp_scope scope (optional_str toolset) revision = Ok tt →
  bool_decide (enum_value scope = "root") && is_none toolset && is_none revision
  || bool_decide (enum_value scope = "toolset") && negb (is_none toolset)
     && match revision with Some n => (0 <? n)%Z | None => true end = true.
Proof.
  unfold validate_mcp_scope. intros H. guards H.
  destruct scope, toolset, revision as [n|]; simpl in *; try done.
  destruct (n <=? 0)%Z eqn:E; [rewrite ?orb_true_r in *; discriminate|]. apply Z.ltb_lt. apply Z.leb_gt in E. done.
Qed.

Lemma category_check (c : option ExecutionErrorCategory) :
  match optional_value c with Some t => enum_check ExecutionErrorCategory t | None => true end = true.
Proof. destruct c; simpl; [apply enum_check_value|done]. Qed.

#[export] Instance execution_mapping : Mapping ToolExecution ToolExecutionModel := {|
  construct := new_execution; kept x := x;
  ids_of x := [ex_id x; ex_tenant_id x; ex_tool_id x; ex_tool_version_id x; ex_tool_binding_id x]
              ++ option_list (ex_toolset_id x) ++ option_list (ex_approval_id x);
  tenant_of := ex_tenant_id; id_of := ex_id;
  row_ids r := [xm_id r; xm_tenant_id r; xm_tool_id r; xm_tool_version_id r; xm_tool_binding_id r]
               ++ option_list (xm_toolset_id r) ++ option_list (xm_approval_id r);
  row_tenant := xm_tenant_id; row_id := xm_id;
  row_check := execution_check;
  to_model _ := execution_to_model; from_model := execution_from_model;
  update_model := update_execution_model;
  same_fixed x y := y = execution_at x (ex_status y) (ex_started_at y) (ex_finished_at y)
    (ex_error_code y) (ex_error_category y) (ex_attempt_count y) |}.
#[export] Instance execution_lawful : LawfulMapping ToolExecution ToolExecutionModel.
Proof.
  mapping_laws new_execution_Ok
    ltac:(unfold execution_check; simpl; enums; rewrite category_check; simpl;
          apply valid_scope; by apply new_execution_scope in Hc).
Qed.

#[export] Instance attempt_mapping : Mapping ExecutionAttempt ExecutionAttemptModel := {|
  construct := new_attempt; kept x := x;
  ids_of a := [at_id a; at_tenant_id a; at_execution_id a];
  tenant_of := at_tenant_id; id_of := at_id;
  row_ids r := [atr_id r; atr_tenant_id r; atr_execution_id r];
  row_tenant := atr_tenant_id; row_id := atr_id;
  row_check := attempt_check;
  to_model _ := attempt_to_model; from_model := attempt_from_model;
  update_model := update_attempt_model;
  same_fixed a b := b = attempt_at a (at_status b) (at_finished_at b) (at_error_code b)
    (at_error_category b) (at_upstream_status b) |}.

Lemma new_attempt_number a : new_attempt a = Ok a → (0 <? at_attempt_number a)%Z = true.
Proof. unfold new_attempt. intros H. guards H. apply Z.leb_gt in G0. by apply Z.ltb_lt. Qed.

#[export] Instance attempt_lawful : LawfulMapping ExecutionAttempt ExecutionAttemptModel.
Proof.
  mapping_laws new_attempt_Ok
    ltac:(unfold attempt_check; simpl; enums; by apply new_attempt_number in Hc).
Qed.

(** Events are appended only; absent metadata is read back as empty. *)
#[export] Instance audit_mapping : Mapping AuditEvent AuditEventModel := {|
  construct := new_audit_event;
  kept e := mkAuditEvent (ae_id e) (ae_tenant_id e) (ae_actor_id e) (ae_action e) (ae_resource_type e)
    (ae_resource_id e) (ae_outcome e) (ae_request_id e) (ae_trace_id e) (ae_occurred_at e)
    (ae_arguments_digest e) (ae_policy_version e) (ae_reason_code e) (ae_execution_id e)
    (Some (default [] (ae_metadata e)));
  ids_of e := [ae_id e; ae_tenant_id e] ++ option_list (ae_execution_id e);
  tenant_of := ae_tenant_id; id_of := ae_id;
  row_ids r := [aur_id r; aur_tenant_id r] ++ option_list (aur_execution_id r);
  row_tenant := aur_tenant_id; row_id := aur_id;
  row_check := audit_check;
  to_model _ := audit_to_model; from_model := audit_from_model;
  update_model r _ := Ok r;
  same_fixed _ _ := False |}.

Lemma new_audit_kept e : new_audit_event e = Ok e → new_audit_event (kept e) = Ok (kept e).
Proof.
  unfold new_audit_event. simpl. intros (u & -> & H)%rbind_Ok_inv. simpl.
  destruct (ae_metadata e) as [m|]; simpl; [|done].
  apply rbind_Ok_inv in H as (? & -> & _). done.
Qed.

#[export] Instance audit_lawful : LawfulMapping AuditEvent AuditEventModel.
Proof.
  split.
  - intros db_now e [Hids Hc]. apply new_audit_kept in Hc. destruct e. simpl in *. parse_ids.
    autounfold with mapping. simpl. use_parses. holds_solve Hc ltac:(done).
  - done.
  - done.
  - intros r e. read_held r e new_audit_event_Ok. parse_ids. split_and!; try done. split; [|assumption].
    simpl. repeat (rewrite ?Forall_app, ?Forall_cons).
    split_and?; auto using canonical_str, optional_str_canonical.
Qed.

#[export] Instance job_mapping : Mapping OpenApiImportJob OpenApiImportJobModel := {|
  construct := Ok; kept x := x;
  ids_of j := [ij_id j; ij_tenant_id j; ij_upstream_service_id j];
  tenant_of := ij_tenant_id; id_of := ij_id;
  row_ids r := [jr_id r; jr_tenant_id r; jr_upstream_service_id r];
  row_tenant := jr_tenant_id; row_id := jr_id;
  row_check := import_job_check;
  to_model _ := import_job_to_model; from_model := import_job_from_model;
  update_model := update_import_job_model;
  same_fixed j k := ij_id j = ij_id k ∧ ij_tenant_id j = ij_tenant_id k ∧
    ij_upstream_service_id j = ij_upstream_service_id k ∧ ij_source_type j = ij_source_type k ∧
    ij_created_by j = ij_created_by k ∧ ij_created_at j = ij_created_at k |}.

Lemma construct_Ok {A} (x y : A) : Ok (E := exn) x = Ok y → y = x.
Proof. by intros [= <-]. Qed.

#[export] Instance job_lawful : LawfulMapping OpenApiImportJob OpenApiImportJobModel.
Proof. mapping_laws (construct_Ok (A := OpenApiImportJob)) ltac:(done). Qed.

#[export] Instance operation_mapping : Mapping ImportedOperation ImportedOperationModel := {|
  construct := Ok; kept x := x;
  ids_of o := [io_id o; io_tenant_id o; io_import_job_id o; io_upstream_service_id o]
    ++ option_list (io_draft_tool_version_id o) ++ option_list (io_draft_tool_binding_id o);
  tenant_of := io_tenant_id; id_of := io_id;
  row_ids r := [opr_id r; opr_tenant_id r; opr_import_job_id r; opr_upstream_service_id r]
    ++ option_list (opr_draft_tool_version_id r) ++ option_list (opr_draft_tool_binding_id r);
  row_tenant := opr_tenant_id; row_id := opr_id;
  row_check := operation_check;
  to_model := imported_operation_to_model; from_model := imported_operation_from_model;
  update_model := update_imported_operation_model;
  same_fixed o p := io_id o = io_id p ∧ io_tenant_id o = io_tenant_id p ∧
    io_import_job_id o = io_import_job_id p ∧ io_upstream_service_id o = io_upstream_service_id p ∧
    io_operation_key o = io_operation_key p ∧ io_method o = io_method p ∧ io_path o = io_path p |}.
#[export] Instance operation_lawful : LawfulMapping ImportedOperation ImportedOperationModel.
Proof. mapping_laws (construct_Ok (A := ImportedOperation)) ltac:(done). Qed.
(** ** All mappings together *)

Inductive stored_entity :=
| SUpstream (u : UpstreamService) | STool (t : Tool) | SVersion (v : ToolVersion)
| SBinding (b : ToolBinding) | SApproval (a : ApprovalRequest) | SExecution (x : ToolExecution)
| SAttempt (a : ExecutionAttempt) | SAudit (e : AuditEvent) | SJob (j : OpenApiImportJob)
| SOperation (o : ImportedOperation).

Inductive stored_row :=
| RUpstream (r : UpstreamServiceModel) | RTool (r : ToolModel) | RVersion (r : ToolVersionModel)
| RBinding (r : ToolBindingModel) | RApproval (r : ApprovalRequestModel)
| RExecution (r : ToolExecutionModel) | RAttempt (r : ExecutionAttemptModel)
| RAudit (r : AuditEventModel) | RJob (r : OpenApiImportJobModel) | ROperation (r : ImportedOperationModel).

Section All.
(** The names of the tool a version belongs to, which its row repeats. *)
Context (namespace canonical_name : string).
Abbreviation versions := (version_mapping namespace canonical_name).

Definition write_entity (db_now : datetime) (e : stored_entity) : res stored_row :=
  match e with
  | SUpstream u => let? r := upstream_to_model db_now u in Ok (RUpstream r)
  | STool t => let? r := tool_to_model db_now t in Ok (RTool r)
  | SVersion v => let? r := tool_version_to_model namespace canonical_name db_now v in Ok (RVersion r)
  | SBinding b => let? r := tool_binding_to_model db_now b in Ok (RBinding r)
  | SApproval a => let? r := approval_to_model a in Ok (RApproval r)
  | SExecution x => let? r := execution_to_model x in Ok (RExecution r)
  | SAttempt a => let? r := attempt_to_model a in Ok (RAttempt r)
  | SAudit a => let? r := audit_to_model a in Ok (RAudit r)
  | SJob j => let? r := import_job_to_model j in Ok (RJob r)
  | SOperation o => let? r := imported_operation_to_model db_now o in Ok (ROperation r)
  end.

Definition read_row (r : stored_row) : res stored_entity :=
  match r with
  | RUpstream r => let? u := upstream_from_model r in Ok (SUpstream u)
  | RTool r => let? t := tool_from_model r in Ok (STool t)
  | RVersion r => let? v := tool_version_from_model r in Ok (SVersion v)
  | RBinding r => let? b := tool_binding_from_model r in Ok (SBinding b)
  | RApproval r => let? a := approval_from_model r in Ok (SApproval a)
  | RExecution r => let? x := execution_from_model r in Ok (SExecution x)
  | RAttempt r => let? a := attempt_from_model r in Ok (SAttempt a)
  | RAudit r => let? e := audit_from_model r in Ok (SAudit e)
  | RJob r => let? j := import_job_from_model r in Ok (SJob j)
  | ROperation r => let? o := imported_operation_from_model r in Ok (SOperation o)
  end.

(** Saving the entity [e] over its row; events have no update. *)
Definition update_row (r : stored_row) (e : stored_entity) : res stored_row :=
  match r, e with
  | RUpstream r, SUpstream u => let? r := update_upstream_model r u in Ok (RUpstream r)
  | RTool r, STool t => let? r := update_tool_model r t in Ok (RTool r)
  | RVersion r, SVersion v =>
      let? r := update_tool_version_model namespace canonical_name r v in Ok (RVersion r)
  | RBinding r, SBinding b => let? r := update_tool_binding_model r b in Ok (RBinding r)
  | RApproval r, SApproval a => let? r := update_approval_model r a in Ok (RApproval r)
  | RExecution r, SExecution x => let? r := update_execution_model r x in Ok (RExecution r)
  | RAttempt r, SAttempt a => let? r := update_attempt_model r a in Ok (RAttempt r)
  | RJob r, SJob j => let? r := update_import_job_model r j in Ok (RJob r)
  | ROperation r, SOperation o => let? r := update_imported_operation_model r o in Ok (ROperation r)
  | _, _ => Raise TypeError
  end.

(** The check constraints of the row's table. *)
Definition meets_checks (r : stored_row) : bool :=
  match r with
  | RUpstream r => upstream_check r | RTool r => tool_check r | RVersion r => version_check r
  | RBinding r => binding_check r | RApproval r => approval_check r
  | RExecution r => execution_check r | RAttempt r => attempt_check r | RAudit r => audit_check r
  | RJob r => import_job_check r | ROperation r => operation_check r
  end.

Definition valid_row (r : stored_row) : Prop :=
  match r with
  | RUpstream r => Forall uuid_valid (row_ids r) | RTool r => Forall uuid_valid (row_ids r)
  | RVersion r => Forall uuid_valid (row_ids (Mapping := versions) r)
  | RBinding r => Forall uuid_valid (row_ids r) | RApproval r => Forall uuid_valid (row_ids r)
  | RExecution r => Forall uuid_valid (row_ids r) | RAttempt r => Forall uuid_valid (row_ids r)
  | RAudit r => Forall uuid_valid (row_ids r) | RJob r => Forall uuid_valid (row_ids r)
  | ROperation r => Forall uuid_valid (row_ids r)
  end.

(** The identifiers of an entity are the texts [str] writes, its constructor accepts it. *)
Definition entity_storable (e : stored_entity) : Prop :=
  match e with
  | SUpstream u => storable u | STool t => storable t
  | SVersion v => storable (H := versions) v | SBinding b => storable b | SApproval a => storable a
  | SExecution x => storable x | SAttempt a => storable a | SAudit e => storable e
  | SJob j => storable j | SOperation o => storable o
  end.

(** Metadata an event does not have is stored as an empty object. *)
Definition entity_kept (e : stored_entity) : stored_entity :=
  match e with SAudit e => SAudit (kept e) | e => e end.

(** The methods of the domain that give a changed entity: what use cases save. *)
Inductive transition : stored_entity → stored_entity → Prop :=
| tr_upstream_update u description owner endpoint scheme config u' :
    upstream_update u description owner endpoint scheme config = Ok u' →
    transition (SUpstream u) (SUpstream u')
| tr_upstream_disable u u' : upstream_disable u = Ok u' → transition (SUpstream u) (SUpstream u')
| tr_tool_activate t t' : tool_activate t = Ok t' → transition (STool t) (STool t')
| tr_tool_disable t t' : tool_disable t = Ok t' → transition (STool t) (STool t')
| tr_version_submit v at_ v' : submit_for_review v at_ = Ok v' → transition (SVersion v) (SVersion v')
| tr_version_publish v at_ v' : version_publish v at_ = Ok v' → transition (SVersion v) (SVersion v')
| tr_version_retire v at_ v' : version_retire v at_ = Ok v' → transition (SVersion v) (SVersion v')
| tr_binding_publish b at_ b' : binding_publish b at_ = Ok b' → transition (SBinding b) (SBinding b')
| tr_binding_disable b b' : binding_disable b = Ok b' → transition (SBinding b) (SBinding b')
| tr_approval_approve a by_ at_ a' : approve a by_ at_ = Ok a' → transition (SApproval a) (SApproval a')
| tr_approval_reject a by_ at_ a' : reject a by_ at_ = Ok a' → transition (SApproval a) (SApproval a')
| tr_approval_expire a at_ a' : expire a at_ = Ok a' → transition (SApproval a) (SApproval a')
| tr_approval_consume a p v d pv k at_ a' :
    consume a p v d pv k at_ = Ok a' → transition (SApproval a) (SApproval a')
| tr_execution_start x at_ x' : execution_start x at_ = Ok x' → transition (SExecution x) (SExecution x')
| tr_execution_attempt x x' : register_attempt x = Ok x' → transition (SExecution x) (SExecution x')
| tr_execution_succeed x at_ x' : execution_succeed x at_ = Ok x' → transition (SExecution x) (SExecution x')
| tr_execution_fail x code category at_ x' :
    execution_fail x code category at_ = Ok x' → transition (SExecution x) (SExecution x')
| tr_execution_unknown x code at_ x' :
    execution_mark_unknown x code at_ = Ok x' → transition (SExecution x) (SExecution x')
| tr_execution_cancel x at_ x' : execution_cancel x at_ = Ok x' → transition (SExecution x) (SExecution x')
| tr_attempt_succeed a at_ status a' : attempt_succeed a at_ status = Ok a' → transition (SAttempt a) (SAttempt a')
| tr_attempt_fail a code category at_ unknown status a' :
    attempt_fail a code category at_ unknown status = Ok a' → transition (SAttempt a) (SAttempt a')
| tr_attempt_cancel a at_ a' : attempt_cancel a at_ = Ok a' → transition (SAttempt a) (SAttempt a')
| tr_job_validate j at_ j' : start_validation j at_ = Ok j' → transition (SJob j) (SJob j')
| tr_job_parse j j' : start_parsing j = Ok j' → transition (SJob j) (SJob j')
| tr_job_complete j version at_ j' : complete_job j version at_ = Ok j' → transition (SJob j) (SJob j')
| tr_job_fail j summary at_ j' : fail_job j summary at_ = Ok j' → transition (SJob j) (SJob j')
| tr_operation_accept o version binding notes o' :
    accept_operation o version binding notes = Ok o' →
    canonical_uuid version = true → canonical_uuid binding = true →
    transition (SOperation o) (SOperation o').

(** ** Round trips *)

Definition entity_same_fixed (e e' : stored_entity) : Prop :=
  match e, e' with
  | SUpstream u, SUpstream u' => same_fixed u u' | STool t, STool t' => same_fixed t t'
  | SVersion v, SVersion v' => same_fixed (Mapping := versions) v v'
  | SBinding b, SBinding b' => same_fixed b b' | SApproval a, SApproval a' => same_fixed a a'
  | SExecution x, SExecution x' => same_fixed x x' | SAttempt a, SAttempt a' => same_fixed a a'
  | SJob j, SJob j' => same_fixed j j' | SOperation o, SOperation o' => same_fixed o o'
  | _, _ => False
  end.

(** A result of a constructor is accepted by it again. *)
Lemma accepted {A} (new : A → res A) (a a' : A) :
  (∀ x y, new x = Ok y → y = x) → new a = Ok a' → a' = a ∧ new a' = Ok a'.
Proof. intros Hn H. pose proof (Hn _ _ H) as ->. done. Qed.

Lemma upstream_transition u u' :
  (∃ d o e s c, upstream_update u d o e s c = Ok u') ∨ upstream_disable u = Ok u' →
  storable u → storable u' ∧ same_fixed u u'.
Proof.
  intros H [Hi Hc]. destruct H as [(d & o & e & s & c & H)|H].
  - unfold upstream_update in H. apply (accepted _ _ _ new_upstream_Ok) in H as [-> H].
    split; [by split|done].
  - unfold upstream_disable in H. destruct (decide _); [by injection H as <-|].
    apply (accepted _ _ _ new_upstream_Ok) in H as [-> H]. split; [by split|done].
Qed.

Lemma tool_transition t t' :
  tool_activate t = Ok t' ∨ tool_disable t = Ok t' → storable t → storable t' ∧ same_fixed t t'.
Proof.
  intros H [Hi Hc]. destruct H as [H|H]; unfold tool_activate, tool_disable in H;
    (destruct (decide _); [by injection H as <-|]);
    apply (accepted _ _ _ new_tool_Ok) in H as [-> H]; (split; [by split|done]).
Qed.

Lemma version_transition v v' at_ :
  submit_for_review v at_ = Ok v' ∨ version_publish v at_ = Ok v' ∨ version_retire v at_ = Ok v' →
  storable (H := versions) v → storable (H := versions) v' ∧ same_fixed (Mapping := versions) v v'.
Proof.
  unfold submit_for_review, version_publish, version_retire. intros H [Hi Hc].
  destruct H as [H|[H|H]]; guards H; apply (accepted _ _ _ new_version_Ok) in H as [-> H];
    (split; [by split|done]).
Qed.

Lemma binding_transition b b' :
  (∃ at_, binding_publish b at_ = Ok b') ∨ binding_disable b = Ok b' →
  storable b → storable b' ∧ same_fixed b b'.
Proof.
  unfold binding_publish, binding_disable. intros H [Hi Hc].
  destruct H as [[at_ H]|H]; guards H; apply (accepted _ _ _ new_binding_Ok) in H as [-> H];
    (split; [by split|done]).
Qed.

Lemma approval_replace_kept a s b d c a' :
  approval_replace a s b d c = Ok a' → storable a → storable a' ∧ same_fixed a a'.
Proof.
  intros H [Hi Hc]. unfold approval_replace in H.
  apply (accepted _ _ _ new_approval_Ok) in H as [-> H]. split; [by split|done].
Qed.

Lemma approval_transition a a' :
  (∃ by_ at_, approve a by_ at_ = Ok a') ∨ (∃ by_ at_, reject a by_ at_ = Ok a') ∨
  (∃ at_, expire a at_ = Ok a') ∨ (∃ p v d pv k at_, consume a p v d pv k at_ = Ok a') →
  storable a → storable a' ∧ same_fixed a a'.
Proof.
  unfold approve, reject, decide_as, expire, consume.
  intros [(?&?&H)|[(?&?&H)|[(?&H)|(?&?&?&?&?&?&H)]]]; guards H;
    try (case_match); eauto using approval_replace_kept.
Qed.

Lemma execution_transition x x' s b f c k n :
  x' = execution_at x s b f c k n → new_execution x' = Ok x' →
  storable x → storable x' ∧ same_fixed x x'.
Proof. intros -> H [Hi Hc]. split; [by split|done]. Qed.

Lemma attempt_transition a a' :
  (∃ at_ u, attempt_succeed a at_ u = Ok a') ∨ (∃ c k at_ o u, attempt_fail a c k at_ o u = Ok a') ∨
  (∃ at_, attempt_cancel a at_ = Ok a') →
  storable a → storable a' ∧ same_fixed a a'.
Proof.
  unfold attempt_succeed, attempt_fail, attempt_cancel. intros H [Hi Hc].
  destruct H as [(?&?&H)|[(?&?&?&?&?&H)|(?&H)]]; guards H;
    apply (accepted _ _ _ new_attempt_Ok) in H as [-> H]; (split; [by split|done]).
Qed.

Lemma transition_keeps e e' :
  transition e e' → entity_storable e → entity_storable e' ∧ entity_same_fixed e e'.
Proof.
  destruct 1; simpl.
  1-2: apply upstream_transition; eauto 10.
  1-2: apply tool_transition; eauto.
  1-3: eapply version_transition; eauto.
  1-2: apply binding_transition; eauto.
  1-4: apply approval_transition; eauto 12.
  - apply execution_start_Ok in H as (_ & Hn & Hx). by eapply execution_transition.
  - apply register_attempt_Ok in H as (_ & Hx & Hn). by eapply execution_transition.
  - apply execution_succeed_Ok in H as (_ & Hn & Hx). by eapply execution_transition.
  - apply execution_fail_Ok in H as (_ & Hn & Hx). by eapply execution_transition.
  - apply execution_mark_unknown_Ok in H as (_ & Hn & Hx). by eapply execution_transition.
  - apply execution_cancel_Ok in H as (_ & Hn & Hx). by eapply execution_transition.
  - apply attempt_transition; eauto.
  - apply attempt_transition; eauto 10.
  - apply attempt_transition; eauto.
  - unfold start_validation in H. guards H. injection H as <-. intros [Hi _]. by split.
  - unfold start_parsing in H. guards H. injection H as <-. intros [Hi _]. by split.
  - unfold complete_job in H. guards H. injection H as <-. intros [Hi _]. by split.
  - unfold fail_job in H. guards H. injection H as <-. intros [Hi _]. by split.
  - unfold accept_operation in H. guards H. injection H as <-. intros [Hi _]. simpl in Hi.
    split; [split; [|done]|done]. simpl. repeat (rewrite ?Forall_app, ?Forall_cons in * ). 
    by destruct_and?.
Qed.
(** C17: every entity survives its row.  An entity of the ten tables whose
    identifiers are the texts [str] writes and which its constructor accepts is
    written without an error as a row that meets the check constraints of its
    table, and reading that row gives the entity back (an event without metadata
    comes back with empty metadata). *)
Theorem rows_round_trip db_now e :
  entity_storable e →
  ∃ r, write_entity db_now e = Ok r ∧ read_row r = Ok (entity_kept e) ∧
    meets_checks r = true ∧ valid_row r.
Proof.
  destruct e; intros Hs;
    [apply (to_model_holds db_now) in Hs | apply (to_model_holds db_now) in Hs
    | apply (to_model_holds (H := versions) db_now) in Hs | apply (to_model_holds db_now) in Hs ..];
    destruct Hs as (r & Hw & Hr & Hv & Hk); simpl in *; rewrite Hw; simpl;
    eexists; (split; [reflexivity|]); simpl; by rewrite Hr.
Qed.

(** One table's case of the next theorem, with its mapping [m]. *)
Ltac written_case m Hr Hv Hk Hkeep :=
  simpl in Hr; apply rbind_Ok_inv in Hr as (x & Hr & [= <-]);
  pose proof (conj Hr (conj Hv Hk)) as Hh; apply (held_storable (H := m)) in Hh as Hs;
  destruct (Hkeep (proj1 Hs)) as [Hs' Hf];
  match type of Hf with entity_same_fixed _ ?e' => destruct e'; try done end;
  destruct (update_model_holds (H := m) _ _ _ Hh Hs' Hf) as (r' & Hw & (Hr' & Hv' & Hk') & _);
  cbn [update_row]; simpl in Hw, Hr'; rewrite Hw; cbn [rbind]; eexists; (split; [reflexivity|]);
  cbn [read_row]; by rewrite Hr'.

(** C16: an update writes whatever a transition of the domain changes.  Given the
    row of an entity, saving the result of any domain method over it, through the
    [update_*_model] of its mapping, gives a row that meets the check constraints
    and reads back as exactly that result: no changed field is missing from the
    columns the update assigns. *)
Theorem transitions_are_written e e' r :
  transition e e' → read_row r = Ok e → valid_row r → meets_checks r = true →
  ∃ r', update_row r e' = Ok r' ∧ read_row r' = Ok e' ∧ meets_checks r' = true ∧ valid_row r'.
Proof.
  intros Ht Hr Hv Hk. pose proof (transition_keeps _ _ Ht) as Hkeep.
  clear Ht. destruct r.
  - written_case upstream_mapping Hr Hv Hk Hkeep.
  - written_case tool_mapping Hr Hv Hk Hkeep.
  - written_case (version_mapping namespace canonical_name) Hr Hv Hk Hkeep.
  - written_case binding_mapping Hr Hv Hk Hkeep.
  - written_case approval_mapping Hr Hv Hk Hkeep.
  - written_case execution_mapping Hr Hv Hk Hkeep.
  - written_case attempt_mapping Hr Hv Hk Hkeep.
  - written_case audit_mapping Hr Hv Hk Hkeep.
  - written_case job_mapping Hr Hv Hk Hkeep.
  - written_case operation_mapping Hr Hv Hk Hkeep.
Qed.
End All.

Module MappingExamples.
Definition text_of (n : N) : string := uuid_str (mkUUID n).
Definition at_second (n : Z) : datetime := Datetime (n * 1000000) true.

Definition approval : ApprovalRequest :=
  mkApproval (text_of 1) (text_of 2) "agent" (text_of 3) (text_of 4) "digest" "v1" ApPending
    (at_second 0) (at_second 60) None None None None.
Definition approved : ApprovalRequest :=
  mkApproval (text_of 1) (text_of 2) "agent" (text_of 3) (text_of 4) "digest" "v1" ApApproved
    (at_second 0) (at_second 60) None (Some "admin") (Some (at_second 5)) None.
Definition event : AuditEvent :=
  mkAuditEvent (text_of 5) (text_of 2) "agent" ActToolCall "tool" "t" OutAllowed "r" "t"
    (at_second 1) None None None None None.

(** Another text of an identifier is read back as its canonical text. *)
Example upper_case_identifier :
  (let? r := tool_to_model (at_second 0)
       (mkTool "0000000A-0000-0000-0000-000000000000" (text_of 2) "crm" "crm.find" "team" ToolActive) in
   tool_from_model r)
  = Ok (mkTool "0000000a-0000-0000-0000-000000000000" (text_of 2) "crm" "crm.find" "team" ToolActive).
Proof. vm_compute. reflexivity. Qed.

(** An identifier that is not a UUID cannot be written. *)
Example named_identifier :
  is_ok (tool_to_model (at_second 0) (mkTool "tool-1" (text_of 2) "crm" "crm.find" "team" ToolActive))
  = false.
Proof. vm_compute. reflexivity. Qed.

Lemma approval_storable : entity_storable "crm" "crm.find" (SApproval approval).
Proof. split; [repeat constructor|]; vm_compute; reflexivity. Qed.
Lemma event_storable : entity_storable "crm" "crm.find" (SAudit event).
Proof. split; [repeat constructor|]; vm_compute; reflexivity. Qed.

Lemma rows_round_trip_witness :
  ∃ r, write_entity "crm" "crm.find" (at_second 9) (SAudit event) = Ok r ∧
    read_row r = Ok (entity_kept (SAudit event)) ∧ ae_metadata (kept event) = Some [].
Proof.
  destruct (rows_round_trip "crm" "crm.find" (at_second 9) (SAudit event) event_storable)
    as (r & Hw & Hr & _).
  exists r. split; [exact Hw|]. split; [exact Hr|]. reflexivity.
Defined.

Definition approval_row : ApprovalRequestModel :=
  mkApprovalRow (mkUUID 1) (mkUUID 2) "agent" (mkUUID 3) (mkUUID 4) "digest" "v1" None "pending"
    (at_second 0) (at_second 60) None None None.

Lemma transitions_are_written_witness :
  ∃ r', update_row "crm" "crm.find" (RApproval approval_row) (SApproval approved) = Ok r' ∧
    read_row r' = Ok (SApproval approved).
Proof.
  destruct (transitions_are_written "crm" "crm.find" (SApproval approval) (SApproval approved)
    (RApproval approval_row)) as (r' & Hw & Hr & _).
  - apply (tr_approval_approve approval "admin" (at_second 5)). vm_compute. reflexivity.
  - vm_compute. reflexivity.
  - simpl. repeat constructor; vm_compute; reflexivity.
  - vm_compute. reflexivity.
  - exists r'. split; [exact Hw|exact Hr].
Defined.
End MappingExamples.
