(* ===== verification/SqlRepositories.v ===== *)
(** * The SQL repositories

    Models the [sqlalchemy_repository.py] of [modules/registry], [modules/catalog],
    [modules/connectors], [modules/approval], [modules/execution],
    [modules/audit] and [modules/openapi_import].  A unit of work
    ([sqlalchemy_uow.py]) has the shape of the ones in memory: its session works on
    a copy of the rows that commit publishes and leaving drops, so [with_uow] and
    [commit] of Store.v stand for it; [RowTable] is the interface of a table of
    rows inside it.  A flush checks the constraints of the table: primary key,
    unique constraints, check constraints, and what Rows.v leaves to the
    database, foreign keys and the widths of columns, which is the predicate
    [within_schema] of [Schema]. *)

From Stdlib Require Import ZArith QArith.
From stdpp Require Import base strings option list.
From S2P Require Import Prelude Text Dict Errors Json Store AuditTrail Catalog Connectors Registry.
From S2P Require Import Approval Execution OpenApi OpenApiImport Uuid Rows ControlPlane RowMapping.
Open Scope py_scope.

(** ** Tables of rows *)

Class RowTable (D R : Type) := {
  rows : D → list R;
  set_rows : list R → D → D;
  rows_set l d : rows (set_rows l d) = l;
  set_rows_same d : set_rows (rows d) d = d;
  set_rows_set l l' d : set_rows l (set_rows l' d) = set_rows l d }.

(** What a flush can violate; the first three have SQLSTATEs of their own. *)
Inductive violation := PrimaryKeyViolation | UniqueViolation | CheckViolation | OtherViolation.
#[export] Instance violation_eq_dec : EqDecision violation.
Proof. solve_decision. Defined.

(** [sqlstate == "23505"] *)
Definition is_unique_violation (v : violation) : bool :=
  bool_decide (v ∈ [PrimaryKeyViolation; UniqueViolation]).

Class Schema (R : Type) := {
  row_clash : R → R → bool;
  within_schema : R → bool;
  (** the columns the server sets when a row changes *)
  touched : datetime → R → R }.

(** [IntegrityError] of the driver *)
Definition integrity_error (v : violation) : exn := OtherException.

Section Session.
Context {D R : Type} `{RowTable D R}.

Definition read_rows : M D (list R) := λ s,
  match working s with Some d => (Ok (rows d), s) | None => (Raise uow_error, s) end.
Definition store_rows (l : list R) : M D unit := λ s,
  match working s with
  | Some d => (Ok tt, St (store s) (Some (set_rows l d)) (environment s))
  | None => (Raise uow_error, s)
  end.

(** [session.scalar(select(...).where(...))] *)
Definition scalar (where_ : R → bool) : M D (option R) :=
  let* rs := read_rows in ret (find where_ rs).

Context {E : Type} `{Mapping E R} `{Schema R} `{EqDecision R}.

(** The constraints a row violates among the others. *)
Definition violated (r : R) (others : list R) : option violation :=
  if negb (row_check r) then Some CheckViolation
  else if existsb (λ o, bool_decide (row_id o = row_id r)) others then Some PrimaryKeyViolation
  else if existsb (row_clash r) others then Some UniqueViolation
  else if negb (within_schema r) then Some OtherViolation
  else None.

(** [session.add(model)] and [session.flush()] *)
Definition insert_row (refused : violation → exn) (r : R) : M D unit :=
  let* rs := read_rows in
  match violated r rs with
  | Some v => raise (refused v)
  | None => store_rows (rs ++ [r])
  end.

(** The flush of an assigned row: an UPDATE if a column changed. *)
Definition update_stored (db_now : datetime) (r r' : R) : M D unit :=
  if decide (r' = r) then ret tt
  else
    let* rs := read_rows in
    match violated r' (filter (λ o, row_id o ≠ row_id r') rs) with
    | Some v => raise (integrity_error v)
    | None => store_rows (map (λ o, if decide (row_id o = row_id r') then touched db_now r' else o) rs)
    end.

(** [select(...).where(tenant_id == ..., id == ...)] *)
Definition select_by_id (field tenant_id id : string) : M D (option R) :=
  let* tenant := lift (as_uuid tenant_id "tenant id") in
  let* key := lift (as_uuid id field) in
  scalar (λ r, bool_decide (row_tenant r = tenant) && bool_decide (row_id r = key)).

(** [from_model(model) if model is not None else None] *)
Definition loaded (found : option R) : M D (option E) :=
  match found with
  | None => ret None
  | Some r => let* e := lift (from_model r) in ret (Some e)
  end.
Definition loaded_all (found : list R) : M D (list E) := lift (traverse from_model found).

(** The common shapes of the repositories' methods, with their own checks
    [require] and messages. *)
Definition sql_get (field tenant_id id : string) : M D (option E) :=
  let* found := select_by_id field tenant_id id in loaded found.
Definition sql_add (db_now : datetime) (require : res unit) (refused : violation → exn) (e : E) :
    M D unit :=
  lift require ;;*
  let* r := lift (to_model db_now e) in insert_row refused r.
Definition sql_save (db_now : datetime) (require : res unit) (field missing tenant_id : string) (e : E) :
    M D unit :=
  lift require ;;*
  let* found := select_by_id field tenant_id (id_of e) in
  match found with
  | None => raise (ValueError missing)
  | Some r => let* r' := lift (update_model r e) in update_stored db_now r r'
  end.
End Session.

#[export] Instance upstream_row_eq_dec : EqDecision UpstreamServiceModel.
Proof. solve_decision. Defined.
#[export] Instance tool_row_eq_dec : EqDecision ToolModel.
Proof. solve_decision. Defined.
#[export] Instance version_row_eq_dec : EqDecision ToolVersionModel.
Proof. solve_decision. Defined.
#[export] Instance binding_row_eq_dec : EqDecision ToolBindingModel.
Proof. solve_decision. Defined.
#[export] Instance approval_row_eq_dec : EqDecision ApprovalRequestModel.
Proof. solve_decision. Defined.
#[export] Instance execution_row_eq_dec : EqDecision ToolExecutionModel.
Proof. solve_decision. Defined.
#[export] Instance attempt_row_eq_dec : EqDecision ExecutionAttemptModel.
Proof. solve_decision. Defined.
#[export] Instance audit_row_eq_dec : EqDecision AuditEventModel.
Proof. solve_decision. Defined.
#[export] Instance job_row_eq_dec : EqDecision OpenApiImportJobModel.
Proof. solve_decision. Defined.
#[export] Instance operation_row_eq_dec : EqDecision ImportedOperationModel.
Proof. solve_decision. Defined.

(** ** The tables' schemas

    Of the limits the database checks outside Rows.v, [SchemaLimits] is the
    interface. *)

Class SchemaLimits := {
  upstream_limits : UpstreamServiceModel → bool;
  tool_limits : ToolModel → bool;
  version_limits : ToolVersionModel → bool;
  binding_limits : ToolBindingModel → bool;
  approval_limits : ApprovalRequestModel → bool;
  execution_limits : ToolExecutionModel → bool;
  attempt_limits : ExecutionAttemptModel → bool;
  audit_limits : AuditEventModel → bool;
  job_limits : OpenApiImportJobModel → bool;
  operation_limits : ImportedOperationModel → bool }.

Section Schemas.
Context `{SchemaLimits}.

#[export] Instance upstream_schema : Schema UpstreamServiceModel := {|
  row_clash := upstream_clash; within_schema := upstream_limits;
  touched t r := mkUpstreamRow (ur_id r) (ur_tenant_id r) (ur_namespace r) (ur_name r)
    (ur_description r) (ur_owner r) (ur_service_type r) (ur_transport_type r) (ur_endpoint r)
    (ur_protocol_min r) (ur_protocol_max r) (ur_auth_scheme r) (ur_config_json r) (ur_status r)
    (ur_created_at r) t |}.
#[export] Instance tool_schema : Schema ToolModel := {|
  row_clash := tool_clash; within_schema := tool_limits;
  touched t r := mkToolRow (tr_id r) (tr_tenant_id r) (tr_namespace r) (tr_canonical_name r)
    (tr_owner r) (tr_status r) (tr_created_at r) t |}.
#[export] Instance version_schema : Schema ToolVersionModel := {|
  row_clash := version_clash; within_schema := version_limits; touched _ r := r |}.
#[export] Instance binding_schema : Schema ToolBindingModel := {|
  row_clash := binding_clash; within_schema := binding_limits;
  touched t r := mkBindingRow (br_id r) (br_tenant_id r) (br_tool_version_id r)
    (br_upstream_service_id r) (br_imported_operation_id r) (br_binding_type r)
    (br_binding_config_json r) (br_binding_digest r) (br_status r) (br_created_at r) t
    (br_published_at r) |}.
#[export] Instance approval_schema : Schema ApprovalRequestModel := {|
  row_clash _ _ := false; within_schema := approval_limits; touched _ r := r |}.
#[export] Instance execution_schema : Schema ToolExecutionModel := {|
  row_clash := execution_clash; within_schema := execution_limits; touched _ r := r |}.
#[export] Instance attempt_schema : Schema ExecutionAttemptModel := {|
  row_clash := attempt_clash; within_schema := attempt_limits; touched _ r := r |}.
#[export] Instance audit_schema : Schema AuditEventModel := {|
  row_clash _ _ := false; within_schema := audit_limits; touched _ r := r |}.
#[export] Instance job_schema : Schema OpenApiImportJobModel := {|
  row_clash _ _ := false; within_schema := job_limits; touched _ r := r |}.
#[export] Instance operation_schema : Schema ImportedOperationModel := {|
  row_clash := operation_clash; within_schema := operation_limits;
  touched t r := mkOperationRow (opr_id r) (opr_tenant_id r) (opr_import_job_id r)
    (opr_upstream_service_id r) (opr_operation_key r) (opr_operation_id r) (opr_method r) (opr_path r)
    (opr_normalized_operation_json r) (opr_generated_tool_name r) (opr_conflict_status r)
    (opr_review_status r) (opr_review_notes r) (opr_draft_tool_version_id r)
    (opr_draft_tool_binding_id r) (opr_created_at r) t |}.
End Schemas.

(** ** Repositories *)

Section UpstreamRepository.
Context {D : Type} `{!RowTable D UpstreamServiceModel} `{SchemaLimits} `{DatabaseText}
  (db_now : datetime).

(** A violated uniqueness is the registration's conflict. *)
Definition upstream_refused (v : violation) : exn :=
  if is_unique_violation v then Nexus UpstreamConflictError else integrity_error v.

Definition sql_add_upstream (tenant_id : string) (u : UpstreamService) : M D unit :=
  sql_add db_now (require_matching_tenant tenant_id (us_tenant_id u)) upstream_refused u.
Definition sql_save_upstream (tenant_id : string) (u : UpstreamService) : M D unit :=
  sql_save db_now (require_matching_tenant tenant_id (us_tenant_id u)) "upstream service id"
    "upstream service does not exist in tenant" tenant_id u.
(** [get_by_id] and [get_for_update] *)
Definition sql_get_upstream (tenant_id id : string) : M D (option UpstreamService) :=
  sql_get "upstream service id" tenant_id id.
Definition sql_get_upstream_by_name (tenant_id namespace name : string) :
    M D (option UpstreamService) :=
  let* tenant := lift (as_uuid tenant_id "tenant id") in
  let* found := scalar (λ r, bool_decide (ur_tenant_id r = tenant)
    && bool_decide (ur_namespace r = namespace) && bool_decide (ur_name r = name)) in
  loaded found.
Definition sql_list_upstreams (tenant_id : string) : M D (list UpstreamService) :=
  let* tenant := lift (as_uuid tenant_id "tenant id") in
  let* rs := read_rows in
  loaded_all (sorted_by (then_by (λ a b, collate (ur_namespace a) (ur_namespace b))
                                 (λ a b, collate (ur_name a) (ur_name b)))
                (filter (λ r, ur_tenant_id r = tenant) rs)).
End UpstreamRepository.

Section CatalogRepository.
Context {D : Type} `{!RowTable D ToolModel} `{!RowTable D ToolVersionModel}
  `{!RowTable D ToolBindingModel} `{SchemaLimits} `{DatabaseText} (db_now : datetime).

Definition sql_add_tool (tenant_id : string) (t : Tool) : M D unit :=
  sql_add db_now (require_matching_tenant tenant_id (tool_tenant_id t)) integrity_error t.
Definition sql_save_tool (tenant_id : string) (t : Tool) : M D unit :=
  sql_save db_now (require_matching_tenant tenant_id (tool_tenant_id t)) "tool id"
    "tool does not exist in tenant" tenant_id t.
(** [get_tool_by_id] and [get_tool_for_update] *)
Definition sql_get_tool (tenant_id id : string) : M D (option Tool) := sql_get "tool id" tenant_id id.
(** [get_tool_by_name] and [get_tool_by_name_for_update] *)
Definition sql_get_tool_by_name (tenant_id canonical_name : string) : M D (option Tool) :=
  let* tenant := lift (as_uuid tenant_id "tenant id") in
  let* found := scalar (λ r, bool_decide (tr_tenant_id r = tenant)
                             && bool_decide (tr_canonical_name r = canonical_name)) in
  loaded found.

(** [_get_tool_model] for a version *)
Definition parent_of (tenant_id : string) (v : ToolVersion) : M D ToolModel :=
  let* parent := select_by_id (E := Tool) "tool id" tenant_id (tv_tool_id v) in
  match parent with
  | None => raise (ValueError "tool version parent does not exist in tenant")
  | Some tool => ret tool
  end.

Definition sql_add_version (tenant_id : string) (v : ToolVersion) : M D unit :=
  lift (require_matching_tenant tenant_id (tv_tenant_id v)) ;;*
  let* tool := parent_of tenant_id v in
  let* r := lift (tool_version_to_model (tr_namespace tool) (tr_canonical_name tool) db_now v) in
  insert_row (H0 := version_mapping "" "") integrity_error r.

Definition sql_save_version (tenant_id : string) (v : ToolVersion) : M D unit :=
  lift (require_matching_tenant tenant_id (tv_tenant_id v)) ;;*
  let* found := select_by_id (H0 := version_mapping "" "") "tool version id" tenant_id (tv_id v) in
  match found with
  | None => raise (ValueError "tool version does not exist in tenant")
  | Some r =>
      let* tool := parent_of tenant_id v in
      let* r' := lift (update_tool_version_model (tr_namespace tool) (tr_canonical_name tool) r v) in
      update_stored (H0 := version_mapping "" "") db_now r r'
  end.

(** [get_version_by_id] and [get_version_for_update] *)
Definition sql_get_version (tenant_id id : string) : M D (option ToolVersion) :=
  sql_get (H0 := version_mapping "" "") "tool version id" tenant_id id.

Definition sql_get_published_version (tenant_id tool_id : string) : M D (option ToolVersion) :=
  let* tenant := lift (as_uuid tenant_id "tenant id") in
  let* tool := lift (as_uuid tool_id "tool id") in
  let* found := scalar (λ r, bool_decide (vr_tenant_id r = tenant) && bool_decide (vr_tool_id r = tool)
                             && bool_decide (vr_status r = enum_value VPublished)) in
  loaded (H0 := version_mapping "" "") found.

(** [int(next_version or 1)] of [coalesce(max(version), 0) + 1] *)
Definition sql_next_version_number (tenant_id tool_id : string) : M D Z :=
  let* tenant := lift (as_uuid tenant_id "tenant id") in
  let* tool := lift (as_uuid tool_id "tool id") in
  let* rs := read_rows in
  let numbers := map vr_version (filter (λ r, vr_tenant_id r = tenant ∧ vr_tool_id r = tool) rs) in
  let next := (match numbers with [] => 0 | n :: ns => foldr Z.max n ns end + 1)%Z in
  ret (if (next =? 0)%Z then 1%Z else next).

(** [_published_statement]: the join of tools, versions and bindings *)
Definition published_rows (tenant_id : string) : M D (list (ToolModel * ToolVersionModel)) :=
  let* tenant := lift (as_uuid tenant_id "tenant id") in
  let* tools := read_rows in
  let* versions := read_rows in
  let* bindings := read_rows in
  ret (t ← tools; v ← filter (λ v, vr_tool_id v = tr_id t) versions;
       b ← filter (λ b, br_tool_version_id b = vr_id v) bindings;
       if bool_decide (tr_tenant_id t = tenant ∧ vr_tenant_id v = tenant ∧ br_tenant_id b = tenant
            ∧ tr_status t = enum_value ToolActive ∧ vr_status v = enum_value VPublished
            ∧ br_status b = enum_value BPublished)
       then [(t, v)] else []).

Definition sql_list_published (tenant_id : string) : M D (list PublishedTool) :=
  let* rs := published_rows tenant_id in
  lift (traverse (λ row, published_tool_from_models row.1 row.2)
          (sorted_by (λ a b, collate (tr_canonical_name a.1) (tr_canonical_name b.1)) rs)).

(** [one_or_none] raises when there are several rows. *)
Definition one_or_none {A} (found : list A) : res (option A) :=
  match found with [] => Ok None | [x] => Ok (Some x) | _ => Raise OtherException end.

Definition sql_get_published_by_name (tenant_id canonical_name : string) :
    M D (option PublishedTool) :=
  let* rs := published_rows tenant_id in
  let* row := lift (one_or_none (filter (λ row, tr_canonical_name row.1 = canonical_name) rs)) in
  match row with
  | None => ret None
  | Some row => let* t := lift (published_tool_from_models row.1 row.2) in ret (Some t)
  end.
End CatalogRepository.

Section BindingRepository.
Context {D : Type} `{!RowTable D ToolBindingModel} `{SchemaLimits} (db_now : datetime).

Definition sql_add_binding (tenant_id : string) (b : ToolBinding) : M D unit :=
  sql_add db_now (require_matching_tenant tenant_id (tb_tenant_id b)) integrity_error b.
Definition sql_save_binding (tenant_id : string) (b : ToolBinding) : M D unit :=
  sql_save db_now (require_matching_tenant tenant_id (tb_tenant_id b)) "tool binding id"
    "tool binding does not exist in tenant" tenant_id b.
(** [get_by_id] and [get_for_update] *)
Definition sql_get_binding (tenant_id id : string) : M D (option ToolBinding) :=
  sql_get "tool binding id" tenant_id id.
(** [get_by_tool_version] and [get_by_tool_version_for_update] *)
Definition sql_get_binding_by_version (tenant_id version_id : string) : M D (option ToolBinding) :=
  let* tenant := lift (as_uuid tenant_id "tenant id") in
  let* version := lift (as_uuid version_id "tool version id") in
  let* found := scalar (λ r, bool_decide (br_tenant_id r = tenant)
                             && bool_decide (br_tool_version_id r = version)) in
  loaded found.
End BindingRepository.

Section LedgerRepositories.
Context {D : Type} `{!RowTable D ApprovalRequestModel} `{!RowTable D ToolExecutionModel}
  `{!RowTable D ExecutionAttemptModel} `{!RowTable D AuditEventModel} `{SchemaLimits}
  (db_now : datetime).

(** [_require_tenant] and [_require_attempt_tenant] *)
Definition require_own (entity_tenant tenant_id : string) : res unit :=
  raise_if (negb (bool_decide (entity_tenant = tenant_id))) (Nexus TenantBoundaryViolationError).

Definition sql_add_approval (tenant_id : string) (a : ApprovalRequest) : M D unit :=
  sql_add db_now (require_own (ar_tenant_id a) tenant_id) integrity_error a.
(** [get_by_id] and [get_for_update] *)
Definition sql_get_approval (tenant_id id : string) : M D (option ApprovalRequest) :=
  sql_get "approval id" tenant_id id.
Definition sql_save_approval (tenant_id : string) (a : ApprovalRequest) : M D unit :=
  sql_save db_now (require_own (ar_tenant_id a) tenant_id) "approval id"
    "approval does not exist in tenant" tenant_id a.

(** The constraint [uq_tool_execution_idempotency_scope] is the only one but the
    primary key that two executions can violate. *)
Definition execution_refused (v : violation) : exn :=
  if decide (v = UniqueViolation) then Nexus IdempotencyRaceError else integrity_error v.

Definition sql_add_execution (tenant_id : string) (x : ToolExecution) : M D unit :=
  sql_add db_now (require_own (ex_tenant_id x) tenant_id) execution_refused x.
(** [get_by_id] and [get_for_update] *)
Definition sql_get_execution (tenant_id id : string) : M D (option ToolExecution) :=
  sql_get "execution id" tenant_id id.
Definition sql_save_execution (tenant_id : string) (x : ToolExecution) : M D unit :=
  sql_save db_now (require_own (ex_tenant_id x) tenant_id) "execution id"
    "tool execution does not exist in tenant" tenant_id x.
Definition sql_get_execution_by_key (tenant_id principal_id version_id key : string) :
    M D (option ToolExecution) :=
  let* tenant := lift (as_uuid tenant_id "tenant id") in
  let* version := lift (as_uuid version_id "tool version id") in
  let* found := scalar (λ r, bool_decide (xm_tenant_id r = tenant)
    && bool_decide (xm_principal_id r = principal_id) && bool_decide (xm_tool_version_id r = version)
    && bool_decide (xm_key r = Some key)) in
  loaded found.
Definition sql_list_executions (tenant_id : string) : M D (list ToolExecution) :=
  let* tenant := lift (as_uuid tenant_id "tenant id") in
  let* rs := read_rows in
  loaded_all (sorted_by (then_by (λ a b, (dt_micros (xm_planned_at a) <=? dt_micros (xm_planned_at b))%Z)
                                 (λ a b, (uuid_int (xm_id a) <=? uuid_int (xm_id b))%N))
                (filter (λ r, xm_tenant_id r = tenant) rs)).

Definition sql_add_attempt (tenant_id : string) (a : ExecutionAttempt) : M D unit :=
  sql_add db_now (require_own (at_tenant_id a) tenant_id) integrity_error a.
(** [get_for_update] *)
Definition sql_get_attempt (tenant_id id : string) : M D (option ExecutionAttempt) :=
  sql_get "execution attempt id" tenant_id id.
Definition sql_save_attempt (tenant_id : string) (a : ExecutionAttempt) : M D unit :=
  sql_save db_now (require_own (at_tenant_id a) tenant_id) "execution attempt id"
    "execution attempt does not exist in tenant" tenant_id a.
Definition sql_list_attempts (tenant_id execution_id : string) : M D (list ExecutionAttempt) :=
  let* tenant := lift (as_uuid tenant_id "tenant id") in
  let* execution := lift (as_uuid execution_id "execution id") in
  let* rs := read_rows in
  loaded_all (sorted_by (λ a b, (atr_attempt_number a <=? atr_attempt_number b)%Z)
                (filter (λ r, atr_tenant_id r = tenant ∧ atr_execution_id r = execution) rs)).

Definition sql_append_audit (e : AuditEvent) : M D unit :=
  sql_add db_now (Ok tt) integrity_error e.
Definition audit_row_leb : AuditEventModel → AuditEventModel → bool :=
  then_by (λ a b, (dt_micros (aur_occurred_at a) <=? dt_micros (aur_occurred_at b))%Z)
          (λ a b, (uuid_int (aur_id a) <=? uuid_int (aur_id b))%N).
Definition sql_list_audits (tenant_id : string) : M D (list AuditEvent) :=
  let* tenant := lift (as_uuid tenant_id "tenant id") in
  let* rs := read_rows in
  loaded_all (sorted_by audit_row_leb (filter (λ r, aur_tenant_id r = tenant) rs)).
Definition sql_list_execution_audits (tenant_id execution_id : string) : M D (list AuditEvent) :=
  let* tenant := lift (as_uuid tenant_id "tenant id") in
  let* execution := lift (as_uuid execution_id "execution id") in
  let* rs := read_rows in
  let* events := loaded_all (sorted_by audit_row_leb
    (filter (λ r, aur_tenant_id r = tenant ∧ aur_execution_id r = Some execution) rs)) in
  lift (raise_if (existsb (λ e, negb (bool_decide (ae_tenant_id e = tenant_id))) events)
          (Nexus TenantBoundaryViolationError)) ;;*
  ret events.
End LedgerRepositories.

Section ImportRepository.
Context {D : Type} `{!RowTable D OpenApiImportJobModel} `{!RowTable D ImportedOperationModel}
  `{SchemaLimits} `{DatabaseText} (db_now : datetime).

Definition sql_add_job (tenant_id : string) (j : OpenApiImportJob) : M D unit :=
  sql_add db_now (require_matching_tenant tenant_id (ij_tenant_id j)) integrity_error j.
Definition sql_save_job (tenant_id : string) (j : OpenApiImportJob) : M D unit :=
  sql_save db_now (require_matching_tenant tenant_id (ij_tenant_id j)) "import job id"
    "OpenAPI import job does not exist in tenant" tenant_id j.
(** [get_job_by_id] and [get_job_for_update] *)
Definition sql_get_job (tenant_id id : string) : M D (option OpenApiImportJob) :=
  sql_get "import job id" tenant_id id.

(** [add_operations]: the operations are checked and built one by one and
    flushed together, in their order. *)
Definition operation_rows_of (tenant_id : string) (operations : list ImportedOperation) :
    res (list ImportedOperationModel) :=
  traverse (λ o, require_matching_tenant tenant_id (io_tenant_id o) ;;?
                 imported_operation_to_model db_now o) operations.
Fixpoint insert_rows (rs : list ImportedOperationModel) : M D unit :=
  match rs with
  | [] => ret tt
  | r :: rest => insert_row integrity_error r ;;* insert_rows rest
  end.
Definition sql_add_operations (tenant_id : string) (operations : list ImportedOperation) : M D unit :=
  let* rs := lift (operation_rows_of tenant_id operations) in insert_rows rs.

Definition sql_list_operations (tenant_id job_id : string) : M D (list ImportedOperation) :=
  let* tenant := lift (as_uuid tenant_id "tenant id") in
  let* job := lift (as_uuid job_id "import job id") in
  let* rs := read_rows in
  loaded_all (sorted_by (λ a b, collate (opr_operation_key a) (opr_operation_key b))
                (filter (λ r, opr_tenant_id r = tenant ∧ opr_import_job_id r = job) rs)).
(** [get_operation_for_update] *)
Definition sql_get_operation (tenant_id id : string) : M D (option ImportedOperation) :=
  sql_get "imported operation id" tenant_id id.
Definition sql_save_operation (tenant_id : string) (o : ImportedOperation) : M D unit :=
  sql_save db_now (require_matching_tenant tenant_id (io_tenant_id o)) "imported operation id"
    "imported operation does not exist in tenant" tenant_id o.
End ImportRepository.

(** ** Rows that mirror a dictionary *)

Class LawfulSchema (E R : Type) `{Mapping E R, Schema R} := {
  touched_holds (db_now : datetime) (r : R) (e : E) : holds r e → holds (touched db_now r) e;
  touched_key (db_now : datetime) (r : R) :
    row_id (touched db_now r) = row_id r ∧ row_tenant (touched db_now r) = row_tenant r }.

Section Mirror.
Context {E R : Type} `{LawfulMapping E R} `{!Schema R} `{!LawfulSchema E R} `{EqDecision R}.
Implicit Types (t : dict E) (rs : list R).

(** Each row holds the entity at its place in the dictionary. *)
Definition mirrors t rs : Prop :=
  NoDup (dkeys t) ∧ Forall2 (λ kv r, kv.1 = id_of kv.2 ∧ holds r kv.2) t rs.

Lemma mirrors_nil : mirrors [] [].
Proof. split; constructor. Qed.

Lemma mirrors_values t rs : mirrors t rs → Forall2 (λ e r, holds r e) (dvalues t) rs.
Proof.
  intros [_ Hf]. induction Hf as [|[k e] r t rs [_ Hh] _ IH]; simpl; constructor; done.
Qed.

Lemma held_key r e u :
  holds r e → uuid_valid u → bool_decide (row_id r = u) = bool_decide (id_of e = uuid_str u).
Proof.
  intros Hh Hu. apply held_storable in Hh as (_ & _ & -> & _ & Hv & _).
  apply bool_decide_ext. split; [by intros ->|]. by apply uuid_str_inj.
Qed.
Lemma held_tenant r e u :
  holds r e → uuid_valid u → bool_decide (row_tenant r = u) = bool_decide (tenant_of e = uuid_str u).
Proof.
  intros Hh Hu. apply held_storable in Hh as (_ & _ & _ & -> & _ & Hv).
  apply bool_decide_ext. split; [by intros ->|]. by apply uuid_str_inj.
Qed.

(** A search by corresponding conditions finds corresponding things. *)
Lemma mirrors_find (p : E → bool) (q : R → bool) t rs :
  mirrors t rs → (∀ e r, holds r e → p e = q r) →
  match dfind p t, find q rs with
  | Some e, Some r => holds r e
  | None, None => True
  | _, _ => False
  end.
Proof.
  intros Hm Hpq. unfold dfind. pose proof (mirrors_values _ _ Hm) as Hv. clear Hm.
  revert Hv. generalize (dvalues t). induction 1 as [|e r es rs' Hh _ IH]; simpl; [done|].
  rewrite (Hpq _ _ Hh). by destruct (q r).
Qed.

Lemma mirrors_exists (p : E → bool) (q : R → bool) t rs :
  mirrors t rs → (∀ e r, holds r e → p e = q r) → existsb p (dvalues t) = existsb q rs.
Proof.
  intros Hm Hpq. pose proof (mirrors_values _ _ Hm) as Hv. clear Hm.
  revert Hv. generalize (dvalues t). induction 1 as [|e r es rs' Hh _ IH]; simpl; [done|]. by rewrite (Hpq _ _ Hh), IH.
Qed.

(** The row of a key. *)
Lemma mirrors_key t rs u :
  mirrors t rs → uuid_valid u →
  match dget (uuid_str u) t, find (λ r, bool_decide (row_id r = u)) rs with
  | Some e, Some r => holds r e
  | None, None => True
  | _, _ => False
  end.
Proof.
  intros [_ Hf] Hu. induction Hf as [|[k e] r t rs [Hk Hh] _ IH]; simpl in *; [done|].
  rewrite (held_key _ _ _ Hh Hu), <-Hk.
  destruct (decide (uuid_str u = k)) as [->|Hne]; [by rewrite (bool_decide_true (k = k))|].
  by rewrite (bool_decide_false (k = uuid_str u)).
Qed.

Lemma mirrors_select t rs a b :
  mirrors t rs → uuid_valid a → uuid_valid b →
  match in_tenant tenant_of (uuid_str a) (dget (uuid_str b) t),
        find (λ r, bool_decide (row_tenant r = a) && bool_decide (row_id r = b)) rs with
  | Some e, Some r => holds r e
  | None, None => True
  | _, _ => False
  end.
Proof.
  intros [Hn Hf] Ha Hb. induction Hf as [|[k e] r t rs [Hk Hh] Hf IH]; simpl in *; [done|].
  apply NoDup_cons in Hn as [Hk' Hn].
  rewrite (held_key _ _ _ Hh Hb), (held_tenant _ _ _ Hh Ha), <-Hk.
  destruct (decide (uuid_str b = k)) as [<-|Hne].
  - rewrite (bool_decide_true (uuid_str b = uuid_str b)) by done. simpl.
    destruct (decide (tenant_of e = uuid_str a)) as [Ht|Ht].
    + by rewrite (bool_decide_true (tenant_of e = uuid_str a)).
    + rewrite (bool_decide_false (tenant_of e = uuid_str a)) by done. simpl. specialize (IH Hn).
      rewrite (proj2 (dget_None _ t) Hk') in IH. simpl in IH. by destruct (find _ rs).
  - rewrite (bool_decide_false (k = uuid_str b)) by congruence. rewrite andb_false_r. exact (IH Hn).
Qed.

Lemma mirrors_insert t rs e r :
  mirrors t rs → holds r e → dget (id_of e) t = None → mirrors (dset (id_of e) e t) (rs ++ [r]).
Proof.
  intros [Hn Hf] Hh Hfresh. split; [by apply dset_NoDup|].
  rewrite dset_fresh by done. apply Forall2_app; [done|]. by constructor.
Qed.

Lemma mirrors_update t rs e r :
  mirrors t rs → holds r e → is_Some (dget (id_of e) t) →
  mirrors (dset (id_of e) e t) (map (λ o, if decide (row_id o = row_id r) then r else o) rs).
Proof.
  intros [Hn Hf] Hh Hsome. split; [by apply dset_NoDup|].
  apply held_storable in Hh as Hk. destruct Hk as (_ & _ & Hk & _ & Hv & _).
  induction Hf as [|[k e0] r0 t rs [Hk0 Hh0] Hf IH]; simpl in *; [by destruct Hsome|].
  apply NoDup_cons in Hn as [Hn0 Hn].
  pose proof (held_key _ _ _ Hh0 Hv) as Hd. rewrite <-Hk, <-Hk0 in Hd.
  destruct (decide (id_of e = k)) as [<-|Hne].
  - rewrite (bool_decide_true (id_of e = id_of e)) in Hd by done. apply bool_decide_eq_true in Hd.
    rewrite decide_True by done. constructor; [by split|].
    assert (∀ o, o ∈ rs → row_id o ≠ row_id r) as Hother.
    { intros o (i & Hi)%list_elem_of_lookup.
      destruct (Forall2_lookup_r _ _ _ _ _ Hf Hi) as ([k1 e1] & Hi1 & Hk1 & Hh1).
      apply list_elem_of_lookup_2 in Hi1 as He1. intros Heq. apply Hn0.
      apply list_elem_of_fmap. exists (k1, e1). split; [|done]. simpl in *.
      pose proof (held_key _ _ _ Hh1 Hv) as Hd1. rewrite (bool_decide_true _ Heq) in Hd1.
      symmetry in Hd1. apply bool_decide_eq_true in Hd1. congruence. }
    rewrite (map_ext_in _ id rs), map_id; [done|].
    intros o Ho. rewrite decide_False; [done|]. apply Hother. by apply list_elem_of_In.
  - rewrite (bool_decide_false (k = id_of e)) in Hd by congruence. apply bool_decide_eq_false in Hd.
    rewrite decide_False by done. constructor; [by split|]. by apply IH.
Qed.
End Mirror.
