(* ===== verification/RepositoryAgreement.v ===== *)
(** * The repositories in memory and the SQL repositories agree

    The repositories of the components' files (the [in_memory_repository.py]
    adapters) and those of SqlRepositories.v implement the same protocols
    ([ports.py] of each module).  [simulates] is what a caller can rely on of the
    two implementations of one call; [repositories_agree] is that simulation for
    the calls of [repository_call], under what [call_allowed] asks. *)

From Stdlib Require Import ZArith QArith.
From stdpp Require Import base strings option list.
From S2P Require Import Prelude Text Dict Errors Json Store AuditTrail Catalog Connectors Registry.
From S2P Require Import Approval Execution OpenApi OpenApiImport Uuid Rows ControlPlane RowMapping SqlRepositories.
Open Scope py_scope.


#[local] Arguments as_uuid : simpl never.
#[local] Arguments uuid_str : simpl never.

(** ** Agreement of the repositories

    [simulates allowed m s]: on stores that are related and [allowed], the
    computation [m] over dictionaries and [s] over rows either both return the
    same value and leave related stores, or both raise and leave their stores as
    they were. *)

Section Simulation.
Context {DM DS : Type} (related : DM → DS → Prop).

Definition simulates {A} (allowed : DM → DS → Prop) (m : M DM A) (s : M DS A) : Prop :=
  ∀ cm cs dm ds em es, related dm ds → allowed dm ds →
    (∃ a dm' ds', m (St cm (Some dm) em) = (Ok a, St cm (Some dm') em) ∧
       s (St cs (Some ds) es) = (Ok a, St cs (Some ds') es) ∧ related dm' ds')
    ∨ (∃ x y, m (St cm (Some dm) em) = (Raise x, St cm (Some dm) em) ∧
         s (St cs (Some ds) es) = (Raise y, St cs (Some ds) es)).

(** The interface of a pair of tables: one mirrors the other, and may be
    replaced by another such pair. *)
Class Linked (E R : Type) `{Mapping E R} `{!Table DM E} `{!RowTable DS R} := {
  linked dm ds : related dm ds → mirrors (table dm) (rows ds);
  linked_set dm ds (t : dict E) (l : list R) :
    related dm ds → mirrors t l → related (set_table t dm) (set_rows l ds) }.

Context {E R : Type} `{HM : Mapping E R} `{!LawfulMapping E R} `{!Schema R} `{!LawfulSchema E R}
  `{EqDecision R} `{!Table DM E} `{!RowTable DS R} `{!Linked E R}.
Implicit Types (t : dict E).

Lemma loaded_held r e s : holds r e → loaded (D := DS) (Some r) s = (Ok (Some e), s).
Proof. intros [Hr _]. unfold loaded, bind, lift, ret. by rewrite Hr. Qed.

Lemma get_simulates field tenant_id id :
  canonical_uuid tenant_id = true → canonical_uuid id = true →
  simulates (λ _ _, True)
    (let* t := read_table in ret (in_tenant tenant_of tenant_id (dget id t)))
    (sql_get field tenant_id id).
Proof.
  intros (a & Ha & <- & Hpa)%canonical_parses (b & Hb & <- & Hpb)%canonical_parses
    cm cs dm ds em es Hrel _. left.
  pose proof (mirrors_select _ _ _ _ (linked dm ds Hrel) Ha Hb) as Hs.
  unfold sql_get, select_by_id, scalar, read_table, read_rows, bind, lift, ret.
  rewrite Hpa, Hpb. cbn [working]. do 3 eexists. split; [reflexivity|]. split; [|done].
  destruct (in_tenant _ _ _) as [e|], (find _ (rows ds)) as [r|]; try done.
  by apply loaded_held.
Qed.

Lemma find_simulates (p : E → bool) (q : R → bool) :
  (∀ e r, holds r e → p e = q r) →
  simulates (λ _ _, True) (let* t := read_table in ret (dfind p t))
    (let* found := scalar q in loaded found).
Proof.
  intros Hpq cm cs dm ds em es Hrel _. left.
  pose proof (mirrors_find p q _ _ (linked dm ds Hrel) Hpq) as Hs.
  unfold scalar, read_table, read_rows, bind, ret. simpl.
  do 3 eexists. split; [reflexivity|]. split; [|done].
  destruct (dfind _ _) as [e|], (find _ (rows ds)) as [r|]; try done.
  by apply loaded_held.
Qed.

(** What the [add] of a repository in memory does, given its check of the tenant
    and the uniqueness it checks beyond that of the identifier. *)
Definition memory_adds (m : M DM unit) (require : res unit) (taken : dict E → bool) (e : E) : Prop :=
  ∀ c d env,
    let free := is_ok require && negb (dmem (id_of e) (table d)) && negb (taken (table d)) in
    if free then m (St c (Some d) env) =
      (Ok tt, St c (Some (set_table (dset (id_of e) e (table d)) d)) env)
    else ∃ x, m (St c (Some d) env) = (Raise x, St c (Some d) env).

Lemma add_simulates db_now m require refused taken e :
  memory_adds m require taken e → storable e → kept e = e →
  simulates (λ dm ds, ∀ r, holds r e →
      within_schema r = true ∧ existsb (row_clash r) (rows ds) = taken (table dm))
    m (sql_add db_now require refused e).
Proof.
  intros Hm Hs Hkept cm cs dm ds em es Hrel Hallowed.
  pose proof (linked dm ds Hrel) as Hmir.
  specialize (Hm cm dm em). simpl in Hm.
  unfold sql_add, bind, lift. destruct require as [[]|x]; simpl in *.
  2: { destruct Hm as [x' Hm]. right. eauto. }
  destruct (to_model_holds db_now e Hs) as (r & Hw & Hh). rewrite Hkept in Hh. rewrite Hw.
  destruct (Hallowed r Hh) as [Hwithin Hclash].
  unfold insert_row, read_rows, bind. simpl. unfold violated.
  assert (row_check r = true) as -> by apply Hh. simpl.
  assert (existsb (λ o, bool_decide (row_id o = row_id r)) (rows ds) = dmem (id_of e) (table dm)) as ->.
  { apply held_storable in Hh as Hk. destruct Hk as (_ & _ & Hk & _ & Hv & _).
    pose proof (mirrors_key _ _ _ Hmir Hv) as Hkey. rewrite <-Hk in Hkey.
    unfold dmem. destruct (dget _ _) as [e'|], (find _ _) as [r'|] eqn:Ef; try done.
    - rewrite bool_decide_true by eauto. apply existsb_exists.
      apply find_Some_iff in Ef as [Hin Hr']. apply list_elem_of_In in Hin. eauto.
    - rewrite bool_decide_false by (by intros []). apply not_true_iff_false. intros He.
      apply existsb_exists in He as (o & Hin%list_elem_of_In & Ho).
      rewrite find_None_iff in Ef. rewrite Ef in Ho by done. done. }
  rewrite Hclash, Hwithin.
  destruct (dmem _ _) eqn:Ed; simpl in *; [destruct Hm as [x Hm]; right; eauto|].
  destruct (taken _); simpl in *; [destruct Hm as [x Hm]; right; eauto|].
  left. do 3 eexists. split; [exact Hm|]. unfold store_rows. simpl. split; [reflexivity|].
  apply linked_set; [done|]. apply mirrors_insert; [done|done|]. by apply dmem_false.
Qed.

(** The same for [save]. *)
Definition memory_saves (m : M DM unit) (require : res unit) (taken : dict E → bool)
    (tenant_id : string) (e : E) : Prop :=
  ∀ c d env,
    let found := negb (is_none (in_tenant tenant_of tenant_id (dget (id_of e) (table d)))) in
    if is_ok require && found && negb (taken (table d)) then
      m (St c (Some d) env) = (Ok tt, St c (Some (set_table (dset (id_of e) e (table d)) d)) env)
    else ∃ x, m (St c (Some d) env) = (Raise x, St c (Some d) env).

Lemma others_differ (r : R) (rs : list R) :
  existsb (λ o, bool_decide (row_id o = row_id r)) (filter (λ o, row_id o ≠ row_id r) rs) = false.
Proof.
  apply not_true_iff_false. intros (o & Ho & Hd)%existsb_exists. apply list_elem_of_In in Ho.
  apply list_elem_of_filter in Ho as [Hne _]. by apply bool_decide_eq_true in Hd.
Qed.

Lemma save_simulates db_now m require taken field missing tenant_id e :
  memory_saves m require taken tenant_id e → storable e → kept e = e →
  canonical_uuid tenant_id = true →
  simulates (λ dm ds,
      (∀ current, dget (id_of e) (table dm) = Some current → same_fixed current e) ∧
      taken (table dm) = false ∧
      ∀ r, holds r e → within_schema r = true ∧
        existsb (row_clash r) (filter (λ o, row_id o ≠ row_id r) (rows ds)) = false)
    m (sql_save db_now require field missing tenant_id e).
Proof.
  intros Hm Hs Hkept Ht cm cs dm ds em es Hrel (Hfixed & Htaken & Hallowed).
  pose proof (linked dm ds Hrel) as Hmir. specialize (Hm cm dm em). simpl in Hm.
  rewrite Htaken, andb_true_r in Hm. clear Htaken.
  unfold sql_save, bind, lift. destruct require as [[]|x]; simpl in *.
  2: { destruct Hm as [x' Hm]. right. eauto. }
  apply canonical_parses in Ht as (a & Ha & <- & Hpa).
  destruct (to_model_holds db_now e Hs) as (r0 & _ & Hh0). rewrite Hkept in Hh0.
  apply held_storable in Hh0 as (_ & _ & Hid & _ & Hb & _).
  pose proof (mirrors_select _ _ _ _ Hmir Ha Hb) as Hsel. rewrite <-Hid in Hsel.
  unfold select_by_id, scalar, read_rows, bind, lift, ret.
  rewrite Hpa. rewrite Hid, as_uuid_str by done. cbn [working].
  destruct (in_tenant _ _ _) as [current|] eqn:Eg, (find _ (rows ds)) as [r|]; try done; simpl in *.
  2: { destruct Hm as [x Hm]. right. unfold raise. eauto. }
  assert (dget (id_of e) (table dm) = Some current) as Hcur.
  { unfold in_tenant in Eg. by repeat case_match. }
  destruct (update_model_holds r current e Hsel Hs (Hfixed _ Hcur)) as (r' & Hw & Hh & _ & _).
  rewrite Hkept in Hh. rewrite Hw. simpl. destruct (Hallowed r' Hh) as [Hwithin Hclash].
  left. exists tt, (set_table (dset (id_of e) e (table dm)) dm). unfold update_stored.
  destruct (decide (r' = r)) as [->|Hne].
  - assert (current = e) as -> by (destruct Hh, Hsel; congruence).
    eexists. split; [exact Hm|]. unfold ret. split; [reflexivity|].
    rewrite dset_same by done. by rewrite set_table_same.
  - eexists. split; [exact Hm|]. unfold read_rows, bind. simpl. unfold violated.
    assert (row_check r' = true) as -> by apply Hh. simpl. rewrite others_differ, Hclash, Hwithin. simpl.
    unfold store_rows. simpl. split; [reflexivity|]. apply linked_set; [done|].
    destruct (touched_key db_now r') as [Htk _]. rewrite <-Htk.
    apply mirrors_update; [done|by apply touched_holds|by eexists].
Qed.
End Simulation.

(** ** The two stores *)

(** The dictionaries of the repositories in memory. *)
Record memory := mkMemory {
  mm_upstreams : dict UpstreamService; mm_tools : dict Tool; mm_versions : dict ToolVersion;
  mm_bindings : dict ToolBinding; mm_approvals : dict ApprovalRequest;
  mm_executions : dict ToolExecution; mm_attempts : dict ExecutionAttempt;
  mm_audits : dict AuditEvent; mm_jobs : dict OpenApiImportJob;
  mm_operations : dict ImportedOperation }.

Ltac table_laws := first [by intros ? [] | by intros [] | by intros ? ? []].

#[export, refine] Instance memory_upstreams : Table memory UpstreamService := {
  table := mm_upstreams;
  set_table x m := let '(mkMemory _ b c d e f g h i j) := m in mkMemory x b c d e f g h i j }.
Proof. all: table_laws. Defined.
#[export, refine] Instance memory_tools : Table memory Tool := {
  table := mm_tools;
  set_table x m := let '(mkMemory a _ c d e f g h i j) := m in mkMemory a x c d e f g h i j }.
Proof. all: table_laws. Defined.
#[export, refine] Instance memory_versions : Table memory ToolVersion := {
  table := mm_versions;
  set_table x m := let '(mkMemory a b _ d e f g h i j) := m in mkMemory a b x d e f g h i j }.
Proof. all: table_laws. Defined.
#[export, refine] Instance memory_bindings : Table memory ToolBinding := {
  table := mm_bindings;
  set_table x m := let '(mkMemory a b c _ e f g h i j) := m in mkMemory a b c x e f g h i j }.
Proof. all: table_laws. Defined.
#[export, refine] Instance memory_approvals : Table memory ApprovalRequest := {
  table := mm_approvals;
  set_table x m := let '(mkMemory a b c d _ f g h i j) := m in mkMemory a b c d x f g h i j }.
Proof. all: table_laws. Defined.
#[export, refine] Instance memory_executions : Table memory ToolExecution := {
  table := mm_executions;
  set_table x m := let '(mkMemory a b c d e _ g h i j) := m in mkMemory a b c d e x g h i j }.
Proof. all: table_laws. Defined.
#[export, refine] Instance memory_attempts : Table memory ExecutionAttempt := {
  table := mm_attempts;
  set_table x m := let '(mkMemory a b c d e f _ h i j) := m in mkMemory a b c d e f x h i j }.
Proof. all: table_laws. Defined.
#[export, refine] Instance memory_audits : Table memory AuditEvent := {
  table := mm_audits;
  set_table x m := let '(mkMemory a b c d e f g _ i j) := m in mkMemory a b c d e f g x i j }.
Proof. all: table_laws. Defined.
#[export, refine] Instance memory_jobs : Table memory OpenApiImportJob := {
  table := mm_jobs;
  set_table x m := let '(mkMemory a b c d e f g h _ j) := m in mkMemory a b c d e f g h x j }.
Proof. all: table_laws. Defined.
#[export, refine] Instance memory_operations : Table memory ImportedOperation := {
  table := mm_operations;
  set_table x m := let '(mkMemory a b c d e f g h i _) := m in mkMemory a b c d e f g h i x }.
Proof. all: table_laws. Defined.

#[export, refine] Instance database_upstreams : RowTable Database UpstreamServiceModel := {
  rows := db_upstreams;
  set_rows x m := let '(mkDatabase _ b c d e f g h i j k) := m in mkDatabase x b c d e f g h i j k }.
Proof. all: table_laws. Defined.
#[export, refine] Instance database_tools : RowTable Database ToolModel := {
  rows := db_tools;
  set_rows x m := let '(mkDatabase a _ c d e f g h i j k) := m in mkDatabase a x c d e f g h i j k }.
Proof. all: table_laws. Defined.
#[export, refine] Instance database_versions : RowTable Database ToolVersionModel := {
  rows := db_versions;
  set_rows x m := let '(mkDatabase a b _ d e f g h i j k) := m in mkDatabase a b x d e f g h i j k }.
Proof. all: table_laws. Defined.
#[export, refine] Instance database_bindings : RowTable Database ToolBindingModel := {
  rows := db_bindings;
  set_rows x m := let '(mkDatabase a b c _ e f g h i j k) := m in mkDatabase a b c x e f g h i j k }.
Proof. all: table_laws. Defined.
#[export, refine] Instance database_approvals : RowTable Database ApprovalRequestModel := {
  rows := db_approvals;
  set_rows x m := let '(mkDatabase a b c d _ f g h i j k) := m in mkDatabase a b c d x f g h i j k }.
Proof. all: table_laws. Defined.
#[export, refine] Instance database_executions : RowTable Database ToolExecutionModel := {
  rows := db_executions;
  set_rows x m := let '(mkDatabase a b c d e _ g h i j k) := m in mkDatabase a b c d e x g h i j k }.
Proof. all: table_laws. Defined.
#[export, refine] Instance database_attempts : RowTable Database ExecutionAttemptModel := {
  rows := db_attempts;
  set_rows x m := let '(mkDatabase a b c d e f _ h i j k) := m in mkDatabase a b c d e f x h i j k }.
Proof. all: table_laws. Defined.
#[export, refine] Instance database_audits : RowTable Database AuditEventModel := {
  rows := db_audits;
  set_rows x m := let '(mkDatabase a b c d e f g _ i j k) := m in mkDatabase a b c d e f g x i j k }.
Proof. all: table_laws. Defined.
#[export, refine] Instance database_jobs : RowTable Database OpenApiImportJobModel := {
  rows := db_jobs;
  set_rows x m := let '(mkDatabase a b c d e f g h _ j k) := m in mkDatabase a b c d e f g h x j k }.
Proof. all: table_laws. Defined.
#[export, refine] Instance database_operations : RowTable Database ImportedOperationModel := {
  rows := db_operations;
  set_rows x m := let '(mkDatabase a b c d e f g h i _ k) := m in mkDatabase a b c d e f g h i x k }.
Proof. all: table_laws. Defined.

(** The names a version's row repeats do not matter to what it holds. *)
#[export] Instance any_version_mapping : Mapping ToolVersion ToolVersionModel := version_mapping "" "".
#[export] Instance any_version_lawful : LawfulMapping ToolVersion ToolVersionModel :=
  version_lawful "" "".

Definition mirrored (m : memory) (d : Database) : Prop :=
  mirrors (mm_upstreams m) (db_upstreams d) ∧ mirrors (mm_tools m) (db_tools d) ∧
  mirrors (mm_versions m) (db_versions d) ∧ mirrors (mm_bindings m) (db_bindings d) ∧
  mirrors (mm_approvals m) (db_approvals d) ∧ mirrors (mm_executions m) (db_executions d) ∧
  mirrors (mm_attempts m) (db_attempts d) ∧ mirrors (mm_audits m) (db_audits d) ∧
  mirrors (mm_jobs m) (db_jobs d) ∧ mirrors (mm_operations m) (db_operations d).

Ltac linked_solve :=
  split; intros [] []; unfold mirrored; simpl; [tauto|]; intros; simpl; tauto.
#[export] Instance linked_upstreams : Linked mirrored UpstreamService UpstreamServiceModel.
Proof. linked_solve. Qed.
#[export] Instance linked_tools : Linked mirrored Tool ToolModel.
Proof. linked_solve. Qed.
#[export] Instance linked_versions : Linked mirrored ToolVersion ToolVersionModel.
Proof. linked_solve. Qed.
#[export] Instance linked_bindings : Linked mirrored ToolBinding ToolBindingModel.
Proof. linked_solve. Qed.
#[export] Instance linked_approvals : Linked mirrored ApprovalRequest ApprovalRequestModel.
Proof. linked_solve. Qed.
#[export] Instance linked_executions : Linked mirrored ToolExecution ToolExecutionModel.
Proof. linked_solve. Qed.
#[export] Instance linked_attempts : Linked mirrored ExecutionAttempt ExecutionAttemptModel.
Proof. linked_solve. Qed.
#[export] Instance linked_audits : Linked mirrored AuditEvent AuditEventModel.
Proof. linked_solve. Qed.
#[export] Instance linked_jobs : Linked mirrored OpenApiImportJob OpenApiImportJobModel.
Proof. linked_solve. Qed.
#[export] Instance linked_operations : Linked mirrored ImportedOperation ImportedOperationModel.
Proof. linked_solve. Qed.

Section SchemaLaws.
Context `{SchemaLimits}.
#[export] Instance upstream_schema_lawful : LawfulSchema UpstreamService UpstreamServiceModel.
Proof. split; [intros ? [] ? Hh; exact Hh|done]. Qed.
#[export] Instance tool_schema_lawful : LawfulSchema Tool ToolModel.
Proof. split; [intros ? [] ? Hh; exact Hh|done]. Qed.
#[export] Instance version_schema_lawful : LawfulSchema ToolVersion ToolVersionModel.
Proof. split; done. Qed.
#[export] Instance binding_schema_lawful : LawfulSchema ToolBinding ToolBindingModel.
Proof. split; [intros ? [] ? Hh; exact Hh|done]. Qed.
#[export] Instance approval_schema_lawful : LawfulSchema ApprovalRequest ApprovalRequestModel.
Proof. split; done. Qed.
#[export] Instance execution_schema_lawful : LawfulSchema ToolExecution ToolExecutionModel.
Proof. split; done. Qed.
#[export] Instance attempt_schema_lawful : LawfulSchema ExecutionAttempt ExecutionAttemptModel.
Proof. split; done. Qed.
#[export] Instance audit_schema_lawful : LawfulSchema AuditEvent AuditEventModel.
Proof. split; done. Qed.
#[export] Instance job_schema_lawful : LawfulSchema OpenApiImportJob OpenApiImportJobModel.
Proof. split; done. Qed.
#[export] Instance operation_schema_lawful : LawfulSchema ImportedOperation ImportedOperationModel.
Proof. split; [intros ? [] ? Hh; exact Hh|done]. Qed.
End SchemaLaws.

(** ** Calls of the repositories *)

Inductive repository_call :=
| AddUpstream (tenant_id : string) (u : UpstreamService)
| SaveUpstream (tenant_id : string) (u : UpstreamService)
| GetUpstream (tenant_id id : string)
| GetUpstreamByName (tenant_id namespace name : string)
| AddTool (tenant_id : string) (t : Tool)
| SaveTool (tenant_id : string) (t : Tool)
| GetTool (tenant_id id : string)
| GetToolByName (tenant_id name : string)
| AddVersion (tenant_id : string) (v : ToolVersion)
| SaveVersion (tenant_id : string) (v : ToolVersion)
| GetVersion (tenant_id id : string)
| GetPublishedVersion (tenant_id tool_id : string)
| NextVersionNumber (tenant_id tool_id : string)
| AddBinding (tenant_id : string) (b : ToolBinding)
| SaveBinding (tenant_id : string) (b : ToolBinding)
| GetBinding (tenant_id id : string)
| GetBindingByVersion (tenant_id version_id : string)
| AddApproval (tenant_id : string) (a : ApprovalRequest)
| SaveApproval (tenant_id : string) (a : ApprovalRequest)
| GetApproval (tenant_id id : string)
| AddExecution (tenant_id : string) (x : ToolExecution)
| SaveExecution (tenant_id : string) (x : ToolExecution)
| GetExecution (tenant_id id : string)
| GetExecutionByKey (tenant_id principal_id version_id key : string)
| AddAttempt (tenant_id : string) (a : ExecutionAttempt)
| SaveAttempt (tenant_id : string) (a : ExecutionAttempt)
| GetAttempt (tenant_id id : string)
| AppendAudit (e : AuditEvent)
| AddJob (tenant_id : string) (j : OpenApiImportJob)
| SaveJob (tenant_id : string) (j : OpenApiImportJob)
| GetJob (tenant_id id : string)
| SaveOperation (tenant_id : string) (o : ImportedOperation)
| GetOperation (tenant_id id : string).

Inductive repository_answer :=
| Done
| FoundUpstream (u : option UpstreamService)
| FoundTool (t : option Tool)
| FoundVersion (v : option ToolVersion)
| FoundNumber (n : Z)
| FoundBinding (b : option ToolBinding)
| FoundApproval (a : option ApprovalRequest)
| FoundExecution (x : option ToolExecution)
| FoundAttempt (a : option ExecutionAttempt)
| FoundJob (j : option OpenApiImportJob)
| FoundOperation (o : option ImportedOperation).

(** A call whose value becomes an answer. *)
Definition answer {D A} (make : A → repository_answer) (m : M D A) : M D repository_answer :=
  let* a := m in ret (make a).
Definition done_ (_ : unit) : repository_answer := Done.

Definition memory_call (c : repository_call) : M memory repository_answer :=
  match c with
  | AddUpstream t u => answer done_ (add_upstream t u)
  | SaveUpstream t u => answer done_ (save_upstream t u)
  | GetUpstream t id => answer FoundUpstream (Registry.get_upstream t id)
  | GetUpstreamByName t ns name => answer FoundUpstream (get_upstream_by_name t ns name)
  | AddTool t x => answer done_ (add_tool t x)
  | SaveTool t x => answer done_ (save_tool t x)
  | GetTool t id => answer FoundTool (get_tool_by_id t id)
  | GetToolByName t name => answer FoundTool (get_tool_by_name t name)
  | AddVersion t v => answer done_ (add_version t v)
  | SaveVersion t v => answer done_ (save_version t v)
  | GetVersion t id => answer FoundVersion (get_version_by_id t id)
  | GetPublishedVersion t id => answer FoundVersion (get_published_version t id)
  | NextVersionNumber t id => answer FoundNumber (next_version_number t id)
  | AddBinding t b => answer done_ (add_binding t b)
  | SaveBinding t b => answer done_ (save_binding t b)
  | GetBinding t id => answer FoundBinding (get_binding_by_id t id)
  | GetBindingByVersion t id => answer FoundBinding (get_binding_by_tool_version t id)
  | AddApproval t a => answer done_ (approvals_add t a)
  | SaveApproval t a => answer done_ (approvals_save t a)
  | GetApproval t id => answer FoundApproval (approvals_get t id)
  | AddExecution t x => answer done_ (add_execution t x)
  | SaveExecution t x => answer done_ (save_execution t x)
  | GetExecution t id => answer FoundExecution (Execution.get_execution t id)
  | GetExecutionByKey t p v k => answer FoundExecution (get_execution_by_key t p v k)
  | AddAttempt t a => answer done_ (add_attempt t a)
  | SaveAttempt t a => answer done_ (save_attempt t a)
  | GetAttempt t id => answer FoundAttempt (get_attempt t id)
  | AppendAudit e => answer done_ (audits_append e)
  | AddJob t j => answer done_ (add_job t j)
  | SaveJob t j => answer done_ (save_job t j)
  | GetJob t id => answer FoundJob (get_job t id)
  | SaveOperation t o => answer done_ (save_operation t o)
  | GetOperation t id => answer FoundOperation (get_operation t id)
  end.

(** ** Units of work

    What a use case does in a unit of work: calls of the repositories, each
    depending on the answers before it, and readings of the clock, the identifiers
    and the other things of the environment. *)

Inductive transaction (C R A : Type) :=
| Answer (a : A)
| Refuse (x : exn)
| Ask {B : Type} (reading : env → B * env) (k : B → transaction C R A)
| Then (c : C) (k : R → transaction C R A).
Arguments Answer {C R A} a.
Arguments Refuse {C R A} x.
Arguments Ask {C R A B} reading k.
Arguments Then {C R A} c k.

Fixpoint run {D C R A} (call : C → M D R) (p : transaction C R A) : M D A :=
  match p with
  | Answer a => ret a
  | Refuse x => raise x
  | Ask reading k => λ s,
      let '(b, e) := reading (environment s) in run call (k b) (St (store s) (working s) e)
  | Then c k => let* answer := call c in run call (k answer)
  end.

(** [async with uow: ...; await uow.commit()] *)
Definition unit_of_work {D C R A} (call : C → M D R) (p : transaction C R A) : M D A :=
  with_uow (let* a := run call p in commit ;;* ret a).

Section Calls.
Context `{SchemaLimits} (db_now : datetime).

Definition sql_call (c : repository_call) : M Database repository_answer :=
  match c with
  | AddUpstream t u => answer done_ (sql_add_upstream db_now t u)
  | SaveUpstream t u => answer done_ (sql_save_upstream db_now t u)
  | GetUpstream t id => answer FoundUpstream (sql_get_upstream t id)
  | GetUpstreamByName t ns name => answer FoundUpstream (sql_get_upstream_by_name t ns name)
  | AddTool t x => answer done_ (sql_add_tool db_now t x)
  | SaveTool t x => answer done_ (sql_save_tool db_now t x)
  | GetTool t id => answer FoundTool (sql_get_tool t id)
  | GetToolByName t name => answer FoundTool (sql_get_tool_by_name t name)
  | AddVersion t v => answer done_ (sql_add_version db_now t v)
  | SaveVersion t v => answer done_ (sql_save_version db_now t v)
  | GetVersion t id => answer FoundVersion (sql_get_version t id)
  | GetPublishedVersion t id => answer FoundVersion (sql_get_published_version t id)
  | NextVersionNumber t id => answer FoundNumber (sql_next_version_number t id)
  | AddBinding t b => answer done_ (sql_add_binding db_now t b)
  | SaveBinding t b => answer done_ (sql_save_binding db_now t b)
  | GetBinding t id => answer FoundBinding (sql_get_binding t id)
  | GetBindingByVersion t id => answer FoundBinding (sql_get_binding_by_version t id)
  | AddApproval t a => answer done_ (sql_add_approval db_now t a)
  | SaveApproval t a => answer done_ (sql_save_approval db_now t a)
  | GetApproval t id => answer FoundApproval (sql_get_approval t id)
  | AddExecution t x => answer done_ (sql_add_execution db_now t x)
  | SaveExecution t x => answer done_ (sql_save_execution db_now t x)
  | GetExecution t id => answer FoundExecution (sql_get_execution t id)
  | GetExecutionByKey t p v k => answer FoundExecution (sql_get_execution_by_key t p v k)
  | AddAttempt t a => answer done_ (sql_add_attempt db_now t a)
  | SaveAttempt t a => answer done_ (sql_save_attempt db_now t a)
  | GetAttempt t id => answer FoundAttempt (sql_get_attempt t id)
  | AppendAudit e => answer done_ (sql_append_audit db_now e)
  | AddJob t j => answer done_ (sql_add_job db_now t j)
  | SaveJob t j => answer done_ (sql_save_job db_now t j)
  | GetJob t id => answer FoundJob (sql_get_job t id)
  | SaveOperation t o => answer done_ (sql_save_operation db_now t o)
  | GetOperation t id => answer FoundOperation (sql_get_operation t id)
  end.

(** What the two stores must have in common with a call: canonical identifiers,
    entities the mapping can write and the schema can hold, and none of what only
    one of them refuses. *)
Definition addable {E R} `{Mapping E R, Schema R} (e : E) : Prop :=
  storable e ∧ kept e = e ∧ ∀ r : R, holds r e → within_schema r = true.

(** A save of a change of what is stored, which no unique constraint refuses. *)
Definition savable {E R} `{Mapping E R, Schema R} (tenant_id : string) (t : dict E) (rs : list R)
    (e : E) : Prop :=
  canonical_uuid tenant_id = true ∧ storable e ∧ kept e = e ∧
  (∀ current, dget (id_of e) t = Some current → same_fixed current e) ∧
  ∀ r : R, holds r e → within_schema r = true ∧
    existsb (row_clash r) (filter (λ o, row_id o ≠ row_id r) rs) = false.

Definition call_allowed (c : repository_call) (m : memory) (d : Database) : Prop :=
  match c with
  | AddUpstream _ u => addable u
  | SaveUpstream t u => savable t (mm_upstreams m) (db_upstreams d) u
  | AddTool _ x => addable x
  | SaveTool t x => savable t (mm_tools m) (db_tools d) x ∧
      (∀ o, find_tool_by_name t (tool_canonical_name x) (mm_tools m) = Some o → tool_id o = tool_id x)
  | AddVersion t v => addable v ∧ tv_status v ≠ VPublished ∧
      (* the database wants the tool of the version *)
      is_Some (in_tenant tool_tenant_id t (dget (tv_tool_id v) (mm_tools m)))
  | SaveVersion t v => savable t (mm_versions m) (db_versions d) v ∧
      existsb (λ w, negb (bool_decide (tv_id w = tv_id v)) && same_number v w)
        (dvalues (mm_versions m)) = false ∧
      is_Some (in_tenant tool_tenant_id t (dget (tv_tool_id v) (mm_tools m)))
  | AddBinding t b => addable b ∧
      (* the database has one binding per version over all tenants *)
      (∀ o, o ∈ dvalues (mm_bindings m) → tb_tool_version_id o = tb_tool_version_id b →
         tb_tenant_id o = tb_tenant_id b)
  | SaveBinding t b => savable t (mm_bindings m) (db_bindings d) b ∧
      (∀ o, find_binding_by_version t (tb_tool_version_id b) (mm_bindings m) = Some o → tb_id o = tb_id b)
  | AddApproval _ a => addable a
  | SaveApproval t a => savable t (mm_approvals m) (db_approvals d) a
  | AddExecution _ x => addable x ∧
      (* only the database refuses a used idempotency key here *)
      (∀ key, ex_idempotency_key x = Some key → find_by_idempotency_key (ex_tenant_id x)
         (ex_principal_id x) (ex_tool_version_id x) key (mm_executions m) = None)
  | SaveExecution t x => savable t (mm_executions m) (db_executions d) x
  | AddAttempt _ a => addable a
  | SaveAttempt t a => savable t (mm_attempts m) (db_attempts d) a
  | AppendAudit e => addable e
  | AddJob _ j => addable j
  | SaveJob t j => savable t (mm_jobs m) (db_jobs d) j
  | SaveOperation t o => savable t (mm_operations m) (db_operations d) o
  | GetUpstreamByName t _ _ | GetToolByName t _ => canonical_uuid t = true
  | GetExecutionByKey t _ id _ => canonical_uuid t = true ∧ canonical_uuid id = true
  | GetUpstream t id | GetTool t id | GetVersion t id | GetPublishedVersion t id
  | NextVersionNumber t id | GetBinding t id | GetBindingByVersion t id | GetApproval t id
  | GetExecution t id | GetAttempt t id | GetJob t id | GetOperation t id =>
      canonical_uuid t = true ∧ canonical_uuid id = true
  end.

(** *** What the repositories in memory do *)

Lemma simulates_answer {A} make allowed (m : M memory A) (s : M Database A) :
  simulates mirrored allowed m s → simulates mirrored allowed (answer make m) (answer make s).
Proof.
  intros Hsim cm cs dm ds em es Hrel Ha. unfold answer, bind, ret.
  destruct (Hsim cm cs dm ds em es Hrel Ha) as [(a & dm' & ds' & -> & -> & Hrel')|(x & y & -> & ->)].
  - left. eauto 10.
  - right. eauto.
Qed.

Lemma simulates_weaken {A} (P Q : memory → Database → Prop) (m : M memory A) (s : M Database A) :
  (∀ dm ds, mirrored dm ds → Q dm ds → P dm ds) →
  simulates mirrored P m s → simulates mirrored Q m s.
Proof. intros HQP Hsim cm cs dm ds em es Hrel Hq. by apply Hsim; [|apply HQP]. Qed.

(** Run a method of a repository in memory for the tenant [t] and an entity of
    the tenant [own]; the cases left are those of its other checks. *)
Ltac memory_run t own :=
  intros c d env;
  unfold require_matching_tenant, require_own, approvals_require_tenant, get_upstream_by_name,
    get_tool_by_name, get_binding_by_tool_version, bind, lift, read_table, write_table, ret, raise_if;
  cbn [working store environment];
  (destruct (decide (t = own)) as [->|?];
    [rewrite ?(bool_decide_true (own = own)) by done
    |rewrite ?(bool_decide_false (t = own)), ?(bool_decide_false (own = t)) by congruence]);
  simpl; eauto.

Lemma add_upstream_adds t u :
  memory_adds (add_upstream t u) (require_matching_tenant t (us_tenant_id u))
    (λ tb, negb (is_none (find_upstream_by_name (us_tenant_id u) (us_namespace u) (us_name u) tb))) u.
Proof.
  unfold memory_adds, add_upstream. memory_run t (us_tenant_id u).
  destruct (dmem _ _); simpl; [eauto|]. destruct (is_none _); simpl; eauto.
Qed.
Lemma add_tool_adds t x :
  memory_adds (add_tool t x) (require_matching_tenant t (tool_tenant_id x))
    (λ tb, negb (is_none (find_tool_by_name (tool_tenant_id x) (tool_canonical_name x) tb))) x.
Proof.
  unfold memory_adds, add_tool. memory_run t (tool_tenant_id x).
  destruct (dmem _ _); simpl; [eauto|]. destruct (is_none _); simpl; eauto.
Qed.
Lemma add_version_adds t v :
  memory_adds (add_version t v) (require_matching_tenant t (tv_tenant_id v))
    (λ tb, existsb (same_number v) (dvalues tb)) v.
Proof.
  unfold memory_adds, add_version. memory_run t (tv_tenant_id v).
  destruct (dmem _ _); simpl; [eauto|]. destruct (existsb _ _); simpl; eauto.
Qed.
Lemma add_binding_adds t b :
  memory_adds (add_binding t b) (require_matching_tenant t (tb_tenant_id b))
    (λ tb, negb (is_none (find_binding_by_version (tb_tenant_id b) (tb_tool_version_id b) tb))) b.
Proof.
  unfold memory_adds, add_binding. memory_run t (tb_tenant_id b).
  destruct (dmem _ _); simpl; [eauto|]. destruct (is_none _); simpl; eauto.
Qed.
Lemma add_approval_adds t a :
  memory_adds (approvals_add t a) (require_own (ar_tenant_id a) t) (λ _, false) a.
Proof.
  unfold memory_adds, approvals_add. memory_run t (ar_tenant_id a). destruct (dmem _ _); simpl; eauto.
Qed.
Lemma add_execution_adds t x :
  memory_adds (add_execution t x) (require_own (ex_tenant_id x) t) (λ _, false) x.
Proof.
  unfold memory_adds, add_execution. memory_run t (ex_tenant_id x). destruct (dmem _ _); simpl; eauto.
Qed.
Lemma add_attempt_adds t a :
  memory_adds (add_attempt t a) (require_own (at_tenant_id a) t)
    (λ tb, existsb (same_attempt_number a) (dvalues tb)) a.
Proof.
  unfold memory_adds, add_attempt. memory_run t (at_tenant_id a).
  destruct (dmem _ _); simpl; [eauto|]. destruct (existsb _ _); simpl; eauto.
Qed.
Lemma append_audit_adds e : memory_adds (audits_append e) (Ok tt) (λ _, false) e.
Proof.
  unfold memory_adds, audits_append. intros c d env.
  unfold bind, lift, read_table, write_table, raise_if. cbn [working store environment is_ok andb].
  destruct (dmem _ _); simpl; eauto.
Qed.
Lemma add_job_adds t j :
  memory_adds (add_job t j) (require_matching_tenant t (ij_tenant_id j)) (λ _, false) j.
Proof.
  unfold memory_adds, add_job. memory_run t (ij_tenant_id j). destruct (dmem _ _); simpl; eauto.
Qed.

Lemma save_upstream_saves t u :
  memory_saves (save_upstream t u) (require_matching_tenant t (us_tenant_id u)) (λ _, false) t u.
Proof.
  unfold memory_saves, save_upstream. memory_run t (us_tenant_id u).
  destruct (in_tenant _ _ _); simpl; eauto.
Qed.
(** Another entity has the unique attributes of the saved one. *)
Definition owned_by_other {E} (key : E → string) (id : string) (owner : option E) : bool :=
  match owner with Some o => negb (bool_decide (key o = id)) | None => false end.
Lemma save_tool_saves t x :
  memory_saves (save_tool t x) (require_matching_tenant t (tool_tenant_id x))
    (λ tb, owned_by_other tool_id (tool_id x) (find_tool_by_name t (tool_canonical_name x) tb)) t x.
Proof.
  unfold memory_saves, save_tool, owned_by_other. memory_run t (tool_tenant_id x).
  destruct (in_tenant _ _ _); simpl; [|eauto]. destruct (find_tool_by_name _ _ _); simpl; [|eauto].
  destruct (bool_decide _); simpl; eauto.
Qed.
Lemma save_version_saves t v :
  memory_saves (save_version t v) (require_matching_tenant t (tv_tenant_id v))
    (λ tb, existsb (λ w, negb (bool_decide (tv_id w = tv_id v)) && same_number v w) (dvalues tb)) t v.
Proof.
  unfold memory_saves, save_version. memory_run t (tv_tenant_id v).
  destruct (in_tenant _ _ _); simpl; [|eauto]. destruct (existsb _ _); simpl; eauto.
Qed.
Lemma save_binding_saves t b :
  memory_saves (save_binding t b) (require_matching_tenant t (tb_tenant_id b))
    (λ tb, owned_by_other tb_id (tb_id b) (find_binding_by_version t (tb_tool_version_id b) tb)) t b.
Proof.
  unfold memory_saves, save_binding, owned_by_other. memory_run t (tb_tenant_id b).
  destruct (in_tenant _ _ _); simpl; [|eauto]. destruct (find_binding_by_version _ _ _); simpl; [|eauto].
  destruct (bool_decide _); simpl; eauto.
Qed.
Lemma save_approval_saves t a :
  memory_saves (approvals_save t a) (require_own (ar_tenant_id a) t) (λ _, false) t a.
Proof.
  unfold memory_saves, approvals_save. memory_run t (ar_tenant_id a).
  change (@id_of ApprovalRequest _ _ a) with (ar_id a). destruct (dget (ar_id a) _) as [c0|]; simpl; [|eauto].
  destruct (decide (ar_tenant_id c0 = ar_tenant_id a));
    [rewrite bool_decide_true by done|rewrite bool_decide_false by done]; simpl; eauto.
Qed.
Lemma save_execution_saves t x :
  memory_saves (save_execution t x) (require_own (ex_tenant_id x) t) (λ _, false) t x.
Proof.
  unfold memory_saves, save_execution. memory_run t (ex_tenant_id x).
  destruct (in_tenant _ _ _); simpl; eauto.
Qed.
Lemma save_attempt_saves t a :
  memory_saves (save_attempt t a) (require_own (at_tenant_id a) t) (λ _, false) t a.
Proof.
  unfold memory_saves, save_attempt. memory_run t (at_tenant_id a).
  destruct (in_tenant _ _ _); simpl; eauto.
Qed.
Lemma save_job_saves t j :
  memory_saves (save_job t j) (require_matching_tenant t (ij_tenant_id j)) (λ _, false) t j.
Proof.
  unfold memory_saves, save_job. memory_run t (ij_tenant_id j).
  destruct (in_tenant _ _ _); simpl; eauto.
Qed.
Lemma save_operation_saves t o :
  memory_saves (save_operation t o) (require_matching_tenant t (io_tenant_id o)) (λ _, false) t o.
Proof.
  unfold memory_saves, save_operation. memory_run t (io_tenant_id o).
  destruct (in_tenant _ _ _); simpl; eauto.
Qed.

(** *** The columns of held entities *)

Ltac columns r e new_Ok :=
  intros Hh; pose proof Hh as Hh'; revert Hh'; read_held r e new_Ok; destruct_and?;
  repeat match goal with H : Forall _ (_ :: _) |- _ => apply Forall_cons in H as [? ?] end;
  split_and!; done.

Lemma upstream_columns r u :
  holds r u → uuid_valid (ur_tenant_id r) ∧ us_tenant_id u = uuid_str (ur_tenant_id r)
  ∧ us_namespace u = ur_namespace r ∧ us_name u = ur_name r.
Proof. columns r u new_upstream_Ok. Qed.
Lemma tool_columns r x :
  holds r x → uuid_valid (tr_tenant_id r) ∧ tool_tenant_id x = uuid_str (tr_tenant_id r)
  ∧ tool_canonical_name x = tr_canonical_name r.
Proof. columns r x new_tool_Ok. Qed.
Lemma version_columns r v :
  holds r v → uuid_valid (vr_tenant_id r) ∧ uuid_valid (vr_tool_id r)
  ∧ tv_tenant_id v = uuid_str (vr_tenant_id r) ∧ tv_tool_id v = uuid_str (vr_tool_id r)
  ∧ tv_version v = vr_version r ∧ vr_status r = enum_value (tv_status v).
Proof. columns r v new_version_Ok. Qed.
Lemma binding_columns r b :
  holds r b → uuid_valid (br_tenant_id r) ∧ uuid_valid (br_tool_version_id r)
  ∧ tb_tenant_id b = uuid_str (br_tenant_id r) ∧ tb_tool_version_id b = uuid_str (br_tool_version_id r).
Proof. columns r b new_binding_Ok. Qed.
Lemma execution_columns r x :
  holds r x → uuid_valid (xm_tenant_id r) ∧ uuid_valid (xm_tool_version_id r)
  ∧ ex_tenant_id x = uuid_str (xm_tenant_id r) ∧ ex_principal_id x = xm_principal_id r
  ∧ ex_tool_version_id x = uuid_str (xm_tool_version_id r) ∧ ex_idempotency_key x = xm_key r.
Proof. columns r x new_execution_Ok. Qed.
Lemma attempt_columns r a :
  holds r a → uuid_valid (atr_execution_id r) ∧ at_execution_id a = uuid_str (atr_execution_id r)
  ∧ at_attempt_number a = atr_attempt_number r.
Proof. columns r a new_attempt_Ok. Qed.

Lemma same_uuid u v :
  uuid_valid u → uuid_valid v → bool_decide (uuid_str u = uuid_str v) = bool_decide (u = v).
Proof. intros Hu Hv. apply bool_decide_ext. split; [by apply uuid_str_inj|by intros ->]. Qed.

Lemma exists_find {E} (p : E → bool) (t : dict E) : existsb p (dvalues t) = negb (is_none (dfind p t)).
Proof.
  unfold dfind. induction (dvalues t) as [|e es IH]; simpl; [done|]. by destruct (p e).
Qed.

Lemma bool_decide_sym {A} `{EqDecision A} (x y : A) : bool_decide (x = y) = bool_decide (y = x).
Proof. by apply bool_decide_ext. Qed.

(** *** The calls, one by one *)

Lemma addable_allowed {E R} `{LawfulMapping E R} `{!Schema R} `{!LawfulSchema E R} `{EqDecision R}
    `{!Table memory E} `{!RowTable Database R} `{!Linked mirrored E R}
    m require refused taken (e : E) (P : memory → Database → Prop) :
  memory_adds m require taken e →
  (∀ dm ds, P dm ds → addable e) →
  (∀ dm ds r, mirrored dm ds → P dm ds → holds r e →
     existsb (row_clash r) (rows ds) = taken (table dm)) →
  simulates mirrored P m (sql_add db_now require refused e).
Proof.
  intros Hm Ha Hclash cm cs dm ds em es Hrel HP.
  destruct (Ha _ _ HP) as (Hs & Hk & Hwithin).
  apply (add_simulates (E := E) (R := R) mirrored db_now m require refused taken e); auto.
Qed.

Lemma savable_allowed {E R} `{LawfulMapping E R} `{!Schema R} `{!LawfulSchema E R} `{EqDecision R}
    `{!Table memory E} `{!RowTable Database R} `{!Linked mirrored E R}
    m require taken field missing t (e : E) (P : memory → Database → Prop) :
  memory_saves m require taken t e →
  (∀ dm ds, P dm ds → savable t (table dm) (rows ds) e ∧ taken (table dm) = false) →
  simulates mirrored P m (sql_save db_now require field missing t e).
Proof.
  intros Hm Ha cm cs dm ds em es Hrel HP.
  destruct (Ha _ _ HP) as ((Ht & Hs & Hk & Hfixed & Hclash) & Htaken).
  by apply (save_simulates (E := E) (R := R) mirrored db_now m require taken field missing t e).
Qed.

Lemma upstream_free dm ds u r :
  mirrored dm ds → holds r u →
  existsb (upstream_clash r) (db_upstreams ds)
  = negb (is_none (find_upstream_by_name (us_tenant_id u) (us_namespace u) (us_name u) (mm_upstreams dm))).
Proof.
  intros (Hm & _) (Hv & -> & -> & ->)%upstream_columns. unfold find_upstream_by_name.
  rewrite <-exists_find. symmetry. apply (mirrors_exists _ _ _ _ Hm).
  intros e r' (Hv' & -> & -> & ->)%upstream_columns. unfold upstream_clash.
  rewrite same_uuid, (bool_decide_sym (ur_tenant_id r')), (bool_decide_sym (ur_namespace r')),
    (bool_decide_sym (ur_name r')); done.
Qed.

Lemma tool_free dm ds x r :
  mirrored dm ds → holds r x →
  existsb (tool_clash r) (db_tools ds)
  = negb (is_none (find_tool_by_name (tool_tenant_id x) (tool_canonical_name x) (mm_tools dm))).
Proof.
  intros (_ & Hm & _) (Hv & -> & ->)%tool_columns. unfold find_tool_by_name.
  rewrite <-exists_find. symmetry. apply (mirrors_exists _ _ _ _ Hm).
  intros e r' (Hv' & -> & ->)%tool_columns. unfold tool_clash.
  rewrite same_uuid, (bool_decide_sym (tr_tenant_id r')), (bool_decide_sym (tr_canonical_name r')); done.
Qed.

Lemma version_free dm ds v r :
  mirrored dm ds → holds r v → tv_status v ≠ VPublished →
  existsb (version_clash r) (db_versions ds) = existsb (same_number v) (dvalues (mm_versions dm)).
Proof.
  intros (_ & _ & Hm & _) (_ & Hv & _ & Ht & Hn & Hs)%version_columns Hst.
  symmetry. apply (mirrors_exists _ _ _ _ Hm).
  intros e r' (_ & Hv' & _ & Ht' & Hn' & _)%version_columns. unfold version_clash, same_number.
  rewrite Ht, Ht', Hn, Hn', same_uuid by done. rewrite (bool_decide_sym (vr_tool_id r')),
    (bool_decide_sym (vr_version r')).
  rewrite (bool_decide_false (vr_status r = "published")); [by rewrite orb_false_r|].
  rewrite Hs. by destruct (tv_status v).
Qed.

Lemma binding_free dm ds b r :
  mirrored dm ds → holds r b →
  (∀ o, o ∈ dvalues (mm_bindings dm) → tb_tool_version_id o = tb_tool_version_id b →
     tb_tenant_id o = tb_tenant_id b) →
  existsb (binding_clash r) (db_bindings ds)
  = negb (is_none (find_binding_by_version (tb_tenant_id b) (tb_tool_version_id b) (mm_bindings dm))).
Proof.
  intros (_ & _ & _ & Hm & _) (_ & Hv & _ & Ht)%binding_columns Hone. unfold find_binding_by_version.
  rewrite <-exists_find. transitivity (existsb (λ o, bool_decide (tb_tool_version_id o = tb_tool_version_id b))
    (dvalues (mm_bindings dm))).
  - symmetry. apply (mirrors_exists _ _ _ _ Hm).
    intros e r' (_ & Hv' & _ & ->)%binding_columns. unfold binding_clash.
    by rewrite Ht, same_uuid, (bool_decide_sym (br_tool_version_id r')).
  - revert Hone. induction (dvalues (mm_bindings dm)) as [|o os IH]; intros Hone; simpl; [done|].
    rewrite IH by (intros; apply Hone; [by apply list_elem_of_further|done]). f_equal.
    destruct (decide (tb_tool_version_id o = tb_tool_version_id b)) as [Heq|Hne].
    + rewrite (bool_decide_true _ Heq), (bool_decide_true (_ = tb_tenant_id b)); [done|].
      apply Hone; [by apply list_elem_of_here|done].
    + by rewrite (bool_decide_false _ Hne), andb_false_r.
Qed.

Lemma execution_free dm ds x r :
  mirrored dm ds → holds r x →
  (∀ key, ex_idempotency_key x = Some key → find_by_idempotency_key (ex_tenant_id x)
     (ex_principal_id x) (ex_tool_version_id x) key (mm_executions dm) = None) →
  existsb (execution_clash r) (db_executions ds) = false.
Proof.
  intros (_ & _ & _ & _ & _ & Hm & _) (Hv & Hv2 & Ht & Hp & Hver & Hk)%execution_columns Hfree.
  unfold execution_clash. destruct (xm_key r) as [key|] eqn:Ek.
  2: { apply not_true_iff_false. intros (o & _ & Ho)%existsb_exists. by rewrite andb_false_r in Ho. }
  specialize (Hfree key Hk). unfold find_by_idempotency_key in Hfree.
  match type of Hfree with dfind ?p ?t = None =>
    assert (existsb p (dvalues t) = false) as Hno by (by rewrite exists_find, Hfree) end.
  rewrite <-Hno. symmetry. apply (mirrors_exists _ _ _ _ Hm).
  intros e r' (Hw & Hw2 & Ht' & Hp' & Hver' & Hk')%execution_columns.
  rewrite Ht, Hp, Hver, Ht', Hp', Hver', Hk', !same_uuid by done.
  rewrite (bool_decide_sym (xm_tenant_id r')), (bool_decide_sym (xm_principal_id r')),
    (bool_decide_sym (xm_tool_version_id r')), (bool_decide_sym (xm_key r')). by rewrite andb_true_r.
Qed.

Lemma attempt_free dm ds a r :
  mirrored dm ds → holds r a →
  existsb (attempt_clash r) (db_attempts ds) = existsb (same_attempt_number a) (dvalues (mm_attempts dm)).
Proof.
  intros (_ & _ & _ & _ & _ & _ & Hm & _) (Hv & Hx & Hn)%attempt_columns.
  symmetry. apply (mirrors_exists _ _ _ _ Hm).
  intros e r' (Hv' & Hx' & Hn')%attempt_columns. unfold attempt_clash, same_attempt_number.
  by rewrite Hx, Hx', Hn, Hn', same_uuid, (bool_decide_sym (atr_execution_id r')),
    (bool_decide_sym (atr_attempt_number r')).
Qed.

(** The row of a version's tool. *)
Lemma parent_found dm ds t v cs es :
  mirrored dm ds → canonical_uuid t = true → canonical_uuid (tv_tool_id v) = true →
  is_Some (in_tenant tool_tenant_id t (dget (tv_tool_id v) (mm_tools dm))) →
  ∃ tool, parent_of t v (St cs (Some ds) es) = (Ok tool, St cs (Some ds) es).
Proof.
  intros (_ & Hm & _) (a & Ha & <- & Hpa)%canonical_parses (b & Hb & Hvb & Hpb)%canonical_parses Hs.
  pose proof (mirrors_select _ _ _ _ Hm Ha Hb) as Hsel. rewrite Hvb in Hsel.
  unfold parent_of, select_by_id, scalar, read_rows, bind, lift, ret. rewrite Hpa, Hpb.
  cbn [working]. change (@rows Database ToolModel _ ds) with (db_tools ds).
  change (@tenant_of Tool ToolModel _) with tool_tenant_id in Hsel.
  destruct Hs as [x Hs]. rewrite Hs in Hsel. destruct (find _ (db_tools ds)); [|done]. by eexists.
Qed.

Lemma version_ids v : storable v → canonical_uuid (tv_tenant_id v) = true ∧ canonical_uuid (tv_tool_id v) = true.
Proof. intros [Hids _]. simpl in Hids. rewrite !Forall_cons in Hids. tauto. Qed.

(** What a row of a version holds does not depend on its search texts. *)
#[local] Instance named_linked ns cn :
  Linked mirrored ToolVersion ToolVersionModel (H := version_mapping ns cn).
Proof.
  split; [exact (@linked _ _ _ _ _ _ _ _ linked_versions)|exact (@linked_set _ _ _ _ _ _ _ _ linked_versions)].
Qed.
#[local] Instance named_schema ns cn :
  LawfulSchema ToolVersion ToolVersionModel (H := version_mapping ns cn).
Proof. by split. Qed.

Lemma add_version_simulates t v :
  simulates mirrored (call_allowed (AddVersion t v)) (add_version t v) (sql_add_version db_now t v).
Proof.
  intros cm cs dm ds em es Hrel Hallowed. pose proof Hallowed as ((Hs & _) & Hst & Hparent).
  destruct (require_matching_tenant t (tv_tenant_id v)) as [[]|x] eqn:Er.
  - assert (t = tv_tenant_id v) as Htv.
    { unfold require_matching_tenant, raise_if in Er. by destruct (bool_decide_reflect (t = tv_tenant_id v)). }
    destruct (version_ids v Hs) as [Hct Hcv]. rewrite <-Htv in Hct.
    destruct (parent_found dm ds t v cs es Hrel Hct Hcv Hparent) as [tool Htool].
    replace (sql_add_version db_now t v (St cs (Some ds) es)) with
      (sql_add (H0 := version_mapping (tr_namespace tool) (tr_canonical_name tool)) db_now
         (require_matching_tenant t (tv_tenant_id v)) integrity_error v (St cs (Some ds) es)).
    2: { unfold sql_add_version, sql_add, bind, lift. rewrite Er, Htool. reflexivity. }
    refine (add_simulates mirrored (HM := version_mapping (tr_namespace tool) (tr_canonical_name tool))
      db_now (add_version t v) _ integrity_error _ v
      (add_version_adds t v) Hs eq_refl cm cs dm ds em es Hrel _).
    intros r Hr. split; [by apply Hallowed|]. by apply (version_free dm ds v r).
  - pose proof (add_version_adds t v cm dm em) as Hm. rewrite Er in Hm. simpl in Hm. destruct Hm as [y Hm].
    right. exists y, x. split; [done|]. unfold sql_add_version, bind, lift. by rewrite Er.
Qed.

Lemma save_version_simulates t v :
  simulates mirrored (call_allowed (SaveVersion t v)) (save_version t v) (sql_save_version db_now t v).
Proof.
  intros cm cs dm ds em es Hrel ((Ht & Hs & Hk & Hfixed & Hclash) & Htaken & Hparent).
  destruct (version_ids v Hs) as [_ Hcv].
  destruct (parent_found dm ds t v cs es Hrel Ht Hcv Hparent) as [tool Htool].
  replace (sql_save_version db_now t v (St cs (Some ds) es)) with
    (sql_save (H0 := version_mapping (tr_namespace tool) (tr_canonical_name tool)) db_now
       (require_matching_tenant t (tv_tenant_id v)) "tool version id"
       "tool version does not exist in tenant" t v (St cs (Some ds) es)).
  2: { unfold sql_save_version, sql_save, bind, lift. destruct (require_matching_tenant _ _); [|done].
       change (@id_of ToolVersion ToolVersionModel _ v) with (tv_id v).
       destruct (select_by_id _ _ _ _) as [[[r|]|] s'] eqn:Es; [|done|done].
       assert (s' = St cs (Some ds) es) as ->.
       { unfold select_by_id, scalar, read_rows, bind, lift, ret in Es. repeat case_match; by simplify_eq. }
       by rewrite Htool. }
  by refine (save_simulates mirrored (HM := version_mapping (tr_namespace tool) (tr_canonical_name tool))
    db_now (save_version t v) _ _ _ _ t v
    (save_version_saves t v) Hs eq_refl Ht cm cs dm ds em es Hrel _).
Qed.

Lemma max_from n ns : (0 < n)%Z → foldr Z.max n ns = Z.max n (foldr Z.max 0%Z ns).
Proof. intros Hn. induction ns as [|m ns IH]; simpl; lia. Qed.

Lemma held_numbers (t : dict ToolVersion) (rs : list ToolVersionModel) a b :
  mirrors t rs → uuid_valid a → uuid_valid b →
  map tv_version (filter (λ v, tv_tenant_id v = uuid_str a ∧ tv_tool_id v = uuid_str b) (dvalues t))
  = map vr_version (filter (λ r, vr_tenant_id r = a ∧ vr_tool_id r = b) rs) ∧
  Forall (λ n, 0 < n)%Z (map vr_version (filter (λ r, vr_tenant_id r = a ∧ vr_tool_id r = b) rs)).
Proof.
  intros Hm Ha Hb. pose proof (mirrors_values _ _ Hm) as Hv. clear Hm.
  revert Hv. generalize (dvalues t). induction 1 as [|v r vs rs' Hh _ [IH1 IH2]]; [done|].
  pose proof (held_storable _ _ Hh) as ((_ & Hc) & _).
  apply version_columns in Hh as (Hv1 & Hv2 & Ht & Hl & Hn & _).
  assert (0 < vr_version r)%Z as Hpos.
  { rewrite <-Hn. simpl in Hc. unfold new_tool_version in Hc. guards Hc. apply Z.ltb_ge in G0. lia. }
  rewrite !filter_cons. destruct (decide (vr_tenant_id r = a ∧ vr_tool_id r = b)) as [[<- <-]|Hne].
  - rewrite decide_True by (by rewrite Ht, Hl). simpl. by rewrite IH1, Hn; split; [|constructor].
  - rewrite decide_False; [done|]. rewrite Ht, Hl. intros [E1 E2]. apply Hne.
    split; by apply uuid_str_inj.
Qed.

Lemma next_number_simulates t id :
  canonical_uuid t = true → canonical_uuid id = true →
  simulates mirrored (λ _ _, True) (next_version_number t id) (sql_next_version_number t id).
Proof.
  intros (a & Ha & <- & Hpa)%canonical_parses (b & Hb & <- & Hpb)%canonical_parses
    cm cs dm ds em es Hrel _. left. pose proof Hrel as (_ & _ & Hm & _).
  destruct (held_numbers _ _ a b Hm Ha Hb) as [Hn Hpos].
  unfold next_version_number, sql_next_version_number, read_table, read_rows, bind, lift, ret.
  rewrite Hpa, Hpb. cbn [working store environment].
  change (@table memory ToolVersion _ dm) with (mm_versions dm).
  change (@rows Database ToolVersionModel _ ds) with (db_versions ds).
  rewrite Hn. do 3 eexists. split; [reflexivity|]. split; [|done]. do 2 f_equal.
  destruct (map vr_version _) as [|n ns]; [done|]. apply Forall_cons in Hpos as [Hn0 _].
  rewrite max_from by done. cbn [foldr]. rewrite (proj2 (Z.eqb_neq _ _)) by lia. done.
Qed.

(** A search by columns after parsing the tenant. *)
Lemma named_simulates {E R} `{LawfulMapping E R} `{!Table memory E} `{!RowTable Database R}
    `{!Linked mirrored E R} t (p : E → bool) (q : UUID → R → bool) :
  canonical_uuid t = true →
  (∀ a e r, uuid_valid a → holds r e → uuid_str a = t → p e = q a r) →
  simulates mirrored (λ _ _, True) (let* tb := read_table in ret (dfind p tb))
    (let* a := lift (as_uuid t "tenant id") in let* found := scalar (q a) in loaded found).
Proof.
  intros (a & Ha & Hat & Hp)%canonical_parses Hpq. unfold bind at 2, lift. rewrite Hp.
  apply (find_simulates mirrored p (q a)). intros e r Hh. by apply Hpq.
Qed.

Lemma keyed_simulates {E R} `{LawfulMapping E R} `{!Table memory E} `{!RowTable Database R}
    `{!Linked mirrored E R} t id field (p : E → bool) (q : UUID → UUID → R → bool) :
  canonical_uuid t = true → canonical_uuid id = true →
  (∀ a b e r, uuid_valid a → uuid_valid b → holds r e → uuid_str a = t → uuid_str b = id → p e = q a b r) →
  simulates mirrored (λ _ _, True) (let* tb := read_table in ret (dfind p tb))
    (let* a := lift (as_uuid t "tenant id") in let* b := lift (as_uuid id field) in
     let* found := scalar (q a b) in loaded found).
Proof.
  intros (a & Ha & Hat & Hpa)%canonical_parses (b & Hb & Hbi & Hpb)%canonical_parses Hpq.
  unfold bind at 2 3, lift. rewrite Hpa, Hpb.
  apply (find_simulates mirrored p (q a b)). intros e r Hh. by apply Hpq.
Qed.

Ltac finds := unfold find_upstream_by_name, find_tool_by_name, find_binding_by_version,
  find_by_idempotency_key, is_published_version.

Lemma published_version_simulates t id :
  canonical_uuid t = true → canonical_uuid id = true →
  simulates mirrored (λ _ _, True) (get_published_version t id) (sql_get_published_version t id).
Proof.
  intros Ht Hid. refine (keyed_simulates t id "tool id" _
    (λ a b r, bool_decide (vr_tenant_id r = a) && bool_decide (vr_tool_id r = b)
              && bool_decide (vr_status r = enum_value VPublished)) Ht Hid _).
  intros a b e r Ha Hb (Hv1 & Hv2 & Htn & Htl & _ & Hst)%version_columns <- <-.
  unfold is_published_version. rewrite Htn, Htl, !same_uuid by done. f_equal. rewrite Hst.
  apply bool_decide_ext. split; [by intros ->|]. apply (inj enum_value).
Qed.

Lemma binding_by_version_simulates t id :
  canonical_uuid t = true → canonical_uuid id = true →
  simulates mirrored (λ _ _, True) (get_binding_by_tool_version t id) (sql_get_binding_by_version t id).
Proof.
  intros Ht Hid. refine (keyed_simulates t id "tool version id" _
    (λ a b r, bool_decide (br_tenant_id r = a) && bool_decide (br_tool_version_id r = b)) Ht Hid _).
  intros a b e r Ha Hb (Hv1 & Hv2 & Htn & Htl)%binding_columns <- <-. by rewrite Htn, Htl, !same_uuid.
Qed.

Lemma execution_by_key_simulates t p id key :
  canonical_uuid t = true → canonical_uuid id = true →
  simulates mirrored (λ _ _, True) (get_execution_by_key t p id key) (sql_get_execution_by_key t p id key).
Proof.
  intros Ht Hid. refine (keyed_simulates t id "tool version id" _
    (λ a b r, bool_decide (xm_tenant_id r = a) && bool_decide (xm_principal_id r = p)
              && bool_decide (xm_tool_version_id r = b) && bool_decide (xm_key r = Some key)) Ht Hid _).
  intros a b e r Ha Hb (Hv1 & Hv2 & Htn & Hpr & Hver & Hkey)%execution_columns <- <-.
  by rewrite Htn, Hpr, Hver, Hkey, !same_uuid.
Qed.

Lemma upstream_by_name_simulates t ns name :
  canonical_uuid t = true →
  simulates mirrored (λ _ _, True) (get_upstream_by_name t ns name) (sql_get_upstream_by_name t ns name).
Proof.
  intros Ht. refine (named_simulates t _ (λ a r, bool_decide (ur_tenant_id r = a)
    && bool_decide (ur_namespace r = ns) && bool_decide (ur_name r = name)) Ht _).
  intros a e r Ha (Hv & Htn & Hns & Hnm)%upstream_columns <-. by rewrite Htn, Hns, Hnm, !same_uuid.
Qed.

Lemma tool_by_name_simulates t name :
  canonical_uuid t = true →
  simulates mirrored (λ _ _, True) (get_tool_by_name t name) (sql_get_tool_by_name t name).
Proof.
  intros Ht. refine (named_simulates t _ (λ a r, bool_decide (tr_tenant_id r = a)
    && bool_decide (tr_canonical_name r = name)) Ht _).
  intros a e r Ha (Hv & Htn & Hnm)%tool_columns <-. by rewrite Htn, Hnm, !same_uuid.
Qed.

Lemma simulates_when {A} (P : Prop) (m : M memory A) (s : M Database A) :
  (P → simulates mirrored (λ _ _, True) m s) → simulates mirrored (λ _ _, P) m s.
Proof. intros Hs cm cs dm ds em es Hrel HP. by apply Hs. Qed.

(** The saves that only their own table decides. *)
Ltac saves lemma :=
  apply simulates_answer; refine (savable_allowed _ _ _ _ _ _ _ _ lemma _);
  intros dm ds Hallowed; simpl in Hallowed.
Ltac adds lemma :=
  apply simulates_answer; refine (addable_allowed _ _ _ _ _ _ lemma _ _);
  [intros dm ds Hallowed; simpl in Hallowed; tauto|].
Ltac looks_up lemma :=
  apply simulates_answer;
  let Ha := fresh in
  intros cm cs dm ds em es Hrel Ha; simpl in Ha; destruct_and?; by apply lemma.
Ltac gets E R :=
  apply simulates_answer; refine (simulates_when (_ ∧ _) _ _ _); intros [Ht Hid];
  exact (get_simulates mirrored (E := E) (R := R) _ _ _ Ht Hid).

Lemma not_owned {E} (key : E → string) id owner :
  (∀ o, owner = Some o → key o = id) → owned_by_other key id owner = false.
Proof. intros Ho. destruct owner as [o|]; simpl; [|done]. by rewrite bool_decide_true by auto. Qed.

Lemma no_clash {R} (rs : list R) : existsb (λ _, false) rs = false.
Proof. by induction rs. Qed.

(** Every call: the same answer and mirrored stores, or a refusal by both. *)
Lemma call_simulates c : simulates mirrored (call_allowed c) (memory_call c) (sql_call c).
Proof.
  destruct c; cbn [memory_call sql_call].
  - adds (add_upstream_adds tenant_id u). intros dm ds r Hrel _. by apply upstream_free.
  - saves (save_upstream_saves tenant_id u). by split.
  - gets UpstreamService UpstreamServiceModel.
  - looks_up upstream_by_name_simulates.
  - adds (add_tool_adds tenant_id t). intros dm ds r Hrel _. by apply tool_free.
  - saves (save_tool_saves tenant_id t). destruct Hallowed as [Hs Hown]. split; [done|].
    by apply not_owned.
  - gets Tool ToolModel.
  - looks_up tool_by_name_simulates.
  - apply simulates_answer, add_version_simulates.
  - apply simulates_answer, save_version_simulates.
  - gets ToolVersion ToolVersionModel.
  - looks_up published_version_simulates.
  - looks_up next_number_simulates.
  - adds (add_binding_adds tenant_id b). intros dm ds r Hrel [_ Hone] Hr.
    exact (binding_free dm ds b r Hrel Hr Hone).
  - saves (save_binding_saves tenant_id b). destruct Hallowed as [Hs Hown]. split; [done|].
    by apply not_owned.
  - gets ToolBinding ToolBindingModel.
  - looks_up binding_by_version_simulates.
  - adds (add_approval_adds tenant_id a). intros dm ds r _ _ _. apply no_clash.
  - saves (save_approval_saves tenant_id a). by split.
  - gets ApprovalRequest ApprovalRequestModel.
  - adds (add_execution_adds tenant_id x). intros dm ds r Hrel [_ Hkey] Hr. by apply (execution_free dm ds x).
  - saves (save_execution_saves tenant_id x). by split.
  - gets ToolExecution ToolExecutionModel.
  - looks_up execution_by_key_simulates.
  - adds (add_attempt_adds tenant_id a). intros dm ds r Hrel _. by apply attempt_free.
  - saves (save_attempt_saves tenant_id a). by split.
  - gets ExecutionAttempt ExecutionAttemptModel.
  - adds (append_audit_adds e). intros dm ds r _ _ _. apply no_clash.
  - adds (add_job_adds tenant_id j). intros dm ds r _ _ _. apply no_clash.
  - saves (save_job_saves tenant_id j). by split.
  - gets OpenApiImportJob OpenApiImportJobModel.
  - saves (save_operation_saves tenant_id o). by split.
  - gets ImportedOperation ImportedOperationModel.
Qed.

(** Every call of the run is allowed where it is made. *)
Fixpoint allowed_run {A} (p : transaction repository_call repository_answer A) (e : env) (m : memory) (d : Database) : Prop :=
  match p with
  | Answer _ | Refuse _ => True
  | Ask reading k => allowed_run (k (reading e).1) (reading e).2 m d
  | Then c k => call_allowed c m d ∧ ∀ cm cs answer m' d',
      memory_call c (St cm (Some m) e) = (Ok answer, St cm (Some m') e) →
      sql_call c (St cs (Some d) e) = (Ok answer, St cs (Some d') e) →
      allowed_run (k answer) e m' d'
  end.

Lemma run_simulates {A} (p : transaction repository_call repository_answer A) cm cs e m d :
  mirrored m d → allowed_run p e m d →
  (∃ a m' d' e', run memory_call p (St cm (Some m) e) = (Ok a, St cm (Some m') e') ∧
     run sql_call p (St cs (Some d) e) = (Ok a, St cs (Some d') e') ∧ mirrored m' d')
  ∨ (∃ x y m' d' e', run memory_call p (St cm (Some m) e) = (Raise x, St cm (Some m') e') ∧
       run sql_call p (St cs (Some d) e) = (Raise y, St cs (Some d') e')).
Proof.
  revert e m d. induction p as [a|x|B reading k IH|c k IH]; intros e m d Hrel Ha;
    cbn [run allowed_run] in *.
  - left. by exists a, m, d, e.
  - right. by exists x, x, m, d, e.
  - cbn [environment store working]. destruct (reading e) as [b e1]. by apply IH.
  - destruct Ha as [Hc Hnext]. unfold bind.
    destruct (call_simulates c cm cs m d e e Hrel Hc)
      as [(answer & m' & d' & Em & Es & Hrel')|(x & y & Em & Es)]; rewrite Em, Es.
    + eapply IH; [done|]. by eapply Hnext.
    + right. by exists x, y, m, d, e.
Qed.

End Calls.

Module AgreementExamples.
Definition text_of (n : N) : string := uuid_str (mkUUID n).
Definition at_second (n : Z) : datetime := Datetime (n * 1000000) true.

(** The width of the one column the examples use. *)
#[local] Instance widths : SchemaLimits := {|
  upstream_limits _ := true; version_limits _ := true; binding_limits _ := true;
  approval_limits _ := true; execution_limits _ := true; attempt_limits _ := true;
  audit_limits _ := true; job_limits _ := true; operation_limits _ := true;
  tool_limits r := (String.length (tr_canonical_name r) <=? 256) |}.

Definition no_entities : memory := mkMemory [] [] [] [] [] [] [] [] [] [].
Definition no_rows : Database := mkDatabase [] [] [] [] [] [] [] [] [] [] [].
Definition clock : env := Env 0 0 [].

Lemma nothing_mirrored : mirrored no_entities no_rows.
Proof. repeat split; constructor. Qed.

Definition tool : Tool := mkTool (text_of 10) (text_of 2) "crm" "crm.find" "team" ToolActive.

(** Create the tool unless its name is taken. *)
Definition creation : transaction repository_call repository_answer Tool :=
  Then (GetToolByName (text_of 2) "crm.find") (λ answer,
    match answer with
    | FoundTool None => Then (AddTool (text_of 2) tool) (λ _, Answer tool)
    | _ => Refuse (Nexus PublishConflictError)
    end).

Lemma tool_addable : addable tool.
Proof.
  split; [split; [repeat constructor|]; vm_compute; reflexivity|]. split; [done|].
  intros r (_ & _ & Hn)%tool_columns. simpl in *. by rewrite <-Hn.
Qed.

Lemma creation_allowed : allowed_run (at_second 0) creation clock no_entities no_rows.
Proof.
  split; [vm_compute; reflexivity|]. intros cm cs answer m' d' _ _.
  destruct answer as [| |[x|]| | | | | | | |]; try exact I.
  split; [exact tool_addable|]. intros; exact I.
Qed.


(** An identifier that is no UUID: absent in memory, an error of the SQL repository. *)
Example malformed_identifier :
  (memory_call (GetTool (text_of 2) "tool-1") (St no_entities (Some no_entities) clock)).1
    = Ok (FoundTool None) ∧
  is_ok (sql_call (at_second 0) (GetTool (text_of 2) "tool-1") (St no_rows (Some no_rows) clock)).1 = false.
Proof. vm_compute. done. Qed.

(** A name too wide for its column is refused by the database only. *)
Example wide_name :
  let wide := mkTool (text_of 10) (text_of 2) "crm"
    (String.concat "" (replicate 257 "a")) "team" ToolActive in
  is_ok (memory_call (AddTool (text_of 2) wide) (St no_entities (Some no_entities) clock)).1 = true ∧
  is_ok (sql_call (at_second 0) (AddTool (text_of 2) wide) (St no_rows (Some no_rows) clock)).1 = false.
Proof. vm_compute. done. Qed.
End AgreementExamples.
