(* ===== verification/ToolsetSql.v ===== *)
(** * ToolsetSql: the SQL repository of toolsets

    Models [modules/toolsets/adapters/sqlalchemy_repository.py] and
    [infrastructure/persistence/toolset_catalog_reader.py] over the rows of
    five tables, and relates them to the adapters in memory of ToolsetAdmin.v:
    a toolset is one row with the rows of its members and its grants.  A unit of
    work ([infrastructure/persistence/toolset_uow.py]) is [with_uow], as for the
    other SQL repositories; foreign keys and the widths of columns are
    the predicates of [ToolsetLimits].  The database's collation
    ([DatabaseText]) orders slugs, principals and names. *)

From Stdlib Require Import ZArith NArith Ascii Lia Sorting.Sorted.
From stdpp Require Import base strings option list.
From S2P Require Import Prelude Text Dict Errors Json Store Url Uuid Format Catalog Toolsets ToolsetAdmin.
From S2P Require Import McpServer Rows ControlPlane RowMapping SqlRepositories RepositoryAgreement.
Open Scope py_scope.

#[local] Arguments as_uuid : simpl never.
#[local] Arguments uuid_str : simpl never.

(** ** Tables *)

Record toolset_tables := mkToolsetTables {
  tt_toolsets : list ToolsetModel;
  tt_members : list ToolsetMemberModel;
  tt_grants : list ToolsetAccessGrantModel;
  tt_tools : list ToolModel;
  tt_versions : list ToolVersionModel }.

#[export] Instance toolset_row_eq_dec : EqDecision ToolsetModel.
Proof. solve_decision. Defined.

(** What the database checks of the flushed rows beyond the constraints of Rows.v. *)
Class ToolsetLimits := {
  within : ToolsetModel → bool;
  entries_within : list ToolsetMemberModel → list ToolsetAccessGrantModel → bool }.

(** [ValueError("toolset uniqueness constraint was violated")], or the error itself. *)
Definition flush_error (v : violation) : exn :=
  if is_unique_violation v then ValueError "toolset uniqueness constraint was violated"
  else integrity_error v.

(** The orders the statements ask for. *)
Definition member_row_leb (a b : ToolsetMemberModel) : bool :=
  (uuid_int (tmr_tool_id a) <=? uuid_int (tmr_tool_id b))%N.
Definition grant_row_leb `{DatabaseText} (a b : ToolsetAccessGrantModel) : bool :=
  collate (tgr_principal_id a) (tgr_principal_id b).
Definition toolset_row_leb `{DatabaseText} (a b : ToolsetModel) : bool := collate (tsr_slug a) (tsr_slug b).

Definition members_of (id : UUID) (t : toolset_tables) : list ToolsetMemberModel :=
  filter (λ r, tmr_toolset_id r = id) (tt_members t).
Definition grants_of (id : UUID) (t : toolset_tables) : list ToolsetAccessGrantModel :=
  filter (λ r, tgr_toolset_id r = id) (tt_grants t).

(** The primary keys of the members and grants of one flush. *)
Definition repeats {A B} `{EqDecision B} (key : A → B) (l : list A) : bool := has_duplicates (map key l).

Section Tables.
Context `{DatabaseText} `{ToolsetLimits}.

(** [_aggregate] *)
Definition aggregate (t : toolset_tables) (r : ToolsetModel) : res Toolset :=
  toolset_from_models r (sorted_by member_row_leb (members_of (tsr_id r) t))
    (sorted_by grant_row_leb (grants_of (tsr_id r) t)).

Definition aggregated (t : toolset_tables) (found : option ToolsetModel) : res (option Toolset) :=
  match found with
  | None => Ok None
  | Some r => let? x := aggregate t r in Ok (Some x)
  end.

(** [_get_model] *)
Definition toolset_row (tenant_id toolset_id : string) (t : toolset_tables) : res (option ToolsetModel) :=
  let? tenant := as_uuid tenant_id "tenant id" in
  let? id := as_uuid toolset_id "toolset id" in
  Ok (find (λ r, bool_decide (tsr_tenant_id r = tenant) && bool_decide (tsr_id r = id)) (tt_toolsets t)).

(** [get_by_id] and [get_for_update] *)
Definition toolset_by_id (tenant_id toolset_id : string) (t : toolset_tables) : res (option Toolset) :=
  let? found := toolset_row tenant_id toolset_id t in aggregated t found.

Definition toolset_by_slug (tenant_id slug : string) (t : toolset_tables) : res (option Toolset) :=
  let? tenant := as_uuid tenant_id "tenant id" in
  aggregated t (find (λ r, bool_decide (tsr_tenant_id r = tenant) && bool_decide (tsr_slug r = slug))
                  (tt_toolsets t)).

Definition all_published_toolset (tenant_id : string) (t : toolset_tables) : res (option Toolset) :=
  let? tenant := as_uuid tenant_id "tenant id" in
  aggregated t (find (λ r, bool_decide (tsr_tenant_id r = tenant) && bool_decide (tsr_kind r = "all_published"))
                  (tt_toolsets t)).

Definition tenant_toolsets (tenant_id : string) (t : toolset_tables) : res (list Toolset) :=
  let? tenant := as_uuid tenant_id "tenant id" in
  traverse (aggregate t) (sorted_by toolset_row_leb (filter (λ r, tsr_tenant_id r = tenant) (tt_toolsets t))).

(** The rows of a join with the grants: one per pair. *)
Definition granted_rows (tenant : UUID) (principal_id : string) (t : toolset_tables) : list ToolsetModel :=
  flat_map (λ r, map (λ _, r) (filter (λ g, tgr_toolset_id g = tsr_id r ∧ tgr_principal_id g = principal_id) (tt_grants t)))
    (filter (λ r, tsr_tenant_id r = tenant ∧ tsr_status r = "active") (tt_toolsets t)).

Definition granted_toolsets (tenant_id principal_id : string) (t : toolset_tables) : res (list Toolset) :=
  let? tenant := as_uuid tenant_id "tenant id" in
  traverse (aggregate t) (sorted_by toolset_row_leb (granted_rows tenant principal_id t)).

(** The constraints a toolset row violates among the others. *)
Definition toolset_violation (r : ToolsetModel) (others : list ToolsetModel) : option violation :=
  if negb (toolset_check r) then Some CheckViolation
  else if existsb (λ o, bool_decide (tsr_id o = tsr_id r)) others then Some PrimaryKeyViolation
  else if existsb (toolset_clash r) others then Some UniqueViolation
  else if negb (within r) then Some OtherViolation
  else None.

(** The flush of a toolset row among the others. *)
Definition flush_toolset (r : ToolsetModel) (others : list ToolsetModel) : res unit :=
  match toolset_violation r others with Some v => Raise (flush_error v) | None => Ok tt end.

(** The flush of new members and grants. *)
Definition flush_entries (members : list ToolsetMemberModel) (grants : list ToolsetAccessGrantModel)
    (t : toolset_tables) : res unit :=
  raise_if (repeats (λ m, (tmr_toolset_id m, tmr_tool_id m)) (tt_members t ++ members)
            || repeats (λ g, (tgr_toolset_id g, tgr_principal_id g)) (tt_grants t ++ grants))
    (flush_error PrimaryKeyViolation) ;;?
  raise_if (negb (entries_within members grants)) (flush_error OtherViolation).

(** The rows of the members and grants of [x]. *)
Definition entry_rows (x : Toolset) : res (list ToolsetMemberModel * list ToolsetAccessGrantModel) :=
  let? members := traverse member_to_model (ts_members x) in
  let? grants := traverse grant_to_model (ts_grants x) in
  Ok (members, grants).

(** Their flush into the tables. *)
Definition store_entries (entries : list ToolsetMemberModel * list ToolsetAccessGrantModel)
    (t : toolset_tables) : res toolset_tables :=
  let '(members, grants) := entries in
  flush_entries members grants t ;;?
  Ok (mkToolsetTables (tt_toolsets t) (tt_members t ++ members) (tt_grants t ++ grants)
        (tt_tools t) (tt_versions t)).

(** [add] *)
Definition insert_toolset (tenant_id : string) (x : Toolset) (t : toolset_tables) : res toolset_tables :=
  require_matching_tenant tenant_id (ts_tenant_id x) ;;?
  let? r := toolset_to_model x in
  flush_toolset r (tt_toolsets t) ;;?
  let? entries := entry_rows x in
  store_entries entries (mkToolsetTables (tt_toolsets t ++ [r]) (tt_members t) (tt_grants t) (tt_tools t) (tt_versions t)).

(** [save] *)
Definition update_toolset_rows (tenant_id : string) (x : Toolset) (t : toolset_tables) : res toolset_tables :=
  require_matching_tenant tenant_id (ts_tenant_id x) ;;?
  let? found := toolset_row tenant_id (ts_id x) t in
  match found with
  | None => Raise (ValueError "toolset does not exist in tenant")
  | Some r =>
      let? current := aggregate t r in
      let? changed := requires_persistence_update current x in
      if negb changed then Ok t
      else
        let? r' := update_toolset_model r x in
        let? id := as_uuid (ts_id x) "toolset id" in
        let? entries := entry_rows x in
        flush_toolset r' (filter (λ o, tsr_id o ≠ id) (tt_toolsets t)) ;;?
        store_entries entries
          (mkToolsetTables (map (λ o, if decide (tsr_id o = id) then r' else o) (tt_toolsets t))
             (filter (λ m, tmr_toolset_id m ≠ id) (tt_members t))
             (filter (λ g, tgr_toolset_id g ≠ id) (tt_grants t)) (tt_tools t) (tt_versions t))
  end.
End Tables.

(** ** The methods inside a unit of work *)

Definition accessing (what : string) : exn :=
  RuntimeError ("unit of work must be entered before accessing " +:+ what).

Definition read_sql {A} (what : string) (f : toolset_tables → res A) : M toolset_tables A := λ s,
  match working s with Some t => (f t, s) | None => (Raise (accessing what), s) end.
Definition write_sql (f : toolset_tables → res toolset_tables) : M toolset_tables unit := λ s,
  match working s with
  | Some t =>
      match f t with
      | Ok t' => (Ok tt, St (store s) (Some t') (environment s))
      | Raise x => (Raise x, s)
      end
  | None => (Raise (accessing "repositories"), s)
  end.

(** ** [SqlAlchemyToolsetCatalogReader] *)

(** [_schema_size] *)
Definition schema_size (version : option ToolVersionModel) : Z :=
  match version with
  | None => 0
  | Some v =>
      let document := ("inputSchema", JObj (vr_input_schema_json v)) ::
                      match vr_output_schema_json v with
                      | Some output => [("outputSchema", JObj output)]
                      | None => []
                      end in
      Z.of_nat (length (utf8 (dumps_ordered (JObj document))))
  end.

(** The published versions a tool is joined with. *)
Definition published_versions (t : toolset_tables) (tool : ToolModel) : list ToolVersionModel :=
  filter (λ v, vr_tool_id v = tr_id tool ∧ vr_tenant_id v = tr_tenant_id tool ∧ vr_status v = "published")
    (tt_versions t).

(** A row of the outer join. *)
Definition catalog_row : Type := ToolModel * option ToolVersionModel.
Definition outer_join (t : toolset_tables) (tool : ToolModel) : list catalog_row :=
  match published_versions t tool with
  | [] => [(tool, None)]
  | versions => map (λ v, (tool, Some v)) versions
  end.

Definition member_snapshot (row : catalog_row) : res ToolsetCatalogSnapshot :=
  let '(tool, version) := row in
  new_snapshot
    (mkSnapshot (uuid_str (tr_id tool)) (uuid_str (tr_tenant_id tool))
       (if bool_decide (tr_status tool = "disabled") then MemberToolDisabled
        else if is_none version then MemberNoPublishedVersion else MemberAvailable)
       (if bool_decide (tr_status tool = "active") then uuid_str ∘ vr_id <$> version else None)
       (Some (tr_canonical_name tool)) (vr_description <$> version) (schema_size version)).

(** [list_member_snapshots] *)
Definition sql_member_snapshots (tenant_id : string) (tool_ids : list string) (t : toolset_tables) :
    res (list ToolsetCatalogSnapshot) :=
  match tool_ids with
  | [] => Ok []
  | _ =>
      let? tenant := as_uuid tenant_id "tenant id" in
      let? requested := traverse (λ id, as_uuid id "tool id") tool_ids in
      let tools := filter (λ tool, tr_tenant_id tool = tenant ∧ tr_id tool ∈ requested) (tt_tools t) in
      let? snapshots := traverse member_snapshot (flat_map (outer_join t) tools) in
      Ok (omap (λ id, dget id (dict_of cs_tool_id snapshots)) tool_ids)
  end.

(** [list_published_snapshots] *)
Definition published_snapshot (row : ToolModel * ToolVersionModel) : res ToolsetCatalogSnapshot :=
  let '(tool, version) := row in
  new_snapshot
    (mkSnapshot (uuid_str (tr_id tool)) (uuid_str (tr_tenant_id tool)) MemberAvailable
       (Some (uuid_str (vr_id version))) (Some (tr_canonical_name tool)) (Some (vr_description version))
       (schema_size (Some version))).

Definition sql_published_snapshots `{DatabaseText} (tenant_id : string) (t : toolset_tables) :
    res (list ToolsetCatalogSnapshot) :=
  let? tenant := as_uuid tenant_id "tenant id" in
  let tools := filter (λ tool, tr_tenant_id tool = tenant ∧ tr_status tool = "active") (tt_tools t) in
  let rows := flat_map (λ tool, map (pair tool) (published_versions t tool)) tools in
  traverse published_snapshot
    (sorted_by (λ a b, collate (tr_canonical_name a.1) (tr_canonical_name b.1)) rows).

(** ** The toolset unit of work, in memory and over rows *)

Inductive toolset_call :=
| AddToolset (tenant_id : string) (x : Toolset)
| SaveToolset (tenant_id : string) (x : Toolset)
| GetToolset (tenant_id id : string)
| GetToolsetBySlug (tenant_id slug : string)
| GetAllPublished (tenant_id : string)
| ListToolsets (tenant_id : string)
| ListGrantedActive (tenant_id principal_id : string)
| MemberSnapshots (tenant_id : string) (tool_ids : list string)
| PublishedSnapshots (tenant_id : string).

Inductive toolset_answer :=
| ToolsetDone
| ToolsetFound (x : option Toolset)
| ToolsetsFound (l : list Toolset)
| SnapshotsFound (l : list ToolsetCatalogSnapshot).

Definition reply {D A} (make : A → toolset_answer) (m : M D A) : M D toolset_answer :=
  let* a := m in ret (make a).
Definition toolset_done (_ : unit) : toolset_answer := ToolsetDone.

Definition memory_toolset_call (c : toolset_call) : M toolset_store toolset_answer :=
  match c with
  | AddToolset tenant_id x => reply toolset_done (add_toolset tenant_id x)
  | SaveToolset tenant_id x => reply toolset_done (save_toolset tenant_id x)
  | GetToolset tenant_id id => reply ToolsetFound (get_toolset tenant_id id)
  | GetToolsetBySlug tenant_id slug => reply ToolsetFound (get_toolset_by_slug tenant_id slug)
  | GetAllPublished tenant_id => reply ToolsetFound (get_all_published tenant_id)
  | ListToolsets tenant_id => reply ToolsetsFound (list_toolsets_by_tenant tenant_id)
  | ListGrantedActive tenant_id principal_id => reply ToolsetsFound (list_granted_active tenant_id principal_id)
  | MemberSnapshots tenant_id tool_ids => reply SnapshotsFound (list_member_snapshots tenant_id tool_ids)
  | PublishedSnapshots tenant_id => reply SnapshotsFound (list_published_snapshots tenant_id)
  end.

Definition sql_toolset_call `{DatabaseText} `{ToolsetLimits} (c : toolset_call) : M toolset_tables toolset_answer :=
  match c with
  | AddToolset tenant_id x => reply toolset_done (write_sql (insert_toolset tenant_id x))
  | SaveToolset tenant_id x => reply toolset_done (write_sql (update_toolset_rows tenant_id x))
  | GetToolset tenant_id id => reply ToolsetFound (read_sql "repositories" (toolset_by_id tenant_id id))
  | GetToolsetBySlug tenant_id slug => reply ToolsetFound (read_sql "repositories" (toolset_by_slug tenant_id slug))
  | GetAllPublished tenant_id => reply ToolsetFound (read_sql "repositories" (all_published_toolset tenant_id))
  | ListToolsets tenant_id => reply ToolsetsFound (read_sql "repositories" (tenant_toolsets tenant_id))
  | ListGrantedActive tenant_id principal_id =>
      reply ToolsetsFound (read_sql "repositories" (granted_toolsets tenant_id principal_id))
  | MemberSnapshots tenant_id tool_ids => reply SnapshotsFound (read_sql "catalog reader" (sql_member_snapshots tenant_id tool_ids))
  | PublishedSnapshots tenant_id => reply SnapshotsFound (read_sql "catalog reader" (sql_published_snapshots tenant_id))
  end.

(** ** Canonical texts are ordered like the numbers they write *)

Lemma str_leb_app a a' b b' :
  String.length a = String.length a' →
  str_leb (a +:+ b) (a' +:+ b') = if bool_decide (a = a') then str_leb b b' else str_leb a a'.
Proof.
  revert a'. induction a as [|c a IH]; intros [|c' a'] Hl; try discriminate; [done|].
  simpl in Hl. injection Hl as Hl.
  change (String c a +:+ b) with (String c (a +:+ b)). change (String c' a' +:+ b') with (String c' (a' +:+ b')).
  cbn [str_leb].
  destruct (N.ltb_spec (code c) (code c')).
  - rewrite bool_decide_eq_false_2; [done|]. intros [= -> ->]. lia.
  - destruct (N.ltb_spec (code c') (code c)).
    + rewrite bool_decide_eq_false_2; [done|]. intros [= -> ->]. lia.
    + assert (c = c') as -> by (apply code_inj; lia). rewrite IH by done.
      destruct (decide (a = a')) as [->|Hne].
      * rewrite (bool_decide_eq_true_2 (a' = a')) by done. by rewrite bool_decide_eq_true_2.
      * rewrite (bool_decide_eq_false_2 (a = a')) by done. rewrite bool_decide_eq_false_2; [done|congruence].
Qed.

Lemma hex_digit_leb n m : (n < 16)%N → (m < 16)%N →
  str_leb (String (hex_digit n) "") (String (hex_digit m) "") = (n <=? m)%N.
Proof.
  intros Hn Hm.
  assert (H : forallb (λ a, forallb (λ b, Bool.eqb
    (str_leb (String (hex_digit a) "") (String (hex_digit b) "")) (a <=? b)%N)
    (N.of_nat <$> seq 0 16)) (N.of_nat <$> seq 0 16) = true) by (by vm_compute).
  rewrite forallb_forall in H.
  assert (Hin : ∀ k, (k < 16)%N → In k (N.of_nat <$> seq 0 16)).
  { intros k Hk. apply list_elem_of_In, list_elem_of_fmap. exists (N.to_nat k).
    split; [by rewrite N2Nat.id|]. apply list_elem_of_In, in_seq. lia. }
  specialize (H n (Hin n Hn)). rewrite forallb_forall in H. specialize (H m (Hin m Hm)).
  by apply Bool.eqb_prop in H.
Qed.

Lemma hex_text_inj k n m :
  (n < 16 ^ N.of_nat k)%N → (m < 16 ^ N.of_nat k)%N → hex_text k n = hex_text k m → n = m.
Proof.
  revert n m. induction k as [|k IH]; intros n m Hn Hm He.
  - simpl in *. lia.
  - simpl in He. rewrite Nat2N.inj_succ, N.pow_succ_r' in Hn, Hm.
    assert (Hlen : String.length (hex_text k (n / 16)) = String.length (hex_text k (m / 16)))
      by (by rewrite !hex_text_length).
    assert (Hd : str_leb (String (hex_digit (n mod 16)) "") (String (hex_digit (m mod 16)) "") = true ∧
                 str_leb (String (hex_digit (m mod 16)) "") (String (hex_digit (n mod 16)) "") = true ∧
                 hex_text k (n / 16) = hex_text k (m / 16)).
    { assert (Hparts : hex_text k (n / 16) = hex_text k (m / 16) ∧
        String (hex_digit (n mod 16)) "" = String (hex_digit (m mod 16)) "").
      { revert Hlen He. generalize (hex_text k (n / 16)), (hex_text k (m / 16)).
        intros s. induction s as [|c s IHs]; intros [|c' s'] Hl He; try discriminate; [by split|].
        simpl in Hl. injection Hl as Hl.
        assert (He' : c = c' ∧ s +:+ String (hex_digit (n mod 16)) "" = s' +:+ String (hex_digit (m mod 16)) "")
          by (by injection He).
        destruct He' as [-> He'].
        destruct (IHs s' Hl He') as [-> ->]. by split. }
      destruct Hparts as [-> ->]. split_and!; try apply str_leb_refl. done. }
    destruct Hd as (H1 & H2 & H3).
    rewrite hex_digit_leb in H1, H2 by (by apply N.mod_lt).
    apply IH in H3; [|apply N.Div0.div_lt_upper_bound; lia..].
    apply N.leb_le in H1, H2.
    pose proof (N.div_mod n 16 ltac:(lia)). pose proof (N.div_mod m 16 ltac:(lia)). lia.
Qed.

Lemma hex_text_leb k n m :
  (n < 16 ^ N.of_nat k)%N → (m < 16 ^ N.of_nat k)%N → str_leb (hex_text k n) (hex_text k m) = (n <=? m)%N.
Proof.
  revert n m. induction k as [|k IH]; intros n m Hn Hm.
  - simpl in *. assert (n = 0%N) as -> by lia. assert (m = 0%N) as -> by lia. done.
  - cbn [hex_text]. rewrite Nat2N.inj_succ, N.pow_succ_r' in Hn, Hm.
    assert (Hn' : (n / 16 < 16 ^ N.of_nat k)%N) by (apply N.Div0.div_lt_upper_bound; lia).
    assert (Hm' : (m / 16 < 16 ^ N.of_nat k)%N) by (apply N.Div0.div_lt_upper_bound; lia).
    rewrite str_leb_app by (by rewrite !hex_text_length).
    pose proof (N.div_mod n 16 ltac:(lia)) as En. pose proof (N.div_mod m 16 ltac:(lia)) as Em.
    pose proof (N.mod_lt n 16 ltac:(lia)) as Ln. pose proof (N.mod_lt m 16 ltac:(lia)) as Lm.
    set (qn := (n / 16)%N) in *. set (qm := (m / 16)%N) in *.
    set (rn := (n mod 16)%N) in *. set (rm := (m mod 16)%N) in *. clearbody qn qm rn rm.
    destruct (decide (qn = qm)%N) as [E|E].
    + rewrite E, bool_decide_eq_true_2 by done. rewrite hex_digit_leb by done.
      destruct (N.leb_spec rn rm), (N.leb_spec n m); try done; lia.
    + rewrite bool_decide_eq_false_2 by (intros ?; apply E; by apply (hex_text_inj k)).
      rewrite IH by done.
      destruct (N.leb_spec qn qm), (N.leb_spec n m); try done; lia.
Qed.

Lemma substring_length k n s :
  (k + n <= String.length s)%nat → String.length (String.substring k n s) = n.
Proof.
  revert k n. induction s as [|c s IH]; intros [|k] [|n] Hl; simpl in *; try lia; try done.
  - f_equal. apply (IH 0%nat). simpl. lia.
  - apply IH. lia.
  - apply IH. lia.
Qed.

Lemma str_leb_prefix a b b' : str_leb (a +:+ b) (a +:+ b') = str_leb b b'.
Proof. rewrite str_leb_app by done. by rewrite bool_decide_eq_true_2. Qed.

(** A text between parts of equal length does not matter. *)
Lemma str_leb_between a a' c b b' :
  String.length a = String.length a' →
  str_leb (a +:+ c +:+ b) (a' +:+ c +:+ b') = str_leb (a +:+ b) (a' +:+ b').
Proof. intros Hl. rewrite !(str_leb_app a a') by done. by rewrite str_leb_prefix. Qed.

Lemma dashed_leb s t :
  String.length s = 32%nat → String.length t = 32%nat → str_leb (dashed s) (dashed t) = str_leb s t.
Proof.
  intros Hs Ht. unfold dashed.
  assert (Hl : ∀ k n, (k + n <= 32)%nat →
    String.length (String.substring k n s) = String.length (String.substring k n t))
    by (intros k n Hk; rewrite !substring_length; lia).
  assert (Hc : ∀ x m n, String.substring 0 m x +:+ String.substring m n x = String.substring 0 (m + n) x)
    by (intros x m n; apply (substring_cat x m n 0)).
  assert (Hcut : ∀ m n b b', (m + n <= 32)%nat →
    str_leb (String.substring 0 m s +:+ "-" +:+ String.substring m n s +:+ b)
            (String.substring 0 m t +:+ "-" +:+ String.substring m n t +:+ b') =
    str_leb (String.substring 0 (m + n) s +:+ b) (String.substring 0 (m + n) t +:+ b')).
  { intros m n b b' Hm. rewrite str_leb_between by (apply Hl; lia). by rewrite <-!str_app_assoc, !Hc. }
  rewrite (Hcut 8 4)%nat, (Hcut 12 4)%nat, (Hcut 16 4)%nat by lia. cbn [Nat.add].
  rewrite str_leb_between by (apply Hl; lia). rewrite !Hc. cbn [Nat.add].
  rewrite <-Hs at 1. by rewrite substring_full, <-Ht, substring_full.
Qed.

Lemma uuid_str_leb u v :
  uuid_valid u → uuid_valid v → str_leb (uuid_str u) (uuid_str v) = (uuid_int u <=? uuid_int v)%N.
Proof.
  intros Hu Hv. unfold uuid_valid, uuid_bound in *.
  change (uuid_str u) with (dashed (hex_text 32 (uuid_int u))).
  change (uuid_str v) with (dashed (hex_text 32 (uuid_int v))).
  rewrite dashed_leb by apply hex_text_length. apply hex_text_leb; [exact Hu|exact Hv].
Qed.

(** ** Toolsets and their rows *)

(** The toolsets the domain makes: valid, with canonical identifiers, members in
    the order of their tools and grants in the order of their principals. *)
Record storable_toolset (x : Toolset) : Prop := {
  sx_facts : new_toolset x = Ok x;
  sx_members : Forall (λ m, new_member m = Ok m ∧ canonical_uuid (tm_tool_id m) = true) (ts_members x);
  sx_grants : Forall (λ g, new_grant g = Ok g) (ts_grants x);
  sx_id : canonical_uuid (ts_id x) = true;
  sx_tenant : canonical_uuid (ts_tenant_id x) = true;
  sx_tools_sorted : ordered str_leb (ts_tool_ids x);
  sx_principals_sorted : ordered str_leb (ts_principal_ids x) }.

(** The rows of the tables that hold [x]. *)
Record held_as (t : toolset_tables) (x : Toolset) (r : ToolsetModel) : Prop := {
  ha_storable : storable_toolset x;
  ha_row : toolset_to_model x = Ok r;
  ha_entries : ∃ members grants, entry_rows x = Ok (members, grants) ∧
    members_of (tsr_id r) t ≡ₚ members ∧ grants_of (tsr_id r) t ≡ₚ grants }.

(** The row of a member is read back as the member. *)
Lemma member_row_back m r :
  new_member m = Ok m → canonical_uuid (tm_tool_id m) = true → canonical_uuid (tm_tenant_id m) = true →
  canonical_uuid (tm_toolset_id m) = true → member_to_model m = Ok r →
  member_from_model r = Ok m ∧ uuid_str (tmr_tool_id r) = tm_tool_id m ∧ uuid_valid (tmr_tool_id r) ∧
  uuid_str (tmr_toolset_id r) = tm_toolset_id m.
Proof.
  intros Hm (a & Ha & Ha' & Hpa)%canonical_parses (b & _ & Hb' & Hpb)%canonical_parses
    (c & _ & Hc' & Hpc)%canonical_parses.
  unfold member_to_model. rewrite Hpa, Hpb, Hpc. simpl. intros [= <-]. unfold member_from_model. simpl.
  rewrite Ha', Hb', Hc'. split_and!; [by destruct m|done..].
Qed.

Lemma grant_row_back g r :
  new_grant g = Ok g → canonical_uuid (tg_tenant_id g) = true → canonical_uuid (tg_toolset_id g) = true →
  grant_to_model g = Ok r →
  grant_from_model r = Ok g ∧ tgr_principal_id r = tg_principal_id g ∧
  uuid_str (tgr_toolset_id r) = tg_toolset_id g.
Proof.
  intros Hg (b & _ & Hb' & Hpb)%canonical_parses (c & _ & Hc' & Hpc)%canonical_parses.
  unfold grant_to_model. rewrite Hpb, Hpc. simpl. intros [= <-]. unfold grant_from_model. simpl.
  rewrite Hb', Hc'. split_and!; [by destruct g|done..].
Qed.

(** A permutation of rows in order, sorted by the key of the rows, is the rows. *)
Lemma sorted_rows {A} (leb : A → A → bool) (l rows : list A) :
  (∀ x y, leb x y = true ∨ leb y x = true) →
  (∀ x y z, leb x y = true → leb y z = true → leb x z = true) →
  (∀ x y, x ∈ rows → y ∈ rows → leb x y = true → leb y x = true → x = y) →
  ordered leb rows → l ≡ₚ rows → sorted_by leb l = rows.
Proof.
  intros Htot Htrans Hanti Ho Hp. apply (ordered_unique leb); [|by apply sorted_by_ordered|done|].
  - intros x y Hx Hy. apply Hanti; [by rewrite <-Hp, <-(sorted_by_perm leb l)..].
  - by rewrite sorted_by_perm.
Qed.

(** An order carried along a relation between lists. *)
Lemma ordered_Forall2 {A B} (leb : A → A → bool) (leb' : B → B → bool) (R : A → B → Prop) l l' :
  (∀ x x' y y', R x x' → R y y' → leb x y = true → leb' x' y' = true) →
  Forall2 R l l' → ordered leb l → ordered leb' l'.
Proof.
  intros HR Hf. induction Hf as [|x x' l l' Hx Hf IH]; intros Ho; [constructor|].
  inversion Ho as [|? ? Hl Hh]; subst. constructor; [by apply IH|].
  apply Forall_forall. intros y' Hy'. apply list_elem_of_lookup in Hy' as [i Hi].
  destruct (Forall2_lookup_r _ _ _ _ _ Hf Hi) as (y & Hy & HRy).
  rewrite Forall_forall in Hh. eapply HR; [exact Hx|exact HRy|]. apply Hh. by eapply list_elem_of_lookup_2.
Qed.

Lemma ordered_map {A B} (f : A → B) (leb : B → B → bool) l :
  ordered leb (map f l) ↔ ordered (λ x y, leb (f x) (f y)) l.
Proof.
  induction l as [|x l IH]; simpl; [split; constructor|].
  split; intros Ho; inversion Ho as [|? ? Hl Hh]; subst; constructor; try (by apply IH).
  - by rewrite Forall_map in Hh.
  - by rewrite Forall_map.
Qed.

(** *** Lists related element by element *)

Section Related.
Context {A B : Type} (R : A → B → Prop).

Lemma find_related (p : A → bool) (q : B → bool) l l' :
  Forall2 R l l' → (∀ x y, R x y → p x = q y) →
  match find p l, find q l' with
  | Some x, Some y => R x y
  | None, None => True
  | _, _ => False
  end.
Proof.
  intros Hf Hpq. induction Hf as [|x y l l' Hxy _ IH]; simpl; [done|].
  rewrite (Hpq _ _ Hxy). by destruct (q y).
Qed.

Lemma existsb_related (p : A → bool) (q : B → bool) l l' :
  Forall2 R l l' → (∀ x y, R x y → p x = q y) → existsb p l = existsb q l'.
Proof.
  intros Hf Hpq. induction Hf as [|x y l l' Hxy _ IH]; simpl; [done|]. by rewrite (Hpq _ _ Hxy), IH.
Qed.

Lemma filter_related (P : A → Prop) (Q : B → Prop) `{∀ x, Decision (P x), ∀ y, Decision (Q y)} l l' :
  Forall2 R l l' → (∀ x y, R x y → P x ↔ Q y) → Forall2 R (filter P l) (filter Q l').
Proof.
  intros Hf HPQ. induction Hf as [|x y l l' Hxy _ IH]; [constructor|].
  rewrite !filter_cons. pose proof (HPQ _ _ Hxy) as Hiff.
  destruct (decide (P x)) as [Hp|Hp], (decide (Q y)) as [Hq|Hq]; try tauto. by constructor.
Qed.

Lemma sorted_related (leb : A → A → bool) (leb' : B → B → bool) l l' :
  (∀ x x' y y', R x x' → R y y' → leb x y = leb' x' y') → Forall2 R l l' →
  Forall2 R (sorted_by leb l) (sorted_by leb' l').
Proof.
  intros Hleb Hf. induction Hf as [|x x' l l' Hx _ IH]; simpl; [constructor|].
  induction IH as [|y y' k k' Hy Hk IHk]; simpl; [by repeat constructor|].
  rewrite (Hleb _ _ _ _ Hx Hy). destruct (leb' x' y'); by repeat constructor.
Qed.

Lemma related_impl (R' : A → B → Prop) l l' :
  Forall2 R l l' → (∀ x y, x ∈ l → y ∈ l' → R x y → R' x y) → Forall2 R' l l'.
Proof.
  intros Hf HR. induction Hf as [|x y l l' Hxy _ IH]; constructor; [by apply HR; [left|left|]|].
  apply IH. intros x' y' Hx Hy. by apply HR; right.
Qed.
End Related.

(** Sorting is stable: it commutes with a selection. *)
Lemma filter_sorted_by {A} (leb : A → A → bool) (P : A → Prop) `{∀ x, Decision (P x)} (l : list A) :
  (∀ x y, leb x y = true ∨ leb y x = true) →
  (∀ x y z, leb x y = true → leb y z = true → leb x z = true) →
  filter P (sorted_by leb l) = sorted_by leb (filter P l).
Proof.
  intros Htot Htrans. induction l as [|x l IH]; [done|].
  assert (Hins : ∀ k, ordered leb k →
    filter P (insert_by leb x k) = if decide (P x) then insert_by leb x (filter P k) else filter P k).
  { intros k Hk. induction Hk as [|y k Hk IHk Hy]; simpl.
    - rewrite filter_cons. by destruct (decide (P x)).
    - destruct (leb x y) eqn:E.
      + rewrite filter_cons. destruct (decide (P x)); [|done].
        assert (Forall (λ z, leb x z = true) (filter P (y :: k))) as Hall.
        { apply Forall_forall. intros z [_ Hz]%list_elem_of_filter. rewrite Forall_forall in Hy.
          apply elem_of_cons in Hz as [->|Hz]; [done|]. eauto. }
        destruct (filter P (y :: k)) as [|z k']; simpl; [done|].
        apply Forall_cons in Hall as [-> _]. done.
      + rewrite !(filter_cons _ y), IHk. destruct (decide (P x)), (decide (P y)); try done.
        simpl. by rewrite E. }
  change (sorted_by leb (x :: l)) with (insert_by leb x (sorted_by leb l)).
  rewrite Hins by (by apply sorted_by_ordered). rewrite filter_cons, IH. by destruct (decide (P x)).
Qed.

Lemma filter_true {A} (P : A → Prop) `{∀ x, Decision (P x)} (l : list A) : (∀ x, x ∈ l → P x) → filter P l = l.
Proof.
  intros Hl. induction l as [|x l IH]; [done|]. rewrite filter_cons_True by (apply Hl; by left).
  f_equal. apply IH. intros y Hy. apply Hl. by right.
Qed.
Lemma filter_none {A} (P : A → Prop) `{∀ x, Decision (P x)} (l : list A) : (∀ x, x ∈ l → ¬ P x) → filter P l = [].
Proof.
  intros Hl. induction l as [|x l IH]; [done|]. rewrite filter_cons_False by (apply Hl; by left).
  apply IH. intros y Hy. apply Hl. by right.
Qed.
Lemma repeats_false {A B} `{EqDecision B} (key : A → B) l : repeats key l = false ↔ NoDup (map key l).
Proof.
  unfold repeats, has_duplicates. rewrite negb_false_iff, Nat.eqb_eq. generalize (map key l). clear.
  intros l. split.
  - induction l as [|x l IH]; [constructor|]. simpl. case_decide as Hx; simpl.
    + intros Hl. assert (∀ k : list B, (length (remove_dups k) <= length k)%nat) as Hle
        by (intros k; induction k; simpl; [done|case_decide; simpl; lia]).
      specialize (Hle l). lia.
    + intros [= Hl]. constructor; auto.
  - induction 1 as [|x l Hx _ IH]; [done|]. simpl. case_decide; [done|]. simpl. congruence.
Qed.

Lemma omap_ext_in {A B} (f g : A → option B) (l : list A) : (∀ x, x ∈ l → f x = g x) → omap f l = omap g l.
Proof.
  intros Hfg. induction l as [|x l IH]; [done|]. cbn. rewrite (Hfg x) by (by left).
  rewrite IH; [done|]. intros y Hy. apply Hfg. by right.
Qed.

Lemma ordered_impl {A} (leb leb' : A → A → bool) l :
  (∀ x y, leb x y = true → leb' x y = true) → ordered leb l → ordered leb' l.
Proof.
  intros Hle. induction 1 as [|x l _ IH Hx]; constructor; [done|]. eapply Forall_impl; [exact Hx|]. apply Hle.
Qed.

Section Held.
Context `{DatabaseText} (binary : ∀ a b, collate a b = str_leb a b).

Lemma storable_facts x : storable_toolset x → toolset_facts x.
Proof. intros Hx. apply new_toolset_spec. by apply sx_facts. Qed.

(** What the rows of the entries of [x] say. *)
Definition member_row_of (x : Toolset) (m : ToolsetMember) (r : ToolsetMemberModel) : Prop :=
  member_from_model r = Ok m ∧ uuid_str (tmr_tool_id r) = tm_tool_id m ∧ uuid_valid (tmr_tool_id r) ∧
  uuid_str (tmr_toolset_id r) = ts_id x ∧ member_to_model m = Ok r.
Definition grant_row_of (x : Toolset) (g : ToolsetAccessGrant) (r : ToolsetAccessGrantModel) : Prop :=
  grant_from_model r = Ok g ∧ tgr_principal_id r = tg_principal_id g ∧ uuid_str (tgr_toolset_id r) = ts_id x ∧
  grant_to_model g = Ok r.

Lemma entry_rows_back x members grants :
  storable_toolset x → entry_rows x = Ok (members, grants) →
  Forall2 (member_row_of x) (ts_members x) members ∧ Forall2 (grant_row_of x) (ts_grants x) grants.
Proof.
  intros Hx (ms & Hm%traverse_Ok & (gs & Hg%traverse_Ok & [= <- <-])%rbind_Ok_inv)%rbind_Ok_inv.
  pose proof (storable_facts x Hx) as Hf. destruct (tf_members _ Hf) as [_ Hfm]. destruct (tf_grants _ Hf) as [_ Hfg].
  pose proof (sx_members _ Hx) as Hsm. pose proof (sx_grants _ Hx) as Hsg.
  rewrite Forall_forall in Hfm. rewrite Forall_forall in Hfg. rewrite Forall_forall in Hsm.
  rewrite Forall_forall in Hsg. split.
  - apply Forall2_same_length_lookup. split; [by eapply Forall2_length|]. intros i m r Hi Hr.
    pose proof (list_elem_of_lookup_2 _ _ _ Hi) as Hin.
    destruct (Hfm m Hin) as [Ht Hs]. destruct (Hsm m Hin) as [Hn Hc].
    pose proof (Forall2_lookup_lr _ _ _ _ _ _ Hm Hi Hr) as Hrow. simpl in Hrow.
    destruct (member_row_back m r) as (H1 & H2 & H3 & H4); try done.
    { rewrite Ht. apply (sx_tenant _ Hx). } { rewrite Hs. apply (sx_id _ Hx). }
    by rewrite Hs in H4.
  - apply Forall2_same_length_lookup. split; [by eapply Forall2_length|]. intros i g r Hi Hr.
    pose proof (list_elem_of_lookup_2 _ _ _ Hi) as Hin.
    destruct (Hfg g Hin) as [Ht Hs]. pose proof (Hsg g Hin) as Hn.
    pose proof (Forall2_lookup_lr _ _ _ _ _ _ Hg Hi Hr) as Hrow. simpl in Hrow.
    destruct (grant_row_back g r) as (H1 & H2 & H3); try done.
    { rewrite Ht. apply (sx_tenant _ Hx). } { rewrite Hs. apply (sx_id _ Hx). }
    by rewrite Hs in H3.
Qed.

Lemma entry_rows_total x : storable_toolset x → ∃ members grants, entry_rows x = Ok (members, grants).
Proof.
  intros Hx. pose proof (storable_facts x Hx) as Hf.
  destruct (tf_members _ Hf) as [_ Hfm]. destruct (tf_grants _ Hf) as [_ Hfg].
  pose proof (sx_members _ Hx) as Hsm.
  destruct (canonical_parses _ (sx_id _ Hx)) as (a & _ & _ & Ha).
  destruct (canonical_parses _ (sx_tenant _ Hx)) as (b & _ & _ & Hb).
  assert (Hms : ∃ ms, traverse member_to_model (ts_members x) = Ok ms).
  { revert Hfm Hsm. generalize (ts_members x) as l. induction l as [|m l IH]; intros Hfm Hsm; [by eexists|].
    apply Forall_cons in Hfm as [[Ht Hs] Hfm]. apply Forall_cons in Hsm as [[_ Hc] Hsm].
    destruct (canonical_parses _ Hc) as (c & _ & _ & Hpc). destruct (IH Hfm Hsm) as [ms Hms].
    simpl. unfold member_to_model at 1. rewrite Ht, Hs, Ha, Hb, Hpc. simpl. rewrite Hms. by eexists. }
  assert (Hgs : ∃ gs, traverse grant_to_model (ts_grants x) = Ok gs).
  { revert Hfg. generalize (ts_grants x) as l. induction l as [|g l IH]; intros Hfg; [by eexists|].
    apply Forall_cons in Hfg as [[Ht Hs] Hfg]. destruct (IH Hfg) as [gs Hgs].
    simpl. unfold grant_to_model at 1. rewrite Ht, Hs, Ha, Hb. simpl. rewrite Hgs. by eexists. }
  destruct Hms as [ms Hms], Hgs as [gs Hgs]. exists ms, gs. unfold entry_rows. by rewrite Hms; simpl; rewrite Hgs.
Qed.

(** The entries come back in the order the domain keeps them. *)
Lemma entries_ordered x members grants :
  storable_toolset x → entry_rows x = Ok (members, grants) →
  ordered member_row_leb members ∧ ordered grant_row_leb grants ∧
  NoDup (map tmr_tool_id members) ∧ NoDup (map tgr_principal_id grants).
Proof.
  intros Hx Hrows. destruct (entry_rows_back x _ _ Hx Hrows) as [Hm Hg].
  pose proof (storable_facts x Hx) as Hf. split_and!.
  - eapply ordered_Forall2; [|exact Hm|exact (proj1 (ordered_map tm_tool_id str_leb _) (sx_tools_sorted _ Hx))].
    intros m r m' r' (_ & Ht & Hv & _) (_ & Ht' & Hv' & _) Hle. unfold member_row_leb.
    rewrite <-Ht, <-Ht', uuid_str_leb in Hle by done. done.
  - eapply ordered_Forall2; [|exact Hg|exact (proj1 (ordered_map tg_principal_id str_leb _) (sx_principals_sorted _ Hx))].
    intros g r g' r' (_ & Ht & _) (_ & Ht' & _) Hle. unfold grant_row_leb. rewrite binary. congruence.
  - apply (NoDup_fmap_1 uuid_str). destruct (tf_members _ Hf) as [Hn _]. unfold ts_tool_ids in Hn.
    replace (uuid_str <$> map tmr_tool_id members) with (map tm_tool_id (ts_members x)); [done|].
    clear -Hm. induction Hm as [|m r ms rs (_ & Ht & _) _ IH]; simpl; [done|]. by rewrite Ht, IH.
  - destruct (tf_grants _ Hf) as [Hn _]. unfold ts_principal_ids in Hn.
    replace (map tgr_principal_id grants) with (map tg_principal_id (ts_grants x)); [done|].
    clear -Hg. induction Hg as [|g r gs rs (_ & Ht & _) _ IH]; simpl; [done|]. by rewrite Ht, IH.
Qed.

Lemma key_inj {A B} (key : A → B) (l : list A) x y : NoDup (map key l) → x ∈ l → y ∈ l → key x = key y → x = y.
Proof.
  induction l as [|z l IH]; simpl; [by intros _ ?%elem_of_nil|].
  intros [Hz Hn]%NoDup_cons [->|Hx]%elem_of_cons [->|Hy]%elem_of_cons He; auto.
  - exfalso. apply Hz. rewrite He. by apply list_elem_of_fmap_2.
  - exfalso. apply Hz. rewrite <-He. by apply list_elem_of_fmap_2.
Qed.

(** The toolset of a row is the one the row holds. *)
Lemma aggregate_held t x r : held_as t x r → aggregate t r = Ok x.
Proof.
  intros [Hx Hr (members & grants & Hrows & Hm & Hg)].
  destruct (entries_ordered x _ _ Hx Hrows) as (Ho1 & Ho2 & Hn1 & Hn2).
  destruct (entry_rows_back x _ _ Hx Hrows) as [Hf1 Hf2]. unfold aggregate.
  rewrite (sorted_rows member_row_leb _ members); try done.
  2: { intros a b. unfold member_row_leb. rewrite !N.leb_le. lia. }
  2: { intros a b c. unfold member_row_leb. rewrite !N.leb_le. lia. }
  2: { intros a b Ha Hb Hab Hba. apply (key_inj tmr_tool_id members); try done.
       unfold member_row_leb in *. apply N.leb_le in Hab, Hba. destruct (tmr_tool_id a), (tmr_tool_id b).
       simpl in *. f_equal. lia. }
  rewrite (sorted_rows grant_row_leb _ grants); try done.
  2: { intros a b. apply collate_total. } 2: { intros a b c. apply collate_trans. }
  2: { intros a b Ha Hb Hab Hba. apply (key_inj tgr_principal_id grants); try done. by apply collate_antisym. }
  unfold toolset_from_models.
  destruct (canonical_parses _ (sx_id _ Hx)) as (a & _ & Ha' & Ha).
  destruct (canonical_parses _ (sx_tenant _ Hx)) as (b & _ & Hb' & Hb).
  unfold toolset_to_model in Hr. rewrite Ha, Hb in Hr. cbn [rbind] in Hr.
  assert (enum_of (tsr_kind r) = Ok (ts_kind x)) as -> by (injection Hr as <-; exact (enum_round_trip (ts_kind x))).
  assert (enum_of (tsr_discovery_mode r) = Ok (ts_discovery_mode x)) as ->
    by (injection Hr as <-; exact (enum_round_trip (ts_discovery_mode x))).
  assert (enum_of (tsr_status r) = Ok (ts_status x)) as -> by (injection Hr as <-; exact (enum_round_trip (ts_status x))).
  cbn [rbind].
  assert (traverse member_from_model members = Ok (ts_members x)) as ->.
  { apply traverse_Ok. apply Forall2_flip. eapply Forall2_impl; [exact Hf1|]. by intros m row (? & _). }
  assert (traverse grant_from_model grants = Ok (ts_grants x)) as ->.
  { apply traverse_Ok. apply Forall2_flip. eapply Forall2_impl; [exact Hf2|]. by intros g row (? & _). }
  injection Hr as <-. cbn. rewrite Ha', Hb'. destruct x. apply (sx_facts _ Hx).
Qed.

(** The columns of the row of a toolset. *)
Record columns (x : Toolset) (r : ToolsetModel) : Prop := {
  co_id : uuid_valid (tsr_id r) ∧ uuid_str (tsr_id r) = ts_id x;
  co_tenant : uuid_valid (tsr_tenant_id r) ∧ uuid_str (tsr_tenant_id r) = ts_tenant_id x;
  co_slug : tsr_slug r = ts_slug x;
  co_kind : tsr_kind r = enum_value (ts_kind x);
  co_status : tsr_status r = enum_value (ts_status x);
  co_created : tsr_created_by r = ts_created_by x ∧ tsr_created_at r = ts_created_at x;
  co_check : toolset_check r = true }.

Lemma row_columns x r : storable_toolset x → toolset_to_model x = Ok r → columns x r.
Proof.
  intros Hx. pose proof (storable_facts x Hx) as Hf.
  destruct (canonical_parses _ (sx_id _ Hx)) as (a & Hva & Ha' & Ha).
  destruct (canonical_parses _ (sx_tenant _ Hx)) as (b & Hvb & Hb' & Hb).
  unfold toolset_to_model. rewrite Ha, Hb. cbn [rbind]. intros [= <-]. split; cbn; try done.
  unfold toolset_check. cbn. pose proof (tf_revision _ Hf) as Hrev.
  rewrite (proj2 (Z.ltb_lt _ _) Hrev), andb_true_r.
  by destruct (ts_kind x), (ts_discovery_mode x), (ts_status x).
Qed.

Lemma row_total x : storable_toolset x → ∃ r, toolset_to_model x = Ok r.
Proof.
  intros Hx. destruct (canonical_parses _ (sx_id _ Hx)) as (a & _ & _ & Ha).
  destruct (canonical_parses _ (sx_tenant _ Hx)) as (b & _ & _ & Hb).
  unfold toolset_to_model. rewrite Ha, Hb. by eexists.
Qed.

Lemma held_columns t x r : held_as t x r → columns x r.
Proof. intros [Hx Hr _]. by apply row_columns. Qed.

Lemma column_id x r u : columns x r → uuid_valid u → bool_decide (tsr_id r = u) = bool_decide (ts_id x = uuid_str u).
Proof. intros [[Hv <-] _ _ _ _ _ _] Hu. apply bool_decide_ext. split; [by intros ->|]. by apply uuid_str_inj. Qed.
Lemma column_tenant x r u :
  columns x r → uuid_valid u → bool_decide (tsr_tenant_id r = u) = bool_decide (ts_tenant_id x = uuid_str u).
Proof. intros [_ [Hv <-] _ _ _ _ _] Hu. apply bool_decide_ext. split; [by intros ->|]. by apply uuid_str_inj. Qed.

(** ** One store mirrors the other *)

Definition member_key (m : ToolsetMemberModel) : UUID * UUID := (tmr_toolset_id m, tmr_tool_id m).
Definition grant_key (g : ToolsetAccessGrantModel) : UUID * string := (tgr_toolset_id g, tgr_principal_id g).

(** The catalog the reader in memory is given is that of the tool rows. *)
Record catalog_of (snapshots : list ToolsetCatalogSnapshot) (t : toolset_tables) : Prop := {
  cg_snapshots : traverse member_snapshot (flat_map (outer_join t) (tt_tools t)) = Ok snapshots;
  cg_valid : Forall (λ r, uuid_valid (tr_id r) ∧ uuid_valid (tr_tenant_id r)) (tt_tools t);
  cg_tools : NoDup (map tr_id (tt_tools t));
  cg_names : NoDup (map (λ r, (tr_tenant_id r, tr_canonical_name r)) (tt_tools t));
  cg_checked : Forall (λ r, tool_check r = true) (tt_tools t);
  cg_published : Forall (λ r, (length (published_versions t r) <= 1)%nat) (tt_tools t) }.

Record mirrored (d : toolset_store) (t : toolset_tables) : Prop := {
  mi_rows : Forall2 (held_as t) (dvalues (tst_toolsets d)) (tt_toolsets t);
  mi_ok : toolsets_ok (tst_toolsets d);
  mi_members : NoDup (map member_key (tt_members t));
  mi_grants : NoDup (map grant_key (tt_grants t));
  mi_owners : (∀ m, m ∈ tt_members t → tmr_toolset_id m ∈ map tsr_id (tt_toolsets t)) ∧
              (∀ g, g ∈ tt_grants t → tgr_toolset_id g ∈ map tsr_id (tt_toolsets t));
  mi_catalog : catalog_of (tst_catalog d) t }.

(** Toolsets of rows, read back. *)
Lemma aggregate_all t l rows : Forall2 (held_as t) l rows → traverse (aggregate t) rows = Ok l.
Proof.
  intros Hf. apply traverse_Ok, Forall2_flip. eapply Forall2_impl; [exact Hf|].
  intros x r Hh. by apply aggregate_held.
Qed.

Lemma aggregated_find t (p : Toolset → bool) (q : ToolsetModel → bool) l rows :
  Forall2 (held_as t) l rows → (∀ x r, columns x r → p x = q r) →
  aggregated t (find q rows) = Ok (find p l).
Proof.
  intros Hf Hpq.
  pose proof (find_related _ p q _ _ Hf (λ x r Hh, Hpq x r (held_columns _ _ _ Hh))) as Hs.
  destruct (find p l) as [x|], (find q rows) as [r|]; try done. simpl. by rewrite (aggregate_held _ _ _ Hs).
Qed.

Lemma in_tenant_dfind (ts : dict Toolset) tenant id :
  keyed ts_id ts → in_tenant ts_tenant_id tenant (dget id ts) =
  dfind (λ x, bool_decide (ts_tenant_id x = tenant) && bool_decide (ts_id x = id)) ts.
Proof.
  intros Hk. destruct (dfind _ ts) as [x|] eqn:Ef.
  - apply (dfind_Some ts_id) in Ef as [Hx Hp]; [|done]. py_bools. subst. rewrite Hx. simpl. by rewrite decide_True.
  - pose proof (dfind_None ts_id _ _ Hk Ef) as Hn.
    destruct (dget id ts) as [x|] eqn:Ex; simpl; [|done]. rewrite decide_False; [done|]. intros Ht.
    pose proof (Hn _ _ Ex) as Hno. simpl in Hno. rewrite (keyed_get ts_id _ _ _ Hk Ex) in Hno.
    by rewrite !bool_decide_eq_true_2 in Hno.
Qed.

(** *** The reads *)

Lemma get_agrees d t tenant id :
  mirrored d t → canonical_uuid tenant = true → canonical_uuid id = true →
  toolset_by_id tenant id t = Ok (in_tenant ts_tenant_id tenant (dget id (tst_toolsets d))).
Proof.
  intros Hm (a & Ha & <- & Hpa)%canonical_parses (b & Hb & <- & Hpb)%canonical_parses.
  unfold toolset_by_id, toolset_row. rewrite Hpa, Hpb. cbn [rbind].
  rewrite in_tenant_dfind by apply (toolsets_keyed _ (mi_ok _ _ Hm)).
  apply aggregated_find; [apply (mi_rows _ _ Hm)|]. intros x r Hc.
  by rewrite (column_id x r), (column_tenant x r).
Qed.

Lemma get_by_slug_agrees d t tenant slug :
  mirrored d t → canonical_uuid tenant = true →
  toolset_by_slug tenant slug t = Ok (find_toolset_by_slug tenant slug (tst_toolsets d)).
Proof.
  intros Hm (a & Ha & <- & Hpa)%canonical_parses. unfold toolset_by_slug. rewrite Hpa. cbn [rbind].
  apply aggregated_find; [apply (mi_rows _ _ Hm)|]. intros x r Hc.
  by rewrite (column_tenant x r), (co_slug _ _ Hc).
Qed.

Lemma kind_column x r :
  columns x r → bool_decide (tsr_kind r = "all_published") = bool_decide (ts_kind x = KindAllPublished).
Proof. intros Hc. rewrite (co_kind _ _ Hc). by destruct (ts_kind x). Qed.

Lemma all_published_agrees d t tenant :
  mirrored d t → canonical_uuid tenant = true →
  all_published_toolset tenant t = Ok (find_all_published tenant (tst_toolsets d)).
Proof.
  intros Hm (a & Ha & <- & Hpa)%canonical_parses. unfold all_published_toolset. rewrite Hpa. cbn [rbind].
  apply aggregated_find; [apply (mi_rows _ _ Hm)|]. intros x r Hc.
  by rewrite (column_tenant x r), (kind_column x r).
Qed.

Lemma slug_order t x x' y y' :
  held_as t x x' → held_as t y y' → slug_leb x y = toolset_row_leb x' y'.
Proof.
  intros Hx Hy. unfold slug_leb, toolset_row_leb.
  by rewrite binary, (co_slug _ _ (held_columns _ _ _ Hx)), (co_slug _ _ (held_columns _ _ _ Hy)).
Qed.

Lemma list_agrees d t tenant :
  mirrored d t → canonical_uuid tenant = true →
  tenant_toolsets tenant t =
  Ok (sorted_by slug_leb (filter (λ x, ts_tenant_id x = tenant) (dvalues (tst_toolsets d)))).
Proof.
  intros Hm (a & Ha & <- & Hpa)%canonical_parses. unfold tenant_toolsets. rewrite Hpa. cbn [rbind].
  apply aggregate_all. apply sorted_related; [apply slug_order|].
  apply filter_related; [apply (mi_rows _ _ Hm)|]. intros x r Hh.
  rewrite <-(bool_decide_eq_true (ts_tenant_id x = _)), <-(bool_decide_eq_true (tsr_tenant_id r = a)).
  by rewrite (column_tenant x r) by (done || by eapply held_columns).
Qed.

(** A grant's row is joined at most once. *)
Lemma filter_key {A B C} `{EqDecision B} (key : A → B) (k : B) (z : C) (l : list A) :
  NoDup (map key l) → map (λ _, z) (filter (λ x, key x = k) l) = if decide (k ∈ map key l) then [z] else [].
Proof.
  induction l as [|x l IH]; [done|]. cbn [map]. intros [Hx Hn]%NoDup_cons. rewrite filter_cons.
  destruct (decide (key x = k)) as [<-|Hne].
  - rewrite decide_True by (by left). cbn [map]. rewrite IH by done. by rewrite decide_False.
  - rewrite IH by done. destruct (decide (k ∈ map key l)) as [Hk|Hk].
    + by rewrite decide_True by (by right).
    + rewrite decide_False; [done|]. by intros [->|]%elem_of_cons.
Qed.

Lemma flat_map_filter {A} (P : A → Prop) `{∀ x, Decision (P x)} (l : list A) :
  flat_map (λ x, if decide (P x) then [x] else []) l = filter P l.
Proof. induction l as [|x l IH]; [done|]. simpl. rewrite filter_cons, IH. by destruct (decide (P x)). Qed.

Lemma granted_rows_filter a p t :
  NoDup (map grant_key (tt_grants t)) →
  granted_rows a p t =
  filter (λ r, (tsr_id r, p) ∈ map grant_key (tt_grants t) ∧ tsr_tenant_id r = a ∧ tsr_status r = "active")
    (tt_toolsets t).
Proof.
  intros Hn. unfold granted_rows. etrans; [|apply (list_filter_filter (λ r, (tsr_id r, p) ∈ map grant_key (tt_grants t))
              (λ r, tsr_tenant_id r = a ∧ tsr_status r = "active"))].
  etrans; [|apply flat_map_filter]. apply flat_map_ext. intros r.
  rewrite <-(filter_key grant_key) by done. f_equal. apply list_filter_iff. intros g. unfold grant_key.
  split; [by intros [-> ->]|by intros [= -> ->]].
Qed.

(** The principals granted a held toolset are those of its rows. *)
Lemma held_principal t x r p :
  held_as t x r → p ∈ ts_principal_ids x ↔ (tsr_id r, p) ∈ map grant_key (tt_grants t).
Proof.
  intros [Hx _ (members & grants & Hrows & _ & Hg)].
  destruct (entry_rows_back x _ _ Hx Hrows) as [_ Hf]. unfold ts_principal_ids.
  assert (map tg_principal_id (ts_grants x) = map tgr_principal_id grants) as ->.
  { clear -Hf. induction Hf as [|g row gs rs (_ & Hp & _) _ IH]; simpl; [done|]. by rewrite Hp, IH. }
  change (map tgr_principal_id grants) with (tgr_principal_id <$> grants). rewrite <-Hg.
  change (map grant_key (tt_grants t)) with (grant_key <$> tt_grants t). rewrite !list_elem_of_fmap.
  unfold grants_of. setoid_rewrite list_elem_of_filter. unfold grant_key. split.
  - intros (g & -> & <- & Hin). eauto.
  - intros (g & [= -> ->] & Hin). eauto.
Qed.

Lemma granted_agrees d t tenant p :
  mirrored d t → canonical_uuid tenant = true →
  granted_toolsets tenant p t =
  Ok (filter (λ x, ts_status x = TsActive ∧ p ∈ ts_principal_ids x)
        (sorted_by slug_leb (filter (λ x, ts_tenant_id x = tenant) (dvalues (tst_toolsets d))))).
Proof.
  intros Hm (a & Ha & <- & Hpa)%canonical_parses. unfold granted_toolsets. rewrite Hpa. cbn [rbind].
  rewrite filter_sorted_by by (intros *; first [apply str_leb_total|apply str_leb_trans]).
  rewrite granted_rows_filter by apply (mi_grants _ _ Hm). rewrite list_filter_filter.
  apply aggregate_all. apply sorted_related; [apply slug_order|].
  apply filter_related; [apply (mi_rows _ _ Hm)|]. intros x r Hh.
  rewrite <-(held_principal t x r p) by done. pose proof (held_columns _ _ _ Hh) as Hc.
  assert (ts_tenant_id x = uuid_str a ↔ tsr_tenant_id r = a) as ->
    by (by rewrite <-(bool_decide_eq_true (ts_tenant_id x = _)), <-(bool_decide_eq_true (tsr_tenant_id r = a)),
          (column_tenant x r)).
  assert (ts_status x = TsActive ↔ tsr_status r = "active") as ->
    by (rewrite (co_status _ _ Hc); by destruct (ts_status x)).
  tauto.
Qed.

(** *** The writes *)

(** What the rows of the entries of [x] need of the tables' limits. *)
Definition fits `{ToolsetLimits} (x : Toolset) : Prop :=
  (∀ r, toolset_to_model x = Ok r → within r = true) ∧
  (∀ members grants, entry_rows x = Ok (members, grants) → entries_within members grants = true).

Lemma entry_rows_owner x r members grants :
  storable_toolset x → toolset_to_model x = Ok r → entry_rows x = Ok (members, grants) →
  (∀ m, m ∈ members → tmr_toolset_id m = tsr_id r) ∧ (∀ g, g ∈ grants → tgr_toolset_id g = tsr_id r).
Proof.
  intros Hx Hr (ms & Hm%traverse_Ok & (gs & Hg%traverse_Ok & [= <- <-])%rbind_Ok_inv)%rbind_Ok_inv.
  pose proof (storable_facts x Hx) as Hf. destruct (tf_members _ Hf) as [_ Hfm]. destruct (tf_grants _ Hf) as [_ Hfg].
  destruct (canonical_parses _ (sx_id _ Hx)) as (a & _ & _ & Ha).
  unfold toolset_to_model in Hr. rewrite Ha in Hr. cbn [rbind] in Hr. apply rbind_Ok_inv in Hr as (b & _ & [= <-]).
  cbn [tsr_id]. rewrite Forall_forall in Hfm. rewrite Forall_forall in Hfg. split.
  - intros row (i & Hi)%list_elem_of_lookup. destruct (Forall2_lookup_r _ _ _ _ _ Hm Hi) as (m & Hmi & Hto).
    destruct (Hfm m (list_elem_of_lookup_2 _ _ _ Hmi)) as [_ Hs]. unfold member_to_model in Hto.
    rewrite Hs, Ha in Hto. apply rbind_Ok_inv in Hto as (u & _ & Hto). cbn [rbind] in Hto.
    by apply rbind_Ok_inv in Hto as (v & _ & [= <-]).
  - intros row (i & Hi)%list_elem_of_lookup. destruct (Forall2_lookup_r _ _ _ _ _ Hg Hi) as (g & Hgi & Hto).
    destruct (Hfg g (list_elem_of_lookup_2 _ _ _ Hgi)) as [_ Hs]. unfold grant_to_model in Hto.
    rewrite Hs, Ha in Hto. apply rbind_Ok_inv in Hto as (u & _ & Hto). cbn [rbind] in Hto. by injection Hto as <-.
Qed.

(** Adding rows of one owner to those of the others. *)
Section Owned.
Context {E : Type} (owner : E → UUID).

Lemma owned_by_others (id : UUID) (l : list E) : (∀ e, e ∈ filter (λ e, owner e ≠ id) l → owner e ≠ id).
Proof. by intros e [? _]%list_elem_of_filter. Qed.

Lemma own_rows (id : UUID) (l new : list E) :
  (∀ e, e ∈ new → owner e = id) → filter (λ e, owner e = id) (filter (λ e, owner e ≠ id) l ++ new) = new.
Proof.
  intros Hn. rewrite filter_app, filter_none, filter_true; [done|done|]. intros e He. by apply owned_by_others in He.
Qed.

Lemma rows_of_others (id id' : UUID) (l new : list E) :
  id' ≠ id → (∀ e, e ∈ new → owner e = id) →
  filter (λ e, owner e = id') (filter (λ e, owner e ≠ id) l ++ new) = filter (λ e, owner e = id') l.
Proof.
  intros Hne Hn. rewrite filter_app, (filter_none _ new), app_nil_r by (intros e He; rewrite Hn; congruence).
  rewrite list_filter_filter. apply list_filter_iff. intros e. split; [tauto|]. intros ->. done.
Qed.

End Owned.

Lemma keys_apart {E K} (owner : E → UUID) (key : E → K) (owner_of : K → UUID) (id : UUID) (l new : list E) :
  (∀ e, owner_of (key e) = owner e) → (∀ e, e ∈ new → owner e = id) → NoDup (map key l) → NoDup (map key new) →
  NoDup (map key (filter (λ e, owner e ≠ id) l ++ new)).
Proof.
  intros Ho Hn Hl Hnew. rewrite map_app. apply NoDup_app. split_and!; [|..|done].
  - refine (sublist_NoDup _ _ Hl _). apply (fmap_sublist key), sublist_filter.
  - intros k (e & -> & He)%list_elem_of_fmap (e' & Hk & He')%list_elem_of_fmap.
    apply owned_by_others in He. apply He. rewrite <-Ho, Hk, Ho. by apply Hn.
Qed.

(** The tables without the entries of one toolset. *)
Definition without_entries (id : UUID) (rows : list ToolsetModel) (t : toolset_tables) : toolset_tables :=
  mkToolsetTables rows (filter (λ m, tmr_toolset_id m ≠ id) (tt_members t))
    (filter (λ g, tgr_toolset_id g ≠ id) (tt_grants t)) (tt_tools t) (tt_versions t).

(** What tables [t'] with the rows [rows] are after the entries of [x] were stored. *)
Record stored (t : toolset_tables) (x : Toolset) (r : ToolsetModel) (rows : list ToolsetModel) (t' : toolset_tables) :
    Prop := {
  sd_held : held_as t' x r;
  sd_others y o : held_as t y o → tsr_id o ≠ tsr_id r → held_as t' y o;
  sd_members : NoDup (map member_key (tt_members t'));
  sd_grants : NoDup (map grant_key (tt_grants t'));
  sd_member_owner m : m ∈ tt_members t' → m ∈ tt_members t ∨ tmr_toolset_id m = tsr_id r;
  sd_grant_owner g : g ∈ tt_grants t' → g ∈ tt_grants t ∨ tgr_toolset_id g = tsr_id r;
  sd_rows : tt_toolsets t' = rows;
  sd_catalog : tt_tools t' = tt_tools t ∧ tt_versions t' = tt_versions t }.

(** Storing the entries of [x] there: [x] is held by its row, the others as before. *)
Lemma stored_entries `{ToolsetLimits} t x r rows :
  storable_toolset x → toolset_to_model x = Ok r → fits x →
  NoDup (map member_key (tt_members t)) → NoDup (map grant_key (tt_grants t)) →
  ∃ entries t', entry_rows x = Ok entries ∧
    store_entries entries (without_entries (tsr_id r) rows t) = Ok t' ∧ stored t x r rows t'.
Proof.
  intros Hx Hr [_ Hfit] Hkm Hkg. destruct (entry_rows_total x Hx) as (ms & gs & Hrows).
  destruct (entry_rows_owner x r _ _ Hx Hr Hrows) as [Hom Hog].
  destruct (entries_ordered x _ _ Hx Hrows) as (_ & _ & Hn1 & Hn2). rewrite Hrows.
  assert (Hm' : NoDup (map member_key (filter (λ m, tmr_toolset_id m ≠ tsr_id r) (tt_members t) ++ ms))).
  { apply (keys_apart tmr_toolset_id member_key fst); try done.
    apply (NoDup_fmap_1 snd). rewrite <-list_fmap_compose. exact Hn1. }
  assert (Hg' : NoDup (map grant_key (filter (λ g, tgr_toolset_id g ≠ tsr_id r) (tt_grants t) ++ gs))).
  { apply (keys_apart tgr_toolset_id grant_key fst); try done.
    apply (NoDup_fmap_1 snd). rewrite <-list_fmap_compose. exact Hn2. }
  eexists _, _. split; [done|]. unfold store_entries, flush_entries, without_entries. cbn [tt_members tt_grants].
  pose proof (proj2 (repeats_false member_key _) Hm') as Hrm. unfold member_key in Hrm. rewrite Hrm.
  pose proof (proj2 (repeats_false grant_key _) Hg') as Hrg. unfold grant_key in Hrg. rewrite Hrg.
  rewrite (Hfit _ _ Hrows). cbn. split; [reflexivity|]. split; try done.
  - split; [done|done|]. exists ms, gs. unfold members_of, grants_of. cbn.
    by rewrite (own_rows tmr_toolset_id), (own_rows tgr_toolset_id).
  - intros y o [Hy Ho (ms' & gs' & Hrows' & Hpm & Hpg)] Hne. split; [done|done|]. exists ms', gs'.
    unfold members_of, grants_of. cbn.
    by rewrite (rows_of_others tmr_toolset_id), (rows_of_others tgr_toolset_id).
  - intros m [[_ ?]%list_elem_of_filter|?]%elem_of_app; auto.
  - intros g [[_ ?]%list_elem_of_filter|?]%elem_of_app; auto.
Qed.

(** [add] in memory: its checks, then the write. *)
Definition add_rules (tenant_id : string) (x : Toolset) (ts : dict Toolset) : res unit :=
  require_matching_tenant tenant_id (ts_tenant_id x) ;;?
  raise_if (dmem (ts_id x) ts) (ValueError "toolset id already exists") ;;?
  raise_if (negb (is_none (find_toolset_by_slug tenant_id (ts_slug x) ts)))
    (ValueError "toolset slug already exists in tenant") ;;?
  raise_if (bool_decide (ts_kind x = KindAllPublished) && negb (is_none (find_all_published tenant_id ts)))
    (ValueError "all_published toolset already exists in tenant").

Lemma add_toolset_eq tenant x c d e :
  add_toolset tenant x (St c (Some d) e) =
  match add_rules tenant x (tst_toolsets d) with
  | Ok _ => (Ok tt, St c (Some (put x d)) e)
  | Raise y => (Raise y, St c (Some d) e)
  end.
Proof.
  unfold add_toolset, add_rules, require_matching_tenant, get_toolset_by_slug, get_all_published.
  unfold bind, lift, read_table, write_table, ret, raise_if, put.
  cbn [working store environment table set_table toolset_store_table].
  destruct (negb (bool_decide (tenant = ts_tenant_id x))); [done|]. cbn [rbind].
  destruct (dmem (ts_id x) (tst_toolsets d)); [done|]. cbn [rbind].
  destruct (negb (is_none (find_toolset_by_slug tenant (ts_slug x) (tst_toolsets d)))); [done|]. cbn [rbind].
  by destruct (bool_decide (ts_kind x = KindAllPublished)
               && negb (is_none (find_all_published tenant (tst_toolsets d)))).
Qed.

Lemma add_rules_raise tenant x ts y : add_rules tenant x ts = Raise y → is_value_error y = true.
Proof.
  unfold add_rules, require_matching_tenant, raise_if.
  destruct (negb (bool_decide _)); [by intros [= <-]|]. cbn [rbind].
  destruct (dmem _ _); [by intros [= <-]|]. cbn [rbind].
  destruct (negb (is_none _)); [by intros [= <-]|]. cbn [rbind].
  destruct (_ && _); [by intros [= <-]|done].
Qed.

(** A row of the primary key or of a unique constraint is a toolset in memory. *)
Lemma key_taken d t x r :
  mirrored d t → columns x r →
  existsb (λ o, bool_decide (tsr_id o = tsr_id r)) (tt_toolsets t) = dmem (ts_id x) (tst_toolsets d).
Proof.
  intros Hm Hc. destruct (co_id _ _ Hc) as [Hv Hid].
  rewrite <-(existsb_related _ (λ y, bool_decide (ts_id y = ts_id x)) _ _ _ (mi_rows _ _ Hm)).
  2: { intros y o Hh. rewrite (column_id y o) by (done || by eapply held_columns). by rewrite Hid. }
  pose proof (toolsets_keyed _ (mi_ok _ _ Hm)) as Hk. apply eq_bool_prop_intro.
  rewrite !Is_true_true, existsb_exists. unfold dmem. rewrite bool_decide_eq_true. split.
  - intros (y & Hy%list_elem_of_In & Hi). apply bool_decide_eq_true in Hi.
    apply (keyed_value ts_id) in Hy; [|done]. rewrite <-Hi. eauto.
  - intros [y Hy]. exists y. split; [|by rewrite (keyed_get ts_id _ _ _ Hk Hy), bool_decide_eq_true_2].
    apply list_elem_of_In, (keyed_value ts_id); [done|]. by rewrite (keyed_get ts_id _ _ _ Hk Hy).
Qed.

Lemma clash_taken d t x r :
  mirrored d t → columns x r →
  existsb (toolset_clash r) (tt_toolsets t) =
  negb (is_none (find_toolset_by_slug (ts_tenant_id x) (ts_slug x) (tst_toolsets d)))
  || (bool_decide (ts_kind x = KindAllPublished)
      && negb (is_none (find_all_published (ts_tenant_id x) (tst_toolsets d)))).
Proof.
  intros Hm Hc. destruct (co_tenant _ _ Hc) as [Hv Hid].
  unfold find_toolset_by_slug, find_all_published. rewrite <-!exists_find.
  pose proof (mi_rows _ _ Hm) as Hf. revert Hf. generalize (dvalues (tst_toolsets d)) as l.
  generalize (tt_toolsets t) as rows. intros rows l Hf.
  induction Hf as [|y o l rows Hh _ IH]; simpl; [by rewrite andb_false_r|]. rewrite IH.
  pose proof (held_columns _ _ _ Hh) as Hy. unfold toolset_clash.
  rewrite (bool_decide_sym (tsr_tenant_id r)), (column_tenant y o) by done. rewrite Hid.
  rewrite (co_slug _ _ Hc), (co_slug _ _ Hy), (kind_column x r), (kind_column y o) by done.
  rewrite (bool_decide_sym (ts_slug x)).
  destruct (bool_decide (ts_tenant_id y = _)), (bool_decide (ts_slug y = _)), (bool_decide (ts_kind x = _)),
    (bool_decide (ts_kind y = _)), (existsb _ l); simpl; rewrite ?orb_true_r, ?orb_false_r; done.
Qed.

Lemma flush_toolset_Ok `{ToolsetLimits} r others :
  toolset_check r = true → existsb (λ o, bool_decide (tsr_id o = tsr_id r)) others = false →
  existsb (toolset_clash r) others = false → within r = true → flush_toolset r others = Ok tt.
Proof. intros H1 H2 H3 H4. unfold flush_toolset, toolset_violation. by rewrite H1, H2, H3, H4. Qed.

(** An entry's owner among the rows. *)
Lemma no_rows_of d t r :
  mirrored d t → existsb (λ o, bool_decide (tsr_id o = tsr_id r)) (tt_toolsets t) = false →
  tsr_id r ∉ map tsr_id (tt_toolsets t).
Proof.
  intros Hm He (o & Heq & Ho)%list_elem_of_fmap. apply not_true_iff_false in He. apply He.
  apply existsb_exists. exists o. split; [by apply list_elem_of_In|]. by rewrite bool_decide_eq_true_2.
Qed.

Lemma all_without {E} (owner : E → UUID) (id : UUID) (ids : list UUID) (l : list E) :
  (∀ e, e ∈ l → owner e ∈ ids) → id ∉ ids → filter (λ e, owner e ≠ id) l = l.
Proof. intros Ho Hid. apply filter_true. intros e He Heq. apply Hid. rewrite <-Heq. by apply Ho. Qed.

Lemma catalog_of_tables snapshots t t' :
  tt_tools t' = tt_tools t → tt_versions t' = tt_versions t → catalog_of snapshots t → catalog_of snapshots t'.
Proof.
  intros Ht Hv [H1 H2 H3 H4 H5 H6]. rewrite <-Ht in *.
  assert (∀ r, published_versions t' r = published_versions t r) as Hp by 
    (intros r; unfold published_versions; by rewrite Hv).
  split; try done.
  - rewrite <-H1. f_equal. apply flat_map_ext. intros r. unfold outer_join. by rewrite Hp.
  - eapply Forall_impl; [exact H6|]. intros r Hr. by rewrite Hp.
Qed.

Lemma catalog_stored snapshots t x r rows t' : stored t x r rows t' → catalog_of snapshots t → catalog_of snapshots t'.
Proof. intros Hsd. by apply catalog_of_tables; apply (sd_catalog _ _ _ _ _ Hsd). Qed.

Lemma added_mirrored d t t' x r :
  mirrored d t → storable_toolset x → stored t x r (tt_toolsets t ++ [r]) t' →
  tsr_id r ∉ map tsr_id (tt_toolsets t) → dget (ts_id x) (tst_toolsets d) = None →
  find_toolset_by_slug (ts_tenant_id x) (ts_slug x) (tst_toolsets d) = None →
  (ts_kind x = KindAllPublished → find_all_published (ts_tenant_id x) (tst_toolsets d) = None) →
  mirrored (put x d) t'.
Proof.
  intros Hm Hx Hsd Hfresh Hnone Hslug Hall. destruct (mi_owners _ _ Hm) as [Hown1 Hown2].
  split; cbn [put tst_toolsets tst_catalog].
  - rewrite dset_fresh by done. unfold dvalues. rewrite fmap_app, (sd_rows _ _ _ _ _ Hsd). apply Forall2_app.
    + apply (related_impl _ _ _ _ (mi_rows _ _ Hm)). intros y o _ Ho Hh. apply (sd_others _ _ _ _ _ Hsd); [done|].
      intros Heq. apply Hfresh. rewrite <-Heq. apply list_elem_of_fmap. eauto.
    + apply Forall2_cons. split; [apply (sd_held _ _ _ _ _ Hsd)|apply Forall2_nil_2].
  - eapply evolves_ok; [exact (mi_ok _ _ Hm)|]. apply evolves_add; [done|by apply storable_facts|done|done].
  - apply (sd_members _ _ _ _ _ Hsd).
  - apply (sd_grants _ _ _ _ _ Hsd).
  - rewrite (sd_rows _ _ _ _ _ Hsd), map_app. split.
    + intros m Hmm. apply elem_of_app. destruct (sd_member_owner _ _ _ _ _ Hsd m Hmm) as [?|?];
        [left; by apply Hown1|right; by apply list_elem_of_singleton].
    + intros g Hgg. apply elem_of_app. destruct (sd_grant_owner _ _ _ _ _ Hsd g Hgg) as [?|?];
        [left; by apply Hown2|right; by apply list_elem_of_singleton].
  - eapply catalog_stored; [exact Hsd|]. apply (mi_catalog _ _ Hm).
Qed.

Lemma add_agrees `{ToolsetLimits} d t tenant x :
  mirrored d t → storable_toolset x → fits x →
  match add_rules tenant x (tst_toolsets d) with
  | Ok _ => ∃ t', insert_toolset tenant x t = Ok t' ∧ mirrored (put x d) t'
  | Raise _ => ∃ y, insert_toolset tenant x t = Raise y ∧ is_value_error y = true
  end.
Proof.
  intros Hm Hx Hfits. unfold add_rules, insert_toolset.
  destruct (require_matching_tenant tenant (ts_tenant_id x)) as [[]|y] eqn:Et.
  2: { cbn. exists y. split; [done|]. unfold require_matching_tenant, raise_if in Et. case_match; by simplify_eq. }
  apply require_matching_tenant_Ok in Et as ->. cbn [rbind].
  destruct (row_total x Hx) as [r Hr]. rewrite Hr. cbn [rbind]. pose proof (row_columns x r Hx Hr) as Hc.
  pose proof (key_taken d t x r Hm Hc) as Hkey. pose proof (clash_taken d t x r Hm Hc) as Hclash.
  unfold flush_toolset, toolset_violation. rewrite (co_check _ _ Hc). cbn [negb].
  unfold raise_if. destruct (dmem (ts_id x) (tst_toolsets d)) eqn:Emem; cbn [rbind].
  { rewrite Hkey. cbn. eauto. }
  rewrite Hkey, Hclash.
  destruct (negb (is_none (find_toolset_by_slug _ _ _))) eqn:Eslug; cbn [rbind orb]; [cbn; eauto|].
  destruct (bool_decide (ts_kind x = KindAllPublished) && _) eqn:Eall; cbn [rbind]; [cbn; eauto|].
  rewrite (proj1 Hfits r Hr). cbn [negb rbind].
  destruct (stored_entries t x r (tt_toolsets t ++ [r]) Hx Hr Hfits (mi_members _ _ Hm) (mi_grants _ _ Hm))
    as (es & t' & Hes & Hst & Hsd).
  pose proof (no_rows_of d t r Hm Hkey) as Hfresh. destruct (mi_owners _ _ Hm) as [Hown1 Hown2].
  unfold without_entries in Hst.
  rewrite (all_without tmr_toolset_id _ _ _ Hown1 Hfresh), (all_without tgr_toolset_id _ _ _ Hown2 Hfresh) in Hst.
  rewrite Hes. cbn [rbind]. exists t'. split; [exact Hst|]. apply dmem_false in Emem.
  apply (added_mirrored d t t' x r); try done.
  - by destruct (find_toolset_by_slug (ts_tenant_id x) (ts_slug x) (tst_toolsets d)).
  - intros Hkind. rewrite bool_decide_eq_true_2 in Eall by done.
    by destruct (find_all_published (ts_tenant_id x) (tst_toolsets d)).
Qed.

(** [save] in memory: its checks, and whether there is something to write. *)
Definition save_rules (tenant_id : string) (x : Toolset) (ts : dict Toolset) : res bool :=
  require_matching_tenant tenant_id (ts_tenant_id x) ;;?
  match in_tenant ts_tenant_id tenant_id (dget (ts_id x) ts) with
  | None => Raise (ValueError "toolset does not exist in tenant")
  | Some current =>
      let? changed := requires_persistence_update current x in
      if changed then
        raise_if (match find_toolset_by_slug tenant_id (ts_slug x) ts with
                  | Some o => negb (bool_decide (ts_id o = ts_id x))
                  | None => false
                  end) (ValueError "toolset slug already exists in tenant") ;;?
        raise_if (bool_decide (ts_kind x = KindAllPublished)
                  && match find_all_published tenant_id ts with
                     | Some o => negb (bool_decide (ts_id o = ts_id x))
                     | None => false
                     end) (ValueError "all_published toolset already exists in tenant") ;;?
        Ok true
      else Ok false
  end.

Lemma save_toolset_eq tenant x c d e :
  save_toolset tenant x (St c (Some d) e) =
  match save_rules tenant x (tst_toolsets d) with
  | Ok changed => (Ok tt, St c (Some (if changed then put x d else d)) e)
  | Raise y => (Raise y, St c (Some d) e)
  end.
Proof.
  unfold save_toolset, save_rules, require_matching_tenant, get_toolset_by_slug, get_all_published.
  unfold bind, lift, read_table, write_table, ret, raise, raise_if, put.
  cbn [working store environment table set_table toolset_store_table].
  destruct (negb (bool_decide (tenant = ts_tenant_id x))); [done|]. cbn [rbind].
  destruct (in_tenant _ _ _) as [current|]; [|done].
  destruct (requires_persistence_update current x) as [[]|y]; [|done..]. cbn.
  destruct (match find_toolset_by_slug tenant (ts_slug x) (tst_toolsets d) with
            | Some o => negb (bool_decide (ts_id o = ts_id x)) | None => false end); [done|]. cbn.
  by destruct (bool_decide (ts_kind x = KindAllPublished) && _).
Qed.

(** The stored toolsets are unique, so a stable identity is never refused. *)
Lemma save_rules_changed ts x current :
  toolsets_ok ts → dget (ts_id x) ts = Some current → requires_persistence_update current x = Ok true →
  save_rules (ts_tenant_id x) x ts = Ok true.
Proof.
  intros Hok Hcur Hu. pose proof (proj1 (requires_update_Ok _ _ _ Hu)) as (Hid & Ht & Hs & Hk & _).
  unfold save_rules, require_matching_tenant. rewrite bool_decide_eq_true_2 by done. cbn [negb raise_if rbind].
  rewrite Hcur. cbn [in_tenant]. rewrite decide_True by done. rewrite Hu. cbn [rbind].
  pose proof (toolsets_keyed _ Hok) as Hkd.
  assert (match find_toolset_by_slug (ts_tenant_id x) (ts_slug x) ts with
          | Some o => negb (bool_decide (ts_id o = ts_id x)) | None => false end = false) as ->.
  { destruct (find_toolset_by_slug _ _ _) as [o|] eqn:Eo; [|done].
    apply (dfind_Some ts_id) in Eo as [Ho Hp]; [|done]. py_bools.
    rewrite bool_decide_eq_true_2; [done|]. rewrite Hid. symmetry.
    apply (toolsets_slugs _ Hok _ _ _ _ Hcur Ho). split; congruence. }
  assert (bool_decide (ts_kind x = KindAllPublished) && match find_all_published (ts_tenant_id x) ts with
          | Some o => negb (bool_decide (ts_id o = ts_id x)) | None => false end = false) as ->; [|done].
  destruct (bool_decide (ts_kind x = KindAllPublished)) eqn:Ekind; [|done]. apply bool_decide_eq_true in Ekind.
  destruct (find_all_published _ _) as [o|] eqn:Eo; [|done].
  apply (dfind_Some ts_id) in Eo as [Ho Hp]; [|done]. py_bools. cbn.
  rewrite bool_decide_eq_true_2; [done|]. rewrite Hid. symmetry.
  apply (toolsets_system _ Hok _ _ _ _ Hcur Ho). split_and!; congruence.
Qed.

Lemma update_is_row current r x :
  columns current r → storable_toolset x → same_toolset current x →
  ∃ r', update_toolset_model r x = Ok r' ∧ toolset_to_model x = Ok r' ∧ tsr_id r' = tsr_id r.
Proof.
  intros Hc Hx (Hid & Ht & Hs & Hk & Hb & Ha). destruct (row_total x Hx) as [r' Hr'].
  destruct (row_columns x r' Hx Hr') as [[Hv1 Hu1] [Hv2 Hu2] _ _ _ _ _]. exists r'.
  destruct (co_id _ _ Hc) as [Hv3 Hu3]. destruct (co_tenant _ _ Hc) as [Hv4 Hu4].
  assert (tsr_id r' = tsr_id r) as Hi by (apply uuid_str_inj; [done..|congruence]).
  assert (tsr_tenant_id r' = tsr_tenant_id r) as Hj by (apply uuid_str_inj; [done..|congruence]).
  split_and!; [|done|done]. unfold update_toolset_model.
  destruct (co_created _ _ Hc) as [Hcb Hca].
  rewrite !bool_decide_eq_true_2; try congruence.
  2: { rewrite (co_kind _ _ Hc). congruence. } 2: { rewrite (co_slug _ _ Hc). congruence. }
  cbn [negb orb raise_if rbind]. unfold toolset_to_model in Hr'.
  apply rbind_Ok_inv in Hr' as (a & _ & (b & _ & [= <-])%rbind_Ok_inv). cbn in Hi, Hj. subst a b.
  rewrite (co_slug _ _ Hc), (co_kind _ _ Hc), Hcb, Hca, Hs, Hk, Hb, Ha. done.
Qed.

(** Replacing the value of a key replaces the toolset of that identifier. *)
Lemma values_replaced (ts : dict Toolset) x :
  keyed ts_id ts → is_Some (dget (ts_id x) ts) →
  dvalues (dset (ts_id x) x ts) = map (λ y, if decide (ts_id y = ts_id x) then x else y) (dvalues ts).
Proof.
  intros [Hn Hk] Hs. unfold dvalues. induction ts as [|[k y] ts IH]; cbn in *; [by destruct Hs|].
  apply NoDup_cons in Hn as [Hk0 Hn]. assert (ts_id y = k) as <- by (apply Hk; by left).
  destruct (decide (ts_id x = ts_id y)) as [He|Hne]; cbn.
  - rewrite decide_True by done. f_equal. symmetry. rewrite <-(map_id (ts.*2)) at 2. apply map_ext_in.
    intros z Hz%list_elem_of_In. rewrite decide_False; [done|]. intros Hz'. apply Hk0.
    apply list_elem_of_fmap in Hz as ([k z0] & -> & Hz). apply list_elem_of_fmap. exists (k, z0).
    split; [|done]. cbn in *. rewrite <-(Hk k z0) by (by right). congruence.
  - rewrite decide_False by congruence. f_equal. apply IH; [done| |done]. intros k z Hz. apply Hk. by right.
Qed.

Lemma find_held d t tenant id :
  mirrored d t → canonical_uuid tenant = true → canonical_uuid id = true →
  ∃ found, toolset_row tenant id t = Ok found ∧
    match in_tenant ts_tenant_id tenant (dget id (tst_toolsets d)), found with
    | Some x, Some r => held_as t x r ∧ x ∈ dvalues (tst_toolsets d) ∧ r ∈ tt_toolsets t
    | None, None => True
    | _, _ => False
    end.
Proof.
  intros Hm (a & Ha & <- & Hpa)%canonical_parses (b & Hb & <- & Hpb)%canonical_parses.
  unfold toolset_row. rewrite Hpa, Hpb. eexists. split; [done|].
  rewrite in_tenant_dfind by apply (toolsets_keyed _ (mi_ok _ _ Hm)).
  pose proof (find_related (held_as t)
    (λ x, bool_decide (ts_tenant_id x = uuid_str a) && bool_decide (ts_id x = uuid_str b))
    (λ r, bool_decide (tsr_tenant_id r = a) && bool_decide (tsr_id r = b)) _ _ (mi_rows _ _ Hm)) as Hs.
  unfold dfind. destruct (find _ (dvalues _)) as [x|] eqn:Ex, (find _ (tt_toolsets t)) as [r|] eqn:Er.
  2-4: apply Hs; intros x' r' Hh%held_columns; by rewrite (column_id x' r'), (column_tenant x' r').
  split_and!; [|by apply find_Some_iff in Ex as [? _]|by apply find_Some_iff in Er as [? _]].
  apply Hs. intros x' r' Hh%held_columns. by rewrite (column_id x' r'), (column_tenant x' r').
Qed.

(** No other row violates a constraint of the row that replaces [x]'s. *)
Lemma others_free d t current x r :
  mirrored d t → current ∈ dvalues (tst_toolsets d) → same_toolset current x → columns x r →
  existsb (λ o, bool_decide (tsr_id o = tsr_id r)) (filter (λ o, tsr_id o ≠ tsr_id r) (tt_toolsets t)) = false ∧
  existsb (toolset_clash r) (filter (λ o, tsr_id o ≠ tsr_id r) (tt_toolsets t)) = false.
Proof.
  intros Hm Hin (Hid & Ht & Hs & Hk & _) Hc. pose proof (toolsets_keyed _ (mi_ok _ _ Hm)) as Hkd.
  apply (keyed_value ts_id) in Hin; [|done]. split; apply not_true_iff_false; intros (o & Ho%list_elem_of_In & Hcl)%existsb_exists;
    apply list_elem_of_filter in Ho as [Hne Ho]; [by apply bool_decide_eq_true in Hcl|].
  apply list_elem_of_lookup in Ho as [i Hi]. destruct (Forall2_lookup_r _ _ _ _ _ (mi_rows _ _ Hm) Hi) as (y & Hy & Hh).
  apply list_elem_of_lookup_2, (keyed_value ts_id) in Hy; [|done]. pose proof (held_columns _ _ _ Hh) as Hcy.
  destruct (co_id _ _ Hc) as [Hv Hu]. destruct (co_tenant _ _ Hc) as [Hvt Hut].
  apply Hne. apply (bool_decide_eq_true (tsr_id o = tsr_id r)). rewrite (column_id y o), Hu by done.
  apply bool_decide_eq_true. rewrite Hid. unfold toolset_clash in Hcl.
  rewrite (bool_decide_sym (tsr_tenant_id r)), (column_tenant y o), Hut in Hcl by done.
  rewrite (kind_column x r), (kind_column y o), (co_slug _ _ Hc), (co_slug _ _ Hcy) in Hcl by done.
  apply andb_true_iff in Hcl as [Hct [Hcs|[Hck Hcy']%andb_true_iff]%orb_true_iff]; py_bools.
  - apply (toolsets_slugs _ (mi_ok _ _ Hm) _ _ _ _ Hy Hin). split; congruence.
  - apply (toolsets_system _ (mi_ok _ _ Hm) _ _ _ _ Hy Hin). split_and!; congruence.
Qed.

Lemma replaced_mirrored d t t' current x r r' :
  mirrored d t → storable_toolset x → columns x r' → tsr_id r' = tsr_id r → r ∈ tt_toolsets t →
  dget (ts_id x) (tst_toolsets d) = Some current → same_toolset current x →
  stored t x r' (map (λ o, if decide (tsr_id o = tsr_id r') then r' else o) (tt_toolsets t)) t' →
  mirrored (put x d) t'.
Proof.
  intros Hm Hx Hc Hi Hinr Hget Hsame Hsd. destruct (mi_owners _ _ Hm) as [Hown1 Hown2].
  destruct (co_id _ _ Hc) as [Hv Hu]. pose proof (toolsets_keyed _ (mi_ok _ _ Hm)) as Hkd.
  assert (Hids : map tsr_id (tt_toolsets t') = map tsr_id (tt_toolsets t)).
  { rewrite (sd_rows _ _ _ _ _ Hsd), map_map. apply map_ext. intros o. by case_decide. }
  assert (Hmine : tsr_id r' ∈ map tsr_id (tt_toolsets t)).
  { rewrite Hi. apply list_elem_of_fmap. by exists r. }
  split; cbn [put tst_toolsets tst_catalog].
  - rewrite (sd_rows _ _ _ _ _ Hsd), values_replaced by eauto.
    apply Forall2_fmap_2. apply (related_impl _ _ _ _ (mi_rows _ _ Hm)). intros y o _ _ Hh.
    pose proof (column_id y o (tsr_id r') (held_columns _ _ _ Hh) Hv) as Hd. rewrite Hu in Hd.
    assert (tsr_id o = tsr_id r' ↔ ts_id y = ts_id x) as Hsame_id
      by (rewrite <-(bool_decide_eq_true (tsr_id o = _)), <-(bool_decide_eq_true (ts_id y = _)); by rewrite Hd).
    pose proof (sd_held _ _ _ _ _ Hsd). pose proof (sd_others _ _ _ _ _ Hsd y o Hh).
    destruct (decide (ts_id y = ts_id x)), (decide (tsr_id o = tsr_id r')); tauto.
  - replace (ts_id x) with (ts_id current) by (symmetry; apply Hsame).
    apply toolsets_ok_replace; [apply (mi_ok _ _ Hm)| |done|by apply storable_facts].
    by rewrite (keyed_get ts_id _ _ _ Hkd Hget).
  - apply (sd_members _ _ _ _ _ Hsd).
  - apply (sd_grants _ _ _ _ _ Hsd).
  - rewrite Hids. split.
    + intros m Hmm. destruct (sd_member_owner _ _ _ _ _ Hsd m Hmm) as [?| ->]; [by apply Hown1|done].
    + intros g Hgg. destruct (sd_grant_owner _ _ _ _ _ Hsd g Hgg) as [?| ->]; [by apply Hown2|done].
  - eapply catalog_stored; [exact Hsd|]. apply (mi_catalog _ _ Hm).
Qed.

Lemma save_agrees `{ToolsetLimits} d t tenant x :
  mirrored d t → storable_toolset x → fits x →
  match save_rules tenant x (tst_toolsets d) with
  | Ok changed => ∃ t', update_toolset_rows tenant x t = Ok t' ∧ mirrored (if changed then put x d else d) t'
  | Raise y => update_toolset_rows tenant x t = Raise y
  end.
Proof.
  intros Hm Hx Hfits. unfold update_toolset_rows.
  destruct (require_matching_tenant tenant (ts_tenant_id x)) as [[]|y] eqn:Et.
  2: { unfold save_rules. rewrite Et. done. }
  pose proof Et as Etenant. apply require_matching_tenant_Ok in Et as ->. cbn [rbind].
  destruct (find_held d t (ts_tenant_id x) (ts_id x) Hm (sx_tenant _ Hx) (sx_id _ Hx)) as (found & -> & Hf).
  cbn [rbind]. destruct (in_tenant _ _ _) as [current|] eqn:Ecur, found as [r|]; try done.
  2: { unfold save_rules. rewrite Etenant. cbn [rbind]. by rewrite Ecur. }
  destruct Hf as (Hh & Hin & Hinr). rewrite (aggregate_held _ _ _ Hh). cbn [rbind].
  pose proof (in_tenant_Some _ _ _ _ Ecur) as [Hget _].
  destruct (requires_persistence_update current x) as [[]|y] eqn:Eu; cbn [rbind].
  2: { unfold save_rules. rewrite Etenant. cbn [rbind]. rewrite Ecur, Eu. cbn. eauto. }
  2: { unfold save_rules. rewrite Etenant. cbn [rbind]. by rewrite Ecur, Eu. }
  rewrite (save_rules_changed _ _ _ (mi_ok _ _ Hm) Hget Eu). cbn [negb].
  destruct (requires_update_Ok _ _ _ Eu) as [Hsame Hrev].
  destruct (update_is_row current r x (held_columns _ _ _ Hh) Hx Hsame) as (r' & -> & Hr' & Hi).
  pose proof (row_columns x r' Hx Hr') as Hc. destruct (co_id _ _ Hc) as [Hv Hu]. cbn [rbind].
  destruct (canonical_parses _ (sx_id _ Hx)) as (a & Hva & Ha & ->). cbn [rbind].
  assert (a = tsr_id r') as -> by (apply uuid_str_inj; [done..|congruence]).
  set (rows := map (λ o, if decide (tsr_id o = tsr_id r') then r' else o) (tt_toolsets t)).
  destruct (stored_entries t x r' rows Hx Hr' Hfits (mi_members _ _ Hm) (mi_grants _ _ Hm))
    as (es & t' & -> & Hst & Hsd).
  cbn [rbind]. destruct (others_free d t current x r' Hm Hin Hsame Hc) as [Hf1 Hf2].
  rewrite flush_toolset_Ok; [|apply (co_check _ _ Hc)|done|done|by apply Hfits]. cbn [rbind].
  exists t'. split; [exact Hst|]. by apply (replaced_mirrored d t t' current x r r').
Qed.

(** *** The catalog reader *)

Lemma dget_dict_of {V} (key : V → string) vs k :
  NoDup (map key vs) → dget k (dict_of key vs) = find (λ v, bool_decide (key v = k)) vs.
Proof.
  intros Hn. unfold dict_of.
  assert (∀ d, dget k (foldl (λ d v, dset (key v) v d) d vs) =
    match find (λ v, bool_decide (key v = k)) vs with Some v => Some v | None => dget k d end) as ->;
    [|by destruct (find _ _)].
  induction vs as [|v vs IH]; intros d; [done|]. cbn [map] in Hn. apply NoDup_cons in Hn as [Hv Hn].
  cbn. rewrite IH by done. rewrite dget_dset. destruct (decide (k = key v)) as [->|Hne].
  - rewrite bool_decide_eq_true_2 by done. destruct (find _ vs) as [w|] eqn:Ew; [|done].
    apply find_Some_iff in Ew as [Hw He]. apply bool_decide_eq_true in He. exfalso. apply Hv.
    rewrite <-He. apply list_elem_of_fmap. eauto.
  - by rewrite bool_decide_eq_false_2 by congruence.
Qed.

(** A tool has at most one published version. *)
Definition joined (t : toolset_tables) (tool : ToolModel) : catalog_row := (tool, head (published_versions t tool)).

Lemma outer_join_once t tool :
  (length (published_versions t tool) <= 1)%nat → outer_join t tool = [joined t tool].
Proof.
  unfold outer_join, joined. destruct (published_versions t tool) as [|v [|w l]]; [done|done|]. simpl. lia.
Qed.

(** What a snapshot says of its row. *)
Record snapshot_of_row (t : toolset_tables) (tool : ToolModel) (s : ToolsetCatalogSnapshot) : Prop := {
  sr_snapshot : member_snapshot (joined t tool) = Ok s;
  sr_valid : uuid_valid (tr_id tool) ∧ uuid_valid (tr_tenant_id tool);
  sr_checked : tool_check tool = true;
  sr_published : (length (published_versions t tool) <= 1)%nat }.

Lemma member_snapshot_Ok row s :
  member_snapshot row = Ok s →
  cs_tool_id s = uuid_str (tr_id row.1) ∧ cs_tenant_id s = uuid_str (tr_tenant_id row.1) ∧
  cs_canonical_name s = Some (tr_canonical_name row.1) ∧
  (cs_availability s = MemberAvailable ↔ tr_status row.1 ≠ "disabled" ∧ is_Some row.2).
Proof.
  destruct row as [tool version]. unfold member_snapshot, new_snapshot. intros Hs. guards Hs.
  injection Hs as <-. cbn. split_and!; [done..|].
  destruct (decide (tr_status tool = "disabled")) as [E|E].
  - rewrite bool_decide_eq_true_2 by done. naive_solver.
  - rewrite bool_decide_eq_false_2 by done. destruct version; cbn; [|naive_solver]. split; [|done]. intros _. split; [done|eauto].
Qed.

Lemma catalog_rows snapshots t :
  catalog_of snapshots t → Forall2 (snapshot_of_row t) (tt_tools t) snapshots.
Proof.
  intros [Hs Hv _ _ Hc Hp]. revert snapshots Hs Hv Hc Hp.
  induction (tt_tools t) as [|tool tools IH]; intros snapshots Hs Hv Hc Hp.
  - injection Hs as <-. constructor.
  - apply Forall_cons in Hv as [Hv Hvs]. apply Forall_cons in Hc as [Hc Hcs]. apply Forall_cons in Hp as [Hp Hps].
    cbn [flat_map] in Hs. rewrite outer_join_once in Hs by done. cbn [app] in Hs.
    apply traverse_Ok in Hs. inversion Hs as [|? s ? snaps Hs1 Hs2]; subst.
    constructor; [by split|]. apply IH; try done. by apply traverse_Ok.
Qed.

Lemma row_tenant t tool s a :
  snapshot_of_row t tool s → uuid_valid a → tr_tenant_id tool = a ↔ cs_tenant_id s = uuid_str a.
Proof.
  intros [Hs [_ Hv] _ _] Ha. apply member_snapshot_Ok in Hs as (_ & -> & _). cbn.
  split; [by intros ->|]. by apply uuid_str_inj.
Qed.
Lemma row_tool t tool s a :
  snapshot_of_row t tool s → uuid_valid a → tr_id tool = a ↔ cs_tool_id s = uuid_str a.
Proof.
  intros [Hs [Hv _] _ _] Ha. apply member_snapshot_Ok in Hs as (-> & _). cbn.
  split; [by intros ->|]. by apply uuid_str_inj.
Qed.

Lemma keys_of_rows {K L} (t : toolset_tables) (key : ToolModel → K) (key' : ToolsetCatalogSnapshot → L) (f : K → L)
    tools snapshots :
  (∀ tool s, snapshot_of_row t tool s → key' s = f (key tool)) →
  (∀ x y, x ∈ tools → y ∈ tools → f (key x) = f (key y) → key x = key y) →
  Forall2 (snapshot_of_row t) tools snapshots → NoDup (map key tools) → NoDup (map key' snapshots).
Proof.
  intros Hk Hinj Hf Hn.
  assert (map key' snapshots = map (f ∘ key) tools) as ->.
  { clear Hn Hinj. induction Hf as [|tool s tools snaps Hr _ IH]; [done|]. cbn [map]. rewrite (Hk _ _ Hr). f_equal. exact IH. }
  unfold compose. rewrite <-(map_map key f). apply (NoDup_fmap_2_strong f); [|done].
  intros k k' (x & -> & Hx)%list_elem_of_fmap (y & -> & Hy)%list_elem_of_fmap. by apply Hinj.
Qed.

Lemma requested_ids field ids :
  Forall (λ id, canonical_uuid id = true) ids →
  ∃ requested, traverse (λ id, as_uuid id field) ids = Ok requested ∧ Forall uuid_valid requested ∧
    ids = map uuid_str requested.
Proof.
  induction 1 as [|id ids (a & Ha & <- & Hpa)%canonical_parses _ (l & Hl & Hv & ->)].
  { exists []. split_and!; [done|constructor|done]. }
  exists (a :: l). cbn. rewrite Hpa, Hl. cbn. split_and!; [done|by constructor|done].
Qed.

(** Looking a requested tool up among the rows read is looking it up in the catalog. *)
Lemma snapshot_by_id snapshots tenant (ids : list string) id :
  NoDup (map cs_tool_id snapshots) → id ∈ ids →
  dget id (dict_of cs_tool_id (filter (λ s, cs_tenant_id s = tenant ∧ cs_tool_id s ∈ ids) snapshots)) =
  snapshot_of snapshots tenant id.
Proof.
  intros Hn Hid.
  rewrite dget_dict_of by (eapply sublist_NoDup; [exact Hn|]; apply (fmap_sublist cs_tool_id), sublist_filter).
  unfold snapshot_of. clear Hn. induction snapshots as [|s snaps IH]; [done|]. rewrite filter_cons. cbn.
  destruct (decide (cs_tool_id s = id)) as [He|Hne].
  - rewrite (bool_decide_eq_true_2 (cs_tool_id s = id)), andb_true_r by done.
    destruct (decide (cs_tenant_id s = tenant)) as [Ht|Ht].
    + rewrite decide_True by (by rewrite He). cbn.
      by rewrite (bool_decide_eq_true_2 (cs_tool_id s = id)), bool_decide_eq_true_2 by done.
    + rewrite decide_False by tauto. by rewrite (bool_decide_eq_false_2 (cs_tenant_id s = _)) by done.
  - rewrite (bool_decide_eq_false_2 (cs_tool_id s = id)), andb_false_r by done.
    destruct (decide _); [|done]. cbn. by rewrite (bool_decide_eq_false_2 (cs_tool_id s = id)) by done.
Qed.

Lemma member_snapshots_agree d t tenant ids :
  mirrored d t → canonical_uuid tenant = true → Forall (λ id, canonical_uuid id = true) ids →
  sql_member_snapshots tenant ids t = Ok (member_snapshots_of (tst_catalog d) tenant ids).
Proof.
  intros Hm (a & Ha & <- & Hpa)%canonical_parses (l & Hl & Hv & Hids)%(requested_ids "tool id").
  unfold sql_member_snapshots. destruct ids as [|id0 ids0]; [done|]. revert Hl Hids. generalize (id0 :: ids0) as ids.
  intros ids Hl Hids. rewrite Hpa, Hl. cbn [rbind]. pose proof (mi_catalog _ _ Hm) as Hcat.
  pose proof (catalog_rows _ _ Hcat) as Hrows.
  assert (Hin : ∀ tool s, snapshot_of_row t tool s →
    (tr_tenant_id tool = a ∧ tr_id tool ∈ l) ↔ (cs_tenant_id s = uuid_str a ∧ cs_tool_id s ∈ ids)).
  { intros tool s Hr. rewrite (row_tenant t tool s a) by done. apply and_iff_compat_l. subst ids. split.
    - intros Hi. apply list_elem_of_fmap. exists (tr_id tool). split; [|done].
      destruct Hr as [Hs _ _ _]. by apply member_snapshot_Ok in Hs as (-> & _).
    - intros (u & Hu & Hi)%list_elem_of_fmap. rewrite Forall_forall in Hv.
      by rewrite (proj2 (row_tool t tool s u Hr (Hv u Hi))). }
  pose proof (filter_related (snapshot_of_row t) _ _ _ _ Hrows Hin) as Hf.
  assert (traverse member_snapshot (flat_map (outer_join t)
            (filter (λ tool, tr_tenant_id tool = a ∧ tr_id tool ∈ l) (tt_tools t))) =
          Ok (filter (λ s, cs_tenant_id s = uuid_str a ∧ cs_tool_id s ∈ ids) (tst_catalog d))) as ->.
  { apply traverse_Ok. clear -Hf. induction Hf as [|tool s tools snaps [Hs _ _ Hp] _ IH]; [constructor|].
    cbn. rewrite outer_join_once by done. by constructor. }
  cbn [rbind]. f_equal. unfold member_snapshots_of.
  assert (Hn : NoDup (map cs_tool_id (tst_catalog d))).
  { apply (keys_of_rows t tr_id cs_tool_id uuid_str (tt_tools t)); [..|done|apply (cg_tools _ _ Hcat)].
    - intros tool s [Hs _ _ _]. by apply member_snapshot_Ok in Hs as (-> & _).
    - pose proof (cg_valid _ _ Hcat) as Hval. rewrite Forall_forall in Hval. intros x y Hx Hy.
      apply uuid_str_inj; by apply Hval. }
  apply omap_ext_in. intros id Hid. by apply snapshot_by_id.
Qed.

(** By name alone: the names of a tenant's tools are unique. *)
Definition name_leb (a b : ToolsetCatalogSnapshot) : bool :=
  str_leb (default "" (cs_canonical_name a)) (default "" (cs_canonical_name b)).

Lemma snapshot_name_leb a b : snapshot_leb a b = true → name_leb a b = true.
Proof. unfold snapshot_leb, name_leb. case_decide as E; [rewrite E; intros _; apply str_leb_refl|done]. Qed.

Lemma snapshot_leb_total a b : snapshot_leb a b = true ∨ snapshot_leb b a = true.
Proof.
  unfold snapshot_leb. destruct (decide (default "" (cs_canonical_name a) = default "" (cs_canonical_name b))) as [E|E].
  - rewrite decide_True by done. apply str_leb_total.
  - rewrite decide_False by congruence. apply str_leb_total.
Qed.
Lemma snapshot_leb_trans a b c : snapshot_leb a b = true → snapshot_leb b c = true → snapshot_leb a c = true.
Proof.
  unfold snapshot_leb.
  destruct (decide (default "" (cs_canonical_name a) = default "" (cs_canonical_name b))) as [E1|E1],
    (decide (default "" (cs_canonical_name b) = default "" (cs_canonical_name c))) as [E2|E2]; intros H1 H2.
  - rewrite decide_True by congruence. by eapply str_leb_trans.
  - rewrite decide_False by congruence. by rewrite E1.
  - rewrite decide_False by congruence. by rewrite <-E2.
  - destruct (decide (default "" (cs_canonical_name a) = default "" (cs_canonical_name c))) as [E|E].
    + exfalso. apply E1. apply str_leb_antisym; [done|]. by rewrite E.
    + by eapply str_leb_trans.
Qed.

Definition published_as (row : ToolModel * ToolVersionModel) (s : ToolsetCatalogSnapshot) : Prop :=
  published_snapshot row = Ok s ∧ cs_canonical_name s = Some (tr_canonical_name row.1).

Lemma published_rows_related a t tools snapshots :
  uuid_valid a → Forall2 (snapshot_of_row t) tools snapshots →
  Forall2 published_as
    (flat_map (λ tool, map (pair tool) (published_versions t tool))
       (filter (λ tool, tr_tenant_id tool = a ∧ tr_status tool = "active") tools))
    (filter (λ s, cs_tenant_id s = uuid_str a ∧ cs_availability s = MemberAvailable) snapshots).
Proof.
  intros Ha Hf. induction Hf as [|tool s tools snaps Hr _ IH]; [constructor|].
  destruct Hr as [Hs Hv Hck Hp] eqn:Er. pose proof (row_tenant t tool s a Hr Ha) as Htn. clear Er.
  destruct (member_snapshot_Ok _ _ Hs) as (_ & _ & Hname & Hav). cbn in Hname, Hav.
  unfold tool_check in Hck. apply enum_check_iff in Hck as [status Hstatus].
  apply enum_of_Ok in Hstatus. rewrite !filter_cons.
  destruct (decide (tr_tenant_id tool = a)) as [Ht|Ht].
  2: { rewrite (decide_False (P := tr_tenant_id tool = a ∧ _)) by (by intros []).
     rewrite (decide_False (P := cs_tenant_id s = _ ∧ _)) by (by intros [?%Htn _]). exact IH. }
  apply Htn in Ht as Ht'. destruct status; cbn in Hstatus.
  - rewrite (decide_True (P := tr_tenant_id tool = a ∧ _)) by done. cbn [flat_map].
    unfold joined in Hs, Hav. destruct (published_versions t tool) as [|v [|w l]]; cbn in Hp; [| |lia].
    + rewrite decide_False by (intros [_ [_ [? [=]]]%Hav]). exact IH.
    + rewrite decide_True by (split; [done|]; apply Hav; rewrite Hstatus; split; [done|by eexists]).
      cbn. constructor; [|exact IH]. split; [|done].
      revert Hs. cbn. by rewrite Hstatus.
  - rewrite (decide_False (P := tr_tenant_id tool = a ∧ _)) by (rewrite Hstatus; by intros []).
    rewrite (decide_False (P := cs_tenant_id s = _ ∧ _)) by (intros [_ [Hd _]%Hav]; by rewrite Hstatus in Hd).
    exact IH.
Qed.

Lemma published_snapshots_agree d t tenant :
  mirrored d t → canonical_uuid tenant = true →
  sql_published_snapshots tenant t = Ok (published_snapshots_of (tst_catalog d) tenant).
Proof.
  intros Hm (a & Ha & <- & Hpa)%canonical_parses. unfold sql_published_snapshots, published_snapshots_of.
  rewrite Hpa. cbn [rbind]. pose proof (mi_catalog _ _ Hm) as Hcat. pose proof (catalog_rows _ _ Hcat) as Hrows.
  pose proof (published_rows_related a t _ _ Ha Hrows) as Hf.
  set (available := filter (λ s, cs_tenant_id s = uuid_str a ∧ _) (tst_catalog d)) in *.
  assert (Hsort : sorted_by snapshot_leb available = sorted_by name_leb available).
  { symmetry. apply (ordered_unique name_leb).
    - intros x y. rewrite !elem_of_sorted_by. intros [[Hxt Hxa] Hx]%list_elem_of_filter [[Hyt Hya] Hy]%list_elem_of_filter H1 H2.
      apply (key_inj (λ s, (cs_tenant_id s, default "" (cs_canonical_name s))) (tst_catalog d)); try done.
      + apply (keys_of_rows t (λ r, (tr_tenant_id r, tr_canonical_name r)) _
                 (λ k, (uuid_str k.1, k.2)) (tt_tools t)); [..|done|apply (cg_names _ _ Hcat)].
        * intros tool s [Hs _ _ _]. by apply member_snapshot_Ok in Hs as (_ & -> & -> & _).
        * pose proof (cg_valid _ _ Hcat) as Hval. rewrite Forall_forall in Hval.
          intros x' y' Hx' Hy' [He1 He2]%pair_equal_spec. cbn [fst snd] in He1, He2. rewrite He2. f_equal. apply uuid_str_inj; [by apply Hval..|exact He1].
      + cbn. f_equal; [congruence|]. by apply str_leb_antisym.
    - apply sorted_by_ordered; [intros; apply str_leb_total|intros ???; apply str_leb_trans].
    - eapply (ordered_impl snapshot_leb); [apply snapshot_name_leb|].
      apply sorted_by_ordered; [apply snapshot_leb_total|apply snapshot_leb_trans].
    - by rewrite !sorted_by_perm. }
  rewrite Hsort. apply traverse_Ok. apply (Forall2_impl published_as); [|by intros row s [Hs _]].
  refine (sorted_related _ _ _ _ _ _ Hf).
  intros row s row' s' [_ Hn] [_ Hn']. unfold name_leb. by rewrite binary, Hn, Hn'.
Qed.

(** ** Every call agrees *)

(** What a caller that maps [ValueError] cannot tell apart. *)
Definition same_failure (x y : exn) : Prop := x = y ∨ (is_value_error x = true ∧ is_value_error y = true).

(** [m] on a store and [s] on the tables that mirror it return the same value and
    leave mirrored stores, or fail alike and leave both as they were. *)
Definition agrees {A} (m : M toolset_store A) (s : M toolset_tables A) (d : toolset_store) (t : toolset_tables) : Prop :=
  ∀ c c' e e',
    (∃ v d' t', m (St c (Some d) e) = (Ok v, St c (Some d') e) ∧
       s (St c' (Some t) e') = (Ok v, St c' (Some t') e') ∧ mirrored d' t')
    ∨ (∃ x y, m (St c (Some d) e) = (Raise x, St c (Some d) e) ∧
         s (St c' (Some t) e') = (Raise y, St c' (Some t) e') ∧ same_failure x y).

(** The calls the use cases make: identifiers are canonical, and written
    toolsets are the domain's and within the limits of the columns. *)
Definition call_allowed `{ToolsetLimits} (c : toolset_call) : Prop :=
  match c with
  | AddToolset _ x | SaveToolset _ x => storable_toolset x ∧ fits x
  | GetToolset tenant_id id => canonical_uuid tenant_id = true ∧ canonical_uuid id = true
  | GetToolsetBySlug tenant_id _ | GetAllPublished tenant_id | ListToolsets tenant_id
  | ListGrantedActive tenant_id _ | PublishedSnapshots tenant_id => canonical_uuid tenant_id = true
  | MemberSnapshots tenant_id tool_ids =>
      canonical_uuid tenant_id = true ∧ Forall (λ id, canonical_uuid id = true) tool_ids
  end.

Lemma reads_agree {A} (make : A → toolset_answer) (m : M toolset_store A) what (f : toolset_tables → res A) d t v :
  mirrored d t → (∀ c e, m (St c (Some d) e) = (Ok v, St c (Some d) e)) → f t = Ok v →
  agrees (reply make m) (reply make (read_sql what f)) d t.
Proof.
  intros Hm Hmem Hf c c' e e'. left. exists (make v), d, t. unfold reply, bind, ret, read_sql.
  rewrite Hmem. cbn [working]. rewrite Hf. done.
Qed.

Lemma call_agrees `{ToolsetLimits} c d t :
  mirrored d t → call_allowed c → agrees (memory_toolset_call c) (sql_toolset_call c) d t.
Proof.
  intros Hm Hc. destruct c as [tenant x|tenant x|tenant id|tenant slug|tenant|tenant|tenant p|tenant ids|tenant];
    cbn [call_allowed memory_toolset_call sql_toolset_call] in *.
  - destruct Hc as [Hx Hf]. intros c c' e e'. pose proof (add_agrees d t tenant x Hm Hx Hf) as Ha.
    unfold reply, bind, ret, write_sql. rewrite add_toolset_eq. cbn [working].
    destruct (add_rules tenant x (tst_toolsets d)) as [[]|y] eqn:Er.
    + destruct Ha as (t' & -> & Hm'). left. by exists ToolsetDone, (put x d), t'.
    + destruct Ha as (y' & -> & Hy'). right. exists y, y'. split_and!; [done..|]. right.
      by apply add_rules_raise in Er.
  - destruct Hc as [Hx Hf]. intros c c' e e'. pose proof (save_agrees d t tenant x Hm Hx Hf) as Ha.
    unfold reply, bind, ret, write_sql. rewrite save_toolset_eq. cbn [working].
    destruct (save_rules tenant x (tst_toolsets d)) as [b|y].
    + destruct Ha as (t' & -> & Hm'). left. by exists ToolsetDone, (if b then put x d else d), t'.
    + rewrite Ha. right. exists y, y. split_and!; [done..|]. by left.
  - destruct Hc as [Ht Hi]. by eapply reads_agree; [done| |by apply get_agrees].
  - by eapply reads_agree; [done| |by apply get_by_slug_agrees].
  - by eapply reads_agree; [done| |by apply all_published_agrees].
  - by eapply reads_agree; [done| |by apply list_agrees].
  - by eapply reads_agree; [done| |by apply granted_agrees].
  - destruct Hc as [Ht Hi]. by eapply reads_agree; [done| |by apply member_snapshots_agree].
  - by eapply reads_agree; [done| |by apply published_snapshots_agree].
Qed.

(** Each call of the run in memory is allowed. *)
Fixpoint allowed_transaction `{ToolsetLimits} {A} (p : transaction toolset_call toolset_answer A) (d : toolset_store) (e : env) : Prop :=
  match p with
  | Answer _ | Refuse _ => True
  | Ask reading k => let '(b, e') := reading e in allowed_transaction (k b) d e'
  | Then c k => call_allowed c ∧ ∀ committed a d' e',
      memory_toolset_call c (St committed (Some d) e) = (Ok a, St committed (Some d') e') →
      allowed_transaction (k a) d' e'
  end.

Lemma run_agrees `{ToolsetLimits} {A} (p : transaction toolset_call toolset_answer A) d t e c c' :
  mirrored d t → allowed_transaction p d e →
  (∃ v d' t' e', run memory_toolset_call p (St c (Some d) e) = (Ok v, St c (Some d') e') ∧
     run sql_toolset_call p (St c' (Some t) e) = (Ok v, St c' (Some t') e') ∧ mirrored d' t')
  ∨ (∃ x y d' t' e', run memory_toolset_call p (St c (Some d) e) = (Raise x, St c (Some d') e') ∧
       run sql_toolset_call p (St c' (Some t) e) = (Raise y, St c' (Some t') e') ∧ same_failure x y).
Proof.
  revert d t e. induction p as [a|x|B reading k IH|call k IH]; intros d t e Hm Ha; cbn [run allowed_transaction] in *.
  - left. by exists a, d, t, e.
  - right. exists x, x, d, t, e. split_and!; [done..|]. by left.
  - cbn [environment store working]. destruct (reading e) as [b e']. by apply IH.
  - destruct Ha as [Hc Hnext]. unfold bind.
    destruct (call_agrees call d t Hm Hc c c' e e)
      as [(v & d' & t' & Em & Es & Hm')|(x & y & Em & Es & Hf)]; rewrite Em, Es.
    + eapply IH; [done|]. by eapply Hnext.
    + right. by exists x, y, d, t, e.
Qed.

(** C14: A use case's unit of work over the toolset repository and the catalog reader
    does the same in memory and over the five SQL tables that hold the toolsets
    (one row each, with the rows of its members and grants) and the catalog: any
    program of adds, saves, reads by identifier, slug, kind, tenant and grant, and
    catalog snapshots, each call chosen from the answers before it, gives the same
    result and commits tables that again mirror the dictionary, or fails alike
    (the same error, or two [ValueError]s) and commits nothing in either.
    Identifiers are canonical, written toolsets the domain's and within the widths
    of the columns, and the database's collation that of the code points. *)
Theorem toolset_units_agree `{ToolsetLimits} {A} (p : transaction toolset_call toolset_answer A) d t e :
  mirrored d t → allowed_transaction p d e →
  (∃ v d' t' e', unit_of_work memory_toolset_call p (St d None e) = (Ok v, St d' None e') ∧
     unit_of_work sql_toolset_call p (St t None e) = (Ok v, St t' None e') ∧ mirrored d' t')
  ∨ (∃ x y e', unit_of_work memory_toolset_call p (St d None e) = (Raise x, St d None e') ∧
       unit_of_work sql_toolset_call p (St t None e) = (Raise y, St t None e') ∧ same_failure x y).
Proof.
  intros Hm Ha. unfold unit_of_work, with_uow, bind, commit, ret. cbn [store environment].
  destruct (run_agrees p d t e d t Hm Ha)
    as [(v & d' & t' & e' & -> & -> & Hm')|(x & y & d' & t' & e' & -> & -> & Hf)]; cbn.
  - left. by exists v, d', t', e'.
  - right. by exists x, y, e'.
Qed.
End Held.

(** ** Examples *)

Module ToolsetSqlExamples.
Import AgreementExamples.

#[local] Instance wide : ToolsetLimits := {| within _ := true; entries_within _ _ := true |}.

Definition tenant : UUID := mkUUID 2.
Definition tool_row (id : N) (name status : string) : ToolModel :=
  mkToolRow (mkUUID id) tenant "shop" name "team" status (at_second 1) (at_second 1).
Definition version_row (id tool : N) : ToolVersionModel :=
  mkVersionRow (mkUUID id) tenant (mkUUID tool) 1 "Orders" "find orders" [("type", JStr "object")] None "digest" []
    "" "" "" "read" "tenant" "published" "ann" (at_second 1) None None None.

(** A catalog of a published tool and a disabled one; no toolset yet. *)
Definition shop_tables : toolset_tables :=
  mkToolsetTables [] [] [] [tool_row 20 "shop.orders" "active"; tool_row 21 "shop.legacy" "disabled"] [version_row 30 20].
Definition shop_store : toolset_store :=
  mkToolsetStore []
    (match traverse member_snapshot (flat_map (outer_join shop_tables) (tt_tools shop_tables)) with
     | Ok l => l | Raise _ => [] end).

(** Two members, and grants in the order of code points. *)
Definition shop : Toolset :=
  mkToolset (text_of 10) (uuid_str tenant) "shop-tools" "Shop" None KindExplicit ModeDirect TsActive 1
    (match calculate_membership_digest KindExplicit [text_of 20; text_of 21] with Ok s => s | Raise _ => "" end)
    "ann" (at_second 2) (at_second 2)
    [mkMember (uuid_str tenant) (text_of 10) (text_of 20) "ann" (at_second 2);
     mkMember (uuid_str tenant) (text_of 10) (text_of 21) "ann" (at_second 2)]
    [mkGrant (uuid_str tenant) (text_of 10) "Zoe" "ann" (at_second 2);
     mkGrant (uuid_str tenant) (text_of 10) "amy" "ann" (at_second 2)].

(** Store it, then read the toolsets of a principal and what they offer. *)
Definition share : transaction toolset_call toolset_answer (list Toolset * list ToolsetCatalogSnapshot) :=
  Then (AddToolset (uuid_str tenant) shop) (λ _,
  Then (ListGrantedActive (uuid_str tenant) "amy") (λ granted,
  Then (MemberSnapshots (uuid_str tenant) (ts_tool_ids shop)) (λ snapshots,
    match granted, snapshots with
    | ToolsetsFound l, SnapshotsFound s => Answer (l, s)
    | _, _ => Refuse (Nexus ToolsetNotFoundError)
    end))).

Lemma catalog_mirrored : mirrored shop_store shop_tables.
Proof.
  split.
  - apply Forall2_nil_2.
  - apply toolsets_ok_nil.
  - apply NoDup_nil_2.
  - apply NoDup_nil_2.
  - split; intros ? []%not_elem_of_nil.
  - split.
    + vm_compute. reflexivity.
    + apply Forall_cons_2; [by split; vm_compute|]. apply Forall_cons_2; [by split; vm_compute|]. apply Forall_nil_2.
    + apply (bool_decide_unpack _). vm_compute. exact I.
    + apply (bool_decide_unpack _). vm_compute. exact I.
    + apply (bool_decide_unpack _). vm_compute. exact I.
    + apply (bool_decide_unpack _). vm_compute. exact I.
Qed.

Lemma ordered_pair {A} (leb : A → A → bool) a b : leb a b = true → ordered leb [a; b].
Proof. intros Hab. by repeat constructor. Qed.

Lemma shop_storable : storable_toolset shop.
Proof.
  split.
  - vm_compute. reflexivity.
  - apply Forall_cons_2; [by split; vm_compute|]. apply Forall_cons_2; [by split; vm_compute|]. apply Forall_nil_2.
  - apply Forall_cons_2; [by vm_compute|]. apply Forall_cons_2; [by vm_compute|]. apply Forall_nil_2.
  - vm_compute. reflexivity.
  - vm_compute. reflexivity.
  - change (ordered str_leb [text_of 20; text_of 21]). apply ordered_pair. vm_compute. reflexivity.
  - change (ordered str_leb ["Zoe"; "amy"]). apply ordered_pair. vm_compute. reflexivity.
Qed.

Lemma share_allowed : allowed_transaction share shop_store clock.
Proof.
  split; [split; [exact shop_storable|by split]|]. intros _ a d' e' _.
  split; [vm_compute; reflexivity|]. intros _ granted d2 e2 _.
  split; [split; [vm_compute; reflexivity|apply (bool_decide_unpack _); vm_compute; exact I]|].
  intros _ snapshots d3 e3 _. by destruct granted, snapshots.
Qed.

Lemma toolset_units_agree_witness :
  ∃ t', unit_of_work sql_toolset_call share (St shop_tables None clock) =
    (Ok ([shop], tst_catalog shop_store), St t' None clock) ∧
    mirrored (put shop shop_store) t'.
Proof.
  destruct (@toolset_units_agree c_text (λ _ _, eq_refl) _ _ share shop_store shop_tables clock
              catalog_mirrored share_allowed)
    as [(v & d' & t' & e' & Hm & Hs & Hrel)|(x & y & e' & Hm & _)];
    vm_compute in Hm; [|discriminate Hm].
  injection Hm as <- <- <-. exists t'. split; [exact Hs|exact Hrel].
Defined.

(** A collation that compares letters before their case. *)
Definition lower (s : string) : string := @fold_case c_text s.
Definition letters_leb (a b : string) : bool := str_leb (lower a) (lower b).
#[local, refine] Instance by_letters : DatabaseText := {|
  collate := then_by letters_leb str_leb; fold_char := lower_char |}.
Proof.
  - apply then_by_total; [intros; apply str_leb_total|apply str_leb_total].
  - apply then_by_trans; [intros; apply str_leb_total|intros ???; apply str_leb_trans|apply str_leb_trans].
  - apply then_by_antisym; [intros; apply str_leb_total|apply str_leb_antisym].
  - apply lower_char_pattern.
Defined.

(** Over a database with such a collation the grants come back in its order, not
    in the one [replace_grants] compares with: granting the same principals again
    is not idempotent there, and each time moves to the next revision. *)
Lemma grants_in_another_order :
  ∃ t' x, insert_toolset (uuid_str tenant) shop shop_tables = Ok t' ∧
    toolset_by_id (uuid_str tenant) (text_of 10) t' = Ok (Some x) ∧
    ts_principal_ids x = ["amy"; "Zoe"] ∧
    replace_grants shop 1 ["Zoe"; "amy"] "ann" (at_second 3) = Ok shop ∧
    ∃ x', replace_grants x 1 ["Zoe"; "amy"] "ann" (at_second 3) = Ok x' ∧ ts_revision x' = 2%Z.
Proof.
  eexists _, _. split; [vm_compute; reflexivity|]. split; [vm_compute; reflexivity|].
  split; [vm_compute; reflexivity|]. split; [vm_compute; reflexivity|].
  eexists. split; vm_compute; reflexivity.
Qed.
End ToolsetSqlExamples.
