(* ===== verification/SqlReaders.v ===== *)
(** * SqlReaders: what a tool call and a search read from the database

    Models the adapters that open a short session of their own:
    [modules/execution/adapters/sqlalchemy_resolver.py] (the tool a call
    resolves to), [modules/catalog/adapters/sqlalchemy_reader.py],
    [modules/execution/adapters/sqlalchemy_reader.py] and
    [modules/catalog/adapters/sqlalchemy_search.py], over the tables of Rows.v
    and the repositories of SqlRepositories.v.  The runtime is [Some] database
    when it is started.  PostgreSQL's full-text search is the parameter
    [FullText]. *)

From Stdlib Require Import ZArith QArith Lia Sorting.Sorted.
From stdpp Require Import base strings option list.
From S2P Require Import Prelude Text Dict Errors Json Store AuditTrail Catalog Connectors Registry Publish.
From S2P Require Import Execution Uuid Rows ControlPlane RowMapping SqlRepositories ToolsetSql RepositoryAgreement.
Open Scope py_scope.

#[local] Arguments as_uuid : simpl never.
#[local] Arguments uuid_str : simpl never.

(** ** Sessions *)

(** [DatabaseRuntime.require_session_factory] *)
Definition session_of (runtime : option Database) : res Database :=
  match runtime with
  | None => Raise (RuntimeError "database runtime is not started")
  | Some d => Ok d
  end.

(** [async with session_factory() as session: ...]: a repository's method on a
    session of its own, which is closed without a commit. *)
Definition in_session {A} (runtime : option Database) (m : M Database A) : res A :=
  let? d := session_of runtime in (m (St d (Some d) (Env 0 0 []))).1.

(** [SqlAlchemyPublishedToolReader] *)
Definition reader_list_published `{DatabaseText} (runtime : option Database) (tenant_id : string) :
    res (list PublishedTool) := in_session runtime (sql_list_published tenant_id).
Definition reader_published_by_name (runtime : option Database) (tenant_id canonical_name : string) :
    res (option PublishedTool) := in_session runtime (sql_get_published_by_name tenant_id canonical_name).

(** [SqlAlchemyToolExecutionReader] and [SqlAlchemyAuditEventReader] *)
Definition reader_list_executions (runtime : option Database) (tenant_id : string) : res (list ToolExecution) :=
  in_session runtime (sql_list_executions tenant_id).
Definition reader_list_attempts (runtime : option Database) (tenant_id execution_id : string) :
    res (list ExecutionAttempt) := in_session runtime (sql_list_attempts tenant_id execution_id).
Definition reader_list_audits (runtime : option Database) (tenant_id : string) : res (list AuditEvent) :=
  in_session runtime (sql_list_audits tenant_id).

(** ** [SqlAlchemyExecutableToolResolver] *)

Definition executable_row : Type := ToolModel * ToolVersionModel * ToolBindingModel * UpstreamServiceModel.

(** The statement: the join of the four tables and its conditions. *)
Definition executable_rows (tenant : UUID) (canonical_name : string) (d : Database) : list executable_row :=
  t ← db_tools d; v ← filter (λ v, vr_tool_id v = tr_id t) (db_versions d);
  b ← filter (λ b, br_tool_version_id b = vr_id v) (db_bindings d);
  u ← filter (λ u, ur_id u = br_upstream_service_id b) (db_upstreams d);
  if bool_decide (tr_tenant_id t = tenant ∧ vr_tenant_id v = tenant ∧ br_tenant_id b = tenant
       ∧ ur_tenant_id u = tenant ∧ tr_canonical_name t = canonical_name
       ∧ tr_status t = enum_value ToolActive ∧ vr_status v = enum_value VPublished
       ∧ br_status b = enum_value BPublished ∧ ur_status u = enum_value UpActive)
  then [(t, v, b, u)] else [].

Definition executable_tool (tenant_id : string) (row : executable_row) : res ResolvedExecutableTool :=
  let '(t, v, b, u) := row in
  let? side_effect := enum_of (vr_side_effect v) in
  let? visibility := enum_of (vr_visibility v) in
  let? binding_type := enum_of (br_binding_type b) in
  Ok (mkResolvedTool tenant_id (uuid_str (tr_id t)) (uuid_str (vr_id v)) (uuid_str (br_id b)) (uuid_str (ur_id u))
        (tr_canonical_name t) (vr_version v) (vr_input_schema_json v) (vr_output_schema_json v)
        side_effect visibility binding_type (br_binding_config_json b) (ur_endpoint u) (ur_auth_scheme u)).

(** [resolve] *)
Definition sql_resolve (runtime : option Database) (tenant_id canonical_name : string) :
    res (option ResolvedExecutableTool) :=
  let? tenant := as_uuid tenant_id "tenant id" in
  let? d := session_of runtime in
  let? row := one_or_none (executable_rows tenant canonical_name d) in
  match row with
  | None => Ok None
  | Some row => let? tool := executable_tool tenant_id row in Ok (Some tool)
  end.

(** ** [SqlAlchemyPublishedToolSearch] *)

(** [websearch_to_tsquery('simple', q)] against the search vector of a version:
    whether it matches, and [ts_rank_cd]. *)
Class FullText := {
  text_matches : ToolVersionModel → string → bool;
  text_rank : ToolVersionModel → string → Q }.

Record search_filters := mkSearchFilters {
  sf_visibilities : list ToolVisibility;
  sf_eligible_tool_ids : option (list string);
  sf_namespace : option string;
  sf_side_effect : option ToolSideEffect;
  sf_limit : Z }.

Section Search.
Context `{DatabaseText} `{FullText}.

Definition search_row : Type := ToolModel * ToolVersionModel.

(** [order_by(desc(rank), canonical_name)] *)
Definition search_row_leb (query_text : string) : search_row → search_row → bool :=
  then_by (λ a b, Qle_bool (text_rank b.2 query_text) (text_rank a.2 query_text))
          (λ a b, collate (tr_canonical_name a.1) (tr_canonical_name b.1)).

(** The statement's join and conditions. *)
Definition search_rows (tenant : UUID) (query_text : string) (f : search_filters)
    (eligible : option (list UUID)) (d : Database) : list search_row :=
  t ← db_tools d; v ← filter (λ v, vr_tool_id v = tr_id t) (db_versions d);
  b ← filter (λ b, br_tool_version_id b = vr_id v) (db_bindings d);
  if bool_decide (tr_tenant_id t = tenant ∧ vr_tenant_id v = tenant ∧ br_tenant_id b = tenant
       ∧ tr_status t = enum_value ToolActive ∧ vr_status v = enum_value VPublished
       ∧ br_status b = enum_value BPublished ∧ vr_visibility v ∈ map enum_value (sf_visibilities f))
     && text_matches v query_text
     && from_option (λ n, bool_decide (tr_namespace t = n)) true (sf_namespace f)
     && from_option (λ ids, bool_decide (tr_id t ∈ ids)) true eligible
     && from_option (λ s, bool_decide (vr_side_effect v = enum_value s)) true (sf_side_effect f)
  then [(t, v)] else [].

(** [LIMIT], which PostgreSQL refuses when it is negative *)
Definition limited {A} (limit : Z) (l : list A) : res (list A) :=
  if (limit <? 0)%Z then Raise OtherException else Ok (take (Z.to_nat limit) l).

Definition search_hit (query_text : string) (row : search_row) : res (PublishedTool * Q) :=
  let? tool := published_tool_from_models row.1 row.2 in Ok (tool, text_rank row.2 query_text).

(** [search_published] *)
Definition sql_search_published (runtime : option Database) (tenant_id query_text : string) (f : search_filters) :
    res (list (PublishedTool * Q)) :=
  match sf_eligible_tool_ids f with
  | Some [] => Ok []
  | _ =>
      let? d := session_of runtime in
      let? tenant := as_uuid tenant_id "tenant id" in
      let? eligible := match sf_eligible_tool_ids f with
                       | None => Ok None
                       | Some ids => let? l := traverse (λ id, as_uuid id "eligible tool id") ids in Ok (Some l)
                       end in
      let? rows := limited (sf_limit f)
                     (sorted_by (search_row_leb query_text) (search_rows tenant query_text f eligible d)) in
      traverse (search_hit query_text) rows
  end.
End Search.

(** ** Rows and the entities they hold *)

Section Mirrored.
Context {E R : Type} `{LawfulMapping E R} `{!Schema R} `{!LawfulSchema E R} `{EqDecision R}.
Implicit Types (t : dict E) (rs : list R).

Lemma mirrors_row t rs r : mirrors t rs → r ∈ rs → ∃ e, dget (id_of e) t = Some e ∧ holds r e.
Proof.
  intros [Hn Hf] (i & Hi)%list_elem_of_lookup. destruct (Forall2_lookup_r _ _ _ _ _ Hf Hi) as ([k e] & Hk & He & Hh).
  exists e. split; [|done]. simpl in He. subst k. apply dget_mem; [done|]. by eapply list_elem_of_lookup_2.
Qed.

Lemma mirrors_entity t rs k e : mirrors t rs → dget k t = Some e → k = id_of e ∧ ∃ r, r ∈ rs ∧ holds r e.
Proof.
  intros [Hn Hf] (i & Hi)%dget_Some_mem%list_elem_of_lookup.
  destruct (Forall2_lookup_l _ _ _ _ _ Hf Hi) as (r & Hr & He & Hh). split; [done|].
  exists r. split; [|done]. by eapply list_elem_of_lookup_2.
Qed.

Lemma mirrors_ids t rs : mirrors t rs → NoDup (map row_id rs).
Proof.
  intros [Hn Hf]. apply (NoDup_fmap_1 uuid_str).
  assert (dkeys t = uuid_str <$> map row_id rs) as Heq; [|rewrite Heq in Hn; exact Hn].
  clear Hn. induction Hf as [|[k e] r t rs [Hk Hh] _ IH]; [done|]. simpl in *. rewrite IH. f_equal.
  apply held_storable in Hh as (_ & _ & Hid & _). congruence.
Qed.

Lemma same_row t rs r r' : mirrors t rs → r ∈ rs → r' ∈ rs → row_id r = row_id r' → r = r'.
Proof. intros Hm. by apply (key_inj row_id), (mirrors_ids t). Qed.

Lemma same_entity_row t rs r r' e e' :
  mirrors t rs → r ∈ rs → r' ∈ rs → holds r e → holds r' e' → id_of e = id_of e' → r = r'.
Proof.
  intros Hm Hr Hr' (_ & _ & Hi & _ & Hv & _)%held_storable (_ & _ & Hi' & _ & Hv' & _)%held_storable He.
  apply (same_row t rs); [done..|]. apply uuid_str_inj; [done..|]. congruence.
Qed.

Lemma mirrors_rows_NoDup t rs : mirrors t rs → NoDup rs.
Proof. intros Hm. apply (NoDup_fmap_1 row_id). by apply (mirrors_ids t). Qed.
End Mirrored.

Ltac says r e new_Ok :=
  intros Hh; pose proof Hh as Hh'; revert Hh'; read_held r e new_Ok; destruct_and?;
  repeat match goal with H : Forall _ (_ :: _) |- _ => apply Forall_cons in H as [? ?] end; subst; try done.

Lemma tool_says r x : holds r x →
  uuid_valid (tr_id r) ∧ uuid_valid (tr_tenant_id r) ∧ tool_id x = uuid_str (tr_id r) ∧
  tool_tenant_id x = uuid_str (tr_tenant_id r) ∧ tool_canonical_name x = tr_canonical_name r ∧
  tr_status r = enum_value (tool_status x).
Proof. says r x new_tool_Ok. Qed.
Lemma version_says r v : holds r v →
  uuid_valid (vr_id r) ∧ uuid_valid (vr_tenant_id r) ∧ uuid_valid (vr_tool_id r) ∧ tv_id v = uuid_str (vr_id r) ∧
  tv_tenant_id v = uuid_str (vr_tenant_id r) ∧ tv_tool_id v = uuid_str (vr_tool_id r) ∧
  tv_version v = vr_version r ∧ vr_status r = enum_value (tv_status v) ∧
  tv_input_schema v = vr_input_schema_json r ∧ tv_output_schema v = vr_output_schema_json r ∧
  vr_side_effect r = enum_value (tv_side_effect v) ∧ vr_visibility r = enum_value (tv_visibility v).
Proof. says r v new_version_Ok. Qed.
Lemma binding_says r b : holds r b →
  uuid_valid (br_id r) ∧ uuid_valid (br_tenant_id r) ∧ uuid_valid (br_tool_version_id r) ∧
  uuid_valid (br_upstream_service_id r) ∧ tb_id b = uuid_str (br_id r) ∧
  tb_tenant_id b = uuid_str (br_tenant_id r) ∧ tb_tool_version_id b = uuid_str (br_tool_version_id r) ∧
  tb_upstream_service_id b = uuid_str (br_upstream_service_id r) ∧ br_status r = enum_value (tb_status b) ∧
  br_binding_type r = enum_value (tb_binding_type b) ∧ tb_binding_config b = br_binding_config_json r.
Proof. says r b new_binding_Ok. Qed.
Lemma upstream_says r u : holds r u →
  uuid_valid (ur_id r) ∧ uuid_valid (ur_tenant_id r) ∧ us_id u = uuid_str (ur_id r) ∧
  us_tenant_id u = uuid_str (ur_tenant_id r) ∧ ur_status r = enum_value (us_status u) ∧
  us_endpoint u = ur_endpoint r ∧ us_auth_scheme u = ur_auth_scheme r.
Proof. says r u new_upstream_Ok. Qed.

(** ** What is offered

    [offered m tenant t v b u]: the catalog and the registry in memory hold an
    active tool of the tenant with a published version, its published binding and
    the active service behind it. *)

Record published_chain (m : memory) (tenant : string) (t : Tool) (v : ToolVersion) (b : ToolBinding) : Prop := {
  pb_tool : dget (tool_id t) (mm_tools m) = Some t;
  pb_version : dget (tv_id v) (mm_versions m) = Some v;
  pb_binding : dget (tb_id b) (mm_bindings m) = Some b;
  pb_of_tool : tv_tool_id v = tool_id t;
  pb_of_version : tb_tool_version_id b = tv_id v;
  pb_tenants : tool_tenant_id t = tenant ∧ tv_tenant_id v = tenant ∧ tb_tenant_id b = tenant;
  pb_statuses : tool_status t = ToolActive ∧ tv_status v = VPublished ∧ tb_status b = BPublished }.

Record offered (m : memory) (tenant : string) (t : Tool) (v : ToolVersion) (b : ToolBinding) (u : UpstreamService) :
    Prop := {
  of_chain : published_chain m tenant t v b;
  of_upstream : dget (us_id u) (mm_upstreams m) = Some u;
  of_binding : tb_upstream_service_id b = us_id u;
  of_tenant : us_tenant_id u = tenant;
  of_status : us_status u = UpActive }.

(** What a call of it needs to know. *)
Definition executable_of (tenant : string) (t : Tool) (v : ToolVersion) (b : ToolBinding) (u : UpstreamService) :
    ResolvedExecutableTool :=
  mkResolvedTool tenant (tool_id t) (tv_id v) (tb_id b) (us_id u) (tool_canonical_name t) (tv_version v)
    (tv_input_schema v) (tv_output_schema v) (tv_side_effect v) (tv_visibility v) (tb_binding_type b)
    (tb_binding_config b) (us_endpoint u) (us_auth_scheme u).

(** The catalog of the stores, as Publish.v sees it. *)
Definition catalog_in (m : memory) : catalog_store :=
  mkCatalogStore (mm_tools m) (mm_versions m) (mm_bindings m) (mm_upstreams m).

Definition same_name (x y : Tool) : Prop :=
  tool_tenant_id x = tool_tenant_id y ∧ tool_canonical_name x = tool_canonical_name y.

Lemma one_row {A} (l : list A) : NoDup l → (∀ x y, x ∈ l → y ∈ l → x = y) → l = [] ∨ ∃ x, l = [x].
Proof.
  destruct l as [|x [|y l]]; intros Hn He; [by left|by eauto|]. exfalso.
  apply NoDup_cons in Hn as [Hx _]. apply Hx. rewrite (He x y); [by left|by left|by right; left].
Qed.

Lemma NoDup_guarded {A} (b : bool) (x : A) : NoDup (if b then [x] else []).
Proof. destruct b; [apply NoDup_singleton|apply NoDup_nil_2]. Qed.

Lemma elem_of_guarded {A} (b : bool) (x y : A) : y ∈ (if b then [x] else []) ↔ b = true ∧ y = x.
Proof. destruct b; rewrite ?list_elem_of_singleton, ?elem_of_nil; naive_solver. Qed.

Section Reads.
Context (m : memory) (d : Database) (Hm : mirrored m d) (Hcat : catalog_ok (catalog_in m))
  (Hnames : unique_by tool_id same_name (mm_tools m)).

Let Htools : mirrors (mm_tools m) (db_tools d) := proj1 (proj2 Hm).
Let Hversions : mirrors (mm_versions m) (db_versions d) := proj1 (proj2 (proj2 Hm)).
Let Hbindings : mirrors (mm_bindings m) (db_bindings d) := proj1 (proj2 (proj2 (proj2 Hm))).
Let Hupstreams : mirrors (mm_upstreams m) (db_upstreams d) := proj1 Hm.

(** A chain of rows is one of entities. *)
Record held_chain (tenant : UUID) (t : ToolModel) (v : ToolVersionModel) (b : ToolBindingModel)
    (tool : Tool) (version : ToolVersion) (binding : ToolBinding) : Prop := {
  hc_tool : t ∈ db_tools d ∧ holds t tool;
  hc_version : v ∈ db_versions d ∧ holds v version;
  hc_binding : b ∈ db_bindings d ∧ holds b binding;
  hc_chain : published_chain m (uuid_str tenant) tool version binding }.

Definition row_chain (tenant : UUID) (t : ToolModel) (v : ToolVersionModel) (b : ToolBindingModel) : Prop :=
  (t ∈ db_tools d ∧ v ∈ db_versions d ∧ b ∈ db_bindings d) ∧
  (vr_tool_id v = tr_id t ∧ br_tool_version_id b = vr_id v) ∧
  (tr_tenant_id t = tenant ∧ vr_tenant_id v = tenant ∧ br_tenant_id b = tenant) ∧
  tr_status t = enum_value ToolActive ∧ vr_status v = enum_value VPublished ∧ br_status b = enum_value BPublished.

Lemma chain_held tenant t v b :
  row_chain tenant t v b → ∃ tool version binding, held_chain tenant t v b tool version binding.
Proof.
  intros ((Ht & Hv & Hb) & (Hvt & Hbv) & (E1 & E2 & E3) & S1 & S2 & S3).
  destruct (mirrors_row _ _ _ Htools Ht) as (tool & Hget1 & Hh1).
  destruct (mirrors_row _ _ _ Hversions Hv) as (version & Hget2 & Hh2).
  destruct (mirrors_row _ _ _ Hbindings Hb) as (binding & Hget3 & Hh3).
  exists tool, version, binding. split; [done..|].
  destruct (tool_says _ _ Hh1) as (_ & _ & T1 & T2 & _ & T3).
  destruct (version_says _ _ Hh2) as (_ & _ & _ & V1 & V2 & V3 & _ & V4 & _).
  destruct (binding_says _ _ Hh3) as (_ & _ & _ & _ & B1 & B2 & B3 & _ & B4 & _).
  split; try done; try congruence.
  - split_and!; congruence.
  - split_and!.
    + rewrite S1 in T3. by destruct (tool_status tool).
    + rewrite S2 in V4. by destruct (tv_status version).
    + rewrite S3 in B4. by destruct (tb_status binding).
Qed.

Lemma chain_rows tenant tool version binding :
  uuid_valid tenant → published_chain m (uuid_str tenant) tool version binding →
  ∃ t v b, row_chain tenant t v b ∧ held_chain tenant t v b tool version binding.
Proof.
  intros Hval Hc. pose proof Hc as [G1 G2 G3 L1 L2 (E1 & E2 & E3) (S1 & S2 & S3)].
  destruct (mirrors_entity _ _ _ _ Htools G1) as (_ & t & Ht & Hh1).
  destruct (mirrors_entity _ _ _ _ Hversions G2) as (_ & v & Hv & Hh2).
  destruct (mirrors_entity _ _ _ _ Hbindings G3) as (_ & b & Hb & Hh3).
  exists t, v, b. split; [|by split].
  destruct (tool_says _ _ Hh1) as (V1 & W1 & T1 & T2 & _ & T3).
  destruct (version_says _ _ Hh2) as (V2 & W2 & X2 & P1 & P2 & P3 & _ & P4 & _).
  destruct (binding_says _ _ Hh3) as (V3 & W3 & X3 & _ & B1 & B2 & B3 & _ & B4 & _).
  split; [done|]. split; [split; apply uuid_str_inj; try done; congruence|].
  split; [split_and!; apply uuid_str_inj; try done; congruence|]. by rewrite T3, P4, B4, S1, S2, S3.
Qed.

(** A version has one row in a chain: its tool has no other published version,
    and it has no other binding. *)
Lemma chain_unique tenant t v b v' b' :
  row_chain tenant t v b → row_chain tenant t v' b' → v = v' ∧ b = b'.
Proof.
  intros Hr Hr'. destruct (chain_held _ _ _ _ Hr) as (x & y & z & [[Hx Hhx] [Hy Hhy] [Hz Hhz] Hc]).
  destruct (chain_held _ _ _ _ Hr') as (x' & y' & z' & [[Hx' Hhx'] [Hy' Hhy'] [Hz' Hhz'] Hc']).
  assert (Htool : tool_id x = tool_id x').
  { destruct (tool_says _ _ Hhx) as (_ & _ & -> & _), (tool_says _ _ Hhx') as (_ & _ & -> & _). done. }
  assert (Hv : tv_id y = tv_id y').
  { apply (cat_published _ Hcat _ _ _ _ (pb_version _ _ _ _ _ Hc) (pb_version _ _ _ _ _ Hc')).
    destruct (pb_tenants _ _ _ _ _ Hc) as (_ & ? & _), (pb_tenants _ _ _ _ _ Hc') as (_ & ? & _).
    destruct (pb_statuses _ _ _ _ _ Hc) as (_ & ? & _), (pb_statuses _ _ _ _ _ Hc') as (_ & ? & _).
    pose proof (pb_of_tool _ _ _ _ _ Hc). pose proof (pb_of_tool _ _ _ _ _ Hc').
    split; [split; congruence|done]. }
  split; [by apply (same_entity_row _ _ _ _ y y' Hversions)|].
  apply (same_entity_row _ _ _ _ z z' Hbindings); try done.
  apply (cat_targets _ Hcat _ _ _ _ (pb_binding _ _ _ _ _ Hc) (pb_binding _ _ _ _ _ Hc')).
  destruct (pb_tenants _ _ _ _ _ Hc) as (_ & _ & ?), (pb_tenants _ _ _ _ _ Hc') as (_ & _ & ?).
  pose proof (pb_of_version _ _ _ _ _ Hc). pose proof (pb_of_version _ _ _ _ _ Hc').
  split; congruence.
Qed.

(** *** The joins *)

Lemma elem_of_executable tenant name t v b u :
  (t, v, b, u) ∈ executable_rows tenant name d ↔
  row_chain tenant t v b ∧ u ∈ db_upstreams d ∧ ur_id u = br_upstream_service_id b ∧ ur_tenant_id u = tenant ∧
  tr_canonical_name t = name ∧ ur_status u = enum_value UpActive.
Proof.
  unfold executable_rows, row_chain. split.
  - intros (t0 & Hin & Ht)%list_elem_of_bind. apply list_elem_of_bind in Hin as (v0 & Hin & Hv).
    apply list_elem_of_bind in Hin as (b0 & Hin & Hb). apply list_elem_of_bind in Hin as (u0 & Hin & Hu).
    apply list_elem_of_filter in Hv as [Hv0 Hv]. apply list_elem_of_filter in Hb as [Hb0 Hb].
    apply list_elem_of_filter in Hu as [Hu0 Hu].
    apply elem_of_guarded in Hin as [E [= -> -> -> ->]]. apply bool_decide_eq_true in E. tauto.
  - intros (((Ht & Hv & Hb) & (Hvt & Hbv) & (E1 & E2 & E3) & S1 & S2 & S3) & Hu & Hub & E4 & E5 & S4).
    apply list_elem_of_bind. exists t. split; [|done].
    apply list_elem_of_bind. exists v. split; [|by apply list_elem_of_filter].
    apply list_elem_of_bind. exists b. split; [|by apply list_elem_of_filter].
    apply list_elem_of_bind. exists u. split; [|by apply list_elem_of_filter].
    rewrite bool_decide_eq_true_2 by tauto. by left.
Qed.

Lemma executable_rows_NoDup tenant name : NoDup (executable_rows tenant name d).
Proof.
  assert (Hlast : ∀ t v b y x, y ∈ filter (λ u, ur_id u = br_upstream_service_id b) (db_upstreams d) ≫= (λ u,
            if bool_decide (tr_tenant_id t = tenant ∧ vr_tenant_id v = tenant ∧ br_tenant_id b = tenant
               ∧ ur_tenant_id u = tenant ∧ tr_canonical_name t = name
               ∧ tr_status t = enum_value ToolActive ∧ vr_status v = enum_value VPublished
               ∧ br_status b = enum_value BPublished ∧ ur_status u = enum_value UpActive)
            then [(t, v, b, u)] else []) → y = x → x.1 = (t, v, b)).
  { intros t v b y x (u & [_ ->]%elem_of_guarded & _)%list_elem_of_bind <-. done. }
  unfold executable_rows. apply NoDup_bind; [| |by apply (mirrors_rows_NoDup (mm_tools m))].
  { intros t t' y _ _ (v & (b & Hy & _)%list_elem_of_bind & _)%list_elem_of_bind
      (v' & (b' & Hy' & _)%list_elem_of_bind & _)%list_elem_of_bind.
    pose proof (Hlast _ _ _ _ y Hy eq_refl). pose proof (Hlast _ _ _ _ y Hy' eq_refl). congruence. }
  intros t _. apply NoDup_bind; [| |by apply NoDup_filter, (mirrors_rows_NoDup (mm_versions m))].
  { intros v v' y _ _ (b & Hy & _)%list_elem_of_bind (b' & Hy' & _)%list_elem_of_bind.
    pose proof (Hlast _ _ _ _ y Hy eq_refl). pose proof (Hlast _ _ _ _ y Hy' eq_refl). congruence. }
  intros v _. apply NoDup_bind; [| |by apply NoDup_filter, (mirrors_rows_NoDup (mm_bindings m))].
  { intros b b' y _ _ Hy Hy'.
    pose proof (Hlast _ _ _ _ y Hy eq_refl). pose proof (Hlast _ _ _ _ y Hy' eq_refl). congruence. }
  intros b _. apply NoDup_bind; [|intros; apply NoDup_guarded|by apply NoDup_filter, (mirrors_rows_NoDup (mm_upstreams m))].
  intros u u' y _ _ [_ Hy]%elem_of_guarded [_ Hy']%elem_of_guarded. congruence.
Qed.

Lemma executable_rows_one tenant name x y :
  x ∈ executable_rows tenant name d → y ∈ executable_rows tenant name d → x = y.
Proof.
  destruct x as [[[t v] b] u], y as [[[t' v'] b'] u'].
  intros (Hr & Hu & Hub & E & Hn & S)%elem_of_executable (Hr' & Hu' & Hub' & E' & Hn' & S')%elem_of_executable.
  assert (t = t') as <-.
  { destruct (chain_held _ _ _ _ Hr) as (x & y & z & [[Hx Hhx] _ _ Hc]).
    destruct (chain_held _ _ _ _ Hr') as (x' & y' & z' & [[Hx' Hhx'] _ _ Hc']).
    apply (same_entity_row _ _ _ _ x x' Htools); try done.
    apply (Hnames _ _ _ _ (pb_tool _ _ _ _ _ Hc) (pb_tool _ _ _ _ _ Hc')).
    destruct (tool_says _ _ Hhx) as (_ & _ & _ & T & N & _), (tool_says _ _ Hhx') as (_ & _ & _ & T' & N' & _).
    destruct (pb_tenants _ _ _ _ _ Hc) as (? & _), (pb_tenants _ _ _ _ _ Hc') as (? & _). split; congruence. }
  destruct (chain_unique _ _ _ _ _ _ Hr Hr') as [<- <-].
  f_equal. apply (same_row _ _ _ _ Hupstreams); try done. simpl. congruence.
Qed.

Lemma executable_row_held tenant name t v b u x y z :
  (t, v, b, u) ∈ executable_rows tenant name d → held_chain tenant t v b x y z →
  ∃ w, offered m (uuid_str tenant) x y z w ∧ tool_canonical_name x = name ∧
    executable_tool (uuid_str tenant) (t, v, b, u) = Ok (executable_of (uuid_str tenant) x y z w).
Proof.
  intros (Hr & Hu & Hub & E & Hn & S)%elem_of_executable [[Hx Hhx] [Hy Hhy] [Hz Hhz] Hc].
  destruct (mirrors_row _ _ _ Hupstreams Hu) as (w & Hget & Hhw). exists w.
  destruct (tool_says _ _ Hhx) as (_ & _ & T1 & T2 & T3 & _).
  destruct (version_says _ _ Hhy) as (_ & _ & _ & P1 & _ & _ & P2 & _ & P3 & P4 & P5 & P6).
  destruct (binding_says _ _ Hhz) as (_ & _ & _ & _ & B1 & _ & _ & B2 & _ & B3 & B4).
  destruct (upstream_says _ _ Hhw) as (_ & _ & U1 & U2 & U3 & U4 & U5).
  split_and!; [|congruence|].
  - split; [done|done|congruence|congruence|]. rewrite S in U3. by destruct (us_status w).
  - unfold executable_tool, executable_of. rewrite P5, P6, B3, !enum_round_trip. cbn [rbind].
    by rewrite T1, T3, P1, P2, P3, P4, B1, B4, U1, U4, U5.
Qed.

(** The resolver and the stores in memory agree. *)
Lemma resolve_exact tenant name :
  uuid_valid tenant →
  ∃ found, sql_resolve (Some d) (uuid_str tenant) name = Ok found ∧
    ∀ x, found = Some x ↔ ∃ t v b u, offered m (uuid_str tenant) t v b u ∧ tool_canonical_name t = name ∧
                                     x = executable_of (uuid_str tenant) t v b u.
Proof.
  intros Hval. unfold sql_resolve. rewrite as_uuid_str by done. cbn [rbind session_of].
  assert (Hfind : ∀ t v b u, offered m (uuid_str tenant) t v b u → tool_canonical_name t = name →
    ∃ row, row ∈ executable_rows tenant name d ∧
      executable_tool (uuid_str tenant) row = Ok (executable_of (uuid_str tenant) t v b u)).
  { intros t v b u [Hc Hget Hub Htn Hst] Hname.
    destruct (chain_rows tenant t v b Hval Hc) as (rt & rv & rb & Hr & Hh).
    destruct (mirrors_entity _ _ _ _ Hupstreams Hget) as (_ & ru & Hru & Hhu).
    assert (Hin : (rt, rv, rb, ru) ∈ executable_rows tenant name d).
    { apply elem_of_executable. destruct Hh as [[_ Hht] _ [_ Hhb] _].
      destruct (tool_says _ _ Hht) as (_ & _ & _ & _ & T3 & _).
      destruct (binding_says _ _ Hhb) as (_ & _ & _ & Vb & _ & _ & _ & B2 & _).
      destruct (upstream_says _ _ Hhu) as (Vu & Wu & U1 & U2 & U3 & _).
      split_and!; [done|done| | |congruence|by rewrite U3, Hst].
      - apply uuid_str_inj; [done..|congruence].
      - apply uuid_str_inj; [done..|congruence]. }
    exists (rt, rv, rb, ru). split; [done|].
    destruct (executable_row_held _ _ _ _ _ _ _ _ _ Hin Hh) as (w & Hw & _ & ->). do 2 f_equal.
    destruct Hw as [_ Hgetw Hubw _ _]. rewrite Hub in Hubw. rewrite <-Hubw, Hget in Hgetw. by injection Hgetw. }
  destruct (one_row (executable_rows tenant name d)) as [Hno|[[[[t v] b] u] Hone]];
    [apply executable_rows_NoDup|intros x y; apply executable_rows_one| |].
  - rewrite Hno. exists None. split; [done|]. intros x. split; [done|].
    intros (t & v & b & u & Ho & Hn & _). destruct (Hfind _ _ _ _ Ho Hn) as (row & Hin & _).
    rewrite Hno in Hin. by apply not_elem_of_nil in Hin.
  - rewrite Hone. cbn [one_or_none rbind].
    assert (Hin : (t, v, b, u) ∈ executable_rows tenant name d) by (rewrite Hone; by left).
    pose proof Hin as (Hr & _)%elem_of_executable.
    destruct (chain_held _ _ _ _ Hr) as (x & y & z & Hh).
    destruct (executable_row_held _ _ _ _ _ _ _ _ _ Hin Hh) as (w & Hw & Hnx & Hex).
    rewrite Hex. cbn [rbind]. eexists. split; [done|]. intros r. split.
    + intros [= <-]. by exists x, y, z, w.
    + intros (t' & v' & b' & u' & Ho & Hn' & ->). destruct (Hfind _ _ _ _ Ho Hn') as (row & Hrow & He).
      rewrite Hone in Hrow. apply list_elem_of_singleton in Hrow as ->. rewrite Hex in He. congruence.
Qed.

(** *** The published tools *)

(** What a caller sees of a published version. *)
Definition published_of (t : Tool) (v : ToolVersion) : PublishedTool :=
  mkPublishedTool (tool_id t) (tv_id v) (tool_tenant_id t) (tool_canonical_name t) (tv_display_name v)
    (tv_description v) (tv_input_schema v) (tv_output_schema v) (tv_version v) (tv_visibility v)
    (tv_side_effect v) (tv_schema_digest v) (Some (tool_owner t)) (tv_tags v).

Lemma tool_texts r t : holds r t → tool_owner t = tr_owner r ∧ new_tool t = Ok t.
Proof. intros Hh. split; [revert Hh; says r t new_tool_Ok|]. by destruct (held_storable _ _ Hh) as [[_ ?] _]. Qed.
Lemma version_texts r v : holds r v →
  tv_display_name v = vr_display_name r ∧ tv_description v = vr_description r ∧
  tv_schema_digest v = vr_schema_digest r ∧ tv_tags v = vr_tags_json r ∧ new_tool_version v = Ok v.
Proof.
  intros Hh. destruct (held_storable _ _ Hh) as [[_ Hn] _]. simpl in Hn.
  revert Hh. says r v new_version_Ok.
Qed.

Lemma published_of_valid t v :
  new_tool t = Ok t → new_tool_version v = Ok v → new_published_tool (published_of t v) = Ok (published_of t v).
Proof.
  intros Ht Hv. unfold new_tool in Ht. unfold new_tool_version in Hv. guards Ht. guards Hv.
destruct x, x2.
  apply require_non_blank_Ok in G. apply require_non_blank_Ok in G2. rewrite !Forall_cons in G. rewrite !Forall_cons in G2.
  destruct G as (N1 & N2 & _ & N3 & _). destruct G2 as (N4 & _ & _ & N5 & N6 & _). simpl in *.
  unfold new_published_tool, published_of. cbn [pt_tool_id pt_tool_version_id pt_tenant_id pt_canonical_name
    pt_display_name pt_schema_digest pt_version pt_input_schema].
  rewrite (proj2 (require_non_blank_Ok _)) by (by repeat (apply Forall_cons_2; [done|])).
  cbn [rbind]. unfold validate_input_schema. rewrite G3, G4. by rewrite bool_decide_eq_true_2.
Qed.

Lemma published_held r s t v : holds r t → holds s v → published_tool_from_models r s = Ok (published_of t v).
Proof.
  intros Ht Hv. destruct (tool_texts _ _ Ht) as [T1 T2]. destruct (version_texts _ _ Hv) as (V1 & V2 & V3 & V4 & V5).
  destruct (tool_says _ _ Ht) as (_ & _ & T3 & T4 & T5 & _).
  destruct (version_says _ _ Hv) as (_ & _ & _ & P1 & _ & _ & P2 & _ & P3 & P4 & P5 & P6).
  unfold published_tool_from_models. rewrite P5, P6, !enum_round_trip. cbn [rbind].
  rewrite <-T1, <-T3, <-T4, <-T5, <-V1, <-V2, <-V3, <-V4, <-P1, <-P2, <-P3, <-P4. by apply published_of_valid.
Qed.

Definition published_pairs (tenant : UUID) : list (ToolModel * ToolVersionModel) :=
  t ← db_tools d; v ← filter (λ v, vr_tool_id v = tr_id t) (db_versions d);
  b ← filter (λ b, br_tool_version_id b = vr_id v) (db_bindings d);
  if bool_decide (tr_tenant_id t = tenant ∧ vr_tenant_id v = tenant ∧ br_tenant_id b = tenant
       ∧ tr_status t = enum_value ToolActive ∧ vr_status v = enum_value VPublished
       ∧ br_status b = enum_value BPublished)
  then [(t, v)] else [].

Lemma elem_of_pairs tenant t v : (t, v) ∈ published_pairs tenant ↔ ∃ b, row_chain tenant t v b.
Proof.
  unfold published_pairs, row_chain. split.
  - intros (t0 & Hin & Ht)%list_elem_of_bind. apply list_elem_of_bind in Hin as (v0 & Hin & Hv).
    apply list_elem_of_bind in Hin as (b0 & Hin & Hb).
    apply list_elem_of_filter in Hv as [Hv0 Hv]. apply list_elem_of_filter in Hb as [Hb0 Hb].
    apply elem_of_guarded in Hin as [E [= -> ->]]. apply bool_decide_eq_true in E. exists b0. tauto.
  - intros (b & (Ht & Hv & Hb) & (Hvt & Hbv) & (E1 & E2 & E3) & S1 & S2 & S3).
    apply list_elem_of_bind. exists t. split; [|done].
    apply list_elem_of_bind. exists v. split; [|by apply list_elem_of_filter].
    apply list_elem_of_bind. exists b. split; [|by apply list_elem_of_filter].
    rewrite bool_decide_eq_true_2 by tauto. by left.
Qed.

Lemma fmap_bind_list {A B C} (f : B → C) (g : A → list B) (l : list A) :
  f <$> (l ≫= g) = l ≫= (λ x, f <$> g x).
Proof. induction l as [|x l IH]; [done|]. csimpl. by rewrite fmap_app, IH. Qed.

(** One row per tool. *)
Definition published_triples (tenant : UUID) : list (ToolModel * ToolVersionModel * ToolBindingModel) :=
  t ← db_tools d; v ← filter (λ v, vr_tool_id v = tr_id t) (db_versions d);
  b ← filter (λ b, br_tool_version_id b = vr_id v) (db_bindings d);
  if bool_decide (tr_tenant_id t = tenant ∧ vr_tenant_id v = tenant ∧ br_tenant_id b = tenant
       ∧ tr_status t = enum_value ToolActive ∧ vr_status v = enum_value VPublished
       ∧ br_status b = enum_value BPublished)
  then [(t, v, b)] else [].

Lemma pairs_of_triples tenant : published_pairs tenant = fst <$> published_triples tenant.
Proof.
  unfold published_triples, published_pairs. rewrite fmap_bind_list. apply list_bind_ext; [|done]. intros t.
  rewrite fmap_bind_list. apply list_bind_ext; [|done]. intros v.
  rewrite fmap_bind_list. apply list_bind_ext; [|done]. intros b. by destruct (bool_decide _).
Qed.

Lemma elem_of_triples tenant t v b : (t, v, b) ∈ published_triples tenant → row_chain tenant t v b.
Proof.
  unfold published_triples, row_chain. intros (t0 & Hin & Ht)%list_elem_of_bind.
  apply list_elem_of_bind in Hin as (v0 & Hin & Hv). apply list_elem_of_bind in Hin as (b0 & Hin & Hb).
  apply list_elem_of_filter in Hv as [Hv0 Hv]. apply list_elem_of_filter in Hb as [Hb0 Hb].
  apply elem_of_guarded in Hin as [E [= -> -> ->]]. apply bool_decide_eq_true in E. tauto.
Qed.

Lemma triples_NoDup tenant : NoDup (published_triples tenant).
Proof.
  unfold published_triples. apply NoDup_bind; [| |by apply (mirrors_rows_NoDup (mm_tools m))].
  { intros t t' y _ _ (v & (b & [_ ->]%elem_of_guarded & _)%list_elem_of_bind & _)%list_elem_of_bind
      (v' & (b' & [_ Hy']%elem_of_guarded & _)%list_elem_of_bind & _)%list_elem_of_bind. congruence. }
  intros t _. apply NoDup_bind; [| |by apply NoDup_filter, (mirrors_rows_NoDup (mm_versions m))].
  { intros v v' y _ _ (b & [_ ->]%elem_of_guarded & _)%list_elem_of_bind (b' & [_ Hy']%elem_of_guarded & _)%list_elem_of_bind.
    congruence. }
  intros v _. apply NoDup_bind; [|intros; apply NoDup_guarded|by apply NoDup_filter, (mirrors_rows_NoDup (mm_bindings m))].
  intros b b' y _ _ [_ Hy]%elem_of_guarded [_ Hy']%elem_of_guarded. congruence.
Qed.

Lemma pairs_once tenant : NoDup (map fst (published_pairs tenant)).
Proof.
  rewrite pairs_of_triples, map_map. apply NoDup_fmap_2_strong; [|apply triples_NoDup].
  intros [[t v] b] [[t' v'] b'] Hx%elem_of_triples Hy%elem_of_triples Ht. simpl in Ht. subst t'.
  by destruct (chain_unique _ _ _ _ _ _ Hx Hy) as [-> ->].
Qed.

Lemma pairs_run tenant c e :
  uuid_valid tenant →
  published_rows (uuid_str tenant) (St c (Some d) e) = (Ok (published_pairs tenant), St c (Some d) e).
Proof. intros Hv. unfold published_rows, bind, lift, read_rows, ret. by rewrite as_uuid_str. Qed.

Lemma pair_says tenant t v :
  (t, v) ∈ published_pairs tenant → ∃ x y z, published_chain m (uuid_str tenant) x y z ∧
    published_tool_from_models t v = Ok (published_of x y) ∧ tool_canonical_name x = tr_canonical_name t ∧
    tool_id x = uuid_str (tr_id t) ∧ uuid_valid (tr_id t).
Proof.
  intros (b & (x & y & z & [[_ Hx] [_ Hy] _ Hc])%chain_held)%elem_of_pairs. exists x, y, z.
  destruct (tool_says _ _ Hx) as (? & _ & ? & _ & ? & _). split_and!; try done. by apply published_held.
Qed.

(** The listing of a tenant's published tools: each tool of a chain once, in the
    order of the names. *)
Lemma list_published_exact `{DatabaseText} tenant :
  uuid_valid tenant →
  ∃ l, reader_list_published (Some d) (uuid_str tenant) = Ok l ∧
    (∀ p, p ∈ l ↔ ∃ t v b, published_chain m (uuid_str tenant) t v b ∧ p = published_of t v) ∧
    NoDup (map pt_tool_id l) ∧
    ordered (λ a b, collate (pt_canonical_name a) (pt_canonical_name b)) l.
Proof.
  intros Hval. unfold reader_list_published, in_session, sql_list_published. cbn [session_of rbind].
  unfold bind, lift. rewrite pairs_run by done. cbn [fst].
  set (rows := sorted_by _ (published_pairs tenant)).
  assert (Hin : ∀ row, row ∈ rows ↔ row ∈ published_pairs tenant) by (intros; apply elem_of_sorted_by).
  assert (Hall : ∃ l, traverse (λ row, published_tool_from_models row.1 row.2) rows = Ok l).
  { assert (∀ row, row ∈ rows → ∃ p, published_tool_from_models row.1 row.2 = Ok p) as Hp.
    { intros [t v] (x & y & z & _ & Hp & _)%Hin%pair_says. eauto. }
    clear -Hp. induction rows as [|row rows IH]; [by eexists|]. destruct (Hp row) as [p E]; [by left|].
    destruct IH as [l Hl]; [intros r Hr; apply Hp; by right|]. simpl. rewrite E. cbn. rewrite Hl. by eexists. }
  destruct Hall as [l Hl]. exists l. split; [exact Hl|]. apply traverse_Ok in Hl.
  assert (Hof : ∀ row p, row ∈ rows → published_tool_from_models row.1 row.2 = Ok p →
    pt_canonical_name p = tr_canonical_name row.1 ∧ pt_tool_id p = uuid_str (tr_id row.1)).
  { intros [t v] p (x & y & z & _ & Hp & Hn & Hi & _)%Hin%pair_says He. simpl in He. rewrite Hp in He.
    injection He as <-. simpl. by rewrite Hn, Hi. }
  split_and!.
  - intros p. split.
    + intros (i & Hi)%list_elem_of_lookup. destruct (Forall2_lookup_r _ _ _ _ _ Hl Hi) as ([t v] & Hrow & Hp).
      apply list_elem_of_lookup_2, Hin, pair_says in Hrow as (x & y & z & Hc & Hp' & _).
      exists x, y, z. split; [done|]. simpl in Hp. congruence.
    + intros (t & v & b & Hc & ->). destruct (chain_rows tenant t v b Hval Hc) as (rt & rv & rb & Hr & [[_ Hht] [_ Hhv] _ _]).
      assert (Hrow : (rt, rv) ∈ rows) by (apply Hin, elem_of_pairs; eauto).
      apply list_elem_of_lookup in Hrow as [i Hi]. destruct (Forall2_lookup_l _ _ _ _ _ Hl Hi) as (p & Hpi & Hp).
      simpl in Hp. rewrite (published_held _ _ _ _ Hht Hhv) in Hp. injection Hp as <-. by eapply list_elem_of_lookup_2.
  - assert (map pt_tool_id l = uuid_str <$> map tr_id (map fst rows)) as ->.
    { clear Hin. revert Hof. clear -Hl. induction Hl as [|row p rows l Hp _ IH]; intros Hof; [done|]. simpl.
      rewrite (proj2 (Hof row p ltac:(by left) Hp)). f_equal. apply IH. intros r q Hr. apply Hof. by right. }
    apply NoDup_fmap_2_strong.
    + intros a b (t & -> & ([t0 v] & -> & Ht)%list_elem_of_fmap)%list_elem_of_fmap (t' & -> & ([t1 v'] & -> & Ht')%list_elem_of_fmap)%list_elem_of_fmap.
      apply Hin, pair_says in Ht as (_ & _ & _ & _ & _ & _ & _ & V). apply Hin, pair_says in Ht' as (_ & _ & _ & _ & _ & _ & _ & V').
      by apply uuid_str_inj.
    + assert (Hn : NoDup (map fst rows)).
      { unfold rows. apply (NoDup_Permutation_proper _ _ (fmap_Permutation fst _ _ (sorted_by_perm _ _))). apply pairs_once. }
      apply NoDup_fmap_2_strong; [|done].
      intros t t' ([t0 v] & -> & Ht)%list_elem_of_fmap ([t1 v'] & -> & Ht')%list_elem_of_fmap. simpl.
      apply Hin, elem_of_pairs in Ht as (b & (Ht & _) & _). apply Hin, elem_of_pairs in Ht' as (b' & (Ht' & _) & _).
      by apply (same_row _ _ _ _ Htools).
  - apply (ordered_Forall2 (λ a b : search_row, collate (tr_canonical_name a.1) (tr_canonical_name b.1)) _
             (λ row p, pt_canonical_name p = tr_canonical_name row.1) rows).
    + intros row p row' p' -> ->. done.
    + apply (related_impl _ _ _ _ Hl). intros row p Hrow _ Hp. by apply Hof.
    + apply sorted_by_ordered; [intros; apply collate_total|intros ???; apply collate_trans].
Qed.

(** Looking one of them up by its name. *)
Lemma published_by_name_exact tenant name :
  uuid_valid tenant →
  ∃ found, reader_published_by_name (Some d) (uuid_str tenant) name = Ok found ∧
    ∀ p, found = Some p ↔
      ∃ t v b, published_chain m (uuid_str tenant) t v b ∧ tool_canonical_name t = name ∧ p = published_of t v.
Proof.
  intros Hval. unfold reader_published_by_name, in_session, sql_get_published_by_name. cbn [session_of rbind].
  unfold bind at 1. rewrite pairs_run by done. unfold bind, lift.
  set (rows := filter _ (published_pairs tenant)).
  assert (Hin : ∀ t v, (t, v) ∈ rows ↔ tr_canonical_name t = name ∧ (t, v) ∈ published_pairs tenant)
    by (intros t v; unfold rows; by rewrite list_elem_of_filter).
  assert (Hrow : ∀ t v b, published_chain m (uuid_str tenant) t v b → tool_canonical_name t = name →
    ∃ rt rv, (rt, rv) ∈ rows ∧ published_tool_from_models rt rv = Ok (published_of t v)).
  { intros t v b Hc Hn. destruct (chain_rows tenant t v b Hval Hc) as (rt & rv & rb & Hr & [[_ Hht] [_ Hhv] _ _]).
    exists rt, rv. split; [|by apply published_held]. apply Hin. split; [|apply elem_of_pairs; eauto].
    destruct (tool_says _ _ Hht) as (_ & _ & _ & _ & ? & _). congruence. }
  destruct (one_row rows) as [Hno|[[t v] Hone]].
  { apply NoDup_filter. apply (NoDup_fmap_1 fst). apply pairs_once. }
  { intros [t v] [t' v'] [Hn Hp]%Hin [Hn' Hp']%Hin.
    assert (t = t') as <-.
    { apply elem_of_pairs in Hp as (b & Hr). apply elem_of_pairs in Hp' as (b' & Hr').
      destruct (chain_held _ _ _ _ Hr) as (x & y & z & [[Hx Hhx] _ _ Hc]).
      destruct (chain_held _ _ _ _ Hr') as (x' & y' & z' & [[Hx' Hhx'] _ _ Hc']).
      apply (same_entity_row _ _ _ _ x x' Htools); try done.
      apply (Hnames _ _ _ _ (pb_tool _ _ _ _ _ Hc) (pb_tool _ _ _ _ _ Hc')).
      destruct (tool_says _ _ Hhx) as (_ & _ & _ & T & N & _), (tool_says _ _ Hhx') as (_ & _ & _ & T' & N' & _).
      destruct (pb_tenants _ _ _ _ _ Hc) as (? & _), (pb_tenants _ _ _ _ _ Hc') as (? & _). split; congruence. }
    apply (key_inj fst (published_pairs tenant)); [apply pairs_once|done..]. }
  - rewrite Hno. exists None. split; [done|]. intros p. split; [done|].
    intros (t & v & b & Hc & Hn & _). destruct (Hrow _ _ _ Hc Hn) as (rt & rv & Hr & _). rewrite Hno in Hr.
    by apply not_elem_of_nil in Hr.
  - assert (Hmem : (t, v) ∈ rows) by (rewrite Hone; by left). apply Hin in Hmem as [Hn Hp].
    destruct (pair_says _ _ _ Hp) as (x & y & z & Hc & Hpub & Hname & _).
    rewrite Hone. cbn [one_or_none fst snd]. rewrite Hpub. eexists. split; [reflexivity|]. intros p. split.
    + intros [= <-]. exists x, y, z. split_and!; [done|congruence|done].
    + intros (t' & v' & b' & Hc' & Hn' & ->). destruct (Hrow _ _ _ Hc' Hn') as (rt & rv & Hr & He).
      rewrite Hone in Hr. apply list_elem_of_singleton in Hr as [= -> ->]. congruence.
Qed.
End Reads.


(** *** The full-text search *)

(** What the filters ask of a tool and its version. *)
Definition passes (f : search_filters) (t : Tool) (v : ToolVersion) : Prop :=
  tv_visibility v ∈ sf_visibilities f ∧
  (∀ ids, sf_eligible_tool_ids f = Some ids → tool_id t ∈ ids) ∧
  (∀ n, sf_namespace f = Some n → tool_namespace t = n) ∧
  (∀ s, sf_side_effect f = Some s → tv_side_effect v = s).

Lemma namespace_says r t : holds r t → tool_namespace t = tr_namespace r.
Proof. says r t new_tool_Ok. Qed.

Lemma enum_value_inj {A} `{StrEnum A} (a b : A) : enum_value a = enum_value b → a = b.
Proof. intros He. pose proof (enum_round_trip a) as Ha. rewrite He, enum_round_trip in Ha. by injection Ha. Qed.

Section SearchFacts.
Context `{DatabaseText} `{FullText} (m : memory) (d : Database) (Hm : mirrored m d)
  (Hcat : catalog_ok (catalog_in m)).

Lemma elem_of_search tenant query_text f eligible t v :
  (t, v) ∈ search_rows tenant query_text f eligible d →
  (∃ b, row_chain d tenant t v b) ∧ vr_visibility v ∈ map enum_value (sf_visibilities f) ∧
  text_matches v query_text = true ∧
  (∀ n, sf_namespace f = Some n → tr_namespace t = n) ∧
  (∀ ids, eligible = Some ids → tr_id t ∈ ids) ∧
  (∀ s, sf_side_effect f = Some s → vr_side_effect v = enum_value s).
Proof.
  unfold search_rows, row_chain. intros (t0 & Hin & Ht)%list_elem_of_bind.
  apply list_elem_of_bind in Hin as (v0 & Hin & Hv). apply list_elem_of_bind in Hin as (b0 & Hin & Hb).
  apply list_elem_of_filter in Hv as [Hv0 Hv]. apply list_elem_of_filter in Hb as [Hb0 Hb].
  apply elem_of_guarded in Hin as [E [= -> ->]].
  rewrite !andb_true_iff in E. destruct E as ((((E & Hq) & Hns) & Hel) & Hse). apply bool_decide_eq_true in E.
  split; [exists b0; tauto|]. split; [tauto|]. split; [done|]. split_and!.
  - intros n Hn. rewrite Hn in Hns. by apply bool_decide_eq_true in Hns.
  - intros ids Hi. rewrite Hi in Hel. by apply bool_decide_eq_true in Hel.
  - intros s Hs. rewrite Hs in Hse. by apply bool_decide_eq_true in Hse.
Qed.

(** A hit is a published tool of the tenant that passes every filter. *)
Lemma search_row_passes tenant query_text f eligible t v :
  (∀ ids, sf_eligible_tool_ids f = Some ids → ∃ l, eligible = Some l ∧ ids = map uuid_str l) →
  (t, v) ∈ search_rows tenant query_text f eligible d →
  ∃ x y z, published_chain m (uuid_str tenant) x y z ∧ passes f x y ∧
    search_hit query_text (t, v) = Ok (published_of x y, text_rank v query_text).
Proof.
  intros Hids ((b & Hr) & Hvis & _ & Hns & Hel & Hse)%elem_of_search.
  destruct (chain_held m d Hm _ _ _ _ Hr) as (x & y & z & [[_ Hx] [_ Hy] _ Hc]). exists x, y, z.
  destruct (tool_says _ _ Hx) as (_ & _ & T & _).
  destruct (version_says _ _ Hy) as (_ & _ & _ & _ & _ & _ & _ & _ & _ & _ & P1 & P2).
  split; [done|]. split; [|unfold search_hit; cbn [fst snd]; by rewrite (published_held _ _ _ _ Hx Hy)].
  split_and!.
  - rewrite P2 in Hvis. apply list_elem_of_fmap in Hvis as (w & He & Hw). by apply enum_value_inj in He as ->.
  - intros ids Hi. destruct (Hids ids Hi) as (l & Hl & ->). rewrite T. apply list_elem_of_fmap. eauto.
  - intros n Hn. rewrite (namespace_says _ _ Hx). by apply Hns.
  - intros s Hs. apply enum_value_inj. rewrite <-P1. by apply Hse.
Qed.

Lemma search_rows_Ok query_text (rows : list search_row) :
  (∀ row, row ∈ rows → ∃ hit, search_hit query_text row = Ok hit) → ∃ hits, traverse (search_hit query_text) rows = Ok hits.
Proof.
  induction rows as [|row rows IH]; intros Hr; [by eexists|]. destruct (Hr row) as [hit E]; [by left|].
  destruct IH as [hits Hh]; [intros r Hi; apply Hr; by right|]. simpl. rewrite E. cbn. rewrite Hh. by eexists.
Qed.

Lemma search_answers tenant query_text f :
  uuid_valid tenant → (0 <= sf_limit f)%Z →
  (∀ ids, sf_eligible_tool_ids f = Some ids → Forall (λ id, canonical_uuid id = true) ids) →
  ∃ hits, sql_search_published (Some d) (uuid_str tenant) query_text f = Ok hits ∧
    (length hits <= Z.to_nat (sf_limit f))%nat ∧
    ∀ p rank, (p, rank) ∈ hits → ∃ t v b,
      published_chain m (uuid_str tenant) t v b ∧ passes f t v ∧ p = published_of t v.
Proof.
  intros Hval Hlim Hcan. unfold sql_search_published.
  assert (Hel : ∃ eligible, match sf_eligible_tool_ids f with
      | None => Ok None
      | Some ids => let? l := traverse (λ id, as_uuid id "eligible tool id") ids in Ok (Some l)
      end = Ok eligible ∧
      ∀ ids, sf_eligible_tool_ids f = Some ids → ∃ l, eligible = Some l ∧ ids = map uuid_str l).
  { destruct (sf_eligible_tool_ids f) as [ids|] eqn:E; [|by exists None].
    destruct (requested_ids "eligible tool id" ids (Hcan ids eq_refl)) as (l & Hl & _ & ->).
    rewrite Hl. exists (Some l). split; [done|]. intros ids' [= <-]. by exists l. }
  destruct Hel as (eligible & Hel & Hids).
  assert (Hmain : ∃ hits, (let? rows := limited (sf_limit f)
            (sorted_by (search_row_leb query_text) (search_rows tenant query_text f eligible d)) in
            traverse (search_hit query_text) rows) = Ok hits ∧
    (length hits <= Z.to_nat (sf_limit f))%nat ∧
    ∀ p rank, (p, rank) ∈ hits → ∃ t v b,
      published_chain m (uuid_str tenant) t v b ∧ passes f t v ∧ p = published_of t v).
  { unfold limited. rewrite (proj2 (Z.ltb_ge _ _)) by done. cbn [rbind].
    set (rows := take _ _).
    assert (Hin : ∀ row, row ∈ rows → row ∈ search_rows tenant query_text f eligible d).
    { intros row Hrow%elem_of_take_in. by apply elem_of_sorted_by in Hrow. }
    destruct (search_rows_Ok query_text rows) as [hits Hhits].
    { intros [t v] Hr%Hin. destruct (search_row_passes _ _ _ _ _ _ Hids Hr) as (x & y & z & _ & _ & E). eauto. }
    exists hits. split; [done|]. apply traverse_Ok in Hhits. split.
    - rewrite <-(Forall2_length _ _ _ Hhits). unfold rows. rewrite length_take. lia.
    - intros p rank (i & Hi)%list_elem_of_lookup.
      destruct (Forall2_lookup_r _ _ _ _ _ Hhits Hi) as ([t v] & Hrow & Hp).
      apply list_elem_of_lookup_2, Hin in Hrow.
      destruct (search_row_passes _ _ _ _ _ _ Hids Hrow) as (x & y & z & Hc & Hpass & E).
      exists x, y, z. split_and!; [done..|]. congruence. }
  destruct (sf_eligible_tool_ids f) as [[|id ids]|] eqn:Ef.
  - exists []. split; [done|]. split; [simpl; lia|]. by intros p rank ?%not_elem_of_nil.
  - cbn [session_of rbind]. rewrite as_uuid_str by done. cbn [rbind]. rewrite Hel. cbn [rbind]. exact Hmain.
  - cbn [session_of rbind]. rewrite as_uuid_str by done. cbn [rbind]. injection Hel as <-. exact Hmain.
Qed.
End SearchFacts.

(** ** What a call resolves to *)

(** C15: Over a database whose rows hold the stores' entities, with the catalog's
    invariant and unique names, the resolver of tool calls answers for every
    canonical tenant and every name, never with two candidates: it finds exactly
    the active tool of that name in the tenant with its published version, the
    published binding of that version and the active service behind the binding,
    and returns their data.  Whatever it returns is, under that name and in that
    version, among the published tools the same database lists, each of which is
    listed once, in the order of the names. *)
Theorem resolver_reads_published `{DatabaseText} m d tenant_id name :
  mirrored m d → catalog_ok (catalog_in m) → unique_by tool_id same_name (mm_tools m) →
  canonical_uuid tenant_id = true →
  ∃ found listed,
    sql_resolve (Some d) tenant_id name = Ok found ∧
    reader_list_published (Some d) tenant_id = Ok listed ∧
    (∀ x, found = Some x ↔ ∃ t v b u,
      offered m tenant_id t v b u ∧ tool_canonical_name t = name ∧ x = executable_of tenant_id t v b u) ∧
    (∀ p, p ∈ listed ↔ ∃ t v b, published_chain m tenant_id t v b ∧ p = published_of t v) ∧
    NoDup (map pt_tool_id listed) ∧
    ordered (λ a b, collate (pt_canonical_name a) (pt_canonical_name b)) listed ∧
    (∀ x, found = Some x → ∃ p, p ∈ listed ∧ pt_canonical_name p = name ∧
      pt_tool_version_id p = rt_tool_version_id x ∧ pt_input_schema p = rt_input_schema x ∧
      pt_tenant_id p = rt_tenant_id x).
Proof.
  intros Hm Hcat Hnames (tenant & Hv & <- & _)%canonical_parses.
  destruct (resolve_exact m d Hm Hcat Hnames tenant name Hv) as (found & Hfound & Hspec).
  destruct (list_published_exact m d Hm Hcat tenant Hv) as (listed & Hlist & Hin & Hnd & Hord).
  exists found, listed. split_and!; try done.
  intros x (t & v & b & u & Ho & Hn & ->)%Hspec. exists (published_of t v).
  split; [apply Hin; exists t, v, b; split; [apply (of_chain _ _ _ _ _ _ Ho)|done]|].
  split_and!; try done. by destruct (pb_tenants _ _ _ _ _ (of_chain _ _ _ _ _ _ Ho)) as [? _].
Qed.

Module SqlReadersExamples.
Import AgreementExamples.

#[local] Instance any_width : SchemaLimits := {|
  upstream_limits _ := true; version_limits _ := true; binding_limits _ := true; approval_limits _ := true;
  execution_limits _ := true; attempt_limits _ := true; audit_limits _ := true; job_limits _ := true;
  operation_limits _ := true; tool_limits _ := true |}.

Definition crm : Tool := mkTool (text_of 10) (text_of 2) "crm" "crm.find" "team" ToolActive.
Definition crm_v1 : ToolVersion :=
  mkToolVersion (text_of 11) (text_of 2) (text_of 10) 1 "Find" "finds customers" [("type", JStr "object")] None
    "digest" [] ReadOnly VisAuthenticated VPublished "ann" (at_second 1) (Some (at_second 2)) (Some (at_second 3)) None.
Definition crm_binding : ToolBinding :=
  mkBinding (text_of 12) (text_of 2) (text_of 11) (text_of 13) None BindHttp [] "digest" BPublished
    (at_second 1) (Some (at_second 3)).
Definition crm_service (status : UpstreamStatus) : UpstreamService :=
  mkUpstream (text_of 13) (text_of 2) "crm" "CRM" None "team" UpHttp "http" "https://crm.example" None None None []
    status.

(** The stores and the rows that hold them. *)
Definition crm_memory (status : UpstreamStatus) : memory :=
  mkMemory [(text_of 13, crm_service status)] [(text_of 10, crm)] [(text_of 11, crm_v1)] [(text_of 12, crm_binding)]
    [] [] [] [] [] [].
Definition row_of {R} (r : res R) : list R := match r with Ok x => [x] | Raise _ => [] end.
Definition crm_database (status : UpstreamStatus) : Database :=
  mkDatabase (row_of (upstream_to_model (at_second 1) (crm_service status))) (row_of (tool_to_model (at_second 1) crm))
    (row_of (tool_version_to_model "crm" "crm.find" (at_second 1) crm_v1))
    (row_of (tool_binding_to_model (at_second 1) crm_binding)) [] [] [] [] [] [] [].

Lemma mirrors_one {E R} `{LawfulMapping E R} `{!Schema R} `{!LawfulSchema E R} `{EqDecision R} (e : E) (r : R) :
  holds r e → mirrors [(id_of e, e)] [r].
Proof. intros Hh. apply (mirrors_insert [] [] e r); [apply mirrors_nil|done|done]. Qed.

Lemma to_row_holds {E R} `{LawfulMapping E R} (e : E) (r : res R) :
  r = to_model (at_second 1) e → storable e → kept e = e → ∃ x, row_of r = [x] ∧ holds x e.
Proof.
  intros -> Hs Hk. destruct (to_model_holds (at_second 1) e Hs) as (x & Hx & Hh). rewrite Hk in Hh.
  exists x. unfold row_of. by rewrite Hx.
Qed.

Lemma crm_mirrored : mirrored (crm_memory UpActive) (crm_database UpActive).
Proof.
  assert (Hids : ∀ l, Forall (λ s, canonical_uuid s = true) l ↔ forallb canonical_uuid l = true)
    by (intros l; rewrite Forall_forall, forallb_forall; by setoid_rewrite list_elem_of_In).
  destruct (to_row_holds (H := upstream_mapping) (crm_service UpActive) (upstream_to_model (at_second 1) (crm_service UpActive)) eq_refl) as (r1 & E1 & H1);
    [split; [apply Hids|]; vm_compute; reflexivity|done|].
  destruct (to_row_holds (H := tool_mapping) crm (tool_to_model (at_second 1) crm) eq_refl) as (r2 & E2 & H2); [split; [apply Hids|]; vm_compute; reflexivity|done|].
  destruct (to_row_holds (H := version_mapping "crm" "crm.find") crm_v1
      (tool_version_to_model "crm" "crm.find" (at_second 1) crm_v1) eq_refl) as (r3 & E3 & H3);
    [split; [apply Hids|]; vm_compute; reflexivity|done|].
  destruct (to_row_holds (H := binding_mapping) crm_binding (tool_binding_to_model (at_second 1) crm_binding) eq_refl) as (r4 & E4 & H4);
    [split; [apply Hids|]; vm_compute; reflexivity|done|].
  unfold mirrored, crm_database. rewrite E1, E2, E3, E4.
  cbn [crm_memory mm_upstreams mm_tools mm_versions mm_bindings mm_approvals mm_executions mm_attempts mm_audits mm_jobs mm_operations
    db_upstreams db_tools db_versions db_bindings db_approvals db_executions db_attempts db_audits db_jobs db_operations].
  split_and!; try apply mirrors_nil.
  - exact (mirrors_one (H := upstream_mapping) (crm_service UpActive) r1 H1).
  - exact (mirrors_one (H := tool_mapping) crm r2 H2).
  - exact (mirrors_one (H := any_version_mapping) crm_v1 r3 H3).
  - exact (mirrors_one (H := binding_mapping) crm_binding r4 H4).
Qed.

Lemma keyed_one {V} (key : V → string) v : keyed key [(key v, v)].
Proof. apply (keyed_dset key v []), keyed_nil. Qed.
Lemma unique_one {V} (key : V → string) (same : V → V → Prop) k v : unique_by key same [(k, v)].
Proof. intros k1 k2 v1 v2 H1 H2 _. simpl in *. repeat case_decide; by simplify_eq. Qed.

Lemma crm_catalog_ok : catalog_ok (catalog_in (crm_memory UpActive)).
Proof.
  split; unfold catalog_in; cbn [cs_tools cs_versions cs_bindings crm_memory mm_tools mm_versions mm_bindings];
    [exact (keyed_one tool_id crm)|exact (keyed_one tv_id crm_v1)|exact (keyed_one tb_id crm_binding)
    |apply unique_one|apply unique_one|apply unique_one|..].
  - intros k v Hv _. simpl in Hv. case_decide; [|done]. injection Hv as <-.
    exists (text_of 12), crm_binding. by split_and!.
  - intros k w Hw Hs. simpl in Hw. case_decide; [|done]. by injection Hw as <-.
Qed.

Lemma resolver_reads_published_witness :
  ∃ listed, sql_resolve (Some (crm_database UpActive)) (text_of 2) "crm.find" =
      Ok (Some (executable_of (text_of 2) crm crm_v1 crm_binding (crm_service UpActive))) ∧
    reader_list_published (Some (crm_database UpActive)) (text_of 2) = Ok listed ∧ published_of crm crm_v1 ∈ listed.
Proof.
  destruct (resolver_reads_published (crm_memory UpActive) (crm_database UpActive) (text_of 2) "crm.find"
              crm_mirrored crm_catalog_ok (unique_one _ _ _ _) ltac:(vm_compute; reflexivity))
    as (found & listed & Hf & Hl & Hspec & Hin & _).
  assert (Hc : published_chain (crm_memory UpActive) (text_of 2) crm crm_v1 crm_binding)
    by (split; try split_and!; vm_compute; reflexivity).
  exists listed. split_and!.
  - rewrite Hf. f_equal. apply Hspec. exists crm, crm_v1, crm_binding, (crm_service UpActive).
    split_and!; [split; try done; vm_compute; reflexivity|done..].
  - exact Hl.
  - apply Hin. exists crm, crm_v1, crm_binding. split; [exact Hc|reflexivity].
Defined.

(** Without the service the tool is listed, but a call finds nothing. *)
Lemma disabled_service_hides_tool :
  sql_resolve (Some (crm_database UpDisabled)) (text_of 2) "crm.find" = Ok None ∧
  ∃ l, reader_list_published (Some (crm_database UpDisabled)) (text_of 2) = Ok l ∧ map pt_canonical_name l = ["crm.find"].
Proof. split; [vm_compute; reflexivity|]. eexists. split; vm_compute; reflexivity. Qed.

(** Before the runtime was started, an identifier that is none is refused first
    by the resolver, and last by the search. *)
Lemma reads_before_start `{FullText} :
  sql_resolve None "acme" "crm.find" = Raise (ValueError "tenant id must be a valid UUID") ∧
  sql_search_published None "acme" "find" (mkSearchFilters [VisPublic] None None None 5) =
    Raise (RuntimeError "database runtime is not started") ∧
  sql_search_published None "acme" "find" (mkSearchFilters [VisPublic] (Some []) None None 5) = Ok [].
Proof. split_and!; vm_compute; reflexivity. Qed.
End SqlReadersExamples.
