(* ===== verification/Evaluation.v ===== *)
(** * Evaluation of the tool search

    Models [modules/tool_search/evaluation.py]: the cases of a benchmark, read
    from a JSON document, the observations of the three search strategies, and
    the metrics computed from them.  A float is a rational.  [math.log2] of a
    rank is the parameter [log2] with what the code relies on in [LawfulLog2];
    [log2_digits] is one such function. *)

From Stdlib Require Import ZArith QArith Qround Qreduction Lqa Sorting.Sorted.
From stdpp Require Import base sets strings option list.
From S2P Require Import Prelude Text Dict Errors Json AuditTrail Catalog ToolSearch Rows.
Open Scope py_scope.

(** ** Data *)

Inductive RetrievalEvalStrategy := EvalLexical | EvalVector | EvalHybrid.
#[export] Instance eval_strategy_eq_dec : EqDecision RetrievalEvalStrategy.
Proof. solve_decision. Defined.

(** [for strategy in RetrievalEvalStrategy] *)
Definition eval_strategies : list RetrievalEvalStrategy := [EvalLexical; EvalVector; EvalHybrid].

Record RetrievalEvalCase := mkEvalCase {
  ec_id : string;
  ec_category : string;
  ec_query : string;
  ec_relevance : list (string * Z);
  ec_lexical_expected : bool;
  ec_namespace : option string;
  ec_side_effect : option ToolSideEffect;
  ec_forbidden_tools : list string }.

Definition relevance_names (c : RetrievalEvalCase) : list string := map fst (ec_relevance c).

(** [RetrievalEvalCase.__post_init__] *)
Definition new_eval_case (c : RetrievalEvalCase) : res RetrievalEvalCase :=
  raise_if (blank (ec_id c) || blank (ec_category c) || blank (ec_query c))
    (ValueError "retrieval eval case identity and query must not be blank") ;;?
  raise_if (negb (bool_decide (NoDup (relevance_names c))))
    (ValueError "retrieval eval relevance labels must be unique") ;;?
  raise_if (existsb (λ label, blank label.1 || (label.2 <=? 0)%Z) (ec_relevance c))
    (ValueError "retrieval eval relevance labels must be positive") ;;?
  raise_if (negb (bool_decide (NoDup (ec_forbidden_tools c))))
    (ValueError "retrieval eval forbidden tools must be unique") ;;?
  raise_if (existsb (λ name, bool_decide (name ∈ ec_forbidden_tools c)) (relevance_names c))
    (ValueError "relevant tools must not also be forbidden") ;;?
  Ok c.

Record RetrievalEvalObservation := mkObservation {
  ob_case_id : string;
  ob_strategy : RetrievalEvalStrategy;
  ob_ranked_tools : list string;
  ob_latency_ms : Q }.

(** [RetrievalEvalObservation.__post_init__]; a rational is finite. *)
Definition new_observation (o : RetrievalEvalObservation) : res RetrievalEvalObservation :=
  raise_if (blank (ob_case_id o))
    (ValueError "retrieval eval observation case id must not be blank") ;;?
  raise_if (negb (Qle_bool 0 (ob_latency_ms o)))
    (ValueError "retrieval eval latency must be finite and non-negative") ;;?
  raise_if (negb (bool_decide (NoDup (ob_ranked_tools o))))
    (ValueError "retrieval eval ranked tools must not contain duplicates") ;;?
  Ok o.

Record RetrievalEvalMetrics := mkMetrics {
  me_strategy : RetrievalEvalStrategy;
  me_case_count : nat;
  me_positive_case_count : nat;
  me_no_match_case_count : nat;
  me_top_1_accuracy : Q;
  me_hit_at_k : Q;
  me_mrr : Q;
  me_ndcg_at_k : Q;
  me_no_match_accuracy : Q;
  me_latency_p50_ms : Q;
  me_latency_p95_ms : Q;
  me_unauthorized_leakage_count : nat;
  me_unauthorized_leakage_rate : Q;
  me_k : Z }.

(** ** Reading the cases *)

Definition eval_error (text : string) : exn := ValueError ("retrieval eval " +:+ text).

(** [value.get(key)] *)
Definition member (d : dict json) (key : string) : json := default JNull (dget key d).

Definition required_string (d : dict json) (key : string) : res string :=
  match member d key with
  | JStr s => raise_if (blank s) (eval_error (key +:+ " must be a non-blank string")) ;;? Ok s
  | _ => Raise (eval_error (key +:+ " must be a non-blank string"))
  end.

Definition optional_string (d : dict json) (key : string) : res (option string) :=
  match member d key with
  | JNull => Ok None
  | _ => let? s := required_string d key in Ok (Some s)
  end.

Definition required_boolean (d : dict json) (key : string) : res bool :=
  match member d key with
  | JBool b => Ok b
  | _ => Raise (eval_error (key +:+ " must be a boolean"))
  end.

Definition positive_integer (value : json) (field_name : string) : res Z :=
  match value with
  | JInt z => raise_if (z <=? 0)%Z (eval_error (field_name +:+ " must be a positive integer")) ;;? Ok z
  | _ => Raise (eval_error (field_name +:+ " must be a positive integer"))
  end.

Definition string_tuple (value : json) (field_name : string) : res (list string) :=
  match value with
  | JArr items =>
      traverse (λ item, match item with
                        | JStr s => if blank s then Raise (eval_error (field_name +:+ " must be a string list"))
                                    else Ok s
                        | _ => Raise (eval_error (field_name +:+ " must be a string list"))
                        end) items
  | _ => Raise (eval_error (field_name +:+ " must be a string list"))
  end.

(** [ToolSideEffect(raw_side_effect) if raw_side_effect is not None else None] *)
Definition optional_side_effect (value : json) : res (option ToolSideEffect) :=
  match value with
  | JNull => Ok None
  | JStr s => let? e := enum_of s in Ok (Some e)
  | _ => Raise (ValueError "not a valid member")
  end.

(** The order of pairs; the names of an object are distinct. *)
Definition label_leb (a b : string * Z) : bool :=
  if bool_decide (a.1 = b.1) then (a.2 <=? b.2)%Z else str_leb a.1 b.1.

Definition parse_case (value : json) : res RetrievalEvalCase :=
  match value with
  | JObj d =>
      match member d "relevance" with
      | JObj relevance =>
          let? id := required_string d "id" in
          let? category := required_string d "category" in
          let? query := required_string d "query" in
          let? labels := traverse (λ item, let? grade := positive_integer item.2 "relevance grade" in
                                           Ok (item.1, grade)) relevance in
          let? lexical_expected := required_boolean d "lexical_expected" in
          let? namespace := optional_string d "namespace" in
          let? side_effect := optional_side_effect (member d "side_effect") in
          let? forbidden := string_tuple (default (JArr []) (dget "forbidden_tools" d)) "forbidden tools" in
          new_eval_case (mkEvalCase id category query (sorted_by label_leb labels) lexical_expected
                           namespace side_effect forbidden)
      | _ => Raise (eval_error "relevance was not an object")
      end
  | _ => Raise (eval_error "case was not an object")
  end.

(** [load_retrieval_eval_cases] of the parsed document *)
Definition load_cases (payload : json) : res (list RetrievalEvalCase) :=
  match payload with
  | JObj d =>
      match member d "cases" with
      | JArr items =>
          let? cases := traverse parse_case items in
          raise_if (bool_decide (cases = []) || negb (bool_decide (NoDup (map ec_id cases))))
            (eval_error "case ids must be non-empty and unique") ;;?
          Ok cases
      | _ => Raise (eval_error "dataset root was invalid")
      end
  | _ => Raise (eval_error "dataset root was invalid")
  end.

(** ** The metrics *)

(** [a / b] of counts *)
Definition ratio (a b : nat) : Q := ((Z.of_nat a # 1) / (Z.of_nat b # 1))%Q.

(** [_percentile]; [values[i]] raises outside the list. *)
Definition at_index (values : list Q) (i : Z) : res Q :=
  match values !! Z.to_nat i with Some x => Ok x | None => Raise OtherException end.
Definition percentile (values : list Q) (quantile : Q) : res Q :=
  match values with
  | [] => Ok 0%Q
  | _ =>
      let ordered := sorted_by Qle_bool values in
      let position := ((Z.of_nat (length ordered - 1) # 1) * quantile)%Q in
      let lower := Qfloor position in
      let upper := Qceiling position in
      if (lower =? upper)%Z then at_index ordered lower
      else
        let fraction := (position - (lower # 1))%Q in
        let? low := at_index ordered lower in
        let? high := at_index ordered upper in
        Ok (low + (high - low) * fraction)%Q
  end.

(** [next((position for position, name in enumerate(ranked, start=1) if ...), None)] *)
Fixpoint first_relevant_rank (relevant : list string) (position : positive) (ranked : list string) :
    option positive :=
  match ranked with
  | [] => None
  | name :: rest => if bool_decide (name ∈ relevant) then Some position
                    else first_relevant_rank relevant (Pos.succ position) rest
  end.

Definition count_if {A} (p : A → bool) (l : list A) : nat := length (filter (λ x, p x = true) l).

Section Metrics.
Context (log2 : positive → Q).

(** [sum((2**grade - 1) / math.log2(position + 1) ...)] from a position on *)
Fixpoint discounted_gain (position : positive) (grades : list Z) : Q :=
  match grades with
  | [] => 0%Q
  | grade :: rest =>
      (((2 ^ grade - 1)%Z # 1) / log2 (Pos.succ position) + discounted_gain (Pos.succ position) rest)%Q
  end.

(** [_ndcg_at_k] *)
Definition grade_of (c : RetrievalEvalCase) (name : string) : Z := default 0%Z (dget name (ec_relevance c)).
Definition ideal_grades (c : RetrievalEvalCase) : list Z :=
  sorted_by (λ a b, (b <=? a)%Z) (dvalues (ec_relevance c)).
Definition ndcg_at_k (c : RetrievalEvalCase) (ranked : list string) (k : Z) : Q :=
  let dcg := discounted_gain 1 (map (grade_of c) (take (Z.to_nat k) ranked)) in
  let ideal_dcg := discounted_gain 1 (take (Z.to_nat k) (ideal_grades c)) in
  if Qeq_bool ideal_dcg 0 then 0%Q else (dcg / ideal_dcg)%Q.

(** The counters of the loop over the cases. *)
Record tally := mkTally {
  ta_top_1 : nat;
  ta_hit_at_k : nat;
  ta_reciprocal_rank_sum : Q;
  ta_ndcg_sum : Q;
  ta_no_match_correct : nat;
  ta_leakage_count : nat;
  ta_returned_count : nat }.

Definition count_case (k : Z) (c : RetrievalEvalCase) (ranked : list string) (t : tally) : tally :=
  let returned := (ta_returned_count t + length ranked)%nat in
  let leakage := (ta_leakage_count t
                  + count_if (λ name, bool_decide (name ∈ ec_forbidden_tools c)) ranked)%nat in
  let relevant := relevance_names c in
  if bool_decide (ec_relevance c = [])
  then mkTally (ta_top_1 t) (ta_hit_at_k t) (ta_reciprocal_rank_sum t) (ta_ndcg_sum t)
         (ta_no_match_correct t + if bool_decide (ranked = []) then 1 else 0) leakage returned
  else mkTally
         (ta_top_1 t + match ranked with
                       | first :: _ => if bool_decide (first ∈ relevant) then 1 else 0
                       | [] => 0
                       end)
         (ta_hit_at_k t + if existsb (λ name, bool_decide (name ∈ relevant)) (take (Z.to_nat k) ranked)
                          then 1 else 0)
         (ta_reciprocal_rank_sum t + match first_relevant_rank relevant 1 ranked with
                                     | Some rank => 1 # rank
                                     | None => 0
                                     end)%Q
         (ta_ndcg_sum t + ndcg_at_k c ranked k)%Q
         (ta_no_match_correct t) leakage returned.

(** [by_case[case.id]]: a missing key raises. *)
Definition observed (by_case : dict RetrievalEvalObservation) (c : RetrievalEvalCase) :
    res RetrievalEvalObservation :=
  match dget (ec_id c) by_case with Some o => Ok o | None => Raise OtherException end.

Fixpoint count_cases (k : Z) (by_case : dict RetrievalEvalObservation)
    (cases : list RetrievalEvalCase) (t : tally) : res tally :=
  match cases with
  | [] => Ok t
  | c :: rest =>
      let? o := observed by_case c in
      count_cases k by_case rest (count_case k c (ob_ranked_tools o) t)
  end.

Definition same_ids (ids ids' : list string) : bool :=
  bool_decide (Forall (λ i, i ∈ ids') ids ∧ Forall (λ i, i ∈ ids) ids').

Definition evaluate_retrieval (cases : list RetrievalEvalCase)
    (observations : list RetrievalEvalObservation) (strategy : RetrievalEvalStrategy) (k : Z) :
    res RetrievalEvalMetrics :=
  raise_if (k <=? 0)%Z (eval_error "k must be positive") ;;?
  let selected := filter (λ o, ob_strategy o = strategy) observations in
  let by_case := foldl (λ d o, dset (ob_case_id o) o d) [] selected in
  raise_if (negb (length by_case =? length selected)%nat)
    (eval_error "observations contained duplicate strategy cases") ;;?
  raise_if (negb (same_ids (dkeys by_case) (map ec_id cases)))
    (eval_error "observations did not cover the dataset") ;;?
  let positives := filter (λ c, ec_relevance c ≠ []) cases in
  let no_matches := filter (λ c, ec_relevance c = []) cases in
  raise_if (bool_decide (positives = []))
    (eval_error "dataset must contain positive cases") ;;?
  let? t := count_cases k by_case cases (mkTally 0 0 0 0 0 0 0) in
  let positive_count := length positives in
  let? latencies := traverse (λ c, let? o := observed by_case c in Ok (ob_latency_ms o)) cases in
  let? p50 := percentile latencies (50 # 100) in
  let? p95 := percentile latencies (95 # 100) in
  Ok (mkMetrics strategy (length cases) positive_count (length no_matches)
        (ratio (ta_top_1 t) positive_count) (ratio (ta_hit_at_k t) positive_count)
        (ta_reciprocal_rank_sum t / (Z.of_nat positive_count # 1))%Q
        (ta_ndcg_sum t / (Z.of_nat positive_count # 1))%Q
        (if bool_decide (no_matches = []) then 1%Q
         else ratio (ta_no_match_correct t) (length no_matches))
        p50 p95 (ta_leakage_count t)
        (if (ta_returned_count t =? 0)%nat then 0%Q
         else ratio (ta_leakage_count t) (ta_returned_count t)) k).
End Metrics.

(** ** Collecting the observations *)

(** The three searches: each answers a ranking of tools or raises. *)
Record EvalSearches := mkEvalSearches {
  es_lexical : SearchPublishedToolsQuery → res (list ScoredHit);
  es_vector : SearchPublishedToolsQuery → res VectorSearchResult;
  es_hybrid : SearchPublishedToolsQuery → res (list ScoredHit) }.

Definition eval_hits (s : EvalSearches) (strategy : RetrievalEvalStrategy)
    (q : SearchPublishedToolsQuery) : res (list ScoredHit) :=
  match strategy with
  | EvalLexical => es_lexical s q
  | EvalVector => let? r := es_vector s q in Ok (vr_hits r)
  | EvalHybrid => es_hybrid s q
  end.

Section Collect.
Context (context : ActorContext) (s : EvalSearches) (limit : Z).
(** [perf_counter()], by how often it was read before *)
Context (perf_counter : nat → Q).

Definition eval_query (c : RetrievalEvalCase) : SearchPublishedToolsQuery :=
  mkSearchQuery context (ec_query c) limit (ec_namespace c) (ec_side_effect c) None.

Definition observe (c : RetrievalEvalCase) (strategy : RetrievalEvalStrategy) (reads : nat) :
    res RetrievalEvalObservation :=
  let started_at := perf_counter reads in
  let? hits := eval_hits s strategy (eval_query c) in
  new_observation (mkObservation (ec_id c) strategy
    (map (λ hit, pt_canonical_name (sh_tool hit)) hits)
    ((perf_counter (S reads) - started_at) * 1000)%Q).

Fixpoint observe_all (matrix : list (RetrievalEvalCase * RetrievalEvalStrategy)) (reads : nat) :
    res (list RetrievalEvalObservation) :=
  match matrix with
  | [] => Ok []
  | (c, strategy) :: rest =>
      let? o := observe c strategy reads in
      let? os := observe_all rest (2 + reads) in
      Ok (o :: os)
  end.

Definition collect_observations (cases : list RetrievalEvalCase) : res (list RetrievalEvalObservation) :=
  raise_if (limit <=? 0)%Z (eval_error "observation limit must be positive") ;;?
  observe_all (c ← cases; map (pair c) eval_strategies) 0.
End Collect.

(** ** The logarithm of ranks

    What the metric relies on of [math.log2]: it does not decrease, and that of 2
    is 1. *)
Class LawfulLog2 (log2 : positive → Q) := {
  log2_two : (log2 2%positive == 1)%Q;
  log2_le p q : (2 ≤ p)%positive → (p ≤ q)%positive → (log2 p <= log2 q)%Q }.

(** The logarithm to [n] binary digits after the point: 2^n-th powers have 2^n
    times the logarithm. *)
Definition log2_digits (n : nat) (p : positive) : Q :=
  Z.log2 (Z.pos p ^ 2 ^ Z.of_nat n) # Pos.pow 2 (Pos.of_nat n).

#[export] Instance log2_digits_lawful n : LawfulLog2 (log2_digits (S n)).
Proof.
  assert (Hpow : Z.pos (Pos.pow 2 (Pos.of_nat (S n))) = (2 ^ Z.of_nat (S n))%Z).
  { rewrite Pos2Z.inj_pow. f_equal. lia. }
  assert (Hpos : (0 < 2 ^ Z.of_nat (S n))%Z) by (apply Z.pow_pos_nonneg; lia).
  split.
  - unfold log2_digits, Qeq. simpl Qnum. simpl Qden. rewrite Hpow, Z.log2_pow2 by lia. lia.
  - intros p q Hp Hq. unfold log2_digits, Qle. simpl Qnum. simpl Qden.
    apply Z.mul_le_mono_nonneg_r; [lia|]. apply Z.log2_le_mono, Z.pow_le_mono_l. lia.
Qed.

(** ** Discounted gains *)

Definition gain (grade : Z) : Z := (2 ^ grade - 1)%Z.
Definition total (l : list Z) : Z := foldr Z.add 0%Z l.

Lemma gain_nonneg g : (0 ≤ g)%Z → (0 ≤ gain g)%Z.
Proof. intros Hg. unfold gain. pose proof (Z.pow_pos_nonneg 2 g). lia. Qed.
Lemma gain_le g h : (g ≤ h)%Z → (gain g ≤ gain h)%Z.
Proof. intros Hg. unfold gain. pose proof (Z.pow_le_mono_r 2 g h). lia. Qed.
Lemma gain_pos g : (0 < g)%Z → (0 < gain g)%Z.
Proof. intros Hg. unfold gain. pose proof (Z.pow_gt_1 2 g). lia. Qed.

Lemma total_nonneg l : Forall (λ z, (0 ≤ z)%Z) l → (0 ≤ total l)%Z.
Proof. induction 1; simpl; lia. Qed.
Lemma total_perm l l' : l ≡ₚ l' → total l = total l'.
Proof. induction 1; simpl; lia. Qed.

(** At most [j] of some values sum up to no more than the [j] largest. *)
Lemma best_prefix (l s : list Z) j :
  StronglySorted (λ a b, (b ≤ a)%Z) s → Forall (λ z, (0 ≤ z)%Z) s → l ⊆+ s → length l ≤ j →
  (total l ≤ total (take j s))%Z.
Proof.
  intros Hs. revert l j. induction Hs as [|x s Hs IH Hx]; intros l j Hn Hsub Hj.
  - apply submseteq_nil_r in Hsub as ->. by rewrite take_nil.
  - apply Forall_cons in Hn as [Hx0 Hn]. destruct j as [|j].
    { destruct l; simpl in *; [done|lia]. }
    simpl. apply submseteq_cons_r in Hsub as [Hsub|(l' & Hl & Hsub)].
    + destruct l as [|y l]; simpl in *.
      { apply Z.add_nonneg_nonneg; [done|]. by apply total_nonneg, Forall_take. }
      assert (y ≤ x)%Z as Hyx.
      { rewrite Forall_forall in Hx. apply Hx. eapply elem_of_submseteq; [|exact Hsub]. by left. }
      assert (l ⊆+ s) as Hls by (etrans; [by apply submseteq_cons|exact Hsub]).
      specialize (IH l j Hn Hls ltac:(lia)). lia.
    + rewrite (total_perm _ _ Hl). simpl. apply Permutation_length in Hl. simpl in Hl.
      specialize (IH l' j Hn Hsub ltac:(lia)). lia.
Qed.

Section Gains.
Context (log2 : positive → Q) `{!LawfulLog2 log2}.
Open Scope Q_scope.

Lemma log2_ge_1 p : 1 <= log2 (Pos.succ p).
Proof. rewrite <-log2_two. apply log2_le; lia. Qed.

Lemma discount_pos p : 0 < / log2 (Pos.succ p).
Proof. apply Qinv_lt_0_compat. pose proof (log2_ge_1 p). lra. Qed.

Lemma discount_le p : / log2 (Pos.succ (Pos.succ p)) <= / log2 (Pos.succ p).
Proof.
  pose proof (log2_ge_1 p). pose proof (log2_ge_1 (Pos.succ p)).
  assert (log2 (Pos.succ p) <= log2 (Pos.succ (Pos.succ p))) by (apply log2_le; lia).
  apply (Qmult_le_r _ _ (log2 (Pos.succ p) * log2 (Pos.succ (Pos.succ p)))); [nra|].
  field_simplify; lra.
Qed.

Lemma gain_nonneg_sum p l : Forall (λ g, (0 ≤ g)%Z) l → 0 <= discounted_gain log2 p l.
Proof.
  intros Hl. revert p. induction Hl as [|g l Hg Hl IH]; intros p; simpl; [lra|].
  specialize (IH (Pos.succ p)). pose proof (discount_pos p). apply gain_nonneg in Hg. unfold gain in Hg.
  assert (0 <= (2 ^ g - 1)%Z # 1) by (unfold Qle; simpl; lia). unfold Qdiv. nra.
Qed.

(** A list whose prefixes all gain less is worth less, by as much as [s] may be
    in front. *)
Lemma prefix_gains (a b : list Z) (s : Z) p :
  Forall (λ g, (0 ≤ g)%Z) b → (0 ≤ s)%Z →
  (∀ j, (total (map gain (take j a)) ≤ s + total (map gain (take j b)))%Z) →
  discounted_gain log2 p a <= (s # 1) / log2 (Pos.succ p) + discounted_gain log2 p b.
Proof.
  revert b s p. induction a as [|x a IH]; intros b s p Hb Hs Hj.
  - pose proof (gain_nonneg_sum p b Hb). pose proof (discount_pos p).
    assert (0 <= s # 1) by (unfold Qle; simpl; lia). simpl. unfold Qdiv. nra.
  - set (y := match b with [] => 0%Z | g :: _ => gain g end).
    set (b' := match b with [] => [] | _ :: b' => b' end).
    assert (0 ≤ s + y - gain x)%Z as Hs'.
    { specialize (Hj 1%nat). destruct b; simpl in *; subst y; rewrite ?take_0 in Hj; simpl in Hj; lia. }
    assert (discounted_gain log2 p b == (y # 1) / log2 (Pos.succ p) + discounted_gain log2 (Pos.succ p) b')
      as Hdb.
    { destruct b; unfold y, b', Qdiv; simpl; [change (0 # 1) with 0; ring|reflexivity]. }
    assert (Forall (λ g, (0 ≤ g)%Z) b') as Hb' by (destruct Hb; [constructor|done]).
    specialize (IH b' (s + y - gain x)%Z (Pos.succ p) Hb' Hs'). rewrite Hdb. simpl.
    assert (discounted_gain log2 (Pos.succ p) a <=
      ((s + y - gain x)%Z # 1) / log2 (Pos.succ (Pos.succ p)) + discounted_gain log2 (Pos.succ p) b') as Hle.
    { apply IH. intros j. specialize (Hj (S j)). unfold y, b'. destruct b; simpl in *;
        rewrite ?take_nil in *; simpl in *; lia. }
    pose proof (discount_le p). pose proof (discount_pos p). pose proof (discount_pos (Pos.succ p)).
    fold (gain x). assert (0 <= (s + y - gain x)%Z # 1) as Hq by (unfold Qle; simpl; lia).
    assert ((s + y - gain x)%Z # 1 == (s # 1) + (y # 1) - (gain x # 1)) as Hsum
      by (unfold Qeq; simpl; lia).
    unfold Qdiv in *. rewrite Hsum in *. nra.
Qed.
End Gains.

(** ** The normalised gain *)

(** What the constructor of a case checks of its labels. *)
Definition valid_labels (c : RetrievalEvalCase) : Prop :=
  NoDup (relevance_names c) ∧ Forall (λ label, (0 < label.2)%Z) (ec_relevance c).

Lemma new_eval_case_labels c c' : new_eval_case c = Ok c' → c' = c ∧ valid_labels c.
Proof.
  unfold new_eval_case. intros H. guards H. injection H as <-. split; [done|].
  split; [done|].
  apply Forall_forall. intros label Hl. apply list_elem_of_In in Hl.
  destruct (Z.ltb_spec 0 label.2); [done|]. exfalso. apply not_true_iff_false in G1. apply G1.
  apply existsb_exists. exists label. split; [done|]. apply orb_true_iff. right. by apply Z.leb_le.
Qed.

Lemma gains_sorted s :
  StronglySorted (λ a b, (b ≤ a)%Z) s → StronglySorted (λ a b, (b ≤ a)%Z) (map gain s).
Proof.
  induction 1 as [|x s Hs IH Hx]; simpl; constructor; [done|].
  apply Forall_forall. intros y (z & -> & Hz)%list_elem_of_fmap.
  rewrite Forall_forall in Hx. apply gain_le, Hx, Hz.
Qed.

Lemma ideal_grades_perm c : ideal_grades c ≡ₚ dvalues (ec_relevance c).
Proof. apply sorted_by_perm. Qed.

Lemma ideal_grades_sorted c : StronglySorted (λ a b, (b ≤ a)%Z) (ideal_grades c).
Proof.
  assert (ordered (λ a b, (b <=? a)%Z) (ideal_grades c)) as Ho.
  { apply sorted_by_ordered; [intros x y|intros x y z]; rewrite !Z.leb_le; lia. }
  induction Ho as [|x s Hs IH Hx]; constructor; [done|].
  eapply Forall_impl; [exact Hx|]. intros y. simpl. by rewrite Z.leb_le.
Qed.

Lemma ideal_grades_pos c : valid_labels c → Forall (λ g, (0 < g)%Z) (ideal_grades c).
Proof.
  intros [_ Hp]. rewrite ideal_grades_perm. unfold dvalues. apply Forall_forall.
  intros g (label & -> & Hl)%list_elem_of_fmap. rewrite Forall_forall in Hp. by apply Hp.
Qed.

Lemma graded_names c : NoDup (relevance_names c) → map (grade_of c) (relevance_names c) = dvalues (ec_relevance c).
Proof.
  intros Hn. unfold relevance_names, dvalues. rewrite map_map. apply map_ext_in.
  intros [name g] Hin. unfold grade_of. simpl.
  apply list_elem_of_In in Hin. apply dget_mem in Hin; [|done]. by rewrite Hin.
Qed.

Lemma ungraded_gain c l :
  total (map gain (map (grade_of c) l))
  = total (map gain (map (grade_of c) (filter (λ name, name ∈ relevance_names c) l))).
Proof.
  induction l as [|name l IH]; [done|]. rewrite filter_cons. simpl. rewrite IH.
  destruct (decide _) as [_|Hn]; [done|]. unfold grade_of at 1.
  destruct (dget name (ec_relevance c)) as [g|] eqn:Eg; [|done].
  exfalso. apply Hn. apply dget_Some_mem in Eg. unfold relevance_names.
  apply list_elem_of_fmap. by exists (name, g).
Qed.

Lemma ranked_prefix c l j :
  valid_labels c → NoDup l → length l ≤ j →
  (total (map gain (map (grade_of c) l)) ≤ total (map gain (take j (ideal_grades c))))%Z.
Proof.
  intros Hv Hl Hj. rewrite ungraded_gain. rewrite <-firstn_map.
  apply best_prefix.
  - apply gains_sorted, ideal_grades_sorted.
  - apply Forall_forall. intros y (z & -> & Hz)%list_elem_of_fmap.
    pose proof (ideal_grades_pos c Hv) as Hp. rewrite Forall_forall in Hp.
    apply gain_nonneg. specialize (Hp z Hz). simpl in Hp. lia.
  - rewrite ideal_grades_perm, <-graded_names by apply Hv.
    apply fmap_submseteq, fmap_submseteq, NoDup_submseteq; [by apply NoDup_filter|].
    by intros x [Hx _]%list_elem_of_filter.
  - rewrite !length_map. etrans; [|exact Hj]. apply length_filter.
Qed.

(** ** Percentiles *)

Lemma sorted_lookup (l : list Q) i j x y :
  StronglySorted (λ a b, Qle_bool a b = true) l → l !! i = Some x → l !! j = Some y → i ≤ j →
  (x <= y)%Q.
Proof.
  intros Hs. revert i j. induction Hs as [|z l Hs IH Hz]; intros [|i] [|j] Hi Hj Hij; simpl in *; try done.
  - simplify_eq. apply Qle_refl.
  - simplify_eq. apply list_elem_of_lookup_2 in Hj. rewrite Forall_forall in Hz.
    by apply Qle_bool_iff, Hz.
  - lia.
  - apply (IH i j); [done..|lia].
Qed.

Lemma Qle_bool_total x y : Qle_bool x y = true ∨ Qle_bool y x = true.
Proof. rewrite !Qle_bool_iff. destruct (Qlt_le_dec y x); [right; by apply Qlt_le_weak|by left]. Qed.
Lemma Qle_bool_trans x y z : Qle_bool x y = true → Qle_bool y z = true → Qle_bool x z = true.
Proof. rewrite !Qle_bool_iff. apply Qle_trans. Qed.

(** The value of a percentile: between two neighbours of the sorted list. *)
Definition rank_position (n : nat) (q : Q) : Q := ((Z.of_nat (n - 1) # 1) * q)%Q.

Lemma percentile_value (values : list Q) q :
  values ≠ [] → (0 <= q <= 1)%Q →
  let ordered := sorted_by Qle_bool values in
  let i := Z.to_nat (Qfloor (rank_position (length ordered) q)) in
  ∃ x a, percentile values q = Ok x ∧ ordered !! i = Some a ∧
    (a <= default a (ordered !! S i))%Q ∧
    (x == a + (default a (ordered !! S i) - a)
              * (rank_position (length ordered) q - (Qfloor (rank_position (length ordered) q) # 1)))%Q.
Proof.
  intros Hne [Hq0 Hq1] ordered i.
  assert (percentile values q =
    let position := rank_position (length ordered) q in
    if (Qfloor position =? Qceiling position)%Z then at_index ordered (Qfloor position)
    else
      let? low := at_index ordered (Qfloor position) in
      let? high := at_index ordered (Qceiling position) in
      Ok (low + (high - low) * (position - (Qfloor position # 1)))%Q) as ->.
  { by destruct values. }
  set (position := rank_position (length ordered) q). cbv zeta.
  assert (length ordered = length values) as Hlen by apply length_sorted_by.
  assert (0 < length ordered)%nat as Hpos by (rewrite Hlen; destruct values; [done|simpl; lia]).
  assert (0 <= position)%Q as Hp0.
  { unfold position, rank_position. apply Qmult_le_0_compat; [unfold Qle; simpl; lia|done]. }
  assert (position <= (Z.of_nat (length ordered - 1) # 1))%Q as Hp1.
  { unfold position, rank_position.
    assert (0 <= Z.of_nat (length ordered - 1) # 1)%Q by (unfold Qle; simpl; lia). nra. }
  assert (0 ≤ Qfloor position)%Z as Hf0.
  { change 0%Z with (Qfloor 0). by apply Qfloor_resp_le. }
  assert (Qceiling position ≤ Z.of_nat (length ordered - 1))%Z as Hc1.
  { rewrite <-(Qceiling_Z (Z.of_nat (length ordered - 1))). by apply Qceiling_resp_le. }
  assert (Qfloor position ≤ Qceiling position)%Z as Hfc.
  { rewrite Zle_Qle. eapply Qle_trans; [apply Qfloor_le|apply Qle_ceiling]. }
  assert (is_Some (ordered !! i)) as [a Ha] by (apply lookup_lt_is_Some; unfold i; fold position; lia).
  assert (Hsorted : StronglySorted (λ a b, Qle_bool a b = true) ordered).
  { apply sorted_by_ordered; [apply Qle_bool_total|apply Qle_bool_trans]. }
  assert (a <= default a (ordered !! S i))%Q as Hle.
  { destruct (ordered !! S i) as [b|] eqn:Eb; simpl; [|apply Qle_refl].
    apply (sorted_lookup ordered i (S i)); [done..|lia]. }
  assert (at_index ordered (Qfloor position) = Ok a) as Hat.
  { unfold at_index. fold i. unfold i in Ha. fold position in Ha. by rewrite Ha. }
  rewrite Hat. destruct (Z.eqb_spec (Qfloor position) (Qceiling position)) as [Heq|Hneq].
  - exists a, a. split_and!; try done.
    assert (position == (Qfloor position # 1))%Q as Hpz.
    { apply Qle_antisym; [rewrite Heq; apply Qle_ceiling|apply Qfloor_le]. }
    rewrite <-Hpz. ring.
  - assert (Qceiling position = Qfloor position + 1)%Z as Hceil.
    { apply Z.le_antisymm; [|lia]. pose proof (Qlt_floor position) as Hlt.
      pose proof (Qceiling_lt position) as Hlt'.
      assert (Qceiling position - 1 < Qfloor position + 1)%Z by (rewrite Zlt_Qlt; eapply Qlt_trans; eauto).
      lia. }
    assert (is_Some (ordered !! S i)) as [b Hb].
    { apply lookup_lt_is_Some. unfold i. fold position. lia. }
    assert (at_index ordered (Qceiling position) = Ok b) as ->.
    { unfold at_index. rewrite Hceil. replace (Z.to_nat (Qfloor position + 1)) with (S i); [by rewrite Hb|].
      unfold i. fold position. lia. }
    rewrite Hb in *. simpl in *. eexists _, a. split_and!; [done|done|done|reflexivity].
Qed.

Lemma percentile_defined values q : (0 <= q <= 1)%Q → ∃ x, percentile values q = Ok x.
Proof.
  intros Hq. destruct (decide (values = [])) as [->|Hne]; [by eexists|].
  destruct (percentile_value values q Hne Hq) as (x & _ & Hx & _). by exists x.
Qed.

Lemma percentile_mono values q q' x y :
  (0 <= q)%Q → (q <= q')%Q → (q' <= 1)%Q → percentile values q = Ok x → percentile values q' = Ok y →
  (x <= y)%Q.
Proof.
  intros H0 H1 H2 Hx Hy. destruct (decide (values = [])) as [->|Hne].
  { injection Hx as <-. injection Hy as <-. apply Qle_refl. }
  destruct (percentile_value values q Hne ltac:(split; lra)) as (x' & a & Hx' & Ha & Hab & Hxv).
  destruct (percentile_value values q' Hne ltac:(split; lra)) as (y' & a' & Hy' & Ha' & Hab' & Hyv).
  rewrite Hx in Hx'. rewrite Hy in Hy'. injection Hx' as <-. injection Hy' as <-.
  set (ordered := sorted_by Qle_bool values) in *.
  set (p := rank_position (length ordered) q) in *. set (p' := rank_position (length ordered) q') in *.
  assert (p <= p')%Q as Hpp.
  { unfold p, p', rank_position. assert (0 <= Z.of_nat (length ordered - 1) # 1)%Q by (unfold Qle; simpl; lia). nra. }
  assert (0 <= p)%Q as Hp0.
  { unfold p, rank_position. apply Qmult_le_0_compat; [unfold Qle; simpl; lia|done]. }
  assert (0 ≤ Qfloor p)%Z by (change 0%Z with (Qfloor 0); by apply Qfloor_resp_le).
  pose proof (Qfloor_resp_le _ _ Hpp) as Hff.
  pose proof (Qfloor_le p) as Hf. pose proof (Qfloor_le p') as Hf'.
  pose proof (Qlt_floor p) as Hl. unfold inject_Z in Hf, Hf', Hl.
  assert (((Qfloor p + 1)%Z # 1) == (Qfloor p # 1) + 1)%Q as Hone by (unfold Qeq; simpl; lia).
  rewrite Hone in Hl. rewrite Hxv, Hyv.
  destruct (Z.eq_dec (Qfloor p) (Qfloor p')) as [Heq|Hneq].
  - rewrite <-Heq in Ha', Hf', Hab' |- *. rewrite Ha in Ha'. injection Ha' as <-.
    set (b := default a (ordered !! S (Z.to_nat (Qfloor p)))) in *. nra.
  - assert (S (Z.to_nat (Qfloor p)) ≤ Z.to_nat (Qfloor p')) as Hij by lia.
    destruct (ordered !! S (Z.to_nat (Qfloor p))) as [b|] eqn:Eb.
    2: { apply lookup_ge_None in Eb. apply lookup_lt_Some in Ha'. lia. }
    simpl in *.
    assert (b <= a')%Q as Hba.
    { apply (sorted_lookup ordered (S (Z.to_nat (Qfloor p))) (Z.to_nat (Qfloor p'))); [|done..].
      apply sorted_by_ordered; [apply Qle_bool_total|apply Qle_bool_trans]. }
    set (b' := default a' (ordered !! S (Z.to_nat (Qfloor p')))) in *. nra.
Qed.

(** ** The counters *)

Section Rates.
Context (log2 : positive → Q) `{!LawfulLog2 log2}.
Open Scope Q_scope.

Lemma grade_nonneg c name : valid_labels c → (0 ≤ grade_of c name)%Z.
Proof.
  intros [_ Hp]. unfold grade_of. destruct (dget name (ec_relevance c)) as [g|] eqn:Eg; simpl; [|lia].
  apply dget_Some_mem in Eg. rewrite Forall_forall in Hp. specialize (Hp _ Eg). simpl in Hp. lia.
Qed.

Lemma ndcg_rate c ranked k :
  valid_labels c → NoDup ranked → 0 <= ndcg_at_k log2 c ranked k /\ ndcg_at_k log2 c ranked k <= 1.
Proof.
  intros Hv Hr. unfold ndcg_at_k.
  set (ideal := take (Z.to_nat k) (ideal_grades c)). set (got := map (grade_of c) (take (Z.to_nat k) ranked)).
  assert (Forall (λ g, (0 ≤ g)%Z) ideal) as Hi.
  { apply Forall_take. eapply Forall_impl; [by apply ideal_grades_pos|]. simpl. lia. }
  assert (0 <= discounted_gain log2 1 ideal) as Hi0 by by apply gain_nonneg_sum.
  assert (0 <= discounted_gain log2 1 got) as Hg0.
  { apply gain_nonneg_sum; [done|]. apply Forall_forall. intros g (name & -> & _)%list_elem_of_fmap.
    by apply grade_nonneg. }
  assert (discounted_gain log2 1 got <= discounted_gain log2 1 ideal) as Hle.
  { pose proof (prefix_gains log2 got ideal 0 1 Hi ltac:(lia)) as Hp. change (0 # 1) with 0 in Hp.
    unfold Qdiv in Hp. rewrite Qmult_0_l, Qplus_0_l in Hp. apply Hp. intros j. rewrite Z.add_0_l.
    unfold got, ideal. rewrite firstn_map, !take_take.
    apply ranked_prefix; [done| |rewrite length_take; lia].
    eapply sublist_NoDup; [exact Hr|apply sublist_take]. }
  destruct (Qeq_bool _ _) eqn:E; [split; [apply Qle_refl|discriminate]|].
  assert (0 < discounted_gain log2 1 ideal) as Hpos.
  { apply Qle_lteq in Hi0 as [Hi0|Hi0]; [done|]. exfalso. apply Qeq_bool_neq in E. by apply E. }
  split; [apply Qle_shift_div_l; [done|]; lra|apply Qle_shift_div_r; [done|]; lra].
Qed.

Lemma first_rank_head relevant p name rest :
  name ∈ relevant → first_relevant_rank relevant p (name :: rest) = Some p.
Proof. intros Hn. simpl. by rewrite bool_decide_true. Qed.

(** The counters after [p] positive cases and [n] without a match. *)
Definition tally_ok (p n : nat) (t : tally) : Prop :=
  (ta_top_1 t ≤ ta_hit_at_k t ≤ p)%nat ∧
  (Z.of_nat (ta_top_1 t) # 1) <= ta_reciprocal_rank_sum t /\
  ta_reciprocal_rank_sum t <= (Z.of_nat p # 1) /\
  0 <= ta_ndcg_sum t /\ ta_ndcg_sum t <= (Z.of_nat p # 1) ∧
  (ta_no_match_correct t ≤ n)%nat ∧ (ta_leakage_count t ≤ ta_returned_count t)%nat.

Lemma of_nat_plus a b : (Z.of_nat (a + b) # 1) == (Z.of_nat a # 1) + (Z.of_nat b # 1).
Proof. unfold Qeq. simpl. lia. Qed.

Lemma count_case_ok k c ranked p n t :
  (0 < k)%Z → valid_labels c → NoDup ranked → tally_ok p n t →
  tally_ok (p + if bool_decide (ec_relevance c = []) then 0 else 1)
    (n + if bool_decide (ec_relevance c = []) then 1 else 0) (count_case log2 k c ranked t).
Proof.
  intros Hk Hv Hr ((Ht & Hh) & Hr0 & Hr1 & Hn0 & Hn1 & Hm & Hl).
  assert (count_if (λ name, bool_decide (name ∈ ec_forbidden_tools c)) ranked ≤ length ranked)%nat as Hc
    by apply length_filter.
  unfold count_case. destruct (bool_decide (ec_relevance c = [])) eqn:Ec.
  - rewrite Nat.add_0_r. unfold tally_ok. simpl. split_and!; try done; [|lia].
    destruct (bool_decide (ranked = [])); lia.
  - pose proof (ndcg_rate c ranked k Hv Hr) as [Hd0 Hd1].
    assert (Hplus : (Z.of_nat (p + 1) # 1) == (Z.of_nat p # 1) + 1) by (rewrite of_nat_plus; reflexivity).
    destruct ranked as [|first rest].
    + rewrite !Nat.add_0_r. unfold tally_ok. simpl ta_top_1. simpl ta_hit_at_k.
      cbn [ta_reciprocal_rank_sum ta_ndcg_sum ta_no_match_correct ta_leakage_count ta_returned_count
           first_relevant_rank]. rewrite !Hplus, take_nil. simpl existsb.
      split_and!; try lia; try lra.
    + set (first_hits := bool_decide (first ∈ relevance_names c)).
      set (hits := existsb _ (take (Z.to_nat k) (first :: rest))).
      set (rank := match first_relevant_rank (relevance_names c) 1 (first :: rest) with
                   | Some rank => 1 # rank | None => 0 end).
      assert (first_hits = true → hits = true) as Hfh.
      { unfold first_hits, hits. destruct (Z.to_nat k) eqn:Ek; [lia|]. simpl. by intros ->. }
      assert (first_hits = true → rank == 1) as Hf1.
      { intros Hf%bool_decide_eq_true. unfold rank. by rewrite first_rank_head. }
      assert (0 <= rank /\ rank <= 1) as [Hk0 Hk1].
      { unfold rank. destruct (first_relevant_rank _ _ _); [|split; [apply Qle_refl|discriminate]].
        split; unfold Qle; simpl; lia. }
      unfold tally_ok.
      cbn [ta_top_1 ta_hit_at_k ta_reciprocal_rank_sum ta_ndcg_sum ta_no_match_correct ta_leakage_count
           ta_returned_count].
      fold first_hits. fold hits. fold rank. clearbody rank first_hits hits. rewrite !Hplus.
      destruct first_hits; [rewrite Hfh by done|].
      * rewrite of_nat_plus. specialize (Hf1 eq_refl). change (Z.of_nat 1 # 1) with 1. split_and!; try lia; try lra.
      * rewrite Nat.add_0_r. split_and!; try lia; try lra; destruct hits; lia.
Qed.

Lemma count_cases_ok k by_case cases p n t t' :
  (0 < k)%Z → Forall valid_labels cases →
  (∀ i o, dget i by_case = Some o → NoDup (ob_ranked_tools o)) →
  tally_ok p n t → count_cases log2 k by_case cases t = Ok t' →
  tally_ok (p + length (filter (λ c, ec_relevance c ≠ []) cases))
    (n + length (filter (λ c, ec_relevance c = []) cases)) t'.
Proof.
  intros Hk Hcs Ho. revert p n t. induction Hcs as [|c cases Hc Hcs IH]; intros p n t Ht H; simpl in H.
  - injection H as <-. by rewrite !Nat.add_0_r.
  - apply rbind_Ok_inv in H as (o & Hob & H). unfold observed in Hob.
    destruct (dget _ _) as [o'|] eqn:Eo; [|done]. injection Hob as ->.
    pose proof (count_case_ok k c (ob_ranked_tools o) p n t Hk Hc (Ho _ _ Eo) Ht) as Ht'.
    specialize (IH _ _ _ Ht' H). rewrite !filter_cons.
    destruct (bool_decide_reflect (ec_relevance c = [])) as [E|E].
    + rewrite decide_False by (by intros []). rewrite decide_True by done. simpl length.
      by rewrite Nat.add_0_r, <-Nat.add_assoc in IH.
    + rewrite decide_True by done. rewrite decide_False by done. simpl length.
      by rewrite Nat.add_0_r, <-Nat.add_assoc in IH.
Qed.
End Rates.

Lemma new_observation_Ok o o' :
  new_observation o = Ok o' → NoDup (ob_ranked_tools o) ∧ (0 <= ob_latency_ms o)%Q.
Proof.
  unfold new_observation. intros H. guards H. split; [done|]. by apply Qle_bool_iff, negb_false_iff.
Qed.

(** ** The theorems *)

Lemma ratio_le a b n : (a ≤ b)%nat → (ratio a n <= ratio b n)%Q.
Proof.
  intros Hab. unfold ratio. apply Qmult_le_compat_r; [unfold Qle; simpl; lia|].
  apply Qinv_le_0_compat. unfold Qle. simpl. lia.
Qed.
Lemma ratio_0 n : (ratio 0 n == 0)%Q.
Proof. unfold ratio. change (Z.of_nat 0 # 1) with 0%Q. unfold Qdiv. ring. Qed.
Lemma ratio_1 n : (0 < n)%nat → (ratio n n == 1)%Q.
Proof. intros Hn. unfold ratio. field. unfold Qeq. simpl. lia. Qed.
Lemma ratio_rate a n : (a ≤ n)%nat → (0 < n)%nat → (0 <= ratio a n /\ ratio a n <= 1)%Q.
Proof.
  intros Ha Hn. split; [rewrite <-(ratio_0 n); apply ratio_le; lia|].
  rewrite <-(ratio_1 n) by done. by apply ratio_le.
Qed.

Lemma mean_le (x y : Q) n : (0 < n)%nat → (x <= y)%Q → (x / (Z.of_nat n # 1) <= y / (Z.of_nat n # 1))%Q.
Proof.
  intros Hn Hxy. apply Qmult_le_compat_r; [done|]. apply Qinv_le_0_compat. unfold Qle. simpl. lia.
Qed.

Lemma percentile_nonneg values q x :
  (0 <= q <= 1)%Q → Forall (λ v, (0 <= v)%Q) values → percentile values q = Ok x → (0 <= x)%Q.
Proof.
  intros Hq Hv Hx. destruct (decide (values = [])) as [->|Hne]; [injection Hx as <-; apply Qle_refl|].
  destruct (percentile_value values q Hne Hq) as (x' & a & Hx' & Ha & Hab & Hxv).
  rewrite Hx in Hx'. injection Hx' as <-. rewrite Hxv.
  apply list_elem_of_lookup_2 in Ha. apply elem_of_sorted_by in Ha. rewrite Forall_forall in Hv.
  apply Hv in Ha. set (p := rank_position _ _) in *.
  pose proof (Qfloor_le p) as Hf. unfold inject_Z in Hf.
  set (b := default a _) in *. nra.
Qed.

(** What is collected by case comes from the selected observations. *)
Definition by_case_of (selected : list RetrievalEvalObservation) : dict RetrievalEvalObservation :=
  foldl (λ d o, dset (ob_case_id o) o d) [] selected.

Lemma by_case_mem selected i o :
  dget i (by_case_of selected) = Some o → o ∈ selected ∧ ob_case_id o = i.
Proof.
  unfold by_case_of. induction selected as [|x l IH] using rev_ind; [done|].
  rewrite foldl_app. simpl. rewrite dget_dset. destruct (decide _) as [->|Hne].
  - intros [= ->]. split; [|done]. apply elem_of_app. right. apply list_elem_of_here.
  - intros Hi. destruct (IH Hi) as [Ho Hid]. split; [|done]. apply elem_of_app. by left.
Qed.

Lemma split_cases (cases : list RetrievalEvalCase) :
  length cases = (length (filter (λ c, ec_relevance c ≠ []) cases)
                  + length (filter (λ c, ec_relevance c = []) cases))%nat.
Proof.
  induction cases as [|c cases IH]; [done|]. rewrite !filter_cons.
  destruct (decide (ec_relevance c = [])) as [E|E]; simpl;
    [rewrite decide_False by (by intros []); lia|rewrite decide_True by done; simpl; lia].
Qed.

Lemma not_nil_length {A} (l : list A) : l ≠ [] → (0 < length l)%nat.
Proof. destruct l; [done|simpl; lia]. Qed.


(** ** Collected observations *)

Lemma observe_all_Ok context s limit clock matrix reads os :
  observe_all context s limit clock matrix reads = Ok os →
  Forall2 (λ m o, ob_case_id o = ec_id m.1 ∧ ob_strategy o = m.2 ∧ new_observation o = Ok o) matrix os.
Proof.
  revert reads os. induction matrix as [|[c st] matrix IH]; intros reads os H; simpl in H.
  - injection H as <-. constructor.
  - apply rbind_Ok_inv in H as (o & Ho & H). apply rbind_Ok_inv in H as (os' & Hos & [= <-]).
    constructor; [|by eapply IH]. unfold observe in Ho.
    apply rbind_Ok_inv in Ho as (hits & _ & Ho). pose proof Ho as Ho'.
    unfold new_observation in Ho. guards Ho. injection Ho as <-. done.
Qed.

Lemma observed_ids (strategy : RetrievalEvalStrategy) cases os :
  Forall2 (λ m o, ob_case_id o = ec_id m.1 ∧ ob_strategy o = m.2 ∧ new_observation o = Ok o)
    (c ← cases; map (pair c) eval_strategies) os →
  map ob_case_id (filter (λ o, ob_strategy o = strategy) os) = map ec_id cases.
Proof.
  revert os. induction cases as [|c cases IH]; intros os Hos.
  - apply Forall2_nil_inv_l in Hos as ->. done.
  - cbn [mbind list_bind] in Hos. simpl in Hos.
    do 3 (apply Forall2_cons_inv_l in Hos as (? & ? & (? & ? & _) & Hos & ->)). specialize (IH _ Hos).
    simpl in *. rewrite !filter_cons. destruct strategy; repeat case_decide; simpl; congruence.
Qed.

Lemma by_case_keys selected :
  NoDup (map ob_case_id selected) →
  dkeys (by_case_of selected) = map ob_case_id selected ∧
  (∀ o, o ∈ selected → dget (ob_case_id o) (by_case_of selected) = Some o).
Proof.
  unfold by_case_of. induction selected as [|x l IH] using rev_ind; [intros _; split; [done|]; intros o Ho; by apply not_elem_of_nil in Ho|].
  rewrite map_app. intros (Hn & Hx & _)%NoDup_app. specialize (IH Hn) as [Hk Hg].
  rewrite foldl_app. simpl. fold (by_case_of l) in *.
  assert (dget (ob_case_id x) (by_case_of l) = None) as Hfresh.
  { apply dget_None. rewrite Hk. intros Hin. apply (Hx _ Hin). apply list_elem_of_here. }
  split.
  - by rewrite dkeys_dset, Hfresh, Hk.
  - intros o [Ho|Ho%list_elem_of_singleton]%elem_of_app.
    + rewrite dget_dset, decide_False; [by apply Hg|].
      intros Heq. apply (Hx (ob_case_id o)); [apply list_elem_of_fmap; eauto|].
      rewrite Heq. apply list_elem_of_here.
    + subst. by rewrite dget_dset, decide_True.
Qed.

Lemma load_cases_Ok payload cases :
  load_cases payload = Ok cases →
  NoDup (map ec_id cases) ∧ Forall (λ c, new_eval_case c = Ok c) cases.
Proof.
  unfold load_cases. destruct payload as [| | | | | |d]; try done.
  destruct (member d "cases") as [| | | | |items|]; try done. intros H.
  apply rbind_Ok_inv in H as (cs & Hcs & H). guards H. injection H as <-.
  apply orb_false_iff in G as [_ Hn]. apply negb_false_iff, bool_decide_eq_true in Hn. split; [done|].
  apply traverse_Ok in Hcs. eapply Forall2_Forall_r; [exact Hcs|]. apply Forall_forall.
  intros item _ c Hc. unfold parse_case in Hc. repeat case_match; try done. guards Hc.
  by apply new_eval_case_labels in Hc as Hc'; destruct Hc' as [-> _].
Qed.

Lemma observed_all by_case cases :
  (∀ c, c ∈ cases → is_Some (dget (ec_id c) by_case)) →
  (∃ lats, traverse (λ c, let? o := observed by_case c in Ok (ob_latency_ms o)) cases = Ok lats) ∧
  ∀ log2 k t, ∃ t', count_cases log2 k by_case cases t = Ok t'.
Proof.
  induction cases as [|c cases IH]; intros Hall; [split; [by eexists|intros; by eexists]|].
  destruct IH as [[lats Hl] IH]; [intros; apply Hall; by apply list_elem_of_further|].
  destruct (Hall c (list_elem_of_here _ _)) as [o Ho]. split.
  - simpl. unfold observed at 1. rewrite Ho. simpl. rewrite Hl. by eexists.
  - intros log2 k t. simpl. unfold observed. rewrite Ho. simpl. apply IH.
Qed.
Section Theorems.
Context (log2 : positive → Q) `{!LawfulLog2 log2}.

(** C39: the metrics of an evaluation are rates.  Whatever the rankings of a
    valid benchmark, every metric is a number between 0 and 1: a ranking's
    discounted gain never exceeds that of the ideal order of the grades, the first
    place is right at most as often as one of the first [k] is and counts at most
    its reciprocal rank, and the median latency is not above the 95th percentile. *)
Theorem metrics_are_rates cases observations strategy k m :
  Forall (λ c, new_eval_case c = Ok c) cases →
  Forall (λ o, new_observation o = Ok o) observations →
  evaluate_retrieval log2 cases observations strategy k = Ok m →
  (0 <= me_top_1_accuracy m /\ me_top_1_accuracy m <= me_hit_at_k m /\ me_hit_at_k m <= 1 /\
   me_top_1_accuracy m <= me_mrr m /\ me_mrr m <= 1 /\
   0 <= me_ndcg_at_k m /\ me_ndcg_at_k m <= 1 /\
   0 <= me_no_match_accuracy m /\ me_no_match_accuracy m <= 1 /\
   0 <= me_unauthorized_leakage_rate m /\ me_unauthorized_leakage_rate m <= 1 /\
   0 <= me_latency_p50_ms m /\ me_latency_p50_ms m <= me_latency_p95_ms m)%Q ∧
  me_case_count m = (me_positive_case_count m + me_no_match_case_count m)%nat ∧
  (0 < me_positive_case_count m)%nat.
Proof.
  intros Hcs Hos. unfold evaluate_retrieval. fold (by_case_of (filter (λ o, ob_strategy o = strategy) observations)).
  set (by_case := by_case_of _). intros H. guards H.
  rename x3 into t, x4 into lats, x5 into p50, x6 into p95, G3 into Ht, G4 into Hl, G5 into Hp50, G6 into Hp95.
  injection H as <-. cbn [me_top_1_accuracy me_hit_at_k me_mrr me_ndcg_at_k me_no_match_accuracy
    me_unauthorized_leakage_rate me_latency_p50_ms me_latency_p95_ms me_case_count
    me_positive_case_count me_no_match_case_count].
  assert (Hobs : ∀ i o, dget i by_case = Some o → new_observation o = Ok o).
  { intros i o [Ho _]%by_case_mem. apply list_elem_of_filter in Ho as [_ Ho].
    rewrite Forall_forall in Hos. by apply Hos. }
  assert (Forall valid_labels cases) as Hv.
  { eapply Forall_impl; [exact Hcs|]. intros c [_ Hc]%new_eval_case_labels. done. }
  assert (tally_ok 0 0 (mkTally 0 0 0 0 0 0 0)) as H0.
  { unfold tally_ok. simpl. split_and!; try lia; discriminate. }
  apply Z.leb_gt in G.
  pose proof (count_cases_ok log2 k by_case cases 0 0 _ t G Hv
    ltac:(intros i o Ho; apply Hobs, new_observation_Ok in Ho; apply Ho) H0 Ht)
    as ((Ht1 & Hth) & Hr0 & Hr1 & Hn0 & Hn1 & Hm & Hlk).
  simpl Nat.add in *. set (pos := length (filter (λ c, ec_relevance c ≠ []) cases)) in *.
  assert (0 < pos)%nat as Hpos.
  { unfold pos. destruct (filter _ cases) eqn:E; [|simpl; lia].
    done. }
  assert (∀ x, (x / (Z.of_nat pos # 1) == x * / (Z.of_nat pos # 1))%Q) as Hdiv by reflexivity.
  pose proof (ratio_1 pos Hpos) as H1. unfold ratio in H1.
  split; [|split; [apply split_cases|done]]. split_and!.
  - apply ratio_rate; lia.
  - by apply ratio_le.
  - apply ratio_rate; lia.
  - by apply mean_le.
  - rewrite <-H1. by apply mean_le.
  - apply Qle_shift_div_l; [unfold Qlt; simpl; lia|]. lra.
  - rewrite <-H1. by apply mean_le.
  - destruct (bool_decide_reflect (filter (λ c, ec_relevance c = []) cases = [])) as [E|E]; [discriminate|]. by apply ratio_rate; [|apply not_nil_length].
  - destruct (bool_decide_reflect (filter (λ c, ec_relevance c = []) cases = [])) as [E|E]; [apply Qle_refl|]. by apply ratio_rate; [|apply not_nil_length].
  - destruct (Nat.eqb_spec (ta_returned_count t) 0); [apply Qle_refl|]. apply ratio_rate; lia.
  - destruct (Nat.eqb_spec (ta_returned_count t) 0); [discriminate|]. apply ratio_rate; lia.
  - eapply percentile_nonneg; [| |exact Hp50]; [split; discriminate|].
    apply traverse_Ok in Hl. eapply Forall2_Forall_r; [exact Hl|]. apply Forall_forall.
    intros c _ lat (o & Ho & [= <-])%rbind_Ok_inv. unfold observed in Ho.
    destruct (dget _ _) as [o'|] eqn:Eo; [|done]. injection Ho as ->.
    apply Hobs, new_observation_Ok in Eo. apply Eo.
  - eapply percentile_mono; [| | |exact Hp50|exact Hp95]; discriminate.
Qed.

(** What is collected can be evaluated.  If the searches answer every query of
    a dataset with distinct tools and the clock does not run backwards, so that
    [collect_retrieval_observations] returns, then each strategy was observed once
    for every case, every observation is valid, and the evaluation of each strategy
    returns its metrics: its errors are those of a cutoff that is not positive or
    a dataset without a positive case. *)
Theorem collected_observations_evaluate payload cases context s limit clock observations strategy k :
  load_cases payload = Ok cases →
  collect_observations context s limit clock cases = Ok observations →
  Forall (λ o, new_observation o = Ok o) observations ∧
  map ob_case_id (filter (λ o, ob_strategy o = strategy) observations) = map ec_id cases ∧
  (is_ok (evaluate_retrieval log2 cases observations strategy k) = true ↔
   (0 < k)%Z ∧ ∃ c, c ∈ cases ∧ ec_relevance c ≠ []).
Proof.
  intros [Hn Hc]%load_cases_Ok Hcol. unfold collect_observations in Hcol. guards Hcol.
  apply observe_all_Ok in Hcol as Hos. pose proof (observed_ids strategy _ _ Hos) as Hids.
  split_and!; [|done|].
  { eapply Forall2_Forall_r; [exact Hos|]. apply Forall_forall. by intros m _ o (_ & _ & Ho). }
  set (selected := filter (λ o, ob_strategy o = strategy) observations) in *.
  assert (NoDup (map ob_case_id selected)) as Hnd by by rewrite Hids.
  destruct (by_case_keys selected Hnd) as [Hkeys Hget].
  assert (∀ c, c ∈ cases → is_Some (dget (ec_id c) (by_case_of selected))) as Hall.
  { intros c Hin. assert (ec_id c ∈ map ob_case_id selected) as (o & Heq & Ho)%list_elem_of_fmap.
    { rewrite Hids. apply list_elem_of_fmap. eauto. }
    rewrite Heq. exists o. by apply Hget. }
  destruct (observed_all _ _ Hall) as [[lats Hl] Hcount].
  unfold evaluate_retrieval. fold selected. fold (by_case_of selected).
  assert (negb (length (by_case_of selected) =? length selected)%nat = false) as ->.
  { apply negb_false_iff, Nat.eqb_eq. apply (f_equal length) in Hkeys. unfold dkeys in Hkeys.
    by rewrite !length_map in Hkeys. }
  assert (negb (same_ids (dkeys (by_case_of selected)) (map ec_id cases)) = false) as ->.
  { apply negb_false_iff. unfold same_ids. rewrite Hkeys, Hids. apply bool_decide_eq_true.
    split; by apply Forall_forall. }
  destruct (Hcount log2 k (mkTally 0 0 0 0 0 0 0)) as [t Ht].
  destruct (percentile_defined lats (50 # 100)) as [p50 Hp50]; [split; discriminate|].
  destruct (percentile_defined lats (95 # 100)) as [p95 Hp95]; [split; discriminate|].
  destruct (Z.leb_spec k 0) as [Hk|Hk]; cbn [raise_if rbind is_ok]; [split; [done|lia]|].
  destruct (bool_decide_reflect (filter (λ c, ec_relevance c ≠ []) cases = [])) as [E|E];
    cbn [raise_if rbind is_ok]; rewrite ?Ht; cbn [rbind]; rewrite ?Hl; cbn [rbind]; rewrite ?Hp50;
    cbn [rbind]; rewrite ?Hp95; cbn [rbind is_ok].
  - split; [done|]. intros (_ & c & Hin & Hne). exfalso.
    assert (c ∈ filter (λ c, ec_relevance c ≠ []) cases) as Hf by by apply list_elem_of_filter.
    rewrite E in Hf. by apply not_elem_of_nil in Hf.
  - split; [intros _; split; [done|]|done]. destruct (filter _ cases) as [|c rest] eqn:Ef; [done|].
    exists c. assert (c ∈ filter (λ c, ec_relevance c ≠ []) cases) as Hf.
    { rewrite Ef. apply list_elem_of_here. }
    apply list_elem_of_filter in Hf as [? ?]. done.
Qed.
End Theorems.

Module EvaluationExamples.
Definition case (id query : string) (relevance : dict json) (forbidden : list json) : json :=
  JObj [("id", JStr id); ("category", JStr "order"); ("query", JStr query);
        ("relevance", JObj relevance); ("lexical_expected", JBool true);
        ("forbidden_tools", JArr forbidden)].
(** One query with two graded tools, and one without a match. *)
Definition payload : json :=
  JObj [("cases", JArr [case "c1" "order" [("orders.get", JInt 2); ("orders.cancel", JInt 1)] [];
                        case "c2" "weather" [] [JStr "orders.cancel"]])].
Definition cases : list RetrievalEvalCase :=
  match load_cases payload with Ok cases => cases | Raise _ => [] end.

Definition searches : EvalSearches :=
  mkEvalSearches (lexical_ranking SearchExamples.tools)
    (search_vector_tools SearchExamples.provider
       (search_published_by_vector SearchExamples.distance SearchExamples.tools SearchExamples.embeddings))
    (λ q, let? r := SearchExamples.hybrid q in Ok (hr_hits r)).
(** A clock that advances by one millisecond. *)
Definition clock (reads : nat) : Q := Z.of_nat reads # 1000.
Definition observations : list RetrievalEvalObservation :=
  match collect_observations SearchExamples.ctx searches 3 clock cases with
  | Ok os => os | Raise _ => [] end.

Example ranked_by_strategy :
  map (λ o, (ob_case_id o, ob_ranked_tools o)) observations
  = [("c1", ["orders.cancel"; "orders.get"]); ("c1", ["billing.find"; "orders.get"]);
     ("c1", ["orders.get"; "billing.find"; "orders.cancel"]);
     ("c2", []); ("c2", ["billing.find"; "orders.get"]); ("c2", ["billing.find"; "orders.get"])].
Proof. vm_compute. reflexivity. Qed.

Lemma cases_loaded : load_cases payload = Ok cases.
Proof. vm_compute. reflexivity. Qed.
Lemma cases_observed : collect_observations SearchExamples.ctx searches 3 clock cases = Ok observations.
Proof. vm_compute. reflexivity. Qed.
Lemma observations_valid : Forall (λ o, new_observation o = Ok o) observations.
Proof.
  pose proof cases_observed as Ho. unfold collect_observations in Ho.
  apply rbind_Ok_inv in Ho as ([] & _ & Ho%observe_all_Ok).
  eapply Forall2_Forall_r; [exact Ho|]. apply Forall_forall. by intros m _ o (_ & _ & Hv).
Qed.

Lemma metrics_are_rates_witness :
  ∃ m, evaluate_retrieval (log2_digits 4) cases observations EvalVector 1 = Ok m ∧
    (me_mrr m == 1 # 2)%Q ∧ (me_hit_at_k m == 0)%Q ∧ (me_ndcg_at_k m <= 1)%Q.
Proof.
  destruct (evaluate_retrieval (log2_digits 4) cases observations EvalVector 1) as [m|x] eqn:E;
    [|vm_compute in E; discriminate].
  exists m. split; [reflexivity|].
  split; [vm_compute in E; injection E as <-; vm_compute; reflexivity|].
  split; [vm_compute in E; injection E as <-; vm_compute; reflexivity|].
  apply (metrics_are_rates (log2_digits 4) cases observations EvalVector 1 m); [| |exact E].
  - exact (proj2 (load_cases_Ok _ _ cases_loaded)).
  - exact observations_valid.
Defined.

Lemma collected_observations_evaluate_witness :
  is_ok (evaluate_retrieval (log2_digits 4) cases observations EvalHybrid 3) = true ∧
  map ob_case_id (filter (λ o, ob_strategy o = EvalHybrid) observations) = ["c1"; "c2"].
Proof.
  destruct (collected_observations_evaluate (log2_digits 4) payload cases SearchExamples.ctx searches 3 clock
              observations EvalHybrid 3 cases_loaded cases_observed) as (_ & Hids & Hok).
  split; [|exact Hids]. apply Hok. split; [reflexivity|]. exists (hd (mkEvalCase "" "" "" [] true None None []) cases).
  split; [vm_compute; left|vm_compute; discriminate].
Defined.

(** The percentile between two observed latencies. *)
Example interpolated :
  match percentile [10; 40; 20; 30]%Q (50 # 100) with Ok x => Qeq_bool x 25 | Raise _ => false end = true.
Proof. vm_compute. reflexivity. Qed.

(** A tool cannot be both relevant and forbidden. *)
Example contradictory_case :
  is_ok (parse_case (case "c" "order" [("orders.get", JInt 1)] [JStr "orders.get"])) = false.
Proof. vm_compute. reflexivity. Qed.
End EvaluationExamples.
