(* ===== verification/Embedding.v ===== *)
(** * Embedding: the SiliconFlow embedding provider

    Models [modules/tool_search/adapters/siliconflow.py]: the configuration
    checks, the request of [embed] and the reading of the answer.  The HTTP
    client is a parameter that may answer anything ([client_answer] of
    [HttpExecutor]); the calls made to it are the [wire_event]s of the result.
    [siliconflow_provider] is the [EmbeddingProvider] that the vector search
    and the reindexing of [ToolSearch] and [SearchIndex] ask. *)

From Stdlib Require Import ZArith QArith Ascii Lia Permutation.
From stdpp Require Import base gmap sets strings option list.
From S2P Require Import Prelude Text Dict Errors Json Store Floats Execution HttpExecutor ToolSearch.
Open Scope py_scope.

(** [text.startswith(("https://", "http://"))] *)
Definition http_url (text : string) : bool := startswith "https://" text || startswith "http://" text.
Definition not_positive (q : Q) : bool := Qle_bool q 0.

(** ** [SiliconFlowEmbeddingProvider.__init__] *)

Record SiliconFlowConfig := mkSiliconFlow {
  sf_api_url : string;
  sf_api_key : string;
  sf_model : string;
  sf_dimensions : Z;
  sf_timeout_seconds : Q;
  sf_max_batch_size : Z }.

Definition new_siliconflow (c : SiliconFlowConfig) : res SiliconFlowConfig :=
  raise_if (negb (http_url (sf_api_url c))) (ValueError "embedding API URL must use http or https") ;;?
  raise_if (blank (sf_model c)) (ValueError "embedding model must not be blank") ;;?
  raise_if (sf_dimensions c <=? 0)%Z (ValueError "embedding dimensions must be positive") ;;?
  raise_if (not_positive (sf_timeout_seconds c)) (ValueError "embedding timeout must be positive") ;;?
  raise_if (sf_max_batch_size c <=? 0)%Z (ValueError "embedding max batch size must be positive") ;;?
  Ok c.

(** ** [_parse_vectors] *)

Definition response_error : exn := Nexus EmbeddingResponseError.

(** [isinstance(value, int | float) and not isinstance(value, bool)], then
    [float(value)]: an [int] past the largest double raises [OverflowError]. *)
Definition number_value (value : json) : res (option Q) :=
  match value with
  | JInt z => match float_of_int z with Some q => Ok (Some q) | None => Raise OtherException end
  | JFloat repr => Ok (float_value repr)
  | _ => Raise response_error
  end.

(** [except ValueError: raise EmbeddingResponseError] *)
Definition as_response_error {A} (r : res A) : res A :=
  match r with
  | Raise x => if is_value_error x then Raise response_error else r
  | Ok _ => r
  end.

Section Provider.
Context (c : SiliconFlowConfig).

(** The index and the vector of an item of the response. *)
Definition parse_item (raw_item : json) : res (Z * EmbeddingVector) :=
  match raw_item with
  | JObj item =>
      match dget "index" item with
      | Some (JInt index) =>
          match dget "embedding" item with
          | Some (JArr raw_vector) =>
              let? values := traverse number_value raw_vector in
              let? vector := as_response_error (new_vector (mkVector (sf_model c) (sf_dimensions c) values)) in
              Ok (index, vector)
          | _ => Raise response_error
          end
      | _ => Raise response_error
      end
  | _ => Raise response_error
  end.

(** The loop over the items. *)
Fixpoint index_items (by_index : gmap Z EmbeddingVector) (raw_data : list json) :
    res (gmap Z EmbeddingVector) :=
  match raw_data with
  | [] => Ok by_index
  | raw_item :: rest =>
      let? (index, vector) := parse_item raw_item in
      raise_if (negb (is_none (by_index !! index))) response_error ;;?
      index_items (<[index := vector]> by_index) rest
  end.

(** [range(count)] *)
Definition indices (count : nat) : list Z := Z.of_nat <$> seq 0 count.

(** [by_index[index]] *)
Definition vector_at (by_index : gmap Z EmbeddingVector) (index : Z) : res EmbeddingVector :=
  match by_index !! index with Some v => Ok v | None => Raise OtherException end.

Definition parse_vectors (payload : json) (expected_count : nat) : res (list EmbeddingVector) :=
  match payload with
  | JObj body =>
      match dget "data" body with
      | Some (JArr raw_data) =>
          raise_if (negb (length raw_data =? expected_count)%nat) response_error ;;?
          let? by_index := index_items ∅ raw_data in
          raise_if (negb (bool_decide (dom by_index = list_to_set (C := gset Z) (indices expected_count))))
            response_error ;;?
          traverse (vector_at by_index) (indices expected_count)
      | _ => Raise response_error
      end
  | _ => Raise response_error
  end.

(** ** [embed] *)

Definition embed_request (texts : list string) : http_request :=
  mkHttpRequest "POST" (sf_api_url c) [] [("Authorization", "Bearer " +:+ sf_api_key c)]
    (JObj [("model", JStr (sf_model c)); ("input", JArr (JStr <$> texts));
           ("encoding_format", JStr "float"); ("dimensions", JInt (sf_dimensions c))])
    (sf_timeout_seconds c).

Definition check_batch (texts : list string) : res unit :=
  raise_if (bool_decide (texts = []) || (sf_max_batch_size c <? Z.of_nat (length texts))%Z)
    (ValueError "embedding batch size was invalid") ;;?
  raise_if (existsb blank texts) (ValueError "embedding text must not be blank").

Definition check_status (status : Z) : res unit :=
  raise_if ((status =? 401)%Z || (status =? 403)%Z) (Nexus EmbeddingAuthenticationError) ;;?
  raise_if (status =? 429)%Z (Nexus EmbeddingRateLimitError) ;;?
  raise_if (500 <=? status)%Z (Nexus EmbeddingUnavailableError) ;;?
  raise_if (negb (status =? 200)%Z) response_error.

Definition read_embeddings (answer : client_answer) (expected_count : nat) : res (list EmbeddingVector) :=
  match answer with
  | Responded r =>
      check_status (rs_status_code r) ;;?
      match rs_json r with
      | Some payload => parse_vectors payload expected_count
      | None => Raise response_error
      end
  | TimedOut | NetworkFailed => Raise (Nexus EmbeddingUnavailableError)
  | ClientRaised x => Raise x
  end.

Context (post : http_request → client_answer).

Definition embed (texts : list string) : wire (list EmbeddingVector) :=
  wbind (wret (check_batch texts)) (λ _,
    let request := embed_request texts in
    ([Send request], read_embeddings (post request) (length texts))).

Definition siliconflow_provider : EmbeddingProvider :=
  mkProvider (sf_model c) (sf_dimensions c) (λ texts, (embed texts).2).
End Provider.

(** ** Specification *)

(** A JSON number that is a finite double. *)
Definition is_number (value : json) (q : Q) : Prop := number_value value = Ok (Some q).

(** What an item of the response says: its index and one finite number per
    dimension. *)
Definition item_says (c : SiliconFlowConfig) (raw_item : json) (indexed : Z * EmbeddingVector) : Prop :=
  ∃ item raw_vector numbers,
    raw_item = JObj item ∧ dget "index" item = Some (JInt indexed.1) ∧
    dget "embedding" item = Some (JArr raw_vector) ∧ Forall2 is_number raw_vector numbers ∧
    Z.of_nat (length numbers) = sf_dimensions c ∧
    indexed.2 = mkVector (sf_model c) (sf_dimensions c) (Some <$> numbers).

(** The response lists, in some order, vector [i] under index [i]. *)
Definition answers (c : SiliconFlowConfig) (r : http_response) (vectors : list EmbeddingVector) : Prop :=
  rs_status_code r = 200%Z ∧
  ∃ body raw_data items,
    rs_json r = Some (JObj body) ∧ dget "data" body = Some (JArr raw_data) ∧
    Forall2 (item_says c) raw_data items ∧ items ≡ₚ zip (indices (length vectors)) vectors.

Definition valid_config (c : SiliconFlowConfig) : Prop := new_siliconflow c = Ok c.
Definition valid_batch (c : SiliconFlowConfig) (texts : list string) : Prop := check_batch c texts = Ok tt.

Section Facts.
Context (c : SiliconFlowConfig) (post : http_request → client_answer).

Lemma valid_config_vector : valid_config c → blank (sf_model c) = false ∧ (0 < sf_dimensions c)%Z.
Proof. unfold valid_config, new_siliconflow. intros H. guards H. split; [done|lia]. Qed.

Lemma forallb_finite (values : list (option Q)) :
  forallb (λ x, negb (is_none x)) values = true ↔ ∃ numbers, values = Some <$> numbers.
Proof.
  split.
  - induction values as [|[q|] values IH]; simpl; [by exists []| |done].
    intros [numbers ->]%IH. by exists (q :: numbers).
  - intros [numbers ->]. induction numbers; simpl; done.
Qed.

Lemma new_vector_Ok v w :
  new_vector v = Ok w ↔ w = v ∧ blank (vec_model v) = false ∧ (0 < vec_dimensions v)%Z ∧
    Z.of_nat (length (vec_values v)) = vec_dimensions v ∧ ∃ numbers, vec_values v = Some <$> numbers.
Proof.
  unfold new_vector. rewrite <-forallb_finite. split.
  - intros H. guards H. split_and!; try done; try lia.
    { congruence. } by destruct (forallb _ _).
  - intros (-> & -> & Hd & Hl & ->). simpl.
    destruct (vec_dimensions v <=? 0)%Z eqn:E; [lia|].
    rewrite (proj2 (Z.eqb_eq _ _) Hl). done.
Qed.

Lemma as_response_error_Ok {A} (r : res A) a : as_response_error r = Ok a ↔ r = Ok a.
Proof. destruct r as [|x]; simpl; [done|]. destruct (is_value_error x); naive_solver. Qed.

Lemma parse_item_says raw_item indexed :
  valid_config c → parse_item c raw_item = Ok indexed ↔ item_says c raw_item indexed.
Proof.
  intros [Hm Hd]%valid_config_vector. split.
  - unfold parse_item. intros H. repeat case_match; simplify_eq.
    apply rbind_Ok_inv in H as (values & Hv & H). apply rbind_Ok_inv in H as (vector & Hn & [= <-]).
    apply as_response_error_Ok, new_vector_Ok in Hn as (-> & _ & _ & Hl & numbers & Hs).
    simpl in *. subst values. eexists _, _, numbers. split_and!; try done.
    + apply traverse_Ok in Hv. by apply Forall2_fmap_r in Hv.
    + by rewrite length_fmap in Hl.
  - intros (item & raw_vector & numbers & -> & Hi & He & Hn & Hl & Hv). unfold parse_item.
    rewrite Hi, He. destruct indexed as [index vector]. simpl in *. subst vector.
    rewrite (proj2 (traverse_Ok _ _ (Some <$> numbers))) by (by apply Forall2_fmap_r). simpl.
    assert (Hw : new_vector (mkVector (sf_model c) (sf_dimensions c) (Some <$> numbers)) =
      Ok (mkVector (sf_model c) (sf_dimensions c) (Some <$> numbers))).
    { apply new_vector_Ok. simpl. rewrite length_fmap. split_and!; try done. by exists numbers. }
    by rewrite Hw.
Qed.

(** The loop collects the items under their indices, which differ. *)
Lemma index_items_Ok m raw_data m' :
  valid_config c →
  index_items c m raw_data = Ok m' ↔
  ∃ items, Forall2 (item_says c) raw_data items ∧ NoDup items.*1 ∧
    (∀ i, i ∈ items.*1 → m !! i = None) ∧ m' = list_to_map items ∪ m.
Proof.
  intros Hc. revert m. induction raw_data as [|raw rest IH]; intros m; simpl.
  - split.
    + intros [= <-]. exists []. split_and!; try done; [by apply NoDup_nil_2|intros i Hi; by apply elem_of_nil in Hi|].
      symmetry. apply (left_id_L ∅ (∪)).
    + intros (items & ->%Forall2_nil_inv_l & _ & _ & ->). f_equal. symmetry. apply (left_id_L ∅ (∪)).
  - split.
    + intros H. apply rbind_Ok_inv in H as ([i v] & Hp & H). guards H. apply IH in H as (items & Hf & Hn & Hd & ->).
      apply not_none_false in G.
      assert (Hi : i ∉ items.*1) by (intros Hi; specialize (Hd i Hi); by rewrite lookup_insert in Hd; case_decide).
      exists ((i, v) :: items). split_and!.
      * constructor; [by apply parse_item_says|done].
      * simpl. by constructor.
      * simpl. intros j [->|Hj]%elem_of_cons; [done|]. specialize (Hd j Hj).
        by apply lookup_insert_None in Hd as [? _].
      * simpl. rewrite <-insert_union_l. symmetry. apply insert_union_r. by apply not_elem_of_list_to_map_1.
    + intros (items & Hf & Hn & Hd & ->). inversion Hf as [|? [i v] ? items' Hp Hf']; subst.
      apply NoDup_cons in Hn as [Hi Hn].
      rewrite (proj2 (parse_item_says _ _ Hc) Hp). simpl. rewrite (Hd i) by (by left). simpl.
      apply IH. exists items'. split_and!; try done.
      * intros j Hj. apply lookup_insert_None. split; [apply Hd; by right|]. by intros ->.
      * simpl. rewrite <-insert_union_l. apply insert_union_r. by apply not_elem_of_list_to_map_1.
Qed.

Lemma indices_NoDup n : NoDup (indices n).
Proof. apply NoDup_fmap_2; [intros ? ? ?; lia|apply NoDup_ListNoDup, seq_NoDup]. Qed.

Lemma length_indices n : length (indices n) = n.
Proof. unfold indices. by rewrite length_fmap, length_seq. Qed.

Lemma fst_zip_indices (vectors : list EmbeddingVector) :
  (zip (indices (length vectors)) vectors).*1 = indices (length vectors).
Proof. apply fst_zip. by rewrite length_indices. Qed.

(** The vectors of a map whose keys are the indices, in the order of the indices. *)
Lemma read_indices (items : list (Z * EmbeddingVector)) (vectors : list EmbeddingVector) n :
  NoDup items.*1 →
  (dom (list_to_map (M := gmap Z EmbeddingVector) items) = list_to_set (indices n) ∧
   traverse (vector_at (list_to_map items)) (indices n) = Ok vectors) ↔
  length vectors = n ∧ items ≡ₚ zip (indices n) vectors.
Proof.
  intros Hn. rewrite traverse_Ok. split.
  - intros [Hdom Hf]. pose proof (Forall2_length _ _ _ Hf) as Hl. rewrite length_indices in Hl.
    subst n. split; [done|]. apply list_to_map_inj.
    + done.
    + rewrite fst_zip_indices. apply indices_NoDup.
    + apply map_eq. intros i. destruct (decide (i ∈ indices (length vectors))) as [Hi|Hi].
      * apply list_elem_of_lookup in Hi as [k Hk].
        destruct (Forall2_lookup_l _ _ _ _ _ Hf Hk) as (v & Hv & Hm). unfold vector_at in Hm.
        case_match; simplify_eq. symmetry. apply elem_of_list_to_map_1.
        { rewrite fst_zip_indices. apply indices_NoDup. }
        apply list_elem_of_lookup. exists k. apply lookup_zip_Some. done.
      * assert (Hx : ∀ m : gmap Z EmbeddingVector, dom m = list_to_set (indices (length vectors)) → m !! i = None).
        { intros m Hm. apply not_elem_of_dom. by rewrite Hm, elem_of_list_to_set. }
        rewrite (Hx _ Hdom), (Hx (list_to_map (zip (indices (length vectors)) vectors))); [done|].
        by rewrite dom_list_to_map_L, fst_zip_indices.
  - intros [<- Hp].
    rewrite (list_to_map_proper _ _ Hn Hp), dom_list_to_map_L, fst_zip_indices. split; [done|].
    apply Forall2_same_length_lookup. split; [apply length_indices|].
    intros k i v Hi Hv. unfold vector_at.
    rewrite (elem_of_list_to_map_1 _ i v); [done| |].
    + rewrite fst_zip_indices. apply indices_NoDup.
    + apply list_elem_of_lookup. exists k. by apply lookup_zip_Some.
Qed.

Lemma parse_vectors_Ok payload n vectors :
  valid_config c →
  parse_vectors c payload n = Ok vectors ↔
  length vectors = n ∧ ∃ body raw_data items, payload = JObj body ∧
    dget "data" body = Some (JArr raw_data) ∧ Forall2 (item_says c) raw_data items ∧
    items ≡ₚ zip (indices n) vectors.
Proof.
  intros Hc. split.
  - unfold parse_vectors. intros H. repeat case_match; simplify_eq. guards H.
    apply (index_items_Ok _ _ _ Hc) in G0 as (items & Hf & Hn & _ & ->).
    rewrite (right_id_L ∅ (∪)) in *.
    destruct (proj1 (read_indices items vectors n Hn)) as [Hl Hp]; [by split; [|]|].
    split; [done|]. by eexists _, _, items.
  - intros (Hl & body & raw_data & items & -> & Hd & Hf & Hp). unfold parse_vectors. rewrite Hd.
    assert (Hn : NoDup items.*1).
    { rewrite Hp, <-Hl, fst_zip_indices. apply indices_NoDup. }
    assert (Hlen : length raw_data = n).
    { rewrite (Forall2_length _ _ _ Hf), Hp, length_zip, length_indices. lia. }
    rewrite (proj2 (Nat.eqb_eq _ _) Hlen). simpl.
    rewrite (proj2 (index_items_Ok ∅ raw_data (list_to_map items) Hc)).
    + simpl. destruct (proj2 (read_indices items vectors n Hn)) as [Hdom Ht]; [done|].
      rewrite bool_decide_eq_true_2 by done. done.
    + exists items. split_and!; try done. by rewrite (right_id_L ∅ (∪)).
Qed.

Lemma check_status_Ok status : check_status status = Ok tt ↔ status = 200%Z.
Proof.
  split; [|by intros ->]. unfold check_status. intros H. guards H.
  apply raise_if_Ok in H. lia.
Qed.

Lemma read_embeddings_Ok answer n vectors :
  valid_config c →
  read_embeddings c answer n = Ok vectors ↔
  length vectors = n ∧ ∃ r, answer = Responded r ∧ answers c r vectors.
Proof.
  intros Hc. unfold answers. split.
  - intros H. destruct answer as [r| | |]; try discriminate. simpl in H.
    apply rbind_Ok_inv in H as ([] & Hs%check_status_Ok & H). case_match eqn:E; [|discriminate].
    apply (parse_vectors_Ok _ _ _ Hc) in H as (Hl & body & raw_data & items & -> & Hd & Hf & Hp).
    split; [done|]. exists r. rewrite Hl. split_and!; try done. by exists body, raw_data, items.
  - intros (<- & r & -> & Hs & body & raw_data & items & Hj & Hd & Hf & Hp). simpl.
    rewrite (proj2 (check_status_Ok _) Hs), Hj. cbn [rbind]. apply (parse_vectors_Ok _ _ _ Hc).
    split; [done|]. by exists body, raw_data, items.
Qed.

(** C25: [embed] returns vectors exactly when the batch is valid and the provider
    answered 200 with one item per text, in any order, vector [i] under index
    [i]; it then returns them in the order of the texts. *)
Theorem embed_answers texts vectors :
  valid_config c →
  (embed c post texts).2 = Ok vectors ↔
  valid_batch c texts ∧ length vectors = length texts ∧
  ∃ r, post (embed_request c texts) = Responded r ∧ answers c r vectors.
Proof.
  intros Hc. unfold embed, valid_batch, wbind, wret. simpl.
  destruct (check_batch c texts) as [[]|x]; simpl.
  - rewrite (read_embeddings_Ok _ _ _ Hc). naive_solver.
  - naive_solver.
Qed.

(** ** What [embed] raises *)

(** The errors of the embedding port. *)
Definition embedding_errors : list nexus_error :=
  [EmbeddingAuthenticationError; EmbeddingRateLimitError; EmbeddingUnavailableError; EmbeddingResponseError].

(** [float(value)] of some number of the response overflows. *)
Definition overflows (payload : json) : Prop :=
  ∃ body raw_data item raw_vector z, payload = JObj body ∧ dget "data" body = Some (JArr raw_data) ∧
    JObj item ∈ raw_data ∧ dget "embedding" item = Some (JArr raw_vector) ∧
    JInt z ∈ raw_vector ∧ float_of_int z = None.

Lemma traverse_Raise {A B} (f : A → res B) l x : traverse f l = Raise x → ∃ a, a ∈ l ∧ f a = Raise x.
Proof.
  induction l as [|a l IH]; simpl; [done|]. destruct (f a) eqn:E; simpl.
  - destruct (traverse f l); simpl; [done|]. intros [= ->].
    destruct IH as (b & Hb & Hr); [done|]. exists b. by split; [right|].
  - intros [= ->]. exists a. by split; [left|].
Qed.

Lemma new_vector_Raise v x : new_vector v = Raise x → is_value_error x = true.
Proof.
  unfold new_vector, raise_if.
  destruct (blank _); simpl; [by intros [= <-]|].
  destruct ((_ <=? 0)%Z || _); simpl; [by intros [= <-]|].
  destruct (negb _); simpl; by intros [= <-].
Qed.

Lemma parse_item_Raise raw_item x :
  parse_item c raw_item = Raise x →
  x = response_error ∨
  x = OtherException ∧ ∃ item raw_vector z, raw_item = JObj item ∧
    dget "embedding" item = Some (JArr raw_vector) ∧ JInt z ∈ raw_vector ∧ float_of_int z = None.
Proof.
  unfold parse_item. intros H. repeat case_match; simplify_eq; try (by left).
  destruct (traverse number_value l) as [values|y] eqn:E; simpl in H.
  - left. destruct (new_vector _) as [w|y] eqn:En; simpl in H; [done|].
    rewrite (new_vector_Raise _ _ En) in H. by injection H as <-.
  - injection H as ->. apply traverse_Raise in E as (j & Hj & E).
    destruct j; simpl in E; simplify_eq; try (by left).
    destruct (float_of_int z0) eqn:Ez; simplify_eq. right. split; [done|]. by eexists _, _, z0.
Qed.

Lemma index_items_Raise m raw_data x :
  index_items c m raw_data = Raise x →
  x = response_error ∨
  x = OtherException ∧ ∃ item raw_vector z, JObj item ∈ raw_data ∧
    dget "embedding" item = Some (JArr raw_vector) ∧ JInt z ∈ raw_vector ∧ float_of_int z = None.
Proof.
  revert m. induction raw_data as [|raw rest IH]; intros m; simpl; [done|].
  destruct (parse_item c raw) as [[i v]|y] eqn:E; simpl.
  - destruct (m !! i); simpl; [intros [= <-]; by left|].
    intros [?|(-> & item & raw_vector & z & Hi & ?)]%IH; [by left|right].
    split; [done|]. exists item, raw_vector, z. by split; [right|].
  - intros [= ->]. apply parse_item_Raise in E as [?|(-> & item & raw_vector & z & -> & ?)]; [by left|right].
    split; [done|]. exists item, raw_vector, z. by split; [left|].
Qed.

Lemma parse_vectors_Raise payload n x :
  parse_vectors c payload n = Raise x → x = response_error ∨ x = OtherException ∧ overflows payload.
Proof.
  unfold parse_vectors. intros H. repeat case_match; simplify_eq; try (by left).
  destruct (length l =? n)%nat; simpl in H; [|injection H as <-; by left].
  destruct (index_items c ∅ l) as [m|y] eqn:E; simpl in H.
  - case_bool_decide as Hdom; simpl in H; [|injection H as <-; by left]. exfalso.
    apply traverse_Raise in H as (i & Hi & H). unfold vector_at in H. case_match eqn:Em; [done|].
    apply not_elem_of_dom in Em. apply Em. rewrite Hdom. by apply elem_of_list_to_set.
  - injection H as ->. apply index_items_Raise in E as [?|(-> & item & raw_vector & z & ? & ? & ? & ?)];
      [by left|right]. split; [done|]. by eexists _, _, item, raw_vector, z.
Qed.

Lemma check_status_Raise status x :
  check_status status = Raise x → ∃ e, x = Nexus e ∧ e ∈ embedding_errors.
Proof.
  unfold check_status, raise_if, response_error.
  repeat (case_match; simpl; [intros [= <-]; eexists; split; [done|];
          apply (bool_decide_unpack _); vm_compute; exact I|]). done.
Qed.

Lemma read_embeddings_Raise answer n x :
  read_embeddings c answer n = Raise x →
  (∃ e, x = Nexus e ∧ e ∈ embedding_errors) ∨ answer = ClientRaised x ∨
  x = OtherException ∧ ∃ r payload, answer = Responded r ∧ rs_json r = Some payload ∧ overflows payload.
Proof.
  assert (Hr : ∀ y, y ∈ embedding_errors → ∃ e, Nexus y = Nexus e ∧ e ∈ embedding_errors)
    by (intros y Hy; by exists y).
  destruct answer as [r| | |y]; simpl.
  - destruct (check_status _) as [[]|y] eqn:E; simpl.
    + case_match eqn:Ej.
      * intros [->|[-> Ho]]%parse_vectors_Raise; [left|right; right].
        { apply Hr. apply (bool_decide_unpack _). by vm_compute. }
        split; [done|]. by eexists r, _.
      * intros [= <-]. left. apply Hr. apply (bool_decide_unpack _). by vm_compute.
    + intros [= ->]. left. by apply check_status_Raise in E.
  - intros [= <-]. left. apply Hr. apply (bool_decide_unpack _). by vm_compute.
  - intros [= <-]. left. apply Hr. apply (bool_decide_unpack _). by vm_compute.
  - intros [= ->]. right. by left.
Qed.

Lemma check_batch_Raise texts x : check_batch c texts = Raise x → is_value_error x = true.
Proof.
  unfold check_batch, raise_if. destruct (_ || _); simpl; [by intros [= <-]|].
  destruct (existsb _ _); by intros [= <-].
Qed.

(** [embed] asks the provider exactly once, and not at all for a batch it
    refuses with [ValueError]; every other failure is one of the errors of the
    embedding port, but for what the client raises by itself and for an [int]
    of the response too large for a double. *)
Theorem embed_errors texts x :
  (embed c post texts).2 = Raise x →
  (is_value_error x = true ∧ (embed c post texts).1 = [] ∧ ¬ valid_batch c texts) ∨
  ((embed c post texts).1 = [Send (embed_request c texts)] ∧ valid_batch c texts ∧
   ((∃ e, x = Nexus e ∧ e ∈ embedding_errors) ∨ post (embed_request c texts) = ClientRaised x ∨
    x = OtherException ∧ ∃ r payload, post (embed_request c texts) = Responded r ∧
      rs_json r = Some payload ∧ overflows payload)).
Proof.
  unfold embed, valid_batch, wbind, wret. simpl.
  destruct (check_batch c texts) as [[]|y] eqn:E; simpl.
  - intros H. right. split_and!; [done|done|]. by apply read_embeddings_Raise in H.
  - intros [= ->]. left. split_and!; [|done|done]. by apply check_batch_Raise in E.
Qed.
End Facts.

(** ** The provider and its clients *)

Section Clients.
Context (c : SiliconFlowConfig) (post : http_request → client_answer).

(** What the clients of the port rely on: one vector of the declared model and
    dimensions per text. *)
Definition keeps_contract (p : EmbeddingProvider) : Prop :=
  ∀ texts vectors, ep_embed p texts = Ok vectors →
    length vectors = length texts ∧
    Forall (λ v, vec_model v = ep_model p ∧ vec_dimensions v = ep_dimensions p ∧ new_vector v = Ok v) vectors.

Lemma siliconflow_keeps_contract : valid_config c → keeps_contract (siliconflow_provider c post).
Proof.
  intros Hc texts vectors H. unfold siliconflow_provider, embed, wbind, wret in H. simpl in H.
  destruct (check_batch c texts) as [[]|]; simpl in H; [|done].
  apply (read_embeddings_Ok _ _ _ _ Hc) in H as (Hl & r & _ & _ & body & raw_data & items & _ & _ & Hf & Hp).
  split; [done|]. apply Forall_forall. intros v Hv.
  destruct (valid_config_vector _ Hc) as [Hb Hd].
  apply list_elem_of_lookup in Hv as [k Hk].
  assert (Hi : (Z.of_nat k, v) ∈ items).
  { rewrite Hp. apply list_elem_of_lookup. exists k. apply lookup_zip_Some. split; [|done].
    unfold indices. rewrite list_lookup_fmap, lookup_seq_lt; [done|]. by apply lookup_lt_Some in Hk. }
  apply list_elem_of_lookup in Hi as [j Hj].
  destruct (Forall2_lookup_r _ _ _ _ _ Hf Hj) as (raw & _ & item & raw_vector & numbers & _ & _ & _ & _ & Hn & Hs).
  simpl in Hs. subst v. simpl. split_and!; [done|done|]. apply new_vector_Ok. simpl.
  rewrite length_fmap. split_and!; try done. by exists numbers.
Qed.

End Clients.

Module EmbeddingExamples.
Definition config : SiliconFlowConfig :=
  mkSiliconFlow "https://api.example/v1/embeddings" "key" "model" 2 60 2.

Definition item (index : Z) (numbers : list json) : json :=
  JObj [("index", JInt index); ("embedding", JArr numbers)].

Definition respond (items : list json) (r : http_request) : client_answer :=
  Responded (mkHttpResponse 200 0 None (Some (JObj [("data", JArr items)])) "").

(** The items come in the other order; an [int] counts as a number. *)
Definition swapped : http_request → client_answer :=
  respond [item 1 [JFloat "0.5"; JInt 1]; item 0 [JFloat "-1.0"; JFloat "0.0"]].

Definition vectors : list EmbeddingVector :=
  [mkVector "model" 2 [Some (-1 # 1)%Q; Some 0%Q]; mkVector "model" 2 [Some (1 # 2)%Q; Some 1%Q]].

Example config_valid : valid_config config.
Proof. by vm_compute. Qed.

Example in_text_order : (embed config swapped ["a"; "b"]).2 = Ok vectors.
Proof. by vm_compute. Qed.

Lemma embed_answers_witness :
  valid_config config ∧ valid_batch config ["a"; "b"] ∧ length vectors = 2%nat ∧
  ∃ r, swapped (embed_request config ["a"; "b"]) = Responded r ∧ answers config r vectors.
Proof.
  split; [exact config_valid|].
  exact (proj1 (embed_answers config swapped ["a"; "b"] vectors config_valid) in_text_order).
Defined.

(** An index twice, a text without an index, a number that is not finite, a boolean. *)
Example refused_answers :
  map (λ items, (embed config (respond items) ["a"; "b"]).2)
    [[item 0 [JInt 1; JInt 2]; item 0 [JInt 1; JInt 2]];
     [item 0 [JInt 1; JInt 2]; item 2 [JInt 1; JInt 2]];
     [item 0 [JInt 1; JInt 2]; item 1 [JInt 1; JFloat "nan"]];
     [item 0 [JInt 1; JInt 2]; item 1 [JInt 1; JBool true]];
     [item 0 [JInt 1; JInt 2]; item 1 [JInt 1]];
     [item 0 [JInt 1; JInt 2]]] = repeat (Raise response_error) 6.
Proof. by vm_compute. Qed.

(** [float(value)] raises [OverflowError], which is neither caught nor an error
    of the port. *)
Example huge_integer :
  (embed config (respond [item 0 [JInt (10 ^ 400); JInt 0]]) ["a"]).2 = Raise OtherException.
Proof. by vm_compute. Qed.

Lemma embed_errors_witness :
  is_value_error (ValueError "embedding batch size was invalid") = true ∧
  (embed config swapped ["a"; "b"; "c"]).1 = [] ∧ ¬ valid_batch config ["a"; "b"; "c"].
Proof.
  destruct (embed_errors config swapped ["a"; "b"; "c"] (ValueError "embedding batch size was invalid"))
    as [H|(H & _)]; [by vm_compute|exact H|by vm_compute in H].
Defined.
End EmbeddingExamples.
