(* ===== verification/Telemetry.v ===== *)
(** * Telemetry: the observation of a request and the telemetry of the process

    Models [infrastructure/observability/telemetry.py]: the span and the
    measurements of one MCP request, the context manager that observes it, the
    telemetry settings and the runtime that is shut down once.  OpenTelemetry
    is outside: a span is its attributes and its status, an instrument the
    measurements it was given.  A time is a rational number of seconds. *)

From Stdlib Require Import ZArith QArith Ascii.
From stdpp Require Import base sets strings option list.
From S2P Require Import Prelude Text Dict Errors Json Url Uuid Embedding.
Open Scope py_scope.

(** ** [McpRequestObservation] *)

Inductive StatusCode := StatusUnset | StatusOk | StatusError.

Record span := mkSpan {
  sp_name : string;
  sp_attributes : dict string;
  sp_status : StatusCode }.

Inductive measurement :=
| Added (counter : string) (amount : Z) (attributes : dict string)
| Recorded (histogram : string) (value : Q) (attributes : dict string).

(** The observation, its span and what its instruments were given. *)
Record McpRequestObservation := mkObservation {
  ob_span : span;
  ob_operation : string;
  ob_protocol_era : string;
  ob_principal_type : string;
  ob_started_at : Q;
  ob_search_mode : option string;
  ob_finished : bool;
  ob_measurements : list measurement }.

Definition set_attribute (key value : string) (s : span) : span :=
  mkSpan (sp_name s) (dset key value (sp_attributes s)) (sp_status s).
Definition set_status (code : StatusCode) (s : span) : span :=
  mkSpan (sp_name s) (sp_attributes s) code.

(** [McpRequestObservation.trace_id]: of a valid span context. *)
Definition trace_id (span_context : option N) : option string := hex_text 32 <$> span_context.

Section Observation.
Context (o : McpRequestObservation).

Definition with_span (s : span) : McpRequestObservation :=
  mkObservation s (ob_operation o) (ob_protocol_era o) (ob_principal_type o) (ob_started_at o)
    (ob_search_mode o) (ob_finished o) (ob_measurements o).

Definition set_tool_scope (tool_id tool_version_id : string) : McpRequestObservation :=
  with_span (set_attribute "nexusmcp.tool.version_id" tool_version_id
               (set_attribute "nexusmcp.tool.id" tool_id (ob_span o))).

Definition set_search_mode (retrieval_mode : string) : McpRequestObservation :=
  mkObservation (set_attribute "nexusmcp.search.mode" retrieval_mode (ob_span o)) (ob_operation o)
    (ob_protocol_era o) (ob_principal_type o) (ob_started_at o) (Some retrieval_mode) (ob_finished o)
    (ob_measurements o).

Definition metric_attributes (outcome : string) (error_code : option string) : dict string :=
  [("nexusmcp.operation", ob_operation o); ("nexusmcp.protocol.era", ob_protocol_era o);
   ("nexusmcp.principal.type", ob_principal_type o); ("nexusmcp.outcome", outcome)]
  ++ match error_code with Some code => [("nexusmcp.error.code", code)] | None => [] end.

(** What [finish] gives to the instruments. *)
Definition finish_measurements (now : Q) (outcome : string) (error_code : option string) :
    list measurement :=
  let duration_ms := ((now - ob_started_at o) * 1000)%Q in
  let attributes := metric_attributes outcome error_code in
  [Added "nexusmcp.mcp.requests" 1 attributes;
   Recorded "nexusmcp.mcp.request.duration" duration_ms attributes]
  ++ (if bool_decide (ob_operation o = "tools.call")
      then [Added "nexusmcp.tool.calls" 1 attributes;
            Recorded "nexusmcp.tool.call.duration" duration_ms attributes] else [])
  ++ (match ob_search_mode o with
      | Some mode => [Recorded "nexusmcp.tool_search.duration" duration_ms
                        (attributes ++ [("nexusmcp.search.mode", mode)])]
      | None => []
      end)
  ++ (if bool_decide (ob_protocol_era o = "legacy")
      then [Added "nexusmcp.legacy.fallbacks" 1 attributes] else []).

Definition finish_span (outcome : string) (error_code : option string) : span :=
  let s := set_attribute "nexusmcp.outcome" outcome (ob_span o) in
  match error_code with
  | Some code => set_status StatusError (set_attribute "nexusmcp.error.code" code s)
  | None => set_status StatusOk s
  end.

(** [finish] *)
Definition finish_observation (now : Q) (outcome : string) (error_code : option string) : McpRequestObservation :=
  if ob_finished o then o
  else mkObservation (finish_span outcome error_code) (ob_operation o) (ob_protocol_era o)
         (ob_principal_type o) (ob_started_at o) (ob_search_mode o) true
         (ob_measurements o ++ finish_measurements now outcome error_code).
End Observation.

(** ** [observe_mcp_request] *)

(** What the body does with its observation, each at its time. *)
Inductive observation_call :=
| SetToolScope (tool_id tool_version_id : string)
| SetSearchMode (retrieval_mode : string)
| Finish (now : Q) (outcome : string) (error_code : option string).

Definition observe_call (o : McpRequestObservation) (call : observation_call) : McpRequestObservation :=
  match call with
  | SetToolScope tool_id tool_version_id => set_tool_scope o tool_id tool_version_id
  | SetSearchMode retrieval_mode => set_search_mode o retrieval_mode
  | Finish now outcome error_code => finish_observation o now outcome error_code
  end.

Definition start_observation (operation protocol_era tenant_id principal_type : string) (started_at : Q) :
    McpRequestObservation :=
  mkObservation
    (mkSpan ("mcp." +:+ operation)
       [("nexusmcp.operation", operation); ("nexusmcp.protocol.era", protocol_era);
        ("nexusmcp.tenant.id", tenant_id); ("nexusmcp.principal.type", principal_type)] StatusUnset)
    operation protocol_era principal_type started_at None false [].

(** The body makes its calls and then returns or raises, at [ended_at]. *)
Definition observe_mcp_request (operation protocol_era tenant_id principal_type : string)
    (started_at : Q) (calls : list observation_call) (raised : bool) (ended_at : Q) :
    McpRequestObservation :=
  let o := foldl observe_call
             (start_observation operation protocol_era tenant_id principal_type started_at) calls in
  let o := if raised then finish_observation o ended_at "error" (Some "unexpected_error") else o in
  finish_observation o ended_at "success" None.

(** ** The runtime *)

Inductive TelemetryExporter := NoExporter | ConsoleExporter | OtlpHttpExporter.
#[export] Instance exporter_eq_dec : EqDecision TelemetryExporter.
Proof. solve_decision. Defined.

Record TelemetrySettings := mkTelemetrySettings {
  te_enabled : bool;
  te_exporter : TelemetryExporter;
  te_service_name : string;
  te_environment : string;
  te_otlp_endpoint : option string;
  te_export_interval_ms : Z;
  te_export_timeout_seconds : Q }.

(** [TelemetrySettings.__post_init__] *)
Definition new_telemetry_settings (t : TelemetrySettings) : res TelemetrySettings :=
  raise_if (blank (te_service_name t) || blank (te_environment t))
    (ValueError "telemetry service and environment must not be blank") ;;?
  raise_if ((te_export_interval_ms t <=? 0)%Z || not_positive (te_export_timeout_seconds t))
    (ValueError "telemetry export timing must be positive") ;;?
  raise_if (bool_decide (te_exporter t = OtlpHttpExporter) && str_empty (default "" (te_otlp_endpoint t)))
    (ValueError "OTLP HTTP telemetry exporter requires an endpoint") ;;?
  Ok t.

(** [_validated_otlp_endpoint] *)
Definition validated_otlp_endpoint (value : option string) : res string :=
  match value with
  | Some endpoint =>
      if http_url endpoint then Ok (rstrip_chars (λ c, bool_decide (c = "/"%char)) endpoint)
      else Raise (ValueError "OTLP HTTP endpoint must use http or https")
  | None => Raise (ValueError "OTLP HTTP endpoint must use http or https")
  end.

(** Where the spans and the measurements go. *)
Inductive exports := NoExport | ConsoleExport | OtlpExport (traces metrics : string).

(** A provider of spans or of instruments that is shut down. *)
Inductive telemetry_provider := TracerProvider | MeterProvider.
#[export] Instance telemetry_provider_eq_dec : EqDecision telemetry_provider.
Proof. solve_decision. Defined.

(** [TelemetryRuntime]: its providers (none for the no-op telemetry), what was
    shut down so far. *)
Record TelemetryRuntime := mkTelemetryRuntime {
  tr_exports : exports;
  tr_providers : list telemetry_provider;
  tr_shutdown : bool;
  tr_stopped : list telemetry_provider }.

(** [TelemetryRuntime.shutdown] *)
Definition telemetry_shutdown (r : TelemetryRuntime) : TelemetryRuntime :=
  if tr_shutdown r then r
  else mkTelemetryRuntime (tr_exports r) (tr_providers r) true
         (tr_stopped r ++ filter (λ p, p ∈ tr_providers r) [MeterProvider; TracerProvider]).

Definition create_telemetry_runtime (t : TelemetrySettings) : res TelemetryRuntime :=
  if negb (te_enabled t) then Ok (mkTelemetryRuntime NoExport [] false [])
  else
    let? target := match te_exporter t with
                   | NoExporter => Ok NoExport
                   | ConsoleExporter => Ok ConsoleExport
                   | OtlpHttpExporter =>
                       let? endpoint := validated_otlp_endpoint (te_otlp_endpoint t) in
                       Ok (OtlpExport (endpoint +:+ "/v1/traces") (endpoint +:+ "/v1/metrics"))
                   end in
    Ok (mkTelemetryRuntime target [TracerProvider; MeterProvider] false []).

(** ** One report per request *)

(** What is reported: the search mode then set, the time, the outcome and the
    error code of the first [finish]. *)
Record report := mkReport {
  re_search_mode : option string;
  re_time : Q;
  re_outcome : string;
  re_error_code : option string }.

Fixpoint first_report (mode : option string) (calls : list observation_call) (raised : bool)
    (ended_at : Q) : report :=
  match calls with
  | [] => if raised then mkReport mode ended_at "error" (Some "unexpected_error")
          else mkReport mode ended_at "success" None
  | SetToolScope _ _ :: rest => first_report mode rest raised ended_at
  | SetSearchMode mode :: rest => first_report (Some mode) rest raised ended_at
  | Finish now outcome error_code :: _ => mkReport mode now outcome error_code
  end.

(** The measurements of a report. *)
Definition reported (operation protocol_era principal_type : string) (started_at : Q) (r : report) :
    list measurement :=
  finish_measurements
    (mkObservation (mkSpan "" [] StatusUnset) operation protocol_era principal_type started_at
       (re_search_mode r) false [])
    (re_time r) (re_outcome r) (re_error_code r).

(** The attributes a span, and an instrument, may get. *)
Definition span_attributes : list string :=
  ["nexusmcp.operation"; "nexusmcp.protocol.era"; "nexusmcp.tenant.id"; "nexusmcp.principal.type";
   "nexusmcp.tool.id"; "nexusmcp.tool.version_id"; "nexusmcp.search.mode"; "nexusmcp.outcome";
   "nexusmcp.error.code"].
Definition instrument_attributes : list string :=
  ["nexusmcp.operation"; "nexusmcp.protocol.era"; "nexusmcp.principal.type"; "nexusmcp.outcome";
   "nexusmcp.error.code"; "nexusmcp.search.mode"].

Definition attributes_of (m : measurement) : dict string :=
  match m with Added _ _ attributes | Recorded _ _ attributes => attributes end.

Definition counts (counter : string) (m : measurement) : Prop :=
  match m with Added name _ _ => name = counter | Recorded _ _ _ => False end.
#[export] Instance counts_dec counter m : Decision (counts counter m).
Proof. destruct m; simpl; apply _. Defined.

Section Report.
Context (operation protocol_era principal_type : string) (started_at : Q).

(** An observation of this request that has not been finished. *)
Definition open_observation (mode : option string) (o : McpRequestObservation) : Prop :=
  ob_operation o = operation ∧ ob_protocol_era o = protocol_era ∧ ob_principal_type o = principal_type ∧
  ob_started_at o = started_at ∧ ob_search_mode o = mode ∧ ob_finished o = false ∧ ob_measurements o = [].

(** A finished observation that reported [r]. *)
Definition closed_observation (r : report) (o : McpRequestObservation) : Prop :=
  ob_finished o = true ∧ ob_measurements o = reported operation protocol_era principal_type started_at r ∧
  sp_status (ob_span o) = (if is_none (re_error_code r) then StatusOk else StatusError) ∧
  dget "nexusmcp.outcome" (sp_attributes (ob_span o)) = Some (re_outcome r).

Lemma finish_open mode o now outcome error_code :
  open_observation mode o →
  closed_observation (mkReport mode now outcome error_code) (finish_observation o now outcome error_code).
Proof.
  intros (Ho & He & Hp & Hs & Hm & Hf & Hl). unfold finish_observation. rewrite Hf.
  unfold closed_observation, reported. simpl. split_and!; [done| | |].
  - rewrite Hl. unfold finish_measurements, metric_attributes. simpl. by rewrite Ho, He, Hp, Hs, Hm.
  - by destruct error_code.
  - destruct error_code; simpl; rewrite ?dget_dset_ne by done; by rewrite dget_dset_eq.
Qed.

Lemma call_closed r o call : closed_observation r o → closed_observation r (observe_call o call).
Proof.
  intros (Hf & Hm & Hs & Ho). destruct call; simpl.
  - unfold closed_observation. simpl. by rewrite !dget_dset_ne by done.
  - unfold closed_observation. simpl. by rewrite !dget_dset_ne by done.
  - unfold finish_observation. by rewrite Hf.
Qed.

Lemma calls_closed r calls o :
  closed_observation r o → closed_observation r (foldl observe_call o calls).
Proof.
  revert o. induction calls as [|call calls IH]; intros o Ho; simpl; [done|].
  by apply IH, call_closed.
Qed.

Lemma finish_closed r o now outcome error_code :
  closed_observation r o → closed_observation r (finish_observation o now outcome error_code).
Proof. intros H. exact (call_closed r o (Finish now outcome error_code) H). Qed.

Lemma calls_report mode calls raised ended_at o :
  open_observation mode o →
  closed_observation (first_report mode calls raised ended_at)
    (let o := foldl observe_call o calls in
     finish_observation (if raised then finish_observation o ended_at "error" (Some "unexpected_error") else o) ended_at "success" None).
Proof.
  revert mode o. induction calls as [|call calls IH]; intros mode o Ho.
  - simpl. destruct raised; [apply finish_closed|]; by apply finish_open.
  - destruct call; simpl.
    + apply IH. destruct Ho as (?&?&?&?&?&?&?). by unfold open_observation.
    + apply IH. destruct Ho as (?&?&?&?&?&?&?). by unfold open_observation.
    + assert (Hc : closed_observation (mkReport mode now outcome error_code)
        (foldl observe_call (finish_observation o now outcome error_code) calls)) by (by apply calls_closed, finish_open).
      destruct raised; by repeat apply finish_closed.
Qed.
End Report.

(** Whatever the body of an observed request does with its observation and
    however it ends, the request is measured exactly once: by the outcome of
    the first [finish], or as an unexpected error when the body raises before
    it, or else as a success; the counter of requests goes up by one and the
    status of the span agrees with the error code. *)
Theorem request_observed_once operation protocol_era tenant_id principal_type started_at calls raised ended_at :
  let o := observe_mcp_request operation protocol_era tenant_id principal_type started_at calls raised ended_at in
  let r := first_report None calls raised ended_at in
  ob_finished o = true ∧
  ob_measurements o = reported operation protocol_era principal_type started_at r ∧
  length (filter (counts "nexusmcp.mcp.requests") (ob_measurements o)) = 1%nat ∧
  sp_status (ob_span o) = (if is_none (re_error_code r) then StatusOk else StatusError) ∧
  dget "nexusmcp.outcome" (sp_attributes (ob_span o)) = Some (re_outcome r).
Proof.
  intros o r.
  assert (Hc : closed_observation operation protocol_era principal_type started_at r o).
  { apply calls_report. by repeat split. }
  destruct Hc as (Hf & Hm & Hs & Ho). split_and!; try done. rewrite Hm.
  unfold reported, finish_measurements. simpl.
  repeat case_bool_decide; destruct (re_search_mode r); reflexivity.
Qed.

(** ** Only listed attributes *)

Definition keys_within (allowed : list string) (d : dict string) : Prop := Forall (λ kv, kv.1 ∈ allowed) d.

Lemma keys_within_dset allowed k v d :
  k ∈ allowed → keys_within allowed d → keys_within allowed (dset k v d).
Proof.
  intros Hk. unfold keys_within. induction d as [|[k' v'] d IH]; simpl.
  - intros _. by constructor.
  - intros [? ?]%Forall_cons. case_decide; constructor; simpl in *; subst; auto.
Qed.

(** Every key is one of a closed list. *)
Ltac listed := apply (bool_decide_unpack _); vm_compute; exact I.
(** A property of each of a list that is written out. *)
Ltac each_of t := rewrite ?Forall_cons, ?Forall_nil; split_and?; try done; try t.

Definition within_lists (o : McpRequestObservation) : Prop :=
  keys_within span_attributes (sp_attributes (ob_span o)) ∧
  Forall (λ m, keys_within instrument_attributes (attributes_of m)) (ob_measurements o).

Lemma finish_measurements_within o now outcome error_code :
  Forall (λ m, keys_within instrument_attributes (attributes_of m))
    (finish_measurements o now outcome error_code).
Proof.
  assert (Ha : keys_within instrument_attributes (metric_attributes o outcome error_code)).
  { unfold metric_attributes, keys_within. destruct error_code; simpl; each_of listed. }
  unfold finish_measurements. rewrite !Forall_app. split_and!.
  - each_of ltac:(exact Ha).
  - case_bool_decide; [each_of ltac:(exact Ha)|by apply Forall_nil_2].
  - destruct (ob_search_mode o); [|by apply Forall_nil_2]. apply Forall_cons_2; [|by apply Forall_nil_2]. cbn [attributes_of].
    unfold keys_within in *. rewrite Forall_app. split; [done|]. apply Forall_cons_2; [simpl; listed|by apply Forall_nil_2].
  - case_bool_decide; [each_of ltac:(exact Ha)|by apply Forall_nil_2].
Qed.

Lemma call_within o call : within_lists o → within_lists (observe_call o call).
Proof.
  intros [Hs Hm]. destruct call as [tool_id version|mode|now outcome error_code]; simpl.
  - split; [|done]. simpl. repeat (apply keys_within_dset; [listed|]). done.
  - split; [|done]. simpl. apply keys_within_dset; [listed|done].
  - unfold finish_observation. destruct (ob_finished o); [done|]. split; simpl.
    + unfold finish_span. destruct error_code; simpl; repeat (apply keys_within_dset; [listed|]); done.
    + rewrite Forall_app. split; [done|]. apply finish_measurements_within.
Qed.

(** Whatever happens, the span and the measurements of a request carry only the
    listed attributes; the measurements never name the tenant or the tool. *)
Lemma observed_within_lists operation protocol_era tenant_id principal_type started_at calls raised ended_at :
  within_lists (observe_mcp_request operation protocol_era tenant_id principal_type started_at calls raised ended_at).
Proof.
  unfold observe_mcp_request.
  assert (Hc : ∀ o, within_lists o → within_lists (foldl observe_call o calls)).
  { induction calls as [|call rest IH]; intros o Ho; simpl; [done|]. apply IH. by apply call_within. }
  set (o := foldl observe_call _ calls).
  assert (Ho : within_lists o).
  { apply Hc. split; [|by apply Forall_nil_2]. simpl. unfold keys_within. each_of listed. }
  apply (call_within _ (Finish ended_at "success" None)).
  destruct raised; [apply (call_within _ (Finish ended_at "error" (Some "unexpected_error")))|]; done.
Qed.

(** ** The runtime *)

(** [shutdown] stops the providers once, the instruments before the spans. *)
Lemma shutdown_once r :
  telemetry_shutdown (telemetry_shutdown r) = telemetry_shutdown r ∧
  (tr_shutdown r = false → tr_stopped r = [] → tr_providers r = [TracerProvider; MeterProvider] →
   tr_stopped (telemetry_shutdown r) = [MeterProvider; TracerProvider]).
Proof.
  split.
  - unfold telemetry_shutdown. destruct (tr_shutdown r) eqn:E; [by rewrite E|done].
  - intros Hf Hs Hp. unfold telemetry_shutdown. rewrite Hf. simpl. rewrite Hs, Hp. by vm_compute.
Qed.

(** A runtime has no providers exactly when telemetry is disabled. *)
Lemma created_runtime t r :
  create_telemetry_runtime t = Ok r →
  tr_shutdown r = false ∧ tr_stopped r = [] ∧
  tr_providers r = if te_enabled t then [TracerProvider; MeterProvider] else [].
Proof.
  unfold create_telemetry_runtime. intros H. destruct (te_enabled t); simpl in H.
  - apply rbind_Ok_inv in H as (target & _ & [= <-]). done.
  - by injection H as <-.
Qed.

(** Validated settings always give a runtime when the endpoint is a URL. *)
Lemma runtime_created t :
  new_telemetry_settings t = Ok t →
  (∀ endpoint, te_otlp_endpoint t = Some endpoint → http_url endpoint = true) →
  ∃ r, create_telemetry_runtime t = Ok r.
Proof.
  unfold new_telemetry_settings, create_telemetry_runtime. intros H Hu. guards H.
  destruct (te_enabled t); simpl; [|by eexists].
  destruct (te_exporter t); simpl; [by eexists..|].
  destruct (te_otlp_endpoint t) as [endpoint|] eqn:E; simpl in *; [|done].
  rewrite (Hu endpoint) by done. simpl. by eexists.
Qed.

Module TelemetryExamples.
(** A search that is rejected after its mode was set: one error, in each of the
    instruments that count it; the later [finish] of the context manager and
    the mode set after the first [finish] change no measurement. *)
Definition rejected_search : McpRequestObservation :=
  observe_mcp_request "tools.call" "legacy" "tenant" "agent_service" 1
    [SetSearchMode "hybrid"; Finish 2 "rejected" (Some "tool_search_mode_unavailable");
     SetSearchMode "lexical"; Finish 3 "success" None] true 4.

Example rejected_search_measured :
  map (λ m, match m with Added name _ _ | Recorded name _ _ => name end) (ob_measurements rejected_search) =
  ["nexusmcp.mcp.requests"; "nexusmcp.mcp.request.duration"; "nexusmcp.tool.calls";
   "nexusmcp.tool.call.duration"; "nexusmcp.tool_search.duration"; "nexusmcp.legacy.fallbacks"].
Proof. by vm_compute. Qed.

Example otlp_endpoints :
  tr_exports <$> (match create_telemetry_runtime
    (mkTelemetrySettings true OtlpHttpExporter "nexusmcp" "test" (Some "http://collector:4318//") 1 1) with
    | Ok r => Some r | Raise _ => None end) =
  Some (OtlpExport "http://collector:4318/v1/traces" "http://collector:4318/v1/metrics").
Proof. by vm_compute. Qed.
End TelemetryExamples.
