(* ===== verification/Logging.v ===== *)
(** * Logging: structured log records and their context

    Models [infrastructure/observability/logging.py] and
    [shared/log_context.py]: the two regular expressions that redact a text,
    with the backtracking matcher of [re] for the constructs they use, the
    fields of a record, the two formatters and [configure_logging]; and the
    context variable that [bind_log_context] sets and restores.  A log record is
    what the formatter reads of [logging.LogRecord]; an attribute that is
    not [None] or a number is read through its [str] alone. *)

From Stdlib Require Import ZArith Ascii Lia.
From stdpp Require Import base relations strings option list pretty.
From S2P Require Import Prelude Text Dict Errors Json Store CallTool Format McpServer Uuid.
Open Scope py_scope.

(** ** Regular expressions

    The constructs of the two patterns: one character of a class, sequence,
    ordered choice, [?] and a repeated class, all greedy.  [matches r k s] is
    [re]'s backtracking match of [r] at the start of [s], continued by [k] on
    what is left. *)

Inductive regex :=
| Class (p : ascii → bool)
| Cat (a b : regex)
| Choice (a b : regex)
| Maybe (a : regex)
| Many (p : ascii → bool).

Fixpoint many {A} (p : ascii → bool) (k : string → option A) (s : string) : option A :=
  match s with
  | String c s' =>
      if p c then match many p k s' with Some x => Some x | None => k s end else k s
  | EmptyString => k s
  end.

Fixpoint matches {A} (r : regex) (k : string → option A) (s : string) : option A :=
  match r with
  | Class p => match s with String c s' => if p c then k s' else None | EmptyString => None end
  | Cat a b => matches a (matches b k) s
  | Choice a b => match matches a k s with Some x => Some x | None => matches b k s end
  | Maybe a => match matches a k s with Some x => Some x | None => k s end
  | Many p => many p k s
  end.

(** [p+] *)
Definition some_of (p : ascii → bool) : regex := Cat (Class p) (Many p).
(** A letter in either case. *)
Definition letter (c : ascii) : regex := Class (λ d, bool_decide (lower_char d = lower_char c)).
Fixpoint keyword (s : string) : regex :=
  match s with
  | EmptyString => Many (λ _, false)
  | String c EmptyString => letter c
  | String c s' => Cat (letter c) (keyword s')
  end.
Definition one_of (chars : string) : ascii → bool := char_in chars.
Definition none_of (chars : string) (c : ascii) : bool := negb (char_in chars c) && negb (is_space c).

(** The two quotation marks. *)
Definition quotes : string := String (ascii_of_N 34) "'".

(** Group 1: [authorization], [cookie], [api[-_]?key], [access[-_]?token],
    [refresh[-_]?token], [password] or [secret], in either case. *)
Definition two_words (a b : string) : regex := Cat (keyword a) (Cat (Maybe (Class (one_of "-_"))) (keyword b)).
Definition sensitive_word : regex :=
  Choice (keyword "authorization") (Choice (keyword "cookie") (Choice (two_words "api" "key")
    (Choice (two_words "access" "token") (Choice (two_words "refresh" "token")
      (Choice (keyword "password") (keyword "secret")))))).

(** The class of the value: no space, comma, semicolon or quotation mark. *)
Definition value_char : ascii → bool := none_of (",;" +:+ quotes).

(** The rest of [_SENSITIVE_ASSIGNMENT_PATTERN]: a quote, spaces, [:] or [=],
    spaces, a quote, the word [bearer], the value. *)
Definition assigned_value : regex :=
  Cat (Maybe (Class (one_of quotes))) (Cat (Many is_space) (Cat (Class (one_of ":="))
    (Cat (Many is_space) (Cat (Maybe (Class (one_of quotes)))
      (Cat (Maybe (Cat (keyword "bearer") (some_of is_space))) (some_of value_char)))))).

(** The text of a group that ends where [rest] begins. *)
Definition group_text (s rest : string) : string :=
  String.substring 0 (String.length s - String.length rest) s.

(** A match at the start: what replaces it, and what follows it. *)
Definition sensitive_assignment (s : string) : option (string * string) :=
  matches sensitive_word (λ after_word,
    matches assigned_value (λ rest, Some (group_text s after_word +:+ "=[REDACTED]", rest)) after_word) s.

(** [_URL_CREDENTIAL_PATTERN]: the three characters before the authority, a
    user name, a colon, a password and an at sign. *)
Definition user_char : ascii → bool := none_of "/@:".
Definition password_char : ascii → bool := none_of "/@".
Definition url_credential (s : string) : option (string * string) :=
  matches (Cat (Class (one_of ":")) (Cat (Class (one_of "/")) (Class (one_of "/")))) (λ after,
    matches (Cat (some_of user_char) (Cat (Class (one_of ":")) (Cat (some_of password_char) (Class (one_of "@")))))
      (λ rest, Some ("://[REDACTED]@", rest)) after) s.

(** [pattern.sub]: the matches from left to right; no match is empty, so each
    turn of the loop shortens the text. *)
Fixpoint sub_fuel (fuel : nat) (find : string → option (string * string)) (s : string) : string :=
  match fuel, s with
  | S fuel', String c s' =>
      match find s with
      | Some (replacement, rest) => replacement +:+ sub_fuel fuel' find rest
      | None => String c (sub_fuel fuel' find s')
      end
  | _, _ => ""
  end.
Definition sub (find : string → option (string * string)) (s : string) : string :=
  sub_fuel (String.length s) find s.

(** [_redact_text] *)
Definition redact_text (value : string) : string := sub url_credential (sub sensitive_assignment value).

(** ** Fields *)

(** The value of an attribute: [None], a [bool], an [int], a finite [float] with
    its [repr], or another object with its [str]. *)
Inductive attribute := ANone | ABool (b : bool) | AInt (z : Z) | AFloat (repr : string) | AText (s : string).

Definition str_attribute (a : attribute) : string :=
  match a with
  | ANone => "None"
  | ABool b => if b then "True" else "False"
  | AInt z => pretty z
  | AFloat x => x
  | AText s => s
  end.

(** [_EVENT_PATTERN] *)
Definition event_char (c : ascii) : bool :=
  let n := code c in ((97 <=? n) && (n <=? 122) || (48 <=? n) && (n <=? 57) || (n =? 95))%N.
Definition is_event (s : string) : bool :=
  match s with
  | String c s' => ((97 <=? code c) && (code c <=? 122))%N && all_chars event_char s'
  | EmptyString => false
  end.

Definition normalize_event (value : string) : string :=
  let event := strip (redact_text value) in if is_event event then event else "unstructured_log_event".

Definition max_field_length : nat := 512.
Definition one_line (s : string) : string := replace_char (ascii_of_N 10) " " (replace_char (ascii_of_N 13) " " s).

Definition normalize_value (value : attribute) : json :=
  match value with
  | ANone => JNull
  | ABool b => JBool b
  | AInt z => JInt z
  | AFloat x => JFloat x
  | AText s => JStr (String.substring 0 max_field_length (one_line (redact_text s)))
  end.

(** ** The context of a request *)

Record LogContext := mkLogContext {
  lc_request_id : option string;
  lc_trace_id : option string;
  lc_tenant_id : option string;
  lc_protocol_era : option string;
  lc_tool_id : option string;
  lc_tool_version_id : option string }.

Definition no_log_context : LogContext := mkLogContext None None None None None None.

(** [LogContext.fields] *)
Definition context_fields (c : LogContext) : dict string :=
  omap (λ kv, pair kv.1 <$> kv.2)
    [("request_id", lc_request_id c); ("trace_id", lc_trace_id c); ("tenant_id", lc_tenant_id c);
     ("protocol_era", lc_protocol_era c); ("tool_id", lc_tool_id c); ("tool_version_id", lc_tool_version_id c)].

(** [replace(current, **updates)] with the updates that are not [None] *)
Definition merge_context (current updates : LogContext) : LogContext :=
  let pick new old := match new with Some x => Some x | None => old end in
  mkLogContext (pick (lc_request_id updates) (lc_request_id current)) (pick (lc_trace_id updates) (lc_trace_id current))
    (pick (lc_tenant_id updates) (lc_tenant_id current)) (pick (lc_protocol_era updates) (lc_protocol_era current))
    (pick (lc_tool_id updates) (lc_tool_id current))
    (pick (lc_tool_version_id updates) (lc_tool_version_id current)).

(** The context variable, and what a block does to it. *)
Definition context_variable : Type := option LogContext.
Definition LogM (A : Type) : Type := context_variable → res A * context_variable.

Definition current_log_context (v : context_variable) : LogContext := default no_log_context v.

(** [with bind_log_context(...) as context: body] *)
Definition bind_log_context {A} (updates : LogContext) (body : LogContext → LogM A) : LogM A := λ v,
  let context := merge_context (current_log_context v) updates in
  let '(r, _) := body context (Some context) in (r, v).

(** ** Records *)

Record stack_frame := mkFrame { fr_file : string; fr_line : Z; fr_function : string }.

(** [exc_info]: the type's name if there is one, the exception's text, and the
    frames of the traceback. *)
Record exc_info := mkExcInfo {
  ei_type : option string;
  ei_exception : string;
  ei_frames : list stack_frame }.

Record log_record := mkLogRecord {
  lr_created : datetime;
  lr_level : string;
  lr_logger : string;
  lr_message : string;
  lr_event : option attribute;
  lr_extras : dict attribute;
  lr_exc_info : option exc_info }.

(** [_safe_exception] *)
Definition safe_exception (e : exc_info) : json :=
  JObj [("type", JStr (default "Exception" (ei_type e)));
        ("stack", JArr (map (λ f, JObj [("file", JStr (fr_file f)); ("line", JInt (fr_line f));
                                        ("function", JStr (fr_function f))]) (ei_frames e)))].

(** [_EXTRA_FIELDS] *)
Definition extra_fields : list string := ["error_code"; "duration_ms"; "tool_count"].

(** The extra attributes of the list that are set. *)
Definition recorded_extras (r : log_record) : dict json :=
  omap (λ key, match dget key (lr_extras r) with
               | None | Some ANone => None
               | Some value => Some (key, normalize_value value)
               end) extra_fields.

Section Formatter.
Context (service environment : string).

(** [SafeStructuredFormatter.structured_record]; the keys are all different, so
    that the dictionary has them in the order they are set. *)
Definition structured_record (v : context_variable) (r : log_record) : dict json :=
  [("timestamp", JStr (isoformat (lr_created r))); ("level", JStr (lower (lr_level r)));
   ("service", JStr service); ("environment", JStr environment); ("logger", JStr (lr_logger r));
   ("event", JStr (normalize_event (match lr_event r with
                                    | Some a => str_attribute a | None => lr_message r end)))]
  ++ map (λ kv, (kv.1, normalize_value (AText kv.2))) (context_fields (current_log_context v))
  ++ recorded_extras r
  ++ match lr_exc_info r with Some e => [("exception", safe_exception e)] | None => [] end.

(** [JsonLogFormatter.format] *)
Definition json_format (v : context_variable) (r : log_record) : string :=
  dumps_ordered (JObj (structured_record v r)).

(** The five keys [ConsoleLogFormatter.format] prints first; [str] of a text is
    the text. *)
Definition leading_keys : list string := ["timestamp"; "level"; "service"; "environment"; "event"].
Definition shown (j : json) : string := match j with JStr s => s | _ => dumps_ordered j end.

Definition console_format (v : context_variable) (r : log_record) : string :=
  let payload := structured_record v r in
  let leading := str_join " " (omap (λ key, shown <$> dget key payload) leading_keys) in
  let details := str_join " " (map (λ kv, kv.1 +:+ "=" +:+ dumps_ordered kv.2)
                                 (filter (λ kv, kv.1 ∉ leading_keys) payload)) in
  if str_empty details then leading else leading +:+ " " +:+ details.
End Formatter.

(** ** [configure_logging] *)

(** [logging.getLevelNamesMapping()] *)
Definition level_names : dict Z :=
  [("CRITICAL", 50%Z); ("FATAL", 50%Z); ("ERROR", 40%Z); ("WARN", 30%Z); ("WARNING", 30%Z); ("INFO", 20%Z);
   ("DEBUG", 10%Z); ("NOTSET", 0%Z)].

Inductive formatter := JsonFormatter | ConsoleFormatter.

(** The root logger: its handlers' formatters and its level. *)
Record root_logger := mkRoot { rl_handlers : list (formatter * string * string); rl_level : Z; rl_warnings : bool }.

Definition configure_logging (service environment level log_format : string) (root : root_logger) :
    res root_logger :=
  match dget (upper level) level_names with
  | None => Raise (ValueError "log level must be a valid Python logging level")
  | Some n =>
      let f := if bool_decide (log_format = "json") then JsonFormatter else ConsoleFormatter in
      Ok (mkRoot [(f, service, environment)] n true)
  end.

(** ** The matcher and the language of a pattern *)

(** The texts a pattern describes. *)
Fixpoint accepts (r : regex) (y : string) : Prop :=
  match r with
  | Class p => ∃ c, p c = true ∧ y = String c ""
  | Cat a b => ∃ y1 y2, y = y1 +:+ y2 ∧ accepts a y1 ∧ accepts b y2
  | Choice a b => accepts a y ∨ accepts b y
  | Maybe a => y = "" ∨ accepts a y
  | Many p => all_chars p y = true
  end.

Lemma many_sound {A} p (k : string → option A) s x :
  many p k s = Some x → ∃ y rest, s = y +:+ rest ∧ all_chars p y = true ∧ k rest = Some x.
Proof.
  induction s as [|c s IH]; simpl; [intros H; by exists "", ""|].
  destruct (p c) eqn:Hp; [|intros H; by exists "", (String c s)].
  destruct (many p k s) eqn:E; [|intros H; by exists "", (String c s)].
  intros [= ->]. destruct (IH eq_refl) as (y & rest & -> & Hy & Hk).
  exists (String c y), rest. simpl. by rewrite Hp, Hy.
Qed.

(** A match is a text of the language, and the continuation accepts the rest. *)
Lemma matches_sound {A} r (k : string → option A) s x :
  matches r k s = Some x → ∃ y rest, s = y +:+ rest ∧ accepts r y ∧ k rest = Some x.
Proof.
  revert k s. induction r as [p|a IHa b IHb|a IHa b IHb|a IHa|p]; simpl; intros k s H.
  - destruct s as [|c s]; [done|]. destruct (p c) eqn:Hp; [|done]. exists (String c ""), s. eauto.
  - apply IHa in H as (y & rest & -> & Hy & H). apply IHb in H as (z & rest' & -> & Hz & H).
    exists (y +:+ z), rest'. rewrite str_app_assoc. eauto 10.
  - destruct (matches a k s) eqn:E.
    + simplify_eq. apply IHa in E as (y & rest & -> & Hy & H). eauto 10.
    + apply IHb in H as (y & rest & -> & Hy & H). eauto 10.
  - destruct (matches a k s) eqn:E; [|exists "", s; eauto].
    simplify_eq. apply IHa in E as (y & rest & -> & Hy & H). eauto 10.
  - by apply many_sound.
Qed.

Lemma many_complete {A} p (k : string → option A) y rest :
  all_chars p y = true → k rest ≠ None → many p k (y +:+ rest) ≠ None.
Proof.
  intros Hy Hk. induction y as [|c y IH].
  - rewrite str_app_nil_l. destruct rest as [|c s]; simpl; [done|].
    destruct (p c); [|done]. by destruct (many p k s).
  - simpl in Hy. apply andb_true_iff in Hy as [Hc Hy]. rewrite str_app_cons. simpl. rewrite Hc.
    specialize (IH Hy). by destruct (many p k (y +:+ rest)).
Qed.

(** The matcher finds a match wherever there is one. *)
Lemma matches_complete {A} r (k : string → option A) y rest :
  accepts r y → k rest ≠ None → matches r k (y +:+ rest) ≠ None.
Proof.
  revert k y rest. induction r as [p|a IHa b IHb|a IHa b IHb|a IHa|p]; simpl; intros k y rest Hy Hk.
  - destruct Hy as (c & Hc & ->). rewrite str_app_cons, str_app_nil_l. by rewrite Hc.
  - destruct Hy as (y1 & y2 & -> & H1 & H2). rewrite str_app_assoc. auto.
  - destruct (matches a k (y +:+ rest)) eqn:E; [done|].
    destruct Hy as [Hy|Hy]; [by destruct (IHa k y rest Hy Hk)|auto].
  - destruct Hy as [->|Hy].
    + rewrite str_app_nil_l. by destruct (matches a k rest).
    + specialize (IHa k y rest Hy Hk). by destruct (matches a k (y +:+ rest)).
  - by apply many_complete.
Qed.

(** ** Two texts that agree up to a character *)

(** No class of the pattern holds the character. *)
Fixpoint avoids (e : ascii) (r : regex) : bool :=
  match r with
  | Class p | Many p => negb (p e)
  | Cat a b | Choice a b => avoids e a && avoids e b
  | Maybe a => avoids e a
  end.

Section Agreement.
Context {A : Type} (agrees : option A → option A → Prop).
Context (e : ascii) (t1 t2 : string).
Context (agrees_None : agrees None None).
Context (agrees_both : ∀ o1 o2, agrees o1 o2 → o1 = None ↔ o2 = None).

(** The part of [x] a matcher has left is a suffix of it. *)
Definition agree_at (k1 k2 : string → option A) (x : string) : Prop :=
  ∀ y z, x = y +:+ z → agrees (k1 (z +:+ String e t1)) (k2 (z +:+ String e t2)).

Definition either (o1 o2 : option A) : option A := match o1 with Some x => Some x | None => o2 end.

Lemma agrees_either o1 o2 o1' o2' :
  agrees o1 o1' → agrees o2 o2' → agrees (either o1 o2) (either o1' o2').
Proof.
  intros H1 H2. destruct o1 as [x|], o1' as [y|]; simpl; [done| | |done].
  - by destruct (agrees_both _ _ H1) as [_ H]; specialize (H eq_refl).
  - by destruct (agrees_both _ _ H1) as [H _]; specialize (H eq_refl).
Qed.

Lemma agree_at_suffix k1 k2 y z : agree_at k1 k2 (y +:+ z) → agree_at k1 k2 z.
Proof. intros H y' z' ->. apply (H (y +:+ y')). by rewrite str_app_assoc. Qed.

Lemma agree_here k1 k2 x : agree_at k1 k2 x → agrees (k1 (x +:+ String e t1)) (k2 (x +:+ String e t2)).
Proof. intros H. by apply (H ""). Qed.

(** A pattern that avoids the character never looks past it. *)
Lemma matches_agree r k1 k2 x :
  avoids e r = true → agree_at k1 k2 x → agree_at (matches r k1) (matches r k2) x.
Proof.
  revert k1 k2 x. induction r as [p|a IHa b IHb|a IHa b IHb|a IHa|p]; simpl; intros k1 k2 x Hr Hk.
  - intros y z ->. apply agree_at_suffix in Hk. apply negb_true_iff in Hr.
    destruct z as [|c z]; rewrite ?str_app_nil_l, ?str_app_cons; [by rewrite Hr|].
    destruct (p c); [|done]. apply (Hk (String c "")). done.
  - apply andb_true_iff in Hr as [Ha Hb]. auto.
  - apply andb_true_iff in Hr as [Ha Hb]. intros y z ->. apply agree_at_suffix in Hk.
    apply agrees_either; apply agree_here; auto.
  - intros y z ->. apply agree_at_suffix in Hk. apply agrees_either; [apply agree_here; auto|by apply agree_here].
  - intros y z ->. apply agree_at_suffix in Hk. apply negb_true_iff in Hr. revert Hk.
    induction z as [|c z IH]; intros Hk; rewrite ?str_app_nil_l, ?str_app_cons; simpl.
    + rewrite Hr. apply (agree_here _ _ _ Hk).
    + destruct (p c); [|apply (agree_here _ _ _ Hk)].
      apply agrees_either; [|apply (agree_here _ _ _ Hk)]. apply IH. by apply (agree_at_suffix _ _ (String c "")).
Qed.

Lemma matches_agree_cat a b k1 k2 x :
  avoids e a = true → agree_at (matches b k1) (matches b k2) x →
  agree_at (matches (Cat a b) k1) (matches (Cat a b) k2) x.
Proof. apply (matches_agree a). Qed.
End Agreement.

(** ** Passwords in URLs *)

(** A text with the password of a URL in it. *)
Definition holds_url_password (s : string) : Prop :=
  ∃ a user password b, s = a +:+ "://" +:+ user +:+ ":" +:+ password +:+ "@" +:+ b ∧
    user ≠ "" ∧ all_chars user_char user = true ∧ password ≠ "" ∧ all_chars password_char password = true.

(** What [_URL_CREDENTIAL_PATTERN] asks for after its first group. *)
Definition userinfo : regex :=
  Cat (some_of user_char) (Cat (Class (one_of ":")) (Cat (some_of password_char) (Class (one_of "@")))).

(** [pattern.search(s)] finds something *)
Fixpoint anywhere (find : string → option (string * string)) (s : string) : bool :=
  negb (is_none (find s)) || match s with EmptyString => false | String _ s' => anywhere find s' end.

Lemma one_of_char c d : one_of (String c "") d = true ↔ d = c.
Proof.
  unfold one_of, char_in. simpl. rewrite andb_true_r, negb_involutive. apply bool_decide_eq_true.
Qed.

Lemma some_of_accepts p y : accepts (some_of p) y ↔ y ≠ "" ∧ all_chars p y = true.
Proof.
  simpl. split.
  - intros (y1 & y2 & -> & (c & Hc & ->) & H). simpl. rewrite Hc. by split.
  - destruct y as [|c y]; [by intros []|]. simpl. intros [_ [Hc Hy]%andb_true_iff]. exists (String c ""), y. eauto.
Qed.

Lemma url_credential_spec s :
  url_credential s ≠ None ↔
    ∃ user password b, s = "://" +:+ user +:+ ":" +:+ password +:+ "@" +:+ b ∧
      user ≠ "" ∧ all_chars user_char user = true ∧ password ≠ "" ∧ all_chars password_char password = true.
Proof.
  unfold url_credential. fold userinfo. split.
  - intros H. destruct (matches _ _ s) as [x|] eqn:E; [|done]. clear H.
    apply matches_sound in E as (y & t & -> & Hy & E). apply matches_sound in E as (z & b & -> & Hz & E).
    destruct Hy as (y1 & y2 & -> & (c1 & ->%one_of_char & ->) & y3 & y4 & -> & (c2 & ->%one_of_char & ->) &
      (c3 & ->%one_of_char & ->)).
    destruct Hz as (u & z2 & -> & [Hu1 Hu2]%some_of_accepts & z3 & z4 & -> & (c4 & ->%one_of_char & ->) &
      p & z5 & -> & [Hp1 Hp2]%some_of_accepts & (c5 & ->%one_of_char & ->)).
    exists u, p, b. rewrite !str_app_assoc. eauto.
  - intros (u & p & b & -> & Hu1 & Hu2 & Hp1 & Hp2).
    apply matches_complete.
    { exists ":", "//". split; [done|]. split; [by exists ":"%char|].
      exists "/", "/". by split; [|split; exists "/"%char]. }
    assert (E : u +:+ ":" +:+ p +:+ "@" +:+ b = (u +:+ ":" +:+ p +:+ "@") +:+ b) by by rewrite !str_app_assoc.
    rewrite E. apply matches_complete; [|done].
    exists u, (":" +:+ p +:+ "@"). split; [done|]. split; [by apply some_of_accepts|].
    exists ":", (p +:+ "@"). split; [done|]. split; [by exists ":"%char|].
    exists p, "@". split; [done|]. split; [by apply some_of_accepts|by exists "@"%char].
Qed.

Lemma anywhere_here find s : find s ≠ None → anywhere find s = true.
Proof. intros H. by destruct s; simpl; destruct (find _). Qed.

Lemma anywhere_holds s : holds_url_password s → anywhere url_credential s = true.
Proof.
  intros (a & u & p & b & -> & H). induction a as [|c a IH].
  - rewrite str_app_nil_l.
    apply anywhere_here, url_credential_spec. eauto 10.
  - rewrite str_app_cons. simpl. by rewrite IH, orb_true_r.
Qed.

(** A text and what a substitution of [url_credential] makes of it agree up to
    the first match. *)
Inductive same_until_mark : string → string → Prop :=
| same_end : same_until_mark "" ""
| same_mark t t' : same_until_mark ("://" +:+ t) ("://" +:+ t')
| same_char c s o : same_until_mark s o → same_until_mark (String c s) (String c o).

Lemma url_credential_mark s x : url_credential s = Some x → ∃ t, s = "://" +:+ t ∧ x.1 = "://[REDACTED]@".
Proof.
  intros E. assert (H : url_credential s ≠ None) by by rewrite E.
  apply url_credential_spec in H as (u & p & b & -> & _). eexists. split; [done|].
  unfold url_credential in E. apply matches_sound in E as (y & t & _ & _ & E).
  apply matches_sound in E as (z & t' & _ & _ & E). by simplify_eq.
Qed.

Lemma sub_same n s : (String.length s ≤ n)%nat → same_until_mark s (sub_fuel n url_credential s).
Proof.
  revert s. induction n as [|n IH]; intros [|c s] Hn; simpl in *; [constructor|lia|constructor|].
  destruct (url_credential (String c s)) as [[t rest]|] eqn:E.
  - apply url_credential_mark in E as (t' & -> & E). simpl in E. subst t. apply (same_mark t' ("[REDACTED]@" +:+ _)).
  - constructor. apply IH. lia.
Qed.

Definition both_or_none (o1 o2 : option (string * string)) : Prop := o1 = None ↔ o2 = None.

Lemma same_until_slash s o : same_until_mark s o →
  s = o ∨ ∃ x t t', s = x +:+ "/" +:+ t ∧ o = x +:+ "/" +:+ t'.
Proof.
  induction 1 as [|t t'|c s o _ [->|(x & t & t' & -> & ->)]]; [by left| |by left|].
  - right. by exists ":", ("/" +:+ t), ("/" +:+ t').
  - right. by exists (String c x), t, t'.
Qed.

(** [url_credential] past the mark. *)
Definition password_at (s : string) : option (string * string) :=
  matches userinfo (λ rest, Some ("://[REDACTED]@", rest)) s.

Lemma password_at_same s o : same_until_mark s o → both_or_none (password_at s) (password_at o).
Proof.
  intros [->|(x & t & t' & -> & ->)]%same_until_slash; [done|].
  apply (agree_here both_or_none "/"%char t t'). by apply matches_agree.
Qed.

Lemma url_credential_same c s o :
  url_credential (String c s) = None → same_until_mark s o → url_credential (String c o) = None.
Proof.
  intros H Hs. destruct (url_credential (String c o)) as [x|] eqn:E; [|done].
  apply url_credential_mark in E as E'. destruct E' as (t & [= -> ->] & _).
  inversion Hs as [| |? s1 ? Hs1]; subst. inversion Hs1 as [| |? s2 ? Hs2]; subst.
  change (password_at s2 = None) in H. change (password_at t = Some x) in E.
  apply (proj1 (password_at_same _ _ Hs2)) in H. change (password_at t = None) in H. congruence.
Qed.

Lemma redacted_mark t : anywhere url_credential ("://[REDACTED]@" +:+ t) = anywhere url_credential t.
Proof. done. Qed.

(** Nothing is left for the pattern to find in what the substitution returns. *)
Lemma sub_removes n s :
  (String.length s ≤ n)%nat → anywhere url_credential (sub_fuel n url_credential s) = false.
Proof.
  revert s. induction n as [|n IH]; intros [|c s] Hn; simpl in Hn; [done|lia|done|].
  cbn [sub_fuel]. destruct (url_credential (String c s)) as [[t rest]|] eqn:E.
  - assert (Hr : (String.length rest ≤ n)%nat).
    { unfold url_credential in E. apply matches_sound in E as (y & r & Hs & (y1 & y2 & -> & (d & _ & ->) & _) & E).
      apply matches_sound in E as (z & r' & -> & _ & E). simplify_eq.
      rewrite <-str_app_assoc in Hs. apply (f_equal String.length) in Hs. simpl in Hs.
      rewrite !str_length_app in Hs. lia. }
    apply url_credential_mark in E as (t' & _ & E). simpl in E. subst t. rewrite redacted_mark. auto.
  - simpl. rewrite IH by lia. rewrite (url_credential_same c s) by (done || apply sub_same; lia). done.
Qed.

(** [_redact_text] leaves no password in a URL. *)
Lemma redact_text_clean s : ¬ holds_url_password (redact_text s).
Proof.
  intros H%anywhere_holds. unfold redact_text, sub in H. rewrite sub_removes in H by lia. done.
Qed.

(** ** Values of sensitive words *)

(** The words of group 1, as they are spelled in lower case. *)
Definition sensitive_words : list string :=
  ["authorization"; "cookie"; "apikey"; "api-key"; "api_key"; "accesstoken"; "access-token"; "access_token";
   "refreshtoken"; "refresh-token"; "refresh_token"; "password"; "secret"].

Definition is_sensitive (w : string) : bool := bool_decide (lower w ∈ sensitive_words).

(** A text that does not go on with a character of a value. *)
Definition delimited (b : string) : bool :=
  match b with EmptyString => true | String c _ => negb (value_char c) end.

Definition is_value (v : string) : bool :=
  negb (str_empty v) && all_chars value_char v && negb (bool_decide (lower v = "bearer")).

Fixpoint drop_value (s : string) : string :=
  match s with String c s' => if value_char c then drop_value s' else s | EmptyString => "" end.

Lemma drop_value_run v b : all_chars value_char v = true → delimited b = true → drop_value (v +:+ b) = b.
Proof.
  intros Hv Hb. induction v as [|c v IH]; simpl in Hv.
  - rewrite str_app_nil_l. destruct b as [|c b]; [done|]. simpl in *. by destruct (value_char c).
  - apply andb_true_iff in Hv as [Hc Hv]. rewrite str_app_cons. simpl. rewrite Hc. auto.
Qed.

Lemma many_value g s : many value_char (λ rest, Some (g, rest)) s = Some (g : string, drop_value s).
Proof. induction s as [|c s IH]; simpl; [done|]. destruct (value_char c); [by rewrite IH|done]. Qed.

Lemma group_text_app w t : group_text (w +:+ t) t = w.
Proof.
  unfold group_text. rewrite str_length_app.
  replace (String.length w + String.length t - String.length t)%nat with (String.length w) by lia.
  induction w as [|c w IH]; [by destruct t|]. rewrite str_app_cons. simpl. by rewrite IH.
Qed.

Lemma accepts_keyword u y : accepts (keyword u) y → lower y = lower u.
Proof.
  revert y. induction u as [|c u IH]; intros y; [by destruct y|].
  destruct u as [|d u].
  - simpl. by intros (x & Hx%bool_decide_eq_true & ->); simpl; rewrite Hx.
  - intros (y1 & y2 & -> & (x & Hx%bool_decide_eq_true & ->) & Hy). apply IH in Hy.
    rewrite str_app_cons, str_app_nil_l. simpl in *. by rewrite Hx, Hy.
Qed.

Lemma one_of_lower c d : lower_char c = d → one_of "-_" c = one_of "-_" d.
Proof. intros <-. by destruct c as [[] [] [] [] [] [] [] []]. Qed.

(** Only one of the words starts a text that starts with one of them. *)
Lemma word_found {A} (k : string → option A) w t :
  is_sensitive w = true → matches sensitive_word k (w +:+ t) = k t.
Proof.
  intros Hw%bool_decide_eq_true. unfold sensitive_words in Hw.
  repeat (apply elem_of_cons in Hw as [Hw|Hw]); [..|by apply not_elem_of_nil in Hw].
  all: repeat (destruct w as [|? w]; simpl in Hw; [discriminate Hw|injection Hw as ? Hw]).
  all: destruct w; [|discriminate Hw].
  all: rewrite !str_app_cons, str_app_nil_l.
  all: cbn [matches sensitive_word two_words keyword letter].
  all: repeat match goal with H : lower_char ?c = _ |- _ =>
         rewrite ?(one_of_lower c _ H), ?H; clear H end.
  all: cbn; by destruct (k t).
Qed.

Lemma str_app_cancel_r a b c : a +:+ c = b +:+ c → a = b.
Proof.
  intros H. assert (Hl := f_equal String.length H). rewrite !str_length_app in Hl.
  revert b H Hl. induction a as [|x a IH]; intros [|y b] H Hl; simpl in *; try lia; [done|].
  rewrite !str_app_cons in H. injection H as -> H. f_equal. apply IH; [done|lia].
Qed.

(** What follows the separator. *)
Definition value_part : regex :=
  Cat (Many is_space) (Cat (Maybe (Class (one_of quotes)))
    (Cat (Maybe (Cat (keyword "bearer") (some_of is_space))) (some_of value_char))).

Lemma value_char_plain c : value_char c = true → is_space c = false ∧ one_of quotes c = false.
Proof. by destruct c as [[] [] [] [] [] [] [] []]. Qed.

Lemma letter_value c d : lower_char c = lower_char d → value_char (lower_char d) = true → value_char c = true.
Proof. intros <-. by destruct c as [[] [] [] [] [] [] [] []]. Qed.

Lemma spelled_value y u : lower y = u → all_chars value_char u = true → all_chars value_char y = true.
Proof.
  intros <-. induction y as [|c y IH]; simpl; [done|]. intros [Hc Hy]%andb_true_iff.
  rewrite IH by done. rewrite andb_true_r. eapply letter_value; [|exact Hc]. done.
Qed.

Lemma sensitive_value w : is_sensitive w = true → all_chars value_char w = true.
Proof.
  intros Hw%bool_decide_eq_true. eapply spelled_value; [done|].
  assert (H : Forall (λ u, all_chars value_char u = true) sensitive_words) by (repeat constructor).
  rewrite Forall_forall in H. auto.
Qed.

Lemma some_value g c s :
  value_char c = true →
  matches (some_of value_char) (λ rest, Some (g : string, rest)) (String c s) = Some (g, drop_value s).
Proof. intros Hc. simpl. rewrite Hc. apply many_value. Qed.

(** At a value, the whole of it is matched. *)
Lemma value_part_at (g v b : string) :
  is_value v = true → delimited b = true →
  matches value_part (λ rest, Some (g : string, rest)) (v +:+ b) = Some (g, b).
Proof.
  unfold is_value. intros [[Hne Hv]%andb_true_iff Hbearer%negb_true_iff%bool_decide_eq_false]%andb_true_iff Hb.
  assert (Hm : matches (Cat (keyword "bearer") (some_of is_space))
                 (matches (some_of value_char) (λ rest, Some (g : string, rest))) (v +:+ b) = None).
  { destruct (matches _ _ _) as [x|] eqn:E; [|done].
    apply matches_sound in E as (yz & t & Hs & (y & z & -> & Hy%accepts_keyword & [Hz1 Hz2]%some_of_accepts) & _).
    destruct z as [|c z]; [done|]. simpl in Hz2. apply andb_true_iff in Hz2 as [Hc _]. rewrite str_app_assoc in Hs.
    assert (Hd := f_equal drop_value Hs). rewrite drop_value_run in Hd by done.
    assert (Hc' : value_char c = false).
    { destruct (value_char c) eqn:E; [|done]. apply value_char_plain in E as [E _]. congruence. }
    rewrite drop_value_run in Hd; [|by eapply spelled_value|by rewrite str_app_cons; simpl; rewrite Hc'].
    subst b. apply str_app_cancel_r in Hs. destruct Hbearer. by rewrite Hs. }
  destruct v as [|c v]; [done|]. simpl in Hv. apply andb_true_iff in Hv as [Hc Hv].
  destruct (value_char_plain c Hc) as [Hsp Hq].
  rewrite str_app_cons in *. cbn [value_part matches many]. rewrite Hsp, Hq.
  change (match matches (Cat (keyword "bearer") (some_of is_space))
                  (matches (some_of value_char) (λ rest, Some (g : string, rest))) (String c (v +:+ b))
          with Some x => Some x
          | None => matches (some_of value_char) (λ rest, Some (g : string, rest)) (String c (v +:+ b)) end = Some (g, b)).
  rewrite Hm, some_value, drop_value_run by done. done.
Qed.

Lemma assigned_value_at (g : string) e v b :
  one_of ":=" e = true → is_value v = true → delimited b = true →
  matches assigned_value (λ rest, Some (g : string, rest)) (String e (v +:+ b)) = Some (g, b).
Proof.
  intros He Hv Hb. rewrite <-(value_part_at g v b Hv Hb).
  assert (He' : e = ":"%char ∨ e = "="%char).
  { revert He. destruct e as [[] [] [] [] [] [] [] []]; try done; auto. }
  by destruct He' as [-> | ->].
Qed.

Lemma assignment_found w e v b :
  is_sensitive w = true → one_of ":=" e = true → is_value v = true → delimited b = true →
  sensitive_assignment (w +:+ String e (v +:+ b)) = Some (w +:+ "=[REDACTED]", b).
Proof.
  intros Hw He Hv Hb. unfold sensitive_assignment. rewrite (word_found _ _ _ Hw), group_text_app.
  by rewrite assigned_value_at.
Qed.

(** ** What is assigned to a sensitive word is never seen

    [X] is the text before the separator [e]; two texts go on with different
    values, and then with the same [b]. *)

Section Hiding.
Context (e : ascii) (v1 v2 b : string).
Context (He : one_of ":=" e = true) (H1 : is_value v1 = true) (H2 : is_value v2 = true).
Context (Hb : delimited b = true).

(** The two matches: the same replacement, and what is left is the text after
    the values, or begins before the separator at the end of a value. *)
Inductive same_match (X : string) : option (string * string) → option (string * string) → Prop :=
| no_match : same_match X None None
| whole_match t : same_match X (Some (t, b)) (Some (t, b))
| part_match t y z :
    X = y +:+ z → z ≠ "" → delimited z = true →
    same_match X (Some (t, z +:+ String e (v1 +:+ b))) (Some (t, z +:+ String e (v2 +:+ b))).

Lemma same_match_both X o1 o2 : same_match X o1 o2 → o1 = None ↔ o2 = None.
Proof. by destruct 1. Qed.

Lemma separator_is : e = ":"%char ∨ e = "="%char.
Proof. revert He. destruct e as [[] [] [] [] [] [] [] []]; try done; auto. Qed.

Lemma separator_value : value_char e = true ∧ is_space e = false ∧ one_of quotes e = false.
Proof. by destruct separator_is as [-> | ->]. Qed.

Lemma is_value_chars v : is_value v = true → all_chars value_char v = true.
Proof. unfold is_value. by intros [[_ Hv]%andb_true_iff _]%andb_true_iff. Qed.

(** Where a value ends that begins in [X]. *)
Lemma drop_same X g y z : X = y +:+ z →
  same_match X (Some (g, drop_value (z +:+ String e (v1 +:+ b)))) (Some (g, drop_value (z +:+ String e (v2 +:+ b)))).
Proof.
  destruct separator_value as (Hv & _). revert y. induction z as [|c z IH]; intros y HX.
  - rewrite !str_app_nil_l. simpl. rewrite Hv, !drop_value_run by auto using is_value_chars. constructor.
  - rewrite !str_app_cons. simpl. destruct (value_char c) eqn:Hc.
    + apply (IH (y +:+ String c "")). by rewrite str_app_assoc.
    + apply (part_match X g y (String c z)); [done|done|]. simpl. by rewrite Hc.
Qed.

Lemma value_same X g x y : X = y +:+ x →
  agree_at (same_match X) e (v1 +:+ b) (v2 +:+ b) (matches (some_of value_char) (λ rest, Some (g, rest)))
    (matches (some_of value_char) (λ rest, Some (g, rest))) x.
Proof.
  intros HX y' z ->. destruct separator_value as (Hv & _). destruct z as [|c z].
  - rewrite !str_app_nil_l, !some_value, !drop_value_run by auto using is_value_chars. constructor.
  - rewrite !str_app_cons. destruct (value_char c) eqn:Hc.
    + rewrite !some_value by done. apply (drop_same X g (y +:+ y' +:+ String c "")). by rewrite HX, !str_app_assoc.
    + simpl. rewrite Hc. constructor.
Qed.

Lemma assigned_same X g x y : X = y +:+ x →
  agree_at (same_match X) e (v1 +:+ b) (v2 +:+ b) (matches assigned_value (λ rest, Some (g, rest)))
    (matches assigned_value (λ rest, Some (g, rest))) x.
Proof.
  intros HX. destruct separator_value as (_ & Hsp & Hq).
  change assigned_value with (Cat (Maybe (Class (one_of quotes))) (Cat (Many is_space)
    (Cat (Class (one_of ":=")) value_part))).
  assert (Hm := same_match_both X). assert (Hn := no_match X).
  apply (matches_agree_cat (same_match X) e (v1 +:+ b) (v2 +:+ b) Hn Hm); [cbn [avoids]; by rewrite Hq|].
  apply (matches_agree_cat (same_match X) e (v1 +:+ b) (v2 +:+ b) Hn Hm); [cbn [avoids]; by rewrite Hsp|].
  intros y' z ->. destruct z as [|c z].
  - rewrite !str_app_nil_l. cbn [matches]. rewrite He.
    rewrite !value_part_at by done. constructor.
  - rewrite !str_app_cons. cbn [matches]. destruct (one_of ":=" c); [|constructor].
    apply (agree_here (same_match X)). unfold value_part.
    apply (matches_agree_cat (same_match X) e (v1 +:+ b) (v2 +:+ b) Hn Hm); [cbn [avoids]; by rewrite Hsp|].
    apply (matches_agree_cat (same_match X) e (v1 +:+ b) (v2 +:+ b) Hn Hm); [cbn [avoids]; by rewrite Hq|].
    apply (matches_agree_cat (same_match X) e (v1 +:+ b) (v2 +:+ b) Hn Hm).
    + by destruct separator_is as [-> | ->].
    + apply (value_same X g z (y +:+ y' +:+ String c "")). by rewrite HX, !str_app_assoc.
Qed.

Lemma assignment_same X :
  same_match X (sensitive_assignment (X +:+ String e (v1 +:+ b))) (sensitive_assignment (X +:+ String e (v2 +:+ b))).
Proof.
  unfold sensitive_assignment.
  apply (agree_here (same_match X)), (matches_agree (same_match X) e (v1 +:+ b) (v2 +:+ b));
    [apply no_match|apply same_match_both|by destruct separator_is as [-> | ->]|].
  intros y z HX. rewrite HX, !str_app_assoc, !group_text_app.
  apply (agree_here (same_match (y +:+ z))). rewrite <-HX. by apply (assigned_same X _ z y).
Qed.
End Hiding.

Lemma part_of_word w a y z :
  all_chars value_char w = true → a +:+ w = y +:+ z → z ≠ "" → delimited z = true →
  ∃ a', z = a' +:+ w.
Proof.
  intros Hw. revert a. induction y as [|c y IH]; intros a H Hz Hd.
  - rewrite str_app_nil_l in H. by exists a.
  - destruct a as [|d a]; [|rewrite !str_app_cons in H; injection H as _ H; eauto].
    rewrite str_app_nil_l in H. subst w. rewrite all_chars_app in Hw. apply andb_true_iff in Hw as [_ Hw].
    destruct z as [|x z]; [done|]. simpl in *. by destruct (value_char x).
Qed.

Lemma lower_app a b : lower (a +:+ b) = lower a +:+ lower b.
Proof. induction a as [|c a IH]; [done|]. rewrite !str_app_cons. simpl. by rewrite IH. Qed.

Lemma accepts_two_words a b y :
  accepts (two_words a b) y → ∃ sep, sep ∈ [""; "-"; "_"] ∧ lower y = lower (a +:+ sep +:+ b).
Proof.
  intros (y1 & y2 & -> & Ha%accepts_keyword & m & y3 & -> & Hm & Hb%accepts_keyword).
  assert (Hsep : lower m = m ∧ m ∈ [""; "-"; "_"]).
  { destruct Hm as [->|(c & Hc & ->)]; [by split; [|left]|].
    assert (Hc' : c = "-"%char ∨ c = "_"%char)
      by (revert Hc; destruct c as [[] [] [] [] [] [] [] []]; try done; auto).
    destruct Hc' as [-> | ->]; (split; [done|]); [right; left|right; right; left]. }
  destruct Hsep as [Hl Hsep]. exists m. split; [done|]. rewrite !lower_app, Ha, Hb. done.
Qed.

(** Group 1 describes the words of [sensitive_words]. *)
Lemma sensitive_word_spec y : accepts sensitive_word y ↔ is_sensitive y = true.
Proof.
  split.
  - intros H. unfold is_sensitive.
    destruct H as [H|[H|[H|[H|[H|[H|H]]]]]];
      first [apply accepts_two_words in H as (m & Hm & E); rewrite E;
             repeat (apply elem_of_cons in Hm as [->|Hm]); [reflexivity..|by apply not_elem_of_nil in Hm]
            |apply accepts_keyword in H; rewrite H; reflexivity].
  - intros Hw. assert (H := word_found (λ rest, if str_empty rest then Some tt else None) y "" Hw).
    apply matches_sound in H as (z & rest & Hy & Hz & Hr). rewrite str_app_nil_r in Hy.
    destruct rest; [|done]. rewrite str_app_nil_r in Hy. by subst.
Qed.

Lemma assignment_shrinks s t rest :
  sensitive_assignment s = Some (t, rest) → (String.length rest < String.length s)%nat.
Proof.
  unfold sensitive_assignment. intros H.
  apply matches_sound in H as (y & r & -> & Hy & H). apply matches_sound in H as (z & r' & -> & _ & H). simplify_eq.
  apply sensitive_word_spec in Hy. destruct y as [|c y]; [done|]. rewrite !str_length_app. simpl. lia.
Qed.

Lemma sub_fuel_hit n find s t rest :
  s ≠ "" → find s = Some (t, rest) → sub_fuel (S n) find s = t +:+ sub_fuel n find rest.
Proof. intros Hs H. destruct s; [done|]. cbn [sub_fuel]. by rewrite H. Qed.

Lemma sub_fuel_miss n find c s :
  find (String c s) = None → sub_fuel (S n) find (String c s) = String c (sub_fuel n find s).
Proof. intros H. cbn [sub_fuel]. by rewrite H. Qed.

(** The fuel does not matter once it is as long as the text. *)
Lemma sub_fuel_enough n m s :
  (String.length s ≤ n)%nat → (String.length s ≤ m)%nat →
  sub_fuel n sensitive_assignment s = sub_fuel m sensitive_assignment s.
Proof.
  revert m s. induction n as [|n IH]; intros [|m] [|c s] Hn Hm; simpl in Hn, Hm; try lia; try done.
  destruct (sensitive_assignment (String c s)) as [[t rest]|] eqn:E.
  - assert (Hr := assignment_shrinks _ _ _ E). simpl in Hr.
    assert (Hs : String c s ≠ "") by done. rewrite !(sub_fuel_hit _ _ _ _ _ Hs E). f_equal. apply IH; lia.
  - rewrite !sub_fuel_miss by done. f_equal. apply IH; lia.
Qed.

Lemma sub_hides n m a w e v1 v2 b :
  is_sensitive w = true → one_of ":=" e = true → is_value v1 = true → is_value v2 = true → delimited b = true →
  (String.length ((a +:+ w) +:+ String e (v1 +:+ b)) ≤ n)%nat →
  (String.length ((a +:+ w) +:+ String e (v2 +:+ b)) ≤ m)%nat →
  sub_fuel n sensitive_assignment ((a +:+ w) +:+ String e (v1 +:+ b)) =
  sub_fuel m sensitive_assignment ((a +:+ w) +:+ String e (v2 +:+ b)).
Proof.
  intros Hw He Hv1 Hv2 Hb. revert m a. induction n as [|n IH]; intros m a Hn Hm.
  { rewrite !str_length_app in Hn. simpl in Hn. lia. }
  destruct m as [|m]; [rewrite !str_length_app in Hm; simpl in Hm; lia|].
  assert (Hsame := assignment_same e v1 v2 b He Hv1 Hv2 Hb (a +:+ w)).
  assert (Hne : ∀ c t, a +:+ w +:+ String c t ≠ "").
  { intros c t E. apply (f_equal String.length) in E. rewrite !str_length_app in E. simpl in E. lia. }
  rewrite !str_app_assoc in *.
  destruct (sensitive_assignment (a +:+ w +:+ String e (v1 +:+ b))) as [[t r1]|] eqn:E1.
  - inversion Hsame as [|? Ht E2|? y z HX Hz Hd Ht E2]; subst; symmetry in E2;
      rewrite (sub_fuel_hit n _ _ _ _ (Hne _ _) E1), (sub_fuel_hit m _ _ _ _ (Hne _ _) E2); f_equal;
      apply assignment_shrinks in E1, E2.
    + apply sub_fuel_enough; lia.
    + apply (part_of_word w) in HX as [a' ->]; [|by apply sensitive_value|done..].
      apply IH; lia.
  - inversion Hsame as [E2| |]; subst. symmetry in E2.
    destruct a as [|c a].
    { rewrite str_app_nil_l, assignment_found in E1 by done. done. }
    rewrite !str_app_cons in *. rewrite !sub_fuel_miss by done. f_equal.
    rewrite <-!(str_app_assoc a w). simpl in Hn, Hm. apply IH; rewrite str_app_assoc; lia.
Qed.

(** ** Assignments with spaces, quotes and [Bearer]

    [separated bearer p]: [p] is what may stand between the word and its value:
    a quote, spaces, [:] or [=], spaces, a quote, and, if [bearer] holds, the
    word [Bearer] and at least one space.  A value without [Bearer] before it
    is not that word itself. *)

Definition maybe_quote (q : string) : Prop := q = "" ∨ ∃ c, one_of quotes c = true ∧ q = String c "".
Definition spaces (s : string) : Prop := all_chars is_space s = true.
Definition scheme (bearer : bool) (y : string) : Prop :=
  if bearer then ∃ k s, y = k +:+ s ∧ lower k = "bearer" ∧ s ≠ "" ∧ spaces s else y = "".

Inductive separated (bearer : bool) : string → Prop :=
| separated_intro q1 s1 e s2 q2 y :
    maybe_quote q1 → spaces s1 → one_of ":=" e = true → spaces s2 → maybe_quote q2 → scheme bearer y →
    separated bearer (q1 +:+ s1 +:+ String e (s2 +:+ q2 +:+ y)).

Definition value_after (bearer : bool) (v : string) : bool :=
  if bearer then negb (str_empty v) && all_chars value_char v else is_value v.

(** A text that is empty or begins outside [p]. *)
Definition begins_not (p : ascii → bool) (s : string) : bool :=
  match s with EmptyString => true | String c _ => negb (p c) end.

Lemma many_run {A} p (k : string → option A) y t x :
  all_chars p y = true → begins_not p t = true → k t = Some x → many p k (y +:+ t) = Some x.
Proof.
  intros Hy Ht Hk. induction y as [|c y IH].
  - rewrite str_app_nil_l. destruct t as [|c t]; [done|]. simpl in *. by destruct (p c).
  - simpl in Hy. apply andb_true_iff in Hy as [Hc Hy]. rewrite str_app_cons. simpl. by rewrite Hc, IH.
Qed.

Lemma maybe_run {A} p (k : string → option A) q t x :
  (q = "" ∨ ∃ c, p c = true ∧ q = String c "") → begins_not p t = true → k t = Some x →
  matches (Maybe (Class p)) k (q +:+ t) = Some x.
Proof.
  intros [->|(c & Hc & ->)] Ht Hk; rewrite ?str_app_cons, str_app_nil_l; simpl.
  - destruct t as [|c t]; [done|]. simpl in Ht. by destruct (p c).
  - by rewrite Hc, Hk.
Qed.

Lemma keyword_run {A} u (k : string → option A) y t :
  u ≠ "" → lower y = lower u → matches (keyword u) k (y +:+ t) = k t.
Proof.
  intros Hu. revert y. induction u as [|c u IH]; [done|]. intros [|d y] Hy; [done|].
  simpl in Hy. injection Hy as Hd Hy. rewrite str_app_cons. destruct u as [|c' u].
  - destruct y; [|done]. simpl. by rewrite Hd, bool_decide_true, str_app_nil_l.
  - change (matches (Cat (letter c) (keyword (String c' u))) k (String d (y +:+ t)) = k t).
    cbn [matches letter]. rewrite Hd, bool_decide_true by done. by apply IH.
Qed.

(** The last part of the pattern: [Bearer] and the value. *)
Definition scheme_and_value : regex :=
  Cat (Maybe (Cat (keyword "bearer") (some_of is_space))) (some_of value_char).

Lemma value_begins v b :
  v ≠ "" → all_chars value_char v = true →
  begins_not is_space (v +:+ b) = true ∧ begins_not (one_of quotes) (v +:+ b) = true.
Proof.
  destruct v as [|c v]; [done|]. rewrite str_app_cons. cbn [all_chars begins_not].
  intros _ [Hc _]%andb_true_iff. by destruct (value_char_plain c Hc) as [-> ->].
Qed.

Lemma value_after_chars bearer v : value_after bearer v = true → v ≠ "" ∧ all_chars value_char v = true.
Proof.
  unfold value_after, is_value. intros H. assert (G : negb (str_empty v) && all_chars value_char v = true).
  { destruct bearer; [done|]. by apply andb_true_iff in H as [? _]. }
  apply andb_true_iff in G as [G ?]. split; [by intros ->|done].
Qed.

Lemma scheme_and_value_at (g : string) bearer y v b :
  scheme bearer y → value_after bearer v = true → delimited b = true →
  matches scheme_and_value (λ rest, Some (g, rest)) (y +:+ v +:+ b) = Some (g, b).
Proof.
  intros Hy Hv Hb. destruct (value_after_chars _ _ Hv) as [Hne Hc]. destruct bearer; simpl in Hy.
  - destruct Hy as (k & s & -> & Hk & Hs & Hsp). unfold scheme_and_value.
    destruct s as [|d s]; [done|]. unfold spaces in Hsp. simpl in Hsp. apply andb_true_iff in Hsp as [Hd Hsp].
    destruct v as [|c v]; [done|]. destruct (value_begins (String c v) b Hne Hc) as [Hb1 _].
    simpl in Hc. apply andb_true_iff in Hc as [Hc Hv'].
    change (either (matches (Cat (keyword "bearer") (some_of is_space))
      (matches (some_of value_char) (λ rest, Some (g, rest))) ((k +:+ String d s) +:+ String c v +:+ b))
      (matches (some_of value_char) (λ rest, Some (g, rest)) ((k +:+ String d s) +:+ String c v +:+ b)) = Some (g, b)).
    assert (E : matches (Cat (keyword "bearer") (some_of is_space))
      (matches (some_of value_char) (λ rest, Some (g, rest))) ((k +:+ String d s) +:+ String c v +:+ b) = Some (g, b)).
    { rewrite str_app_assoc. cbn [matches]. rewrite keyword_run by done. rewrite str_app_cons. cbn [matches some_of].
      rewrite Hd. apply many_run; [done|exact Hb1|].
      rewrite str_app_cons. cbn [matches]. rewrite Hc, many_value, drop_value_run; done. }
    by rewrite E.
  - subst y. rewrite str_app_nil_l. assert (E := value_part_at g v b Hv Hb).
    destruct (value_begins v b Hne Hc) as [Hb1 Hb2]. destruct v as [|c v]; [done|].
    rewrite str_app_cons in *. simpl in Hb1, Hb2. apply negb_true_iff in Hb1, Hb2.
    unfold value_part in E. cbn [matches many] in E. by rewrite Hb1, Hb2 in E.
Qed.

Lemma scheme_begins bearer y v b :
  scheme bearer y → value_after bearer v = true →
  begins_not is_space (y +:+ v +:+ b) = true ∧ begins_not (one_of quotes) (y +:+ v +:+ b) = true.
Proof.
  intros Hy Hv. destruct (value_after_chars _ _ Hv) as [Hne Hc]. destruct bearer; simpl in Hy.
  - destruct Hy as (k & s & -> & Hk & _). rewrite str_app_assoc. apply value_begins; [by intros ->|].
    by eapply spelled_value.
  - subst y. rewrite str_app_nil_l. by apply value_begins.
Qed.

Lemma quote_begins (q t : string) (p : ascii → bool) :
  maybe_quote q → (∀ c, one_of quotes c = true → p c = false) → begins_not p t = true →
  begins_not p (q +:+ t) = true.
Proof.
  intros [->|(c & Hc & ->)] Hp Ht; [by rewrite str_app_nil_l|]. rewrite str_app_cons. cbn [begins_not]. by rewrite Hp.
Qed.

Lemma spaces_begin (s t : string) (p : ascii → bool) :
  spaces s → (∀ c, is_space c = true → p c = false) → begins_not p t = true → begins_not p (s +:+ t) = true.
Proof.
  unfold spaces. destruct s as [|c s]; [by rewrite str_app_nil_l|]. rewrite str_app_cons.
  cbn [all_chars begins_not]. intros [Hc _]%andb_true_iff Hp Ht. by rewrite Hp.
Qed.

Lemma plain_classes c :
  (one_of quotes c = true → is_space c = false) ∧ (is_space c = true → one_of quotes c = false).
Proof. by destruct c as [[] [] [] [] [] [] [] []]. Qed.

Lemma separator_plain e : one_of ":=" e = true → is_space e = false ∧ one_of quotes e = false.
Proof. intros He. by destruct (separator_is e He) as [-> | ->]. Qed.

Lemma separated_at (g : string) bearer p v b :
  separated bearer p → value_after bearer v = true → delimited b = true →
  matches assigned_value (λ rest, Some (g, rest)) (p +:+ v +:+ b) = Some (g, b).
Proof.
  intros [q1 s1 e s2 q2 y Hq1 Hs1 He Hs2 Hq2 Hy] Hv Hb.
  destruct (scheme_begins bearer y v b Hy Hv) as [Hb1 Hb2]. destruct (separator_plain e He) as [Esp Eq].
  assert (Hq : ∀ c, one_of quotes c = true → is_space c = false) by (intros c; apply plain_classes).
  assert (Hsq : ∀ c, is_space c = true → one_of quotes c = false) by (intros c; apply plain_classes).
  rewrite !str_app_assoc, str_app_cons, !str_app_assoc.
  change assigned_value with (Cat (Maybe (Class (one_of quotes))) (Cat (Many is_space)
    (Cat (Class (one_of ":=")) (Cat (Many is_space) (Cat (Maybe (Class (one_of quotes))) scheme_and_value))))).
  cbn [matches]. apply maybe_run; [done|apply spaces_begin; simpl; rewrite ?Eq; done|].
  apply many_run; [done|simpl; by rewrite Esp|]. rewrite He.
  apply many_run; [done|by apply quote_begins|].
  apply maybe_run; [done|done|]. by eapply scheme_and_value_at.
Qed.

Lemma separated_found w bearer p v b :
  is_sensitive w = true → separated bearer p → value_after bearer v = true → delimited b = true →
  sensitive_assignment (w +:+ p +:+ v +:+ b) = Some (w +:+ "=[REDACTED]", b).
Proof.
  intros Hw Hp Hv Hb. unfold sensitive_assignment. rewrite (word_found _ _ _ Hw), group_text_app.
  by apply (separated_at _ bearer).
Qed.

(** Where no sensitive word begins before [w], the first match is that of [w]. *)
Definition starts_word (s : string) : bool := existsb (λ u, String.prefix u (lower s)) sensitive_words.
Fixpoint word_before (a w : string) : bool :=
  match a with
  | EmptyString => false
  | String _ a' => starts_word (a +:+ w) || word_before a' w
  end.

(** The characters of the sensitive words. *)
Definition word_char (c : ascii) : bool :=
  let n := code (lower_char c) in ((97 <=? n) && (n <=? 122))%N || one_of "-_" c.

Lemma sensitive_chars w : is_sensitive w = true → all_chars word_char w = true.
Proof.
  intros Hw%bool_decide_eq_true. unfold sensitive_words in Hw.
  assert (G : ∀ u w, lower w = u → all_chars (λ d, word_char d && bool_decide (lower_char d = d)) u = true →
                all_chars word_char w = true).
  { clear. intros u w <-. induction w as [|c w IH]; [done|]. simpl. intros [Hc Hw]%andb_true_iff.
    rewrite IH by done. rewrite andb_true_r.
    revert Hc. by destruct c as [[] [] [] [] [] [] [] []]. }
  repeat (apply elem_of_cons in Hw as [Hw|Hw]); [..|by apply not_elem_of_nil in Hw];
    (eapply G; [exact Hw|reflexivity]).
Qed.

Lemma prefix_app u t : String.prefix u (u +:+ t) = true.
Proof.
  induction u as [|c u IH]; [by destruct t|]. rewrite str_app_cons. simpl.
  by destruct (ascii_dec c c).
Qed.

(** A text of [p] characters that begins [x q], where [q] does not go on with
    one, begins [x]. *)
Lemma run_within (p : ascii → bool) y rest x q :
  y +:+ rest = x +:+ q → all_chars p y = true → begins_not p q = true → q ≠ "" → ∃ t, x = y +:+ t.
Proof.
  revert y. induction x as [|c x IH]; intros y H Hy Hq Hne.
  - rewrite str_app_nil_l in H. subst q. destruct y as [|c y]; [by exists ""|].
    rewrite str_app_cons in Hq. simpl in *. by destruct (p c).
  - destruct y as [|d y]; [by eexists|]. rewrite !str_app_cons in H. injection H as -> H.
    simpl in Hy. apply andb_true_iff in Hy as [_ Hy]. destruct (IH y H Hy Hq Hne) as [t ->]. by exists t.
Qed.

Lemma no_word_here s q :
  starts_word s = false → begins_not word_char q = true → q ≠ "" → sensitive_assignment (s +:+ q) = None.
Proof.
  intros Hs Hq Hne. destruct (sensitive_assignment _) as [x|] eqn:E; [exfalso|done].
  unfold sensitive_assignment in E. apply matches_sound in E as (y & rest & E & Hy & _).
  apply sensitive_word_spec in Hy. symmetry in E.
  destruct (run_within word_char y rest s q E (sensitive_chars _ Hy) Hq Hne) as [t ->].
  unfold starts_word in Hs. apply not_true_iff_false in Hs. apply Hs, existsb_exists.
  exists (lower y). apply bool_decide_eq_true in Hy. split; [by apply list_elem_of_In|].
  rewrite lower_app. apply prefix_app.
Qed.

Lemma separated_begins bearer p t : separated bearer p → begins_not word_char (p +:+ t) = true ∧ p +:+ t ≠ "".
Proof.
  intros [q1 s1 e s2 q2 y Hq1 Hs1 He Hs2 Hq2 Hy].
  assert (Hc : ∀ c, (one_of quotes c || is_space c || one_of ":=" c) = true → word_char c = false)
    by (by intros [[] [] [] [] [] [] [] []]).
  rewrite !str_app_assoc, str_app_cons. split.
  - apply quote_begins; [done|intros c Hq; apply Hc; by rewrite Hq|].
    apply spaces_begin; [done|intros c Hs; apply Hc; by rewrite Hs, orb_true_r|].
    simpl. rewrite Hc; [done|]. by rewrite He, !orb_true_r.
  - intros E%(f_equal String.length). rewrite !str_length_app in E. simpl in E. lia.
Qed.

Lemma sub_reaches n m a w bearer p v1 v2 b :
  word_before a w = false → is_sensitive w = true → separated bearer p →
  value_after bearer v1 = true → value_after bearer v2 = true → delimited b = true →
  (String.length (a +:+ w +:+ p +:+ v1 +:+ b) ≤ n)%nat → (String.length (a +:+ w +:+ p +:+ v2 +:+ b) ≤ m)%nat →
  sub_fuel n sensitive_assignment (a +:+ w +:+ p +:+ v1 +:+ b) =
  sub_fuel m sensitive_assignment (a +:+ w +:+ p +:+ v2 +:+ b).
Proof.
  intros Ha Hw Hp H1 H2 Hb. revert n m. induction a as [|c a IH]; intros n m Hn Hm.
  - rewrite !str_app_nil_l in *.
    assert (E1 := separated_found w bearer p v1 b Hw Hp H1 Hb).
    assert (E2 := separated_found w bearer p v2 b Hw Hp H2 Hb).
    assert (Hne : ∀ v, w +:+ p +:+ v +:+ b ≠ "").
    { intros v E%(f_equal String.length). rewrite str_length_app in E.
      destruct (separated_begins bearer p (v +:+ b) Hp) as [_ Hx]. destruct (p +:+ v +:+ b); [done|]. simpl in E. lia. }
    assert (S1 := assignment_shrinks _ _ _ E1). assert (S2 := assignment_shrinks _ _ _ E2).
    destruct n as [|n]; [lia|]. destruct m as [|m]; [lia|].
    rewrite (sub_fuel_hit n _ _ _ _ (Hne v1) E1), (sub_fuel_hit m _ _ _ _ (Hne v2) E2). f_equal.
    apply sub_fuel_enough; lia.
  - rewrite !str_app_cons in *. simpl in Hn, Hm. destruct n as [|n]; [lia|]. destruct m as [|m]; [lia|].
    cbn [word_before] in Ha. apply orb_false_iff in Ha as [Hs Ha].
    assert (Hmiss : ∀ v, sensitive_assignment (String c (a +:+ w +:+ p +:+ v +:+ b)) = None).
    { intros v. destruct (separated_begins bearer p (v +:+ b) Hp) as [Hx Hy].
      rewrite <-(no_word_here (String c a +:+ w) (p +:+ v +:+ b) Hs Hx Hy). by rewrite str_app_assoc, str_app_cons. }
    rewrite !sub_fuel_miss by apply Hmiss. f_equal. apply (IH Ha); lia.
Qed.

(** A comma or a semicolon ends every match. *)
Section Comma.
Context (c : ascii) (t1 t2 : string).
Context (Hc : one_of ",;" c = true).

Inductive same_before : option (string * string) → option (string * string) → Prop :=
| both_none : same_before None None
| both_some t z : same_before (Some (t, z +:+ String c t1)) (Some (t, z +:+ String c t2)).

Lemma same_before_both o1 o2 : same_before o1 o2 → o1 = None ↔ o2 = None.
Proof. by destruct 1. Qed.

Lemma comma_is : c = ","%char ∨ c = ";"%char.
Proof. revert Hc. destruct c as [[] [] [] [] [] [] [] []]; try done; auto. Qed.

Lemma assignment_before x :
  same_before (sensitive_assignment (x +:+ String c t1)) (sensitive_assignment (x +:+ String c t2)).
Proof.
  unfold sensitive_assignment.
  apply (agree_here same_before), (matches_agree same_before c t1 t2);
    [constructor|apply same_before_both|by destruct comma_is as [-> | ->]|].
  intros y z ->. rewrite !str_app_assoc, !group_text_app.
  apply (agree_here same_before), (matches_agree same_before c t1 t2);
    [constructor|apply same_before_both|by destruct comma_is as [-> | ->]|].
  intros y' z' ->. constructor.
Qed.

Context (Htails : ∀ n m, (String.length t1 ≤ n)%nat → (String.length t2 ≤ m)%nat →
  sub_fuel n sensitive_assignment t1 = sub_fuel m sensitive_assignment t2).

Lemma sub_before n m x :
  (String.length (x +:+ String c t1) ≤ n)%nat → (String.length (x +:+ String c t2) ≤ m)%nat →
  sub_fuel n sensitive_assignment (x +:+ String c t1) = sub_fuel m sensitive_assignment (x +:+ String c t2).
Proof.
  revert m x. induction n as [|n IH]; intros m x Hn Hm.
  { rewrite str_length_app in Hn. simpl in Hn. lia. }
  destruct m as [|m]; [rewrite str_length_app in Hm; simpl in Hm; lia|].
  assert (Hne : ∀ t, x +:+ String c t ≠ "").
  { intros t E%(f_equal String.length). rewrite str_length_app in E. simpl in E. lia. }
  assert (Hs := assignment_before x).
  destruct (sensitive_assignment (x +:+ String c t1)) as [[t r1]|] eqn:E1.
  - inversion Hs as [|? z Ht E2]; subst. symmetry in E2.
    rewrite (sub_fuel_hit n _ _ _ _ (Hne _) E1), (sub_fuel_hit m _ _ _ _ (Hne _) E2). f_equal.
    apply assignment_shrinks in E1, E2. apply IH; lia.
  - assert (E2 := proj1 (same_before_both _ _ Hs) eq_refl). destruct x as [|d x].
    + rewrite !str_app_nil_l in *. rewrite !sub_fuel_miss by done. f_equal. simpl in Hn, Hm. apply Htails; lia.
    + rewrite !str_app_cons in *. rewrite !sub_fuel_miss by done. f_equal. simpl in Hn, Hm. apply IH; lia.
Qed.
End Comma.

(** ** What a record shows *)

(** Two texts that differ in the value of one sensitive word.  The value is the
    run of characters up to the next space, comma, semicolon or quote.
    [:] or [=] stands right between the word and the value, anywhere in the
    text; or the word and the value are [separated], and no sensitive word
    begins before it in the text, or after the last comma or semicolon. *)
Inductive hidden_value : string → string → Prop :=
| hidden_value_intro a w e v1 v2 b :
    is_sensitive w = true → one_of ":=" e = true → is_value v1 = true → is_value v2 = true →
    delimited b = true →
    hidden_value (a +:+ w +:+ String e (v1 +:+ b)) (a +:+ w +:+ String e (v2 +:+ b))
| hidden_separated a w bearer p v1 v2 b :
    word_before a w = false → is_sensitive w = true → separated bearer p →
    value_after bearer v1 = true → value_after bearer v2 = true → delimited b = true →
    hidden_value (a +:+ w +:+ p +:+ v1 +:+ b) (a +:+ w +:+ p +:+ v2 +:+ b)
| hidden_after_comma x c a w bearer p v1 v2 b :
    one_of ",;" c = true →
    word_before a w = false → is_sensitive w = true → separated bearer p →
    value_after bearer v1 = true → value_after bearer v2 = true → delimited b = true →
    hidden_value (x +:+ String c (a +:+ w +:+ p +:+ v1 +:+ b)) (x +:+ String c (a +:+ w +:+ p +:+ v2 +:+ b)).

(** Any number of such differences. *)
Definition alike : relation string := rtc hidden_value.

Lemma redact_text_hides s1 s2 : alike s1 s2 → redact_text s1 = redact_text s2.
Proof.
  unfold redact_text. induction 1 as [|s1 s2 s3 H _ IH]; [done|].
  rewrite <-IH. f_equal. unfold sub.
  destruct H as [a w e v1 v2 b Hw He H1 H2 Hb|a w bearer p v1 v2 b Ha Hw Hp H1 H2 Hb
                |x c a w bearer p v1 v2 b Hc Ha Hw Hp H1 H2 Hb].
  - rewrite <-!(str_app_assoc a w). by apply sub_hides.
  - by apply (sub_reaches _ _ _ _ bearer).
  - apply sub_before; [done| |lia|lia]. intros. by apply (sub_reaches _ _ _ _ bearer).
Qed.

(** Attributes and records that differ in such values only; the text of an
    exception may be any. *)
Inductive alike_attribute : attribute → attribute → Prop :=
| alike_same a : alike_attribute a a
| alike_text s1 s2 : alike s1 s2 → alike_attribute (AText s1) (AText s2).

Inductive alike_exception : exc_info → exc_info → Prop :=
| alike_exception_intro type x1 x2 frames :
    alike_exception (mkExcInfo type x1 frames) (mkExcInfo type x2 frames).

Record alike_record (r1 r2 : log_record) : Prop := mkAlike {
  al_created : lr_created r1 = lr_created r2;
  al_level : lr_level r1 = lr_level r2;
  al_logger : lr_logger r1 = lr_logger r2;
  al_message : alike (lr_message r1) (lr_message r2);
  al_event : option_Forall2 alike_attribute (lr_event r1) (lr_event r2);
  al_extras : Forall2 (λ kv1 kv2, kv1.1 = kv2.1 ∧ alike_attribute kv1.2 kv2.2) (lr_extras r1) (lr_extras r2);
  al_exc_info : option_Forall2 alike_exception (lr_exc_info r1) (lr_exc_info r2) }.

Lemma normalize_value_alike a1 a2 : alike_attribute a1 a2 → normalize_value a1 = normalize_value a2.
Proof. destruct 1 as [|s1 s2 H]; [done|]. simpl. by rewrite (redact_text_hides s1 s2). Qed.

Lemma normalize_event_alike s1 s2 : alike s1 s2 → normalize_event s1 = normalize_event s2.
Proof. intros H. unfold normalize_event. by rewrite (redact_text_hides s1 s2). Qed.

Lemma event_alike r1 r2 : alike_record r1 r2 →
  alike (match lr_event r1 with Some a => str_attribute a | None => lr_message r1 end)
        (match lr_event r2 with Some a => str_attribute a | None => lr_message r2 end).
Proof. intros []. destruct al_event0 as [a1 a2 [|]|]; done. Qed.

Lemma extras_alike r1 r2 : alike_record r1 r2 → recorded_extras r1 = recorded_extras r2.
Proof.
  intros []. unfold recorded_extras. apply list_omap_ext, Forall_Forall2_diag, Forall_true. intros key.
  assert (H : option_Forall2 alike_attribute (dget key (lr_extras r1)) (dget key (lr_extras r2))).
  { induction al_extras0 as [|[k1 a1] [k2 a2] d1 d2 [Hk Ha] _ IH]; [constructor|].
    simpl in *. subst k2. by case_match; [constructor|]. }
  destruct H as [a1 a2 Ha|]; [|done]. assert (Hn := normalize_value_alike _ _ Ha).
  by destruct Ha as [|]; [|rewrite Hn].
Qed.

(** C38: The value assigned to a sensitive word reaches no log line.  Two records
    that differ only in such values - in the message, in the event or in an
    extra attribute, any number of them - and in the text of their exceptions
    are printed alike by both formatters.  The value is the run of characters
    up to the next space, comma, semicolon or quotation mark.  It is assigned
    with [:] or [=] and no space, wherever the word stands; or with quotation
    marks and spaces around the sign and the word [Bearer] before the value,
    if no other sensitive word stands before it, or before it and after the
    last comma or semicolon.  What follows any other scheme, such as [Basic],
    and the value of a word that is itself a value are not covered. *)
Theorem secrets_do_not_reach_logs service environment v r1 r2 :
  alike_record r1 r2 →
  json_format service environment v r1 = json_format service environment v r2 ∧
  console_format service environment v r1 = console_format service environment v r2.
Proof.
  intros H. assert (E : structured_record service environment v r1 = structured_record service environment v r2).
  { unfold structured_record. rewrite (normalize_event_alike _ _ (event_alike r1 r2 H)), (extras_alike r1 r2 H).
    destruct H. rewrite al_created0, al_level0, al_logger0. by destruct al_exc_info0 as [? ? []|]. }
  unfold json_format, console_format. by rewrite E.
Qed.

(** ** The shape of a record *)

(** The keys a record can have, in their order. *)
Definition record_keys : list string :=
  ["timestamp"; "level"; "service"; "environment"; "logger"; "event"]
  ++ ["request_id"; "trace_id"; "tenant_id"; "protocol_era"; "tool_id"; "tool_version_id"]
  ++ extra_fields ++ ["exception"].

(** Neither the line feed nor the carriage return. *)
Definition line_char (c : ascii) : bool := negb ((code c =? 10) || (code c =? 13))%N.

(** A text a log line may hold: short, on one line, without the password of a
    URL. *)
Definition safe_text (s : string) : Prop :=
  (String.length s ≤ max_field_length)%nat ∧
  all_chars line_char s = true ∧
  ¬ holds_url_password s.

Lemma replace_char_app x y s t : replace_char x y (s +:+ t) = replace_char x y s +:+ replace_char x y t.
Proof. induction s as [|c s IH]; [done|]. rewrite !str_app_cons. simpl. by rewrite IH. Qed.

(** Both characters and the space are outside the classes of the pattern. *)
Lemma replace_char_url x s :
  is_space x = true → holds_url_password (replace_char x " " s) → holds_url_password s.
Proof.
  intros Hx (a & u & p & b & E & Hu1 & Hu2 & Hp1 & Hp2).
  assert (Hcut : ∀ s l r, replace_char x " " s = l +:+ r → ∃ l' r', s = l' +:+ r' ∧
            replace_char x " " l' = l ∧ replace_char x " " r' = r).
  { clear. intros s l. revert s. induction l as [|c l IH]; intros s r H; [by exists "", s|].
    destruct s as [|d s]; [done|]. rewrite str_app_cons in H. simpl in H. injection H as Hc H.
    apply IH in H as (l' & r' & -> & <- & <-). exists (String d l'), r'. simpl. by rewrite Hc. }
  assert (Hsame : ∀ (P : ascii → bool) l l',
            P " "%char = false → replace_char x " " l' = l → all_chars P l = true → l' = l).
  { clear. intros P l l' HP <-. induction l' as [|c l' IH]; [done|]. simpl. intros [Hc Hl]%andb_true_iff.
    rewrite <-IH by done. destruct (bool_decide (c = x)) eqn:Hd; [congruence|done]. }
  apply Hcut in E as (a' & s1 & -> & _ & E). apply Hcut in E as (m & s2 & -> & Em & E).
  apply Hcut in E as (u' & s3 & -> & Eu & E). apply Hcut in E as (c1 & s4 & -> & Ec & E).
  apply Hcut in E as (p' & s5 & -> & Ep & E). apply Hcut in E as (c2 & b' & -> & Ed & E).
  exists a', u, p, b'. split; [|done].
  rewrite (Hsame (one_of ":/") "://" m), (Hsame user_char u u'), (Hsame (one_of ":") ":" c1),
    (Hsame password_char p p'), (Hsame (one_of "@") "@" c2); done.
Qed.

Lemma prefix_url s t : holds_url_password s → holds_url_password (s +:+ t).
Proof. intros (a & u & p & b & -> & H). exists a, u, p, (b +:+ t). by rewrite !str_app_assoc. Qed.

Lemma substring_prefix n s : ∃ t, s = String.substring 0 n s +:+ t.
Proof.
  revert s. induction n as [|n IH]; intros [|c s]; [by exists ""|by exists (String c s)|by exists ""|].
  destruct (IH s) as [t Ht]. exists t. simpl. rewrite str_app_cons. by rewrite <-Ht.
Qed.

Lemma substring_short n s : (String.length (String.substring 0 n s) ≤ n)%nat.
Proof. revert s. induction n as [|n IH]; intros [|c s]; simpl; [lia..|]. specialize (IH s). lia. Qed.

Lemma one_line_chars s :
  all_chars line_char (one_line s) = true.
Proof.
  unfold one_line. induction s as [|c s IH]; [done|].
  cbn [replace_char all_chars]. rewrite IH, andb_true_r. by destruct c as [[] [] [] [] [] [] [] []].
Qed.

Lemma normalize_text_safe s t : normalize_value (AText s) = JStr t → safe_text t.
Proof.
  intros [= <-]. split; [apply substring_short|]. split; [apply substring_chars, one_line_chars|].
  intros H. destruct (substring_prefix max_field_length (one_line (redact_text s))) as [t Ht].
  apply (prefix_url _ t) in H. rewrite <-Ht in H. unfold one_line in H.
  do 2 (apply replace_char_url in H; [|done]). by apply redact_text_clean in H.
Qed.

Lemma normalize_event_is s : is_event (normalize_event s) = true.
Proof. unfold normalize_event. by destruct (is_event (strip _)) eqn:E. Qed.

Lemma omap_keys {A B} (f : string * A → option (string * B)) (l : dict A) :
  (∀ kv kv', f kv = Some kv' → kv'.1 = kv.1) → map fst (omap f l) `sublist_of` map fst l.
Proof.
  intros Hf. induction l as [|kv l IH]; [constructor|]. cbn. destruct (f kv) as [kv'|] eqn:E; simpl.
  - rewrite (Hf kv kv' E). by constructor.
  - by constructor.
Qed.

Lemma recorded_extras_keys r : map fst (recorded_extras r) `sublist_of` extra_fields.
Proof.
  unfold recorded_extras. induction extra_fields as [|key keys IH]; [constructor|]. cbn.
  destruct (dget key (lr_extras r)) as [[]|]; simpl; constructor; exact IH.
Qed.

Lemma context_keys c : map fst (context_fields c) `sublist_of`
  ["request_id"; "trace_id"; "tenant_id"; "protocol_era"; "tool_id"; "tool_version_id"].
Proof.
  unfold context_fields. etrans; [apply omap_keys|done].
  intros [k [x|]] kv'; simpl; [by intros [= <-]|done].
Qed.

Lemma recorded_extras_value r key j : (key, j) ∈ recorded_extras r → ∃ a, j = normalize_value a.
Proof.
  unfold recorded_extras. intros (k & _ & H)%list_elem_of_omap.
  destruct (dget k (lr_extras r)) as [[]|]; simplify_eq; eauto.
Qed.

(** A record has only the fields of [record_keys], in their order; its event
    is a word of the event alphabet, and the texts of its context and of its
    extra attributes are safe. *)
Lemma structured_record_shape service environment v r :
  map fst (structured_record service environment v r) `sublist_of` record_keys ∧
  (∃ event, ("event", JStr event) ∈ structured_record service environment v r ∧ is_event event = true) ∧
  ∀ key text, (key, JStr text) ∈ structured_record service environment v r →
    key ∈ ["timestamp"; "level"; "service"; "environment"; "logger"; "event"] ∨ safe_text text.
Proof.
  unfold structured_record. repeat split.
  - rewrite !map_app. apply sublist_app; [done|]. apply sublist_app.
    + rewrite map_map. apply context_keys.
    + apply sublist_app; [apply recorded_extras_keys|]. destruct (lr_exc_info r); simpl; [done|apply sublist_nil_l].
  - eexists. split; [|apply normalize_event_is]. apply elem_of_app. left. do 5 right. left.
  - intros key text. rewrite !elem_of_app. intros [H|[H|[H|H]]].
    + left. apply (list_elem_of_fmap_2 fst) in H. exact H.
    + right. apply list_elem_of_fmap in H as ([k x] & E & _).
      apply pair_eq in E as [_ E]. by apply (normalize_text_safe x).
    + right. apply recorded_extras_value in H as [[| | | |s] E]; try done. by apply (normalize_text_safe s).
    + destruct (lr_exc_info r); [|by apply not_elem_of_nil in H].
      apply list_elem_of_singleton in H. done.
Qed.

(** ** One record, one line *)

(** No control character. *)
Definition printable (c : ascii) : bool := (32 <=? code c)%N.

Lemma escape_printable s : all_chars printable (escape s) = true.
Proof.
  induction s as [|c s IH]; [done|]. cbn [escape]. rewrite all_chars_app, IH, andb_true_r.
  by destruct c as [[] [] [] [] [] [] [] []].
Qed.

Lemma quoted_printable s : all_chars printable (quoted s) = true.
Proof. unfold quoted. by rewrite !all_chars_app, escape_printable. Qed.

Lemma pretty_go_printable n s : all_chars printable s = true → all_chars printable (pretty_N_go n s) = true.
Proof.
  revert s. induction (N.lt_wf_0 n) as [n _ IH]. intros s Hs.
  destruct (decide (n = 0)%N) as [->|Hn]; [by rewrite pretty_N_go_0|].
  rewrite pretty_N_go_step by lia. apply IH; [by apply N.div_lt; lia|]. simpl. rewrite Hs, andb_true_r.
  unfold pretty_N_char. by repeat case_match.
Qed.

Lemma pretty_printable (z : Z) : all_chars printable (pretty z) = true.
Proof.
  assert (HN : ∀ n : N, all_chars printable (pretty n) = true).
  { intros n. unfold pretty, pretty_N. case_decide; [done|by apply pretty_go_printable]. }
  unfold pretty, pretty_Z. destruct z; [done|apply HN|rewrite all_chars_app; apply (HN (Npos p))].
Qed.

Lemma str_join_printable l :
  Forall (λ s, all_chars printable s = true) l → all_chars printable (str_join "," l) = true.
Proof.
  induction 1 as [|s l Hs Hl IH]; [done|]. destruct l as [|t l]; [done|].
  change (str_join "," (s :: t :: l)) with (s +:+ "," +:+ str_join "," (t :: l)).
  by rewrite !all_chars_app, Hs, IH.
Qed.

(** The numbers of a document are printed without control characters. *)
Fixpoint plain_floats (j : json) : bool :=
  match j with
  | JFloat x => all_chars printable x
  | JArr l => forallb plain_floats l
  | JObj d => forallb (λ kv, plain_floats kv.2) d
  | _ => true
  end.

Lemma dumps_printable j : plain_floats j = true → all_chars printable (dumps_ordered j) = true.
Proof.
  induction j as [|b|z|x|s|l IH|d IH] using json_induction; intros H; cbn [dumps_ordered].
  - done.
  - by destruct b.
  - apply pretty_printable.
  - done.
  - apply quoted_printable.
  - rewrite !all_chars_app, str_join_printable; [done|]. apply Forall_forall. intros s (j & -> & Hj)%list_elem_of_fmap.
    rewrite Forall_forall in IH. apply IH; [done|]. simpl in H. rewrite forallb_forall in H.
    by apply H, list_elem_of_In.
  - rewrite !all_chars_app, str_join_printable; [done|]. apply Forall_forall. intros s (kv & -> & Hkv)%list_elem_of_fmap.
    rewrite !all_chars_app, quoted_printable. simpl in H. rewrite forallb_forall in H.
    rewrite Forall_forall in IH. rewrite (IH kv Hkv); [done|]. by apply H, list_elem_of_In.
Qed.

Lemma safe_exception_floats e : plain_floats (safe_exception e) = true.
Proof. simpl. rewrite andb_true_r. by induction (ei_frames e) as [|f l IH]. Qed.

(** A JSON record is one line: whatever its texts are, no control character is
    printed. *)
Lemma json_line service environment v r :
  Forall (λ kv, match kv.2 with AFloat x => all_chars printable x = true | _ => True end) (lr_extras r) →
  all_chars printable (json_format service environment v r) = true.
Proof.
  intros Hf. apply dumps_printable. cbn [plain_floats]. apply forallb_forall. intros kv Hkv%list_elem_of_In.
  unfold structured_record in Hkv. rewrite !elem_of_app in Hkv. destruct Hkv as [H|[H|[H|H]]].
  - repeat (apply elem_of_cons in H as [->|H]; [done|]). by apply not_elem_of_nil in H.
  - by apply list_elem_of_fmap in H as (x & -> & _).
  - unfold recorded_extras in H. apply list_elem_of_omap in H as (k & _ & H).
    destruct (dget k (lr_extras r)) as [a|] eqn:E; [|done]. apply dget_Some_mem in E.
    rewrite Forall_forall in Hf. apply Hf in E. by destruct a; simplify_eq.
  - destruct (lr_exc_info r) as [e|]; [|by apply not_elem_of_nil in H].
    apply list_elem_of_singleton in H as ->. apply safe_exception_floats.
Qed.

(** ** The context of a block, and the configuration *)

(** Whatever the block does - it returns, raises, or binds more - the context
    after it is the context before it; inside it, the fields that are given
    replace those of the context, and the others stay. *)
Lemma bind_log_context_restores {A} updates (body : LogContext → LogM A) v :
  (bind_log_context updates body v).2 = v ∧
  (bind_log_context updates body v).1 =
    (body (merge_context (current_log_context v) updates)
       (Some (merge_context (current_log_context v) updates))).1.
Proof. unfold bind_log_context. by destruct (body _ _). Qed.

(** Blocks that nest are one block with both updates, of which the inner one wins. *)
Lemma bind_log_context_nested {A} u1 u2 (body : LogContext → LogM A) v :
  bind_log_context u1 (λ _, bind_log_context u2 body) v = bind_log_context (merge_context u1 u2) body v.
Proof.
  assert (H : ∀ c, merge_context (merge_context c u1) u2 = merge_context c (merge_context u1 u2)).
  { intros c. unfold merge_context. simpl. f_equal; by case_match. }
  unfold bind_log_context. simpl. rewrite H. by destruct (body _ _).
Qed.

(** A level is accepted in any case, and an unknown one changes nothing; one
    handler is left, however many times it is configured. *)
Lemma configure_logging_spec service environment level log_format root :
  match configure_logging service environment level log_format root with
  | Ok root' => dget (upper level) level_names = Some (rl_level root') ∧ length (rl_handlers root') = 1%nat ∧
      configure_logging service environment level log_format root' = Ok root'
  | Raise _ => upper level ∉ map fst level_names
  end.
Proof.
  unfold configure_logging. destruct (dget (upper level) level_names) eqn:E; [done|].
  intros H. by apply dget_None in E.
Qed.

(** ** Examples *)

Module LoggingExamples.

Definition login : log_record :=
  mkLogRecord (Datetime 951782400000000 true) "WARNING" "nexusmcp.http"
    "refresh_token=abc&API-Key:k1, Authorization: Bearer x.y.z" None
    [("error_code", AText "password = 'hunter2'"); ("user", AText "ann")]
    (Some (mkExcInfo (Some "ValueError") "bad password" [mkFrame "app.py" 7 "login"])).

Definition other_login : log_record :=
  mkLogRecord (Datetime 951782400000000 true) "WARNING" "nexusmcp.http"
    "refresh_token=q, Authorization: Bearer a.b" None
    [("error_code", AText "password = 'pw'"); ("user", AText "ann")]
    (Some (mkExcInfo (Some "ValueError") "bad token" [mkFrame "app.py" 7 "login"])).

Lemma bearer_separated : separated true ": Bearer ".
Proof.
  apply (separated_intro true "" "" ":"%char " " "" "Bearer "); try reflexivity; [by left|by left|].
  exists "Bearer", " ". by split_and!.
Qed.

Lemma quoted_separated : separated false " = '".
Proof.
  apply (separated_intro false "" " " "="%char " " "'" ""); try reflexivity; [by left|].
  right. by exists "'"%char.
Qed.

Lemma logins_alike : alike_record login other_login.
Proof.
  split; try done.
  - eapply rtc_l.
    + apply (hidden_value_intro "" "refresh_token" "="%char "abc&API-Key:k1" "q" ", Authorization: Bearer x.y.z");
        reflexivity.
    + apply rtc_once.
      apply (hidden_after_comma "refresh_token=q" ","%char " " "Authorization" true ": Bearer " "x.y.z" "a.b" "");
        try reflexivity. apply bearer_separated.
  - constructor.
  - simpl. repeat (apply Forall2_cons; split; [split; [done|]|]); [|constructor|by apply Forall2_nil].
    constructor. apply rtc_once.
    apply (hidden_separated "" "password" false " = '" "hunter2" "pw" "'"); try reflexivity.
    apply quoted_separated.
  - simpl. constructor. constructor.
Qed.

(** The two logins are printed alike. *)
Lemma secrets_do_not_reach_logs_witness :
  json_format "nexusmcp" "test" None login = json_format "nexusmcp" "test" None other_login ∧
  console_format "nexusmcp" "test" None login = console_format "nexusmcp" "test" None other_login.
Proof. apply (secrets_do_not_reach_logs "nexusmcp" "test" None login other_login), logins_alike. Defined.

(** The line of the first; the key of an attribute that is not listed is not
    printed. *)
Example login_line :
  console_format "nexusmcp" "test" (Some (mkLogContext (Some "req-1") None None None None None)) login =
  "2000-02-29T00:00:00+00:00 warning nexusmcp test unstructured_log_event logger=" +:+ quoted "nexusmcp.http" +:+
  " request_id=" +:+ quoted "req-1" +:+ " error_code=" +:+ quoted "password=[REDACTED]'" +:+ " exception={" +:+
  quoted "type" +:+ ":" +:+ quoted "ValueError" +:+ "," +:+ quoted "stack" +:+ ":[{" +:+ quoted "file" +:+ ":" +:+
  quoted "app.py" +:+ "," +:+ quoted "line" +:+ ":7," +:+ quoted "function" +:+ ":" +:+ quoted "login" +:+ "}]}".
Proof. vm_compute. reflexivity. Qed.

(** Only the word [bearer] is skipped before a value: of any other scheme of an
    [Authorization] header, the credentials stay. *)
Example basic_credentials_stay :
  redact_text "Authorization: Basic dXNlcjpwYXNz" = "Authorization=[REDACTED] dXNlcjpwYXNz" ∧
  redact_text "Authorization: Bearer dXNlcjpwYXNz" = "Authorization=[REDACTED]".
Proof. split; reflexivity. Qed.

(** A sensitive word that is itself a value hides the assignment after it. *)
Example assignment_in_a_value :
  redact_text "secret=password: hunter2" = "secret=[REDACTED] hunter2" ∧
  redact_text "amqp://ann:pw@mq/ secret" = "amqp://[REDACTED]@mq/ secret".
Proof. split; reflexivity. Qed.

Example unknown_level root :
  configure_logging "nexusmcp" "test" "verbose" "json" root
  = Raise (ValueError "log level must be a valid Python logging level") ∧
  configure_logging "nexusmcp" "test" "debug" "json" root
  = Ok (mkRoot [(JsonFormatter, "nexusmcp", "test")] 10 true).
Proof. done. Qed.

End LoggingExamples.
